(* ===== verification/_CoqProject ===== *)
-Q . S2P
Prelude.v
DrvModel.v
Serve.v
FlashHw.v
Flash.v
FlashCorrect.v
NorDev.v
FlashPart.v
NetParam.v
Gdma.v
RingBuffer.v
MultiButton.v
ButtonCorrect.v
Base64.v
Utf8Tables.v
Utf8.v
Utf8Correct.v
Kfifo.v
Icu.v
Regs.v
DList.v
Intc.v
Stack.v
Gpio.v
GpioCorrect.v
GpioSystem.v
GpioStack.v
Timer.v
Pwm.v
PwmCorrect.v
TimerCorrect.v
Wdg.v
Clock.v
ClockCorrect.v
ClockSystem.v
ClockInit.v
ClockBoard.v
Queue.v
Irda.v
IrdaKeys.v
IrdaSystem.v
IrdaBoard.v
UartHw.v
Uart.v
UartCorrect.v
UartSystem.v
UartBoard.v
SaradcHw.v
Saradc.v
SaradcCorrect.v
SaradcBoard.v
SaradcFrame.v
SysCtrl.v
Reentry.v
SysCtrlCorrect.v
SaradcIntf.v
SaradcObjs.v
Float.v
Volts.v
SaradcIntfCorrect.v
SaradcMeasure.v
