(* ===== verification/Prelude.v ===== *)
(** * The Beken BK7231U software development kit, verified

    The repository is the kit of a Wi-Fi microcontroller: drivers
    (src/driver), the kernel and its ports (src/os), components above them
    (src/components) and applications (src/app).  This library models code
    that Beken wrote and that keeps state other code depends on, for the
    configuration app/config/sys_config_bk7231u.h.

    ** Parts and files

    - [Prelude] (this file): machine integers as [Z] with their reduction
      ([u8], [u16], [u32]), results and faults ([res], [fault]), the state
      monad [M] with the total-correctness predicate [wp] and its rules, the
      partial one [ht], arrays with checked access ([mem_read], [mem_write]),
      little-endian words, the tactics [zlia], [bdestr], [bits], [mstep], the
      hint bases [word], and the register interface [RegBus].
    - [DrvModel]: driver/common/drv_model.c, the registry of devices.  Its
      state [drv_state] is the two tables, and the state [W] of the drivers
      behind them; an operation structure is an address, and [dev_ops] gives
      the functions there.
    - [FlashHw], [Flash], [FlashCorrect]: the SPI NOR controller as an
      interface ([FlashSpec]: documented behaviour of the opcodes, and that a
      busy flag falls within [busy_max] readings), driver/flash/flash.c function
      by function, and what it guarantees.  [sim] is a device that satisfies the
      interface.
    - [NorDev]: the class [NorDevice], what the flash driver promises through
      the registry, with rules for open, close, read, write, erase and protect;
      [flash_nor_device] discharges it with [Flash].
    - [FlashPart]: components/user_driver/BkDriverFlash.c, the partition calls,
      proved against [NorDevice].
    - [NetParam]: components/net_param_intf/net_param.c, the table of network
      parameters that the partition calls keep in flash.
    - [Gdma]: driver/general_dma/general_dma.c over [RegBus]; [GdmaRegs] is the
      register file while no transfer runs.
    - [RingBuffer]: driver/audio/ring_buffer.c, ring_buffer_dma_write.c and
      ring_buffer_dma_read.c; the last two run over the control command of
      [Gdma].
    - [MultiButton], [ButtonCorrect]: components/key/multi_button.c and the GPIO
      keys of key_main.c: a heap of linked buttons, their state machine, and the
      mutex of the list.
    - [Base64]: components/base64/base_64.c.
    - [Utf8Tables], [Utf8], [Utf8Correct]: components/utf8/conv_utf8.c, texts
      between GB 2312 and UTF-8, with the tables of its header.
    - [Kfifo]: include/fifo.h, byte queues over a power of two.
    - [DList]: include/doubly_list.h, circular lists over a heap of nodes of any
      type of addresses; [dlist] relates a heap to a list.
    - [Icu]: driver/icu/icu.c over [RegBus], with the class [IcuRegs] of what a
      client of the unit relies on.
    - [Intc]: driver/intc/intc.c, the table of interrupt routines and the
      dispatch; its list is a [DList], and it reaches [Icu] through the control
      call of [DrvModel].
    - [Serve]: the loop of the interrupt routines over the bits of a status word.
    - [Regs], [Stack]: blocks of registers with the bits that the hardware
      controls ([BlockRegs]) and runs of calls over them; the variables of
      several drivers over one bus ([Holds], [VarsApart]), under the registry and the table
      of [Intc].
    - [Gpio], [GpioCorrect], [GpioSystem]: driver/gpio/gpio.c, the inline calls of
      gpio_pub.h and components/user_driver/BkDriverGpio.c; the class [GpioRegs] of
      the unit (levels and pending bits are the hardware's, the rest software's);
      the registers alone, then the driver behind the registry and the table of
      [Intc].
    - [GpioStack]: the commands of a driver above the registry to the pins.
    - [Pwm], [PwmCorrect]: driver/pwm/pwm.c and the calls for the BK7231U of
      components/user_driver/BkDriverPwm.c, over the pins and the interrupt unit.
    - [Timer], [TimerCorrect]: driver/pwm/bk_timer.c and
      components/user_driver/BkDriverTimer.c, on a [Stack].
    - [Wdg]: driver/wdt/wdt.c, components/user_driver/BkDriverWdg.c and
      components/misc/start_type.c (the watchdog and the type of the last reset).
    - [Clock], [ClockCorrect], [ClockSystem], [ClockInit], [ClockBoard]:
      components/misc/fake_clock.c and the tick half of
      components/power_save/mcu_ps.c over what they use of the kernel and the
      radio ([ClockEnv], with the promises [ClockEnvOk]); what the clock keeps
      under any sequence of ticks and corrections; the way of a tick from the
      interrupt unit to the clock, the kernel and the watchdog, for which
      [clock_env_ok] discharges the promises with [Wdg] and [DrvModel]; the
      set-up of its hardware timers through [Timer] and [Pwm]; a concrete board.
    - [Queue]: the calls of os/FreeRTOSv9.0.0/rtos_pub.c on message queues, over
      the kernel as an interface ([Kernel], with the contract [QueueSpec]).
    - [Irda], [IrdaKeys], [IrdaSystem], [IrdaBoard]: driver/irda/irda.c over the
      registry, the timers, the pins and a queue; the receiver as a machine on its
      counts; the interrupt routines, its own and that of [Timer], refine the
      machine for any order of interrupts ([outcome]); the start of the
      application and a concrete board.
    - [UartHw], [Uart], [UartCorrect], [UartSystem]: the two UARTs as an interface
      ([UartSpec]), driver/uart/uart.c with its queues ([Kfifo]), what it
      guarantees, and the driver behind the registry and the interrupt table, for
      any drivers of the other units that leave the UARTs alone; [UartLog] is the
      history of the bytes taken from a unit, so that none is lost unseen;
      [uart_sim] satisfies the interfaces.
    - [UartBoard]: the UARTs, the pins and the interrupt unit on one bus, where
      the commands of [Uart] to the other units are run by [Gpio] and [Icu].
    - [SaradcHw], [Saradc], [SaradcCorrect], [SaradcBoard]: the converter as a
      queue of samples ([AdcSpec]) with the history of all it has delivered
      ([a_came]), driver/saradc/saradc.c over the registry, the
      pins and the interrupt unit, what its calls do, and what a caller relies on;
      the descriptors and the buffers of the callers are heaps ([saradc_vars]).
    - [SaradcFrame]: the calls of [Saradc] leave the variables of other drivers
      and the tables of the registry alone ([leaves], [keeps]).
    - [SaradcIntf], [SaradcObjs], [SaradcIntfCorrect], [SaradcMeasure]:
      components/saradc_intf/saradc_intf.c, a client of the converter through the
      registry, and the conversion to volts of saradc.c in binary floating point;
      its list of objects; a measurement with the interrupts that come while it
      waits.
    - [Float], [Volts]: the operations of binary floating point (the executable
      ones of the standard library) are the exact ones rounded to nearest, near
      them and monotone; from this, the volts of any calibration.
    - [SysCtrl], [SysCtrlCorrect]: the control command of
      driver/sys_ctrl/sys_ctrl.c; the programmable bytes as hardware
      ([EfuseSpec]), and the hold of the radio with its chip and clocks.
    - [Reentry]: [ddev_open] and [ddev_close] for a driver whose functions use the
      registry themselves.

    An operation of the code has the name of its C function; a loop of it is a
    Fixpoint named after it ([erase_sectors], [item_loop], [stop_loop], ...).
    A failed [ASSERT], an access outside an object and a wait that never ends
    are the faults of [fault]: a specification with [wp], or an equation with
    [Val], says that none of them happens.

    ** What the theorems show

    - Registry: registration, open and dispatch reach the driver's own
      functions; opens and closes balance; the tables stay well-formed under
      every operation; what wrong handles and unknown names do; the removal of a
      second-table device searches 10 of the 16 entries, and fails past them.
    - Flash: a read returns the bytes of the chip and a write programs its bytes
      and no other, for every alignment, although both work by lines of 32
      bytes; erase, write and read compose; setting a protection type changes
      the protection field alone and reads back.  Two theorems state defects:
      the bound check of a write, and protection types that alias.
    - Partitions: the same round trip through the registry and the partition
      table; what is not checked.
    - Network parameters: get and save implement lookup and update of an
      association list stored in flash (refinement), whence the round trip and
      the independence of the items.
    - DMA: the configurations write exactly the requested fields of their
      channel; the interrupt handler serves and clears exactly the pending bits
      that have a handler.
    - Rings: every sequence of calls refines a bounded queue; the DMA rings take
      and append at the positions the controller reports.
    - Buttons: the callbacks of a press by its length, and of a series of
      presses; the list calls refine a list without duplicates; callbacks that
      use the list block.
    - Base64: the encoder computes the encoding of RFC 4648 with line feeds, and
      the decoder inverts it.
    - Character sets: a text of ASCII and of the first level of GB 2312 becomes its
      UTF-8 and comes back; exactly which texts are written past the memory that is
      allocated for them; the second level is converted to other characters; the
      binary search is the lookup in its table.
    - Byte queues and lists: every sequence of calls refines a bounded queue,
      and a family of lists.
    - Interrupts: registrations, changes and removals refine a table sorted by
      priority, in which a second routine of the same priority is dropped; an
      entry runs the routines of the pending interrupts in that order, once
      each; an element registered twice makes every later walk endless.
    - Pins: a second function configures exactly its pins; driving, reversing
      and reading a pin; the interrupt routine calls the handlers of the pending
      pins in order, each once, and an interrupt reaches them through the
      dispatch; no sequence of commands leaves an interrupt enabled without a
      handler; what a pin number past the last one does.
    - Timers: starting a timer through the registry gives it its period, divider,
      handler, clock and interrupt; a start drops the pending interrupts of the
      timers of its group, and nothing else changes; the interrupt routine
      calls each pending handler once and acknowledges what it served; how far a
      period is exact; reading a counter ends on any hardware.
    - Pulse-width modulation: a wave gets its period, duty cycle, pin and clock,
      and nothing else changes; the interrupt routine; which pins taking a channel
      out of use touches.
    - Clock: start-up sets the timers of the tick and of the calibration and
      leaves the clock consistent; a pending tick reaches the clock, the kernel and
      the watchdog, which is reloaded once when it is due and not otherwise; the
      clock, its seconds and the kernel's ticks agree after any sequence of ticks,
      corrections and sleeps; a debt is paid by skipping one interrupt in five and
      no more, so that the watchdog is still fed in time; how far a calibration
      leaves the clock from its reference; when the seconds wrap.
    - Converter: one caller at a time has it, with the channel, rates, pin, clock
      and interrupt asked for; the samples it delivers from the opening on are in
      the buffer in order, none missing, until it is full; the millivolts computed
      from a sample are right to one for every calibration, and grow with it; a
      measurement calls its object with the mean of the samples delivered since it
      began, when the converter is free again, or, if too few come in
      time, calls nobody and leaves it taken; the objects form a list without
      duplicates.
    - Infrared receiver: a press of a key always ends with its timer stopped and
      the messages of a short, long or held press in the queue, as far as it has
      room; the start leaves the receiver ready; which keys are lost.
    - System control: a programmable byte reads back what was written and no
      other changes; the radio sleeps, with its chip and clocks off, from the
      release that leaves no holder until the next hold, if it may sleep.
    - UART: a port is a pair of bounded queues under any sequence of interrupts
      and calls, and the bytes taken from it are exactly those entered, those past
      the room and, without a callback, one late byte for each interrupt; bytes received reach a reader through the dispatch and the
      registry; start-up and reset, start-up also with the drivers of the pins
      and of the interrupt unit behind the registry, without touching the other
      port; strings and baud rates.

    ** Fuel and bounds

    - Polling loops carry [poll_fuel]; the theorems hold for every fuel above
      [busy_max], the bound of the interface, so they include termination.
    - The line loops of flash reads and writes take [len + 1] turns, each of at
      least one byte; the sector loop of an erase one turn for each sector.
    - The search of the parameter table takes [item_fuel] turns; an item has at
      least 8 bytes and the table fits its partition of 4096, so any fuel above
      511 is enough.
    - The walks of the button list take one turn more than the heap has
      buttons; the list has no duplicates.
    - A loop over a [DList] takes at most one turn more than the list has
      nodes, the walk of the interrupt routines at most 33.
    - The acknowledging loop of the timers carries [fuel]; one turn is enough on
      registers whose pending bits a write of one clears.  A wait for a counter
      takes the code's own 120001 turns.  The seconds of a correction take
      [tick / 500 + 1] turns.
    - The waits and the byte loops of the UART carry [fuel]; the theorems hold
      for every fuel above [wait_max] and [rx_max], the bounds of the interface,
      and 64, the size of a queue to send.
    - The loops of the converter carry [fuel]; the theorems hold for every fuel
      from [adc_depth], the depth of the queue, above [adc_clr_max], the requests
      that the clear bit takes, and from the size of the caller's buffer.  The
      waits for the programmable bytes end within [fuse_max] readings.
    - A period of the infrared receiver's timer (112 ms, repeat codes come every
      108 ms) has at most 240 repeat codes, so that the count of 8 bits does not
      wrap; a release is seen within 11 periods.

    ** What is not modelled

    Interrupt masking makes each call one step where the code masks (flash,
    partitions); rings and DMA are modelled call by call, without a reader and
    a writer inside one call; interrupt routines and callbacks run to their end
    and do not change the table or the queues they are called from.  The crash
    dumps of intc.c print registers and stop.  Of mcu_ps.c the sleep itself
    (mcu_power_save and what it calls) writes registers of the radio and the
    clocks whose effect the repository does not say; of sys_ctrl.c the
    sequences of start-up, sleep and wake-up and the charger do so too.  Of
    saradc_intf.c the creation of the entity and of its task, with its queue and
    timer, are calls of the kernel; the wait for its semaphore is an argument.  Third-party code (kernels, lwIP, mbedTLS,
    wolfSSL, USB stacks, FatFs, wpa_supplicant, Paho, EasyFlash), closed-source
    libraries, calibration of analogue parts and the glue that only moves
    messages to the network are left out. *)
From Stdlib Require Import ZArith Lia.
From stdpp Require Export base list numbers.
#[global] Set Default Goal Selector "!".
#[global] Open Scope Z_scope.

(** * Machine integers

    A C unsigned integer of width [w] is a [Z] in [0, 2^w); every operation
    that can leave the range is followed by one of these reductions. *)
Definition u8 (x : Z) : Z := x mod 256.
Definition u16 (x : Z) : Z := x mod 65536.
Definition u32 (x : Z) : Z := x mod 4294967296.

Arguments u8 x : simpl never.
Arguments u16 x : simpl never.
Arguments u32 x : simpl never.

Definition is_u8 (x : Z) : Prop := 0 <= x < 256.
Definition is_u16 (x : Z) : Prop := 0 <= x < 65536.
Definition is_u32 (x : Z) : Prop := 0 <= x < 4294967296.

(** A bool of C as an integer, and an integer tested by [if]. *)
Definition b2z (b : bool) : Z := if b then 1 else 0.
Definition truthy (x : Z) : bool := negb (x =? 0).

(** * Results and the state monad

    [Err] is what ends a run without a value: a failed [ASSERT] (the macro
    loops for ever), an access outside an object or through a null pointer,
    a loop that exhausted the fuel of the model, or a wait for a lock that is
    never released. *)
Inductive fault := AssertFail | BadAccess | NoFuel | Deadlock.

Inductive res (A : Type) :=
  | Val (a : A)
  | Err (f : fault).
Arguments Val {A} a.
Arguments Err {A} f.

#[export] Instance fault_eq_dec : EqDecision fault.
Proof. solve_decision. Defined.

#[export] Instance res_eq_dec `{EqDecision A} : EqDecision (res A).
Proof. solve_decision. Defined.

#[export] Instance res_ret : MRet res := fun A a => Val a.
#[export] Instance res_bind : MBind res := fun A B k m =>
  match m with Val a => k a | Err f => Err f end.

(** An optional access: [None] becomes a fault. *)
Definition of_option {A} (f : fault) (o : option A) : res A :=
  match o with Some a => Val a | None => Err f end.

Definition M (S A : Type) : Type := S -> res (A * S).

#[export] Instance M_ret S : MRet (M S) := fun A a s => Val (a, s).
#[export] Instance M_bind S : MBind (M S) := fun A B k m s =>
  match m s with Val (a, s') => k a s' | Err f => Err f end.

Definition get {S} : M S S := fun s => Val (s, s).
Definition put {S} (s : S) : M S unit := fun _ => Val (tt, s).
Definition modify {S} (f : S -> S) : M S unit := fun s => Val (tt, f s).
Definition fail {S A} (f : fault) : M S A := fun _ => Err f.
Definition lift_res {S A} (r : res A) : M S A := fun s =>
  match r with Val a => Val (a, s) | Err f => Err f end.
(** [ASSERT(e)] of include/generic.h: a false argument never returns. *)
Definition assert {S} (b : bool) : M S unit := if b then mret tt else fail AssertFail.
Definition when {S} (b : bool) (m : M S unit) : M S unit := if b then m else mret tt.

(** ** Total-correctness specifications

    [wp m s Q]: running [m] from [s] returns, with a value and a state that
    satisfy [Q].  A fault never satisfies a specification. *)
Definition wp {S A} (m : M S A) (s : S) (Q : A -> S -> Prop) : Prop :=
  match m s with Val (a, s') => Q a s' | Err _ => False end.

Section wp_rules.
Context {S : Type}.
Implicit Types s : S.

Lemma wp_ret {A} (a : A) s (Q : A -> S -> Prop) : Q a s -> wp (mret a) s Q.
Proof. exact id. Qed.

Lemma wp_bind {A B} (m : M S A) (k : A -> M S B) s (Q : B -> S -> Prop) :
  wp m s (fun a s' => wp (k a) s' Q) -> wp (mbind k m) s Q.
Proof. unfold wp, mbind, M_bind. by destruct (m s) as [[a s']|]. Qed.

Lemma wp_mono {A} (m : M S A) s (Q R : A -> S -> Prop) :
  wp m s Q -> (forall a s', Q a s' -> R a s') -> wp m s R.
Proof. unfold wp. destruct (m s) as [[a s']|]; eauto. Qed.

Lemma wp_get s (Q : S -> S -> Prop) : Q s s -> wp get s Q.
Proof. exact id. Qed.

Lemma wp_modify (f : S -> S) s (Q : unit -> S -> Prop) : Q tt (f s) -> wp (modify f) s Q.
Proof. exact id. Qed.

Lemma wp_assert b s (Q : unit -> S -> Prop) : b = true -> Q tt s -> wp (assert b) s Q.
Proof. intros ->. exact id. Qed.

Lemma wp_when (b : bool) (m : M S unit) s (Q : unit -> S -> Prop) :
  (if b then wp m s Q else Q tt s) -> wp (when b m) s Q.
Proof. by destruct b. Qed.

Lemma wp_val {A} (m : M S A) s (Q : A -> S -> Prop) :
  wp m s Q -> exists a s', m s = Val (a, s') /\ Q a s'.
Proof. unfold wp. destruct (m s) as [[a s']|]; [eauto|done]. Qed.

Lemma wp_intro {A} (m : M S A) s a s' (Q : A -> S -> Prop) :
  m s = Val (a, s') -> Q a s' -> wp m s Q.
Proof. unfold wp. by intros ->. Qed.
End wp_rules.

(** Running a sequence, step by step. *)
Lemma bind_val {S A B} (m : M S A) (k : A -> M S B) s a s' r :
  m s = Val (a, s') -> k a s' = r -> mbind k m s = r.
Proof. unfold mbind, M_bind. by intros ->. Qed.

Lemma bind_err {S A B} (m : M S A) (k : A -> M S B) s f :
  m s = Err f -> mbind k m s = Err f.
Proof. unfold mbind, M_bind. by intros ->. Qed.

Lemma bind_ret_val {S A B} (k : A -> M S B) (m : M S A) s a s' :
  m s = Val (a, s') -> mbind k m s = k a s'.
Proof. unfold mbind, M_bind. by intros ->. Qed.
Lemma bind_inv {S A B} (m : M S A) (k : A -> M S B) s b s' : mbind k m s = Val (b, s') ->
  exists a s1, m s = Val (a, s1) /\ k a s1 = Val (b, s').
Proof. unfold mbind, M_bind. destruct (m s) as [[a s1]|]; [eauto|done]. Qed.

Lemma bind_mret {S A B} (a : A) (k : A -> M S B) s : mbind k (mret a) s = k a s.
Proof. done. Qed.

Lemma bind_assoc {S A B C} (m : M S A) (k : A -> M S B) (k' : B -> M S C) s :
  mbind k' (mbind k m) s = mbind (fun a => mbind k' (k a)) m s.
Proof. unfold mbind, M_bind. by destruct (m s) as [[a s']|]. Qed.

(** [mstep tac]: run the first command of a sequence, its result found by [tac]. *)
Tactic Notation "mstep" "by" tactic3(tac) := eapply bind_val; [solve [tac]|]; cbv beta.
Tactic Notation "mstep" := eapply bind_val; [reflexivity|]; cbv beta.

(** [n] runs of the same command. *)
Fixpoint repeat_m {S A} (n : nat) (m : M S A) : M S unit :=
  match n with O => mret tt | Datatypes.S n' => _ ← m; repeat_m n' m end.

Lemma repeat_m_succ {S A} n (m : M S A) : repeat_m (Datatypes.S n) m = (_ ← m; repeat_m n m).
Proof. done. Qed.

(** [ht P m Q]: if a run of [m] from a state in [P] returns, then in [Q]. *)
Definition ht {S A} (P : S -> Prop) (m : M S A) (Q : A -> S -> Prop) : Prop :=
  forall s a s', P s -> m s = Val (a, s') -> Q a s'.

Section ht_rules.
Context {S : Type}.
Implicit Types P : S -> Prop.

Lemma ht_ret {A} P (a : A) (Q : A -> S -> Prop) : (forall s, P s -> Q a s) -> ht P (mret a) Q.
Proof. intros H s a' s' Hs Hm. injection Hm as <- <-. by apply H. Qed.

Lemma ht_bind {A B} P (m : M S A) (k : A -> M S B) (R : A -> S -> Prop) (Q : B -> S -> Prop) :
  ht P m R -> (forall a, ht (R a) (k a) Q) -> ht P (mbind k m) Q.
Proof.
  intros Hm Hk s b s' Hs. unfold mbind, M_bind.
  destruct (m s) as [[a s1]|] eqn:E; [|done]. apply Hk. by eapply Hm.
Qed.

Lemma ht_fail {A} P f (Q : A -> S -> Prop) : ht P (fail f) Q.
Proof. by intros s a s' _ Hm. Qed.

Lemma ht_get P (Q : S -> S -> Prop) : (forall s, P s -> Q s s) -> ht P get Q.
Proof. intros H s a s' Hs Hm. injection Hm as <- <-. by apply H. Qed.

Lemma ht_modify P (f : S -> S) (Q : unit -> S -> Prop) : (forall s, P s -> Q tt (f s)) -> ht P (modify f) Q.
Proof. intros H s a s' Hs Hm. injection Hm as <- <-. by apply H. Qed.

Lemma ht_pre {A} P P' (m : M S A) (Q : A -> S -> Prop) :
  (forall s, P s -> P' s) -> ht P' m Q -> ht P m Q.
Proof. intros H Hm s a s' Hs. apply Hm. by apply H. Qed.

Lemma ht_post {A} P (m : M S A) (Q Q' : A -> S -> Prop) :
  ht P m Q -> (forall a s, Q a s -> Q' a s) -> ht P m Q'.
Proof. intros Hm H s a s' Hs He. apply H. by eapply Hm. Qed.

(** A property of values already known travels through the run. *)
Lemma ht_frame {A} P (F : Prop) (m : M S A) (Q : A -> S -> Prop) :
  (F -> ht P m Q) -> ht (fun s => F /\ P s) m Q.
Proof. intros H s a s' [HF Hs]. by apply H. Qed.

Lemma ht_lift_res {A} P (r : res A) (Q : A -> S -> Prop) :
  (forall s a, P s -> r = Val a -> Q a s) -> ht P (lift_res r) Q.
Proof. intros H s a s' Hs. unfold lift_res. destruct r; [|done]. intros Hm. injection Hm as <- <-. by apply H. Qed.

Lemma ht_assert P b : ht P (assert b) (fun _ s => b = true /\ P s).
Proof. destruct b; [by apply ht_ret|apply ht_fail]. Qed.
End ht_rules.

(** * Arithmetic automation *)

(** Unfold the reductions and let [lia] reason about [mod] and [/]. *)
Ltac zlia :=
  unfold u8, u16, u32, is_u8, is_u16, is_u32 in *;
  Z.to_euclidean_division_equations; lia.

(** Decide the boolean comparisons of the code in the goal and hypotheses. *)
Ltac bdestr :=
  repeat match goal with
  | |- context [?a =? ?b] => destruct (Z.eqb_spec a b)
  | |- context [?a <? ?b] => destruct (Z.ltb_spec a b)
  | |- context [?a <=? ?b] => destruct (Z.leb_spec a b)
  | H : context [?a =? ?b] |- _ => destruct (Z.eqb_spec a b)
  | H : context [?a <? ?b] |- _ => destruct (Z.ltb_spec a b)
  | H : context [?a <=? ?b] |- _ => destruct (Z.leb_spec a b)
  end; simpl negb in *; simpl andb in *; simpl orb in *; try discriminate.

Create HintDb word.
Create Rewrite HintDb word.

Lemma u8_range x : is_u8 (u8 x).
Proof. zlia. Qed.
Lemma u16_range x : is_u16 (u16 x).
Proof. zlia. Qed.
Lemma u32_range x : is_u32 (u32 x).
Proof. zlia. Qed.
Lemma u8_id x : is_u8 x -> u8 x = x.
Proof. zlia. Qed.
Lemma u16_id x : is_u16 x -> u16 x = x.
Proof. zlia. Qed.
Lemma u32_id x : is_u32 x -> u32 x = x.
Proof. zlia. Qed.
#[export] Hint Resolve u8_range u16_range u32_range : word.
#[export] Hint Rewrite u8_id u16_id u32_id using (first [assumption | zlia]) : word.

(** Masks and shifts as division and remainder. *)
Lemma land_ones_mod x n : 0 <= n -> Z.land x (Z.ones n) = x mod 2 ^ n.
Proof. apply Z.land_ones. Qed.

Lemma land_0xff x : Z.land x 255 = x mod 256.
Proof. change 255 with (Z.ones 8). by rewrite Z.land_ones. Qed.

Lemma land_0xffff x : Z.land x 65535 = x mod 65536.
Proof. change 65535 with (Z.ones 16). by rewrite Z.land_ones. Qed.

(** A bit tested by [if]. *)
Lemma truthy_bit v i : 0 <= i -> truthy (Z.land v (Z.shiftl 1 i)) = Z.testbit v i.
Proof.
  intros Hi. unfold truthy. rewrite Z.shiftl_1_l. destruct (Z.testbit v i) eqn:E.
  - destruct (Z.eqb_spec (Z.land v (2 ^ i)) 0) as [E0|]; [|done]. apply (f_equal (fun x => Z.testbit x i)) in E0.
    rewrite Z.land_spec, Z.pow2_bits_true, E, Z.bits_0 in E0 by done. done.
  - assert (Z.land v (2 ^ i) = 0) as ->; [|done]. apply Z.bits_inj'. intros j Hj. rewrite Z.land_spec, Z.bits_0.
    destruct (Z.eq_dec i j) as [->|]; [by rewrite E|]. rewrite Z.pow2_bits_false by done. apply andb_false_r.
Qed.

(** Bits of a number below [2^n] stop at [n]. *)
Lemma testbit_small x n i : 0 <= x < 2 ^ n -> n <= i -> Z.testbit x i = false.
Proof.
  intros Hx Hi. destruct (decide (0 <= n)) as [Hn|Hn].
  - rewrite <- (Z.mod_small x (2 ^ n)) by done. apply Z.mod_pow2_bits_high. lia.
  - rewrite Z.pow_neg_r in Hx by lia. lia.
Qed.

(** Two disjoint fields combined by [or] are their sum. *)
Lemma lor_shiftl_add a b n : 0 <= n -> 0 <= a < 2 ^ n -> Z.lor a (Z.shiftl b n) = a + b * 2 ^ n.
Proof.
  intros Hn Ha. rewrite <- Z.shiftl_mul_pow2 by done.
  assert (Hl : Z.land a (Z.shiftl b n) = 0).
  { apply Z.bits_inj'. intros i Hi. rewrite Z.land_spec, Z.bits_0.
    destruct (decide (i < n)).
    - by rewrite Z.shiftl_spec_low, andb_false_r by lia.
    - by rewrite (testbit_small a n) by lia. }
  by rewrite Z.add_nocarry_lxor, Z.lxor_lor.
Qed.

(** A single bit tested by a mask. *)
Lemma land_pow2 v n : 0 <= n -> Z.land v (2 ^ n) = Z.shiftl (b2z (Z.testbit v n)) n.
Proof.
  intros Hn. apply Z.bits_inj'. intros i Hi.
  rewrite Z.land_spec, Z.shiftl_spec, Z.pow2_bits_eqb by lia.
  destruct (Z.eqb_spec n i) as [<-|Hne].
  - rewrite Z.sub_diag. by destruct (Z.testbit v n).
  - rewrite andb_false_r. destruct (Z.testbit v n); [|by rewrite Z.bits_0].
    symmetry. destruct (decide (i < n)); [by rewrite Z.testbit_neg_r by lia|].
    apply (testbit_small 1 1); lia.
Qed.

Lemma truthy_land_pow2 v n : 0 <= n -> truthy (Z.land v (2 ^ n)) = Z.testbit v n.
Proof.
  intros Hn. rewrite land_pow2 by done. unfold truthy. destruct (Z.testbit v n); cbn [b2z].
  - rewrite Z.shiftl_1_l. by rewrite (proj2 (Z.eqb_neq _ _)) by (apply Z.pow_nonzero; lia).
  - by rewrite Z.shiftl_0_l.
Qed.

(** Bitwise operations stay within a width. *)
Lemma lor_range a b n : 0 <= n -> 0 <= a < 2 ^ n -> 0 <= b < 2 ^ n -> 0 <= Z.lor a b < 2 ^ n.
Proof.
  intros Hn Ha Hb. split; [apply Z.lor_nonneg; lia|].
  rewrite <- (Z.mod_small a (2 ^ n)), <- (Z.mod_small b (2 ^ n)) by done.
  rewrite <- !Z.land_ones by done. rewrite <- Z.land_lor_distr_l, Z.land_ones by done.
  apply Z.mod_pos_bound. lia.
Qed.

Lemma land_range a b n : 0 <= n -> 0 <= a < 2 ^ n -> 0 <= Z.land a b < 2 ^ n.
Proof.
  intros Hn Ha. rewrite <- (Z.mod_small a (2 ^ n)) by done. rewrite <- Z.land_ones by done.
  rewrite <- Z.land_assoc, (Z.land_comm (Z.ones n)), Z.land_assoc, Z.land_ones by done.
  apply Z.mod_pos_bound. lia.
Qed.

Lemma lor_u32 a b : is_u32 a -> is_u32 b -> is_u32 (Z.lor a b).
Proof. apply (lor_range _ _ 32). lia. Qed.
Lemma land_u32 a b : is_u32 a -> is_u32 (Z.land a b).
Proof. apply (land_range _ _ 32). lia. Qed.
Lemma ldiff_u32 a b : is_u32 a -> is_u32 (Z.ldiff a b).
Proof. rewrite Z.ldiff_land. apply land_u32. Qed.
Lemma land_u8 a b : is_u8 a -> is_u8 (Z.land a b).
Proof. apply (land_range _ _ 8). lia. Qed.
Lemma lor_u16 a b : is_u16 a -> is_u16 b -> is_u16 (Z.lor a b).
Proof. apply (lor_range _ _ 16). lia. Qed.
Lemma land_u16 a b : is_u16 a -> is_u16 (Z.land a b).
Proof. apply (land_range _ _ 16). lia. Qed.
#[export] Hint Resolve lor_u32 land_u32 land_u8 lor_u16 land_u16 : word.

(** The bits of an expression built from masks and shifts. *)
Ltac bits :=
  apply Z.bits_inj'; let i := fresh "i" in intros i ?;
  repeat first [rewrite Z.lor_spec | rewrite Z.land_spec | rewrite Z.ldiff_spec
    | rewrite Z.lnot_spec by lia | rewrite Z.shiftl_spec by lia | rewrite Z.shiftr_spec by lia
    | rewrite Z.lxor_spec].

(** Bits at constant places: those of constants are computed, the others decided. *)
Ltac const_bits :=
  repeat match goal with |- context [Z.testbit ?x ?k] =>
    let b := eval vm_compute in (Z.testbit x k) in
    match b with
    | true => change (Z.testbit x k) with true
    | false => change (Z.testbit x k) with false
    | _ => let k' := eval vm_compute in k in progress change (Z.testbit x k) with (Z.testbit x k')
    end end;
  repeat match goal with |- context [Z.testbit ?x ?k] => destruct (Z.testbit x k) end; reflexivity.
(** A field of a word made of masks and shifts: bit by bit. *)
Ltac field_bits n :=
  apply Z.bits_inj'; let i := fresh "i" in intros i Hi; rewrite !Z.land_spec; rewrite !(Z.testbit_ones_nonneg n) by lia;
  destruct (Z.ltb_spec i n); [|by rewrite !andb_false_r];
  rewrite ?Z.shiftr_spec, ?Z.lor_spec, ?Z.ldiff_spec by lia; rewrite ?Z.shiftl_spec by lia; rewrite ?Z.land_spec;
  let Hc := fresh "Hc" in assert (Hc : i = 0 \/ i = 1 \/ i = 2 \/ i = 3 \/ i = 4 \/ i = 5 \/ i = 6 \/ i = 7) by lia;
  repeat (destruct Hc as [->|Hc] || subst i); first [exfalso; lia|const_bits].

(** ** Fields

    A field of [w] bits at [p] replaced by [d]. *)
Definition set_field (r d p w : Z) : Z := Z.lor (Z.ldiff r (Z.shiftl (Z.ones w) p)) (Z.shiftl (Z.land d (Z.ones w)) p).

Lemma testbit_ones_le w i : 0 <= w -> 0 <= i -> Z.testbit (Z.ones w) i = (i <? w).
Proof. intros Hw Hi. destruct (Z.ltb_spec i w); [by apply Z.ones_spec_low|by apply Z.ones_spec_high]. Qed.

Lemma set_field_bits r d p w i : 0 <= w -> 0 <= p -> 0 <= i ->
  Z.testbit (set_field r d p w) i = if (p <=? i) && (i <? p + w) then Z.testbit d (i - p) else Z.testbit r i.
Proof.
  intros Hw Hp Hi. unfold set_field. rewrite Z.lor_spec, Z.ldiff_spec, !Z.shiftl_spec, Z.land_spec by lia.
  destruct (Z.leb_spec p i) as [Hpi|Hpi]; cbn [andb].
  - rewrite testbit_ones_le by lia. destruct (Z.ltb_spec i (p + w)).
    + rewrite (proj2 (Z.ltb_lt _ _)) by lia. by rewrite !andb_true_r, andb_false_r.
    + rewrite (proj2 (Z.ltb_ge _ _)) by lia. by rewrite !andb_false_r, andb_true_r, orb_false_r.
  - rewrite !(Z.testbit_neg_r _ (i - p)) by lia. by rewrite andb_true_r, orb_false_r.
Qed.

Lemma set_field_read r d p w : 0 <= w -> 0 <= p -> Z.land (Z.shiftr (set_field r d p w) p) (Z.ones w) = Z.land d (Z.ones w).
Proof.
  intros Hw Hp. apply Z.bits_inj'. intros i Hi. rewrite !Z.land_spec, Z.shiftr_spec, set_field_bits, testbit_ones_le by lia.
  rewrite (proj2 (Z.leb_le _ _)) by lia. replace (i + p - p) with i by lia. cbn [andb].
  destruct (Z.ltb_spec i w); [|by rewrite !andb_false_r]. by rewrite (proj2 (Z.ltb_lt _ _)) by lia.
Qed.

Lemma set_field_others r d p w : 0 <= w -> 0 <= p ->
  Z.ldiff (set_field r d p w) (Z.shiftl (Z.ones w) p) = Z.ldiff r (Z.shiftl (Z.ones w) p).
Proof.
  intros Hw Hp. apply Z.bits_inj'. intros i Hi. rewrite !Z.ldiff_spec, Z.shiftl_spec, set_field_bits by lia.
  destruct (Z.leb_spec p i); cbn [andb]; [|done]. rewrite testbit_ones_le by lia.
  destruct (Z.ltb_spec i (p + w)); [|done]. rewrite (proj2 (Z.ltb_lt _ _)) by lia. by rewrite !andb_false_r.
Qed.

(** A field that does not overlap. *)
Lemma set_field_apart r d p w q v : 0 <= w -> 0 <= p -> 0 <= v -> 0 <= q -> p + w <= q \/ q + v <= p ->
  Z.land (Z.shiftr (set_field r d p w) q) (Z.ones v) = Z.land (Z.shiftr r q) (Z.ones v).
Proof.
  intros Hw Hp Hv Hq Hd. apply Z.bits_inj'. intros i Hi. rewrite !Z.land_spec, !Z.shiftr_spec, set_field_bits, testbit_ones_le by lia.
  destruct (Z.ltb_spec i v); [|by rewrite !andb_false_r].
  destruct (Z.leb_spec p (i + q)), (Z.ltb_spec (i + q) (p + w)); cbn [andb]; try done. lia.
Qed.

Lemma set_field_u32 r d p w : 0 <= w -> 0 <= p -> p + w <= 32 -> is_u32 r -> is_u32 (set_field r d p w).
Proof.
  intros Hw Hp Hs Hr. unfold set_field. apply lor_u32; [rewrite Z.ldiff_land; by apply land_u32|].
  rewrite Z.land_ones, Z.shiftl_mul_pow2 by lia. pose proof (Z.mod_pos_bound d (2 ^ w) ltac:(lia)) as Hm.
  assert (2 ^ w * 2 ^ p <= 2 ^ 32) by (rewrite <- Z.pow_add_r by lia; apply Z.pow_le_mono_r; lia).
  assert (0 < 2 ^ p) by lia. unfold is_u32. change 4294967296 with (2 ^ 32). nia.
Qed.

(** * Bytes and little-endian words

    The target is little-endian: a word of [n] bytes in memory is its base-256
    digits, least significant first. *)
Fixpoint word_to_le (n : nat) (w : Z) : list Z :=
  match n with
  | O => []
  | S n' => w mod 256 :: word_to_le n' (w / 256)
  end.

Fixpoint word_of_le (bs : list Z) : Z :=
  match bs with
  | [] => 0
  | b :: bs' => b + 256 * word_of_le bs'
  end.

Definition bytes_ok (bs : list Z) : Prop := Forall is_u8 bs.

Lemma length_word_to_le n w : length (word_to_le n w) = n.
Proof. revert w. induction n; intros w; simpl; auto. Qed.

Lemma word_to_le_ok n w : bytes_ok (word_to_le n w).
Proof. revert w. induction n; intros w; constructor; [zlia|apply IHn]. Qed.

Lemma word_of_le_range bs : bytes_ok bs -> 0 <= word_of_le bs < 256 ^ Z.of_nat (length bs).
Proof.
  induction 1 as [|b bs Hb _ IH]; [simpl; lia|].
  cbn [word_of_le length]. rewrite Nat2Z.inj_succ, Z.pow_succ_r by lia.
  unfold is_u8 in Hb. lia.
Qed.

Lemma word_of_to_le n w : 0 <= w < 256 ^ Z.of_nat n -> word_of_le (word_to_le n w) = w.
Proof.
  revert w. induction n as [|n IH]; intros w Hw; [simpl in *; lia|].
  rewrite Nat2Z.inj_succ, Z.pow_succ_r in Hw by lia.
  cbn [word_to_le word_of_le]. rewrite IH; [zlia|].
  split; [zlia|]. apply Z.div_lt_upper_bound; lia.
Qed.

Lemma word_to_of_le bs : bytes_ok bs -> word_to_le (length bs) (word_of_le bs) = bs.
Proof.
  induction 1 as [|b bs Hb _ IH]; [done|].
  cbn [length word_of_le word_to_le]. unfold is_u8 in Hb.
  replace ((b + 256 * word_of_le bs) mod 256) with b by zlia.
  replace ((b + 256 * word_of_le bs) / 256) with (word_of_le bs) by zlia.
  by rewrite IH.
Qed.

Lemma word_to_le_inj n w w' :
  0 <= w < 256 ^ Z.of_nat n -> 0 <= w' < 256 ^ Z.of_nat n -> word_to_le n w = word_to_le n w' -> w = w'.
Proof. intros Hw Hw' He. rewrite <- (word_of_to_le n w), <- (word_of_to_le n w') by done. by rewrite He. Qed.

#[export] Hint Rewrite length_word_to_le : word.
#[export] Hint Resolve word_to_le_ok : word.

(** * Arrays

    An array of the program is a list; an access outside it is a [BadAccess]. *)
Section arrays.
Context {A : Type}.
Implicit Types l bs : list A.

Definition zlookup l (i : Z) : option A := if 0 <=? i then l !! Z.to_nat i else None.

Definition slice (off n : nat) l : list A := take n (drop off l).

Definition splice (off : nat) bs l : list A := take off l ++ bs ++ drop (off + length bs) l.

(** [memcpy] out of, and into, an array at an offset. *)
Definition mem_read l (off n : Z) : res (list A) :=
  if (0 <=? off) && (0 <=? n) && (off + n <=? Z.of_nat (length l))
  then Val (slice (Z.to_nat off) (Z.to_nat n) l) else Err BadAccess.

Definition mem_write l (off : Z) bs : res (list A) :=
  if (0 <=? off) && (off + Z.of_nat (length bs) <=? Z.of_nat (length l))
  then Val (splice (Z.to_nat off) bs l) else Err BadAccess.

Lemma length_slice off n l : (off + n <= length l)%nat -> length (slice off n l) = n.
Proof. intros H. unfold slice. rewrite length_take, length_drop. lia. Qed.

Lemma length_splice off bs l :
  (off + length bs <= length l)%nat -> length (splice off bs l) = length l.
Proof. intros H. unfold splice. rewrite !length_app, length_take, length_drop. lia. Qed.

Lemma slice_lookup off n l i :
  (i < n)%nat -> slice off n l !! i = l !! (off + i)%nat.
Proof. intros H. unfold slice. by rewrite lookup_take_lt, lookup_drop by done. Qed.

Lemma splice_lookup_in off bs l i :
  (off <= length l)%nat -> (off <= i < off + length bs)%nat ->
  splice off bs l !! i = bs !! (i - off)%nat.
Proof.
  intros Hl Hi. unfold splice.
  rewrite lookup_app_r by (rewrite length_take; lia).
  rewrite length_take, lookup_app_l by lia. f_equal. lia.
Qed.

Lemma splice_lookup_out off bs l i :
  (off + length bs <= length l)%nat -> (i < off \/ off + length bs <= i)%nat ->
  splice off bs l !! i = l !! i.
Proof.
  intros Hl [Hi|Hi]; unfold splice.
  - rewrite lookup_app_l by (rewrite length_take; lia). by apply lookup_take_lt.
  - rewrite lookup_app_r by (rewrite length_take; lia).
    rewrite length_take, lookup_app_r by lia. rewrite lookup_drop. f_equal. lia.
Qed.

Lemma slice_splice_same off bs l :
  (off + length bs <= length l)%nat -> slice off (length bs) (splice off bs l) = bs.
Proof.
  intros Hl. unfold slice, splice. rewrite drop_app_length' by (rewrite length_take; lia).
  apply take_app_length.
Qed.

Lemma slice_splice_disjoint off n o bs l :
  (o + length bs <= length l)%nat -> (off + n <= length l)%nat ->
  (off + n <= o \/ o + length bs <= off)%nat ->
  slice off n (splice o bs l) = slice off n l.
Proof.
  intros Hb Hl Hd. apply list_eq. intros i.
  destruct (decide (i < n)%nat) as [Hi|Hi].
  - rewrite !slice_lookup by done. apply splice_lookup_out; lia.
  - rewrite !lookup_ge_None_2; [done| |]; rewrite length_slice; rewrite ?length_splice; lia.
Qed.

Lemma slice_app off n m l : slice off (n + m) l = slice off n l ++ slice (off + n) m l.
Proof.
  unfold slice. rewrite <- drop_drop, <- (take_drop n (drop off l)) at 1.
  rewrite take_app. rewrite take_take, length_take, Nat.min_r by lia.
  destruct (decide (n <= length (drop off l))%nat).
  - by rewrite (Nat.min_l n) by lia; replace (n + m - n)%nat with m by lia.
  - rewrite (drop_ge (drop off l) n), !take_nil by lia. done.
Qed.

Lemma slice_all l : slice 0 (length l) l = l.
Proof. unfold slice. rewrite drop_0. by apply firstn_all. Qed.

Lemma mem_read_val l off n :
  0 <= off -> 0 <= n -> off + n <= Z.of_nat (length l) ->
  mem_read l off n = Val (slice (Z.to_nat off) (Z.to_nat n) l).
Proof. intros. unfold mem_read. by rewrite !(proj2 (Z.leb_le _ _)) by lia. Qed.

Lemma mem_write_val l off bs :
  0 <= off -> off + Z.of_nat (length bs) <= Z.of_nat (length l) ->
  mem_write l off bs = Val (splice (Z.to_nat off) bs l).
Proof. intros. unfold mem_write. by rewrite !(proj2 (Z.leb_le _ _)) by lia. Qed.

Lemma mem_read_cases l off n :
  (0 <= off /\ 0 <= n /\ off + n <= Z.of_nat (length l) /\
    mem_read l off n = Val (slice (Z.to_nat off) (Z.to_nat n) l)) \/ mem_read l off n = Err BadAccess.
Proof.
  unfold mem_read. destruct (Z.leb_spec 0 off), (Z.leb_spec 0 n), (Z.leb_spec (off + n) (Z.of_nat (length l)));
    cbn [andb]; auto.
Qed.

Lemma mem_write_out l off bs :
  Z.of_nat (length l) < off + Z.of_nat (length bs) -> mem_write l off bs = Err BadAccess.
Proof. intros H. unfold mem_write. by rewrite (proj2 (Z.leb_gt (off + _) _)), andb_false_r by lia. Qed.
End arrays.

#[export] Hint Rewrite @length_slice @length_splice using lia : word.

Lemma zlookup_nat {A} (l : list A) (i : nat) : zlookup l (Z.of_nat i) = l !! i.
Proof. unfold zlookup. rewrite (proj2 (Z.leb_le _ _)) by lia. by rewrite Nat2Z.id. Qed.
#[export] Hint Rewrite @zlookup_nat Nat2Z.id : word.

(** * Memory-mapped registers

    [REG_READ] and [REG_WRITE] (include/generic.h) of a device: a read can
    change the device as well. *)
Class RegBus (hw : Type) := {
  bus_read : Z -> hw -> Z * hw;
  bus_write : Z -> Z -> hw -> hw;
}.

(** ** What a run accesses

    [touches proj P m]: every access of a run of [m] to the bus, at [proj] of
    its state, is to an address in [P]; so a relation that such accesses respect
    holds from the start to the end of the run. *)
Section touches.
Context {hw : Type} `{RegBus hw}.

Record respects (P : Z -> bool) (R : hw -> hw -> Prop) : Prop := {
  res_refl h : R h h;
  res_trans h1 h2 h3 : R h1 h2 -> R h2 h3 -> R h1 h3;
  res_read a h : P a = true -> R h (bus_read a h).2;
  res_write a v h : P a = true -> R h (bus_write a v h);
}.

Lemma respects_mono (P Q : Z -> bool) R : (forall a, P a = true -> Q a = true) -> respects Q R -> respects P R.
Proof. intros HPQ [r t a w]. split; auto. Qed.
Lemma respects_and P (R1 R2 : hw -> hw -> Prop) : respects P R1 -> respects P R2 -> respects P (fun h h' => R1 h h' /\ R2 h h').
Proof. intros [r1 t1 a1 w1] [r2 t2 a2 w2]. split; [auto|intros h1 h2 h3 [] []; eauto|auto|auto]. Qed.

Definition touches {S A} (proj : S -> hw) (P : Z -> bool) (m : M S A) : Prop :=
  forall R, respects P R -> forall s a s', m s = Val (a, s') -> R (proj s) (proj s').

Context {S : Type} (proj : S -> hw) (P : Z -> bool).

Lemma touches_quiet {A} (m : M S A) : (forall s a s', m s = Val (a, s') -> proj s' = proj s) -> touches proj P m.
Proof. intros Hm R HR s a s' E. rewrite (Hm _ _ _ E). by apply (res_refl P). Qed.

Lemma touches_ret {A} (a : A) : touches proj P (mret a).
Proof. apply touches_quiet. by intros s a' s' [= _ <-]. Qed.
Lemma touches_fail {A} f : touches proj P (fail f : M S A).
Proof. by intros R HR s a s' E. Qed.
Lemma touches_get : touches proj P get.
Proof. apply touches_quiet. by intros s a s' [= _ <-]. Qed.
Lemma touches_lift_res {A} (r : res A) : touches proj P (lift_res r).
Proof. apply touches_quiet. intros s a s'. unfold lift_res. destruct r; [|done]. by intros [= _ <-]. Qed.
Lemma touches_modify f : (forall s, proj (f s) = proj s) -> touches proj P (modify f).
Proof. intros Hf. apply touches_quiet. by intros s a s' [= _ <-]. Qed.

Lemma touches_bind {A B} (m : M S A) (k : A -> M S B) : touches proj P m -> (forall a, touches proj P (k a)) ->
  touches proj P (mbind k m).
Proof.
  intros Hm Hk R HR s b s'. unfold mbind, M_bind. destruct (m s) as [[a s1]|] eqn:E; [|done]. intros E2.
  eapply (res_trans P); [done|by eapply Hm|by eapply Hk].
Qed.

Lemma touches_assert b : touches proj P (assert b).
Proof. destruct b; [apply touches_ret|apply touches_fail]. Qed.
Lemma touches_when (b : bool) m : touches proj P m -> touches proj P (when b m).
Proof. intros Hm. destruct b; [done|apply touches_ret]. Qed.
End touches.

(** Reads and writes of a driver whose state is the bus. *)
Lemma touches_bus_read {hw} `{RegBus hw} (P : Z -> bool) a : P a = true -> touches id P (fun h : hw => Val (bus_read a h)).
Proof. intros Ha R HR h v h' E. injection E as E. rewrite <- (f_equal snd E : _ = h'). by apply (res_read P). Qed.
Lemma touches_bus_write {hw} `{RegBus hw} (P : Z -> bool) a v : P a = true -> touches (id : hw -> hw) P (modify (bus_write a v)).
Proof. intros Ha R HR h u h' [= _ <-]. by apply (res_write P). Qed.

(** Follow the structure of a program; what remains are its accesses and calls. *)
Create HintDb touch.
#[export] Hint Resolve touches_ret touches_fail touches_get touches_lift_res touches_assert : touch.
Ltac touch :=
  repeat first
    [ simple apply touches_bind; [|intros ?] | simple apply touches_when | solve [auto with touch]
    | match goal with
      | |- touches _ _ (if ?b then _ else _) => destruct b
      | |- touches _ _ (match ?x with _ => _ end) => destruct x
      end ].
