(* ===== verification/DrvModel.v ===== *)
(** * The device registry (driver/common/drv_model.c)

    Two tables of devices, found by name prefix and addressed by handles.
    The operation structures a driver registers are static objects of the
    image: the model keeps their addresses and takes the functions behind
    them ([dev_ops], [sdev_ops]) as parameters over the state [W] of the
    drivers. *)
From S2P Require Import Prelude.
From stdpp Require Import strings.
From Stdlib Require Import Ascii.
Local Open Scope Z_scope.

Definition DRV_FAILURE : Z := u32 (-5).
Definition DRV_SUCCESS : Z := 0.
Definition DD_HANDLE_MAGIC_WORD : Z := 0xA5A50000.
Definition DD_HANDLE_MAGIC_MASK : Z := 0xFFFF0000.
Definition DD_HANDLE_ID_MASK : Z := 0x0000FFFF.
Definition DD_HANDLE_UNVALID : Z := u32 (-1).
Definition DD_ID_UNVALID : Z := u32 (-1).
Definition DD_MAX_DEV : nat := 10.
Definition DD_MAX_SDEV : nat := 16.
Definition DD_MAX_NAME_LEN : Z := 16.

(** The bytes a driver reads into [user_buf] are the second component of the
    result of [op_read]; [op_control] gets and returns the word its [param]
    pointer points to. *)
Record DD_OPERATIONS (W : Type) := {
  op_open : option (Z -> M W Z);
  op_close : option (M W Z);
  op_read : option (Z -> Z -> M W (Z * list Z));
  op_write : option (list Z -> Z -> Z -> M W Z);
  op_control : option (Z -> Z -> M W (Z * Z));
}.
Arguments op_open {W}. Arguments op_close {W}. Arguments op_read {W}.
Arguments op_write {W}. Arguments op_control {W}.

Record SDD_OPERATIONS (W : Type) := { sop_control : option (Z -> Z -> M W (Z * Z)) }.
Arguments sop_control {W}.

Inductive DD_STATE :=
  | DD_STATE_NODEVICE | DD_STATE_CLOSED | DD_STATE_OPENED | DD_STATE_BREAK | DD_STATE_SUCCESS.

#[export] Instance dd_state_eq_dec : EqDecision DD_STATE.
Proof. solve_decision. Defined.

(** The members [method] and [private] are never accessed. *)
Record DRV_DEV_S := DRV_DEV {
  name : option string;
  use_cnt : Z;
  state : DD_STATE;
  op : option Z;
}.
Definition DRV_SDEV_S := DRV_DEV_S.

#[export] Instance drv_dev_eq_dec : EqDecision DRV_DEV_S.
Proof. solve_decision. Defined.

Definition zero_dev : DRV_DEV_S := DRV_DEV None 0 DD_STATE_NODEVICE None.

Record drv_state (W : Type) := DrvState {
  drv_dev_tbl : list DRV_DEV_S;
  drv_sdev_tbl : list DRV_SDEV_S;
  world : W;
}.
Arguments DrvState {W}. Arguments drv_dev_tbl {W}. Arguments drv_sdev_tbl {W}.
Arguments world {W}.

(** ** String functions (os/str_arch.c) on C strings *)

Definition os_strlen (s : string) : Z := Z.of_nat (String.length s).

Fixpoint os_strncmp (s1 s2 : string) (n : nat) : Z :=
  match n with
  | O => 0
  | S n' =>
    match s1, s2 with
    | EmptyString, EmptyString => 0
    | EmptyString, String c _ => - Z.of_nat (nat_of_ascii c)
    | String c _, EmptyString => Z.of_nat (nat_of_ascii c)
    | String c1 r1, String c2 r2 =>
      if decide (c1 = c2) then os_strncmp r1 r2 n'
      else Z.of_nat (nat_of_ascii c1) - Z.of_nat (nat_of_ascii c2)
    end
  end.

(** A comparison with the null pointer as first string: nothing is read only
    when the length is zero. *)
Definition strncmp_ptr (s1 : option string) (s2 : string) (n : nat) : res Z :=
  match n, s1 with
  | O, _ => Val 0
  | S _, None => Err BadAccess
  | S _, Some s => Val (os_strncmp s s2 n)
  end.

(** ** Handles *)

Definition ddev_check_handle (handle : Z) : Z :=
  let magic := Z.land handle DD_HANDLE_MAGIC_MASK in
  let id := Z.land handle DD_HANDLE_ID_MASK in
  if (DD_HANDLE_MAGIC_WORD =? magic) && (id <? Z.of_nat DD_MAX_DEV)
  then DRV_SUCCESS else DRV_FAILURE.

Definition ddev_make_handle (id : Z) : Z :=
  if Z.of_nat DD_MAX_DEV <=? id then DD_HANDLE_UNVALID
  else u32 (id + DD_HANDLE_MAGIC_WORD).

Definition ddev_get_id_from_handle (handle : Z) : Z :=
  let magic := Z.land handle DD_HANDLE_MAGIC_MASK in
  let id := Z.land handle DD_HANDLE_ID_MASK in
  if negb (magic =? DD_HANDLE_MAGIC_WORD) then DD_ID_UNVALID else id.

(** The loops of the search functions: the index of the first entry whose name
    starts with the [name_len] characters of [dev_name]. *)
Fixpoint find_name (tbl : list DRV_DEV_S) (dev_name : string) (i : nat) : res (option nat) :=
  match tbl with
  | [] => Val None
  | d :: tbl' =>
    r ← strncmp_ptr (name d) dev_name (String.length dev_name);
    if r =? 0 then Val (Some i) else find_name tbl' dev_name (S i)
  end.

(** The loops of the registration functions: the first free entry. *)
Fixpoint find_free (tbl : list DRV_DEV_S) (i : nat) : option nat :=
  match tbl with
  | [] => None
  | d :: tbl' =>
    match name d, state d with
    | None, DD_STATE_NODEVICE => Some i
    | _, _ => find_free tbl' (S i)
    end
  end.

Section registry.
Context {W : Type}.
Context (dev_ops : Z -> DD_OPERATIONS W) (sdev_ops : Z -> SDD_OPERATIONS W).
Abbreviation st := (drv_state W).
Implicit Types s : st.

Definition get_dev (id : Z) : M st DRV_DEV_S := fun s =>
  match zlookup (drv_dev_tbl s) id with
  | Some d => Val (d, s)
  | None => Err BadAccess
  end.

Definition set_dev (id : Z) (d : DRV_DEV_S) : M st unit := modify (fun s =>
  DrvState (<[Z.to_nat id := d]> (drv_dev_tbl s)) (drv_sdev_tbl s) (world s)).

(** Call a driver function: it changes the state of the drivers only. *)
Definition call {A} (m : M W A) : M st A := fun s =>
  match m (world s) with
  | Val (a, w) => Val (a, DrvState (drv_dev_tbl s) (drv_sdev_tbl s) w)
  | Err f => Err f
  end.

Definition drv_model_init : M st Z :=
  modify (fun s => DrvState (replicate DD_MAX_DEV zero_dev) (replicate DD_MAX_SDEV zero_dev) (world s));;
  mret DRV_SUCCESS.

Definition drv_model_uninit : M st Z :=
  modify (fun s => DrvState (replicate DD_MAX_DEV zero_dev) (replicate DD_MAX_SDEV zero_dev) (world s));;
  mret DRV_SUCCESS.

(** Returns the handle and, when [status] was written, its value. *)
Definition ddev_open (dev_name : option string) (status : bool) (op_flag : Z)
  : M st (Z * option Z) :=
  match dev_name with
  | None => fail BadAccess (* os_strlen(dev_name) comes before the test *)
  | Some nm =>
    let name_len := os_strlen nm in
    if negb status || (DD_MAX_NAME_LEN <? name_len) then mret (DD_HANDLE_UNVALID, None)
    else
      s ← get;
      found ← lift_res (find_name (drv_dev_tbl s) nm 0);
      match found with
      | None => fail AssertFail
      | Some i =>
        let id := Z.of_nat i in
        dev ← get_dev id;
        r ← match state dev with
            | DD_STATE_OPENED => mret (ddev_make_handle id, DRV_FAILURE)
            | DD_STATE_CLOSED =>
              stat ← match op dev ≫= fun p => op_open (dev_ops p) with
                     | Some f => call (f op_flag)
                     | None => mret DRV_FAILURE
                     end;
              set_dev id (DRV_DEV (name dev) 0 DD_STATE_OPENED (op dev));;
              mret (ddev_make_handle id, stat)
            | _ => mret (DD_HANDLE_UNVALID, DRV_FAILURE)
            end;
        dev' ← get_dev id;
        set_dev id (DRV_DEV (name dev') (u32 (use_cnt dev' + 1)) (state dev') (op dev'));;
        assert (negb (DD_HANDLE_UNVALID =? r.1));;
        mret (r.1, Some r.2)
      end
  end.

Definition ddev_close (handle : Z) : M st Z :=
  let id := ddev_get_id_from_handle handle in
  if DD_ID_UNVALID =? id then mret DRV_FAILURE
  else
    dev ← get_dev id;
    let cnt := u32 (use_cnt dev - 1) in
    set_dev id (DRV_DEV (name dev) cnt (state dev) (op dev));;
    when (cnt =? 0) (
      match op dev ≫= fun p => op_close (dev_ops p) with
      | Some f => _ ← call f; mret tt
      | None => mret tt
      end;;
      set_dev id (DRV_DEV (name dev) cnt DD_STATE_CLOSED (op dev)));;
    mret DRV_SUCCESS.

(** The second component is what was stored in [user_buf]. *)
Definition ddev_read (handle count op_flag : Z) : M st (Z * list Z) :=
  let id := ddev_get_id_from_handle handle in
  if DD_ID_UNVALID =? id then mret (DRV_FAILURE, [])
  else
    dev ← get_dev id;
    match op dev ≫= fun p => op_read (dev_ops p) with
    | Some f => call (f count op_flag)
    | None => mret (DRV_FAILURE, [])
    end.

Definition ddev_write (handle : Z) (user_buf : list Z) (count op_flag : Z) : M st Z :=
  let id := ddev_get_id_from_handle handle in
  if DD_ID_UNVALID =? id then mret DRV_FAILURE
  else
    dev ← get_dev id;
    match op dev ≫= fun p => op_write (dev_ops p) with
    | Some f => call (f user_buf count op_flag)
    | None => mret DRV_FAILURE
    end.

Definition ddev_control (handle cmd param : Z) : M st (Z * Z) :=
  let id := ddev_get_id_from_handle handle in
  if DD_ID_UNVALID =? id then mret (DRV_FAILURE, param)
  else
    dev ← get_dev id;
    match op dev ≫= fun p => op_control (dev_ops p) with
    | Some f => call (f cmd param)
    | None => mret (DRV_FAILURE, param)
    end.

Definition sddev_control (dev_name : option string) (cmd param : Z) : M st (Z * Z) :=
  match dev_name with
  | None => fail AssertFail
  | Some nm =>
    s ← get;
    found ← lift_res (find_name (drv_sdev_tbl s) nm 0);
    match found ≫= fun i => drv_sdev_tbl s !! i ≫= op with
    | None => fail AssertFail (* operation is still null *)
    | Some p =>
      match sop_control (sdev_ops p) with
      | Some f => call (f cmd param)
      | None => mret (DRV_FAILURE, param)
      end
    end
  end.

Definition ddev_register_dev (dev_name : option string) (optr : option Z) : M st Z :=
  match dev_name, optr with
  | Some nm, Some p =>
    s ← get;
    match find_free (drv_dev_tbl s) 0 with
    | None => fail AssertFail
    | Some i =>
      dev ← get_dev (Z.of_nat i);
      set_dev (Z.of_nat i) (DRV_DEV (Some nm) (use_cnt dev) DD_STATE_CLOSED (Some p));;
      mret DRV_SUCCESS
    end
  | _, _ => mret DRV_FAILURE
  end.

Definition sddev_register_dev (dev_name : option string) (optr : option Z) : M st Z :=
  match dev_name, optr with
  | Some nm, Some p =>
    s ← get;
    match find_free (drv_sdev_tbl s) 0 with
    | None => fail AssertFail
    | Some i =>
      let cnt := default 0 (use_cnt <$> drv_sdev_tbl s !! i) in
      modify (fun s => DrvState (drv_dev_tbl s)
        (<[i := DRV_DEV (Some nm) cnt DD_STATE_CLOSED (Some p)]> (drv_sdev_tbl s)) (world s));;
      mret DRV_SUCCESS
    end
  | _, _ => mret DRV_FAILURE
  end.

Definition ddev_unregister_dev (dev_name : option string) : M st Z :=
  match dev_name with
  | None => mret DRV_FAILURE
  | Some nm =>
    if DD_MAX_NAME_LEN <? os_strlen nm then mret DRV_FAILURE
    else
      s ← get;
      found ← lift_res (find_name (drv_dev_tbl s) nm 0);
      match found with
      | None => fail AssertFail (* dev_ptr still points to the last entry *)
      | Some i =>
        dev ← get_dev (Z.of_nat i);
        set_dev (Z.of_nat i) (DRV_DEV None (use_cnt dev) DD_STATE_NODEVICE None);;
        mret DRV_SUCCESS
      end
  end.

(** The search of this one stops after [DD_MAX_DEV] of the [DD_MAX_SDEV] entries. *)
Definition sddev_unregister_dev (dev_name : option string) : M st Z :=
  match dev_name with
  | None => mret DRV_FAILURE
  | Some nm =>
    if DD_MAX_NAME_LEN <? os_strlen nm then mret DRV_FAILURE
    else
      s ← get;
      found ← lift_res (find_name (take DD_MAX_DEV (drv_sdev_tbl s)) nm 0);
      match found with
      | None => fail AssertFail
      | Some i =>
        let cnt := default 0 (use_cnt <$> drv_sdev_tbl s !! i) in
        modify (fun s => DrvState (drv_dev_tbl s)
          (<[i := DRV_DEV None cnt DD_STATE_NODEVICE None]> (drv_sdev_tbl s)) (world s));;
        mret DRV_SUCCESS
      end
  end.
End registry.

(** * Lemmas *)

(** A string that C can represent: no NUL inside. *)
Fixpoint cstr (s : string) : bool :=
  match s with
  | EmptyString => true
  | String c s' => negb (Nat.eqb (nat_of_ascii c) 0) && cstr s'
  end.

Lemma strncmp_prefix s1 s2 :
  String.prefix s2 s1 = true -> os_strncmp s1 s2 (String.length s2) = 0.
Proof.
  revert s1. induction s2 as [|c s2 IH]; intros [|c1 s1]; simpl; try done.
  destruct (ascii_dec c c1) as [->|]; [|done].
  intros H. rewrite decide_True by done. by apply IH.
Qed.

Lemma nat_of_ascii_inj c c' : nat_of_ascii c = nat_of_ascii c' -> c = c'.
Proof. intros H. by rewrite <- (ascii_nat_embedding c), H, ascii_nat_embedding. Qed.

Lemma strncmp_not_prefix s1 s2 :
  cstr s2 = true -> String.prefix s2 s1 = false -> os_strncmp s1 s2 (String.length s2) <> 0.
Proof.
  revert s1. induction s2 as [|c s2 IH]; intros s1; [by destruct s1|].
  cbn [cstr String.length os_strncmp]. intros [Hc Hs]%andb_prop.
  apply negb_true_iff, Nat.eqb_neq in Hc. destruct s1 as [|c1 s1]; [cbn; lia|].
  cbn [String.prefix]. destruct (ascii_dec c c1) as [->|Hne].
  - intros Hp. cbn [os_strncmp]. rewrite decide_True by done. by apply IH.
  - intros _. cbn [os_strncmp]. rewrite decide_False by congruence.
    intros H. apply Hne, nat_of_ascii_inj. lia.
Qed.

(** [names_before tbl nm i]: the entries before [i] are named, and not by an
    extension of [nm]. *)
Definition names_before (tbl : list DRV_DEV_S) (nm : string) (i : nat) : Prop :=
  forall j d, (j < i)%nat -> tbl !! j = Some d ->
    exists n, name d = Some n /\ String.prefix nm n = false.

Lemma find_name_shift tbl nm k i j :
  cstr nm = true -> nm <> EmptyString -> names_before tbl nm i ->
  (exists d n, tbl !! i = Some d /\ name d = Some n /\ String.prefix nm n = true) ->
  k = (j + i)%nat -> find_name tbl nm j = Val (Some k).
Proof.
  intros Hc Hne. revert i j k. induction tbl as [|d tbl IH]; intros i j k Hb (d' & n & Hi & Hn & Hp) ->; [done|].
  assert (Hlen : exists m, String.length nm = S m) by (destruct nm; simpl; eauto; done).
  destruct Hlen as [m Hm]. destruct i as [|i].
  - injection Hi as ->. cbn [find_name]. unfold strncmp_ptr. rewrite Hn, Hm. cbn.
    rewrite <- Hm, strncmp_prefix by done. rewrite Nat.add_0_r. done.
  - destruct (Hb 0%nat d) as (n0 & Hn0 & Hp0); [lia|done|].
    cbn [find_name]. unfold strncmp_ptr. rewrite Hn0, Hm. cbn. rewrite <- Hm.
    pose proof (strncmp_not_prefix n0 nm Hc Hp0) as Hnz.
    destruct (os_strncmp n0 nm (String.length nm) =? 0) eqn:E; [apply Z.eqb_eq in E; congruence|].
    apply (IH i); [|eauto|lia]. intros j' d0 Hj Hl. apply (Hb (S j') d0); [lia|done].
Qed.

Lemma find_name_first tbl nm i d n :
  cstr nm = true -> nm <> EmptyString -> names_before tbl nm i ->
  tbl !! i = Some d -> name d = Some n -> String.prefix nm n = true ->
  find_name tbl nm 0 = Val (Some i).
Proof. intros. apply (find_name_shift _ _ _ i); eauto. Qed.

Lemma find_name_lt tbl nm j i : find_name tbl nm j = Val (Some i) -> (j <= i < j + length tbl)%nat.
Proof.
  revert j. induction tbl as [|d tbl IH]; intros j; cbn [find_name length]; [done|].
  destruct (strncmp_ptr _ _ _) as [r|]; [|done]. cbn.
  destruct (r =? 0); intros H; [injection H as ->; lia|]. apply IH in H. lia.
Qed.

(** [sdev_slot tbl nm p]: the device [sddev_control nm] finds has the operations at [p]. *)
Definition sdev_slot (tbl : list DRV_SDEV_S) (nm : string) (p : Z) : Prop :=
  exists i, find_name tbl nm 0 = Val (Some i) /\ (tbl !! i ≫= op) = Some p.

Lemma sddev_control_slot {W} (sdev_ops : Z -> SDD_OPERATIONS W) (s : drv_state W) nm p f cmd v :
  sdev_slot (drv_sdev_tbl s) nm p -> sop_control (sdev_ops p) = Some f ->
  sddev_control sdev_ops (Some nm) cmd v s = call (f cmd v) s.
Proof.
  intros (i & Hf & Hp) Ho. unfold sddev_control. mstep. mstep by (unfold lift_res; rewrite Hf; reflexivity).
  cbn [mbind option_bind]. cbn [mbind option_bind] in Hp. by rewrite Hp, Ho.
Qed.

(** [sddev_control] for the driver whose operations are at [own] and are given as
    [ctrl], with any type of parameters; operations of other devices are not
    this driver's.  It is the call of drivers that use the registry in turn. *)
Definition dev_control {W P R} (name : string) (own : Z) (ctrl : Z -> P -> M (drv_state W) R) (cmd : Z) (param : P) : M (drv_state W) R :=
  s ← get;
  found ← lift_res (find_name (drv_sdev_tbl s) name 0);
  match found ≫= fun i => drv_sdev_tbl s !! i ≫= op with
  | None => fail AssertFail
  | Some p => if p =? own then ctrl cmd param else fail BadAccess
  end.

Lemma dev_control_val {W P R} name own (ctrl : Z -> P -> M (drv_state W) R) cmd param s : sdev_slot (drv_sdev_tbl s) name own ->
  dev_control name own ctrl cmd param s = ctrl cmd param s.
Proof.
  intros (i & Hf & Hp). unfold dev_control. mstep. mstep by (unfold lift_res; rewrite Hf; reflexivity).
  cbn [mbind option_bind] in *. by rewrite Hp, Z.eqb_refl.
Qed.

(** Operations on a part of the state. *)
Definition sop_lift {W V} (lift : forall A, M W A -> M V A) (o : SDD_OPERATIONS W) : SDD_OPERATIONS V :=
  {| sop_control := (fun c cmd param => lift _ (c cmd param)) <$> sop_control o |}.

Definition lifts {V W} (part : W -> V) (put : W -> V -> W) (lift : forall A, M V A -> M W A) : Prop :=
  forall A (m : M V A) w, lift A m w = match m (part w) with Val (a, v) => Val (a, put w v) | Err f => Err f end.

(** A command of a device whose operations act on a part of the state. *)
Lemma sddev_control_lift {V W} part put lift (o : SDD_OPERATIONS V) f (sdev_ops : Z -> SDD_OPERATIONS W) (s : drv_state W) nm p cmd v r v' :
  lifts part put lift -> sdev_slot (drv_sdev_tbl s) nm p -> sdev_ops p = sop_lift lift o -> sop_control o = Some f ->
  f cmd v (part (world s)) = Val (r, v') ->
  sddev_control sdev_ops (Some nm) cmd v s = Val (r, DrvState (drv_dev_tbl s) (drv_sdev_tbl s) (put (world s) v')).
Proof.
  intros Hl Hs Ho Hf E. rewrite (sddev_control_slot _ _ _ _ (fun cmd param => lift _ (f cmd param)) _ _ Hs) by (by rewrite Ho; cbn; rewrite Hf).
  unfold call. by rewrite Hl, E.
Qed.

Lemma touches_call {hw} `{RegBus hw} {W A} (proj : W -> hw) P (m : M W A) :
  touches proj P m -> touches (fun s => proj (world s)) P (call m).
Proof.
  intros Hm R HR s a s'. unfold call. destruct (m (world s)) as [[b w]|] eqn:E; [|done]. intros [= _ <-]. cbn. by eapply Hm.
Qed.

Lemma find_free_lookup tbl j i :
  find_free tbl j = Some i ->
  (j <= i)%nat /\ exists d, tbl !! (i - j)%nat = Some d /\ name d = None /\ state d = DD_STATE_NODEVICE.
Proof.
  revert j. induction tbl as [|d tbl IH]; intros j; cbn [find_free]; [done|].
  destruct (name d) eqn:En; [|destruct (state d) eqn:Es];
    try (intros H; injection H as ->; rewrite Nat.sub_diag; split; [lia|]; exists d; done);
    intros (Hj & d' & Hl & Hd)%IH; (split; [lia|]); exists d';
    (replace (i - j)%nat with (S (i - S j)) by lia); done.
Qed.

(** Decide the mask tests of a handle. *)
Lemma handle_fields id :
  0 <= id < Z.of_nat DD_MAX_DEV ->
  Z.land (u32 (id + DD_HANDLE_MAGIC_WORD)) DD_HANDLE_MAGIC_MASK = DD_HANDLE_MAGIC_WORD /\
  Z.land (u32 (id + DD_HANDLE_MAGIC_WORD)) DD_HANDLE_ID_MASK = id.
Proof.
  intros H. assert (Hin : In (Z.to_nat id) (seq 0 DD_MAX_DEV)) by (apply in_seq; unfold DD_MAX_DEV in *; lia).
  replace id with (Z.of_nat (Z.to_nat id)) by lia. generalize dependent (Z.to_nat id). intros n.
  simpl. intuition (subst; done).
Qed.

Lemma get_id_make_handle id :
  0 <= id < Z.of_nat DD_MAX_DEV -> ddev_get_id_from_handle (ddev_make_handle id) = id.
Proof.
  intros H. unfold ddev_make_handle, ddev_get_id_from_handle.
  rewrite (proj2 (Z.leb_gt _ _)) by lia. destruct (handle_fields id H) as [-> ->]. done.
Qed.

Lemma make_handle_valid id :
  0 <= id < Z.of_nat DD_MAX_DEV -> (DD_HANDLE_UNVALID =? ddev_make_handle id) = false.
Proof.
  intros H. unfold ddev_make_handle. rewrite (proj2 (Z.leb_gt _ _)) by lia.
  unfold DD_MAX_DEV, DD_HANDLE_UNVALID, DD_HANDLE_MAGIC_WORD in *. apply Z.eqb_neq. zlia.
Qed.

Lemma handle_id_valid i :
  (i < DD_MAX_DEV)%nat -> ddev_get_id_from_handle (ddev_make_handle (Z.of_nat i)) = Z.of_nat i /\
  (DD_ID_UNVALID =? Z.of_nat i) = false.
Proof.
  intros H. split; [apply get_id_make_handle; lia|].
  apply Z.eqb_neq. unfold DD_ID_UNVALID, DD_MAX_DEV in *. zlia.
Qed.

Section registry_facts.
Context {W : Type}.
Context (dev_ops : Z -> DD_OPERATIONS W).
Implicit Types s : drv_state W.

Definition upd_dev s (i : nat) (d : DRV_DEV_S) (w : W) : drv_state W :=
  DrvState (<[i := d]> (drv_dev_tbl s)) (drv_sdev_tbl s) w.

(** What the open and close functions of a driver do to its state. *)
Definition run_open (d : DRV_DEV_S) (op_flag : Z) (w : W) : res (Z * W) :=
  match op d ≫= fun p => op_open (dev_ops p) with
  | Some f => f op_flag w
  | None => Val (DRV_FAILURE, w)
  end.

Definition run_close (d : DRV_DEV_S) (w : W) : res W :=
  match op d ≫= fun p => op_close (dev_ops p) with
  | Some f => match f w with Val (_, w') => Val w' | Err e => Err e end
  | None => Val w
  end.

(** [slot s nm i d]: the device that [ddev_open nm] finds is [d], at [i]. *)
Definition slot s (nm : string) (i : nat) (d : DRV_DEV_S) : Prop :=
  find_name (drv_dev_tbl s) nm 0 = Val (Some i) /\
  drv_dev_tbl s !! i = Some d /\ (i < DD_MAX_DEV)%nat /\ os_strlen nm <= DD_MAX_NAME_LEN.

Lemma get_dev_val s i d :
  drv_dev_tbl s !! i = Some d -> get_dev (Z.of_nat i) s = Val (d, s).
Proof. intros H. unfold get_dev. by rewrite zlookup_nat, H. Qed.

Lemma lookup_upd s i d d' w :
  drv_dev_tbl s !! i = Some d -> drv_dev_tbl (upd_dev s i d' w) !! i = Some d'.
Proof. intros H. apply list_lookup_insert_eq. by apply lookup_lt_Some in H. Qed.

Lemma find_name_insert tbl nm i j d d' :
  tbl !! i = Some d -> name d' = name d -> find_name (<[i := d']> tbl) nm j = find_name tbl nm j.
Proof.
  revert i j. induction tbl as [|e tbl IH]; intros [|i] j; intros Hi Hn; try done; cbn.
  - injection Hi as ->. by rewrite Hn.
  - destruct (strncmp_ptr _ _ _) as [r|]; [|done]. cbn.
    destruct (r =? 0); [done|]. by apply IH.
Qed.

Lemma slot_upd s nm i d d' w :
  slot s nm i d -> name d' = name d -> slot (upd_dev s i d' w) nm i d'.
Proof.
  intros (Hf & Hl & Hi & Hlen) Hn. split_and!; try done.
  - unfold upd_dev. cbn. by rewrite (find_name_insert _ _ _ _ d).
  - by apply (lookup_upd _ _ d).
Qed.

Lemma get_dev_upd s i d d' w :
  drv_dev_tbl s !! i = Some d -> get_dev (Z.of_nat i) (upd_dev s i d' w) = Val (d', upd_dev s i d' w).
Proof. intros H. apply get_dev_val. by eapply lookup_upd. Qed.

Lemma set_dev_val s i d : set_dev (Z.of_nat i) d s = Val (tt, upd_dev s i d (world s)).
Proof. unfold set_dev, modify. by rewrite Nat2Z.id. Qed.

Lemma upd_upd s i d d' w w' : upd_dev (upd_dev s i d w) i d' w' = upd_dev s i d' w'.
Proof. unfold upd_dev. cbn. by rewrite list_insert_insert_eq. Qed.

Lemma upd_same_dev s i d w :
  drv_dev_tbl s !! i = Some d -> DrvState (drv_dev_tbl s) (drv_sdev_tbl s) w = upd_dev s i d w.
Proof. intros H. unfold upd_dev. by rewrite list_insert_id. Qed.

Lemma open_closed s nm i d op_flag z w :
  slot s nm i d -> state d = DD_STATE_CLOSED -> run_open d op_flag (world s) = Val (z, w) ->
  ddev_open dev_ops (Some nm) true op_flag s =
  Val ((ddev_make_handle (Z.of_nat i), Some z),
       upd_dev s i (DRV_DEV (name d) 1 DD_STATE_OPENED (op d)) w).
Proof.
  intros (Hf & Hl & Hi & Hlen) Hst Hop. unfold ddev_open. cbn [negb orb].
  rewrite (proj2 (Z.ltb_ge _ _)) by done.
  mstep. mstep by (unfold lift_res; rewrite Hf; reflexivity).
  mstep by (apply (get_dev_val _ _ _ Hl)). rewrite Hst.
  eapply bind_val.
  { eapply (bind_val _ _ _ z (upd_dev s i d w)).
    - rewrite <- upd_same_dev by done. unfold run_open in Hop. unfold call.
      destruct (op d ≫= _); [by rewrite Hop|]. injection Hop as <- <-. by destruct s.
    - mstep by (apply set_dev_val). reflexivity. }
  cbn [world upd_dev]. rewrite upd_upd. mstep by (by eapply get_dev_upd).
  mstep by (apply set_dev_val). cbn [fst snd]. unfold assert.
  rewrite make_handle_valid by lia. mstep. by rewrite upd_upd.
Qed.

Lemma open_opened s nm i d op_flag :
  slot s nm i d -> state d = DD_STATE_OPENED ->
  ddev_open dev_ops (Some nm) true op_flag s =
  Val ((ddev_make_handle (Z.of_nat i), Some DRV_FAILURE),
       upd_dev s i (DRV_DEV (name d) (u32 (use_cnt d + 1)) DD_STATE_OPENED (op d)) (world s)).
Proof.
  intros (Hf & Hl & Hi & Hlen) Hst. unfold ddev_open. cbn [negb orb].
  rewrite (proj2 (Z.ltb_ge _ _)) by done.
  mstep. mstep by (unfold lift_res; rewrite Hf; reflexivity).
  mstep by (apply (get_dev_val _ _ _ Hl)). rewrite Hst. mstep.
  mstep by (apply (get_dev_val _ _ _ Hl)). mstep by (apply set_dev_val).
  cbn [fst snd]. unfold assert. rewrite make_handle_valid by lia. mstep. by rewrite Hst.
Qed.

(** A close that is not the last one only lowers the count. *)
Lemma close_shared s i d :
  drv_dev_tbl s !! i = Some d -> (i < DD_MAX_DEV)%nat -> u32 (use_cnt d - 1) <> 0 ->
  ddev_close dev_ops (ddev_make_handle (Z.of_nat i)) s =
  Val (DRV_SUCCESS, upd_dev s i (DRV_DEV (name d) (u32 (use_cnt d - 1)) (state d) (op d)) (world s)).
Proof.
  intros Hl Hi Hc. unfold ddev_close. destruct (handle_id_valid i Hi) as [-> ->].
  mstep by (apply (get_dev_val _ _ _ Hl)). mstep by (apply set_dev_val).
  unfold when. rewrite (proj2 (Z.eqb_neq _ _)) by done. by mstep.
Qed.

Lemma close_last s i d w :
  drv_dev_tbl s !! i = Some d -> (i < DD_MAX_DEV)%nat -> use_cnt d = 1 ->
  run_close d (world s) = Val w ->
  ddev_close dev_ops (ddev_make_handle (Z.of_nat i)) s =
  Val (DRV_SUCCESS, upd_dev s i (DRV_DEV (name d) 0 DD_STATE_CLOSED (op d)) w).
Proof.
  intros Hl Hi Hc Hw. unfold ddev_close. destruct (handle_id_valid i Hi) as [-> ->].
  mstep by (apply (get_dev_val _ _ _ Hl)). mstep by (apply set_dev_val).
  rewrite Hc. cbn [Z.sub u32]. unfold when. eapply bind_val.
  { eapply (bind_val _ _ _ tt (upd_dev s i (DRV_DEV (name d) 0 (state d) (op d)) w)).
    - unfold run_close in Hw. unfold call. cbn [world upd_dev drv_dev_tbl drv_sdev_tbl].
      destruct (op d ≫= _) as [f|].
      + destruct (f (world s)) as [[z w']|] eqn:E; [|done].
        injection Hw as <-. unfold mbind, M_bind. cbn. by rewrite E.
      + injection Hw as <-. done.
    - apply set_dev_val. }
  cbn [world upd_dev]. by rewrite upd_upd.
Qed.
End registry_facts.

(** * The table invariant *)

(** A slot has a name exactly when it has operations; its count is a 32-bit
    word and it is free, closed or opened. *)
Definition dev_inv (d : DRV_DEV_S) : Prop :=
  (name d = None <-> op d = None) /\ is_u32 (use_cnt d) /\
  (state d = DD_STATE_NODEVICE -> name d = None) /\
  (state d = DD_STATE_NODEVICE \/ state d = DD_STATE_CLOSED \/ state d = DD_STATE_OPENED).

Definition reg_inv {W} (s : drv_state W) : Prop :=
  length (drv_dev_tbl s) = DD_MAX_DEV /\ length (drv_sdev_tbl s) = DD_MAX_SDEV /\
  Forall dev_inv (drv_dev_tbl s) /\ Forall dev_inv (drv_sdev_tbl s).

(** The calls a client can make. *)
Inductive drv_call :=
  | CInit | CUninit
  | COpen (nm : option string) (status : bool) (flag : Z)
  | CClose (h : Z)
  | CRead (h count flag : Z)
  | CWrite (h : Z) (buf : list Z) (count flag : Z)
  | CControl (h cmd param : Z)
  | CSControl (nm : option string) (cmd param : Z)
  | CRegister (nm : option string) (p : option Z)
  | CSRegister (nm : option string) (p : option Z)
  | CUnregister (nm : option string)
  | CSUnregister (nm : option string).

Section invariant.
Context {W : Type}.
Context (dev_ops : Z -> DD_OPERATIONS W) (sdev_ops : Z -> SDD_OPERATIONS W).
Abbreviation st := (drv_state W).

Definition drop_val {A} (m : M st A) : M st unit := _ ← m; mret tt.

Definition do_call (c : drv_call) : M st unit :=
  match c with
  | CInit => drop_val drv_model_init
  | CUninit => drop_val drv_model_uninit
  | COpen nm stp flag => drop_val (ddev_open dev_ops nm stp flag)
  | CClose h => drop_val (ddev_close dev_ops h)
  | CRead h n f => drop_val (ddev_read dev_ops h n f)
  | CWrite h b n f => drop_val (ddev_write dev_ops h b n f)
  | CControl h c p => drop_val (ddev_control dev_ops h c p)
  | CSControl nm c p => drop_val (sddev_control sdev_ops nm c p)
  | CRegister nm p => drop_val (ddev_register_dev nm p)
  | CSRegister nm p => drop_val (sddev_register_dev nm p)
  | CUnregister nm => drop_val (ddev_unregister_dev nm)
  | CSUnregister nm => drop_val (sddev_unregister_dev nm)
  end.

Fixpoint do_calls (cs : list drv_call) : M st unit :=
  match cs with [] => mret tt | c :: cs' => do_call c;; do_calls cs' end.

Lemma zero_dev_inv : dev_inv zero_dev.
Proof. unfold dev_inv, zero_dev. cbn. repeat split; try (auto || lia). Qed.

Lemma ht_get_dev id : ht reg_inv (get_dev (W := W) id) (fun d s => dev_inv d /\ reg_inv s).
Proof.
  intros s d s' Hs. unfold get_dev, zlookup.
  destruct (0 <=? id); [|done]. destruct (_ !! _) as [d'|] eqn:E; [|done].
  intros Hm. injection Hm as <- <-. split; [|done].
  destruct Hs as (_ & _ & Hf & _). by eapply Forall_lookup_1.
Qed.

Lemma ht_set_dev id d : dev_inv d -> ht reg_inv (set_dev (W := W) id d) (fun _ => reg_inv).
Proof.
  intros Hd. apply ht_modify. intros s (? & ? & ? & ?). split_and!; cbn; try done.
  - by rewrite length_insert.
  - by apply Forall_insert.
Qed.

Lemma ht_call {A} (m : M W A) : ht reg_inv (call m) (fun _ => reg_inv).
Proof.
  intros s a s' Hs. unfold call. destruct (m (world s)) as [[? ?]|]; [|done].
  intros H. injection H as <- <-. exact Hs.
Qed.

Lemma ht_set_sdev i d :
  dev_inv d -> ht reg_inv (modify (fun s : st =>
    DrvState (drv_dev_tbl s) (<[i := d]> (drv_sdev_tbl s)) (world s))) (fun _ => reg_inv).
Proof.
  intros Hd. apply ht_modify. intros s (? & ? & ? & ?). split_and!; cbn; try done.
  - by rewrite length_insert.
  - by apply Forall_insert.
Qed.

Lemma ht_reset : ht reg_inv (modify (fun s : st =>
    DrvState (replicate DD_MAX_DEV zero_dev) (replicate DD_MAX_SDEV zero_dev) (world s))) (fun _ => reg_inv).
Proof.
  apply ht_modify. intros s _. split_and!; cbn; try done;
    repeat constructor; apply zero_dev_inv.
Qed.

Lemma sdev_cnt_inv (s : st) i : reg_inv s -> is_u32 (default 0 (use_cnt <$> drv_sdev_tbl s !! i)).
Proof.
  intros (_ & _ & _ & Hf). destruct (_ !! i) as [d|] eqn:E; cbn; [|zlia].
  eapply Forall_lookup_1 in E; [|done]. apply E.
Qed.

Ltac inv_tac := unfold dev_inv in *; cbn in *; intuition (auto with word || congruence).

Ltac ht_auto :=
  repeat (cbv beta; match goal with
  | |- ht _ (mret _) _ => apply ht_ret; intros; by intuition auto
  | |- ht _ (fail _) _ => apply ht_fail
  | |- ht _ (call _) _ => apply ht_call
  | |- ht (fun s => _ /\ _) _ _ => apply ht_frame; intros ?
  | |- ht _ (mbind _ (get_dev _)) _ => eapply ht_bind; [apply ht_get_dev|intros ?]
  | |- ht _ (mbind _ (set_dev _ _)) _ => eapply ht_bind; [apply ht_set_dev; inv_tac|intros ?]
  | |- ht _ (set_dev _ _) _ => apply ht_set_dev; inv_tac
  | |- ht _ (mbind _ (call _)) _ => eapply ht_bind; [apply ht_call|intros ?]
  | |- ht _ (mbind _ (assert _)) _ => eapply ht_bind; [apply ht_assert|intros ?]
  | |- ht _ (match ?x with _ => _ end) _ => destruct x eqn:?
  end).

Lemma ht_open nm stp flag : ht reg_inv (ddev_open dev_ops nm stp flag) (fun _ => reg_inv).
Proof.
  unfold ddev_open. destruct nm as [nm|]; [|apply ht_fail].
  destruct (_ || _); [ht_auto|].
  eapply (ht_bind _ _ _ (fun s s' => s = s' /\ reg_inv s)); [by apply ht_get|].
  intros s. eapply (ht_bind _ _ _ (fun _ => reg_inv)).
  { apply ht_lift_res. by intros s' a [<- ?] _. }
  intros [i|]; [|apply ht_fail]. eapply ht_bind; [apply ht_get_dev|]. intros d.
  apply ht_frame. intros Hd. eapply (ht_bind _ _ _ (fun _ => reg_inv)).
  - destruct (state d); ht_auto. eapply (ht_bind _ _ _ (fun _ => reg_inv)).
    + destruct (op d ≫= _); ht_auto.
    + intros z. eapply ht_bind; [apply ht_set_dev|intros ?; ht_auto].
      unfold dev_inv in *. cbn in *. intuition (congruence || zlia).
  - intros r. ht_auto.
Qed.

Lemma ht_close h : ht reg_inv (ddev_close dev_ops h) (fun _ => reg_inv).
Proof.
  unfold ddev_close. destruct (_ =? _); [ht_auto|].
  eapply ht_bind; [apply ht_get_dev|]. intros d. apply ht_frame. intros Hd.
  ht_auto. eapply (ht_bind _ _ _ (fun _ => reg_inv)); [|intros; ht_auto].
  unfold when. destruct (_ =? 0); [|ht_auto].
  eapply (ht_bind _ _ _ (fun _ => reg_inv)).
  - destruct (op d ≫= _); ht_auto.
  - intros ?. apply ht_set_dev. unfold dev_inv in *. cbn. intuition (auto with word || congruence).
Qed.

Lemma ht_rw h n f b c p :
  ht reg_inv (ddev_read dev_ops h n f) (fun _ => reg_inv) /\
  ht reg_inv (ddev_write dev_ops h b n f) (fun _ => reg_inv) /\
  ht reg_inv (ddev_control dev_ops h c p) (fun _ => reg_inv).
Proof.
  unfold ddev_read, ddev_write, ddev_control. split_and!.
  all: destruct (_ =? _); ht_auto.
Qed.

Lemma ht_with_state {A} (m : st -> M st A) (Q : A -> st -> Prop) :
  (forall s, reg_inv s -> ht reg_inv (m s) Q) -> ht reg_inv (s ← get; m s) Q.
Proof. intros H s a s' Hs. by apply H. Qed.

Lemma ht_found {A B} (r : res A) (k : A -> M st B) (Q : B -> st -> Prop) :
  (forall a, ht reg_inv (k a) Q) -> ht reg_inv (a ← lift_res r; k a) Q.
Proof. intros H. eapply (ht_bind _ _ _ (fun _ => reg_inv)); [|done]. by apply ht_lift_res. Qed.

Lemma ht_register nm p :
  ht reg_inv (ddev_register_dev nm p) (fun _ => reg_inv (W := W)) /\
  ht reg_inv (sddev_register_dev nm p) (fun _ => reg_inv (W := W)).
Proof.
  unfold ddev_register_dev, sddev_register_dev. split.
  all: destruct nm as [nm|], p as [p|]; try (ht_auto; fail).
  all: apply ht_with_state; intros s Hs; destruct (find_free _ _) as [i|]; [|apply ht_fail].
  - ht_auto.
  - eapply ht_bind; [apply ht_set_sdev|intros ?; ht_auto].
    pose proof (sdev_cnt_inv s i Hs). inv_tac.
Qed.

Lemma ht_unregister nm :
  ht reg_inv (ddev_unregister_dev nm) (fun _ => reg_inv (W := W)) /\
  ht reg_inv (sddev_unregister_dev nm) (fun _ => reg_inv (W := W)).
Proof.
  unfold ddev_unregister_dev, sddev_unregister_dev. split.
  all: destruct nm as [nm|]; [|ht_auto]; destruct (_ <? _); [ht_auto|].
  all: apply ht_with_state; intros s Hs; apply ht_found; intros [i|]; [|apply ht_fail].
  - ht_auto.
  - eapply ht_bind; [apply ht_set_sdev|intros ?; ht_auto].
    pose proof (sdev_cnt_inv s i Hs). inv_tac.
Qed.

Lemma ht_sctl nm c p : ht reg_inv (sddev_control sdev_ops nm c p) (fun _ => reg_inv).
Proof.
  unfold sddev_control. destruct nm as [nm|]; [|apply ht_fail].
  apply ht_with_state. intros s Hs. apply ht_found. intros a. destruct (a ≫= _); ht_auto.
Qed.

Lemma do_call_inv c : ht reg_inv (do_call c) (fun _ => reg_inv).
Proof.
  destruct c; unfold do_call, drop_val, drv_model_init, drv_model_uninit;
    (eapply (ht_bind _ _ _ (fun _ => reg_inv)); [|intros; ht_auto]).
  1,2: eapply ht_bind; [apply ht_reset|intros; ht_auto].
  - apply ht_open.
  - apply ht_close.
  - apply (ht_rw _ _ _ [] 0 0).
  - by apply ht_rw.
  - by apply (ht_rw _ 0 0 []).
  - apply ht_sctl.
  - apply ht_register.
  - apply ht_register.
  - apply ht_unregister.
  - apply ht_unregister.
Qed.
End invariant.

(** * Properties *)

Section properties.
Context {W : Type}.
Context (dev_ops : Z -> DD_OPERATIONS W).
Implicit Types s : drv_state W.

Lemma opens_from s nm i d flag n :
  slot s nm i d -> state d = DD_STATE_OPENED -> 0 <= use_cnt d -> use_cnt d + Z.of_nat n < 4294967296 ->
  repeat_m n (ddev_open dev_ops (Some nm) true flag) s =
  Val (tt, upd_dev s i (DRV_DEV (name d) (use_cnt d + Z.of_nat n) DD_STATE_OPENED (op d)) (world s)).
Proof.
  revert s d. induction n as [|n IH]; intros s d Hs Hst H0 Hn; cbn [repeat_m].
  - rewrite Z.add_0_r. unfold upd_dev. rewrite list_insert_id; [by destruct s|].
    destruct Hs as (_ & Hl & _). rewrite Hl. destruct d; cbn in *. by subst.
  - mstep by (by apply open_opened).
    erewrite (IH _ (DRV_DEV (name d) (u32 (use_cnt d + 1)) DD_STATE_OPENED (op d))).
    + rewrite upd_upd. cbn. rewrite u32_id by zlia. do 4 f_equal. lia.
    + by eapply slot_upd.
    + done.
    + cbn. zlia.
    + cbn. rewrite u32_id by zlia. lia.
Qed.

Lemma closes_from s i d n w :
  drv_dev_tbl s !! i = Some d -> (i < DD_MAX_DEV)%nat -> use_cnt d = Z.of_nat n + 1 ->
  use_cnt d < 4294967296 -> run_close dev_ops d (world s) = Val w ->
  repeat_m (S n) (ddev_close dev_ops (ddev_make_handle (Z.of_nat i))) s =
  Val (tt, upd_dev s i (DRV_DEV (name d) 0 DD_STATE_CLOSED (op d)) w).
Proof.
  revert s d. induction n as [|n IH]; intros s d Hl Hi Hc Hlt Hw.
  - cbn [repeat_m]. eapply bind_val; [eapply close_last; try lia; done|]. done.
  - rewrite repeat_m_succ. eapply bind_val; [eapply close_shared; [done|done|rewrite Hc; zlia]|]. cbv beta.
    erewrite (IH _ (DRV_DEV (name d) (u32 (use_cnt d - 1)) (state d) (op d))).
    + by rewrite upd_upd.
    + by eapply lookup_upd.
    + done.
    + cbn. rewrite Hc. zlia.
    + cbn. zlia.
    + done.
Qed.

(** C36: a device opened [n+1] times and closed [n+1] times through the handle
    it was given is closed again with a zero count, and its driver's open
    and close functions have each run exactly once, the first on the first
    open and the second on the last close. *)
Theorem open_close_balance s nm i d flag z w1 w2 n :
  slot s nm i d -> state d = DD_STATE_CLOSED ->
  run_open dev_ops d flag (world s) = Val (z, w1) ->
  run_close dev_ops d w1 = Val w2 ->
  Z.of_nat n + 1 < 4294967296 ->
  (repeat_m (S n) (ddev_open dev_ops (Some nm) true flag);;
   repeat_m (S n) (ddev_close dev_ops (ddev_make_handle (Z.of_nat i)))) s =
  Val (tt, upd_dev s i (DRV_DEV (name d) 0 DD_STATE_CLOSED (op d)) w2).
Proof.
  intros Hs Hst Ho Hc Hn. eapply bind_val.
  { cbn [repeat_m]. mstep by (by eapply open_closed).
    apply opens_from; [by eapply slot_upd|done|cbn; lia|cbn; lia]. }
  cbn [name use_cnt state op]. rewrite upd_upd.
  set (e := DRV_DEV _ (1 + Z.of_nat n) _ _).
  assert (Hl : drv_dev_tbl (upd_dev s i e w1) !! i = Some e) by (eapply lookup_upd; apply Hs).
  erewrite (closes_from _ _ e); [by rewrite upd_upd|done|apply Hs|cbn; lia|cbn; lia|done].
Qed.

(** Registration puts the device into the free slot, where its name finds it. *)
Lemma register_slot s nm p i :
  find_free (drv_dev_tbl s) 0 = Some i -> (i < DD_MAX_DEV)%nat ->
  names_before (drv_dev_tbl s) nm i -> cstr nm = true -> nm <> EmptyString ->
  os_strlen nm <= DD_MAX_NAME_LEN ->
  exists n, let e := DRV_DEV (Some nm) n DD_STATE_CLOSED (Some p) in
    ddev_register_dev (Some nm) (Some p) s = Val (DRV_SUCCESS, upd_dev s i e (world s)) /\
    slot (upd_dev s i e (world s)) nm i e.
Proof.
  intros Hfree Hi Hb Hc Hne Hlen.
  destruct (find_free_lookup _ _ _ Hfree) as (_ & d & Hd & Hn & Hst).
  rewrite Nat.sub_0_r in Hd. exists (use_cnt d). set (e := DRV_DEV (Some nm) (use_cnt d) DD_STATE_CLOSED (Some p)). split.
  - unfold ddev_register_dev. mstep. rewrite Hfree.
    mstep by (by apply get_dev_val). mstep by (apply set_dev_val). reflexivity.
  - split_and!; [|by eapply lookup_upd|done|done].
    eapply (find_name_first _ _ _ e nm); try done.
    + intros j d' Hj Hl. eapply Hb; [done|]. unfold upd_dev in Hl. cbn in Hl.
      by rewrite list_lookup_insert_ne in Hl by lia.
    + by eapply lookup_upd.
    + clear. induction nm as [|c nm IH]; cbn; [done|]. destruct (ascii_dec c c); done.
Qed.

(** A driver registered under a fresh name is found by that name: the
    handle [ddev_open] returns makes [ddev_read], [ddev_write] and
    [ddev_control] run the operations that were registered. *)
Theorem register_open_dispatch s nm p i flag z w :
  find_free (drv_dev_tbl s) 0 = Some i -> (i < DD_MAX_DEV)%nat ->
  names_before (drv_dev_tbl s) nm i -> cstr nm = true -> nm <> EmptyString ->
  os_strlen nm <= DD_MAX_NAME_LEN ->
  run_open dev_ops (DRV_DEV (Some nm) 0 DD_STATE_CLOSED (Some p)) flag (world s) = Val (z, w) ->
  exists h s', 
    (_ ← ddev_register_dev (Some nm) (Some p); ddev_open dev_ops (Some nm) true flag) s
      = Val ((h, Some z), s') /\
    world s' = w /\
    (forall f n a, op_read (dev_ops p) = Some f -> ddev_read dev_ops h n a s' = call (f n a) s') /\
    (forall f b n a, op_write (dev_ops p) = Some f -> ddev_write dev_ops h b n a s' = call (f b n a) s') /\
    (forall f c x, op_control (dev_ops p) = Some f -> ddev_control dev_ops h c x s' = call (f c x) s').
Proof.
  intros Hfree Hi Hb Hc Hne Hlen Ho. destruct (register_slot s nm p i Hfree Hi Hb Hc Hne Hlen) as (n0 & Hreg & Hs).
  set (e := DRV_DEV (Some nm) n0 DD_STATE_CLOSED (Some p)) in *.
  destruct (find_free_lookup _ _ _ Hfree) as (_ & d & Hd & _). rewrite Nat.sub_0_r in Hd.
  exists (ddev_make_handle (Z.of_nat i)), (upd_dev s i (DRV_DEV (Some nm) 1 DD_STATE_OPENED (Some p)) w).
  split.
  { eapply bind_val; [exact Hreg|].
    erewrite (open_closed _ _ _ _ _ _ _ _ Hs); [by rewrite upd_upd|done|done]. }
  destruct (handle_id_valid i Hi) as [Hid1 Hid2].
  unfold ddev_read, ddev_write, ddev_control. rewrite Hid1, Hid2.
  split_and!; [done| | |]; intros; (eapply bind_val; [by eapply get_dev_upd|]); cbn;
    by match goal with H : _ = Some _ |- _ => rewrite H end.
Qed.

(** C40: from the tables as [drv_model_init] leaves them, every sequence of
    calls that returns keeps the tables well formed: their sizes, the names
    and the operations of a slot present together, the counts in 32 bits. *)
Theorem registry_invariant (sdev_ops : Z -> SDD_OPERATIONS W) s cs s' :
  (_ ← do_call dev_ops sdev_ops CInit; do_calls dev_ops sdev_ops cs) s = Val (tt, s') -> reg_inv s'.
Proof.
  assert (Hcs : forall cs, ht reg_inv (do_calls dev_ops sdev_ops cs) (fun _ => reg_inv)).
  { clear. induction cs as [|c cs IH]; cbn [do_calls]; [by apply ht_ret|].
    eapply ht_bind; [apply do_call_inv|intros; apply IH]. }
  apply (ht_bind (fun _ => True) _ _ (fun _ => reg_inv) (fun _ => reg_inv)); [|intros; apply Hcs|done].
  intros s0 a s1 _ Hm. injection Hm as <- <-. split_and!; try done; repeat constructor; apply zero_dev_inv.
Qed.

(** A handle without the magic word is refused by every handle
    operation without any effect; one with the magic word but an index
    beyond the table (which [ddev_check_handle] would refuse) is an access
    outside the table. *)
Theorem handle_checks s h n f b c x :
  length (drv_dev_tbl s) = DD_MAX_DEV ->
  (Z.land h DD_HANDLE_MAGIC_MASK <> DD_HANDLE_MAGIC_WORD ->
     ddev_close dev_ops h s = Val (DRV_FAILURE, s) /\
     ddev_read dev_ops h n f s = Val ((DRV_FAILURE, []), s) /\
     ddev_write dev_ops h b n f s = Val (DRV_FAILURE, s) /\
     ddev_control dev_ops h c x s = Val ((DRV_FAILURE, x), s)) /\
  (Z.land h DD_HANDLE_MAGIC_MASK = DD_HANDLE_MAGIC_WORD ->
   Z.of_nat DD_MAX_DEV <= Z.land h DD_HANDLE_ID_MASK ->
     ddev_check_handle h = DRV_FAILURE /\
     ddev_close dev_ops h s = Err BadAccess /\
     ddev_read dev_ops h n f s = Err BadAccess /\
     ddev_write dev_ops h b n f s = Err BadAccess /\
     ddev_control dev_ops h c x s = Err BadAccess).
Proof.
  intros Hlen. unfold ddev_close, ddev_read, ddev_write, ddev_control, ddev_get_id_from_handle, ddev_check_handle.
  split.
  - intros H. rewrite (proj2 (Z.eqb_neq (Z.land h DD_HANDLE_MAGIC_MASK) _)) by done. done.
  - intros H Hid. rewrite H, Z.eqb_refl, (proj2 (Z.ltb_ge _ _)) by done. cbn [negb andb].
    assert (Hr : is_u16 (Z.land h DD_HANDLE_ID_MASK)) by (unfold DD_HANDLE_ID_MASK; rewrite land_0xffff; zlia).
    rewrite (proj2 (Z.eqb_neq DD_ID_UNVALID _)) by (unfold DD_ID_UNVALID; zlia). split; [done|].
    assert (Hg : forall s', drv_dev_tbl s' = drv_dev_tbl s -> get_dev (W := W) (Z.land h DD_HANDLE_ID_MASK) s' = Err BadAccess).
    { intros s' Hs. unfold get_dev, zlookup. rewrite Hs, (proj2 (Z.leb_le _ _)) by zlia.
      rewrite lookup_ge_None_2; [done|]. rewrite Hlen. lia. }
    split_and!; apply bind_err; by apply Hg.
Qed.

(** A search among names none of which extends the one sought: to the end of
    the table, or to its first null name. *)
Lemma find_name_stops nm : cstr nm = true -> nm <> EmptyString -> forall tbl i j, names_before tbl nm i ->
  (i = length tbl -> find_name tbl nm j = Val None) /\
  ((exists d, tbl !! i = Some d /\ name d = None) -> find_name tbl nm j = Err BadAccess).
Proof.
  intros Hc Hne.
  assert (exists m, String.length nm = S m) as [m Hm] by (destruct nm; simpl; eauto; done).
  induction tbl as [|d tbl IH]; intros i j Hb.
  - split; [done|]. by intros (d & Hd & _).
  - destruct i as [|i].
    + split; [done|]. intros (d' & Hd & Hn). injection Hd as ->. cbn [find_name]. by rewrite Hn, Hm.
    + destruct (Hb 0%nat d) as (n0 & Hn0 & Hp0); [lia|done|].
      pose proof (strncmp_not_prefix n0 nm Hc Hp0) as Hnz.
      cbn [find_name length]. unfold strncmp_ptr. rewrite Hn0, Hm. cbn [mbind res_bind]. rewrite <- Hm.
      rewrite (proj2 (Z.eqb_neq _ _)) by done. destruct (IH i (S j)) as [IH1 IH2].
      { intros j' d0 Hj Hl. apply (Hb (S j') d0); [lia|done]. }
      split; [intros H; apply IH1; lia|]. intros (d' & Hd & Hn). apply IH2. by exists d'.
Qed.

(** Opening a name that no entry extends never returns: it dereferences
    the null name of the first free slot, or, when the table is full, fails
    the final assertion. *)
Theorem open_unknown s nm flag i :
  names_before (drv_dev_tbl s) nm i -> cstr nm = true -> nm <> EmptyString ->
  os_strlen nm <= DD_MAX_NAME_LEN ->
  (i = length (drv_dev_tbl s) -> ddev_open dev_ops (Some nm) true flag s = Err AssertFail) /\
  ((exists d, drv_dev_tbl s !! i = Some d /\ name d = None) ->
     ddev_open dev_ops (Some nm) true flag s = Err BadAccess).
Proof.
  intros Hb Hc Hne Hlen.
  assert (Hopen : forall r, find_name (drv_dev_tbl s) nm 0 = r ->
    ddev_open dev_ops (Some nm) true flag s = match r with
      | Val None => Err AssertFail | Err f => Err f
      | _ => ddev_open dev_ops (Some nm) true flag s end).
  { intros r Hr. destruct r as [[?|]|f]; try done; unfold ddev_open; cbn [negb orb];
      rewrite (proj2 (Z.ltb_ge _ _)) by done; unfold mbind, M_bind, lift_res, get; by rewrite Hr. }
  destruct (find_name_stops nm Hc Hne (drv_dev_tbl s) i 0%nat Hb) as [H1 H2]. split; intros H; [apply (Hopen (Val None))|apply (Hopen (Err BadAccess))]; auto.
Qed.

(** A device behind the first ten entries cannot be unregistered: the search
    stops before it, and its failure is an assertion. *)
Theorem sddev_unregister_misses s nm i d :
  names_before (drv_sdev_tbl s) nm DD_MAX_DEV -> cstr nm = true -> nm <> EmptyString -> os_strlen nm <= DD_MAX_NAME_LEN ->
  (DD_MAX_DEV <= i)%nat -> drv_sdev_tbl s !! i = Some d -> name d = Some nm ->
  sddev_unregister_dev (Some nm) s = Err AssertFail.
Proof.
  intros Hb Hc Hne Hl Hi Hd _. unfold sddev_unregister_dev. rewrite (proj2 (Z.ltb_ge _ _)) by done.
  apply lookup_lt_Some in Hd. destruct (find_name_stops nm Hc Hne (take DD_MAX_DEV (drv_sdev_tbl s)) DD_MAX_DEV 0%nat) as [Hf _].
  - intros j d' Hj Hl'. rewrite lookup_take in Hl'. case_decide; [|done]. by apply (Hb j d').
  - rewrite length_take in Hf. unfold mbind, M_bind, get, lift_res. rewrite Hf; [done|lia].
Qed.
End properties.

(** * Witnesses: one driver that logs its calls *)

Definition log_ops (_ : Z) : DD_OPERATIONS (list Z) := {|
  op_open := Some (fun _ w => Val (DRV_SUCCESS, w ++ [1]));
  op_close := Some (fun w => Val (DRV_SUCCESS, w ++ [2]));
  op_read := Some (fun n a w => Val ((DRV_SUCCESS, [n; a]), w ++ [3]));
  op_write := Some (fun _ _ _ w => Val (DRV_SUCCESS, w ++ [4]));
  op_control := Some (fun c x w => Val ((DRV_SUCCESS, c), w ++ [5]));
|}.
Definition log_sops (_ : Z) : SDD_OPERATIONS (list Z) := {| sop_control := None |}.

Definition log_dev : DRV_DEV_S := DRV_DEV (Some "flash"%string) 0 DD_STATE_CLOSED (Some 7).
Definition log_state : drv_state (list Z) :=
  DrvState (log_dev :: replicate 9 zero_dev) (replicate DD_MAX_SDEV zero_dev) [].

Lemma open_close_balance_witness :
  (repeat_m 3 (ddev_open log_ops (Some "flash"%string) true 0);;
   repeat_m 3 (ddev_close log_ops (ddev_make_handle 0))) log_state =
  Val (tt, upd_dev log_state 0 log_dev [1; 2]).
Proof.
  apply (open_close_balance log_ops log_state "flash"%string 0 log_dev 0 0 [1] [1; 2] 2);
    [|done|done|done|lia].
  split_and!; [done|done|unfold DD_MAX_DEV; lia|vm_compute; discriminate].
Defined.

Lemma register_open_dispatch_witness :
  exists h s',
    (_ ← ddev_register_dev (Some "uart2"%string) (Some 3); ddev_open log_ops (Some "uart2"%string) true 0) log_state
      = Val ((h, Some DRV_SUCCESS), s') /\ world s' = [1] /\
    (forall f n a, op_read (log_ops 3) = Some f -> ddev_read log_ops h n a s' = call (f n a) s') /\
    (forall f b n a, op_write (log_ops 3) = Some f -> ddev_write log_ops h b n a s' = call (f b n a) s') /\
    (forall f c x, op_control (log_ops 3) = Some f -> ddev_control log_ops h c x s' = call (f c x) s').
Proof.
  apply (register_open_dispatch log_ops log_state "uart2"%string 3 1 0 DRV_SUCCESS [1]); try done.
  - vm_compute. lia.
  - intros [|j] d Hj Hd; [|lia]. injection Hd as <-. by exists "flash"%string.
Defined.

Lemma registry_invariant_witness :
  exists s', (_ ← do_call log_ops log_sops CInit;
              do_calls log_ops log_sops [CRegister (Some "uart2"%string) (Some 3); COpen (Some "uart2"%string) true 0;
                                         CClose (ddev_make_handle 0)]) log_state = Val (tt, s') /\
             reg_inv s'.
Proof.
  eexists. split; [vm_compute; reflexivity|].
  eapply (registry_invariant log_ops log_sops log_state
    [CRegister (Some "uart2"%string) (Some 3); COpen (Some "uart2"%string) true 0; CClose (ddev_make_handle 0)]).
  vm_compute. reflexivity.
Defined.

Lemma handle_checks_witness :
  (Z.land 5 DD_HANDLE_MAGIC_MASK <> DD_HANDLE_MAGIC_WORD ->
     ddev_close log_ops 5 log_state = Val (DRV_FAILURE, log_state) /\
     ddev_read log_ops 5 1 2 log_state = Val ((DRV_FAILURE, []), log_state) /\
     ddev_write log_ops 5 [] 1 2 log_state = Val (DRV_FAILURE, log_state) /\
     ddev_control log_ops 5 3 4 log_state = Val ((DRV_FAILURE, 4), log_state)) /\
  (Z.land 5 DD_HANDLE_MAGIC_MASK = DD_HANDLE_MAGIC_WORD ->
   Z.of_nat DD_MAX_DEV <= Z.land 5 DD_HANDLE_ID_MASK ->
     ddev_check_handle 5 = DRV_FAILURE /\ ddev_close log_ops 5 log_state = Err BadAccess /\
     ddev_read log_ops 5 1 2 log_state = Err BadAccess /\
     ddev_write log_ops 5 [] 1 2 log_state = Err BadAccess /\
     ddev_control log_ops 5 3 4 log_state = Err BadAccess).
Proof. apply (handle_checks log_ops log_state 5 1 2 [] 3 4). reflexivity. Defined.

Lemma open_unknown_witness :
  (1%nat = length (drv_dev_tbl log_state) ->
     ddev_open log_ops (Some "uart2"%string) true 0 log_state = Err AssertFail) /\
  ((exists d, drv_dev_tbl log_state !! 1%nat = Some d /\ name d = None) ->
     ddev_open log_ops (Some "uart2"%string) true 0 log_state = Err BadAccess).
Proof.
  apply (open_unknown log_ops log_state "uart2"%string 0 1); try done.
  - intros [|j] d Hj Hd; [|lia]. injection Hd as <-. by exists "flash"%string.
Defined.
