(* ===== verification/Serve.v ===== *)
(** * Serving a status word

    The loop of the interrupt routines over the bits of a status word, which
    calls the handler of each bit that is set and has one; what it does, for
    handlers that return. *)
From stdpp Require Import list.
From S2P Require Import Prelude.
Local Open Scope Z_scope.

Section serve.
Context {S : Type} (handler : Z -> M S Z) (call_handler : Z -> Z -> M S unit).
Implicit Types s : S.

(** The [n] turns from [i]: bit [i + posi] is that of channel [i + base]. *)
Fixpoint serve_bits (n : nat) (i posi base status : Z) : M S unit :=
  match n with
  | O => mret tt
  | Datatypes.S n' =>
    when (truthy (Z.land status (Z.shiftl 1 (i + posi)))) (
      h ← handler (i + base);
      when (truthy h) (call_handler h (u8 (i + base))));;
    serve_bits n' (i + 1) posi base status
  end.

(** The calls of [cs], one after the other. *)
Inductive served : S -> list (Z * Z) -> S -> Prop :=
  | served_nil s : served s [] s
  | served_cons s s1 s2 h i cs : call_handler h i s = Val (tt, s1) -> served s1 cs s2 -> served s ((h, i) :: cs) s2.

(** The table of handlers, and what the handlers keep. *)
Context (table : S -> list Z) (kept : S -> S -> Prop).

Definition serve_ok : Prop := forall h i s, exists s', call_handler h i s = Val (tt, s') /\ table s' = table s /\ kept s s'.
End serve.

(** The calls that a status word asks for. *)
Definition due_call (l : list Z) (posi base status i : Z) : option (Z * Z) :=
  if Z.testbit status (i + posi) then
    match zlookup l (i + base) with Some h => if truthy h then Some (h, i + base) else None | None => None end
  else None.
Definition due (l : list Z) (posi base : Z) (n : nat) (i status : Z) : list (Z * Z) :=
  omap (due_call l posi base status) (seqZ i (Z.of_nat n)).

Lemma due_elem l posi base n i st h k : zlookup l (k + base) = Some h -> truthy h = true -> Z.testbit st (k + posi) = true ->
  i <= k < i + Z.of_nat n -> (h, k + base) ∈ due l posi base n i st.
Proof.
  intros Hl Hh Hb Hk. unfold due. apply list_elem_of_omap. exists k. split; [by apply elem_of_seqZ|].
  unfold due_call. by rewrite Hb, Hl, Hh.
Qed.

Lemma due_index l posi base n i st h k : (h, k) ∈ due l posi base n i st -> i + base <= k < i + base + Z.of_nat n.
Proof.
  unfold due. intros (j & Hj & Hd)%list_elem_of_omap. apply elem_of_seqZ in Hj. unfold due_call in Hd.
  destruct (Z.testbit st (j + posi)); [|done]. destruct (zlookup l (j + base)) as [x|]; [|done].
  destruct (truthy x); [|done]. injection Hd as <- <-. lia.
Qed.

Section facts.
Context {S : Type} (handler : Z -> M S Z) (call_handler : Z -> Z -> M S unit).
Context (table : S -> list Z).
Hypothesis handler_val : forall i s h, zlookup (table s) i = Some h -> handler i s = Val (h, s).

(** The calls of [cs] return, one after the other, and each keeps the table. *)
Inductive keep_served : S -> list (Z * Z) -> S -> Prop :=
  | keep_nil s : keep_served s [] s
  | keep_cons s s1 s2 h i cs : call_handler h i s = Val (tt, s1) -> table s1 = table s -> keep_served s1 cs s2 -> keep_served s ((h, i) :: cs) s2.

Lemma keep_served_served s cs s' : keep_served s cs s' -> served call_handler s cs s' /\ table s' = table s.
Proof using Type.
  induction 1 as [s|s s1 s2 h i cs E T _ [IH1 IH2]]; [by split; constructor|]. split; [by eapply served_cons|by rewrite IH2].
Qed.

(** The loop makes the calls that are due. *)
Lemma serve_bits_calls posi base status n : 0 <= posi -> forall i s s', 0 <= i -> 0 <= i + base ->
  i + base + Z.of_nat n <= Z.of_nat (length (table s)) -> i + base + Z.of_nat n <= 256 ->
  keep_served s (due (table s) posi base n i status) s' -> serve_bits handler call_handler n i posi base status s = Val (tt, s').
Proof using All.
  intros Hp. induction n as [|n IH]; intros i s s' Hi Hb Hl Hn Hk.
  { inversion Hk. by subst. }
  cbn [serve_bits]. unfold due in Hk. rewrite Nat2Z.inj_succ, seqZ_cons in Hk by lia. rewrite Z.pred_succ in Hk. cbn [omap list_omap] in Hk.
  rewrite Z.shiftl_1_l, truthy_land_pow2 by lia. unfold due_call at 1 in Hk.
  destruct (Z.testbit status (i + posi)); cbn [when]; [|by apply IH; [lia..|]].
  destruct (zlookup (table s) (i + base)) as [h|] eqn:Eh.
  2: { unfold zlookup in Eh. rewrite (proj2 (Z.leb_le _ _)) in Eh by lia. apply lookup_ge_None_1 in Eh. lia. }
  rewrite bind_assoc, (bind_ret_val _ _ _ _ _ (handler_val _ _ _ Eh)). destruct (truthy h); cbn [when]; [|by apply IH; [lia..|]].
  rewrite u8_id by (unfold is_u8; lia). inversion Hk as [|? s1 ? ? ? ? E1 T1 Hk1]; subst. rewrite (bind_ret_val _ _ _ _ _ E1).
  apply IH; [lia|lia|rewrite T1; lia|lia|]. by rewrite T1.
Qed.

(** Handlers that always return. *)
Context (kept : S -> S -> Prop) `{!PreOrder kept}.

Lemma listed_served cs : (forall h i s, (h, i) ∈ cs -> exists s', call_handler h i s = Val (tt, s') /\ table s' = table s /\ kept s s') ->
  forall s, exists s', keep_served s cs s' /\ kept s s'.
Proof using PreOrder0.
  induction cs as [|[h i] cs IH]; intros Hok s; [exists s; split; [constructor|reflexivity]|].
  destruct (Hok h i s ltac:(by left)) as (s1 & E1 & T1 & P1), (IH ltac:(intros; apply Hok; by right) s1) as (s' & R & P).
  exists s'. split; [by econstructor|by etransitivity].
Qed.
Lemma all_served cs : serve_ok call_handler table kept -> forall s, exists s', keep_served s cs s' /\ kept s s'.
Proof using PreOrder0. intros Hok. apply listed_served. intros h i s _. apply Hok. Qed.

Lemma serve_bits_val posi base status n i s : 0 <= posi -> serve_ok call_handler table kept -> 0 <= i -> 0 <= i + base ->
  i + base + Z.of_nat n <= Z.of_nat (length (table s)) -> i + base + Z.of_nat n <= 256 ->
  exists s', serve_bits handler call_handler n i posi base status s = Val (tt, s') /\
    served call_handler s (due (table s) posi base n i status) s' /\ table s' = table s /\ kept s s'.
Proof using All.
  intros Hp Hok Hi Hb Hl Hn. destruct (all_served (due (table s) posi base n i status) Hok s) as (s' & R & P). exists s'.
  split; [by apply serve_bits_calls|]. apply keep_served_served in R as [R T]. by split_and!.
Qed.
End facts.
