(* ===== verification/FlashHw.v ===== *)
(** * The SPI flash controller and the NOR chip behind it

    The hardware is not part of the repository.  The driver reaches it through
    the registers of driver/flash/flash.h, so the model takes the two bus
    accesses as an interface ([RegBus]) and states in [FlashSpec] what the
    driver relies on: polling terminates, and a command acts on the abstract
    state [chip] the way its opcode is documented (NOR programming clears
    bits, a sector erase sets 4096 bytes to 0xFF, protected bytes change by
    neither).  [sim] is one device that satisfies the interface. *)
From S2P Require Import Prelude.

Definition FLASH_BASE : Z := 0x00803000.
Definition REG_FLASH_OPERATE_SW : Z := FLASH_BASE + 0 * 4.
Definition REG_FLASH_DATA_SW_FLASH : Z := FLASH_BASE + 1 * 4.
Definition REG_FLASH_DATA_FLASH_SW : Z := FLASH_BASE + 2 * 4.
Definition REG_FLASH_RDID_DATA_FLASH : Z := FLASH_BASE + 4 * 4.
Definition REG_FLASH_SR_DATA_CRC_CNT : Z := FLASH_BASE + 5 * 4.
Definition REG_FLASH_CONF : Z := FLASH_BASE + 7 * 4.

Definition ADDR_SW_REG_POSI : Z := 0.
Definition ADDR_SW_REG_MASK : Z := 0x00FFFFFF.
Definition OP_TYPE_SW_POSI : Z := 24.
Definition OP_TYPE_SW_MASK : Z := 0x1F.
Definition OP_SW : Z := Z.shiftl 1 29.
Definition WP_VALUE : Z := Z.shiftl 1 30.
Definition BUSY_SW : Z := Z.shiftl 1 31.
Definition FLASH_CLK_CONF_POSI : Z := 0.
Definition FLASH_CLK_CONF_MASK : Z := 0x0F.
Definition MODEL_SEL_POSI : Z := 4.
Definition MODEL_SEL_MASK : Z := 0x1F.
Definition CPU_DATA_WR_POSI : Z := 9.
Definition CPU_DATA_WR_MASK : Z := 0x01.
Definition WRSR_DATA_POSI : Z := 10.
Definition WRSR_DATA_MASK : Z := 0x00FFFF.
Definition CRC_EN : Z := Z.shiftl 1 26.
Definition M_VALUE_POST : Z := 22.
Definition M_VALUE_MASK : Z := 0xFF.

Definition FLASH_OPCODE_WREN : Z := 1.
Definition FLASH_OPCODE_WRDI : Z := 2.
Definition FLASH_OPCODE_RDSR : Z := 3.
Definition FLASH_OPCODE_WRSR : Z := 4.
Definition FLASH_OPCODE_READ : Z := 5.
Definition FLASH_OPCODE_RDSR2 : Z := 6.
Definition FLASH_OPCODE_WRSR2 : Z := 7.
Definition FLASH_OPCODE_PP : Z := 12.
Definition FLASH_OPCODE_SE : Z := 13.
Definition FLASH_OPCODE_RDID : Z := 20.
Definition FLASH_OPCODE_HPM : Z := 21.
Definition FLASH_OPCODE_CRMR : Z := 22.

(** ** The chip *)

(** [ch_mem]: the byte at each address; [ch_sr]: the status register (16
    bits); [ch_srdata]: the status byte last read; [ch_conf]: the
    configuration register; [ch_rx]: the words a read command left to fetch;
    [ch_tx]: the words waiting for a program command. *)
Record chip := Chip {
  ch_mem : Z -> Z;
  ch_sr : Z;
  ch_srdata : Z;
  ch_conf : Z;
  ch_rx : list Z;
  ch_tx : list Z;
}.

(** The identifier of the part, and which bytes its protection field locks. *)
Record chip_params := { cp_id : Z; cp_prot : Z -> Z -> bool }.

Definition with_mem (c : chip) (m : Z -> Z) : chip :=
  Chip m (ch_sr c) (ch_srdata c) (ch_conf c) (ch_rx c) (ch_tx c).

(** The bytes of [n] consecutive addresses, and their words. *)
Definition mem_bytes (m : Z -> Z) (addr : Z) (n : nat) : list Z :=
  map (fun i => m (addr + Z.of_nat i)) (seq 0 n).

Definition mem_word (m : Z -> Z) (addr : Z) : Z := word_of_le (mem_bytes m addr 4).

Fixpoint mem_words (m : Z -> Z) (addr : Z) (n : nat) : list Z :=
  match n with
  | O => []
  | S n' => mem_word m addr :: mem_words m (addr + 4) n'
  end.

(** Programming [bs] at [addr]: bits only go from 1 to 0. *)
Definition mem_program (locked : Z -> bool) (addr : Z) (bs : list Z) (m : Z -> Z) : Z -> Z := fun a =>
  if (addr <=? a) && (a <? addr + Z.of_nat (length bs)) && negb (locked a)
  then Z.land (m a) (default 255 (bs !! Z.to_nat (a - addr))) else m a.

Definition mem_erase (locked : Z -> bool) (addr : Z) (m : Z -> Z) : Z -> Z := fun a =>
  if (a / 4096 =? addr / 4096) && negb (locked a) then 255 else m a.

Definition words_bytes (ws : list Z) : list Z := concat (map (word_to_le 4) ws).

Definition chip_exec (p : chip_params) (opc addr : Z) (c : chip) : chip :=
  let locked := cp_prot p (ch_sr c) in
  let wrsr := (ch_conf c / 2 ^ WRSR_DATA_POSI) mod 65536 in
  if opc =? FLASH_OPCODE_READ then
    Chip (ch_mem c) (ch_sr c) (ch_srdata c) (ch_conf c) (mem_words (ch_mem c) addr 8) (ch_tx c)
  else if opc =? FLASH_OPCODE_PP then
    Chip (mem_program locked addr (words_bytes (ch_tx c)) (ch_mem c))
      (ch_sr c) (ch_srdata c) (ch_conf c) (ch_rx c) []
  else if opc =? FLASH_OPCODE_SE then with_mem c (mem_erase locked addr (ch_mem c))
  else if opc =? FLASH_OPCODE_RDSR then
    Chip (ch_mem c) (ch_sr c) (ch_sr c mod 256) (ch_conf c) (ch_rx c) (ch_tx c)
  else if opc =? FLASH_OPCODE_RDSR2 then
    Chip (ch_mem c) (ch_sr c) (ch_sr c / 256) (ch_conf c) (ch_rx c) (ch_tx c)
  else if opc =? FLASH_OPCODE_WRSR then
    Chip (ch_mem c) (ch_sr c / 256 * 256 + wrsr mod 256) (ch_srdata c) (ch_conf c) (ch_rx c) (ch_tx c)
  else if opc =? FLASH_OPCODE_WRSR2 then
    Chip (ch_mem c) wrsr (ch_srdata c) (ch_conf c) (ch_rx c) (ch_tx c)
  else c.

(** A register write.  The command register starts a command when its OP_SW
    bit is set. *)
Definition chip_write (p : chip_params) (a v : Z) (c : chip) : chip :=
  if a =? REG_FLASH_OPERATE_SW then
    if Z.testbit v 29
    then chip_exec p ((v / 2 ^ OP_TYPE_SW_POSI) mod 32) (v mod 2 ^ 24) c else c
  else if a =? REG_FLASH_DATA_SW_FLASH then
    Chip (ch_mem c) (ch_sr c) (ch_srdata c) (ch_conf c) (ch_rx c) (ch_tx c ++ [v])
  else if a =? REG_FLASH_CONF then
    Chip (ch_mem c) (ch_sr c) (ch_srdata c) v (ch_rx c) (ch_tx c)
  else c.

(** What the driver relies on in the value of a register other than the
    command register, and the state after the read. *)
Definition chip_value (p : chip_params) (a v : Z) (c : chip) : Prop :=
  is_u32 v /\
  (a = REG_FLASH_CONF -> v = ch_conf c) /\
  (a = REG_FLASH_RDID_DATA_FLASH -> v = cp_id p) /\
  (a = REG_FLASH_SR_DATA_CRC_CNT -> v mod 256 = ch_srdata c) /\
  (a = REG_FLASH_DATA_FLASH_SW -> forall w, head (ch_rx c) = Some w -> v = w).

Definition chip_after_read (a : Z) (c : chip) : chip :=
  if a =? REG_FLASH_DATA_FLASH_SW
  then Chip (ch_mem c) (ch_sr c) (ch_srdata c) (ch_conf c) (tail (ch_rx c)) (ch_tx c) else c.

(** Every register, byte and buffered word within its width. *)
Record chip_ok (c : chip) : Prop := {
  ok_mem a : is_u8 (ch_mem c a);
  ok_sr : is_u16 (ch_sr c);
  ok_srdata : is_u8 (ch_srdata c);
  ok_conf : is_u32 (ch_conf c);
  ok_rx : Forall is_u32 (ch_rx c);
  ok_tx : Forall is_u32 (ch_tx c);
}.

(** ** The interface *)

(** [view h]: the chip once the command in progress is complete; [busy h]: how
    many more polls of the command register show it busy. *)
Class FlashSpec (hw : Type) `{RegBus hw} := {
  params : chip_params;
  hw_ok : hw -> Prop;
  view : hw -> chip;
  busy : hw -> nat;
  busy_max : nat;
  hw_chip_ok h : hw_ok h -> chip_ok (view h);
  busy_bound h : hw_ok h -> (busy h <= busy_max)%nat;
  poll_busy h n : hw_ok h -> busy h = S n -> exists v h',
    bus_read REG_FLASH_OPERATE_SW h = (v, h') /\ Z.testbit v 31 = true /\
    hw_ok h' /\ view h' = view h /\ busy h' = n;
  poll_idle h : hw_ok h -> busy h = 0%nat -> exists v h',
    bus_read REG_FLASH_OPERATE_SW h = (v, h') /\ is_u32 v /\ Z.testbit v 31 = false /\
    hw_ok h' /\ view h' = view h /\ busy h' = 0%nat;
  read_reg h a : a <> REG_FLASH_OPERATE_SW -> hw_ok h -> busy h = 0%nat -> exists v h',
    bus_read a h = (v, h') /\ chip_value params a v (view h) /\
    hw_ok h' /\ view h' = chip_after_read a (view h) /\ busy h' = 0%nat;
  write_reg h a v : is_u32 v -> hw_ok h -> busy h = 0%nat ->
    hw_ok (bus_write a v h) /\ view (bus_write a v h) = chip_write params a v (view h) /\
    (a <> REG_FLASH_OPERATE_SW -> busy (bus_write a v h) = 0%nat);
}.

(** ** Facts about the chip *)

Lemma length_mem_bytes m a n : length (mem_bytes m a n) = n.
Proof. unfold mem_bytes. by rewrite length_map, length_seq. Qed.

Lemma mem_bytes_lookup m a n i :
  (i < n)%nat -> mem_bytes m a n !! i = Some (m (a + Z.of_nat i)).
Proof.
  intros Hi. unfold mem_bytes. rewrite list_lookup_fmap, lookup_seq_lt by done. done.
Qed.

Lemma mem_bytes_ext m m' a n :
  (forall i, a <= i < a + Z.of_nat n -> m i = m' i) -> mem_bytes m a n = mem_bytes m' a n.
Proof.
  intros H. apply list_eq. intros i. destruct (decide (i < n)%nat).
  - rewrite !mem_bytes_lookup by done. f_equal. apply H. lia.
  - rewrite !lookup_ge_None_2; [done|rewrite length_mem_bytes; lia|rewrite length_mem_bytes; lia].
Qed.

Lemma mem_bytes_app m a n k :
  mem_bytes m a (n + k) = mem_bytes m a n ++ mem_bytes m (a + Z.of_nat n) k.
Proof.
  apply list_eq. intros i. destruct (decide (i < n + k)%nat).
  - rewrite mem_bytes_lookup by done. destruct (decide (i < n)%nat).
    + by rewrite lookup_app_l, mem_bytes_lookup by (rewrite ?length_mem_bytes; lia).
    + rewrite lookup_app_r, length_mem_bytes, mem_bytes_lookup by (rewrite ?length_mem_bytes; lia).
      do 2 f_equal. lia.
  - rewrite !lookup_ge_None_2; rewrite ?length_app, ?length_mem_bytes; [done|lia|lia].
Qed.

Lemma take_drop_mem_bytes m a n off k :
  (off + k <= n)%nat -> take k (drop off (mem_bytes m a n)) = mem_bytes m (a + Z.of_nat off) k.
Proof.
  intros Hn. apply list_eq. intros i. destruct (decide (i < k)%nat).
  - rewrite lookup_take_lt, lookup_drop, !mem_bytes_lookup by lia. do 2 f_equal. lia.
  - rewrite !lookup_ge_None_2; rewrite ?length_take, ?length_drop, ?length_mem_bytes; [done|lia|lia].
Qed.

Lemma mem_bytes_ok m a n : (forall i, is_u8 (m i)) -> bytes_ok (mem_bytes m a n).
Proof. intros H. unfold mem_bytes, bytes_ok. apply Forall_map, Forall_true. intros. apply H. Qed.

(** The words of a read, spread in memory, are the bytes of the chip. *)
Lemma words_bytes_mem m a n :
  (forall i, is_u8 (m i)) -> words_bytes (mem_words m a n) = mem_bytes m a (4 * n).
Proof.
  intros Hm. revert a. induction n as [|n IH]; intros a; [done|].
  replace (4 * S n)%nat with (4 + 4 * n)%nat by lia. rewrite mem_bytes_app, <- IH.
  unfold words_bytes. cbn [mem_words map concat]. f_equal. unfold mem_word.
  rewrite <- (length_mem_bytes m a 4) at 1. apply word_to_of_le. by apply mem_bytes_ok.
Qed.
(** Programming an erased, unlocked range stores the bytes. *)
Lemma mem_program_blank locked address bs m :
  bytes_ok bs ->
  (forall a, address <= a < address + Z.of_nat (length bs) -> m a = 255 /\ locked a = false) ->
  mem_bytes (mem_program locked address bs m) address (length bs) = bs.
Proof.
  intros Hbs Hm. apply list_eq. intros i. destruct (decide (i < length bs)%nat) as [Hi|Hi].
  - rewrite mem_bytes_lookup by done. unfold mem_program.
    destruct (Hm (address + Z.of_nat i)) as [-> ->]; [lia|].
    rewrite (proj2 (Z.leb_le _ _)), (proj2 (Z.ltb_lt _ _)) by lia. cbn [andb negb].
    replace (Z.to_nat (address + Z.of_nat i - address)) with i by lia.
    destruct (bs !! i) as [b|] eqn:Hb; [|apply lookup_ge_None in Hb; lia]. cbn [default].
    rewrite Z.land_comm, land_0xff. f_equal. apply Z.mod_small.
    by apply (Forall_lookup_1 is_u8 bs i).
  - rewrite !lookup_ge_None_2; rewrite ?length_mem_bytes; [done|lia|lia].
Qed.

(** ** A device that satisfies it: three busy polls after every command *)

Record sim := Sim { sim_chip : chip; sim_busy : nat }.

Section simulator.
Context (p : chip_params) (p_id : is_u32 (cp_id p)).

Definition sim_value (a : Z) (c : chip) : Z :=
  if a =? REG_FLASH_CONF then ch_conf c
  else if a =? REG_FLASH_RDID_DATA_FLASH then cp_id p
  else if a =? REG_FLASH_SR_DATA_CRC_CNT then ch_srdata c
  else if a =? REG_FLASH_DATA_FLASH_SW then default 0 (head (ch_rx c))
  else 0.

Definition sim_read (a : Z) (h : sim) : Z * sim :=
  if a =? REG_FLASH_OPERATE_SW then
    match sim_busy h with
    | O => (0, h)
    | S n => (BUSY_SW, Sim (sim_chip h) n)
    end
  else (sim_value a (sim_chip h), Sim (chip_after_read a (sim_chip h)) (sim_busy h)).

Definition sim_write (a v : Z) (h : sim) : sim :=
  Sim (chip_write p a v (sim_chip h))
      (if a =? REG_FLASH_OPERATE_SW then 3 else sim_busy h).

Lemma mem_words_u32 m a n : (forall i, is_u8 (m i)) -> Forall is_u32 (mem_words m a n).
Proof.
  intros Hm. revert a. induction n as [|n IH]; intros a; constructor; [|apply IH].
  apply (word_of_le_range (mem_bytes m a 4)). by apply mem_bytes_ok.
Qed.

Lemma words_bytes_ok ws : bytes_ok (words_bytes ws).
Proof.
  unfold words_bytes, bytes_ok. induction ws; cbn [map concat]; [constructor|].
  apply Forall_app. split; [apply (word_to_le_ok 4)|done].
Qed.

Lemma chip_exec_ok opc a c : chip_ok c -> chip_ok (chip_exec p opc a c).
Proof.
  intros []. unfold chip_exec, with_mem.
  repeat case_match; split; cbn [ch_mem ch_sr ch_srdata ch_conf ch_rx ch_tx]; try done; try zlia.
  - by apply mem_words_u32.
  - intros x. unfold mem_program. destruct (_ && _); [|done]. by apply land_u8.
  - intros x. unfold mem_erase. destruct (_ && _); [zlia|done].
Qed.

Lemma chip_write_ok a v c : is_u32 v -> chip_ok c -> chip_ok (chip_write p a v c).
Proof.
  intros Hv Hc. unfold chip_write. case_match; [case_match; [by apply chip_exec_ok|done]|].
  repeat case_match; try done; destruct Hc; split; cbn; try done.
  apply Forall_app. split; [done|]. constructor; [done|constructor].
Qed.

Lemma chip_after_read_ok a c : chip_ok c -> chip_ok (chip_after_read a c).
Proof.
  intros Hc. unfold chip_after_read. case_match; [|done].
  destruct Hc as [? ? ? ? Hrx ?]. split; cbn; try done. by destruct Hrx.
Qed.

Lemma sim_value_spec a c :
  a <> REG_FLASH_OPERATE_SW -> chip_ok c -> chip_value p a (sim_value a c) c.
Proof.
  intros Ha []. unfold chip_value, sim_value.
  split_and!.
  - repeat case_match; try done; try zlia.
    destruct (ch_rx c) as [|w ws]; cbn; [zlia|]. by inversion ok_rx0.
  - intros ->. done.
  - intros ->. done.
  - intros ->. change (ch_srdata c mod 256 = ch_srdata c). apply Z.mod_small, ok_srdata0.
  - intros -> w Hw. change (default 0 (head (ch_rx c)) = w). by rewrite Hw.
Qed.

#[export] Instance sim_bus : RegBus sim := {| bus_read := sim_read; bus_write := sim_write |}.

#[export, refine] Instance sim_spec : FlashSpec sim := {|
  params := p;
  hw_ok h := chip_ok (sim_chip h) /\ (sim_busy h <= 3)%nat;
  view := sim_chip;
  busy := sim_busy;
  busy_max := 3;
|}.
Proof.
  - by intros h [? _].
  - by intros h [_ ?].
  - intros h n [Hc Hb] Hn. cbn. unfold sim_read. cbn. rewrite Hn.
    eexists _, _. split; [done|]. split_and!; try done. cbn. lia.
  - intros h [Hc Hb] Hn. cbn. unfold sim_read. cbn. rewrite Hn.
    eexists _, _. split; [done|]. split_and!; try done; zlia.
  - intros h a Ha [Hc Hb] Hn. cbn. unfold sim_read. rewrite (proj2 (Z.eqb_neq _ _)) by done.
    eexists _, _. split; [done|]. split_and!; try done; [by apply sim_value_spec|by apply chip_after_read_ok].
  - intros h a v Hv [Hc Hb] Hn. cbn. split_and!; [by apply chip_write_ok| |done|].
    + case_match; lia.
    + intros Ha. by rewrite (proj2 (Z.eqb_neq _ _)).
Defined.
End simulator.
