(* ===== verification/Flash.v ===== *)
(** * The flash driver (driver/flash/flash.c)

    Register programming, status-register protection, reads and writes in
    32-byte lines, sector erase, and the control commands, over the bus of
    [FlashHw].  BK7231U configuration: no JTAG build, not a BK7231N. *)
From S2P Require Import Prelude FlashHw DrvModel.
From stdpp Require Import strings.
Local Open Scope Z_scope.

Record flash_config_t := FlashConfig {
  cfg_flash_id : Z; sr_size : Z; flash_size : Z; line_mode : Z; cmp_post : Z;
  protect_post : Z; protect_mask : Z; protect_all : Z; protect_none : Z;
  protect_half : Z; unprotect_last_block : Z; qe_bit_post : Z; qe_bit : Z;
  m_value : Z; mode_sel : Z;
}.

#[export] Instance flash_config_eq_dec : EqDecision flash_config_t.
Proof. solve_decision. Defined.

Definition flash_config : list flash_config_t := [
  FlashConfig 0x1C7016 1 0x400000 2 0 2 0x1F 0x1F 0x00 0x16 0x01B 0 0 0xA5 0x01;
  FlashConfig 0x1C7015 1 0x200000 2 0 2 0x1F 0x1F 0x00 0x0d 0x0d 0 0 0xA5 0x01;
  FlashConfig 0x0B4014 2 0x100000 2 14 2 0x1F 0x1F 0x00 0x0C 0x101 9 1 0xA0 0x01;
  FlashConfig 0x0B4015 2 0x200000 2 14 2 0x1F 0x1F 0x00 0x0D 0x101 9 1 0xA0 0x01;
  FlashConfig 0x0B4016 2 0x400000 2 14 2 0x1F 0x1F 0x00 0x0E 0x101 9 1 0xA0 0x01;
  FlashConfig 0x0B4017 2 0x800000 2 14 2 0x1F 0x05 0x00 0x0E 0x109 9 1 0xA0 0x01;
  FlashConfig 0x0E4016 2 0x400000 2 14 2 0x1F 0x1F 0x00 0x0E 0x101 9 1 0xA0 0x01;
  FlashConfig 0xC84015 2 0x200000 2 14 2 0x1F 0x1F 0x00 0x0D 0x101 9 1 0xA0 0x01;
  FlashConfig 0xC84016 1 0x400000 2 0 2 0x1F 0x1F 0x00 0x0E 0x00E 0 0 0xA0 0x01;
  FlashConfig 0xEF4016 2 0x400000 2 14 2 0x1F 0x1F 0x00 0x00 0x101 9 1 0xA0 0x01;
  FlashConfig 0x204016 2 0x400000 2 14 2 0x1F 0x1F 0x00 0x0E 0x101 9 1 0xA0 0x01;
  FlashConfig 0xC22315 1 0x200000 2 0 2 0x0F 0x0F 0x00 0x0A 0x00E 6 1 0xA5 0x01;
  FlashConfig 0xEB6015 2 0x200000 2 14 2 0x1F 0x1F 0x00 0x0D 0x101 9 1 0xA0 0x01;
  FlashConfig 0x000000 2 0x400000 2 0 2 0x1F 0x00 0x00 0x00 0x000 0 0 0x00 0x01].

Inductive PROTECT_TYPE :=
  | FLASH_PROTECT_NONE | FLASH_PROTECT_ALL | FLASH_PROTECT_HALF | FLASH_UNPROTECT_LAST_BLOCK.

#[export] Instance protect_type_eq_dec : EqDecision PROTECT_TYPE.
Proof. solve_decision. Defined.

(** The values of the enumeration. *)
Definition protect_num (t : PROTECT_TYPE) : Z :=
  match t with
  | FLASH_PROTECT_NONE => 0 | FLASH_PROTECT_ALL => 1
  | FLASH_PROTECT_HALF => 2 | FLASH_UNPROTECT_LAST_BLOCK => 3
  end.

Definition FLASH_SUCCESS : Z := 0.
Definition FLASH_FAILURE : Z := 1.
Definition FLASH_CMD_MAGIC : Z := 0xe240000.
Definition CMD_FLASH_SET_CLK : Z := FLASH_CMD_MAGIC + 1.
Definition CMD_FLASH_SET_DCO : Z := FLASH_CMD_MAGIC + 2.
Definition CMD_FLASH_SET_DPLL : Z := FLASH_CMD_MAGIC + 3.
Definition CMD_FLASH_WRITE_ENABLE : Z := FLASH_CMD_MAGIC + 4.
Definition CMD_FLASH_WRITE_DISABLE : Z := FLASH_CMD_MAGIC + 5.
Definition CMD_FLASH_READ_SR : Z := FLASH_CMD_MAGIC + 6.
Definition CMD_FLASH_WRITE_SR : Z := FLASH_CMD_MAGIC + 7.
Definition CMD_FLASH_READ_QE : Z := FLASH_CMD_MAGIC + 8.
Definition CMD_FLASH_SET_QE : Z := FLASH_CMD_MAGIC + 9.
Definition CMD_FLASH_SET_QWFR : Z := FLASH_CMD_MAGIC + 10.
Definition CMD_FLASH_CLR_QWFR : Z := FLASH_CMD_MAGIC + 11.
Definition CMD_FLASH_SET_WSR : Z := FLASH_CMD_MAGIC + 12.
Definition CMD_FLASH_GET_ID : Z := FLASH_CMD_MAGIC + 13.
Definition CMD_FLASH_READ_MID : Z := FLASH_CMD_MAGIC + 14.
Definition CMD_FLASH_ERASE_SECTOR : Z := FLASH_CMD_MAGIC + 15.
Definition CMD_FLASH_SET_HPM : Z := FLASH_CMD_MAGIC + 16.
Definition CMD_FLASH_GET_PROTECT : Z := FLASH_CMD_MAGIC + 17.
Definition CMD_FLASH_SET_PROTECT : Z := FLASH_CMD_MAGIC + 18.
Definition LINE_MODE_TWO : Z := 2.
Definition LINE_MODE_FOUR : Z := 4.
Definition MODE_DUAL : Z := 1.

(** [fs_hw]: the device; the static variables of the file; the counter of
    components/power_save/mcu_ps.c. *)
Record flash_st (hw : Type) := FlashSt {
  fs_hw : hw;
  flash_current_config : option flash_config_t;
  flash_id : Z;
  peri_busy_count : Z;
}.
Arguments FlashSt {hw}. Arguments fs_hw {hw}. Arguments flash_current_config {hw}.
Arguments flash_id {hw}. Arguments peri_busy_count {hw}.

(** Stores of an 8-bit or 16-bit value into the word a [void *] points to. *)
Definition store8 (w v : Z) : Z := w - w mod 256 + v mod 256.
Definition store16 (w v : Z) : Z := w - w mod 65536 + v mod 65536.

(** The command word with a zero address: [(op << 24) | OP_SW | WP_VALUE]. *)
Definition op_word (opcode : Z) : Z :=
  Z.lor (Z.lor (Z.shiftl opcode OP_TYPE_SW_POSI) OP_SW) WP_VALUE.

(** [((addr << 0) | (op << 24) | OP_SW | (value & WP_VALUE))]. *)
Definition op_word_addr (addr opcode value : Z) : Z :=
  Z.lor (Z.lor (Z.lor (Z.shiftl addr ADDR_SW_REG_POSI) (Z.shiftl opcode OP_TYPE_SW_POSI)) OP_SW)
        (Z.land value WP_VALUE).

(** [((value & (ADDR_MASK << 0)) | (op << 24) | OP_SW | WP_VALUE)]. *)
Definition op_word_keep (value opcode : Z) : Z :=
  Z.lor (Z.lor (Z.lor (Z.land value (Z.shiftl ADDR_SW_REG_MASK ADDR_SW_REG_POSI))
                      (Z.shiftl opcode OP_TYPE_SW_POSI)) OP_SW) WP_VALUE.

(** [value & ~m] on 32 bits. *)
Definition clear_bits (value m : Z) : Z := Z.land value (Z.lnot m).

Section driver.
Context {hw : Type} `{RegBus hw}.
(** Fuel of a polling loop; the system controller's handling of the two
    flash clock commands; the state of the test pin. *)
Context (poll_fuel : nat) (sctrl_control : Z -> hw -> hw) (ate_mode : hw -> bool).
Abbreviation st := (flash_st hw).

Definition set_hw (s : st) (h : hw) : st :=
  FlashSt h (flash_current_config s) (flash_id s) (peri_busy_count s).

Definition REG_READ (a : Z) : M st Z := fun s =>
  let '(v, h) := bus_read a (fs_hw s) in Val (v, set_hw s h).

Definition REG_WRITE (a v : Z) : M st unit :=
  modify (fun s => set_hw s (bus_write a v (fs_hw s))).

(** [while(REG_READ(REG_FLASH_OPERATE_SW) & BUSY_SW);] *)
Fixpoint poll (n : nat) : M st unit :=
  match n with
  | O => fail NoFuel
  | S n' =>
    v ← REG_READ REG_FLASH_OPERATE_SW;
    if truthy (Z.land v BUSY_SW) then poll n' else mret tt
  end.
Definition wait_idle : M st unit := poll poll_fuel.

(** A dereference of [flash_current_config]. *)
Definition cfg : M st flash_config_t := fun s =>
  match flash_current_config s with Some c => Val (c, s) | None => Err BadAccess end.

Definition set_config (c : flash_config_t) : M st unit :=
  modify (fun s => FlashSt (fs_hw s) (Some c) (flash_id s) (peri_busy_count s)).

Definition peri_busy_count_add : M st unit := modify (fun s =>
  FlashSt (fs_hw s) (flash_current_config s) (flash_id s) (u32 (peri_busy_count s + 1))).
Definition peri_busy_count_dec : M st unit := modify (fun s =>
  FlashSt (fs_hw s) (flash_current_config s) (flash_id s) (u32 (peri_busy_count s - 1))).

(** The search stops before the last entry, which is the default. *)
Fixpoint find_config (tbl : list flash_config_t) (id : Z) : option flash_config_t :=
  match tbl with
  | [] => None
  | [d] => Some d
  | c :: tbl' => if id =? cfg_flash_id c then Some c else find_config tbl' id
  end.

Definition flash_get_current_flash_config : M st unit :=
  s ← get;
  match find_config flash_config (flash_id s) with
  | Some c => set_config c
  | None => mret tt
  end.

Definition flash_set_clk (clk_conf : Z) : M st unit :=
  value ← REG_READ REG_FLASH_CONF;
  let value := clear_bits value (Z.shiftl FLASH_CLK_CONF_MASK FLASH_CLK_CONF_POSI) in
  let value := Z.lor value (Z.shiftl clk_conf FLASH_CLK_CONF_POSI) in
  REG_WRITE REG_FLASH_CONF value.

Definition flash_enable_cpu_data_wr : M st unit :=
  value ← REG_READ REG_FLASH_CONF;
  REG_WRITE REG_FLASH_CONF (Z.lor value (Z.shiftl CPU_DATA_WR_MASK CPU_DATA_WR_POSI)).

Definition flash_disable_cpu_data_wr : M st unit :=
  value ← REG_READ REG_FLASH_CONF;
  REG_WRITE REG_FLASH_CONF (clear_bits value (Z.shiftl CPU_DATA_WR_MASK CPU_DATA_WR_POSI)).

Definition flash_write_enable : M st unit :=
  REG_WRITE REG_FLASH_OPERATE_SW (op_word FLASH_OPCODE_WREN);; wait_idle.

Definition flash_write_disable : M st unit :=
  REG_WRITE REG_FLASH_OPERATE_SW (op_word FLASH_OPCODE_WRDI);; wait_idle.

Definition flash_read_sr (sr_width : Z) : M st Z :=
  wait_idle;;
  REG_WRITE REG_FLASH_OPERATE_SW (op_word FLASH_OPCODE_RDSR);;
  wait_idle;;
  value ← REG_READ REG_FLASH_SR_DATA_CRC_CNT;
  let sr := Z.land value 0x00FF in
  if sr_width =? 2 then
    REG_WRITE REG_FLASH_OPERATE_SW (op_word FLASH_OPCODE_RDSR2);;
    wait_idle;;
    value ← REG_READ REG_FLASH_SR_DATA_CRC_CNT;
    mret (Z.lor sr (Z.shiftl (Z.land value 0x00FF) 8))
  else mret sr.

Definition flash_write_sr (sr_width val : Z) : M st unit :=
  wait_idle;;
  value ← REG_READ REG_FLASH_CONF;
  let value := clear_bits value (Z.shiftl WRSR_DATA_MASK WRSR_DATA_POSI) in
  let value := Z.lor value (Z.shiftl val WRSR_DATA_POSI) in
  REG_WRITE REG_FLASH_CONF value;;
  wait_idle;;
  (if sr_width =? 1 then REG_WRITE REG_FLASH_OPERATE_SW (op_word FLASH_OPCODE_WRSR)
   else if sr_width =? 2 then REG_WRITE REG_FLASH_OPERATE_SW (op_word FLASH_OPCODE_WRSR2)
   else mret tt);;
  wait_idle.

Definition flash_read_qe : M st Z :=
  c ← cfg;
  (if 1 =? sr_size c then REG_WRITE REG_FLASH_OPERATE_SW (op_word FLASH_OPCODE_RDSR)
   else REG_WRITE REG_FLASH_OPERATE_SW (op_word FLASH_OPCODE_RDSR2));;
  wait_idle;;
  value ← REG_READ REG_FLASH_SR_DATA_CRC_CNT;
  mret (Z.land value 0xFF).

Definition flash_set_qe : M st unit :=
  wait_idle;;
  c ← cfg;
  param ← flash_read_sr (sr_size c);
  if truthy (Z.land param (Z.shiftl (qe_bit c) (qe_bit_post c))) then mret tt
  else
    value ← REG_READ REG_FLASH_CONF;
    let value := clear_bits value (Z.shiftl WRSR_DATA_MASK WRSR_DATA_POSI) in
    let value := Z.lor value (Z.shiftl (Z.lor (Z.shiftl (qe_bit c) (qe_bit_post c)) param) WRSR_DATA_POSI) in
    REG_WRITE REG_FLASH_CONF (u32 value);;
    value ← REG_READ REG_FLASH_OPERATE_SW;
    REG_WRITE REG_FLASH_OPERATE_SW
      (op_word_keep value (if 1 =? sr_size c then FLASH_OPCODE_WRSR else FLASH_OPCODE_WRSR2));;
    wait_idle.

Definition flash_set_qwfr : M st unit :=
  value ← REG_READ REG_FLASH_CONF;
  c ← cfg;
  let value := clear_bits value (Z.shiftl MODEL_SEL_MASK MODEL_SEL_POSI) in
  REG_WRITE REG_FLASH_CONF (Z.lor value (Z.shiftl (mode_sel c) MODEL_SEL_POSI)).

Definition flash_clr_qwfr : M st unit :=
  value ← REG_READ REG_FLASH_CONF;
  REG_WRITE REG_FLASH_CONF (clear_bits value (Z.shiftl MODEL_SEL_MASK MODEL_SEL_POSI));;
  value ← REG_READ REG_FLASH_OPERATE_SW;
  REG_WRITE REG_FLASH_OPERATE_SW (op_word_addr 0 FLASH_OPCODE_CRMR value);;
  wait_idle.

Definition flash_set_wsr (data : Z) : M st unit :=
  wait_idle;;
  value ← REG_READ REG_FLASH_CONF;
  let value := clear_bits value (Z.shiftl WRSR_DATA_MASK WRSR_DATA_POSI) in
  REG_WRITE REG_FLASH_CONF (Z.lor value (Z.shiftl data WRSR_DATA_POSI));;
  value ← REG_READ REG_FLASH_OPERATE_SW;
  REG_WRITE REG_FLASH_OPERATE_SW (op_word_keep value FLASH_OPCODE_WRSR2);;
  wait_idle.

Definition flash_get_line_mode : M st Z := c ← cfg; mret (line_mode c).

Definition flash_set_line_mode (mode : Z) : M st unit :=
  when (1 =? mode) flash_clr_qwfr;;
  if 2 =? mode then
    flash_clr_qwfr;;
    value ← REG_READ REG_FLASH_CONF;
    let value := clear_bits value (Z.shiftl MODEL_SEL_MASK MODEL_SEL_POSI) in
    REG_WRITE REG_FLASH_CONF (Z.lor value (Z.shiftl (Z.land MODE_DUAL MODEL_SEL_MASK) MODEL_SEL_POSI))
  else when (4 =? mode) (
    flash_clr_qwfr;;
    value ← REG_READ REG_FLASH_SR_DATA_CRC_CNT;
    c ← cfg;
    let value := clear_bits value (Z.shiftl M_VALUE_MASK M_VALUE_POST) in
    REG_WRITE REG_FLASH_SR_DATA_CRC_CNT (Z.lor value (Z.shiftl (m_value c) M_VALUE_POST));;
    _ ← REG_READ REG_FLASH_SR_DATA_CRC_CNT;
    when (1 =? qe_bit c) flash_set_qe;;
    flash_set_qwfr).

Definition flash_get_id : M st Z :=
  REG_WRITE REG_FLASH_OPERATE_SW (op_word FLASH_OPCODE_RDID);;
  wait_idle;;
  id ← REG_READ REG_FLASH_RDID_DATA_FLASH;
  modify (fun s => FlashSt (fs_hw s) (flash_current_config s) id (peri_busy_count s));;
  mret id.

(** The local [flash_id] hides the static one, which is left alone. *)
Definition flash_read_mid : M st Z :=
  wait_idle;;
  value ← REG_READ REG_FLASH_OPERATE_SW;
  REG_WRITE REG_FLASH_OPERATE_SW
    (Z.lor (Z.lor (Z.lor (Z.land value (Z.shiftl ADDR_SW_REG_MASK ADDR_SW_REG_POSI))
      (Z.shiftl FLASH_OPCODE_RDID OP_TYPE_SW_POSI)) OP_SW) (Z.land value WP_VALUE));;
  wait_idle;;
  REG_READ REG_FLASH_RDID_DATA_FLASH.

Definition get_flash_protect : M st Z :=
  c ← cfg;
  sr_value ← flash_read_sr (sr_size c);
  let param := Z.land (Z.shiftr sr_value (protect_post c)) (protect_mask c) in
  let cmp := Z.land (Z.shiftr sr_value (cmp_post c)) 0x01 in
  let value := u16 (Z.lor (Z.shiftl cmp 8) param) in
  mret (if value =? protect_all c then protect_num FLASH_PROTECT_ALL
        else if value =? protect_none c then protect_num FLASH_PROTECT_NONE
        else if value =? protect_half c then protect_num FLASH_PROTECT_HALF
        else if value =? unprotect_last_block c then protect_num FLASH_UNPROTECT_LAST_BLOCK
        else u16 (-1)).

(** The member of the configuration a protection type selects; other values
    of the enumeration select full protection. *)
Definition protect_field (c : flash_config_t) (type : Z) : Z :=
  if type =? 0 then protect_none c
  else if type =? 1 then protect_all c
  else if type =? 2 then protect_half c
  else if type =? 3 then unprotect_last_block c
  else protect_all c.

Definition set_flash_protect (type : Z) : M st unit :=
  c ← cfg;
  let param := Z.land (protect_field c type) 0xff in
  let cmp := Z.land (Z.shiftr (protect_field c type) 8) 0xff in
  value ← flash_read_sr (sr_size c);
  if negb (Z.shiftl param (protect_post c) =?
             Z.land value (Z.shiftl (protect_mask c) (protect_post c)))
     || negb (Z.shiftl cmp (cmp_post c) =? Z.land value (Z.shiftl 0x01 (cmp_post c)))
  then
    let value := Z.lor (clear_bits value (Z.shiftl (protect_mask c) (protect_post c)))
                       (Z.shiftl param (protect_post c)) in
    let value := clear_bits value (Z.shiftl 1 (cmp_post c)) in
    let value := Z.lor value (Z.shiftl (Z.land cmp 0x01) (cmp_post c)) in
    flash_write_sr (sr_size c) (u16 value)
  else mret tt.

Definition flash_erase_sector (address : Z) : M st unit :=
  let erase_addr := Z.land address 0xFFF000 in
  c ← cfg;
  if flash_size c <=? erase_addr then mret tt
  else
    wait_idle;;
    value ← REG_READ REG_FLASH_OPERATE_SW;
    REG_WRITE REG_FLASH_OPERATE_SW (op_word_addr erase_addr FLASH_OPCODE_SE value);;
    wait_idle.

Definition flash_set_hpm : M st unit :=
  wait_idle;;
  value ← REG_READ REG_FLASH_OPERATE_SW;
  REG_WRITE REG_FLASH_OPERATE_SW (op_word_addr 0 FLASH_OPCODE_HPM value);;
  wait_idle.

(** [for(i = 0; i < 8; i++) buf[i] = REG_READ(REG_FLASH_DATA_FLASH_SW);] *)
Fixpoint fetch_words (n : nat) : M st (list Z) :=
  match n with
  | O => mret []
  | S n' => w ← REG_READ REG_FLASH_DATA_FLASH_SW; ws ← fetch_words n'; mret (w :: ws)
  end.

(** [for(i = 0; i < 8; i++) REG_WRITE(REG_FLASH_DATA_SW_FLASH, buf[i]);] *)
Fixpoint store_words (ws : list Z) : M st unit :=
  match ws with
  | [] => mret tt
  | w :: ws' => REG_WRITE REG_FLASH_DATA_SW_FLASH w;; store_words ws'
  end.

(** The copy loop of a read, [n = 32 - i] turns at most: the bytes stored at
    [buffer], and the new [address] and [len]. *)
Fixpoint copy_out (n : nat) (pb : list Z) (i : nat) (address len : Z) : list Z * Z * Z :=
  match n with
  | O => ([], address, len)
  | S n' =>
    let b := default 0 (pb !! i) in
    let address := u32 (address + 1) in
    let len := u32 (len - 1) in
    if len =? 0 then ([b], address, len)
    else let '(bs, address, len) := copy_out n' pb (S i) address len in (b :: bs, address, len)
  end.

(** [while(len)] of the read: one line of 32 bytes per turn. *)
Fixpoint read_lines (n : nat) (addr address len : Z) : M st (list Z) :=
  match n with
  | O => fail NoFuel
  | S n' =>
    if len =? 0 then mret []
    else
      reg_value ← REG_READ REG_FLASH_OPERATE_SW;
      REG_WRITE REG_FLASH_OPERATE_SW (op_word_addr addr FLASH_OPCODE_READ reg_value);;
      wait_idle;;
      buf ← fetch_words 8;
      let off := Z.to_nat (address mod 32) in
      let '(bs, address, len) := copy_out (32 - off) (words_bytes buf) off address len in
      rest ← read_lines n' (u32 (addr + 32)) address len;
      mret (bs ++ rest)
  end.

(** A turn reads at least one byte: [len + 1] turns are enough. *)
Definition flash_read_data (address len : Z) : M st (list Z) :=
  let addr := Z.land address (Z.lnot 0x1F) in
  if len =? 0 then mret []
  else wait_idle;; read_lines (S (Z.to_nat len)) addr address len.

(** The copy loop of a write: the line buffer, what is left of [buffer], and
    the new [address] and [len]. *)
Fixpoint copy_in (n : nat) (pb buffer : list Z) (i : nat) (address len : Z)
  : res (list Z * list Z * Z * Z) :=
  match n with
  | O => Val (pb, buffer, address, len)
  | S n' =>
    match buffer with
    | [] => Err BadAccess
    | b :: buffer =>
      let pb := <[i := b]> pb in
      let address := u32 (address + 1) in
      let len := u32 (len - 1) in
      if len =? 0 then Val (pb, buffer, address, len)
      else copy_in n' pb buffer (S i) address len
    end
  end.

(** The words of the line buffer. *)
Fixpoint bytes_words (n : nat) (pb : list Z) : list Z :=
  match n with O => [] | S n' => word_of_le (take 4 pb) :: bytes_words n' (drop 4 pb) end.

Definition blank_line : list Z := replicate 32 0xFF.

(** [while(len)] of the write. *)
Fixpoint write_lines (n : nat) (pb buffer : list Z) (addr address len : Z) : M st unit :=
  match n with
  | O => fail NoFuel
  | S n' =>
    if len =? 0 then mret tt
    else
      pb ← (if len <? 32 then pb ← flash_read_data addr 32; wait_idle;; mret pb else mret pb);
      let off := Z.to_nat (address mod 32) in
      '(pb, buffer, address, len) ← lift_res (copy_in (32 - off) pb buffer off address len);
      store_words (bytes_words 8 pb);;
      reg_value ← REG_READ REG_FLASH_OPERATE_SW;
      REG_WRITE REG_FLASH_OPERATE_SW (op_word_addr addr FLASH_OPCODE_PP reg_value);;
      wait_idle;;
      write_lines n' blank_line buffer (u32 (addr + 32)) address len
  end.

Definition flash_write_data (buffer : list Z) (address len : Z) : M st unit :=
  let addr := Z.land address (Z.lnot 0x1F) in
  c ← cfg;
  if (flash_size c <=? addr) || (flash_size c <? len) || (flash_size c <? u32 (addr + len))
  then mret tt
  else
    pb ← (if truthy (address mod 32) then flash_read_data addr 32 else mret blank_line);
    wait_idle;;
    write_lines (S (Z.to_nat len)) pb buffer addr address len.

Definition flash_protection_op (mode type : Z) : M st unit := set_flash_protect type.

Definition flash_read (count address : Z) : M st (Z * list Z) :=
  peri_busy_count_add;;
  bs ← flash_read_data address count;
  peri_busy_count_dec;;
  mret (FLASH_SUCCESS, bs).

(** A quad-mode part is switched to dual mode around an operation. *)
Definition line_mode_to (mode : Z) : M st unit :=
  c ← cfg; when (4 =? line_mode c) (flash_set_line_mode mode).

Definition flash_write (user_buf : list Z) (count address : Z) : M st Z :=
  peri_busy_count_add;;
  line_mode_to LINE_MODE_TWO;;
  flash_write_data user_buf address count;;
  line_mode_to LINE_MODE_FOUR;;
  peri_busy_count_dec;;
  mret FLASH_SUCCESS.

(** The clock commands leave the rest of the register alone. *)
Definition set_clk_conf (clk : st -> Z) : M st unit :=
  reg ← REG_READ REG_FLASH_CONF;
  let reg := clear_bits reg (Z.shiftl FLASH_CLK_CONF_MASK FLASH_CLK_CONF_POSI) in
  s ← get;
  REG_WRITE REG_FLASH_CONF (Z.lor reg (Z.shiftl (clk s) FLASH_CLK_CONF_POSI)).

Definition SCTRL_CMD_MAGIC : Z := 0xC123000.
Definition CMD_SCTRL_SET_FLASH_DCO : Z := SCTRL_CMD_MAGIC + 36.
Definition CMD_SCTRL_SET_FLASH_DPLL : Z := SCTRL_CMD_MAGIC + 37.

(** The switch of [flash_ctrl]; [p] is the word [parm] points to. *)
Definition flash_ctrl_cmd (cmd p : Z) : M st (Z * Z) :=
  let done (m : M st unit) := (m;; mret (FLASH_SUCCESS, p)) in
  if cmd =? CMD_FLASH_SET_CLK then done (flash_set_clk (p mod 256))
  else if cmd =? CMD_FLASH_SET_DPLL then
    modify (fun s => set_hw s (sctrl_control CMD_SCTRL_SET_FLASH_DPLL (fs_hw s)));;
    done (set_clk_conf (fun _ => 5))
  else if cmd =? CMD_FLASH_SET_DCO then
    modify (fun s => set_hw s (sctrl_control CMD_SCTRL_SET_FLASH_DCO (fs_hw s)));;
    done (set_clk_conf (fun s => if ate_mode (fs_hw s) then 0xB else 9))
  else if cmd =? CMD_FLASH_WRITE_ENABLE then done flash_write_enable
  else if cmd =? CMD_FLASH_WRITE_DISABLE then done flash_write_disable
  else if cmd =? CMD_FLASH_READ_SR then sr ← flash_read_sr 2; mret (FLASH_SUCCESS, store16 p sr)
  else if cmd =? CMD_FLASH_WRITE_SR then
    done (flash_write_sr (Z.land p 0x00FF) (Z.land (Z.shiftr p 8) 0x00FFFF))
  else if cmd =? CMD_FLASH_READ_QE then qe ← flash_read_qe; mret (FLASH_SUCCESS, store8 p qe)
  else if cmd =? CMD_FLASH_SET_QE then
    done (c ← cfg; when (truthy (qe_bit c)) flash_set_qe)
  else if cmd =? CMD_FLASH_SET_QWFR then done flash_set_qwfr
  else if cmd =? CMD_FLASH_CLR_QWFR then done flash_clr_qwfr
  else if cmd =? CMD_FLASH_SET_WSR then done (flash_set_wsr (p mod 65536))
  else if cmd =? CMD_FLASH_GET_ID then id ← flash_get_id; mret (FLASH_SUCCESS, id)
  else if cmd =? CMD_FLASH_READ_MID then id ← flash_read_mid; mret (FLASH_SUCCESS, id)
  else if cmd =? CMD_FLASH_GET_PROTECT then t ← get_flash_protect; mret (FLASH_SUCCESS, t)
  else if cmd =? CMD_FLASH_ERASE_SECTOR then done (flash_erase_sector p)
  else if cmd =? CMD_FLASH_SET_HPM then done flash_set_hpm
  else if cmd =? CMD_FLASH_SET_PROTECT then done (flash_protection_op 0 p)
  else mret (FLASH_FAILURE, p).

Definition flash_ctrl (cmd parm : Z) : M st (Z * Z) :=
  peri_busy_count_add;;
  line_mode_to LINE_MODE_TWO;;
  ret ← flash_ctrl_cmd cmd parm;
  line_mode_to LINE_MODE_FOUR;;
  peri_busy_count_dec;;
  mret ret.

(** The operations object [flash_op], which has no open and no close. *)
Definition flash_op : DD_OPERATIONS st := {|
  op_open := None; op_close := None;
  op_read := Some flash_read; op_write := Some flash_write; op_control := Some flash_ctrl;
|}.

Definition FLASH_DEV_NAME : string := "flash".

(** [op_addr]: the address of [flash_op]. *)
Definition flash_init (op_addr : Z) : M (drv_state st) unit :=
  call (
    wait_idle;;
    _ ← flash_get_id;
    flash_get_current_flash_config;;
    set_flash_protect (protect_num FLASH_UNPROTECT_LAST_BLOCK);;
    flash_disable_cpu_data_wr;;
    c ← cfg;
    flash_set_line_mode (line_mode c);;
    flash_set_clk 5);;
  _ ← ddev_register_dev (Some FLASH_DEV_NAME) (Some op_addr);
  mret tt.

Definition flash_exit : M (drv_state st) unit :=
  _ ← ddev_unregister_dev (Some FLASH_DEV_NAME);
  mret tt.
End driver.
