(* ===== verification/FlashCorrect.v ===== *)
(** * What the flash driver guarantees

    Total-correctness rules for the register accesses of [Flash] over any
    device that satisfies [FlashSpec], then one specification per function of
    driver/flash/flash.c, and the theorems about reading, programming, erasing
    and protecting the chip. *)
From S2P Require Import Prelude FlashHw DrvModel Flash.
From stdpp Require Import strings.
Local Open Scope Z_scope.

(** ** Command words *)

(** The fields of a command word do not overlap. *)
Lemma op_word_addr_sum addr opc v :
  0 <= addr < 2 ^ 24 -> 0 <= opc < 32 ->
  op_word_addr addr opc v = addr + opc * 2 ^ 24 + 2 ^ 29 + b2z (Z.testbit v 30) * 2 ^ 30.
Proof.
  intros Ha Ho. unfold op_word_addr. change WP_VALUE with (2 ^ 30). rewrite land_pow2, Z.shiftl_0_r by lia.
  change OP_SW with (Z.shiftl 1 29). change OP_TYPE_SW_POSI with 24.
  rewrite (lor_shiftl_add addr), (lor_shiftl_add _ 1 29), lor_shiftl_add; [lia|lia| |lia| |lia|lia].
  - lia.
  - lia.
Qed.

Lemma op_word_sum opc : 0 <= opc < 32 -> op_word opc = opc * 2 ^ 24 + 2 ^ 29 + 2 ^ 30.
Proof.
  intros Ho. transitivity (op_word_addr 0 opc (2 ^ 30)); [|by rewrite op_word_addr_sum].
  unfold op_word, op_word_addr. rewrite Z.shiftl_0_l. by rewrite Z.lor_0_l.
Qed.

(** A word that starts [opc] at [addr]. *)
Definition command (w addr opc : Z) : Prop :=
  is_u32 w /\ Z.testbit w 29 = true /\ (w / 2 ^ OP_TYPE_SW_POSI) mod 32 = opc /\ w mod 2 ^ 24 = addr.

Lemma command_sum addr opc b :
  0 <= addr < 2 ^ 24 -> 0 <= opc < 32 -> 
  command (addr + opc * 2 ^ 24 + 2 ^ 29 + b2z b * 2 ^ 30) addr opc.
Proof.
  intros Ha Ho. assert (0 <= b2z b <= 1) by (destruct b; cbn; lia).
  unfold command. change OP_TYPE_SW_POSI with 24. split_and!; [zlia| |zlia|zlia].
  rewrite Z.testbit_true by lia. zlia.
Qed.

Lemma command_addr addr opc v :
  0 <= addr < 2 ^ 24 -> 0 <= opc < 32 -> command (op_word_addr addr opc v) addr opc.
Proof. intros. rewrite op_word_addr_sum by done. by apply command_sum. Qed.

Lemma command_op opc : 0 <= opc < 32 -> command (op_word opc) 0 opc.
Proof.
  intros. rewrite op_word_sum by done.
  replace (opc * 2 ^ 24 + 2 ^ 29 + 2 ^ 30) with (0 + opc * 2 ^ 24 + 2 ^ 29 + b2z true * 2 ^ 30) by (cbn; lia).
  by apply command_sum.
Qed.
Create HintDb flash.
#[export] Hint Resolve command_addr command_op : flash.

(** The line address of the code, as arithmetic. *)
Lemma land_line a : Z.land a (Z.lnot 0x1F) = a - a mod 32.
Proof.
  rewrite <- Z.ldiff_land. change 0x1F with (Z.ones 5).
  rewrite Z.ldiff_ones_r by lia. rewrite Z.shiftr_div_pow2, Z.shiftl_mul_pow2 by lia.
  change (2 ^ 5) with 32. zlia.
Qed.

Lemma sector_base a : 0 <= a < 2 ^ 24 -> Z.land a 0xFFF000 = a - a mod 4096.
Proof.
  intros Ha. transitivity (Z.ldiff a (Z.ones 12)).
  - apply Z.bits_inj'. intros i Hi. rewrite Z.land_spec, Z.ldiff_spec.
    change 0xFFF000 with (Z.ldiff (Z.ones 24) (Z.ones 12)). rewrite Z.ldiff_spec.
    destruct (decide (i < 24)); [by rewrite (Z.ones_spec_low 24) by lia|].
    by rewrite (testbit_small a 24) by lia.
  - rewrite Z.ldiff_ones_r, Z.shiftr_div_pow2, Z.shiftl_mul_pow2 by lia. change (2 ^ 12) with 4096. zlia.
Qed.

Lemma clear_bits_u32 v m : is_u32 v -> is_u32 (clear_bits v m).
Proof. apply land_u32. Qed.
#[export] Hint Resolve clear_bits_u32 : flash.

(** ** Lines *)

Definition with_rx (c : chip) (ws : list Z) : chip :=
  Chip (ch_mem c) (ch_sr c) (ch_srdata c) (ch_conf c) ws (ch_tx c).
Definition with_tx (c : chip) (ws : list Z) : chip :=
  Chip (ch_mem c) (ch_sr c) (ch_srdata c) (ch_conf c) (ch_rx c) ws.

Lemma with_mem_eta c : with_mem c (ch_mem c) = c.
Proof. by destruct c. Qed.
Lemma with_rx_eta c : with_rx c (ch_rx c) = c.
Proof. by destruct c. Qed.

Lemma length_mem_words m a n : length (mem_words m a n) = n.
Proof. revert a. induction n; intros a; simpl; auto. Qed.

(** A copy loop of a read moves [min n len] bytes. *)
Lemma copy_out_spec n pb i address len :
  (i + n <= length pb)%nat -> 0 < len -> 0 <= address -> address + len <= 2 ^ 32 - 1 ->
  let k := Nat.min n (Z.to_nat len) in
  copy_out n pb i address len = (take k (drop i pb), address + Z.of_nat k, len - Z.of_nat k).
Proof.
  revert i address len. induction n as [|n IH]; intros i address len Hi Hlen Ha Hal k; subst k.
  { cbn. by rewrite Z.add_0_r, Z.sub_0_r. }
  assert (is_Some (pb !! i)) as [b Hb] by (apply lookup_lt_is_Some_2; lia).
  cbn [copy_out]. rewrite !u32_id, Hb by zlia. cbn [default].
  rewrite (drop_S pb b i) by done.
  destruct (Z.eqb_spec (len - 1) 0) as [Hl|Hl].
  - replace len with 1 by lia. change (Z.to_nat 1) with 1%nat.
    replace (Nat.min (S n) 1) with 1%nat by lia. done.
  - rewrite IH by lia. replace (Nat.min (S n) (Z.to_nat len)) with (S (Nat.min n (Z.to_nat (len - 1)))) by lia.
    cbn [take]. f_equal; [f_equal|]; lia.
Qed.

(** A copy loop of a write replaces [min n len] bytes of the line. *)
Lemma copy_in_spec n pb buffer i address len :
  (i + n <= length pb)%nat -> 0 < len <= Z.of_nat (length buffer) ->
  0 <= address -> address + len <= 2 ^ 32 - 1 ->
  let k := Nat.min n (Z.to_nat len) in
  copy_in n pb buffer i address len =
    Val (splice i (take k buffer) pb, drop k buffer, address + Z.of_nat k, len - Z.of_nat k).
Proof.
  revert pb buffer i address len.
  induction n as [|n IH]; intros pb buffer i address len Hi Hlen Ha Hal k; subst k.
  { cbn. unfold splice. rewrite take_0. cbn. by rewrite Nat.add_0_r, take_drop, drop_0, Z.add_0_r, Z.sub_0_r. }
  destruct buffer as [|b buffer]; cbn [length] in Hlen; [lia|].
  assert (Hsp : forall k, (k <= n)%nat ->
    splice (S i) (take k buffer) (<[i:=b]> pb) = splice i (b :: take k buffer) pb).
  { intros k Hk. unfold splice. cbn [length app]. rewrite (take_S_r _ _ b).
    2: { apply list_lookup_insert_eq. lia. }
    rewrite take_insert_ge by lia. rewrite <- app_assoc. cbn [app]. do 3 f_equal.
    rewrite drop_insert_lt by lia. f_equal. lia. }
  cbn [copy_in]. rewrite !u32_id by zlia.
  destruct (Z.eqb_spec (len - 1) 0) as [Hl|Hl].
  - replace (Nat.min (S n) (Z.to_nat len)) with 1%nat by lia.
    pose proof (Hsp 0%nat ltac:(lia)) as Hs0. rewrite take_0 in Hs0. cbn [take drop].
    rewrite take_0, <- Hs0, drop_0. unfold splice. cbn [app length].
    rewrite Nat.add_0_r, take_drop. by replace len with 1 by lia.
  - rewrite IH by (rewrite ?length_insert; lia).
    replace (Nat.min (S n) (Z.to_nat len)) with (S (Nat.min n (Z.to_nat (len - 1)))) by lia.
    rewrite Hsp by lia. cbn [take drop]. do 2 f_equal; [f_equal|]; lia.
Qed.

Lemma bytes_words_u32 n pb : bytes_ok pb -> (4 * n <= length pb)%nat -> Forall is_u32 (bytes_words n pb).
Proof.
  revert pb. induction n as [|n IH]; intros pb Hpb Hl; constructor.
  - pose proof (word_of_le_range (take 4 pb)) as Hw. rewrite length_take, Nat.min_l in Hw by lia.
    apply Hw. by apply Forall_take.
  - apply IH; [by apply Forall_drop|rewrite length_drop; lia].
Qed.

Lemma words_bytes_words n pb : bytes_ok pb -> length pb = (4 * n)%nat -> words_bytes (bytes_words n pb) = pb.
Proof.
  revert pb. induction n as [|n IH]; intros pb Hpb Hl.
  { by destruct pb. }
  unfold words_bytes. cbn [bytes_words map concat]. fold (words_bytes (bytes_words n (drop 4 pb))).
  rewrite IH; [|by apply Forall_drop|rewrite length_drop; lia].
  pose proof (word_to_of_le (take 4 pb)) as Hw. rewrite length_take, Nat.min_l in Hw by lia.
  rewrite Hw by (by apply Forall_take). apply take_drop.
Qed.

(** A line buffer whose bytes change nothing when they are programmed: the
    bytes already there, or 0xFF. *)
Definition neutral (pb : list Z) (addr : Z) (m : Z -> Z) : Prop :=
  length pb = 32%nat /\ bytes_ok pb /\
  forall i b, pb !! i = Some b -> Z.land (m (addr + Z.of_nat i)) b = m (addr + Z.of_nat i).

Lemma neutral_old addr m : (forall a, is_u8 (m a)) -> neutral (mem_bytes m addr 32) addr m.
Proof.
  intros Hm. split_and!; [apply length_mem_bytes|by apply mem_bytes_ok|].
  intros i b Hb. pose proof (lookup_lt_Some _ _ _ Hb) as Hi. rewrite length_mem_bytes in Hi.
  rewrite mem_bytes_lookup in Hb by done. injection Hb as <-. apply Z.land_diag.
Qed.

Lemma neutral_blank addr m : (forall a, is_u8 (m a)) -> neutral blank_line addr m.
Proof.
  intros Hm. split_and!; [done|by apply Forall_replicate|].
  intros i b Hb. apply lookup_replicate in Hb as [-> _].
  rewrite land_0xff. apply Z.mod_small, Hm.
Qed.

(** Programming a line is programming the bytes that were put in it. *)
Lemma mem_program_line locked addr off bs pb m a :
  neutral pb addr m -> (off + length bs <= 32)%nat ->
  mem_program locked addr (splice off bs pb) m a = mem_program locked (addr + Z.of_nat off) bs m a.
Proof.
  intros (Hl & _ & Hn) Hoff. unfold mem_program. rewrite length_splice, Hl by lia.
  destruct (locked a); [by rewrite !andb_false_r|]. cbn [negb]. rewrite !andb_true_r.
  destruct (Z.leb_spec addr a), (Z.ltb_spec a (addr + Z.of_nat 32)); cbn [andb].
  2-4: destruct (Z.leb_spec (addr + Z.of_nat off) a), (Z.ltb_spec a (addr + Z.of_nat off + Z.of_nat (length bs)));
       cbn [andb]; (done || lia).
  destruct (Z.leb_spec (addr + Z.of_nat off) a), (Z.ltb_spec a (addr + Z.of_nat off + Z.of_nat (length bs)));
    cbn [andb].
  - rewrite splice_lookup_in by lia. do 3 f_equal. lia.
  - rewrite splice_lookup_out by lia.
    destruct (pb !! Z.to_nat (a - addr)) as [b|] eqn:Hb; [|apply lookup_ge_None in Hb; lia].
    pose proof (Hn _ _ Hb) as Hna. by replace (addr + Z.of_nat (Z.to_nat (a - addr))) with a in Hna by lia.
  - rewrite splice_lookup_out by lia.
    destruct (pb !! Z.to_nat (a - addr)) as [b|] eqn:Hb; [|apply lookup_ge_None in Hb; lia].
    pose proof (Hn _ _ Hb) as Hna. by replace (addr + Z.of_nat (Z.to_nat (a - addr))) with a in Hna by lia.
  - lia.
Qed.

Lemma mem_program_app locked addr bs1 bs2 m m' a :
  (forall a, m' a = mem_program locked addr bs1 m a) ->
  mem_program locked (addr + Z.of_nat (length bs1)) bs2 m' a = mem_program locked addr (bs1 ++ bs2) m a.
Proof.
  intros Hm. unfold mem_program at 1. rewrite Hm. unfold mem_program. rewrite length_app.
  destruct (locked a); [by rewrite !andb_false_r|]. cbn [negb]. rewrite !andb_true_r.
  destruct (Z.leb_spec addr a); cbn [andb].
  2: { by rewrite (proj2 (Z.leb_gt _ _)) by lia. }
  destruct (Z.ltb_spec a (addr + Z.of_nat (length bs1))).
  - rewrite (proj2 (Z.leb_gt (addr + Z.of_nat (length bs1)) a)) by lia. cbn [andb].
    rewrite (proj2 (Z.ltb_lt a (addr + Z.of_nat (length bs1 + length bs2)))) by lia. by rewrite lookup_app_l by lia.
  - rewrite (proj2 (Z.leb_le (addr + Z.of_nat (length bs1)) a)) by lia. cbn [andb].
    rewrite Nat2Z.inj_add, Z.add_assoc. destruct (Z.ltb_spec a (addr + Z.of_nat (length bs1) + Z.of_nat (length bs2))); [|done].
    rewrite lookup_app_r by lia. do 3 f_equal. lia.
Qed.

(** ** The protection field *)

(** What the driver needs of an entry of the configuration table. *)
Definition protect_values (cf : flash_config_t) : list Z :=
  [protect_all cf; protect_none cf; protect_half cf; unprotect_last_block cf].

Definition cfg_wf (cf : flash_config_t) : bool :=
  ((sr_size cf =? 1) || (sr_size cf =? 2)) && (line_mode cf =? 2) &&
  (0 <=? protect_post cf) && (0 <=? cmp_post cf) && (cmp_post cf <? 8 * sr_size cf) &&
  (0 <=? protect_mask cf) && (protect_mask cf <? 256) &&
  (Z.shiftl (protect_mask cf) (protect_post cf) <? 2 ^ (8 * sr_size cf)) &&
  negb (Z.testbit (Z.shiftl (protect_mask cf) (protect_post cf)) (cmp_post cf)) &&
  forallb (fun f => (0 <=? f) && (f <? 512) && (Z.land (Z.land f 0xff) (protect_mask cf) =? Z.land f 0xff))
    (protect_values cf) && (flash_size cf <=? 2 ^ 23) && (0 <? flash_size cf).

Lemma flash_config_wf cf : cf ∈ flash_config -> cfg_wf cf = true.
Proof.
  assert (Hall : forallb cfg_wf flash_config = true) by by vm_compute.
  rewrite forallb_forall in Hall. intros Hcf. apply Hall. by apply list_elem_of_In.
Qed.

Lemma protect_field_in cf t : In (protect_field cf t) (protect_values cf).
Proof. unfold protect_field, protect_values. repeat case_match; cbn; tauto. Qed.

(** Bit [i] of the status once [f] is put in it. *)
Definition protect_bit (cf : flash_config_t) (f v : Z) (i : Z) : bool :=
  if i =? cmp_post cf then Z.testbit f 8
  else if Z.testbit (Z.shiftl (protect_mask cf) (protect_post cf)) i
  then Z.testbit f (i - protect_post cf) else Z.testbit v i.

Record wf_facts (cf : flash_config_t) (f : Z) : Prop := {
  wf_size : sr_size cf = 1 \/ sr_size cf = 2;
  wf_line : line_mode cf = 2;
  wf_post : 0 <= protect_post cf;
  wf_cmp : 0 <= cmp_post cf < 8 * sr_size cf;
  wf_mask : 0 <= protect_mask cf < 256;
  wf_field : 0 <= Z.shiftl (protect_mask cf) (protect_post cf) < 2 ^ (8 * sr_size cf);
  wf_apart : Z.testbit (Z.shiftl (protect_mask cf) (protect_post cf)) (cmp_post cf) = false;
  wf_value : 0 <= f < 512;
  wf_fits : Z.land (Z.land f 0xff) (protect_mask cf) = Z.land f 0xff;
}.

Lemma cfg_wf_facts cf t : cfg_wf cf = true -> wf_facts cf (protect_field cf t).
Proof.
  unfold cfg_wf. rewrite !andb_true_iff, orb_true_iff, negb_true_iff, forallb_forall.
  intros [[[[[[[[[[[Hs Hl] Hp] Hc1] Hc2] Hm1] Hm2] Hf] Ha] Hv] _] _].
  specialize (Hv _ (protect_field_in cf t)). rewrite !andb_true_iff in Hv. destruct Hv as [[Hv1 Hv2] Hv3].
  rewrite ?Z.eqb_eq, ?Z.leb_le, ?Z.ltb_lt in *.
  split; try done. split; [by apply Z.shiftl_nonneg|done].
Qed.

Lemma testbit_fits cf f i : wf_facts cf f -> 0 <= i < 8 ->
  Z.testbit f i && Z.testbit (protect_mask cf) i = Z.testbit f i.
Proof.
  intros Hw Hi. pose proof (f_equal (fun x => Z.testbit x i) (wf_fits _ _ Hw)) as He. cbn beta in He.
  rewrite !Z.land_spec in He. change 0xff with (Z.ones 8) in He. rewrite Z.ones_spec_low in He by lia.
  by rewrite !andb_true_r in He.
Qed.

Lemma mask_high cf f i : wf_facts cf f -> 8 <= i -> Z.testbit (protect_mask cf) i = false.
Proof. intros Hw Hi. apply (testbit_small _ 8); [apply (wf_mask _ _ Hw)|done]. Qed.

(** The value the driver computes to put [f] in the status [v]. *)
Definition protect_sr (cf : flash_config_t) (f v : Z) : Z :=
  u16 (Z.lor (clear_bits (Z.lor (clear_bits v (Z.shiftl (protect_mask cf) (protect_post cf)))
                                (Z.shiftl (Z.land f 0xff) (protect_post cf))) (Z.shiftl 1 (cmp_post cf)))
             (Z.shiftl (Z.land (Z.land (Z.shiftr f 8) 0xff) 0x01) (cmp_post cf))).

Lemma cmp_field f n : 0 <= n ->
  Z.shiftl (Z.land (Z.land (Z.shiftr f 8) 0xff) 0x01) n = Z.shiftl (b2z (Z.testbit f 8)) n.
Proof.
  intros Hn. rewrite <- Z.land_assoc. change (Z.land 255 1) with (2 ^ 0).
  rewrite land_pow2, Z.shiftl_0_r, Z.shiftr_spec by lia. done.
Qed.

Lemma testbit_flag b n i : 0 <= n -> 0 <= i -> Z.testbit (Z.shiftl (b2z b) n) i = b && (i =? n).
Proof.
  intros Hn Hi. destruct b; cbn [b2z andb]; [|by rewrite Z.shiftl_0_l, Z.bits_0].
  rewrite Z.shiftl_1_l, Z.pow2_bits_eqb by done. apply Z.eqb_sym.
Qed.

Lemma flag_u16 b n : 0 <= n < 16 -> is_u16 (Z.shiftl (b2z b) n).
Proof.
  intros Hn. destruct b; cbn [b2z]; [|rewrite Z.shiftl_0_l; zlia].
  rewrite Z.shiftl_1_l. split; [lia|]. change 65536 with (2 ^ 16). apply Z.pow_lt_mono_r; lia.
Qed.

Section protect_bits.
Context (cf : flash_config_t) (f v : Z) (Hw : wf_facts cf f) (Hv : 0 <= v < 2 ^ (8 * sr_size cf)).

Lemma v_u16 : is_u16 v.
Proof.
  unfold is_u16. change 65536 with (2 ^ 16). split; [lia|].
  eapply Z.lt_le_trans; [apply Hv|]. apply Z.pow_le_mono_r; [lia|]. destruct (wf_size _ _ Hw); lia.
Qed.

Lemma param_field :
  Z.shiftl (Z.land f 0xff) (protect_post cf) =
  Z.land (Z.shiftl (Z.land f 0xff) (protect_post cf)) (Z.shiftl (protect_mask cf) (protect_post cf)).
Proof. pose proof (wf_post _ _ Hw). by rewrite <- Z.shiftl_land, (wf_fits _ _ Hw). Qed.

Lemma param_u16 : is_u16 (Z.shiftl (Z.land f 0xff) (protect_post cf)).
Proof.
  rewrite param_field, Z.land_comm. apply land_u16.
  pose proof (wf_field _ _ Hw) as [H0 H1]. unfold is_u16. change 65536 with (2 ^ 16). split; [done|].
  eapply Z.lt_le_trans; [apply H1|]. apply Z.pow_le_mono_r; [lia|]. destruct (wf_size _ _ Hw); lia.
Qed.

Lemma protect_sr_bits i : 0 <= i -> Z.testbit (protect_sr cf f v) i = protect_bit cf f v i.
Proof.
  intros Hi. pose proof (wf_cmp _ _ Hw) as Hc. pose proof (wf_post _ _ Hw) as Hp.
  assert (Hc16 : 0 <= cmp_post cf < 16) by (destruct (wf_size _ _ Hw); lia).
  unfold protect_sr. rewrite cmp_field by lia. rewrite u16_id.
  2: { apply lor_u16; [|by apply flag_u16]. apply land_u16, lor_u16; [apply land_u16, v_u16|apply param_u16]. }
  unfold clear_bits. change (Z.shiftl 1 (cmp_post cf)) with (Z.shiftl (b2z true) (cmp_post cf)).
  rewrite Z.lor_spec, testbit_flag, Z.land_spec, Z.lnot_spec, testbit_flag by lia.
  rewrite Z.lor_spec, Z.land_spec, Z.lnot_spec by lia. unfold protect_bit.
  destruct (Z.eqb_spec i (cmp_post cf)) as [->|Hne].
  { rewrite andb_false_r, andb_true_r. done. }
  rewrite !andb_false_r, orb_false_r, andb_true_r.
  rewrite (Z.shiftl_spec (Z.land f 255)) by done.
  destruct (Z.testbit (Z.shiftl (protect_mask cf) (protect_post cf)) i) eqn:Em; cbn [negb].
  - rewrite andb_false_r. cbn [orb]. rewrite Z.shiftl_spec in Em by done.
    destruct (decide (i < protect_post cf)); [by rewrite Z.testbit_neg_r in Em by lia|].
    destruct (decide (8 <= i - protect_post cf)) as [H8|H8]; [by rewrite (mask_high cf f) in Em|].
    rewrite Z.land_spec. change 0xff with (Z.ones 8). rewrite Z.ones_spec_low by lia. apply andb_true_r.
  - rewrite andb_true_r. destruct (Z.testbit (Z.land f 255) (i - protect_post cf)) eqn:Ef; [|apply orb_false_r].
    pose proof (f_equal (fun x => Z.testbit x i) param_field) as Hpf. cbn beta in Hpf.
    rewrite Z.land_spec, Em, andb_false_r, Z.shiftl_spec in Hpf by done. congruence.
Qed.

(** The value fits the status register it is written to. *)
Lemma protect_sr_range : 0 <= protect_sr cf f v < 2 ^ (8 * sr_size cf).
Proof.
  assert (Hn : 0 <= 8 * sr_size cf) by (destruct (wf_size _ _ Hw); lia).
  assert (H0 : 0 <= protect_sr cf f v) by apply u16_range.
  split; [done|]. apply Z.nle_gt. intros Hge.
  set (l := Z.log2 (protect_sr cf f v)).
  assert (Hl : 8 * sr_size cf <= l) by (apply Z.log2_le_pow2; lia).
  assert (Hb : Z.testbit (protect_sr cf f v) l = true) by (apply Z.bit_log2; lia).
  rewrite protect_sr_bits in Hb by lia. unfold protect_bit in Hb.
  destruct (Z.eqb_spec l (cmp_post cf)); [pose proof (wf_cmp _ _ Hw); lia|].
  rewrite (testbit_small (Z.shiftl (protect_mask cf) (protect_post cf)) (8 * sr_size cf)) in Hb
    by (done || apply (wf_field _ _ Hw)).
  by rewrite (testbit_small v (8 * sr_size cf)) in Hb.
Qed.

(** The fields read back from a status with these bits. *)
Lemma protect_read v' : (forall i, 0 <= i -> Z.testbit v' i = protect_bit cf f v i) ->
  u16 (Z.lor (Z.shiftl (Z.land (Z.shiftr v' (cmp_post cf)) 0x01) 8)
             (Z.land (Z.shiftr v' (protect_post cf)) (protect_mask cf))) = f.
Proof using Hw.
  clear Hv.
  intros Hb. pose proof (wf_cmp _ _ Hw) as Hc. pose proof (wf_post _ _ Hw) as Hp.
  change 1 with (2 ^ 0). rewrite land_pow2, Z.shiftl_0_r, Z.shiftr_spec, Z.add_0_l by lia.
  rewrite Hb by lia. unfold protect_bit at 1. rewrite Z.eqb_refl.
  replace (Z.land (Z.shiftr v' (protect_post cf)) (protect_mask cf)) with (Z.land f 0xff).
  - rewrite land_0xff, Z.lor_comm, lor_shiftl_add by zlia.
    pose proof (wf_value _ _ Hw). pose proof (Z.testbit_spec' f 8) as Hs.
    change (Z.b2z (Z.testbit f 8)) with (b2z (Z.testbit f 8)) in Hs. rewrite Hs by lia. zlia.
  - rewrite <- (wf_fits _ _ Hw) at 1. apply Z.bits_inj'. intros i Hi.
    rewrite !Z.land_spec, Z.shiftr_spec, Hb by lia. unfold protect_bit.
    rewrite Z.shiftl_spec by lia. replace (i + protect_post cf - protect_post cf) with i by lia.
    destruct (Z.testbit (protect_mask cf) i) eqn:Em; [|by rewrite !andb_false_r].
    destruct (Z.eqb_spec (i + protect_post cf) (cmp_post cf)) as [He|He].
    { pose proof (wf_apart _ _ Hw) as Ha. rewrite <- He, Z.shiftl_spec in Ha by lia.
      replace (i + protect_post cf - protect_post cf) with i in Ha by lia. congruence. }
    destruct (decide (8 <= i)) as [H8|H8]; [by rewrite (mask_high cf f) in Em|].
    change 0xff with (Z.ones 8). rewrite Z.ones_spec_low by lia. by rewrite !andb_true_r.
Qed.

(** A status that passes the test of the driver has them already. *)
Lemma protect_already :
  Z.shiftl (Z.land f 0xff) (protect_post cf) = Z.land v (Z.shiftl (protect_mask cf) (protect_post cf)) ->
  Z.shiftl (Z.land (Z.shiftr f 8) 0xff) (cmp_post cf) = Z.land v (Z.shiftl 0x01 (cmp_post cf)) ->
  forall i, 0 <= i -> Z.testbit v i = protect_bit cf f v i.
Proof.
  intros Hpa Hcm i Hi. pose proof (wf_cmp _ _ Hw) as Hc. pose proof (wf_post _ _ Hw) as Hp.
  unfold protect_bit. destruct (Z.eqb_spec i (cmp_post cf)) as [->|Hne].
  - apply (f_equal (fun x => Z.testbit x (cmp_post cf))) in Hcm.
    rewrite Z.land_spec in Hcm. change (Z.shiftl 1 (cmp_post cf)) with (Z.shiftl (b2z true) (cmp_post cf)) in Hcm.
    rewrite testbit_flag, Z.eqb_refl, andb_true_r, Z.shiftl_spec, Z.sub_diag in Hcm by lia.
    by rewrite Z.land_spec, Z.shiftr_spec, andb_true_r in Hcm by lia.
  - destruct (Z.testbit (Z.shiftl (protect_mask cf) (protect_post cf)) i) eqn:Em; [|done].
    apply (f_equal (fun x => Z.testbit x i)) in Hpa.
    rewrite Z.land_spec, Em, andb_true_r, Z.shiftl_spec in Hpa by lia. rewrite <- Hpa.
    rewrite Z.shiftl_spec in Em by lia.
    destruct (decide (i < protect_post cf)); [by rewrite Z.testbit_neg_r in Em by lia|].
    destruct (decide (8 <= i - protect_post cf)) as [H8|H8]; [by rewrite (mask_high cf f) in Em|].
    rewrite Z.land_spec. change 0xff with (Z.ones 8). rewrite Z.ones_spec_low by lia. apply andb_true_r.
Qed.
End protect_bits.

(** ** Runs of the driver *)

Section correct.
Context {hw : Type} `{FlashSpec hw}.
Context (poll_fuel : nat) (fuel_ok : (busy_max < poll_fuel)%nat).
Abbreviation st := (flash_st hw).
Implicit Types (s : st) (c : chip).

(** The state seen above the bus: the chip [c], the static variables [k] of
    the file, and whether a command is in progress. *)
Definition statics : Type := option flash_config_t * Z * Z.

Definition statics_of s : statics := (flash_current_config s, flash_id s, peri_busy_count s).

Definition on (k : statics) c s : Prop :=
  hw_ok (fs_hw s) /\ view (fs_hw s) = c /\ statics_of s = k.

Definition idle (k : statics) c s : Prop := on k c s /\ busy (fs_hw s) = 0%nat.

Lemma on_ok k c s : on k c s -> chip_ok c.
Proof. intros (Hok & <- & _). by apply hw_chip_ok. Qed.

Lemma idle_ok k c s : idle k c s -> chip_ok c.
Proof. intros [Hon _]. by eapply on_ok. Qed.

Lemma idle_on k c s : idle k c s -> on k c s.
Proof. by intros []. Qed.

Lemma wp_read k c s a (Q : Z -> st -> Prop) :
  a <> REG_FLASH_OPERATE_SW -> idle k c s ->
  (forall v s', chip_value params a v c -> idle k (chip_after_read a c) s' -> Q v s') ->
  wp (REG_READ a) s Q.
Proof.
  intros Ha ((Hok & Hc & Hk) & Hb) HQ. unfold wp, REG_READ.
  destruct (read_reg (fs_hw s) a Ha Hok Hb) as (v & h' & -> & Hv & Hok' & Hview & Hb').
  rewrite Hc in Hv, Hview. by apply HQ.
Qed.

Lemma wp_read_op k c s (Q : Z -> st -> Prop) :
  idle k c s -> (forall v s', is_u32 v -> Z.testbit v 31 = false -> idle k c s' -> Q v s') ->
  wp (REG_READ REG_FLASH_OPERATE_SW) s Q.
Proof.
  intros ((Hok & Hc & Hk) & Hb) HQ. unfold wp, REG_READ.
  destruct (poll_idle (fs_hw s) Hok Hb) as (v & h' & -> & Hv & Hbit & Hok' & Hview & Hb').
  apply HQ; [done|done|]. by rewrite <- Hview in Hc.
Qed.

Lemma wp_write k c s a v (Q : unit -> st -> Prop) :
  a <> REG_FLASH_OPERATE_SW -> is_u32 v -> idle k c s ->
  (forall s', idle k (chip_write params a v c) s' -> Q tt s') -> wp (REG_WRITE a v) s Q.
Proof.
  intros Ha Hv ((Hok & Hc & Hk) & Hb) HQ. apply wp_modify, HQ.
  destruct (write_reg (fs_hw s) a v Hv Hok Hb) as (Hok' & Hview & Hb').
  rewrite Hc in Hview. split; [done|]. by apply Hb'.
Qed.

Lemma wp_command k c s w addr opc (Q : unit -> st -> Prop) :
  command w addr opc -> idle k c s ->
  (forall s', on k (chip_exec params opc addr c) s' -> Q tt s') ->
  wp (REG_WRITE REG_FLASH_OPERATE_SW w) s Q.
Proof.
  intros (Hw & Hbit & Hopc & Haddr) ((Hok & Hc & Hk) & Hb) HQ. apply wp_modify, HQ.
  destruct (write_reg (fs_hw s) REG_FLASH_OPERATE_SW w Hw Hok Hb) as (Hok' & Hview & _).
  unfold chip_write in Hview. rewrite Z.eqb_refl, Hbit, Hopc, Haddr, Hc in Hview. done.
Qed.

(** Polling ends within [busy_max + 1] reads, whatever was started. *)
Lemma wp_poll k c n s (Q : unit -> st -> Prop) :
  on k c s -> (busy (fs_hw s) < n)%nat -> (forall s', idle k c s' -> Q tt s') -> wp (poll n) s Q.
Proof.
  revert s. induction n as [|n IH]; intros s Hon Hn HQ; [lia|]. cbn [poll].
  apply wp_bind. destruct (busy (fs_hw s)) as [|b] eqn:Hb.
  - apply (wp_read_op k c); [done|]. intros v s' _ Hv Hs'.
    change BUSY_SW with (2 ^ 31). rewrite truthy_land_pow2, Hv by lia. by apply wp_ret, HQ.
  - destruct Hon as (Hok & Hc & Hk).
    destruct (poll_busy (fs_hw s) b Hok Hb) as (v & h' & Hr & Hv & Hok' & Hview & Hb').
    unfold wp at 1, REG_READ. rewrite Hr. change BUSY_SW with (2 ^ 31).
    rewrite truthy_land_pow2, Hv by lia. apply IH; [|cbn; lia|done].
    split_and!; [done| |done]. by rewrite <- Hview in Hc.
Qed.

Lemma wp_wait k c s (Q : unit -> st -> Prop) :
  on k c s -> (forall s', idle k c s' -> Q tt s') -> wp (wait_idle poll_fuel) s Q.
Proof.
  intros Hon HQ. apply (wp_poll k c); [done| |done].
  destruct Hon as (Hok & _). pose proof (busy_bound (fs_hw s) Hok). lia.
Qed.

Lemma wp_cfg cf id n c s (Q : flash_config_t -> st -> Prop) :
  on (Some cf, id, n) c s -> Q cf s -> wp cfg s Q.
Proof.
  intros (_ & _ & Hk) HQ. unfold statics_of in Hk. injection Hk as Hcf _ _.
  unfold wp, cfg. by rewrite Hcf.
Qed.

Lemma wp_count (f : Z -> Z) cf id n c s (Q : unit -> st -> Prop) :
  on (cf, id, n) c s -> (forall s', on (cf, id, f n) c s' -> Q tt s') ->
  wp (modify (fun s => FlashSt (fs_hw s) (flash_current_config s) (flash_id s) (f (peri_busy_count s)))) s Q.
Proof.
  intros (Hok & Hc & Hk) HQ. apply wp_modify, HQ. unfold statics_of in Hk. injection Hk as <- <- <-. done.
Qed.

(** ** Reading *)

Lemma wp_fetch k c ws s (Q : list Z -> st -> Prop) :
  idle k (with_rx c ws) s -> (forall s', idle k (with_rx c []) s' -> Q ws s') ->
  wp (fetch_words (length ws)) s Q.
Proof.
  revert s Q. induction ws as [|w ws IH]; intros s Q Hs HQ; [by apply wp_ret, HQ|].
  cbn [length fetch_words]. apply wp_bind. eapply wp_read; [done|done|].
  intros v s1 (_ & _ & _ & _ & Hv) Hs1. rewrite (Hv eq_refl w eq_refl).
  apply wp_bind, IH; [done|]. intros s2 Hs2. by apply wp_ret, HQ.
Qed.

Lemma wp_read_lines k n c addr address len s (Q : list Z -> st -> Prop) :
  (Z.to_nat len < n)%nat -> 0 <= address -> 0 <= len -> address + len <= 2 ^ 24 ->
  (0 < len -> addr = address - address mod 32) -> idle k c s ->
  (forall s', idle k (if len =? 0 then c else with_rx c []) s' -> Q (mem_bytes (ch_mem c) address (Z.to_nat len)) s') ->
  wp (read_lines poll_fuel n addr address len) s Q.
Proof.
  revert c addr address len s Q. induction n as [|n IH]; intros c addr address len s Q Hn Ha Hl Hal Haddr Hs HQ; [lia|].
  cbn [read_lines]. destruct (Z.eqb_spec len 0) as [->|Hnz]; [by apply wp_ret, HQ|].
  specialize (Haddr ltac:(lia)).
  apply wp_bind. eapply wp_read_op; [done|]. intros v s1 Hv _ Hs1.
  apply wp_bind. eapply wp_command; [apply command_addr; [zlia|done]|done|]. intros s2 Hs2.
  apply wp_bind. eapply wp_wait; [done|]. intros s3 Hs3.
  apply wp_bind, (wp_fetch k c (mem_words (ch_mem c) addr 8)); [done|]. intros s4 Hs4.
  rewrite words_bytes_mem by apply (ok_mem _ (idle_ok _ _ _ Hs)).
  set (off := Z.to_nat (address mod 32)).
  assert (Hoff : (off < 32)%nat) by (subst off; zlia).
  rewrite copy_out_spec by (rewrite ?length_mem_bytes; lia).
  remember (Nat.min (32 - off) (Z.to_nat len)) as m eqn:Hm.
  rewrite take_drop_mem_bytes by lia. cbv zeta beta match.
  apply wp_bind. eapply (IH (with_rx c [])); [lia|lia|lia|lia| |done|].
  { intros. subst addr m off. rewrite u32_id by zlia. zlia. }
  intros s5 Hs5. apply wp_ret. cbn [ch_mem with_rx] in *.
  replace (addr + Z.of_nat off) with address by (subst off; zlia).
  rewrite <- mem_bytes_app.
  replace (m + Z.to_nat (len - Z.of_nat m))%nat with (Z.to_nat len) by lia.
  apply HQ. by destruct (_ =? _).
Qed.

Lemma wp_read_data k c address len s (Q : list Z -> st -> Prop) :
  0 <= address -> 0 <= len -> address + len <= 2 ^ 24 -> on k c s ->
  (forall s', (if len =? 0 then on k c s' else idle k (with_rx c []) s') ->
    Q (mem_bytes (ch_mem c) address (Z.to_nat len)) s') ->
  wp (flash_read_data poll_fuel address len) s Q.
Proof.
  intros Ha Hl Hal Hs HQ. unfold flash_read_data. rewrite land_line.
  destruct (Z.eqb_spec len 0) as [->|Hnz]; [by apply wp_ret, HQ|].
  apply wp_bind. eapply wp_wait; [done|]. intros s1 Hs1.
  eapply (wp_read_lines k _ c); [lia|done|done|done|done|done|].
  rewrite (proj2 (Z.eqb_neq _ _)) by done. done.
Qed.

(** ** Programming *)

(** [c'] is [c] after [bs] were programmed at [address]. *)
Record programmed c (address : Z) (bs : list Z) c' : Prop := {
  prog_mem a : ch_mem c' a = mem_program (cp_prot params (ch_sr c)) address bs (ch_mem c) a;
  prog_sr : ch_sr c' = ch_sr c;
  prog_srdata : ch_srdata c' = ch_srdata c;
  prog_conf : ch_conf c' = ch_conf c;
  prog_tx : ch_tx c' = [];
}.

Lemma programmed_nil c address : ch_tx c = [] -> programmed c address [] c.
Proof.
  intros Htx. split; try done. intros a. unfold mem_program. case_match eqn:E; [|done].
  cbn [length] in E. rewrite Z.add_0_r in E. bdestr; lia.
Qed.

Lemma programmed_app c address bs1 bs2 c1 c2 :
  programmed c address bs1 c1 -> programmed c1 (address + Z.of_nat (length bs1)) bs2 c2 ->
  programmed c address (bs1 ++ bs2) c2.
Proof.
  intros [Hm1 Hs1 Hd1 Hc1 Ht1] [Hm2 Hs2 Hd2 Hc2 Ht2]. split; try congruence.
  intros a. rewrite Hm2, Hs1. by apply mem_program_app.
Qed.

Lemma wp_store k c ws s (Q : unit -> st -> Prop) :
  Forall is_u32 ws -> idle k c s ->
  (forall s', idle k (with_tx c (ch_tx c ++ ws)) s' -> Q tt s') -> wp (store_words ws) s Q.
Proof.
  revert c s. induction ws as [|w ws IH]; intros c s Hws Hs HQ.
  { apply wp_ret, HQ. rewrite app_nil_r. by destruct c. }
  apply Forall_cons in Hws as [Hw Hws].
  cbn [store_words]. apply wp_bind. eapply wp_write; [done|done|done|]. intros s1 Hs1.
  eapply IH; [done|done|]. intros s2 Hs2. apply HQ.
  change (ch_tx (chip_write _ _ _ _)) with (ch_tx c ++ [w]) in Hs2. by rewrite <- app_assoc in Hs2.
Qed.

(** One line is written: its words are stored, then programmed at [addr]. *)
Lemma wp_program k c pb addr s (K : M st unit) (Q : unit -> st -> Prop) :
  0 <= addr < 2 ^ 24 -> bytes_ok pb -> length pb = 32%nat -> ch_tx c = [] -> idle k c s ->
  (forall c' s', programmed c addr pb c' -> idle k c' s' -> wp K s' Q) ->
  wp (store_words (bytes_words 8 pb);;
      reg_value ← REG_READ REG_FLASH_OPERATE_SW;
      REG_WRITE REG_FLASH_OPERATE_SW (op_word_addr addr FLASH_OPCODE_PP reg_value);;
      wait_idle poll_fuel;; K) s Q.
Proof.
  intros Ha Hpb Hlen Htx Hs HQ.
  apply wp_bind. eapply wp_store; [apply bytes_words_u32; [done|lia]|done|]. intros s1 Hs1.
  apply wp_bind. eapply wp_read_op; [done|]. intros v s2 _ _ Hs2.
  apply wp_bind. eapply wp_command; [by apply command_addr|done|]. intros s3 Hs3.
  apply wp_bind. eapply wp_wait; [done|]. intros s4 Hs4. eapply HQ; [|done].
  split; try done. intros a. cbn [chip_exec ch_mem ch_tx with_tx ch_sr].
  change (ch_mem _ a) with
    (mem_program (cp_prot params (ch_sr c)) addr (words_bytes (ch_tx c ++ bytes_words 8 pb)) (ch_mem c) a).
  rewrite Htx. cbn [app]. by rewrite words_bytes_words.
Qed.

(** The bytes of a line, given what its buffer held. *)
Lemma programmed_line c addr off bs pb c' :
  neutral pb addr (ch_mem c) -> (off + length bs <= 32)%nat ->
  programmed c addr (splice off bs pb) c' -> programmed c (addr + Z.of_nat off) bs c'.
Proof.
  intros Hn Hoff [Hm ? ? ? ?]. split; try done. intros a. rewrite Hm. by apply mem_program_line.
Qed.

Lemma splice_ok off bs pb : bytes_ok bs -> bytes_ok pb -> bytes_ok (splice off bs pb).
Proof.
  intros Hbs Hpb. unfold splice, bytes_ok. rewrite !Forall_app.
  split_and!; [by apply Forall_take|done|by apply Forall_drop].
Qed.

Lemma programmed_rx c ws address bs c' :
  programmed (with_rx c ws) address bs c' -> programmed c address bs c'.
Proof. by intros []. Qed.

Lemma wp_write_lines k n c pb buffer addr address len s (Q : unit -> st -> Prop) :
  (Z.to_nat len < n)%nat -> 0 <= address -> 0 <= len <= Z.of_nat (length buffer) ->
  address + len <= 2 ^ 24 -> (0 < len -> addr = address - address mod 32) ->
  bytes_ok buffer -> neutral pb addr (ch_mem c) -> ch_tx c = [] -> idle k c s ->
  (forall c' s', programmed c address (take (Z.to_nat len) buffer) c' -> idle k c' s' -> Q tt s') ->
  wp (write_lines poll_fuel n pb buffer addr address len) s Q.
Proof.
  revert c pb buffer addr address len s Q.
  induction n as [|n IH]; intros c pb buffer addr address len s Q Hn Ha Hl Hal Haddr Hbuf Hpb Htx Hs HQ; [lia|].
  cbn [write_lines]. destruct (Z.eqb_spec len 0) as [->|Hnz].
  { apply wp_ret. eapply HQ; [|done]. by apply programmed_nil. }
  specialize (Haddr ltac:(lia)).
  apply wp_bind. eapply wp_mono with (Q := fun pb s' => exists ws,
    neutral pb addr (ch_mem c) /\ idle k (with_rx c ws) s').
  { destruct (Z.ltb_spec len 32).
    - apply wp_bind. eapply wp_read_data; [zlia|done|zlia|by eapply idle_on, Hs|]. intros s1 Hs1.
      apply wp_bind. eapply wp_wait; [by eapply idle_on, Hs1|]. intros s2 Hs2. apply wp_ret.
      exists []. split; [|done]. apply neutral_old, (ok_mem _ (idle_ok _ _ _ Hs)).
    - apply wp_ret. exists (ch_rx c). by rewrite with_rx_eta. }
  clear pb Hpb. intros pb s1 (ws & Hpb & Hs1).
  set (off := Z.to_nat (address mod 32)).
  assert (Hoff : (off < 32)%nat) by (subst off; zlia).
  pose proof Hpb as (Hlen & Hpbok & _).
  apply wp_bind. unfold wp at 1, lift_res. rewrite copy_in_spec by lia.
  remember (Nat.min (32 - off) (Z.to_nat len)) as m eqn:Hm. cbv zeta beta match.
  set (bs := take m buffer).
  assert (Hbs : length bs = m) by (subst bs; rewrite length_take; lia).
  eapply (wp_program k (with_rx c ws)); [zlia| | |done|done|].
  { apply splice_ok; [by apply Forall_take|done]. }
  { rewrite length_splice; lia. }
  intros c1 s2 Hp Hs2. apply programmed_rx, programmed_line in Hp; [|done|lia].
  replace (addr + Z.of_nat off) with address in Hp by (subst off; zlia).
  apply (IH c1); [lia|lia|rewrite length_drop; lia|lia| |by apply Forall_drop| |apply Hp|done|].
  { intros. subst addr m off. rewrite u32_id by zlia. zlia. }
  { apply neutral_blank, (ok_mem _ (idle_ok _ _ _ Hs2)). }
  intros c2 s3 Hp2 Hs3. eapply HQ; [|done].
  replace (take (Z.to_nat len) buffer) with (bs ++ take (Z.to_nat (len - Z.of_nat m)) (drop m buffer)).
  { eapply programmed_app; [done|]. by rewrite Hbs. }
  subst bs. rewrite <- (take_drop m (take (Z.to_nat len) buffer)), take_take, Nat.min_l by lia.
  f_equal. replace (Z.to_nat len) with (m + Z.to_nat (len - Z.of_nat m))%nat by lia. by rewrite take_drop_commute.
Qed.

(** The bound check of a write: it tests the address of the first line. *)
Definition write_in_bounds (cf : flash_config_t) (address len : Z) : bool :=
  let addr := address - address mod 32 in
  (addr <? flash_size cf) && (len <=? flash_size cf) && (addr + len <=? flash_size cf).

Lemma wp_write_data cf id n c buffer address len s (Q : unit -> st -> Prop) :
  write_in_bounds cf address len = true -> 0 <= address -> 0 <= len <= Z.of_nat (length buffer) ->
  address + len <= 2 ^ 24 -> bytes_ok buffer -> ch_tx c = [] -> on (Some cf, id, n) c s ->
  (forall c' s', programmed c address (take (Z.to_nat len) buffer) c' -> idle (Some cf, id, n) c' s' -> Q tt s') ->
  wp (flash_write_data poll_fuel buffer address len) s Q.
Proof.
  intros Hin Ha Hl Hal Hbuf Htx Hs HQ. unfold flash_write_data. rewrite land_line.
  apply wp_bind. eapply wp_cfg; [done|].
  unfold write_in_bounds in Hin. rewrite u32_id by zlia.
  rewrite !andb_true_iff, Z.ltb_lt, !Z.leb_le in Hin. destruct Hin as [[Hin1 Hin2] Hin3].
  rewrite (proj2 (Z.leb_gt _ _)), !(proj2 (Z.ltb_ge _ _)) by lia. cbn [orb].
  set (addr := address - address mod 32) in *.
  apply wp_bind. eapply wp_mono with (Q := fun pb s' => exists ws,
    neutral pb addr (ch_mem c) /\ on (Some cf, id, n) (with_rx c ws) s').
  { unfold truthy. destruct (Z.eqb_spec (address mod 32) 0); cbn [negb].
    2: eapply wp_read_data; [subst addr; zlia|done|subst addr; zlia|done|].
    2: { intros s1 Hs1. exists [].
      split; [apply neutral_old, (ok_mem _ (on_ok _ _ _ Hs))|]. by apply idle_on. }
    - apply wp_ret. exists (ch_rx c). rewrite with_rx_eta. split; [|done].
      apply neutral_blank, (ok_mem _ (on_ok _ _ _ Hs)). }
  intros pb s1 (ws & Hpb & Hs1). apply wp_bind. eapply wp_wait; [done|]. intros s2 Hs2.
  eapply (wp_write_lines _ _ (with_rx c ws)); [lia|done|lia|lia|done|done|done|done|done|].
  intros c' s3 Hp Hs3. eapply HQ; [|done]. by apply programmed_rx in Hp.
Qed.

Lemma write_data_refused cf id n c buffer address len s (Q : unit -> st -> Prop) :
  write_in_bounds cf address len = false -> 0 <= address -> 0 <= len ->
  address + len < 2 ^ 32 -> on (Some cf, id, n) c s -> Q tt s ->
  wp (flash_write_data poll_fuel buffer address len) s Q.
Proof.
  intros Hin Ha Hl Hal Hs HQ. unfold flash_write_data. rewrite land_line.
  apply wp_bind. eapply wp_cfg; [done|]. rewrite u32_id by zlia.
  unfold write_in_bounds in Hin.
  destruct (Z.leb_spec (flash_size cf) (address - address mod 32)); [done|].
  destruct (Z.ltb_spec (flash_size cf) len); [done|].
  destruct (Z.ltb_spec (flash_size cf) (address - address mod 32 + len)); [done|]. exfalso.
  rewrite (proj2 (Z.ltb_lt _ _)), !(proj2 (Z.leb_le _ _)) in Hin by lia. done.
Qed.

(** ** Erasing *)

Lemma wp_erase cf id n c address s (Q : unit -> st -> Prop) :
  is_u32 address -> on (Some cf, id, n) c s ->
  (forall s', on (Some cf, id, n) (if flash_size cf <=? Z.land address 0xFFF000 then c
      else with_mem c (mem_erase (cp_prot params (ch_sr c)) (Z.land address 0xFFF000) (ch_mem c))) s' -> Q tt s') ->
  wp (flash_erase_sector poll_fuel address) s Q.
Proof.
  intros Ha Hs HQ. unfold flash_erase_sector. apply wp_bind. eapply wp_cfg; [done|].
  destruct (_ <=? _); [by apply wp_ret, HQ|].
  assert (Hr : 0 <= Z.land address 0xFFF000 < 2 ^ 24).
  { rewrite Z.land_comm. by apply land_range. }
  apply wp_bind. eapply wp_wait; [done|]. intros s1 Hs1.
  apply wp_bind. eapply wp_read_op; [done|]. intros v s2 _ _ Hs2.
  apply wp_bind. eapply wp_command; [by apply command_addr|done|]. intros s3 Hs3.
  eapply wp_wait; [done|]. intros s4 Hs4. by apply HQ, idle_on.
Qed.

(** ** Status register *)

Definition with_sr (c : chip) (sr : Z) : chip :=
  Chip (ch_mem c) sr (ch_srdata c) (ch_conf c) (ch_rx c) (ch_tx c).

(** [c'] differs from [c] by the scratch registers only. *)
Definition same_array (c c' : chip) : Prop :=
  ch_mem c' = ch_mem c /\ ch_sr c' = ch_sr c /\ ch_rx c' = ch_rx c /\ ch_tx c' = ch_tx c.

(** What a part with one or two status bytes shows. *)
Definition sr_seen (width sr : Z) : Z := if width =? 2 then sr else sr mod 256.

Lemma wp_read_sr k c width s (Q : Z -> st -> Prop) :
  on k c s -> (forall c' s', ch_conf c' = ch_conf c -> same_array c c' -> idle k c' s' ->
    Q (sr_seen width (ch_sr c)) s') ->
  wp (flash_read_sr poll_fuel width) s Q.
Proof.
  intros Hs HQ. pose proof (on_ok _ _ _ Hs) as [_ Hsr _ _ _ _].
  unfold flash_read_sr. apply wp_bind. eapply wp_wait; [done|]. intros s1 Hs1.
  apply wp_bind. eapply wp_command; [by apply command_op|done|]. intros s2 Hs2.
  apply wp_bind. eapply wp_wait; [done|]. intros s3 Hs3.
  apply wp_bind. eapply wp_read; [done|done|]. intros v s4 (_ & _ & _ & Hv & _) Hs4.
  specialize (Hv eq_refl). change (v mod 256 = ch_sr c mod 256) in Hv.
  rewrite land_0xff, Hv. unfold sr_seen in HQ. destruct (width =? 2).
  2: { apply wp_ret. eapply HQ; [| |done]; done. }
  apply wp_bind. eapply wp_command; [by apply command_op|done|]. intros s5 Hs5.
  apply wp_bind. eapply wp_wait; [done|]. intros s6 Hs6.
  apply wp_bind. eapply wp_read; [done|done|]. intros v2 s7 (_ & _ & _ & Hv2 & _) Hs7.
  specialize (Hv2 eq_refl). change (v2 mod 256 = ch_sr c / 256) in Hv2.
  apply wp_ret. rewrite land_0xff, Hv2, lor_shiftl_add by zlia.
  replace (ch_sr c mod 256 + ch_sr c / 256 * 2 ^ 8) with (ch_sr c) by zlia.
  eapply HQ; [| |done]; done.
Qed.

(** The status after a write of [val] to a part of [width] status bytes. *)
Definition sr_written (width sr val : Z) : Z :=
  if width =? 2 then val else sr / 256 * 256 + val mod 256.

Lemma conf_wrsr v val : is_u32 v -> is_u16 val ->
  let w := Z.lor (clear_bits v (Z.shiftl WRSR_DATA_MASK WRSR_DATA_POSI)) (Z.shiftl val WRSR_DATA_POSI) in
  is_u32 w /\ (w / 2 ^ WRSR_DATA_POSI) mod 65536 = val.
Proof.
  intros Hv Hval w. change WRSR_DATA_POSI with 10 in *. split.
  - apply lor_u32; [by apply clear_bits_u32|]. rewrite Z.shiftl_mul_pow2 by lia. zlia.
  - subst w. change 65536 with (2 ^ 16). rewrite <- Z.land_ones, <- Z.shiftr_div_pow2 by lia.
    apply Z.bits_inj'. intros i Hi. unfold clear_bits.
    rewrite Z.land_spec, Z.shiftr_spec, Z.lor_spec, Z.land_spec, Z.lnot_spec by lia.
    rewrite !Z.shiftl_spec by lia. replace (i + 10 - 10) with i by lia.
    destruct (decide (i < 16)).
    + rewrite Z.ones_spec_low, andb_true_r by lia. change WRSR_DATA_MASK with (Z.ones 16).
      rewrite Z.ones_spec_low by lia. by rewrite andb_false_r.
    + rewrite Z.ones_spec_high, andb_false_r by lia. symmetry. apply (testbit_small _ 16); [done|lia].
Qed.

Lemma wp_write_sr k c width val s (Q : unit -> st -> Prop) :
  width = 1 \/ width = 2 -> is_u16 val -> on k c s ->
  (forall c' s', same_array (with_sr c (sr_written width (ch_sr c) val)) c' -> idle k c' s' -> Q tt s') ->
  wp (flash_write_sr poll_fuel width val) s Q.
Proof.
  intros Hw Hval Hs HQ. unfold flash_write_sr.
  apply wp_bind. eapply wp_wait; [done|]. intros s1 Hs1.
  apply wp_bind. eapply wp_read; [done|done|]. intros v s2 (Hv & _) Hs2.
  destruct (conf_wrsr v val Hv Hval) as [Hw32 Hwr]. cbv zeta.
  set (w := Z.lor _ _) in *.
  apply wp_bind. eapply wp_write; [done|done|done|]. intros s3 Hs3.
  apply wp_bind. eapply wp_wait; [by eapply idle_on|]. intros s4 Hs4. clear s3 Hs3.
  change (chip_write params REG_FLASH_CONF w (chip_after_read REG_FLASH_CONF c))
    with (Chip (ch_mem c) (ch_sr c) (ch_srdata c) w (ch_rx c) (ch_tx c)) in Hs4.
  apply wp_bind. destruct Hw as [-> | ->].
  all: eapply wp_command; [by apply command_op|done|]; intros s5 Hs5.
  all: eapply wp_wait; [done|]; intros s6 Hs6; eapply HQ; [|done].
  all: unfold same_array; split_and!; try done.
  - change (ch_sr c / 256 * 256 + ((w / 2 ^ WRSR_DATA_POSI) mod 65536) mod 256 =
            ch_sr c / 256 * 256 + val mod 256). by rewrite Hwr.
Qed.

Lemma sr_seen_range cf c : chip_ok c -> sr_size cf = 1 \/ sr_size cf = 2 ->
  0 <= sr_seen (sr_size cf) (ch_sr c) < 2 ^ (8 * sr_size cf).
Proof. intros [_ Hsr _ _ _ _] [-> | ->]; unfold sr_seen; cbn -[Z.modulo]; [|done]. zlia. Qed.

(** The status of [c'] has [f] in the protection field, and the other bits
    of the status of [c]. *)
Definition sr_protected (cf : flash_config_t) (f : Z) c c' : Prop :=
  forall i, 0 <= i ->
    Z.testbit (sr_seen (sr_size cf) (ch_sr c')) i = protect_bit cf f (sr_seen (sr_size cf) (ch_sr c)) i.

Lemma wp_set_protect cf id n c t s (Q : unit -> st -> Prop) :
  cfg_wf cf = true -> on (Some cf, id, n) c s ->
  (forall c' s', sr_protected cf (protect_field cf t) c c' ->
    ch_mem c' = ch_mem c -> ch_tx c' = ch_tx c -> ch_rx c' = ch_rx c ->
    (sr_size cf = 1 -> ch_sr c' / 256 = ch_sr c / 256) -> on (Some cf, id, n) c' s' -> Q tt s') ->
  wp (set_flash_protect poll_fuel t) s Q.
Proof.
  intros Hwf Hs HQ. pose proof (cfg_wf_facts cf t Hwf) as Hw.
  pose proof (wf_size _ _ Hw) as Hsz.
  unfold set_flash_protect. apply wp_bind. eapply wp_cfg; [done|].
  apply wp_bind. eapply wp_read_sr; [done|]. intros c1 s1 _ (Hm1 & Hsr1 & Hrx1 & Htx1) Hs1.
  pose proof (sr_seen_range cf c (on_ok _ _ _ Hs) Hsz) as Hr.
  set (v := sr_seen (sr_size cf) (ch_sr c)) in *. set (f := protect_field cf t) in *.
  destruct (Z.eqb_spec (Z.shiftl (Z.land f 0xff) (protect_post cf))
    (Z.land v (Z.shiftl (protect_mask cf) (protect_post cf)))) as [Hp|Hp]; cbn [negb orb].
  1: destruct (Z.eqb_spec (Z.shiftl (Z.land (Z.shiftr f 8) 0xff) (cmp_post cf))
    (Z.land v (Z.shiftl 0x01 (cmp_post cf)))) as [Hc|Hc]; cbn [negb].
  1: { apply wp_ret. eapply (HQ c1); [|done..| |by apply idle_on].
    - unfold sr_protected. rewrite Hsr1. fold v. by apply protect_already.
    - by rewrite Hsr1. }
  all: eapply wp_write_sr; [done|apply u16_range|by apply idle_on|].
  all: intros c2 s2 (Hm2 & Hsr2 & Hrx2 & Htx2) Hs2; cbn [with_sr ch_sr ch_mem ch_rx ch_tx] in *.
  all: change (u16 _) with (protect_sr cf f v) in Hsr2; rewrite Hsr1 in Hsr2.
  all: pose proof (protect_sr_range cf f v Hw Hr) as Hpr.
  all: assert (Hseen : sr_seen (sr_size cf) (ch_sr c2) = protect_sr cf f v)
    by (rewrite Hsr2; unfold sr_seen, sr_written; destruct Hsz as [He|He]; rewrite He in Hpr |- *; [|done];
      change (2 ^ (8 * 1)) with 256 in Hpr; cbn -[Z.modulo Z.div]; zlia).
  all: eapply (HQ c2); [|congruence..| |by apply idle_on].
  all: try (unfold sr_protected; rewrite Hseen; fold v; by apply protect_sr_bits).
  all: intros He; rewrite Hsr2, He; unfold sr_written; cbn -[Z.modulo Z.div]; zlia.
Qed.

(** The type read back: the first whose value is in the status. *)
Definition protect_name (cf : flash_config_t) (f : Z) : Z :=
  if f =? protect_all cf then protect_num FLASH_PROTECT_ALL
  else if f =? protect_none cf then protect_num FLASH_PROTECT_NONE
  else if f =? protect_half cf then protect_num FLASH_PROTECT_HALF
  else if f =? unprotect_last_block cf then protect_num FLASH_UNPROTECT_LAST_BLOCK
  else u16 (-1).

Lemma wp_get_protect cf id n c c0 t s (Q : Z -> st -> Prop) :
  cfg_wf cf = true -> sr_protected cf (protect_field cf t) c0 c -> on (Some cf, id, n) c s ->
  (forall c' s', same_array c c' -> idle (Some cf, id, n) c' s' -> Q (protect_name cf (protect_field cf t)) s') ->
  wp (get_flash_protect poll_fuel) s Q.
Proof.
  intros Hwf Hp Hs HQ. pose proof (cfg_wf_facts cf t Hwf) as Hw.
  unfold get_flash_protect. apply wp_bind. eapply wp_cfg; [done|].
  apply wp_bind. eapply wp_read_sr; [done|]. intros c1 s1 _ Hsame Hs1. apply wp_ret.
  cbv zeta. rewrite (protect_read cf (protect_field cf t) (sr_seen (sr_size cf) (ch_sr c0)) Hw (sr_seen (sr_size cf) (ch_sr c)) Hp). by eapply HQ.
Qed.

(** ** The operations object *)

Lemma wp_line_mode_to cf id n c mode s (Q : unit -> st -> Prop) :
  cfg_wf cf = true -> on (Some cf, id, n) c s -> Q tt s -> wp (line_mode_to poll_fuel mode) s Q.
Proof.
  intros Hwf Hs HQ. unfold line_mode_to. apply wp_bind. eapply wp_cfg; [done|].
  by rewrite (wf_line _ _ (cfg_wf_facts cf 0 Hwf)).
Qed.

Lemma wp_flash_read cf id n c count address s (Q : Z * list Z -> st -> Prop) :
  is_u32 n -> 0 <= address -> 0 <= count -> address + count <= 2 ^ 24 -> on (Some cf, id, n) c s ->
  (forall s' ws, on (Some cf, id, n) (with_rx c ws) s' ->
    Q (FLASH_SUCCESS, mem_bytes (ch_mem c) address (Z.to_nat count)) s') ->
  wp (flash_read poll_fuel count address) s Q.
Proof.
  intros Hn Ha Hc Hac Hs HQ. unfold flash_read.
  apply wp_bind. eapply (wp_count (fun n => u32 (n + 1))); [done|]. intros s1 Hs1.
  apply wp_bind. eapply wp_read_data; [done|done|done|done|]. intros s2 Hs2.
  assert (exists ws, on (Some cf, id, u32 (n + 1)) (with_rx c ws) s2) as [ws Hs2'].
  { destruct (_ =? _); [exists (ch_rx c); by rewrite with_rx_eta|exists []; by apply idle_on]. }
  apply wp_bind. eapply (wp_count (fun n => u32 (n - 1))); [done|]. intros s3 Hs3.
  apply wp_ret. eapply HQ. by replace (u32 (u32 (n + 1) - 1)) with n in Hs3 by zlia.
Qed.

Lemma wp_flash_write cf id n c buffer count address s (Q : Z -> st -> Prop) :
  cfg_wf cf = true -> is_u32 n -> write_in_bounds cf address count = true -> 0 <= address ->
  0 <= count <= Z.of_nat (length buffer) -> address + count <= 2 ^ 24 -> bytes_ok buffer -> ch_tx c = [] ->
  on (Some cf, id, n) c s ->
  (forall c' s', programmed c address (take (Z.to_nat count) buffer) c' -> on (Some cf, id, n) c' s' ->
    Q FLASH_SUCCESS s') ->
  wp (flash_write poll_fuel buffer count address) s Q.
Proof.
  intros Hwf Hn Hin Ha Hc Hac Hbuf Htx Hs HQ. unfold flash_write.
  apply wp_bind. eapply (wp_count (fun n => u32 (n + 1))); [done|]. intros s1 Hs1.
  apply wp_bind. eapply wp_line_mode_to; [done..|].
  apply wp_bind. eapply wp_write_data; [done..|]. intros c' s2 Hp Hs2. apply idle_on in Hs2.
  apply wp_bind. eapply wp_line_mode_to; [done..|].
  apply wp_bind. eapply (wp_count (fun n => u32 (n - 1))); [done|]. intros s3 Hs3.
  apply wp_ret. eapply HQ; [done|]. by replace (u32 (u32 (n + 1) - 1)) with n in Hs3 by zlia.
Qed.

Lemma cfg_size cf : cfg_wf cf = true -> 0 < flash_size cf <= 2 ^ 23.
Proof. unfold cfg_wf. rewrite !andb_true_iff, !Z.leb_le, !Z.ltb_lt. intros [[_ ?] ?]. done. Qed.

(** A write that passes the bound check programs exactly its own bytes:
    each unlocked byte of the range becomes the bitwise and of what it was
    and what is written, and no other byte of the chip changes, although the
    driver programs whole lines of 32 bytes. *)
Theorem flash_write_exact cf id n c s buffer count address :
  cf ∈ flash_config -> is_u32 n -> bytes_ok buffer -> 0 <= address ->
  0 <= count <= Z.of_nat (length buffer) -> address + count <= 2 ^ 24 ->
  write_in_bounds cf address count = true -> ch_tx c = [] -> on (Some cf, id, n) c s ->
  exists s' c', flash_write poll_fuel buffer count address s = Val (FLASH_SUCCESS, s') /\
    on (Some cf, id, n) c' s' /\ ch_sr c' = ch_sr c /\
    (forall a, ~ address <= a < address + count -> ch_mem c' a = ch_mem c a) /\
    (forall i b, (i < Z.to_nat count)%nat -> buffer !! i = Some b ->
      ch_mem c' (address + Z.of_nat i) =
        if cp_prot params (ch_sr c) (address + Z.of_nat i) then ch_mem c (address + Z.of_nat i)
        else Z.land (ch_mem c (address + Z.of_nat i)) b).
Proof.
  intros Hcf Hn Hbuf Ha Hc Hac Hin Htx Hs. apply flash_config_wf in Hcf as Hwf.
  assert (Hwr : wp (flash_write poll_fuel buffer count address) s (fun r s2 =>
    r = FLASH_SUCCESS /\ exists c2, programmed c address (take (Z.to_nat count) buffer) c2 /\ on (Some cf, id, n) c2 s2)).
  { eapply wp_flash_write; [done..|]. eauto. }
  apply wp_val in Hwr as (r & s' & He & -> & c' & Hp & Hs').
  assert (Hlen : Z.of_nat (length (take (Z.to_nat count) buffer)) = count) by (rewrite length_take; lia).
  exists s', c'. split_and!; [done|done|apply (prog_sr _ _ _ _ Hp)| |].
  - intros a Hna. rewrite (prog_mem _ _ _ _ Hp). unfold mem_program. rewrite Hlen.
    destruct (_ && _) eqn:E; [|done]. rewrite !andb_true_iff, Z.leb_le, Z.ltb_lt in E. tauto.
  - intros i b Hi Hb. rewrite (prog_mem _ _ _ _ Hp). unfold mem_program. rewrite Hlen.
    rewrite (proj2 (Z.leb_le _ _)), (proj2 (Z.ltb_lt _ _)) by lia. cbn [andb].
    replace (Z.to_nat (address + Z.of_nat i - address)) with i by lia.
    rewrite lookup_take_lt, Hb by done. by destruct (cp_prot _ _ _).
Qed.

(** A read returns the bytes of the chip, whatever the alignment and the
    length, and changes no byte, no status and not the busy counter. *)
Theorem flash_read_exact cf id n c s count address :
  is_u32 n -> 0 <= address -> 0 <= count -> address + count <= 2 ^ 24 -> on (Some cf, id, n) c s ->
  exists s' c', flash_read poll_fuel count address s =
      Val ((FLASH_SUCCESS, mem_bytes (ch_mem c) address (Z.to_nat count)), s') /\
    on (Some cf, id, n) c' s' /\ ch_mem c' = ch_mem c /\ ch_sr c' = ch_sr c /\ ch_tx c' = ch_tx c.
Proof.
  intros Hn Ha Hc Hac Hs.
  assert (Hrd : wp (flash_read poll_fuel count address) s (fun r s3 =>
    r = (FLASH_SUCCESS, mem_bytes (ch_mem c) address (Z.to_nat count)) /\
    exists ws, on (Some cf, id, n) (with_rx c ws) s3)).
  { eapply wp_flash_read; [done..|]. eauto. }
  apply wp_val in Hrd as (r & s' & He & -> & ws & Hs'). exists s', (with_rx c ws). done.
Qed.

(** The bound check of a write rounds the address down to a line and
    not the end up, so a write that starts near the end of the part passes
    it and programs bytes behind the size of the part. *)
Theorem flash_write_overrun cf id n c s b :
  cf ∈ flash_config -> is_u32 n -> is_u8 b -> ch_tx c = [] ->
  cp_prot params (ch_sr c) (flash_size cf + 30) = false -> on (Some cf, id, n) c s ->
  exists s' c',
    flash_write poll_fuel (replicate 32 b) 32 (flash_size cf - 1) s = Val (FLASH_SUCCESS, s') /\
    on (Some cf, id, n) c' s' /\
    ch_mem c' (flash_size cf + 30) = Z.land (ch_mem c (flash_size cf + 30)) b.
Proof.
  intros Hcf Hn Hb Htx Hlock Hs. apply flash_config_wf in Hcf as Hwf.
  assert (Hsz : 0 < flash_size cf <= 2 ^ 23 /\ flash_size cf mod 32 = 0).
  { split; [by apply cfg_size|]. revert Hcf. unfold flash_config. rewrite !elem_of_cons, elem_of_nil.
    intros Hcf. repeat destruct Hcf as [-> | Hcf]; done. }
  assert (Hwr : wp (flash_write poll_fuel (replicate 32 b) 32 (flash_size cf - 1)) s (fun r s2 =>
    r = FLASH_SUCCESS /\ exists c2, programmed c (flash_size cf - 1) (replicate 32 b) c2 /\ on (Some cf, id, n) c2 s2)).
  { apply (wp_flash_write cf id n c); [done|done| |lia|cbn; lia|lia|by apply Forall_replicate|done|done|].
    - unfold write_in_bounds. assert (Hm : flash_size cf - 1 - (flash_size cf - 1) mod 32 = flash_size cf - 32) by zlia.
      rewrite Hm, (proj2 (Z.ltb_lt _ _)), !(proj2 (Z.leb_le _ _)) by zlia. done.
    - intros c2 s2 Hp Hs2. eauto. }
  apply wp_val in Hwr as (r & s' & He & -> & c' & Hp & Hs'). exists s', c'. split_and!; [done..|].
  rewrite (prog_mem _ _ _ _ Hp). unfold mem_program. rewrite Hlock, length_replicate.
  rewrite (proj2 (Z.leb_le _ _)), (proj2 (Z.ltb_lt _ _)) by lia. cbn [andb negb].
  replace (Z.to_nat (flash_size cf + 30 - (flash_size cf - 1))) with 31%nat by lia. done.
Qed.

Section control.
Context (sctrl_control : Z -> hw -> hw) (ate_mode : hw -> bool).
Abbreviation ctrl := (flash_ctrl poll_fuel sctrl_control ate_mode).

(** Every operation leaves the busy counter as it found it. *)
Lemma wp_ctrl cf id n c cmd p r s (Q : Z * Z -> st -> Prop) :
cfg_wf cf = true -> is_u32 n -> on (Some cf, id, n) c s ->
(forall s', on (Some cf, id, u32 (n + 1)) c s' ->
wp (flash_ctrl_cmd poll_fuel sctrl_control ate_mode cmd p) s' (fun a s'' =>
  exists c', on (Some cf, id, u32 (n + 1)) c' s'' /\ a = r c' /\
  (forall s3, on (Some cf, id, n) c' s3 -> Q (r c') s3))) ->
wp (ctrl cmd p) s Q.
Proof.
intros Hwf Hn Hs Hcmd. unfold flash_ctrl.
apply wp_bind. eapply (wp_count (fun n => u32 (n + 1))); [done|]. intros s1 Hs1.
apply wp_bind. eapply wp_line_mode_to; [done..|].
apply wp_bind. eapply wp_mono; [by apply Hcmd|]. intros a s2 (c' & Hs2 & -> & HQ).
apply wp_bind. eapply wp_line_mode_to; [done..|].
apply wp_bind. eapply (wp_count (fun n => u32 (n - 1))); [done|]. intros s3 Hs3.
apply wp_ret, HQ. by replace (u32 (u32 (n + 1) - 1)) with n in Hs3 by zlia.
Qed.

Lemma wp_ctrl_erase cf id n c address s (Q : Z * Z -> st -> Prop) :
cfg_wf cf = true -> is_u32 n -> is_u32 address -> on (Some cf, id, n) c s ->
(forall s', on (Some cf, id, n) (if flash_size cf <=? Z.land address 0xFFF000 then c
  else with_mem c (mem_erase (cp_prot params (ch_sr c)) (Z.land address 0xFFF000) (ch_mem c))) s' ->
Q (FLASH_SUCCESS, address) s') ->
wp (ctrl CMD_FLASH_ERASE_SECTOR address) s Q.
Proof.
intros Hwf Hn Ha Hs HQ. apply (wp_ctrl cf id n c _ _ (fun _ => (FLASH_SUCCESS, address))); [done..|].
intros s1 Hs1. change (flash_ctrl_cmd _ _ _ _ _) with
(flash_erase_sector poll_fuel address;; mret (FLASH_SUCCESS, address)).
apply wp_bind. eapply wp_erase; [done..|]. intros s2 Hs2. apply wp_ret. eauto.
Qed.

Lemma wp_ctrl_set_protect cf id n c t s (Q : Z * Z -> st -> Prop) :
cfg_wf cf = true -> is_u32 n -> on (Some cf, id, n) c s ->
(forall c' s', sr_protected cf (protect_field cf t) c c' -> ch_mem c' = ch_mem c -> ch_tx c' = ch_tx c ->
on (Some cf, id, n) c' s' -> Q (FLASH_SUCCESS, t) s') ->
wp (ctrl CMD_FLASH_SET_PROTECT t) s Q.
Proof.
intros Hwf Hn Hs HQ. apply (wp_ctrl cf id n c _ _ (fun _ => (FLASH_SUCCESS, t))); [done..|].
intros s1 Hs1. change (flash_ctrl_cmd _ _ _ _ _) with
(set_flash_protect poll_fuel t;; mret (FLASH_SUCCESS, t)).
apply wp_bind. eapply wp_set_protect; [done..|]. intros c' s2 Hp Hm Htx _ _ Hs2.
apply wp_ret. exists c'. eauto.
Qed.

Lemma wp_ctrl_get_protect cf id n c c0 t p s (Q : Z * Z -> st -> Prop) :
cfg_wf cf = true -> is_u32 n -> sr_protected cf (protect_field cf t) c0 c -> on (Some cf, id, n) c s ->
(forall c' s', same_array c c' -> on (Some cf, id, n) c' s' ->
Q (FLASH_SUCCESS, protect_name cf (protect_field cf t)) s') ->
wp (ctrl CMD_FLASH_GET_PROTECT p) s Q.
Proof.
intros Hwf Hn Hp Hs HQ.
apply (wp_ctrl cf id n c _ _ (fun _ => (FLASH_SUCCESS, protect_name cf (protect_field cf t)))); [done..|].
intros s1 Hs1. change (flash_ctrl_cmd _ _ _ _ _) with
(t ← get_flash_protect poll_fuel; mret (FLASH_SUCCESS, t)).
apply wp_bind. eapply wp_get_protect; [done..|]. intros c' s2 Hsame Hs2. apply wp_ret.
exists c'. split; [by apply idle_on|]. split; [done|]. intros s3. by apply HQ.
Qed.

(** C19: erasing a sector, writing bytes inside it and reading them back
gives the bytes written, through the control, write and read operations
of the driver; every other sector keeps its contents, every operation
returns success (so every polling loop ends) and the busy counter is
back where it was. *)
Theorem flash_erase_write_read cf id n c s buffer address :
cf ∈ flash_config -> is_u32 n -> bytes_ok buffer -> (0 < length buffer)%nat ->
0 <= address -> address + Z.of_nat (length buffer) <= flash_size cf ->
address / 4096 = (address + Z.of_nat (length buffer) - 1) / 4096 ->
(forall a, a / 4096 = address / 4096 -> cp_prot params (ch_sr c) a = false) ->
ch_tx c = [] -> on (Some cf, id, n) c s ->
exists s1 s2 s3 c3,
ctrl CMD_FLASH_ERASE_SECTOR address s = Val ((FLASH_SUCCESS, address), s1) /\
flash_write poll_fuel buffer (Z.of_nat (length buffer)) address s1 = Val (FLASH_SUCCESS, s2) /\
flash_read poll_fuel (Z.of_nat (length buffer)) address s2 = Val ((FLASH_SUCCESS, buffer), s3) /\
on (Some cf, id, n) c3 s3 /\
forall a, a / 4096 <> address / 4096 -> ch_mem c3 a = ch_mem c a.
Proof.
intros Hcf Hn Hbuf Hlen Ha Hend Hsec Hlock Htx Hs. apply flash_config_wf in Hcf as Hwf.
pose proof (cfg_size cf Hwf) as Hsz.
assert (Hbase : Z.land address 0xFFF000 = address - address mod 4096) by (apply sector_base; lia).
set (c1 := with_mem c (mem_erase (cp_prot params (ch_sr c)) (address - address mod 4096) (ch_mem c))).
assert (Her : wp (ctrl CMD_FLASH_ERASE_SECTOR address) s (fun r s1 =>
r = (FLASH_SUCCESS, address) /\ on (Some cf, id, n) c1 s1)).
{ eapply wp_ctrl_erase; [done|done|zlia|done|]. intros s1. rewrite Hbase.
rewrite (proj2 (Z.leb_gt _ _)) by zlia. done. }
apply wp_val in Her as (r & s1 & He1 & -> & Hs1). exists s1.
assert (Hwr : wp (flash_write poll_fuel buffer (Z.of_nat (length buffer)) address) s1 (fun r s2 =>
r = FLASH_SUCCESS /\ exists c2, programmed c1 address buffer c2 /\ on (Some cf, id, n) c2 s2)).
{ apply (wp_flash_write cf id n c1); [done|done| |done|lia|lia|done|done|done|].
- unfold write_in_bounds. rewrite (proj2 (Z.ltb_lt _ _)), !(proj2 (Z.leb_le _ _)) by zlia. done.
- intros c2 s2 Hp Hs2. rewrite Nat2Z.id, firstn_all in Hp. eauto. }
apply wp_val in Hwr as (r & s2 & He2 & -> & c2 & Hp & Hs2). exists s2.
assert (Hrd : wp (flash_read poll_fuel (Z.of_nat (length buffer)) address) s2 (fun r s3 =>
r = (FLASH_SUCCESS, buffer) /\ exists ws, on (Some cf, id, n) (with_rx c2 ws) s3)).
{ eapply wp_flash_read; [done|done|lia|lia|done|]. intros s3 ws Hs3. rewrite Nat2Z.id.
split; [|eauto]. f_equal. rewrite (mem_bytes_ext _ (mem_program (cp_prot params (ch_sr c1)) address buffer (ch_mem c1)))
  by (intros; apply (prog_mem _ _ _ _ Hp)).
apply mem_program_blank; [done|]. intros a Hr. unfold c1. cbn [with_mem ch_mem ch_sr].
unfold mem_erase. rewrite Hlock by zlia. split; [|done].
rewrite (proj2 (Z.eqb_eq _ _)) by zlia. done. }
apply wp_val in Hrd as (r & s3 & He3 & -> & ws & Hs3). exists s3, (with_rx c2 ws).
split_and!; [done..|]. intros a Hna. cbn [with_rx ch_mem]. rewrite (prog_mem _ _ _ _ Hp).
unfold mem_program. destruct (_ && _) eqn:E.
- rewrite !andb_true_iff, Z.leb_le, Z.ltb_lt in E. exfalso. apply Hna. zlia.
- unfold c1. cbn [with_mem ch_mem]. unfold mem_erase. rewrite (proj2 (Z.eqb_neq _ _)) by zlia. done.
Qed.

(** Setting a protection type changes, in the status register, the
protection field and the complement bit only, and leaves the memory
alone; asking for the protection afterwards gives the first type of the
part's configuration with the value that was set. *)
Theorem flash_protect_roundtrip cf id n c s t p :
cf ∈ flash_config -> is_u32 n -> on (Some cf, id, n) c s ->
exists s1 s2 c1 c2,
ctrl CMD_FLASH_SET_PROTECT t s = Val ((FLASH_SUCCESS, t), s1) /\
ctrl CMD_FLASH_GET_PROTECT p s1 =
  Val ((FLASH_SUCCESS, protect_name cf (protect_field cf t)), s2) /\
on (Some cf, id, n) c1 s1 /\ on (Some cf, id, n) c2 s2 /\
ch_mem c2 = ch_mem c /\ ch_sr c2 = ch_sr c1 /\
forall i, 0 <= i < 8 * sr_size cf -> i <> cmp_post cf ->
  Z.testbit (Z.shiftl (protect_mask cf) (protect_post cf)) i = false ->
  Z.testbit (sr_seen (sr_size cf) (ch_sr c1)) i = Z.testbit (sr_seen (sr_size cf) (ch_sr c)) i.
Proof.
intros Hcf Hn Hs. apply flash_config_wf in Hcf as Hwf.
assert (Hset : wp (ctrl CMD_FLASH_SET_PROTECT t) s (fun r s1 => r = (FLASH_SUCCESS, t) /\
exists c1, sr_protected cf (protect_field cf t) c c1 /\ ch_mem c1 = ch_mem c /\ on (Some cf, id, n) c1 s1)).
{ eapply wp_ctrl_set_protect; [done..|]. eauto 7. }
apply wp_val in Hset as (r & s1 & He1 & -> & c1 & Hp & Hm & Hs1).
assert (Hget : wp (ctrl CMD_FLASH_GET_PROTECT p) s1 (fun r s2 =>
r = (FLASH_SUCCESS, protect_name cf (protect_field cf t)) /\
exists c2, same_array c1 c2 /\ on (Some cf, id, n) c2 s2)).
{ eapply wp_ctrl_get_protect; [done..|]. eauto. }
apply wp_val in Hget as (r & s2 & He2 & -> & c2 & (Hm2 & Hsr2 & _) & Hs2).
exists s1, s2, c1, c2. split_and!; [done..|congruence|done|].
intros i Hi Hne Hmask. rewrite (Hp i) by lia. unfold protect_bit.
by rewrite (proj2 (Z.eqb_neq _ _)), Hmask by done.
Qed.
End control.
End correct.

(** Of the table of parts, the types that do not read back as themselves:
    the second byte of the part whose value for "all but the last block" is
    also its value for "half", or whose "half" is its "none", and the default
    entry, where every value is zero. *)
Theorem protect_aliases :
  (cf ← flash_config; t ← [0; 1; 2; 3];
   let r := protect_name cf (protect_field cf t) in
   if r =? t then [] else [(cfg_flash_id cf, t, r)]) =
  [(0x1C7015, 3, 2); (0xC84016, 3, 2); (0xEF4016, 2, 0); (0x000000, 0, 1); (0x000000, 2, 1); (0x000000, 3, 1)].
Proof. vm_compute. reflexivity. Qed.

(** ** Instances on the simulated device *)

Definition demo_params : chip_params := {| cp_id := 0x0B4014; cp_prot := fun _ _ => false |}.
Lemma demo_id : is_u32 (cp_id demo_params).
Proof. done. Qed.
#[local] Instance demo_bus : RegBus sim := sim_bus demo_params.
#[local] Instance demo_spec : FlashSpec sim := sim_spec demo_params demo_id.

Definition demo_chip : chip := Chip (fun a => a mod 251) 0 0 0 [] [].
Definition demo_cfg : flash_config_t :=
  FlashConfig 0x0B4014 2 0x100000 2 14 2 0x1F 0x1F 0x00 0x0C 0x101 9 1 0xA0 0x01.
Definition demo_flash : flash_st sim := FlashSt (Sim demo_chip 3) (Some demo_cfg) 0x0B4014 0.

Lemma demo_on : on (Some demo_cfg, 0x0B4014, 0) demo_chip demo_flash.
Proof.
  split; [|done]. cbn. split; [|lia].
  split; cbn; try apply Forall_nil_2; try zlia. intros a. zlia.
Defined.

Lemma demo_fuel : (busy_max (hw := sim) < 4)%nat.
Proof. exact (le_n 4). Defined.

Lemma demo_cfg_in : demo_cfg ∈ flash_config.
Proof. apply list_elem_of_In. cbn. tauto. Defined.

Lemma flash_erase_write_read_witness :
  exists s1 s2 s3 c3,
    flash_ctrl 4 (fun _ h => h) (fun _ => false) CMD_FLASH_ERASE_SECTOR 0x2FF1 demo_flash =
      Val ((FLASH_SUCCESS, 0x2FF1), s1) /\
    flash_write 4 [1; 2; 3] 3 0x2FF1 s1 = Val (FLASH_SUCCESS, s2) /\
    flash_read 4 3 0x2FF1 s2 = Val ((FLASH_SUCCESS, [1; 2; 3]), s3) /\
    on (Some demo_cfg, 0x0B4014, 0) c3 s3 /\
    forall a, a / 4096 <> 0x2FF1 / 4096 -> ch_mem c3 a = ch_mem demo_chip a.
Proof.
  apply (flash_erase_write_read 4 demo_fuel (fun _ h => h) (fun _ => false) demo_cfg 0x0B4014 0
    demo_chip demo_flash [1; 2; 3] 0x2FF1); try done; [exact demo_cfg_in|repeat constructor; done|cbn; lia|exact demo_on].
Defined.

Lemma flash_write_exact_witness :
  exists s' c', flash_write 4 [7; 8; 9] 2 31 demo_flash = Val (FLASH_SUCCESS, s') /\
    on (Some demo_cfg, 0x0B4014, 0) c' s' /\ ch_sr c' = ch_sr demo_chip /\
    (forall a, ~ 31 <= a < 31 + 2 -> ch_mem c' a = ch_mem demo_chip a) /\
    (forall i b, (i < Z.to_nat 2)%nat -> [7; 8; 9] !! i = Some b ->
      ch_mem c' (31 + Z.of_nat i) =
        if cp_prot params (ch_sr demo_chip) (31 + Z.of_nat i) then ch_mem demo_chip (31 + Z.of_nat i)
        else Z.land (ch_mem demo_chip (31 + Z.of_nat i)) b).
Proof.
  apply (flash_write_exact 4 demo_fuel demo_cfg 0x0B4014 0 demo_chip demo_flash [7; 8; 9] 2 31);
    try done; [exact demo_cfg_in|repeat constructor; done|exact demo_on].
Defined.

Lemma flash_read_exact_witness :
  exists s' c', flash_read 4 40 30 demo_flash =
      Val ((FLASH_SUCCESS, mem_bytes (ch_mem demo_chip) 30 (Z.to_nat 40)), s') /\
    on (Some demo_cfg, 0x0B4014, 0) c' s' /\ ch_mem c' = ch_mem demo_chip /\
    ch_sr c' = ch_sr demo_chip /\ ch_tx c' = ch_tx demo_chip.
Proof.
  apply (flash_read_exact 4 demo_fuel demo_cfg 0x0B4014 0 demo_chip demo_flash 40 30);
    try done; exact demo_on.
Defined.

Lemma flash_protect_roundtrip_witness :
  exists s1 s2 c1 c2,
    flash_ctrl 4 (fun _ h => h) (fun _ => false) CMD_FLASH_SET_PROTECT 3 demo_flash =
      Val ((FLASH_SUCCESS, 3), s1) /\
    flash_ctrl 4 (fun _ h => h) (fun _ => false) CMD_FLASH_GET_PROTECT 0 s1 =
      Val ((FLASH_SUCCESS, protect_name demo_cfg (protect_field demo_cfg 3)), s2) /\
    on (Some demo_cfg, 0x0B4014, 0) c1 s1 /\ on (Some demo_cfg, 0x0B4014, 0) c2 s2 /\
    ch_mem c2 = ch_mem demo_chip /\ ch_sr c2 = ch_sr c1 /\
    forall i, 0 <= i < 8 * sr_size demo_cfg -> i <> cmp_post demo_cfg ->
      Z.testbit (Z.shiftl (protect_mask demo_cfg) (protect_post demo_cfg)) i = false ->
      Z.testbit (sr_seen (sr_size demo_cfg) (ch_sr c1)) i =
      Z.testbit (sr_seen (sr_size demo_cfg) (ch_sr demo_chip)) i.
Proof.
  apply (flash_protect_roundtrip 4 demo_fuel (fun _ h => h) (fun _ => false) demo_cfg 0x0B4014 0
    demo_chip demo_flash 3 0); try done; [exact demo_cfg_in|exact demo_on].
Defined.

Lemma flash_write_overrun_witness :
  exists s' c',
    flash_write 4 (replicate 32 0) 32 (flash_size demo_cfg - 1) demo_flash = Val (FLASH_SUCCESS, s') /\
    on (Some demo_cfg, 0x0B4014, 0) c' s' /\
    ch_mem c' (flash_size demo_cfg + 30) = Z.land (ch_mem demo_chip (flash_size demo_cfg + 30)) 0.
Proof.
  apply (flash_write_overrun 4 demo_fuel demo_cfg 0x0B4014 0 demo_chip demo_flash 0);
    try done; [exact demo_cfg_in|exact demo_on].
Defined.
