(* ===== verification/NorDev.v ===== *)
(** * The flash device as its clients see it

    [NorDevice] is what the operations object of the flash driver promises to
    the code above the device registry: bytes that can be read, and-ed with
    what is written, erased by sectors and locked.  The rules of this file lift
    it through [ddev_open], [ddev_close], [ddev_read], [ddev_write] and
    [ddev_control] (driver/common/drv_model.c); the flash driver discharges it
    at the end of the file. *)
From S2P Require Import Prelude DrvModel FlashHw Flash FlashCorrect.
From stdpp Require Import strings.
Local Open Scope Z_scope.

(** A write that the driver accepts for any part of [size] bytes. *)
Definition nor_in_bounds (size addr count : Z) : Prop :=
  0 <= addr /\ 0 <= count /\ addr + count <= size.

(** The address an erase works on: 24 bits, a multiple of the sector size. *)
Definition sector_addr (addr : Z) : Z := Z.land addr 0xFFF000.

Lemma sector_addr_mod addr : 0 <= addr -> sector_addr addr = (addr / 4096) mod 4096 * 4096.
Proof.
  intros Ha. unfold sector_addr. change 0xFFF000 with (Z.shiftl (Z.ones 12) 12).
  change 4096 with (2 ^ 12). rewrite <- Z.shiftr_div_pow2, <- Z.land_ones, <- Z.shiftl_mul_pow2 by lia.
  apply Z.bits_inj'. intros i Hi. rewrite Z.land_spec, !Z.shiftl_spec, Z.land_spec by lia.
  destruct (decide (i < 12)); [by rewrite (Z.testbit_neg_r _ (i - 12)), !andb_false_r by lia|].
  rewrite Z.shiftr_spec by lia. by replace (i - 12 + 12) with i by lia.
Qed.

Class NorDevice {W : Type} (ops : DD_OPERATIONS W) := {
  nor_ok : W -> Prop;
  nor_mem : W -> Z -> Z;
  nor_locked : W -> Z -> bool;
  nor_size : Z;
  nor_no_open : op_open ops = None;
  nor_no_close : op_close ops = None;
  nor_byte w a : nor_ok w -> is_u8 (nor_mem w a);
  nor_size_bound : 0 < nor_size <= 2 ^ 23;
  nor_read : exists rd, op_read ops = Some rd /\ forall w count addr,
    nor_ok w -> 0 <= addr -> 0 <= count -> addr + count <= 2 ^ 24 ->
    exists w', rd count addr w = Val ((FLASH_SUCCESS, mem_bytes (nor_mem w) addr (Z.to_nat count)), w') /\
      nor_ok w' /\ nor_mem w' = nor_mem w /\ nor_locked w' = nor_locked w;
  nor_write : exists wr, op_write ops = Some wr /\ forall w buf count addr,
    nor_ok w -> nor_in_bounds nor_size addr count -> bytes_ok buf -> count <= Z.of_nat (length buf) ->
    (0 < count) ->
    exists w', wr buf count addr w = Val (FLASH_SUCCESS, w') /\ nor_ok w' /\
      (forall a, nor_mem w' a = mem_program (nor_locked w) addr (take (Z.to_nat count) buf) (nor_mem w) a) /\
      nor_locked w' = nor_locked w;
  nor_control : exists ct, op_control ops = Some ct /\
    (forall w addr, nor_ok w -> is_u32 addr -> exists w',
      ct CMD_FLASH_ERASE_SECTOR addr w = Val ((FLASH_SUCCESS, addr), w') /\ nor_ok w' /\
      (forall a, nor_mem w' a = if nor_size <=? sector_addr addr then nor_mem w a
                                else mem_erase (nor_locked w) (sector_addr addr) (nor_mem w) a) /\
      nor_locked w' = nor_locked w) /\
    (forall w t, nor_ok w -> exists w',
      ct CMD_FLASH_SET_PROTECT t w = Val ((FLASH_SUCCESS, t), w') /\ nor_ok w' /\
      nor_mem w' = nor_mem w /\ (t = protect_num FLASH_PROTECT_NONE -> forall a, nor_locked w' a = false));
}.

(** ** Through the registry *)

Section clients.
Context {W : Type} (dev_ops : Z -> DD_OPERATIONS W) (p : Z) `{!NorDevice (dev_ops p)}.
Implicit Types (s : drv_state W) (m : Z -> Z) (l : Z -> bool).

(** The device "flash" is at slot [i], open or closed, and its chip holds [m]
    with [l] locked. *)
Record flash_at (i : nat) m l s : Prop := {
  fa_slot : exists d, slot s FLASH_DEV_NAME i d /\ op d = Some p /\ is_u32 (use_cnt d) /\
    (state d = DD_STATE_CLOSED \/ state d = DD_STATE_OPENED);
  fa_ok : nor_ok (world s);
  fa_mem : nor_mem (world s) = m;
  fa_locked : nor_locked (world s) = l;
}.

Lemma flash_at_upd i m l s d d' w :
  slot s FLASH_DEV_NAME i d -> name d' = name d -> op d' = Some p -> is_u32 (use_cnt d') ->
  (state d' = DD_STATE_CLOSED \/ state d' = DD_STATE_OPENED) ->
  nor_ok w -> nor_mem w = m -> nor_locked w = l -> flash_at i m l (upd_dev s i d' w).
Proof. intros Hs Hn Ho Hc Hst Hok Hm Hl. split; [|done..]. exists d'. split_and!; [by eapply slot_upd|done..]. Qed.

Lemma wp_open i m l s flag (Q : Z * option Z -> drv_state W -> Prop) :
  flash_at i m l s ->
  (forall z s', flash_at i m l s' -> Q (ddev_make_handle (Z.of_nat i), Some z) s') ->
  wp (ddev_open dev_ops (Some FLASH_DEV_NAME) true flag) s Q.
Proof.
  intros [(d & Hslot & Hop & Hcnt & [Hst|Hst]) Hok Hm Hl] HQ.
  - eapply wp_intro; [apply open_closed; [done|done|]|].
    + unfold run_open. rewrite Hop. cbn [mbind option_bind]. by rewrite nor_no_open.
    + apply HQ. by eapply flash_at_upd; [done|..]; cbn; auto.
  - eapply wp_intro; [by apply open_opened|].
    apply HQ. eapply flash_at_upd; [done|..]; cbn; auto. apply u32_range.
Qed.

Lemma wp_close i m l s (Q : Z -> drv_state W -> Prop) :
  flash_at i m l s -> (forall s', flash_at i m l s' -> Q DRV_SUCCESS s') ->
  wp (ddev_close dev_ops (ddev_make_handle (Z.of_nat i))) s Q.
Proof.
  intros [(d & Hslot & Hop & Hcnt & Hst) Hok Hm Hl] HQ.
  pose proof Hslot as (_ & Hd & Hi & _).
  destruct (decide (u32 (use_cnt d - 1) = 0)) as [Hz|Hz].
  - eapply wp_intro; [apply (close_last _ _ _ d (world s)); [done|done|zlia|]|].
    + unfold run_close. rewrite Hop. cbn [mbind option_bind]. by rewrite nor_no_close.
    + apply HQ. by eapply flash_at_upd; [done|..]; cbn; auto.
  - eapply wp_intro; [by apply (close_shared _ _ _ d)|].
    apply HQ. eapply flash_at_upd; [done|..]; cbn; auto. apply u32_range.
Qed.

(** A call through a handle runs the operation on the state of the driver. *)
Lemma flash_at_handle i m l s : flash_at i m l s ->
  exists d, get_dev (Z.of_nat i) s = Val (d, s) /\ op d = Some p /\
    ddev_get_id_from_handle (ddev_make_handle (Z.of_nat i)) = Z.of_nat i /\
    (DD_ID_UNVALID =? Z.of_nat i) = false.
Proof.
  intros [(d & (_ & Hd & Hi & _) & Hop & _) _ _ _]. exists d.
  split_and!; [by apply get_dev_val|done|by apply handle_id_valid|by apply handle_id_valid].
Qed.

Lemma flash_at_world i m l s w m' l' :
  flash_at i m l s -> nor_ok w -> nor_mem w = m' -> nor_locked w = l' ->
  flash_at i m' l' (DrvState (drv_dev_tbl s) (drv_sdev_tbl s) w).
Proof. by intros [Hs _ _ _] ? ? ?. Qed.

Lemma wp_dread i m l s count addr (Q : Z * list Z -> drv_state W -> Prop) :
  flash_at i m l s -> 0 <= addr -> 0 <= count -> addr + count <= 2 ^ 24 ->
  (forall s', flash_at i m l s' -> Q (FLASH_SUCCESS, mem_bytes m addr (Z.to_nat count)) s') ->
  wp (ddev_read dev_ops (ddev_make_handle (Z.of_nat i)) count addr) s Q.
Proof.
  intros Hf Ha Hc Hac HQ. destruct (flash_at_handle _ _ _ _ Hf) as (d & Hd & Hop & Hid & Hne).
  pose proof Hf as [_ Hok Hm Hl]. destruct nor_read as (rd & Hrd & Hspec).
  destruct (Hspec (world s) count addr) as (w' & Hrun & Hok' & Hm' & Hl'); [done..|].
  unfold ddev_read. rewrite Hid, Hne. apply wp_bind. eapply wp_intro; [done|].
  rewrite Hop. cbn [mbind option_bind]. rewrite Hrd. unfold wp, call. rewrite Hrun, Hm.
  apply HQ. eapply flash_at_world; [done|done|congruence|congruence].
Qed.

Lemma wp_dwrite i m l s buf count addr (Q : Z -> drv_state W -> Prop) :
  flash_at i m l s -> nor_in_bounds nor_size addr count -> bytes_ok buf -> count <= Z.of_nat (length buf) ->
  0 < count ->
  (forall s' m', (forall a, m' a = mem_program l addr (take (Z.to_nat count) buf) m a) ->
    flash_at i m' l s' -> Q FLASH_SUCCESS s') ->
  wp (ddev_write dev_ops (ddev_make_handle (Z.of_nat i)) buf count addr) s Q.
Proof.
  intros Hf Hb Hbuf Hc Hc0 HQ. destruct (flash_at_handle _ _ _ _ Hf) as (d & Hd & Hop & Hid & Hne).
  pose proof Hf as [_ Hok Hm Hl]. destruct nor_write as (wr & Hwr & Hspec).
  destruct (Hspec (world s) buf count addr) as (w' & Hrun & Hok' & Hm' & Hl'); [done..|].
  unfold ddev_write. rewrite Hid, Hne. apply wp_bind. eapply wp_intro; [done|].
  rewrite Hop. cbn [mbind option_bind]. rewrite Hwr. unfold wp, call. rewrite Hrun.
  rewrite Hm, Hl in Hm'. eapply HQ; [exact Hm'|].
  eapply flash_at_world; [done|done|done|congruence].
Qed.

Lemma wp_derase i m l s addr (Q : Z * Z -> drv_state W -> Prop) :
  flash_at i m l s -> is_u32 addr ->
  (forall s' m', (forall a, m' a = if nor_size <=? sector_addr addr then m a
                                   else mem_erase l (sector_addr addr) m a) ->
    flash_at i m' l s' -> Q (FLASH_SUCCESS, addr) s') ->
  wp (ddev_control dev_ops (ddev_make_handle (Z.of_nat i)) CMD_FLASH_ERASE_SECTOR addr) s Q.
Proof.
  intros Hf Ha HQ. destruct (flash_at_handle _ _ _ _ Hf) as (d & Hd & Hop & Hid & Hne).
  pose proof Hf as [_ Hok Hm Hl]. destruct nor_control as (ct & Hct & Hspec & _).
  destruct (Hspec (world s) addr) as (w' & Hrun & Hok' & Hm' & Hl'); [done..|].
  unfold ddev_control. rewrite Hid, Hne. apply wp_bind. eapply wp_intro; [done|].
  rewrite Hop. cbn [mbind option_bind]. rewrite Hct. unfold wp, call. rewrite Hrun.
  rewrite Hm, Hl in Hm'. eapply HQ; [exact Hm'|].
  eapply flash_at_world; [done|done|done|congruence].
Qed.

Lemma wp_dprotect i m l s t (Q : Z * Z -> drv_state W -> Prop) :
  flash_at i m l s ->
  (forall s' l', (t = protect_num FLASH_PROTECT_NONE -> forall a, l' a = false) ->
    flash_at i m l' s' -> Q (FLASH_SUCCESS, t) s') ->
  wp (ddev_control dev_ops (ddev_make_handle (Z.of_nat i)) CMD_FLASH_SET_PROTECT t) s Q.
Proof.
  intros Hf HQ. destruct (flash_at_handle _ _ _ _ Hf) as (d & Hd & Hop & Hid & Hne).
  pose proof Hf as [_ Hok Hm Hl]. destruct nor_control as (ct & Hct & _ & Hspec).
  destruct (Hspec (world s) t) as (w' & Hrun & Hok' & Hm' & Hl'); [done..|].
  unfold ddev_control. rewrite Hid, Hne. apply wp_bind. eapply wp_intro; [done|].
  rewrite Hop. cbn [mbind option_bind]. rewrite Hct. unfold wp, call. rewrite Hrun.
  eapply HQ; [exact Hl'|]. eapply flash_at_world; [done|done|congruence|done].
Qed.
End clients.

(** ** The flash driver is such a device *)

Section instance.
Context {hw : Type} `{FlashSpec hw}.
Context (poll_fuel : nat) (fuel_ok : (busy_max < poll_fuel)%nat).
Context (sctrl_control : Z -> hw -> hw) (ate_mode : hw -> bool).
Context (cf : flash_config_t) (cf_in : cf ∈ flash_config).
(** A part whose protection field is "none" locks no byte. *)
Context (none_unlocks : forall c0 c, chip_ok c -> sr_protected cf (protect_none cf) c0 c ->
  forall a, cp_prot params (ch_sr c) a = false).

Definition nor_chip (s : flash_st hw) : chip := view (fs_hw s).

#[export, refine] Instance flash_nor_device : NorDevice (flash_op poll_fuel sctrl_control ate_mode) := {|
  nor_ok s := hw_ok (fs_hw s) /\ flash_current_config s = Some cf /\ is_u32 (peri_busy_count s) /\
    ch_tx (nor_chip s) = [];
  nor_mem s := ch_mem (nor_chip s);
  nor_locked s := cp_prot params (ch_sr (nor_chip s));
  nor_size := flash_size cf;
|}.
Proof.
- done.
- done.
- intros s a (Hok & _). apply (ok_mem _ (hw_chip_ok _ Hok)).
- by apply cfg_size, flash_config_wf.
- eexists. split; [done|]. intros s count addr (Hok & Hcf & Hn & Htx) Ha Hc Hac.
  destruct (flash_read_exact poll_fuel fuel_ok cf (flash_id s) (peri_busy_count s) (nor_chip s) s count addr)
    as (s' & c' & Hrun & (Hok' & Hc' & Hk) & Hm & Hsr & Htx'); [done..| |].
  { split; [done|]. split; [done|]. unfold statics_of. by rewrite Hcf. }
  exists s'. unfold statics_of in Hk. injection Hk as Hk1 Hk2 Hk3.
  unfold nor_chip in *. rewrite Hc', Hm, Hsr, Htx', Hk3. done.
- eexists. split; [done|]. intros s buf count addr (Hok & Hcf & Hn & Htx) (Ha & Hc & Hac) Hbuf Hlen Hpos.
  pose proof (flash_config_wf cf cf_in) as Hwf. pose proof (cfg_size cf Hwf) as Hsz.
  assert (Hwr : wp (flash_write poll_fuel buf count addr) s (fun r s2 =>
    r = FLASH_SUCCESS /\ exists c2, programmed (nor_chip s) addr (take (Z.to_nat count) buf) c2 /\
      on (Some cf, flash_id s, peri_busy_count s) c2 s2)).
  { apply (wp_flash_write poll_fuel fuel_ok cf (flash_id s) (peri_busy_count s) (nor_chip s));
      [done|done| |done|lia|lia|done|done| |eauto].
    - unfold write_in_bounds. rewrite (proj2 (Z.ltb_lt _ _)), !(proj2 (Z.leb_le _ _)) by zlia. done.
    - split; [done|]. split; [done|]. unfold statics_of. by rewrite Hcf. }
  apply wp_val in Hwr as (r & s' & He & -> & c' & Hp & (Hok' & Hc' & Hk)). exists s'.
  unfold statics_of in Hk. injection Hk as Hk1 Hk2 Hk3. unfold nor_chip in *.
  rewrite Hc', Hk3, (prog_sr _ _ _ _ Hp), (prog_tx _ _ _ _ Hp). split_and!; try done.
  apply (prog_mem _ _ _ _ Hp).
- eexists. split; [done|]. pose proof (flash_config_wf cf cf_in) as Hwf. split.
  + intros s addr (Hok & Hcf & Hn & Htx) Ha.
    assert (Her : wp (flash_ctrl poll_fuel sctrl_control ate_mode CMD_FLASH_ERASE_SECTOR addr) s (fun r s1 =>
      r = (FLASH_SUCCESS, addr) /\ on (Some cf, flash_id s, peri_busy_count s)
        (if flash_size cf <=? sector_addr addr then nor_chip s
         else with_mem (nor_chip s) (mem_erase (cp_prot params (ch_sr (nor_chip s))) (sector_addr addr) (ch_mem (nor_chip s)))) s1)).
    { eapply (wp_ctrl_erase poll_fuel fuel_ok _ _ cf (flash_id s) (peri_busy_count s) (nor_chip s)); [done|done|done| |].
      - split; [done|]. split; [done|]. unfold statics_of. by rewrite Hcf.
      - done. }
    apply wp_val in Her as (r & s' & He & -> & (Hok' & Hc' & Hk)). exists s'.
    unfold statics_of in Hk. injection Hk as Hk1 Hk2 Hk3. unfold nor_chip in *. rewrite Hc', Hk3.
    split; [done|]. destruct (_ <=? _); done.
  + intros s t (Hok & Hcf & Hn & Htx).
    assert (Hset : wp (flash_ctrl poll_fuel sctrl_control ate_mode CMD_FLASH_SET_PROTECT t) s (fun r s1 =>
      r = (FLASH_SUCCESS, t) /\ exists c1, sr_protected cf (protect_field cf t) (nor_chip s) c1 /\
        ch_mem c1 = ch_mem (nor_chip s) /\ ch_tx c1 = ch_tx (nor_chip s) /\
        on (Some cf, flash_id s, peri_busy_count s) c1 s1)).
    { eapply (wp_ctrl_set_protect poll_fuel fuel_ok _ _ cf (flash_id s) (peri_busy_count s) (nor_chip s)); [done|done| |eauto 8].
      split; [done|]. split; [done|]. unfold statics_of. by rewrite Hcf. }
    apply wp_val in Hset as (r & s' & He & -> & c1 & Hp & Hm & Htx1 & (Hok' & Hc' & Hk)). exists s'.
    unfold statics_of in Hk. injection Hk as Hk1 Hk2 Hk3. unfold nor_chip in *. rewrite Hc', Hm, Hk3.
    split; [done|]. split_and!; try done; [congruence|].
    intros ->. apply (none_unlocks (view (fs_hw s))); [rewrite <- Hc'; by apply hw_chip_ok|done].
Defined.
End instance.

(** ** A 2 MB part on the simulated device, registered as "flash" *)

Definition nor_params : chip_params := {| cp_id := 0x0B4015; cp_prot := fun _ _ => false |}.
Lemma nor_id : is_u32 (cp_id nor_params).
Proof. done. Qed.
#[export] Instance nor_bus : RegBus sim := sim_bus nor_params.
#[export] Instance nor_spec : FlashSpec sim := sim_spec nor_params nor_id.

Definition nor_cfg : flash_config_t :=
  FlashConfig 0x0B4015 2 0x200000 2 14 2 0x1F 0x1F 0x00 0x0D 0x101 9 1 0xA0 0x01.
Lemma nor_cfg_in : nor_cfg ∈ flash_config.
Proof. apply list_elem_of_In. cbn. tauto. Defined.
Lemma nor_fuel : (busy_max (hw := sim) < 4)%nat.
Proof. exact (le_n 4). Defined.

Definition nor_ops (_ : Z) : DD_OPERATIONS (flash_st sim) :=
  flash_op 4 (fun _ h => h) (fun _ => false).

#[export] Instance nor_device p : NorDevice (nor_ops p) :=
  flash_nor_device 4 nor_fuel (fun _ h => h) (fun _ => false) nor_cfg nor_cfg_in
    (fun _ _ _ _ _ => eq_refl).

(** [m0]: the bytes of the chip. *)
Definition nor_state (m0 : Z -> Z) : drv_state (flash_st sim) :=
  DrvState (DRV_DEV (Some "flash"%string) 0 DD_STATE_CLOSED (Some 7) :: replicate 9 zero_dev)
    (replicate 16 zero_dev)
    (FlashSt (Sim (Chip m0 0 0 0 [] []) 0) (Some nor_cfg) 0x0B4015 0).

Lemma nor_state_at m0 : (forall a, is_u8 (m0 a)) -> flash_at nor_ops 7 0 m0 (fun _ => false) (nor_state m0).
Proof.
  intros Hm. split; [|split_and!; try done|done|done].
  - eexists. split; [split_and!; [vm_compute; reflexivity|reflexivity|vm_compute; lia|vm_compute; done]|].
    split_and!; [done|cbn; zlia|by left].
  - split; cbn; [|lia]. split; cbn; try apply Forall_nil_2; try zlia. done.
Defined.
