(* ===== verification/FlashPart.v ===== *)
(** * Flash partitions (components/user_driver/BkDriverFlash.c)

    The partition table and the erase, write, read and protection calls on it,
    through the device registry.  The calls run with interrupts masked, so
    each is one step.  A buffer argument is an option: [None] is the null
    pointer. *)
From S2P Require Import Prelude DrvModel FlashHw Flash NorDev.
From stdpp Require Import strings.
Local Open Scope Z_scope.

(** [bk_flash_t] is always BK_FLASH_EMBEDDED (0) in the table. *)
Record bk_logic_partition_t := Partition {
  partition_owner : Z;
  partition_description : option string;
  partition_start_addr : Z;
  partition_length : Z;
  partition_options : Z;
}.

Definition PAR_OPT_READ_EN : Z := Z.shiftl 1 0.
Definition PAR_OPT_WRITE_DIS : Z := Z.shiftl 0 1.
Definition BK_FLASH_EMBEDDED : Z := 0.

Definition BK_PARTITION_BOOTLOADER : Z := 0.
Definition BK_PARTITION_APPLICATION : Z := 1.
Definition BK_PARTITION_OTA : Z := 2.
Definition BK_PARTITION_RF_FIRMWARE : Z := 3.
Definition BK_PARTITION_NET_PARAM : Z := 4.
Definition BK_PARTITION_USR_CONFIG : Z := 5.
Definition BK_PARTITION_MAX : Z := 6.

Definition kNoErr : Z := 0.
Definition kParamErr : Z := -6705.
Definition kNotFoundErr : Z := -6727.
Definition kOpenErr : Z := -6755.

(** The designated initialisers leave entry BK_PARTITION_USR_CONFIG zero. *)
Definition bk7231_partitions : list bk_logic_partition_t := [
  Partition BK_FLASH_EMBEDDED (Some "Bootloader"%string) 0x00000000 0x0F000 (Z.lor PAR_OPT_READ_EN PAR_OPT_WRITE_DIS);
  Partition BK_FLASH_EMBEDDED (Some "Application"%string) 0x11000 0x143000 (Z.lor PAR_OPT_READ_EN PAR_OPT_WRITE_DIS);
  Partition BK_FLASH_EMBEDDED (Some "ota"%string) 0x132000 0xAE000 (Z.lor PAR_OPT_READ_EN PAR_OPT_WRITE_DIS);
  Partition BK_FLASH_EMBEDDED (Some "RF Firmware"%string) 0x1e0000 0x1000 (Z.lor PAR_OPT_READ_EN PAR_OPT_WRITE_DIS);
  Partition BK_FLASH_EMBEDDED (Some "NET info"%string) 0x1e1000 0x1000 (Z.lor PAR_OPT_READ_EN PAR_OPT_WRITE_DIS);
  Partition 0 None 0 0 0].

(** The argument of the assertion is not tested: it compares constants. *)
Definition BkFlashPartitionAssert {S} (inPartition : Z) : M S unit :=
  assert (BK_PARTITION_BOOTLOADER <? BK_PARTITION_MAX).

Definition BkFlashPartitionIsValid (inPartition : Z) : Z :=
  if (BK_PARTITION_BOOTLOADER <=? inPartition) && (inPartition <? BK_PARTITION_MAX) then 1 else 0.

Definition bk_flash_get_info {S} (inPartition : Z) : M S (option bk_logic_partition_t) :=
  BkFlashPartitionAssert inPartition;;
  if truthy (BkFlashPartitionIsValid inPartition)
  then mret (zlookup bk7231_partitions inPartition) else mret None.

Definition BkFlashInit : Z := 0.
Definition BkFlashUninit : Z := 0.

Section partitions.
Context {W : Type} (dev_ops : Z -> DD_OPERATIONS W).
Abbreviation st := (drv_state W).

(** The open of this file: its handle, after [ASSERT] or with a test. *)
Definition open_flash : M st Z := r ← ddev_open dev_ops (Some FLASH_DEV_NAME) true 0; mret r.1.

(** [for(i = start_sector; i <= end_sector; i ++)] *)
Fixpoint erase_sectors (fuel : nat) (hdl start_addr i end_sector : Z) : M st unit :=
  match fuel with
  | O => fail NoFuel
  | S fuel' =>
    if i <=? end_sector then
      _ ← ddev_control dev_ops hdl CMD_FLASH_ERASE_SECTOR (u32 (start_addr + u32 (Z.shiftl i 12)));
      erase_sectors fuel' hdl start_addr (u32 (i + 1)) end_sector
    else mret tt
  end.

(** The fuel: a sector number has 20 bits. *)
Definition bk_flash_erase (inPartition off_set size : Z) : M st Z :=
  partition_info ← bk_flash_get_info inPartition;
  let start_sector := Z.shiftr off_set 12 in
  let end_sector := Z.shiftr (u32 (off_set + size - 1)) 12 in
  flash_hdl ← open_flash;
  assert (negb (DD_HANDLE_UNVALID =? flash_hdl));;
  (if start_sector <=? end_sector then
     pi ← lift_res (of_option BadAccess partition_info);
     erase_sectors (Z.to_nat (end_sector - start_sector + 2)) flash_hdl (partition_start_addr pi)
       start_sector end_sector
   else mret tt);;
  mret kNoErr.

Definition bk_flash_write (inPartition off_set : Z) (inBuffer : option (list Z)) (inBufferLength : Z) : M st Z :=
  match inBuffer with
  | None => mret kParamErr
  | Some buf =>
    partition_info ← bk_flash_get_info inPartition;
    match partition_info with
    | None => mret kNotFoundErr
    | Some pi =>
      let start_addr := u32 (partition_start_addr pi + off_set) in
      flash_hdl ← open_flash;
      if DD_HANDLE_UNVALID =? flash_hdl then mret kOpenErr
      else
        _ ← ddev_write dev_ops flash_hdl buf inBufferLength start_addr;
        mret kNoErr
    end
  end.

(** [outBuffer]: whether the pointer is not null; the bytes stored there are
    the second component of the result. *)
Definition bk_flash_read (inPartition off_set : Z) (outBuffer : bool) (inBufferLength : Z) : M st (Z * list Z) :=
  if negb outBuffer then mret (kParamErr, [])
  else
    partition_info ← bk_flash_get_info inPartition;
    match partition_info with
    | None => mret (kNotFoundErr, [])
    | Some pi =>
      let start_addr := u32 (partition_start_addr pi + off_set) in
      flash_hdl ← open_flash;
      if DD_HANDLE_UNVALID =? flash_hdl then mret (kOpenErr, [])
      else
        r ← ddev_read dev_ops flash_hdl inBufferLength start_addr;
        mret (kNoErr, r.2)
    end.

Definition bk_flash_enable_security (type : Z) : M st Z :=
  flash_hdl ← open_flash;
  if DD_HANDLE_UNVALID =? flash_hdl then mret kOpenErr
  else
    _ ← ddev_control dev_ops flash_hdl CMD_FLASH_SET_PROTECT type;
    mret kNoErr.

(** The test commands step through a range of addresses in 32 bits: a range
    that ends within a step of 2^32 makes the loop wrap and run for ever,
    which no fuel covers. *)
Definition test_buf : list Z := map Z.of_nat (seq 0 256).

Fixpoint test_write_loop (fuel : nat) (hdl addr tmp : Z) : M st unit :=
  match fuel with
  | O => fail NoFuel
  | S fuel' =>
    if addr <? tmp then
      _ ← ddev_write dev_ops hdl test_buf 256 addr;
      test_write_loop fuel' hdl (u32 (addr + 256)) tmp
    else mret tt
  end.

Definition test_flash_write (fuel : nat) (start_addr len : Z) : M st Z :=
  let tmp := u32 (start_addr + len) in
  flash_hdl ← open_flash;
  assert (negb (DD_HANDLE_UNVALID =? flash_hdl));;
  test_write_loop fuel flash_hdl start_addr tmp;;
  mret kNoErr.

(** [&addr] is the parameter of the control call. *)
Fixpoint test_erase_loop (fuel : nat) (hdl addr tmp : Z) : M st unit :=
  match fuel with
  | O => fail NoFuel
  | S fuel' =>
    if addr <? tmp then
      r ← ddev_control dev_ops hdl CMD_FLASH_ERASE_SECTOR addr;
      test_erase_loop fuel' hdl (u32 (r.2 + 0x1000)) tmp
    else mret tt
  end.

Definition test_flash_erase (fuel : nat) (start_addr len : Z) : M st Z :=
  let tmp := u32 (start_addr + len) in
  flash_hdl ← open_flash;
  if DD_HANDLE_UNVALID =? flash_hdl then mret kOpenErr
  else test_erase_loop fuel flash_hdl start_addr tmp;; mret kNoErr.

(** The result is what is printed: each address and the 256 bytes there,
    zeros where the read stored nothing. *)
Fixpoint test_read_loop (fuel : nat) (hdl addr tmp : Z) : M st (list (Z * list Z)) :=
  match fuel with
  | O => fail NoFuel
  | S fuel' =>
    if addr <? tmp then
      r ← ddev_read dev_ops hdl 256 addr;
      rest ← test_read_loop fuel' hdl (u32 (addr + 256)) tmp;
      mret ((addr, r.2 ++ drop (length r.2) (replicate 256 0)) :: rest)
    else mret []
  end.

Definition test_flash_read (fuel : nat) (start_addr len : Z) : M st (Z * list (Z * list Z)) :=
  let tmp := u32 (start_addr + len) in
  flash_hdl ← open_flash;
  if DD_HANDLE_UNVALID =? flash_hdl then mret (kOpenErr, [])
  else out ← test_read_loop fuel flash_hdl start_addr tmp; mret (kNoErr, out).

(** [beken_time_get_time] before and after, as a parameter; the result is the
    printed cost. *)
Definition test_flash_read_time (time_get : M st Z) (fuel : nat) (start_addr len : Z) : M st (Z * Z) :=
  let tmp := u32 (start_addr + len) in
  flash_hdl ← open_flash;
  if DD_HANDLE_UNVALID =? flash_hdl then mret (kOpenErr, 0)
  else
    time_start ← time_get;
    _ ← test_read_loop fuel flash_hdl start_addr tmp;
    time_end ← time_get;
    mret (kNoErr, u32 (time_end - time_start)).
End partitions.

(** ** Lemmas *)

Lemma get_info_val {S} n (s : S) :
  is_u32 n -> bk_flash_get_info n s = Val (if n <? 6 then zlookup bk7231_partitions n else None, s).
Proof.
  intros Hn. unfold bk_flash_get_info, BkFlashPartitionAssert, BkFlashPartitionIsValid.
  mstep. unfold BK_PARTITION_BOOTLOADER, BK_PARTITION_MAX. rewrite (proj2 (Z.leb_le _ _)) by zlia.
  cbn [andb]. by destruct (n <? 6).
Qed.

(** What the table holds, for the proofs below. *)
Definition part_wf (pi : bk_logic_partition_t) : bool :=
  (partition_start_addr pi mod 4096 =? 0) && (0 <=? partition_start_addr pi) &&
  (0 <=? partition_length pi) && (partition_start_addr pi + partition_length pi <=? 0x200000).

Lemma partition_wf n pi : zlookup bk7231_partitions n = Some pi -> part_wf pi = true.
Proof.
  unfold zlookup. destruct (0 <=? n); [|done].
  assert (Hall : forallb part_wf bk7231_partitions = true) by by vm_compute.
  rewrite forallb_forall in Hall. intros Hl. apply Hall.
  apply list_elem_of_In. by eapply list_elem_of_lookup_2.
Qed.

Lemma part_wf_facts pi : part_wf pi = true ->
  partition_start_addr pi mod 4096 = 0 /\ 0 <= partition_start_addr pi /\
  0 <= partition_length pi /\ partition_start_addr pi + partition_length pi <= 0x200000.
Proof. unfold part_wf. rewrite !andb_true_iff, Z.eqb_eq, !Z.leb_le. tauto. Qed.

(** The sector that turn [j] of an erase works on. *)
Lemma erase_turn start j : 0 <= start -> start mod 4096 = 0 -> 0 <= j < 2 ^ 20 ->
  sector_addr (u32 (start + u32 (Z.shiftl j 12))) = (start / 4096 + j) mod 4096 * 4096.
Proof.
  intros Hs Hm Hj. rewrite sector_addr_mod by apply u32_range. f_equal.
  rewrite Z.shiftl_mul_pow2 by lia. change (2 ^ 12) with 4096. rewrite (u32_id (j * 4096)) by zlia. zlia.
Qed.

(** The memory after the sectors [from .. to] of an erase starting at [start]. *)
Definition erased_range (size start : Z) (l : Z -> bool) (from to : Z) (m m' : Z -> Z) : Prop := forall a,
  (l a = true -> m' a = m a) /\
  (m a = 255 -> m' a = 255) /\
  ((forall j, from <= j <= to -> (start / 4096 + j) mod 4096 <> a / 4096) -> m' a = m a) /\
  (forall j, from <= j <= to -> (start / 4096 + j) mod 4096 = a / 4096 -> a / 4096 * 4096 < size ->
    l a = false -> m' a = 255).

Lemma erased_range_step size start l from to m m1 m' :
  from <= to ->
  (forall a, m1 a = if size <=? (start / 4096 + from) mod 4096 * 4096 then m a
                    else mem_erase l ((start / 4096 + from) mod 4096 * 4096) m a) ->
  erased_range size start l (from + 1) to m1 m' -> erased_range size start l from to m m'.
Proof.
  intros Hft Hm1 He a. destruct (He a) as (Hl & Hkeep & Hout & Hin). specialize (Hm1 a).
  unfold mem_erase in Hm1. rewrite Z.div_mul in Hm1 by lia.
  assert (Hother : (start / 4096 + from) mod 4096 <> a / 4096 -> m1 a = m a).
  { intros Hne. rewrite Hm1. destruct (_ <=? _); [done|].
    by rewrite (proj2 (Z.eqb_neq (a / 4096) _)) by done. }
  split_and!.
  - intros Hla. rewrite Hl, Hm1, Hla, andb_false_r by done. by destruct (_ <=? _).
  - intros Hma. apply Hkeep. rewrite Hm1, Hma. destruct (_ <=? _); [done|]. by destruct (_ && _).
  - intros Hno. rewrite Hout by (intros j Hj; apply Hno; lia). apply Hother, Hno. lia.
  - intros j Hj Hsec Hsz Hla.
    destruct (Z.eq_dec j from) as [->|]; [|apply (Hin j); [lia|done..]].
    apply Hkeep. rewrite Hm1, Hsec, (proj2 (Z.leb_gt _ _)) by done. by rewrite Z.eqb_refl, Hla.
Qed.

Section partition_facts.
Context {W : Type} (dev_ops : Z -> DD_OPERATIONS W) (p : Z) `{!NorDevice (dev_ops p)}.
Implicit Types (s : drv_state W).

Lemma wp_open_flash i m l s (Q : Z -> drv_state W -> Prop) :
  flash_at dev_ops p i m l s ->
  (forall s', flash_at dev_ops p i m l s' -> Q (ddev_make_handle (Z.of_nat i)) s') ->
  wp (open_flash dev_ops) s Q.
Proof.
  intros Hf HQ. unfold open_flash. apply wp_bind. eapply wp_open; [done..|]. intros z s' Hs'.
  by apply wp_ret, HQ.
Qed.

Lemma handle_valid i m l s : flash_at dev_ops p i m l s ->
  (DD_HANDLE_UNVALID =? ddev_make_handle (Z.of_nat i)) = false.
Proof. intros [(d & (_ & _ & Hi & _) & _) _ _ _]. apply make_handle_valid. lia. Qed.

Lemma wp_erase_sectors fuel i m l start from to s (Q : unit -> drv_state W -> Prop) :
  0 <= start -> start mod 4096 = 0 -> 0 <= from <= to + 1 -> to < 2 ^ 20 ->
  (Z.to_nat (to + 1 - from) < fuel)%nat -> flash_at dev_ops p i m l s ->
  (forall s' m', erased_range nor_size start l from to m m' -> flash_at dev_ops p i m' l s' -> Q tt s') ->
  wp (erase_sectors dev_ops fuel (ddev_make_handle (Z.of_nat i)) start from to) s Q.
Proof.
  revert from m s. induction fuel as [|fuel IH]; intros from m s Hs Hm Hft Hto Hfuel Hf HQ; [lia|].
  cbn [erase_sectors]. destruct (Z.leb_spec from to) as [Hle|Hgt].
  - apply wp_bind. eapply wp_derase; [done|apply u32_range|].
    rewrite erase_turn by lia. intros s1 m1 Hm1 Hf1. rewrite u32_id by zlia.
    eapply (IH _ m1); [done|done|lia|lia|lia|done|].
    intros s2 m2 Hr Hf2. eapply HQ; [|done]. by eapply erased_range_step.
  - apply wp_ret. eapply (HQ _ m); [|done]. intros a. split_and!; try done; intros; lia.
Qed.

Lemma wp_part_erase i m l n pi off size s (Q : Z -> drv_state W -> Prop) :
  is_u32 n -> is_u32 off -> is_u32 size -> zlookup bk7231_partitions n = Some pi -> n < 6 ->
  Z.shiftr off 12 <= Z.shiftr (u32 (off + size - 1)) 12 -> flash_at dev_ops p i m l s ->
  (forall s' m', erased_range nor_size (partition_start_addr pi) l (off / 4096) (u32 (off + size - 1) / 4096) m m' ->
    flash_at dev_ops p i m' l s' -> Q kNoErr s') ->
  wp (bk_flash_erase dev_ops n off size) s Q.
Proof.
  intros Hn Hoff Hsize Hpi Hn6 Hle Hf HQ. unfold bk_flash_erase.
  destruct (part_wf_facts pi (partition_wf n pi Hpi)) as (Hp1 & Hp2 & _).
  apply wp_bind. eapply wp_intro; [by apply get_info_val|]. rewrite (proj2 (Z.ltb_lt _ _)), Hpi by done.
  apply wp_bind. eapply wp_open_flash; [done|]. intros s1 Hf1.
  apply wp_bind, wp_assert; [by erewrite handle_valid|].
  apply wp_bind. rewrite (proj2 (Z.leb_le _ _)) by done. apply wp_bind. unfold wp at 1, lift_res; cbn [of_option].
  rewrite !Z.shiftr_div_pow2 in * by lia. change (2 ^ 12) with 4096 in *.
  pose proof (u32_range (off + size - 1)).
  eapply wp_erase_sectors; [done|done|zlia|zlia|lia|done|].
  intros s2 m2 Hr Hf2. apply wp_ret. by eapply HQ.
Qed.

Lemma wp_part_write i m l n pi off buf len s (Q : Z -> drv_state W -> Prop) :
  is_u32 n -> 0 <= off -> zlookup bk7231_partitions n = Some pi -> n < 6 ->
  0 < len <= Z.of_nat (length buf) -> partition_start_addr pi + off + len <= nor_size -> bytes_ok buf ->
  flash_at dev_ops p i m l s ->
  (forall s' m', (forall a, m' a = mem_program l (partition_start_addr pi + off) (take (Z.to_nat len) buf) m a) ->
    flash_at dev_ops p i m' l s' -> Q kNoErr s') ->
  wp (bk_flash_write dev_ops n off (Some buf) len) s Q.
Proof.
  intros Hn Hoff Hpi Hn6 Hlen Hend Hbuf Hf HQ. unfold bk_flash_write.
  destruct (part_wf_facts pi (partition_wf n pi Hpi)) as (_ & Hp2 & _).
  pose proof nor_size_bound. apply wp_bind. eapply wp_intro; [by apply get_info_val|].
  rewrite (proj2 (Z.ltb_lt _ _)), Hpi by done. apply wp_bind.
  eapply wp_open_flash; [done|]. intros s1 Hf1. erewrite handle_valid by done.
  rewrite u32_id by zlia. apply wp_bind.
  eapply wp_dwrite; [done|split_and!; lia|done|lia|lia|]. intros s2 m2 Hm2 Hf2. apply wp_ret. by eapply HQ.
Qed.

Lemma wp_part_read i m l n pi off len s (Q : Z * list Z -> drv_state W -> Prop) :
  is_u32 n -> 0 <= off -> 0 <= len -> zlookup bk7231_partitions n = Some pi -> n < 6 ->
  partition_start_addr pi + off + len <= 2 ^ 24 -> flash_at dev_ops p i m l s ->
  (forall s', flash_at dev_ops p i m l s' ->
    Q (kNoErr, mem_bytes m (partition_start_addr pi + off) (Z.to_nat len)) s') ->
  wp (bk_flash_read dev_ops n off true len) s Q.
Proof.
  intros Hn Hoff Hlen Hpi Hn6 Hend Hf HQ. unfold bk_flash_read. cbn [negb].
  destruct (part_wf_facts pi (partition_wf n pi Hpi)) as (_ & Hp2 & _).
  apply wp_bind. eapply wp_intro; [by apply get_info_val|].
  rewrite (proj2 (Z.ltb_lt _ _)), Hpi by done. apply wp_bind.
  eapply wp_open_flash; [done|]. intros s1 Hf1. erewrite handle_valid by done.
  rewrite u32_id by zlia. apply wp_bind.
  eapply wp_dread; [done|lia|lia|lia|]. intros s2 Hf2. apply wp_ret. by apply HQ.
Qed.

Lemma wp_security i m l t s (Q : Z -> drv_state W -> Prop) :
  flash_at dev_ops p i m l s ->
  (forall s' l', (t = protect_num FLASH_PROTECT_NONE -> forall a, l' a = false) ->
    flash_at dev_ops p i m l' s' -> Q kNoErr s') ->
  wp (bk_flash_enable_security dev_ops t) s Q.
Proof.
  intros Hf HQ. unfold bk_flash_enable_security. apply wp_bind. eapply wp_open_flash; [done|].
  intros s1 Hf1. erewrite handle_valid by done. apply wp_bind. eapply wp_dprotect; [done|].
  intros s2 l2 Hl2 Hf2. apply wp_ret. by eapply HQ.
Qed.

(** Bytes outside the sectors of an erase keep their value. *)
Lemma erased_range_out start l off len m m' a :
  erased_range nor_size start l (off / 4096) ((off + len - 1) / 4096) m m' ->
  start mod 4096 = 0 -> 0 <= start -> 0 <= off -> 0 < len -> start + off + len <= 2 ^ 23 ->
  (a < start + off - off mod 4096 \/ start + (off + len - 1) / 4096 * 4096 + 4096 <= a) -> m' a = m a.
Proof.
  intros Hr Hs Hs0 Ho Hl Hend Ha. destruct (Hr a) as (_ & _ & Hout & _). apply Hout.
  intros j Hj He. rewrite Z.mod_small in He by zlia. zlia.
Qed.

Lemma erased_range_in start l off len m m' a :
  erased_range nor_size start l (off / 4096) ((off + len - 1) / 4096) m m' ->
  start mod 4096 = 0 -> 0 <= start -> 0 <= off -> start + off + len <= nor_size ->
  start + off <= a < start + off + len -> l a = false -> m' a = 255.
Proof.
  intros Hr Hs Hs0 Ho Hend Ha Hla. pose proof nor_size_bound.
  destruct (Hr a) as (_ & _ & _ & Hin). apply (Hin (a / 4096 - start / 4096)); [zlia| |zlia|done].
  rewrite Z.mod_small by zlia. lia.
Qed.

(** C25: with the protection off, erasing a range of a partition, writing it
    and reading it back gives the bytes written, for every partition of the
    table, offset and length inside it, over any device that keeps the promises
    of [NorDevice]; bytes outside the sectors of the range do not change, and
    every call returns kNoErr. *)
Theorem part_erase_write_read i m l n pi off buf s :
  is_u32 n -> zlookup bk7231_partitions n = Some pi -> n < 6 -> 0 <= off ->
  (0 < length buf)%nat -> off + Z.of_nat (length buf) <= partition_length pi -> bytes_ok buf ->
  partition_start_addr pi + partition_length pi <= nor_size ->
  flash_at dev_ops p i m l s ->
  let len := Z.of_nat (length buf) in
  exists s', (r1 ← bk_flash_enable_security dev_ops (protect_num FLASH_PROTECT_NONE);
              r2 ← bk_flash_erase dev_ops n off len;
              r3 ← bk_flash_write dev_ops n off (Some buf) len;
              r4 ← bk_flash_read dev_ops n off true len;
              mret (r1, r2, r3, r4)) s = Val ((kNoErr, kNoErr, kNoErr, (kNoErr, buf)), s') /\
    exists m' l', flash_at dev_ops p i m' l' s' /\
      forall a, (a < partition_start_addr pi + off - off mod 4096 \/
                 partition_start_addr pi + (off + len - 1) / 4096 * 4096 + 4096 <= a) -> m' a = m a.
Proof.
  intros Hn Hpi Hn6 Hoff Hlen Hin Hbuf Hsz Hf len.
  destruct (part_wf_facts pi (partition_wf n pi Hpi)) as (Hal & Hst & Hpl & Hend).
  pose proof nor_size_bound as Hnor. assert (Hl : 0 < len) by (subst len; lia).
  assert (Hu : u32 (off + len - 1) = off + len - 1) by (apply u32_id; unfold is_u32; lia).
  enough (Hwp : wp (r1 ← bk_flash_enable_security dev_ops (protect_num FLASH_PROTECT_NONE);
              r2 ← bk_flash_erase dev_ops n off len;
              r3 ← bk_flash_write dev_ops n off (Some buf) len;
              r4 ← bk_flash_read dev_ops n off true len;
              mret (r1, r2, r3, r4)) s (fun r s' => r = (kNoErr, kNoErr, kNoErr, (kNoErr, buf)) /\
     exists m' l', flash_at dev_ops p i m' l' s' /\
      forall a, (a < partition_start_addr pi + off - off mod 4096 \/
                 partition_start_addr pi + (off + len - 1) / 4096 * 4096 + 4096 <= a) -> m' a = m a)).
  { apply wp_val in Hwp as (r & s' & He & -> & Hx). eauto. }
  apply wp_bind. eapply wp_security; [done|]. intros s1 l1 Hl1 Hf1. specialize (Hl1 eq_refl).
  apply wp_bind. eapply wp_part_erase; [done|unfold is_u32; lia|unfold is_u32; lia|done|done| |done|].
  { rewrite Hu, !Z.shiftr_div_pow2 by lia. change (2 ^ 12) with 4096. zlia. }
  rewrite Hu. intros s2 m2 Hm2 Hf2.
  apply wp_bind. eapply wp_part_write; [done|done|done|done|lia|lia|done|done|].
  subst len. rewrite Nat2Z.id, firstn_all. intros s3 m3 Hm3 Hf3.
  apply wp_bind. eapply wp_part_read; [done|done|lia|done|done|lia|done|].
  intros s4 Hf4. apply wp_ret. rewrite Nat2Z.id. split.
  - do 2 f_equal. rewrite (mem_bytes_ext m3 (mem_program l1 (partition_start_addr pi + off) buf m2)) by (intros; apply Hm3).
    apply mem_program_blank; [done|]. intros a Ha. split; [|done].
    by eapply erased_range_in; [done|..]; try lia.
  - exists m3, l1. split; [done|]. intros a Ha. rewrite Hm3. unfold mem_program.
    destruct (_ && _) eqn:E; [|by eapply erased_range_out; [exact Hm2|..]; try lia].
    rewrite !andb_true_iff, Z.leb_le, Z.ltb_lt in E. zlia.
Qed.

(** A size of zero wraps to 2^32 - 1 in the computation of the last
    sector: erasing nothing at offset 0 of any partition erases every unlocked
    byte of the part. *)
Theorem erase_zero_erases_all i m l n pi s :
  is_u32 n -> zlookup bk7231_partitions n = Some pi -> n < 6 -> flash_at dev_ops p i m l s ->
  exists s' m', bk_flash_erase dev_ops n 0 0 s = Val (kNoErr, s') /\ flash_at dev_ops p i m' l s' /\
    forall a, 0 <= a < nor_size -> m' a = if l a then m a else 255.
Proof.
  intros Hn Hpi Hn6 Hf. destruct (part_wf_facts pi (partition_wf n pi Hpi)) as (Hal & Hst & _ & Hend).
  pose proof nor_size_bound as Hnor.
  assert (Hwp : wp (bk_flash_erase dev_ops n 0 0) s (fun r s' => r = kNoErr /\ exists m',
    erased_range nor_size (partition_start_addr pi) l 0 0xFFFFF m m' /\ flash_at dev_ops p i m' l s')).
  { eapply wp_part_erase; [done..|]. eauto. }
  apply wp_val in Hwp as (r & s' & He & -> & m' & Hr & Hf'). exists s', m'. split_and!; [done..|].
  intros a Ha. destruct (Hr a) as (Hlock & _ & _ & Hin). destruct (l a); [by apply Hlock|].
  apply (Hin ((a / 4096 - partition_start_addr pi / 4096) mod 4096)); [|zlia|zlia|done].
  pose proof (Z.mod_pos_bound (a / 4096 - partition_start_addr pi / 4096) 4096). lia.
Qed.

(** A write to a partition goes to its start address plus the offset,
    and to nothing else: neither the length of the partition nor its write
    option is looked at. *)
Theorem part_write_unchecked i m l n pi off buf s :
  is_u32 n -> zlookup bk7231_partitions n = Some pi -> n < 6 -> 0 <= off -> (0 < length buf)%nat ->
  partition_start_addr pi + off + Z.of_nat (length buf) <= nor_size -> bytes_ok buf ->
  flash_at dev_ops p i m l s ->
  exists s' m', bk_flash_write dev_ops n off (Some buf) (Z.of_nat (length buf)) s = Val (kNoErr, s') /\
    flash_at dev_ops p i m' l s' /\
    forall a, m' a = mem_program l (partition_start_addr pi + off) buf m a.
Proof.
  intros Hn Hpi Hn6 Hoff Hlen Hend Hbuf Hf.
  assert (Hwp : wp (bk_flash_write dev_ops n off (Some buf) (Z.of_nat (length buf))) s (fun r s' => r = kNoErr /\
    exists m', (forall a, m' a = mem_program l (partition_start_addr pi + off) buf m a) /\ flash_at dev_ops p i m' l s')).
  { eapply wp_part_write; [done|done|done|done|lia|lia|done|done|].
    rewrite Nat2Z.id, firstn_all. eauto. }
  apply wp_val in Hwp as (r & s' & He & -> & m' & Hm & Hf'). eauto 6.
Qed.

(** Null buffers and unknown partitions are refused by read and write
    without touching anything; erase does not test its partition and reads
    through the null pointer. *)
Theorem part_errors i m l n off buf len s :
  is_u32 n -> 6 <= n -> flash_at dev_ops p i m l s ->
  bk_flash_write dev_ops n off None len s = Val (kParamErr, s) /\
  bk_flash_read dev_ops n off false len s = Val ((kParamErr, []), s) /\
  bk_flash_write dev_ops n off (Some buf) len s = Val (kNotFoundErr, s) /\
  bk_flash_read dev_ops n off true len s = Val ((kNotFoundErr, []), s) /\
  (0 < len -> 0 <= off -> off + len < 2 ^ 32 -> bk_flash_erase dev_ops n off len s = Err BadAccess).
Proof.
  intros Hn Hn6 Hf. assert (Hget : bk_flash_get_info n s = Val (None, s)).
  { rewrite get_info_val by done. by rewrite (proj2 (Z.ltb_ge _ _)). }
  split_and!; try done.
  - unfold bk_flash_write. by eapply bind_val; [exact Hget|].
  - unfold bk_flash_read. by eapply bind_val; [exact Hget|].
  - intros Hl Ho Hol. unfold bk_flash_erase. eapply bind_val; [exact Hget|]. cbv beta.
    assert (Hopen : wp (open_flash dev_ops) s (fun h s' => (DD_HANDLE_UNVALID =? h) = false)).
    { eapply wp_open_flash; [done|]. intros s' Hf'. by eapply handle_valid. }
    apply wp_val in Hopen as (h & s1 & Ho1 & Hh).
    eapply bind_val; [exact Ho1|]. cbv beta. eapply bind_val; [by rewrite Hh|]. cbv beta.
    rewrite (proj2 (Z.leb_le _ _)); [done|]. rewrite !Z.shiftr_div_pow2, u32_id by zlia.
    change (2 ^ 12) with 4096. zlia.
Qed.
End partition_facts.

(** The entry BK_PARTITION_USR_CONFIG is inside the bounds that are
    tested, but has no initialiser: its start address is that of the
    bootloader. *)
Theorem usr_config_is_bootloader {W} (s : W) :
  bk_flash_get_info BK_PARTITION_USR_CONFIG s = Val (Some (Partition 0 None 0 0 0), s) /\
  option_map partition_start_addr (zlookup bk7231_partitions BK_PARTITION_USR_CONFIG) =
  option_map partition_start_addr (zlookup bk7231_partitions BK_PARTITION_BOOTLOADER).
Proof. done. Qed.

(** ** Instances *)

Definition part_demo : drv_state (flash_st sim) := nor_state (fun a => a mod 256).
Lemma part_demo_at : flash_at nor_ops 7 0 (fun a => a mod 256) (fun _ => false) part_demo.
Proof. apply nor_state_at. intros a. zlia. Defined.

Lemma part_erase_write_read_witness :
  exists s', (r1 ← bk_flash_enable_security nor_ops (protect_num FLASH_PROTECT_NONE);
              r2 ← bk_flash_erase nor_ops 4 4095 1;
              r3 ← bk_flash_write nor_ops 4 4095 (Some [77]) 1;
              r4 ← bk_flash_read nor_ops 4 4095 true 1;
              mret (r1, r2, r3, r4)) part_demo = Val ((kNoErr, kNoErr, kNoErr, (kNoErr, [77])), s') /\
    exists m' l', flash_at nor_ops 7 0 m' l' s' /\
      forall a, (a < 0x1e1000 + 4095 - 4095 mod 4096 \/
                 0x1e1000 + (4095 + 1 - 1) / 4096 * 4096 + 4096 <= a) -> m' a = a mod 256.
Proof.
  apply (part_erase_write_read nor_ops 7 0 (fun a => a mod 256) (fun _ => false) 4
    (Partition BK_FLASH_EMBEDDED (Some "NET info"%string) 0x1e1000 0x1000 1) 4095 [77] part_demo);
    try done; [cbn; lia|repeat constructor; done|exact part_demo_at].
Defined.

Lemma erase_zero_erases_all_witness :
  exists s' m', bk_flash_erase nor_ops 3 0 0 part_demo = Val (kNoErr, s') /\
    flash_at nor_ops 7 0 m' (fun _ => false) s' /\
    forall a, 0 <= a < nor_size (ops := nor_ops 7) -> m' a = 255.
Proof.
  apply (erase_zero_erases_all nor_ops 7 0 (fun a => a mod 256) (fun _ => false) 3
    (Partition BK_FLASH_EMBEDDED (Some "RF Firmware"%string) 0x1e0000 0x1000 1) part_demo);
    try done; exact part_demo_at.
Defined.

Lemma part_write_unchecked_witness :
  exists s' m', bk_flash_write nor_ops 5 0x100 (Some [1; 2]) 2 part_demo = Val (kNoErr, s') /\
    flash_at nor_ops 7 0 m' (fun _ => false) s' /\
    forall a, m' a = mem_program (fun _ => false) (0 + 0x100) [1; 2] (fun a => a mod 256) a.
Proof.
  apply (part_write_unchecked nor_ops 7 0 (fun a => a mod 256) (fun _ => false) 5
    (Partition 0 None 0 0 0) 0x100 [1; 2] part_demo);
    try done; [cbn; lia|repeat constructor; done|exact part_demo_at].
Defined.

Lemma part_errors_witness :
  bk_flash_write nor_ops 6 0 None 4 part_demo = Val (kParamErr, part_demo) /\
  bk_flash_read nor_ops 6 0 false 4 part_demo = Val ((kParamErr, []), part_demo) /\
  bk_flash_write nor_ops 6 0 (Some [1]) 4 part_demo = Val (kNotFoundErr, part_demo) /\
  bk_flash_read nor_ops 6 0 true 4 part_demo = Val ((kNotFoundErr, []), part_demo) /\
  (0 < 4 -> 0 <= 0 -> 0 + 4 < 2 ^ 32 -> bk_flash_erase nor_ops 6 0 4 part_demo = Err BadAccess).
Proof.
  apply (part_errors nor_ops 7 0 (fun a => a mod 256) (fun _ => false) 6 0 [1] 4 part_demo);
    try done; exact part_demo_at.
Defined.
