(* ===== verification/NetParam.v ===== *)
(** * The network parameter table (components/net_param_intf/net_param.c)

    One type-length-value table in the BK_PARTITION_NET_PARAM partition: a
    header, then items.  The code reads and writes it through the device
    registry and the partition calls of [FlashPart].  A structure read from
    flash is a list of bytes; bytes a read did not store are indeterminate,
    and using them is a [BadAccess]. *)
From S2P Require Import Prelude DrvModel FlashHw Flash NorDev FlashPart.
From stdpp Require Import strings.
Local Open Scope Z_scope.

Definition INFO_TLV_HEADER : Z := 0x00564c54.

Inductive NET_INFO_ITEM :=
  | AUTO_CONNECT_ITEM | WIFI_MODE_ITEM | DHCP_MODE_ITEM | WIFI_MAC_ITEM | SSID_KEY_ITEM | IP_CONFIG_ITEM
  | RF_CFG_TSSI_ITEM | RF_CFG_DIST_ITEM | RF_CFG_MODE_ITEM | CHARGE_CONFIG_ITEM | RF_CFG_TSSI_B_ITEM.

#[export] Instance net_info_item_eq_dec : EqDecision NET_INFO_ITEM.
Proof. solve_decision. Defined.

(** The values of the enumeration. *)
Definition item_num (i : NET_INFO_ITEM) : Z :=
  match i with
  | AUTO_CONNECT_ITEM => 0x11111111 | WIFI_MODE_ITEM => 0x22222222 | DHCP_MODE_ITEM => 0x33333333
  | WIFI_MAC_ITEM => 0x44444444 | SSID_KEY_ITEM => 0x55555555 | IP_CONFIG_ITEM => 0x66666666
  | RF_CFG_TSSI_ITEM => 0x77777777 | RF_CFG_DIST_ITEM => 0x88888888 | RF_CFG_MODE_ITEM => 0x99999999
  | CHARGE_CONFIG_ITEM => 0xaaaaaaaa | RF_CFG_TSSI_B_ITEM => 0xbbbbbbbb
  end.

(** INFO_ITEM_ST, which is also TLV_HEADER_ST. *)
Record INFO_ITEM_ST := InfoItem { type : Z; len : Z }.

Definition sizeof_INFO_ITEM_ST : Z := 8.
Definition sizeof_TLV_HEADER_ST : Z := 8.
Definition sizeof_ITEM_COMM_ST : Z := 8 + 4.
Definition sizeof_ITEM_MAC_ADDR_ST : Z := 8 + 6 + 2.
Definition sizeof_ITEM_CHARGE_ST : Z := 8 + 3 + 1.
Definition sizeof_ITEM_SSIDKEY_ST : Z := 8 + 32 + 64.
Definition sizeof_ITEM_IP_CONFIG_ST : Z := 8 + 16 + 16 + 16.

Definition head_bytes (h : INFO_ITEM_ST) : list Z := word_to_le 4 (type h) ++ word_to_le 4 (len h).
Definition head_of (bs : list Z) : INFO_ITEM_ST :=
  InfoItem (word_of_le (take 4 bs)) (word_of_le (take 4 (drop 4 bs))).

Definition info_item_len (item : NET_INFO_ITEM) : Z :=
  match item with
  | AUTO_CONNECT_ITEM | WIFI_MODE_ITEM | DHCP_MODE_ITEM | RF_CFG_TSSI_ITEM | RF_CFG_DIST_ITEM
  | RF_CFG_MODE_ITEM | RF_CFG_TSSI_B_ITEM => sizeof_ITEM_COMM_ST
  | WIFI_MAC_ITEM => sizeof_ITEM_MAC_ADDR_ST
  | CHARGE_CONFIG_ITEM => sizeof_ITEM_CHARGE_ST
  | SSID_KEY_ITEM => sizeof_ITEM_SSIDKEY_ST
  | IP_CONFIG_ITEM => sizeof_ITEM_IP_CONFIG_ST
  end.

(** [os_memcpy(dst, ptr, n)]: what it reads. *)
Definition ptr_bytes (ptr : option (list Z)) (n : Z) : res (list Z) :=
  p ← of_option BadAccess ptr; mem_read p 0 n.

Section net_param.
Context {W : Type} (dev_ops : Z -> DD_OPERATIONS W).
(** Whether an allocation of a size succeeds; the turns of the item search. *)
Context (zalloc_ok : Z -> bool) (item_fuel : nat).
Abbreviation st := (drv_state W).

(** [ddev_read(flash_handle, &head, sizeof(head), addr)] *)
Definition read_head (hdl addr : Z) : M st INFO_ITEM_ST :=
  r ← ddev_read dev_ops hdl 8 addr;
  if (length r.2 =? 8)%nat then mret (head_of r.2) else fail BadAccess.

(** [pt->partition_start_addr] *)
Definition net_start : M st Z :=
  pt ← bk_flash_get_info BK_PARTITION_NET_PARAM;
  pi ← lift_res (of_option BadAccess pt);
  mret (partition_start_addr pi).

(** [buf]: whether it is not null.  The result: the return value, [*cfg_len],
    and what was stored in [buf]. *)
Definition search_info_tbl (buf : bool) : M st (Z * Z * list Z) :=
  pt ← bk_flash_get_info BK_PARTITION_NET_PARAM;
  r ← ddev_open dev_ops (Some FLASH_DEV_NAME) true 0;
  pi ← lift_res (of_option BadAccess pt);
  head ← read_head r.1 (partition_start_addr pi);
  ret ← (if INFO_TLV_HEADER =? type head then
           let cfg_len := u32 (len head + sizeof_TLV_HEADER_ST) in
           bs ← (if buf then b ← ddev_read dev_ops r.1 cfg_len (partition_start_addr pi); mret b.2
                 else mret []);
           mret (1, cfg_len, bs)
         else mret (0, 0, []));
  _ ← ddev_close dev_ops r.1;
  mret ret.

(** [while(addr < end_addr)]: the address where the search stops. *)
Fixpoint item_loop (fuel : nat) (hdl : Z) (ty addr end_addr : Z) : M st Z :=
  match fuel with
  | O => fail NoFuel
  | S fuel' =>
    if addr <? end_addr then
      head ← read_head hdl addr;
      if negb (ty =? type head)
      then item_loop fuel' hdl ty (u32 (u32 (addr + sizeof_INFO_ITEM_ST) + len head)) end_addr
      else mret addr
    else mret addr
  end.

Definition search_info_item (ty start_addr : Z) : M st Z :=
  r ← ddev_open dev_ops (Some FLASH_DEV_NAME) true 0;
  head ← read_head r.1 start_addr;
  let addr := u32 (start_addr + sizeof_TLV_HEADER_ST) in
  let end_addr := u32 (addr + len head) in
  addr ← item_loop item_fuel r.1 ty addr end_addr;
  let addr := if end_addr <=? addr then 0 else addr in
  _ ← ddev_close dev_ops r.1;
  mret addr.

(** Reads for the three output pointers, one after another. *)
Definition dread (hdl count addr : Z) : M st (list Z) :=
  r ← ddev_read dev_ops hdl count addr; mret r.2.

(** The flags say which pointers are not null; the bytes stored through each
    are returned. *)
Definition get_info_item (item : NET_INFO_ITEM) (ptr0 ptr1 ptr2 : bool)
  : M st (Z * (list Z * list Z * list Z)) :=
  tbl ← search_info_tbl false;
  if negb (truthy tbl.1.1) then mret (0, ([], [], []))
  else
    start ← net_start;
    addr_start ← search_info_item (item_num item) start;
    if negb (truthy addr_start) then mret (0, ([], [], []))
    else
      r ← ddev_open dev_ops (Some FLASH_DEV_NAME) true 0;
      head ← read_head r.1 addr_start;
      let addr_start := u32 (addr_start + sizeof_INFO_ITEM_ST) in
      ret ← match item with
            | AUTO_CONNECT_ITEM | WIFI_MODE_ITEM | DHCP_MODE_ITEM | WIFI_MAC_ITEM | RF_CFG_TSSI_ITEM
            | RF_CFG_DIST_ITEM | RF_CFG_MODE_ITEM | CHARGE_CONFIG_ITEM | RF_CFG_TSSI_B_ITEM =>
              if ptr0 then b0 ← dread r.1 (len head) addr_start; mret (1, (b0, [], []))
              else mret (0, ([], [], []))
            | SSID_KEY_ITEM =>
              if ptr0 && ptr1 then
                b0 ← dread r.1 32 addr_start;
                b1 ← dread r.1 64 (u32 (addr_start + 32));
                mret (1, (b0, b1, []))
              else mret (0, ([], [], []))
            | IP_CONFIG_ITEM =>
              if ptr0 && ptr1 && ptr2 then
                b0 ← dread r.1 16 addr_start;
                b1 ← dread r.1 16 (u32 (addr_start + 16));
                b2 ← dread r.1 16 (u32 (addr_start + 32));
                mret (1, (b0, b1, b2))
              else mret (0, ([], [], []))
            end;
      _ ← ddev_close dev_ops r.1;
      mret ret.

(** The bytes that [os_memcpy] puts in [item_buf], from its start. *)
Definition item_payload (item : NET_INFO_ITEM) (ptr0 ptr1 ptr2 : option (list Z)) : res (list Z) :=
  match item with
  | AUTO_CONNECT_ITEM | WIFI_MODE_ITEM | DHCP_MODE_ITEM | RF_CFG_TSSI_ITEM | RF_CFG_DIST_ITEM
  | RF_CFG_MODE_ITEM | RF_CFG_TSSI_B_ITEM => ptr_bytes ptr0 4
  | WIFI_MAC_ITEM => ptr_bytes ptr0 6
  | SSID_KEY_ITEM => b0 ← ptr_bytes ptr0 32; b1 ← ptr_bytes ptr1 64; mret (b0 ++ b1)
  | IP_CONFIG_ITEM =>
    b0 ← ptr_bytes ptr0 16; b1 ← ptr_bytes ptr1 16; b2 ← ptr_bytes ptr2 16; mret (b0 ++ b1 ++ b2)
  | CHARGE_CONFIG_ITEM => ptr_bytes ptr0 3
  end.

(** The first half of a save: the write buffer as allocated and filled, the
    offset of the item in it, and the table header; [None]: no memory. *)
Definition save_prepare (item : NET_INFO_ITEM) (start : Z) : M st (option (list Z * Z * INFO_ITEM_ST)) :=
  let item_len := info_item_len item in
  tbl ← search_info_tbl false;
  if negb (truthy tbl.1.1) then
    let cfg_tbl_len := sizeof_INFO_ITEM_ST + item_len in
    if zalloc_ok cfg_tbl_len
    then mret (Some (replicate (Z.to_nat cfg_tbl_len) 0, sizeof_INFO_ITEM_ST, InfoItem INFO_TLV_HEADER item_len))
    else mret None
  else
    addr_offset ← search_info_item (item_num item) start;
    let '(addr_offset, cfg_tbl_len) :=
      if negb (truthy addr_offset) then (tbl.1.2, u32 (tbl.1.2 + item_len))
      else (u32 (addr_offset - start), tbl.1.2) in
    if zalloc_ok cfg_tbl_len then
      old ← search_info_tbl true;
      wrbuf ← lift_res (mem_write (replicate (Z.to_nat cfg_tbl_len) 0) 0 old.2);
      mret (Some (wrbuf, addr_offset, InfoItem INFO_TLV_HEADER (u32 (cfg_tbl_len - sizeof_TLV_HEADER_ST))))
    else mret None.

Definition save_info_item (item : NET_INFO_ITEM) (ptr0 ptr1 ptr2 : option (list Z)) : M st Z :=
  start ← net_start;
  prep ← save_prepare item start;
  match prep with
  | None => mret 0
  | Some (wrbuf, addr_offset, head) =>
    payload ← lift_res (item_payload item ptr0 ptr1 ptr2);
    wrbuf ← lift_res (mem_write wrbuf (addr_offset + sizeof_INFO_ITEM_ST) payload);
    wrbuf ← lift_res (mem_write wrbuf addr_offset
      (head_bytes (InfoItem (item_num item) (info_item_len item - sizeof_INFO_ITEM_ST))));
    wrbuf ← lift_res (mem_write wrbuf 0 (head_bytes head));
    let cfg_tbl_len := Z.of_nat (length wrbuf) in
    _ ← bk_flash_enable_security dev_ops (protect_num FLASH_PROTECT_NONE);
    _ ← bk_flash_erase dev_ops BK_PARTITION_NET_PARAM 0 cfg_tbl_len;
    _ ← bk_flash_write dev_ops BK_PARTITION_NET_PARAM 0 (Some wrbuf) cfg_tbl_len;
    _ ← bk_flash_enable_security dev_ops (protect_num FLASH_UNPROTECT_LAST_BLOCK);
    mret 1
  end.

Definition test_get_whole_tbl (ptr : bool) : M st (Z * list Z) :=
  r ← search_info_tbl ptr; mret (r.1.1, r.2).
End net_param.

(** ** The abstract table: an association list of payloads *)

Definition items := list (Z * list Z).

Definition item_bytes (it : Z * list Z) : list Z :=
  head_bytes (InfoItem it.1 (Z.of_nat (length it.2))) ++ it.2.
Definition body (its : items) : list Z := concat (map item_bytes its).
Definition tbl_bytes (its : items) : list Z :=
  head_bytes (InfoItem INFO_TLV_HEADER (Z.of_nat (length (body its)))) ++ body its.

(** The payload of the first item of a type. *)
Fixpoint get_item (ty : Z) (its : items) : option (list Z) :=
  match its with
  | [] => None
  | (t, pl) :: its' => if ty =? t then Some pl else get_item ty its'
  end.

(** Replace the start of the payload of the first item of the type, or add an
    item of [n] bytes, the rest of it zero. *)
Fixpoint put_item (ty : Z) (n : nat) (new : list Z) (its : items) : items :=
  match its with
  | [] => [(ty, new ++ replicate (n - length new) 0)]
  | (t, pl) :: its' =>
    if ty =? t then (t, new ++ drop (length new) pl) :: its' else (t, pl) :: put_item ty n new its'
  end.

Definition payload_len (item : NET_INFO_ITEM) : nat := Z.to_nat (info_item_len item - 8).

(** Every item of a known type has the size of its structure. *)
Definition item_ok (it : Z * list Z) : Prop :=
  is_u32 it.1 /\ bytes_ok it.2 /\
  forall item, it.1 = item_num item -> length it.2 = payload_len item.

Definition tbl_ok (its : items) : Prop := Forall item_ok its /\ (length (tbl_bytes its) <= 4096)%nat.

Definition NET_BASE : Z := 0x1e1000.

(** The flash holds the table, or no table. *)
Definition holds (m : Z -> Z) (o : option items) : Prop :=
  match o with
  | Some its => tbl_ok its /\ mem_bytes m NET_BASE (length (tbl_bytes its)) = tbl_bytes its
  | None => word_of_le (mem_bytes m NET_BASE 4) <> INFO_TLV_HEADER
  end.

Lemma length_head_bytes h : length (head_bytes h) = 8%nat.
Proof. unfold head_bytes. by rewrite length_app, !length_word_to_le. Qed.

Lemma head_of_bytes h : is_u32 (type h) -> is_u32 (len h) -> head_of (head_bytes h) = h.
Proof.
  intros Ht Hl. unfold head_of, head_bytes. destruct h as [t l]. cbn [type len] in *.
  rewrite take_app_length' by (by rewrite length_word_to_le).
  rewrite drop_app_length' by (by rewrite length_word_to_le).
  rewrite firstn_all2 by (by rewrite length_word_to_le).
  rewrite !word_of_to_le; [done|done|done].
Qed.

Lemma body_app its1 its2 : body (its1 ++ its2) = body its1 ++ body its2.
Proof. unfold body. by rewrite map_app, concat_app. Qed.

Lemma body_cons it its : body (it :: its) = item_bytes it ++ body its.
Proof. done. Qed.

Lemma length_item_bytes it : length (item_bytes it) = (8 + length it.2)%nat.
Proof. unfold item_bytes. by rewrite length_app, length_head_bytes. Qed.

Lemma length_tbl_bytes its : length (tbl_bytes its) = (8 + length (body its))%nat.
Proof. unfold tbl_bytes. by rewrite length_app, length_head_bytes. Qed.

(** Where the first item of a type is, if anywhere. *)
Lemma item_cases ty its :
  (exists pre pl post, its = pre ++ (ty, pl) :: post /\ get_item ty its = Some pl /\
    get_item ty pre = None /\
    forall n new, put_item ty n new its = pre ++ (ty, new ++ drop (length new) pl) :: post) \/
  (get_item ty its = None /\
    forall n new, put_item ty n new its = its ++ [(ty, new ++ replicate (n - length new) 0)]).
Proof.
  induction its as [|[t pl] its IH]; [by right|]. cbn [get_item put_item].
  destruct (Z.eqb_spec ty t) as [->|Hne].
  - left. exists [], pl, its. done.
  - destruct IH as [(pre & pl' & post & -> & Hg & Hpre & Hp)|[Hg Hp]].
    + left. exists ((t, pl) :: pre), pl', post. cbn [get_item].
      rewrite (proj2 (Z.eqb_neq _ _)) by done. split_and!; [done..|]. intros n new. by rewrite Hp.
    + right. split; [done|]. intros n new. by rewrite Hp.
Qed.

Lemma mem_bytes_slice m a n bs off k :
  mem_bytes m a n = bs -> (off + k <= n)%nat -> mem_bytes m (a + Z.of_nat off) k = slice off k bs.
Proof. intros <- Hk. unfold slice. by rewrite take_drop_mem_bytes. Qed.

Lemma slice_mid {A} (a b c : list A) : slice (length a) (length b) (a ++ b ++ c) = b.
Proof. unfold slice. by rewrite drop_app_length, take_app_length. Qed.

Lemma splice_mid {A} (a b b' c : list A) :
  length b = length b' -> splice (length a) b' (a ++ b ++ c) = a ++ b' ++ c.
Proof.
  intros Hl. unfold splice. rewrite take_app_length. do 2 f_equal.
  rewrite <- drop_drop, drop_app_length, <- Hl. apply drop_app_length.
Qed.

(** The memory of a region split in three. *)
Lemma mem_bytes_mid m a (x b c : list Z) :
  mem_bytes m a (length (x ++ b ++ c)) = x ++ b ++ c ->
  mem_bytes m (a + Z.of_nat (length x)) (length b) = b.
Proof.
  intros Hm. erewrite mem_bytes_slice by (done || rewrite !length_app; lia). apply slice_mid.
Qed.

Lemma mem_bytes_front m a (b c : list Z) :
  mem_bytes m a (length (b ++ c)) = b ++ c -> mem_bytes m a (length b) = b.
Proof. intros Hm. pose proof (mem_bytes_mid m a [] b c Hm) as H. cbn in H. by rewrite Z.add_0_r in H. Qed.

Lemma mem_bytes_back m a (b c : list Z) :
  mem_bytes m a (length (b ++ c)) = b ++ c -> mem_bytes m (a + Z.of_nat (length b)) (length c) = c.
Proof.
  intros Hm. pose proof (mem_bytes_mid m a b c []) as H. rewrite !app_nil_r in H. by apply H.
Qed.

(** ** Runs over a device *)

Section runs.
Context {W : Type} (dev_ops : Z -> DD_OPERATIONS W) (p : Z) `{!NorDevice (dev_ops p)}.
Implicit Types (s : drv_state W).
Abbreviation at_ := (flash_at dev_ops p).

Lemma wp_read_head i m l s h addr (Q : INFO_ITEM_ST -> drv_state W -> Prop) :
  at_ i m l s -> 0 <= addr -> addr + 8 <= 2 ^ 24 ->
  mem_bytes m addr 8 = head_bytes h -> is_u32 (type h) -> is_u32 (len h) ->
  (forall s', at_ i m l s' -> Q h s') ->
  wp (read_head dev_ops (ddev_make_handle (Z.of_nat i)) addr) s Q.
Proof.
  intros Hf Ha Hend Hm Ht Hl HQ. unfold read_head. apply wp_bind.
  eapply wp_dread; [done..|]. intros s' Hf'. change (Z.to_nat 8) with 8%nat. cbn [snd].
  rewrite length_mem_bytes, Hm. cbn [Nat.eqb]. rewrite head_of_bytes by done. by apply wp_ret, HQ.
Qed.

Lemma wp_net_start s (Q : Z -> drv_state W -> Prop) : Q NET_BASE s -> wp (net_start (W := W)) s Q.
Proof. exact id. Qed.

(** The header of the table, read and tested. *)
Lemma wp_search_tbl (buf : bool) i m l its s (Q : Z * Z * list Z -> drv_state W -> Prop) :
  at_ i m l s -> holds m (Some its) ->
  (forall s', at_ i m l s' ->
    Q (1, Z.of_nat (length (tbl_bytes its)), if buf then tbl_bytes its else []) s') ->
  wp (search_info_tbl dev_ops buf) s Q.
Proof.
  intros Hf [[Hok Hlen] Hm] HQ. pose proof (length_tbl_bytes its) as Hl8.
  apply wp_bind. eapply wp_intro; [reflexivity|]. apply wp_bind. eapply wp_open; [done|]. intros z s1 Hf1.
  apply wp_bind. eapply wp_intro; [reflexivity|]. cbn [fst].
  change (partition_start_addr _) with NET_BASE.
  set (h := InfoItem INFO_TLV_HEADER (Z.of_nat (length (body its)))).
  apply wp_bind. eapply (wp_read_head _ _ _ _ h); [done|done|done| |done|unfold is_u32; cbn; lia|].
  { unfold tbl_bytes in Hm. fold h in Hm. apply mem_bytes_front in Hm. by rewrite length_head_bytes in Hm. }
  intros s2 Hf2. cbn [type len h]. rewrite Z.eqb_refl. cbv zeta. rewrite u32_id by (cbn; unfold is_u32, sizeof_TLV_HEADER_ST; lia).
  apply wp_bind, wp_bind. replace (Z.of_nat (length (body its)) + sizeof_TLV_HEADER_ST) with (Z.of_nat (length (tbl_bytes its)))
    by (unfold sizeof_TLV_HEADER_ST; lia).
  assert (Hend : forall bs s3, at_ i m l s3 -> bs = (if buf then tbl_bytes its else []) ->
    wp (mret (1, Z.of_nat (length (tbl_bytes its)), bs)) s3 (fun a s' =>
      wp (_ ← ddev_close dev_ops (ddev_make_handle (Z.of_nat i)); mret a) s' Q)).
  { intros bs s3 Hf3 ->. apply wp_ret, wp_bind. eapply wp_close; [done|]. intros s4 Hf4. by apply wp_ret, HQ. }
  destruct buf; [|by apply wp_ret, Hend].
  apply wp_bind. eapply wp_dread; [done|done|lia|unfold NET_BASE; lia|]. intros s3 Hf3. apply wp_ret.
  apply Hend; [done|]. cbn [snd]. by rewrite Nat2Z.id.
Qed.

(** Without a table the search reports none. *)
Lemma wp_search_none buf i m l s (Q : Z * Z * list Z -> drv_state W -> Prop) :
  at_ i m l s -> holds m None -> (forall s', at_ i m l s' -> Q (0, 0, []) s') ->
  wp (search_info_tbl dev_ops buf) s Q.
Proof.
  intros Hf Hm HQ. apply wp_bind. eapply wp_intro; [reflexivity|].
  apply wp_bind. eapply wp_open; [done|]. intros z s1 Hf1.
  apply wp_bind. eapply wp_intro; [reflexivity|]. cbn [fst].
  apply wp_bind. unfold read_head. apply wp_bind.
  change (partition_start_addr _) with NET_BASE.
  eapply wp_dread; [done|done|done|done|]. intros s2 Hf2. cbn [snd]. rewrite length_mem_bytes. cbn [Nat.eqb].
  apply wp_ret, wp_bind. unfold head_of. cbn [type].
  change (take 4 (mem_bytes m NET_BASE (Z.to_nat 8))) with (mem_bytes m NET_BASE 4).
  rewrite (proj2 (Z.eqb_neq _ _)) by (intros He; by apply Hm).
  apply wp_ret, wp_bind. eapply wp_close; [done|]. intros s3 Hf3. by apply wp_ret, HQ.
Qed.

(** The item loop stops at the first item of the type, or at the end. *)
Lemma wp_item_loop fuel i m l ty pre rest addr s (Q : Z -> drv_state W -> Prop) :
  at_ i m l s -> Forall item_ok (pre ++ rest) -> get_item ty pre = None ->
  (rest = [] \/ exists pl post, rest = (ty, pl) :: post) -> (length pre < fuel)%nat ->
  0 <= addr -> addr + Z.of_nat (length (body (pre ++ rest))) < 2 ^ 24 ->
  mem_bytes m addr (length (body (pre ++ rest))) = body (pre ++ rest) ->
  (forall s', at_ i m l s' -> Q (addr + Z.of_nat (length (body pre))) s') ->
  wp (item_loop dev_ops fuel (ddev_make_handle (Z.of_nat i)) ty addr
        (addr + Z.of_nat (length (body (pre ++ rest))))) s Q.
Proof.
  revert pre addr s. induction fuel as [|fuel IH]; intros pre addr s Hf Hok Hg Hrest Hfuel Ha Hend Hm HQ; [lia|].
  cbn [item_loop]. destruct pre as [|[t pl] pre].
  - cbn [app] in *. change (length (body [])) with 0%nat in HQ. rewrite Z.add_0_r in HQ.
    destruct Hrest as [->|(pl & post & ->)].
    { rewrite (proj2 (Z.ltb_ge _ _)) by (cbn; lia). by apply wp_ret, HQ. }
    apply Forall_cons in Hok as [(Ht & Hpl & _) _]. cbn [fst snd] in *.
    rewrite body_cons, length_app, length_item_bytes in Hend |- *.
    rewrite (proj2 (Z.ltb_lt _ _)) by lia. cbn [snd] in *.
    apply wp_bind. eapply (wp_read_head _ _ _ _ (InfoItem ty (Z.of_nat (length pl)))); [done|done|lia| |done|unfold is_u32; cbn [len]; lia|].
    { rewrite body_cons in Hm. apply mem_bytes_front in Hm. unfold item_bytes in Hm.
      apply mem_bytes_front in Hm. by rewrite length_head_bytes in Hm. }
    intros s1 Hf1. cbn [type]. rewrite Z.eqb_refl. cbn [negb]. by apply wp_ret, HQ.
  - cbn [app] in *. cbn [get_item] in Hg. destruct (Z.eqb_spec ty t) as [->|Hne]; [done|].
    apply Forall_cons in Hok as [(Ht & Hpl & _) Hok]. cbn [fst snd] in *.
    rewrite body_cons in Hm. pose proof (mem_bytes_back _ _ _ _ Hm) as Hback. apply mem_bytes_front in Hm.
    rewrite body_cons, length_app, length_item_bytes in Hend |- *. cbn [snd] in *.
    rewrite body_cons, length_app, length_item_bytes in HQ. cbn [snd] in HQ.
    rewrite length_item_bytes in Hback. cbn [snd] in Hback.
    rewrite (proj2 (Z.ltb_lt _ _)) by lia.
    apply wp_bind. eapply (wp_read_head _ _ _ _ (InfoItem t (Z.of_nat (length pl)))); [done|done|lia| |done|unfold is_u32; cbn [len]; lia|].
    { unfold item_bytes in Hm. apply mem_bytes_front in Hm. by rewrite length_head_bytes in Hm. }
    intros s1 Hf1. cbn [type len]. rewrite (proj2 (Z.eqb_neq _ _)) by done. cbn [negb].
    unfold sizeof_INFO_ITEM_ST. rewrite (u32_id (addr + 8)), u32_id by (unfold is_u32; lia).
    replace (addr + 8 + Z.of_nat (length pl)) with (addr + Z.of_nat (8 + length pl)) by lia.
    replace (addr + Z.of_nat (8 + length pl + length (body (pre ++ rest))))
      with (addr + Z.of_nat (8 + length pl) + Z.of_nat (length (body (pre ++ rest)))) by lia.
    apply IH; [done|done|done|done|cbn in Hfuel; lia|lia|lia|done|].
    intros s2 Hf2. replace (addr + Z.of_nat (8 + length pl) + Z.of_nat (length (body pre)))
      with (addr + Z.of_nat (8 + length pl + length (body pre))) by lia. by apply HQ.
Qed.

Context (item_fuel : nat) (fuel_ok : (511 < item_fuel)%nat) (zalloc_ok : Z -> bool).

Lemma length_body_ge its : (8 * length its <= length (body its))%nat.
Proof.
  induction its as [|it its IH]; [done|]. rewrite body_cons, length_app, length_item_bytes. cbn [length]. lia.
Qed.

Lemma wp_search_item i m l ty pre rest s (Q : Z -> drv_state W -> Prop) :
  at_ i m l s -> holds m (Some (pre ++ rest)) -> get_item ty pre = None ->
  (rest = [] \/ exists pl post, rest = (ty, pl) :: post) ->
  (forall s', at_ i m l s' ->
    Q (match rest with [] => 0 | _ => NET_BASE + 8 + Z.of_nat (length (body pre)) end) s') ->
  wp (search_info_item dev_ops item_fuel ty NET_BASE) s Q.
Proof.
  intros Hf [[Hok Hlen] Hm] Hg Hrest HQ. pose proof (length_tbl_bytes (pre ++ rest)) as Hl8.
  pose proof (length_body_ge (pre ++ rest)) as Hge. rewrite length_app in Hge.
  unfold tbl_bytes in Hm. pose proof (mem_bytes_back _ _ _ _ Hm) as Hbody. apply mem_bytes_front in Hm.
  rewrite length_head_bytes in Hm, Hbody.
  unfold search_info_item. apply wp_bind. eapply wp_open; [done|]. intros z s1 Hf1. cbn [fst].
  apply wp_bind. eapply (wp_read_head _ _ _ _ (InfoItem INFO_TLV_HEADER (Z.of_nat (length (body (pre ++ rest))))));
    [done|done|done|done|done|unfold is_u32; cbn [len]; lia|].
  intros s2 Hf2. cbn [len]. cbv zeta. unfold sizeof_TLV_HEADER_ST.
  rewrite (u32_id (NET_BASE + 8)) by done. rewrite u32_id by (unfold is_u32, NET_BASE; lia).
  apply wp_bind. eapply wp_item_loop; [done|done|done|done|lia|done|unfold NET_BASE; lia|done|].
  intros s3 Hf3. apply wp_bind. eapply wp_close; [done|]. intros s4 Hf4. apply wp_ret.
  destruct Hrest as [->|(pl & post & ->)].
  - rewrite app_nil_r, Z.leb_refl. by apply HQ.
  - rewrite (proj2 (Z.leb_gt _ _)); [by apply HQ|].
    rewrite body_app, length_app, body_cons, length_app, length_item_bytes. lia.
Qed.

(** ** Reading an item *)

(** What a get stores through its three pointers. *)
Definition split_item (item : NET_INFO_ITEM) (pl : list Z) : list Z * list Z * list Z :=
  match item with
  | SSID_KEY_ITEM => (take 32 pl, drop 32 pl, [])
  | IP_CONFIG_ITEM => (take 16 pl, take 16 (drop 16 pl), drop 32 pl)
  | _ => (pl, [], [])
  end.

Lemma item_num_u32 item : is_u32 (item_num item).
Proof. by destruct item. Qed.

Lemma wp_dread_slice i m l pl addr off n s (Q : list Z -> drv_state W -> Prop) :
  at_ i m l s -> 0 <= addr -> addr + Z.of_nat (length pl) <= 2 ^ 24 ->
  mem_bytes m addr (length pl) = pl -> (off + n <= length pl)%nat ->
  (forall s', at_ i m l s' -> Q (slice off n pl) s') ->
  wp (dread dev_ops (ddev_make_handle (Z.of_nat i)) (Z.of_nat n) (addr + Z.of_nat off)) s Q.
Proof.
  intros Hf Ha Hend Hm Hoff HQ. unfold dread. apply wp_bind.
  eapply wp_dread; [done|lia|lia|lia|]. intros s1 Hf1. apply wp_ret. cbn [snd]. rewrite Nat2Z.id.
  rewrite (mem_bytes_slice _ _ _ _ _ _ Hm) by done. by apply HQ.
Qed.

Lemma wp_get_item i m l its item pl s (Q : Z * (list Z * list Z * list Z) -> drv_state W -> Prop) :
  at_ i m l s -> holds m (Some its) -> get_item (item_num item) its = Some pl ->
  (forall s', at_ i m l s' -> Q (1, split_item item pl) s') ->
  wp (get_info_item dev_ops item_fuel item true true true) s Q.
Proof.
  intros Hf Hh Hget HQ. unfold get_info_item.
  apply wp_bind. eapply wp_search_tbl; [done|done|]. intros s1 Hf1. cbn [fst].
  apply wp_bind, wp_net_start.
  destruct (item_cases (item_num item) its) as [(pre & pl' & post & -> & Hg & Hpre & _)|[Hg _]]; [|congruence].
  assert (pl' = pl) as -> by congruence. clear Hg.
  apply wp_bind. eapply wp_search_item; [done|done|done|eauto|]. intros s2 Hf2. cbn match.
  pose proof Hh as [[Hok Hlen] Hm].
  rewrite length_tbl_bytes, body_app, length_app, body_cons, length_app, length_item_bytes in Hlen. cbn [snd] in Hlen.
  unfold truthy. rewrite (proj2 (Z.eqb_neq _ _)) by (unfold NET_BASE; lia). cbn [negb].
  assert (Hit : mem_bytes m (NET_BASE + 8 + Z.of_nat (length (body pre))) (length (item_bytes (item_num item, pl))) =
    item_bytes (item_num item, pl)).
  { unfold tbl_bytes in Hm. apply mem_bytes_back in Hm. rewrite length_head_bytes, body_app, body_cons in Hm.
    by apply mem_bytes_mid in Hm. }
  assert (Hpl : length pl = payload_len item).
  { apply Forall_app in Hok as [_ Hok]. apply Forall_cons in Hok as [(_ & _ & H) _]. by apply H. }
  set (addr := NET_BASE + 8 + Z.of_nat (length (body pre))) in *.
  assert (Haddr : 0 <= addr /\ addr + Z.of_nat (8 + length pl) <= 2 ^ 23) by (subst addr; unfold NET_BASE; lia).
  unfold item_bytes in Hit. cbn [fst snd] in Hit. pose proof (mem_bytes_back _ _ _ _ Hit) as Hbody.
  apply mem_bytes_front in Hit. rewrite length_head_bytes in Hit, Hbody.
  apply wp_bind. eapply wp_open; [done|]. intros z s3 Hf3. cbn [fst].
  apply wp_bind. eapply (wp_read_head _ _ _ _ (InfoItem (item_num item) (Z.of_nat (length pl))));
    [done|lia|lia|done|apply item_num_u32|unfold is_u32; cbn [len]; lia|].
  intros s4 Hf4. cbn [len]. cbv zeta. unfold sizeof_INFO_ITEM_ST. rewrite u32_id by (unfold is_u32; lia).
  apply wp_bind.
  enough (Hend : forall r s5, at_ i m l s5 -> r = (1, split_item item pl) ->
    wp (_ ← ddev_close dev_ops (ddev_make_handle (Z.of_nat i)); mret r) s5 Q).
  2: { intros r s5 Hf5 ->. apply wp_bind. eapply wp_close; [done|]. intros s6 Hf6. by apply wp_ret, HQ. }
  assert (Hrd : forall off n s5 (R : list Z -> drv_state W -> Prop), at_ i m l s5 -> (off + n <= length pl)%nat ->
    (forall s6, at_ i m l s6 -> R (slice off n pl) s6) ->
    wp (dread dev_ops (ddev_make_handle (Z.of_nat i)) (Z.of_nat n) (u32 (addr + 8 + Z.of_nat off))) s5 R).
  { intros off n s5 R Hf5 Hoff HR. rewrite u32_id by (unfold is_u32; lia).
    eapply (wp_dread_slice i m l pl); [done|lia|lia|done|done|done]. }
  assert (Hrd0 : forall n s5 (R : list Z -> drv_state W -> Prop), at_ i m l s5 -> (n <= length pl)%nat ->
    (forall s6, at_ i m l s6 -> R (take n pl) s6) ->
    wp (dread dev_ops (ddev_make_handle (Z.of_nat i)) (Z.of_nat n) (addr + 8)) s5 R).
  { intros n s5 R Hf5 Hn HR. replace (addr + 8) with (u32 (addr + 8 + Z.of_nat 0))
      by (rewrite u32_id; [lia|unfold is_u32; lia]).
    apply Hrd; [done|lia|]. intros s6. unfold slice. rewrite drop_0. apply HR. }
  destruct item; cbn [andb split_item] in *; apply wp_bind.
  all: try (eapply Hrd0; [done|lia|]; intros s5 Hf5; apply wp_ret, Hend; [done|]; by rewrite firstn_all).
  all: change (length pl = 96%nat) in Hpl || change (length pl = 48%nat) in Hpl.
  - apply (Hrd0 32%nat); [done|lia|]. intros s5 Hf5. apply wp_bind. apply (Hrd 32%nat 64%nat); [done|lia|].
    intros s6 Hf6. apply wp_ret, Hend; [done|]. unfold slice.
    by rewrite (firstn_all2 (n := 64)) by (rewrite length_drop; lia).
  - apply (Hrd0 16%nat); [done|lia|]. intros s5 Hf5. apply wp_bind. apply (Hrd 16%nat 16%nat); [done|lia|].
    intros s6 Hf6. apply wp_bind. apply (Hrd 32%nat 16%nat); [done|lia|].
    intros s7 Hf7. apply wp_ret, Hend; [done|]. unfold slice.
    by rewrite (firstn_all2 (n := 16) (drop 32 pl)) by (rewrite length_drop; lia).
Qed.

Lemma wp_get_absent i m l o item s (Q : Z * (list Z * list Z * list Z) -> drv_state W -> Prop) :
  at_ i m l s -> holds m o -> o ≫= get_item (item_num item) = None ->
  (forall s', at_ i m l s' -> Q (0, ([], [], [])) s') ->
  wp (get_info_item dev_ops item_fuel item true true true) s Q.
Proof.
  intros Hf Hh Hget HQ. unfold get_info_item. apply wp_bind. destruct o as [its|].
  2: { eapply wp_search_none; [done|done|]. intros s1 Hf1. by apply wp_ret, HQ. }
  eapply wp_search_tbl; [done|done|]. intros s1 Hf1. cbn [fst].
  apply wp_bind, wp_net_start. apply wp_bind. cbn [mbind option_bind] in Hget.
  eapply (wp_search_item _ _ _ _ its []); [done|by rewrite app_nil_r|done|by left|].
  intros s2 Hf2. by apply wp_ret, HQ.
Qed.

(** ** Saving an item *)

(** The three copies into the write buffer. *)
Lemma save_image (h x g sl r new : list Z) ih th off :
  length h = 8%nat -> length g = 8%nat -> length sl = length new -> off = Z.of_nat (8 + length x) ->
  (wrbuf ← mem_write (h ++ x ++ g ++ sl ++ r) (off + sizeof_INFO_ITEM_ST) new;
   wrbuf ← mem_write wrbuf off (head_bytes ih);
   mem_write wrbuf 0 (head_bytes th)) =
  Val (head_bytes th ++ x ++ head_bytes ih ++ new ++ r).
Proof.
  intros Hh Hg Hsl ->. unfold sizeof_INFO_ITEM_ST.
  rewrite mem_write_val by (rewrite ?length_app; lia). cbn [mbind res_bind].
  replace (Z.to_nat (Z.of_nat (8 + length x) + 8)) with (length (h ++ x ++ g)) by (rewrite !length_app; lia).
  replace (h ++ x ++ g ++ sl ++ r) with ((h ++ x ++ g) ++ sl ++ r) by (by rewrite <- !app_assoc).
  rewrite splice_mid by done.
  rewrite mem_write_val by (rewrite ?length_app, ?length_head_bytes; lia). cbn [mbind res_bind].
  replace (Z.to_nat (Z.of_nat (8 + length x))) with (length (h ++ x)) by (rewrite !length_app; lia).
  replace ((h ++ x ++ g) ++ new ++ r) with ((h ++ x) ++ g ++ new ++ r) by (by rewrite <- !app_assoc).
  rewrite splice_mid by (by rewrite length_head_bytes).
  rewrite mem_write_val by (rewrite ?length_app, ?length_head_bytes; lia).
  pose proof (splice_mid [] h (head_bytes th) (x ++ head_bytes ih ++ new ++ r)) as Hs.
  rewrite length_head_bytes in Hs. specialize (Hs Hh). cbn [app length] in Hs.
  rewrite <- !app_assoc. change (Z.to_nat 0) with 0%nat. by rewrite Hs.
Qed.

(** What the first half of a save prepares: a buffer with room at the offset
    of the item, which the copies turn into the new table. *)
Definition prepared (item : NET_INFO_ITEM) (new : list Z) (its : items)
    (r : option (list Z * Z * INFO_ITEM_ST)) : Prop :=
  exists h x g sl rest off th,
    r = Some (h ++ x ++ g ++ sl ++ rest, off, th) /\ length h = 8%nat /\ length g = 8%nat /\
    length sl = length new /\ off = Z.of_nat (8 + length x) /\
    head_bytes th ++ x ++ head_bytes (InfoItem (item_num item) (info_item_len item - sizeof_INFO_ITEM_ST)) ++ new ++ rest =
    tbl_bytes (put_item (item_num item) (payload_len item) new its).

Lemma item_len_facts item : info_item_len item = 8 + Z.of_nat (payload_len item) /\ (payload_len item <= 96)%nat.
Proof. destruct item; (split; [done|by apply Nat.leb_le]). Qed.

Lemma tbl_bytes_put pre item pl post :
  length pl = payload_len item ->
  tbl_bytes (pre ++ (item_num item, pl) :: post) =
  head_bytes (InfoItem INFO_TLV_HEADER (Z.of_nat (length (body pre) + (8 + length pl + length (body post))))) ++
  body pre ++ head_bytes (InfoItem (item_num item) (info_item_len item - sizeof_INFO_ITEM_ST)) ++ pl ++ body post.
Proof.
  intros Hl. unfold tbl_bytes. rewrite body_app, body_cons, !length_app, length_item_bytes. cbn [snd].
  unfold item_bytes. cbn [fst snd]. destruct (item_len_facts item) as [-> _]. unfold sizeof_INFO_ITEM_ST.
  rewrite <- !app_assoc. do 6 f_equal. rewrite Hl. f_equal. lia.
Qed.

Lemma wp_prepare_found i m l pre pl post item new s (Q : option (list Z * Z * INFO_ITEM_ST) -> drv_state W -> Prop) :
  at_ i m l s -> holds m (Some (pre ++ (item_num item, pl) :: post)) -> get_item (item_num item) pre = None ->
  (length new <= payload_len item)%nat -> (forall n, zalloc_ok n = true) ->
  (forall n new, put_item (item_num item) n new (pre ++ (item_num item, pl) :: post) =
    pre ++ (item_num item, new ++ drop (length new) pl) :: post) ->
  (forall s' r, at_ i m l s' -> prepared item new (pre ++ (item_num item, pl) :: post) r -> Q r s') ->
  wp (save_prepare dev_ops zalloc_ok item_fuel item NET_BASE) s Q.
Proof.
  intros Hf Hh Hpre Hnew Hz Hput HQ. unfold save_prepare.
  apply wp_bind. eapply wp_search_tbl; [done|done|]. intros s1 Hf1. cbn [fst snd].
  apply wp_bind. eapply wp_search_item; [done|done|done|eauto|]. intros s2 Hf2. cbn match.
  pose proof Hh as [[Hok Hlen] _].
  assert (Hpl : length pl = payload_len item).
  { apply Forall_app in Hok as [_ Hok]. apply Forall_cons in Hok as [(_ & _ & H) _]. by apply H. }
  pose proof (tbl_bytes_put pre item pl post Hpl) as Htb.
  pose proof (f_equal (@length Z) Htb) as Hlb. rewrite !length_app, !length_head_bytes in Hlb.
  unfold truthy at 1. rewrite (proj2 (Z.eqb_neq _ _)) by (unfold NET_BASE; lia). cbn [negb].
  rewrite Hz. apply wp_bind. eapply wp_search_tbl; [done|done|]. intros s3 Hf3. cbn [snd].
  apply wp_bind. rewrite mem_write_val by (rewrite ?length_replicate; lia). apply wp_ret, wp_ret, HQ; [done|].
  set (th := InfoItem INFO_TLV_HEADER _) in Htb.
  exists (head_bytes th), (body pre), (head_bytes (InfoItem (item_num item) (info_item_len item - sizeof_INFO_ITEM_ST))),
    (take (length new) pl), (drop (length new) pl ++ body post), (Z.of_nat (8 + length (body pre))), th.
  assert (Htl : length (take (length new) pl) = length new) by (rewrite length_take; lia).
  split_and!; [|apply length_head_bytes|apply length_head_bytes|done|done|].
  - rewrite (app_assoc (take _ _)), take_drop, <- Htb.
    unfold splice. rewrite drop_ge by (rewrite length_replicate; lia). rewrite app_nil_r. cbn [take Z.to_nat app].
    do 3 f_equal.
    + rewrite u32_id by (unfold is_u32, NET_BASE in *; lia). lia.
    + subst th. f_equal. rewrite u32_id by (unfold is_u32, sizeof_TLV_HEADER_ST; lia). unfold sizeof_TLV_HEADER_ST. lia.
  - rewrite Hput, tbl_bytes_put by (rewrite length_app, length_drop; lia).
    subst th. rewrite length_app, length_drop. rewrite <- app_assoc.
    replace (length new + (length pl - length new))%nat with (length pl) by lia. done.
Qed.

Lemma replicate_split item (new : list Z) :
  (length new <= payload_len item)%nat ->
  replicate (Z.to_nat (info_item_len item)) 0 =
  replicate 8 0 ++ replicate (length new) 0 ++ replicate (payload_len item - length new) 0.
Proof.
  intros Hl. destruct (item_len_facts item) as [-> _]. rewrite <- !replicate_add. f_equal. lia.
Qed.

Lemma wp_prepare_absent i m l its item new s (Q : option (list Z * Z * INFO_ITEM_ST) -> drv_state W -> Prop) :
  at_ i m l s -> holds m (Some its) -> get_item (item_num item) its = None ->
  (length new <= payload_len item)%nat -> (forall n, zalloc_ok n = true) ->
  (forall n new, put_item (item_num item) n new its = its ++ [(item_num item, new ++ replicate (n - length new) 0)]) ->
  (forall s' r, at_ i m l s' -> prepared item new its r -> Q r s') ->
  wp (save_prepare dev_ops zalloc_ok item_fuel item NET_BASE) s Q.
Proof.
  intros Hf Hh Hpre Hnew Hz Hput HQ. unfold save_prepare.
  apply wp_bind. eapply wp_search_tbl; [done|done|]. intros s1 Hf1. cbn [fst snd].
  apply wp_bind. eapply (wp_search_item _ _ _ _ its []); [done|by rewrite app_nil_r|done|by left|].
  intros s2 Hf2. change (negb (truthy 0)) with true. change (negb (truthy 1)) with false. cbv iota.
  destruct (item_len_facts item) as [Hil Hpl]. pose proof Hh as [[Hok Hlen] _].
  pose proof (length_tbl_bytes its) as Hl8.
  rewrite (u32_id (_ + _)) by (unfold is_u32; lia).
  rewrite Hz. apply wp_bind. eapply wp_search_tbl; [done|done|]. intros s3 Hf3. cbn [snd].
  apply wp_bind. rewrite mem_write_val by (rewrite ?length_replicate; lia). apply wp_ret, wp_ret, HQ; [done|].
  set (th := InfoItem INFO_TLV_HEADER (Z.of_nat (length (body its) + Z.to_nat (info_item_len item)))).
  exists (head_bytes (InfoItem INFO_TLV_HEADER (Z.of_nat (length (body its))))), (body its), (replicate 8 0),
    (replicate (length new) 0), (replicate (payload_len item - length new) 0), (Z.of_nat (8 + length (body its))), th.
  split_and!; [|apply length_head_bytes|done|by rewrite length_replicate|done|].
  - rewrite <- replicate_split by done. do 3 f_equal.
    + unfold splice. change (Z.to_nat 0) with 0%nat. rewrite take_0, drop_replicate. cbn [app].
      unfold tbl_bytes. rewrite <- app_assoc. do 3 f_equal. rewrite length_app, length_head_bytes. lia.
    + rewrite u32_id by (unfold is_u32, sizeof_TLV_HEADER_ST; lia). unfold sizeof_TLV_HEADER_ST. lia.
  - rewrite Hput, tbl_bytes_put by (rewrite length_app, length_replicate; lia).
    subst th. rewrite length_app, length_replicate. change (length (body [])) with 0%nat.
    change (body []) with (@nil Z). rewrite app_nil_r.
    do 4 f_equal. rewrite Hil. lia.
Qed.

Lemma wp_prepare_none i m l item new s (Q : option (list Z * Z * INFO_ITEM_ST) -> drv_state W -> Prop) :
  at_ i m l s -> holds m None -> (length new <= payload_len item)%nat -> (forall n, zalloc_ok n = true) ->
  (forall s' r, at_ i m l s' -> prepared item new [] r -> Q r s') ->
  wp (save_prepare dev_ops zalloc_ok item_fuel item NET_BASE) s Q.
Proof.
  intros Hf Hh Hnew Hz HQ. unfold save_prepare. apply wp_bind. eapply wp_search_none; [done|done|].
  intros s1 Hf1. cbn [fst]. change (negb (truthy 0)) with true. cbv iota. rewrite Hz. apply wp_ret, HQ; [done|].
  destruct (item_len_facts item) as [Hil Hpl]. set (th := InfoItem _ _).
  exists (replicate 8 0), [], (replicate 8 0), (replicate (length new) 0),
    (replicate (payload_len item - length new) 0), 8, th.
  split_and!; [|done|done|by rewrite length_replicate|done|].
  - rewrite app_nil_l, <- replicate_split by done. do 3 f_equal.
    rewrite <- replicate_add. f_equal. unfold sizeof_INFO_ITEM_ST. lia.
  - cbn [put_item]. rewrite <- (app_nil_l [_]), tbl_bytes_put by (rewrite length_app, length_replicate; lia).
    change (body []) with (@nil Z). rewrite app_nil_r, length_app, length_replicate. subst th.
    do 3 f_equal. cbn [length]. rewrite Hil. lia.
Qed.

(** What a save is given: the bytes its pointers lead to. *)
Lemma wp_prepare i m l o item new s (Q : option (list Z * Z * INFO_ITEM_ST) -> drv_state W -> Prop) :
  at_ i m l s -> holds m o -> (length new <= payload_len item)%nat -> (forall n, zalloc_ok n = true) ->
  (forall s' r, at_ i m l s' -> prepared item new (default [] o) r -> Q r s') ->
  wp (save_prepare dev_ops zalloc_ok item_fuel item NET_BASE) s Q.
Proof.
  intros Hf Hh Hnew Hz HQ. destruct o as [its|]; [|by eapply wp_prepare_none].
  destruct (item_cases (item_num item) its) as [(pre & pl & post & -> & Hg & Hpre & Hput)|[Hg Hput]].
  - by eapply wp_prepare_found.
  - by eapply wp_prepare_absent.
Qed.

(** Each payload has at most the size of its structure. *)
Lemma payload_fits item p0 p1 p2 new :
  item_payload item p0 p1 p2 = Val new -> (length new <= payload_len item)%nat.
Proof.
  assert (Hptr : forall q n b, 0 <= n -> ptr_bytes q n = Val b -> length b = Z.to_nat n).
  { intros [q|] n b Hn; [|done]. unfold ptr_bytes. cbn. unfold mem_read.
    destruct (_ && _) eqn:E; [|done]. rewrite !andb_true_iff, !Z.leb_le in E. intros H. injection H as <-.
    rewrite length_slice; lia. }
  destruct item; cbn [item_payload]; intros H; try (apply Hptr in H; [rewrite H; by apply Nat.leb_le|done]).
  - destruct (ptr_bytes p0 32) as [b0|] eqn:E0; [|done]. destruct (ptr_bytes p1 64) as [b1|] eqn:E1; [|done].
    cbn in H. injection H as <-. rewrite length_app, (Hptr p0 32 b0 ltac:(lia) E0), (Hptr p1 64 b1 ltac:(lia) E1).
    by apply Nat.leb_le.
  - destruct (ptr_bytes p0 16) as [b0|] eqn:E0; [|done]. destruct (ptr_bytes p1 16) as [b1|] eqn:E1; [|done].
    destruct (ptr_bytes p2 16) as [b2|] eqn:E2; [|done].
    cbn in H. injection H as <-.
    rewrite !length_app, (Hptr p0 16 b0 ltac:(lia) E0), (Hptr p1 16 b1 ltac:(lia) E1), (Hptr p2 16 b2 ltac:(lia) E2).
    by apply Nat.leb_le.
Qed.

Lemma item_num_inj i1 i2 : item_num i1 = item_num i2 -> i1 = i2.
Proof. by destruct i1, i2. Qed.

Lemma item_bytes_ok it : bytes_ok it.2 -> bytes_ok (item_bytes it).
Proof.
  intros Hb. unfold item_bytes, head_bytes, bytes_ok. rewrite !Forall_app.
  split; [split; apply (word_to_le_ok 4)|done].
Qed.

Lemma tbl_bytes_ok its : Forall item_ok its -> bytes_ok (tbl_bytes its).
Proof.
  intros Hok. unfold tbl_bytes, head_bytes, bytes_ok. rewrite !Forall_app.
  split; [split; apply (word_to_le_ok 4)|].
  unfold body. induction Hok as [|it its (_ & Hb & _) _ IH]; [constructor|].
  cbn [map concat]. apply Forall_app. split; [by apply item_bytes_ok|done].
Qed.

Lemma put_item_ok item new its :
  Forall item_ok its -> bytes_ok new -> (length new <= payload_len item)%nat ->
  Forall item_ok (put_item (item_num item) (payload_len item) new its).
Proof.
  intros Hok Hnew Hl. destruct (item_cases (item_num item) its) as [(pre & pl & post & -> & _ & _ & ->)|[_ ->]].
  - apply Forall_app in Hok as [Hpre Hok]. apply Forall_cons in Hok as [(Hn & Hb & Hlen) Hpost].
    apply Forall_app. split; [done|]. constructor; [|done]. split_and!; [done| |].
    + apply Forall_app. split; [done|by apply Forall_drop].
    + intros it Hit. pose proof (Hlen it Hit) as Hle. cbn [fst snd] in Hle, Hit |- *. rewrite length_app, length_drop, Hle.
      apply item_num_inj in Hit as <-. lia.
  - apply Forall_app. split; [done|]. constructor; [|constructor]. split_and!; [apply item_num_u32| |].
    + apply Forall_app. split; [done|]. by apply Forall_replicate.
    + intros it Hit. cbn [fst snd] in *. apply item_num_inj in Hit as <-.
      rewrite length_app, length_replicate. lia.
Qed.

Lemma get_put item new its :
  Forall item_ok its -> (length new <= payload_len item)%nat ->
  exists tail, get_item (item_num item) (put_item (item_num item) (payload_len item) new its) = Some (new ++ tail) /\
    length (new ++ tail) = payload_len item.
Proof.
  intros Hok Hl. assert (Happ : forall pre pl post, get_item (item_num item) pre = None ->
    get_item (item_num item) (pre ++ (item_num item, pl) :: post) = Some pl).
  { intros pre pl post. induction pre as [|[t q] pre IH]; cbn; [by rewrite Z.eqb_refl|].
    destruct (item_num item =? t); [done|apply IH]. }
  destruct (item_cases (item_num item) its) as [(pre & pl & post & -> & _ & Hpre & ->)|[Hpre ->]].
  - exists (drop (length new) pl). split; [by apply Happ|].
    apply Forall_app in Hok as [_ Hok]. apply Forall_cons in Hok as [(_ & _ & Hlen) _].
    pose proof (Hlen item eq_refl) as Hle. cbn [snd] in Hle. rewrite length_app, length_drop, Hle. lia.
  - eexists. split; [by apply Happ|]. rewrite length_app, length_replicate. lia.
Qed.

Lemma wp_lift {A B} (r : res A) a (k : A -> M (drv_state W) B) s (Q : B -> drv_state W -> Prop) :
  r = Val a -> wp (k a) s Q -> wp (x ← lift_res r; k x) s Q.
Proof. intros -> H. by apply wp_bind. Qed.

(** The write of the image: protection off, erase, write, protection on. *)
Lemma wp_store_image i m l img s (Q : Z -> drv_state W -> Prop) :
  at_ i m l s -> 0x200000 <= nor_size -> bytes_ok img -> (0 < length img <= 4096)%nat ->
  (forall s' m' l', at_ i m' l' s' -> mem_bytes m' NET_BASE (length img) = img ->
    (forall a, a < NET_BASE \/ NET_BASE + 4096 <= a -> m' a = m a) -> Q 1 s') ->
  wp (_ ← bk_flash_enable_security dev_ops (protect_num FLASH_PROTECT_NONE);
      _ ← bk_flash_erase dev_ops BK_PARTITION_NET_PARAM 0 (Z.of_nat (length img));
      _ ← bk_flash_write dev_ops BK_PARTITION_NET_PARAM 0 (Some img) (Z.of_nat (length img));
      _ ← bk_flash_enable_security dev_ops (protect_num FLASH_UNPROTECT_LAST_BLOCK);
      mret 1) s Q.
Proof.
  intros Hf Hsz Hok Hlen HQ. pose proof nor_size_bound as Hnor.
  set (pi := Partition BK_FLASH_EMBEDDED (Some "NET info"%string) 0x1e1000 0x1000 1).
  assert (Hpi : zlookup bk7231_partitions BK_PARTITION_NET_PARAM = Some pi) by done.
  apply wp_bind. eapply wp_security; [done|]. intros s1 l1 Hl1 Hf1. specialize (Hl1 eq_refl).
  assert (Hu : u32 (0 + Z.of_nat (length img) - 1) = Z.of_nat (length img) - 1) by (rewrite u32_id; [lia|unfold is_u32; lia]).
  apply wp_bind. eapply (wp_part_erase _ _ _ _ _ _ pi); [done|done|unfold is_u32; lia|done|done| |done|].
  { rewrite Hu, !Z.shiftr_div_pow2 by lia. change (2 ^ 12) with 4096. zlia. }
  rewrite Hu. intros s2 m2 Hm2 Hf2. change (partition_start_addr pi) with NET_BASE in *.
  apply wp_bind. eapply (wp_part_write _ _ _ _ _ _ pi); [done|done|done|done|lia|cbn [partition_start_addr pi]; lia|done|done|].
  rewrite Nat2Z.id, firstn_all. change (partition_start_addr pi + 0) with NET_BASE.
  intros s3 m3 Hm3 Hf3. apply wp_bind. eapply wp_security; [done|]. intros s4 l4 _ Hf4. apply wp_ret.
  eapply HQ; [done| |].
  - rewrite (mem_bytes_ext m3 (mem_program l1 NET_BASE img m2)) by (intros; apply Hm3).
    apply mem_program_blank; [done|]. intros a Ha. split; [|done].
    destruct (Hm2 a) as (_ & _ & _ & Hin). apply (Hin 0); [zlia| | |done]; unfold NET_BASE in *; zlia.
  - intros a Ha. rewrite Hm3. unfold mem_program. destruct (_ && _) eqn:E.
    + rewrite !andb_true_iff, Z.leb_le, Z.ltb_lt in E. lia.
    + destruct (Hm2 a) as (_ & _ & Hout & _). apply Hout. intros j Hj He.
      assert (j = 0) as -> by zlia. unfold NET_BASE in *. zlia.
Qed.

Lemma wp_save i m l o item p0 p1 p2 new s (Q : Z -> drv_state W -> Prop) :
  at_ i m l s -> holds m o -> 0x200000 <= nor_size -> (forall n, zalloc_ok n = true) ->
  item_payload item p0 p1 p2 = Val new -> bytes_ok new ->
  let its' := put_item (item_num item) (payload_len item) new (default [] o) in
  (length (tbl_bytes its') <= 4096)%nat ->
  (forall s' m' l', at_ i m' l' s' -> holds m' (Some its') ->
    (forall a, a < NET_BASE \/ NET_BASE + 4096 <= a -> m' a = m a) -> Q 1 s') ->
  wp (save_info_item dev_ops zalloc_ok item_fuel item p0 p1 p2) s Q.
Proof.
  intros Hf Hh Hsz Hz Hpay Hnew its' Hlen HQ. pose proof (payload_fits _ _ _ _ _ Hpay) as Hfit.
  assert (Hits : Forall item_ok its').
  { apply put_item_ok; [|done|done]. destruct o as [its|]; [apply Hh|constructor]. }
  unfold save_info_item. apply wp_bind, wp_net_start. apply wp_bind. eapply wp_prepare; [done..|].
  intros s1 r Hf1 (h & x & g & sl & rest & off & th & -> & Hlh & Hlg & Hsl & Hoff & Himg). fold its' in Himg.
  eapply wp_lift; [exact Hpay|].
  pose proof (save_image h x g sl rest new
    (InfoItem (item_num item) (info_item_len item - sizeof_INFO_ITEM_ST)) th off Hlh Hlg Hsl Hoff) as Hsave.
  rewrite Himg in Hsave.
  destruct (mem_write _ (off + sizeof_INFO_ITEM_ST) new) as [w1|] eqn:E1; [|done]. cbn [mbind res_bind] in Hsave.
  eapply wp_lift; [reflexivity|].
  destruct (mem_write w1 off _) as [w2|] eqn:E2; [|done].
  eapply wp_lift; [reflexivity|]. eapply wp_lift; [exact Hsave|]. cbv zeta.
  eapply wp_store_image; [done|done|by apply tbl_bytes_ok| |].
  { rewrite length_tbl_bytes in *. lia. }
  intros s' m' l' Hf' Hm' Hout. by eapply HQ.
Qed.

(** ** The properties *)

(** C22: a save refines the update of an association list.  Over a flash that
    holds a table, or none, it returns 1 and leaves the table in which the
    first item of the type starts with the new bytes (added at the end, padded
    with zeros, when there was none), every other item as it was, and the
    bytes of the chip outside the 4096 bytes of the partition untouched. *)
Theorem save_refines i m l o item p0 p1 p2 new s :
  at_ i m l s -> holds m o -> 0x200000 <= nor_size -> (forall n, zalloc_ok n = true) ->
  item_payload item p0 p1 p2 = Val new -> bytes_ok new ->
  let its' := put_item (item_num item) (payload_len item) new (default [] o) in
  (length (tbl_bytes its') <= 4096)%nat ->
  exists s' m' l', save_info_item dev_ops zalloc_ok item_fuel item p0 p1 p2 s = Val (1, s') /\
    at_ i m' l' s' /\ holds m' (Some its') /\
    forall a, a < NET_BASE \/ NET_BASE + 4096 <= a -> m' a = m a.
Proof.
  intros Hf Hh Hsz Hz Hpay Hnew its' Hlen.
  assert (Hw : wp (save_info_item dev_ops zalloc_ok item_fuel item p0 p1 p2) s (fun r s' => r = 1 /\
    exists m' l', at_ i m' l' s' /\ holds m' (Some its') /\
      forall a, a < NET_BASE \/ NET_BASE + 4096 <= a -> m' a = m a)).
  { eapply wp_save; [done..|]. eauto 8. }
  apply wp_val in Hw as (r & s' & He & -> & m' & l' & H). eauto.
Qed.

(** A get refines the lookup in the association list: 1 and the payload,
    split over the output pointers, or 0 when the flash holds no table or the
    table no such item.  The flash is not changed. *)
Theorem get_refines i m l o item s :
  at_ i m l s -> holds m o ->
  exists s', get_info_item dev_ops item_fuel item true true true s =
      Val (match o ≫= get_item (item_num item) with
           | Some pl => (1, split_item item pl)
           | None => (0, ([], [], []))
           end, s') /\ at_ i m l s'.
Proof.
  intros Hf Hh. set (r0 := match _ with Some _ => _ | None => _ end).
  assert (Hw : wp (get_info_item dev_ops item_fuel item true true true) s (fun r s' => r = r0 /\ at_ i m l s')).
  { subst r0. destruct (o ≫= get_item (item_num item)) as [pl|] eqn:E.
    - destruct o as [its|]; [|done]. by eapply wp_get_item.
    - by eapply wp_get_absent. }
  apply wp_val in Hw as (r & s' & He & -> & Hf'). eauto.
Qed.

(** What is saved is what is read back: a get after a save returns 1 and
    the bytes saved, followed by the reserved bytes of the item's structure
    where it has some. *)
Theorem save_get_roundtrip i m l o item p0 p1 p2 new s :
  at_ i m l s -> holds m o -> 0x200000 <= nor_size -> (forall n, zalloc_ok n = true) ->
  item_payload item p0 p1 p2 = Val new -> bytes_ok new ->
  (length (tbl_bytes (put_item (item_num item) (payload_len item) new (default [] o))) <= 4096)%nat ->
  exists s1 s2 tail, save_info_item dev_ops zalloc_ok item_fuel item p0 p1 p2 s = Val (1, s1) /\
    get_info_item dev_ops item_fuel item true true true s1 = Val ((1, split_item item (new ++ tail)), s2) /\
    length (new ++ tail) = payload_len item.
Proof.
  intros Hf Hh Hsz Hz Hpay Hnew Hlen. pose proof (payload_fits _ _ _ _ _ Hpay) as Hfit.
  set (its' := put_item _ _ _ _) in Hlen.
  destruct (get_put item new (default [] o)) as (tail & Hget & Htl); [by destruct o as [its|]; [apply Hh|constructor]|done|].
  assert (Hw : wp (save_info_item dev_ops zalloc_ok item_fuel item p0 p1 p2) s (fun r s' => r = 1 /\
    exists m' l', at_ i m' l' s' /\ holds m' (Some its'))).
  { eapply wp_save; [done..|]. eauto 8. }
  apply wp_val in Hw as (r & s1 & He & -> & m1 & l1 & Hf1 & Hh1).
  assert (Hg : wp (get_info_item dev_ops item_fuel item true true true) s1 (fun r s' => r = (1, split_item item (new ++ tail)))).
  { by eapply wp_get_item. }
  apply wp_val in Hg as (r & s2 & He2 & ->). eauto 6.
Qed.

(** The lookup of another type is not changed by an update. *)
Lemma get_put_other ty ty' n new its :
  ty <> ty' -> get_item ty (put_item ty' n new its) = get_item ty its.
Proof.
  intros Hne. induction its as [|[t pl] its IH]; cbn [put_item].
  - cbn. by rewrite (proj2 (Z.eqb_neq _ _)).
  - destruct (Z.eqb_spec ty' t) as [<-|Ht]; cbn [get_item]; [by rewrite (proj2 (Z.eqb_neq _ _))|].
    by rewrite IH.
Qed.

(** A save of one item leaves every other one alone: a get of another
    type returns after the save what it returned before. *)
Theorem save_keeps_others i m l o item item2 p0 p1 p2 new s :
  item2 <> item -> at_ i m l s -> holds m o -> 0x200000 <= nor_size -> (forall n, zalloc_ok n = true) ->
  item_payload item p0 p1 p2 = Val new -> bytes_ok new ->
  (length (tbl_bytes (put_item (item_num item) (payload_len item) new (default [] o))) <= 4096)%nat ->
  exists r s0 s1 s2, get_info_item dev_ops item_fuel item2 true true true s = Val (r, s0) /\
    save_info_item dev_ops zalloc_ok item_fuel item p0 p1 p2 s = Val (1, s1) /\
    get_info_item dev_ops item_fuel item2 true true true s1 = Val (r, s2).
Proof.
  intros Hne Hf Hh Hsz Hz Hpay Hnew Hlen. set (its' := put_item _ _ _ _) in Hlen.
  assert (Hw : wp (save_info_item dev_ops zalloc_ok item_fuel item p0 p1 p2) s (fun r s' => r = 1 /\
    exists m' l', at_ i m' l' s' /\ holds m' (Some its'))).
  { eapply wp_save; [done..|]. eauto 8. }
  apply wp_val in Hw as (r & s1 & He & -> & m1 & l1 & Hf1 & Hh1).
  assert (Hsame : get_item (item_num item2) its' = o ≫= get_item (item_num item2)).
  { subst its'. rewrite get_put_other by (by intros ?%item_num_inj). by destruct o. }
  assert (Hget : forall m l o s, at_ i m l s -> holds m o ->
    wp (get_info_item dev_ops item_fuel item2 true true true) s (fun r _ =>
      r = match o ≫= get_item (item_num item2) with Some pl => (1, split_item item2 pl) | None => (0, ([], [], [])) end)).
  { clear - fuel_ok NorDevice0. intros m l o s Hf Hh. destruct (o ≫= get_item (item_num item2)) as [pl|] eqn:E.
    - destruct o as [its|]; [|done]. by eapply wp_get_item.
    - by eapply wp_get_absent. }
  pose proof (Hget _ _ _ _ Hf Hh) as Hg0. apply wp_val in Hg0 as (r0 & s0 & He0 & ->).
  pose proof (Hget _ _ _ _ Hf1 Hh1) as Hg1. apply wp_val in Hg1 as (r1 & s2 & He2 & ->).
  cbn [mbind option_bind] in He2. rewrite Hsame in He2. eauto 8.
Qed.

(** When the write buffer cannot be allocated, a save returns 0 and the
    flash is as it was. *)
Theorem save_no_memory i m l o item p0 p1 p2 s :
  at_ i m l s -> holds m o -> (forall n, zalloc_ok n = false) ->
  exists s', save_info_item dev_ops zalloc_ok item_fuel item p0 p1 p2 s = Val (0, s') /\ at_ i m l s'.
Proof.
  intros Hf Hh Hz.
  assert (Hw : wp (save_info_item dev_ops zalloc_ok item_fuel item p0 p1 p2) s (fun r s' => r = 0 /\ at_ i m l s')).
  { unfold save_info_item. apply wp_bind, wp_net_start. apply wp_bind. unfold save_prepare.
    apply wp_bind. destruct o as [its|].
    - eapply wp_search_tbl; [done|done|]. intros s1 Hf1. cbn [fst snd].
      change (negb (truthy 1)) with false. cbv iota. apply wp_bind.
      destruct (item_cases (item_num item) its) as [(pre & pl & post & -> & _ & Hpre & _)|[Hpre _]].
      + eapply wp_search_item; [done|done|done|eauto|]. intros s2 Hf2.
        destruct (negb (truthy _)); rewrite Hz; by apply wp_ret, wp_ret.
      + eapply (wp_search_item _ _ _ _ its []); [done|by rewrite app_nil_r|done|by left|].
        intros s2 Hf2. destruct (negb (truthy _)); rewrite Hz; by apply wp_ret, wp_ret.
    - eapply wp_search_none; [done|done|]. intros s1 Hf1. cbn [fst snd].
      change (negb (truthy 0)) with true. cbv iota. rewrite Hz. by apply wp_ret, wp_ret. }
  apply wp_val in Hw as (r & s' & He & -> & Hf'). eauto.
Qed.
End runs.

(** ** Instances: a blank part, then one with a table *)

Definition net_demo : drv_state (flash_st sim) := nor_state (fun _ => 255).
Lemma net_demo_at : flash_at nor_ops 7 0 (fun _ => 255) (fun _ => false) net_demo.
Proof. apply nor_state_at. intros a. zlia. Defined.
Lemma net_demo_none : holds (fun _ => 255) None.
Proof. done. Defined.
Lemma net_fuel : (511 < 600)%nat.
Proof. lia. Defined.
Definition net_mac : list Z := [0xC8; 0x47; 0x8C; 1; 2; 3].

Lemma save_refines_witness :
  exists s' m' l', save_info_item nor_ops (fun _ => true) 600 WIFI_MAC_ITEM (Some net_mac) None None net_demo = Val (1, s') /\
    flash_at nor_ops 7 0 m' l' s' /\ holds m' (Some [(0x44444444, net_mac ++ [0; 0])]) /\
    forall a, a < NET_BASE \/ NET_BASE + 4096 <= a -> m' a = 255.
Proof.
  apply (save_refines nor_ops 7 600 net_fuel (fun _ => true) 0 (fun _ => 255) (fun _ => false) None
    WIFI_MAC_ITEM (Some net_mac) None None net_mac net_demo);
    try done; [exact net_demo_at|repeat constructor; done|by apply Nat.leb_le].
Defined.

Lemma get_refines_witness :
  exists s', get_info_item nor_ops 600 SSID_KEY_ITEM true true true net_demo = Val ((0, ([], [], [])), s') /\
    flash_at nor_ops 7 0 (fun _ => 255) (fun _ => false) s'.
Proof.
  apply (get_refines nor_ops 7 600 net_fuel 0 (fun _ => 255) (fun _ => false) None SSID_KEY_ITEM net_demo);
    [exact net_demo_at|exact net_demo_none].
Defined.

Lemma save_get_roundtrip_witness :
  exists s1 s2 tail, save_info_item nor_ops (fun _ => true) 600 DHCP_MODE_ITEM (Some [1; 0; 0; 0]) None None net_demo = Val (1, s1) /\
    get_info_item nor_ops 600 DHCP_MODE_ITEM true true true s1 = Val ((1, ([1; 0; 0; 0] ++ tail, [], [])), s2) /\
    length ([1; 0; 0; 0] ++ tail) = payload_len DHCP_MODE_ITEM.
Proof.
  apply (save_get_roundtrip nor_ops 7 600 net_fuel (fun _ => true) 0 (fun _ => 255) (fun _ => false) None
    DHCP_MODE_ITEM (Some [1; 0; 0; 0]) None None [1; 0; 0; 0] net_demo);
    try done; [exact net_demo_at|repeat constructor; done|by apply Nat.leb_le].
Defined.

Lemma save_keeps_others_witness :
  exists r s0 s1 s2, get_info_item nor_ops 600 WIFI_MAC_ITEM true true true net_demo = Val (r, s0) /\
    save_info_item nor_ops (fun _ => true) 600 DHCP_MODE_ITEM (Some [1; 0; 0; 0]) None None net_demo = Val (1, s1) /\
    get_info_item nor_ops 600 WIFI_MAC_ITEM true true true s1 = Val (r, s2).
Proof.
  apply (save_keeps_others nor_ops 7 600 net_fuel (fun _ => true) 0 (fun _ => 255) (fun _ => false) None
    DHCP_MODE_ITEM WIFI_MAC_ITEM (Some [1; 0; 0; 0]) None None [1; 0; 0; 0] net_demo);
    try done; [exact net_demo_at|repeat constructor; done|by apply Nat.leb_le].
Defined.

Lemma save_no_memory_witness :
  exists s', save_info_item nor_ops (fun _ => false) 600 DHCP_MODE_ITEM None None None net_demo = Val (0, s') /\
    flash_at nor_ops 7 0 (fun _ => 255) (fun _ => false) s'.
Proof.
  apply (save_no_memory nor_ops 7 600 net_fuel (fun _ => false) 0 (fun _ => 255) (fun _ => false) None
    DHCP_MODE_ITEM None None None net_demo); [exact net_demo_at|exact net_demo_none|done].
Defined.
