(* ===== verification/Gdma.v ===== *)
(** * The general DMA driver (driver/general_dma/general_dma.c)

    Configuration of the six channels, start of a transfer, interrupt status
    and the control command, over the registers of [RegBus].  Builds for the
    BK7231U and the BK7221U: only the latter has the pause and address
    registers ([bk7221u]).  The handlers are function addresses; calling one
    is a parameter of the model, like the calls of the interrupt controller. *)
From S2P Require Import Prelude DrvModel.
From stdpp Require Import strings.
Local Open Scope Z_scope.

Definition GENER_DMA_BASE : Z := 0x00809000.
Definition GENER_DMA0_REG0_CONF : Z := GENER_DMA_BASE + 0x00 * 4.
Definition GDMA_X_DMA_EN : Z := Z.shiftl 1 0.
Definition GDMA_X_FIN_INTEN : Z := Z.shiftl 1 1.
Definition GDMA_X_HFIN_INTEN : Z := Z.shiftl 1 2.
Definition GDMA_X_REPEAT_MODE : Z := Z.shiftl 1 3.
Definition GDMA_X_SRCDATA_WIDTH_POSI : Z := 4.
Definition GDMA_X_SRCDATA_WIDTH_MASK : Z := 0x3.
Definition GDMA_X_DSTDATA_WIDTH_POSI : Z := 6.
Definition GDMA_X_DSTDATA_WIDTH_MASK : Z := 0x3.
Definition GDMA_DATA_WIDTH_8BIT : Z := 0x0.
Definition GDMA_DATA_WIDTH_16BIT : Z := 0x1.
Definition GDMA_DATA_WIDTH_32BIT : Z := 0x2.
Definition GDMA_X_SRCADDR_INC : Z := Z.shiftl 1 8.
Definition GDMA_X_DSTADDR_INC : Z := Z.shiftl 1 9.
Definition GDMA_X_SRCADDR_LOOP : Z := Z.shiftl 1 10.
Definition GDMA_X_DSTADDR_LOOP : Z := Z.shiftl 1 11.
Definition GDMA_X_CHNL_PRIO_POSI : Z := 12.
Definition GDMA_X_CHNL_PRIO_MASK : Z := 0x3.
Definition GDMA_X_TRANS_LEN_POSI : Z := 16.
Definition GDMA_X_TRANS_LEN_MASK : Z := 0xffff.
Definition GENER_DMA0_REG1_DST_START_ADDR : Z := GENER_DMA_BASE + 0x01 * 4.
Definition GENER_DMA0_REG2_SRC_START_ADDR : Z := GENER_DMA_BASE + 0x02 * 4.
Definition GENER_DMA0_REG3_DSTLOOP_END_ADDR : Z := GENER_DMA_BASE + 0x03 * 4.
Definition GENER_DMA0_REG4_DSTLOOP_START_ADDR : Z := GENER_DMA_BASE + 0x04 * 4.
Definition GENER_DMA0_REG5_SRCLOOP_END_ADDR : Z := GENER_DMA_BASE + 0x05 * 4.
Definition GENER_DMA0_REG6_SRCLOOP_START_ADDR : Z := GENER_DMA_BASE + 0x06 * 4.
Definition GENER_DMA0_REG7_MUX_REQS : Z := GENER_DMA_BASE + 0x07 * 4.
Definition GDMA_X_SRC_REQ_POSI : Z := 0.
Definition GDMA_X_SRC_REQ_MASK : Z := 0xf.
Definition GDMA_X_DST_REQ_POSI : Z := 4.
Definition GDMA_X_DST_REQ_MASK : Z := 0xf.
Definition GDMA_X_DTCM_WR_WAIT_WORD : Z := Z.shiftl 1 8.
Definition GENER_DMA1_REG8_CONF : Z := GENER_DMA_BASE + 0x08 * 4.
Definition GENER_DMA2_REG10_CONF : Z := GENER_DMA_BASE + 0x10 * 4.
Definition GENER_DMA3_REG18_CONF : Z := GENER_DMA_BASE + 0x18 * 4.
Definition GENER_DMA4_REG20_CONF : Z := GENER_DMA_BASE + 0x20 * 4.
Definition GENER_DMA5_REG28_CONF : Z := GENER_DMA_BASE + 0x28 * 4.
Definition GENER_DMA0_REG30_INT_CNTS : Z := GENER_DMA_BASE + 0x30 * 4.
Definition GDMA_X_REMAIN_LEN_POSI : Z := 0.
Definition GDMA_X_REMAIN_LEN_MASK : Z := 0x1ffff.
Definition GDMA_X_FIN_CNT_POSI : Z := 24.
Definition GDMA_X_FIN_CNT_MASK : Z := 0xf.
Definition GDMA_X_HFIN_CNT_POSI : Z := 28.
Definition GDMA_X_HFIN_CNT_MASK : Z := 0xf.
Definition GENER_DMA_REG37_PRIO_MODE : Z := GENER_DMA_BASE + 0x37 * 4.
Definition GDMA_PRIO_FIXED : Z := Z.shiftl 1 0.
Definition GENER_DMA_REG38_DMA_INT_STATUS : Z := GENER_DMA_BASE + 0x38 * 4.
Definition GENER_DMA_FIN_INT_STATUS_POSI : Z := 0.
Definition GENER_DMA_FIN_INT_STATUS_MASK : Z := 0x3f.
Definition GENER_DMA_HFIN_INT_STATUS_POSI : Z := 8.
Definition GENER_DMA_HFIN_INT_STATUS_MASK : Z := 0x3f.
Definition GENER_DMA0_REG40_SRC_PAUSE_ADDR : Z := GENER_DMA_BASE + 0x40 * 4.
Definition GENER_DMA0_REG48_DST_PAUSE_ADDR : Z := GENER_DMA_BASE + 0x48 * 4.
Definition GENER_DMA0_REG50_SRC_RD_ADDR : Z := GENER_DMA_BASE + 0x50 * 4.
Definition GENER_DMA0_REG58_DST_WR_ADDR : Z := GENER_DMA_BASE + 0x58 * 4.

Definition GDMA_CHANNEL_MAX : nat := 6.
Definition GDMA_X_SRC_DST_RESERVE : Z := 0xB.
Definition ICU_SUCCESS : Z := 0.

Definition GDMA_CMD_MAGIC : Z := 0x0e809000.

(** The commands, in the order of the enumeration. *)
Inductive gdma_cmd :=
  | CMD_GDMA_SET_DMA_ENABLE | CMD_GDMA_CFG_FIN_INT_ENABLE | CMD_GDMA_CFG_HFIN_INT_ENABLE
  | CMD_GDMA_CFG_WORK_MODE | CMD_GDMA_CFG_SRCDATA_WIDTH | CMD_GDMA_CFG_DSTDATA_WIDTH
  | CMD_GDMA_CFG_SRCADDR_INCREASE | CMD_GDMA_CFG_DSTADDR_INCREASE | CMD_GDMA_CFG_SRCADDR_LOOP
  | CMD_GDMA_CFG_DSTADDR_LOOP | CMD_GDMA_SET_CHNL_PRIO | CMD_GDMA_SET_TRANS_LENGTH
  | CMD_GDMA_SET_DST_START_ADDR | CMD_GDMA_SET_SRC_START_ADDR | CMD_GDMA_SET_DST_LOOP_ENDADDR
  | CMD_GDMA_SET_DST_LOOP_STARTADDR | CMD_GDMA_SET_SRC_LOOP_ENDADDR | CMD_GDMA_SET_SRC_LOOP_STARTADDR
  | CMD_GDMA_SET_DST_REQ_MUX | CMD_GDMA_SET_SRC_REQ_MUX | CMD_GDMA_SET_DTCM_WRITE_WORD
  | CMD_GDMA_GET_REMAIN_LENGTH | CMD_GDMA_SET_FIN_CNT | CMD_GDMA_SET_HFIN_CNT | CMD_GDMA_SET_PRIO_MODE
  | CMD_GDMA_GET_FIN_INT_STATUS | CMD_GDMA_CLR_FIN_INT_STATUS | CMD_GDMA_GET_HFIN_INT_STATUS
  | CMD_GDMA_CLR_HFIN_INT_STATUS | CMD_GDMA_CFG_TYPE0 | CMD_GDMA_CFG_TYPE1 | CMD_GDMA_CFG_TYPE2
  | CMD_GDMA_CFG_TYPE3 | CMD_GDMA_CFG_TYPE4 | CMD_GDMA_CFG_TYPE5 | CMD_GDMA_CFG_TYPE6
  | CMD_GDMA_ENABLE | CMD_GDMA_GET_LEFT_LEN | CMD_GDMA_SET_SRC_PAUSE_ADDR | CMD_GDMA_GET_SRC_PAUSE_ADDR
  | CMD_GDMA_SET_DST_PAUSE_ADDR | CMD_GDMA_GET_DST_PAUSE_ADDR | CMD_GDMA_GET_SRC_READ_ADDR
  | CMD_GDMA_GET_DST_WRITE_ADDR | CMD_GDMA_OTHER.

(** The members of the union of [GDMACFG_TPYES_ST] overlay each other: the
    first two words, and the last two of the larger ones. *)
Record GDMACFG_TPYES_ST := GdmaCfgTypes {
  channel : Z; prio : Z; dstptr_incr : Z; srcptr_incr : Z; dstdat_width : Z; srcdat_width : Z;
  src_start_addr : Z; dst_start_addr : Z; src_module : Z; dst_module : Z;
  fin_handler : Z; half_fin_handler : Z;
  u_word0 : Z; u_word1 : Z; u_word2 : Z; u_word3 : Z;
}.

Record GDMA_DO_ST := GdmaDo { do_channel : Z; src_addr : Z; dst_addr : Z; do_length : Z }.
Record GDMA_CFG_ST := GdmaCfg { cfg_param : Z; cfg_channel : Z }.

(** What the [void *] of the control command points to, with its address. *)
Inductive gdma_parm :=
  | PNull
  | PCfg (addr : Z) (c : GDMA_CFG_ST)
  | PTypes (addr : Z) (c : GDMACFG_TPYES_ST)
  | PDo (addr : Z) (d : GDMA_DO_ST).

Definition parm_addr (p : gdma_parm) : Z :=
  match p with PNull => 0 | PCfg a _ | PTypes a _ | PDo a _ => a end.

(** The device and the two tables of handlers; 0 is the null pointer. *)
Record gdma_st (hw : Type) := GdmaSt {
  g_hw : hw;
  p_dma_fin_handler : list Z;
  p_dma_hfin_handler : list Z;
}.
Arguments GdmaSt {hw}. Arguments g_hw {hw}. Arguments p_dma_fin_handler {hw}.
Arguments p_dma_hfin_handler {hw}.

Section gdma.
Context {hw : Type} `{RegBus hw}.
Abbreviation st := (gdma_st hw).

Definition REG_READ (a : Z) : M st Z := fun s =>
  let '(v, h) := bus_read a (g_hw s) in
  Val (v, GdmaSt h (p_dma_fin_handler s) (p_dma_hfin_handler s)).

Definition REG_WRITE (a v : Z) : M st unit := modify (fun s =>
  GdmaSt (bus_write a v (g_hw s)) (p_dma_fin_handler s) (p_dma_hfin_handler s)).

(** [base + (channel * 8 * 4)] and [base + (channel * 4)] *)
Definition chan_reg (base ch : Z) : Z := u32 (base + u32 (ch * 8 * 4)).
Definition chan_reg4 (base ch : Z) : Z := u32 (base + u32 (ch * 4)).

(** Read, change and write back a register. *)
Definition update_reg (a : Z) (f : Z -> Z) : M st unit :=
  reg_val ← REG_READ a; REG_WRITE a (f reg_val).

(** [if(enable) reg_val |= b; else reg_val &= ~b;] *)
Definition put_flag (b enable reg_val : Z) : Z :=
  if truthy enable then Z.lor reg_val b else Z.land reg_val (Z.lnot b).

(** [reg_val &= ~(mask << posi); reg_val |= ((v & mask) << posi);] *)
Definition put_field (mask posi v reg_val : Z) : Z :=
  Z.lor (Z.land reg_val (Z.lnot (Z.shiftl mask posi))) (Z.shiftl (Z.land v mask) posi).

Definition gdma_set_dma_en (ch enable : Z) : M st unit :=
  update_reg (chan_reg GENER_DMA0_REG0_CONF ch) (put_flag GDMA_X_DMA_EN enable).

Definition gdma_get_dma_en (ch : Z) : M st Z :=
  reg_val ← REG_READ (chan_reg GENER_DMA0_REG0_CONF ch); mret (Z.land reg_val GDMA_X_DMA_EN).

Definition gdma_cfg_finish_inten (ch enable : Z) : M st unit :=
  update_reg (chan_reg GENER_DMA0_REG0_CONF ch) (put_flag GDMA_X_FIN_INTEN enable).

Definition gdma_cfg_half_fin_inten (ch enable : Z) : M st unit :=
  update_reg (chan_reg GENER_DMA0_REG0_CONF ch) (put_flag GDMA_X_HFIN_INTEN enable).

Definition gdma_cfg_work_mode (ch repeat : Z) : M st unit :=
  update_reg (chan_reg GENER_DMA0_REG0_CONF ch) (put_flag GDMA_X_REPEAT_MODE repeat).

Definition width_code (bitwidth : Z) : Z :=
  if bitwidth =? 8 then GDMA_DATA_WIDTH_8BIT
  else if bitwidth =? 16 then GDMA_DATA_WIDTH_16BIT
  else if bitwidth =? 32 then GDMA_DATA_WIDTH_32BIT
  else GDMA_DATA_WIDTH_32BIT.

Definition gdma_cfg_srcdata_width (ch bitwidth : Z) : M st unit :=
  update_reg (chan_reg GENER_DMA0_REG0_CONF ch) (fun reg_val =>
    Z.lor (Z.land reg_val (Z.lnot (Z.shiftl GDMA_X_SRCDATA_WIDTH_MASK GDMA_X_SRCDATA_WIDTH_POSI)))
          (Z.shiftl (width_code bitwidth) GDMA_X_SRCDATA_WIDTH_POSI)).

Definition gdma_cfg_dstdata_width (ch bitwidth : Z) : M st unit :=
  update_reg (chan_reg GENER_DMA0_REG0_CONF ch) (fun reg_val =>
    Z.lor (Z.land reg_val (Z.lnot (Z.shiftl GDMA_X_DSTDATA_WIDTH_MASK GDMA_X_DSTDATA_WIDTH_POSI)))
          (Z.shiftl (width_code bitwidth) GDMA_X_DSTDATA_WIDTH_POSI)).

Definition gdma_cfg_srcaddr_increase (ch incr : Z) : M st unit :=
  update_reg (chan_reg GENER_DMA0_REG0_CONF ch) (put_flag GDMA_X_SRCADDR_INC incr).

Definition gdma_cfg_dstaddr_increase (ch incr : Z) : M st unit :=
  update_reg (chan_reg GENER_DMA0_REG0_CONF ch) (put_flag GDMA_X_DSTADDR_INC incr).

Definition gdma_cfg_srcaddr_loop (ch loop : Z) : M st unit :=
  update_reg (chan_reg GENER_DMA0_REG0_CONF ch) (put_flag GDMA_X_SRCADDR_LOOP loop).

Definition gdma_cfg_dstaddr_loop (ch loop : Z) : M st unit :=
  update_reg (chan_reg GENER_DMA0_REG0_CONF ch) (put_flag GDMA_X_DSTADDR_LOOP loop).

Definition gdma_set_channel_prioprity (ch p : Z) : M st unit :=
  update_reg (chan_reg GENER_DMA0_REG0_CONF ch) (put_field GDMA_X_CHNL_PRIO_MASK GDMA_X_CHNL_PRIO_POSI p).

Definition gdma_set_transfer_length (ch len : Z) : M st unit :=
  update_reg (chan_reg GENER_DMA0_REG0_CONF ch) (fun reg_val =>
    put_field GDMA_X_TRANS_LEN_MASK GDMA_X_TRANS_LEN_POSI (u32 (len - 1)) reg_val).

Definition gdma_get_transfer_length (ch : Z) : M st Z :=
  reg_val ← REG_READ (chan_reg GENER_DMA0_REG0_CONF ch);
  mret (Z.land (Z.shiftr reg_val GDMA_X_TRANS_LEN_POSI) GDMA_X_TRANS_LEN_MASK + 1).

Definition gdma_set_dst_start_addr (ch dstptr : Z) : M st unit :=
  REG_WRITE (chan_reg GENER_DMA0_REG1_DST_START_ADDR ch) dstptr.
Definition gdma_set_src_start_addr (ch srcptr : Z) : M st unit :=
  REG_WRITE (chan_reg GENER_DMA0_REG2_SRC_START_ADDR ch) srcptr.
Definition gdma_set_dstloop_endaddr (ch dendptr : Z) : M st unit :=
  REG_WRITE (chan_reg GENER_DMA0_REG3_DSTLOOP_END_ADDR ch) dendptr.
Definition gdma_set_dstloop_startaddr (ch dstartptr : Z) : M st unit :=
  REG_WRITE (chan_reg GENER_DMA0_REG4_DSTLOOP_START_ADDR ch) dstartptr.
Definition gdma_set_srcloop_endaddr (ch sendptr : Z) : M st unit :=
  REG_WRITE (chan_reg GENER_DMA0_REG5_SRCLOOP_END_ADDR ch) sendptr.
Definition gdma_set_srcloop_startaddr (ch sstartptr : Z) : M st unit :=
  REG_WRITE (chan_reg GENER_DMA0_REG6_SRCLOOP_START_ADDR ch) sstartptr.

Definition gdma_get_remain_len (ch : Z) : M st Z :=
  reg_val ← REG_READ (chan_reg4 GENER_DMA0_REG30_INT_CNTS ch);
  mret (Z.land (Z.shiftr reg_val GDMA_X_REMAIN_LEN_POSI) GDMA_X_REMAIN_LEN_MASK).

Definition gdma_set_src_reqmux (ch reqmux : Z) : M st unit :=
  update_reg (chan_reg GENER_DMA0_REG7_MUX_REQS ch) (put_field GDMA_X_SRC_REQ_MASK GDMA_X_SRC_REQ_POSI reqmux).
Definition gdma_set_dst_reqmux (ch reqmux : Z) : M st unit :=
  update_reg (chan_reg GENER_DMA0_REG7_MUX_REQS ch) (put_field GDMA_X_DST_REQ_MASK GDMA_X_DST_REQ_POSI reqmux).
Definition gdma_set_dctm_write_wd (ch read4byte : Z) : M st unit :=
  update_reg (chan_reg GENER_DMA0_REG7_MUX_REQS ch) (put_flag GDMA_X_DTCM_WR_WAIT_WORD read4byte).

Definition gdma_get_finish_cnt (ch : Z) : M st Z :=
  reg_val ← REG_READ (chan_reg4 GENER_DMA0_REG30_INT_CNTS ch);
  mret (Z.land (Z.shiftr reg_val GDMA_X_FIN_CNT_POSI) GDMA_X_FIN_CNT_MASK).
Definition gdma_get_half_finish_cnt (ch : Z) : M st Z :=
  reg_val ← REG_READ (chan_reg4 GENER_DMA0_REG30_INT_CNTS ch);
  mret (Z.land (Z.shiftr reg_val GDMA_X_HFIN_CNT_POSI) GDMA_X_HFIN_CNT_MASK).

Definition gdma_set_priority (fixed : Z) : M st unit :=
  update_reg GENER_DMA_REG37_PRIO_MODE (put_flag GDMA_PRIO_FIXED fixed).

Definition gdma_get_finish_interrupt_bit (ch : Z) : M st Z :=
  reg_val ← REG_READ GENER_DMA_REG38_DMA_INT_STATUS;
  let reg_val := Z.land reg_val GENER_DMA_FIN_INT_STATUS_MASK in
  let reg_val := Z.land reg_val (Z.shiftl 0x1 ch) in
  mret (Z.shiftr reg_val ch).

Definition gdma_clr_finish_interrupt_bit (ch : Z) : M st unit :=
  REG_WRITE GENER_DMA_REG38_DMA_INT_STATUS (Z.shiftl 0x1 ch).

Definition gdma_get_half_finish_interrupt_bit (ch : Z) : M st Z :=
  reg_val ← REG_READ GENER_DMA_REG38_DMA_INT_STATUS;
  let reg_val := Z.land reg_val (Z.shiftl GENER_DMA_HFIN_INT_STATUS_MASK GENER_DMA_HFIN_INT_STATUS_POSI) in
  let reg_val := Z.land reg_val (Z.shiftl 0x1 (ch + GENER_DMA_HFIN_INT_STATUS_POSI)) in
  mret (Z.shiftr reg_val (ch + GENER_DMA_HFIN_INT_STATUS_POSI)).

Definition gdma_clr_half_finish_interrupt_bit (ch : Z) : M st unit :=
  REG_WRITE GENER_DMA_REG38_DMA_INT_STATUS (Z.shiftl 0x1 (ch + GENER_DMA_HFIN_INT_STATUS_POSI)).

Definition gdma_set_src_pause_addr (ch addr : Z) : M st unit :=
  REG_WRITE (chan_reg4 GENER_DMA0_REG40_SRC_PAUSE_ADDR ch) addr.
Definition gdma_get_src_pause_addr (ch : Z) : M st Z :=
  REG_READ (chan_reg4 GENER_DMA0_REG40_SRC_PAUSE_ADDR ch).
Definition gdma_set_dest_pause_addr (ch addr : Z) : M st unit :=
  REG_WRITE (chan_reg4 GENER_DMA0_REG48_DST_PAUSE_ADDR ch) addr.
Definition gdma_get_dest_pause_addr (ch : Z) : M st Z :=
  REG_READ (chan_reg4 GENER_DMA0_REG48_DST_PAUSE_ADDR ch).
Definition gdma_get_src_read_addr (ch : Z) : M st Z :=
  REG_READ (chan_reg4 GENER_DMA0_REG50_SRC_RD_ADDR ch).
Definition gdma_get_dest_write_addr (ch : Z) : M st Z :=
  REG_READ (chan_reg4 GENER_DMA0_REG58_DST_WR_ADDR ch).

(** Whether the build is for the BK7221U; a call of a handler; the requests
    to the interrupt controller and the registration of the handler there. *)
Context (bk7221u : bool) (call_handler : Z -> Z -> M st unit) (icu_enable icu_disable intc_register : hw -> hw).

Definition on_hw (f : hw -> hw) : M st unit := modify (fun s =>
  GdmaSt (f (g_hw s)) (p_dma_fin_handler s) (p_dma_hfin_handler s)).

Definition gdma_enable_interrupt : M st unit := on_hw icu_enable.
Definition gdma_disable_interrupt : M st unit := on_hw icu_disable.

Definition gdma_get_received_len (ch : Z) : M st Z :=
  if Z.of_nat GDMA_CHANNEL_MAX <=? ch then mret 0 else gdma_get_remain_len ch.

(** The sequences the configuration functions share: increments, widths and
    priority, then the start addresses. *)
Definition cfg_common (cfg : GDMACFG_TPYES_ST) (second_incr first_incr : M st unit) : M st unit :=
  first_incr;; second_incr;;
  gdma_cfg_srcdata_width (channel cfg) (srcdat_width cfg);;
  gdma_cfg_dstdata_width (channel cfg) (dstdat_width cfg);;
  gdma_set_channel_prioprity (channel cfg) (prio cfg);;
  gdma_set_dst_start_addr (channel cfg) (dst_start_addr cfg);;
  gdma_set_src_start_addr (channel cfg) (src_start_addr cfg).

Definition cfg_reset (cfg : GDMACFG_TPYES_ST) : M st unit :=
  REG_WRITE (chan_reg GENER_DMA0_REG0_CONF (channel cfg)) 0.

Definition bad_channel (cfg : GDMACFG_TPYES_ST) : bool := Z.of_nat GDMA_CHANNEL_MAX <=? channel cfg.

Definition gdma_congfig_type0 (cfg : GDMACFG_TPYES_ST) : M st unit :=
  if bad_channel cfg then mret tt
  else
    cfg_reset cfg;;
    cfg_common cfg (gdma_cfg_dstaddr_increase (channel cfg) (dstptr_incr cfg))
                   (gdma_cfg_srcaddr_increase (channel cfg) (srcptr_incr cfg)).

Definition gdma_congfig_type1 (cfg : GDMACFG_TPYES_ST) : M st unit :=
  if bad_channel cfg then mret tt
  else
    cfg_reset cfg;;
    gdma_cfg_srcaddr_loop (channel cfg) 1;;
    cfg_common cfg (gdma_cfg_dstaddr_increase (channel cfg) (dstptr_incr cfg))
                   (gdma_cfg_srcaddr_increase (channel cfg) (srcptr_incr cfg));;
    gdma_set_srcloop_startaddr (channel cfg) (u_word0 cfg);;
    gdma_set_srcloop_endaddr (channel cfg) (u_word1 cfg).

Definition gdma_congfig_type2 (cfg : GDMACFG_TPYES_ST) : M st unit :=
  if bad_channel cfg then mret tt
  else
    cfg_reset cfg;;
    gdma_cfg_dstaddr_loop (channel cfg) 1;;
    cfg_common cfg (gdma_cfg_dstaddr_increase (channel cfg) (dstptr_incr cfg))
                   (gdma_cfg_srcaddr_increase (channel cfg) (srcptr_incr cfg));;
    gdma_set_dstloop_startaddr (channel cfg) (u_word0 cfg);;
    gdma_set_dstloop_endaddr (channel cfg) (u_word1 cfg).

Definition gdma_congfig_type3 (cfg : GDMACFG_TPYES_ST) : M st unit :=
  if bad_channel cfg then mret tt
  else
    cfg_reset cfg;;
    gdma_cfg_srcaddr_loop (channel cfg) 1;;
    gdma_cfg_dstaddr_loop (channel cfg) 1;;
    cfg_common cfg (gdma_cfg_dstaddr_increase (channel cfg) (dstptr_incr cfg))
                   (gdma_cfg_srcaddr_increase (channel cfg) (srcptr_incr cfg));;
    gdma_set_srcloop_startaddr (channel cfg) (u_word0 cfg);;
    gdma_set_srcloop_endaddr (channel cfg) (u_word1 cfg);;
    gdma_set_dstloop_startaddr (channel cfg) (u_word2 cfg);;
    gdma_set_dstloop_endaddr (channel cfg) (u_word3 cfg).

(** [p_dma_fin_handler[channel] = handler], and the same for the half. *)
Definition set_fin_handler (ch handler : Z) : M st unit := modify (fun s =>
  GdmaSt (g_hw s) (<[Z.to_nat ch := handler]> (p_dma_fin_handler s)) (p_dma_hfin_handler s)).
Definition set_hfin_handler (ch handler : Z) : M st unit := modify (fun s =>
  GdmaSt (g_hw s) (p_dma_fin_handler s) (<[Z.to_nat ch := handler]> (p_dma_hfin_handler s))).

Definition cfg_handlers (cfg : GDMACFG_TPYES_ST) : M st unit :=
  when (truthy (fin_handler cfg)) (
    gdma_cfg_finish_inten (channel cfg) 1;; set_fin_handler (channel cfg) (fin_handler cfg));;
  when (truthy (half_fin_handler cfg)) (
    gdma_cfg_half_fin_inten (channel cfg) 1;; set_hfin_handler (channel cfg) (half_fin_handler cfg)).

Definition gdma_congfig_type4 (cfg : GDMACFG_TPYES_ST) : M st unit :=
  if bad_channel cfg then mret tt
  else
    cfg_reset cfg;;
    gdma_set_src_reqmux (channel cfg) (src_module cfg);;
    gdma_set_dst_reqmux (channel cfg) (dst_module cfg);;
    gdma_cfg_work_mode (channel cfg) 1;;
    gdma_cfg_srcaddr_loop (channel cfg) 1;;
    cfg_common cfg (gdma_cfg_srcaddr_increase (channel cfg) (srcptr_incr cfg))
                   (gdma_cfg_dstaddr_increase (channel cfg) 0);;
    gdma_set_srcloop_startaddr (channel cfg) (u_word0 cfg);;
    gdma_set_srcloop_endaddr (channel cfg) (u_word1 cfg);;
    cfg_handlers cfg.

Definition gdma_congfig_type5 (cfg : GDMACFG_TPYES_ST) : M st unit :=
  if bad_channel cfg then mret tt
  else
    cfg_reset cfg;;
    gdma_set_src_reqmux (channel cfg) (src_module cfg);;
    gdma_set_dst_reqmux (channel cfg) (dst_module cfg);;
    gdma_cfg_work_mode (channel cfg) 1;;
    gdma_cfg_dstaddr_loop (channel cfg) 1;;
    cfg_common cfg (gdma_cfg_dstaddr_increase (channel cfg) (dstptr_incr cfg))
                   (gdma_cfg_srcaddr_increase (channel cfg) 0);;
    gdma_set_dstloop_startaddr (channel cfg) (u_word0 cfg);;
    gdma_set_dstloop_endaddr (channel cfg) (u_word1 cfg);;
    cfg_handlers cfg.

Definition gdma_congfig_type6 (cfg : GDMACFG_TPYES_ST) : M st unit := mret tt.

(** [while(gdma_get_dma_en(channel));] *)
Fixpoint wait_done (fuel : nat) (ch : Z) : M st unit :=
  match fuel with
  | O => fail NoFuel
  | S fuel' => en ← gdma_get_dma_en ch; if truthy en then wait_done fuel' ch else mret tt
  end.

Definition gdma_enable (fuel : nat) (do_st : GDMA_DO_ST) : M st Z :=
  if negb (truthy (do_length do_st)) then mret 0
  else
    gdma_set_dst_start_addr (do_channel do_st) (dst_addr do_st);;
    gdma_set_src_start_addr (do_channel do_st) (src_addr do_st);;
    gdma_set_transfer_length (do_channel do_st) (do_length do_st);;
    gdma_set_dma_en (do_channel do_st) 1;;
    wait_done fuel (do_channel do_st);;
    mret (do_length do_st).

Definition gdma_flush : M st unit :=
  gdma_set_dma_en 0 0;; gdma_set_dma_en 1 0;; gdma_set_dma_en 2 0;; gdma_set_dma_en 3 0;;
  gdma_set_dma_en 4 0;; gdma_set_dma_en 5 0;;
  status ← REG_READ GENER_DMA_REG38_DMA_INT_STATUS;
  REG_WRITE GENER_DMA_REG38_DMA_INT_STATUS status.

(** The configuration of the channels in [gdma_init]; the union words stay
    zero. *)
Definition init_cfg (ch p module : Z) : GDMACFG_TPYES_ST :=
  GdmaCfgTypes ch p 1 1 32 32 0 0 module module 0 0 0 0 0 0.

Definition gdma_init (op_addr : Z) : M (drv_state st) unit :=
  call (on_hw intc_register);;
  _ ← sddev_register_dev (Some "generaldma"%string) (Some op_addr);
  call (
    modify (fun s => GdmaSt (g_hw s) (replicate GDMA_CHANNEL_MAX 0) (replicate GDMA_CHANNEL_MAX 0));;
    gdma_flush;;
    gdma_congfig_type0 (init_cfg 0 1 0);;
    gdma_congfig_type1 (init_cfg 1 0 0);;
    gdma_congfig_type2 (init_cfg 2 2 0);;
    gdma_congfig_type3 (init_cfg 3 2 0);;
    gdma_congfig_type1 (init_cfg 4 0 GDMA_X_SRC_DST_RESERVE);;
    gdma_congfig_type2 (init_cfg 5 0 GDMA_X_SRC_DST_RESERVE);;
    gdma_set_priority 0;;
    gdma_enable_interrupt).

Definition gdma_exit : M (drv_state st) unit :=
  call (
    gdma_disable_interrupt;;
    REG_WRITE GENER_DMA0_REG0_CONF 0;;
    REG_WRITE GENER_DMA1_REG8_CONF 0;;
    REG_WRITE GENER_DMA2_REG10_CONF 0;;
    REG_WRITE GENER_DMA3_REG18_CONF 0;;
    REG_WRITE GENER_DMA4_REG20_CONF 0;;
    REG_WRITE GENER_DMA5_REG28_CONF 0;;
    status ← REG_READ GENER_DMA_REG38_DMA_INT_STATUS;
    REG_WRITE GENER_DMA_REG38_DMA_INT_STATUS status);;
  _ ← sddev_unregister_dev (Some "generaldma"%string);
  mret tt.

(** A pointer used as another structure than it is. *)
Definition as_cfg (p : gdma_parm) : M st GDMA_CFG_ST := match p with PCfg _ c => mret c | _ => fail BadAccess end.
Definition as_types (p : gdma_parm) : M st GDMACFG_TPYES_ST := match p with PTypes _ c => mret c | _ => fail BadAccess end.
Definition as_do (p : gdma_parm) : M st GDMA_DO_ST := match p with PDo _ d => mret d | _ => fail BadAccess end.

(** A command without, and one with, a result. *)
Definition set_cmd (p : gdma_parm) (f : Z -> Z -> M st unit) : M st Z :=
  c ← as_cfg p; f (cfg_channel c) (cfg_param c);; mret ICU_SUCCESS.
Definition get_cmd (p : gdma_parm) (f : Z -> M st Z) : M st Z := c ← as_cfg p; f (cfg_channel c).
Definition types_cmd (p : gdma_parm) (f : GDMACFG_TPYES_ST -> M st unit) : M st Z :=
  c ← as_types p; f c;; mret ICU_SUCCESS.
(** The commands that only the BK7221U build has. *)
Definition if_7221u (m : M st Z) : M st Z := if bk7221u then m else mret ICU_SUCCESS.

Definition gdma_ctrl (fuel : nat) (cmd : gdma_cmd) (param : gdma_parm) : M st Z :=
  assert (truthy (parm_addr param));;
  match cmd with
  | CMD_GDMA_SET_DMA_ENABLE => set_cmd param gdma_set_dma_en
  | CMD_GDMA_CFG_FIN_INT_ENABLE => set_cmd param gdma_cfg_finish_inten
  | CMD_GDMA_CFG_HFIN_INT_ENABLE => set_cmd param gdma_cfg_half_fin_inten
  | CMD_GDMA_CFG_WORK_MODE => set_cmd param gdma_cfg_work_mode
  | CMD_GDMA_CFG_SRCDATA_WIDTH => set_cmd param gdma_cfg_srcdata_width
  | CMD_GDMA_CFG_DSTDATA_WIDTH => set_cmd param gdma_cfg_dstdata_width
  | CMD_GDMA_CFG_SRCADDR_INCREASE => set_cmd param gdma_cfg_srcaddr_increase
  | CMD_GDMA_CFG_DSTADDR_INCREASE => set_cmd param gdma_cfg_dstaddr_increase
  | CMD_GDMA_CFG_SRCADDR_LOOP => set_cmd param gdma_cfg_srcaddr_loop
  | CMD_GDMA_CFG_DSTADDR_LOOP => set_cmd param gdma_cfg_dstaddr_loop
  | CMD_GDMA_SET_CHNL_PRIO => set_cmd param gdma_set_channel_prioprity
  | CMD_GDMA_SET_TRANS_LENGTH => set_cmd param gdma_set_transfer_length
  | CMD_GDMA_SET_DST_START_ADDR => set_cmd param gdma_set_dst_start_addr
  | CMD_GDMA_SET_SRC_START_ADDR => set_cmd param gdma_set_src_start_addr
  | CMD_GDMA_SET_DST_LOOP_ENDADDR => set_cmd param gdma_set_dstloop_endaddr
  | CMD_GDMA_SET_DST_LOOP_STARTADDR => set_cmd param gdma_set_dstloop_startaddr
  | CMD_GDMA_SET_SRC_LOOP_ENDADDR => set_cmd param gdma_set_srcloop_endaddr
  | CMD_GDMA_SET_SRC_LOOP_STARTADDR => set_cmd param gdma_set_srcloop_startaddr
  | CMD_GDMA_GET_REMAIN_LENGTH => get_cmd param gdma_get_remain_len
  | CMD_GDMA_SET_DST_REQ_MUX => set_cmd param gdma_set_dst_reqmux
  | CMD_GDMA_SET_SRC_REQ_MUX => set_cmd param gdma_set_src_reqmux
  | CMD_GDMA_SET_DTCM_WRITE_WORD => set_cmd param gdma_set_dctm_write_wd
  | CMD_GDMA_SET_FIN_CNT => gdma_get_finish_cnt (parm_addr param)
  | CMD_GDMA_SET_HFIN_CNT => get_cmd param gdma_get_half_finish_cnt
  | CMD_GDMA_SET_PRIO_MODE => set_cmd param (fun _ fixed => gdma_set_priority fixed)
  | CMD_GDMA_GET_FIN_INT_STATUS => get_cmd param gdma_get_finish_interrupt_bit
  | CMD_GDMA_CLR_FIN_INT_STATUS => set_cmd param (fun ch _ => gdma_clr_finish_interrupt_bit ch)
  | CMD_GDMA_GET_HFIN_INT_STATUS => get_cmd param gdma_get_half_finish_interrupt_bit
  | CMD_GDMA_CLR_HFIN_INT_STATUS => set_cmd param (fun ch _ => gdma_clr_half_finish_interrupt_bit ch)
  | CMD_GDMA_CFG_TYPE0 => types_cmd param gdma_congfig_type0
  | CMD_GDMA_CFG_TYPE1 => types_cmd param gdma_congfig_type1
  | CMD_GDMA_CFG_TYPE2 => types_cmd param gdma_congfig_type2
  | CMD_GDMA_CFG_TYPE3 => types_cmd param gdma_congfig_type3
  | CMD_GDMA_CFG_TYPE4 => types_cmd param gdma_congfig_type4
  | CMD_GDMA_CFG_TYPE5 => types_cmd param gdma_congfig_type5
  | CMD_GDMA_CFG_TYPE6 => types_cmd param gdma_congfig_type6
  | CMD_GDMA_ENABLE => d ← as_do param; _ ← gdma_enable fuel d; mret ICU_SUCCESS
  | CMD_GDMA_GET_LEFT_LEN => gdma_get_received_len (parm_addr param)
  | CMD_GDMA_SET_SRC_PAUSE_ADDR => if_7221u (set_cmd param gdma_set_src_pause_addr)
  | CMD_GDMA_GET_SRC_PAUSE_ADDR => if_7221u (get_cmd param gdma_get_src_pause_addr)
  | CMD_GDMA_SET_DST_PAUSE_ADDR => if_7221u (set_cmd param gdma_set_dest_pause_addr)
  | CMD_GDMA_GET_DST_PAUSE_ADDR => if_7221u (get_cmd param gdma_get_dest_pause_addr)
  | CMD_GDMA_GET_SRC_READ_ADDR => if_7221u (get_cmd param gdma_get_src_read_addr)
  | CMD_GDMA_GET_DST_WRITE_ADDR => if_7221u (get_cmd param gdma_get_dest_write_addr)
  | CMD_GDMA_OTHER => mret ICU_SUCCESS
  end.

Definition gdma_memcpy (fuel : nat) (out in_ n : Z) : M st Z :=
  _ ← gdma_enable fuel (GdmaDo 0 in_ out n); mret out.

(** One turn of the loop of the interrupt handler. *)
Definition isr_channel (status : Z) (i : nat) : M st unit :=
  let ch := Z.of_nat i in
  len ← gdma_get_transfer_length ch;
  remain ← gdma_get_remain_len ch;
  let cmp_bit := Z.shiftl 1 (ch + GENER_DMA_HFIN_INT_STATUS_POSI) in
  when (truthy (Z.land status cmp_bit)) (
    s ← get;
    f ← lift_res (of_option BadAccess (p_dma_hfin_handler s !! i));
    when (truthy f) (call_handler f 0;; REG_WRITE GENER_DMA_REG38_DMA_INT_STATUS cmp_bit));;
  let cmp_bit := Z.shiftl 1 (ch + GENER_DMA_FIN_INT_STATUS_POSI) in
  when (truthy (Z.land status cmp_bit)) (
    s ← get;
    f ← lift_res (of_option BadAccess (p_dma_fin_handler s !! i));
    when (truthy f) (call_handler f 1;; REG_WRITE GENER_DMA_REG38_DMA_INT_STATUS cmp_bit)).

Fixpoint isr_loop (status : Z) (chs : list nat) : M st unit :=
  match chs with
  | [] => mret tt
  | i :: chs' => isr_channel status i;; isr_loop status chs'
  end.

Definition gdma_isr : M st unit :=
  status ← REG_READ GENER_DMA_REG38_DMA_INT_STATUS;
  isr_loop status (seq 0 GDMA_CHANNEL_MAX).
End gdma.

(** ** A device whose registers hold what is written

    This is the register file while no transfer runs: reads change nothing,
    and a write stores its value, but for the interrupt status, where it
    clears the bits written as one. *)
Class GdmaRegs (hw : Type) `{RegBus hw} := {
  reg : hw -> Z -> Z;
  reg_read h a : bus_read a h = (reg h a, h);
  reg_write h a v b : reg (bus_write a v h) b =
    if b =? a then (if a =? GENER_DMA_REG38_DMA_INT_STATUS then Z.land (reg h a) (Z.lnot v) else v)
    else reg h b;
}.

Section facts.
Context {hw : Type} `{GdmaRegs hw}.
Abbreviation st := (gdma_st hw).
Implicit Types s : st.

(** The registers are [f], the handlers those of [s0]. *)
Definition holds (f : Z -> Z) (s0 s : st) : Prop :=
  (forall a, reg (g_hw s) a = f a) /\ p_dma_fin_handler s = p_dma_fin_handler s0 /\
  p_dma_hfin_handler s = p_dma_hfin_handler s0.

Definition upd (a v : Z) (f : Z -> Z) : Z -> Z := fun b => if b =? a then v else f b.

Lemma wp_reg_read f s0 s a (Q : Z -> st -> Prop) : holds f s0 s -> Q (f a) s -> wp (REG_READ a) s Q.
Proof.
  intros [Hf _] HQ. unfold wp, REG_READ. rewrite reg_read, Hf. by destruct s.
Qed.

Lemma wp_reg_write f s0 s a v (Q : unit -> st -> Prop) :
  holds f s0 s -> a <> GENER_DMA_REG38_DMA_INT_STATUS ->
  (forall s', holds (upd a v f) s0 s' -> Q tt s') -> wp (REG_WRITE a v) s Q.
Proof.
  intros [Hf Hh] Ha HQ. apply wp_modify, HQ. split; [|done]. intros b. cbn [g_hw].
  rewrite reg_write. unfold upd. rewrite (proj2 (Z.eqb_neq a _)) by done. by destruct (b =? a).
Qed.

Lemma wp_update f s0 s a F (Q : unit -> st -> Prop) :
  holds f s0 s -> a <> GENER_DMA_REG38_DMA_INT_STATUS ->
  (forall s', holds (upd a (F (f a)) f) s0 s' -> Q tt s') -> wp (update_reg a F) s Q.
Proof. intros Hf Ha HQ. apply wp_bind. eapply wp_reg_read; [done|]. by eapply wp_reg_write. Qed.

Lemma holds_refl s : holds (reg (g_hw s)) s s.
Proof. done. Qed.

Lemma put_field_spec mask n posi v r :
  mask = Z.ones n -> 0 <= n -> 0 <= posi ->
  Z.land (Z.shiftr (put_field mask posi v r) posi) mask = v mod 2 ^ n /\
  forall i, 0 <= i -> (i < posi \/ posi + n <= i) -> Z.testbit (put_field mask posi v r) i = Z.testbit r i.
Proof.
  intros -> Hn Hp. assert (Hbit : forall i, 0 <= i -> Z.testbit (put_field (Z.ones n) posi v r) i =
    if (posi <=? i) && (i <? posi + n) then Z.testbit v (i - posi) else Z.testbit r i).
  { intros i Hi. unfold put_field.
    rewrite Z.lor_spec, Z.land_spec, Z.lnot_spec, !Z.shiftl_spec, Z.land_spec by lia.
    destruct (Z.leb_spec posi i), (Z.ltb_spec i (posi + n)); cbn [andb].
    - rewrite Z.ones_spec_low by lia. by rewrite andb_false_r, andb_true_r.
    - rewrite Z.ones_spec_high by lia. by rewrite andb_true_r, andb_false_r, orb_false_r.
    - rewrite (Z.testbit_neg_r (Z.ones n)), andb_true_r, andb_false_r, orb_false_r by lia. done.
    - rewrite (Z.testbit_neg_r (Z.ones n)), andb_true_r, andb_false_r, orb_false_r by lia. done. }
  split.
  - rewrite <- Z.land_ones by done. apply Z.bits_inj'. intros i Hi.
    rewrite !Z.land_spec, Z.shiftr_spec, Hbit by lia.
    destruct (decide (i < n)); [|by rewrite (Z.ones_spec_high n i), !andb_false_r by lia].
    rewrite (proj2 (Z.leb_le _ _)), (proj2 (Z.ltb_lt _ _)) by lia. cbn [andb]. do 2 f_equal. lia.
  - intros i Hi Hout. rewrite Hbit by done.
    destruct (Z.leb_spec posi i), (Z.ltb_spec i (posi + n)); cbn [andb]; (done || lia).
Qed.

(** The transfer length is stored less one, in 16 bits: a length from 1
    to 65536 is read back as it was set, zero as 65536; the low half of the
    configuration register of the channel and every other register keep their
    value. *)
Theorem transfer_length_roundtrip s ch len :
  0 <= ch < 6 -> 0 <= len <= 65536 ->
  exists s', gdma_set_transfer_length ch len s = Val (tt, s') /\
    gdma_get_transfer_length ch s' = Val (if len =? 0 then 65536 else len, s') /\
    (forall i, 0 <= i < 16 -> Z.testbit (reg (g_hw s') (chan_reg GENER_DMA0_REG0_CONF ch)) i =
      Z.testbit (reg (g_hw s) (chan_reg GENER_DMA0_REG0_CONF ch)) i) /\
    (forall a, a <> chan_reg GENER_DMA0_REG0_CONF ch -> reg (g_hw s') a = reg (g_hw s) a).
Proof.
  intros Hch Hlen. set (r := chan_reg GENER_DMA0_REG0_CONF ch).
  assert (Hr : r <> GENER_DMA_REG38_DMA_INT_STATUS).
  { subst r. unfold chan_reg, GENER_DMA0_REG0_CONF, GENER_DMA_REG38_DMA_INT_STATUS, GENER_DMA_BASE. zlia. }
  set (v := put_field GDMA_X_TRANS_LEN_MASK GDMA_X_TRANS_LEN_POSI (u32 (len - 1)) (reg (g_hw s) r)).
  assert (Hset : wp (gdma_set_transfer_length ch len) s (fun _ s' => holds (upd r v (reg (g_hw s))) s s')).
  { eapply wp_update; [apply holds_refl|done|done]. }
  apply wp_val in Hset as ([] & s' & He & Hs'). exists s'. pose proof Hs' as [Hf _].
  destruct (put_field_spec GDMA_X_TRANS_LEN_MASK 16 16 (u32 (len - 1)) (reg (g_hw s) r)) as [Hval Hbits]; [done|lia|lia|].
  split_and!; [done| | |].
  - unfold gdma_get_transfer_length. eapply bind_val.
    { unfold REG_READ. rewrite reg_read. fold r. reflexivity. }
    rewrite Hf. unfold upd. rewrite Z.eqb_refl. cbv beta. unfold mret, M_ret. do 2 f_equal; [|by destruct s'].
    change (Z.land (Z.shiftr v GDMA_X_TRANS_LEN_POSI) GDMA_X_TRANS_LEN_MASK) with
      (Z.land (Z.shiftr (put_field GDMA_X_TRANS_LEN_MASK 16 (u32 (len - 1)) (reg (g_hw s) r)) 16) GDMA_X_TRANS_LEN_MASK).
    rewrite Hval. change (2 ^ 16) with 65536. destruct (Z.eqb_spec len 0) as [->|]; [done|]. zlia.
  - intros i Hi. rewrite Hf. unfold upd. rewrite Z.eqb_refl. apply Hbits; lia.
  - intros a Ha. rewrite Hf. unfold upd. by rewrite (proj2 (Z.eqb_neq a r)).
Qed.

(** ** Channel configuration *)

(** The configuration word of a channel: no transfer, no interrupt. *)
Definition conf_word (cfg : GDMACFG_TPYES_ST) (src_loop dst_loop : bool) : Z :=
  16 * width_code (srcdat_width cfg) + 64 * width_code (dstdat_width cfg) +
  256 * b2z (truthy (srcptr_incr cfg)) + 512 * b2z (truthy (dstptr_incr cfg)) +
  1024 * b2z src_loop + 2048 * b2z dst_loop + 4096 * (prio cfg mod 4).

Definition set_width posi (code v : Z) : Z := Z.lor (Z.land v (Z.lnot (Z.shiftl 3 posi))) (Z.shiftl code posi).

(** What the setters of [cfg_common] make of the word [w]. *)
Definition common_word (cfg : GDMACFG_TPYES_ST) (w : Z) : Z :=
  put_field GDMA_X_CHNL_PRIO_MASK GDMA_X_CHNL_PRIO_POSI (prio cfg)
    (set_width 6 (width_code (dstdat_width cfg)) (set_width 4 (width_code (srcdat_width cfg))
      (put_flag GDMA_X_DSTADDR_INC (dstptr_incr cfg) (put_flag GDMA_X_SRCADDR_INC (srcptr_incr cfg) w)))).

Lemma width_code_cases w : width_code w = 0 \/ width_code w = 1 \/ width_code w = 2.
Proof. unfold width_code. repeat case_match; auto. Qed.

Lemma common_word_conf cfg (sl dl : bool) :
  common_word cfg (1024 * b2z sl + 2048 * b2z dl) = conf_word cfg sl dl.
Proof.
  unfold common_word, conf_word, put_flag, put_field. change GDMA_X_CHNL_PRIO_MASK with (Z.ones 2).
  rewrite Z.land_ones by lia. change (2 ^ 2) with 4.
  assert (Hp : prio cfg mod 4 = 0 \/ prio cfg mod 4 = 1 \/ prio cfg mod 4 = 2 \/ prio cfg mod 4 = 3) by zlia.
  destruct (width_code_cases (srcdat_width cfg)) as [->|[->| ->]], (width_code_cases (dstdat_width cfg)) as [->|[->| ->]],
    Hp as [->|[->|[->| ->]]], (truthy (srcptr_incr cfg)), (truthy (dstptr_incr cfg)), sl, dl; reflexivity.
Qed.

(** The registers of a channel as an offset: eight words each. *)
Definition chan_word (ch k : Z) : Z := GENER_DMA_BASE + 32 * ch + 4 * k.

Lemma chan_reg_word k ch base : base = GENER_DMA_BASE + k * 4 -> 0 <= ch < 6 -> 0 <= k < 8 ->
  chan_reg base ch = chan_word ch k.
Proof. intros -> Hc Hk. unfold chan_reg, chan_word, GENER_DMA_BASE. zlia. Qed.

Lemma chan_word_neq ch k : 0 <= ch < 6 -> 0 <= k < 8 -> chan_word ch k <> GENER_DMA_REG38_DMA_INT_STATUS.
Proof. intros. unfold chan_word, GENER_DMA_REG38_DMA_INT_STATUS, GENER_DMA_BASE. lia. Qed.

Lemma upd_chan f ch k k' v : upd (chan_word ch k) v f (chan_word ch k') = if k' =? k then v else f (chan_word ch k').
Proof.
  unfold upd, chan_word. destruct (Z.eqb_spec k' k) as [->|Hne]; [by rewrite Z.eqb_refl|].
  by rewrite (proj2 (Z.eqb_neq _ _)) by lia.
Qed.

(** The registers [f] with, for channel [ch], those of [g] by index. *)
Definition with_chan (ch : Z) (g : Z -> Z) (f0 f : Z -> Z) : Prop :=
  (forall k, 0 <= k < 8 -> f (chan_word ch k) = g k) /\
  (forall a, ~ (chan_word ch 0 <= a < chan_word ch 8) -> f a = f0 a).

Lemma with_chan_upd ch g f0 f k v : 0 <= k < 8 -> with_chan ch g f0 f ->
  with_chan ch (upd k v g) f0 (upd (chan_word ch k) v f).
Proof.
  intros Hk [Hin Hout]. split.
  - intros k' Hk'. rewrite upd_chan. unfold upd. destruct (k' =? k); [done|by apply Hin].
  - intros a Ha. unfold upd. rewrite (proj2 (Z.eqb_neq _ _)); [by apply Hout|].
    intros ->. apply Ha. unfold chan_word. lia.
Qed.

(** The state: channel [ch] has the registers [g], the rest is as in [s0]. *)
Definition chan_at (ch : Z) (g : Z -> Z) (s0 s : st) : Prop :=
  exists f, holds f s0 s /\ with_chan ch g (reg (g_hw s0)) f.

Lemma wp_chan_write ch g s0 s base k v (Q : unit -> st -> Prop) :
  base = GENER_DMA_BASE + k * 4 -> 0 <= ch < 6 -> 0 <= k < 8 -> chan_at ch g s0 s ->
  (forall s', chan_at ch (upd k v g) s0 s' -> Q tt s') -> wp (REG_WRITE (chan_reg base ch) v) s Q.
Proof.
  intros Hb Hc Hk (f & Hf & Hw) HQ. rewrite (chan_reg_word k) by done.
  eapply wp_reg_write; [done|by apply chan_word_neq|]. intros s' Hs'. apply HQ. eexists. split; [done|].
  by apply with_chan_upd.
Qed.

Lemma wp_chan_update ch g s0 s base k F (Q : unit -> st -> Prop) :
  base = GENER_DMA_BASE + k * 4 -> 0 <= ch < 6 -> 0 <= k < 8 -> chan_at ch g s0 s ->
  (forall s', chan_at ch (upd k (F (g k)) g) s0 s' -> Q tt s') -> wp (update_reg (chan_reg base ch) F) s Q.
Proof.
  intros Hb Hc Hk (f & Hf & Hw) HQ. rewrite (chan_reg_word k) by done.
  eapply wp_update; [done|by apply chan_word_neq|]. intros s' Hs'. apply HQ. eexists. split; [done|].
  rewrite (proj1 Hw k) by done. by apply with_chan_upd.
Qed.

Lemma chan_at_ext ch g g' s0 s : (forall k, 0 <= k < 8 -> g k = g' k) -> chan_at ch g s0 s -> chan_at ch g' s0 s.
Proof.
  intros He (f & Hf & Hin & Hout). exists f. split; [done|]. split; [|done].
  intros k Hk. rewrite Hin by done. by apply He.
Qed.

(** Compare two updates of the registers of a channel, index by index. *)
Ltac upd_cases k :=
  unfold upd;
  destruct (Z.eqb_spec k 0); [subst k|destruct (Z.eqb_spec k 1); [subst k|destruct (Z.eqb_spec k 2); [subst k|
  destruct (Z.eqb_spec k 3); [subst k|destruct (Z.eqb_spec k 4); [subst k|destruct (Z.eqb_spec k 5); [subst k|
  destruct (Z.eqb_spec k 6); [subst k|]]]]]]]; cbn [Z.eqb Pos.eqb].

Lemma wp_common cfg g s0 s (Q : unit -> st -> Prop) :
  0 <= channel cfg < 6 -> chan_at (channel cfg) g s0 s ->
  (forall s', chan_at (channel cfg) (upd 2 (src_start_addr cfg) (upd 1 (dst_start_addr cfg)
      (upd 0 (common_word cfg (g 0)) g))) s0 s' -> Q tt s') ->
  wp (cfg_common cfg (gdma_cfg_dstaddr_increase (channel cfg) (dstptr_incr cfg))
                     (gdma_cfg_srcaddr_increase (channel cfg) (srcptr_incr cfg))) s Q.
Proof.
  intros Hc Hs HQ. unfold cfg_common.
  apply wp_bind. eapply (wp_chan_update _ _ _ _ _ 0); [done|done|done|done|]. intros s1 Hs1.
  apply wp_bind. eapply (wp_chan_update _ _ _ _ _ 0); [done|done|done|done|]. intros s2 Hs2.
  apply wp_bind. eapply (wp_chan_update _ _ _ _ _ 0); [done|done|done|done|]. intros s3 Hs3.
  apply wp_bind. eapply (wp_chan_update _ _ _ _ _ 0); [done|done|done|done|]. intros s4 Hs4.
  apply wp_bind. eapply (wp_chan_update _ _ _ _ _ 0); [done|done|done|done|]. intros s5 Hs5.
  apply wp_bind. eapply (wp_chan_write _ _ _ _ _ 1); [done|done|done|done|]. intros s6 Hs6.
  eapply (wp_chan_write _ _ _ _ _ 2); [done|done|done|done|]. intros s7 Hs7. apply HQ.
  eapply chan_at_ext; [|done]. intros k Hk. by upd_cases k.
Qed.

(** The loop addresses that a type has, by register index. *)
Definition loop_words (t : nat) (cfg : GDMACFG_TPYES_ST) (g : Z -> Z) : Z -> Z :=
  match t with
  | 1%nat => upd 5 (u_word1 cfg) (upd 6 (u_word0 cfg) g)
  | 2%nat => upd 3 (u_word1 cfg) (upd 4 (u_word0 cfg) g)
  | 3%nat => upd 3 (u_word3 cfg) (upd 4 (u_word2 cfg) (upd 5 (u_word1 cfg) (upd 6 (u_word0 cfg) g)))
  | _ => g
  end.

Definition congfig_type (t : nat) (cfg : GDMACFG_TPYES_ST) : M st unit :=
  match t with
  | 0%nat => gdma_congfig_type0 cfg
  | 1%nat => gdma_congfig_type1 cfg
  | 2%nat => gdma_congfig_type2 cfg
  | _ => gdma_congfig_type3 cfg
  end.

(** Configuring a channel for a memory transfer (types 0 to 3) writes a
    configuration word that is exactly the fields of the request (widths,
    increments, priority, the loop flags of the type, no enable and no
    interrupt bit, whatever the register held), the start addresses and the
    loop bounds of the type, and no register outside the channel. *)
Theorem congfig_memory t cfg s :
  (t < 4)%nat -> 0 <= channel cfg < 6 ->
  exists s', congfig_type t cfg s = Val (tt, s') /\
    (forall k, 0 <= k < 8 -> reg (g_hw s') (chan_word (channel cfg) k) =
      loop_words t cfg (upd 2 (src_start_addr cfg) (upd 1 (dst_start_addr cfg)
        (upd 0 (conf_word cfg (Nat.odd t) (2 <=? t)%nat) (fun k => reg (g_hw s) (chan_word (channel cfg) k))))) k) /\
    (forall a, ~ (chan_word (channel cfg) 0 <= a < chan_word (channel cfg) 8) -> reg (g_hw s') a = reg (g_hw s) a).
Proof.
  intros Ht Hc. set (g0 := fun k => reg (g_hw s) (chan_word (channel cfg) k)).
  assert (Hs0 : chan_at (channel cfg) g0 s s) by (exists (reg (g_hw s)); done).
  enough (Hw : wp (congfig_type t cfg) s (fun _ s' => chan_at (channel cfg) (loop_words t cfg (upd 2 (src_start_addr cfg)
    (upd 1 (dst_start_addr cfg) (upd 0 (conf_word cfg (Nat.odd t) (2 <=? t)%nat) g0)))) s s')).
  { apply wp_val in Hw as ([] & s' & He & (f & [Hf _] & Hin & Hout)). exists s'. split; [done|].
    split; intros; rewrite Hf; [by apply Hin|by apply Hout]. }
  assert (Hb : bad_channel cfg = false) by (unfold bad_channel, GDMA_CHANNEL_MAX; apply Z.leb_gt; lia).
  assert (Hend : forall (w : Z) (sl dl : bool) g1, w = 1024 * b2z sl + 2048 * b2z dl ->
    forall k, upd 2 (src_start_addr cfg) (upd 1 (dst_start_addr cfg) (upd 0 (common_word cfg w) g1)) k =
              upd 2 (src_start_addr cfg) (upd 1 (dst_start_addr cfg) (upd 0 (conf_word cfg sl dl) g1)) k).
  { intros w sl dl g1 -> k. by rewrite common_word_conf. }
  destruct t as [|[|[|[|t]]]]; [| | | |lia]; cbn [congfig_type Nat.odd Nat.even Nat.leb negb];
    unfold gdma_congfig_type0, gdma_congfig_type1, gdma_congfig_type2, gdma_congfig_type3; rewrite Hb.
  all: apply wp_bind; eapply (wp_chan_write _ _ _ _ _ 0); [done|done|done|exact Hs0|]; intros s1 Hs1.
  - eapply wp_common; [done|done|]. intros s2 Hs2. eapply chan_at_ext; [|done]. intros k Hk. cbn [loop_words].
    upd_cases k; try done. by rewrite <- (common_word_conf cfg false false).
  - apply wp_bind. eapply (wp_chan_update _ _ _ _ _ 0); [done|done|done|done|]. intros s2 Hs2.
    apply wp_bind. eapply wp_common; [done|done|]. intros s3 Hs3.
    apply wp_bind. eapply (wp_chan_write _ _ _ _ _ 6); [done|done|done|done|]. intros s4 Hs4.
    eapply (wp_chan_write _ _ _ _ _ 5); [done|done|done|done|]. intros s5 Hs5.
    eapply chan_at_ext; [|done]. intros k Hk. cbn [loop_words].
    upd_cases k; try done. by rewrite <- (common_word_conf cfg true false).
  - apply wp_bind. eapply (wp_chan_update _ _ _ _ _ 0); [done|done|done|done|]. intros s2 Hs2.
    apply wp_bind. eapply wp_common; [done|done|]. intros s3 Hs3.
    apply wp_bind. eapply (wp_chan_write _ _ _ _ _ 4); [done|done|done|done|]. intros s4 Hs4.
    eapply (wp_chan_write _ _ _ _ _ 3); [done|done|done|done|]. intros s5 Hs5.
    eapply chan_at_ext; [|done]. intros k Hk. cbn [loop_words].
    upd_cases k; try done. by rewrite <- (common_word_conf cfg false true).
  - apply wp_bind. eapply (wp_chan_update _ _ _ _ _ 0); [done|done|done|done|]. intros s2 Hs2.
    apply wp_bind. eapply (wp_chan_update _ _ _ _ _ 0); [done|done|done|done|]. intros s3 Hs3.
    apply wp_bind. eapply wp_common; [done|done|]. intros s4 Hs4.
    apply wp_bind. eapply (wp_chan_write _ _ _ _ _ 6); [done|done|done|done|]. intros s5 Hs5.
    apply wp_bind. eapply (wp_chan_write _ _ _ _ _ 5); [done|done|done|done|]. intros s6 Hs6.
    apply wp_bind. eapply (wp_chan_write _ _ _ _ _ 4); [done|done|done|done|]. intros s7 Hs7.
    eapply (wp_chan_write _ _ _ _ _ 3); [done|done|done|done|]. intros s8 Hs8.
    eapply chan_at_ext; [|done]. intros k Hk. cbn [loop_words].
    upd_cases k; try done. by rewrite <- (common_word_conf cfg true true).
Qed.

(** ** The interrupt handler *)

Section isr.
(** The handlers called so far, and a handler that touches neither the
    registers of the controller nor the tables. *)
Context (log : hw -> list (Z * Z)) (log_write : forall a v h, log (bus_write a v h) = log h).
Context (call_handler : Z -> Z -> M st unit).
Context (call_spec : forall f x s, exists h', call_handler f x s =
    Val (tt, GdmaSt h' (p_dma_fin_handler s) (p_dma_hfin_handler s)) /\
    (forall a, reg h' a = reg (g_hw s) a) /\ log h' = log (g_hw s) ++ [(f, x)]).

Definition fin_of s (i : nat) : Z := default 0 (p_dma_fin_handler s !! i).
Definition hfin_of s (i : nat) : Z := default 0 (p_dma_hfin_handler s !! i).

(** What the handler does about bit [b] of the status with handler [f]. *)
Definition serves (status b f : Z) : bool := Z.testbit status b && truthy f.

Definition calls_of s (status : Z) (i : nat) : list (Z * Z) :=
  (if serves status (Z.of_nat i + 8) (hfin_of s i) then [(hfin_of s i, 0)] else []) ++
  (if serves status (Z.of_nat i) (fin_of s i) then [(fin_of s i, 1)] else []).

Definition clears s (status : Z) (i : nat) (j : Z) : bool :=
  serves status (Z.of_nat i + 8) (hfin_of s i) && (j =? Z.of_nat i + 8) ||
  serves status (Z.of_nat i) (fin_of s i) && (j =? Z.of_nat i).

(** The state during the handler: the tables and every other register are
    those of [s0], the status is [v] and the calls made so far [l]. *)
Definition isr_at s0 (v : Z -> bool) (l : list (Z * Z)) s : Prop :=
  p_dma_fin_handler s = p_dma_fin_handler s0 /\ p_dma_hfin_handler s = p_dma_hfin_handler s0 /\
  (forall a, a <> GENER_DMA_REG38_DMA_INT_STATUS -> reg (g_hw s) a = reg (g_hw s0) a) /\
  (forall j, 0 <= j -> Z.testbit (reg (g_hw s) GENER_DMA_REG38_DMA_INT_STATUS) j = v j) /\
  log (g_hw s) = l.

(** One status bit of one channel. *)
Lemma wp_serve s0 v l s status b x (tbl : st -> list Z) i f (Q : unit -> st -> Prop) :
  0 <= b -> tbl s !! i = Some f -> isr_at s0 v l s ->
  (forall s', isr_at s0 (fun j => v j && negb (serves status b f && (j =? b)))
     (l ++ if serves status b f then [(f, x)] else []) s' -> Q tt s') ->
  wp (when (truthy (Z.land status (Z.shiftl 1 b))) (
    s ← get;
    f ← lift_res (of_option BadAccess (tbl s !! i));
    when (truthy f) (call_handler f x;; REG_WRITE GENER_DMA_REG38_DMA_INT_STATUS (Z.shiftl 1 b)))) s Q.
Proof.
  intros Hb Htbl (Hfin & Hhfin & Hregs & Hst & Hlog) HQ. rewrite Z.shiftl_1_l, truthy_land_pow2 by done.
  assert (Hskip : serves status b f = false -> Q tt s).
  { intros Hno. apply HQ. rewrite Hno, app_nil_r. split_and!; [done..| |done].
    intros j Hj. rewrite Hst by done. by rewrite andb_true_r. }
  apply wp_when. unfold serves in *. destruct (Z.testbit status b); [|by apply Hskip].
  apply wp_bind, wp_get, wp_bind. rewrite Htbl. apply wp_ret, wp_when.
  destruct (truthy f); [|by apply Hskip]. cbn [andb] in HQ.
  destruct (call_spec f x s) as (h' & Hcall & Hr & Hl).
  apply wp_bind. eapply wp_intro; [exact Hcall|]. apply wp_modify, HQ. split_and!; cbn [g_hw p_dma_fin_handler p_dma_hfin_handler]; try done.
  - intros a Ha. rewrite reg_write, (proj2 (Z.eqb_neq a _)) by done. by rewrite Hr, Hregs.
  - intros j Hj. rewrite reg_write, Z.eqb_refl. rewrite Z.land_spec, Z.lnot_spec, Z.pow2_bits_eqb, Hr, Hst by done.
    by rewrite (Z.eqb_sym b j).
  - by rewrite log_write, Hl, Hlog.
Qed.

Lemma isr_at_ext s0 v v' l s : (forall j, 0 <= j -> v j = v' j) -> isr_at s0 v l s -> isr_at s0 v' l s.
Proof. intros He (? & ? & ? & Hst & ?). split_and!; try done. intros j Hj. by rewrite Hst, He. Qed.

Lemma wp_isr_channel s0 v l s status i (Q : unit -> st -> Prop) :
  (i < List.length (p_dma_fin_handler s0))%nat -> (i < List.length (p_dma_hfin_handler s0))%nat ->
  isr_at s0 v l s ->
  (forall s', isr_at s0 (fun j => v j && negb (clears s0 status i j)) (l ++ calls_of s0 status i) s' -> Q tt s') ->
  wp (isr_channel call_handler status i) s Q.
Proof.
  intros Hf Hh Hs HQ. apply lookup_lt_is_Some_2 in Hf as [f Hf], Hh as [h Hh].
  unfold isr_channel. apply wp_bind. unfold gdma_get_transfer_length. apply wp_bind.
  unfold wp at 1, REG_READ. rewrite reg_read. apply wp_ret. apply wp_bind.
  unfold gdma_get_remain_len. apply wp_bind. unfold wp at 1, REG_READ. rewrite reg_read. apply wp_ret. cbn [g_hw].
  apply wp_bind. eapply (wp_serve _ v l _ status _ 0 p_dma_hfin_handler i h); [unfold GENER_DMA_HFIN_INT_STATUS_POSI; lia| | |].
  { cbn [p_dma_hfin_handler]. by rewrite (proj1 (proj2 Hs)). }
  { destruct s. exact Hs. }
  intros s1 Hs1. unfold GENER_DMA_FIN_INT_STATUS_POSI, GENER_DMA_HFIN_INT_STATUS_POSI in *. rewrite Z.add_0_r.
  eapply (wp_serve _ _ _ _ status _ 1 p_dma_fin_handler i f); [lia| |exact Hs1|].
  { by rewrite (proj1 Hs1). }
  intros s2 Hs2. apply HQ. unfold calls_of, clears, fin_of, hfin_of. rewrite Hf, Hh. cbn [default].
  rewrite app_assoc. eapply isr_at_ext; [|exact Hs2]. intros j Hj. cbn beta.
  by rewrite negb_orb, andb_assoc.
Qed.

Lemma wp_isr_loop s0 v l s status chs (Q : unit -> st -> Prop) :
  Forall (fun i => (i < List.length (p_dma_fin_handler s0))%nat /\ (i < List.length (p_dma_hfin_handler s0))%nat) chs ->
  isr_at s0 v l s ->
  (forall s', isr_at s0 (fun j => v j && negb (existsb (fun i => clears s0 status i j) chs))
    (l ++ flat_map (calls_of s0 status) chs) s' -> Q tt s') ->
  wp (isr_loop call_handler status chs) s Q.
Proof.
  revert v l s. induction chs as [|i chs IH]; intros v l s Hchs Hs HQ.
  { apply wp_ret, HQ. cbn. rewrite app_nil_r. eapply isr_at_ext; [|done]. intros j Hj. by rewrite andb_true_r. }
  apply Forall_cons in Hchs as [[Hf Hh] Hchs]. cbn [isr_loop]. apply wp_bind.
  eapply wp_isr_channel; [done|done|done|]. intros s1 Hs1. eapply IH; [done|exact Hs1|].
  intros s2 Hs2. apply HQ. cbn [existsb flat_map]. rewrite app_assoc.
  eapply isr_at_ext; [|exact Hs2]. intros j Hj. cbn beta. by rewrite negb_orb, andb_assoc.
Qed.

(** C39: the interrupt handler calls, channel by channel, the half-finished
    handler with 0 and the finished handler with 1 of each pending bit that
    has one, and clears exactly the bits it has served: a pending bit without
    a handler stays pending. *)
Theorem isr_dispatch s :
  List.length (p_dma_fin_handler s) = GDMA_CHANNEL_MAX -> List.length (p_dma_hfin_handler s) = GDMA_CHANNEL_MAX ->
  let status := reg (g_hw s) GENER_DMA_REG38_DMA_INT_STATUS in
  exists s', gdma_isr call_handler s = Val (tt, s') /\
    log (g_hw s') = log (g_hw s) ++ flat_map (calls_of s status) (seq 0 6) /\
    (forall j, 0 <= j -> Z.testbit (reg (g_hw s') GENER_DMA_REG38_DMA_INT_STATUS) j =
       Z.testbit status j && negb (existsb (fun i => clears s status i j) (seq 0 6))) /\
    (forall a, a <> GENER_DMA_REG38_DMA_INT_STATUS -> reg (g_hw s') a = reg (g_hw s) a).
Proof.
  intros Hf Hh status.
  assert (Hw : wp (gdma_isr call_handler) s (fun _ s' =>
    isr_at s (fun j => Z.testbit status j && negb (existsb (fun i => clears s status i j) (seq 0 6)))
      (log (g_hw s) ++ flat_map (calls_of s status) (seq 0 6)) s')).
  { unfold gdma_isr. apply wp_bind. unfold wp at 1, REG_READ. rewrite reg_read.
    eapply (wp_isr_loop s (Z.testbit status) (log (g_hw s))); [|by destruct s|done].
    apply Forall_forall. intros i Hi. apply elem_of_seq in Hi. rewrite Hf, Hh. lia. }
  apply wp_val in Hw as ([] & s' & He & (_ & _ & Hr & Hst & Hl)). eauto.
Qed.
End isr.

(** The command for the finished count of a channel takes the address of
    its parameter for the channel number: its result does not depend on the
    channel asked for. *)
Theorem fin_cnt_reads_pointer bk fuel addr c s :
  addr <> 0 ->
  gdma_ctrl bk fuel CMD_GDMA_SET_FIN_CNT (PCfg addr c) s =
    Val (Z.land (Z.shiftr (reg (g_hw s) (chan_reg4 GENER_DMA0_REG30_INT_CNTS addr)) 24) 0xf, s).
Proof.
  intros Ha. unfold gdma_ctrl, parm_addr. eapply bind_val.
  { unfold truthy. by rewrite (proj2 (Z.eqb_neq _ _)). }
  cbv beta. unfold gdma_get_finish_cnt. eapply bind_val; [unfold REG_READ; rewrite reg_read; reflexivity|].
  by destruct s.
Qed.
End facts.

(** ** A register file with a log of calls *)

Record regfile := RegFile { rf_regs : Z -> Z; rf_log : list (Z * Z) }.

Definition rf_write (a v : Z) (h : regfile) : regfile :=
  RegFile (fun b => if b =? a then (if a =? GENER_DMA_REG38_DMA_INT_STATUS then Z.land (rf_regs h a) (Z.lnot v) else v)
                    else rf_regs h b) (rf_log h).

#[export] Instance rf_bus : RegBus regfile := {| bus_read := fun a h => (rf_regs h a, h); bus_write := rf_write |}.
#[export, refine] Instance rf_spec : GdmaRegs regfile := {| reg := rf_regs |}.
Proof. all: done. Defined.

(** Half finished on channel 2 and finished on channels 0 and 3; channel 3 has
    no handler. *)
Definition demo_gdma : gdma_st regfile :=
  GdmaSt (RegFile (fun a => if a =? GENER_DMA_REG38_DMA_INT_STATUS then 0x409 else 0x12345678) [])
    [0x100; 0; 0; 0; 0; 0] [0; 0; 0x200; 0; 0; 0].
Definition demo_handler (f x : Z) : M (gdma_st regfile) unit := modify (fun s =>
  GdmaSt (RegFile (rf_regs (g_hw s)) (rf_log (g_hw s) ++ [(f, x)])) (p_dma_fin_handler s) (p_dma_hfin_handler s)).

Lemma transfer_length_roundtrip_witness :
  exists s', gdma_set_transfer_length 2 512 demo_gdma = Val (tt, s') /\
    gdma_get_transfer_length 2 s' = Val (512, s') /\
    (forall i, 0 <= i < 16 -> Z.testbit (reg (g_hw s') (chan_reg GENER_DMA0_REG0_CONF 2)) i =
      Z.testbit (reg (g_hw demo_gdma) (chan_reg GENER_DMA0_REG0_CONF 2)) i) /\
    (forall a, a <> chan_reg GENER_DMA0_REG0_CONF 2 -> reg (g_hw s') a = reg (g_hw demo_gdma) a).
Proof. apply (transfer_length_roundtrip demo_gdma 2 512); lia. Defined.

Lemma congfig_memory_witness :
  exists s', congfig_type 3 (GdmaCfgTypes 5 2 1 0 32 8 0x1000 0x2000 0 0 0 0 1 2 3 4) demo_gdma = Val (tt, s') /\
    (forall k, 0 <= k < 8 -> reg (g_hw s') (chan_word 5 k) =
      loop_words 3 (GdmaCfgTypes 5 2 1 0 32 8 0x1000 0x2000 0 0 0 0 1 2 3 4) (upd 2 0x1000 (upd 1 0x2000
        (upd 0 (conf_word (GdmaCfgTypes 5 2 1 0 32 8 0x1000 0x2000 0 0 0 0 1 2 3 4) true true)
          (fun k => reg (g_hw demo_gdma) (chan_word 5 k))))) k) /\
    (forall a, ~ (chan_word 5 0 <= a < chan_word 5 8) -> reg (g_hw s') a = reg (g_hw demo_gdma) a).
Proof. apply (congfig_memory 3 (GdmaCfgTypes 5 2 1 0 32 8 0x1000 0x2000 0 0 0 0 1 2 3 4) demo_gdma); cbn; lia. Defined.

Lemma isr_dispatch_witness :
  exists s', gdma_isr demo_handler demo_gdma = Val (tt, s') /\
    rf_log (g_hw s') = [(0x100, 1); (0x200, 0)] /\
    (forall j, 0 <= j -> Z.testbit (reg (g_hw s') GENER_DMA_REG38_DMA_INT_STATUS) j =
       Z.testbit 0x409 j && negb (existsb (fun i => clears demo_gdma 0x409 i j) (seq 0 6))) /\
    (forall a, a <> GENER_DMA_REG38_DMA_INT_STATUS -> reg (g_hw s') a = reg (g_hw demo_gdma) a).
Proof.
  apply (isr_dispatch rf_log ltac:(done) demo_handler
    ltac:(intros f x s; eexists; split; [reflexivity|done]) demo_gdma); done.
Defined.

Lemma fin_cnt_reads_pointer_witness :
  gdma_ctrl false 1 CMD_GDMA_SET_FIN_CNT (PCfg 0x20000 (GdmaCfg 0 3)) demo_gdma =
    Val (Z.land (Z.shiftr (reg (g_hw demo_gdma) (chan_reg4 GENER_DMA0_REG30_INT_CNTS 0x20000)) 24) 0xf, demo_gdma).
Proof. apply (fin_cnt_reads_pointer false 1 0x20000 (GdmaCfg 0 3) demo_gdma). lia. Defined.
