(* ===== verification/RingBuffer.v ===== *)
(** * Ring buffers (driver/audio/ring_buffer.c, ring_buffer_dma_write.c,
    ring_buffer_dma_read.c)

    A byte ring with a write and a read position, used by software at both
    ends, or with the general DMA controller at one of them.  The storage is
    the array [address] points to; a copy outside it or outside the caller's
    buffer is a [BadAccess].  The positions change with interrupts masked, and
    each call is one step. *)
From S2P Require Import Prelude Gdma.
Local Open Scope Z_scope.

Definition RWP_SAFE_INTERVAL : Z := 4.

(** [storage]: the bytes at [address]. *)
Record RB_ST := Rb { storage : list Z; capacity : Z; rb_wp : Z; rb_rp : Z }.

Definition rb_init (addr : list Z) (cap : Z) : RB_ST := Rb addr cap 0 0.
Definition rb_clear (rb : RB_ST) : RB_ST := Rb (storage rb) (capacity rb) 0 0.

(** The body of a read: the bytes copied to [buffer], the new read position
    and the number of bytes read. *)
Definition ring_take (address : list Z) (cap wp rp required_bytes : Z) : res (list Z * Z * Z) :=
  if rp <=? wp then
    let remain_bytes := u32 (wp - rp) in
    let read_bytes := if remain_bytes <? required_bytes then remain_bytes else required_bytes in
    bs ← mem_read address rp read_bytes;
    mret (bs, u32 (rp + read_bytes), read_bytes)
  else
    let remain_bytes := u32 (cap - rp) in
    if remain_bytes <? required_bytes then
      bs ← mem_read address rp remain_bytes;
      if wp <? u32 (required_bytes - remain_bytes) then
        bs' ← mem_read address 0 wp;
        mret (bs ++ bs', wp, u32 (remain_bytes + wp))
      else
        bs' ← mem_read address 0 (u32 (required_bytes - remain_bytes));
        mret (bs ++ bs', u32 (required_bytes - remain_bytes), required_bytes)
    else
      bs ← mem_read address rp required_bytes;
      mret (bs, u32 (rp + required_bytes), required_bytes).

(** Returns the count, the bytes stored in [buffer], and the buffer. *)
Definition rb_read (rb : RB_ST) (size count : Z) : res (Z * list Z * RB_ST) :=
  let required_bytes := u32 (size * count) in
  if required_bytes =? 0 then mret (0, [], rb)
  else
    '(bs, rp, n) ← ring_take (storage rb) (capacity rb) (rb_wp rb) (rb_rp rb) required_bytes;
    mret (n, bs, Rb (storage rb) (capacity rb) (rb_wp rb) rp).

(** The body of a write: [None] when there is no room, else the storage and
    the write position, before the test at the end. *)
Definition ring_put (address : list Z) (cap wp rp : Z) (buffer : list Z) (write_bytes : Z)
  : res (option (list Z * Z)) :=
  if rp <=? wp then
    if u32 (write_bytes + RWP_SAFE_INTERVAL) <=? u32 (cap - wp + rp) then
      let remain_bytes := u32 (cap - wp) in
      if write_bytes <=? remain_bytes then
        bs ← mem_read buffer 0 write_bytes;
        address ← mem_write address wp bs;
        mret (Some (address, u32 (wp + write_bytes)))
      else
        bs ← mem_read buffer 0 remain_bytes;
        address ← mem_write address wp bs;
        let wp := u32 (write_bytes - remain_bytes) in
        bs ← mem_read buffer remain_bytes wp;
        address ← mem_write address 0 bs;
        mret (Some (address, wp))
    else mret None
  else
    if u32 (write_bytes + RWP_SAFE_INTERVAL) <=? u32 (rp - wp) then
      bs ← mem_read buffer 0 write_bytes;
      address ← mem_write address wp bs;
      mret (Some (address, u32 (wp + write_bytes)))
    else mret None.

(** [if(rb->wp >= rb->capacity && rb->rp) rb->wp = 0;] *)
Definition wrap_wp (cap wp rp : Z) : Z := if (cap <=? wp) && truthy rp then 0 else wp.

Definition rb_write (rb : RB_ST) (buffer : list Z) (size count : Z) : res (Z * RB_ST) :=
  let write_bytes := u32 (size * count) in
  if write_bytes =? 0 then mret (0, rb)
  else
    r ← ring_put (storage rb) (capacity rb) (rb_wp rb) (rb_rp rb) buffer write_bytes;
    match r with
    | None => mret (0, rb)
    | Some (address, wp) =>
      mret (write_bytes, Rb address (capacity rb) (wrap_wp (capacity rb) wp (rb_rp rb)) (rb_rp rb))
    end.

Definition fill_size (cap wp rp : Z) : Z := if rp <=? wp then u32 (wp - rp) else u32 (cap - rp + wp).
Definition free_size (cap wp rp : Z) : Z :=
  let free := if rp <=? wp then u32 (cap - wp + rp) else u32 (rp - wp) in
  if RWP_SAFE_INTERVAL <? free then free - RWP_SAFE_INTERVAL else 0.

Definition rb_get_fill_size (rb : RB_ST) : Z := fill_size (capacity rb) (rb_wp rb) (rb_rp rb).
Definition rb_get_free_size (rb : RB_ST) : Z := free_size (capacity rb) (rb_wp rb) (rb_rp rb).

(** ** With the DMA controller at one end

    [dma_base]: the address of the storage; [dma cmd channel param] is
    [sddev_control(GDMA_DEV_NAME, cmd, &en_cfg)]. *)
Record RB_DMA_ST := RbDma { ring : RB_ST; dma_base : Z; dma_ch : Z }.

Section dma.
Context {W : Type} (dma : gdma_cmd -> Z -> Z -> M W Z).

Definition with_pos (rb : RB_DMA_ST) (wp rp : Z) : RB_DMA_ST :=
  RbDma (Rb (storage (ring rb)) (capacity (ring rb)) wp rp) (dma_base rb) (dma_ch rb).

(** The controller writes the ring. *)
Definition rb_init_dma_write (addr : list Z) (base cap ch : Z) : M W RB_DMA_ST :=
  let rb := RbDma (Rb addr cap 0 0) base ch in
  _ ← dma CMD_GDMA_SET_DST_PAUSE_ADDR ch (u32 (base + cap - RWP_SAFE_INTERVAL));
  mret rb.

Definition rb_clear_dma_write (rb : RB_DMA_ST) : M W RB_DMA_ST :=
  _ ← dma CMD_GDMA_SET_DST_PAUSE_ADDR (dma_ch rb) (u32 (dma_base rb + capacity (ring rb) - RWP_SAFE_INTERVAL));
  mret (with_pos rb 0 0).

(** [wp = sddev_control(..GET_DST_WRITE_ADDR..) - address; rb->wp = wp;] The
    parameter member is what the last use left there. *)
Definition get_dma_wp (rb : RB_DMA_ST) (param : Z) : M W Z :=
  wp ← dma CMD_GDMA_GET_DST_WRITE_ADDR (dma_ch rb) param; mret (u32 (wp - dma_base rb)).

Definition rb_read_dma_write (rb : RB_DMA_ST) (size count param : Z) : M W (Z * list Z * RB_DMA_ST) :=
  let required_bytes := u32 (size * count) in
  if required_bytes =? 0 then mret (0, [], rb)
  else
    wp ← get_dma_wp rb param;
    '(bs, rp, n) ← lift_res (ring_take (storage (ring rb)) (capacity (ring rb)) wp (rb_rp (ring rb)) required_bytes);
    let pause := if RWP_SAFE_INTERVAL <=? rp then u32 (dma_base rb + rp - RWP_SAFE_INTERVAL)
                 else u32 (dma_base rb + capacity (ring rb) + rp - RWP_SAFE_INTERVAL) in
    _ ← dma CMD_GDMA_SET_DST_PAUSE_ADDR (dma_ch rb) pause;
    mret (n, bs, with_pos rb wp rp).

Definition rb_get_fill_size_dma_write (rb : RB_DMA_ST) (param : Z) : M W (Z * RB_DMA_ST) :=
  wp ← get_dma_wp rb param;
  mret (fill_size (capacity (ring rb)) wp (rb_rp (ring rb)), with_pos rb wp (rb_rp (ring rb))).

Definition rb_get_free_size_dma_write (rb : RB_DMA_ST) (param : Z) : M W (Z * RB_DMA_ST) :=
  wp ← get_dma_wp rb param;
  mret (free_size (capacity (ring rb)) wp (rb_rp (ring rb)), with_pos rb wp (rb_rp (ring rb))).

(** The controller reads the ring. *)
Definition rb_init_dma_read (addr : list Z) (base cap ch : Z) : M W RB_DMA_ST :=
  let rb := RbDma (Rb addr cap 0 0) base ch in
  _ ← dma CMD_GDMA_SET_SRC_PAUSE_ADDR ch base;
  _ ← dma CMD_GDMA_SET_DMA_ENABLE ch 1;
  _ ← dma CMD_GDMA_SET_DMA_ENABLE ch 0;
  mret rb.

Definition rb_clear_dma_read (rb : RB_DMA_ST) : M W RB_DMA_ST := mret (with_pos rb 0 0).

Definition get_dma_rp (rb : RB_DMA_ST) (param : Z) : M W Z :=
  rp ← dma CMD_GDMA_GET_SRC_READ_ADDR (dma_ch rb) param; mret (u32 (rp - dma_base rb)).

Definition rb_write_dma_read (rb : RB_DMA_ST) (buffer : list Z) (size count : Z) : M W (Z * RB_DMA_ST) :=
  let write_bytes := u32 (size * count) in
  if write_bytes =? 0 then mret (0, rb)
  else
    rp ← get_dma_rp rb 0;
    r ← lift_res (ring_put (storage (ring rb)) (capacity (ring rb)) (rb_wp (ring rb)) rp buffer write_bytes);
    match r with
    | None => mret (0, with_pos rb (rb_wp (ring rb)) rp)
    | Some (address, wp) =>
      let wp := wrap_wp (capacity (ring rb)) wp rp in
      _ ← dma CMD_GDMA_SET_SRC_PAUSE_ADDR (dma_ch rb) (u32 (dma_base rb + wp));
      mret (write_bytes, RbDma (Rb address (capacity (ring rb)) wp rp) (dma_base rb) (dma_ch rb))
    end.

Definition rb_get_fill_size_dma_read (rb : RB_DMA_ST) (param : Z) : M W (Z * RB_DMA_ST) :=
  rp ← get_dma_rp rb param;
  mret (fill_size (capacity (ring rb)) (rb_wp (ring rb)) rp, with_pos rb (rb_wp (ring rb)) rp).

Definition rb_get_free_size_dma_read (rb : RB_DMA_ST) (param : Z) : M W (Z * RB_DMA_ST) :=
  rp ← get_dma_rp rb param;
  mret (free_size (capacity (ring rb)) (rb_wp (ring rb)) rp, with_pos rb (rb_wp (ring rb)) rp).
End dma.

(** ** The queue that a ring holds *)

Definition contents (address : list Z) (cap wp rp : Z) : list Z :=
  if rp <=? wp then slice (Z.to_nat rp) (Z.to_nat (wp - rp)) address
  else slice (Z.to_nat rp) (Z.to_nat (cap - rp)) address ++ slice 0 (Z.to_nat wp) address.

Record ring_ok (address : list Z) (cap wp rp : Z) : Prop := {
  ok_len : Z.of_nat (length address) = cap;
  ok_cap : 0 <= cap < 2 ^ 32;
  ok_wp : 0 <= wp <= cap;
  ok_rp : 0 <= rp <= cap;
}.

Lemma length_contents a cap wp rp : ring_ok a cap wp rp ->
  Z.of_nat (length (contents a cap wp rp)) = if rp <=? wp then wp - rp else cap - rp + wp.
Proof.
  intros [Hl Hc Hw Hr]. unfold contents. destruct (Z.leb_spec rp wp).
  - rewrite length_slice by lia. lia.
  - rewrite length_app, !length_slice by lia. lia.
Qed.

Lemma take_slice {A} (l : list A) off n k : (k <= n)%nat -> take k (slice off n l) = slice off k l.
Proof. intros Hk. unfold slice. rewrite take_take. f_equal. lia. Qed.

Lemma drop_slice {A} (l : list A) off n k : (k <= n)%nat -> drop k (slice off n l) = slice (off + k) (n - k) l.
Proof.
  intros Hk. unfold slice. rewrite <- drop_drop. replace n with (k + (n - k))%nat at 1 by lia.
  by rewrite <- take_drop_commute.
Qed.

(** A read takes a prefix of the queue. *)
Lemma ring_take_spec a cap wp rp n : ring_ok a cap wp rp -> 0 < n < 2 ^ 32 ->
  let q := contents a cap wp rp in
  let k := Z.min n (Z.of_nat (length q)) in
  exists rp', ring_take a cap wp rp n = Val (take (Z.to_nat k) q, rp', k) /\
    ring_ok a cap wp rp' /\ contents a cap wp rp' = drop (Z.to_nat k) q.
Proof.
  intros Hok Hn q k. pose proof (length_contents _ _ _ _ Hok) as Hlq. fold q in Hlq.
  pose proof Hok as [Hl Hc Hw Hr]. unfold ring_take. subst k q. unfold contents in *.
  destruct (Z.leb_spec rp wp) as [Hle|Hgt].
  - rewrite Hlq, (u32_id (wp - rp)) by zlia. set (k := Z.min n (wp - rp)).
    replace (if wp - rp <? n then wp - rp else n) with k by (subst k; bdestr; lia).
    rewrite mem_read_val by lia. cbn [mbind res_bind]. rewrite u32_id by zlia.
    exists (rp + k). rewrite (proj2 (Z.leb_le _ _)) by lia. split_and!; [| |].
    + rewrite take_slice by lia. done.
    + split; lia.
    + rewrite drop_slice by lia. f_equal; lia.
  - rewrite Hlq, (u32_id (cap - rp)) by zlia.
    destruct (Z.ltb_spec (cap - rp) n) as [Hlt|Hge].
    + cbn [mbind res_bind].
      rewrite (u32_id (n - (cap - rp))) by zlia.
      destruct (Z.ltb_spec wp (n - (cap - rp))).
      * rewrite !mem_read_val by lia. cbn [mbind res_bind]. rewrite u32_id by zlia.
        replace (Z.min n (cap - rp + wp)) with (cap - rp + wp) by lia.
        exists wp. rewrite Z.leb_refl, Z.sub_diag. split_and!.
        -- rewrite firstn_all2 by (rewrite length_app, !length_slice by lia; lia). done.
        -- split; lia.
        -- by rewrite skipn_all2 by (rewrite length_app, !length_slice by lia; lia).
      * rewrite !mem_read_val by lia. cbn [mbind res_bind].
        replace (Z.min n (cap - rp + wp)) with n by lia.
        exists (n - (cap - rp)). rewrite (proj2 (Z.leb_le _ _)) by lia. split_and!.
        -- rewrite take_app, length_slice by lia.
           rewrite (take_ge (slice (Z.to_nat rp) _ a)) by (rewrite length_slice; lia).
           rewrite take_slice by lia. do 5 f_equal. lia.
        -- split; lia.
        -- rewrite drop_app, length_slice, skipn_all2, drop_slice by (rewrite ?length_slice; lia).
           cbn [app]. f_equal; lia.
    + rewrite mem_read_val by lia. cbn [mbind res_bind]. rewrite u32_id by zlia.
      replace (Z.min n (cap - rp + wp)) with n by lia.
      exists (rp + n). rewrite (proj2 (Z.leb_gt _ _)) by lia. split_and!.
      * rewrite take_app_le by (rewrite length_slice; lia). rewrite take_slice by lia. done.
      * split; lia.
      * rewrite drop_app_le, drop_slice by (rewrite ?length_slice; lia). do 2 f_equal; lia.
Qed.


(** Writing [bs] behind a part of the array extends that part. *)
Lemma slice_splice_append {A} (a bs : list A) off n : (off + n + length bs <= length a)%nat ->
  slice off (n + length bs) (splice (off + n) bs a) = slice off n a ++ bs.
Proof. intros H. rewrite slice_app, slice_splice_same, slice_splice_disjoint by lia. done. Qed.

Lemma slice_zero {A} (l : list A) off : slice off 0 l = [].
Proof. done. Qed.

(** At the end of the array, position [cap] and position 0 hold the same queue. *)
Lemma contents_wrap a cap wp rp : ring_ok a cap wp rp ->
  ring_ok a cap (wrap_wp cap wp rp) rp /\ contents a cap (wrap_wp cap wp rp) rp = contents a cap wp rp.
Proof.
  intros Hok. pose proof Hok as [Hl Hc Hw Hr]. unfold wrap_wp, truthy.
  destruct (Z.leb_spec cap wp); [|done]. destruct (Z.eqb_spec rp 0); cbn [negb andb]; [done|].
  split; [split; lia|]. assert (wp = cap) as -> by lia. unfold contents.
  rewrite (proj2 (Z.leb_gt _ _)), (proj2 (Z.leb_le rp cap)) by lia.
  change (Z.to_nat 0) with 0%nat. by rewrite slice_zero, app_nil_r.
Qed.

Definition put_ok a cap wp rp buf n : Prop :=
  exists a' wp', ring_put a cap wp rp buf n = Val (Some (a', wp')) /\
    ring_ok a' cap wp' rp /\ contents a' cap wp' rp = contents a cap wp rp ++ take (Z.to_nat n) buf.

(** Up to the end of the array, or to the read position. *)
Lemma put_straight a cap wp rp buf n : ring_ok a cap wp rp -> 0 < n -> n + RWP_SAFE_INTERVAL < 2 ^ 32 ->
  n <= Z.of_nat (length buf) ->
  n + RWP_SAFE_INTERVAL <= cap - Z.of_nat (length (contents a cap wp rp)) -> wp + n <= cap ->
  put_ok a cap wp rp buf n.
Proof.
  intros Hok Hn Hn4 Hb Hroom Hend. rewrite (length_contents _ _ _ _ Hok) in Hroom.
  destruct Hok as [Hl Hc Hw Hr]. unfold RWP_SAFE_INTERVAL in *.
  assert (Hbs : length (take (Z.to_nat n) buf) = Z.to_nat n) by (rewrite length_take; lia).
  assert (Hok' : ring_ok (splice (Z.to_nat wp) (take (Z.to_nat n) buf) a) cap (wp + n) rp).
  { split; rewrite ?length_splice by lia; lia. }
  exists (splice (Z.to_nat wp) (take (Z.to_nat n) buf) a), (wp + n). split; [|split; [done|]].
  - unfold ring_put, RWP_SAFE_INTERVAL. destruct (Z.leb_spec rp wp).
    all: rewrite !u32_id by zlia; rewrite ?(proj2 (Z.leb_le _ _)) by lia.
    all: rewrite mem_read_val by lia; cbn [mbind res_bind]; change (Z.to_nat 0) with 0%nat.
    all: change (slice 0 (Z.to_nat n) buf) with (take (Z.to_nat n) (drop 0 buf)); rewrite drop_0.
    all: rewrite mem_write_val by lia; done.
  - unfold contents. destruct (Z.leb_spec rp wp).
    + rewrite (proj2 (Z.leb_le _ _)) by lia.
      replace (Z.to_nat (wp + n - rp)) with (Z.to_nat (wp - rp) + length (take (Z.to_nat n) buf))%nat by lia.
      replace (Z.to_nat wp) with (Z.to_nat rp + Z.to_nat (wp - rp))%nat by lia.
      rewrite slice_splice_append by lia. f_equal; f_equal; lia.
    + rewrite (proj2 (Z.leb_gt _ _)) by lia. rewrite slice_splice_disjoint, <- app_assoc by lia. f_equal.
      replace (Z.to_nat (wp + n)) with (Z.to_nat wp + length (take (Z.to_nat n) buf))%nat by lia.
      replace (Z.to_nat wp) with (0 + Z.to_nat wp)%nat at 2 by lia.
      by rewrite slice_splice_append by lia.
Qed.

(** Round the end of the array. *)
Lemma put_round a cap wp rp buf n : ring_ok a cap wp rp -> 0 < n -> n + RWP_SAFE_INTERVAL < 2 ^ 32 ->
  n <= Z.of_nat (length buf) ->
  n + RWP_SAFE_INTERVAL <= cap - Z.of_nat (length (contents a cap wp rp)) -> cap < wp + n ->
  put_ok a cap wp rp buf n.
Proof.
  intros Hok Hn Hn4 Hb Hroom Hend. rewrite (length_contents _ _ _ _ Hok) in Hroom.
  destruct Hok as [Hl Hc Hw Hr]. unfold RWP_SAFE_INTERVAL in *.
  destruct (Z.leb_spec rp wp); [|lia].
  set (k := Z.to_nat (cap - wp)). set (m := Z.to_nat (n - (cap - wp))).
  assert (Hb1 : length (slice 0 k buf) = k) by (rewrite length_slice; lia).
  assert (Hb2 : length (slice k m buf) = m) by (rewrite length_slice; lia).
  set (a1 := splice (Z.to_nat wp) (slice 0 k buf) a).
  assert (Ha1 : length a1 = length a) by (apply length_splice; lia).
  exists (splice 0 (slice k m buf) a1), (n - (cap - wp)). split; [|split].
  - unfold ring_put, RWP_SAFE_INTERVAL. rewrite (proj2 (Z.leb_le rp wp)) by lia.
    rewrite !u32_id by zlia. rewrite (proj2 (Z.leb_le (n + 4) _)), (proj2 (Z.leb_gt n _)) by lia.
    rewrite u32_id by (subst k m a1; zlia).
    rewrite !mem_read_val by lia. cbn [mbind res_bind]. change (Z.to_nat 0) with 0%nat. fold k m.
    rewrite mem_write_val by lia. cbn [mbind res_bind]. fold a1.
    rewrite mem_write_val by lia. done.
  - split; rewrite ?length_splice by lia; lia.
  - unfold contents. rewrite (proj2 (Z.leb_gt _ _)), (proj2 (Z.leb_le rp wp)) by lia. fold m.
    rewrite <- Hb2 at 2. rewrite slice_splice_same, slice_splice_disjoint by lia.
    replace (Z.to_nat (cap - rp)) with (Z.to_nat (wp - rp) + length (slice 0 k buf))%nat by lia.
    subst a1. replace (Z.to_nat wp) with (Z.to_nat rp + Z.to_nat (wp - rp))%nat by lia.
    rewrite slice_splice_append by lia. rewrite <- app_assoc. f_equal.
    rewrite <- (slice_app 0 k m). unfold slice. rewrite drop_0. f_equal. lia.
Qed.

(** A write appends to the queue when [RWP_SAFE_INTERVAL] bytes stay free. *)
Lemma ring_put_spec a cap wp rp buf n : ring_ok a cap wp rp -> 0 < n -> n + RWP_SAFE_INTERVAL < 2 ^ 32 ->
  n <= Z.of_nat (length buf) ->
  if n + RWP_SAFE_INTERVAL <=? cap - Z.of_nat (length (contents a cap wp rp))
  then put_ok a cap wp rp buf n else ring_put a cap wp rp buf n = Val None.
Proof.
  intros Hok Hn Hn4 Hb. destruct (Z.leb_spec (n + RWP_SAFE_INTERVAL)
    (cap - Z.of_nat (length (contents a cap wp rp)))) as [Hroom|Hroom].
  - destruct (decide (wp + n <= cap)); [by apply put_straight|apply put_round; try done; lia].
  - rewrite (length_contents _ _ _ _ Hok) in Hroom. destruct Hok as [Hl Hc Hw Hr].
    unfold RWP_SAFE_INTERVAL in *. unfold ring_put, RWP_SAFE_INTERVAL. destruct (Z.leb_spec rp wp).
    all: rewrite !u32_id by zlia; by rewrite (proj2 (Z.leb_gt _ _)) by lia.
Qed.

(** ** The ring as a bounded queue *)

Definition queue (rb : RB_ST) : list Z := contents (storage rb) (capacity rb) (rb_wp rb) (rb_rp rb).
Definition ring_inv (rb : RB_ST) : Prop := ring_ok (storage rb) (capacity rb) (rb_wp rb) (rb_rp rb).

(** The calls of a client. *)
Inductive rb_op :=
  | OpWrite (buffer : list Z) (size count : Z)
  | OpRead (size count : Z)
  | OpClear
  | OpFill
  | OpFree.

(** What a call returns, the bytes it stores, and the ring. *)
Definition rb_step (rb : RB_ST) (op : rb_op) : res (Z * list Z * RB_ST) :=
  match op with
  | OpWrite buffer size count => '(n, rb') ← rb_write rb buffer size count; mret (n, [], rb')
  | OpRead size count => rb_read rb size count
  | OpClear => mret (0, [], rb_clear rb)
  | OpFill => mret (rb_get_fill_size rb, [], rb)
  | OpFree => mret (rb_get_free_size rb, [], rb)
  end.

Fixpoint rb_run (rb : RB_ST) (ops : list rb_op) : res (list (Z * list Z) * RB_ST) :=
  match ops with
  | [] => mret ([], rb)
  | op :: ops' =>
    '(n, bs, rb') ← rb_step rb op; '(outs, rb'') ← rb_run rb' ops'; mret ((n, bs) :: outs, rb'')
  end.

(** The queue: all or nothing goes in, what there is comes out. *)
Definition room (cap : Z) (q : list Z) : Z := Z.max 0 (cap - RWP_SAFE_INTERVAL - Z.of_nat (length q)).

Definition queue_step (cap : Z) (q : list Z) (op : rb_op) : Z * list Z * list Z :=
  match op with
  | OpWrite buffer size count =>
    let n := u32 (size * count) in
    if n <=? room cap q then (n, [], q ++ take (Z.to_nat n) buffer) else (0, [], q)
  | OpRead size count =>
    let k := Z.min (u32 (size * count)) (Z.of_nat (length q)) in
    (k, take (Z.to_nat k) q, drop (Z.to_nat k) q)
  | OpClear => (0, [], [])
  | OpFill => (Z.of_nat (length q), [], q)
  | OpFree => (room cap q, [], q)
  end.

Fixpoint queue_run (cap : Z) (q : list Z) (ops : list rb_op) : list (Z * list Z) * list Z :=
  match ops with
  | [] => ([], q)
  | op :: ops' =>
    let '(n, bs, q') := queue_step cap q op in
    let '(outs, q'') := queue_run cap q' ops' in ((n, bs) :: outs, q'')
  end.

(** The buffer of a write is as long as said, and shorter than 4 GiB less four bytes. *)
Definition op_ok (op : rb_op) : Prop :=
  match op with
  | OpWrite buffer size count =>
    u32 (size * count) <= Z.of_nat (length buffer) /\ u32 (size * count) + RWP_SAFE_INTERVAL < 2 ^ 32
  | _ => True
  end.

Lemma free_size_room a cap wp rp : ring_ok a cap wp rp -> free_size cap wp rp = room cap (contents a cap wp rp).
Proof.
  intros Hok. unfold room. rewrite (length_contents _ _ _ _ Hok). destruct Hok as [Hl Hc Hw Hr].
  unfold free_size, RWP_SAFE_INTERVAL. destruct (Z.leb_spec rp wp); rewrite u32_id by zlia; bdestr; lia.
Qed.

Lemma fill_size_length a cap wp rp : ring_ok a cap wp rp ->
  fill_size cap wp rp = Z.of_nat (length (contents a cap wp rp)).
Proof.
  intros Hok. rewrite (length_contents _ _ _ _ Hok). destruct Hok as [Hl Hc Hw Hr].
  unfold fill_size. destruct (Z.leb_spec rp wp); apply u32_id; zlia.
Qed.

Lemma rb_step_spec rb op : ring_inv rb -> op_ok op ->
  exists rb', rb_step rb op = Val (fst (fst (queue_step (capacity rb) (queue rb) op)),
      snd (fst (queue_step (capacity rb) (queue rb) op)), rb') /\
    ring_inv rb' /\ capacity rb' = capacity rb /\ queue rb' = snd (queue_step (capacity rb) (queue rb) op).
Proof.
  intros Hok Hop. destruct rb as [a cap wp rp]. destruct op as [buf size count|size count| | |]; cbn [rb_step queue_step].
  - destruct Hop as [Hb Hn]. cbn [capacity]. unfold rb_write. pose proof (u32_range (size * count)) as Hr.
    set (n := u32 (size * count)) in *. destruct (Z.eqb_spec n 0) as [E|E].
    + rewrite E, (proj2 (Z.leb_le 0 _)) by (unfold room; lia). change (Z.to_nat 0) with 0%nat.
      rewrite take_0, app_nil_r. by eexists.
    + pose proof (ring_put_spec a cap wp rp buf n Hok ltac:(unfold is_u32 in Hr; lia) Hn Hb) as Hput.
      cbn [storage capacity rb_wp rb_rp].
      change (contents a cap wp rp) with (queue (Rb a cap wp rp)) in Hput. set (q := queue (Rb a cap wp rp)) in *.
      replace (n <=? room cap q) with (n + RWP_SAFE_INTERVAL <=? cap - Z.of_nat (length q))
        by (unfold is_u32, room, RWP_SAFE_INTERVAL in *; bdestr; lia).
      destruct (n + RWP_SAFE_INTERVAL <=? cap - Z.of_nat (length q)); [|rewrite Hput; by eexists].
      destruct Hput as (a' & wp' & -> & Hok' & Hq'). destruct (contents_wrap _ _ _ _ Hok') as [Hok'' Hq''].
      eexists. split; [reflexivity|]. split_and!; [done|done|].
      unfold queue. cbn [storage capacity rb_wp rb_rp fst snd]. by rewrite Hq''.
  - unfold rb_read. pose proof (u32_range (size * count)) as Hr. set (n := u32 (size * count)) in *.
    destruct (Z.eqb_spec n 0) as [->|E].
    + rewrite Z.min_l by lia. by eexists.
    + destruct (ring_take_spec a cap wp rp n Hok ltac:(unfold is_u32 in Hr; lia)) as (rp' & He & Hok' & Hq').
      cbn [storage capacity rb_wp rb_rp]. rewrite He. by eexists.
  - eexists. split; [reflexivity|]. destruct Hok as [Hl Hc Hw Hr]. cbn in *. split_and!; [split; cbn; lia|done|done].
  - unfold rb_get_fill_size. rewrite (fill_size_length a) by done. by eexists.
  - unfold rb_get_free_size. rewrite (free_size_room a) by done. by eexists.
Qed.

(** C28: a ring is a bounded first-in first-out queue: every sequence of
    writes, reads, clears and size queries on it returns what the same sequence
    on a queue of [capacity] less four bytes returns, and leaves the ring
    well-formed with the bytes of that queue; no call reads or writes outside
    the storage. *)
Theorem ring_refines_queue rb ops : ring_inv rb -> Forall op_ok ops ->
  exists rb', rb_run rb ops = Val (fst (queue_run (capacity rb) (queue rb) ops), rb') /\
    ring_inv rb' /\ queue rb' = snd (queue_run (capacity rb) (queue rb) ops).
Proof.
  revert rb. induction ops as [|op ops IH]; intros rb Hinv Hops; [by eexists|].
  inversion_clear Hops as [|? ? Hop Hops'].
  destruct (rb_step_spec rb op Hinv Hop) as (rb1 & He & Hinv1 & Hcap & Hq).
  destruct (IH rb1 Hinv1 Hops') as (rb2 & He2 & Hinv2 & Hq2). rewrite Hcap, Hq in He2, Hq2.
  exists rb2. cbn [rb_run queue_run]. rewrite He. cbn [mbind res_bind]. rewrite He2. cbn [mbind res_bind].
  destruct (queue_step (capacity rb) (queue rb) op) as [[n bs] q']. cbn [fst snd] in *.
  by destruct (queue_run (capacity rb) q' ops).
Qed.

(** The room that a write asks for is computed in 32 bits: a length in
    the last four values of a 32-bit word passes the test of any ring with
    three bytes free, and the copy leaves the storage or the buffer. *)
Theorem ring_write_overflow rb buffer size count :
  ring_inv rb -> capacity rb < 2 ^ 31 - 2 ->
  2 ^ 32 - RWP_SAFE_INTERVAL <= u32 (size * count) ->
  RWP_SAFE_INTERVAL - 1 <= capacity rb - Z.of_nat (length (queue rb)) ->
  rb_write rb buffer size count = Err BadAccess.
Proof.
  intros Hok Hcap Hn Hroom. destruct rb as [a cap wp rp]. unfold queue in Hroom. cbn in *.
  rewrite (length_contents a cap wp rp Hok) in Hroom. destruct Hok as [Hl Hc Hw Hr]. cbn in Hl, Hc, Hw, Hr.
  pose proof (u32_range (size * count)) as Hu. unfold rb_write. cbn [storage capacity rb_wp rb_rp].
  set (n := u32 (size * count)) in *. clearbody n. unfold is_u32, RWP_SAFE_INTERVAL in *.
  rewrite (proj2 (Z.eqb_neq _ _)) by lia. unfold ring_put, RWP_SAFE_INTERVAL.
  destruct (Z.leb_spec rp wp).
  - replace (u32 (n + 4) <=? u32 (cap - wp + rp)) with true by (symmetry; apply Z.leb_le; zlia).
    rewrite (u32_id (cap - wp)) by zlia. rewrite (proj2 (Z.leb_gt _ _)) by lia.
    rewrite (u32_id (n - (cap - wp))) by zlia.
    destruct (mem_read_cases buffer 0 (cap - wp)) as [(_ & _ & Hb & ->)| ->]; [|done]. cbn [mbind res_bind].
    rewrite mem_write_val by (rewrite ?length_slice; lia). cbn [mbind res_bind].
    destruct (mem_read_cases buffer (cap - wp) (n - (cap - wp))) as [(_ & _ & Hb' & ->)| ->]; [|done].
    cbn [mbind res_bind]. by rewrite mem_write_out by (rewrite length_splice; rewrite ?length_slice; lia).
  - replace (u32 (n + 4) <=? u32 (rp - wp)) with true by (symmetry; apply Z.leb_le; zlia).
    destruct (mem_read_cases buffer 0 n) as [(_ & _ & Hb & ->)| ->]; [|done]. cbn [mbind res_bind].
    by rewrite mem_write_out by (rewrite length_slice; lia).
Qed.

(** ** The controller at one end *)

Section dma_facts.
Context {hw : Type} `{GdmaRegs hw}.
Implicit Types s : gdma_st hw.

(** The control command of the driver, with the parameter on the stack at [p]. *)
Definition dma_ctrl (p : Z) (cmd : gdma_cmd) (ch param : Z) : M (gdma_st hw) Z :=
  gdma_ctrl true 0 cmd (PCfg p (GdmaCfg param ch)).

Lemma dma_get_dst p ch param s : p <> 0 ->
  dma_ctrl p CMD_GDMA_GET_DST_WRITE_ADDR ch param s =
    Val (reg (g_hw s) (chan_reg4 GENER_DMA0_REG58_DST_WR_ADDR ch), s).
Proof.
  intros Hp. unfold dma_ctrl, gdma_ctrl, parm_addr. eapply bind_val.
  { unfold truthy. by rewrite (proj2 (Z.eqb_neq _ _)). }
  cbv beta. eapply bind_val; [reflexivity|]. unfold gdma_get_dest_write_addr, REG_READ. rewrite reg_read. by destruct s.
Qed.

Lemma dma_get_src p ch param s : p <> 0 ->
  dma_ctrl p CMD_GDMA_GET_SRC_READ_ADDR ch param s =
    Val (reg (g_hw s) (chan_reg4 GENER_DMA0_REG50_SRC_RD_ADDR ch), s).
Proof.
  intros Hp. unfold dma_ctrl, gdma_ctrl, parm_addr. eapply bind_val.
  { unfold truthy. by rewrite (proj2 (Z.eqb_neq _ _)). }
  cbv beta. eapply bind_val; [reflexivity|]. unfold gdma_get_src_read_addr, REG_READ. rewrite reg_read. by destruct s.
Qed.

(** Setting a pause address changes that register alone. *)
Lemma dma_set_pause p (dst : bool) ch v s : p <> 0 -> 0 <= ch < 6 ->
  let r := chan_reg4 (if dst then GENER_DMA0_REG48_DST_PAUSE_ADDR else GENER_DMA0_REG40_SRC_PAUSE_ADDR) ch in
  exists s', dma_ctrl p (if dst then CMD_GDMA_SET_DST_PAUSE_ADDR else CMD_GDMA_SET_SRC_PAUSE_ADDR) ch v s = Val (ICU_SUCCESS, s') /\
    forall a, reg (g_hw s') a = if a =? r then v else reg (g_hw s) a.
Proof.
  intros Hp Hch r. assert (Hr : r <> GENER_DMA_REG38_DMA_INT_STATUS).
  { subst r. unfold chan_reg4, GENER_DMA0_REG48_DST_PAUSE_ADDR, GENER_DMA0_REG40_SRC_PAUSE_ADDR,
      GENER_DMA_REG38_DMA_INT_STATUS, GENER_DMA_BASE. clear -Hch. destruct dst; zlia. }
  exists (GdmaSt (bus_write r v (g_hw s)) (p_dma_fin_handler s) (p_dma_hfin_handler s)). split.
  - unfold dma_ctrl, gdma_ctrl, parm_addr. eapply bind_val.
    { unfold truthy. by rewrite (proj2 (Z.eqb_neq _ _)). }
    by destruct dst.
  - intros a. cbn [g_hw]. rewrite reg_write. by rewrite (proj2 (Z.eqb_neq r _) Hr).
Qed.

(** The ring as the controller and the client see it: positions from the
    registers of the controller, the rest from the record. *)
Definition dma_queue (rb : RB_DMA_ST) (wp rp : Z) : list Z := contents (storage (ring rb)) (capacity (ring rb)) wp rp.
Definition dma_ok (rb : RB_DMA_ST) (wp rp : Z) : Prop :=
  ring_ok (storage (ring rb)) (capacity (ring rb)) wp rp /\ 0 <= dma_base rb /\
  dma_base rb + capacity (ring rb) < 2 ^ 32 /\ RWP_SAFE_INTERVAL <= capacity (ring rb) /\ 0 <= dma_ch rb < 6.

(** A read of a ring that the controller fills takes the oldest of the
    bytes between the read position and the controller's write position, and
    sets the destination pause address of the channel to four bytes behind the
    new read position, round the end of the ring; no other register changes. *)
Theorem dma_read_takes_and_pauses rb p size count param s :
  let wp := reg (g_hw s) (chan_reg4 GENER_DMA0_REG58_DST_WR_ADDR (dma_ch rb)) - dma_base rb in
  let q := dma_queue rb wp (rb_rp (ring rb)) in
  let k := Z.min (u32 (size * count)) (Z.of_nat (length q)) in
  dma_ok rb wp (rb_rp (ring rb)) -> p <> 0 -> u32 (size * count) <> 0 ->
  exists rp' s', rb_read_dma_write (dma_ctrl p) rb size count param s =
      Val (k, take (Z.to_nat k) q, with_pos rb wp rp', s') /\
    dma_ok rb wp rp' /\ dma_queue rb wp rp' = drop (Z.to_nat k) q /\
    (forall a, reg (g_hw s') a =
      if a =? chan_reg4 GENER_DMA0_REG48_DST_PAUSE_ADDR (dma_ch rb)
      then dma_base rb + (rp' - RWP_SAFE_INTERVAL) mod capacity (ring rb) else reg (g_hw s) a).
Proof.
  intros wp q k (Hok & Hb & Hbc & Hcap & Hch) Hp Hn. pose proof (u32_range (size * count)) as Hr.
  unfold rb_read_dma_write. rewrite (proj2 (Z.eqb_neq _ 0)) by done.
  destruct (ring_take_spec _ _ _ _ (u32 (size * count)) Hok ltac:(unfold is_u32 in Hr; lia)) as (rp' & Hrd & Hok' & Hq').
  fold (dma_queue rb wp (rb_rp (ring rb))) in Hrd, Hq'. fold q in Hrd, Hq'. fold k in Hrd, Hq'.
  destruct (dma_set_pause p true (dma_ch rb) (dma_base rb + (rp' - RWP_SAFE_INTERVAL) mod capacity (ring rb)) s Hp Hch)
    as (s' & Hs & Hreg).
  exists rp', s'. split_and!; [|done..].
  eapply bind_val.
  { unfold get_dma_wp. eapply bind_val; [by apply dma_get_dst|]. cbv beta.
    rewrite u32_id by (pose proof (ok_wp _ _ _ _ Hok) as Hwp; subst wp; clear -Hb Hbc Hwp; zlia). reflexivity. }
  cbv beta. fold wp. eapply bind_val; [unfold lift_res; rewrite Hrd; reflexivity|]. cbv beta iota.
  eapply bind_val; [|reflexivity]. rewrite <- Hs. f_equal.
  destruct Hok' as [_ Hc _ Hr']. unfold RWP_SAFE_INTERVAL in *. set (cap := capacity (ring rb)) in *.
  destruct (Z.leb_spec 4 rp').
  - rewrite (Z.mod_small (rp' - 4)) by lia. rewrite u32_id; [lia|]. unfold is_u32. lia.
  - replace ((rp' - 4) mod cap) with (rp' - 4 + cap).
    2: { symmetry. rewrite <- (Z_mod_plus_full _ 1), Z.mul_1_l. apply Z.mod_small. lia. }
    rewrite u32_id; [lia|]. unfold is_u32. lia.
Qed.

(** A write to a ring that the controller empties appends the whole
    buffer, when four bytes stay free before the controller's read position,
    and moves the source pause address of the channel to the new write
    position; else it changes neither the ring's bytes nor a register. *)
Theorem dma_write_appends_and_pauses rb p buffer size count s :
  let rp := reg (g_hw s) (chan_reg4 GENER_DMA0_REG50_SRC_RD_ADDR (dma_ch rb)) - dma_base rb in
  let n := u32 (size * count) in
  let q := dma_queue rb (rb_wp (ring rb)) rp in
  dma_ok rb (rb_wp (ring rb)) rp -> p <> 0 -> op_ok (OpWrite buffer size count) -> n <> 0 ->
  exists m rb' s', rb_write_dma_read (dma_ctrl p) rb buffer size count s = Val (m, rb', s') /\
    dma_ok rb' (rb_wp (ring rb')) rp /\ rb_rp (ring rb') = rp /\
    if n <=? room (capacity (ring rb)) q
    then m = n /\ dma_queue rb' (rb_wp (ring rb')) rp = q ++ take (Z.to_nat n) buffer /\
      (forall a, reg (g_hw s') a =
        if a =? chan_reg4 GENER_DMA0_REG40_SRC_PAUSE_ADDR (dma_ch rb)
        then dma_base rb + rb_wp (ring rb') else reg (g_hw s) a)
    else m = 0 /\ rb' = with_pos rb (rb_wp (ring rb)) rp /\ s' = s.
Proof.
  intros rp n q (Hok & Hb & Hbc & Hcap & Hch) Hp [Hlen Hn4] Hn. pose proof (u32_range (size * count)) as Hr.
  fold n in Hlen, Hn4, Hr. unfold is_u32 in Hr.
  pose proof (ring_put_spec _ _ _ _ buffer n Hok ltac:(clear -Hr Hn; lia) Hn4 Hlen) as Hput.
  change (contents _ _ _ _) with q in Hput.
  assert (Hget : get_dma_rp (dma_ctrl p) rb 0 s = Val (rp, s)).
  { unfold get_dma_rp. eapply bind_val; [by apply dma_get_src|]. cbv beta.
    rewrite u32_id by (pose proof (ok_rp _ _ _ _ Hok) as Hrp; subst rp; clear -Hb Hbc Hrp; zlia). reflexivity. }
  replace (n + RWP_SAFE_INTERVAL <=? capacity (ring rb) - Z.of_nat (length q))
    with (n <=? room (capacity (ring rb)) q) in Hput
    by (unfold room, RWP_SAFE_INTERVAL in *; clear -Hr Hn; clearbody n q; bdestr; lia).
  unfold rb_write_dma_read. fold n. rewrite (proj2 (Z.eqb_neq _ 0)) by done.
  destruct (n <=? room (capacity (ring rb)) q).
  - destruct Hput as (a' & wp' & Hput & Hok' & Hq'). destruct (contents_wrap _ _ _ _ Hok') as [Hok'' Hq''].
    set (wp'' := wrap_wp (capacity (ring rb)) wp' rp) in *.
    destruct (dma_set_pause p false (dma_ch rb) (dma_base rb + wp'') s Hp Hch) as (s' & Hs & Hreg).
    exists n, (RbDma (Rb a' (capacity (ring rb)) wp'' rp) (dma_base rb) (dma_ch rb)), s'.
    split_and!; [|done|done|done| |done].
    + eapply bind_val; [exact Hget|]. cbv beta.
      eapply bind_val; [unfold lift_res; rewrite Hput; reflexivity|]. cbv beta iota zeta. fold wp''.
      eapply bind_val; [|reflexivity]. rewrite <- Hs. f_equal. apply u32_id.
      pose proof (ok_wp _ _ _ _ Hok''). unfold is_u32. lia.
    + unfold dma_queue. cbn [ring storage capacity rb_wp]. by rewrite Hq''.
  - exists 0, (with_pos rb (rb_wp (ring rb)) rp), s. split_and!; try done.
    eapply bind_val; [exact Hget|]. cbv beta.
    eapply bind_val; [unfold lift_res; rewrite Hput; reflexivity|]. reflexivity.
Qed.
End dma_facts.

(** ** Concrete rings *)

Definition demo_ring : RB_ST := Rb [1; 2; 3; 4; 5; 6; 7; 8] 8 6 2.

Lemma ring_refines_queue_witness :
  exists rb', rb_run demo_ring [OpRead 1 3; OpWrite [21; 22; 23] 1 3; OpWrite [31] 1 1; OpFill; OpFree; OpRead 2 5] =
      Val ([(3, [3; 4; 5]); (3, []); (0, []); (4, []); (0, []); (4, [6; 21; 22; 23])], rb') /\
    ring_inv rb' /\ queue rb' = [].
Proof.
  apply (ring_refines_queue demo_ring
    [OpRead 1 3; OpWrite [21; 22; 23] 1 3; OpWrite [31] 1 1; OpFill; OpFree; OpRead 2 5]).
  - split; cbn; lia.
  - repeat constructor.
    all: try (vm_compute; discriminate).
Defined.

Lemma ring_write_overflow_witness :
  rb_write demo_ring [9; 9] 65536 65535 = Val (0, demo_ring) /\
  rb_write demo_ring [9; 9] 1 4294967293 = Err BadAccess.
Proof.
  split; [reflexivity|]. apply (ring_write_overflow demo_ring [9; 9] 1 4294967293).
  - split; cbn; lia.
  - done.
  - done.
  - done.
Defined.

Definition demo_dma : RB_DMA_ST := RbDma demo_ring 0x400000 1.

(** Channel 1 stands at offset 6 for the reader of a filled ring, at offset 2
    for the writer of an emptied one. *)
Definition demo_regs : gdma_st regfile :=
  GdmaSt (RegFile (fun a =>
    if a =? chan_reg4 GENER_DMA0_REG58_DST_WR_ADDR 1 then 0x400006
    else if a =? chan_reg4 GENER_DMA0_REG50_SRC_RD_ADDR 1 then 0x400002 else 0) []) [0; 0; 0; 0; 0; 0] [0; 0; 0; 0; 0; 0].

Lemma demo_dma_ok : dma_ok demo_dma 6 2.
Proof. unfold dma_ok, RWP_SAFE_INTERVAL. repeat split; cbn; lia. Qed.

Lemma demo_dma_ok' : dma_ok (with_pos demo_dma 3 0) 3 2.
Proof. unfold dma_ok, RWP_SAFE_INTERVAL. repeat split; cbn; lia. Qed.

Lemma dma_read_takes_and_pauses_witness :
  exists rp' s', rb_read_dma_write (dma_ctrl 0x1000) demo_dma 1 3 0 demo_regs =
      Val (3, [3; 4; 5], with_pos demo_dma 6 rp', s') /\
    dma_ok demo_dma 6 rp' /\ dma_queue demo_dma 6 rp' = [6] /\
    (forall a, reg (g_hw s') a =
      if a =? chan_reg4 GENER_DMA0_REG48_DST_PAUSE_ADDR 1
      then 0x400000 + (rp' - 4) mod 8 else reg (g_hw demo_regs) a).
Proof.
  destruct (dma_read_takes_and_pauses demo_dma 0x1000 1 3 0 demo_regs) as (rp' & s' & He & Hok & Hq & Hr);
    [exact demo_dma_ok|done|done|].
  exists rp', s'. split_and!; [exact He|exact Hok|exact Hq|exact Hr].
Defined.

Lemma dma_write_appends_and_pauses_witness :
  exists m rb' s', rb_write_dma_read (dma_ctrl 0x1000) (with_pos demo_dma 3 0) [9; 10; 11] 1 3 demo_regs = Val (m, rb', s') /\
    dma_ok rb' (rb_wp (ring rb')) 2 /\ rb_rp (ring rb') = 2 /\
    m = 3 /\ dma_queue rb' (rb_wp (ring rb')) 2 = [3; 9; 10; 11] /\
    (forall a, reg (g_hw s') a =
      if a =? chan_reg4 GENER_DMA0_REG40_SRC_PAUSE_ADDR 1
      then 0x400000 + rb_wp (ring rb') else reg (g_hw demo_regs) a).
Proof.
  destruct (dma_write_appends_and_pauses (with_pos demo_dma 3 0) 0x1000 [9; 10; 11] 1 3 demo_regs)
    as (m & rb' & s' & He & Hok & Hrp & Hm & Hq & Hr); [exact demo_dma_ok'|done| |done|].
  - split; [vm_compute; discriminate|done].
  - exists m, rb', s'. split_and!; [exact He|exact Hok|exact Hrp|exact Hm|exact Hq|exact Hr].
Defined.
