(* ===== verification/MultiButton.v ===== *)
(** * Buttons (components/key/multi_button.c, the GPIO buttons of key_main.c)

    Buttons are structures on the heap, linked into a list that a timer walks
    every 5 ms: each is debounced and its state machine advanced, which calls
    the callbacks of the application.  The list is guarded by a mutex that its
    holder cannot take twice. *)
From stdpp Require Import gmap.
From S2P Require Import Prelude.
Local Open Scope Z_scope.

Definition TICKS_INTERVAL : Z := 5.
Definition DEBOUNCE_TICKS : Z := 6.
Definition SHORT_TICKS : Z := 400 / TICKS_INTERVAL.
Definition LONG_TICKS : Z := 1000 / TICKS_INTERVAL.

Inductive PRESS_EVT :=
  | PRESS_DOWN | PRESS_UP | PRESS_REPEAT | SINGLE_CLICK | DOUBLE_CLICK
  | LONG_PRESS_START | LONG_PRESS_HOLD | NONE_PRESS.

#[export] Instance press_evt_eq_dec : EqDecision PRESS_EVT.
Proof. solve_decision. Defined.

Definition number_of_event : Z := 7.
Definition evt_num (e : PRESS_EVT) : Z :=
  match e with
  | PRESS_DOWN => 0 | PRESS_UP => 1 | PRESS_REPEAT => 2 | SINGLE_CLICK => 3 | DOUBLE_CLICK => 4
  | LONG_PRESS_START => 5 | LONG_PRESS_HOLD => 6 | NONE_PRESS => 8
  end.

(** The fields that the state machine changes: [ticks] has 16 bits, [repeat]
    and [event] 4, [state] and [debounce_cnt] 3, [button_level] 1. *)
Record machine := Machine {
  ticks : Z; repeat : Z; event : Z; bstate : Z; debounce_cnt : Z; button_level : Z;
}.

(** Pointers are addresses, 0 the null pointer. *)
Record BUTTON_S := Button {
  mach : machine;
  active_level : Z;
  user_data : Z;
  hal_button_Level : Z;
  cb : list Z;
  next : Z;
}.

Definition set_mach (m : machine) (b : BUTTON_S) : BUTTON_S :=
  Button m (active_level b) (user_data b) (hal_button_Level b) (cb b) (next b).
Definition set_next (n : Z) (b : BUTTON_S) : BUTTON_S :=
  Button (mach b) (active_level b) (user_data b) (hal_button_Level b) (cb b) n.
Definition set_cb (c : list Z) (b : BUTTON_S) : BUTTON_S :=
  Button (mach b) (active_level b) (user_data b) (hal_button_Level b) c (next b).

Definition set_ticks (v : Z) (m : machine) : machine :=
  Machine v (repeat m) (event m) (bstate m) (debounce_cnt m) (button_level m).
Definition set_repeat (v : Z) (m : machine) : machine :=
  Machine (ticks m) v (event m) (bstate m) (debounce_cnt m) (button_level m).
Definition set_event (e : PRESS_EVT) (m : machine) : machine :=
  Machine (ticks m) (repeat m) (evt_num e) (bstate m) (debounce_cnt m) (button_level m).
Definition set_bstate (v : Z) (m : machine) : machine :=
  Machine (ticks m) (repeat m) (event m) v (debounce_cnt m) (button_level m).
Definition set_debounce_cnt (v : Z) (m : machine) : machine :=
  Machine (ticks m) (repeat m) (event m) (bstate m) v (button_level m).
Definition set_button_level (v : Z) (m : machine) : machine :=
  Machine (ticks m) (repeat m) (event m) (bstate m) (debounce_cnt m) v.

(** The memory of buttons, the head of the list, the mutex, and the rest of
    the world, which the levels come from and the callbacks act on. *)
Record btn_st (E : Type) := BtnSt {
  heap : gmap Z BUTTON_S;
  head_handle : Z;
  g_key_mutex : bool;
  ext : E;
}.
Arguments BtnSt {E}. Arguments heap {E}. Arguments head_handle {E}. Arguments g_key_mutex {E}. Arguments ext {E}.

Section button.
Context {E : Type}.
Abbreviation st := (btn_st E).

Definition set_heap (h : gmap Z BUTTON_S) (s : st) : st := BtnSt h (head_handle s) (g_key_mutex s) (ext s).
Definition set_head (p : Z) (s : st) : st := BtnSt (heap s) p (g_key_mutex s) (ext s).
Definition set_mutex (b : bool) (s : st) : st := BtnSt (heap s) (head_handle s) b (ext s).
Definition set_ext (e : E) (s : st) : st := BtnSt (heap s) (head_handle s) (g_key_mutex s) e.

(** [handle->...] *)
Definition get_btn (handle : Z) : M st BUTTON_S :=
  s ← get; lift_res (of_option BadAccess (heap s !! handle)).
Definition set_btn (handle : Z) (b : BUTTON_S) : M st unit :=
  _ ← get_btn handle; modify (fun s => set_heap (<[handle := b]> (heap s)) s).
Definition upd_mach (handle : Z) (f : machine -> machine) : M st unit :=
  b ← get_btn handle; set_btn handle (set_mach (f (mach b)) b).

(** The mutex is not recursive: its holder waits for ever. *)
Definition rtos_lock_mutex : M st unit :=
  s ← get; if g_key_mutex s then fail Deadlock else put (set_mutex true s).
Definition rtos_unlock_mutex : M st unit := modify (set_mutex false).

(** A read of the level of a button, and a callback, by function pointers. *)
Context (call_level : Z -> Z -> M st Z) (call_cb : Z -> Z -> M st unit).

Definition button_init (handle pin_level level udata : Z) : M st unit :=
  set_btn handle (Button (Machine 0 0 0 0 0 0) 0 0 0 (replicate 7 0) 0);;
  upd_mach handle (set_event NONE_PRESS);;
  b ← get_btn handle;
  set_btn handle (Button (mach b) (level mod 2) udata pin_level (cb b) (next b));;
  b ← get_btn handle;
  v ← call_level (hal_button_Level b) handle;
  upd_mach handle (set_button_level (v mod 2)).

(** Only the first seven values of the enumeration have a slot. *)
Definition button_attach (handle : Z) (e : PRESS_EVT) (f : Z) : M st unit :=
  b ← get_btn handle;
  if evt_num e <? number_of_event
  then set_btn handle (set_cb (<[Z.to_nat (evt_num e) := f]> (cb b)) b) else fail BadAccess.

Definition button_get_event (handle : Z) : M st Z := b ← get_btn handle; mret (event (mach b)).

(** [EVENT_CB(ev)] *)
Definition EVENT_CB (handle : Z) (e : PRESS_EVT) : M st unit :=
  b ← get_btn handle;
  f ← lift_res (of_option BadAccess (cb b !! Z.to_nat (evt_num e)));
  when (truthy f) (call_cb f handle).

(** [handle->event = ev; EVENT_CB(ev);] *)
Definition raise (handle : Z) (e : PRESS_EVT) : M st unit :=
  upd_mach handle (set_event e);; EVENT_CB handle e.

(** The state machine, once the level is debounced. *)
Definition button_switch (handle : Z) : M st unit :=
  b ← get_btn handle;
  let pressed := button_level (mach b) =? active_level b in
  if bstate (mach b) =? 0 then
    if pressed then
      raise handle PRESS_DOWN;;
      upd_mach handle (set_ticks 0);;
      upd_mach handle (set_repeat 1);;
      upd_mach handle (set_bstate 1)
    else upd_mach handle (set_event NONE_PRESS)
  else if bstate (mach b) =? 1 then
    if negb pressed then
      raise handle PRESS_UP;;
      upd_mach handle (set_ticks 0);;
      upd_mach handle (set_bstate 2)
    else when (LONG_TICKS <? ticks (mach b)) (
      raise handle LONG_PRESS_START;;
      upd_mach handle (set_bstate 5))
  else if bstate (mach b) =? 2 then
    if pressed then
      raise handle PRESS_DOWN;;
      b ← get_btn handle;
      upd_mach handle (set_repeat ((repeat (mach b) + 1) mod 16));;
      b ← get_btn handle;
      when (repeat (mach b) =? 2) (EVENT_CB handle DOUBLE_CLICK);;
      EVENT_CB handle PRESS_REPEAT;;
      upd_mach handle (set_ticks 0);;
      upd_mach handle (set_bstate 3)
    else when (SHORT_TICKS <? ticks (mach b)) (
      (if repeat (mach b) =? 1 then raise handle SINGLE_CLICK
       else when (repeat (mach b) =? 2) (upd_mach handle (set_event DOUBLE_CLICK)));;
      upd_mach handle (set_bstate 0))
  else if bstate (mach b) =? 3 then
    when (negb pressed) (
      raise handle PRESS_UP;;
      b ← get_btn handle;
      if ticks (mach b) <? SHORT_TICKS then
        upd_mach handle (set_ticks 0);;
        upd_mach handle (set_bstate 2)
      else upd_mach handle (set_bstate 0))
  else if bstate (mach b) =? 5 then
    if pressed then raise handle LONG_PRESS_HOLD
    else raise handle PRESS_UP;; upd_mach handle (set_bstate 0)
  else mret tt.

Definition button_handler (handle : Z) : M st unit :=
  b ← get_btn handle;
  read_gpio_level ← call_level (hal_button_Level b) handle;
  b ← get_btn handle;
  when (0 <? bstate (mach b)) (upd_mach handle (set_ticks (u16 (ticks (mach b) + 1))));;
  b ← get_btn handle;
  (if negb (read_gpio_level =? button_level (mach b)) then
     let cnt := (debounce_cnt (mach b) + 1) mod 8 in
     upd_mach handle (set_debounce_cnt cnt);;
     when (DEBOUNCE_TICKS <=? cnt) (
       upd_mach handle (set_button_level (read_gpio_level mod 2));;
       upd_mach handle (set_debounce_cnt 0))
   else upd_mach handle (set_debounce_cnt 0));;
  button_switch handle.

(** ** The list *)

(** [while(target) { if(target == handle) ...; target = target->next; }]:
    whether the button is in the list. *)
Fixpoint start_loop (fuel : nat) (handle target : Z) : M st bool :=
  match fuel with
  | O => fail NoFuel
  | S fuel' =>
    if truthy target then
      if target =? handle then mret true
      else b ← get_btn target; start_loop fuel' handle (next b)
    else mret false
  end.

(** More turns than the memory has buttons. *)
Definition list_fuel : M st nat := s ← get; mret (S (size (heap s))).

Definition button_start (handle : Z) : M st Z :=
  rtos_lock_mutex;;
  fuel ← list_fuel;
  s ← get;
  found ← start_loop fuel handle (head_handle s);
  if (found : bool) then rtos_unlock_mutex;; mret (-1)
  else
    s ← get;
    b ← get_btn handle;
    set_btn handle (set_next (head_handle s) b);;
    modify (set_head handle);;
    rtos_unlock_mutex;;
    mret 0.

(** [curr] points to the head of the list ([None]) or to a [next] member. *)
Definition get_link (curr : option Z) : M st Z :=
  match curr with
  | None => s ← get; mret (head_handle s)
  | Some p => b ← get_btn p; mret (next b)
  end.
Definition set_link (curr : option Z) (v : Z) : M st unit :=
  match curr with
  | None => modify (set_head v)
  | Some p => b ← get_btn p; set_btn p (set_next v b)
  end.

Fixpoint stop_loop (fuel : nat) (handle : Z) (curr : option Z) : M st unit :=
  match fuel with
  | O => fail NoFuel
  | S fuel' =>
    entry ← get_link curr;
    if truthy entry then
      if entry =? handle then
        e ← get_btn entry; set_link curr (next e);; stop_loop fuel' handle curr
      else stop_loop fuel' handle (Some entry)
    else mret tt
  end.

Definition button_stop (handle : Z) : M st unit :=
  rtos_lock_mutex;; fuel ← list_fuel; stop_loop fuel handle None;; rtos_unlock_mutex.

Fixpoint find_loop (fuel : nat) (udata entry : Z) : M st Z :=
  match fuel with
  | O => fail NoFuel
  | S fuel' =>
    if truthy entry then
      b ← get_btn entry;
      if user_data b =? udata then mret entry else find_loop fuel' udata (next b)
    else mret entry
  end.

Definition button_find_with_user_data (udata : Z) : M st Z :=
  rtos_lock_mutex;;
  fuel ← list_fuel;
  s ← get;
  entry ← find_loop fuel udata (head_handle s);
  rtos_unlock_mutex;;
  mret entry.

Fixpoint ticks_loop (fuel : nat) (target : Z) : M st unit :=
  match fuel with
  | O => fail NoFuel
  | S fuel' =>
    if truthy target then
      button_handler target;; b ← get_btn target; ticks_loop fuel' (next b)
    else mret tt
  end.

Definition button_ticks : M st unit :=
  rtos_lock_mutex;;
  fuel ← list_fuel;
  s ← get;
  ticks_loop fuel (head_handle s);;
  rtos_unlock_mutex.

(** ** Keys on a GPIO (key_main.c, USING_DEMO_BOARD) *)

Definition kNoErr : Z := 0.
Definition kNoMemoryErr : Z := -6728.
Definition kGeneralErr : Z := -1.

(** [os_malloc] gives an address or null; the bytes there are anything. *)
Context (os_malloc : gmap Z BUTTON_S -> Z) (junk : BUTTON_S) (gpio_config : Z -> M st unit)
  (key_get_gpio_value : Z).

Definition malloc_button : M st Z :=
  s ← get;
  let p := os_malloc (heap s) in
  when (truthy p) (put (set_heap (<[p := junk]> (heap s)) s));;
  mret p.
Definition os_free (p : Z) : M st unit := modify (fun s => set_heap (delete p (heap s)) s).

Definition key_item_configure (gpio short_press double_press long_press hold_press : Z) : M st Z :=
  handle ← malloc_button;
  if negb (truthy handle) then mret kNoMemoryErr
  else
    rtos_lock_mutex;;
    gpio_config gpio;;
    button_init handle key_get_gpio_value 0 gpio;;
    button_attach handle SINGLE_CLICK short_press;;
    button_attach handle DOUBLE_CLICK double_press;;
    button_attach handle LONG_PRESS_START long_press;;
    button_attach handle LONG_PRESS_HOLD hold_press;;
    rtos_unlock_mutex;;
    result ← button_start handle;
    if result <? 0 then os_free handle;; mret kGeneralErr
    else mret kNoErr.

Fixpoint unconfigure_loop (fuel : nat) (gpio : Z) : M st unit :=
  match fuel with
  | O => fail NoFuel
  | S fuel' =>
    handle ← button_find_with_user_data gpio;
    if negb (truthy handle) then mret tt
    else button_stop handle;; os_free handle;; unconfigure_loop fuel' gpio
  end.

Definition key_item_unconfigure (gpio : Z) : M st Z :=
  fuel ← list_fuel; unconfigure_loop fuel gpio;; mret kNoErr.
End button.
