(* ===== verification/ButtonCorrect.v ===== *)
(** * Buttons: gestures, the list of buttons, and keys

    The handler is run as a function from the state of one button and a sample
    to the new state and its events ([press_step]); gestures are runs of that
    function.  The linked list is related to a list of addresses ([btn_list]). *)
From stdpp Require Import gmap.
From S2P Require Import Prelude MultiButton.
Local Open Scope Z_scope.

(** ** One tick of one button, as a function *)

Definition debounce (lv dc l : Z) : Z * Z :=
  if l =? lv then (lv, 0)
  else let c := (dc + 1) mod 8 in if DEBOUNCE_TICKS <=? c then (l mod 2, 0) else (lv, c).

(** The state machine once the level is known: the events in the order of
    their callbacks. *)
Definition advance (act : Z) (m : machine) : machine * list PRESS_EVT :=
  let pressed := button_level m =? act in
  if bstate m =? 0 then
    if pressed then (set_bstate 1 (set_repeat 1 (set_ticks 0 (set_event PRESS_DOWN m))), [PRESS_DOWN])
    else (set_event NONE_PRESS m, [])
  else if bstate m =? 1 then
    if negb pressed then (set_bstate 2 (set_ticks 0 (set_event PRESS_UP m)), [PRESS_UP])
    else if LONG_TICKS <? ticks m then (set_bstate 5 (set_event LONG_PRESS_START m), [LONG_PRESS_START])
    else (m, [])
  else if bstate m =? 2 then
    if pressed then
      let r := (repeat m + 1) mod 16 in
      (set_bstate 3 (set_ticks 0 (set_repeat r (set_event PRESS_DOWN m))),
       PRESS_DOWN :: (if r =? 2 then [DOUBLE_CLICK] else []) ++ [PRESS_REPEAT])
    else if SHORT_TICKS <? ticks m then
      if repeat m =? 1 then (set_bstate 0 (set_event SINGLE_CLICK m), [SINGLE_CLICK])
      else (set_bstate 0 (if repeat m =? 2 then set_event DOUBLE_CLICK m else m), [])
    else (m, [])
  else if bstate m =? 3 then
    if negb pressed then
      (if ticks m <? SHORT_TICKS then set_bstate 2 (set_ticks 0 (set_event PRESS_UP m))
       else set_bstate 0 (set_event PRESS_UP m), [PRESS_UP])
    else (m, [])
  else if bstate m =? 5 then
    if pressed then (set_event LONG_PRESS_HOLD m, [LONG_PRESS_HOLD])
    else (set_bstate 0 (set_event PRESS_UP m), [PRESS_UP])
  else (m, []).

Definition set_level_cnt (lv dc : Z) (m : machine) : machine := set_debounce_cnt dc (set_button_level lv m).
Definition count_tick (m : machine) : machine :=
  if 0 <? bstate m then set_ticks (u16 (ticks m + 1)) m else m.
Definition press_step (act : Z) (m : machine) (l : Z) : machine * list PRESS_EVT :=
  let '(lv, dc) := debounce (button_level m) (debounce_cnt m) l in
  advance act (set_level_cnt lv dc (count_tick m)).

(** What the function pointers do: read a level, and act on the world outside
    the buttons. *)
Class ButtonEnv {E} (call_level : Z -> Z -> M (btn_st E) Z) (call_cb : Z -> Z -> M (btn_st E) unit) := {
  level_of : Z -> Z -> E -> Z * E;
  cb_of : Z -> Z -> E -> E;
  call_level_spec f h s : call_level f h s = Val (fst (level_of f h (ext s)), set_ext (snd (level_of f h (ext s))) s);
  call_cb_spec f h s : call_cb f h s = Val (tt, set_ext (cb_of f h (ext s)) s);
}.

Section handler.
Context {E : Type} (call_level : Z -> Z -> M (btn_st E) Z) (call_cb : Z -> Z -> M (btn_st E) unit)
  `{!ButtonEnv call_level call_cb}.

(** The callbacks of a button for a list of events. *)
Definition fire_one (b : BUTTON_S) (h : Z) (e : E) (ev : PRESS_EVT) : E :=
  let f := default 0 (cb b !! Z.to_nat (evt_num ev)) in if truthy f then cb_of f h e else e.
Definition fire (b : BUTTON_S) (h : Z) (evs : list PRESS_EVT) (e : E) : E := fold_left (fire_one b h) evs e.

Section run.
Context (s0 : btn_st E) (h : Z) (b : BUTTON_S) (Hcb : length (cb b) = 7%nat).

Definition at_ (m : machine) (e : E) : btn_st E :=
  BtnSt (<[h := set_mach m b]> (heap s0)) (head_handle s0) (g_key_mutex s0) e.

Lemma at_get m e : get_btn h (at_ m e) = Val (set_mach m b, at_ m e).
Proof. unfold get_btn, get, mbind, M_bind, lift_res, at_. cbn. by rewrite lookup_insert_eq. Qed.

Lemma at_upd m e f : upd_mach h f (at_ m e) = Val (tt, at_ (f m) e).
Proof.
  unfold upd_mach, set_btn. erewrite bind_ret_val by apply at_get. erewrite bind_ret_val by apply at_get.
  unfold modify, set_heap, at_. cbn. by rewrite insert_insert_eq.
Qed.

Lemma at_event m e ev : ev <> NONE_PRESS ->
  EVENT_CB call_cb h ev (at_ m e) = Val (tt, at_ m (fire_one b h e ev)).
Proof.
  intros Hev. unfold EVENT_CB, fire_one. erewrite bind_ret_val by apply at_get. cbn [set_mach cb].
  assert (exists f, cb b !! Z.to_nat (evt_num ev) = Some f) as [f ->].
  { apply lookup_lt_is_Some_2. rewrite Hcb. destruct ev; cbn; (lia || congruence). }
  rewrite (bind_ret_val _ _ _ f (at_ m e)) by done. change (default 0 (Some f)) with f.
  destruct (truthy f); [|done]. cbn [when]. by rewrite call_cb_spec.
Qed.

Lemma at_raise m e ev : ev <> NONE_PRESS ->
  raise call_cb h ev (at_ m e) = Val (tt, at_ (set_event ev m) (fire_one b h e ev)).
Proof. intros Hev. unfold raise. erewrite bind_ret_val by apply at_upd. by apply at_event. Qed.

Lemma at_bind_get {B} m e (k : BUTTON_S -> M _ B) :
  mbind k (get_btn h) (at_ m e) = k (set_mach m b) (at_ m e).
Proof. by erewrite bind_ret_val by apply at_get. Qed.
Lemma at_bind_upd {B} m e f (k : unit -> M _ B) : mbind k (upd_mach h f) (at_ m e) = k tt (at_ (f m) e).
Proof. by erewrite bind_ret_val by apply at_upd. Qed.
Lemma at_bind_event {B} m e ev (k : unit -> M _ B) : ev <> NONE_PRESS ->
  mbind k (EVENT_CB call_cb h ev) (at_ m e) = k tt (at_ m (fire_one b h e ev)).
Proof. intros. by erewrite bind_ret_val by (by apply at_event). Qed.
Lemma at_bind_raise {B} m e ev (k : unit -> M _ B) : ev <> NONE_PRESS ->
  mbind k (raise call_cb h ev) (at_ m e) = k tt (at_ (set_event ev m) (fire_one b h e ev)).
Proof. intros. by erewrite bind_ret_val by (by apply at_raise). Qed.
End run.

#[local] Create Rewrite HintDb btn.
#[local] Hint Rewrite @at_bind_get @at_bind_upd @at_upd @bind_mret @bind_assoc : btn.
#[local] Hint Rewrite at_bind_event at_bind_raise at_raise at_event using done : btn.

(** Run a straight piece of the handler; split its tests as the function does. *)
Ltac at_run := repeat (autorewrite with btn; cbn [when mach set_mach active_level]).

Lemma at_switch s0 h b m e : length (cb b) = 7%nat ->
  button_switch call_cb h (at_ s0 h b m e) =
    Val (tt, at_ s0 h b (fst (advance (active_level b) m)) (fire b h (snd (advance (active_level b) m)) e)).
Proof.
  intros Hcb. unfold button_switch, advance. at_run. 
  destruct (button_level m =? active_level b); cbn [negb].
  all: repeat match goal with |- context [if ?c then _ else _] =>
    match c with context [if _ then _ else _] => fail 1 | _ => destruct c eqn:? end end.
  all: at_run; cbn [repeat ticks set_repeat set_event].
  all: repeat match goal with H : ?c = _ |- context [?c] => rewrite H end; at_run; done.
Qed.

Lemma handler_step s h b : heap s !! h = Some b -> length (cb b) = 7%nat ->
  let '(l, e) := level_of (hal_button_Level b) h (ext s) in
  let '(m, evs) := press_step (active_level b) (mach b) l in
  button_handler call_level call_cb h s =
    Val (tt, BtnSt (<[h := set_mach m b]> (heap s)) (head_handle s) (g_key_mutex s) (fire b h evs e)).
Proof.
  intros Hb Hcb. destruct (level_of _ h (ext s)) as [l e] eqn:Hl.
  assert (Hs : forall e, set_ext e s = at_ s h b (mach b) e).
  { intros e'. unfold at_, set_ext. f_equal. destruct b. by rewrite insert_id. }
  unfold button_handler. rewrite (bind_ret_val _ _ _ b s).
  2: { unfold get_btn. erewrite bind_ret_val by reflexivity. by rewrite Hb. }
  rewrite (bind_ret_val _ _ _ l (set_ext e s)) by (rewrite call_level_spec, Hl; done).
  rewrite Hs. at_run. unfold press_step, debounce, count_tick.
  rewrite (bind_ret_val _ _ _ tt (at_ s h b (count_tick (mach b)) e)).
  2: { unfold count_tick. destruct (0 <? _); [apply at_upd|done]. }
  at_run.
  assert (Hlv : button_level (count_tick (mach b)) = button_level (mach b)) by (unfold count_tick; by destruct (0 <? _)).
  assert (Hdc : debounce_cnt (count_tick (mach b)) = debounce_cnt (mach b)) by (unfold count_tick; by destruct (0 <? _)).
  rewrite Hlv, Hdc. fold (count_tick (mach b)).
  assert (Hsame : set_button_level (button_level (mach b)) (count_tick (mach b)) = count_tick (mach b)).
  { rewrite <- Hlv. by destruct (count_tick (mach b)). }
  destruct (l =? button_level (mach b)); cbn [negb].
  2: destruct (DEBOUNCE_TICKS <=? _).
  all: at_run; unfold set_level_cnt; rewrite ?Hsame, at_switch by done.
  all: by destruct (advance _ _).
Qed.

End handler.

(** ** The list of buttons *)

Section lists.
Context {E : Type}.

(** From [p] the [next] members lead through [l] to null. *)
Fixpoint chain (hp : gmap Z BUTTON_S) (p : Z) (l : list Z) : Prop :=
  match l with
  | [] => p = 0
  | x :: l' => p = x /\ x <> 0 /\ exists b, hp !! x = Some b /\ chain hp (next b) l'
  end.

(** The list is [l], of distinct well-formed buttons, and the mutex is free. *)
Record btn_list (s : btn_st E) (l : list Z) : Prop := {
  bl_chain : chain (heap s) (head_handle s) l;
  bl_nodup : NoDup l;
  bl_cb : forall h b, heap s !! h = Some b -> length (cb b) = 7%nat;
  bl_mutex : g_key_mutex s = false;
  bl_null : heap s !! 0 = None;
}.

Lemma chain_ext hp hp' p l : (forall x, x ∈ l -> hp' !! x = hp !! x) -> chain hp p l -> chain hp' p l.
Proof.
  revert p. induction l as [|x l IH]; intros p He; [done|]. intros (-> & Hx & b & Hb & Hc).
  split_and!; [done..|]. exists b. split; [rewrite He by set_solver; done|]. apply IH; [|done].
  intros y Hy. apply He. set_solver.
Qed.

(** Changing a button but not its link keeps the chain. *)
Lemma chain_update hp p l h b b' : hp !! h = Some b -> next b' = next b -> chain hp p l -> chain (<[h := b']> hp) p l.
Proof.
  intros Hb Hn. revert p. induction l as [|x l IH]; intros p; [done|]. intros (-> & Hx & c & Hc & Hch).
  split_and!; [done..|]. destruct (decide (x = h)) as [->|].
  - exists b'. rewrite lookup_insert_eq. split; [done|]. simplify_eq. rewrite Hn. auto.
  - exists c. rewrite lookup_insert_ne by done. auto.
Qed.

Lemma chain_lookup hp p l x : chain hp p l -> x ∈ l -> x <> 0 /\ is_Some (hp !! x).
Proof.
  revert p. induction l as [|y l IH]; intros p; [set_solver|]. intros (-> & Hy & b & Hb & Hc) Hx.
  apply elem_of_cons in Hx as [->|Hx]; [eauto|]. by eapply IH.
Qed.

Lemma chain_fuel hp p l : chain hp p l -> NoDup l -> (length l < S (size hp))%nat.
Proof.
  intros Hc Hnd. rewrite <- (size_list_to_set (C := gset Z)) by done. rewrite <- size_dom.
  apply Nat.lt_succ_r, subseteq_size. intros x Hx. apply elem_of_list_to_set in Hx.
  apply elem_of_dom. by eapply chain_lookup.
Qed.

Lemma get_btn_val (s : btn_st E) h b : heap s !! h = Some b -> get_btn h s = Val (b, s).
Proof. intros Hb. unfold get_btn. erewrite bind_ret_val by reflexivity. by rewrite Hb. Qed.

(** The memory without the links. *)
Definition unlinked (hp : gmap Z BUTTON_S) : gmap Z BUTTON_S := set_next 0 <$> hp.

Lemma unlinked_insert hp h b n : hp !! h = Some b -> unlinked (<[h := set_next n b]> hp) = unlinked hp.
Proof.
  intros Hb. unfold unlinked. rewrite fmap_insert. apply insert_id. by rewrite lookup_fmap, Hb.
Qed.

Lemma unlinked_cb hp hp' : unlinked hp' = unlinked hp -> (forall h b, hp !! h = Some b -> length (cb b) = 7%nat) ->
  forall h b, hp' !! h = Some b -> length (cb b) = 7%nat.
Proof.
  intros He H h b Hb. apply (f_equal (fun m => m !! h)) in He. unfold unlinked in He.
  rewrite !lookup_fmap, Hb in He. destruct (hp !! h) as [b'|] eqn:Hb'; [|done].
  cbn in He. assert (Some (cb b) = Some (cb b')) as [= ->] by exact (f_equal (fmap (M := option) cb) He). by eapply H.
Qed.

Lemma unlinked_none hp hp' h : unlinked hp' = unlinked hp -> hp !! h = None -> hp' !! h = None.
Proof.
  intros He Hn. apply (f_equal (fun m => m !! h)) in He. unfold unlinked in He.
  rewrite !lookup_fmap, Hn in He. by destruct (hp' !! h).
Qed.

Lemma set_btn_val (s : btn_st E) h b b' : heap s !! h = Some b ->
  set_btn h b' s = Val (tt, set_heap (<[h := b']> (heap s)) s).
Proof. intros Hb. unfold set_btn. by rewrite (bind_ret_val _ _ _ _ _ (get_btn_val _ _ _ Hb)). Qed.

Lemma start_loop_spec fuel (s : btn_st E) h p l :
  chain (heap s) p l -> (length l < fuel)%nat -> start_loop fuel h p s = Val (bool_decide (h ∈ l), s).
Proof.
  revert fuel p. induction l as [|x l IH]; intros [|fuel] p Hc Hf; try (cbn in Hf; lia).
  - cbn in Hc. by subst p.
  - destruct Hc as (-> & Hx & b & Hb & Hc). cbn [start_loop]. unfold truthy.
    rewrite (proj2 (Z.eqb_neq _ _)) by done. cbn [negb]. destruct (Z.eqb_spec x h) as [->|Hne].
    + by rewrite bool_decide_eq_true_2 by set_solver.
    + rewrite (bind_ret_val _ _ _ _ _ (get_btn_val _ _ _ Hb)), (IH fuel (next b)) by (done || (cbn in Hf; lia)).
      do 2 f_equal. apply bool_decide_ext. rewrite elem_of_cons; naive_solver.
Qed.

Lemma find_loop_spec fuel (s : btn_st E) ud p l :
  chain (heap s) p l -> (length l < fuel)%nat ->
  find_loop fuel ud p s =
    Val (default 0 (snd <$> list_find (fun x => (user_data <$> heap s !! x) = Some ud) l), s).
Proof.
  revert fuel p. induction l as [|x l IH]; intros [|fuel] p Hc Hf; try (cbn in Hf; lia).
  - cbn in Hc. by subst p.
  - destruct Hc as (-> & Hx & b & Hb & Hc). cbn [find_loop list_find]. unfold truthy.
    rewrite (proj2 (Z.eqb_neq _ _)) by done. cbn [negb].
    rewrite (bind_ret_val _ _ _ _ _ (get_btn_val _ _ _ Hb)). rewrite Hb. cbn [fmap option_fmap option_map].
    destruct (Z.eqb_spec (user_data b) ud) as [->|Hne].
    + by rewrite decide_True by done.
    + rewrite decide_False by congruence. rewrite (IH fuel (next b)) by (done || (cbn in Hf; lia)).
      by destruct (list_find _ l) as [[? ?]|].
Qed.

Definition link_of (s : btn_st E) (curr : option Z) : Z :=
  match curr with None => head_handle s | Some c => default 0 (next <$> heap s !! c) end.
Definition with_link (s : btn_st E) (curr : option Z) (v : Z) : btn_st E :=
  match curr with
  | None => set_head v s
  | Some c => set_heap (alter (set_next v) c (heap s)) s
  end.
Definition link_ok (s : btn_st E) (curr : option Z) : Prop :=
  match curr with None => True | Some c => is_Some (heap s !! c) end.

Lemma get_link_val s curr : link_ok s curr -> get_link curr s = Val (link_of s curr, s).
Proof.
  destruct curr as [c|]; [|done]. intros [b Hb]. unfold get_link, link_of.
  by rewrite (bind_ret_val _ _ _ _ _ (get_btn_val _ _ _ Hb)), Hb.
Qed.

Lemma set_link_val s curr v : link_ok s curr -> set_link curr v s = Val (tt, with_link s curr v).
Proof.
  destruct curr as [c|]; [|done]. intros [b Hb]. unfold set_link, with_link.
  rewrite (bind_ret_val _ _ _ _ _ (get_btn_val _ _ _ Hb)), (set_btn_val _ _ _ _ Hb).
  do 3 f_equal.
  rewrite <- (insert_id (heap s) c b) at 2 by done. by rewrite alter_insert_eq.
Qed.

Lemma with_link_lookup (s : btn_st E) curr v x : curr <> Some x -> heap (with_link s curr v) !! x = heap s !! x.
Proof. destruct curr as [c|]; [|done]. intros Hne. cbn. apply lookup_alter_ne. congruence. Qed.

Lemma link_of_with_link s curr v : link_ok s curr -> link_of (with_link s curr v) curr = v.
Proof. destruct curr as [c|]; [|done]. intros [b Hb]. cbn. by rewrite lookup_alter_eq, Hb. Qed.

Lemma link_ok_with_link s curr v : link_ok s curr -> link_ok (with_link s curr v) curr.
Proof. destruct curr as [c|]; [|done]. intros [b Hb]. cbn. rewrite lookup_alter_eq, Hb. by eexists. Qed.

Lemma unlinked_with_link s curr v : link_ok s curr -> unlinked (heap (with_link s curr v)) = unlinked (heap s).
Proof.
  destruct curr as [c|]; [|done]. intros [b Hb]. cbn.
  rewrite <- (insert_id (heap s) c b) at 1 by done. rewrite alter_insert_eq. by apply unlinked_insert.
Qed.

(** What else stays as it was while the links change. *)
Definition same_rest (s s' : btn_st E) : Prop :=
  unlinked (heap s') = unlinked (heap s) /\ g_key_mutex s' = g_key_mutex s /\ ext s' = ext s.

Lemma stop_loop_spec fuel h s curr l :
  link_ok s curr -> chain (heap s) (link_of s curr) l -> NoDup l -> (forall c, curr = Some c -> c ∉ l) ->
  (length l < fuel)%nat ->
  exists s', stop_loop fuel h curr s = Val (tt, s') /\ same_rest s s' /\
    chain (heap s') (link_of s' curr) (filter (fun x => x <> h) l) /\
    (forall x, x ∉ l -> curr <> Some x -> heap s' !! x = heap s !! x) /\
    (curr <> None -> head_handle s' = head_handle s).
Proof.
  revert fuel s curr. induction l as [|x l IH]; intros [|fuel] s curr Hok Hc Hnd Hcl Hf; try (cbn in Hf; lia).
  - exists s. cbn [stop_loop]. rewrite (bind_ret_val _ _ _ _ _ (get_link_val s curr Hok)). cbn in Hc. rewrite Hc. done.
  - destruct Hc as (Hx & Hx0 & b & Hb & Hc). inversion_clear Hnd as [|? ? Hxl Hnd']. rename Hnd' into Hnd.
    assert (Hcx : curr <> Some x) by (intros ->; eapply Hcl; [done|set_solver]).
    cbn [stop_loop]. rewrite (bind_ret_val _ _ _ _ _ (get_link_val s curr Hok)), Hx.
    unfold truthy. rewrite (proj2 (Z.eqb_neq _ _)) by done. cbn [negb].
    destruct (Z.eqb_spec x h) as [->|Hne].
    + rewrite (bind_ret_val _ _ _ _ _ (get_btn_val _ _ _ Hb)).
      rewrite (bind_ret_val _ _ _ _ _ (set_link_val s curr (next b) Hok)).
      set (s1 := with_link s curr (next b)).
      assert (Hl1 : forall y, curr <> Some y -> heap s1 !! y = heap s !! y) by (intros; by apply with_link_lookup).
      destruct (IH fuel s1 curr) as (s' & He & (Hu & Hm & Hx') & Hch & Hfr & Hhd); [| |done| |cbn in Hf; lia|].
      * by apply link_ok_with_link.
      * subst s1. rewrite link_of_with_link by done. eapply chain_ext; [|exact Hc].
        intros y Hy. apply Hl1. intros ->. eapply Hcl; [done|set_solver].
      * intros c ->. specialize (Hcl c eq_refl). set_solver.
      * exists s'. rewrite filter_cons_False by naive_solver. split_and!; [done| |done| |].
        -- split_and!; [rewrite Hu; by apply unlinked_with_link|rewrite Hm; by destruct curr|rewrite Hx'; by destruct curr].
        -- intros y Hy Hcy. rewrite Hfr by set_solver. by apply Hl1.
        -- intros Hn. rewrite Hhd by done. by destruct curr.
    + destruct (IH fuel s (Some x)) as (s' & He & Hsr & Hch & Hfr & Hhd); [by eexists| |done| |cbn in Hf; lia|].
      * cbn. by rewrite Hb.
      * by intros c [= <-].
      * exists s'. rewrite filter_cons_True by done. split_and!; [done|done| | |].
        -- assert (Hlk : link_of s' curr = x).
           { rewrite <- Hx. destruct curr as [c|]; cbn; [|by apply Hhd].
             rewrite Hfr; [done| |congruence]. specialize (Hcl c eq_refl). set_solver. }
           rewrite Hlk. split_and!; [done..|]. cbn in Hch.
           assert (is_Some (heap s' !! x)) as [b' Hb'].
           { destruct (heap s' !! x) eqn:Hn; [by eexists|]. destruct Hsr as [Hu _].
             by rewrite (unlinked_none _ _ x (eq_sym Hu) Hn) in Hb. }
           exists b'. rewrite Hb' in *. done.
        -- intros y Hy Hcy. apply Hfr; set_solver.
        -- intros _. by apply Hhd.
Qed.

(** The list calls. *)
Lemma locked (s : btn_st E) : g_key_mutex s = false -> rtos_lock_mutex s = Val (tt, set_mutex true s).
Proof. intros Hm. unfold rtos_lock_mutex. rewrite (bind_ret_val _ _ _ s s) by done. by rewrite Hm. Qed.

Lemma unlocked (s : btn_st E) : g_key_mutex s = false -> rtos_unlock_mutex (set_mutex true s) = Val (tt, s).
Proof. destruct s as [hp hd m e]. cbn. by intros ->. Qed.

Lemma find_spec (s : btn_st E) l ud : btn_list s l ->
  button_find_with_user_data ud s =
    Val (default 0 (snd <$> list_find (fun x => (user_data <$> heap s !! x) = Some ud) l), s).
Proof.
  intros [Hc Hnd _ Hm _]. unfold button_find_with_user_data. rewrite (bind_ret_val _ _ _ _ _ (locked s Hm)).
  set (s1 := set_mutex true s). rewrite (bind_ret_val _ _ _ (S (size (heap s))) s1) by done.
  rewrite (bind_ret_val _ _ _ s1 s1) by done.
  rewrite (bind_ret_val _ _ _ _ _ (find_loop_spec _ s1 ud _ l Hc (chain_fuel _ _ _ Hc Hnd))).
  rewrite (bind_ret_val _ _ _ tt s) by (by apply unlocked). done.
Qed.

Lemma start_spec (s : btn_st E) l h b : btn_list s l -> heap s !! h = Some b ->
  exists s', button_start h s = Val ((if bool_decide (h ∈ l) then -1 else 0), s') /\
    btn_list s' (if bool_decide (h ∈ l) then l else h :: l) /\ same_rest s s'.
Proof.
  intros [Hc Hnd Hcb Hm Hn] Hb. unfold button_start. rewrite (bind_ret_val _ _ _ _ _ (locked s Hm)).
  set (s1 := set_mutex true s). rewrite (bind_ret_val _ _ _ (S (size (heap s))) s1) by done.
  rewrite (bind_ret_val _ _ _ s1 s1) by done.
  rewrite (bind_ret_val _ _ _ _ _ (start_loop_spec _ s1 h _ l Hc (chain_fuel _ _ _ Hc Hnd))).
  destruct (bool_decide (h ∈ l)) eqn:Hin.
  - exists s. rewrite (bind_ret_val _ _ _ tt s) by (by apply unlocked). done.
  - apply bool_decide_eq_false in Hin. rewrite (bind_ret_val _ _ _ s1 s1) by done.
    assert (Hb1 : heap s1 !! h = Some b) by done.
    rewrite (bind_ret_val _ _ _ _ _ (get_btn_val _ _ _ Hb1)).
    rewrite (bind_ret_val _ _ _ _ _ (set_btn_val _ _ _ _ Hb1)).
    set (s2 := BtnSt (<[h := set_next (head_handle s) b]> (heap s)) h false (ext s)).
    exists s2. split; [done|]. assert (Hu : unlinked (heap s2) = unlinked (heap s)) by (by apply unlinked_insert).
    split; [split|by split_and!].
    + assert (h <> 0) by (intros ->; congruence). split_and!; [done..|].
      exists (set_next (head_handle s) b). cbn. rewrite lookup_insert_eq. split; [done|].
      eapply chain_ext; [|exact Hc]. intros x Hx. apply lookup_insert_ne. by intros ->.
    + by constructor.
    + by eapply unlinked_cb.
    + done.
    + by apply (unlinked_none (heap s)).
Qed.

Lemma stop_spec (s : btn_st E) l h : btn_list s l ->
  exists s', button_stop h s = Val (tt, s') /\ btn_list s' (filter (fun x => x <> h) l) /\ same_rest s s'.
Proof.
  intros [Hc Hnd Hcb Hm Hn]. unfold button_stop. rewrite (bind_ret_val _ _ _ _ _ (locked s Hm)).
  set (s1 := set_mutex true s). rewrite (bind_ret_val _ _ _ (S (size (heap s))) s1) by done.
  destruct (stop_loop_spec (S (size (heap s))) h s1 None l) as (s2 & He & (Hu & Hm2 & Hx2) & Hch & _); [done|done|done|done| |].
  { by eapply chain_fuel. }
  rewrite (bind_ret_val _ _ _ _ _ He). exists (set_mutex false s2). split; [done|].
  split; [split|by split_and!]; [done|by apply list.NoDup_filter| |done|].
  - by eapply unlinked_cb.
  - by apply (unlinked_none (heap s)).
Qed.
End lists.

(** The calls of an application on the list, and what they do to a list. *)
Inductive list_op := OpStart (h : Z) | OpStop (h : Z) | OpFind (ud : Z).

Definition list_call {E} (op : list_op) : M (btn_st E) Z :=
  match op with
  | OpStart h => button_start h
  | OpStop h => button_stop h;; mret 0
  | OpFind ud => button_find_with_user_data ud
  end.

Definition list_spec (ud_of : Z -> option Z) (op : list_op) (l : list Z) : Z * list Z :=
  match op with
  | OpStart h => if bool_decide (h ∈ l) then (-1, l) else (0, h :: l)
  | OpStop h => (0, filter (fun x => x <> h) l)
  | OpFind ud => (default 0 (snd <$> list_find (fun x => ud_of x = Some ud) l), l)
  end.

Fixpoint list_calls {E} (ops : list list_op) : M (btn_st E) (list Z) :=
  match ops with [] => mret [] | op :: ops' => r ← list_call op; rs ← list_calls ops'; mret (r :: rs) end.
Fixpoint list_specs (ud_of : Z -> option Z) (ops : list list_op) (l : list Z) : list Z * list Z :=
  match ops with
  | [] => ([], l)
  | op :: ops' => let '(r, l') := list_spec ud_of op l in let '(rs, l'') := list_specs ud_of ops' l' in (r :: rs, l'')
  end.

Definition ud_in (hp : gmap Z BUTTON_S) (x : Z) : option Z := user_data <$> hp !! x.

Lemma ud_unlinked hp hp' x : unlinked hp' = unlinked hp -> ud_in hp' x = ud_in hp x.
Proof.
  intros He. apply (f_equal (fun m => user_data <$> m !! x)) in He. unfold unlinked in He.
  rewrite !lookup_fmap in He. unfold ud_in. by destruct (hp' !! x), (hp !! x).
Qed.

Lemma list_call_spec {E} op (s : btn_st E) l : btn_list s l ->
  (forall h, op = OpStart h -> is_Some (heap s !! h)) ->
  exists s', list_call op s = Val (fst (list_spec (ud_in (heap s)) op l), s') /\
    btn_list s' (snd (list_spec (ud_in (heap s)) op l)) /\ same_rest s s'.
Proof.
  intros Hl Hop. destruct op as [h|h|ud]; cbn [list_call list_spec].
  - destruct (Hop h eq_refl) as [b Hb]. destruct (start_spec s l h b Hl Hb) as (s' & -> & Hs').
    exists s'. by destruct (bool_decide (h ∈ l)).
  - destruct (stop_spec s l h Hl) as (s' & He & Hs'). exists s'. by rewrite (bind_ret_val _ _ _ _ _ He).
  - exists s. by rewrite (find_spec s l ud Hl).
Qed.

(** C38: any sequence of starts, stops and searches does to the linked list of
    buttons what it does to a list without duplicates: a start puts the button
    in front, or returns -1 and changes nothing when it is there; a stop removes
    it and nothing else; a search gives the first with the user data.  Every
    call returns with the mutex free. *)
Theorem button_list_refines {E} ops (s : btn_st E) l : btn_list s l ->
  Forall (fun op => match op with OpStart h => is_Some (heap s !! h) | _ => True end) ops ->
  exists s', list_calls ops s = Val (fst (list_specs (ud_in (heap s)) ops l), s') /\
    btn_list s' (snd (list_specs (ud_in (heap s)) ops l)) /\ same_rest s s'.
Proof.
  revert s l. induction ops as [|op ops IH]; intros s l Hl Hops; [by eexists|].
  inversion_clear Hops as [|? ? Hop Hops'].
  destruct (list_call_spec op s l Hl) as (s1 & He & Hl1 & Hu & Hm & Hx); [by intros h ->|].
  destruct (IH s1 (list_spec (ud_in (heap s)) op l).2 Hl1) as (s2 & He2 & Hl2 & Hu2 & Hm2 & Hx2).
  { eapply list.Forall_impl; [exact Hops'|]. intros [h|h|ud]; [|done..]. intros [b Hb].
    destruct (heap s1 !! h) eqn:Hn; [by eexists|]. by rewrite (unlinked_none _ _ h (eq_sym Hu) Hn) in Hb. }
  exists s2. cbn [list_calls list_specs]. rewrite (bind_ret_val _ _ _ _ _ He), (bind_ret_val _ _ _ _ _ He2).
  assert (Hext : forall ops l, list_specs (ud_in (heap s1)) ops l = list_specs (ud_in (heap s)) ops l).
  { clear -Hu. induction ops as [|op ops IH]; intros l; [done|]. cbn [list_specs].
    assert (list_spec (ud_in (heap s1)) op l = list_spec (ud_in (heap s)) op l) as ->.
    { destruct op as [h|h|ud]; [done..|]. cbn. do 3 f_equal. apply list_find_ext. intros x. by rewrite (ud_unlinked _ _ _ Hu). }
    destruct (list_spec _ op l) as [r l']. by rewrite IH. }
  rewrite Hext in Hl2 |- *. destruct (list_spec (ud_in (heap s)) op l) as [r l']. cbn [fst snd] in *.
  destruct (list_specs (ud_in (heap s)) ops l') as [rs l'']. split_and!; [done|done|]. split_and!; congruence.
Qed.

Section tick.
Context {E : Type} (call_level : Z -> Z -> M (btn_st E) Z) (call_cb : Z -> Z -> M (btn_st E) unit)
  `{!ButtonEnv call_level call_cb}.

(** One button ticked in a memory and a world; all of a list, in order. *)
Definition tick_one (w : gmap Z BUTTON_S * E) (h : Z) : gmap Z BUTTON_S * E :=
  match w.1 !! h with
  | None => w
  | Some b =>
    let '(l, e) := level_of (hal_button_Level b) h w.2 in
    let '(m, evs) := press_step (active_level b) (mach b) l in
    (<[h := set_mach m b]> w.1, fire call_level call_cb b h evs e)
  end.
Definition tick_all (l : list Z) (w : gmap Z BUTTON_S * E) : gmap Z BUTTON_S * E := fold_left tick_one l w.

Lemma wp_ticks_loop fuel s p l :
  chain (heap s) p l -> (forall h b, heap s !! h = Some b -> length (cb b) = 7%nat) -> (length l < fuel)%nat ->
  ticks_loop call_level call_cb fuel p s =
    Val (tt, BtnSt (tick_all l (heap s, ext s)).1 (head_handle s) (g_key_mutex s) (tick_all l (heap s, ext s)).2).
Proof.
  revert fuel s p. induction l as [|h l IH]; intros [|fuel] s p Hc Hcb Hf; try (cbn in Hf; lia).
  - cbn in Hc. subst p. by destruct s.
  - destruct Hc as (-> & Hh & b & Hb & Hc). cbn [ticks_loop]. unfold truthy.
    rewrite (proj2 (Z.eqb_neq _ _)) by done. cbn [negb].
    pose proof (handler_step call_level call_cb s h b Hb (Hcb _ _ Hb)) as Hstep.
    cbn [tick_all fold_left]. fold (tick_all l). unfold tick_one. cbn [fst snd]. rewrite Hb.
    destruct (level_of _ h (ext s)) as [lv e]. destruct (press_step _ _ lv) as [m evs].
    rewrite (bind_ret_val _ _ _ _ _ Hstep). set (s' := BtnSt _ _ _ _).
    assert (Hb' : heap s' !! h = Some (set_mach m b)) by apply lookup_insert_eq.
    rewrite (bind_ret_val _ _ _ _ _ (get_btn_val _ _ _ Hb')). cbn [next set_mach].
    rewrite IH; [done| | |cbn in Hf; lia].
    + subst s'. by eapply chain_update.
    + intros h' b'. subst s'. cbn [heap]. destruct (decide (h' = h)) as [->|].
      * rewrite lookup_insert_eq. intros [= <-]. exact (Hcb _ _ Hb).
      * rewrite lookup_insert_ne by done. apply Hcb.
Qed.

Lemma ticks_val s l : btn_list s l ->
  button_ticks call_level call_cb s =
    Val (tt, BtnSt (tick_all l (heap s, ext s)).1 (head_handle s) false (tick_all l (heap s, ext s)).2).
Proof.
  intros [Hc Hnd Hcb Hm Hn]. unfold button_ticks. rewrite (bind_ret_val _ _ _ _ _ (locked s Hm)).
  set (s1 := set_mutex true s). rewrite (bind_ret_val _ _ _ (S (size (heap s))) s1) by done.
  rewrite (bind_ret_val _ _ _ s1 s1) by done.
  by rewrite (bind_ret_val _ _ _ _ _ (wp_ticks_loop _ s1 _ l Hc Hcb (chain_fuel _ _ _ Hc Hnd))).
Qed.

(** A tick changes the machines of the buttons of the list. *)
Lemma tick_one_list (s : btn_st E) l w h : btn_list (BtnSt w.1 (head_handle s) false w.2) l ->
  btn_list (BtnSt (tick_one w h).1 (head_handle s) false (tick_one w h).2) l.
Proof.
  intros [Hc Hnd Hcb Hm Hn]. cbn in *. unfold tick_one. destruct (w.1 !! h) as [b|] eqn:Hb; [|by split].
  destruct (level_of _ _ _) as [lv e]. destruct (press_step _ _ lv) as [m evs]. split; cbn; try done.
  - by eapply chain_update.
  - intros h' b'. destruct (decide (h' = h)) as [->|].
    + rewrite lookup_insert_eq. intros [= <-]. exact (Hcb _ _ Hb).
    + rewrite lookup_insert_ne by done. apply Hcb.
  - rewrite lookup_insert_ne; [done|]. intros ->. congruence.
Qed.

Lemma tick_all_list (s : btn_st E) l l' w : btn_list (BtnSt w.1 (head_handle s) false w.2) l ->
  btn_list (BtnSt (tick_all l' w).1 (head_handle s) false (tick_all l' w).2) l.
Proof. revert w. induction l' as [|h l' IH]; intros w Hl; [done|]. cbn. apply IH. by apply tick_one_list. Qed.
End tick.

(** ** Gestures *)

(** The machine on a sequence of samples, and on debounced levels. *)
Fixpoint run_press (act : Z) (m : machine) (ls : list Z) : machine * list PRESS_EVT :=
  match ls with
  | [] => (m, [])
  | l :: ls' =>
    let '(m1, e1) := press_step act m l in let '(m2, e2) := run_press act m1 ls' in (m2, e1 ++ e2)
  end.

Fixpoint run_levels (act : Z) (m : machine) (ls : list Z) : machine * list PRESS_EVT :=
  match ls with
  | [] => (m, [])
  | l :: ls' =>
    let '(m1, e1) := advance act (set_button_level l (count_tick m)) in
    let '(m2, e2) := run_levels act m1 ls' in (m2, e1 ++ e2)
  end.

Fixpoint levels (lv dc : Z) (ls : list Z) : list Z :=
  match ls with [] => [] | l :: ls' => (debounce lv dc l).1 :: levels (debounce lv dc l).1 (debounce lv dc l).2 ls' end.
Fixpoint debounced (lv dc : Z) (ls : list Z) : Z :=
  match ls with [] => dc | l :: ls' => debounced (debounce lv dc l).1 (debounce lv dc l).2 ls' end.

Lemma advance_debounce act d m :
  advance act (set_debounce_cnt d m) = (set_debounce_cnt d (advance act m).1, (advance act m).2).
Proof.
  unfold advance. destruct m as [t r e s dc lv]. cbn.
  repeat match goal with |- context [if ?c then _ else _] =>
    match c with context [if _ then _ else _] => fail 1 | _ => destruct c end end; done.
Qed.

Lemma advance_level act m : button_level (advance act m).1 = button_level m.
Proof.
  unfold advance. destruct m as [t r e s dc lv]. cbn.
  repeat match goal with |- context [if ?c then _ else _] =>
    match c with context [if _ then _ else _] => fail 1 | _ => destruct c end end; done.
Qed.

Lemma run_press_levels act m ls :
  run_press act m ls =
    (set_debounce_cnt (debounced (button_level m) (debounce_cnt m) ls)
       (run_levels act (set_debounce_cnt 0 m) (levels (button_level m) (debounce_cnt m) ls)).1,
     (run_levels act (set_debounce_cnt 0 m) (levels (button_level m) (debounce_cnt m) ls)).2).
Proof.
  revert m. induction ls as [|l ls IH]; intros m; [by destruct m|].
  cbn [run_press levels debounced run_levels]. unfold press_step.
  destruct (debounce (button_level m) (debounce_cnt m) l) as [lv dc]. cbn [fst snd].
  assert (Hm : set_level_cnt lv dc (count_tick m) = set_debounce_cnt dc (set_button_level lv (count_tick (set_debounce_cnt 0 m)))).
  { destruct m as [t r e s d v]. unfold count_tick. cbn. by destruct (0 <? s). }
  rewrite Hm, advance_debounce. set (m0 := set_button_level lv (count_tick (set_debounce_cnt 0 m))).
  pose proof (advance_level act m0) as Hlv. assert (Hd0 : debounce_cnt (advance act m0).1 = 0).
  { pose proof (f_equal (fun x => debounce_cnt x.1) (advance_debounce act 0 m0)) as He. cbn in He.
    assert (set_debounce_cnt 0 m0 = m0) as Hz; [|by rewrite Hz in He].
    subst m0. destruct m as [t r e s d v]. unfold count_tick. cbn. by destruct (0 <? s). }
  destruct (advance act m0) as [m1 e1]. cbn [fst snd] in *. rewrite IH.
  assert (set_debounce_cnt 0 (set_debounce_cnt dc m1) = m1) as -> by (destruct m1; cbn in *; by subst).
  assert (button_level (set_debounce_cnt dc m1) = lv) as ->.
  { destruct m1; cbn in *. by subst. }
  change (debounce_cnt (set_debounce_cnt dc m1)) with dc. by destruct (run_levels act m1 _).
Qed.

Lemma run_levels_app act m l1 l2 m1 e1 m2 e2 :
  run_levels act m l1 = (m1, e1) -> run_levels act m1 l2 = (m2, e2) -> run_levels act m (l1 ++ l2) = (m2, e1 ++ e2).
Proof.
  revert m e1. induction l1 as [|l l1 IH]; intros m e1; cbn [run_levels app].
  - by intros [= <- <-].
  - destruct (advance _ _) as [m3 e3]. destruct (run_levels act m3 l1) as [m4 e4] eqn:E.
    intros [= <- <-] H2. rewrite (IH _ _ E H2). by rewrite app_assoc.
Qed.

Lemma levels_same x n ls : levels x 0 (replicate n x ++ ls) = replicate n x ++ levels x 0 ls.
Proof. induction n as [|n IH]; [done|]. cbn. unfold debounce at 1 2 3. rewrite Z.eqb_refl. cbn. by rewrite IH. Qed.

Lemma debounced_same x n ls : debounced x 0 (replicate n x ++ ls) = debounced x 0 ls.
Proof. induction n as [|n IH]; [done|]. cbn. unfold debounce at 1 2. rewrite Z.eqb_refl. cbn. by rewrite IH. Qed.

Lemma debounce_keep y dc : debounce y dc y = (y, 0).
Proof. unfold debounce. by rewrite Z.eqb_refl. Qed.

Lemma debounce_wait x y dc : x <> y -> 0 <= dc < 5 -> debounce y dc x = (y, dc + 1).
Proof.
  intros Hxy Hdc. unfold debounce, DEBOUNCE_TICKS. rewrite (proj2 (Z.eqb_neq _ _)) by done.
  rewrite Z.mod_small by lia. by rewrite (proj2 (Z.leb_gt _ _)) by lia.
Qed.

Lemma debounce_switch x y : x <> y -> 0 <= x < 2 -> debounce y 5 x = (x, 0).
Proof.
  intros Hxy Hx. unfold debounce. rewrite (proj2 (Z.eqb_neq _ _)) by done. change (DEBOUNCE_TICKS <=? (5 + 1) mod 8) with true. cbv zeta iota. by rewrite (Z.mod_small x).
Qed.

Lemma levels_cons lv dc l ls lv' dc' : debounce lv dc l = (lv', dc') ->
  levels lv dc (l :: ls) = lv' :: levels lv' dc' ls /\ debounced lv dc (l :: ls) = debounced lv' dc' ls.
Proof. intros He. cbn. by rewrite He. Qed.

Lemma levels_wait x y n ls dc : x <> y -> 0 <= dc -> dc + Z.of_nat n < 6 ->
  levels y dc (replicate n x ++ ls) = replicate n y ++ levels y (dc + Z.of_nat n) ls /\
  debounced y dc (replicate n x ++ ls) = debounced y (dc + Z.of_nat n) ls.
Proof.
  intros Hxy. revert dc. induction n as [|n IH]; intros dc Hdc Hn.
  - cbn. by rewrite Z.add_0_r.
  - cbn [replicate app]. destruct (levels_cons y dc x (replicate n x ++ ls) y (dc + 1)) as [-> ->].
    { apply debounce_wait; [done|lia]. }
    destruct (IH (dc + 1)) as [-> ->]; [lia..|].
    replace (dc + 1 + Z.of_nat n) with (dc + Z.of_nat (S n)) by lia. done.
Qed.

(** A new level counts from its sixth sample on. *)
Lemma levels_switch x y n ls : x <> y -> 0 <= x < 2 -> (6 <= n)%nat ->
  levels y 0 (replicate n x ++ ls) = replicate 5 y ++ replicate (n - 5) x ++ levels x 0 ls /\
  debounced y 0 (replicate n x ++ ls) = debounced x 0 ls.
Proof.
  intros Hxy Hx Hn. replace n with (5 + S (n - 6))%nat at 1 3 by lia. rewrite replicate_add, <- app_assoc.
  destruct (levels_wait x y 5 (replicate (S (n - 6)) x ++ ls) 0) as [-> ->]; [done|lia|lia|].
  replace (n - 5)%nat with (S (n - 6)) by lia. cbn [replicate app].
  destruct (levels_cons y 5 x (replicate (n - 6) x ++ ls) x 0) as [He Hd]; [by apply debounce_switch|].
  change (0 + Z.of_nat 5) with 5. by rewrite He, Hd, levels_same, debounced_same.
Qed.

(** Fewer than six samples change nothing. *)
Lemma levels_glitch x y n k : x <> y -> (n < 6)%nat -> (0 < k)%nat ->
  levels y 0 (replicate n x ++ replicate k y) = replicate (n + k) y /\
  debounced y 0 (replicate n x ++ replicate k y) = 0.
Proof.
  intros Hxy Hn Hk. destruct k as [|k]; [lia|].
  destruct (levels_wait x y n (replicate (S k) y) 0) as [-> ->]; [done|lia|lia|].
  cbn [replicate]. destruct (levels_cons y (0 + Z.of_nat n) y (replicate k y) y 0) as [-> ->]; [apply debounce_keep|].
  rewrite <- (app_nil_r (replicate k y)), levels_same, debounced_same. cbn. rewrite app_nil_r. split; [|done].
  by rewrite replicate_add.
Qed.

Lemma run_levels_silent act m l1 l2 m1 r :
  run_levels act m l1 = (m1, []) -> run_levels act m1 l2 = r -> run_levels act m (l1 ++ l2) = r.
Proof. destruct r as [m2 e2]. intros H1 H2. by rewrite (run_levels_app _ _ _ _ _ _ _ _ H1 H2). Qed.

(** *** Stretches of one level *)

Section stretches.
Context (act ina : Z) (Hne : ina <> act).

(** Count the ticks of a state in which nothing happens. *)
Lemma stretch_step t r e s lv m' evs n l :
  (forall t', t <= t' < t + Z.of_nat n -> s <> 0 /\
    advance act (set_button_level l (set_ticks (u16 (t' + 1)) (Machine t' r e s 0 lv))) = (Machine (t' + 1) r e s 0 lv, [])) ->
  0 < s -> m' = Machine (t + Z.of_nat n) r e s 0 lv -> evs = [] ->
  run_levels act (Machine t r e s 0 lv) (replicate n l) = (m', evs).
Proof using.
  clear. intros Hstep Hs -> ->. revert t Hstep. induction n as [|n IH]; intros t Hstep.
  - cbn. do 2 f_equal. lia.
  - cbn [replicate run_levels]. unfold count_tick. cbn [bstate ticks]. rewrite (proj2 (Z.ltb_lt 0 s)) by done.
    destruct (Hstep t ltac:(lia)) as [_ ->]. rewrite IH; [|intros t' Ht'; apply Hstep; lia].
    do 2 f_equal. lia.
Qed.

(** One step at a known state: the tests of the machine decided one by one. *)
Ltac machine_step :=
  cbn [replicate run_levels app]; unfold count_tick, advance; cbn;
  rewrite ?Z.eqb_refl, ?(proj2 (Z.eqb_neq ina act) Hne); cbn.

Lemma idle_run m n : bstate m = 0 ->
  exists m', run_levels act m (replicate n ina) = (m', []) /\ bstate m' = 0 /\
    debounce_cnt m' = debounce_cnt m /\ (button_level m = ina -> button_level m' = ina).
Proof.
  revert m. induction n as [|n IH]; intros [t r e s d lv] Hs; cbn in Hs; subst s; [by eexists|].
  machine_step. edestruct IH as (m' & -> & Hm & Hd & Hlv); [|exists m'; split_and!; [done|done|done|]]; [done|].
  intros _. by apply Hlv.
Qed.

Lemma press_run m : bstate m = 0 -> debounce_cnt m = 0 ->
  run_levels act m [act] = (Machine 0 1 0 1 0 act, [PRESS_DOWN]).
Proof. destruct m as [t r e s d lv]. cbn. intros -> ->. by machine_step. Qed.

Lemma held_run t r e n : 0 <= t -> t + Z.of_nat n <= 200 ->
  run_levels act (Machine t r e 1 0 act) (replicate n act) = (Machine (t + Z.of_nat n) r e 1 0 act, []).
Proof.
  intros Ht Hn. eapply stretch_step; try done. intros t' Ht'. split; [done|]. machine_step.
  rewrite u16_id by zlia. rewrite (proj2 (Z.ltb_ge LONG_TICKS _)); [done|]. change LONG_TICKS with 200. lia.
Qed.

Lemma release_run t r e : 0 <= t ->
  run_levels act (Machine t r e 1 0 act) [ina] = (Machine 0 r 1 2 0 ina, [PRESS_UP]).
Proof. intros Ht. by machine_step. Qed.

Lemma long_run r e : run_levels act (Machine 200 r e 1 0 act) [act] = (Machine 201 r 5 5 0 act, [LONG_PRESS_START]).
Proof. by machine_step. Qed.

Lemma hold_run t r e n :
  exists t' e', run_levels act (Machine t r e 5 0 act) (replicate n act) =
    (Machine t' r e' 5 0 act, replicate n LONG_PRESS_HOLD).
Proof.
  revert t e. induction n as [|n IH]; intros t e; [by eexists _, _|]. machine_step.
  change (set_event _ _) with (Machine (u16 (t + 1)) r 6 5 0 act). destruct (IH (u16 (t + 1)) 6) as (t' & e' & ->). by eexists _, _.
Qed.

Lemma hold_release t r e : exists m', run_levels act (Machine t r e 5 0 act) [ina] = (m', [PRESS_UP]) /\
  bstate m' = 0 /\ button_level m' = ina.
Proof. machine_step. by eexists. Qed.

Lemma gap_run t r e n : 0 <= t -> t + Z.of_nat n <= 80 ->
  run_levels act (Machine t r e 2 0 ina) (replicate n ina) = (Machine (t + Z.of_nat n) r e 2 0 ina, []).
Proof.
  intros Ht Hn. eapply stretch_step; try done. intros t' Ht'. split; [done|]. machine_step.
  rewrite u16_id by zlia. rewrite (proj2 (Z.ltb_ge SHORT_TICKS _)); [done|]. change SHORT_TICKS with 80. lia.
Qed.

Lemma timeout_run r e : exists m', run_levels act (Machine 80 r e 2 0 ina) [ina] =
    (m', if r =? 1 then [SINGLE_CLICK] else []) /\ bstate m' = 0 /\ button_level m' = ina.
Proof. machine_step. destruct (r =? 1); [by eexists|]. destruct (r =? 2); by eexists. Qed.

Lemma again_run t r e :
  run_levels act (Machine t r e 2 0 ina) [act] =
    (Machine 0 ((r + 1) mod 16) 0 3 0 act,
     PRESS_DOWN :: (if (r + 1) mod 16 =? 2 then [DOUBLE_CLICK] else []) ++ [PRESS_REPEAT]).
Proof. machine_step. by rewrite app_nil_r. Qed.

Lemma held_again_run t r e n : 0 <= t -> t + Z.of_nat n < 65536 ->
  run_levels act (Machine t r e 3 0 act) (replicate n act) = (Machine (t + Z.of_nat n) r e 3 0 act, []).
Proof.
  intros Ht Hn. eapply stretch_step; try done. intros t' Ht'. split; [done|]. machine_step.
  rewrite u16_id by zlia. done.
Qed.

Lemma release_again_run t r e : 0 <= t -> t + 1 < 80 ->
  run_levels act (Machine t r e 3 0 act) [ina] = (Machine 0 r 1 2 0 ina, [PRESS_UP]).
Proof.
  intros Ht Hn. machine_step. rewrite u16_id by zlia.
  rewrite (proj2 (Z.ltb_lt _ SHORT_TICKS)); [done|]. change SHORT_TICKS with 80. lia.
Qed.
End stretches.

(** *** The samples of a wall clock *)

(** The levels to come, one for each reading, and the callbacks made. *)
Record press_env := PressEnv { samples : list Z; calls : list Z }.

Definition pe_level (f h : Z) : M (btn_st press_env) Z := fun s =>
  match samples (ext s) with
  | [] => Val (0, s)
  | x :: rest => Val (x, set_ext (PressEnv rest (calls (ext s))) s)
  end.
Definition pe_cb (f h : Z) : M (btn_st press_env) unit := modify (fun s =>
  set_ext (PressEnv (samples (ext s)) (calls (ext s) ++ [f])) s).

#[export, refine] Instance pe_env : ButtonEnv pe_level pe_cb := {|
  level_of f h e := match samples e with [] => (0, e) | x :: rest => (x, PressEnv rest (calls e)) end;
  cb_of f h e := PressEnv (samples e) (calls e ++ [f]);
|}.
Proof.
  - intros f h s. unfold pe_level. destruct (samples (ext s)); by destruct s.
  - done.
Defined.

(** The callbacks that a button has for a list of events. *)
Definition callbacks (b : BUTTON_S) (evs : list PRESS_EVT) : list Z :=
  filter (fun f => f <> 0) (map (fun ev => default 0 (cb b !! Z.to_nat (evt_num ev))) evs).

Lemma fire_calls b h evs e :
  fire pe_level pe_cb b h evs e = PressEnv (samples e) (calls e ++ callbacks b evs).
Proof.
  revert e. induction evs as [|ev evs IH]; intros e; [cbn; rewrite app_nil_r; by destruct e|].
  cbn [fire fold_left]. fold (fire pe_level pe_cb b h evs). unfold fire_one, callbacks, truthy. cbn [map].
  set (f := default 0 _). destruct (Z.eqb_spec f 0) as [->|Hf]; cbn [negb].
  - rewrite filter_cons_False by naive_solver. apply IH.
  - rewrite filter_cons_True by done. etransitivity; [apply IH|]. cbn. by rewrite <- app_assoc.
Qed.

Lemma callbacks_app b e1 e2 : callbacks b (e1 ++ e2) = callbacks b e1 ++ callbacks b e2.
Proof. unfold callbacks. by rewrite map_app, list.filter_app. Qed.

(** One button, ticked once for each sample. *)
Lemma ticks_run s h b ls rest m evs :
  btn_list s [h] -> heap s !! h = Some b -> samples (ext s) = ls ++ rest ->
  run_press (active_level b) (mach b) ls = (m, evs) ->
  exists s', repeat_m (length ls) (button_ticks pe_level pe_cb) s = Val (tt, s') /\
    btn_list s' [h] /\ heap s' !! h = Some (set_mach m b) /\ ext s' = PressEnv rest (calls (ext s) ++ callbacks b evs).
Proof.
  revert s b m evs. induction ls as [|l ls IH]; intros s b m evs Hl Hb Hs Hrun.
  - injection Hrun as <- <-. exists s. split_and!; [done|done|by destruct b|]. rewrite app_nil_r.
    destruct (ext s). cbn in *. congruence.
  - cbn [run_press] in Hrun. destruct (press_step (active_level b) (mach b) l) as [m1 e1] eqn:E1.
    destruct (run_press (active_level b) m1 ls) as [m2 e2] eqn:E2. injection Hrun as <- <-.
    cbn [length]. rewrite repeat_m_succ.
    assert (Ht : tick_all pe_level pe_cb [h] (heap s, ext s) =
      (<[h := set_mach m1 b]> (heap s), PressEnv (ls ++ rest) (calls (ext s) ++ callbacks b e1))).
    { cbn [tick_all fold_left]. unfold tick_one. cbn [fst snd]. rewrite Hb. cbn [level_of pe_env]. rewrite Hs. cbn [app].
      rewrite E1. by rewrite fire_calls. }
    rewrite (bind_ret_val _ _ _ _ _ (ticks_val pe_level pe_cb s [h] Hl)).
    pose proof (tick_all_list pe_level pe_cb s [h] [h] (heap s, ext s)) as Hl1. rewrite Ht in Hl1 |- *. cbn [fst snd] in *.
    assert (Hs0 : BtnSt (heap s) (head_handle s) false (ext s) = s).
    { destruct Hl as [_ _ _ Hm _]. destruct s; cbn in *. congruence. }
    rewrite Hs0 in Hl1. specialize (Hl1 Hl). set (s1 := BtnSt _ _ _ _) in *.
    destruct (IH s1 (set_mach m1 b) m2 e2 Hl1) as (s' & He & Hl' & Hb' & Hx').
    + apply lookup_insert_eq.
    + done.
    + done.
    + exists s'. split_and!; [done|done|done|]. rewrite Hx'. subst s1. cbn [ext calls].
      by rewrite callbacks_app, app_assoc.
Qed.

(** *** One press *)

(** A button at rest: released, and its level stable. *)
Record idle (b : BUTTON_S) : Prop := {
  idle_active : active_level b = 0 \/ active_level b = 1;
  idle_state : bstate (mach b) = 0;
  idle_cnt : debounce_cnt (mach b) = 0;
  idle_level : button_level (mach b) = 1 - active_level b;
}.

(** The events of one press of [n] ticks of 5 ms. *)
Definition press_events (n : nat) : list PRESS_EVT :=
  if decide (n < 6)%nat then []
  else if decide (n <= 201)%nat then [PRESS_DOWN; PRESS_UP; SINGLE_CLICK]
  else [PRESS_DOWN; LONG_PRESS_START] ++ replicate (n - 202) LONG_PRESS_HOLD ++ [PRESS_UP].

Lemma replicate_cut {A} (x : A) (a b n : nat) : n = (a + b)%nat -> replicate n x = replicate a x ++ replicate b x.
Proof. intros ->. apply replicate_add. Qed.

Section gestures.
Context (act ina : Z) (Hne : ina <> act).

(** After a release of a press that was short: 81 ticks to the click. *)
Lemma after_release r e k : (81 <= k)%nat ->
  exists m', run_levels act (Machine 0 r e 2 0 ina) (replicate k ina) = (m', if r =? 1 then [SINGLE_CLICK] else []) /\
    bstate m' = 0 /\ button_level m' = ina.
Proof.
  intros Hk. rewrite (replicate_cut ina 80 (1 + (k - 81)) k) by lia.
  destruct (timeout_run act ina Hne r e) as (m1 & H1 & Hs1 & Hl1).
  destruct (idle_run act ina Hne m1 (k - 81) Hs1) as (m2 & H2 & Hs2 & _ & Hl2). exists m2. split; [|auto].
  eapply run_levels_silent; [apply (gap_run act ina Hne 0 r e 80); lia|].
  rewrite (replicate_add 1). rewrite <- (app_nil_r (if r =? 1 then _ else _)). by eapply run_levels_app.
Qed.

Lemma short_press m n k : bstate m = 0 -> debounce_cnt m = 0 -> (1 <= n <= 201)%nat -> (82 <= k)%nat ->
  exists m', run_levels act m (replicate n act ++ replicate k ina) = (m', [PRESS_DOWN; PRESS_UP; SINGLE_CLICK]) /\
    bstate m' = 0 /\ button_level m' = ina.
Proof.
  intros Hs Hd Hn Hk. destruct (after_release 1 1 (k - 1)) as (m' & H' & Hs' & Hl'); [lia|]. exists m'. split; [|done].
  rewrite (replicate_cut act 1 (n - 1) n), (replicate_cut ina 1 (k - 1) k), <- app_assoc by lia.
  apply (run_levels_app _ _ _ _ _ [PRESS_DOWN] _ [PRESS_UP; SINGLE_CLICK] (press_run act m Hs Hd)).
  eapply run_levels_silent; [apply (held_run act); lia|].
  eapply (run_levels_app _ _ _ _ _ [PRESS_UP] _ [SINGLE_CLICK]); [apply (release_run act ina Hne); lia|]. exact H'.
Qed.

Lemma long_press m n k : bstate m = 0 -> debounce_cnt m = 0 -> (202 <= n)%nat -> (1 <= k)%nat ->
  exists m', run_levels act m (replicate n act ++ replicate k ina) =
      (m', [PRESS_DOWN; LONG_PRESS_START] ++ replicate (n - 202) LONG_PRESS_HOLD ++ [PRESS_UP]) /\
    bstate m' = 0 /\ button_level m' = ina.
Proof.
  intros Hs Hd Hn Hk. destruct (hold_run act 201 1 5 (n - 202)) as (t & e & Hh).
  destruct (hold_release act ina Hne t 1 e) as (m1 & H1 & Hs1 & Hl1).
  destruct (idle_run act ina Hne m1 (k - 1) Hs1) as (m2 & H2 & Hs2 & _ & Hl2). exists m2. split; [|auto].
  rewrite (replicate_cut act 1 (n - 1) n), (replicate_cut act 200 (n - 201) (n - 1)) by lia.
  rewrite (replicate_cut act 1 (n - 202) (n - 201)), (replicate_cut ina 1 (k - 1) k), <- !app_assoc by lia.
  apply (run_levels_app _ _ _ _ _ [PRESS_DOWN] _ _ (press_run act m Hs Hd)).
  eapply run_levels_silent; [apply (held_run act); lia|].
  apply (run_levels_app _ _ _ _ _ [LONG_PRESS_START] _ _ (long_run act 1 0)).
  eapply run_levels_app; [exact Hh|]. rewrite <- (app_nil_r [PRESS_UP]). by eapply run_levels_app.
Qed.

(** A series of [n] presses of [p] ticks, [r] ticks apart. *)
Fixpoint click_samples (n p r k : nat) : list Z :=
  match n with
  | O => replicate k ina
  | S n' => replicate p act ++ replicate r ina ++ click_samples n' p r k
  end.

(** The events of presses number [i + 1] to [i + n] of a series, and of its end. *)
Fixpoint series_events (n : nat) (i : Z) : list PRESS_EVT :=
  match n with
  | O => if i mod 16 =? 1 then [SINGLE_CLICK] else []
  | S n' =>
    [PRESS_DOWN] ++ (if (i + 1) mod 16 =? 2 then [DOUBLE_CLICK] else []) ++ [PRESS_REPEAT; PRESS_UP] ++
    series_events n' (i + 1)
  end.

Lemma click_step p r rest : 0 <= act < 2 -> 0 <= ina < 2 -> (6 <= p)%nat -> (6 <= r)%nat ->
  levels ina 0 (replicate p act ++ replicate r ina ++ rest) =
    replicate 5 ina ++ replicate p act ++ replicate (r - 5) ina ++ levels ina 0 rest /\
  debounced ina 0 (replicate p act ++ replicate r ina ++ rest) = debounced ina 0 rest.
Proof.
  intros Ha Hi Hp Hr. destruct (levels_switch act ina p (replicate r ina ++ rest)) as [-> ->]; [by apply not_eq_sym|done|done|].
  destruct (levels_switch ina act r rest) as [-> ->]; [done..|].
  rewrite (replicate_cut act (p - 5) 5 p), <- !app_assoc by lia. done.
Qed.

Lemma rest_levels k : levels ina 0 (replicate k ina) = replicate k ina /\ debounced ina 0 (replicate k ina) = 0.
Proof. rewrite <- (app_nil_r (replicate k ina)), levels_same, debounced_same. cbn. by rewrite app_nil_r. Qed.

Lemma click_debounced n p r k : 0 <= act < 2 -> 0 <= ina < 2 -> (6 <= p)%nat -> (6 <= r)%nat ->
  debounced ina 0 (click_samples n p r k) = 0.
Proof.
  intros Ha Hi Hp Hr. induction n as [|n IH]; cbn [click_samples]; [apply rest_levels|].
  destruct (click_step p r (click_samples n p r k)) as [_ ->]; done.
Qed.

Lemma series_run n p r k i e t : 0 <= act < 2 -> 0 <= ina < 2 -> (6 <= p < 80)%nat -> (6 <= r <= 81)%nat ->
  (87 <= k)%nat -> t = Z.of_nat (r - 6) ->
  exists m', run_levels act (Machine t (i mod 16) e 2 0 ina) (levels ina 0 (click_samples n p r k)) =
      (m', series_events n i) /\ bstate m' = 0 /\ button_level m' = ina.
Proof.
  intros Ha Hi Hp Hr Hk ->. revert i e. induction n as [|n IH]; intros i e.
  - cbn [click_samples series_events]. destruct (rest_levels k) as [-> _].
    destruct (timeout_run act ina Hne (i mod 16) e) as (m1 & H1 & Hs1 & Hl1).
    destruct (idle_run act ina Hne m1 (k - (80 - (r - 6)) - 1) Hs1) as (m2 & H2 & Hs2 & _ & Hl2).
    exists m2. split; [|auto].
    rewrite (replicate_cut ina (80 - (r - 6)) (1 + (k - (80 - (r - 6)) - 1)) k), (replicate_add 1) by lia.
    eapply run_levels_silent; [apply (gap_run act ina Hne); lia|].
    replace (Z.of_nat (r - 6) + Z.of_nat (80 - (r - 6))) with 80 by lia.
    rewrite <- (app_nil_r (if i mod 16 =? 1 then _ else _)). by eapply run_levels_app.
  - cbn [click_samples]. destruct (click_step p r (click_samples n p r k)) as [-> _]; [done|done|lia|lia|].
    destruct (IH (i + 1) 1) as (m' & H' & Hs' & Hl'). exists m'. split; [|done]. cbn [series_events].
    assert (Hev : forall d l, [PRESS_DOWN] ++ d ++ [PRESS_REPEAT; PRESS_UP] ++ l =
      (PRESS_DOWN :: d ++ [PRESS_REPEAT]) ++ [PRESS_UP] ++ l) by (intros; cbn; by rewrite <- app_assoc).
    rewrite Hev. rewrite (replicate_cut act 1 (p - 1) p), (replicate_cut ina 1 (r - 6) (r - 5)) by lia.
    rewrite <- !(app_assoc (replicate _ _)).
    eapply run_levels_silent; [apply (gap_run act ina Hne); lia|].
    eapply run_levels_app.
    { etransitivity; [apply again_run|]. by rewrite Zplus_mod_idemp_l. }
    eapply run_levels_silent; [apply held_again_run; lia|].
    eapply (run_levels_app _ _ _ _ _ [PRESS_UP]); [apply (release_again_run act ina Hne); lia|].
    eapply run_levels_silent; [apply (gap_run act ina Hne); lia|]. exact H'.
Qed.
End gestures.

Lemma idle_set b m : idle b -> bstate m = 0 -> debounce_cnt m = 0 -> button_level m = 1 - active_level b ->
  idle (set_mach m b).
Proof. intros [Ha _ _ _] Hs Hd Hl. by split. Qed.

(** C37: one press of a button at rest.  Held for less than 6 samples of 5 ms
    it is noise and no callback is made; up to 201 samples it is a click; from
    202 on it is a long press, with a hold event for each further tick and no
    click.  435 ms after the release the button is at rest again. *)
Theorem press_gesture s h b n k rest :
  btn_list s [h] -> heap s !! h = Some b -> idle b -> (87 <= k)%nat ->
  samples (ext s) = replicate n (active_level b) ++ replicate k (1 - active_level b) ++ rest ->
  exists s' m, repeat_m (n + k) (button_ticks pe_level pe_cb) s = Val (tt, s') /\
    btn_list s' [h] /\ heap s' !! h = Some (set_mach m b) /\ idle (set_mach m b) /\
    ext s' = PressEnv rest (calls (ext s) ++ callbacks b (press_events n)).
Proof.
  intros Hl Hb Hidle Hk Hs. pose proof Hidle as [Ha Hst Hd Hlv].
  set (act := active_level b) in *. set (ina := 1 - act) in *.
  assert (Hne : ina <> act) by (subst ina; lia). assert (Hz : set_debounce_cnt 0 (mach b) = mach b).
  { destruct (mach b); cbn in *. by subst. }
  assert (Hrun : exists m, run_press act (mach b) (replicate n act ++ replicate k ina) = (m, press_events n) /\
    bstate m = 0 /\ debounce_cnt m = 0 /\ button_level m = ina).
  { assert (Hlev : exists m, run_levels act (mach b) (levels ina 0 (replicate n act ++ replicate k ina)) = (m, press_events n) /\
      bstate m = 0 /\ button_level m = ina).
    { unfold press_events. destruct (decide (n < 6)%nat) as [Hn|Hn].
      - destruct (levels_glitch act ina n k) as [-> _]; [done|done|lia|].
        destruct (idle_run act ina Hne (mach b) (n + k) Hst) as (m & Hm & Hms & _ & Hml). exists m. auto.
      - destruct (levels_switch act ina n (replicate k ina)) as [-> _]; [done|lia|lia|].
        destruct (levels_switch ina act k []) as [He _]; [done|subst ina; lia|lia|]. rewrite !app_nil_r in He. rewrite He.
        rewrite !app_assoc, <- (app_assoc (replicate 5 ina)), <- replicate_add, <- app_assoc.
        replace (n - 5 + 5)%nat with n by lia.
        destruct (idle_run act ina Hne (mach b) 5 Hst) as (m0 & H0 & Hs0 & Hd0 & _). rewrite Hd in Hd0.
        destruct (decide (n <= 201)%nat).
        + destruct (short_press act ina Hne m0 n (k - 5)) as (m & Hm & Hms & Hml); [done|done|lia|lia|].
          exists m. split; [by eapply run_levels_silent|done].
        + destruct (long_press act ina Hne m0 n (k - 5)) as (m & Hm & Hms & Hml); [done|done|lia|lia|].
          exists m. split; [by eapply run_levels_silent|done]. }
    destruct Hlev as (m & Hm & Hms & Hml). rewrite run_press_levels, Hlv, Hd, Hz, Hm.
    exists (set_debounce_cnt (debounced ina 0 (replicate n act ++ replicate k ina)) m). split_and!; [done|done| |done].
    destruct (decide (n < 6)%nat).
    - destruct (levels_glitch act ina n k) as [_ ->]; [done|done|lia|done].
    - destruct (levels_switch act ina n (replicate k ina)) as [_ ->]; [done|lia|lia|].
      destruct (levels_switch ina act k []) as [_ He]; [done|subst ina; lia|lia|]. rewrite app_nil_r in He. by rewrite He. }
  destruct Hrun as (m & Hrun & Hms & Hmd & Hml). rewrite app_assoc in Hs.
  destruct (ticks_run s h b _ rest m _ Hl Hb Hs Hrun) as (s' & He & Hl' & Hb' & Hx).
  rewrite length_app, !length_replicate in He. exists s', m. split_and!; try done.
Qed.

(** A series of presses, each of 6 to 79 samples and 6 to 81 samples
    apart: the second is a double click, each after the first a repeat, and a
    series of two or more ends without a click -- but the count of presses has
    four bits, so presses 18, 34, ... are double clicks again, and a series of
    17, 33, ... presses ends with a single click. *)
Theorem press_series s h b n p r k rest :
  btn_list s [h] -> heap s !! h = Some b -> idle b -> (1 <= n)%nat -> (6 <= p < 80)%nat -> (6 <= r <= 81)%nat ->
  (87 <= k)%nat ->
  samples (ext s) = click_samples (active_level b) (1 - active_level b) n p r k ++ rest ->
  exists s' m, repeat_m (length (click_samples (active_level b) (1 - active_level b) n p r k))
      (button_ticks pe_level pe_cb) s = Val (tt, s') /\
    btn_list s' [h] /\ heap s' !! h = Some (set_mach m b) /\ idle (set_mach m b) /\
    ext s' = PressEnv rest (calls (ext s) ++ callbacks b ([PRESS_DOWN; PRESS_UP] ++ series_events (n - 1) 1)).
Proof.
  intros Hl Hb Hidle Hn Hp Hr Hk Hs. pose proof Hidle as [Ha Hst Hd Hlv].
  set (act := active_level b) in *. set (ina := 1 - act) in *.
  assert (Hne : ina <> act) by (subst ina; lia). assert (Hz : set_debounce_cnt 0 (mach b) = mach b).
  { destruct (mach b); cbn in *. by subst. }
  assert (Hai : 0 <= act < 2 /\ 0 <= ina < 2) by (subst ina; lia). destruct Hai as [Hact Hina].
  destruct n as [|n]; [lia|].
  destruct (series_run act ina Hne n p r k 1 1 (Z.of_nat (r - 6))) as (m & Hm & Hms & Hml); [done..|].
  change (1 mod 16) with 1 in Hm. replace (S n - 1)%nat with n by lia.
  assert (Hrun : run_levels act (mach b) (levels ina 0 (click_samples act ina (S n) p r k)) =
    (m, [PRESS_DOWN; PRESS_UP] ++ series_events n 1)).
  { cbn [click_samples]. destruct (click_step act ina Hne p r (click_samples act ina n p r k)) as [-> _]; [done|done|lia|lia|].
    destruct (idle_run act ina Hne (mach b) 5 Hst) as (m0 & H0 & Hs0 & Hd0 & _). rewrite Hd in Hd0.
    eapply run_levels_silent; [exact H0|].
    rewrite (replicate_cut act 1 (p - 1) p), (replicate_cut ina 1 (r - 6) (r - 5)) by lia.
    rewrite <- !(app_assoc (replicate _ _)).
    apply (run_levels_app _ _ _ _ _ [PRESS_DOWN] _ ([PRESS_UP] ++ series_events n 1) (press_run act m0 Hs0 Hd0)).
    eapply run_levels_silent; [apply (held_run act); lia|].
    eapply (run_levels_app _ _ _ _ _ [PRESS_UP]); [apply (release_run act ina Hne); lia|].
    eapply run_levels_silent; [apply (gap_run act ina Hne); lia|]. exact Hm. }
  pose proof (run_press_levels act (mach b) (click_samples act ina (S n) p r k)) as Hpress.
  rewrite Hlv, Hd, Hz, Hrun, (click_debounced act ina Hne) in Hpress by (done || lia).
  destruct (ticks_run s h b _ rest _ _ Hl Hb Hs Hpress) as (s' & He & Hl' & Hb' & Hx).
  exists s', (set_debounce_cnt 0 m). split_and!; try done.
Qed.

(** ** Callbacks run with the list locked *)

(** A tick calls the callbacks with the mutex taken: one that starts,
    stops or searches a button waits for ever, whatever it would do next. *)
Theorem callback_deadlock {E} (lv : Z) (op : Z -> Z -> list_op) (next_step : Z -> Z -> M (btn_st E) unit) s h l b :
  btn_list s (h :: l) -> heap s !! h = Some b -> 
  bstate (mach b) = 0 -> button_level (mach b) = lv -> active_level b = lv ->
  (exists f, cb b !! 0%nat = Some f /\ f <> 0) ->
  button_ticks (fun _ _ => mret lv) (fun f h => list_call (op f h);; next_step f h) s = Err Deadlock.
Proof.
  intros [Hc Hnd Hcb Hm Hn] Hb Hst Hlv Hact (f & Hf & H0). destruct Hc as (Hhd & Hh & b' & Hb' & Hc). assert (b' = b) as -> by congruence. clear Hb'.
  unfold button_ticks. rewrite (bind_ret_val _ _ _ _ _ (locked s Hm)). set (s1 := set_mutex true s).
  rewrite (bind_ret_val _ _ _ (S (size (heap s))) s1) by done.
  rewrite (bind_ret_val _ _ _ s1 s1) by done. apply bind_err. cbn [ticks_loop]. change (head_handle s1) with (head_handle s); rewrite Hhd.
  unfold truthy. rewrite (proj2 (Z.eqb_neq _ _)) by done. cbn [negb]. apply bind_err. unfold button_handler.
  assert (Hs : s1 = at_ s1 h b (mach b) (ext s)).
  { unfold at_, s1, set_mutex. cbn. f_equal. rewrite insert_id; [done|]. by destruct b. }
  rewrite Hs. rewrite at_bind_get. rewrite bind_mret, at_bind_get. cbn [mach set_mach]. rewrite Hst.
  change (0 <? 0) with false. cbn [when]. rewrite bind_mret, at_bind_get. cbn [mach set_mach].
  rewrite Hlv, Z.eqb_refl. cbn [negb]. rewrite at_bind_upd. unfold button_switch. rewrite at_bind_get.
  cbn [mach set_mach active_level]. cbn [bstate button_level set_debounce_cnt]. rewrite Hact, Hlv, Hst, !Z.eqb_refl.
  apply bind_err. unfold raise. rewrite at_bind_upd.
  unfold EVENT_CB. rewrite at_bind_get. cbn [cb set_mach].
  rewrite (bind_ret_val _ _ _ f _) by (change (Z.to_nat (evt_num PRESS_DOWN)) with 0%nat; by rewrite Hf).
  unfold truthy.
  rewrite (proj2 (Z.eqb_neq _ _)) by done. cbn [negb when]. apply bind_err. by destruct (op f h).
Qed.

(** ** Keys *)

Lemma free_list {E} (s : btn_st E) l p : btn_list s l -> p ∉ l ->
  btn_list (set_heap (delete p (heap s)) s) l.
Proof.
  intros [Hc Hnd Hcb Hm Hn] Hp. split; cbn; try done.
  - eapply chain_ext; [|exact Hc]. intros x Hx. apply lookup_delete_ne. by intros ->.
  - intros h b Hb. apply lookup_delete_Some in Hb as [_ Hb]. by eapply Hcb.
  - apply lookup_delete_None. by right.
Qed.

Lemma filter_away (P Q : Z -> Prop) `{!forall y, Decision (P y), !forall y, Decision (Q y)} x (l : list Z) :
  (forall y, y <> x -> P y <-> Q y) -> ~ Q x -> filter P (filter (fun y => y <> x) l) = filter Q l.
Proof.
  intros HPQ HQ. induction l as [|y l IH]; [done|]. destruct (decide (y = x)) as [->|Hne].
  - rewrite (filter_cons_False (fun y => y <> x)), (filter_cons_False Q) by naive_solver. done.
  - rewrite (filter_cons_True (fun y => y <> x)) by done. destruct (decide (Q y)).
    + rewrite !filter_cons_True by naive_solver. by rewrite IH.
    + rewrite !filter_cons_False by naive_solver. done.
Qed.

(** The memory after the buttons with user data [ud] of the list are freed. *)
Definition freed {E} (ud : Z) (l : list Z) (s s' : btn_st E) : Prop :=
  btn_list s' (filter (fun x => ud_in (heap s) x <> Some ud) l) /\ ext s' = ext s /\
  forall x, unlinked (heap s') !! x =
    if decide (x ∈ l /\ ud_in (heap s) x = Some ud) then None else unlinked (heap s) !! x.

Lemma unconfigure_loop_spec {E} fuel ud (s : btn_st E) l : btn_list s l -> (length l < fuel)%nat ->
  exists s', unconfigure_loop fuel ud s = Val (tt, s') /\ freed ud l s s'.
Proof.
  revert s l. induction fuel as [|fuel IH]; intros s l Hl Hf; [lia|]. cbn [unconfigure_loop].
  rewrite (bind_ret_val _ _ _ _ _ (find_spec s l ud Hl)).
  destruct (list_find _ l) as [[i x]|] eqn:Hfind; cbn [fmap option_fmap option_map snd default].
  - apply list_find_Some in Hfind as (Hi & Hx & _).
    assert (Hxl : x ∈ l) by (by eapply list_elem_of_lookup_2).
    destruct (chain_lookup _ _ _ _ (bl_chain _ _ Hl) Hxl) as [Hx0 _]. unfold truthy.
    rewrite (proj2 (Z.eqb_neq _ _)) by done. cbn [negb].
    destruct (stop_spec s l x Hl) as (s1 & He & Hl1 & Hu & _ & Hx1). rewrite (bind_ret_val _ _ _ _ _ He).
    set (s2 := set_heap (delete x (heap s1)) s1). rewrite (bind_ret_val _ _ _ tt s2) by done.
    set (l1 := filter (fun y => y <> x) l) in *.
    assert (Hxl1 : x ∉ l1) by (subst l1; rewrite list_elem_of_filter; naive_solver).
    assert (Hud : forall y, y <> x -> ud_in (heap s2) y = ud_in (heap s) y).
    { intros y Hy. rewrite <- (ud_unlinked _ _ y Hu). unfold ud_in, s2. cbn. by rewrite lookup_delete_ne. }
    destruct (IH s2 l1 (free_list s1 l1 x Hl1 Hxl1)) as (s' & He' & Hl' & Hx' & Hfr).
    { subst l1. enough (length (filter (fun y => y <> x) l) < length l)%nat by lia. apply (length_filter_lt _ _ x); naive_solver. }
    exists s'. split; [done|]. unfold l1 in Hl'. rewrite (filter_away (fun y => ud_in (heap s2) y <> Some ud) (fun y => ud_in (heap s) y <> Some ud)) in Hl'.
    2: { intros y Hy. by rewrite Hud. }
    2: { unfold ud_in. naive_solver. }
    split_and!; [done|by rewrite Hx'|]. intros y. rewrite Hfr. subst l1. clear -Hu Hx Hxl Hud.
    destruct (decide (y = x)) as [->|Hne].
    + rewrite decide_False by (rewrite list_elem_of_filter; naive_solver). rewrite decide_True by done.
      unfold unlinked, s2. cbn. by rewrite lookup_fmap, lookup_delete_eq.
    + rewrite (decide_ext _ (y ∈ l /\ ud_in (heap s) y = Some ud)) by (rewrite list_elem_of_filter, Hud by done; naive_solver).
      rewrite <- Hu. unfold unlinked, s2. cbn. by rewrite !lookup_fmap, lookup_delete_ne.
  - apply list_find_None in Hfind. exists s. split; [done|]. split_and!; [|done|].
    + replace (filter _ l) with l; [done|]. clear -Hfind. induction Hfind as [|x l Hx _ IH]; [done|].
      by rewrite filter_cons_True, <- IH.
    + intros x. rewrite decide_False; [done|]. intros [Hx Hux]. rewrite list.Forall_forall in Hfind. by eapply Hfind.
Qed.

(** Unconfiguring a GPIO takes every button with that user data out of the
    list and frees it, and leaves the other buttons as they were. *)
Theorem key_unconfigure_removes {E} gpio (s : btn_st E) l : btn_list s l ->
  exists s', key_item_unconfigure gpio s = Val (kNoErr, s') /\ freed gpio l s s'.
Proof.
  intros Hl. destruct (unconfigure_loop_spec (S (size (heap s))) gpio s l Hl) as (s' & He & Hs').
  { destruct Hl as [Hc Hnd _ _ _]. by eapply chain_fuel. }
  exists s'. split; [|done]. unfold key_item_unconfigure.
  rewrite (bind_ret_val _ _ _ (S (size (heap s))) s) by done. by rewrite (bind_ret_val _ _ _ _ _ He).
Qed.

Section configure.
Context {E : Type} (call_level : Z -> Z -> M (btn_st E) Z) (call_cb : Z -> Z -> M (btn_st E) unit)
  `{!ButtonEnv call_level call_cb}.
Context (hp : gmap Z BUTTON_S) (hd p : Z).

Definition with_btn (b : BUTTON_S) (lk : bool) (e : E) : btn_st E := BtnSt (<[p := b]> hp) hd lk e.

Lemma with_bind_get {B} b lk e (k : BUTTON_S -> M _ B) :
  mbind k (get_btn p) (with_btn b lk e) = k b (with_btn b lk e).
Proof using. clear. by rewrite (bind_ret_val _ _ _ b _) by (apply get_btn_val, lookup_insert_eq). Qed.

Lemma with_set b b' lk e : set_btn p b' (with_btn b lk e) = Val (tt, with_btn b' lk e).
Proof using.
  clear. rewrite (set_btn_val _ _ b) by apply lookup_insert_eq. unfold with_btn, set_heap. cbn. by rewrite insert_insert_eq.
Qed.
Lemma with_bind_set {B} b b' lk e (k : unit -> M _ B) :
  mbind k (set_btn p b') (with_btn b lk e) = k tt (with_btn b' lk e).
Proof using. clear. by rewrite (bind_ret_val _ _ _ _ _ (with_set b b' lk e)). Qed.
Lemma with_bind_upd {B} b f lk e (k : unit -> M _ B) :
  mbind k (upd_mach p f) (with_btn b lk e) = k tt (with_btn (set_mach (f (mach b)) b) lk e).
Proof using. clear. unfold upd_mach. by rewrite bind_assoc, with_bind_get, with_bind_set. Qed.
Lemma with_bind_attach {B} b ev f lk e (k : unit -> M _ B) : ev <> NONE_PRESS ->
  mbind k (button_attach p ev f) (with_btn b lk e) =
    k tt (with_btn (set_cb (<[Z.to_nat (evt_num ev) := f]> (cb b)) b) lk e).
Proof using.
  clear. intros Hev. unfold button_attach. rewrite bind_assoc, with_bind_get.
  rewrite (proj2 (Z.ltb_lt _ _)) by (destruct ev; (done || congruence)). apply with_bind_set.
Qed.

Lemma with_init pin level ud b lk e :
  button_init call_level p pin level ud (with_btn b lk e) =
    Val (tt, with_btn (Button (Machine 0 0 8 0 0 (fst (level_of pin p e) mod 2)) (level mod 2) ud pin (replicate 7 0) 0)
      lk (snd (level_of pin p e))).
Proof.
  unfold button_init. rewrite with_bind_set, with_bind_upd, with_bind_get, with_bind_set, with_bind_get.
  cbn [hal_button_Level]. rewrite (bind_ret_val _ _ _ _ _ (call_level_spec _ _ _)).
  change (set_ext ?x (with_btn ?b ?lk e)) with (with_btn b lk x). cbn [ext with_btn].
  unfold upd_mach. by rewrite with_bind_get, with_set.
Qed.
End configure.

(** Configuring a key puts a new button at rest in front of the list, with
    the four callbacks in their slots and its level read once; without memory
    it returns an error and changes nothing. *)
Theorem key_configure_adds {E} (call_level : Z -> Z -> M (btn_st E) Z) (call_cb : Z -> Z -> M (btn_st E) unit)
    `{!ButtonEnv call_level call_cb} os_malloc junk (gpio_ext : Z -> E -> E) gpio_config getf gpio sp dp lp ho s l :
  (forall g s, gpio_config g s = Val (tt, set_ext (gpio_ext g (ext s)) s)) ->
  (os_malloc (heap s) <> 0 -> heap s !! os_malloc (heap s) = None) ->
  btn_list s l ->
  let p := os_malloc (heap s) in
  let r := level_of getf p (gpio_ext gpio (ext s)) in
  exists s', key_item_configure call_level os_malloc junk gpio_config getf gpio sp dp lp ho s =
      Val (if p =? 0 then kNoMemoryErr else kNoErr, s') /\
    if p =? 0 then s' = s
    else btn_list s' (p :: l) /\ ext s' = snd r /\
      unlinked (heap s') = unlinked (<[p := Button (Machine 0 0 8 0 0 (fst r mod 2)) 0 gpio getf
        [0; 0; 0; sp; dp; lp; ho] 0]> (heap s)).
Proof.
  intros Hg Hfresh Hl p r. pose proof Hl as [Hc Hnd Hcb Hm Hn].
  unfold key_item_configure, malloc_button. rewrite bind_assoc, (bind_ret_val _ _ _ s s) by done. fold p. unfold truthy.
  destruct (Z.eqb_spec p 0) as [Hp|Hp]; cbn [negb when].
  { exists s. rewrite bind_assoc, !bind_mret. by rewrite Hp. }
  specialize (Hfresh Hp). fold p in Hfresh. rewrite bind_assoc.
  set (hp := heap s) in *. set (hd := head_handle s) in *.
  assert (Hput : put (set_heap (<[p := junk]> (heap s)) s) s = Val (tt, with_btn hp hd p junk false (ext s))).
  { unfold with_btn, set_heap, put. by rewrite Hm. }
  rewrite (bind_ret_val _ _ _ _ _ Hput), bind_mret. rewrite (proj2 (Z.eqb_neq p 0) Hp). cbn [negb].
  rewrite (bind_ret_val _ _ _ tt (with_btn hp hd p junk true (ext s))) by done.
  rewrite (bind_ret_val _ _ _ _ _ (Hg _ _)).
  change (set_ext ?x (with_btn hp hd p junk true (ext s))) with (with_btn hp hd p junk true x). cbn [ext with_btn].
  rewrite (bind_ret_val _ _ _ _ _ (with_init call_level call_cb hp hd p _ _ _ _ _ _)). fold r.
  rewrite !with_bind_attach by done. cbn [cb set_cb].
  set (b := Button (Machine 0 0 8 0 0 (fst r mod 2)) 0 gpio getf [0; 0; 0; sp; dp; lp; ho] 0).
  rewrite (bind_ret_val _ _ _ tt (with_btn hp hd p b false (snd r))) by done.
  assert (Hpl : p ∉ l). { intros Hpl. destruct (chain_lookup _ _ _ _ Hc Hpl) as [_ [b' Hb']]. congruence. }
  destruct (start_spec (with_btn hp hd p b false (snd r)) l p b) as (s' & He & Hl' & Hu & _ & Hx).
  { split; cbn; try done.
    - eapply chain_ext; [|exact Hc]. intros x Hxl. apply lookup_insert_ne. by intros ->.
    - intros h b'. destruct (decide (h = p)) as [->|].
      + rewrite lookup_insert_eq. by intros [= <-].
      + rewrite lookup_insert_ne by done. apply Hcb.
    - by rewrite lookup_insert_ne. }
  { apply lookup_insert_eq. }
  rewrite (bind_ret_val _ _ _ _ _ He). rewrite bool_decide_eq_false_2 in Hl' |- * by done.
  exists s'. split; [done|]. by split_and!.
Qed.

(** ** Two buttons *)

Definition demo_button (ud nx : Z) : BUTTON_S := Button (Machine 0 0 8 0 0 1) 0 ud 0x100 [1; 2; 3; 4; 5; 6; 7] nx.
Definition demo_btns {E} (e : E) : btn_st E :=
  BtnSt (<[10 := demo_button 6 20]> (<[20 := demo_button 7 0]> (<[30 := demo_button 6 0]> ∅))) 10 false e.

Lemma demo_btns_list {E} (e : E) : btn_list (demo_btns e) [10; 20].
Proof.
  split.
  - split_and!; [done..|]. eexists. split; [reflexivity|]. split_and!; [done..|]. eexists. by split; [reflexivity|].
  - repeat constructor; set_solver.
  - intros h b. unfold demo_btns. cbn [heap]. rewrite !lookup_insert_Some, lookup_empty. naive_solver.
  - done.
  - reflexivity.
Qed.

Lemma button_list_refines_witness :
  exists s', list_calls [OpStart 10; OpStart 30; OpFind 6; OpStop 10; OpFind 7; OpFind 8] (demo_btns tt) =
      Val ([-1; 0; 30; 0; 20; 0], s') /\
    btn_list s' [30; 20] /\ same_rest (demo_btns tt) s'.
Proof.
  destruct (button_list_refines [OpStart 10; OpStart 30; OpFind 6; OpStop 10; OpFind 7; OpFind 8] (demo_btns tt) [10; 20])
    as (s' & He & Hl & Hr).
  - apply demo_btns_list.
  - repeat constructor; by eexists.
  - exists s'. split; [exact He|split; [exact Hl|exact Hr]].
Defined.

(** One button, with the samples to come. *)
Definition demo_one (ls : list Z) : btn_st press_env :=
  BtnSt (<[10 := demo_button 6 0]> ∅) 10 false (PressEnv ls []).

Lemma demo_one_list ls : btn_list (demo_one ls) [10].
Proof.
  split.
  - split_and!; [done..|]. eexists. by split; [reflexivity|].
  - repeat constructor; set_solver.
  - intros h b. unfold demo_one. cbn [heap]. rewrite !lookup_insert_Some, lookup_empty. naive_solver.
  - done.
  - reflexivity.
Qed.

Lemma demo_idle : idle (demo_button 6 0).
Proof. split; [by left|done..]. Qed.

Lemma press_gesture_witness :
  exists s' m, repeat_m (203 + 87) (button_ticks pe_level pe_cb) (demo_one (replicate 203 0 ++ replicate 87 1)) = Val (tt, s') /\
    btn_list s' [10] /\ heap s' !! 10 = Some (set_mach m (demo_button 6 0)) /\ idle (set_mach m (demo_button 6 0)) /\
    ext s' = PressEnv [] [1; 6; 7; 2].
Proof.
  destruct (press_gesture (demo_one (replicate 203 0 ++ replicate 87 1)) 10 (demo_button 6 0) 203 87 [])
    as (s' & m & He & Hl & Hb & Hi & Hx).
  - apply demo_one_list.
  - reflexivity.
  - apply demo_idle.
  - lia.
  - reflexivity.
  - exists s', m. split_and!; [exact He|exact Hl|exact Hb|exact Hi|exact Hx].
Defined.

(** Seventeen presses: the last callback is that of a single click. *)
Lemma press_series_witness :
  exists s' m, repeat_m (length (click_samples 0 1 17 10 10 87)) (button_ticks pe_level pe_cb)
      (demo_one (click_samples 0 1 17 10 10 87 ++ [])) = Val (tt, s') /\
    btn_list s' [10] /\ heap s' !! 10 = Some (set_mach m (demo_button 6 0)) /\ idle (set_mach m (demo_button 6 0)) /\
    ext s' = PressEnv [] ([1; 2; 1; 5; 3; 2] ++ concat (replicate 15 [1; 3; 2]) ++ [4]).
Proof.
  destruct (press_series (demo_one (click_samples 0 1 17 10 10 87 ++ [])) 10 (demo_button 6 0) 17 10 10 87 [])
    as (s' & m & He & Hl & Hb & Hi & Hx).
  - apply demo_one_list.
  - reflexivity.
  - apply demo_idle.
  - lia.
  - lia.
  - lia.
  - lia.
  - reflexivity.
  - exists s', m. split_and!; [exact He|exact Hl|exact Hb|exact Hi|exact Hx].
Defined.

Lemma callback_deadlock_witness :
  button_ticks (fun _ _ => mret 0) (fun f h => list_call (OpStop h);; mret tt)
    (BtnSt (<[10 := set_mach (Machine 0 0 8 0 0 0) (demo_button 6 0)]> ∅) 10 false tt) = Err Deadlock.
Proof.
  apply (callback_deadlock 0 (fun _ h => OpStop h) (fun _ _ => mret tt) _ 10 []
    (set_mach (Machine 0 0 8 0 0 0) (demo_button 6 0))).
  - split.
    + split_and!; [done..|]. eexists. by split; [reflexivity|].
    + repeat constructor; set_solver.
    + intros h b. cbn [heap]. rewrite !lookup_insert_Some, lookup_empty. naive_solver.
    + done.
    + reflexivity.
  - reflexivity.
  - done.
  - done.
  - done.
  - by exists 1.
Defined.

Lemma key_unconfigure_removes_witness :
  exists s', key_item_unconfigure 7 (demo_btns tt) = Val (kNoErr, s') /\ freed 7 [10; 20] (demo_btns tt) s'.
Proof. apply (key_unconfigure_removes 7 (demo_btns tt) [10; 20]), demo_btns_list. Defined.

Lemma key_configure_adds_witness :
  exists s', key_item_configure pe_level (fun _ => 40) (demo_button 0 0) (fun _ => mret tt : M (btn_st press_env) unit) 0x200 14 1 2 3 4
      (demo_btns (PressEnv [1] [])) = Val (kNoErr, s') /\
    btn_list s' [40; 10; 20] /\ ext s' = PressEnv [] [] /\
    unlinked (heap s') = unlinked (<[40 := Button (Machine 0 0 8 0 0 1) 0 14 0x200 [0; 0; 0; 1; 2; 3; 4] 0]>
      (heap (demo_btns (PressEnv [1] [])))).
Proof.
  destruct (key_configure_adds pe_level pe_cb (fun _ => 40) (demo_button 0 0) (fun _ e => e) (fun _ => mret tt : M (btn_st press_env) unit)
    0x200 14 1 2 3 4 (demo_btns (PressEnv [1] [])) [10; 20]) as (s' & He & Hs').
  - intros g s. by destruct s.
  - done.
  - apply demo_btns_list.
  - exists s'. split; [exact He|exact Hs'].
Defined.
