(* ===== verification/Base64.v ===== *)
(** * Base64 (components/base64/base_64.c)

    Encoding with a line feed after every 72 characters, and decoding that
    skips characters outside the alphabet.  A buffer argument is the list of
    bytes at it; what a call stores at [out] is the list it returns, in order.
    [os_zalloc] is the allocator outside the file: the state of the decoder is
    the number of blocks allocated and not freed. *)
From S2P Require Import Prelude.
Local Open Scope Z_scope.

Definition DTABLE_LEN : Z := 256.

(** "ABCDEFGHIJKLMNOPQRSTUVWXYZabcdefghijklmnopqrstuvwxyz0123456789+/" *)
Definition base_64_table : list Z :=
  [65; 66; 67; 68; 69; 70; 71; 72; 73; 74; 75; 76; 77; 78; 79; 80; 81; 82; 83; 84; 85; 86; 87; 88; 89; 90;
   97; 98; 99; 100; 101; 102; 103; 104; 105; 106; 107; 108; 109; 110; 111; 112; 113; 114; 115; 116; 117;
   118; 119; 120; 121; 122; 48; 49; 50; 51; 52; 53; 54; 55; 56; 57; 43; 47].

Definition chr_eq : Z := 61.
Definition chr_nl : Z := 10.

Definition base64_calc_encode_length (src_Len : Z) : Z :=
  let enc_len := u32 (u32 (src_Len * 4) / 3 + 4) in
  let enc_len := u32 (enc_len + enc_len / 72) in
  u32 (enc_len + 1).

(** [base_64_table[i]], [in[i]] *)
Definition table (i : Z) : res Z := of_option BadAccess (zlookup base_64_table i).
Definition byte_at (src : list Z) (i : Z) : res Z := of_option BadAccess (zlookup src i).

(** [while (end - in >= 3)]: the characters stored, and [in], [end - in] and
    [line_len] behind the loop. *)
Fixpoint encode_groups (src : list Z) (rem line_len : Z) : res (list Z * list Z * Z * Z) :=
  if 3 <=? rem then
    match src with
    | in0 :: in1 :: in2 :: src' =>
      c0 ← table (Z.shiftr in0 2);
      c1 ← table (Z.lor (Z.shiftl (Z.land in0 0x03) 4) (Z.shiftr in1 4));
      c2 ← table (Z.lor (Z.shiftl (Z.land in1 0x0f) 2) (Z.shiftr in2 6));
      c3 ← table (Z.land in2 0x3f);
      let line_len := line_len + 4 in
      let nl := 72 <=? line_len in
      '(pos, src', rem, line_len) ← encode_groups src' (rem - 3) (if nl then 0 else line_len);
      mret ([c0; c1; c2; c3] ++ (if nl then [chr_nl] else []) ++ pos, src', rem, line_len)
    | _ => Err BadAccess
    end
  else mret ([], src, rem, line_len).

(** [if (end - in)]: the last one or two bytes. *)
Definition encode_rest (src : list Z) (rem line_len : Z) : res (list Z * Z) :=
  if truthy rem then
    in0 ← byte_at src 0;
    c0 ← table (Z.shiftr in0 2);
    cs ← (if rem =? 1 then
            c1 ← table (Z.shiftl (Z.land in0 0x03) 4); mret [c1; chr_eq]
          else
            in1 ← byte_at src 1;
            c1 ← table (Z.lor (Z.shiftl (Z.land in0 0x03) 4) (Z.shiftr in1 4));
            c2 ← table (Z.shiftl (Z.land in1 0x0f) 2); mret [c1; c2]);
    mret (c0 :: cs ++ [chr_eq], line_len + 4)
  else mret ([], line_len).

(** The result, what is stored through [out_len] if at all, and at [out]. *)
Definition base64_encode (src : list Z) (len : Z) (out_len out : bool) : res (Z * option Z * list Z) :=
  if negb out then mret (0, None, [])
  else
    '(pos, src, rem, line_len) ← encode_groups src len 0;
    '(tail, line_len) ← encode_rest src rem line_len;
    let pos := pos ++ tail ++ (if truthy line_len then [chr_nl] else []) in
    mret (1, (if out_len then Some (Z.of_nat (length pos)) else None), pos ++ [0]).

(** [os_memset(dtable, 0x80, 256); for (...) dtable[base_64_table[i]] = i;
    dtable['='] = 0;] *)
Fixpoint fill_dtable (chars : list Z) (i : Z) (dtable : list Z) : list Z :=
  match chars with
  | [] => dtable
  | c :: chars' => fill_dtable chars' (i + 1) (<[Z.to_nat c := i]> dtable)
  end.
Definition dtable : list Z :=
  <[Z.to_nat chr_eq := 0]> (fill_dtable base_64_table 0 (replicate (Z.to_nat DTABLE_LEN) 0x80)).

(** [for (i = 0; i < len; i++) if (dtable[src[i]] != 0x80) count++;] with [len]
    compared as an unsigned number. *)
Fixpoint count_chars (src : list Z) (i len count : Z) : res Z :=
  if i <? len then
    match src with
    | [] => Err BadAccess
    | c :: src' =>
      d ← byte_at dtable c;
      count_chars src' (i + 1) len (if negb (d =? 0x80) then u32 (count + 1) else count)
    end
  else mret count.

Section decode.
(** Whether an allocation succeeds, by the number of live blocks. *)
Context (zalloc_ok : Z -> bool).

Definition os_zalloc : M Z bool :=
  live ← get; if zalloc_ok live then put (live + 1);; mret true else mret false.

Definition base64_calc_decode_length (src : list Z) (src_Len : Z) : M Z Z :=
  p ← os_zalloc;
  if negb p then mret 0
  else
    dec_len ← lift_res (count_chars src 0 (u32 src_Len) 0);
    mret (if truthy (dec_len mod 4) then 0 else dec_len).

(** [for (i = 0; i < len; i++)]: [in_] and [block] are the arrays [in] and
    [block]; the bytes stored come out in order. *)
Fixpoint decode_loop (src in_ block : list Z) (i len count : Z) : res (list Z * list Z) :=
  if i <? len then
    match src with
    | [] => Err BadAccess
    | c :: src' =>
      tmp ← byte_at dtable c;
      if tmp =? 0x80 then decode_loop src' in_ block (i + 1) len count
      else
        let in_ := <[Z.to_nat count := c]> in_ in
        let block := <[Z.to_nat count := tmp]> block in
        let count := count + 1 in
        if count =? 4 then
          b0 ← byte_at block 0; b1 ← byte_at block 1; b2 ← byte_at block 2; b3 ← byte_at block 3;
          '(pos, in_) ← decode_loop src' in_ block (i + 1) len 0;
          mret ([u8 (Z.lor (Z.shiftl b0 2) (Z.shiftr b1 4));
                 u8 (Z.lor (Z.shiftl b1 4) (Z.shiftr b2 2));
                 u8 (Z.lor (Z.shiftl b2 6) b3)] ++ pos, in_)
        else decode_loop src' in_ block (i + 1) len count
    end
  else mret ([], in_).

(** [if (in[2] == '=') pos -= 2; else if (in[3] == '=') pos--;] *)
Definition unpad (pos in_ : list Z) : res Z :=
  let n := Z.of_nat (length pos) in
  if 0 <? n then
    c2 ← byte_at in_ 2;
    c3 ← byte_at in_ 3;
    mret (if c2 =? chr_eq then n - 2 else if c3 =? chr_eq then n - 1 else n)
  else mret n.

(** [in0], [block0]: what the stack holds in the two arrays.  The result, what
    is stored through [out_len] if at all, and at [out]. *)
Definition base64_decode (in0 block0 src : list Z) (len : Z) (out : bool) : M Z (Z * option Z * list Z) :=
  p ← os_zalloc;
  if negb p then mret (0, Some 0, [])
  else
    count ← lift_res (count_chars src 0 (u32 len) 0);
    if truthy (count mod 4) then mret (0, None, [])
    else if negb out then mret (0, Some (u32 (count * 3) / 4), [])
    else
      '(pos, in_) ← lift_res (decode_loop src in0 block0 0 (u32 len) 0);
      n ← lift_res (unpad pos in_);
      mret (1, Some n, pos).
End decode.

(** ** Reference: RFC 4648, section 4, with lines of 72 characters *)

Definition bits_of (b : Z) : list bool := map (fun i => Z.testbit b (7 - Z.of_nat i)) (seq 0 8).
Definition bits_val (l : list bool) : Z := fold_left (fun a b => 2 * a + b2z b) l 0.

(** Groups of six bits, the last completed with zeros. *)
Fixpoint sextets (fuel : nat) (l : list bool) : list Z :=
  match fuel, l with
  | S fuel', _ :: _ => bits_val (take 6 (l ++ replicate 6 false)) :: sextets fuel' (drop 6 l)
  | _, _ => []
  end.

Definition character (s : Z) : Z := default 0 (zlookup base_64_table s).

(** The characters of a message, completed to a multiple of four by '='. *)
Definition rfc_text (bs : list Z) : list Z :=
  let cs := map character (sextets (8 * length bs) (concat (map bits_of bs))) in
  cs ++ replicate (Z.to_nat (- Z.of_nat (length cs) mod 4)) chr_eq.

(** A line feed after every 72 characters and after the last of a shorter line. *)
Fixpoint lines (n : nat) (cs : list Z) : list Z :=
  match cs with
  | [] => if (n =? 0)%nat then [] else [chr_nl]
  | c :: cs' => if (n =? 71)%nat then c :: chr_nl :: lines 0 cs' else c :: lines (S n) cs'
  end.

Definition rfc_encode (bs : list Z) : list Z := lines 0 (rfc_text bs).

Example rfc_foobar : rfc_encode [102; 111; 111; 98; 97] = [90; 109; 57; 118; 89; 109; 69; 61; 10].
Proof. reflexivity. Qed.
Example code_foobar : base64_encode [102; 111; 111; 98; 97] 5 true true = Val (1, Some 9, [90; 109; 57; 118; 89; 109; 69; 61; 10; 0]).
Proof. reflexivity. Qed.
Example decode_foobar : base64_decode (fun _ => true) [0; 0; 0; 0] [0; 0; 0; 0] [90; 109; 57; 118; 89; 109; 69; 61; 10] 9 true 0
  = Val (1, Some 5, [102; 111; 111; 98; 97; 0], 1).
Proof. reflexivity. Qed.

(** ** The alphabet *)

Definition is_sextet (s : Z) : Prop := 0 <= s < 64.

(** A property of the 64 values, checked one by one. *)
Lemma sextet_all (P : Z -> bool) : forallb (fun i => P (Z.of_nat i)) (seq 0 64) = true -> forall s, is_sextet s -> P s = true.
Proof.
  intros H s Hs. rewrite forallb_forall in H. specialize (H (Z.to_nat s)). rewrite Z2Nat.id in H by (unfold is_sextet in Hs; lia).
  apply H, in_seq. unfold is_sextet in Hs. lia.
Qed.

Definition char_ok (s : Z) : bool :=
  bool_decide (table s = Val (character s) /\ byte_at dtable (character s) = Val s /\ character s <> chr_eq).

Lemma character_spec s : is_sextet s ->
  table s = Val (character s) /\ byte_at dtable (character s) = Val s /\ character s <> chr_eq.
Proof. intros Hs. apply (bool_decide_eq_true_1 _), (sextet_all char_ok); [vm_compute; reflexivity|done]. Qed.

Lemma sextet_not_80 s : is_sextet s -> (s =? 0x80) = false.
Proof. unfold is_sextet. intros Hs. apply Z.eqb_neq. lia. Qed.

Lemma dtable_eq : byte_at dtable chr_eq = Val 0.
Proof. reflexivity. Qed.
Lemma dtable_nl : byte_at dtable chr_nl = Val 0x80.
Proof. reflexivity. Qed.

(** ** The four characters of a group, by arithmetic *)

Definition sx0 (a : Z) : Z := a / 4.
Definition sx1 (a b : Z) : Z := a mod 4 * 16 + b / 16.
Definition sx2 (b c : Z) : Z := b mod 16 * 4 + c / 64.
Definition sx3 (c : Z) : Z := c mod 64.

Lemma sx_range a b c : is_u8 a -> is_u8 b -> is_u8 c ->
  is_sextet (sx0 a) /\ is_sextet (sx1 a b) /\ is_sextet (sx2 b c) /\ is_sextet (sx3 c).
Proof. unfold is_sextet, sx0, sx1, sx2, sx3. intros. split_and!; zlia. Qed.

Lemma lor_shl x y n : 0 <= n -> 0 <= y < 2 ^ n -> Z.lor (Z.shiftl x n) y = x * 2 ^ n + y.
Proof. intros Hn Hy. rewrite Z.lor_comm, lor_shiftl_add by done. lia. Qed.

Lemma code_sx0 a : Z.shiftr a 2 = sx0 a.
Proof. by rewrite Z.shiftr_div_pow2. Qed.
Lemma code_sx1 a b : is_u8 b -> Z.lor (Z.shiftl (Z.land a 0x03) 4) (Z.shiftr b 4) = sx1 a b.
Proof.
  intros Hb. change 3 with (Z.ones 2). rewrite Z.land_ones, Z.shiftr_div_pow2 by lia.
  change (2 ^ 4) with 16. change (2 ^ 2) with 4. by rewrite lor_shl by zlia.
Qed.
Lemma code_sx2 b c : is_u8 c -> Z.lor (Z.shiftl (Z.land b 0x0f) 2) (Z.shiftr c 6) = sx2 b c.
Proof.
  intros Hc. change 15 with (Z.ones 4). rewrite Z.land_ones, Z.shiftr_div_pow2 by lia.
  change (2 ^ 4) with 16. change (2 ^ 6) with 64. by rewrite lor_shl by zlia.
Qed.
Lemma code_sx3 c : Z.land c 0x3f = sx3 c.
Proof. change 63 with (Z.ones 6). by rewrite Z.land_ones by lia. Qed.
Lemma code_sx1_last a : Z.shiftl (Z.land a 0x03) 4 = sx1 a 0.
Proof. rewrite <- code_sx1 by zlia. by rewrite Z.lor_0_r. Qed.
Lemma code_sx2_last b : Z.shiftl (Z.land b 0x0f) 2 = sx2 b 0.
Proof. rewrite <- code_sx2 by zlia. by rewrite Z.lor_0_r. Qed.

(** The bytes of four sextets. *)
Lemma unsx0 a b : is_u8 a -> is_u8 b -> u8 (Z.lor (Z.shiftl (sx0 a) 2) (Z.shiftr (sx1 a b) 4)) = a.
Proof.
  intros Ha Hb. rewrite Z.shiftr_div_pow2 by lia. unfold sx0, sx1. change (2 ^ 4) with 16.
  rewrite lor_shl by zlia. zlia.
Qed.
Lemma unsx1 a b c : is_u8 a -> is_u8 b -> is_u8 c -> u8 (Z.lor (Z.shiftl (sx1 a b) 4) (Z.shiftr (sx2 b c) 2)) = b.
Proof.
  intros Ha Hb Hc. rewrite Z.shiftr_div_pow2 by lia. unfold sx1, sx2. change (2 ^ 2) with 4.
  rewrite lor_shl by zlia. zlia.
Qed.
Lemma unsx2 b c : is_u8 b -> is_u8 c -> u8 (Z.lor (Z.shiftl (sx2 b c) 6) (sx3 c)) = c.
Proof. intros Hb Hc. unfold sx2, sx3. rewrite lor_shl by zlia. zlia. Qed.

(** The text of a message, group by group. *)
Fixpoint text (bs : list Z) : list Z :=
  match bs with
  | a :: b :: c :: bs' =>
    character (sx0 a) :: character (sx1 a b) :: character (sx2 b c) :: character (sx3 c) :: text bs'
  | [a; b] => [character (sx0 a); character (sx1 a b); character (sx2 b 0); chr_eq]
  | [a] => [character (sx0 a); character (sx1 a 0); chr_eq; chr_eq]
  | [] => []
  end.

(** Induction on the groups of a message. *)
Lemma groups_ind (P : list Z -> Prop) :
  P [] -> (forall a, P [a]) -> (forall a b, P [a; b]) -> (forall a b c bs, P bs -> P (a :: b :: c :: bs)) -> forall bs, P bs.
Proof.
  intros H0 H1 H2 H3. enough (forall n bs, (length bs <= n)%nat -> P bs) by eauto.
  induction n as [|n IH]; intros [|a [|b [|c bs]]] Hn; cbn in Hn; auto; try lia. apply H3, IH. lia.
Qed.

Lemma lines_group n c0 c1 c2 c3 cs : (n mod 4 = 0)%nat -> (n < 72)%nat ->
  lines n (c0 :: c1 :: c2 :: c3 :: cs) =
    c0 :: c1 :: c2 :: c3 :: (if 72 <=? Z.of_nat n + 4 then chr_nl :: lines 0 cs else lines (n + 4) cs).
Proof.
  intros Hm Hn. destruct (decide (n = 68)%nat) as [->|]; [done|].
  assert (n <= 64)%nat.
  { destruct (decide (n <= 64)%nat); [done|]. exfalso.
    do 72 (destruct n as [|n]; [cbn in *; lia|]). lia. }
  rewrite (proj2 (Z.leb_gt _ _)) by lia. cbn [lines].
  rewrite !(proj2 (Nat.eqb_neq _ _)) by lia. do 5 f_equal. lia.
Qed.

(** ** Encoding *)

(** The three pieces of an encoding, put together. *)
Definition encode_all (src : list Z) (rem line_len : Z) : res (list Z) :=
  '(pos, src, rem, line_len) ← encode_groups src rem line_len;
  '(tail, line_len) ← encode_rest src rem line_len;
  mret (pos ++ tail ++ (if truthy line_len then [chr_nl] else [])).

Lemma table_val s : is_sextet s -> table s = Val (character s).
Proof. apply character_spec. Qed.

Lemma encode_all_lines bs n : bytes_ok bs -> (n mod 4 = 0)%nat -> (n < 72)%nat ->
  encode_all bs (Z.of_nat (length bs)) (Z.of_nat n) = Val (lines n (text bs)).
Proof.
  revert n. induction bs as [|a|a b|a b c bs IH] using groups_ind; intros n Hok Hm Hn.
  - cbn [text lines length]. unfold encode_all. cbn [encode_groups]. change (3 <=? Z.of_nat 0) with false.
    cbn [mbind mret res_bind res_ret]. unfold encode_rest. change (truthy (Z.of_nat 0)) with false.
    cbn [mbind mret res_bind res_ret app]. unfold truthy. by destruct n.
  - inversion_clear Hok as [|? ? Ha _]. destruct (sx_range a 0 0) as (H0 & H1 & _); [done|zlia|zlia|].
    unfold encode_all. cbn [length encode_groups]. change (3 <=? Z.of_nat 1) with false. cbn [mbind mret res_bind res_ret].
    unfold encode_rest. change (truthy (Z.of_nat 1)) with true. change (Z.of_nat 1 =? 1) with true. cbn [byte_at of_option zlookup].
    change (byte_at [a] 0) with (Val a). cbn [mbind mret res_bind res_ret]. rewrite code_sx0, code_sx1_last, !table_val by done.
    cbn [mbind mret res_bind res_ret text]. rewrite lines_group by done. cbn [app].
    unfold truthy. rewrite (proj2 (Z.eqb_neq _ 0)) by lia. cbn [negb]. do 5 f_equal.
    destruct (Z.leb_spec 72 (Z.of_nat n + 4)); [done|]. cbn [lines]. by rewrite (proj2 (Nat.eqb_neq _ _)) by lia.
  - inversion_clear Hok as [|? ? Ha Hok']. inversion_clear Hok' as [|? ? Hb _].
    destruct (sx_range a b 0) as (H0 & H1 & H2 & _); [done|done|zlia|].
    unfold encode_all. cbn [length encode_groups]. change (3 <=? Z.of_nat 2) with false. cbn [mbind mret res_bind res_ret].
    unfold encode_rest. change (truthy (Z.of_nat 2)) with true. change (Z.of_nat 2 =? 1) with false.
    change (byte_at [a; b] 0) with (Val a). change (byte_at [a; b] 1) with (Val b). cbn [mbind mret res_bind res_ret].
    rewrite code_sx0, code_sx1, code_sx2_last, !table_val by done.
    cbn [mbind mret res_bind res_ret text]. rewrite lines_group by done. cbn [app].
    unfold truthy. rewrite (proj2 (Z.eqb_neq _ 0)) by lia. cbn [negb]. do 5 f_equal.
    destruct (Z.leb_spec 72 (Z.of_nat n + 4)); [done|]. cbn [lines]. by rewrite (proj2 (Nat.eqb_neq _ _)) by lia.
  - inversion_clear Hok as [|? ? Ha Hok']. inversion_clear Hok' as [|? ? Hb Hok].
    inversion_clear Hok as [|? ? Hc Hok'].
    destruct (sx_range a b c) as (H0 & H1 & H2 & H3); [done..|].
    unfold encode_all in *. cbn [length encode_groups].
    rewrite (proj2 (Z.leb_le 3 _)) by lia. rewrite code_sx0, code_sx1, code_sx2, code_sx3, !table_val by done.
    cbn [mbind mret res_bind res_ret text]. replace (Z.of_nat (S (S (S (length bs)))) - 3) with (Z.of_nat (length bs)) by lia.
    rewrite lines_group by done.
    assert (Hn4 : ((n + 4) mod 4 = 0)%nat) by (rewrite Nat.Div0.add_mod, Hm; done).
    set (w := 72 <=? Z.of_nat n + 4).
    replace (if w then 0 else Z.of_nat n + 4) with (Z.of_nat (if w then 0 else n + 4)%nat) by (destruct w; lia).
    specialize (IH (if w then 0 else n + 4)%nat Hok').
    assert (Hw : (if w then 0 else n + 4)%nat = (if w then 0 else n + 4)%nat /\
      ((if w then 0 else n + 4) mod 4 = 0 /\ (if w then 0 else n + 4) < 72)%nat).
    { subst w. destruct (Z.leb_spec 72 (Z.of_nat n + 4)); split_and!; (done || lia). }
    destruct Hw as (_ & Hwm & Hwn). specialize (IH Hwm Hwn).
    destruct (encode_groups bs _ _) as [[[[pos src] rem] ll]|]; cbn [mbind mret res_bind res_ret] in *; [|done].
    destruct (encode_rest src rem ll) as [[tail ll']|]; cbn [mbind mret res_bind res_ret] in *; [|done].
    injection IH as IH. cbn [app]. rewrite <- !app_assoc, IH. by destruct w.
Qed.

Lemma base64_encode_lines bs wl : bytes_ok bs ->
  base64_encode bs (Z.of_nat (length bs)) wl true =
    Val (1, (if wl then Some (Z.of_nat (length (lines 0 (text bs)))) else None), lines 0 (text bs) ++ [0]).
Proof.
  intros Hok. pose proof (encode_all_lines bs 0 Hok eq_refl ltac:(lia)) as H.
  unfold base64_encode. cbn [negb]. unfold encode_all in H. change (Z.of_nat 0) with 0 in H.
  destruct (encode_groups bs _ 0) as [[[[pos src] rem] ll]|]; cbn [mbind mret res_bind res_ret] in *; [|done].
  destruct (encode_rest src rem ll) as [[tail ll']|]; cbn [mbind mret res_bind res_ret] in *; [|done].
  by injection H as ->.
Qed.

(** ** The text is that of the reference *)

Lemma bits_val_app l1 l2 : bits_val (l1 ++ l2) = bits_val l1 * 2 ^ Z.of_nat (length l2) + bits_val l2.
Proof.
  unfold bits_val. rewrite fold_left_app. generalize (fold_left (fun a b => 2 * a + b2z b) l1 0). intros v.
  assert (H : forall l v, fold_left (fun a b => 2 * a + b2z b) l v =
    v * 2 ^ Z.of_nat (length l) + fold_left (fun a b => 2 * a + b2z b) l 0).
  { clear. induction l as [|b l IH]; intros v; cbn [fold_left length]; [lia|].
    rewrite IH, (IH (2 * 0 + _)). rewrite Nat2Z.inj_succ, Z.pow_succ_r by lia. lia. }
  by rewrite H.
Qed.

(** The bits of a byte in pieces. *)
Definition pieces_ok (b : Z) : bool :=
  (bits_val (take 6 (bits_of b)) =? b / 4) && (bits_val (drop 6 (bits_of b)) =? b mod 4) &&
  (bits_val (take 4 (bits_of b)) =? b / 16) && (bits_val (drop 4 (bits_of b)) =? b mod 16) &&
  (bits_val (take 2 (bits_of b)) =? b / 64) && (bits_val (drop 2 (bits_of b)) =? b mod 64).

Lemma pieces b : is_u8 b ->
  bits_val (take 6 (bits_of b)) = b / 4 /\ bits_val (drop 6 (bits_of b)) = b mod 4 /\
  bits_val (take 4 (bits_of b)) = b / 16 /\ bits_val (drop 4 (bits_of b)) = b mod 16 /\
  bits_val (take 2 (bits_of b)) = b / 64 /\ bits_val (drop 2 (bits_of b)) = b mod 64.
Proof.
  intros Hb. assert (H : forallb (fun i => pieces_ok (Z.of_nat i)) (seq 0 256) = true) by (vm_compute; reflexivity).
  rewrite forallb_forall in H. specialize (H (Z.to_nat b)). rewrite Z2Nat.id in H by (unfold is_u8 in Hb; lia).
  assert (Hp : pieces_ok b = true) by (apply H, in_seq; unfold is_u8 in Hb; lia).
  unfold pieces_ok in Hp. repeat (apply andb_prop in Hp as [Hp ?]). rewrite !Z.eqb_eq in *. auto 10.
Qed.

Lemma bits_of_length b : length (bits_of b) = 8%nat.
Proof. done. Qed.

(** The sextets of one, two and three bytes. *)
Lemma sextets_three n a b c l : is_u8 a -> is_u8 b -> is_u8 c ->
  sextets (4 + n) (bits_of a ++ bits_of b ++ bits_of c ++ l) = sx0 a :: sx1 a b :: sx2 b c :: sx3 c :: sextets n l.
Proof.
  intros Ha Hb Hc. destruct (pieces a Ha) as (A1 & A2 & _), (pieces b Hb) as (_ & _ & B3 & B4 & _),
    (pieces c Hc) as (_ & _ & _ & _ & C5 & C6).
  unfold bits_of in *. cbn [seq map app] in *. cbn [Nat.add sextets take app drop].
  rewrite drop_0 in *. f_equal; [exact A1|]. f_equal.
  { unfold sx1. rewrite <- A2, <- B3. cbn [take drop]. rewrite <- (bits_val_app [_; _] [_; _; _; _]). done. }
  f_equal.
  { unfold sx2. rewrite <- B4, <- C5. cbn [take drop]. rewrite <- (bits_val_app [_; _; _; _] [_; _]). done. }
  f_equal. exact C6.
Qed.

Lemma sextets_last2 n a b : is_u8 a -> is_u8 b ->
  sextets (3 + n) (bits_of a ++ bits_of b) = [sx0 a; sx1 a b; sx2 b 0].
Proof.
  intros Ha Hb. destruct (pieces a Ha) as (A1 & A2 & _), (pieces b Hb) as (_ & _ & B3 & B4 & _).
  unfold bits_of in *. cbn [seq map app] in *. cbn [Nat.add sextets take app drop replicate].
  f_equal; [exact A1|]. f_equal.
  { unfold sx1. rewrite <- A2, <- B3. cbn [take drop]. rewrite <- (bits_val_app [_; _] [_; _; _; _]). done. }
  f_equal; [|by destruct n].
  unfold sx2. rewrite <- B4. cbn [take drop]. change (0 / 64) with (bits_val [false; false]).
  rewrite <- (bits_val_app [_; _; _; _] [_; _]). done.
Qed.

Lemma sextets_last1 n a : is_u8 a -> sextets (2 + n) (bits_of a) = [sx0 a; sx1 a 0].
Proof.
  intros Ha. destruct (pieces a Ha) as (A1 & A2 & _).
  unfold bits_of in *. cbn [seq map app] in *. cbn [Nat.add sextets take app drop replicate].
  f_equal; [exact A1|]. f_equal; [|by destruct n].
  unfold sx1. rewrite <- A2. cbn [take drop]. change (0 / 16) with (bits_val [false; false; false; false]).
  rewrite <- (bits_val_app [_; _] [_; _; _; _]). done.
Qed.

Lemma sextets_fuel n m l : (length l <= n)%nat -> (length l <= m)%nat -> sextets n l = sextets m l.
Proof.
  revert m l. induction n as [|n IH]; intros [|m] l Hn Hm; try by (destruct l; cbn in *; (done || lia)).
  destruct l as [|x l]; [done|]. cbn [sextets]. f_equal.
  apply IH; rewrite length_drop; cbn [length] in *; lia.
Qed.

Lemma bits_length bs : length (concat (map bits_of bs)) = (8 * length bs)%nat.
Proof.
  induction bs as [|b bs IH]; [done|]. cbn [map concat length]. rewrite length_app, IH, bits_of_length. lia.
Qed.

Lemma pad_three n : - Z.of_nat (S (S (S (S n)))) mod 4 = - Z.of_nat n mod 4.
Proof. zlia. Qed.

Lemma text_is_rfc bs : bytes_ok bs -> text bs = rfc_text bs.
Proof.
  induction bs as [|a|a b|a b c bs IH] using groups_ind; intros Hok.
  - done.
  - inversion_clear Hok as [|? ? Ha _]. unfold rfc_text. cbn [map concat]. rewrite app_nil_r.
    cbn [length Nat.mul Nat.add]. by rewrite (sextets_last1 6) by done.
  - inversion_clear Hok as [|? ? Ha Hok']. inversion_clear Hok' as [|? ? Hb _].
    unfold rfc_text. cbn [map concat]. rewrite app_nil_r.
    change (8 * length [a; b])%nat with 16%nat. by rewrite (sextets_last2 13) by done.
  - inversion_clear Hok as [|? ? Ha Hok']. inversion_clear Hok' as [|? ? Hb Hok].
    inversion_clear Hok as [|? ? Hc Hok']. cbn [text]. rewrite IH by done.
    unfold rfc_text. cbn [map concat].
    replace (8 * length (a :: b :: c :: bs))%nat with (4 + (20 + 8 * length bs))%nat by (cbn [length]; lia).
    rewrite sextets_three by done. cbn [map app length]. rewrite pad_three.
    rewrite (sextets_fuel (20 + 8 * length bs) (8 * length bs)) by (rewrite bits_length; lia). done.
Qed.

(** C33: the encoding of any message is that of RFC 4648, with a line feed after
    every 72 characters and after the last of a shorter line, and a zero byte
    behind, which the length stored through [out_len] does not count. *)
Theorem base64_encode_is_rfc bs want_len : bytes_ok bs ->
  base64_encode bs (Z.of_nat (length bs)) want_len true =
    Val (1, (if want_len then Some (Z.of_nat (length (rfc_encode bs))) else None), rfc_encode bs ++ [0]).
Proof. intros Hok. unfold rfc_encode. rewrite <- text_is_rfc by done. by apply base64_encode_lines. Qed.

(** ** Lengths *)

Lemma length_text bs : Z.of_nat (length (text bs)) = (Z.of_nat (length bs) + 2) / 3 * 4.
Proof. induction bs as [|a|a b|a b c bs IH] using groups_ind; [done..|]. cbn [text length]. zlia. Qed.

(** At most one line feed for each 72 characters begun. *)
Lemma length_lines n cs : (n < 72)%nat ->
  Z.of_nat (length (lines n cs)) = Z.of_nat (length cs) + (Z.of_nat n + Z.of_nat (length cs) + 71) / 72.
Proof.
  revert n. induction cs as [|c cs IH]; intros n Hn; cbn [lines length].
  - destruct (Nat.eqb_spec n 0) as [->|]; [done|]. cbn [length]. zlia.
  - destruct (Nat.eqb_spec n 71) as [->|]; cbn [length]; rewrite Nat2Z.inj_succ.
    + rewrite Nat2Z.inj_succ, IH by lia. zlia.
    + rewrite IH by lia. zlia.
Qed.

Lemma length_encoding bs : Z.of_nat (length (lines 0 (text bs))) =
  (Z.of_nat (length bs) + 2) / 3 * 4 + ((Z.of_nat (length bs) + 2) / 3 * 4 + 71) / 72.
Proof. by rewrite length_lines, length_text by lia. Qed.

(** For less than 1 GiB, the length calculated for an encoding is enough
    for all the bytes that the encoder stores; at 1 GiB the calculation in 32
    bits wraps and gives 5. *)
Theorem base64_length_enough bs want_len : bytes_ok bs -> Z.of_nat (length bs) < 2 ^ 30 ->
  (exists n s, base64_encode bs (Z.of_nat (length bs)) want_len true = Val (1, n, s) /\
    Z.of_nat (length s) <= base64_calc_encode_length (Z.of_nat (length bs))) /\
  base64_calc_encode_length (2 ^ 30) = 5.
Proof.
  intros Hok Hlen. split; [|reflexivity]. eexists _, _. split; [by apply base64_encode_lines|].
  rewrite length_app, Nat2Z.inj_add, length_encoding. cbn [length].
  unfold base64_calc_encode_length. set (n := Z.of_nat (length bs)) in *. assert (0 <= n) by (subst n; lia). clearbody n.
  rewrite (u32_id (n * 4)) by zlia. rewrite !u32_id; zlia.
Qed.

(** ** Decoding *)

Definition significant (c : Z) : Prop := exists d, byte_at dtable c = Val d /\ d <> 0x80.

Lemma text_significant bs : bytes_ok bs -> Forall significant (text bs).
Proof.
  assert (Hc : forall s, is_sextet s -> significant (character s)).
  { intros s Hs. destruct (character_spec s Hs) as (_ & Hd & _). exists s. split; [done|]. unfold is_sextet in Hs. lia. }
  assert (He : significant chr_eq) by (by exists 0).
  induction bs as [|a|a b|a b c bs IH] using groups_ind; intros Hok; cbn [text].
  - done.
  - inversion_clear Hok as [|? ? Ha _]. destruct (sx_range a 0 0) as (H0 & H1 & _); [done|zlia|zlia|]. repeat (constructor; [by auto|]); by auto.
  - inversion_clear Hok as [|? ? Ha Hok']. inversion_clear Hok' as [|? ? Hb _].
    destruct (sx_range a b 0) as (H0 & H1 & H2 & _); [done|done|zlia|]. repeat (constructor; [by auto|]); by auto.
  - inversion_clear Hok as [|? ? Ha Hok']. inversion_clear Hok' as [|? ? Hb Hok].
    inversion_clear Hok as [|? ? Hcc Hok']. destruct (sx_range a b c) as (H0 & H1 & H2 & H3); [done..|]. repeat (constructor; [by auto|]); by auto.
Qed.

Lemma count_nl rest i len cnt : i < len -> count_chars (chr_nl :: rest) i len cnt = count_chars rest (i + 1) len cnt.
Proof. intros Hi. cbn [count_chars]. rewrite (proj2 (Z.ltb_lt _ _)) by done. by rewrite dtable_nl. Qed.

Lemma count_sig c rest i len cnt : i < len -> significant c ->
  count_chars (c :: rest) i len cnt = count_chars rest (i + 1) len (u32 (cnt + 1)).
Proof.
  intros Hi (d & Hd & Hne). cbn [count_chars]. rewrite (proj2 (Z.ltb_lt _ _)) by done. rewrite Hd. cbn [mbind res_bind].
  by rewrite (proj2 (Z.eqb_neq _ _)).
Qed.

Lemma count_done rest i len cnt : len <= i -> count_chars rest i len cnt = Val cnt.
Proof. intros Hi. destruct rest; cbn [count_chars]; by rewrite (proj2 (Z.ltb_ge _ _)). Qed.

Lemma count_lines cs rest n i cnt : Forall significant cs -> is_u32 cnt ->
  count_chars (lines n cs ++ rest) i (i + Z.of_nat (length (lines n cs))) cnt = Val (u32 (cnt + Z.of_nat (length cs))).
Proof.
  intros Hs. revert n i cnt. induction Hs as [|c cs Hc _ IH]; intros n i cnt Hcnt.
  - cbn [lines length]. rewrite Z.add_0_r. destruct (n =? 0)%nat; cbn [length app].
    + rewrite count_done by lia. by rewrite u32_id.
    + rewrite count_nl, count_done by lia. by rewrite u32_id.
  - cbn [lines length]. destruct (n =? 71)%nat; cbn [length app].
    + rewrite count_sig, count_nl by (done || lia).
      replace (i + Z.of_nat (S (S (length (lines 0 cs))))) with (i + 1 + 1 + Z.of_nat (length (lines 0 cs))) by lia.
      rewrite IH by apply u32_range. f_equal. zlia.
    + rewrite count_sig by (done || lia).
      replace (i + Z.of_nat (S (length (lines (S n) cs)))) with (i + 1 + Z.of_nat (length (lines (S n) cs))) by lia.
      rewrite IH by apply u32_range. f_equal. zlia.
Qed.

Lemma text_mod4 bs : (length (text bs) mod 4 = 0)%nat.
Proof.
  induction bs as [|a|a b|a b c bs IH] using groups_ind; [done..|]. cbn [text length].
  replace (S (S (S (S (length (text bs)))))) with (length (text bs) + 1 * 4)%nat by lia.
  by rewrite Nat.Div0.mod_add.
Qed.

Lemma decode_nl rest in_ block i len count : i < len ->
  decode_loop (chr_nl :: rest) in_ block i len count = decode_loop rest in_ block (i + 1) len count.
Proof. intros Hi. cbn [decode_loop]. rewrite (proj2 (Z.ltb_lt _ _)) by done. by rewrite dtable_nl. Qed.

(** Four characters, whatever the arrays held. *)
Lemma decode_group c0 c1 c2 c3 d0 d1 d2 d3 rest in_ block i len :
  i + 4 <= len -> length in_ = 4%nat -> length block = 4%nat ->
  byte_at dtable c0 = Val d0 -> byte_at dtable c1 = Val d1 -> byte_at dtable c2 = Val d2 -> byte_at dtable c3 = Val d3 ->
  is_sextet d0 -> is_sextet d1 -> is_sextet d2 -> is_sextet d3 ->
  decode_loop (c0 :: c1 :: c2 :: c3 :: rest) in_ block i len 0 =
    ('(pos, in_) ← decode_loop rest [c0; c1; c2; c3] [d0; d1; d2; d3] (i + 4) len 0;
     mret ([u8 (Z.lor (Z.shiftl d0 2) (Z.shiftr d1 4)); u8 (Z.lor (Z.shiftl d1 4) (Z.shiftr d2 2));
            u8 (Z.lor (Z.shiftl d2 6) d3)] ++ pos, in_)).
Proof.
  intros Hi Hin Hbl H0 H1 H2 H3 S0 S1 S2 S3.
  destruct in_ as [|x0 [|x1 [|x2 [|x3 [|]]]]]; try discriminate Hin.
  destruct block as [|y0 [|y1 [|y2 [|y3 [|]]]]]; try discriminate Hbl.
  cbn [decode_loop]. rewrite !(proj2 (Z.ltb_lt _ len)) by lia. rewrite H0, H1, H2, H3. cbn [mbind res_bind].
  rewrite !sextet_not_80 by done. change (0 + 1) with 1. change (1 + 1) with 2. change (2 + 1) with 3. change (3 + 1) with 4.
  change (1 =? 4) with false. change (2 =? 4) with false. change (3 =? 4) with false. change (4 =? 4) with true.
  cbv iota. change (Z.to_nat 0) with 0%nat. change (Z.to_nat 1) with 1%nat. change (Z.to_nat 2) with 2%nat.
  change (Z.to_nat 3) with 3%nat. replace (i + 1 + 1 + 1 + 1) with (i + 4) by lia. reflexivity.
Qed.

(** How many bytes the last group of characters does not have. *)
Definition missing (bs : list Z) : nat := Z.to_nat (- Z.of_nat (length bs) mod 3).

(** The bytes that the loop stores for a message. *)
Definition padded (bs : list Z) : list Z := bs ++ replicate (missing bs) 0.

Lemma missing_three a b c bs : missing (a :: b :: c :: bs) = missing bs.
Proof. unfold missing. f_equal. cbn [length]. zlia. Qed.

Lemma decode_done rest in_ block i len count : len <= i -> decode_loop rest in_ block i len count = Val ([], in_).
Proof. intros Hi. destruct rest; cbn [decode_loop]; by rewrite (proj2 (Z.ltb_ge _ _)). Qed.

(** At most a line feed is left. *)
Lemma decode_end n rest in_ block i :
  decode_loop (lines n [] ++ rest) in_ block i (i + Z.of_nat (length (lines n []))) 0 = Val ([], in_).
Proof.
  cbn [lines]. destruct (n =? 0)%nat; cbn [length app]; [apply decode_done; lia|].
  rewrite decode_nl by lia. apply decode_done. lia.
Qed.

(** One group of a text, and what follows it. *)
Lemma decode_lines_group n c0 c1 c2 c3 cs d0 d1 d2 d3 rest in_ block i out in' :
  (n mod 4 = 0)%nat -> (n < 72)%nat -> length in_ = 4%nat -> length block = 4%nat ->
  byte_at dtable c0 = Val d0 -> byte_at dtable c1 = Val d1 -> byte_at dtable c2 = Val d2 -> byte_at dtable c3 = Val d3 ->
  is_sextet d0 -> is_sextet d1 -> is_sextet d2 -> is_sextet d3 ->
  (forall n' i', (n' mod 4 = 0)%nat -> (n' < 72)%nat ->
    decode_loop (lines n' cs ++ rest) [c0; c1; c2; c3] [d0; d1; d2; d3] i' (i' + Z.of_nat (length (lines n' cs))) 0 =
      Val (out, in')) ->
  decode_loop (lines n (c0 :: c1 :: c2 :: c3 :: cs) ++ rest) in_ block i
      (i + Z.of_nat (length (lines n (c0 :: c1 :: c2 :: c3 :: cs)))) 0 =
    Val ([u8 (Z.lor (Z.shiftl d0 2) (Z.shiftr d1 4)); u8 (Z.lor (Z.shiftl d1 4) (Z.shiftr d2 2));
            u8 (Z.lor (Z.shiftl d2 6) d3)] ++ out, in').
Proof.
  intros Hm Hn Hin Hbl H0 H1 H2 H3 S0 S1 S2 S3 Hrest. rewrite lines_group by done.
  destruct (Z.leb_spec 72 (Z.of_nat n + 4)).
  - cbn [app length]. erewrite decode_group by (done || lia).
    replace (i + Z.of_nat (S (S (S (S (S (length (lines 0 cs)))))))) with (i + 4 + 1 + Z.of_nat (length (lines 0 cs))) by lia.
    rewrite decode_nl by lia. rewrite (Hrest 0%nat (i + 4 + 1) eq_refl) by lia. reflexivity.
  - cbn [app length]. erewrite decode_group by (done || lia).
    replace (i + Z.of_nat (S (S (S (S (length (lines (n + 4) cs))))))) with (i + 4 + Z.of_nat (length (lines (n + 4) cs))) by lia.
    assert (Hm4 : ((n + 4) mod 4 = 0)%nat) by (rewrite Nat.Div0.add_mod, Hm; reflexivity).
    rewrite (Hrest (n + 4)%nat (i + 4) Hm4) by lia. reflexivity.
Qed.

(** The array [in] behind the loop: the last four characters. *)
Fixpoint last_in (in_ bs : list Z) : list Z :=
  match bs with
  | a :: b :: c :: bs' => last_in [character (sx0 a); character (sx1 a b); character (sx2 b c); character (sx3 c)] bs'
  | [] => in_
  | _ => text bs
  end.

Lemma decode_lines bs rest : bytes_ok bs -> forall n in_ block i,
  (n mod 4 = 0)%nat -> (n < 72)%nat -> length in_ = 4%nat -> length block = 4%nat ->
  decode_loop (lines n (text bs) ++ rest) in_ block i (i + Z.of_nat (length (lines n (text bs)))) 0 =
    Val (padded bs, last_in in_ bs).
Proof.
  assert (Hc : forall s, is_sextet s -> byte_at dtable (character s) = Val s) by (intros; by apply character_spec).
  assert (Hz : is_sextet 0) by (unfold is_sextet; lia).
  induction bs as [|a|a b|a b c bs IH] using groups_ind; intros Hok n in_ block i Hm Hn Hin Hbl; cbn [text last_in].
  - apply decode_end.
  - inversion_clear Hok as [|? ? Ha _]. destruct (sx_range a 0 0) as (H0 & H1 & _); [done|zlia|zlia|].
    rewrite (decode_lines_group n _ _ _ _ [] _ _ _ _ rest in_ block i [] (text [a]) Hm Hn Hin Hbl
      (Hc _ H0) (Hc _ H1) dtable_eq dtable_eq H0 H1 Hz Hz (fun n' i' _ _ => decode_end n' _ _ _ i')).
    change (Z.lor (Z.shiftl 0 6) 0) with (Z.lor (Z.shiftl (sx2 0 0) 6) (sx3 0)).
    change (Z.shiftr 0 2) with (Z.shiftr (sx2 0 0) 2). rewrite unsx0, unsx1, unsx2 by (done || zlia). done.
  - inversion_clear Hok as [|? ? Ha Hok']. inversion_clear Hok' as [|? ? Hb _].
    destruct (sx_range a b 0) as (H0 & H1 & H2 & _); [done|done|zlia|].
    rewrite (decode_lines_group n _ _ _ _ [] _ _ _ _ rest in_ block i [] (text [a; b]) Hm Hn Hin Hbl
      (Hc _ H0) (Hc _ H1) (Hc _ H2) dtable_eq H0 H1 H2 Hz (fun n' i' _ _ => decode_end n' _ _ _ i')).
    change (Z.lor (Z.shiftl (sx2 b 0) 6) 0) with (Z.lor (Z.shiftl (sx2 b 0) 6) (sx3 0)).
    rewrite unsx0, unsx1, unsx2 by (done || zlia). done.
  - inversion_clear Hok as [|? ? Ha Hok']. inversion_clear Hok' as [|? ? Hb Hok].
    inversion_clear Hok as [|? ? Hcc Hok']. destruct (sx_range a b c) as (H0 & H1 & H2 & H3); [done..|].
    rewrite (decode_lines_group n _ _ _ _ (text bs) _ _ _ _ rest in_ block i _ _ Hm Hn Hin Hbl
      (Hc _ H0) (Hc _ H1) (Hc _ H2) (Hc _ H3) H0 H1 H2 H3
      (fun n' i' Hm' Hn' => IH Hok' n' [character (sx0 a); character (sx1 a b); character (sx2 b c); character (sx3 c)]
        [sx0 a; sx1 a b; sx2 b c; sx3 c] i' Hm' Hn' eq_refl eq_refl)).
    rewrite unsx0, unsx1, unsx2 by done. unfold padded. by rewrite missing_three.
Qed.

(** The padding characters of the last group tell the bytes to give back. *)
Lemma unpad_last bs in_ m : bytes_ok bs -> length in_ = 4%nat -> (0 < m)%nat ->
  (bs = [] -> default 0 (zlookup in_ 2) <> chr_eq /\ default 0 (zlookup in_ 3) <> chr_eq) ->
  forall pos, length pos = (m + missing bs)%nat -> unpad pos (last_in in_ bs) = Val (Z.of_nat m).
Proof.
  revert in_. induction bs as [|a|a b|a b c bs IH] using groups_ind; intros in_ Hok Hin Hm Hnil pos Hpos; cbn [last_in].
  - destruct (Hnil eq_refl) as [H2 H3]. destruct in_ as [|x0 [|x1 [|x2 [|x3 [|]]]]]; try discriminate Hin.
    change (x2 <> chr_eq) in H2. change (x3 <> chr_eq) in H3. change (missing []) with 0%nat in Hpos. unfold unpad.
    rewrite (proj2 (Z.ltb_lt _ _)) by lia. change (byte_at _ 2) with (Val x2). change (byte_at _ 3) with (Val x3).
    cbn [mbind mret res_bind res_ret]. rewrite !(proj2 (Z.eqb_neq _ chr_eq)) by done. do 2 f_equal. lia.
  - change (missing [a]) with 2%nat in Hpos. unfold unpad. rewrite (proj2 (Z.ltb_lt _ _)) by lia.
    cbn [text]. change (byte_at _ 2) with (Val chr_eq). change (byte_at _ 3) with (Val chr_eq).
    cbn [mbind mret res_bind res_ret]. rewrite Z.eqb_refl. f_equal. lia.
  - inversion_clear Hok as [|? ? Ha Hok']. inversion_clear Hok' as [|? ? Hb _].
    change (missing [a; b]) with 1%nat in Hpos. unfold unpad. rewrite (proj2 (Z.ltb_lt _ _)) by lia.
    destruct (sx_range a b 0) as (_ & _ & H2 & _); [done|done|zlia|].
    cbn [text]. change (byte_at _ 2) with (Val (character (sx2 b 0))). change (byte_at _ 3) with (Val chr_eq).
    cbn [mbind mret res_bind res_ret]. rewrite (proj2 (Z.eqb_neq _ _)) by (by apply character_spec).
    rewrite Z.eqb_refl. f_equal. lia.
  - inversion_clear Hok as [|? ? Ha Hok']. inversion_clear Hok' as [|? ? Hb Hok].
    inversion_clear Hok as [|? ? Hcc Hok']. destruct (sx_range a b c) as (_ & _ & H2 & H3); [done..|].
    rewrite missing_three in Hpos. apply IH; try done. intros _.
    split; [exact (proj2 (proj2 (character_spec _ H2)))|exact (proj2 (proj2 (character_spec _ H3)))].
Qed.

Lemma unpad_padded bs in_ : bytes_ok bs -> length in_ = 4%nat ->
  unpad (padded bs) (last_in in_ bs) = Val (Z.of_nat (length bs)).
Proof.
  intros Hok Hin. destruct bs as [|a bs]; [done|]. apply unpad_last; [done|done|cbn; lia|done|].
  unfold padded. by rewrite length_app, length_replicate.
Qed.

Lemma u32_mod4 x : u32 x mod 4 = x mod 4.
Proof. zlia. Qed.

(** C34: decoding what an encoding stored gives the message back, with its
    length, whatever follows the encoding in the buffer and whatever the stack
    held; and the decoder leaves its table allocated. *)
Theorem base64_roundtrip zalloc_ok in0 block0 bs live : bytes_ok bs -> Z.of_nat (length bs) < 2 ^ 30 ->
  length in0 = 4%nat -> length block0 = 4%nat -> zalloc_ok live = true ->
  exists n s pos, base64_encode bs (Z.of_nat (length bs)) true true = Val (1, Some n, s) /\
    base64_decode zalloc_ok in0 block0 s n true live = Val (1, Some (Z.of_nat (length bs)), pos, live + 1) /\
    take (length bs) pos = bs.
Proof.
  intros Hok Hlen Hin Hbl Hz. set (s := lines 0 (text bs)).
  exists (Z.of_nat (length s)), (s ++ [0]), (padded bs). split; [by rewrite base64_encode_lines|].
  assert (Hs : Z.of_nat (length s) < 2 ^ 32) by (subst s; rewrite length_encoding; clear -Hlen; zlia).
  split; [|by unfold padded; rewrite take_app_length].
  unfold base64_decode. mstep by (unfold os_zalloc; eapply bind_val; [reflexivity|]; cbv beta; rewrite Hz; reflexivity).
  cbn [negb]. rewrite u32_id by (unfold is_u32; lia).
  pose proof (count_lines (text bs) [0] 0 0 0 (text_significant bs Hok) ltac:(zlia)) as Hcount.
  fold s in Hcount. rewrite !Z.add_0_l in Hcount. mstep by (unfold lift_res; rewrite Hcount; reflexivity).
  assert (Hmod : u32 (Z.of_nat (length (text bs))) mod 4 = 0).
  { rewrite u32_mod4. pose proof (text_mod4 bs) as Hm. apply (f_equal Z.of_nat) in Hm. rewrite Nat2Z.inj_mod in Hm. exact Hm. }
  unfold truthy. rewrite Hmod. cbn [Z.eqb negb].
  pose proof (decode_lines bs [0] Hok 0 in0 block0 0 eq_refl ltac:(lia) Hin Hbl) as Hdec. fold s in Hdec.
  rewrite Z.add_0_l in Hdec. mstep by (unfold lift_res; rewrite Hdec; reflexivity).
  mstep by (unfold lift_res; rewrite unpad_padded by done; reflexivity). reflexivity.
Qed.

(** ** Witnesses *)

Definition fooba : list Z := [102; 111; 111; 98; 97].

Lemma fooba_ok : bytes_ok fooba.
Proof. repeat constructor; discriminate. Qed.

Lemma base64_encode_is_rfc_witness :
  base64_encode fooba 5 true true = Val (1, Some 9, rfc_encode fooba ++ [0]).
Proof. exact (base64_encode_is_rfc fooba true fooba_ok). Defined.

Lemma base64_length_enough_witness :
  exists n s, base64_encode fooba 5 false true = Val (1, n, s) /\ Z.of_nat (length s) <= 11.
Proof. exact (proj1 (base64_length_enough fooba false fooba_ok eq_refl)). Defined.

Lemma base64_roundtrip_witness :
  exists n s pos, base64_encode fooba 5 true true = Val (1, Some n, s) /\
    base64_decode (fun _ => true) [0; 0; 0; 0] [0; 0; 0; 0] s n true 0 = Val (1, Some 5, pos, 1) /\
    take 5 pos = fooba.
Proof. exact (base64_roundtrip (fun _ => true) [0; 0; 0; 0] [0; 0; 0; 0] fooba 0 fooba_ok eq_refl eq_refl eq_refl eq_refl). Defined.
