(* ===== verification/Utf8Tables.v ===== *)
(** * The tables of the character sets (components/utf8/conv_utf8_gb2312_table.h)

    The UTF-8 of the characters of GB 2312, in the order of their codes, and the
    codes of GB 2312 by Unicode, in the order of the latter.  The rows are those of
    the header, cut into pieces of 94, the characters of a district. *)
From stdpp Require Import list numbers.
Local Open Scope Z_scope.

Definition utf8_rows_00 : list (Z * Z * Z) := [
  (0xe5, 0x95, 0x8a); (0xe9, 0x98, 0xbf); (0xe5, 0x9f, 0x83); (0xe6, 0x8c, 0xa8); (0xe5, 0x93, 0x8e); (0xe5, 0x94, 0x89); (0xe5, 0x93, 0x80); (0xe7, 0x9a, 0x91);
  (0xe7, 0x99, 0x8c); (0xe8, 0x94, 0xbc); (0xe7, 0x9f, 0xae); (0xe8, 0x89, 0xbe); (0xe7, 0xa2, 0x8d); (0xe7, 0x88, 0xb1); (0xe9, 0x9a, 0x98); (0xe9, 0x9e, 0x8d);
  (0xe6, 0xb0, 0xa8); (0xe5, 0xae, 0x89); (0xe4, 0xbf, 0xba); (0xe6, 0x8c, 0x89); (0xe6, 0x9a, 0x97); (0xe5, 0xb2, 0xb8); (0xe8, 0x83, 0xba); (0xe6, 0xa1, 0x88);
  (0xe8, 0x82, 0xae); (0xe6, 0x98, 0x82); (0xe7, 0x9b, 0x8e); (0xe5, 0x87, 0xb9); (0xe6, 0x95, 0x96); (0xe7, 0x86, 0xac); (0xe7, 0xbf, 0xb1); (0xe8, 0xa2, 0x84);
  (0xe5, 0x82, 0xb2); (0xe5, 0xa5, 0xa5); (0xe6, 0x87, 0x8a); (0xe6, 0xbe, 0xb3); (0xe8, 0x8a, 0xad); (0xe6, 0x8d, 0x8c); (0xe6, 0x89, 0x92); (0xe5, 0x8f, 0xad);
  (0xe5, 0x90, 0xa7); (0xe7, 0xac, 0x86); (0xe5, 0x85, 0xab); (0xe7, 0x96, 0xa4); (0xe5, 0xb7, 0xb4); (0xe6, 0x8b, 0x94); (0xe8, 0xb7, 0x8b); (0xe9, 0x9d, 0xb6);
  (0xe6, 0x8a, 0x8a); (0xe8, 0x80, 0x99); (0xe5, 0x9d, 0x9d); (0xe9, 0x9c, 0xb8); (0xe7, 0xbd, 0xa2); (0xe7, 0x88, 0xb8); (0xe7, 0x99, 0xbd); (0xe6, 0x9f, 0x8f);
  (0xe7, 0x99, 0xbe); (0xe6, 0x91, 0x86); (0xe4, 0xbd, 0xb0); (0xe8, 0xb4, 0xa5); (0xe6, 0x8b, 0x9c); (0xe7, 0xa8, 0x97); (0xe6, 0x96, 0x91); (0xe7, 0x8f, 0xad);
  (0xe6, 0x90, 0xac); (0xe6, 0x89, 0xb3); (0xe8, 0x88, 0xac); (0xe9, 0xa2, 0x81); (0xe6, 0x9d, 0xbf); (0xe7, 0x89, 0x88); (0xe6, 0x89, 0xae); (0xe6, 0x8b, 0x8c);
  (0xe4, 0xbc, 0xb4); (0xe7, 0x93, 0xa3); (0xe5, 0x8d, 0x8a); (0xe5, 0x8a, 0x9e); (0xe7, 0xbb, 0x8a); (0xe9, 0x82, 0xa6); (0xe5, 0xb8, 0xae); (0xe6, 0xa2, 0x86);
  (0xe6, 0xa6, 0x9c); (0xe8, 0x86, 0x80); (0xe7, 0xbb, 0x91); (0xe6, 0xa3, 0x92); (0xe7, 0xa3, 0x85); (0xe8, 0x9a, 0x8c); (0xe9, 0x95, 0x91); (0xe5, 0x82, 0x8d);
  (0xe8, 0xb0, 0xa4); (0xe8, 0x8b, 0x9e); (0xe8, 0x83, 0x9e); (0xe5, 0x8c, 0x85); (0xe8, 0xa4, 0x92); (0xe5, 0x89, 0xa5)].

Definition utf8_rows_01 : list (Z * Z * Z) := [
  (0xe8, 0x96, 0x84); (0xe9, 0x9b, 0xb9); (0xe4, 0xbf, 0x9d); (0xe5, 0xa0, 0xa1); (0xe9, 0xa5, 0xb1); (0xe5, 0xae, 0x9d); (0xe6, 0x8a, 0xb1); (0xe6, 0x8a, 0xa5);
  (0xe6, 0x9a, 0xb4); (0xe8, 0xb1, 0xb9); (0xe9, 0xb2, 0x8d); (0xe7, 0x88, 0x86); (0xe6, 0x9d, 0xaf); (0xe7, 0xa2, 0x91); (0xe6, 0x82, 0xb2); (0xe5, 0x8d, 0x91);
  (0xe5, 0x8c, 0x97); (0xe8, 0xbe, 0x88); (0xe8, 0x83, 0x8c); (0xe8, 0xb4, 0x9d); (0xe9, 0x92, 0xa1); (0xe5, 0x80, 0x8d); (0xe7, 0x8b, 0x88); (0xe5, 0xa4, 0x87);
  (0xe6, 0x83, 0xab); (0xe7, 0x84, 0x99); (0xe8, 0xa2, 0xab); (0xe5, 0xa5, 0x94); (0xe8, 0x8b, 0xaf); (0xe6, 0x9c, 0xac); (0xe7, 0xac, 0xa8); (0xe5, 0xb4, 0xa9);
  (0xe7, 0xbb, 0xb7); (0xe7, 0x94, 0xad); (0xe6, 0xb3, 0xb5); (0xe8, 0xb9, 0xa6); (0xe8, 0xbf, 0xb8); (0xe9, 0x80, 0xbc); (0xe9, 0xbc, 0xbb); (0xe6, 0xaf, 0x94);
  (0xe9, 0x84, 0x99); (0xe7, 0xac, 0x94); (0xe5, 0xbd, 0xbc); (0xe7, 0xa2, 0xa7); (0xe8, 0x93, 0x96); (0xe8, 0x94, 0xbd); (0xe6, 0xaf, 0x95); (0xe6, 0xaf, 0x99);
  (0xe6, 0xaf, 0x96); (0xe5, 0xb8, 0x81); (0xe5, 0xba, 0x87); (0xe7, 0x97, 0xb9); (0xe9, 0x97, 0xad); (0xe6, 0x95, 0x9d); (0xe5, 0xbc, 0x8a); (0xe5, 0xbf, 0x85);
  (0xe8, 0xbe, 0x9f); (0xe5, 0xa3, 0x81); (0xe8, 0x87, 0x82); (0xe9, 0x81, 0xbf); (0xe9, 0x99, 0x9b); (0xe9, 0x9e, 0xad); (0xe8, 0xbe, 0xb9); (0xe7, 0xbc, 0x96);
  (0xe8, 0xb4, 0xac); (0xe6, 0x89, 0x81); (0xe4, 0xbe, 0xbf); (0xe5, 0x8f, 0x98); (0xe5, 0x8d, 0x9e); (0xe8, 0xbe, 0xa8); (0xe8, 0xbe, 0xa9); (0xe8, 0xbe, 0xab);
  (0xe9, 0x81, 0x8d); (0xe6, 0xa0, 0x87); (0xe5, 0xbd, 0xaa); (0xe8, 0x86, 0x98); (0xe8, 0xa1, 0xa8); (0xe9, 0xb3, 0x96); (0xe6, 0x86, 0x8b); (0xe5, 0x88, 0xab);
  (0xe7, 0x98, 0xaa); (0xe5, 0xbd, 0xac); (0xe6, 0x96, 0x8c); (0xe6, 0xbf, 0x92); (0xe6, 0xbb, 0xa8); (0xe5, 0xae, 0xbe); (0xe6, 0x91, 0x88); (0xe5, 0x85, 0xb5);
  (0xe5, 0x86, 0xb0); (0xe6, 0x9f, 0x84); (0xe4, 0xb8, 0x99); (0xe7, 0xa7, 0x89); (0xe9, 0xa5, 0xbc); (0xe7, 0x82, 0xb3)].

Definition utf8_rows_02 : list (Z * Z * Z) := [
  (0xe7, 0x97, 0x85); (0xe5, 0xb9, 0xb6); (0xe7, 0x8e, 0xbb); (0xe8, 0x8f, 0xa0); (0xe6, 0x92, 0xad); (0xe6, 0x8b, 0xa8); (0xe9, 0x92, 0xb5); (0xe6, 0xb3, 0xa2);
  (0xe5, 0x8d, 0x9a); (0xe5, 0x8b, 0x83); (0xe6, 0x90, 0x8f); (0xe9, 0x93, 0x82); (0xe7, 0xae, 0x94); (0xe4, 0xbc, 0xaf); (0xe5, 0xb8, 0x9b); (0xe8, 0x88, 0xb6);
  (0xe8, 0x84, 0x96); (0xe8, 0x86, 0x8a); (0xe6, 0xb8, 0xa4); (0xe6, 0xb3, 0x8a); (0xe9, 0xa9, 0xb3); (0xe6, 0x8d, 0x95); (0xe5, 0x8d, 0x9c); (0xe5, 0x93, 0xba);
  (0xe8, 0xa1, 0xa5); (0xe5, 0x9f, 0xa0); (0xe4, 0xb8, 0x8d); (0xe5, 0xb8, 0x83); (0xe6, 0xad, 0xa5); (0xe7, 0xb0, 0xbf); (0xe9, 0x83, 0xa8); (0xe6, 0x80, 0x96);
  (0xe6, 0x93, 0xa6); (0xe7, 0x8c, 0x9c); (0xe8, 0xa3, 0x81); (0xe6, 0x9d, 0x90); (0xe6, 0x89, 0x8d); (0xe8, 0xb4, 0xa2); (0xe7, 0x9d, 0xac); (0xe8, 0xb8, 0xa9);
  (0xe9, 0x87, 0x87); (0xe5, 0xbd, 0xa9); (0xe8, 0x8f, 0x9c); (0xe8, 0x94, 0xa1); (0xe9, 0xa4, 0x90); (0xe5, 0x8f, 0x82); (0xe8, 0x9a, 0x95); (0xe6, 0xae, 0x8b);
  (0xe6, 0x83, 0xad); (0xe6, 0x83, 0xa8); (0xe7, 0x81, 0xbf); (0xe8, 0x8b, 0x8d); (0xe8, 0x88, 0xb1); (0xe4, 0xbb, 0x93); (0xe6, 0xb2, 0xa7); (0xe8, 0x97, 0x8f);
  (0xe6, 0x93, 0x8d); (0xe7, 0xb3, 0x99); (0xe6, 0xa7, 0xbd); (0xe6, 0x9b, 0xb9); (0xe8, 0x8d, 0x89); (0xe5, 0x8e, 0x95); (0xe7, 0xad, 0x96); (0xe4, 0xbe, 0xa7);
  (0xe5, 0x86, 0x8c); (0xe6, 0xb5, 0x8b); (0xe5, 0xb1, 0x82); (0xe8, 0xb9, 0xad); (0xe6, 0x8f, 0x92); (0xe5, 0x8f, 0x89); (0xe8, 0x8c, 0xac); (0xe8, 0x8c, 0xb6);
  (0xe6, 0x9f, 0xa5); (0xe7, 0xa2, 0xb4); (0xe6, 0x90, 0xbd); (0xe5, 0xaf, 0x9f); (0xe5, 0xb2, 0x94); (0xe5, 0xb7, 0xae); (0xe8, 0xaf, 0xa7); (0xe6, 0x8b, 0x86);
  (0xe6, 0x9f, 0xb4); (0xe8, 0xb1, 0xba); (0xe6, 0x90, 0x80); (0xe6, 0x8e, 0xba); (0xe8, 0x9d, 0x89); (0xe9, 0xa6, 0x8b); (0xe8, 0xb0, 0x97); (0xe7, 0xbc, 0xa0);
  (0xe9, 0x93, 0xb2); (0xe4, 0xba, 0xa7); (0xe9, 0x98, 0x90); (0xe9, 0xa2, 0xa4); (0xe6, 0x98, 0x8c); (0xe7, 0x8c, 0x96)].

Definition utf8_rows_03 : list (Z * Z * Z) := [
  (0xe5, 0x9c, 0xba); (0xe5, 0xb0, 0x9d); (0xe5, 0xb8, 0xb8); (0xe9, 0x95, 0xbf); (0xe5, 0x81, 0xbf); (0xe8, 0x82, 0xa0); (0xe5, 0x8e, 0x82); (0xe6, 0x95, 0x9e);
  (0xe7, 0x95, 0x85); (0xe5, 0x94, 0xb1); (0xe5, 0x80, 0xa1); (0xe8, 0xb6, 0x85); (0xe6, 0x8a, 0x84); (0xe9, 0x92, 0x9e); (0xe6, 0x9c, 0x9d); (0xe5, 0x98, 0xb2);
  (0xe6, 0xbd, 0xae); (0xe5, 0xb7, 0xa2); (0xe5, 0x90, 0xb5); (0xe7, 0x82, 0x92); (0xe8, 0xbd, 0xa6); (0xe6, 0x89, 0xaf); (0xe6, 0x92, 0xa4); (0xe6, 0x8e, 0xa3);
  (0xe5, 0xbd, 0xbb); (0xe6, 0xbe, 0x88); (0xe9, 0x83, 0xb4); (0xe8, 0x87, 0xa3); (0xe8, 0xbe, 0xb0); (0xe5, 0xb0, 0x98); (0xe6, 0x99, 0xa8); (0xe5, 0xbf, 0xb1);
  (0xe6, 0xb2, 0x89); (0xe9, 0x99, 0x88); (0xe8, 0xb6, 0x81); (0xe8, 0xa1, 0xac); (0xe6, 0x92, 0x91); (0xe7, 0xa7, 0xb0); (0xe5, 0x9f, 0x8e); (0xe6, 0xa9, 0x99);
  (0xe6, 0x88, 0x90); (0xe5, 0x91, 0x88); (0xe4, 0xb9, 0x98); (0xe7, 0xa8, 0x8b); (0xe6, 0x83, 0xa9); (0xe6, 0xbe, 0x84); (0xe8, 0xaf, 0x9a); (0xe6, 0x89, 0xbf);
  (0xe9, 0x80, 0x9e); (0xe9, 0xaa, 0x8b); (0xe7, 0xa7, 0xa4); (0xe5, 0x90, 0x83); (0xe7, 0x97, 0xb4); (0xe6, 0x8c, 0x81); (0xe5, 0x8c, 0x99); (0xe6, 0xb1, 0xa0);
  (0xe8, 0xbf, 0x9f); (0xe5, 0xbc, 0x9b); (0xe9, 0xa9, 0xb0); (0xe8, 0x80, 0xbb); (0xe9, 0xbd, 0xbf); (0xe4, 0xbe, 0x88); (0xe5, 0xb0, 0xba); (0xe8, 0xb5, 0xa4);
  (0xe7, 0xbf, 0x85); (0xe6, 0x96, 0xa5); (0xe7, 0x82, 0xbd); (0xe5, 0x85, 0x85); (0xe5, 0x86, 0xb2); (0xe8, 0x99, 0xab); (0xe5, 0xb4, 0x87); (0xe5, 0xae, 0xa0);
  (0xe6, 0x8a, 0xbd); (0xe9, 0x85, 0xac); (0xe7, 0x95, 0xb4); (0xe8, 0xb8, 0x8c); (0xe7, 0xa8, 0xa0); (0xe6, 0x84, 0x81); (0xe7, 0xad, 0xb9); (0xe4, 0xbb, 0x87);
  (0xe7, 0xbb, 0xb8); (0xe7, 0x9e, 0x85); (0xe4, 0xb8, 0x91); (0xe8, 0x87, 0xad); (0xe5, 0x88, 0x9d); (0xe5, 0x87, 0xba); (0xe6, 0xa9, 0xb1); (0xe5, 0x8e, 0xa8);
  (0xe8, 0xba, 0x87); (0xe9, 0x94, 0x84); (0xe9, 0x9b, 0x8f); (0xe6, 0xbb, 0x81); (0xe9, 0x99, 0xa4); (0xe6, 0xa5, 0x9a)].

Definition utf8_rows_04 : list (Z * Z * Z) := [
  (0xe7, 0xa1, 0x80); (0xe5, 0x82, 0xa8); (0xe7, 0x9f, 0x97); (0xe6, 0x90, 0x90); (0xe8, 0xa7, 0xa6); (0xe5, 0xa4, 0x84); (0xe6, 0x8f, 0xa3); (0xe5, 0xb7, 0x9d);
  (0xe7, 0xa9, 0xbf); (0xe6, 0xa4, 0xbd); (0xe4, 0xbc, 0xa0); (0xe8, 0x88, 0xb9); (0xe5, 0x96, 0x98); (0xe4, 0xb8, 0xb2); (0xe7, 0x96, 0xae); (0xe7, 0xaa, 0x97);
  (0xe5, 0xb9, 0xa2); (0xe5, 0xba, 0x8a); (0xe9, 0x97, 0xaf); (0xe5, 0x88, 0x9b); (0xe5, 0x90, 0xb9); (0xe7, 0x82, 0x8a); (0xe6, 0x8d, 0xb6); (0xe9, 0x94, 0xa4);
  (0xe5, 0x9e, 0x82); (0xe6, 0x98, 0xa5); (0xe6, 0xa4, 0xbf); (0xe9, 0x86, 0x87); (0xe5, 0x94, 0x87); (0xe6, 0xb7, 0xb3); (0xe7, 0xba, 0xaf); (0xe8, 0xa0, 0xa2);
  (0xe6, 0x88, 0xb3); (0xe7, 0xbb, 0xb0); (0xe7, 0x96, 0xb5); (0xe8, 0x8c, 0xa8); (0xe7, 0xa3, 0x81); (0xe9, 0x9b, 0x8c); (0xe8, 0xbe, 0x9e); (0xe6, 0x85, 0x88);
  (0xe7, 0x93, 0xb7); (0xe8, 0xaf, 0x8d); (0xe6, 0xad, 0xa4); (0xe5, 0x88, 0xba); (0xe8, 0xb5, 0x90); (0xe6, 0xac, 0xa1); (0xe8, 0x81, 0xaa); (0xe8, 0x91, 0xb1);
  (0xe5, 0x9b, 0xb1); (0xe5, 0x8c, 0x86); (0xe4, 0xbb, 0x8e); (0xe4, 0xb8, 0x9b); (0xe5, 0x87, 0x91); (0xe7, 0xb2, 0x97); (0xe9, 0x86, 0x8b); (0xe7, 0xb0, 0x87);
  (0xe4, 0xbf, 0x83); (0xe8, 0xb9, 0xbf); (0xe7, 0xaf, 0xa1); (0xe7, 0xaa, 0x9c); (0xe6, 0x91, 0xa7); (0xe5, 0xb4, 0x94); (0xe5, 0x82, 0xac); (0xe8, 0x84, 0x86);
  (0xe7, 0x98, 0x81); (0xe7, 0xb2, 0xb9); (0xe6, 0xb7, 0xac); (0xe7, 0xbf, 0xa0); (0xe6, 0x9d, 0x91); (0xe5, 0xad, 0x98); (0xe5, 0xaf, 0xb8); (0xe7, 0xa3, 0x8b);
  (0xe6, 0x92, 0xae); (0xe6, 0x90, 0x93); (0xe6, 0x8e, 0xaa); (0xe6, 0x8c, 0xab); (0xe9, 0x94, 0x99); (0xe6, 0x90, 0xad); (0xe8, 0xbe, 0xbe); (0xe7, 0xad, 0x94);
  (0xe7, 0x98, 0xa9); (0xe6, 0x89, 0x93); (0xe5, 0xa4, 0xa7); (0xe5, 0x91, 0x86); (0xe6, 0xad, 0xb9); (0xe5, 0x82, 0xa3); (0xe6, 0x88, 0xb4); (0xe5, 0xb8, 0xa6);
  (0xe6, 0xae, 0x86); (0xe4, 0xbb, 0xa3); (0xe8, 0xb4, 0xb7); (0xe8, 0xa2, 0x8b); (0xe5, 0xbe, 0x85); (0xe9, 0x80, 0xae)].

Definition utf8_rows_05 : list (Z * Z * Z) := [
  (0xe6, 0x80, 0xa0); (0xe8, 0x80, 0xbd); (0xe6, 0x8b, 0x85); (0xe4, 0xb8, 0xb9); (0xe5, 0x8d, 0x95); (0xe9, 0x83, 0xb8); (0xe6, 0x8e, 0xb8); (0xe8, 0x83, 0x86);
  (0xe6, 0x97, 0xa6); (0xe6, 0xb0, 0xae); (0xe4, 0xbd, 0x86); (0xe6, 0x83, 0xae); (0xe6, 0xb7, 0xa1); (0xe8, 0xaf, 0x9e); (0xe5, 0xbc, 0xb9); (0xe8, 0x9b, 0x8b);
  (0xe5, 0xbd, 0x93); (0xe6, 0x8c, 0xa1); (0xe5, 0x85, 0x9a); (0xe8, 0x8d, 0xa1); (0xe6, 0xa1, 0xa3); (0xe5, 0x88, 0x80); (0xe6, 0x8d, 0xa3); (0xe8, 0xb9, 0x88);
  (0xe5, 0x80, 0x92); (0xe5, 0xb2, 0x9b); (0xe7, 0xa5, 0xb7); (0xe5, 0xaf, 0xbc); (0xe5, 0x88, 0xb0); (0xe7, 0xa8, 0xbb); (0xe6, 0x82, 0xbc); (0xe9, 0x81, 0x93);
  (0xe7, 0x9b, 0x97); (0xe5, 0xbe, 0xb7); (0xe5, 0xbe, 0x97); (0xe7, 0x9a, 0x84); (0xe8, 0xb9, 0xac); (0xe7, 0x81, 0xaf); (0xe7, 0x99, 0xbb); (0xe7, 0xad, 0x89);
  (0xe7, 0x9e, 0xaa); (0xe5, 0x87, 0xb3); (0xe9, 0x82, 0x93); (0xe5, 0xa0, 0xa4); (0xe4, 0xbd, 0x8e); (0xe6, 0xbb, 0xb4); (0xe8, 0xbf, 0xaa); (0xe6, 0x95, 0x8c);
  (0xe7, 0xac, 0x9b); (0xe7, 0x8b, 0x84); (0xe6, 0xb6, 0xa4); (0xe7, 0xbf, 0x9f); (0xe5, 0xab, 0xa1); (0xe6, 0x8a, 0xb5); (0xe5, 0xba, 0x95); (0xe5, 0x9c, 0xb0);
  (0xe8, 0x92, 0x82); (0xe7, 0xac, 0xac); (0xe5, 0xb8, 0x9d); (0xe5, 0xbc, 0x9f); (0xe9, 0x80, 0x92); (0xe7, 0xbc, 0x94); (0xe9, 0xa2, 0xa0); (0xe6, 0x8e, 0x82);
  (0xe6, 0xbb, 0x87); (0xe7, 0xa2, 0x98); (0xe7, 0x82, 0xb9); (0xe5, 0x85, 0xb8); (0xe9, 0x9d, 0x9b); (0xe5, 0x9e, 0xab); (0xe7, 0x94, 0xb5); (0xe4, 0xbd, 0x83);
  (0xe7, 0x94, 0xb8); (0xe5, 0xba, 0x97); (0xe6, 0x83, 0xa6); (0xe5, 0xa5, 0xa0); (0xe6, 0xb7, 0x80); (0xe6, 0xae, 0xbf); (0xe7, 0xa2, 0x89); (0xe5, 0x8f, 0xbc);
  (0xe9, 0x9b, 0x95); (0xe5, 0x87, 0x8b); (0xe5, 0x88, 0x81); (0xe6, 0x8e, 0x89); (0xe5, 0x90, 0x8a); (0xe9, 0x92, 0x93); (0xe8, 0xb0, 0x83); (0xe8, 0xb7, 0x8c);
  (0xe7, 0x88, 0xb9); (0xe7, 0xa2, 0x9f); (0xe8, 0x9d, 0xb6); (0xe8, 0xbf, 0xad); (0xe8, 0xb0, 0x8d); (0xe5, 0x8f, 0xa0)].

Definition utf8_rows_06 : list (Z * Z * Z) := [
  (0xe4, 0xb8, 0x81); (0xe7, 0x9b, 0xaf); (0xe5, 0x8f, 0xae); (0xe9, 0x92, 0x89); (0xe9, 0xa1, 0xb6); (0xe9, 0xbc, 0x8e); (0xe9, 0x94, 0xad); (0xe5, 0xae, 0x9a);
  (0xe8, 0xae, 0xa2); (0xe4, 0xb8, 0xa2); (0xe4, 0xb8, 0x9c); (0xe5, 0x86, 0xac); (0xe8, 0x91, 0xa3); (0xe6, 0x87, 0x82); (0xe5, 0x8a, 0xa8); (0xe6, 0xa0, 0x8b);
  (0xe4, 0xbe, 0x97); (0xe6, 0x81, 0xab); (0xe5, 0x86, 0xbb); (0xe6, 0xb4, 0x9e); (0xe5, 0x85, 0x9c); (0xe6, 0x8a, 0x96); (0xe6, 0x96, 0x97); (0xe9, 0x99, 0xa1);
  (0xe8, 0xb1, 0x86); (0xe9, 0x80, 0x97); (0xe7, 0x97, 0x98); (0xe9, 0x83, 0xbd); (0xe7, 0x9d, 0xa3); (0xe6, 0xaf, 0x92); (0xe7, 0x8a, 0x8a); (0xe7, 0x8b, 0xac);
  (0xe8, 0xaf, 0xbb); (0xe5, 0xa0, 0xb5); (0xe7, 0x9d, 0xb9); (0xe8, 0xb5, 0x8c); (0xe6, 0x9d, 0x9c); (0xe9, 0x95, 0x80); (0xe8, 0x82, 0x9a); (0xe5, 0xba, 0xa6);
  (0xe6, 0xb8, 0xa1); (0xe5, 0xa6, 0x92); (0xe7, 0xab, 0xaf); (0xe7, 0x9f, 0xad); (0xe9, 0x94, 0xbb); (0xe6, 0xae, 0xb5); (0xe6, 0x96, 0xad); (0xe7, 0xbc, 0x8e);
  (0xe5, 0xa0, 0x86); (0xe5, 0x85, 0x91); (0xe9, 0x98, 0x9f); (0xe5, 0xaf, 0xb9); (0xe5, 0xa2, 0xa9); (0xe5, 0x90, 0xa8); (0xe8, 0xb9, 0xb2); (0xe6, 0x95, 0xa6);
  (0xe9, 0xa1, 0xbf); (0xe5, 0x9b, 0xa4); (0xe9, 0x92, 0x9d); (0xe7, 0x9b, 0xbe); (0xe9, 0x81, 0x81); (0xe6, 0x8e, 0x87); (0xe5, 0x93, 0x86); (0xe5, 0xa4, 0x9a);
  (0xe5, 0xa4, 0xba); (0xe5, 0x9e, 0x9b); (0xe8, 0xba, 0xb2); (0xe6, 0x9c, 0xb5); (0xe8, 0xb7, 0xba); (0xe8, 0x88, 0xb5); (0xe5, 0x89, 0x81); (0xe6, 0x83, 0xb0);
  (0xe5, 0xa0, 0x95); (0xe8, 0x9b, 0xbe); (0xe5, 0xb3, 0xa8); (0xe9, 0xb9, 0x85); (0xe4, 0xbf, 0x84); (0xe9, 0xa2, 0x9d); (0xe8, 0xae, 0xb9); (0xe5, 0xa8, 0xa5);
  (0xe6, 0x81, 0xb6); (0xe5, 0x8e, 0x84); (0xe6, 0x89, 0xbc); (0xe9, 0x81, 0x8f); (0xe9, 0x84, 0x82); (0xe9, 0xa5, 0xbf); (0xe6, 0x81, 0xa9); (0xe8, 0x80, 0x8c);
  (0xe5, 0x84, 0xbf); (0xe8, 0x80, 0xb3); (0xe5, 0xb0, 0x94); (0xe9, 0xa5, 0xb5); (0xe6, 0xb4, 0xb1); (0xe4, 0xba, 0x8c)].

Definition utf8_rows_07 : list (Z * Z * Z) := [
  (0xe8, 0xb4, 0xb0); (0xe5, 0x8f, 0x91); (0xe7, 0xbd, 0x9a); (0xe7, 0xad, 0x8f); (0xe4, 0xbc, 0x90); (0xe4, 0xb9, 0x8f); (0xe9, 0x98, 0x80); (0xe6, 0xb3, 0x95);
  (0xe7, 0x8f, 0x90); (0xe8, 0x97, 0xa9); (0xe5, 0xb8, 0x86); (0xe7, 0x95, 0xaa); (0xe7, 0xbf, 0xbb); (0xe6, 0xa8, 0x8a); (0xe7, 0x9f, 0xbe); (0xe9, 0x92, 0x92);
  (0xe7, 0xb9, 0x81); (0xe5, 0x87, 0xa1); (0xe7, 0x83, 0xa6); (0xe5, 0x8f, 0x8d); (0xe8, 0xbf, 0x94); (0xe8, 0x8c, 0x83); (0xe8, 0xb4, 0xa9); (0xe7, 0x8a, 0xaf);
  (0xe9, 0xa5, 0xad); (0xe6, 0xb3, 0x9b); (0xe5, 0x9d, 0x8a); (0xe8, 0x8a, 0xb3); (0xe6, 0x96, 0xb9); (0xe8, 0x82, 0xaa); (0xe6, 0x88, 0xbf); (0xe9, 0x98, 0xb2);
  (0xe5, 0xa6, 0xa8); (0xe4, 0xbb, 0xbf); (0xe8, 0xae, 0xbf); (0xe7, 0xba, 0xba); (0xe6, 0x94, 0xbe); (0xe8, 0x8f, 0xb2); (0xe9, 0x9d, 0x9e); (0xe5, 0x95, 0xa1);
  (0xe9, 0xa3, 0x9e); (0xe8, 0x82, 0xa5); (0xe5, 0x8c, 0xaa); (0xe8, 0xaf, 0xbd); (0xe5, 0x90, 0xa0); (0xe8, 0x82, 0xba); (0xe5, 0xba, 0x9f); (0xe6, 0xb2, 0xb8);
  (0xe8, 0xb4, 0xb9); (0xe8, 0x8a, 0xac); (0xe9, 0x85, 0x9a); (0xe5, 0x90, 0xa9); (0xe6, 0xb0, 0x9b); (0xe5, 0x88, 0x86); (0xe7, 0xba, 0xb7); (0xe5, 0x9d, 0x9f);
  (0xe7, 0x84, 0x9a); (0xe6, 0xb1, 0xbe); (0xe7, 0xb2, 0x89); (0xe5, 0xa5, 0x8b); (0xe4, 0xbb, 0xbd); (0xe5, 0xbf, 0xbf); (0xe6, 0x84, 0xa4); (0xe7, 0xb2, 0xaa);
  (0xe4, 0xb8, 0xb0); (0xe5, 0xb0, 0x81); (0xe6, 0x9e, 0xab); (0xe8, 0x9c, 0x82); (0xe5, 0xb3, 0xb0); (0xe9, 0x94, 0x8b); (0xe9, 0xa3, 0x8e); (0xe7, 0x96, 0xaf);
  (0xe7, 0x83, 0xbd); (0xe9, 0x80, 0xa2); (0xe5, 0x86, 0xaf); (0xe7, 0xbc, 0x9d); (0xe8, 0xae, 0xbd); (0xe5, 0xa5, 0x89); (0xe5, 0x87, 0xa4); (0xe4, 0xbd, 0x9b);
  (0xe5, 0x90, 0xa6); (0xe5, 0xa4, 0xab); (0xe6, 0x95, 0xb7); (0xe8, 0x82, 0xa4); (0xe5, 0xad, 0xb5); (0xe6, 0x89, 0xb6); (0xe6, 0x8b, 0x82); (0xe8, 0xbe, 0x90);
  (0xe5, 0xb9, 0x85); (0xe6, 0xb0, 0x9f); (0xe7, 0xac, 0xa6); (0xe4, 0xbc, 0x8f); (0xe4, 0xbf, 0x98); (0xe6, 0x9c, 0x8d)].

Definition utf8_rows_08 : list (Z * Z * Z) := [
  (0xe6, 0xb5, 0xae); (0xe6, 0xb6, 0xaa); (0xe7, 0xa6, 0x8f); (0xe8, 0xa2, 0xb1); (0xe5, 0xbc, 0x97); (0xe7, 0x94, 0xab); (0xe6, 0x8a, 0x9a); (0xe8, 0xbe, 0x85);
  (0xe4, 0xbf, 0xaf); (0xe9, 0x87, 0x9c); (0xe6, 0x96, 0xa7); (0xe8, 0x84, 0xaf); (0xe8, 0x85, 0x91); (0xe5, 0xba, 0x9c); (0xe8, 0x85, 0x90); (0xe8, 0xb5, 0xb4);
  (0xe5, 0x89, 0xaf); (0xe8, 0xa6, 0x86); (0xe8, 0xb5, 0x8b); (0xe5, 0xa4, 0x8d); (0xe5, 0x82, 0x85); (0xe4, 0xbb, 0x98); (0xe9, 0x98, 0x9c); (0xe7, 0x88, 0xb6);
  (0xe8, 0x85, 0xb9); (0xe8, 0xb4, 0x9f); (0xe5, 0xaf, 0x8c); (0xe8, 0xae, 0xa3); (0xe9, 0x99, 0x84); (0xe5, 0xa6, 0x87); (0xe7, 0xbc, 0x9a); (0xe5, 0x92, 0x90);
  (0xe5, 0x99, 0xb6); (0xe5, 0x98, 0x8e); (0xe8, 0xaf, 0xa5); (0xe6, 0x94, 0xb9); (0xe6, 0xa6, 0x82); (0xe9, 0x92, 0x99); (0xe7, 0x9b, 0x96); (0xe6, 0xba, 0x89);
  (0xe5, 0xb9, 0xb2); (0xe7, 0x94, 0x98); (0xe6, 0x9d, 0x86); (0xe6, 0x9f, 0x91); (0xe7, 0xab, 0xbf); (0xe8, 0x82, 0x9d); (0xe8, 0xb5, 0xb6); (0xe6, 0x84, 0x9f);
  (0xe7, 0xa7, 0x86); (0xe6, 0x95, 0xa2); (0xe8, 0xb5, 0xa3); (0xe5, 0x86, 0x88); (0xe5, 0x88, 0x9a); (0xe9, 0x92, 0xa2); (0xe7, 0xbc, 0xb8); (0xe8, 0x82, 0x9b);
  (0xe7, 0xba, 0xb2); (0xe5, 0xb2, 0x97); (0xe6, 0xb8, 0xaf); (0xe6, 0x9d, 0xa0); (0xe7, 0xaf, 0x99); (0xe7, 0x9a, 0x8b); (0xe9, 0xab, 0x98); (0xe8, 0x86, 0x8f);
  (0xe7, 0xbe, 0x94); (0xe7, 0xb3, 0x95); (0xe6, 0x90, 0x9e); (0xe9, 0x95, 0x90); (0xe7, 0xa8, 0xbf); (0xe5, 0x91, 0x8a); (0xe5, 0x93, 0xa5); (0xe6, 0xad, 0x8c);
  (0xe6, 0x90, 0x81); (0xe6, 0x88, 0x88); (0xe9, 0xb8, 0xbd); (0xe8, 0x83, 0xb3); (0xe7, 0x96, 0x99); (0xe5, 0x89, 0xb2); (0xe9, 0x9d, 0xa9); (0xe8, 0x91, 0x9b);
  (0xe6, 0xa0, 0xbc); (0xe8, 0x9b, 0xa4); (0xe9, 0x98, 0x81); (0xe9, 0x9a, 0x94); (0xe9, 0x93, 0xac); (0xe4, 0xb8, 0xaa); (0xe5, 0x90, 0x84); (0xe7, 0xbb, 0x99);
  (0xe6, 0xa0, 0xb9); (0xe8, 0xb7, 0x9f); (0xe8, 0x80, 0x95); (0xe6, 0x9b, 0xb4); (0xe5, 0xba, 0x9a); (0xe7, 0xbe, 0xb9)].

Definition utf8_rows_09 : list (Z * Z * Z) := [
  (0xe5, 0x9f, 0x82); (0xe8, 0x80, 0xbf); (0xe6, 0xa2, 0x97); (0xe5, 0xb7, 0xa5); (0xe6, 0x94, 0xbb); (0xe5, 0x8a, 0x9f); (0xe6, 0x81, 0xad); (0xe9, 0xbe, 0x9a);
  (0xe4, 0xbe, 0x9b); (0xe8, 0xba, 0xac); (0xe5, 0x85, 0xac); (0xe5, 0xae, 0xab); (0xe5, 0xbc, 0x93); (0xe5, 0xb7, 0xa9); (0xe6, 0xb1, 0x9e); (0xe6, 0x8b, 0xb1);
  (0xe8, 0xb4, 0xa1); (0xe5, 0x85, 0xb1); (0xe9, 0x92, 0xa9); (0xe5, 0x8b, 0xbe); (0xe6, 0xb2, 0x9f); (0xe8, 0x8b, 0x9f); (0xe7, 0x8b, 0x97); (0xe5, 0x9e, 0xa2);
  (0xe6, 0x9e, 0x84); (0xe8, 0xb4, 0xad); (0xe5, 0xa4, 0x9f); (0xe8, 0xbe, 0x9c); (0xe8, 0x8f, 0x87); (0xe5, 0x92, 0x95); (0xe7, 0xae, 0x8d); (0xe4, 0xbc, 0xb0);
  (0xe6, 0xb2, 0xbd); (0xe5, 0xad, 0xa4); (0xe5, 0xa7, 0x91); (0xe9, 0xbc, 0x93); (0xe5, 0x8f, 0xa4); (0xe8, 0x9b, 0x8a); (0xe9, 0xaa, 0xa8); (0xe8, 0xb0, 0xb7);
  (0xe8, 0x82, 0xa1); (0xe6, 0x95, 0x85); (0xe9, 0xa1, 0xbe); (0xe5, 0x9b, 0xba); (0xe9, 0x9b, 0x87); (0xe5, 0x88, 0xae); (0xe7, 0x93, 0x9c); (0xe5, 0x89, 0x90);
  (0xe5, 0xaf, 0xa1); (0xe6, 0x8c, 0x82); (0xe8, 0xa4, 0x82); (0xe4, 0xb9, 0x96); (0xe6, 0x8b, 0x90); (0xe6, 0x80, 0xaa); (0xe6, 0xa3, 0xba); (0xe5, 0x85, 0xb3);
  (0xe5, 0xae, 0x98); (0xe5, 0x86, 0xa0); (0xe8, 0xa7, 0x82); (0xe7, 0xae, 0xa1); (0xe9, 0xa6, 0x86); (0xe7, 0xbd, 0x90); (0xe6, 0x83, 0xaf); (0xe7, 0x81, 0x8c);
  (0xe8, 0xb4, 0xaf); (0xe5, 0x85, 0x89); (0xe5, 0xb9, 0xbf); (0xe9, 0x80, 0x9b); (0xe7, 0x91, 0xb0); (0xe8, 0xa7, 0x84); (0xe5, 0x9c, 0xad); (0xe7, 0xa1, 0x85);
  (0xe5, 0xbd, 0x92); (0xe9, 0xbe, 0x9f); (0xe9, 0x97, 0xba); (0xe8, 0xbd, 0xa8); (0xe9, 0xac, 0xbc); (0xe8, 0xaf, 0xa1); (0xe7, 0x99, 0xb8); (0xe6, 0xa1, 0x82);
  (0xe6, 0x9f, 0x9c); (0xe8, 0xb7, 0xaa); (0xe8, 0xb4, 0xb5); (0xe5, 0x88, 0xbd); (0xe8, 0xbe, 0x8a); (0xe6, 0xbb, 0x9a); (0xe6, 0xa3, 0x8d); (0xe9, 0x94, 0x85);
  (0xe9, 0x83, 0xad); (0xe5, 0x9b, 0xbd); (0xe6, 0x9e, 0x9c); (0xe8, 0xa3, 0xb9); (0xe8, 0xbf, 0x87); (0xe5, 0x93, 0x88)].

Definition utf8_rows_10 : list (Z * Z * Z) := [
  (0xe9, 0xaa, 0xb8); (0xe5, 0xad, 0xa9); (0xe6, 0xb5, 0xb7); (0xe6, 0xb0, 0xa6); (0xe4, 0xba, 0xa5); (0xe5, 0xae, 0xb3); (0xe9, 0xaa, 0x87); (0xe9, 0x85, 0xa3);
  (0xe6, 0x86, 0xa8); (0xe9, 0x82, 0xaf); (0xe9, 0x9f, 0xa9); (0xe5, 0x90, 0xab); (0xe6, 0xb6, 0xb5); (0xe5, 0xaf, 0x92); (0xe5, 0x87, 0xbd); (0xe5, 0x96, 0x8a);
  (0xe7, 0xbd, 0x95); (0xe7, 0xbf, 0xb0); (0xe6, 0x92, 0xbc); (0xe6, 0x8d, 0x8d); (0xe6, 0x97, 0xb1); (0xe6, 0x86, 0xbe); (0xe6, 0x82, 0x8d); (0xe7, 0x84, 0x8a);
  (0xe6, 0xb1, 0x97); (0xe6, 0xb1, 0x89); (0xe5, 0xa4, 0xaf); (0xe6, 0x9d, 0xad); (0xe8, 0x88, 0xaa); (0xe5, 0xa3, 0x95); (0xe5, 0x9a, 0x8e); (0xe8, 0xb1, 0xaa);
  (0xe6, 0xaf, 0xab); (0xe9, 0x83, 0x9d); (0xe5, 0xa5, 0xbd); (0xe8, 0x80, 0x97); (0xe5, 0x8f, 0xb7); (0xe6, 0xb5, 0xa9); (0xe5, 0x91, 0xb5); (0xe5, 0x96, 0x9d);
  (0xe8, 0x8d, 0xb7); (0xe8, 0x8f, 0x8f); (0xe6, 0xa0, 0xb8); (0xe7, 0xa6, 0xbe); (0xe5, 0x92, 0x8c); (0xe4, 0xbd, 0x95); (0xe5, 0x90, 0x88); (0xe7, 0x9b, 0x92);
  (0xe8, 0xb2, 0x89); (0xe9, 0x98, 0x82); (0xe6, 0xb2, 0xb3); (0xe6, 0xb6, 0xb8); (0xe8, 0xb5, 0xab); (0xe8, 0xa4, 0x90); (0xe9, 0xb9, 0xa4); (0xe8, 0xb4, 0xba);
  (0xe5, 0x98, 0xbf); (0xe9, 0xbb, 0x91); (0xe7, 0x97, 0x95); (0xe5, 0xbe, 0x88); (0xe7, 0x8b, 0xa0); (0xe6, 0x81, 0xa8); (0xe5, 0x93, 0xbc); (0xe4, 0xba, 0xa8);
  (0xe6, 0xa8, 0xaa); (0xe8, 0xa1, 0xa1); (0xe6, 0x81, 0x92); (0xe8, 0xbd, 0xb0); (0xe5, 0x93, 0x84); (0xe7, 0x83, 0x98); (0xe8, 0x99, 0xb9); (0xe9, 0xb8, 0xbf);
  (0xe6, 0xb4, 0xaa); (0xe5, 0xae, 0x8f); (0xe5, 0xbc, 0x98); (0xe7, 0xba, 0xa2); (0xe5, 0x96, 0x89); (0xe4, 0xbe, 0xaf); (0xe7, 0x8c, 0xb4); (0xe5, 0x90, 0xbc);
  (0xe5, 0x8e, 0x9a); (0xe5, 0x80, 0x99); (0xe5, 0x90, 0x8e); (0xe5, 0x91, 0xbc); (0xe4, 0xb9, 0x8e); (0xe5, 0xbf, 0xbd); (0xe7, 0x91, 0x9a); (0xe5, 0xa3, 0xb6);
  (0xe8, 0x91, 0xab); (0xe8, 0x83, 0xa1); (0xe8, 0x9d, 0xb4); (0xe7, 0x8b, 0x90); (0xe7, 0xb3, 0x8a); (0xe6, 0xb9, 0x96)].

Definition utf8_rows_11 : list (Z * Z * Z) := [
  (0xe5, 0xbc, 0xa7); (0xe8, 0x99, 0x8e); (0xe5, 0x94, 0xac); (0xe6, 0x8a, 0xa4); (0xe4, 0xba, 0x92); (0xe6, 0xb2, 0xaa); (0xe6, 0x88, 0xb7); (0xe8, 0x8a, 0xb1);
  (0xe5, 0x93, 0x97); (0xe5, 0x8d, 0x8e); (0xe7, 0x8c, 0xbe); (0xe6, 0xbb, 0x91); (0xe7, 0x94, 0xbb); (0xe5, 0x88, 0x92); (0xe5, 0x8c, 0x96); (0xe8, 0xaf, 0x9d);
  (0xe6, 0xa7, 0x90); (0xe5, 0xbe, 0x8a); (0xe6, 0x80, 0x80); (0xe6, 0xb7, 0xae); (0xe5, 0x9d, 0x8f); (0xe6, 0xac, 0xa2); (0xe7, 0x8e, 0xaf); (0xe6, 0xa1, 0x93);
  (0xe8, 0xbf, 0x98); (0xe7, 0xbc, 0x93); (0xe6, 0x8d, 0xa2); (0xe6, 0x82, 0xa3); (0xe5, 0x94, 0xa4); (0xe7, 0x97, 0xaa); (0xe8, 0xb1, 0xa2); (0xe7, 0x84, 0x95);
  (0xe6, 0xb6, 0xa3); (0xe5, 0xae, 0xa6); (0xe5, 0xb9, 0xbb); (0xe8, 0x8d, 0x92); (0xe6, 0x85, 0x8c); (0xe9, 0xbb, 0x84); (0xe7, 0xa3, 0xba); (0xe8, 0x9d, 0x97);
  (0xe7, 0xb0, 0xa7); (0xe7, 0x9a, 0x87); (0xe5, 0x87, 0xb0); (0xe6, 0x83, 0xb6); (0xe7, 0x85, 0x8c); (0xe6, 0x99, 0x83); (0xe5, 0xb9, 0x8c); (0xe6, 0x81, 0x8d);
  (0xe8, 0xb0, 0x8e); (0xe7, 0x81, 0xb0); (0xe6, 0x8c, 0xa5); (0xe8, 0xbe, 0x89); (0xe5, 0xbe, 0xbd); (0xe6, 0x81, 0xa2); (0xe8, 0x9b, 0x94); (0xe5, 0x9b, 0x9e);
  (0xe6, 0xaf, 0x81); (0xe6, 0x82, 0x94); (0xe6, 0x85, 0xa7); (0xe5, 0x8d, 0x89); (0xe6, 0x83, 0xa0); (0xe6, 0x99, 0xa6); (0xe8, 0xb4, 0xbf); (0xe7, 0xa7, 0xbd);
  (0xe4, 0xbc, 0x9a); (0xe7, 0x83, 0xa9); (0xe6, 0xb1, 0x87); (0xe8, 0xae, 0xb3); (0xe8, 0xaf, 0xb2); (0xe7, 0xbb, 0x98); (0xe8, 0x8d, 0xa4); (0xe6, 0x98, 0x8f);
  (0xe5, 0xa9, 0x9a); (0xe9, 0xad, 0x82); (0xe6, 0xb5, 0x91); (0xe6, 0xb7, 0xb7); (0xe8, 0xb1, 0x81); (0xe6, 0xb4, 0xbb); (0xe4, 0xbc, 0x99); (0xe7, 0x81, 0xab);
  (0xe8, 0x8e, 0xb7); (0xe6, 0x88, 0x96); (0xe6, 0x83, 0x91); (0xe9, 0x9c, 0x8d); (0xe8, 0xb4, 0xa7); (0xe7, 0xa5, 0xb8); (0xe5, 0x87, 0xbb); (0xe5, 0x9c, 0xbe);
  (0xe5, 0x9f, 0xba); (0xe6, 0x9c, 0xba); (0xe7, 0x95, 0xb8); (0xe7, 0xa8, 0xbd); (0xe7, 0xa7, 0xaf); (0xe7, 0xae, 0x95)].

Definition utf8_rows_12 : list (Z * Z * Z) := [
  (0xe8, 0x82, 0x8c); (0xe9, 0xa5, 0xa5); (0xe8, 0xbf, 0xb9); (0xe6, 0xbf, 0x80); (0xe8, 0xae, 0xa5); (0xe9, 0xb8, 0xa1); (0xe5, 0xa7, 0xac); (0xe7, 0xbb, 0xa9);
  (0xe7, 0xbc, 0x89); (0xe5, 0x90, 0x89); (0xe6, 0x9e, 0x81); (0xe6, 0xa3, 0x98); (0xe8, 0xbe, 0x91); (0xe7, 0xb1, 0x8d); (0xe9, 0x9b, 0x86); (0xe5, 0x8f, 0x8a);
  (0xe6, 0x80, 0xa5); (0xe7, 0x96, 0xbe); (0xe6, 0xb1, 0xb2); (0xe5, 0x8d, 0xb3); (0xe5, 0xab, 0x89); (0xe7, 0xba, 0xa7); (0xe6, 0x8c, 0xa4); (0xe5, 0x87, 0xa0);
  (0xe8, 0x84, 0x8a); (0xe5, 0xb7, 0xb1); (0xe8, 0x93, 0x9f); (0xe6, 0x8a, 0x80); (0xe5, 0x86, 0x80); (0xe5, 0xad, 0xa3); (0xe4, 0xbc, 0x8e); (0xe7, 0xa5, 0xad);
  (0xe5, 0x89, 0x82); (0xe6, 0x82, 0xb8); (0xe6, 0xb5, 0x8e); (0xe5, 0xaf, 0x84); (0xe5, 0xaf, 0x82); (0xe8, 0xae, 0xa1); (0xe8, 0xae, 0xb0); (0xe6, 0x97, 0xa2);
  (0xe5, 0xbf, 0x8c); (0xe9, 0x99, 0x85); (0xe5, 0xa6, 0x93); (0xe7, 0xbb, 0xa7); (0xe7, 0xba, 0xaa); (0xe5, 0x98, 0x89); (0xe6, 0x9e, 0xb7); (0xe5, 0xa4, 0xb9);
  (0xe4, 0xbd, 0xb3); (0xe5, 0xae, 0xb6); (0xe5, 0x8a, 0xa0); (0xe8, 0x8d, 0x9a); (0xe9, 0xa2, 0x8a); (0xe8, 0xb4, 0xbe); (0xe7, 0x94, 0xb2); (0xe9, 0x92, 0xbe);
  (0xe5, 0x81, 0x87); (0xe7, 0xa8, 0xbc); (0xe4, 0xbb, 0xb7); (0xe6, 0x9e, 0xb6); (0xe9, 0xa9, 0xbe); (0xe5, 0xab, 0x81); (0xe6, 0xad, 0xbc); (0xe7, 0x9b, 0x91);
  (0xe5, 0x9d, 0x9a); (0xe5, 0xb0, 0x96); (0xe7, 0xac, 0xba); (0xe9, 0x97, 0xb4); (0xe7, 0x85, 0x8e); (0xe5, 0x85, 0xbc); (0xe8, 0x82, 0xa9); (0xe8, 0x89, 0xb0);
  (0xe5, 0xa5, 0xb8); (0xe7, 0xbc, 0x84); (0xe8, 0x8c, 0xa7); (0xe6, 0xa3, 0x80); (0xe6, 0x9f, 0xac); (0xe7, 0xa2, 0xb1); (0xe7, 0xa1, 0xb7); (0xe6, 0x8b, 0xa3);
  (0xe6, 0x8d, 0xa1); (0xe7, 0xae, 0x80); (0xe4, 0xbf, 0xad); (0xe5, 0x89, 0xaa); (0xe5, 0x87, 0x8f); (0xe8, 0x8d, 0x90); (0xe6, 0xa7, 0x9b); (0xe9, 0x89, 0xb4);
  (0xe8, 0xb7, 0xb5); (0xe8, 0xb4, 0xb1); (0xe8, 0xa7, 0x81); (0xe9, 0x94, 0xae); (0xe7, 0xae, 0xad); (0xe4, 0xbb, 0xb6)].

Definition utf8_rows_13 : list (Z * Z * Z) := [
  (0xe5, 0x81, 0xa5); (0xe8, 0x88, 0xb0); (0xe5, 0x89, 0x91); (0xe9, 0xa5, 0xaf); (0xe6, 0xb8, 0x90); (0xe6, 0xba, 0x85); (0xe6, 0xb6, 0xa7); (0xe5, 0xbb, 0xba);
  (0xe5, 0x83, 0xb5); (0xe5, 0xa7, 0x9c); (0xe5, 0xb0, 0x86); (0xe6, 0xb5, 0x86); (0xe6, 0xb1, 0x9f); (0xe7, 0x96, 0x86); (0xe8, 0x92, 0x8b); (0xe6, 0xa1, 0xa8);
  (0xe5, 0xa5, 0x96); (0xe8, 0xae, 0xb2); (0xe5, 0x8c, 0xa0); (0xe9, 0x85, 0xb1); (0xe9, 0x99, 0x8d); (0xe8, 0x95, 0x89); (0xe6, 0xa4, 0x92); (0xe7, 0xa4, 0x81);
  (0xe7, 0x84, 0xa6); (0xe8, 0x83, 0xb6); (0xe4, 0xba, 0xa4); (0xe9, 0x83, 0x8a); (0xe6, 0xb5, 0x87); (0xe9, 0xaa, 0x84); (0xe5, 0xa8, 0x87); (0xe5, 0x9a, 0xbc);
  (0xe6, 0x90, 0x85); (0xe9, 0x93, 0xb0); (0xe7, 0x9f, 0xab); (0xe4, 0xbe, 0xa5); (0xe8, 0x84, 0x9a); (0xe7, 0x8b, 0xa1); (0xe8, 0xa7, 0x92); (0xe9, 0xa5, 0xba);
  (0xe7, 0xbc, 0xb4); (0xe7, 0xbb, 0x9e); (0xe5, 0x89, 0xbf); (0xe6, 0x95, 0x99); (0xe9, 0x85, 0xb5); (0xe8, 0xbd, 0xbf); (0xe8, 0xbe, 0x83); (0xe5, 0x8f, 0xab);
  (0xe7, 0xaa, 0x96); (0xe6, 0x8f, 0xad); (0xe6, 0x8e, 0xa5); (0xe7, 0x9a, 0x86); (0xe7, 0xa7, 0xb8); (0xe8, 0xa1, 0x97); (0xe9, 0x98, 0xb6); (0xe6, 0x88, 0xaa);
  (0xe5, 0x8a, 0xab); (0xe8, 0x8a, 0x82); (0xe6, 0xa1, 0x94); (0xe6, 0x9d, 0xb0); (0xe6, 0x8d, 0xb7); (0xe7, 0x9d, 0xab); (0xe7, 0xab, 0xad); (0xe6, 0xb4, 0x81);
  (0xe7, 0xbb, 0x93); (0xe8, 0xa7, 0xa3); (0xe5, 0xa7, 0x90); (0xe6, 0x88, 0x92); (0xe8, 0x97, 0x89); (0xe8, 0x8a, 0xa5); (0xe7, 0x95, 0x8c); (0xe5, 0x80, 0x9f);
  (0xe4, 0xbb, 0x8b); (0xe7, 0x96, 0xa5); (0xe8, 0xaf, 0xab); (0xe5, 0xb1, 0x8a); (0xe5, 0xb7, 0xbe); (0xe7, 0xad, 0x8b); (0xe6, 0x96, 0xa4); (0xe9, 0x87, 0x91);
  (0xe4, 0xbb, 0x8a); (0xe6, 0xb4, 0xa5); (0xe8, 0xa5, 0x9f); (0xe7, 0xb4, 0xa7); (0xe9, 0x94, 0xa6); (0xe4, 0xbb, 0x85); (0xe8, 0xb0, 0xa8); (0xe8, 0xbf, 0x9b);
  (0xe9, 0x9d, 0xb3); (0xe6, 0x99, 0x8b); (0xe7, 0xa6, 0x81); (0xe8, 0xbf, 0x91); (0xe7, 0x83, 0xac); (0xe6, 0xb5, 0xb8)].

Definition utf8_rows_14 : list (Z * Z * Z) := [
  (0xe5, 0xb0, 0xbd); (0xe5, 0x8a, 0xb2); (0xe8, 0x8d, 0x86); (0xe5, 0x85, 0xa2); (0xe8, 0x8c, 0x8e); (0xe7, 0x9d, 0x9b); (0xe6, 0x99, 0xb6); (0xe9, 0xb2, 0xb8);
  (0xe4, 0xba, 0xac); (0xe6, 0x83, 0x8a); (0xe7, 0xb2, 0xbe); (0xe7, 0xb2, 0xb3); (0xe7, 0xbb, 0x8f); (0xe4, 0xba, 0x95); (0xe8, 0xad, 0xa6); (0xe6, 0x99, 0xaf);
  (0xe9, 0xa2, 0x88); (0xe9, 0x9d, 0x99); (0xe5, 0xa2, 0x83); (0xe6, 0x95, 0xac); (0xe9, 0x95, 0x9c); (0xe5, 0xbe, 0x84); (0xe7, 0x97, 0x89); (0xe9, 0x9d, 0x96);
  (0xe7, 0xab, 0x9f); (0xe7, 0xab, 0x9e); (0xe5, 0x87, 0x80); (0xe7, 0x82, 0xaf); (0xe7, 0xaa, 0x98); (0xe6, 0x8f, 0xaa); (0xe7, 0xa9, 0xb6); (0xe7, 0xba, 0xa0);
  (0xe7, 0x8e, 0x96); (0xe9, 0x9f, 0xad); (0xe4, 0xb9, 0x85); (0xe7, 0x81, 0xb8); (0xe4, 0xb9, 0x9d); (0xe9, 0x85, 0x92); (0xe5, 0x8e, 0xa9); (0xe6, 0x95, 0x91);
  (0xe6, 0x97, 0xa7); (0xe8, 0x87, 0xbc); (0xe8, 0x88, 0x85); (0xe5, 0x92, 0x8e); (0xe5, 0xb0, 0xb1); (0xe7, 0x96, 0x9a); (0xe9, 0x9e, 0xa0); (0xe6, 0x8b, 0x98);
  (0xe7, 0x8b, 0x99); (0xe7, 0x96, 0xbd); (0xe5, 0xb1, 0x85); (0xe9, 0xa9, 0xb9); (0xe8, 0x8f, 0x8a); (0xe5, 0xb1, 0x80); (0xe5, 0x92, 0x80); (0xe7, 0x9f, 0xa9);
  (0xe4, 0xb8, 0xbe); (0xe6, 0xb2, 0xae); (0xe8, 0x81, 0x9a); (0xe6, 0x8b, 0x92); (0xe6, 0x8d, 0xae); (0xe5, 0xb7, 0xa8); (0xe5, 0x85, 0xb7); (0xe8, 0xb7, 0x9d);
  (0xe8, 0xb8, 0x9e); (0xe9, 0x94, 0xaf); (0xe4, 0xbf, 0xb1); (0xe5, 0x8f, 0xa5); (0xe6, 0x83, 0xa7); (0xe7, 0x82, 0xac); (0xe5, 0x89, 0xa7); (0xe6, 0x8d, 0x90);
  (0xe9, 0xb9, 0x83); (0xe5, 0xa8, 0x9f); (0xe5, 0x80, 0xa6); (0xe7, 0x9c, 0xb7); (0xe5, 0x8d, 0xb7); (0xe7, 0xbb, 0xa2); (0xe6, 0x92, 0x85); (0xe6, 0x94, 0xab);
  (0xe6, 0x8a, 0x89); (0xe6, 0x8e, 0x98); (0xe5, 0x80, 0x94); (0xe7, 0x88, 0xb5); (0xe8, 0xa7, 0x89); (0xe5, 0x86, 0xb3); (0xe8, 0xaf, 0x80); (0xe7, 0xbb, 0x9d);
  (0xe5, 0x9d, 0x87); (0xe8, 0x8f, 0x8c); (0xe9, 0x92, 0xa7); (0xe5, 0x86, 0x9b); (0xe5, 0x90, 0x9b); (0xe5, 0xb3, 0xbb)].

Definition utf8_rows_15 : list (Z * Z * Z) := [
  (0xe4, 0xbf, 0x8a); (0xe7, 0xab, 0xa3); (0xe6, 0xb5, 0x9a); (0xe9, 0x83, 0xa1); (0xe9, 0xaa, 0x8f); (0xe5, 0x96, 0x80); (0xe5, 0x92, 0x96); (0xe5, 0x8d, 0xa1);
  (0xe5, 0x92, 0xaf); (0xe5, 0xbc, 0x80); (0xe6, 0x8f, 0xa9); (0xe6, 0xa5, 0xb7); (0xe5, 0x87, 0xaf); (0xe6, 0x85, 0xa8); (0xe5, 0x88, 0x8a); (0xe5, 0xa0, 0xaa);
  (0xe5, 0x8b, 0x98); (0xe5, 0x9d, 0x8e); (0xe7, 0xa0, 0x8d); (0xe7, 0x9c, 0x8b); (0xe5, 0xba, 0xb7); (0xe6, 0x85, 0xb7); (0xe7, 0xb3, 0xa0); (0xe6, 0x89, 0x9b);
  (0xe6, 0x8a, 0x97); (0xe4, 0xba, 0xa2); (0xe7, 0x82, 0x95); (0xe8, 0x80, 0x83); (0xe6, 0x8b, 0xb7); (0xe7, 0x83, 0xa4); (0xe9, 0x9d, 0xa0); (0xe5, 0x9d, 0xb7);
  (0xe8, 0x8b, 0x9b); (0xe6, 0x9f, 0xaf); (0xe6, 0xa3, 0xb5); (0xe7, 0xa3, 0x95); (0xe9, 0xa2, 0x97); (0xe7, 0xa7, 0x91); (0xe5, 0xa3, 0xb3); (0xe5, 0x92, 0xb3);
  (0xe5, 0x8f, 0xaf); (0xe6, 0xb8, 0xb4); (0xe5, 0x85, 0x8b); (0xe5, 0x88, 0xbb); (0xe5, 0xae, 0xa2); (0xe8, 0xaf, 0xbe); (0xe8, 0x82, 0xaf); (0xe5, 0x95, 0x83);
  (0xe5, 0x9e, 0xa6); (0xe6, 0x81, 0xb3); (0xe5, 0x9d, 0x91); (0xe5, 0x90, 0xad); (0xe7, 0xa9, 0xba); (0xe6, 0x81, 0x90); (0xe5, 0xad, 0x94); (0xe6, 0x8e, 0xa7);
  (0xe6, 0x8a, 0xa0); (0xe5, 0x8f, 0xa3); (0xe6, 0x89, 0xa3); (0xe5, 0xaf, 0x87); (0xe6, 0x9e, 0xaf); (0xe5, 0x93, 0xad); (0xe7, 0xaa, 0x9f); (0xe8, 0x8b, 0xa6);
  (0xe9, 0x85, 0xb7); (0xe5, 0xba, 0x93); (0xe8, 0xa3, 0xa4); (0xe5, 0xa4, 0xb8); (0xe5, 0x9e, 0xae); (0xe6, 0x8c, 0x8e); (0xe8, 0xb7, 0xa8); (0xe8, 0x83, 0xaf);
  (0xe5, 0x9d, 0x97); (0xe7, 0xad, 0xb7); (0xe4, 0xbe, 0xa9); (0xe5, 0xbf, 0xab); (0xe5, 0xae, 0xbd); (0xe6, 0xac, 0xbe); (0xe5, 0x8c, 0xa1); (0xe7, 0xad, 0x90);
  (0xe7, 0x8b, 0x82); (0xe6, 0xa1, 0x86); (0xe7, 0x9f, 0xbf); (0xe7, 0x9c, 0xb6); (0xe6, 0x97, 0xb7); (0xe5, 0x86, 0xb5); (0xe4, 0xba, 0x8f); (0xe7, 0x9b, 0x94);
  (0xe5, 0xb2, 0xbf); (0xe7, 0xaa, 0xa5); (0xe8, 0x91, 0xb5); (0xe5, 0xa5, 0x8e); (0xe9, 0xad, 0x81); (0xe5, 0x82, 0x80)].

Definition utf8_rows_16 : list (Z * Z * Z) := [
  (0xe9, 0xa6, 0x88); (0xe6, 0x84, 0xa7); (0xe6, 0xba, 0x83); (0xe5, 0x9d, 0xa4); (0xe6, 0x98, 0x86); (0xe6, 0x8d, 0x86); (0xe5, 0x9b, 0xb0); (0xe6, 0x8b, 0xac);
  (0xe6, 0x89, 0xa9); (0xe5, 0xbb, 0x93); (0xe9, 0x98, 0x94); (0xe5, 0x9e, 0x83); (0xe6, 0x8b, 0x89); (0xe5, 0x96, 0x87); (0xe8, 0x9c, 0xa1); (0xe8, 0x85, 0x8a);
  (0xe8, 0xbe, 0xa3); (0xe5, 0x95, 0xa6); (0xe8, 0x8e, 0xb1); (0xe6, 0x9d, 0xa5); (0xe8, 0xb5, 0x96); (0xe8, 0x93, 0x9d); (0xe5, 0xa9, 0xaa); (0xe6, 0xa0, 0x8f);
  (0xe6, 0x8b, 0xa6); (0xe7, 0xaf, 0xae); (0xe9, 0x98, 0x91); (0xe5, 0x85, 0xb0); (0xe6, 0xbe, 0x9c); (0xe8, 0xb0, 0xb0); (0xe6, 0x8f, 0xbd); (0xe8, 0xa7, 0x88);
  (0xe6, 0x87, 0x92); (0xe7, 0xbc, 0x86); (0xe7, 0x83, 0x82); (0xe6, 0xbb, 0xa5); (0xe7, 0x90, 0x85); (0xe6, 0xa6, 0x94); (0xe7, 0x8b, 0xbc); (0xe5, 0xbb, 0x8a);
  (0xe9, 0x83, 0x8e); (0xe6, 0x9c, 0x97); (0xe6, 0xb5, 0xaa); (0xe6, 0x8d, 0x9e); (0xe5, 0x8a, 0xb3); (0xe7, 0x89, 0xa2); (0xe8, 0x80, 0x81); (0xe4, 0xbd, 0xac);
  (0xe5, 0xa7, 0xa5); (0xe9, 0x85, 0xaa); (0xe7, 0x83, 0x99); (0xe6, 0xb6, 0x9d); (0xe5, 0x8b, 0x92); (0xe4, 0xb9, 0x90); (0xe9, 0x9b, 0xb7); (0xe9, 0x95, 0xad);
  (0xe8, 0x95, 0xbe); (0xe7, 0xa3, 0x8a); (0xe7, 0xb4, 0xaf); (0xe5, 0x84, 0xa1); (0xe5, 0x9e, 0x92); (0xe6, 0x93, 0x82); (0xe8, 0x82, 0x8b); (0xe7, 0xb1, 0xbb);
  (0xe6, 0xb3, 0xaa); (0xe6, 0xa3, 0xb1); (0xe6, 0xa5, 0x9e); (0xe5, 0x86, 0xb7); (0xe5, 0x8e, 0x98); (0xe6, 0xa2, 0xa8); (0xe7, 0x8a, 0x81); (0xe9, 0xbb, 0x8e);
  (0xe7, 0xaf, 0xb1); (0xe7, 0x8b, 0xb8); (0xe7, 0xa6, 0xbb); (0xe6, 0xbc, 0x93); (0xe7, 0x90, 0x86); (0xe6, 0x9d, 0x8e); (0xe9, 0x87, 0x8c); (0xe9, 0xb2, 0xa4);
  (0xe7, 0xa4, 0xbc); (0xe8, 0x8e, 0x89); (0xe8, 0x8d, 0x94); (0xe5, 0x90, 0x8f); (0xe6, 0xa0, 0x97); (0xe4, 0xb8, 0xbd); (0xe5, 0x8e, 0x89); (0xe5, 0x8a, 0xb1);
  (0xe7, 0xa0, 0xbe); (0xe5, 0x8e, 0x86); (0xe5, 0x88, 0xa9); (0xe5, 0x82, 0x88); (0xe4, 0xbe, 0x8b); (0xe4, 0xbf, 0x90)].

Definition utf8_rows_17 : list (Z * Z * Z) := [
  (0xe7, 0x97, 0xa2); (0xe7, 0xab, 0x8b); (0xe7, 0xb2, 0x92); (0xe6, 0xb2, 0xa5); (0xe9, 0x9a, 0xb6); (0xe5, 0x8a, 0x9b); (0xe7, 0x92, 0x83); (0xe5, 0x93, 0xa9);
  (0xe4, 0xbf, 0xa9); (0xe8, 0x81, 0x94); (0xe8, 0x8e, 0xb2); (0xe8, 0xbf, 0x9e); (0xe9, 0x95, 0xb0); (0xe5, 0xbb, 0x89); (0xe6, 0x80, 0x9c); (0xe6, 0xb6, 0x9f);
  (0xe5, 0xb8, 0x98); (0xe6, 0x95, 0x9b); (0xe8, 0x84, 0xb8); (0xe9, 0x93, 0xbe); (0xe6, 0x81, 0x8b); (0xe7, 0x82, 0xbc); (0xe7, 0xbb, 0x83); (0xe7, 0xb2, 0xae);
  (0xe5, 0x87, 0x89); (0xe6, 0xa2, 0x81); (0xe7, 0xb2, 0xb1); (0xe8, 0x89, 0xaf); (0xe4, 0xb8, 0xa4); (0xe8, 0xbe, 0x86); (0xe9, 0x87, 0x8f); (0xe6, 0x99, 0xbe);
  (0xe4, 0xba, 0xae); (0xe8, 0xb0, 0x85); (0xe6, 0x92, 0xa9); (0xe8, 0x81, 0x8a); (0xe5, 0x83, 0x9a); (0xe7, 0x96, 0x97); (0xe7, 0x87, 0x8e); (0xe5, 0xaf, 0xa5);
  (0xe8, 0xbe, 0xbd); (0xe6, 0xbd, 0xa6); (0xe4, 0xba, 0x86); (0xe6, 0x92, 0x82); (0xe9, 0x95, 0xa3); (0xe5, 0xbb, 0x96); (0xe6, 0x96, 0x99); (0xe5, 0x88, 0x97);
  (0xe8, 0xa3, 0x82); (0xe7, 0x83, 0x88); (0xe5, 0x8a, 0xa3); (0xe7, 0x8c, 0x8e); (0xe7, 0x90, 0xb3); (0xe6, 0x9e, 0x97); (0xe7, 0xa3, 0xb7); (0xe9, 0x9c, 0x96);
  (0xe4, 0xb8, 0xb4); (0xe9, 0x82, 0xbb); (0xe9, 0xb3, 0x9e); (0xe6, 0xb7, 0x8b); (0xe5, 0x87, 0x9b); (0xe8, 0xb5, 0x81); (0xe5, 0x90, 0x9d); (0xe6, 0x8b, 0x8e);
  (0xe7, 0x8e, 0xb2); (0xe8, 0x8f, 0xb1); (0xe9, 0x9b, 0xb6); (0xe9, 0xbe, 0x84); (0xe9, 0x93, 0x83); (0xe4, 0xbc, 0xb6); (0xe7, 0xbe, 0x9a); (0xe5, 0x87, 0x8c);
  (0xe7, 0x81, 0xb5); (0xe9, 0x99, 0xb5); (0xe5, 0xb2, 0xad); (0xe9, 0xa2, 0x86); (0xe5, 0x8f, 0xa6); (0xe4, 0xbb, 0xa4); (0xe6, 0xba, 0x9c); (0xe7, 0x90, 0x89);
  (0xe6, 0xa6, 0xb4); (0xe7, 0xa1, 0xab); (0xe9, 0xa6, 0x8f); (0xe7, 0x95, 0x99); (0xe5, 0x88, 0x98); (0xe7, 0x98, 0xa4); (0xe6, 0xb5, 0x81); (0xe6, 0x9f, 0xb3);
  (0xe5, 0x85, 0xad); (0xe9, 0xbe, 0x99); (0xe8, 0x81, 0x8b); (0xe5, 0x92, 0x99); (0xe7, 0xac, 0xbc); (0xe7, 0xaa, 0xbf)].

Definition utf8_rows_18 : list (Z * Z * Z) := [
  (0xe9, 0x9a, 0x86); (0xe5, 0x9e, 0x84); (0xe6, 0x8b, 0xa2); (0xe9, 0x99, 0x87); (0xe6, 0xa5, 0xbc); (0xe5, 0xa8, 0x84); (0xe6, 0x90, 0x82); (0xe7, 0xaf, 0x93);
  (0xe6, 0xbc, 0x8f); (0xe9, 0x99, 0x8b); (0xe8, 0x8a, 0xa6); (0xe5, 0x8d, 0xa2); (0xe9, 0xa2, 0x85); (0xe5, 0xba, 0x90); (0xe7, 0x82, 0x89); (0xe6, 0x8e, 0xb3);
  (0xe5, 0x8d, 0xa4); (0xe8, 0x99, 0x8f); (0xe9, 0xb2, 0x81); (0xe9, 0xba, 0x93); (0xe7, 0xa2, 0x8c); (0xe9, 0x9c, 0xb2); (0xe8, 0xb7, 0xaf); (0xe8, 0xb5, 0x82);
  (0xe9, 0xb9, 0xbf); (0xe6, 0xbd, 0x9e); (0xe7, 0xa6, 0x84); (0xe5, 0xbd, 0x95); (0xe9, 0x99, 0x86); (0xe6, 0x88, 0xae); (0xe9, 0xa9, 0xb4); (0xe5, 0x90, 0x95);
  (0xe9, 0x93, 0x9d); (0xe4, 0xbe, 0xa3); (0xe6, 0x97, 0x85); (0xe5, 0xb1, 0xa5); (0xe5, 0xb1, 0xa1); (0xe7, 0xbc, 0x95); (0xe8, 0x99, 0x91); (0xe6, 0xb0, 0xaf);
  (0xe5, 0xbe, 0x8b); (0xe7, 0x8e, 0x87); (0xe6, 0xbb, 0xa4); (0xe7, 0xbb, 0xbf); (0xe5, 0xb3, 0xa6); (0xe6, 0x8c, 0x9b); (0xe5, 0xad, 0xaa); (0xe6, 0xbb, 0xa6);
  (0xe5, 0x8d, 0xb5); (0xe4, 0xb9, 0xb1); (0xe6, 0x8e, 0xa0); (0xe7, 0x95, 0xa5); (0xe6, 0x8a, 0xa1); (0xe8, 0xbd, 0xae); (0xe4, 0xbc, 0xa6); (0xe4, 0xbb, 0x91);
  (0xe6, 0xb2, 0xa6); (0xe7, 0xba, 0xb6); (0xe8, 0xae, 0xba); (0xe8, 0x90, 0x9d); (0xe8, 0x9e, 0xba); (0xe7, 0xbd, 0x97); (0xe9, 0x80, 0xbb); (0xe9, 0x94, 0xa3);
  (0xe7, 0xae, 0xa9); (0xe9, 0xaa, 0xa1); (0xe8, 0xa3, 0xb8); (0xe8, 0x90, 0xbd); (0xe6, 0xb4, 0x9b); (0xe9, 0xaa, 0x86); (0xe7, 0xbb, 0x9c); (0xe5, 0xa6, 0x88);
  (0xe9, 0xba, 0xbb); (0xe7, 0x8e, 0x9b); (0xe7, 0xa0, 0x81); (0xe8, 0x9a, 0x82); (0xe9, 0xa9, 0xac); (0xe9, 0xaa, 0x82); (0xe5, 0x98, 0x9b); (0xe5, 0x90, 0x97);
  (0xe5, 0x9f, 0x8b); (0xe4, 0xb9, 0xb0); (0xe9, 0xba, 0xa6); (0xe5, 0x8d, 0x96); (0xe8, 0xbf, 0x88); (0xe8, 0x84, 0x89); (0xe7, 0x9e, 0x92); (0xe9, 0xa6, 0x92);
  (0xe8, 0x9b, 0xae); (0xe6, 0xbb, 0xa1); (0xe8, 0x94, 0x93); (0xe6, 0x9b, 0xbc); (0xe6, 0x85, 0xa2); (0xe6, 0xbc, 0xab)].

Definition utf8_rows_19 : list (Z * Z * Z) := [
  (0xe8, 0xb0, 0xa9); (0xe8, 0x8a, 0x92); (0xe8, 0x8c, 0xab); (0xe7, 0x9b, 0xb2); (0xe6, 0xb0, 0x93); (0xe5, 0xbf, 0x99); (0xe8, 0x8e, 0xbd); (0xe7, 0x8c, 0xab);
  (0xe8, 0x8c, 0x85); (0xe9, 0x94, 0x9a); (0xe6, 0xaf, 0x9b); (0xe7, 0x9f, 0x9b); (0xe9, 0x93, 0x86); (0xe5, 0x8d, 0xaf); (0xe8, 0x8c, 0x82); (0xe5, 0x86, 0x92);
  (0xe5, 0xb8, 0xbd); (0xe8, 0xb2, 0x8c); (0xe8, 0xb4, 0xb8); (0xe4, 0xb9, 0x88); (0xe7, 0x8e, 0xab); (0xe6, 0x9e, 0x9a); (0xe6, 0xa2, 0x85); (0xe9, 0x85, 0xb6);
  (0xe9, 0x9c, 0x89); (0xe7, 0x85, 0xa4); (0xe6, 0xb2, 0xa1); (0xe7, 0x9c, 0x89); (0xe5, 0xaa, 0x92); (0xe9, 0x95, 0x81); (0xe6, 0xaf, 0x8f); (0xe7, 0xbe, 0x8e);
  (0xe6, 0x98, 0xa7); (0xe5, 0xaf, 0x90); (0xe5, 0xa6, 0xb9); (0xe5, 0xaa, 0x9a); (0xe9, 0x97, 0xa8); (0xe9, 0x97, 0xb7); (0xe4, 0xbb, 0xac); (0xe8, 0x90, 0x8c);
  (0xe8, 0x92, 0x99); (0xe6, 0xaa, 0xac); (0xe7, 0x9b, 0x9f); (0xe9, 0x94, 0xb0); (0xe7, 0x8c, 0x9b); (0xe6, 0xa2, 0xa6); (0xe5, 0xad, 0x9f); (0xe7, 0x9c, 0xaf);
  (0xe9, 0x86, 0x9a); (0xe9, 0x9d, 0xa1); (0xe7, 0xb3, 0x9c); (0xe8, 0xbf, 0xb7); (0xe8, 0xb0, 0x9c); (0xe5, 0xbc, 0xa5); (0xe7, 0xb1, 0xb3); (0xe7, 0xa7, 0x98);
  (0xe8, 0xa7, 0x85); (0xe6, 0xb3, 0x8c); (0xe8, 0x9c, 0x9c); (0xe5, 0xaf, 0x86); (0xe5, 0xb9, 0x82); (0xe6, 0xa3, 0x89); (0xe7, 0x9c, 0xa0); (0xe7, 0xbb, 0xb5);
  (0xe5, 0x86, 0x95); (0xe5, 0x85, 0x8d); (0xe5, 0x8b, 0x89); (0xe5, 0xa8, 0xa9); (0xe7, 0xbc, 0x85); (0xe9, 0x9d, 0xa2); (0xe8, 0x8b, 0x97); (0xe6, 0x8f, 0x8f);
  (0xe7, 0x9e, 0x84); (0xe8, 0x97, 0x90); (0xe7, 0xa7, 0x92); (0xe6, 0xb8, 0xba); (0xe5, 0xba, 0x99); (0xe5, 0xa6, 0x99); (0xe8, 0x94, 0x91); (0xe7, 0x81, 0xad);
  (0xe6, 0xb0, 0x91); (0xe6, 0x8a, 0xbf); (0xe7, 0x9a, 0xbf); (0xe6, 0x95, 0x8f); (0xe6, 0x82, 0xaf); (0xe9, 0x97, 0xbd); (0xe6, 0x98, 0x8e); (0xe8, 0x9e, 0x9f);
  (0xe9, 0xb8, 0xa3); (0xe9, 0x93, 0xad); (0xe5, 0x90, 0x8d); (0xe5, 0x91, 0xbd); (0xe8, 0xb0, 0xac); (0xe6, 0x91, 0xb8)].

Definition utf8_rows_20 : list (Z * Z * Z) := [
  (0xe6, 0x91, 0xb9); (0xe8, 0x98, 0x91); (0xe6, 0xa8, 0xa1); (0xe8, 0x86, 0x9c); (0xe7, 0xa3, 0xa8); (0xe6, 0x91, 0xa9); (0xe9, 0xad, 0x94); (0xe6, 0x8a, 0xb9);
  (0xe6, 0x9c, 0xab); (0xe8, 0x8e, 0xab); (0xe5, 0xa2, 0xa8); (0xe9, 0xbb, 0x98); (0xe6, 0xb2, 0xab); (0xe6, 0xbc, 0xa0); (0xe5, 0xaf, 0x9e); (0xe9, 0x99, 0x8c);
  (0xe8, 0xb0, 0x8b); (0xe7, 0x89, 0x9f); (0xe6, 0x9f, 0x90); (0xe6, 0x8b, 0x87); (0xe7, 0x89, 0xa1); (0xe4, 0xba, 0xa9); (0xe5, 0xa7, 0x86); (0xe6, 0xaf, 0x8d);
  (0xe5, 0xa2, 0x93); (0xe6, 0x9a, 0xae); (0xe5, 0xb9, 0x95); (0xe5, 0x8b, 0x9f); (0xe6, 0x85, 0x95); (0xe6, 0x9c, 0xa8); (0xe7, 0x9b, 0xae); (0xe7, 0x9d, 0xa6);
  (0xe7, 0x89, 0xa7); (0xe7, 0xa9, 0x86); (0xe6, 0x8b, 0xbf); (0xe5, 0x93, 0xaa); (0xe5, 0x91, 0x90); (0xe9, 0x92, 0xa0); (0xe9, 0x82, 0xa3); (0xe5, 0xa8, 0x9c);
  (0xe7, 0xba, 0xb3); (0xe6, 0xb0, 0x96); (0xe4, 0xb9, 0x83); (0xe5, 0xa5, 0xb6); (0xe8, 0x80, 0x90); (0xe5, 0xa5, 0x88); (0xe5, 0x8d, 0x97); (0xe7, 0x94, 0xb7);
  (0xe9, 0x9a, 0xbe); (0xe5, 0x9b, 0x8a); (0xe6, 0x8c, 0xa0); (0xe8, 0x84, 0x91); (0xe6, 0x81, 0xbc); (0xe9, 0x97, 0xb9); (0xe6, 0xb7, 0x96); (0xe5, 0x91, 0xa2);
  (0xe9, 0xa6, 0x81); (0xe5, 0x86, 0x85); (0xe5, 0xab, 0xa9); (0xe8, 0x83, 0xbd); (0xe5, 0xa6, 0xae); (0xe9, 0x9c, 0x93); (0xe5, 0x80, 0xaa); (0xe6, 0xb3, 0xa5);
  (0xe5, 0xb0, 0xbc); (0xe6, 0x8b, 0x9f); (0xe4, 0xbd, 0xa0); (0xe5, 0x8c, 0xbf); (0xe8, 0x85, 0xbb); (0xe9, 0x80, 0x86); (0xe6, 0xba, 0xba); (0xe8, 0x94, 0xab);
  (0xe6, 0x8b, 0x88); (0xe5, 0xb9, 0xb4); (0xe7, 0xa2, 0xbe); (0xe6, 0x92, 0xb5); (0xe6, 0x8d, 0xbb); (0xe5, 0xbf, 0xb5); (0xe5, 0xa8, 0x98); (0xe9, 0x85, 0xbf);
  (0xe9, 0xb8, 0x9f); (0xe5, 0xb0, 0xbf); (0xe6, 0x8d, 0x8f); (0xe8, 0x81, 0x82); (0xe5, 0xad, 0xbd); (0xe5, 0x95, 0xae); (0xe9, 0x95, 0x8a); (0xe9, 0x95, 0x8d);
  (0xe6, 0xb6, 0x85); (0xe6, 0x82, 0xa8); (0xe6, 0x9f, 0xa0); (0xe7, 0x8b, 0x9e); (0xe5, 0x87, 0x9d); (0xe5, 0xae, 0x81)].

Definition utf8_rows_21 : list (Z * Z * Z) := [
  (0xe6, 0x8b, 0xa7); (0xe6, 0xb3, 0x9e); (0xe7, 0x89, 0x9b); (0xe6, 0x89, 0xad); (0xe9, 0x92, 0xae); (0xe7, 0xba, 0xbd); (0xe8, 0x84, 0x93); (0xe6, 0xb5, 0x93);
  (0xe5, 0x86, 0x9c); (0xe5, 0xbc, 0x84); (0xe5, 0xa5, 0xb4); (0xe5, 0x8a, 0xaa); (0xe6, 0x80, 0x92); (0xe5, 0xa5, 0xb3); (0xe6, 0x9a, 0x96); (0xe8, 0x99, 0x90);
  (0xe7, 0x96, 0x9f); (0xe6, 0x8c, 0xaa); (0xe6, 0x87, 0xa6); (0xe7, 0xb3, 0xaf); (0xe8, 0xaf, 0xba); (0xe5, 0x93, 0xa6); (0xe6, 0xac, 0xa7); (0xe9, 0xb8, 0xa5);
  (0xe6, 0xae, 0xb4); (0xe8, 0x97, 0x95); (0xe5, 0x91, 0x95); (0xe5, 0x81, 0xb6); (0xe6, 0xb2, 0xa4); (0xe5, 0x95, 0xaa); (0xe8, 0xb6, 0xb4); (0xe7, 0x88, 0xac);
  (0xe5, 0xb8, 0x95); (0xe6, 0x80, 0x95); (0xe7, 0x90, 0xb6); (0xe6, 0x8b, 0x8d); (0xe6, 0x8e, 0x92); (0xe7, 0x89, 0x8c); (0xe5, 0xbe, 0x98); (0xe6, 0xb9, 0x83);
  (0xe6, 0xb4, 0xbe); (0xe6, 0x94, 0x80); (0xe6, 0xbd, 0x98); (0xe7, 0x9b, 0x98); (0xe7, 0xa3, 0x90); (0xe7, 0x9b, 0xbc); (0xe7, 0x95, 0x94); (0xe5, 0x88, 0xa4);
  (0xe5, 0x8f, 0x9b); (0xe4, 0xb9, 0x93); (0xe5, 0xba, 0x9e); (0xe6, 0x97, 0x81); (0xe8, 0x80, 0xaa); (0xe8, 0x83, 0x96); (0xe6, 0x8a, 0x9b); (0xe5, 0x92, 0x86);
  (0xe5, 0x88, 0xa8); (0xe7, 0x82, 0xae); (0xe8, 0xa2, 0x8d); (0xe8, 0xb7, 0x91); (0xe6, 0xb3, 0xa1); (0xe5, 0x91, 0xb8); (0xe8, 0x83, 0x9a); (0xe5, 0x9f, 0xb9);
  (0xe8, 0xa3, 0xb4); (0xe8, 0xb5, 0x94); (0xe9, 0x99, 0xaa); (0xe9, 0x85, 0x8d); (0xe4, 0xbd, 0xa9); (0xe6, 0xb2, 0x9b); (0xe5, 0x96, 0xb7); (0xe7, 0x9b, 0x86);
  (0xe7, 0xa0, 0xb0); (0xe6, 0x8a, 0xa8); (0xe7, 0x83, 0xb9); (0xe6, 0xbe, 0x8e); (0xe5, 0xbd, 0xad); (0xe8, 0x93, 0xac); (0xe6, 0xa3, 0x9a); (0xe7, 0xa1, 0xbc);
  (0xe7, 0xaf, 0xb7); (0xe8, 0x86, 0xa8); (0xe6, 0x9c, 0x8b); (0xe9, 0xb9, 0x8f); (0xe6, 0x8d, 0xa7); (0xe7, 0xa2, 0xb0); (0xe5, 0x9d, 0xaf); (0xe7, 0xa0, 0x92);
  (0xe9, 0x9c, 0xb9); (0xe6, 0x89, 0xb9); (0xe6, 0x8a, 0xab); (0xe5, 0x8a, 0x88); (0xe7, 0x90, 0xb5); (0xe6, 0xaf, 0x97)].

Definition utf8_rows_22 : list (Z * Z * Z) := [
  (0xe5, 0x95, 0xa4); (0xe8, 0x84, 0xbe); (0xe7, 0x96, 0xb2); (0xe7, 0x9a, 0xae); (0xe5, 0x8c, 0xb9); (0xe7, 0x97, 0x9e); (0xe5, 0x83, 0xbb); (0xe5, 0xb1, 0x81);
  (0xe8, 0xad, 0xac); (0xe7, 0xaf, 0x87); (0xe5, 0x81, 0x8f); (0xe7, 0x89, 0x87); (0xe9, 0xaa, 0x97); (0xe9, 0xa3, 0x98); (0xe6, 0xbc, 0x82); (0xe7, 0x93, 0xa2);
  (0xe7, 0xa5, 0xa8); (0xe6, 0x92, 0x87); (0xe7, 0x9e, 0xa5); (0xe6, 0x8b, 0xbc); (0xe9, 0xa2, 0x91); (0xe8, 0xb4, 0xab); (0xe5, 0x93, 0x81); (0xe8, 0x81, 0x98);
  (0xe4, 0xb9, 0x92); (0xe5, 0x9d, 0xaa); (0xe8, 0x8b, 0xb9); (0xe8, 0x90, 0x8d); (0xe5, 0xb9, 0xb3); (0xe5, 0x87, 0xad); (0xe7, 0x93, 0xb6); (0xe8, 0xaf, 0x84);
  (0xe5, 0xb1, 0x8f); (0xe5, 0x9d, 0xa1); (0xe6, 0xb3, 0xbc); (0xe9, 0xa2, 0x87); (0xe5, 0xa9, 0x86); (0xe7, 0xa0, 0xb4); (0xe9, 0xad, 0x84); (0xe8, 0xbf, 0xab);
  (0xe7, 0xb2, 0x95); (0xe5, 0x89, 0x96); (0xe6, 0x89, 0x91); (0xe9, 0x93, 0xba); (0xe4, 0xbb, 0x86); (0xe8, 0x8e, 0x86); (0xe8, 0x91, 0xa1); (0xe8, 0x8f, 0xa9);
  (0xe8, 0x92, 0xb2); (0xe5, 0x9f, 0x94); (0xe6, 0x9c, 0xb4); (0xe5, 0x9c, 0x83); (0xe6, 0x99, 0xae); (0xe6, 0xb5, 0xa6); (0xe8, 0xb0, 0xb1); (0xe6, 0x9b, 0x9d);
  (0xe7, 0x80, 0x91); (0xe6, 0x9c, 0x9f); (0xe6, 0xac, 0xba); (0xe6, 0xa0, 0x96); (0xe6, 0x88, 0x9a); (0xe5, 0xa6, 0xbb); (0xe4, 0xb8, 0x83); (0xe5, 0x87, 0x84);
  (0xe6, 0xbc, 0x86); (0xe6, 0x9f, 0x92); (0xe6, 0xb2, 0x8f); (0xe5, 0x85, 0xb6); (0xe6, 0xa3, 0x8b); (0xe5, 0xa5, 0x87); (0xe6, 0xad, 0xa7); (0xe7, 0x95, 0xa6);
  (0xe5, 0xb4, 0x8e); (0xe8, 0x84, 0x90); (0xe9, 0xbd, 0x90); (0xe6, 0x97, 0x97); (0xe7, 0xa5, 0x88); (0xe7, 0xa5, 0x81); (0xe9, 0xaa, 0x91); (0xe8, 0xb5, 0xb7);
  (0xe5, 0xb2, 0x82); (0xe4, 0xb9, 0x9e); (0xe4, 0xbc, 0x81); (0xe5, 0x90, 0xaf); (0xe5, 0xa5, 0x91); (0xe7, 0xa0, 0x8c); (0xe5, 0x99, 0xa8); (0xe6, 0xb0, 0x94);
  (0xe8, 0xbf, 0x84); (0xe5, 0xbc, 0x83); (0xe6, 0xb1, 0xbd); (0xe6, 0xb3, 0xa3); (0xe8, 0xae, 0xab); (0xe6, 0x8e, 0x90)].

Definition utf8_rows_23 : list (Z * Z * Z) := [
  (0xe6, 0x81, 0xb0); (0xe6, 0xb4, 0xbd); (0xe7, 0x89, 0xb5); (0xe6, 0x89, 0xa6); (0xe9, 0x92, 0x8e); (0xe9, 0x93, 0x85); (0xe5, 0x8d, 0x83); (0xe8, 0xbf, 0x81);
  (0xe7, 0xad, 0xbe); (0xe4, 0xbb, 0x9f); (0xe8, 0xb0, 0xa6); (0xe4, 0xb9, 0xbe); (0xe9, 0xbb, 0x94); (0xe9, 0x92, 0xb1); (0xe9, 0x92, 0xb3); (0xe5, 0x89, 0x8d);
  (0xe6, 0xbd, 0x9c); (0xe9, 0x81, 0xa3); (0xe6, 0xb5, 0x85); (0xe8, 0xb0, 0xb4); (0xe5, 0xa0, 0x91); (0xe5, 0xb5, 0x8c); (0xe6, 0xac, 0xa0); (0xe6, 0xad, 0x89);
  (0xe6, 0x9e, 0xaa); (0xe5, 0x91, 0x9b); (0xe8, 0x85, 0x94); (0xe7, 0xbe, 0x8c); (0xe5, 0xa2, 0x99); (0xe8, 0x94, 0xb7); (0xe5, 0xbc, 0xba); (0xe6, 0x8a, 0xa2);
  (0xe6, 0xa9, 0x87); (0xe9, 0x94, 0xb9); (0xe6, 0x95, 0xb2); (0xe6, 0x82, 0x84); (0xe6, 0xa1, 0xa5); (0xe7, 0x9e, 0xa7); (0xe4, 0xb9, 0x94); (0xe4, 0xbe, 0xa8);
  (0xe5, 0xb7, 0xa7); (0xe9, 0x9e, 0x98); (0xe6, 0x92, 0xac); (0xe7, 0xbf, 0x98); (0xe5, 0xb3, 0xad); (0xe4, 0xbf, 0x8f); (0xe7, 0xaa, 0x8d); (0xe5, 0x88, 0x87);
  (0xe8, 0x8c, 0x84); (0xe4, 0xb8, 0x94); (0xe6, 0x80, 0xaf); (0xe7, 0xaa, 0x83); (0xe9, 0x92, 0xa6); (0xe4, 0xbe, 0xb5); (0xe4, 0xba, 0xb2); (0xe7, 0xa7, 0xa6);
  (0xe7, 0x90, 0xb4); (0xe5, 0x8b, 0xa4); (0xe8, 0x8a, 0xb9); (0xe6, 0x93, 0x92); (0xe7, 0xa6, 0xbd); (0xe5, 0xaf, 0x9d); (0xe6, 0xb2, 0x81); (0xe9, 0x9d, 0x92);
  (0xe8, 0xbd, 0xbb); (0xe6, 0xb0, 0xa2); (0xe5, 0x80, 0xbe); (0xe5, 0x8d, 0xbf); (0xe6, 0xb8, 0x85); (0xe6, 0x93, 0x8e); (0xe6, 0x99, 0xb4); (0xe6, 0xb0, 0xb0);
  (0xe6, 0x83, 0x85); (0xe9, 0xa1, 0xb7); (0xe8, 0xaf, 0xb7); (0xe5, 0xba, 0x86); (0xe7, 0x90, 0xbc); (0xe7, 0xa9, 0xb7); (0xe7, 0xa7, 0x8b); (0xe4, 0xb8, 0x98);
  (0xe9, 0x82, 0xb1); (0xe7, 0x90, 0x83); (0xe6, 0xb1, 0x82); (0xe5, 0x9b, 0x9a); (0xe9, 0x85, 0x8b); (0xe6, 0xb3, 0x85); (0xe8, 0xb6, 0x8b); (0xe5, 0x8c, 0xba);
  (0xe8, 0x9b, 0x86); (0xe6, 0x9b, 0xb2); (0xe8, 0xba, 0xaf); (0xe5, 0xb1, 0x88); (0xe9, 0xa9, 0xb1); (0xe6, 0xb8, 0xa0)].

Definition utf8_rows_24 : list (Z * Z * Z) := [
  (0xe5, 0x8f, 0x96); (0xe5, 0xa8, 0xb6); (0xe9, 0xbe, 0x8b); (0xe8, 0xb6, 0xa3); (0xe5, 0x8e, 0xbb); (0xe5, 0x9c, 0x88); (0xe9, 0xa2, 0xa7); (0xe6, 0x9d, 0x83);
  (0xe9, 0x86, 0x9b); (0xe6, 0xb3, 0x89); (0xe5, 0x85, 0xa8); (0xe7, 0x97, 0x8a); (0xe6, 0x8b, 0xb3); (0xe7, 0x8a, 0xac); (0xe5, 0x88, 0xb8); (0xe5, 0x8a, 0x9d);
  (0xe7, 0xbc, 0xba); (0xe7, 0x82, 0x94); (0xe7, 0x98, 0xb8); (0xe5, 0x8d, 0xb4); (0xe9, 0xb9, 0x8a); (0xe6, 0xa6, 0xb7); (0xe7, 0xa1, 0xae); (0xe9, 0x9b, 0x80);
  (0xe8, 0xa3, 0x99); (0xe7, 0xbe, 0xa4); (0xe7, 0x84, 0xb6); (0xe7, 0x87, 0x83); (0xe5, 0x86, 0x89); (0xe6, 0x9f, 0x93); (0xe7, 0x93, 0xa4); (0xe5, 0xa3, 0xa4);
  (0xe6, 0x94, 0x98); (0xe5, 0x9a, 0xb7); (0xe8, 0xae, 0xa9); (0xe9, 0xa5, 0xb6); (0xe6, 0x89, 0xb0); (0xe7, 0xbb, 0x95); (0xe6, 0x83, 0xb9); (0xe7, 0x83, 0xad);
  (0xe5, 0xa3, 0xac); (0xe4, 0xbb, 0x81); (0xe4, 0xba, 0xba); (0xe5, 0xbf, 0x8d); (0xe9, 0x9f, 0xa7); (0xe4, 0xbb, 0xbb); (0xe8, 0xae, 0xa4); (0xe5, 0x88, 0x83);
  (0xe5, 0xa6, 0x8a); (0xe7, 0xba, 0xab); (0xe6, 0x89, 0x94); (0xe4, 0xbb, 0x8d); (0xe6, 0x97, 0xa5); (0xe6, 0x88, 0x8e); (0xe8, 0x8c, 0xb8); (0xe8, 0x93, 0x89);
  (0xe8, 0x8d, 0xa3); (0xe8, 0x9e, 0x8d); (0xe7, 0x86, 0x94); (0xe6, 0xba, 0xb6); (0xe5, 0xae, 0xb9); (0xe7, 0xbb, 0x92); (0xe5, 0x86, 0x97); (0xe6, 0x8f, 0x89);
  (0xe6, 0x9f, 0x94); (0xe8, 0x82, 0x89); (0xe8, 0x8c, 0xb9); (0xe8, 0xa0, 0x95); (0xe5, 0x84, 0x92); (0xe5, 0xad, 0xba); (0xe5, 0xa6, 0x82); (0xe8, 0xbe, 0xb1);
  (0xe4, 0xb9, 0xb3); (0xe6, 0xb1, 0x9d); (0xe5, 0x85, 0xa5); (0xe8, 0xa4, 0xa5); (0xe8, 0xbd, 0xaf); (0xe9, 0x98, 0xae); (0xe8, 0x95, 0x8a); (0xe7, 0x91, 0x9e);
  (0xe9, 0x94, 0x90); (0xe9, 0x97, 0xb0); (0xe6, 0xb6, 0xa6); (0xe8, 0x8b, 0xa5); (0xe5, 0xbc, 0xb1); (0xe6, 0x92, 0x92); (0xe6, 0xb4, 0x92); (0xe8, 0x90, 0xa8);
  (0xe8, 0x85, 0xae); (0xe9, 0xb3, 0x83); (0xe5, 0xa1, 0x9e); (0xe8, 0xb5, 0x9b); (0xe4, 0xb8, 0x89); (0xe5, 0x8f, 0x81)].

Definition utf8_rows_25 : list (Z * Z * Z) := [
  (0xe4, 0xbc, 0x9e); (0xe6, 0x95, 0xa3); (0xe6, 0xa1, 0x91); (0xe5, 0x97, 0x93); (0xe4, 0xb8, 0xa7); (0xe6, 0x90, 0x94); (0xe9, 0xaa, 0x9a); (0xe6, 0x89, 0xab);
  (0xe5, 0xab, 0x82); (0xe7, 0x91, 0x9f); (0xe8, 0x89, 0xb2); (0xe6, 0xb6, 0xa9); (0xe6, 0xa3, 0xae); (0xe5, 0x83, 0xa7); (0xe8, 0x8e, 0x8e); (0xe7, 0xa0, 0x82);
  (0xe6, 0x9d, 0x80); (0xe5, 0x88, 0xb9); (0xe6, 0xb2, 0x99); (0xe7, 0xba, 0xb1); (0xe5, 0x82, 0xbb); (0xe5, 0x95, 0xa5); (0xe7, 0x85, 0x9e); (0xe7, 0xad, 0x9b);
  (0xe6, 0x99, 0x92); (0xe7, 0x8f, 0x8a); (0xe8, 0x8b, 0xab); (0xe6, 0x9d, 0x89); (0xe5, 0xb1, 0xb1); (0xe5, 0x88, 0xa0); (0xe7, 0x85, 0xbd); (0xe8, 0xa1, 0xab);
  (0xe9, 0x97, 0xaa); (0xe9, 0x99, 0x95); (0xe6, 0x93, 0x85); (0xe8, 0xb5, 0xa1); (0xe8, 0x86, 0xb3); (0xe5, 0x96, 0x84); (0xe6, 0xb1, 0x95); (0xe6, 0x89, 0x87);
  (0xe7, 0xbc, 0xae); (0xe5, 0xa2, 0x92); (0xe4, 0xbc, 0xa4); (0xe5, 0x95, 0x86); (0xe8, 0xb5, 0x8f); (0xe6, 0x99, 0x8c); (0xe4, 0xb8, 0x8a); (0xe5, 0xb0, 0x9a);
  (0xe8, 0xa3, 0xb3); (0xe6, 0xa2, 0xa2); (0xe6, 0x8d, 0x8e); (0xe7, 0xa8, 0x8d); (0xe7, 0x83, 0xa7); (0xe8, 0x8a, 0x8d); (0xe5, 0x8b, 0xba); (0xe9, 0x9f, 0xb6);
  (0xe5, 0xb0, 0x91); (0xe5, 0x93, 0xa8); (0xe9, 0x82, 0xb5); (0xe7, 0xbb, 0x8d); (0xe5, 0xa5, 0xa2); (0xe8, 0xb5, 0x8a); (0xe8, 0x9b, 0x87); (0xe8, 0x88, 0x8c);
  (0xe8, 0x88, 0x8d); (0xe8, 0xb5, 0xa6); (0xe6, 0x91, 0x84); (0xe5, 0xb0, 0x84); (0xe6, 0x85, 0x91); (0xe6, 0xb6, 0x89); (0xe7, 0xa4, 0xbe); (0xe8, 0xae, 0xbe);
  (0xe7, 0xa0, 0xb7); (0xe7, 0x94, 0xb3); (0xe5, 0x91, 0xbb); (0xe4, 0xbc, 0xb8); (0xe8, 0xba, 0xab); (0xe6, 0xb7, 0xb1); (0xe5, 0xa8, 0xa0); (0xe7, 0xbb, 0x85);
  (0xe7, 0xa5, 0x9e); (0xe6, 0xb2, 0x88); (0xe5, 0xae, 0xa1); (0xe5, 0xa9, 0xb6); (0xe7, 0x94, 0x9a); (0xe8, 0x82, 0xbe); (0xe6, 0x85, 0x8e); (0xe6, 0xb8, 0x97);
  (0xe5, 0xa3, 0xb0); (0xe7, 0x94, 0x9f); (0xe7, 0x94, 0xa5); (0xe7, 0x89, 0xb2); (0xe5, 0x8d, 0x87); (0xe7, 0xbb, 0xb3)].

Definition utf8_rows_26 : list (Z * Z * Z) := [
  (0xe7, 0x9c, 0x81); (0xe7, 0x9b, 0x9b); (0xe5, 0x89, 0xa9); (0xe8, 0x83, 0x9c); (0xe5, 0x9c, 0xa3); (0xe5, 0xb8, 0x88); (0xe5, 0xa4, 0xb1); (0xe7, 0x8b, 0xae);
  (0xe6, 0x96, 0xbd); (0xe6, 0xb9, 0xbf); (0xe8, 0xaf, 0x97); (0xe5, 0xb0, 0xb8); (0xe8, 0x99, 0xb1); (0xe5, 0x8d, 0x81); (0xe7, 0x9f, 0xb3); (0xe6, 0x8b, 0xbe);
  (0xe6, 0x97, 0xb6); (0xe4, 0xbb, 0x80); (0xe9, 0xa3, 0x9f); (0xe8, 0x9a, 0x80); (0xe5, 0xae, 0x9e); (0xe8, 0xaf, 0x86); (0xe5, 0x8f, 0xb2); (0xe7, 0x9f, 0xa2);
  (0xe4, 0xbd, 0xbf); (0xe5, 0xb1, 0x8e); (0xe9, 0xa9, 0xb6); (0xe5, 0xa7, 0x8b); (0xe5, 0xbc, 0x8f); (0xe7, 0xa4, 0xba); (0xe5, 0xa3, 0xab); (0xe4, 0xb8, 0x96);
  (0xe6, 0x9f, 0xbf); (0xe4, 0xba, 0x8b); (0xe6, 0x8b, 0xad); (0xe8, 0xaa, 0x93); (0xe9, 0x80, 0x9d); (0xe5, 0x8a, 0xbf); (0xe6, 0x98, 0xaf); (0xe5, 0x97, 0x9c);
  (0xe5, 0x99, 0xac); (0xe9, 0x80, 0x82); (0xe4, 0xbb, 0x95); (0xe4, 0xbe, 0x8d); (0xe9, 0x87, 0x8a); (0xe9, 0xa5, 0xb0); (0xe6, 0xb0, 0x8f); (0xe5, 0xb8, 0x82);
  (0xe6, 0x81, 0x83); (0xe5, 0xae, 0xa4); (0xe8, 0xa7, 0x86); (0xe8, 0xaf, 0x95); (0xe6, 0x94, 0xb6); (0xe6, 0x89, 0x8b); (0xe9, 0xa6, 0x96); (0xe5, 0xae, 0x88);
  (0xe5, 0xaf, 0xbf); (0xe6, 0x8e, 0x88); (0xe5, 0x94, 0xae); (0xe5, 0x8f, 0x97); (0xe7, 0x98, 0xa6); (0xe5, 0x85, 0xbd); (0xe8, 0x94, 0xac); (0xe6, 0x9e, 0xa2);
  (0xe6, 0xa2, 0xb3); (0xe6, 0xae, 0x8a); (0xe6, 0x8a, 0x92); (0xe8, 0xbe, 0x93); (0xe5, 0x8f, 0x94); (0xe8, 0x88, 0x92); (0xe6, 0xb7, 0x91); (0xe7, 0x96, 0x8f);
  (0xe4, 0xb9, 0xa6); (0xe8, 0xb5, 0x8e); (0xe5, 0xad, 0xb0); (0xe7, 0x86, 0x9f); (0xe8, 0x96, 0xaf); (0xe6, 0x9a, 0x91); (0xe6, 0x9b, 0x99); (0xe7, 0xbd, 0xb2);
  (0xe8, 0x9c, 0x80); (0xe9, 0xbb, 0x8d); (0xe9, 0xbc, 0xa0); (0xe5, 0xb1, 0x9e); (0xe6, 0x9c, 0xaf); (0xe8, 0xbf, 0xb0); (0xe6, 0xa0, 0x91); (0xe6, 0x9d, 0x9f);
  (0xe6, 0x88, 0x8d); (0xe7, 0xab, 0x96); (0xe5, 0xa2, 0x85); (0xe5, 0xba, 0xb6); (0xe6, 0x95, 0xb0); (0xe6, 0xbc, 0xb1)].

Definition utf8_rows_27 : list (Z * Z * Z) := [
  (0xe6, 0x81, 0x95); (0xe5, 0x88, 0xb7); (0xe8, 0x80, 0x8d); (0xe6, 0x91, 0x94); (0xe8, 0xa1, 0xb0); (0xe7, 0x94, 0xa9); (0xe5, 0xb8, 0x85); (0xe6, 0xa0, 0x93);
  (0xe6, 0x8b, 0xb4); (0xe9, 0x9c, 0x9c); (0xe5, 0x8f, 0x8c); (0xe7, 0x88, 0xbd); (0xe8, 0xb0, 0x81); (0xe6, 0xb0, 0xb4); (0xe7, 0x9d, 0xa1); (0xe7, 0xa8, 0x8e);
  (0xe5, 0x90, 0xae); (0xe7, 0x9e, 0xac); (0xe9, 0xa1, 0xba); (0xe8, 0x88, 0x9c); (0xe8, 0xaf, 0xb4); (0xe7, 0xa1, 0x95); (0xe6, 0x9c, 0x94); (0xe7, 0x83, 0x81);
  (0xe6, 0x96, 0xaf); (0xe6, 0x92, 0x95); (0xe5, 0x98, 0xb6); (0xe6, 0x80, 0x9d); (0xe7, 0xa7, 0x81); (0xe5, 0x8f, 0xb8); (0xe4, 0xb8, 0x9d); (0xe6, 0xad, 0xbb);
  (0xe8, 0x82, 0x86); (0xe5, 0xaf, 0xba); (0xe5, 0x97, 0xa3); (0xe5, 0x9b, 0x9b); (0xe4, 0xbc, 0xba); (0xe4, 0xbc, 0xbc); (0xe9, 0xa5, 0xb2); (0xe5, 0xb7, 0xb3);
  (0xe6, 0x9d, 0xbe); (0xe8, 0x80, 0xb8); (0xe6, 0x80, 0x82); (0xe9, 0xa2, 0x82); (0xe9, 0x80, 0x81); (0xe5, 0xae, 0x8b); (0xe8, 0xae, 0xbc); (0xe8, 0xaf, 0xb5);
  (0xe6, 0x90, 0x9c); (0xe8, 0x89, 0x98); (0xe6, 0x93, 0x9e); (0xe5, 0x97, 0xbd); (0xe8, 0x8b, 0x8f); (0xe9, 0x85, 0xa5); (0xe4, 0xbf, 0x97); (0xe7, 0xb4, 0xa0);
  (0xe9, 0x80, 0x9f); (0xe7, 0xb2, 0x9f); (0xe5, 0x83, 0xb3); (0xe5, 0xa1, 0x91); (0xe6, 0xba, 0xaf); (0xe5, 0xae, 0xbf); (0xe8, 0xaf, 0x89); (0xe8, 0x82, 0x83);
  (0xe9, 0x85, 0xb8); (0xe8, 0x92, 0x9c); (0xe7, 0xae, 0x97); (0xe8, 0x99, 0xbd); (0xe9, 0x9a, 0x8b); (0xe9, 0x9a, 0x8f); (0xe7, 0xbb, 0xa5); (0xe9, 0xab, 0x93);
  (0xe7, 0xa2, 0x8e); (0xe5, 0xb2, 0x81); (0xe7, 0xa9, 0x97); (0xe9, 0x81, 0x82); (0xe9, 0x9a, 0xa7); (0xe7, 0xa5, 0x9f); (0xe5, 0xad, 0x99); (0xe6, 0x8d, 0x9f);
  (0xe7, 0xac, 0x8b); (0xe8, 0x93, 0x91); (0xe6, 0xa2, 0xad); (0xe5, 0x94, 0x86); (0xe7, 0xbc, 0xa9); (0xe7, 0x90, 0x90); (0xe7, 0xb4, 0xa2); (0xe9, 0x94, 0x81);
  (0xe6, 0x89, 0x80); (0xe5, 0xa1, 0x8c); (0xe4, 0xbb, 0x96); (0xe5, 0xae, 0x83); (0xe5, 0xa5, 0xb9); (0xe5, 0xa1, 0x94)].

Definition utf8_rows_28 : list (Z * Z * Z) := [
  (0xe7, 0x8d, 0xad); (0xe6, 0x8c, 0x9e); (0xe8, 0xb9, 0x8b); (0xe8, 0xb8, 0x8f); (0xe8, 0x83, 0x8e); (0xe8, 0x8b, 0x94); (0xe6, 0x8a, 0xac); (0xe5, 0x8f, 0xb0);
  (0xe6, 0xb3, 0xb0); (0xe9, 0x85, 0x9e); (0xe5, 0xa4, 0xaa); (0xe6, 0x80, 0x81); (0xe6, 0xb1, 0xb0); (0xe5, 0x9d, 0x8d); (0xe6, 0x91, 0x8a); (0xe8, 0xb4, 0xaa);
  (0xe7, 0x98, 0xab); (0xe6, 0xbb, 0xa9); (0xe5, 0x9d, 0x9b); (0xe6, 0xaa, 0x80); (0xe7, 0x97, 0xb0); (0xe6, 0xbd, 0xad); (0xe8, 0xb0, 0xad); (0xe8, 0xb0, 0x88);
  (0xe5, 0x9d, 0xa6); (0xe6, 0xaf, 0xaf); (0xe8, 0xa2, 0x92); (0xe7, 0xa2, 0xb3); (0xe6, 0x8e, 0xa2); (0xe5, 0x8f, 0xb9); (0xe7, 0x82, 0xad); (0xe6, 0xb1, 0xa4);
  (0xe5, 0xa1, 0x98); (0xe6, 0x90, 0xaa); (0xe5, 0xa0, 0x82); (0xe6, 0xa3, 0xa0); (0xe8, 0x86, 0x9b); (0xe5, 0x94, 0x90); (0xe7, 0xb3, 0x96); (0xe5, 0x80, 0x98);
  (0xe8, 0xba, 0xba); (0xe6, 0xb7, 0x8c); (0xe8, 0xb6, 0x9f); (0xe7, 0x83, 0xab); (0xe6, 0x8e, 0x8f); (0xe6, 0xb6, 0x9b); (0xe6, 0xbb, 0x94); (0xe7, 0xbb, 0xa6);
  (0xe8, 0x90, 0x84); (0xe6, 0xa1, 0x83); (0xe9, 0x80, 0x83); (0xe6, 0xb7, 0x98); (0xe9, 0x99, 0xb6); (0xe8, 0xae, 0xa8); (0xe5, 0xa5, 0x97); (0xe7, 0x89, 0xb9);
  (0xe8, 0x97, 0xa4); (0xe8, 0x85, 0xbe); (0xe7, 0x96, 0xbc); (0xe8, 0xaa, 0x8a); (0xe6, 0xa2, 0xaf); (0xe5, 0x89, 0x94); (0xe8, 0xb8, 0xa2); (0xe9, 0x94, 0x91);
  (0xe6, 0x8f, 0x90); (0xe9, 0xa2, 0x98); (0xe8, 0xb9, 0x84); (0xe5, 0x95, 0xbc); (0xe4, 0xbd, 0x93); (0xe6, 0x9b, 0xbf); (0xe5, 0x9a, 0x8f); (0xe6, 0x83, 0x95);
  (0xe6, 0xb6, 0x95); (0xe5, 0x89, 0x83); (0xe5, 0xb1, 0x89); (0xe5, 0xa4, 0xa9); (0xe6, 0xb7, 0xbb); (0xe5, 0xa1, 0xab); (0xe7, 0x94, 0xb0); (0xe7, 0x94, 0x9c);
  (0xe6, 0x81, 0xac); (0xe8, 0x88, 0x94); (0xe8, 0x85, 0x86); (0xe6, 0x8c, 0x91); (0xe6, 0x9d, 0xa1); (0xe8, 0xbf, 0xa2); (0xe7, 0x9c, 0xba); (0xe8, 0xb7, 0xb3);
  (0xe8, 0xb4, 0xb4); (0xe9, 0x93, 0x81); (0xe5, 0xb8, 0x96); (0xe5, 0x8e, 0x85); (0xe5, 0x90, 0xac); (0xe7, 0x83, 0x83)].

Definition utf8_rows_29 : list (Z * Z * Z) := [
  (0xe6, 0xb1, 0x80); (0xe5, 0xbb, 0xb7); (0xe5, 0x81, 0x9c); (0xe4, 0xba, 0xad); (0xe5, 0xba, 0xad); (0xe6, 0x8c, 0xba); (0xe8, 0x89, 0x87); (0xe9, 0x80, 0x9a);
  (0xe6, 0xa1, 0x90); (0xe9, 0x85, 0xae); (0xe7, 0x9e, 0xb3); (0xe5, 0x90, 0x8c); (0xe9, 0x93, 0x9c); (0xe5, 0xbd, 0xa4); (0xe7, 0xab, 0xa5); (0xe6, 0xa1, 0xb6);
  (0xe6, 0x8d, 0x85); (0xe7, 0xad, 0x92); (0xe7, 0xbb, 0x9f); (0xe7, 0x97, 0x9b); (0xe5, 0x81, 0xb7); (0xe6, 0x8a, 0x95); (0xe5, 0xa4, 0xb4); (0xe9, 0x80, 0x8f);
  (0xe5, 0x87, 0xb8); (0xe7, 0xa7, 0x83); (0xe7, 0xaa, 0x81); (0xe5, 0x9b, 0xbe); (0xe5, 0xbe, 0x92); (0xe9, 0x80, 0x94); (0xe6, 0xb6, 0x82); (0xe5, 0xb1, 0xa0);
  (0xe5, 0x9c, 0x9f); (0xe5, 0x90, 0x90); (0xe5, 0x85, 0x94); (0xe6, 0xb9, 0x8d); (0xe5, 0x9b, 0xa2); (0xe6, 0x8e, 0xa8); (0xe9, 0xa2, 0x93); (0xe8, 0x85, 0xbf);
  (0xe8, 0x9c, 0x95); (0xe8, 0xa4, 0xaa); (0xe9, 0x80, 0x80); (0xe5, 0x90, 0x9e); (0xe5, 0xb1, 0xaf); (0xe8, 0x87, 0x80); (0xe6, 0x8b, 0x96); (0xe6, 0x89, 0x98);
  (0xe8, 0x84, 0xb1); (0xe9, 0xb8, 0xb5); (0xe9, 0x99, 0x80); (0xe9, 0xa9, 0xae); (0xe9, 0xa9, 0xbc); (0xe6, 0xa4, 0xad); (0xe5, 0xa6, 0xa5); (0xe6, 0x8b, 0x93);
  (0xe5, 0x94, 0xbe); (0xe6, 0x8c, 0x96); (0xe5, 0x93, 0x87); (0xe8, 0x9b, 0x99); (0xe6, 0xb4, 0xbc); (0xe5, 0xa8, 0x83); (0xe7, 0x93, 0xa6); (0xe8, 0xa2, 0x9c);
  (0xe6, 0xad, 0xaa); (0xe5, 0xa4, 0x96); (0xe8, 0xb1, 0x8c); (0xe5, 0xbc, 0xaf); (0xe6, 0xb9, 0xbe); (0xe7, 0x8e, 0xa9); (0xe9, 0xa1, 0xbd); (0xe4, 0xb8, 0xb8);
  (0xe7, 0x83, 0xb7); (0xe5, 0xae, 0x8c); (0xe7, 0xa2, 0x97); (0xe6, 0x8c, 0xbd); (0xe6, 0x99, 0x9a); (0xe7, 0x9a, 0x96); (0xe6, 0x83, 0x8b); (0xe5, 0xae, 0x9b);
  (0xe5, 0xa9, 0x89); (0xe4, 0xb8, 0x87); (0xe8, 0x85, 0x95); (0xe6, 0xb1, 0xaa); (0xe7, 0x8e, 0x8b); (0xe4, 0xba, 0xa1); (0xe6, 0x9e, 0x89); (0xe7, 0xbd, 0x91);
  (0xe5, 0xbe, 0x80); (0xe6, 0x97, 0xba); (0xe6, 0x9c, 0x9b); (0xe5, 0xbf, 0x98); (0xe5, 0xa6, 0x84); (0xe5, 0xa8, 0x81)].

Definition utf8_rows_30 : list (Z * Z * Z) := [
  (0xe5, 0xb7, 0x8d); (0xe5, 0xbe, 0xae); (0xe5, 0x8d, 0xb1); (0xe9, 0x9f, 0xa6); (0xe8, 0xbf, 0x9d); (0xe6, 0xa1, 0x85); (0xe5, 0x9b, 0xb4); (0xe5, 0x94, 0xaf);
  (0xe6, 0x83, 0x9f); (0xe4, 0xb8, 0xba); (0xe6, 0xbd, 0x8d); (0xe7, 0xbb, 0xb4); (0xe8, 0x8b, 0x87); (0xe8, 0x90, 0x8e); (0xe5, 0xa7, 0x94); (0xe4, 0xbc, 0x9f);
  (0xe4, 0xbc, 0xaa); (0xe5, 0xb0, 0xbe); (0xe7, 0xba, 0xac); (0xe6, 0x9c, 0xaa); (0xe8, 0x94, 0x9a); (0xe5, 0x91, 0xb3); (0xe7, 0x95, 0x8f); (0xe8, 0x83, 0x83);
  (0xe5, 0x96, 0x82); (0xe9, 0xad, 0x8f); (0xe4, 0xbd, 0x8d); (0xe6, 0xb8, 0xad); (0xe8, 0xb0, 0x93); (0xe5, 0xb0, 0x89); (0xe6, 0x85, 0xb0); (0xe5, 0x8d, 0xab);
  (0xe7, 0x98, 0x9f); (0xe6, 0xb8, 0xa9); (0xe8, 0x9a, 0x8a); (0xe6, 0x96, 0x87); (0xe9, 0x97, 0xbb); (0xe7, 0xba, 0xb9); (0xe5, 0x90, 0xbb); (0xe7, 0xa8, 0xb3);
  (0xe7, 0xb4, 0x8a); (0xe9, 0x97, 0xae); (0xe5, 0x97, 0xa1); (0xe7, 0xbf, 0x81); (0xe7, 0x93, 0xae); (0xe6, 0x8c, 0x9d); (0xe8, 0x9c, 0x97); (0xe6, 0xb6, 0xa1);
  (0xe7, 0xaa, 0x9d); (0xe6, 0x88, 0x91); (0xe6, 0x96, 0xa1); (0xe5, 0x8d, 0xa7); (0xe6, 0x8f, 0xa1); (0xe6, 0xb2, 0x83); (0xe5, 0xb7, 0xab); (0xe5, 0x91, 0x9c);
  (0xe9, 0x92, 0xa8); (0xe4, 0xb9, 0x8c); (0xe6, 0xb1, 0xa1); (0xe8, 0xaf, 0xac); (0xe5, 0xb1, 0x8b); (0xe6, 0x97, 0xa0); (0xe8, 0x8a, 0x9c); (0xe6, 0xa2, 0xa7);
  (0xe5, 0x90, 0xbe); (0xe5, 0x90, 0xb4); (0xe6, 0xaf, 0x8b); (0xe6, 0xad, 0xa6); (0xe4, 0xba, 0x94); (0xe6, 0x8d, 0x82); (0xe5, 0x8d, 0x88); (0xe8, 0x88, 0x9e);
  (0xe4, 0xbc, 0x8d); (0xe4, 0xbe, 0xae); (0xe5, 0x9d, 0x9e); (0xe6, 0x88, 0x8a); (0xe9, 0x9b, 0xbe); (0xe6, 0x99, 0xa4); (0xe7, 0x89, 0xa9); (0xe5, 0x8b, 0xbf);
  (0xe5, 0x8a, 0xa1); (0xe6, 0x82, 0x9f); (0xe8, 0xaf, 0xaf); (0xe6, 0x98, 0x94); (0xe7, 0x86, 0x99); (0xe6, 0x9e, 0x90); (0xe8, 0xa5, 0xbf); (0xe7, 0xa1, 0x92);
  (0xe7, 0x9f, 0xbd); (0xe6, 0x99, 0xb0); (0xe5, 0x98, 0xbb); (0xe5, 0x90, 0xb8); (0xe9, 0x94, 0xa1); (0xe7, 0x89, 0xba)].

Definition utf8_rows_31 : list (Z * Z * Z) := [
  (0xe7, 0xa8, 0x80); (0xe6, 0x81, 0xaf); (0xe5, 0xb8, 0x8c); (0xe6, 0x82, 0x89); (0xe8, 0x86, 0x9d); (0xe5, 0xa4, 0x95); (0xe6, 0x83, 0x9c); (0xe7, 0x86, 0x84);
  (0xe7, 0x83, 0xaf); (0xe6, 0xba, 0xaa); (0xe6, 0xb1, 0x90); (0xe7, 0x8a, 0x80); (0xe6, 0xaa, 0x84); (0xe8, 0xa2, 0xad); (0xe5, 0xb8, 0xad); (0xe4, 0xb9, 0xa0);
  (0xe5, 0xaa, 0xb3); (0xe5, 0x96, 0x9c); (0xe9, 0x93, 0xa3); (0xe6, 0xb4, 0x97); (0xe7, 0xb3, 0xbb); (0xe9, 0x9a, 0x99); (0xe6, 0x88, 0x8f); (0xe7, 0xbb, 0x86);
  (0xe7, 0x9e, 0x8e); (0xe8, 0x99, 0xbe); (0xe5, 0x8c, 0xa3); (0xe9, 0x9c, 0x9e); (0xe8, 0xbe, 0x96); (0xe6, 0x9a, 0x87); (0xe5, 0xb3, 0xa1); (0xe4, 0xbe, 0xa0);
  (0xe7, 0x8b, 0xad); (0xe4, 0xb8, 0x8b); (0xe5, 0x8e, 0xa6); (0xe5, 0xa4, 0x8f); (0xe5, 0x90, 0x93); (0xe6, 0x8e, 0x80); (0xe9, 0x94, 0xa8); (0xe5, 0x85, 0x88);
  (0xe4, 0xbb, 0x99); (0xe9, 0xb2, 0x9c); (0xe7, 0xba, 0xa4); (0xe5, 0x92, 0xb8); (0xe8, 0xb4, 0xa4); (0xe8, 0xa1, 0x94); (0xe8, 0x88, 0xb7); (0xe9, 0x97, 0xb2);
  (0xe6, 0xb6, 0x8e); (0xe5, 0xbc, 0xa6); (0xe5, 0xab, 0x8c); (0xe6, 0x98, 0xbe); (0xe9, 0x99, 0xa9); (0xe7, 0x8e, 0xb0); (0xe7, 0x8c, 0xae); (0xe5, 0x8e, 0xbf);
  (0xe8, 0x85, 0xba); (0xe9, 0xa6, 0x85); (0xe7, 0xbe, 0xa1); (0xe5, 0xae, 0xaa); (0xe9, 0x99, 0xb7); (0xe9, 0x99, 0x90); (0xe7, 0xba, 0xbf); (0xe7, 0x9b, 0xb8);
  (0xe5, 0x8e, 0xa2); (0xe9, 0x95, 0xb6); (0xe9, 0xa6, 0x99); (0xe7, 0xae, 0xb1); (0xe8, 0xa5, 0x84); (0xe6, 0xb9, 0x98); (0xe4, 0xb9, 0xa1); (0xe7, 0xbf, 0x94);
  (0xe7, 0xa5, 0xa5); (0xe8, 0xaf, 0xa6); (0xe6, 0x83, 0xb3); (0xe5, 0x93, 0x8d); (0xe4, 0xba, 0xab); (0xe9, 0xa1, 0xb9); (0xe5, 0xb7, 0xb7); (0xe6, 0xa9, 0xa1);
  (0xe5, 0x83, 0x8f); (0xe5, 0x90, 0x91); (0xe8, 0xb1, 0xa1); (0xe8, 0x90, 0xa7); (0xe7, 0xa1, 0x9d); (0xe9, 0x9c, 0x84); (0xe5, 0x89, 0x8a); (0xe5, 0x93, 0xae);
  (0xe5, 0x9a, 0xa3); (0xe9, 0x94, 0x80); (0xe6, 0xb6, 0x88); (0xe5, 0xae, 0xb5); (0xe6, 0xb7, 0x86); (0xe6, 0x99, 0x93)].

Definition utf8_rows_32 : list (Z * Z * Z) := [
  (0xe5, 0xb0, 0x8f); (0xe5, 0xad, 0x9d); (0xe6, 0xa0, 0xa1); (0xe8, 0x82, 0x96); (0xe5, 0x95, 0xb8); (0xe7, 0xac, 0x91); (0xe6, 0x95, 0x88); (0xe6, 0xa5, 0x94);
  (0xe4, 0xba, 0x9b); (0xe6, 0xad, 0x87); (0xe8, 0x9d, 0x8e); (0xe9, 0x9e, 0x8b); (0xe5, 0x8d, 0x8f); (0xe6, 0x8c, 0x9f); (0xe6, 0x90, 0xba); (0xe9, 0x82, 0xaa);
  (0xe6, 0x96, 0x9c); (0xe8, 0x83, 0x81); (0xe8, 0xb0, 0x90); (0xe5, 0x86, 0x99); (0xe6, 0xa2, 0xb0); (0xe5, 0x8d, 0xb8); (0xe8, 0x9f, 0xb9); (0xe6, 0x87, 0x88);
  (0xe6, 0xb3, 0x84); (0xe6, 0xb3, 0xbb); (0xe8, 0xb0, 0xa2); (0xe5, 0xb1, 0x91); (0xe8, 0x96, 0xaa); (0xe8, 0x8a, 0xaf); (0xe9, 0x94, 0x8c); (0xe6, 0xac, 0xa3);
  (0xe8, 0xbe, 0x9b); (0xe6, 0x96, 0xb0); (0xe5, 0xbf, 0xbb); (0xe5, 0xbf, 0x83); (0xe4, 0xbf, 0xa1); (0xe8, 0xa1, 0x85); (0xe6, 0x98, 0x9f); (0xe8, 0x85, 0xa5);
  (0xe7, 0x8c, 0xa9); (0xe6, 0x83, 0xba); (0xe5, 0x85, 0xb4); (0xe5, 0x88, 0x91); (0xe5, 0x9e, 0x8b); (0xe5, 0xbd, 0xa2); (0xe9, 0x82, 0xa2); (0xe8, 0xa1, 0x8c);
  (0xe9, 0x86, 0x92); (0xe5, 0xb9, 0xb8); (0xe6, 0x9d, 0x8f); (0xe6, 0x80, 0xa7); (0xe5, 0xa7, 0x93); (0xe5, 0x85, 0x84); (0xe5, 0x87, 0xb6); (0xe8, 0x83, 0xb8);
  (0xe5, 0x8c, 0x88); (0xe6, 0xb1, 0xb9); (0xe9, 0x9b, 0x84); (0xe7, 0x86, 0x8a); (0xe4, 0xbc, 0x91); (0xe4, 0xbf, 0xae); (0xe7, 0xbe, 0x9e); (0xe6, 0x9c, 0xbd);
  (0xe5, 0x97, 0x85); (0xe9, 0x94, 0x88); (0xe7, 0xa7, 0x80); (0xe8, 0xa2, 0x96); (0xe7, 0xbb, 0xa3); (0xe5, 0xa2, 0x9f); (0xe6, 0x88, 0x8c); (0xe9, 0x9c, 0x80);
  (0xe8, 0x99, 0x9a); (0xe5, 0x98, 0x98); (0xe9, 0xa1, 0xbb); (0xe5, 0xbe, 0x90); (0xe8, 0xae, 0xb8); (0xe8, 0x93, 0x84); (0xe9, 0x85, 0x97); (0xe5, 0x8f, 0x99);
  (0xe6, 0x97, 0xad); (0xe5, 0xba, 0x8f); (0xe7, 0x95, 0x9c); (0xe6, 0x81, 0xa4); (0xe7, 0xb5, 0xae); (0xe5, 0xa9, 0xbf); (0xe7, 0xbb, 0xaa); (0xe7, 0xbb, 0xad);
  (0xe8, 0xbd, 0xa9); (0xe5, 0x96, 0xa7); (0xe5, 0xae, 0xa3); (0xe6, 0x82, 0xac); (0xe6, 0x97, 0x8b); (0xe7, 0x8e, 0x84)].

Definition utf8_rows_33 : list (Z * Z * Z) := [
  (0xe9, 0x80, 0x89); (0xe7, 0x99, 0xa3); (0xe7, 0x9c, 0xa9); (0xe7, 0xbb, 0x9a); (0xe9, 0x9d, 0xb4); (0xe8, 0x96, 0x9b); (0xe5, 0xad, 0xa6); (0xe7, 0xa9, 0xb4);
  (0xe9, 0x9b, 0xaa); (0xe8, 0xa1, 0x80); (0xe5, 0x8b, 0x8b); (0xe7, 0x86, 0x8f); (0xe5, 0xbe, 0xaa); (0xe6, 0x97, 0xac); (0xe8, 0xaf, 0xa2); (0xe5, 0xaf, 0xbb);
  (0xe9, 0xa9, 0xaf); (0xe5, 0xb7, 0xa1); (0xe6, 0xae, 0x89); (0xe6, 0xb1, 0x9b); (0xe8, 0xae, 0xad); (0xe8, 0xae, 0xaf); (0xe9, 0x80, 0x8a); (0xe8, 0xbf, 0x85);
  (0xe5, 0x8e, 0x8b); (0xe6, 0x8a, 0xbc); (0xe9, 0xb8, 0xa6); (0xe9, 0xb8, 0xad); (0xe5, 0x91, 0x80); (0xe4, 0xb8, 0xab); (0xe8, 0x8a, 0xbd); (0xe7, 0x89, 0x99);
  (0xe8, 0x9a, 0x9c); (0xe5, 0xb4, 0x96); (0xe8, 0xa1, 0x99); (0xe6, 0xb6, 0xaf); (0xe9, 0x9b, 0x85); (0xe5, 0x93, 0x91); (0xe4, 0xba, 0x9a); (0xe8, 0xae, 0xb6);
  (0xe7, 0x84, 0x89); (0xe5, 0x92, 0xbd); (0xe9, 0x98, 0x89); (0xe7, 0x83, 0x9f); (0xe6, 0xb7, 0xb9); (0xe7, 0x9b, 0x90); (0xe4, 0xb8, 0xa5); (0xe7, 0xa0, 0x94);
  (0xe8, 0x9c, 0x92); (0xe5, 0xb2, 0xa9); (0xe5, 0xbb, 0xb6); (0xe8, 0xa8, 0x80); (0xe9, 0xa2, 0x9c); (0xe9, 0x98, 0x8e); (0xe7, 0x82, 0x8e); (0xe6, 0xb2, 0xbf);
  (0xe5, 0xa5, 0x84); (0xe6, 0x8e, 0xa9); (0xe7, 0x9c, 0xbc); (0xe8, 0xa1, 0x8d); (0xe6, 0xbc, 0x94); (0xe8, 0x89, 0xb3); (0xe5, 0xa0, 0xb0); (0xe7, 0x87, 0x95);
  (0xe5, 0x8e, 0x8c); (0xe7, 0xa0, 0x9a); (0xe9, 0x9b, 0x81); (0xe5, 0x94, 0x81); (0xe5, 0xbd, 0xa6); (0xe7, 0x84, 0xb0); (0xe5, 0xae, 0xb4); (0xe8, 0xb0, 0x9a);
  (0xe9, 0xaa, 0x8c); (0xe6, 0xae, 0x83); (0xe5, 0xa4, 0xae); (0xe9, 0xb8, 0xaf); (0xe7, 0xa7, 0xa7); (0xe6, 0x9d, 0xa8); (0xe6, 0x89, 0xac); (0xe4, 0xbd, 0xaf);
  (0xe7, 0x96, 0xa1); (0xe7, 0xbe, 0x8a); (0xe6, 0xb4, 0x8b); (0xe9, 0x98, 0xb3); (0xe6, 0xb0, 0xa7); (0xe4, 0xbb, 0xb0); (0xe7, 0x97, 0x92); (0xe5, 0x85, 0xbb);
  (0xe6, 0xa0, 0xb7); (0xe6, 0xbc, 0xbe); (0xe9, 0x82, 0x80); (0xe8, 0x85, 0xb0); (0xe5, 0xa6, 0x96); (0xe7, 0x91, 0xb6)].

Definition utf8_rows_34 : list (Z * Z * Z) := [
  (0xe6, 0x91, 0x87); (0xe5, 0xb0, 0xa7); (0xe9, 0x81, 0xa5); (0xe7, 0xaa, 0x91); (0xe8, 0xb0, 0xa3); (0xe5, 0xa7, 0x9a); (0xe5, 0x92, 0xac); (0xe8, 0x88, 0x80);
  (0xe8, 0x8d, 0xaf); (0xe8, 0xa6, 0x81); (0xe8, 0x80, 0x80); (0xe6, 0xa4, 0xb0); (0xe5, 0x99, 0x8e); (0xe8, 0x80, 0xb6); (0xe7, 0x88, 0xb7); (0xe9, 0x87, 0x8e);
  (0xe5, 0x86, 0xb6); (0xe4, 0xb9, 0x9f); (0xe9, 0xa1, 0xb5); (0xe6, 0x8e, 0x96); (0xe4, 0xb8, 0x9a); (0xe5, 0x8f, 0xb6); (0xe6, 0x9b, 0xb3); (0xe8, 0x85, 0x8b);
  (0xe5, 0xa4, 0x9c); (0xe6, 0xb6, 0xb2); (0xe4, 0xb8, 0x80); (0xe5, 0xa3, 0xb9); (0xe5, 0x8c, 0xbb); (0xe6, 0x8f, 0x96); (0xe9, 0x93, 0xb1); (0xe4, 0xbe, 0x9d);
  (0xe4, 0xbc, 0x8a); (0xe8, 0xa1, 0xa3); (0xe9, 0xa2, 0x90); (0xe5, 0xa4, 0xb7); (0xe9, 0x81, 0x97); (0xe7, 0xa7, 0xbb); (0xe4, 0xbb, 0xaa); (0xe8, 0x83, 0xb0);
  (0xe7, 0x96, 0x91); (0xe6, 0xb2, 0x82); (0xe5, 0xae, 0x9c); (0xe5, 0xa7, 0xa8); (0xe5, 0xbd, 0x9d); (0xe6, 0xa4, 0x85); (0xe8, 0x9a, 0x81); (0xe5, 0x80, 0x9a);
  (0xe5, 0xb7, 0xb2); (0xe4, 0xb9, 0x99); (0xe7, 0x9f, 0xa3); (0xe4, 0xbb, 0xa5); (0xe8, 0x89, 0xba); (0xe6, 0x8a, 0x91); (0xe6, 0x98, 0x93); (0xe9, 0x82, 0x91);
  (0xe5, 0xb1, 0xb9); (0xe4, 0xba, 0xbf); (0xe5, 0xbd, 0xb9); (0xe8, 0x87, 0x86); (0xe9, 0x80, 0xb8); (0xe8, 0x82, 0x84); (0xe7, 0x96, 0xab); (0xe4, 0xba, 0xa6);
  (0xe8, 0xa3, 0x94); (0xe6, 0x84, 0x8f); (0xe6, 0xaf, 0x85); (0xe5, 0xbf, 0x86); (0xe4, 0xb9, 0x89); (0xe7, 0x9b, 0x8a); (0xe6, 0xba, 0xa2); (0xe8, 0xaf, 0xa3);
  (0xe8, 0xae, 0xae); (0xe8, 0xb0, 0x8a); (0xe8, 0xaf, 0x91); (0xe5, 0xbc, 0x82); (0xe7, 0xbf, 0xbc); (0xe7, 0xbf, 0x8c); (0xe7, 0xbb, 0x8e); (0xe8, 0x8c, 0xb5);
  (0xe8, 0x8d, 0xab); (0xe5, 0x9b, 0xa0); (0xe6, 0xae, 0xb7); (0xe9, 0x9f, 0xb3); (0xe9, 0x98, 0xb4); (0xe5, 0xa7, 0xbb); (0xe5, 0x90, 0x9f); (0xe9, 0x93, 0xb6);
  (0xe6, 0xb7, 0xab); (0xe5, 0xaf, 0x85); (0xe9, 0xa5, 0xae); (0xe5, 0xb0, 0xb9); (0xe5, 0xbc, 0x95); (0xe9, 0x9a, 0x90)].

Definition utf8_rows_35 : list (Z * Z * Z) := [
  (0xe5, 0x8d, 0xb0); (0xe8, 0x8b, 0xb1); (0xe6, 0xa8, 0xb1); (0xe5, 0xa9, 0xb4); (0xe9, 0xb9, 0xb0); (0xe5, 0xba, 0x94); (0xe7, 0xbc, 0xa8); (0xe8, 0x8e, 0xb9);
  (0xe8, 0x90, 0xa4); (0xe8, 0x90, 0xa5); (0xe8, 0x8d, 0xa7); (0xe8, 0x9d, 0x87); (0xe8, 0xbf, 0x8e); (0xe8, 0xb5, 0xa2); (0xe7, 0x9b, 0x88); (0xe5, 0xbd, 0xb1);
  (0xe9, 0xa2, 0x96); (0xe7, 0xa1, 0xac); (0xe6, 0x98, 0xa0); (0xe5, 0x93, 0x9f); (0xe6, 0x8b, 0xa5); (0xe4, 0xbd, 0xa3); (0xe8, 0x87, 0x83); (0xe7, 0x97, 0x88);
  (0xe5, 0xba, 0xb8); (0xe9, 0x9b, 0x8d); (0xe8, 0xb8, 0x8a); (0xe8, 0x9b, 0xb9); (0xe5, 0x92, 0x8f); (0xe6, 0xb3, 0xb3); (0xe6, 0xb6, 0x8c); (0xe6, 0xb0, 0xb8);
  (0xe6, 0x81, 0xbf); (0xe5, 0x8b, 0x87); (0xe7, 0x94, 0xa8); (0xe5, 0xb9, 0xbd); (0xe4, 0xbc, 0x98); (0xe6, 0x82, 0xa0); (0xe5, 0xbf, 0xa7); (0xe5, 0xb0, 0xa4);
  (0xe7, 0x94, 0xb1); (0xe9, 0x82, 0xae); (0xe9, 0x93, 0x80); (0xe7, 0x8a, 0xb9); (0xe6, 0xb2, 0xb9); (0xe6, 0xb8, 0xb8); (0xe9, 0x85, 0x89); (0xe6, 0x9c, 0x89);
  (0xe5, 0x8f, 0x8b); (0xe5, 0x8f, 0xb3); (0xe4, 0xbd, 0x91); (0xe9, 0x87, 0x89); (0xe8, 0xaf, 0xb1); (0xe5, 0x8f, 0x88); (0xe5, 0xb9, 0xbc); (0xe8, 0xbf, 0x82);
  (0xe6, 0xb7, 0xa4); (0xe4, 0xba, 0x8e); (0xe7, 0x9b, 0x82); (0xe6, 0xa6, 0x86); (0xe8, 0x99, 0x9e); (0xe6, 0x84, 0x9a); (0xe8, 0x88, 0x86); (0xe4, 0xbd, 0x99);
  (0xe4, 0xbf, 0x9e); (0xe9, 0x80, 0xbe); (0xe9, 0xb1, 0xbc); (0xe6, 0x84, 0x89); (0xe6, 0xb8, 0x9d); (0xe6, 0xb8, 0x94); (0xe9, 0x9a, 0x85); (0xe4, 0xba, 0x88);
  (0xe5, 0xa8, 0xb1); (0xe9, 0x9b, 0xa8); (0xe4, 0xb8, 0x8e); (0xe5, 0xb1, 0xbf); (0xe7, 0xa6, 0xb9); (0xe5, 0xae, 0x87); (0xe8, 0xaf, 0xad); (0xe7, 0xbe, 0xbd);
  (0xe7, 0x8e, 0x89); (0xe5, 0x9f, 0x9f); (0xe8, 0x8a, 0x8b); (0xe9, 0x83, 0x81); (0xe5, 0x90, 0x81); (0xe9, 0x81, 0x87); (0xe5, 0x96, 0xbb); (0xe5, 0xb3, 0xaa);
  (0xe5, 0xbe, 0xa1); (0xe6, 0x84, 0x88); (0xe6, 0xac, 0xb2); (0xe7, 0x8b, 0xb1); (0xe8, 0x82, 0xb2); (0xe8, 0xaa, 0x89)].

Definition utf8_rows_36 : list (Z * Z * Z) := [
  (0xe6, 0xb5, 0xb4); (0xe5, 0xaf, 0x93); (0xe8, 0xa3, 0x95); (0xe9, 0xa2, 0x84); (0xe8, 0xb1, 0xab); (0xe9, 0xa9, 0xad); (0xe9, 0xb8, 0xb3); (0xe6, 0xb8, 0x8a);
  (0xe5, 0x86, 0xa4); (0xe5, 0x85, 0x83); (0xe5, 0x9e, 0xa3); (0xe8, 0xa2, 0x81); (0xe5, 0x8e, 0x9f); (0xe6, 0x8f, 0xb4); (0xe8, 0xbe, 0x95); (0xe5, 0x9b, 0xad);
  (0xe5, 0x91, 0x98); (0xe5, 0x9c, 0x86); (0xe7, 0x8c, 0xbf); (0xe6, 0xba, 0x90); (0xe7, 0xbc, 0x98); (0xe8, 0xbf, 0x9c); (0xe8, 0x8b, 0x91); (0xe6, 0x84, 0xbf);
  (0xe6, 0x80, 0xa8); (0xe9, 0x99, 0xa2); (0xe6, 0x9b, 0xb0); (0xe7, 0xba, 0xa6); (0xe8, 0xb6, 0x8a); (0xe8, 0xb7, 0x83); (0xe9, 0x92, 0xa5); (0xe5, 0xb2, 0xb3);
  (0xe7, 0xb2, 0xa4); (0xe6, 0x9c, 0x88); (0xe6, 0x82, 0xa6); (0xe9, 0x98, 0x85); (0xe8, 0x80, 0x98); (0xe4, 0xba, 0x91); (0xe9, 0x83, 0xa7); (0xe5, 0x8c, 0x80);
  (0xe9, 0x99, 0xa8); (0xe5, 0x85, 0x81); (0xe8, 0xbf, 0x90); (0xe8, 0x95, 0xb4); (0xe9, 0x85, 0x9d); (0xe6, 0x99, 0x95); (0xe9, 0x9f, 0xb5); (0xe5, 0xad, 0x95);
  (0xe5, 0x8c, 0x9d); (0xe7, 0xa0, 0xb8); (0xe6, 0x9d, 0x82); (0xe6, 0xa0, 0xbd); (0xe5, 0x93, 0x89); (0xe7, 0x81, 0xbe); (0xe5, 0xae, 0xb0); (0xe8, 0xbd, 0xbd);
  (0xe5, 0x86, 0x8d); (0xe5, 0x9c, 0xa8); (0xe5, 0x92, 0xb1); (0xe6, 0x94, 0x92); (0xe6, 0x9a, 0x82); (0xe8, 0xb5, 0x9e); (0xe8, 0xb5, 0x83); (0xe8, 0x84, 0x8f);
  (0xe8, 0x91, 0xac); (0xe9, 0x81, 0xad); (0xe7, 0xb3, 0x9f); (0xe5, 0x87, 0xbf); (0xe8, 0x97, 0xbb); (0xe6, 0x9e, 0xa3); (0xe6, 0x97, 0xa9); (0xe6, 0xbe, 0xa1);
  (0xe8, 0x9a, 0xa4); (0xe8, 0xba, 0x81); (0xe5, 0x99, 0xaa); (0xe9, 0x80, 0xa0); (0xe7, 0x9a, 0x82); (0xe7, 0x81, 0xb6); (0xe7, 0x87, 0xa5); (0xe8, 0xb4, 0xa3);
  (0xe6, 0x8b, 0xa9); (0xe5, 0x88, 0x99); (0xe6, 0xb3, 0xbd); (0xe8, 0xb4, 0xbc); (0xe6, 0x80, 0x8e); (0xe5, 0xa2, 0x9e); (0xe6, 0x86, 0x8e); (0xe6, 0x9b, 0xbe);
  (0xe8, 0xb5, 0xa0); (0xe6, 0x89, 0x8e); (0xe5, 0x96, 0xb3); (0xe6, 0xb8, 0xa3); (0xe6, 0x9c, 0xad); (0xe8, 0xbd, 0xa7)].

Definition utf8_rows_37 : list (Z * Z * Z) := [
  (0xe9, 0x93, 0xa1); (0xe9, 0x97, 0xb8); (0xe7, 0x9c, 0xa8); (0xe6, 0xa0, 0x85); (0xe6, 0xa6, 0xa8); (0xe5, 0x92, 0x8b); (0xe4, 0xb9, 0x8d); (0xe7, 0x82, 0xb8);
  (0xe8, 0xaf, 0x88); (0xe6, 0x91, 0x98); (0xe6, 0x96, 0x8b); (0xe5, 0xae, 0x85); (0xe7, 0xaa, 0x84); (0xe5, 0x80, 0xba); (0xe5, 0xaf, 0xa8); (0xe7, 0x9e, 0xbb);
  (0xe6, 0xaf, 0xa1); (0xe8, 0xa9, 0xb9); (0xe7, 0xb2, 0x98); (0xe6, 0xb2, 0xbe); (0xe7, 0x9b, 0x8f); (0xe6, 0x96, 0xa9); (0xe8, 0xbe, 0x97); (0xe5, 0xb4, 0xad);
  (0xe5, 0xb1, 0x95); (0xe8, 0x98, 0xb8); (0xe6, 0xa0, 0x88); (0xe5, 0x8d, 0xa0); (0xe6, 0x88, 0x98); (0xe7, 0xab, 0x99); (0xe6, 0xb9, 0x9b); (0xe7, 0xbb, 0xbd);
  (0xe6, 0xa8, 0x9f); (0xe7, 0xab, 0xa0); (0xe5, 0xbd, 0xb0); (0xe6, 0xbc, 0xb3); (0xe5, 0xbc, 0xa0); (0xe6, 0x8e, 0x8c); (0xe6, 0xb6, 0xa8); (0xe6, 0x9d, 0x96);
  (0xe4, 0xb8, 0x88); (0xe5, 0xb8, 0x90); (0xe8, 0xb4, 0xa6); (0xe4, 0xbb, 0x97); (0xe8, 0x83, 0x80); (0xe7, 0x98, 0xb4); (0xe9, 0x9a, 0x9c); (0xe6, 0x8b, 0x9b);
  (0xe6, 0x98, 0xad); (0xe6, 0x89, 0xbe); (0xe6, 0xb2, 0xbc); (0xe8, 0xb5, 0xb5); (0xe7, 0x85, 0xa7); (0xe7, 0xbd, 0xa9); (0xe5, 0x85, 0x86); (0xe8, 0x82, 0x87);
  (0xe5, 0x8f, 0xac); (0xe9, 0x81, 0xae); (0xe6, 0x8a, 0x98); (0xe5, 0x93, 0xb2); (0xe8, 0x9b, 0xb0); (0xe8, 0xbe, 0x99); (0xe8, 0x80, 0x85); (0xe9, 0x94, 0x97);
  (0xe8, 0x94, 0x97); (0xe8, 0xbf, 0x99); (0xe6, 0xb5, 0x99); (0xe7, 0x8f, 0x8d); (0xe6, 0x96, 0x9f); (0xe7, 0x9c, 0x9f); (0xe7, 0x94, 0x84); (0xe7, 0xa0, 0xa7);
  (0xe8, 0x87, 0xbb); (0xe8, 0xb4, 0x9e); (0xe9, 0x92, 0x88); (0xe4, 0xbe, 0xa6); (0xe6, 0x9e, 0x95); (0xe7, 0x96, 0xb9); (0xe8, 0xaf, 0x8a); (0xe9, 0x9c, 0x87);
  (0xe6, 0x8c, 0xaf); (0xe9, 0x95, 0x87); (0xe9, 0x98, 0xb5); (0xe8, 0x92, 0xb8); (0xe6, 0x8c, 0xa3); (0xe7, 0x9d, 0x81); (0xe5, 0xbe, 0x81); (0xe7, 0x8b, 0xb0);
  (0xe4, 0xba, 0x89); (0xe6, 0x80, 0x94); (0xe6, 0x95, 0xb4); (0xe6, 0x8b, 0xaf); (0xe6, 0xad, 0xa3); (0xe6, 0x94, 0xbf)].

Definition utf8_rows_38 : list (Z * Z * Z) := [
  (0xe5, 0xb8, 0xa7); (0xe7, 0x97, 0x87); (0xe9, 0x83, 0x91); (0xe8, 0xaf, 0x81); (0xe8, 0x8a, 0x9d); (0xe6, 0x9e, 0x9d); (0xe6, 0x94, 0xaf); (0xe5, 0x90, 0xb1);
  (0xe8, 0x9c, 0x98); (0xe7, 0x9f, 0xa5); (0xe8, 0x82, 0xa2); (0xe8, 0x84, 0x82); (0xe6, 0xb1, 0x81); (0xe4, 0xb9, 0x8b); (0xe7, 0xbb, 0x87); (0xe8, 0x81, 0x8c);
  (0xe7, 0x9b, 0xb4); (0xe6, 0xa4, 0x8d); (0xe6, 0xae, 0x96); (0xe6, 0x89, 0xa7); (0xe5, 0x80, 0xbc); (0xe4, 0xbe, 0x84); (0xe5, 0x9d, 0x80); (0xe6, 0x8c, 0x87);
  (0xe6, 0xad, 0xa2); (0xe8, 0xb6, 0xbe); (0xe5, 0x8f, 0xaa); (0xe6, 0x97, 0xa8); (0xe7, 0xba, 0xb8); (0xe5, 0xbf, 0x97); (0xe6, 0x8c, 0x9a); (0xe6, 0x8e, 0xb7);
  (0xe8, 0x87, 0xb3); (0xe8, 0x87, 0xb4); (0xe7, 0xbd, 0xae); (0xe5, 0xb8, 0x9c); (0xe5, 0xb3, 0x99); (0xe5, 0x88, 0xb6); (0xe6, 0x99, 0xba); (0xe7, 0xa7, 0xa9);
  (0xe7, 0xa8, 0x9a); (0xe8, 0xb4, 0xa8); (0xe7, 0x82, 0x99); (0xe7, 0x97, 0x94); (0xe6, 0xbb, 0x9e); (0xe6, 0xb2, 0xbb); (0xe7, 0xaa, 0x92); (0xe4, 0xb8, 0xad);
  (0xe7, 0x9b, 0x85); (0xe5, 0xbf, 0xa0); (0xe9, 0x92, 0x9f); (0xe8, 0xa1, 0xb7); (0xe7, 0xbb, 0x88); (0xe7, 0xa7, 0x8d); (0xe8, 0x82, 0xbf); (0xe9, 0x87, 0x8d);
  (0xe4, 0xbb, 0xb2); (0xe4, 0xbc, 0x97); (0xe8, 0x88, 0x9f); (0xe5, 0x91, 0xa8); (0xe5, 0xb7, 0x9e); (0xe6, 0xb4, 0xb2); (0xe8, 0xaf, 0x8c); (0xe7, 0xb2, 0xa5);
  (0xe8, 0xbd, 0xb4); (0xe8, 0x82, 0x98); (0xe5, 0xb8, 0x9a); (0xe5, 0x92, 0x92); (0xe7, 0x9a, 0xb1); (0xe5, 0xae, 0x99); (0xe6, 0x98, 0xbc); (0xe9, 0xaa, 0xa4);
  (0xe7, 0x8f, 0xa0); (0xe6, 0xa0, 0xaa); (0xe8, 0x9b, 0x9b); (0xe6, 0x9c, 0xb1); (0xe7, 0x8c, 0xaa); (0xe8, 0xaf, 0xb8); (0xe8, 0xaf, 0x9b); (0xe9, 0x80, 0x90);
  (0xe7, 0xab, 0xb9); (0xe7, 0x83, 0x9b); (0xe7, 0x85, 0xae); (0xe6, 0x8b, 0x84); (0xe7, 0x9e, 0xa9); (0xe5, 0x98, 0xb1); (0xe4, 0xb8, 0xbb); (0xe8, 0x91, 0x97);
  (0xe6, 0x9f, 0xb1); (0xe5, 0x8a, 0xa9); (0xe8, 0x9b, 0x80); (0xe8, 0xb4, 0xae); (0xe9, 0x93, 0xb8); (0xe7, 0xad, 0x91)].

Definition utf8_rows_39 : list (Z * Z * Z) := [
  (0xe4, 0xbd, 0x8f); (0xe6, 0xb3, 0xa8); (0xe7, 0xa5, 0x9d); (0xe9, 0xa9, 0xbb); (0xe6, 0x8a, 0x93); (0xe7, 0x88, 0xaa); (0xe6, 0x8b, 0xbd); (0xe4, 0xb8, 0x93);
  (0xe7, 0xa0, 0x96); (0xe8, 0xbd, 0xac); (0xe6, 0x92, 0xb0); (0xe8, 0xb5, 0x9a); (0xe7, 0xaf, 0x86); (0xe6, 0xa1, 0xa9); (0xe5, 0xba, 0x84); (0xe8, 0xa3, 0x85);
  (0xe5, 0xa6, 0x86); (0xe6, 0x92, 0x9e); (0xe5, 0xa3, 0xae); (0xe7, 0x8a, 0xb6); (0xe6, 0xa4, 0x8e); (0xe9, 0x94, 0xa5); (0xe8, 0xbf, 0xbd); (0xe8, 0xb5, 0x98);
  (0xe5, 0x9d, 0xa0); (0xe7, 0xbc, 0x80); (0xe8, 0xb0, 0x86); (0xe5, 0x87, 0x86); (0xe6, 0x8d, 0x89); (0xe6, 0x8b, 0x99); (0xe5, 0x8d, 0x93); (0xe6, 0xa1, 0x8c);
  (0xe7, 0x90, 0xa2); (0xe8, 0x8c, 0x81); (0xe9, 0x85, 0x8c); (0xe5, 0x95, 0x84); (0xe7, 0x9d, 0x80); (0xe7, 0x81, 0xbc); (0xe6, 0xb5, 0x8a); (0xe5, 0x85, 0xb9);
  (0xe5, 0x92, 0xa8); (0xe8, 0xb5, 0x84); (0xe5, 0xa7, 0xbf); (0xe6, 0xbb, 0x8b); (0xe6, 0xb7, 0x84); (0xe5, 0xad, 0x9c); (0xe7, 0xb4, 0xab); (0xe4, 0xbb, 0x94);
  (0xe7, 0xb1, 0xbd); (0xe6, 0xbb, 0x93); (0xe5, 0xad, 0x90); (0xe8, 0x87, 0xaa); (0xe6, 0xb8, 0x8d); (0xe5, 0xad, 0x97); (0xe9, 0xac, 0x83); (0xe6, 0xa3, 0x95);
  (0xe8, 0xb8, 0xaa); (0xe5, 0xae, 0x97); (0xe7, 0xbb, 0xbc); (0xe6, 0x80, 0xbb); (0xe7, 0xba, 0xb5); (0xe9, 0x82, 0xb9); (0xe8, 0xb5, 0xb0); (0xe5, 0xa5, 0x8f);
  (0xe6, 0x8f, 0x8d); (0xe7, 0xa7, 0x9f); (0xe8, 0xb6, 0xb3); (0xe5, 0x8d, 0x92); (0xe6, 0x97, 0x8f); (0xe7, 0xa5, 0x96); (0xe8, 0xaf, 0x85); (0xe9, 0x98, 0xbb);
  (0xe7, 0xbb, 0x84); (0xe9, 0x92, 0xbb); (0xe7, 0xba, 0x82); (0xe5, 0x98, 0xb4); (0xe9, 0x86, 0x89); (0xe6, 0x9c, 0x80); (0xe7, 0xbd, 0xaa); (0xe5, 0xb0, 0x8a);
  (0xe9, 0x81, 0xb5); (0xe6, 0x98, 0xa8); (0xe5, 0xb7, 0xa6); (0xe4, 0xbd, 0x90); (0xe6, 0x9f, 0x9e); (0xe5, 0x81, 0x9a); (0xe4, 0xbd, 0x9c); (0xe5, 0x9d, 0x90);
  (0xe5, 0xba, 0xa7); (0xe4, 0xba, 0x8d); (0xe4, 0xb8, 0x8c); (0xe5, 0x85, 0x80); (0xe4, 0xb8, 0x90); (0xe5, 0xbb, 0xbf)].

Definition utf8_rows_40 : list (Z * Z * Z) := [
  (0xe5, 0x8d, 0x85); (0xe4, 0xb8, 0x95); (0xe4, 0xba, 0x98); (0xe4, 0xb8, 0x9e); (0xe9, 0xac, 0xb2); (0xe5, 0xad, 0xac); (0xe5, 0x99, 0xa9); (0xe4, 0xb8, 0xa8);
  (0xe7, 0xa6, 0xba); (0xe4, 0xb8, 0xbf); (0xe5, 0x8c, 0x95); (0xe4, 0xb9, 0x87); (0xe5, 0xa4, 0xad); (0xe7, 0x88, 0xbb); (0xe5, 0x8d, 0xae); (0xe6, 0xb0, 0x90);
  (0xe5, 0x9b, 0x9f); (0xe8, 0x83, 0xa4); (0xe9, 0xa6, 0x97); (0xe6, 0xaf, 0x93); (0xe7, 0x9d, 0xbe); (0xe9, 0xbc, 0x97); (0xe4, 0xb8, 0xb6); (0xe4, 0xba, 0x9f);
  (0xe9, 0xbc, 0x90); (0xe4, 0xb9, 0x9c); (0xe4, 0xb9, 0xa9); (0xe4, 0xba, 0x93); (0xe8, 0x8a, 0x88); (0xe5, 0xad, 0x9b); (0xe5, 0x95, 0xac); (0xe5, 0x98, 0x8f);
  (0xe4, 0xbb, 0x84); (0xe5, 0x8e, 0x8d); (0xe5, 0x8e, 0x9d); (0xe5, 0x8e, 0xa3); (0xe5, 0x8e, 0xa5); (0xe5, 0x8e, 0xae); (0xe9, 0x9d, 0xa5); (0xe8, 0xb5, 0x9d);
  (0xe5, 0x8c, 0x9a); (0xe5, 0x8f, 0xb5); (0xe5, 0x8c, 0xa6); (0xe5, 0x8c, 0xae); (0xe5, 0x8c, 0xbe); (0xe8, 0xb5, 0x9c); (0xe5, 0x8d, 0xa6); (0xe5, 0x8d, 0xa3);
  (0xe5, 0x88, 0x82); (0xe5, 0x88, 0x88); (0xe5, 0x88, 0x8e); (0xe5, 0x88, 0xad); (0xe5, 0x88, 0xb3); (0xe5, 0x88, 0xbf); (0xe5, 0x89, 0x80); (0xe5, 0x89, 0x8c);
  (0xe5, 0x89, 0x9e); (0xe5, 0x89, 0xa1); (0xe5, 0x89, 0x9c); (0xe8, 0x92, 0xaf); (0xe5, 0x89, 0xbd); (0xe5, 0x8a, 0x82); (0xe5, 0x8a, 0x81); (0xe5, 0x8a, 0x90);
  (0xe5, 0x8a, 0x93); (0xe5, 0x86, 0x82); (0xe7, 0xbd, 0x94); (0xe4, 0xba, 0xbb); (0xe4, 0xbb, 0x83); (0xe4, 0xbb, 0x89); (0xe4, 0xbb, 0x82); (0xe4, 0xbb, 0xa8);
  (0xe4, 0xbb, 0xa1); (0xe4, 0xbb, 0xab); (0xe4, 0xbb, 0x9e); (0xe4, 0xbc, 0x9b); (0xe4, 0xbb, 0xb3); (0xe4, 0xbc, 0xa2); (0xe4, 0xbd, 0xa4); (0xe4, 0xbb, 0xb5);
  (0xe4, 0xbc, 0xa5); (0xe4, 0xbc, 0xa7); (0xe4, 0xbc, 0x89); (0xe4, 0xbc, 0xab); (0xe4, 0xbd, 0x9e); (0xe4, 0xbd, 0xa7); (0xe6, 0x94, 0xb8); (0xe4, 0xbd, 0x9a);
  (0xe4, 0xbd, 0x9d); (0xe4, 0xbd, 0x9f); (0xe4, 0xbd, 0x97); (0xe4, 0xbc, 0xb2); (0xe4, 0xbc, 0xbd); (0xe4, 0xbd, 0xb6)].

Definition utf8_rows_41 : list (Z * Z * Z) := [
  (0xe4, 0xbd, 0xb4); (0xe4, 0xbe, 0x91); (0xe4, 0xbe, 0x89); (0xe4, 0xbe, 0x83); (0xe4, 0xbe, 0x8f); (0xe4, 0xbd, 0xbe); (0xe4, 0xbd, 0xbb); (0xe4, 0xbe, 0xaa);
  (0xe4, 0xbd, 0xbc); (0xe4, 0xbe, 0xac); (0xe4, 0xbe, 0x94); (0xe4, 0xbf, 0xa6); (0xe4, 0xbf, 0xa8); (0xe4, 0xbf, 0xaa); (0xe4, 0xbf, 0x85); (0xe4, 0xbf, 0x9a);
  (0xe4, 0xbf, 0xa3); (0xe4, 0xbf, 0x9c); (0xe4, 0xbf, 0x91); (0xe4, 0xbf, 0x9f); (0xe4, 0xbf, 0xb8); (0xe5, 0x80, 0xa9); (0xe5, 0x81, 0x8c); (0xe4, 0xbf, 0xb3);
  (0xe5, 0x80, 0xac); (0xe5, 0x80, 0x8f); (0xe5, 0x80, 0xae); (0xe5, 0x80, 0xad); (0xe4, 0xbf, 0xbe); (0xe5, 0x80, 0x9c); (0xe5, 0x80, 0x8c); (0xe5, 0x80, 0xa5);
  (0xe5, 0x80, 0xa8); (0xe5, 0x81, 0xbe); (0xe5, 0x81, 0x83); (0xe5, 0x81, 0x95); (0xe5, 0x81, 0x88); (0xe5, 0x81, 0x8e); (0xe5, 0x81, 0xac); (0xe5, 0x81, 0xbb);
  (0xe5, 0x82, 0xa5); (0xe5, 0x82, 0xa7); (0xe5, 0x82, 0xa9); (0xe5, 0x82, 0xba); (0xe5, 0x83, 0x96); (0xe5, 0x84, 0x86); (0xe5, 0x83, 0xad); (0xe5, 0x83, 0xac);
  (0xe5, 0x83, 0xa6); (0xe5, 0x83, 0xae); (0xe5, 0x84, 0x87); (0xe5, 0x84, 0x8b); (0xe4, 0xbb, 0x9d); (0xe6, 0xb0, 0xbd); (0xe4, 0xbd, 0x98); (0xe4, 0xbd, 0xa5);
  (0xe4, 0xbf, 0x8e); (0xe9, 0xbe, 0xa0); (0xe6, 0xb1, 0x86); (0xe7, 0xb1, 0xb4); (0xe5, 0x85, 0xae); (0xe5, 0xb7, 0xbd); (0xe9, 0xbb, 0x89); (0xe9, 0xa6, 0x98);
  (0xe5, 0x86, 0x81); (0xe5, 0xa4, 0x94); (0xe5, 0x8b, 0xb9); (0xe5, 0x8c, 0x8d); (0xe8, 0xa8, 0x87); (0xe5, 0x8c, 0x90); (0xe5, 0x87, 0xab); (0xe5, 0xa4, 0x99);
  (0xe5, 0x85, 0x95); (0xe4, 0xba, 0xa0); (0xe5, 0x85, 0x96); (0xe4, 0xba, 0xb3); (0xe8, 0xa1, 0xae); (0xe8, 0xa2, 0xa4); (0xe4, 0xba, 0xb5); (0xe8, 0x84, 0x94);
  (0xe8, 0xa3, 0x92); (0xe7, 0xa6, 0x80); (0xe5, 0xac, 0xb4); (0xe8, 0xa0, 0x83); (0xe7, 0xbe, 0xb8); (0xe5, 0x86, 0xab); (0xe5, 0x86, 0xb1); (0xe5, 0x86, 0xbd);
  (0xe5, 0x86, 0xbc); (0xe5, 0x87, 0x87); (0xe5, 0x86, 0x96); (0xe5, 0x86, 0xa2); (0xe5, 0x86, 0xa5); (0xe8, 0xae, 0xa0)].

Definition utf8_rows_42 : list (Z * Z * Z) := [
  (0xe8, 0xae, 0xa6); (0xe8, 0xae, 0xa7); (0xe8, 0xae, 0xaa); (0xe8, 0xae, 0xb4); (0xe8, 0xae, 0xb5); (0xe8, 0xae, 0xb7); (0xe8, 0xaf, 0x82); (0xe8, 0xaf, 0x83);
  (0xe8, 0xaf, 0x8b); (0xe8, 0xaf, 0x8f); (0xe8, 0xaf, 0x8e); (0xe8, 0xaf, 0x92); (0xe8, 0xaf, 0x93); (0xe8, 0xaf, 0x94); (0xe8, 0xaf, 0x96); (0xe8, 0xaf, 0x98);
  (0xe8, 0xaf, 0x99); (0xe8, 0xaf, 0x9c); (0xe8, 0xaf, 0x9f); (0xe8, 0xaf, 0xa0); (0xe8, 0xaf, 0xa4); (0xe8, 0xaf, 0xa8); (0xe8, 0xaf, 0xa9); (0xe8, 0xaf, 0xae);
  (0xe8, 0xaf, 0xb0); (0xe8, 0xaf, 0xb3); (0xe8, 0xaf, 0xb6); (0xe8, 0xaf, 0xb9); (0xe8, 0xaf, 0xbc); (0xe8, 0xaf, 0xbf); (0xe8, 0xb0, 0x80); (0xe8, 0xb0, 0x82);
  (0xe8, 0xb0, 0x84); (0xe8, 0xb0, 0x87); (0xe8, 0xb0, 0x8c); (0xe8, 0xb0, 0x8f); (0xe8, 0xb0, 0x91); (0xe8, 0xb0, 0x92); (0xe8, 0xb0, 0x94); (0xe8, 0xb0, 0x95);
  (0xe8, 0xb0, 0x96); (0xe8, 0xb0, 0x99); (0xe8, 0xb0, 0x9b); (0xe8, 0xb0, 0x98); (0xe8, 0xb0, 0x9d); (0xe8, 0xb0, 0x9f); (0xe8, 0xb0, 0xa0); (0xe8, 0xb0, 0xa1);
  (0xe8, 0xb0, 0xa5); (0xe8, 0xb0, 0xa7); (0xe8, 0xb0, 0xaa); (0xe8, 0xb0, 0xab); (0xe8, 0xb0, 0xae); (0xe8, 0xb0, 0xaf); (0xe8, 0xb0, 0xb2); (0xe8, 0xb0, 0xb3);
  (0xe8, 0xb0, 0xb5); (0xe8, 0xb0, 0xb6); (0xe5, 0x8d, 0xa9); (0xe5, 0x8d, 0xba); (0xe9, 0x98, 0x9d); (0xe9, 0x98, 0xa2); (0xe9, 0x98, 0xa1); (0xe9, 0x98, 0xb1);
  (0xe9, 0x98, 0xaa); (0xe9, 0x98, 0xbd); (0xe9, 0x98, 0xbc); (0xe9, 0x99, 0x82); (0xe9, 0x99, 0x89); (0xe9, 0x99, 0x94); (0xe9, 0x99, 0x9f); (0xe9, 0x99, 0xa7);
  (0xe9, 0x99, 0xac); (0xe9, 0x99, 0xb2); (0xe9, 0x99, 0xb4); (0xe9, 0x9a, 0x88); (0xe9, 0x9a, 0x8d); (0xe9, 0x9a, 0x97); (0xe9, 0x9a, 0xb0); (0xe9, 0x82, 0x97);
  (0xe9, 0x82, 0x9b); (0xe9, 0x82, 0x9d); (0xe9, 0x82, 0x99); (0xe9, 0x82, 0xac); (0xe9, 0x82, 0xa1); (0xe9, 0x82, 0xb4); (0xe9, 0x82, 0xb3); (0xe9, 0x82, 0xb6);
  (0xe9, 0x82, 0xba); (0xe9, 0x82, 0xb8); (0xe9, 0x82, 0xb0); (0xe9, 0x83, 0x8f); (0xe9, 0x83, 0x85); (0xe9, 0x82, 0xbe)].

Definition utf8_rows_43 : list (Z * Z * Z) := [
  (0xe9, 0x83, 0x90); (0xe9, 0x83, 0x84); (0xe9, 0x83, 0x87); (0xe9, 0x83, 0x93); (0xe9, 0x83, 0xa6); (0xe9, 0x83, 0xa2); (0xe9, 0x83, 0x9c); (0xe9, 0x83, 0x97);
  (0xe9, 0x83, 0x9b); (0xe9, 0x83, 0xab); (0xe9, 0x83, 0xaf); (0xe9, 0x83, 0xbe); (0xe9, 0x84, 0x84); (0xe9, 0x84, 0xa2); (0xe9, 0x84, 0x9e); (0xe9, 0x84, 0xa3);
  (0xe9, 0x84, 0xb1); (0xe9, 0x84, 0xaf); (0xe9, 0x84, 0xb9); (0xe9, 0x85, 0x83); (0xe9, 0x85, 0x86); (0xe5, 0x88, 0x8d); (0xe5, 0xa5, 0x82); (0xe5, 0x8a, 0xa2);
  (0xe5, 0x8a, 0xac); (0xe5, 0x8a, 0xad); (0xe5, 0x8a, 0xbe); (0xe5, 0x93, 0xbf); (0xe5, 0x8b, 0x90); (0xe5, 0x8b, 0x96); (0xe5, 0x8b, 0xb0); (0xe5, 0x8f, 0x9f);
  (0xe7, 0x87, 0xae); (0xe7, 0x9f, 0x8d); (0xe5, 0xbb, 0xb4); (0xe5, 0x87, 0xb5); (0xe5, 0x87, 0xbc); (0xe9, 0xac, 0xaf); (0xe5, 0x8e, 0xb6); (0xe5, 0xbc, 0x81);
  (0xe7, 0x95, 0x9a); (0xe5, 0xb7, 0xaf); (0xe5, 0x9d, 0x8c); (0xe5, 0x9e, 0xa9); (0xe5, 0x9e, 0xa1); (0xe5, 0xa1, 0xbe); (0xe5, 0xa2, 0xbc); (0xe5, 0xa3, 0x85);
  (0xe5, 0xa3, 0x91); (0xe5, 0x9c, 0xa9); (0xe5, 0x9c, 0xac); (0xe5, 0x9c, 0xaa); (0xe5, 0x9c, 0xb3); (0xe5, 0x9c, 0xb9); (0xe5, 0x9c, 0xae); (0xe5, 0x9c, 0xaf);
  (0xe5, 0x9d, 0x9c); (0xe5, 0x9c, 0xbb); (0xe5, 0x9d, 0x82); (0xe5, 0x9d, 0xa9); (0xe5, 0x9e, 0x85); (0xe5, 0x9d, 0xab); (0xe5, 0x9e, 0x86); (0xe5, 0x9d, 0xbc);
  (0xe5, 0x9d, 0xbb); (0xe5, 0x9d, 0xa8); (0xe5, 0x9d, 0xad); (0xe5, 0x9d, 0xb6); (0xe5, 0x9d, 0xb3); (0xe5, 0x9e, 0xad); (0xe5, 0x9e, 0xa4); (0xe5, 0x9e, 0x8c);
  (0xe5, 0x9e, 0xb2); (0xe5, 0x9f, 0x8f); (0xe5, 0x9e, 0xa7); (0xe5, 0x9e, 0xb4); (0xe5, 0x9e, 0x93); (0xe5, 0x9e, 0xa0); (0xe5, 0x9f, 0x95); (0xe5, 0x9f, 0x98);
  (0xe5, 0x9f, 0x9a); (0xe5, 0x9f, 0x99); (0xe5, 0x9f, 0x92); (0xe5, 0x9e, 0xb8); (0xe5, 0x9f, 0xb4); (0xe5, 0x9f, 0xaf); (0xe5, 0x9f, 0xb8); (0xe5, 0x9f, 0xa4);
  (0xe5, 0x9f, 0x9d); (0xe5, 0xa0, 0x8b); (0xe5, 0xa0, 0x8d); (0xe5, 0x9f, 0xbd); (0xe5, 0x9f, 0xad); (0xe5, 0xa0, 0x80)].

Definition utf8_rows_44 : list (Z * Z * Z) := [
  (0xe5, 0xa0, 0x9e); (0xe5, 0xa0, 0x99); (0xe5, 0xa1, 0x84); (0xe5, 0xa0, 0xa0); (0xe5, 0xa1, 0xa5); (0xe5, 0xa1, 0xac); (0xe5, 0xa2, 0x81); (0xe5, 0xa2, 0x89);
  (0xe5, 0xa2, 0x9a); (0xe5, 0xa2, 0x80); (0xe9, 0xa6, 0xa8); (0xe9, 0xbc, 0x99); (0xe6, 0x87, 0xbf); (0xe8, 0x89, 0xb9); (0xe8, 0x89, 0xbd); (0xe8, 0x89, 0xbf);
  (0xe8, 0x8a, 0x8f); (0xe8, 0x8a, 0x8a); (0xe8, 0x8a, 0xa8); (0xe8, 0x8a, 0x84); (0xe8, 0x8a, 0x8e); (0xe8, 0x8a, 0x91); (0xe8, 0x8a, 0x97); (0xe8, 0x8a, 0x99);
  (0xe8, 0x8a, 0xab); (0xe8, 0x8a, 0xb8); (0xe8, 0x8a, 0xbe); (0xe8, 0x8a, 0xb0); (0xe8, 0x8b, 0x88); (0xe8, 0x8b, 0x8a); (0xe8, 0x8b, 0xa3); (0xe8, 0x8a, 0x98);
  (0xe8, 0x8a, 0xb7); (0xe8, 0x8a, 0xae); (0xe8, 0x8b, 0x8b); (0xe8, 0x8b, 0x8c); (0xe8, 0x8b, 0x81); (0xe8, 0x8a, 0xa9); (0xe8, 0x8a, 0xb4); (0xe8, 0x8a, 0xa1);
  (0xe8, 0x8a, 0xaa); (0xe8, 0x8a, 0x9f); (0xe8, 0x8b, 0x84); (0xe8, 0x8b, 0x8e); (0xe8, 0x8a, 0xa4); (0xe8, 0x8b, 0xa1); (0xe8, 0x8c, 0x89); (0xe8, 0x8b, 0xb7);
  (0xe8, 0x8b, 0xa4); (0xe8, 0x8c, 0x8f); (0xe8, 0x8c, 0x87); (0xe8, 0x8b, 0x9c); (0xe8, 0x8b, 0xb4); (0xe8, 0x8b, 0x92); (0xe8, 0x8b, 0x98); (0xe8, 0x8c, 0x8c);
  (0xe8, 0x8b, 0xbb); (0xe8, 0x8b, 0x93); (0xe8, 0x8c, 0x91); (0xe8, 0x8c, 0x9a); (0xe8, 0x8c, 0x86); (0xe8, 0x8c, 0x94); (0xe8, 0x8c, 0x95); (0xe8, 0x8b, 0xa0);
  (0xe8, 0x8b, 0x95); (0xe8, 0x8c, 0x9c); (0xe8, 0x8d, 0x91); (0xe8, 0x8d, 0x9b); (0xe8, 0x8d, 0x9c); (0xe8, 0x8c, 0x88); (0xe8, 0x8e, 0x92); (0xe8, 0x8c, 0xbc);
  (0xe8, 0x8c, 0xb4); (0xe8, 0x8c, 0xb1); (0xe8, 0x8e, 0x9b); (0xe8, 0x8d, 0x9e); (0xe8, 0x8c, 0xaf); (0xe8, 0x8d, 0x8f); (0xe8, 0x8d, 0x87); (0xe8, 0x8d, 0x83);
  (0xe8, 0x8d, 0x9f); (0xe8, 0x8d, 0x80); (0xe8, 0x8c, 0x97); (0xe8, 0x8d, 0xa0); (0xe8, 0x8c, 0xad); (0xe8, 0x8c, 0xba); (0xe8, 0x8c, 0xb3); (0xe8, 0x8d, 0xa6);
  (0xe8, 0x8d, 0xa5); (0xe8, 0x8d, 0xa8); (0xe8, 0x8c, 0x9b); (0xe8, 0x8d, 0xa9); (0xe8, 0x8d, 0xac); (0xe8, 0x8d, 0xaa)].

Definition utf8_rows_45 : list (Z * Z * Z) := [
  (0xe8, 0x8d, 0xad); (0xe8, 0x8d, 0xae); (0xe8, 0x8e, 0xb0); (0xe8, 0x8d, 0xb8); (0xe8, 0x8e, 0xb3); (0xe8, 0x8e, 0xb4); (0xe8, 0x8e, 0xa0); (0xe8, 0x8e, 0xaa);
  (0xe8, 0x8e, 0x93); (0xe8, 0x8e, 0x9c); (0xe8, 0x8e, 0x85); (0xe8, 0x8d, 0xbc); (0xe8, 0x8e, 0xb6); (0xe8, 0x8e, 0xa9); (0xe8, 0x8d, 0xbd); (0xe8, 0x8e, 0xb8);
  (0xe8, 0x8d, 0xbb); (0xe8, 0x8e, 0x98); (0xe8, 0x8e, 0x9e); (0xe8, 0x8e, 0xa8); (0xe8, 0x8e, 0xba); (0xe8, 0x8e, 0xbc); (0xe8, 0x8f, 0x81); (0xe8, 0x90, 0x81);
  (0xe8, 0x8f, 0xa5); (0xe8, 0x8f, 0x98); (0xe5, 0xa0, 0x87); (0xe8, 0x90, 0x98); (0xe8, 0x90, 0x8b); (0xe8, 0x8f, 0x9d); (0xe8, 0x8f, 0xbd); (0xe8, 0x8f, 0x96);
  (0xe8, 0x90, 0x9c); (0xe8, 0x90, 0xb8); (0xe8, 0x90, 0x91); (0xe8, 0x90, 0x86); (0xe8, 0x8f, 0x94); (0xe8, 0x8f, 0x9f); (0xe8, 0x90, 0x8f); (0xe8, 0x90, 0x83);
  (0xe8, 0x8f, 0xb8); (0xe8, 0x8f, 0xb9); (0xe8, 0x8f, 0xaa); (0xe8, 0x8f, 0x85); (0xe8, 0x8f, 0x80); (0xe8, 0x90, 0xa6); (0xe8, 0x8f, 0xb0); (0xe8, 0x8f, 0xa1);
  (0xe8, 0x91, 0x9c); (0xe8, 0x91, 0x91); (0xe8, 0x91, 0x9a); (0xe8, 0x91, 0x99); (0xe8, 0x91, 0xb3); (0xe8, 0x92, 0x87); (0xe8, 0x92, 0x88); (0xe8, 0x91, 0xba);
  (0xe8, 0x92, 0x89); (0xe8, 0x91, 0xb8); (0xe8, 0x90, 0xbc); (0xe8, 0x91, 0x86); (0xe8, 0x91, 0xa9); (0xe8, 0x91, 0xb6); (0xe8, 0x92, 0x8c); (0xe8, 0x92, 0x8e);
  (0xe8, 0x90, 0xb1); (0xe8, 0x91, 0xad); (0xe8, 0x93, 0x81); (0xe8, 0x93, 0x8d); (0xe8, 0x93, 0x90); (0xe8, 0x93, 0xa6); (0xe8, 0x92, 0xbd); (0xe8, 0x93, 0x93);
  (0xe8, 0x93, 0x8a); (0xe8, 0x92, 0xbf); (0xe8, 0x92, 0xba); (0xe8, 0x93, 0xa0); (0xe8, 0x92, 0xa1); (0xe8, 0x92, 0xb9); (0xe8, 0x92, 0xb4); (0xe8, 0x92, 0x97);
  (0xe8, 0x93, 0xa5); (0xe8, 0x93, 0xa3); (0xe8, 0x94, 0x8c); (0xe7, 0x94, 0x8d); (0xe8, 0x94, 0xb8); (0xe8, 0x93, 0xb0); (0xe8, 0x94, 0xb9); (0xe8, 0x94, 0x9f);
  (0xe8, 0x94, 0xba); (0xe8, 0x95, 0x96); (0xe8, 0x94, 0xbb); (0xe8, 0x93, 0xbf); (0xe8, 0x93, 0xbc); (0xe8, 0x95, 0x99)].

Definition utf8_rows_46 : list (Z * Z * Z) := [
  (0xe8, 0x95, 0x88); (0xe8, 0x95, 0xa8); (0xe8, 0x95, 0xa4); (0xe8, 0x95, 0x9e); (0xe8, 0x95, 0xba); (0xe7, 0x9e, 0xa2); (0xe8, 0x95, 0x83); (0xe8, 0x95, 0xb2);
  (0xe8, 0x95, 0xbb); (0xe8, 0x96, 0xa4); (0xe8, 0x96, 0xa8); (0xe8, 0x96, 0x87); (0xe8, 0x96, 0x8f); (0xe8, 0x95, 0xb9); (0xe8, 0x96, 0xae); (0xe8, 0x96, 0x9c);
  (0xe8, 0x96, 0x85); (0xe8, 0x96, 0xb9); (0xe8, 0x96, 0xb7); (0xe8, 0x96, 0xb0); (0xe8, 0x97, 0x93); (0xe8, 0x97, 0x81); (0xe8, 0x97, 0x9c); (0xe8, 0x97, 0xbf);
  (0xe8, 0x98, 0xa7); (0xe8, 0x98, 0x85); (0xe8, 0x98, 0xa9); (0xe8, 0x98, 0x96); (0xe8, 0x98, 0xbc); (0xe5, 0xbb, 0xbe); (0xe5, 0xbc, 0x88); (0xe5, 0xa4, 0xbc);
  (0xe5, 0xa5, 0x81); (0xe8, 0x80, 0xb7); (0xe5, 0xa5, 0x95); (0xe5, 0xa5, 0x9a); (0xe5, 0xa5, 0x98); (0xe5, 0x8c, 0x8f); (0xe5, 0xb0, 0xa2); (0xe5, 0xb0, 0xa5);
  (0xe5, 0xb0, 0xac); (0xe5, 0xb0, 0xb4); (0xe6, 0x89, 0x8c); (0xe6, 0x89, 0xaa); (0xe6, 0x8a, 0x9f); (0xe6, 0x8a, 0xbb); (0xe6, 0x8b, 0x8a); (0xe6, 0x8b, 0x9a);
  (0xe6, 0x8b, 0x97); (0xe6, 0x8b, 0xae); (0xe6, 0x8c, 0xa2); (0xe6, 0x8b, 0xb6); (0xe6, 0x8c, 0xb9); (0xe6, 0x8d, 0x8b); (0xe6, 0x8d, 0x83); (0xe6, 0x8e, 0xad);
  (0xe6, 0x8f, 0xb6); (0xe6, 0x8d, 0xb1); (0xe6, 0x8d, 0xba); (0xe6, 0x8e, 0x8e); (0xe6, 0x8e, 0xb4); (0xe6, 0x8d, 0xad); (0xe6, 0x8e, 0xac); (0xe6, 0x8e, 0x8a);
  (0xe6, 0x8d, 0xa9); (0xe6, 0x8e, 0xae); (0xe6, 0x8e, 0xbc); (0xe6, 0x8f, 0xb2); (0xe6, 0x8f, 0xb8); (0xe6, 0x8f, 0xa0); (0xe6, 0x8f, 0xbf); (0xe6, 0x8f, 0x84);
  (0xe6, 0x8f, 0x9e); (0xe6, 0x8f, 0x8e); (0xe6, 0x91, 0x92); (0xe6, 0x8f, 0x86); (0xe6, 0x8e, 0xbe); (0xe6, 0x91, 0x85); (0xe6, 0x91, 0x81); (0xe6, 0x90, 0x8b);
  (0xe6, 0x90, 0x9b); (0xe6, 0x90, 0xa0); (0xe6, 0x90, 0x8c); (0xe6, 0x90, 0xa6); (0xe6, 0x90, 0xa1); (0xe6, 0x91, 0x9e); (0xe6, 0x92, 0x84); (0xe6, 0x91, 0xad);
  (0xe6, 0x92, 0x96); (0xe6, 0x91, 0xba); (0xe6, 0x92, 0xb7); (0xe6, 0x92, 0xb8); (0xe6, 0x92, 0x99); (0xe6, 0x92, 0xba)].

Definition utf8_rows_47 : list (Z * Z * Z) := [
  (0xe6, 0x93, 0x80); (0xe6, 0x93, 0x90); (0xe6, 0x93, 0x97); (0xe6, 0x93, 0xa4); (0xe6, 0x93, 0xa2); (0xe6, 0x94, 0x89); (0xe6, 0x94, 0xa5); (0xe6, 0x94, 0xae);
  (0xe5, 0xbc, 0x8b); (0xe5, 0xbf, 0x92); (0xe7, 0x94, 0x99); (0xe5, 0xbc, 0x91); (0xe5, 0x8d, 0x9f); (0xe5, 0x8f, 0xb1); (0xe5, 0x8f, 0xbd); (0xe5, 0x8f, 0xa9);
  (0xe5, 0x8f, 0xa8); (0xe5, 0x8f, 0xbb); (0xe5, 0x90, 0x92); (0xe5, 0x90, 0x96); (0xe5, 0x90, 0x86); (0xe5, 0x91, 0x8b); (0xe5, 0x91, 0x92); (0xe5, 0x91, 0x93);
  (0xe5, 0x91, 0x94); (0xe5, 0x91, 0x96); (0xe5, 0x91, 0x83); (0xe5, 0x90, 0xa1); (0xe5, 0x91, 0x97); (0xe5, 0x91, 0x99); (0xe5, 0x90, 0xa3); (0xe5, 0x90, 0xb2);
  (0xe5, 0x92, 0x82); (0xe5, 0x92, 0x94); (0xe5, 0x91, 0xb7); (0xe5, 0x91, 0xb1); (0xe5, 0x91, 0xa4); (0xe5, 0x92, 0x9a); (0xe5, 0x92, 0x9b); (0xe5, 0x92, 0x84);
  (0xe5, 0x91, 0xb6); (0xe5, 0x91, 0xa6); (0xe5, 0x92, 0x9d); (0xe5, 0x93, 0x90); (0xe5, 0x92, 0xad); (0xe5, 0x93, 0x82); (0xe5, 0x92, 0xb4); (0xe5, 0x93, 0x92);
  (0xe5, 0x92, 0xa7); (0xe5, 0x92, 0xa6); (0xe5, 0x93, 0x93); (0xe5, 0x93, 0x94); (0xe5, 0x91, 0xb2); (0xe5, 0x92, 0xa3); (0xe5, 0x93, 0x95); (0xe5, 0x92, 0xbb);
  (0xe5, 0x92, 0xbf); (0xe5, 0x93, 0x8c); (0xe5, 0x93, 0x99); (0xe5, 0x93, 0x9a); (0xe5, 0x93, 0x9c); (0xe5, 0x92, 0xa9); (0xe5, 0x92, 0xaa); (0xe5, 0x92, 0xa4);
  (0xe5, 0x93, 0x9d); (0xe5, 0x93, 0x8f); (0xe5, 0x93, 0x9e); (0xe5, 0x94, 0x9b); (0xe5, 0x93, 0xa7); (0xe5, 0x94, 0xa0); (0xe5, 0x93, 0xbd); (0xe5, 0x94, 0x94);
  (0xe5, 0x93, 0xb3); (0xe5, 0x94, 0xa2); (0xe5, 0x94, 0xa3); (0xe5, 0x94, 0x8f); (0xe5, 0x94, 0x91); (0xe5, 0x94, 0xa7); (0xe5, 0x94, 0xaa); (0xe5, 0x95, 0xa7);
  (0xe5, 0x96, 0x8f); (0xe5, 0x96, 0xb5); (0xe5, 0x95, 0x89); (0xe5, 0x95, 0xad); (0xe5, 0x95, 0x81); (0xe5, 0x95, 0x95); (0xe5, 0x94, 0xbf); (0xe5, 0x95, 0x90);
  (0xe5, 0x94, 0xbc); (0xe5, 0x94, 0xb7); (0xe5, 0x95, 0x96); (0xe5, 0x95, 0xb5); (0xe5, 0x95, 0xb6); (0xe5, 0x95, 0xb7)].

Definition utf8_rows_48 : list (Z * Z * Z) := [
  (0xe5, 0x94, 0xb3); (0xe5, 0x94, 0xb0); (0xe5, 0x95, 0x9c); (0xe5, 0x96, 0x8b); (0xe5, 0x97, 0x92); (0xe5, 0x96, 0x83); (0xe5, 0x96, 0xb1); (0xe5, 0x96, 0xb9);
  (0xe5, 0x96, 0x88); (0xe5, 0x96, 0x81); (0xe5, 0x96, 0x9f); (0xe5, 0x95, 0xbe); (0xe5, 0x97, 0x96); (0xe5, 0x96, 0x91); (0xe5, 0x95, 0xbb); (0xe5, 0x97, 0x9f);
  (0xe5, 0x96, 0xbd); (0xe5, 0x96, 0xbe); (0xe5, 0x96, 0x94); (0xe5, 0x96, 0x99); (0xe5, 0x97, 0xaa); (0xe5, 0x97, 0xb7); (0xe5, 0x97, 0x89); (0xe5, 0x98, 0x9f);
  (0xe5, 0x97, 0x91); (0xe5, 0x97, 0xab); (0xe5, 0x97, 0xac); (0xe5, 0x97, 0x94); (0xe5, 0x97, 0xa6); (0xe5, 0x97, 0x9d); (0xe5, 0x97, 0x84); (0xe5, 0x97, 0xaf);
  (0xe5, 0x97, 0xa5); (0xe5, 0x97, 0xb2); (0xe5, 0x97, 0xb3); (0xe5, 0x97, 0x8c); (0xe5, 0x97, 0x8d); (0xe5, 0x97, 0xa8); (0xe5, 0x97, 0xb5); (0xe5, 0x97, 0xa4);
  (0xe8, 0xbe, 0x94); (0xe5, 0x98, 0x9e); (0xe5, 0x98, 0x88); (0xe5, 0x98, 0x8c); (0xe5, 0x98, 0x81); (0xe5, 0x98, 0xa4); (0xe5, 0x98, 0xa3); (0xe5, 0x97, 0xbe);
  (0xe5, 0x98, 0x80); (0xe5, 0x98, 0xa7); (0xe5, 0x98, 0xad); (0xe5, 0x99, 0x98); (0xe5, 0x98, 0xb9); (0xe5, 0x99, 0x97); (0xe5, 0x98, 0xac); (0xe5, 0x99, 0x8d);
  (0xe5, 0x99, 0xa2); (0xe5, 0x99, 0x99); (0xe5, 0x99, 0x9c); (0xe5, 0x99, 0x8c); (0xe5, 0x99, 0x94); (0xe5, 0x9a, 0x86); (0xe5, 0x99, 0xa4); (0xe5, 0x99, 0xb1);
  (0xe5, 0x99, 0xab); (0xe5, 0x99, 0xbb); (0xe5, 0x99, 0xbc); (0xe5, 0x9a, 0x85); (0xe5, 0x9a, 0x93); (0xe5, 0x9a, 0xaf); (0xe5, 0x9b, 0x94); (0xe5, 0x9b, 0x97);
  (0xe5, 0x9b, 0x9d); (0xe5, 0x9b, 0xa1); (0xe5, 0x9b, 0xb5); (0xe5, 0x9b, 0xab); (0xe5, 0x9b, 0xb9); (0xe5, 0x9b, 0xbf); (0xe5, 0x9c, 0x84); (0xe5, 0x9c, 0x8a);
  (0xe5, 0x9c, 0x89); (0xe5, 0x9c, 0x9c); (0xe5, 0xb8, 0x8f); (0xe5, 0xb8, 0x99); (0xe5, 0xb8, 0x94); (0xe5, 0xb8, 0x91); (0xe5, 0xb8, 0xb1); (0xe5, 0xb8, 0xbb);
  (0xe5, 0xb8, 0xbc); (0xe5, 0xb8, 0xb7); (0xe5, 0xb9, 0x84); (0xe5, 0xb9, 0x94); (0xe5, 0xb9, 0x9b); (0xe5, 0xb9, 0x9e)].

Definition utf8_rows_49 : list (Z * Z * Z) := [
  (0xe5, 0xb9, 0xa1); (0xe5, 0xb2, 0x8c); (0xe5, 0xb1, 0xba); (0xe5, 0xb2, 0x8d); (0xe5, 0xb2, 0x90); (0xe5, 0xb2, 0x96); (0xe5, 0xb2, 0x88); (0xe5, 0xb2, 0x98);
  (0xe5, 0xb2, 0x99); (0xe5, 0xb2, 0x91); (0xe5, 0xb2, 0x9a); (0xe5, 0xb2, 0x9c); (0xe5, 0xb2, 0xb5); (0xe5, 0xb2, 0xa2); (0xe5, 0xb2, 0xbd); (0xe5, 0xb2, 0xac);
  (0xe5, 0xb2, 0xab); (0xe5, 0xb2, 0xb1); (0xe5, 0xb2, 0xa3); (0xe5, 0xb3, 0x81); (0xe5, 0xb2, 0xb7); (0xe5, 0xb3, 0x84); (0xe5, 0xb3, 0x92); (0xe5, 0xb3, 0xa4);
  (0xe5, 0xb3, 0x8b); (0xe5, 0xb3, 0xa5); (0xe5, 0xb4, 0x82); (0xe5, 0xb4, 0x83); (0xe5, 0xb4, 0xa7); (0xe5, 0xb4, 0xa6); (0xe5, 0xb4, 0xae); (0xe5, 0xb4, 0xa4);
  (0xe5, 0xb4, 0x9e); (0xe5, 0xb4, 0x86); (0xe5, 0xb4, 0x9b); (0xe5, 0xb5, 0x98); (0xe5, 0xb4, 0xbe); (0xe5, 0xb4, 0xb4); (0xe5, 0xb4, 0xbd); (0xe5, 0xb5, 0xac);
  (0xe5, 0xb5, 0x9b); (0xe5, 0xb5, 0xaf); (0xe5, 0xb5, 0x9d); (0xe5, 0xb5, 0xab); (0xe5, 0xb5, 0x8b); (0xe5, 0xb5, 0x8a); (0xe5, 0xb5, 0xa9); (0xe5, 0xb5, 0xb4);
  (0xe5, 0xb6, 0x82); (0xe5, 0xb6, 0x99); (0xe5, 0xb6, 0x9d); (0xe8, 0xb1, 0xb3); (0xe5, 0xb6, 0xb7); (0xe5, 0xb7, 0x85); (0xe5, 0xbd, 0xb3); (0xe5, 0xbd, 0xb7);
  (0xe5, 0xbe, 0x82); (0xe5, 0xbe, 0x87); (0xe5, 0xbe, 0x89); (0xe5, 0xbe, 0x8c); (0xe5, 0xbe, 0x95); (0xe5, 0xbe, 0x99); (0xe5, 0xbe, 0x9c); (0xe5, 0xbe, 0xa8);
  (0xe5, 0xbe, 0xad); (0xe5, 0xbe, 0xb5); (0xe5, 0xbe, 0xbc); (0xe8, 0xa1, 0xa2); (0xe5, 0xbd, 0xa1); (0xe7, 0x8a, 0xad); (0xe7, 0x8a, 0xb0); (0xe7, 0x8a, 0xb4);
  (0xe7, 0x8a, 0xb7); (0xe7, 0x8a, 0xb8); (0xe7, 0x8b, 0x83); (0xe7, 0x8b, 0x81); (0xe7, 0x8b, 0x8e); (0xe7, 0x8b, 0x8d); (0xe7, 0x8b, 0x92); (0xe7, 0x8b, 0xa8);
  (0xe7, 0x8b, 0xaf); (0xe7, 0x8b, 0xa9); (0xe7, 0x8b, 0xb2); (0xe7, 0x8b, 0xb4); (0xe7, 0x8b, 0xb7); (0xe7, 0x8c, 0x81); (0xe7, 0x8b, 0xb3); (0xe7, 0x8c, 0x83);
  (0xe7, 0x8b, 0xba); (0xe7, 0x8b, 0xbb); (0xe7, 0x8c, 0x97); (0xe7, 0x8c, 0x93); (0xe7, 0x8c, 0xa1); (0xe7, 0x8c, 0x8a)].

Definition utf8_rows_50 : list (Z * Z * Z) := [
  (0xe7, 0x8c, 0x9e); (0xe7, 0x8c, 0x9d); (0xe7, 0x8c, 0x95); (0xe7, 0x8c, 0xa2); (0xe7, 0x8c, 0xb9); (0xe7, 0x8c, 0xa5); (0xe7, 0x8c, 0xac); (0xe7, 0x8c, 0xb8);
  (0xe7, 0x8c, 0xb1); (0xe7, 0x8d, 0x90); (0xe7, 0x8d, 0x8d); (0xe7, 0x8d, 0x97); (0xe7, 0x8d, 0xa0); (0xe7, 0x8d, 0xac); (0xe7, 0x8d, 0xaf); (0xe7, 0x8d, 0xbe);
  (0xe8, 0x88, 0x9b); (0xe5, 0xa4, 0xa5); (0xe9, 0xa3, 0xa7); (0xe5, 0xa4, 0xa4); (0xe5, 0xa4, 0x82); (0xe9, 0xa5, 0xa3); (0xe9, 0xa5, 0xa7); (0xe9, 0xa5, 0xa8);
  (0xe9, 0xa5, 0xa9); (0xe9, 0xa5, 0xaa); (0xe9, 0xa5, 0xab); (0xe9, 0xa5, 0xac); (0xe9, 0xa5, 0xb4); (0xe9, 0xa5, 0xb7); (0xe9, 0xa5, 0xbd); (0xe9, 0xa6, 0x80);
  (0xe9, 0xa6, 0x84); (0xe9, 0xa6, 0x87); (0xe9, 0xa6, 0x8a); (0xe9, 0xa6, 0x8d); (0xe9, 0xa6, 0x90); (0xe9, 0xa6, 0x91); (0xe9, 0xa6, 0x93); (0xe9, 0xa6, 0x94);
  (0xe9, 0xa6, 0x95); (0xe5, 0xba, 0x80); (0xe5, 0xba, 0x91); (0xe5, 0xba, 0x8b); (0xe5, 0xba, 0x96); (0xe5, 0xba, 0xa5); (0xe5, 0xba, 0xa0); (0xe5, 0xba, 0xb9);
  (0xe5, 0xba, 0xb5); (0xe5, 0xba, 0xbe); (0xe5, 0xba, 0xb3); (0xe8, 0xb5, 0x93); (0xe5, 0xbb, 0x92); (0xe5, 0xbb, 0x91); (0xe5, 0xbb, 0x9b); (0xe5, 0xbb, 0xa8);
  (0xe5, 0xbb, 0xaa); (0xe8, 0x86, 0xba); (0xe5, 0xbf, 0x84); (0xe5, 0xbf, 0x89); (0xe5, 0xbf, 0x96); (0xe5, 0xbf, 0x8f); (0xe6, 0x80, 0x83); (0xe5, 0xbf, 0xae);
  (0xe6, 0x80, 0x84); (0xe5, 0xbf, 0xa1); (0xe5, 0xbf, 0xa4); (0xe5, 0xbf, 0xbe); (0xe6, 0x80, 0x85); (0xe6, 0x80, 0x86); (0xe5, 0xbf, 0xaa); (0xe5, 0xbf, 0xad);
  (0xe5, 0xbf, 0xb8); (0xe6, 0x80, 0x99); (0xe6, 0x80, 0xb5); (0xe6, 0x80, 0xa6); (0xe6, 0x80, 0x9b); (0xe6, 0x80, 0x8f); (0xe6, 0x80, 0x8d); (0xe6, 0x80, 0xa9);
  (0xe6, 0x80, 0xab); (0xe6, 0x80, 0x8a); (0xe6, 0x80, 0xbf); (0xe6, 0x80, 0xa1); (0xe6, 0x81, 0xb8); (0xe6, 0x81, 0xb9); (0xe6, 0x81, 0xbb); (0xe6, 0x81, 0xba);
  (0xe6, 0x81, 0x82); (0xe6, 0x81, 0xaa); (0xe6, 0x81, 0xbd); (0xe6, 0x82, 0x96); (0xe6, 0x82, 0x9a); (0xe6, 0x82, 0xad)].

Definition utf8_rows_51 : list (Z * Z * Z) := [
  (0xe6, 0x82, 0x9d); (0xe6, 0x82, 0x83); (0xe6, 0x82, 0x92); (0xe6, 0x82, 0x8c); (0xe6, 0x82, 0x9b); (0xe6, 0x83, 0xac); (0xe6, 0x82, 0xbb); (0xe6, 0x82, 0xb1);
  (0xe6, 0x83, 0x9d); (0xe6, 0x83, 0x98); (0xe6, 0x83, 0x86); (0xe6, 0x83, 0x9a); (0xe6, 0x82, 0xb4); (0xe6, 0x84, 0xa0); (0xe6, 0x84, 0xa6); (0xe6, 0x84, 0x95);
  (0xe6, 0x84, 0xa3); (0xe6, 0x83, 0xb4); (0xe6, 0x84, 0x80); (0xe6, 0x84, 0x8e); (0xe6, 0x84, 0xab); (0xe6, 0x85, 0x8a); (0xe6, 0x85, 0xb5); (0xe6, 0x86, 0xac);
  (0xe6, 0x86, 0x94); (0xe6, 0x86, 0xa7); (0xe6, 0x86, 0xb7); (0xe6, 0x87, 0x94); (0xe6, 0x87, 0xb5); (0xe5, 0xbf, 0x9d); (0xe9, 0x9a, 0xb3); (0xe9, 0x97, 0xa9);
  (0xe9, 0x97, 0xab); (0xe9, 0x97, 0xb1); (0xe9, 0x97, 0xb3); (0xe9, 0x97, 0xb5); (0xe9, 0x97, 0xb6); (0xe9, 0x97, 0xbc); (0xe9, 0x97, 0xbe); (0xe9, 0x98, 0x83);
  (0xe9, 0x98, 0x84); (0xe9, 0x98, 0x86); (0xe9, 0x98, 0x88); (0xe9, 0x98, 0x8a); (0xe9, 0x98, 0x8b); (0xe9, 0x98, 0x8c); (0xe9, 0x98, 0x8d); (0xe9, 0x98, 0x8f);
  (0xe9, 0x98, 0x92); (0xe9, 0x98, 0x95); (0xe9, 0x98, 0x96); (0xe9, 0x98, 0x97); (0xe9, 0x98, 0x99); (0xe9, 0x98, 0x9a); (0xe4, 0xb8, 0xac); (0xe7, 0x88, 0xbf);
  (0xe6, 0x88, 0x95); (0xe6, 0xb0, 0xb5); (0xe6, 0xb1, 0x94); (0xe6, 0xb1, 0x9c); (0xe6, 0xb1, 0x8a); (0xe6, 0xb2, 0xa3); (0xe6, 0xb2, 0x85); (0xe6, 0xb2, 0x90);
  (0xe6, 0xb2, 0x94); (0xe6, 0xb2, 0x8c); (0xe6, 0xb1, 0xa8); (0xe6, 0xb1, 0xa9); (0xe6, 0xb1, 0xb4); (0xe6, 0xb1, 0xb6); (0xe6, 0xb2, 0x86); (0xe6, 0xb2, 0xa9);
  (0xe6, 0xb3, 0x90); (0xe6, 0xb3, 0x94); (0xe6, 0xb2, 0xad); (0xe6, 0xb3, 0xb7); (0xe6, 0xb3, 0xb8); (0xe6, 0xb3, 0xb1); (0xe6, 0xb3, 0x97); (0xe6, 0xb2, 0xb2);
  (0xe6, 0xb3, 0xa0); (0xe6, 0xb3, 0x96); (0xe6, 0xb3, 0xba); (0xe6, 0xb3, 0xab); (0xe6, 0xb3, 0xae); (0xe6, 0xb2, 0xb1); (0xe6, 0xb3, 0x93); (0xe6, 0xb3, 0xaf);
  (0xe6, 0xb3, 0xbe); (0xe6, 0xb4, 0xb9); (0xe6, 0xb4, 0xa7); (0xe6, 0xb4, 0x8c); (0xe6, 0xb5, 0x83); (0xe6, 0xb5, 0x88)].

Definition utf8_rows_52 : list (Z * Z * Z) := [
  (0xe6, 0xb4, 0x87); (0xe6, 0xb4, 0x84); (0xe6, 0xb4, 0x99); (0xe6, 0xb4, 0x8e); (0xe6, 0xb4, 0xab); (0xe6, 0xb5, 0x8d); (0xe6, 0xb4, 0xae); (0xe6, 0xb4, 0xb5);
  (0xe6, 0xb4, 0x9a); (0xe6, 0xb5, 0x8f); (0xe6, 0xb5, 0x92); (0xe6, 0xb5, 0x94); (0xe6, 0xb4, 0xb3); (0xe6, 0xb6, 0x91); (0xe6, 0xb5, 0xaf); (0xe6, 0xb6, 0x9e);
  (0xe6, 0xb6, 0xa0); (0xe6, 0xb5, 0x9e); (0xe6, 0xb6, 0x93); (0xe6, 0xb6, 0x94); (0xe6, 0xb5, 0x9c); (0xe6, 0xb5, 0xa0); (0xe6, 0xb5, 0xbc); (0xe6, 0xb5, 0xa3);
  (0xe6, 0xb8, 0x9a); (0xe6, 0xb7, 0x87); (0xe6, 0xb7, 0x85); (0xe6, 0xb7, 0x9e); (0xe6, 0xb8, 0x8e); (0xe6, 0xb6, 0xbf); (0xe6, 0xb7, 0xa0); (0xe6, 0xb8, 0x91);
  (0xe6, 0xb7, 0xa6); (0xe6, 0xb7, 0x9d); (0xe6, 0xb7, 0x99); (0xe6, 0xb8, 0x96); (0xe6, 0xb6, 0xab); (0xe6, 0xb8, 0x8c); (0xe6, 0xb6, 0xae); (0xe6, 0xb8, 0xab);
  (0xe6, 0xb9, 0xae); (0xe6, 0xb9, 0x8e); (0xe6, 0xb9, 0xab); (0xe6, 0xba, 0xb2); (0xe6, 0xb9, 0x9f); (0xe6, 0xba, 0x86); (0xe6, 0xb9, 0x93); (0xe6, 0xb9, 0x94);
  (0xe6, 0xb8, 0xb2); (0xe6, 0xb8, 0xa5); (0xe6, 0xb9, 0x84); (0xe6, 0xbb, 0x9f); (0xe6, 0xba, 0xb1); (0xe6, 0xba, 0x98); (0xe6, 0xbb, 0xa0); (0xe6, 0xbc, 0xad);
  (0xe6, 0xbb, 0xa2); (0xe6, 0xba, 0xa5); (0xe6, 0xba, 0xa7); (0xe6, 0xba, 0xbd); (0xe6, 0xba, 0xbb); (0xe6, 0xba, 0xb7); (0xe6, 0xbb, 0x97); (0xe6, 0xba, 0xb4);
  (0xe6, 0xbb, 0x8f); (0xe6, 0xba, 0x8f); (0xe6, 0xbb, 0x82); (0xe6, 0xba, 0x9f); (0xe6, 0xbd, 0xa2); (0xe6, 0xbd, 0x86); (0xe6, 0xbd, 0x87); (0xe6, 0xbc, 0xa4);
  (0xe6, 0xbc, 0x95); (0xe6, 0xbb, 0xb9); (0xe6, 0xbc, 0xaf); (0xe6, 0xbc, 0xb6); (0xe6, 0xbd, 0x8b); (0xe6, 0xbd, 0xb4); (0xe6, 0xbc, 0xaa); (0xe6, 0xbc, 0x89);
  (0xe6, 0xbc, 0xa9); (0xe6, 0xbe, 0x89); (0xe6, 0xbe, 0x8d); (0xe6, 0xbe, 0x8c); (0xe6, 0xbd, 0xb8); (0xe6, 0xbd, 0xb2); (0xe6, 0xbd, 0xbc); (0xe6, 0xbd, 0xba);
  (0xe6, 0xbf, 0x91); (0xe6, 0xbf, 0x89); (0xe6, 0xbe, 0xa7); (0xe6, 0xbe, 0xb9); (0xe6, 0xbe, 0xb6); (0xe6, 0xbf, 0x82)].

Definition utf8_rows_53 : list (Z * Z * Z) := [
  (0xe6, 0xbf, 0xa1); (0xe6, 0xbf, 0xae); (0xe6, 0xbf, 0x9e); (0xe6, 0xbf, 0xa0); (0xe6, 0xbf, 0xaf); (0xe7, 0x80, 0x9a); (0xe7, 0x80, 0xa3); (0xe7, 0x80, 0x9b);
  (0xe7, 0x80, 0xb9); (0xe7, 0x80, 0xb5); (0xe7, 0x81, 0x8f); (0xe7, 0x81, 0x9e); (0xe5, 0xae, 0x80); (0xe5, 0xae, 0x84); (0xe5, 0xae, 0x95); (0xe5, 0xae, 0x93);
  (0xe5, 0xae, 0xa5); (0xe5, 0xae, 0xb8); (0xe7, 0x94, 0xaf); (0xe9, 0xaa, 0x9e); (0xe6, 0x90, 0xb4); (0xe5, 0xaf, 0xa4); (0xe5, 0xaf, 0xae); (0xe8, 0xa4, 0xb0);
  (0xe5, 0xaf, 0xb0); (0xe8, 0xb9, 0x87); (0xe8, 0xac, 0x87); (0xe8, 0xbe, 0xb6); (0xe8, 0xbf, 0x93); (0xe8, 0xbf, 0x95); (0xe8, 0xbf, 0xa5); (0xe8, 0xbf, 0xae);
  (0xe8, 0xbf, 0xa4); (0xe8, 0xbf, 0xa9); (0xe8, 0xbf, 0xa6); (0xe8, 0xbf, 0xb3); (0xe8, 0xbf, 0xa8); (0xe9, 0x80, 0x85); (0xe9, 0x80, 0x84); (0xe9, 0x80, 0x8b);
  (0xe9, 0x80, 0xa6); (0xe9, 0x80, 0x91); (0xe9, 0x80, 0x8d); (0xe9, 0x80, 0x96); (0xe9, 0x80, 0xa1); (0xe9, 0x80, 0xb5); (0xe9, 0x80, 0xb6); (0xe9, 0x80, 0xad);
  (0xe9, 0x80, 0xaf); (0xe9, 0x81, 0x84); (0xe9, 0x81, 0x91); (0xe9, 0x81, 0x92); (0xe9, 0x81, 0x90); (0xe9, 0x81, 0xa8); (0xe9, 0x81, 0x98); (0xe9, 0x81, 0xa2);
  (0xe9, 0x81, 0x9b); (0xe6, 0x9a, 0xb9); (0xe9, 0x81, 0xb4); (0xe9, 0x81, 0xbd); (0xe9, 0x82, 0x82); (0xe9, 0x82, 0x88); (0xe9, 0x82, 0x83); (0xe9, 0x82, 0x8b);
  (0xe5, 0xbd, 0x90); (0xe5, 0xbd, 0x97); (0xe5, 0xbd, 0x96); (0xe5, 0xbd, 0x98); (0xe5, 0xb0, 0xbb); (0xe5, 0x92, 0xab); (0xe5, 0xb1, 0x90); (0xe5, 0xb1, 0x99);
  (0xe5, 0xad, 0xb1); (0xe5, 0xb1, 0xa3); (0xe5, 0xb1, 0xa6); (0xe7, 0xbe, 0xbc); (0xe5, 0xbc, 0xaa); (0xe5, 0xbc, 0xa9); (0xe5, 0xbc, 0xad); (0xe8, 0x89, 0xb4);
  (0xe5, 0xbc, 0xbc); (0xe9, 0xac, 0xbb); (0xe5, 0xb1, 0xae); (0xe5, 0xa6, 0x81); (0xe5, 0xa6, 0x83); (0xe5, 0xa6, 0x8d); (0xe5, 0xa6, 0xa9); (0xe5, 0xa6, 0xaa);
  (0xe5, 0xa6, 0xa3); (0xe5, 0xa6, 0x97); (0xe5, 0xa7, 0x8a); (0xe5, 0xa6, 0xab); (0xe5, 0xa6, 0x9e); (0xe5, 0xa6, 0xa4)].

Definition utf8_rows_54 : list (Z * Z * Z) := [
  (0xe5, 0xa7, 0x92); (0xe5, 0xa6, 0xb2); (0xe5, 0xa6, 0xaf); (0xe5, 0xa7, 0x97); (0xe5, 0xa6, 0xbe); (0xe5, 0xa8, 0x85); (0xe5, 0xa8, 0x86); (0xe5, 0xa7, 0x9d);
  (0xe5, 0xa8, 0x88); (0xe5, 0xa7, 0xa3); (0xe5, 0xa7, 0x98); (0xe5, 0xa7, 0xb9); (0xe5, 0xa8, 0x8c); (0xe5, 0xa8, 0x89); (0xe5, 0xa8, 0xb2); (0xe5, 0xa8, 0xb4);
  (0xe5, 0xa8, 0x91); (0xe5, 0xa8, 0xa3); (0xe5, 0xa8, 0x93); (0xe5, 0xa9, 0x80); (0xe5, 0xa9, 0xa7); (0xe5, 0xa9, 0x8a); (0xe5, 0xa9, 0x95); (0xe5, 0xa8, 0xbc);
  (0xe5, 0xa9, 0xa2); (0xe5, 0xa9, 0xb5); (0xe8, 0x83, 0xac); (0xe5, 0xaa, 0xaa); (0xe5, 0xaa, 0x9b); (0xe5, 0xa9, 0xb7); (0xe5, 0xa9, 0xba); (0xe5, 0xaa, 0xbe);
  (0xe5, 0xab, 0xab); (0xe5, 0xaa, 0xb2); (0xe5, 0xab, 0x92); (0xe5, 0xab, 0x94); (0xe5, 0xaa, 0xb8); (0xe5, 0xab, 0xa0); (0xe5, 0xab, 0xa3); (0xe5, 0xab, 0xb1);
  (0xe5, 0xab, 0x96); (0xe5, 0xab, 0xa6); (0xe5, 0xab, 0x98); (0xe5, 0xab, 0x9c); (0xe5, 0xac, 0x89); (0xe5, 0xac, 0x97); (0xe5, 0xac, 0x96); (0xe5, 0xac, 0xb2);
  (0xe5, 0xac, 0xb7); (0xe5, 0xad, 0x80); (0xe5, 0xb0, 0x95); (0xe5, 0xb0, 0x9c); (0xe5, 0xad, 0x9a); (0xe5, 0xad, 0xa5); (0xe5, 0xad, 0xb3); (0xe5, 0xad, 0x91);
  (0xe5, 0xad, 0x93); (0xe5, 0xad, 0xa2); (0xe9, 0xa9, 0xb5); (0xe9, 0xa9, 0xb7); (0xe9, 0xa9, 0xb8); (0xe9, 0xa9, 0xba); (0xe9, 0xa9, 0xbf); (0xe9, 0xa9, 0xbd);
  (0xe9, 0xaa, 0x80); (0xe9, 0xaa, 0x81); (0xe9, 0xaa, 0x85); (0xe9, 0xaa, 0x88); (0xe9, 0xaa, 0x8a); (0xe9, 0xaa, 0x90); (0xe9, 0xaa, 0x92); (0xe9, 0xaa, 0x93);
  (0xe9, 0xaa, 0x96); (0xe9, 0xaa, 0x98); (0xe9, 0xaa, 0x9b); (0xe9, 0xaa, 0x9c); (0xe9, 0xaa, 0x9d); (0xe9, 0xaa, 0x9f); (0xe9, 0xaa, 0xa0); (0xe9, 0xaa, 0xa2);
  (0xe9, 0xaa, 0xa3); (0xe9, 0xaa, 0xa5); (0xe9, 0xaa, 0xa7); (0xe7, 0xba, 0x9f); (0xe7, 0xba, 0xa1); (0xe7, 0xba, 0xa3); (0xe7, 0xba, 0xa5); (0xe7, 0xba, 0xa8);
  (0xe7, 0xba, 0xa9); (0xe7, 0xba, 0xad); (0xe7, 0xba, 0xb0); (0xe7, 0xba, 0xbe); (0xe7, 0xbb, 0x80); (0xe7, 0xbb, 0x81)].

Definition utf8_rows_55 : list (Z * Z * Z) := [
  (0xe7, 0xbb, 0x82); (0xe7, 0xbb, 0x89); (0xe7, 0xbb, 0x8b); (0xe7, 0xbb, 0x8c); (0xe7, 0xbb, 0x90); (0xe7, 0xbb, 0x94); (0xe7, 0xbb, 0x97); (0xe7, 0xbb, 0x9b);
  (0xe7, 0xbb, 0xa0); (0xe7, 0xbb, 0xa1); (0xe7, 0xbb, 0xa8); (0xe7, 0xbb, 0xab); (0xe7, 0xbb, 0xae); (0xe7, 0xbb, 0xaf); (0xe7, 0xbb, 0xb1); (0xe7, 0xbb, 0xb2);
  (0xe7, 0xbc, 0x8d); (0xe7, 0xbb, 0xb6); (0xe7, 0xbb, 0xba); (0xe7, 0xbb, 0xbb); (0xe7, 0xbb, 0xbe); (0xe7, 0xbc, 0x81); (0xe7, 0xbc, 0x82); (0xe7, 0xbc, 0x83);
  (0xe7, 0xbc, 0x87); (0xe7, 0xbc, 0x88); (0xe7, 0xbc, 0x8b); (0xe7, 0xbc, 0x8c); (0xe7, 0xbc, 0x8f); (0xe7, 0xbc, 0x91); (0xe7, 0xbc, 0x92); (0xe7, 0xbc, 0x97);
  (0xe7, 0xbc, 0x99); (0xe7, 0xbc, 0x9c); (0xe7, 0xbc, 0x9b); (0xe7, 0xbc, 0x9f); (0xe7, 0xbc, 0xa1); (0xe7, 0xbc, 0xa2); (0xe7, 0xbc, 0xa3); (0xe7, 0xbc, 0xa4);
  (0xe7, 0xbc, 0xa5); (0xe7, 0xbc, 0xa6); (0xe7, 0xbc, 0xa7); (0xe7, 0xbc, 0xaa); (0xe7, 0xbc, 0xab); (0xe7, 0xbc, 0xac); (0xe7, 0xbc, 0xad); (0xe7, 0xbc, 0xaf);
  (0xe7, 0xbc, 0xb0); (0xe7, 0xbc, 0xb1); (0xe7, 0xbc, 0xb2); (0xe7, 0xbc, 0xb3); (0xe7, 0xbc, 0xb5); (0xe5, 0xb9, 0xba); (0xe7, 0x95, 0xbf); (0xe5, 0xb7, 0x9b);
  (0xe7, 0x94, 0xbe); (0xe9, 0x82, 0x95); (0xe7, 0x8e, 0x8e); (0xe7, 0x8e, 0x91); (0xe7, 0x8e, 0xae); (0xe7, 0x8e, 0xa2); (0xe7, 0x8e, 0x9f); (0xe7, 0x8f, 0x8f);
  (0xe7, 0x8f, 0x82); (0xe7, 0x8f, 0x91); (0xe7, 0x8e, 0xb7); (0xe7, 0x8e, 0xb3); (0xe7, 0x8f, 0x80); (0xe7, 0x8f, 0x89); (0xe7, 0x8f, 0x88); (0xe7, 0x8f, 0xa5);
  (0xe7, 0x8f, 0x99); (0xe9, 0xa1, 0xbc); (0xe7, 0x90, 0x8a); (0xe7, 0x8f, 0xa9); (0xe7, 0x8f, 0xa7); (0xe7, 0x8f, 0x9e); (0xe7, 0x8e, 0xba); (0xe7, 0x8f, 0xb2);
  (0xe7, 0x90, 0x8f); (0xe7, 0x90, 0xaa); (0xe7, 0x91, 0x9b); (0xe7, 0x90, 0xa6); (0xe7, 0x90, 0xa5); (0xe7, 0x90, 0xa8); (0xe7, 0x90, 0xb0); (0xe7, 0x90, 0xae);
  (0xe7, 0x90, 0xac); (0xe7, 0x90, 0x9b); (0xe7, 0x90, 0x9a); (0xe7, 0x91, 0x81); (0xe7, 0x91, 0x9c); (0xe7, 0x91, 0x97)].

Definition utf8_rows_56 : list (Z * Z * Z) := [
  (0xe7, 0x91, 0x95); (0xe7, 0x91, 0x99); (0xe7, 0x91, 0xb7); (0xe7, 0x91, 0xad); (0xe7, 0x91, 0xbe); (0xe7, 0x92, 0x9c); (0xe7, 0x92, 0x8e); (0xe7, 0x92, 0x80);
  (0xe7, 0x92, 0x81); (0xe7, 0x92, 0x87); (0xe7, 0x92, 0x8b); (0xe7, 0x92, 0x9e); (0xe7, 0x92, 0xa8); (0xe7, 0x92, 0xa9); (0xe7, 0x92, 0x90); (0xe7, 0x92, 0xa7);
  (0xe7, 0x93, 0x92); (0xe7, 0x92, 0xba); (0xe9, 0x9f, 0xaa); (0xe9, 0x9f, 0xab); (0xe9, 0x9f, 0xac); (0xe6, 0x9d, 0x8c); (0xe6, 0x9d, 0x93); (0xe6, 0x9d, 0x9e);
  (0xe6, 0x9d, 0x88); (0xe6, 0x9d, 0xa9); (0xe6, 0x9e, 0xa5); (0xe6, 0x9e, 0x87); (0xe6, 0x9d, 0xaa); (0xe6, 0x9d, 0xb3); (0xe6, 0x9e, 0x98); (0xe6, 0x9e, 0xa7);
  (0xe6, 0x9d, 0xb5); (0xe6, 0x9e, 0xa8); (0xe6, 0x9e, 0x9e); (0xe6, 0x9e, 0xad); (0xe6, 0x9e, 0x8b); (0xe6, 0x9d, 0xb7); (0xe6, 0x9d, 0xbc); (0xe6, 0x9f, 0xb0);
  (0xe6, 0xa0, 0x89); (0xe6, 0x9f, 0x98); (0xe6, 0xa0, 0x8a); (0xe6, 0x9f, 0xa9); (0xe6, 0x9e, 0xb0); (0xe6, 0xa0, 0x8c); (0xe6, 0x9f, 0x99); (0xe6, 0x9e, 0xb5);
  (0xe6, 0x9f, 0x9a); (0xe6, 0x9e, 0xb3); (0xe6, 0x9f, 0x9d); (0xe6, 0xa0, 0x80); (0xe6, 0x9f, 0x83); (0xe6, 0x9e, 0xb8); (0xe6, 0x9f, 0xa2); (0xe6, 0xa0, 0x8e);
  (0xe6, 0x9f, 0x81); (0xe6, 0x9f, 0xbd); (0xe6, 0xa0, 0xb2); (0xe6, 0xa0, 0xb3); (0xe6, 0xa1, 0xa0); (0xe6, 0xa1, 0xa1); (0xe6, 0xa1, 0x8e); (0xe6, 0xa1, 0xa2);
  (0xe6, 0xa1, 0x84); (0xe6, 0xa1, 0xa4); (0xe6, 0xa2, 0x83); (0xe6, 0xa0, 0x9d); (0xe6, 0xa1, 0x95); (0xe6, 0xa1, 0xa6); (0xe6, 0xa1, 0x81); (0xe6, 0xa1, 0xa7);
  (0xe6, 0xa1, 0x80); (0xe6, 0xa0, 0xbe); (0xe6, 0xa1, 0x8a); (0xe6, 0xa1, 0x89); (0xe6, 0xa0, 0xa9); (0xe6, 0xa2, 0xb5); (0xe6, 0xa2, 0x8f); (0xe6, 0xa1, 0xb4);
  (0xe6, 0xa1, 0xb7); (0xe6, 0xa2, 0x93); (0xe6, 0xa1, 0xab); (0xe6, 0xa3, 0x82); (0xe6, 0xa5, 0xae); (0xe6, 0xa3, 0xbc); (0xe6, 0xa4, 0x9f); (0xe6, 0xa4, 0xa0);
  (0xe6, 0xa3, 0xb9); (0xe6, 0xa4, 0xa4); (0xe6, 0xa3, 0xb0); (0xe6, 0xa4, 0x8b); (0xe6, 0xa4, 0x81); (0xe6, 0xa5, 0x97)].

Definition utf8_rows_57 : list (Z * Z * Z) := [
  (0xe6, 0xa3, 0xa3); (0xe6, 0xa4, 0x90); (0xe6, 0xa5, 0xb1); (0xe6, 0xa4, 0xb9); (0xe6, 0xa5, 0xa0); (0xe6, 0xa5, 0x82); (0xe6, 0xa5, 0x9d); (0xe6, 0xa6, 0x84);
  (0xe6, 0xa5, 0xab); (0xe6, 0xa6, 0x80); (0xe6, 0xa6, 0x98); (0xe6, 0xa5, 0xb8); (0xe6, 0xa4, 0xb4); (0xe6, 0xa7, 0x8c); (0xe6, 0xa6, 0x87); (0xe6, 0xa6, 0x88);
  (0xe6, 0xa7, 0x8e); (0xe6, 0xa6, 0x89); (0xe6, 0xa5, 0xa6); (0xe6, 0xa5, 0xa3); (0xe6, 0xa5, 0xb9); (0xe6, 0xa6, 0x9b); (0xe6, 0xa6, 0xa7); (0xe6, 0xa6, 0xbb);
  (0xe6, 0xa6, 0xab); (0xe6, 0xa6, 0xad); (0xe6, 0xa7, 0x94); (0xe6, 0xa6, 0xb1); (0xe6, 0xa7, 0x81); (0xe6, 0xa7, 0x8a); (0xe6, 0xa7, 0x9f); (0xe6, 0xa6, 0x95);
  (0xe6, 0xa7, 0xa0); (0xe6, 0xa6, 0x8d); (0xe6, 0xa7, 0xbf); (0xe6, 0xa8, 0xaf); (0xe6, 0xa7, 0xad); (0xe6, 0xa8, 0x97); (0xe6, 0xa8, 0x98); (0xe6, 0xa9, 0xa5);
  (0xe6, 0xa7, 0xb2); (0xe6, 0xa9, 0x84); (0xe6, 0xa8, 0xbe); (0xe6, 0xaa, 0xa0); (0xe6, 0xa9, 0x90); (0xe6, 0xa9, 0x9b); (0xe6, 0xa8, 0xb5); (0xe6, 0xaa, 0x8e);
  (0xe6, 0xa9, 0xb9); (0xe6, 0xa8, 0xbd); (0xe6, 0xa8, 0xa8); (0xe6, 0xa9, 0x98); (0xe6, 0xa9, 0xbc); (0xe6, 0xaa, 0x91); (0xe6, 0xaa, 0x90); (0xe6, 0xaa, 0xa9);
  (0xe6, 0xaa, 0x97); (0xe6, 0xaa, 0xab); (0xe7, 0x8c, 0xb7); (0xe7, 0x8d, 0x92); (0xe6, 0xae, 0x81); (0xe6, 0xae, 0x82); (0xe6, 0xae, 0x87); (0xe6, 0xae, 0x84);
  (0xe6, 0xae, 0x92); (0xe6, 0xae, 0x93); (0xe6, 0xae, 0x8d); (0xe6, 0xae, 0x9a); (0xe6, 0xae, 0x9b); (0xe6, 0xae, 0xa1); (0xe6, 0xae, 0xaa); (0xe8, 0xbd, 0xab);
  (0xe8, 0xbd, 0xad); (0xe8, 0xbd, 0xb1); (0xe8, 0xbd, 0xb2); (0xe8, 0xbd, 0xb3); (0xe8, 0xbd, 0xb5); (0xe8, 0xbd, 0xb6); (0xe8, 0xbd, 0xb8); (0xe8, 0xbd, 0xb7);
  (0xe8, 0xbd, 0xb9); (0xe8, 0xbd, 0xba); (0xe8, 0xbd, 0xbc); (0xe8, 0xbd, 0xbe); (0xe8, 0xbe, 0x81); (0xe8, 0xbe, 0x82); (0xe8, 0xbe, 0x84); (0xe8, 0xbe, 0x87);
  (0xe8, 0xbe, 0x8b); (0xe8, 0xbe, 0x8d); (0xe8, 0xbe, 0x8e); (0xe8, 0xbe, 0x8f); (0xe8, 0xbe, 0x98); (0xe8, 0xbe, 0x9a)].

Definition utf8_rows_58 : list (Z * Z * Z) := [
  (0xe8, 0xbb, 0x8e); (0xe6, 0x88, 0x8b); (0xe6, 0x88, 0x97); (0xe6, 0x88, 0x9b); (0xe6, 0x88, 0x9f); (0xe6, 0x88, 0xa2); (0xe6, 0x88, 0xa1); (0xe6, 0x88, 0xa5);
  (0xe6, 0x88, 0xa4); (0xe6, 0x88, 0xac); (0xe8, 0x87, 0xa7); (0xe7, 0x93, 0xaf); (0xe7, 0x93, 0xb4); (0xe7, 0x93, 0xbf); (0xe7, 0x94, 0x8f); (0xe7, 0x94, 0x91);
  (0xe7, 0x94, 0x93); (0xe6, 0x94, 0xb4); (0xe6, 0x97, 0xae); (0xe6, 0x97, 0xaf); (0xe6, 0x97, 0xb0); (0xe6, 0x98, 0x8a); (0xe6, 0x98, 0x99); (0xe6, 0x9d, 0xb2);
  (0xe6, 0x98, 0x83); (0xe6, 0x98, 0x95); (0xe6, 0x98, 0x80); (0xe7, 0x82, 0x85); (0xe6, 0x9b, 0xb7); (0xe6, 0x98, 0x9d); (0xe6, 0x98, 0xb4); (0xe6, 0x98, 0xb1);
  (0xe6, 0x98, 0xb6); (0xe6, 0x98, 0xb5); (0xe8, 0x80, 0x86); (0xe6, 0x99, 0x9f); (0xe6, 0x99, 0x94); (0xe6, 0x99, 0x81); (0xe6, 0x99, 0x8f); (0xe6, 0x99, 0x96);
  (0xe6, 0x99, 0xa1); (0xe6, 0x99, 0x97); (0xe6, 0x99, 0xb7); (0xe6, 0x9a, 0x84); (0xe6, 0x9a, 0x8c); (0xe6, 0x9a, 0xa7); (0xe6, 0x9a, 0x9d); (0xe6, 0x9a, 0xbe);
  (0xe6, 0x9b, 0x9b); (0xe6, 0x9b, 0x9c); (0xe6, 0x9b, 0xa6); (0xe6, 0x9b, 0xa9); (0xe8, 0xb4, 0xb2); (0xe8, 0xb4, 0xb3); (0xe8, 0xb4, 0xb6); (0xe8, 0xb4, 0xbb);
  (0xe8, 0xb4, 0xbd); (0xe8, 0xb5, 0x80); (0xe8, 0xb5, 0x85); (0xe8, 0xb5, 0x86); (0xe8, 0xb5, 0x88); (0xe8, 0xb5, 0x89); (0xe8, 0xb5, 0x87); (0xe8, 0xb5, 0x8d);
  (0xe8, 0xb5, 0x95); (0xe8, 0xb5, 0x99); (0xe8, 0xa7, 0x87); (0xe8, 0xa7, 0x8a); (0xe8, 0xa7, 0x8b); (0xe8, 0xa7, 0x8c); (0xe8, 0xa7, 0x8e); (0xe8, 0xa7, 0x8f);
  (0xe8, 0xa7, 0x90); (0xe8, 0xa7, 0x91); (0xe7, 0x89, 0xae); (0xe7, 0x8a, 0x9f); (0xe7, 0x89, 0x9d); (0xe7, 0x89, 0xa6); (0xe7, 0x89, 0xaf); (0xe7, 0x89, 0xbe);
  (0xe7, 0x89, 0xbf); (0xe7, 0x8a, 0x84); (0xe7, 0x8a, 0x8b); (0xe7, 0x8a, 0x8d); (0xe7, 0x8a, 0x8f); (0xe7, 0x8a, 0x92); (0xe6, 0x8c, 0x88); (0xe6, 0x8c, 0xb2);
  (0xe6, 0x8e, 0xb0); (0xe6, 0x90, 0xbf); (0xe6, 0x93, 0x98); (0xe8, 0x80, 0x84); (0xe6, 0xaf, 0xaa); (0xe6, 0xaf, 0xb3)].

Definition utf8_rows_59 : list (Z * Z * Z) := [
  (0xe6, 0xaf, 0xbd); (0xe6, 0xaf, 0xb5); (0xe6, 0xaf, 0xb9); (0xe6, 0xb0, 0x85); (0xe6, 0xb0, 0x87); (0xe6, 0xb0, 0x86); (0xe6, 0xb0, 0x8d); (0xe6, 0xb0, 0x95);
  (0xe6, 0xb0, 0x98); (0xe6, 0xb0, 0x99); (0xe6, 0xb0, 0x9a); (0xe6, 0xb0, 0xa1); (0xe6, 0xb0, 0xa9); (0xe6, 0xb0, 0xa4); (0xe6, 0xb0, 0xaa); (0xe6, 0xb0, 0xb2);
  (0xe6, 0x94, 0xb5); (0xe6, 0x95, 0x95); (0xe6, 0x95, 0xab); (0xe7, 0x89, 0x8d); (0xe7, 0x89, 0x92); (0xe7, 0x89, 0x96); (0xe7, 0x88, 0xb0); (0xe8, 0x99, 0xa2);
  (0xe5, 0x88, 0x96); (0xe8, 0x82, 0x9f); (0xe8, 0x82, 0x9c); (0xe8, 0x82, 0x93); (0xe8, 0x82, 0xbc); (0xe6, 0x9c, 0x8a); (0xe8, 0x82, 0xbd); (0xe8, 0x82, 0xb1);
  (0xe8, 0x82, 0xab); (0xe8, 0x82, 0xad); (0xe8, 0x82, 0xb4); (0xe8, 0x82, 0xb7); (0xe8, 0x83, 0xa7); (0xe8, 0x83, 0xa8); (0xe8, 0x83, 0xa9); (0xe8, 0x83, 0xaa);
  (0xe8, 0x83, 0x9b); (0xe8, 0x83, 0x82); (0xe8, 0x83, 0x84); (0xe8, 0x83, 0x99); (0xe8, 0x83, 0x8d); (0xe8, 0x83, 0x97); (0xe6, 0x9c, 0x90); (0xe8, 0x83, 0x9d);
  (0xe8, 0x83, 0xab); (0xe8, 0x83, 0xb1); (0xe8, 0x83, 0xb4); (0xe8, 0x83, 0xad); (0xe8, 0x84, 0x8d); (0xe8, 0x84, 0x8e); (0xe8, 0x83, 0xb2); (0xe8, 0x83, 0xbc);
  (0xe6, 0x9c, 0x95); (0xe8, 0x84, 0x92); (0xe8, 0xb1, 0x9a); (0xe8, 0x84, 0xb6); (0xe8, 0x84, 0x9e); (0xe8, 0x84, 0xac); (0xe8, 0x84, 0x98); (0xe8, 0x84, 0xb2);
  (0xe8, 0x85, 0x88); (0xe8, 0x85, 0x8c); (0xe8, 0x85, 0x93); (0xe8, 0x85, 0xb4); (0xe8, 0x85, 0x99); (0xe8, 0x85, 0x9a); (0xe8, 0x85, 0xb1); (0xe8, 0x85, 0xa0);
  (0xe8, 0x85, 0xa9); (0xe8, 0x85, 0xbc); (0xe8, 0x85, 0xbd); (0xe8, 0x85, 0xad); (0xe8, 0x85, 0xa7); (0xe5, 0xa1, 0x8d); (0xe5, 0xaa, 0xb5); (0xe8, 0x86, 0x88);
  (0xe8, 0x86, 0x82); (0xe8, 0x86, 0x91); (0xe6, 0xbb, 0x95); (0xe8, 0x86, 0xa3); (0xe8, 0x86, 0xaa); (0xe8, 0x87, 0x8c); (0xe6, 0x9c, 0xa6); (0xe8, 0x87, 0x8a);
  (0xe8, 0x86, 0xbb); (0xe8, 0x87, 0x81); (0xe8, 0x86, 0xa6); (0xe6, 0xac, 0xa4); (0xe6, 0xac, 0xb7); (0xe6, 0xac, 0xb9)].

Definition utf8_rows_60 : list (Z * Z * Z) := [
  (0xe6, 0xad, 0x83); (0xe6, 0xad, 0x86); (0xe6, 0xad, 0x99); (0xe9, 0xa3, 0x91); (0xe9, 0xa3, 0x92); (0xe9, 0xa3, 0x93); (0xe9, 0xa3, 0x95); (0xe9, 0xa3, 0x99);
  (0xe9, 0xa3, 0x9a); (0xe6, 0xae, 0xb3); (0xe5, 0xbd, 0x80); (0xe6, 0xaf, 0x82); (0xe8, 0xa7, 0xb3); (0xe6, 0x96, 0x90); (0xe9, 0xbd, 0x91); (0xe6, 0x96, 0x93);
  (0xe6, 0x96, 0xbc); (0xe6, 0x97, 0x86); (0xe6, 0x97, 0x84); (0xe6, 0x97, 0x83); (0xe6, 0x97, 0x8c); (0xe6, 0x97, 0x8e); (0xe6, 0x97, 0x92); (0xe6, 0x97, 0x96);
  (0xe7, 0x82, 0x80); (0xe7, 0x82, 0x9c); (0xe7, 0x82, 0x96); (0xe7, 0x82, 0x9d); (0xe7, 0x82, 0xbb); (0xe7, 0x83, 0x80); (0xe7, 0x82, 0xb7); (0xe7, 0x82, 0xab);
  (0xe7, 0x82, 0xb1); (0xe7, 0x83, 0xa8); (0xe7, 0x83, 0x8a); (0xe7, 0x84, 0x90); (0xe7, 0x84, 0x93); (0xe7, 0x84, 0x96); (0xe7, 0x84, 0xaf); (0xe7, 0x84, 0xb1);
  (0xe7, 0x85, 0xb3); (0xe7, 0x85, 0x9c); (0xe7, 0x85, 0xa8); (0xe7, 0x85, 0x85); (0xe7, 0x85, 0xb2); (0xe7, 0x85, 0x8a); (0xe7, 0x85, 0xb8); (0xe7, 0x85, 0xba);
  (0xe7, 0x86, 0x98); (0xe7, 0x86, 0xb3); (0xe7, 0x86, 0xb5); (0xe7, 0x86, 0xa8); (0xe7, 0x86, 0xa0); (0xe7, 0x87, 0xa0); (0xe7, 0x87, 0x94); (0xe7, 0x87, 0xa7);
  (0xe7, 0x87, 0xb9); (0xe7, 0x88, 0x9d); (0xe7, 0x88, 0xa8); (0xe7, 0x81, 0xac); (0xe7, 0x84, 0x98); (0xe7, 0x85, 0xa6); (0xe7, 0x86, 0xb9); (0xe6, 0x88, 0xbe);
  (0xe6, 0x88, 0xbd); (0xe6, 0x89, 0x83); (0xe6, 0x89, 0x88); (0xe6, 0x89, 0x89); (0xe7, 0xa4, 0xbb); (0xe7, 0xa5, 0x80); (0xe7, 0xa5, 0x86); (0xe7, 0xa5, 0x89);
  (0xe7, 0xa5, 0x9b); (0xe7, 0xa5, 0x9c); (0xe7, 0xa5, 0x93); (0xe7, 0xa5, 0x9a); (0xe7, 0xa5, 0xa2); (0xe7, 0xa5, 0x97); (0xe7, 0xa5, 0xa0); (0xe7, 0xa5, 0xaf);
  (0xe7, 0xa5, 0xa7); (0xe7, 0xa5, 0xba); (0xe7, 0xa6, 0x85); (0xe7, 0xa6, 0x8a); (0xe7, 0xa6, 0x9a); (0xe7, 0xa6, 0xa7); (0xe7, 0xa6, 0xb3); (0xe5, 0xbf, 0x91);
  (0xe5, 0xbf, 0x90); (0xe6, 0x80, 0xbc); (0xe6, 0x81, 0x9d); (0xe6, 0x81, 0x9a); (0xe6, 0x81, 0xa7); (0xe6, 0x81, 0x81)].

Definition utf8_rows_61 : list (Z * Z * Z) := [
  (0xe6, 0x81, 0x99); (0xe6, 0x81, 0xa3); (0xe6, 0x82, 0xab); (0xe6, 0x84, 0x86); (0xe6, 0x84, 0x8d); (0xe6, 0x85, 0x9d); (0xe6, 0x86, 0xa9); (0xe6, 0x86, 0x9d);
  (0xe6, 0x87, 0x8b); (0xe6, 0x87, 0x91); (0xe6, 0x88, 0x86); (0xe8, 0x82, 0x80); (0xe8, 0x81, 0xbf); (0xe6, 0xb2, 0x93); (0xe6, 0xb3, 0xb6); (0xe6, 0xb7, 0xbc);
  (0xe7, 0x9f, 0xb6); (0xe7, 0x9f, 0xb8); (0xe7, 0xa0, 0x80); (0xe7, 0xa0, 0x89); (0xe7, 0xa0, 0x97); (0xe7, 0xa0, 0x98); (0xe7, 0xa0, 0x91); (0xe6, 0x96, 0xab);
  (0xe7, 0xa0, 0xad); (0xe7, 0xa0, 0x9c); (0xe7, 0xa0, 0x9d); (0xe7, 0xa0, 0xb9); (0xe7, 0xa0, 0xba); (0xe7, 0xa0, 0xbb); (0xe7, 0xa0, 0x9f); (0xe7, 0xa0, 0xbc);
  (0xe7, 0xa0, 0xa5); (0xe7, 0xa0, 0xac); (0xe7, 0xa0, 0xa3); (0xe7, 0xa0, 0xa9); (0xe7, 0xa1, 0x8e); (0xe7, 0xa1, 0xad); (0xe7, 0xa1, 0x96); (0xe7, 0xa1, 0x97);
  (0xe7, 0xa0, 0xa6); (0xe7, 0xa1, 0x90); (0xe7, 0xa1, 0x87); (0xe7, 0xa1, 0x8c); (0xe7, 0xa1, 0xaa); (0xe7, 0xa2, 0x9b); (0xe7, 0xa2, 0x93); (0xe7, 0xa2, 0x9a);
  (0xe7, 0xa2, 0x87); (0xe7, 0xa2, 0x9c); (0xe7, 0xa2, 0xa1); (0xe7, 0xa2, 0xa3); (0xe7, 0xa2, 0xb2); (0xe7, 0xa2, 0xb9); (0xe7, 0xa2, 0xa5); (0xe7, 0xa3, 0x94);
  (0xe7, 0xa3, 0x99); (0xe7, 0xa3, 0x89); (0xe7, 0xa3, 0xac); (0xe7, 0xa3, 0xb2); (0xe7, 0xa4, 0x85); (0xe7, 0xa3, 0xb4); (0xe7, 0xa4, 0x93); (0xe7, 0xa4, 0xa4);
  (0xe7, 0xa4, 0x9e); (0xe7, 0xa4, 0xb4); (0xe9, 0xbe, 0x9b); (0xe9, 0xbb, 0xb9); (0xe9, 0xbb, 0xbb); (0xe9, 0xbb, 0xbc); (0xe7, 0x9b, 0xb1); (0xe7, 0x9c, 0x84);
  (0xe7, 0x9c, 0x8d); (0xe7, 0x9b, 0xb9); (0xe7, 0x9c, 0x87); (0xe7, 0x9c, 0x88); (0xe7, 0x9c, 0x9a); (0xe7, 0x9c, 0xa2); (0xe7, 0x9c, 0x99); (0xe7, 0x9c, 0xad);
  (0xe7, 0x9c, 0xa6); (0xe7, 0x9c, 0xb5); (0xe7, 0x9c, 0xb8); (0xe7, 0x9d, 0x90); (0xe7, 0x9d, 0x91); (0xe7, 0x9d, 0x87); (0xe7, 0x9d, 0x83); (0xe7, 0x9d, 0x9a);
  (0xe7, 0x9d, 0xa8); (0xe7, 0x9d, 0xa2); (0xe7, 0x9d, 0xa5); (0xe7, 0x9d, 0xbf); (0xe7, 0x9e, 0x8d); (0xe7, 0x9d, 0xbd)].

Definition utf8_rows_62 : list (Z * Z * Z) := [
  (0xe7, 0x9e, 0x80); (0xe7, 0x9e, 0x8c); (0xe7, 0x9e, 0x91); (0xe7, 0x9e, 0x9f); (0xe7, 0x9e, 0xa0); (0xe7, 0x9e, 0xb0); (0xe7, 0x9e, 0xb5); (0xe7, 0x9e, 0xbd);
  (0xe7, 0x94, 0xba); (0xe7, 0x95, 0x80); (0xe7, 0x95, 0x8e); (0xe7, 0x95, 0x8b); (0xe7, 0x95, 0x88); (0xe7, 0x95, 0x9b); (0xe7, 0x95, 0xb2); (0xe7, 0x95, 0xb9);
  (0xe7, 0x96, 0x83); (0xe7, 0xbd, 0x98); (0xe7, 0xbd, 0xa1); (0xe7, 0xbd, 0x9f); (0xe8, 0xa9, 0x88); (0xe7, 0xbd, 0xa8); (0xe7, 0xbd, 0xb4); (0xe7, 0xbd, 0xb1);
  (0xe7, 0xbd, 0xb9); (0xe7, 0xbe, 0x81); (0xe7, 0xbd, 0xbe); (0xe7, 0x9b, 0x8d); (0xe7, 0x9b, 0xa5); (0xe8, 0xa0, 0xb2); (0xe9, 0x92, 0x85); (0xe9, 0x92, 0x86);
  (0xe9, 0x92, 0x87); (0xe9, 0x92, 0x8b); (0xe9, 0x92, 0x8a); (0xe9, 0x92, 0x8c); (0xe9, 0x92, 0x8d); (0xe9, 0x92, 0x8f); (0xe9, 0x92, 0x90); (0xe9, 0x92, 0x94);
  (0xe9, 0x92, 0x97); (0xe9, 0x92, 0x95); (0xe9, 0x92, 0x9a); (0xe9, 0x92, 0x9b); (0xe9, 0x92, 0x9c); (0xe9, 0x92, 0xa3); (0xe9, 0x92, 0xa4); (0xe9, 0x92, 0xab);
  (0xe9, 0x92, 0xaa); (0xe9, 0x92, 0xad); (0xe9, 0x92, 0xac); (0xe9, 0x92, 0xaf); (0xe9, 0x92, 0xb0); (0xe9, 0x92, 0xb2); (0xe9, 0x92, 0xb4); (0xe9, 0x92, 0xb6);
  (0xe9, 0x92, 0xb7); (0xe9, 0x92, 0xb8); (0xe9, 0x92, 0xb9); (0xe9, 0x92, 0xba); (0xe9, 0x92, 0xbc); (0xe9, 0x92, 0xbd); (0xe9, 0x92, 0xbf); (0xe9, 0x93, 0x84);
  (0xe9, 0x93, 0x88); (0xe9, 0x93, 0x89); (0xe9, 0x93, 0x8a); (0xe9, 0x93, 0x8b); (0xe9, 0x93, 0x8c); (0xe9, 0x93, 0x8d); (0xe9, 0x93, 0x8e); (0xe9, 0x93, 0x90);
  (0xe9, 0x93, 0x91); (0xe9, 0x93, 0x92); (0xe9, 0x93, 0x95); (0xe9, 0x93, 0x96); (0xe9, 0x93, 0x97); (0xe9, 0x93, 0x99); (0xe9, 0x93, 0x98); (0xe9, 0x93, 0x9b);
  (0xe9, 0x93, 0x9e); (0xe9, 0x93, 0x9f); (0xe9, 0x93, 0xa0); (0xe9, 0x93, 0xa2); (0xe9, 0x93, 0xa4); (0xe9, 0x93, 0xa5); (0xe9, 0x93, 0xa7); (0xe9, 0x93, 0xa8);
  (0xe9, 0x93, 0xaa); (0xe9, 0x93, 0xa9); (0xe9, 0x93, 0xab); (0xe9, 0x93, 0xae); (0xe9, 0x93, 0xaf); (0xe9, 0x93, 0xb3)].

Definition utf8_rows_63 : list (Z * Z * Z) := [
  (0xe9, 0x93, 0xb4); (0xe9, 0x93, 0xb5); (0xe9, 0x93, 0xb7); (0xe9, 0x93, 0xb9); (0xe9, 0x93, 0xbc); (0xe9, 0x93, 0xbd); (0xe9, 0x93, 0xbf); (0xe9, 0x94, 0x83);
  (0xe9, 0x94, 0x82); (0xe9, 0x94, 0x86); (0xe9, 0x94, 0x87); (0xe9, 0x94, 0x89); (0xe9, 0x94, 0x8a); (0xe9, 0x94, 0x8d); (0xe9, 0x94, 0x8e); (0xe9, 0x94, 0x8f);
  (0xe9, 0x94, 0x92); (0xe9, 0x94, 0x93); (0xe9, 0x94, 0x94); (0xe9, 0x94, 0x95); (0xe9, 0x94, 0x96); (0xe9, 0x94, 0x98); (0xe9, 0x94, 0x9b); (0xe9, 0x94, 0x9d);
  (0xe9, 0x94, 0x9e); (0xe9, 0x94, 0x9f); (0xe9, 0x94, 0xa2); (0xe9, 0x94, 0xaa); (0xe9, 0x94, 0xab); (0xe9, 0x94, 0xa9); (0xe9, 0x94, 0xac); (0xe9, 0x94, 0xb1);
  (0xe9, 0x94, 0xb2); (0xe9, 0x94, 0xb4); (0xe9, 0x94, 0xb6); (0xe9, 0x94, 0xb7); (0xe9, 0x94, 0xb8); (0xe9, 0x94, 0xbc); (0xe9, 0x94, 0xbe); (0xe9, 0x94, 0xbf);
  (0xe9, 0x95, 0x82); (0xe9, 0x94, 0xb5); (0xe9, 0x95, 0x84); (0xe9, 0x95, 0x85); (0xe9, 0x95, 0x86); (0xe9, 0x95, 0x89); (0xe9, 0x95, 0x8c); (0xe9, 0x95, 0x8e);
  (0xe9, 0x95, 0x8f); (0xe9, 0x95, 0x92); (0xe9, 0x95, 0x93); (0xe9, 0x95, 0x94); (0xe9, 0x95, 0x96); (0xe9, 0x95, 0x97); (0xe9, 0x95, 0x98); (0xe9, 0x95, 0x99);
  (0xe9, 0x95, 0x9b); (0xe9, 0x95, 0x9e); (0xe9, 0x95, 0x9f); (0xe9, 0x95, 0x9d); (0xe9, 0x95, 0xa1); (0xe9, 0x95, 0xa2); (0xe9, 0x95, 0xa4); (0xe9, 0x95, 0xa5);
  (0xe9, 0x95, 0xa6); (0xe9, 0x95, 0xa7); (0xe9, 0x95, 0xa8); (0xe9, 0x95, 0xa9); (0xe9, 0x95, 0xaa); (0xe9, 0x95, 0xab); (0xe9, 0x95, 0xac); (0xe9, 0x95, 0xaf);
  (0xe9, 0x95, 0xb1); (0xe9, 0x95, 0xb2); (0xe9, 0x95, 0xb3); (0xe9, 0x94, 0xba); (0xe7, 0x9f, 0xa7); (0xe7, 0x9f, 0xac); (0xe9, 0x9b, 0x89); (0xe7, 0xa7, 0x95);
  (0xe7, 0xa7, 0xad); (0xe7, 0xa7, 0xa3); (0xe7, 0xa7, 0xab); (0xe7, 0xa8, 0x86); (0xe5, 0xb5, 0x87); (0xe7, 0xa8, 0x83); (0xe7, 0xa8, 0x82); (0xe7, 0xa8, 0x9e);
  (0xe7, 0xa8, 0x94); (0xe7, 0xa8, 0xb9); (0xe7, 0xa8, 0xb7); (0xe7, 0xa9, 0x91); (0xe9, 0xbb, 0x8f); (0xe9, 0xa6, 0xa5)].

Definition utf8_rows_64 : list (Z * Z * Z) := [
  (0xe7, 0xa9, 0xb0); (0xe7, 0x9a, 0x88); (0xe7, 0x9a, 0x8e); (0xe7, 0x9a, 0x93); (0xe7, 0x9a, 0x99); (0xe7, 0x9a, 0xa4); (0xe7, 0x93, 0x9e); (0xe7, 0x93, 0xa0);
  (0xe7, 0x94, 0xac); (0xe9, 0xb8, 0xa0); (0xe9, 0xb8, 0xa2); (0xe9, 0xb8, 0xa8); (0xe9, 0xb8, 0xa9); (0xe9, 0xb8, 0xaa); (0xe9, 0xb8, 0xab); (0xe9, 0xb8, 0xac);
  (0xe9, 0xb8, 0xb2); (0xe9, 0xb8, 0xb1); (0xe9, 0xb8, 0xb6); (0xe9, 0xb8, 0xb8); (0xe9, 0xb8, 0xb7); (0xe9, 0xb8, 0xb9); (0xe9, 0xb8, 0xba); (0xe9, 0xb8, 0xbe);
  (0xe9, 0xb9, 0x81); (0xe9, 0xb9, 0x82); (0xe9, 0xb9, 0x84); (0xe9, 0xb9, 0x86); (0xe9, 0xb9, 0x87); (0xe9, 0xb9, 0x88); (0xe9, 0xb9, 0x89); (0xe9, 0xb9, 0x8b);
  (0xe9, 0xb9, 0x8c); (0xe9, 0xb9, 0x8e); (0xe9, 0xb9, 0x91); (0xe9, 0xb9, 0x95); (0xe9, 0xb9, 0x97); (0xe9, 0xb9, 0x9a); (0xe9, 0xb9, 0x9b); (0xe9, 0xb9, 0x9c);
  (0xe9, 0xb9, 0x9e); (0xe9, 0xb9, 0xa3); (0xe9, 0xb9, 0xa6); (0xe9, 0xb9, 0xa7); (0xe9, 0xb9, 0xa8); (0xe9, 0xb9, 0xa9); (0xe9, 0xb9, 0xaa); (0xe9, 0xb9, 0xab);
  (0xe9, 0xb9, 0xac); (0xe9, 0xb9, 0xb1); (0xe9, 0xb9, 0xad); (0xe9, 0xb9, 0xb3); (0xe7, 0x96, 0x92); (0xe7, 0x96, 0x94); (0xe7, 0x96, 0x96); (0xe7, 0x96, 0xa0);
  (0xe7, 0x96, 0x9d); (0xe7, 0x96, 0xac); (0xe7, 0x96, 0xa3); (0xe7, 0x96, 0xb3); (0xe7, 0x96, 0xb4); (0xe7, 0x96, 0xb8); (0xe7, 0x97, 0x84); (0xe7, 0x96, 0xb1);
  (0xe7, 0x96, 0xb0); (0xe7, 0x97, 0x83); (0xe7, 0x97, 0x82); (0xe7, 0x97, 0x96); (0xe7, 0x97, 0x8d); (0xe7, 0x97, 0xa3); (0xe7, 0x97, 0xa8); (0xe7, 0x97, 0xa6);
  (0xe7, 0x97, 0xa4); (0xe7, 0x97, 0xab); (0xe7, 0x97, 0xa7); (0xe7, 0x98, 0x83); (0xe7, 0x97, 0xb1); (0xe7, 0x97, 0xbc); (0xe7, 0x97, 0xbf); (0xe7, 0x98, 0x90);
  (0xe7, 0x98, 0x80); (0xe7, 0x98, 0x85); (0xe7, 0x98, 0x8c); (0xe7, 0x98, 0x97); (0xe7, 0x98, 0x8a); (0xe7, 0x98, 0xa5); (0xe7, 0x98, 0x98); (0xe7, 0x98, 0x95);
  (0xe7, 0x98, 0x99); (0xe7, 0x98, 0x9b); (0xe7, 0x98, 0xbc); (0xe7, 0x98, 0xa2); (0xe7, 0x98, 0xa0); (0xe7, 0x99, 0x80)].

Definition utf8_rows_65 : list (Z * Z * Z) := [
  (0xe7, 0x98, 0xad); (0xe7, 0x98, 0xb0); (0xe7, 0x98, 0xbf); (0xe7, 0x98, 0xb5); (0xe7, 0x99, 0x83); (0xe7, 0x98, 0xbe); (0xe7, 0x98, 0xb3); (0xe7, 0x99, 0x8d);
  (0xe7, 0x99, 0x9e); (0xe7, 0x99, 0x94); (0xe7, 0x99, 0x9c); (0xe7, 0x99, 0x96); (0xe7, 0x99, 0xab); (0xe7, 0x99, 0xaf); (0xe7, 0xbf, 0x8a); (0xe7, 0xab, 0xa6);
  (0xe7, 0xa9, 0xb8); (0xe7, 0xa9, 0xb9); (0xe7, 0xaa, 0x80); (0xe7, 0xaa, 0x86); (0xe7, 0xaa, 0x88); (0xe7, 0xaa, 0x95); (0xe7, 0xaa, 0xa6); (0xe7, 0xaa, 0xa0);
  (0xe7, 0xaa, 0xac); (0xe7, 0xaa, 0xa8); (0xe7, 0xaa, 0xad); (0xe7, 0xaa, 0xb3); (0xe8, 0xa1, 0xa4); (0xe8, 0xa1, 0xa9); (0xe8, 0xa1, 0xb2); (0xe8, 0xa1, 0xbd);
  (0xe8, 0xa1, 0xbf); (0xe8, 0xa2, 0x82); (0xe8, 0xa2, 0xa2); (0xe8, 0xa3, 0x86); (0xe8, 0xa2, 0xb7); (0xe8, 0xa2, 0xbc); (0xe8, 0xa3, 0x89); (0xe8, 0xa3, 0xa2);
  (0xe8, 0xa3, 0x8e); (0xe8, 0xa3, 0xa3); (0xe8, 0xa3, 0xa5); (0xe8, 0xa3, 0xb1); (0xe8, 0xa4, 0x9a); (0xe8, 0xa3, 0xbc); (0xe8, 0xa3, 0xa8); (0xe8, 0xa3, 0xbe);
  (0xe8, 0xa3, 0xb0); (0xe8, 0xa4, 0xa1); (0xe8, 0xa4, 0x99); (0xe8, 0xa4, 0x93); (0xe8, 0xa4, 0x9b); (0xe8, 0xa4, 0x8a); (0xe8, 0xa4, 0xb4); (0xe8, 0xa4, 0xab);
  (0xe8, 0xa4, 0xb6); (0xe8, 0xa5, 0x81); (0xe8, 0xa5, 0xa6); (0xe8, 0xa5, 0xbb); (0xe7, 0x96, 0x8b); (0xe8, 0x83, 0xa5); (0xe7, 0x9a, 0xb2); (0xe7, 0x9a, 0xb4);
  (0xe7, 0x9f, 0x9c); (0xe8, 0x80, 0x92); (0xe8, 0x80, 0x94); (0xe8, 0x80, 0x96); (0xe8, 0x80, 0x9c); (0xe8, 0x80, 0xa0); (0xe8, 0x80, 0xa2); (0xe8, 0x80, 0xa5);
  (0xe8, 0x80, 0xa6); (0xe8, 0x80, 0xa7); (0xe8, 0x80, 0xa9); (0xe8, 0x80, 0xa8); (0xe8, 0x80, 0xb1); (0xe8, 0x80, 0x8b); (0xe8, 0x80, 0xb5); (0xe8, 0x81, 0x83);
  (0xe8, 0x81, 0x86); (0xe8, 0x81, 0x8d); (0xe8, 0x81, 0x92); (0xe8, 0x81, 0xa9); (0xe8, 0x81, 0xb1); (0xe8, 0xa6, 0x83); (0xe9, 0xa1, 0xb8); (0xe9, 0xa2, 0x80);
  (0xe9, 0xa2, 0x83); (0xe9, 0xa2, 0x89); (0xe9, 0xa2, 0x8c); (0xe9, 0xa2, 0x8d); (0xe9, 0xa2, 0x8f); (0xe9, 0xa2, 0x94)].

Definition utf8_rows_66 : list (Z * Z * Z) := [
  (0xe9, 0xa2, 0x9a); (0xe9, 0xa2, 0x9b); (0xe9, 0xa2, 0x9e); (0xe9, 0xa2, 0x9f); (0xe9, 0xa2, 0xa1); (0xe9, 0xa2, 0xa2); (0xe9, 0xa2, 0xa5); (0xe9, 0xa2, 0xa6);
  (0xe8, 0x99, 0x8d); (0xe8, 0x99, 0x94); (0xe8, 0x99, 0xac); (0xe8, 0x99, 0xae); (0xe8, 0x99, 0xbf); (0xe8, 0x99, 0xba); (0xe8, 0x99, 0xbc); (0xe8, 0x99, 0xbb);
  (0xe8, 0x9a, 0xa8); (0xe8, 0x9a, 0x8d); (0xe8, 0x9a, 0x8b); (0xe8, 0x9a, 0xac); (0xe8, 0x9a, 0x9d); (0xe8, 0x9a, 0xa7); (0xe8, 0x9a, 0xa3); (0xe8, 0x9a, 0xaa);
  (0xe8, 0x9a, 0x93); (0xe8, 0x9a, 0xa9); (0xe8, 0x9a, 0xb6); (0xe8, 0x9b, 0x84); (0xe8, 0x9a, 0xb5); (0xe8, 0x9b, 0x8e); (0xe8, 0x9a, 0xb0); (0xe8, 0x9a, 0xba);
  (0xe8, 0x9a, 0xb1); (0xe8, 0x9a, 0xaf); (0xe8, 0x9b, 0x89); (0xe8, 0x9b, 0x8f); (0xe8, 0x9a, 0xb4); (0xe8, 0x9b, 0xa9); (0xe8, 0x9b, 0xb1); (0xe8, 0x9b, 0xb2);
  (0xe8, 0x9b, 0xad); (0xe8, 0x9b, 0xb3); (0xe8, 0x9b, 0x90); (0xe8, 0x9c, 0x93); (0xe8, 0x9b, 0x9e); (0xe8, 0x9b, 0xb4); (0xe8, 0x9b, 0x9f); (0xe8, 0x9b, 0x98);
  (0xe8, 0x9b, 0x91); (0xe8, 0x9c, 0x83); (0xe8, 0x9c, 0x87); (0xe8, 0x9b, 0xb8); (0xe8, 0x9c, 0x88); (0xe8, 0x9c, 0x8a); (0xe8, 0x9c, 0x8d); (0xe8, 0x9c, 0x89);
  (0xe8, 0x9c, 0xa3); (0xe8, 0x9c, 0xbb); (0xe8, 0x9c, 0x9e); (0xe8, 0x9c, 0xa5); (0xe8, 0x9c, 0xae); (0xe8, 0x9c, 0x9a); (0xe8, 0x9c, 0xbe); (0xe8, 0x9d, 0x88);
  (0xe8, 0x9c, 0xb4); (0xe8, 0x9c, 0xb1); (0xe8, 0x9c, 0xa9); (0xe8, 0x9c, 0xb7); (0xe8, 0x9c, 0xbf); (0xe8, 0x9e, 0x82); (0xe8, 0x9c, 0xa2); (0xe8, 0x9d, 0xbd);
  (0xe8, 0x9d, 0xbe); (0xe8, 0x9d, 0xbb); (0xe8, 0x9d, 0xa0); (0xe8, 0x9d, 0xb0); (0xe8, 0x9d, 0x8c); (0xe8, 0x9d, 0xae); (0xe8, 0x9e, 0x8b); (0xe8, 0x9d, 0x93);
  (0xe8, 0x9d, 0xa3); (0xe8, 0x9d, 0xbc); (0xe8, 0x9d, 0xa4); (0xe8, 0x9d, 0x99); (0xe8, 0x9d, 0xa5); (0xe8, 0x9e, 0x93); (0xe8, 0x9e, 0xaf); (0xe8, 0x9e, 0xa8);
  (0xe8, 0x9f, 0x92); (0xe8, 0x9f, 0x86); (0xe8, 0x9e, 0x88); (0xe8, 0x9e, 0x85); (0xe8, 0x9e, 0xad); (0xe8, 0x9e, 0x97)].

Definition utf8_rows_67 : list (Z * Z * Z) := [
  (0xe8, 0x9e, 0x83); (0xe8, 0x9e, 0xab); (0xe8, 0x9f, 0xa5); (0xe8, 0x9e, 0xac); (0xe8, 0x9e, 0xb5); (0xe8, 0x9e, 0xb3); (0xe8, 0x9f, 0x8b); (0xe8, 0x9f, 0x93);
  (0xe8, 0x9e, 0xbd); (0xe8, 0x9f, 0x91); (0xe8, 0x9f, 0x80); (0xe8, 0x9f, 0x8a); (0xe8, 0x9f, 0x9b); (0xe8, 0x9f, 0xaa); (0xe8, 0x9f, 0xa0); (0xe8, 0x9f, 0xae);
  (0xe8, 0xa0, 0x96); (0xe8, 0xa0, 0x93); (0xe8, 0x9f, 0xbe); (0xe8, 0xa0, 0x8a); (0xe8, 0xa0, 0x9b); (0xe8, 0xa0, 0xa1); (0xe8, 0xa0, 0xb9); (0xe8, 0xa0, 0xbc);
  (0xe7, 0xbc, 0xb6); (0xe7, 0xbd, 0x82); (0xe7, 0xbd, 0x84); (0xe7, 0xbd, 0x85); (0xe8, 0x88, 0x90); (0xe7, 0xab, 0xba); (0xe7, 0xab, 0xbd); (0xe7, 0xac, 0x88);
  (0xe7, 0xac, 0x83); (0xe7, 0xac, 0x84); (0xe7, 0xac, 0x95); (0xe7, 0xac, 0x8a); (0xe7, 0xac, 0xab); (0xe7, 0xac, 0x8f); (0xe7, 0xad, 0x87); (0xe7, 0xac, 0xb8);
  (0xe7, 0xac, 0xaa); (0xe7, 0xac, 0x99); (0xe7, 0xac, 0xae); (0xe7, 0xac, 0xb1); (0xe7, 0xac, 0xa0); (0xe7, 0xac, 0xa5); (0xe7, 0xac, 0xa4); (0xe7, 0xac, 0xb3);
  (0xe7, 0xac, 0xbe); (0xe7, 0xac, 0x9e); (0xe7, 0xad, 0x98); (0xe7, 0xad, 0x9a); (0xe7, 0xad, 0x85); (0xe7, 0xad, 0xb5); (0xe7, 0xad, 0x8c); (0xe7, 0xad, 0x9d);
  (0xe7, 0xad, 0xa0); (0xe7, 0xad, 0xae); (0xe7, 0xad, 0xbb); (0xe7, 0xad, 0xa2); (0xe7, 0xad, 0xb2); (0xe7, 0xad, 0xb1); (0xe7, 0xae, 0x90); (0xe7, 0xae, 0xa6);
  (0xe7, 0xae, 0xa7); (0xe7, 0xae, 0xb8); (0xe7, 0xae, 0xac); (0xe7, 0xae, 0x9d); (0xe7, 0xae, 0xa8); (0xe7, 0xae, 0x85); (0xe7, 0xae, 0xaa); (0xe7, 0xae, 0x9c);
  (0xe7, 0xae, 0xa2); (0xe7, 0xae, 0xab); (0xe7, 0xae, 0xb4); (0xe7, 0xaf, 0x91); (0xe7, 0xaf, 0x81); (0xe7, 0xaf, 0x8c); (0xe7, 0xaf, 0x9d); (0xe7, 0xaf, 0x9a);
  (0xe7, 0xaf, 0xa5); (0xe7, 0xaf, 0xa6); (0xe7, 0xaf, 0xaa); (0xe7, 0xb0, 0x8c); (0xe7, 0xaf, 0xbe); (0xe7, 0xaf, 0xbc); (0xe7, 0xb0, 0x8f); (0xe7, 0xb0, 0x96);
  (0xe7, 0xb0, 0x8b); (0xe7, 0xb0, 0x9f); (0xe7, 0xb0, 0xaa); (0xe7, 0xb0, 0xa6); (0xe7, 0xb0, 0xb8); (0xe7, 0xb1, 0x81)].

Definition utf8_rows_68 : list (Z * Z * Z) := [
  (0xe7, 0xb1, 0x80); (0xe8, 0x87, 0xbe); (0xe8, 0x88, 0x81); (0xe8, 0x88, 0x82); (0xe8, 0x88, 0x84); (0xe8, 0x87, 0xac); (0xe8, 0xa1, 0x84); (0xe8, 0x88, 0xa1);
  (0xe8, 0x88, 0xa2); (0xe8, 0x88, 0xa3); (0xe8, 0x88, 0xad); (0xe8, 0x88, 0xaf); (0xe8, 0x88, 0xa8); (0xe8, 0x88, 0xab); (0xe8, 0x88, 0xb8); (0xe8, 0x88, 0xbb);
  (0xe8, 0x88, 0xb3); (0xe8, 0x88, 0xb4); (0xe8, 0x88, 0xbe); (0xe8, 0x89, 0x84); (0xe8, 0x89, 0x89); (0xe8, 0x89, 0x8b); (0xe8, 0x89, 0x8f); (0xe8, 0x89, 0x9a);
  (0xe8, 0x89, 0x9f); (0xe8, 0x89, 0xa8); (0xe8, 0xa1, 0xbe); (0xe8, 0xa2, 0x85); (0xe8, 0xa2, 0x88); (0xe8, 0xa3, 0x98); (0xe8, 0xa3, 0x9f); (0xe8, 0xa5, 0x9e);
  (0xe7, 0xbe, 0x9d); (0xe7, 0xbe, 0x9f); (0xe7, 0xbe, 0xa7); (0xe7, 0xbe, 0xaf); (0xe7, 0xbe, 0xb0); (0xe7, 0xbe, 0xb2); (0xe7, 0xb1, 0xbc); (0xe6, 0x95, 0x89);
  (0xe7, 0xb2, 0x91); (0xe7, 0xb2, 0x9d); (0xe7, 0xb2, 0x9c); (0xe7, 0xb2, 0x9e); (0xe7, 0xb2, 0xa2); (0xe7, 0xb2, 0xb2); (0xe7, 0xb2, 0xbc); (0xe7, 0xb2, 0xbd);
  (0xe7, 0xb3, 0x81); (0xe7, 0xb3, 0x87); (0xe7, 0xb3, 0x8c); (0xe7, 0xb3, 0x8d); (0xe7, 0xb3, 0x88); (0xe7, 0xb3, 0x85); (0xe7, 0xb3, 0x97); (0xe7, 0xb3, 0xa8);
  (0xe8, 0x89, 0xae); (0xe6, 0x9a, 0xa8); (0xe7, 0xbe, 0xbf); (0xe7, 0xbf, 0x8e); (0xe7, 0xbf, 0x95); (0xe7, 0xbf, 0xa5); (0xe7, 0xbf, 0xa1); (0xe7, 0xbf, 0xa6);
  (0xe7, 0xbf, 0xa9); (0xe7, 0xbf, 0xae); (0xe7, 0xbf, 0xb3); (0xe7, 0xb3, 0xb8); (0xe7, 0xb5, 0xb7); (0xe7, 0xb6, 0xa6); (0xe7, 0xb6, 0xae); (0xe7, 0xb9, 0x87);
  (0xe7, 0xba, 0x9b); (0xe9, 0xba, 0xb8); (0xe9, 0xba, 0xb4); (0xe8, 0xb5, 0xb3); (0xe8, 0xb6, 0x84); (0xe8, 0xb6, 0x94); (0xe8, 0xb6, 0x91); (0xe8, 0xb6, 0xb1);
  (0xe8, 0xb5, 0xa7); (0xe8, 0xb5, 0xad); (0xe8, 0xb1, 0x87); (0xe8, 0xb1, 0x89); (0xe9, 0x85, 0x8a); (0xe9, 0x85, 0x90); (0xe9, 0x85, 0x8e); (0xe9, 0x85, 0x8f);
  (0xe9, 0x85, 0xa4); (0xe9, 0x85, 0xa2); (0xe9, 0x85, 0xa1); (0xe9, 0x85, 0xb0); (0xe9, 0x85, 0xa9); (0xe9, 0x85, 0xaf)].

Definition utf8_rows_69 : list (Z * Z * Z) := [
  (0xe9, 0x85, 0xbd); (0xe9, 0x85, 0xbe); (0xe9, 0x85, 0xb2); (0xe9, 0x85, 0xb4); (0xe9, 0x85, 0xb9); (0xe9, 0x86, 0x8c); (0xe9, 0x86, 0x85); (0xe9, 0x86, 0x90);
  (0xe9, 0x86, 0x8d); (0xe9, 0x86, 0x91); (0xe9, 0x86, 0xa2); (0xe9, 0x86, 0xa3); (0xe9, 0x86, 0xaa); (0xe9, 0x86, 0xad); (0xe9, 0x86, 0xae); (0xe9, 0x86, 0xaf);
  (0xe9, 0x86, 0xb5); (0xe9, 0x86, 0xb4); (0xe9, 0x86, 0xba); (0xe8, 0xb1, 0x95); (0xe9, 0xb9, 0xbe); (0xe8, 0xb6, 0xb8); (0xe8, 0xb7, 0xab); (0xe8, 0xb8, 0x85);
  (0xe8, 0xb9, 0x99); (0xe8, 0xb9, 0xa9); (0xe8, 0xb6, 0xb5); (0xe8, 0xb6, 0xbf); (0xe8, 0xb6, 0xbc); (0xe8, 0xb6, 0xba); (0xe8, 0xb7, 0x84); (0xe8, 0xb7, 0x96);
  (0xe8, 0xb7, 0x97); (0xe8, 0xb7, 0x9a); (0xe8, 0xb7, 0x9e); (0xe8, 0xb7, 0x8e); (0xe8, 0xb7, 0x8f); (0xe8, 0xb7, 0x9b); (0xe8, 0xb7, 0x86); (0xe8, 0xb7, 0xac);
  (0xe8, 0xb7, 0xb7); (0xe8, 0xb7, 0xb8); (0xe8, 0xb7, 0xa3); (0xe8, 0xb7, 0xb9); (0xe8, 0xb7, 0xbb); (0xe8, 0xb7, 0xa4); (0xe8, 0xb8, 0x89); (0xe8, 0xb7, 0xbd);
  (0xe8, 0xb8, 0x94); (0xe8, 0xb8, 0x9d); (0xe8, 0xb8, 0x9f); (0xe8, 0xb8, 0xac); (0xe8, 0xb8, 0xae); (0xe8, 0xb8, 0xa3); (0xe8, 0xb8, 0xaf); (0xe8, 0xb8, 0xba);
  (0xe8, 0xb9, 0x80); (0xe8, 0xb8, 0xb9); (0xe8, 0xb8, 0xb5); (0xe8, 0xb8, 0xbd); (0xe8, 0xb8, 0xb1); (0xe8, 0xb9, 0x89); (0xe8, 0xb9, 0x81); (0xe8, 0xb9, 0x82);
  (0xe8, 0xb9, 0x91); (0xe8, 0xb9, 0x92); (0xe8, 0xb9, 0x8a); (0xe8, 0xb9, 0xb0); (0xe8, 0xb9, 0xb6); (0xe8, 0xb9, 0xbc); (0xe8, 0xb9, 0xaf); (0xe8, 0xb9, 0xb4);
  (0xe8, 0xba, 0x85); (0xe8, 0xba, 0x8f); (0xe8, 0xba, 0x94); (0xe8, 0xba, 0x90); (0xe8, 0xba, 0x9c); (0xe8, 0xba, 0x9e); (0xe8, 0xb1, 0xb8); (0xe8, 0xb2, 0x82);
  (0xe8, 0xb2, 0x8a); (0xe8, 0xb2, 0x85); (0xe8, 0xb2, 0x98); (0xe8, 0xb2, 0x94); (0xe6, 0x96, 0x9b); (0xe8, 0xa7, 0x96); (0xe8, 0xa7, 0x9e); (0xe8, 0xa7, 0x9a);
  (0xe8, 0xa7, 0x9c); (0xe8, 0xa7, 0xa5); (0xe8, 0xa7, 0xab); (0xe8, 0xa7, 0xaf); (0xe8, 0xa8, 0xbe); (0xe8, 0xac, 0xa6)].

Definition utf8_rows_70 : list (Z * Z * Z) := [
  (0xe9, 0x9d, 0x93); (0xe9, 0x9b, 0xa9); (0xe9, 0x9b, 0xb3); (0xe9, 0x9b, 0xaf); (0xe9, 0x9c, 0x86); (0xe9, 0x9c, 0x81); (0xe9, 0x9c, 0x88); (0xe9, 0x9c, 0x8f);
  (0xe9, 0x9c, 0x8e); (0xe9, 0x9c, 0xaa); (0xe9, 0x9c, 0xad); (0xe9, 0x9c, 0xb0); (0xe9, 0x9c, 0xbe); (0xe9, 0xbe, 0x80); (0xe9, 0xbe, 0x83); (0xe9, 0xbe, 0x85);
  (0xe9, 0xbe, 0x86); (0xe9, 0xbe, 0x87); (0xe9, 0xbe, 0x88); (0xe9, 0xbe, 0x89); (0xe9, 0xbe, 0x8a); (0xe9, 0xbe, 0x8c); (0xe9, 0xbb, 0xbe); (0xe9, 0xbc, 0x8b);
  (0xe9, 0xbc, 0x8d); (0xe9, 0x9a, 0xb9); (0xe9, 0x9a, 0xbc); (0xe9, 0x9a, 0xbd); (0xe9, 0x9b, 0x8e); (0xe9, 0x9b, 0x92); (0xe7, 0x9e, 0xbf); (0xe9, 0x9b, 0xa0);
  (0xe9, 0x8a, 0x8e); (0xe9, 0x8a, 0xae); (0xe9, 0x8b, 0x88); (0xe9, 0x8c, 0xbe); (0xe9, 0x8d, 0xaa); (0xe9, 0x8f, 0x8a); (0xe9, 0x8e, 0x8f); (0xe9, 0x90, 0xbe);
  (0xe9, 0x91, 0xab); (0xe9, 0xb1, 0xbf); (0xe9, 0xb2, 0x82); (0xe9, 0xb2, 0x85); (0xe9, 0xb2, 0x86); (0xe9, 0xb2, 0x87); (0xe9, 0xb2, 0x88); (0xe7, 0xa8, 0xa3);
  (0xe9, 0xb2, 0x8b); (0xe9, 0xb2, 0x8e); (0xe9, 0xb2, 0x90); (0xe9, 0xb2, 0x91); (0xe9, 0xb2, 0x92); (0xe9, 0xb2, 0x94); (0xe9, 0xb2, 0x95); (0xe9, 0xb2, 0x9a);
  (0xe9, 0xb2, 0x9b); (0xe9, 0xb2, 0x9e); (0xe9, 0xb2, 0x9f); (0xe9, 0xb2, 0xa0); (0xe9, 0xb2, 0xa1); (0xe9, 0xb2, 0xa2); (0xe9, 0xb2, 0xa3); (0xe9, 0xb2, 0xa5);
  (0xe9, 0xb2, 0xa6); (0xe9, 0xb2, 0xa7); (0xe9, 0xb2, 0xa8); (0xe9, 0xb2, 0xa9); (0xe9, 0xb2, 0xab); (0xe9, 0xb2, 0xad); (0xe9, 0xb2, 0xae); (0xe9, 0xb2, 0xb0);
  (0xe9, 0xb2, 0xb1); (0xe9, 0xb2, 0xb2); (0xe9, 0xb2, 0xb3); (0xe9, 0xb2, 0xb4); (0xe9, 0xb2, 0xb5); (0xe9, 0xb2, 0xb6); (0xe9, 0xb2, 0xb7); (0xe9, 0xb2, 0xba);
  (0xe9, 0xb2, 0xbb); (0xe9, 0xb2, 0xbc); (0xe9, 0xb2, 0xbd); (0xe9, 0xb3, 0x84); (0xe9, 0xb3, 0x85); (0xe9, 0xb3, 0x86); (0xe9, 0xb3, 0x87); (0xe9, 0xb3, 0x8a);
  (0xe9, 0xb3, 0x8b); (0xe9, 0xb3, 0x8c); (0xe9, 0xb3, 0x8d); (0xe9, 0xb3, 0x8e); (0xe9, 0xb3, 0x8f); (0xe9, 0xb3, 0x90)].

Definition utf8_rows_71 : list (Z * Z * Z) := [
  (0xe9, 0xb3, 0x93); (0xe9, 0xb3, 0x94); (0xe9, 0xb3, 0x95); (0xe9, 0xb3, 0x97); (0xe9, 0xb3, 0x98); (0xe9, 0xb3, 0x99); (0xe9, 0xb3, 0x9c); (0xe9, 0xb3, 0x9d);
  (0xe9, 0xb3, 0x9f); (0xe9, 0xb3, 0xa2); (0xe9, 0x9d, 0xbc); (0xe9, 0x9e, 0x85); (0xe9, 0x9e, 0x91); (0xe9, 0x9e, 0x92); (0xe9, 0x9e, 0x94); (0xe9, 0x9e, 0xaf);
  (0xe9, 0x9e, 0xab); (0xe9, 0x9e, 0xa3); (0xe9, 0x9e, 0xb2); (0xe9, 0x9e, 0xb4); (0xe9, 0xaa, 0xb1); (0xe9, 0xaa, 0xb0); (0xe9, 0xaa, 0xb7); (0xe9, 0xb9, 0x98);
  (0xe9, 0xaa, 0xb6); (0xe9, 0xaa, 0xba); (0xe9, 0xaa, 0xbc); (0xe9, 0xab, 0x81); (0xe9, 0xab, 0x80); (0xe9, 0xab, 0x85); (0xe9, 0xab, 0x82); (0xe9, 0xab, 0x8b);
  (0xe9, 0xab, 0x8c); (0xe9, 0xab, 0x91); (0xe9, 0xad, 0x85); (0xe9, 0xad, 0x83); (0xe9, 0xad, 0x87); (0xe9, 0xad, 0x89); (0xe9, 0xad, 0x88); (0xe9, 0xad, 0x8d);
  (0xe9, 0xad, 0x91); (0xe9, 0xa3, 0xa8); (0xe9, 0xa4, 0x8d); (0xe9, 0xa4, 0xae); (0xe9, 0xa5, 0x95); (0xe9, 0xa5, 0x94); (0xe9, 0xab, 0x9f); (0xe9, 0xab, 0xa1);
  (0xe9, 0xab, 0xa6); (0xe9, 0xab, 0xaf); (0xe9, 0xab, 0xab); (0xe9, 0xab, 0xbb); (0xe9, 0xab, 0xad); (0xe9, 0xab, 0xb9); (0xe9, 0xac, 0x88); (0xe9, 0xac, 0x8f);
  (0xe9, 0xac, 0x93); (0xe9, 0xac, 0x9f); (0xe9, 0xac, 0xa3); (0xe9, 0xba, 0xbd); (0xe9, 0xba, 0xbe); (0xe7, 0xb8, 0xbb); (0xe9, 0xba, 0x82); (0xe9, 0xba, 0x87);
  (0xe9, 0xba, 0x88); (0xe9, 0xba, 0x8b); (0xe9, 0xba, 0x92); (0xe9, 0x8f, 0x96); (0xe9, 0xba, 0x9d); (0xe9, 0xba, 0x9f); (0xe9, 0xbb, 0x9b); (0xe9, 0xbb, 0x9c);
  (0xe9, 0xbb, 0x9d); (0xe9, 0xbb, 0xa0); (0xe9, 0xbb, 0x9f); (0xe9, 0xbb, 0xa2); (0xe9, 0xbb, 0xa9); (0xe9, 0xbb, 0xa7); (0xe9, 0xbb, 0xa5); (0xe9, 0xbb, 0xaa);
  (0xe9, 0xbb, 0xaf); (0xe9, 0xbc, 0xa2); (0xe9, 0xbc, 0xac); (0xe9, 0xbc, 0xaf); (0xe9, 0xbc, 0xb9); (0xe9, 0xbc, 0xb7); (0xe9, 0xbc, 0xbd); (0xe9, 0xbc, 0xbe);
  (0xe9, 0xbd, 0x84)].

Definition t_gb2312_utf8 : list (Z * Z * Z) := concat [
  utf8_rows_00; utf8_rows_01; utf8_rows_02; utf8_rows_03; utf8_rows_04; utf8_rows_05; utf8_rows_06; utf8_rows_07;
  utf8_rows_08; utf8_rows_09; utf8_rows_10; utf8_rows_11; utf8_rows_12; utf8_rows_13; utf8_rows_14; utf8_rows_15;
  utf8_rows_16; utf8_rows_17; utf8_rows_18; utf8_rows_19; utf8_rows_20; utf8_rows_21; utf8_rows_22; utf8_rows_23;
  utf8_rows_24; utf8_rows_25; utf8_rows_26; utf8_rows_27; utf8_rows_28; utf8_rows_29; utf8_rows_30; utf8_rows_31;
  utf8_rows_32; utf8_rows_33; utf8_rows_34; utf8_rows_35; utf8_rows_36; utf8_rows_37; utf8_rows_38; utf8_rows_39;
  utf8_rows_40; utf8_rows_41; utf8_rows_42; utf8_rows_43; utf8_rows_44; utf8_rows_45; utf8_rows_46; utf8_rows_47;
  utf8_rows_48; utf8_rows_49; utf8_rows_50; utf8_rows_51; utf8_rows_52; utf8_rows_53; utf8_rows_54; utf8_rows_55;
  utf8_rows_56; utf8_rows_57; utf8_rows_58; utf8_rows_59; utf8_rows_60; utf8_rows_61; utf8_rows_62; utf8_rows_63;
  utf8_rows_64; utf8_rows_65; utf8_rows_66; utf8_rows_67; utf8_rows_68; utf8_rows_69; utf8_rows_70; utf8_rows_71].

Definition gb_rows_00 : list (Z * Z) := [
  (0x4e00, 0xd2bb); (0x4e01, 0xb6a1); (0x4e03, 0xc6df); (0x4e07, 0xcdf2); (0x4e08, 0xd5c9); (0x4e09, 0xc8fd); (0x4e0a, 0xc9cf); (0x4e0b, 0xcfc2);
  (0x4e0c, 0xd8a2); (0x4e0d, 0xb2bb); (0x4e0e, 0xd3eb); (0x4e10, 0xd8a4); (0x4e11, 0xb3f3); (0x4e13, 0xd7a8); (0x4e14, 0xc7d2); (0x4e15, 0xd8a7);
  (0x4e16, 0xcac0); (0x4e18, 0xc7f0); (0x4e19, 0xb1fb); (0x4e1a, 0xd2b5); (0x4e1b, 0xb4d4); (0x4e1c, 0xb6ab); (0x4e1d, 0xcbbf); (0x4e1e, 0xd8a9);
  (0x4e22, 0xb6aa); (0x4e24, 0xc1bd); (0x4e25, 0xd1cf); (0x4e27, 0xc9a5); (0x4e28, 0xd8ad); (0x4e2a, 0xb8f6); (0x4e2b, 0xd1be); (0x4e2c, 0xe3dc);
  (0x4e2d, 0xd6d0); (0x4e30, 0xb7e1); (0x4e32, 0xb4ae); (0x4e34, 0xc1d9); (0x4e36, 0xd8bc); (0x4e38, 0xcde8); (0x4e39, 0xb5a4); (0x4e3a, 0xceaa);
  (0x4e3b, 0xd6f7); (0x4e3d, 0xc0f6); (0x4e3e, 0xbed9); (0x4e3f, 0xd8af); (0x4e43, 0xc4cb); (0x4e45, 0xbec3); (0x4e47, 0xd8b1); (0x4e48, 0xc3b4);
  (0x4e49, 0xd2e5); (0x4e4b, 0xd6ae); (0x4e4c, 0xceda); (0x4e4d, 0xd5a7); (0x4e4e, 0xbaf5); (0x4e4f, 0xb7a6); (0x4e50, 0xc0d6); (0x4e52, 0xc6b9);
  (0x4e53, 0xc5d2); (0x4e54, 0xc7c7); (0x4e56, 0xb9d4); (0x4e58, 0xb3cb); (0x4e59, 0xd2d2); (0x4e5c, 0xd8bf); (0x4e5d, 0xbec5); (0x4e5e, 0xc6f2);
  (0x4e5f, 0xd2b2); (0x4e60, 0xcfb0); (0x4e61, 0xcfe7); (0x4e66, 0xcae9); (0x4e69, 0xd8c0); (0x4e70, 0xc2f2); (0x4e71, 0xc2d2); (0x4e73, 0xc8e9);
  (0x4e7e, 0xc7ac); (0x4e86, 0xc1cb); (0x4e88, 0xd3e8); (0x4e89, 0xd5f9); (0x4e8b, 0xcac2); (0x4e8c, 0xb6fe); (0x4e8d, 0xd8a1); (0x4e8e, 0xd3da);
  (0x4e8f, 0xbff7); (0x4e91, 0xd4c6); (0x4e92, 0xbba5); (0x4e93, 0xd8c1); (0x4e94, 0xcee5); (0x4e95, 0xbeae); (0x4e98, 0xd8a8); (0x4e9a, 0xd1c7);
  (0x4e9b, 0xd0a9); (0x4e9f, 0xd8bd); (0x4ea0, 0xd9ef); (0x4ea1, 0xcdf6); (0x4ea2, 0xbfba); (0x4ea4, 0xbdbb)].

Definition gb_rows_01 : list (Z * Z) := [
  (0x4ea5, 0xbaa5); (0x4ea6, 0xd2e0); (0x4ea7, 0xb2fa); (0x4ea8, 0xbae0); (0x4ea9, 0xc4b6); (0x4eab, 0xcfed); (0x4eac, 0xbea9); (0x4ead, 0xcda4);
  (0x4eae, 0xc1c1); (0x4eb2, 0xc7d7); (0x4eb3, 0xd9f1); (0x4eb5, 0xd9f4); (0x4eba, 0xc8cb); (0x4ebb, 0xd8e9); (0x4ebf, 0xd2da); (0x4ec0, 0xcab2);
  (0x4ec1, 0xc8ca); (0x4ec2, 0xd8ec); (0x4ec3, 0xd8ea); (0x4ec4, 0xd8c6); (0x4ec5, 0xbdf6); (0x4ec6, 0xc6cd); (0x4ec7, 0xb3f0); (0x4ec9, 0xd8eb);
  (0x4eca, 0xbdf1); (0x4ecb, 0xbde9); (0x4ecd, 0xc8d4); (0x4ece, 0xb4d3); (0x4ed1, 0xc2d8); (0x4ed3, 0xb2d6); (0x4ed4, 0xd7d0); (0x4ed5, 0xcacb);
  (0x4ed6, 0xcbfb); (0x4ed7, 0xd5cc); (0x4ed8, 0xb8b6); (0x4ed9, 0xcfc9); (0x4edd, 0xd9da); (0x4ede, 0xd8f0); (0x4edf, 0xc7aa); (0x4ee1, 0xd8ee);
  (0x4ee3, 0xb4fa); (0x4ee4, 0xc1ee); (0x4ee5, 0xd2d4); (0x4ee8, 0xd8ed); (0x4eea, 0xd2c7); (0x4eeb, 0xd8ef); (0x4eec, 0xc3c7); (0x4ef0, 0xd1f6);
  (0x4ef2, 0xd6d9); (0x4ef3, 0xd8f2); (0x4ef5, 0xd8f5); (0x4ef6, 0xbcfe); (0x4ef7, 0xbcdb); (0x4efb, 0xc8ce); (0x4efd, 0xb7dd); (0x4eff, 0xb7c2);
  (0x4f01, 0xc6f3); (0x4f09, 0xd8f8); (0x4f0a, 0xd2c1); (0x4f0d, 0xcee9); (0x4f0e, 0xbcbf); (0x4f0f, 0xb7fc); (0x4f10, 0xb7a5); (0x4f11, 0xd0dd);
  (0x4f17, 0xd6da); (0x4f18, 0xd3c5); (0x4f19, 0xbbef); (0x4f1a, 0xbbe1); (0x4f1b, 0xd8f1); (0x4f1e, 0xc9a1); (0x4f1f, 0xceb0); (0x4f20, 0xb4ab);
  (0x4f22, 0xd8f3); (0x4f24, 0xc9cb); (0x4f25, 0xd8f6); (0x4f26, 0xc2d7); (0x4f27, 0xd8f7); (0x4f2a, 0xceb1); (0x4f2b, 0xd8f9); (0x4f2f, 0xb2ae);
  (0x4f30, 0xb9c0); (0x4f32, 0xd9a3); (0x4f34, 0xb0e9); (0x4f36, 0xc1e6); (0x4f38, 0xc9ec); (0x4f3a, 0xcbc5); (0x4f3c, 0xcbc6); (0x4f3d, 0xd9a4);
  (0x4f43, 0xb5e8); (0x4f46, 0xb5ab); (0x4f4d, 0xcebb); (0x4f4e, 0xb5cd); (0x4f4f, 0xd7a1); (0x4f50, 0xd7f4)].

Definition gb_rows_02 : list (Z * Z) := [
  (0x4f51, 0xd3d3); (0x4f53, 0xcce5); (0x4f55, 0xbace); (0x4f57, 0xd9a2); (0x4f58, 0xd9dc); (0x4f59, 0xd3e0); (0x4f5a, 0xd8fd); (0x4f5b, 0xb7f0);
  (0x4f5c, 0xd7f7); (0x4f5d, 0xd8fe); (0x4f5e, 0xd8fa); (0x4f5f, 0xd9a1); (0x4f60, 0xc4e3); (0x4f63, 0xd3b6); (0x4f64, 0xd8f4); (0x4f65, 0xd9dd);
  (0x4f67, 0xd8fb); (0x4f69, 0xc5e5); (0x4f6c, 0xc0d0); (0x4f6f, 0xd1f0); (0x4f70, 0xb0db); (0x4f73, 0xbcd1); (0x4f74, 0xd9a6); (0x4f76, 0xd9a5);
  (0x4f7b, 0xd9ac); (0x4f7c, 0xd9ae); (0x4f7e, 0xd9ab); (0x4f7f, 0xcab9); (0x4f83, 0xd9a9); (0x4f84, 0xd6b6); (0x4f88, 0xb3de); (0x4f89, 0xd9a8);
  (0x4f8b, 0xc0fd); (0x4f8d, 0xcacc); (0x4f8f, 0xd9aa); (0x4f91, 0xd9a7); (0x4f94, 0xd9b0); (0x4f97, 0xb6b1); (0x4f9b, 0xb9a9); (0x4f9d, 0xd2c0);
  (0x4fa0, 0xcfc0); (0x4fa3, 0xc2c2); (0x4fa5, 0xbdc4); (0x4fa6, 0xd5ec); (0x4fa7, 0xb2e0); (0x4fa8, 0xc7c8); (0x4fa9, 0xbfeb); (0x4faa, 0xd9ad);
  (0x4fac, 0xd9af); (0x4fae, 0xceea); (0x4faf, 0xbaee); (0x4fb5, 0xc7d6); (0x4fbf, 0xb1e3); (0x4fc3, 0xb4d9); (0x4fc4, 0xb6ed); (0x4fc5, 0xd9b4);
  (0x4fca, 0xbfa1); (0x4fce, 0xd9de); (0x4fcf, 0xc7ce); (0x4fd0, 0xc0fe); (0x4fd1, 0xd9b8); (0x4fd7, 0xcbd7); (0x4fd8, 0xb7fd); (0x4fda, 0xd9b5);
  (0x4fdc, 0xd9b7); (0x4fdd, 0xb1a3); (0x4fde, 0xd3e1); (0x4fdf, 0xd9b9); (0x4fe1, 0xd0c5); (0x4fe3, 0xd9b6); (0x4fe6, 0xd9b1); (0x4fe8, 0xd9b2);
  (0x4fe9, 0xc1a9); (0x4fea, 0xd9b3); (0x4fed, 0xbcf3); (0x4fee, 0xd0de); (0x4fef, 0xb8a9); (0x4ff1, 0xbee3); (0x4ff3, 0xd9bd); (0x4ff8, 0xd9ba);
  (0x4ffa, 0xb0b3); (0x4ffe, 0xd9c2); (0x500c, 0xd9c4); (0x500d, 0xb1b6); (0x500f, 0xd9bf); (0x5012, 0xb5b9); (0x5014, 0xbef3); (0x5018, 0xccc8);
  (0x5019, 0xbaf2); (0x501a, 0xd2d0); (0x501c, 0xd9c3); (0x501f, 0xbde8); (0x5021, 0xb3ab); (0x5025, 0xd9c5)].

Definition gb_rows_03 : list (Z * Z) := [
  (0x5026, 0xbeeb); (0x5028, 0xd9c6); (0x5029, 0xd9bb); (0x502a, 0xc4df); (0x502c, 0xd9be); (0x502d, 0xd9c1); (0x502e, 0xd9c0); (0x503a, 0xd5ae);
  (0x503c, 0xd6b5); (0x503e, 0xc7e3); (0x5043, 0xd9c8); (0x5047, 0xbcd9); (0x5048, 0xd9ca); (0x504c, 0xd9bc); (0x504e, 0xd9cb); (0x504f, 0xc6ab);
  (0x5055, 0xd9c9); (0x505a, 0xd7f6); (0x505c, 0xcda3); (0x5065, 0xbda1); (0x506c, 0xd9cc); (0x5076, 0xc5bc); (0x5077, 0xcdb5); (0x507b, 0xd9cd);
  (0x507e, 0xd9c7); (0x507f, 0xb3a5); (0x5080, 0xbffe); (0x5085, 0xb8b5); (0x5088, 0xc0fc); (0x508d, 0xb0f8); (0x50a3, 0xb4f6); (0x50a5, 0xd9ce);
  (0x50a7, 0xd9cf); (0x50a8, 0xb4a2); (0x50a9, 0xd9d0); (0x50ac, 0xb4df); (0x50b2, 0xb0c1); (0x50ba, 0xd9d1); (0x50bb, 0xc9b5); (0x50cf, 0xcff1);
  (0x50d6, 0xd9d2); (0x50da, 0xc1c5); (0x50e6, 0xd9d6); (0x50e7, 0xc9ae); (0x50ec, 0xd9d5); (0x50ed, 0xd9d4); (0x50ee, 0xd9d7); (0x50f3, 0xcbdb);
  (0x50f5, 0xbda9); (0x50fb, 0xc6a7); (0x5106, 0xd9d3); (0x5107, 0xd9d8); (0x510b, 0xd9d9); (0x5112, 0xc8e5); (0x5121, 0xc0dc); (0x513f, 0xb6f9);
  (0x5140, 0xd8a3); (0x5141, 0xd4ca); (0x5143, 0xd4aa); (0x5144, 0xd0d6); (0x5145, 0xb3e4); (0x5146, 0xd5d7); (0x5148, 0xcfc8); (0x5149, 0xb9e2);
  (0x514b, 0xbfcb); (0x514d, 0xc3e2); (0x5151, 0xb6d2); (0x5154, 0xcdc3); (0x5155, 0xd9ee); (0x5156, 0xd9f0); (0x515a, 0xb5b3); (0x515c, 0xb6b5);
  (0x5162, 0xbea4); (0x5165, 0xc8eb); (0x5168, 0xc8ab); (0x516b, 0xb0cb); (0x516c, 0xb9ab); (0x516d, 0xc1f9); (0x516e, 0xd9e2); (0x5170, 0xc0bc);
  (0x5171, 0xb9b2); (0x5173, 0xb9d8); (0x5174, 0xd0cb); (0x5175, 0xb1f8); (0x5176, 0xc6e4); (0x5177, 0xbedf); (0x5178, 0xb5e4); (0x5179, 0xd7c8);
  (0x517b, 0xd1f8); (0x517c, 0xbce6); (0x517d, 0xcade); (0x5180, 0xbcbd); (0x5181, 0xd9e6); (0x5182, 0xd8e7)].

Definition gb_rows_04 : list (Z * Z) := [
  (0x5185, 0xc4da); (0x5188, 0xb8d4); (0x5189, 0xc8bd); (0x518c, 0xb2e1); (0x518d, 0xd4d9); (0x5192, 0xc3b0); (0x5195, 0xc3e1); (0x5196, 0xdaa2);
  (0x5197, 0xc8df); (0x5199, 0xd0b4); (0x519b, 0xbefc); (0x519c, 0xc5a9); (0x51a0, 0xb9da); (0x51a2, 0xdaa3); (0x51a4, 0xd4a9); (0x51a5, 0xdaa4);
  (0x51ab, 0xd9fb); (0x51ac, 0xb6ac); (0x51af, 0xb7eb); (0x51b0, 0xb1f9); (0x51b1, 0xd9fc); (0x51b2, 0xb3e5); (0x51b3, 0xbef6); (0x51b5, 0xbff6);
  (0x51b6, 0xd2b1); (0x51b7, 0xc0e4); (0x51bb, 0xb6b3); (0x51bc, 0xd9fe); (0x51bd, 0xd9fd); (0x51c0, 0xbebb); (0x51c4, 0xc6e0); (0x51c6, 0xd7bc);
  (0x51c7, 0xdaa1); (0x51c9, 0xc1b9); (0x51cb, 0xb5f2); (0x51cc, 0xc1e8); (0x51cf, 0xbcf5); (0x51d1, 0xb4d5); (0x51db, 0xc1dd); (0x51dd, 0xc4fd);
  (0x51e0, 0xbcb8); (0x51e1, 0xb7b2); (0x51e4, 0xb7ef); (0x51eb, 0xd9ec); (0x51ed, 0xc6be); (0x51ef, 0xbfad); (0x51f0, 0xbbcb); (0x51f3, 0xb5ca);
  (0x51f5, 0xdbc9); (0x51f6, 0xd0d7); (0x51f8, 0xcdb9); (0x51f9, 0xb0bc); (0x51fa, 0xb3f6); (0x51fb, 0xbbf7); (0x51fc, 0xdbca); (0x51fd, 0xbaaf);
  (0x51ff, 0xd4e4); (0x5200, 0xb5b6); (0x5201, 0xb5f3); (0x5202, 0xd8d6); (0x5203, 0xc8d0); (0x5206, 0xb7d6); (0x5207, 0xc7d0); (0x5208, 0xd8d7);
  (0x520a, 0xbfaf); (0x520d, 0xdbbb); (0x520e, 0xd8d8); (0x5211, 0xd0cc); (0x5212, 0xbbae); (0x5216, 0xebbe); (0x5217, 0xc1d0); (0x5218, 0xc1f5);
  (0x5219, 0xd4f2); (0x521a, 0xb8d5); (0x521b, 0xb4b4); (0x521d, 0xb3f5); (0x5220, 0xc9be); (0x5224, 0xc5d0); (0x5228, 0xc5d9); (0x5229, 0xc0fb);
  (0x522b, 0xb1f0); (0x522d, 0xd8d9); (0x522e, 0xb9ce); (0x5230, 0xb5bd); (0x5233, 0xd8da); (0x5236, 0xd6c6); (0x5237, 0xcba2); (0x5238, 0xc8af);
  (0x5239, 0xc9b2); (0x523a, 0xb4cc); (0x523b, 0xbfcc); (0x523d, 0xb9f4); (0x523f, 0xd8db); (0x5240, 0xd8dc)].

Definition gb_rows_05 : list (Z * Z) := [
  (0x5241, 0xb6e7); (0x5242, 0xbcc1); (0x5243, 0xccea); (0x524a, 0xcff7); (0x524c, 0xd8dd); (0x524d, 0xc7b0); (0x5250, 0xb9d0); (0x5251, 0xbda3);
  (0x5254, 0xccde); (0x5256, 0xc6ca); (0x525c, 0xd8e0); (0x525e, 0xd8de); (0x5261, 0xd8df); (0x5265, 0xb0fe); (0x5267, 0xbee7); (0x5269, 0xcaa3);
  (0x526a, 0xbcf4); (0x526f, 0xb8b1); (0x5272, 0xb8ee); (0x527d, 0xd8e2); (0x527f, 0xbdcb); (0x5281, 0xd8e4); (0x5282, 0xd8e3); (0x5288, 0xc5fc);
  (0x5290, 0xd8e5); (0x5293, 0xd8e6); (0x529b, 0xc1a6); (0x529d, 0xc8b0); (0x529e, 0xb0ec); (0x529f, 0xb9a6); (0x52a0, 0xbcd3); (0x52a1, 0xcef1);
  (0x52a2, 0xdbbd); (0x52a3, 0xc1d3); (0x52a8, 0xb6af); (0x52a9, 0xd6fa); (0x52aa, 0xc5ac); (0x52ab, 0xbdd9); (0x52ac, 0xdbbe); (0x52ad, 0xdbbf);
  (0x52b1, 0xc0f8); (0x52b2, 0xbea2); (0x52b3, 0xc0cd); (0x52be, 0xdbc0); (0x52bf, 0xcac6); (0x52c3, 0xb2aa); (0x52c7, 0xd3c2); (0x52c9, 0xc3e3);
  (0x52cb, 0xd1ab); (0x52d0, 0xdbc2); (0x52d2, 0xc0d5); (0x52d6, 0xdbc3); (0x52d8, 0xbfb1); (0x52df, 0xc4bc); (0x52e4, 0xc7da); (0x52f0, 0xdbc4);
  (0x52f9, 0xd9e8); (0x52fa, 0xc9d7); (0x52fe, 0xb9b4); (0x52ff, 0xcef0); (0x5300, 0xd4c8); (0x5305, 0xb0fc); (0x5306, 0xb4d2); (0x5308, 0xd0d9);
  (0x530d, 0xd9e9); (0x530f, 0xdecb); (0x5310, 0xd9eb); (0x5315, 0xd8b0); (0x5316, 0xbbaf); (0x5317, 0xb1b1); (0x5319, 0xb3d7); (0x531a, 0xd8ce);
  (0x531d, 0xd4d1); (0x5320, 0xbdb3); (0x5321, 0xbfef); (0x5323, 0xcfbb); (0x5326, 0xd8d0); (0x532a, 0xb7cb); (0x532e, 0xd8d1); (0x5339, 0xc6a5);
  (0x533a, 0xc7f8); (0x533b, 0xd2bd); (0x533e, 0xd8d2); (0x533f, 0xc4e4); (0x5341, 0xcaae); (0x5343, 0xc7a7); (0x5345, 0xd8a6); (0x5347, 0xc9fd);
  (0x5348, 0xcee7); (0x5349, 0xbbdc); (0x534a, 0xb0eb); (0x534e, 0xbbaa); (0x534f, 0xd0ad); (0x5351, 0xb1b0)].

Definition gb_rows_06 : list (Z * Z) := [
  (0x5352, 0xd7e4); (0x5353, 0xd7bf); (0x5355, 0xb5a5); (0x5356, 0xc2f4); (0x5357, 0xc4cf); (0x535a, 0xb2a9); (0x535c, 0xb2b7); (0x535e, 0xb1e5);
  (0x535f, 0xdfb2); (0x5360, 0xd5bc); (0x5361, 0xbfa8); (0x5362, 0xc2ac); (0x5363, 0xd8d5); (0x5364, 0xc2b1); (0x5366, 0xd8d4); (0x5367, 0xced4);
  (0x5369, 0xdae0); (0x536b, 0xcec0); (0x536e, 0xd8b4); (0x536f, 0xc3ae); (0x5370, 0xd3a1); (0x5371, 0xcea3); (0x5373, 0xbcb4); (0x5374, 0xc8b4);
  (0x5375, 0xc2d1); (0x5377, 0xbeed); (0x5378, 0xd0b6); (0x537a, 0xdae1); (0x537f, 0xc7e4); (0x5382, 0xb3a7); (0x5384, 0xb6f2); (0x5385, 0xccfc);
  (0x5386, 0xc0fa); (0x5389, 0xc0f7); (0x538b, 0xd1b9); (0x538c, 0xd1e1); (0x538d, 0xd8c7); (0x5395, 0xb2de); (0x5398, 0xc0e5); (0x539a, 0xbaf1);
  (0x539d, 0xd8c8); (0x539f, 0xd4ad); (0x53a2, 0xcfe1); (0x53a3, 0xd8c9); (0x53a5, 0xd8ca); (0x53a6, 0xcfc3); (0x53a8, 0xb3f8); (0x53a9, 0xbec7);
  (0x53ae, 0xd8cb); (0x53b6, 0xdbcc); (0x53bb, 0xc8a5); (0x53bf, 0xcfd8); (0x53c1, 0xc8fe); (0x53c2, 0xb2ce); (0x53c8, 0xd3d6); (0x53c9, 0xb2e6);
  (0x53ca, 0xbcb0); (0x53cb, 0xd3d1); (0x53cc, 0xcbab); (0x53cd, 0xb7b4); (0x53d1, 0xb7a2); (0x53d4, 0xcae5); (0x53d6, 0xc8a1); (0x53d7, 0xcadc);
  (0x53d8, 0xb1e4); (0x53d9, 0xd0f0); (0x53db, 0xc5d1); (0x53df, 0xdbc5); (0x53e0, 0xb5fe); (0x53e3, 0xbfda); (0x53e4, 0xb9c5); (0x53e5, 0xbee4);
  (0x53e6, 0xc1ed); (0x53e8, 0xdfb6); (0x53e9, 0xdfb5); (0x53ea, 0xd6bb); (0x53eb, 0xbdd0); (0x53ec, 0xd5d9); (0x53ed, 0xb0c8); (0x53ee, 0xb6a3);
  (0x53ef, 0xbfc9); (0x53f0, 0xcca8); (0x53f1, 0xdfb3); (0x53f2, 0xcab7); (0x53f3, 0xd3d2); (0x53f5, 0xd8cf); (0x53f6, 0xd2b6); (0x53f7, 0xbac5);
  (0x53f8, 0xcbbe); (0x53f9, 0xccbe); (0x53fb, 0xdfb7); (0x53fc, 0xb5f0); (0x53fd, 0xdfb4); (0x5401, 0xd3f5)].

Definition gb_rows_07 : list (Z * Z) := [
  (0x5403, 0xb3d4); (0x5404, 0xb8f7); (0x5406, 0xdfba); (0x5408, 0xbacf); (0x5409, 0xbcaa); (0x540a, 0xb5f5); (0x540c, 0xcdac); (0x540d, 0xc3fb);
  (0x540e, 0xbaf3); (0x540f, 0xc0f4); (0x5410, 0xcdc2); (0x5411, 0xcff2); (0x5412, 0xdfb8); (0x5413, 0xcfc5); (0x5415, 0xc2c0); (0x5416, 0xdfb9);
  (0x5417, 0xc2f0); (0x541b, 0xbefd); (0x541d, 0xc1df); (0x541e, 0xcdcc); (0x541f, 0xd2f7); (0x5420, 0xb7cd); (0x5421, 0xdfc1); (0x5423, 0xdfc4);
  (0x5426, 0xb7f1); (0x5427, 0xb0c9); (0x5428, 0xb6d6); (0x5429, 0xb7d4); (0x542b, 0xbaac); (0x542c, 0xccfd); (0x542d, 0xbfd4); (0x542e, 0xcbb1);
  (0x542f, 0xc6f4); (0x5431, 0xd6a8); (0x5432, 0xdfc5); (0x5434, 0xcee2); (0x5435, 0xb3b3); (0x5438, 0xcefc); (0x5439, 0xb4b5); (0x543b, 0xcec7);
  (0x543c, 0xbaf0); (0x543e, 0xcee1); (0x5440, 0xd1bd); (0x5443, 0xdfc0); (0x5446, 0xb4f4); (0x5448, 0xb3ca); (0x544a, 0xb8e6); (0x544b, 0xdfbb);
  (0x5450, 0xc4c5); (0x5452, 0xdfbc); (0x5453, 0xdfbd); (0x5454, 0xdfbe); (0x5455, 0xc5bb); (0x5456, 0xdfbf); (0x5457, 0xdfc2); (0x5458, 0xd4b1);
  (0x5459, 0xdfc3); (0x545b, 0xc7ba); (0x545c, 0xced8); (0x5462, 0xc4d8); (0x5464, 0xdfca); (0x5466, 0xdfcf); (0x5468, 0xd6dc); (0x5471, 0xdfc9);
  (0x5472, 0xdfda); (0x5473, 0xceb6); (0x5475, 0xbac7); (0x5476, 0xdfce); (0x5477, 0xdfc8); (0x5478, 0xc5de); (0x547b, 0xc9eb); (0x547c, 0xbaf4);
  (0x547d, 0xc3fc); (0x5480, 0xbed7); (0x5482, 0xdfc6); (0x5484, 0xdfcd); (0x5486, 0xc5d8); (0x548b, 0xd5a6); (0x548c, 0xbacd); (0x548e, 0xbecc);
  (0x548f, 0xd3bd); (0x5490, 0xb8c0); (0x5492, 0xd6e4); (0x5494, 0xdfc7); (0x5495, 0xb9be); (0x5496, 0xbfa7); (0x5499, 0xc1fc); (0x549a, 0xdfcb);
  (0x549b, 0xdfcc); (0x549d, 0xdfd0); (0x54a3, 0xdfdb); (0x54a4, 0xdfe5); (0x54a6, 0xdfd7); (0x54a7, 0xdfd6)].

Definition gb_rows_08 : list (Z * Z) := [
  (0x54a8, 0xd7c9); (0x54a9, 0xdfe3); (0x54aa, 0xdfe4); (0x54ab, 0xe5eb); (0x54ac, 0xd2a7); (0x54ad, 0xdfd2); (0x54af, 0xbfa9); (0x54b1, 0xd4db);
  (0x54b3, 0xbfc8); (0x54b4, 0xdfd4); (0x54b8, 0xcfcc); (0x54bb, 0xdfdd); (0x54bd, 0xd1ca); (0x54bf, 0xdfde); (0x54c0, 0xb0a7); (0x54c1, 0xc6b7);
  (0x54c2, 0xdfd3); (0x54c4, 0xbae5); (0x54c6, 0xb6df); (0x54c7, 0xcddb); (0x54c8, 0xb9fe); (0x54c9, 0xd4d5); (0x54cc, 0xdfdf); (0x54cd, 0xcfec);
  (0x54ce, 0xb0a5); (0x54cf, 0xdfe7); (0x54d0, 0xdfd1); (0x54d1, 0xd1c6); (0x54d2, 0xdfd5); (0x54d3, 0xdfd8); (0x54d4, 0xdfd9); (0x54d5, 0xdfdc);
  (0x54d7, 0xbba9); (0x54d9, 0xdfe0); (0x54da, 0xdfe1); (0x54dc, 0xdfe2); (0x54dd, 0xdfe6); (0x54de, 0xdfe8); (0x54df, 0xd3b4); (0x54e5, 0xb8e7);
  (0x54e6, 0xc5b6); (0x54e7, 0xdfea); (0x54e8, 0xc9da); (0x54e9, 0xc1a8); (0x54ea, 0xc4c4); (0x54ed, 0xbfde); (0x54ee, 0xcff8); (0x54f2, 0xd5dc);
  (0x54f3, 0xdfee); (0x54fa, 0xb2b8); (0x54fc, 0xbadf); (0x54fd, 0xdfec); (0x54ff, 0xdbc1); (0x5501, 0xd1e4); (0x5506, 0xcbf4); (0x5507, 0xb4bd);
  (0x5509, 0xb0a6); (0x550f, 0xdff1); (0x5510, 0xccc6); (0x5511, 0xdff2); (0x5514, 0xdfed); (0x551b, 0xdfe9); (0x5520, 0xdfeb); (0x5522, 0xdfef);
  (0x5523, 0xdff0); (0x5524, 0xbbbd); (0x5527, 0xdff3); (0x552a, 0xdff4); (0x552c, 0xbba3); (0x552e, 0xcadb); (0x552f, 0xcea8); (0x5530, 0xe0a7);
  (0x5531, 0xb3aa); (0x5533, 0xe0a6); (0x5537, 0xe0a1); (0x553c, 0xdffe); (0x553e, 0xcdd9); (0x553f, 0xdffc); (0x5541, 0xdffa); (0x5543, 0xbfd0);
  (0x5544, 0xd7c4); (0x5546, 0xc9cc); (0x5549, 0xdff8); (0x554a, 0xb0a1); (0x5550, 0xdffd); (0x5555, 0xdffb); (0x5556, 0xe0a2); (0x555c, 0xe0a8);
  (0x5561, 0xb7c8); (0x5564, 0xc6a1); (0x5565, 0xc9b6); (0x5566, 0xc0b2); (0x5567, 0xdff5); (0x556a, 0xc5be)].

Definition gb_rows_09 : list (Z * Z) := [
  (0x556c, 0xd8c4); (0x556d, 0xdff9); (0x556e, 0xc4f6); (0x5575, 0xe0a3); (0x5576, 0xe0a4); (0x5577, 0xe0a5); (0x5578, 0xd0a5); (0x557b, 0xe0b4);
  (0x557c, 0xcce4); (0x557e, 0xe0b1); (0x5580, 0xbfa6); (0x5581, 0xe0af); (0x5582, 0xceb9); (0x5583, 0xe0ab); (0x5584, 0xc9c6); (0x5587, 0xc0ae);
  (0x5588, 0xe0ae); (0x5589, 0xbaed); (0x558a, 0xbab0); (0x558b, 0xe0a9); (0x558f, 0xdff6); (0x5591, 0xe0b3); (0x5594, 0xe0b8); (0x5598, 0xb4ad);
  (0x5599, 0xe0b9); (0x559c, 0xcfb2); (0x559d, 0xbac8); (0x559f, 0xe0b0); (0x55a7, 0xd0fa); (0x55b1, 0xe0ac); (0x55b3, 0xd4fb); (0x55b5, 0xdff7);
  (0x55b7, 0xc5e7); (0x55b9, 0xe0ad); (0x55bb, 0xd3f7); (0x55bd, 0xe0b6); (0x55be, 0xe0b7); (0x55c4, 0xe0c4); (0x55c5, 0xd0e1); (0x55c9, 0xe0bc);
  (0x55cc, 0xe0c9); (0x55cd, 0xe0ca); (0x55d1, 0xe0be); (0x55d2, 0xe0aa); (0x55d3, 0xc9a4); (0x55d4, 0xe0c1); (0x55d6, 0xe0b2); (0x55dc, 0xcac8);
  (0x55dd, 0xe0c3); (0x55df, 0xe0b5); (0x55e1, 0xcecb); (0x55e3, 0xcbc3); (0x55e4, 0xe0cd); (0x55e5, 0xe0c6); (0x55e6, 0xe0c2); (0x55e8, 0xe0cb);
  (0x55ea, 0xe0ba); (0x55eb, 0xe0bf); (0x55ec, 0xe0c0); (0x55ef, 0xe0c5); (0x55f2, 0xe0c7); (0x55f3, 0xe0c8); (0x55f5, 0xe0cc); (0x55f7, 0xe0bb);
  (0x55fd, 0xcbd4); (0x55fe, 0xe0d5); (0x5600, 0xe0d6); (0x5601, 0xe0d2); (0x5608, 0xe0d0); (0x5609, 0xbcce); (0x560c, 0xe0d1); (0x560e, 0xb8c2);
  (0x560f, 0xd8c5); (0x5618, 0xd0ea); (0x561b, 0xc2ef); (0x561e, 0xe0cf); (0x561f, 0xe0bd); (0x5623, 0xe0d4); (0x5624, 0xe0d3); (0x5627, 0xe0d7);
  (0x562c, 0xe0dc); (0x562d, 0xe0d8); (0x5631, 0xd6f6); (0x5632, 0xb3b0); (0x5634, 0xd7ec); (0x5636, 0xcbbb); (0x5639, 0xe0da); (0x563b, 0xcefb);
  (0x563f, 0xbad9); (0x564c, 0xe0e1); (0x564d, 0xe0dd); (0x564e, 0xd2ad); (0x5654, 0xe0e2); (0x5657, 0xe0db)].

Definition gb_rows_10 : list (Z * Z) := [
  (0x5658, 0xe0d9); (0x5659, 0xe0df); (0x565c, 0xe0e0); (0x5662, 0xe0de); (0x5664, 0xe0e4); (0x5668, 0xc6f7); (0x5669, 0xd8ac); (0x566a, 0xd4eb);
  (0x566b, 0xe0e6); (0x566c, 0xcac9); (0x5671, 0xe0e5); (0x5676, 0xb8c1); (0x567b, 0xe0e7); (0x567c, 0xe0e8); (0x5685, 0xe0e9); (0x5686, 0xe0e3);
  (0x568e, 0xbabf); (0x568f, 0xcce7); (0x5693, 0xe0ea); (0x56a3, 0xcff9); (0x56af, 0xe0eb); (0x56b7, 0xc8c2); (0x56bc, 0xbdc0); (0x56ca, 0xc4d2);
  (0x56d4, 0xe0ec); (0x56d7, 0xe0ed); (0x56da, 0xc7f4); (0x56db, 0xcbc4); (0x56dd, 0xe0ee); (0x56de, 0xbbd8); (0x56df, 0xd8b6); (0x56e0, 0xd2f2);
  (0x56e1, 0xe0ef); (0x56e2, 0xcdc5); (0x56e4, 0xb6da); (0x56eb, 0xe0f1); (0x56ed, 0xd4b0); (0x56f0, 0xc0a7); (0x56f1, 0xb4d1); (0x56f4, 0xcea7);
  (0x56f5, 0xe0f0); (0x56f9, 0xe0f2); (0x56fa, 0xb9cc); (0x56fd, 0xb9fa); (0x56fe, 0xcdbc); (0x56ff, 0xe0f3); (0x5703, 0xc6d4); (0x5704, 0xe0f4);
  (0x5706, 0xd4b2); (0x5708, 0xc8a6); (0x5709, 0xe0f6); (0x570a, 0xe0f5); (0x571c, 0xe0f7); (0x571f, 0xcdc1); (0x5723, 0xcaa5); (0x5728, 0xd4da);
  (0x5729, 0xdbd7); (0x572a, 0xdbd9); (0x572c, 0xdbd8); (0x572d, 0xb9e7); (0x572e, 0xdbdc); (0x572f, 0xdbdd); (0x5730, 0xb5d8); (0x5733, 0xdbda);
  (0x5739, 0xdbdb); (0x573a, 0xb3a1); (0x573b, 0xdbdf); (0x573e, 0xbbf8); (0x5740, 0xd6b7); (0x5742, 0xdbe0); (0x5747, 0xbef9); (0x574a, 0xb7bb);
  (0x574c, 0xdbd0); (0x574d, 0xccae); (0x574e, 0xbfb2); (0x574f, 0xbbb5); (0x5750, 0xd7f8); (0x5751, 0xbfd3); (0x5757, 0xbfe9); (0x575a, 0xbce1);
  (0x575b, 0xccb3); (0x575c, 0xdbde); (0x575d, 0xb0d3); (0x575e, 0xceeb); (0x575f, 0xb7d8); (0x5760, 0xd7b9); (0x5761, 0xc6c2); (0x5764, 0xc0a4);
  (0x5766, 0xccb9); (0x5768, 0xdbe7); (0x5769, 0xdbe1); (0x576a, 0xc6ba); (0x576b, 0xdbe3); (0x576d, 0xdbe8)].

Definition gb_rows_11 : list (Z * Z) := [
  (0x576f, 0xc5f7); (0x5773, 0xdbea); (0x5776, 0xdbe9); (0x5777, 0xbfc0); (0x577b, 0xdbe6); (0x577c, 0xdbe5); (0x5782, 0xb4b9); (0x5783, 0xc0ac);
  (0x5784, 0xc2a2); (0x5785, 0xdbe2); (0x5786, 0xdbe4); (0x578b, 0xd0cd); (0x578c, 0xdbed); (0x5792, 0xc0dd); (0x5793, 0xdbf2); (0x579b, 0xb6e2);
  (0x57a0, 0xdbf3); (0x57a1, 0xdbd2); (0x57a2, 0xb9b8); (0x57a3, 0xd4ab); (0x57a4, 0xdbec); (0x57a6, 0xbfd1); (0x57a7, 0xdbf0); (0x57a9, 0xdbd1);
  (0x57ab, 0xb5e6); (0x57ad, 0xdbeb); (0x57ae, 0xbfe5); (0x57b2, 0xdbee); (0x57b4, 0xdbf1); (0x57b8, 0xdbf9); (0x57c2, 0xb9a1); (0x57c3, 0xb0a3);
  (0x57cb, 0xc2f1); (0x57ce, 0xb3c7); (0x57cf, 0xdbef); (0x57d2, 0xdbf8); (0x57d4, 0xc6d2); (0x57d5, 0xdbf4); (0x57d8, 0xdbf5); (0x57d9, 0xdbf7);
  (0x57da, 0xdbf6); (0x57dd, 0xdbfe); (0x57df, 0xd3f2); (0x57e0, 0xb2ba); (0x57e4, 0xdbfd); (0x57ed, 0xdca4); (0x57ef, 0xdbfb); (0x57f4, 0xdbfa);
  (0x57f8, 0xdbfc); (0x57f9, 0xc5e0); (0x57fa, 0xbbf9); (0x57fd, 0xdca3); (0x5800, 0xdca5); (0x5802, 0xccc3); (0x5806, 0xb6d1); (0x5807, 0xddc0);
  (0x580b, 0xdca1); (0x580d, 0xdca2); (0x5811, 0xc7b5); (0x5815, 0xb6e9); (0x5819, 0xdca7); (0x581e, 0xdca6); (0x5820, 0xdca9); (0x5821, 0xb1a4);
  (0x5824, 0xb5cc); (0x582a, 0xbfb0); (0x5830, 0xd1df); (0x5835, 0xb6c2); (0x5844, 0xdca8); (0x584c, 0xcbfa); (0x584d, 0xebf3); (0x5851, 0xcbdc);
  (0x5854, 0xcbfe); (0x5858, 0xccc1); (0x585e, 0xc8fb); (0x5865, 0xdcaa); (0x586b, 0xccee); (0x586c, 0xdcab); (0x587e, 0xdbd3); (0x5880, 0xdcaf);
  (0x5881, 0xdcac); (0x5883, 0xbeb3); (0x5885, 0xcafb); (0x5889, 0xdcad); (0x5892, 0xc9ca); (0x5893, 0xc4b9); (0x5899, 0xc7bd); (0x589a, 0xdcae);
  (0x589e, 0xd4f6); (0x589f, 0xd0e6); (0x58a8, 0xc4ab); (0x58a9, 0xb6d5); (0x58bc, 0xdbd4); (0x58c1, 0xb1da)].

Definition gb_rows_12 : list (Z * Z) := [
  (0x58c5, 0xdbd5); (0x58d1, 0xdbd6); (0x58d5, 0xbabe); (0x58e4, 0xc8c0); (0x58eb, 0xcabf); (0x58ec, 0xc8c9); (0x58ee, 0xd7b3); (0x58f0, 0xc9f9);
  (0x58f3, 0xbfc7); (0x58f6, 0xbaf8); (0x58f9, 0xd2bc); (0x5902, 0xe2ba); (0x5904, 0xb4a6); (0x5907, 0xb1b8); (0x590d, 0xb8b4); (0x590f, 0xcfc4);
  (0x5914, 0xd9e7); (0x5915, 0xcfa6); (0x5916, 0xcde2); (0x5919, 0xd9ed); (0x591a, 0xb6e0); (0x591c, 0xd2b9); (0x591f, 0xb9bb); (0x5924, 0xe2b9);
  (0x5925, 0xe2b7); (0x5927, 0xb4f3); (0x5929, 0xccec); (0x592a, 0xccab); (0x592b, 0xb7f2); (0x592d, 0xd8b2); (0x592e, 0xd1eb); (0x592f, 0xbabb);
  (0x5931, 0xcaa7); (0x5934, 0xcdb7); (0x5937, 0xd2c4); (0x5938, 0xbfe4); (0x5939, 0xbcd0); (0x593a, 0xb6e1); (0x593c, 0xdec5); (0x5941, 0xdec6);
  (0x5942, 0xdbbc); (0x5944, 0xd1d9); (0x5947, 0xc6e6); (0x5948, 0xc4ce); (0x5949, 0xb7ee); (0x594b, 0xb7dc); (0x594e, 0xbffc); (0x594f, 0xd7e0);
  (0x5951, 0xc6f5); (0x5954, 0xb1bc); (0x5955, 0xdec8); (0x5956, 0xbdb1); (0x5957, 0xccd7); (0x5958, 0xdeca); (0x595a, 0xdec9); (0x5960, 0xb5ec);
  (0x5962, 0xc9dd); (0x5965, 0xb0c2); (0x5973, 0xc5ae); (0x5974, 0xc5ab); (0x5976, 0xc4cc); (0x5978, 0xbce9); (0x5979, 0xcbfd); (0x597d, 0xbac3);
  (0x5981, 0xe5f9); (0x5982, 0xc8e7); (0x5983, 0xe5fa); (0x5984, 0xcdfd); (0x5986, 0xd7b1); (0x5987, 0xb8be); (0x5988, 0xc2e8); (0x598a, 0xc8d1);
  (0x598d, 0xe5fb); (0x5992, 0xb6ca); (0x5993, 0xbccb); (0x5996, 0xd1fd); (0x5997, 0xe6a1); (0x5999, 0xc3ee); (0x599e, 0xe6a4); (0x59a3, 0xe5fe);
  (0x59a4, 0xe6a5); (0x59a5, 0xcdd7); (0x59a8, 0xb7c1); (0x59a9, 0xe5fc); (0x59aa, 0xe5fd); (0x59ab, 0xe6a3); (0x59ae, 0xc4dd); (0x59af, 0xe6a8);
  (0x59b2, 0xe6a7); (0x59b9, 0xc3c3); (0x59bb, 0xc6de); (0x59be, 0xe6aa); (0x59c6, 0xc4b7); (0x59ca, 0xe6a2)].

Definition gb_rows_13 : list (Z * Z) := [
  (0x59cb, 0xcabc); (0x59d0, 0xbde3); (0x59d1, 0xb9c3); (0x59d2, 0xe6a6); (0x59d3, 0xd0d5); (0x59d4, 0xceaf); (0x59d7, 0xe6a9); (0x59d8, 0xe6b0);
  (0x59da, 0xd2a6); (0x59dc, 0xbdaa); (0x59dd, 0xe6ad); (0x59e3, 0xe6af); (0x59e5, 0xc0d1); (0x59e8, 0xd2cc); (0x59ec, 0xbca7); (0x59f9, 0xe6b1);
  (0x59fb, 0xd2f6); (0x59ff, 0xd7cb); (0x5a01, 0xcdfe); (0x5a03, 0xcdde); (0x5a04, 0xc2a6); (0x5a05, 0xe6ab); (0x5a06, 0xe6ac); (0x5a07, 0xbdbf);
  (0x5a08, 0xe6ae); (0x5a09, 0xe6b3); (0x5a0c, 0xe6b2); (0x5a11, 0xe6b6); (0x5a13, 0xe6b8); (0x5a18, 0xc4ef); (0x5a1c, 0xc4c8); (0x5a1f, 0xbeea);
  (0x5a20, 0xc9ef); (0x5a23, 0xe6b7); (0x5a25, 0xb6f0); (0x5a29, 0xc3e4); (0x5a31, 0xd3e9); (0x5a32, 0xe6b4); (0x5a34, 0xe6b5); (0x5a36, 0xc8a2);
  (0x5a3c, 0xe6bd); (0x5a40, 0xe6b9); (0x5a46, 0xc6c5); (0x5a49, 0xcdf1); (0x5a4a, 0xe6bb); (0x5a55, 0xe6bc); (0x5a5a, 0xbbe9); (0x5a62, 0xe6be);
  (0x5a67, 0xe6ba); (0x5a6a, 0xc0b7); (0x5a74, 0xd3a4); (0x5a75, 0xe6bf); (0x5a76, 0xc9f4); (0x5a77, 0xe6c3); (0x5a7a, 0xe6c4); (0x5a7f, 0xd0f6);
  (0x5a92, 0xc3bd); (0x5a9a, 0xc3c4); (0x5a9b, 0xe6c2); (0x5aaa, 0xe6c1); (0x5ab2, 0xe6c7); (0x5ab3, 0xcfb1); (0x5ab5, 0xebf4); (0x5ab8, 0xe6ca);
  (0x5abe, 0xe6c5); (0x5ac1, 0xbcde); (0x5ac2, 0xc9a9); (0x5ac9, 0xbcb5); (0x5acc, 0xcfd3); (0x5ad2, 0xe6c8); (0x5ad4, 0xe6c9); (0x5ad6, 0xe6ce);
  (0x5ad8, 0xe6d0); (0x5adc, 0xe6d1); (0x5ae0, 0xe6cb); (0x5ae1, 0xb5d5); (0x5ae3, 0xe6cc); (0x5ae6, 0xe6cf); (0x5ae9, 0xc4db); (0x5aeb, 0xe6c6);
  (0x5af1, 0xe6cd); (0x5b09, 0xe6d2); (0x5b16, 0xe6d4); (0x5b17, 0xe6d3); (0x5b32, 0xe6d5); (0x5b34, 0xd9f8); (0x5b37, 0xe6d6); (0x5b40, 0xe6d7);
  (0x5b50, 0xd7d3); (0x5b51, 0xe6dd); (0x5b53, 0xe6de); (0x5b54, 0xbfd7); (0x5b55, 0xd4d0); (0x5b57, 0xd7d6)].

Definition gb_rows_14 : list (Z * Z) := [
  (0x5b58, 0xb4e6); (0x5b59, 0xcbef); (0x5b5a, 0xe6da); (0x5b5b, 0xd8c3); (0x5b5c, 0xd7ce); (0x5b5d, 0xd0a2); (0x5b5f, 0xc3cf); (0x5b62, 0xe6df);
  (0x5b63, 0xbcbe); (0x5b64, 0xb9c2); (0x5b65, 0xe6db); (0x5b66, 0xd1a7); (0x5b69, 0xbaa2); (0x5b6a, 0xc2cf); (0x5b6c, 0xd8ab); (0x5b70, 0xcaeb);
  (0x5b71, 0xe5ee); (0x5b73, 0xe6dc); (0x5b75, 0xb7f5); (0x5b7a, 0xc8e6); (0x5b7d, 0xc4f5); (0x5b80, 0xe5b2); (0x5b81, 0xc4fe); (0x5b83, 0xcbfc);
  (0x5b84, 0xe5b3); (0x5b85, 0xd5ac); (0x5b87, 0xd3ee); (0x5b88, 0xcad8); (0x5b89, 0xb0b2); (0x5b8b, 0xcbce); (0x5b8c, 0xcdea); (0x5b8f, 0xbaea);
  (0x5b93, 0xe5b5); (0x5b95, 0xe5b4); (0x5b97, 0xd7da); (0x5b98, 0xb9d9); (0x5b99, 0xd6e6); (0x5b9a, 0xb6a8); (0x5b9b, 0xcdf0); (0x5b9c, 0xd2cb);
  (0x5b9d, 0xb1a6); (0x5b9e, 0xcab5); (0x5ba0, 0xb3e8); (0x5ba1, 0xc9f3); (0x5ba2, 0xbfcd); (0x5ba3, 0xd0fb); (0x5ba4, 0xcad2); (0x5ba5, 0xe5b6);
  (0x5ba6, 0xbbc2); (0x5baa, 0xcfdc); (0x5bab, 0xb9ac); (0x5bb0, 0xd4d7); (0x5bb3, 0xbaa6); (0x5bb4, 0xd1e7); (0x5bb5, 0xcffc); (0x5bb6, 0xbcd2);
  (0x5bb8, 0xe5b7); (0x5bb9, 0xc8dd); (0x5bbd, 0xbfed); (0x5bbe, 0xb1f6); (0x5bbf, 0xcbde); (0x5bc2, 0xbcc5); (0x5bc4, 0xbcc4); (0x5bc5, 0xd2fa);
  (0x5bc6, 0xc3dc); (0x5bc7, 0xbfdc); (0x5bcc, 0xb8bb); (0x5bd0, 0xc3c2); (0x5bd2, 0xbaae); (0x5bd3, 0xd4a2); (0x5bdd, 0xc7de); (0x5bde, 0xc4af);
  (0x5bdf, 0xb2ec); (0x5be1, 0xb9d1); (0x5be4, 0xe5bb); (0x5be5, 0xc1c8); (0x5be8, 0xd5af); (0x5bee, 0xe5bc); (0x5bf0, 0xe5be); (0x5bf8, 0xb4e7);
  (0x5bf9, 0xb6d4); (0x5bfa, 0xcbc2); (0x5bfb, 0xd1b0); (0x5bfc, 0xb5bc); (0x5bff, 0xcad9); (0x5c01, 0xb7e2); (0x5c04, 0xc9e4); (0x5c06, 0xbdab);
  (0x5c09, 0xcebe); (0x5c0a, 0xd7f0); (0x5c0f, 0xd0a1); (0x5c11, 0xc9d9); (0x5c14, 0xb6fb); (0x5c15, 0xe6d8)].

Definition gb_rows_15 : list (Z * Z) := [
  (0x5c16, 0xbce2); (0x5c18, 0xb3be); (0x5c1a, 0xc9d0); (0x5c1c, 0xe6d9); (0x5c1d, 0xb3a2); (0x5c22, 0xdecc); (0x5c24, 0xd3c8); (0x5c25, 0xdecd);
  (0x5c27, 0xd2a2); (0x5c2c, 0xdece); (0x5c31, 0xbecd); (0x5c34, 0xdecf); (0x5c38, 0xcaac); (0x5c39, 0xd2fc); (0x5c3a, 0xb3df); (0x5c3b, 0xe5ea);
  (0x5c3c, 0xc4e1); (0x5c3d, 0xbea1); (0x5c3e, 0xceb2); (0x5c3f, 0xc4f2); (0x5c40, 0xbed6); (0x5c41, 0xc6a8); (0x5c42, 0xb2e3); (0x5c45, 0xbed3);
  (0x5c48, 0xc7fc); (0x5c49, 0xcceb); (0x5c4a, 0xbdec); (0x5c4b, 0xcedd); (0x5c4e, 0xcaba); (0x5c4f, 0xc6c1); (0x5c50, 0xe5ec); (0x5c51, 0xd0bc);
  (0x5c55, 0xd5b9); (0x5c59, 0xe5ed); (0x5c5e, 0xcaf4); (0x5c60, 0xcdc0); (0x5c61, 0xc2c5); (0x5c63, 0xe5ef); (0x5c65, 0xc2c4); (0x5c66, 0xe5f0);
  (0x5c6e, 0xe5f8); (0x5c6f, 0xcdcd); (0x5c71, 0xc9bd); (0x5c79, 0xd2d9); (0x5c7a, 0xe1a8); (0x5c7f, 0xd3ec); (0x5c81, 0xcbea); (0x5c82, 0xc6f1);
  (0x5c88, 0xe1ac); (0x5c8c, 0xe1a7); (0x5c8d, 0xe1a9); (0x5c90, 0xe1aa); (0x5c91, 0xe1af); (0x5c94, 0xb2ed); (0x5c96, 0xe1ab); (0x5c97, 0xb8da);
  (0x5c98, 0xe1ad); (0x5c99, 0xe1ae); (0x5c9a, 0xe1b0); (0x5c9b, 0xb5ba); (0x5c9c, 0xe1b1); (0x5ca2, 0xe1b3); (0x5ca3, 0xe1b8); (0x5ca9, 0xd1d2);
  (0x5cab, 0xe1b6); (0x5cac, 0xe1b5); (0x5cad, 0xc1eb); (0x5cb1, 0xe1b7); (0x5cb3, 0xd4c0); (0x5cb5, 0xe1b2); (0x5cb7, 0xe1ba); (0x5cb8, 0xb0b6);
  (0x5cbd, 0xe1b4); (0x5cbf, 0xbff9); (0x5cc1, 0xe1b9); (0x5cc4, 0xe1bb); (0x5ccb, 0xe1be); (0x5cd2, 0xe1bc); (0x5cd9, 0xd6c5); (0x5ce1, 0xcfbf);
  (0x5ce4, 0xe1bd); (0x5ce5, 0xe1bf); (0x5ce6, 0xc2cd); (0x5ce8, 0xb6eb); (0x5cea, 0xd3f8); (0x5ced, 0xc7cd); (0x5cf0, 0xb7e5); (0x5cfb, 0xbefe);
  (0x5d02, 0xe1c0); (0x5d03, 0xe1c1); (0x5d06, 0xe1c7); (0x5d07, 0xb3e7); (0x5d0e, 0xc6e9); (0x5d14, 0xb4de)].

Definition gb_rows_16 : list (Z * Z) := [
  (0x5d16, 0xd1c2); (0x5d1b, 0xe1c8); (0x5d1e, 0xe1c6); (0x5d24, 0xe1c5); (0x5d26, 0xe1c3); (0x5d27, 0xe1c2); (0x5d29, 0xb1c0); (0x5d2d, 0xd5b8);
  (0x5d2e, 0xe1c4); (0x5d34, 0xe1cb); (0x5d3d, 0xe1cc); (0x5d3e, 0xe1ca); (0x5d47, 0xeffa); (0x5d4a, 0xe1d3); (0x5d4b, 0xe1d2); (0x5d4c, 0xc7b6);
  (0x5d58, 0xe1c9); (0x5d5b, 0xe1ce); (0x5d5d, 0xe1d0); (0x5d69, 0xe1d4); (0x5d6b, 0xe1d1); (0x5d6c, 0xe1cd); (0x5d6f, 0xe1cf); (0x5d74, 0xe1d5);
  (0x5d82, 0xe1d6); (0x5d99, 0xe1d7); (0x5d9d, 0xe1d8); (0x5db7, 0xe1da); (0x5dc5, 0xe1db); (0x5dcd, 0xcea1); (0x5ddb, 0xe7dd); (0x5ddd, 0xb4a8);
  (0x5dde, 0xd6dd); (0x5de1, 0xd1b2); (0x5de2, 0xb3b2); (0x5de5, 0xb9a4); (0x5de6, 0xd7f3); (0x5de7, 0xc7c9); (0x5de8, 0xbede); (0x5de9, 0xb9ae);
  (0x5deb, 0xced7); (0x5dee, 0xb2ee); (0x5def, 0xdbcf); (0x5df1, 0xbcba); (0x5df2, 0xd2d1); (0x5df3, 0xcbc8); (0x5df4, 0xb0cd); (0x5df7, 0xcfef);
  (0x5dfd, 0xd9e3); (0x5dfe, 0xbded); (0x5e01, 0xb1d2); (0x5e02, 0xcad0); (0x5e03, 0xb2bc); (0x5e05, 0xcba7); (0x5e06, 0xb7ab); (0x5e08, 0xcaa6);
  (0x5e0c, 0xcfa3); (0x5e0f, 0xe0f8); (0x5e10, 0xd5ca); (0x5e11, 0xe0fb); (0x5e14, 0xe0fa); (0x5e15, 0xc5c1); (0x5e16, 0xccfb); (0x5e18, 0xc1b1);
  (0x5e19, 0xe0f9); (0x5e1a, 0xd6e3); (0x5e1b, 0xb2af); (0x5e1c, 0xd6c4); (0x5e1d, 0xb5db); (0x5e26, 0xb4f8); (0x5e27, 0xd6a1); (0x5e2d, 0xcfaf);
  (0x5e2e, 0xb0ef); (0x5e31, 0xe0fc); (0x5e37, 0xe1a1); (0x5e38, 0xb3a3); (0x5e3b, 0xe0fd); (0x5e3c, 0xe0fe); (0x5e3d, 0xc3b1); (0x5e42, 0xc3dd);
  (0x5e44, 0xe1a2); (0x5e45, 0xb7f9); (0x5e4c, 0xbbcf); (0x5e54, 0xe1a3); (0x5e55, 0xc4bb); (0x5e5b, 0xe1a4); (0x5e5e, 0xe1a5); (0x5e61, 0xe1a6);
  (0x5e62, 0xb4b1); (0x5e72, 0xb8c9); (0x5e73, 0xc6bd); (0x5e74, 0xc4ea); (0x5e76, 0xb2a2); (0x5e78, 0xd0d2)].

Definition gb_rows_17 : list (Z * Z) := [
  (0x5e7a, 0xe7db); (0x5e7b, 0xbbc3); (0x5e7c, 0xd3d7); (0x5e7d, 0xd3c4); (0x5e7f, 0xb9e3); (0x5e80, 0xe2cf); (0x5e84, 0xd7af); (0x5e86, 0xc7ec);
  (0x5e87, 0xb1d3); (0x5e8a, 0xb4b2); (0x5e8b, 0xe2d1); (0x5e8f, 0xd0f2); (0x5e90, 0xc2ae); (0x5e91, 0xe2d0); (0x5e93, 0xbfe2); (0x5e94, 0xd3a6);
  (0x5e95, 0xb5d7); (0x5e96, 0xe2d2); (0x5e97, 0xb5ea); (0x5e99, 0xc3ed); (0x5e9a, 0xb8fd); (0x5e9c, 0xb8ae); (0x5e9e, 0xc5d3); (0x5e9f, 0xb7cf);
  (0x5ea0, 0xe2d4); (0x5ea5, 0xe2d3); (0x5ea6, 0xb6c8); (0x5ea7, 0xd7f9); (0x5ead, 0xcda5); (0x5eb3, 0xe2d8); (0x5eb5, 0xe2d6); (0x5eb6, 0xcafc);
  (0x5eb7, 0xbfb5); (0x5eb8, 0xd3b9); (0x5eb9, 0xe2d5); (0x5ebe, 0xe2d7); (0x5ec9, 0xc1ae); (0x5eca, 0xc0c8); (0x5ed1, 0xe2db); (0x5ed2, 0xe2da);
  (0x5ed3, 0xc0aa); (0x5ed6, 0xc1ce); (0x5edb, 0xe2dc); (0x5ee8, 0xe2dd); (0x5eea, 0xe2de); (0x5ef4, 0xdbc8); (0x5ef6, 0xd1d3); (0x5ef7, 0xcda2);
  (0x5efa, 0xbda8); (0x5efe, 0xdec3); (0x5eff, 0xd8a5); (0x5f00, 0xbfaa); (0x5f01, 0xdbcd); (0x5f02, 0xd2ec); (0x5f03, 0xc6fa); (0x5f04, 0xc5aa);
  (0x5f08, 0xdec4); (0x5f0a, 0xb1d7); (0x5f0b, 0xdfae); (0x5f0f, 0xcabd); (0x5f11, 0xdfb1); (0x5f13, 0xb9ad); (0x5f15, 0xd2fd); (0x5f17, 0xb8a5);
  (0x5f18, 0xbaeb); (0x5f1b, 0xb3da); (0x5f1f, 0xb5dc); (0x5f20, 0xd5c5); (0x5f25, 0xc3d6); (0x5f26, 0xcfd2); (0x5f27, 0xbba1); (0x5f29, 0xe5f3);
  (0x5f2a, 0xe5f2); (0x5f2d, 0xe5f4); (0x5f2f, 0xcde4); (0x5f31, 0xc8f5); (0x5f39, 0xb5af); (0x5f3a, 0xc7bf); (0x5f3c, 0xe5f6); (0x5f40, 0xecb0);
  (0x5f50, 0xe5e6); (0x5f52, 0xb9e9); (0x5f53, 0xb5b1); (0x5f55, 0xc2bc); (0x5f56, 0xe5e8); (0x5f57, 0xe5e7); (0x5f58, 0xe5e9); (0x5f5d, 0xd2cd);
  (0x5f61, 0xe1ea); (0x5f62, 0xd0ce); (0x5f64, 0xcdae); (0x5f66, 0xd1e5); (0x5f69, 0xb2ca); (0x5f6a, 0xb1eb)].

Definition gb_rows_18 : list (Z * Z) := [
  (0x5f6c, 0xb1f2); (0x5f6d, 0xc5ed); (0x5f70, 0xd5c3); (0x5f71, 0xd3b0); (0x5f73, 0xe1dc); (0x5f77, 0xe1dd); (0x5f79, 0xd2db); (0x5f7b, 0xb3b9);
  (0x5f7c, 0xb1cb); (0x5f80, 0xcdf9); (0x5f81, 0xd5f7); (0x5f82, 0xe1de); (0x5f84, 0xbeb6); (0x5f85, 0xb4fd); (0x5f87, 0xe1df); (0x5f88, 0xbadc);
  (0x5f89, 0xe1e0); (0x5f8a, 0xbbb2); (0x5f8b, 0xc2c9); (0x5f8c, 0xe1e1); (0x5f90, 0xd0ec); (0x5f92, 0xcdbd); (0x5f95, 0xe1e2); (0x5f97, 0xb5c3);
  (0x5f98, 0xc5c7); (0x5f99, 0xe1e3); (0x5f9c, 0xe1e4); (0x5fa1, 0xd3f9); (0x5fa8, 0xe1e5); (0x5faa, 0xd1ad); (0x5fad, 0xe1e6); (0x5fae, 0xcea2);
  (0x5fb5, 0xe1e7); (0x5fb7, 0xb5c2); (0x5fbc, 0xe1e8); (0x5fbd, 0xbbd5); (0x5fc3, 0xd0c4); (0x5fc4, 0xe2e0); (0x5fc5, 0xb1d8); (0x5fc6, 0xd2e4);
  (0x5fc9, 0xe2e1); (0x5fcc, 0xbcc9); (0x5fcd, 0xc8cc); (0x5fcf, 0xe2e3); (0x5fd0, 0xecfe); (0x5fd1, 0xecfd); (0x5fd2, 0xdfaf); (0x5fd6, 0xe2e2);
  (0x5fd7, 0xd6be); (0x5fd8, 0xcdfc); (0x5fd9, 0xc3a6); (0x5fdd, 0xe3c3); (0x5fe0, 0xd6d2); (0x5fe1, 0xe2e7); (0x5fe4, 0xe2e8); (0x5fe7, 0xd3c7);
  (0x5fea, 0xe2ec); (0x5feb, 0xbfec); (0x5fed, 0xe2ed); (0x5fee, 0xe2e5); (0x5ff1, 0xb3c0); (0x5ff5, 0xc4ee); (0x5ff8, 0xe2ee); (0x5ffb, 0xd0c3);
  (0x5ffd, 0xbaf6); (0x5ffe, 0xe2e9); (0x5fff, 0xb7de); (0x6000, 0xbbb3); (0x6001, 0xccac); (0x6002, 0xcbcb); (0x6003, 0xe2e4); (0x6004, 0xe2e6);
  (0x6005, 0xe2ea); (0x6006, 0xe2eb); (0x600a, 0xe2f7); (0x600d, 0xe2f4); (0x600e, 0xd4f5); (0x600f, 0xe2f3); (0x6012, 0xc5ad); (0x6014, 0xd5fa);
  (0x6015, 0xc5c2); (0x6016, 0xb2c0); (0x6019, 0xe2ef); (0x601b, 0xe2f2); (0x601c, 0xc1af); (0x601d, 0xcbbc); (0x6020, 0xb5a1); (0x6021, 0xe2f9);
  (0x6025, 0xbcb1); (0x6026, 0xe2f1); (0x6027, 0xd0d4); (0x6028, 0xd4b9); (0x6029, 0xe2f5); (0x602a, 0xb9d6)].

Definition gb_rows_19 : list (Z * Z) := [
  (0x602b, 0xe2f6); (0x602f, 0xc7d3); (0x6035, 0xe2f0); (0x603b, 0xd7dc); (0x603c, 0xeda1); (0x603f, 0xe2f8); (0x6041, 0xeda5); (0x6042, 0xe2fe);
  (0x6043, 0xcad1); (0x604b, 0xc1b5); (0x604d, 0xbbd0); (0x6050, 0xbfd6); (0x6052, 0xbae3); (0x6055, 0xcba1); (0x6059, 0xeda6); (0x605a, 0xeda3);
  (0x605d, 0xeda2); (0x6062, 0xbbd6); (0x6063, 0xeda7); (0x6064, 0xd0f4); (0x6067, 0xeda4); (0x6068, 0xbade); (0x6069, 0xb6f7); (0x606a, 0xe3a1);
  (0x606b, 0xb6b2); (0x606c, 0xccf1); (0x606d, 0xb9a7); (0x606f, 0xcfa2); (0x6070, 0xc7a1); (0x6073, 0xbfd2); (0x6076, 0xb6f1); (0x6078, 0xe2fa);
  (0x6079, 0xe2fb); (0x607a, 0xe2fd); (0x607b, 0xe2fc); (0x607c, 0xc4d5); (0x607d, 0xe3a2); (0x607f, 0xd3c1); (0x6083, 0xe3a7); (0x6084, 0xc7c4);
  (0x6089, 0xcfa4); (0x608c, 0xe3a9); (0x608d, 0xbab7); (0x6092, 0xe3a8); (0x6094, 0xbbda); (0x6096, 0xe3a3); (0x609a, 0xe3a4); (0x609b, 0xe3aa);
  (0x609d, 0xe3a6); (0x609f, 0xcef2); (0x60a0, 0xd3c6); (0x60a3, 0xbbbc); (0x60a6, 0xd4c3); (0x60a8, 0xc4fa); (0x60ab, 0xeda8); (0x60ac, 0xd0fc);
  (0x60ad, 0xe3a5); (0x60af, 0xc3f5); (0x60b1, 0xe3ad); (0x60b2, 0xb1af); (0x60b4, 0xe3b2); (0x60b8, 0xbcc2); (0x60bb, 0xe3ac); (0x60bc, 0xb5bf);
  (0x60c5, 0xc7e9); (0x60c6, 0xe3b0); (0x60ca, 0xbeaa); (0x60cb, 0xcdef); (0x60d1, 0xbbf3); (0x60d5, 0xcce8); (0x60d8, 0xe3af); (0x60da, 0xe3b1);
  (0x60dc, 0xcfa7); (0x60dd, 0xe3ae); (0x60df, 0xcea9); (0x60e0, 0xbbdd); (0x60e6, 0xb5eb); (0x60e7, 0xbee5); (0x60e8, 0xb2d2); (0x60e9, 0xb3cd);
  (0x60eb, 0xb1b9); (0x60ec, 0xe3ab); (0x60ed, 0xb2d1); (0x60ee, 0xb5ac); (0x60ef, 0xb9df); (0x60f0, 0xb6e8); (0x60f3, 0xcfeb); (0x60f4, 0xe3b7);
  (0x60f6, 0xbbcc); (0x60f9, 0xc8c7); (0x60fa, 0xd0ca); (0x6100, 0xe3b8); (0x6101, 0xb3ee); (0x6106, 0xeda9)].

Definition gb_rows_20 : list (Z * Z) := [
  (0x6108, 0xd3fa); (0x6109, 0xd3e4); (0x610d, 0xedaa); (0x610e, 0xe3b9); (0x610f, 0xd2e2); (0x6115, 0xe3b5); (0x611a, 0xd3de); (0x611f, 0xb8d0);
  (0x6120, 0xe3b3); (0x6123, 0xe3b6); (0x6124, 0xb7df); (0x6126, 0xe3b4); (0x6127, 0xc0a2); (0x612b, 0xe3ba); (0x613f, 0xd4b8); (0x6148, 0xb4c8);
  (0x614a, 0xe3bb); (0x614c, 0xbbc5); (0x614e, 0xc9f7); (0x6151, 0xc9e5); (0x6155, 0xc4bd); (0x615d, 0xedab); (0x6162, 0xc2fd); (0x6167, 0xbbdb);
  (0x6168, 0xbfae); (0x6170, 0xcebf); (0x6175, 0xe3bc); (0x6177, 0xbfb6); (0x618b, 0xb1ef); (0x618e, 0xd4f7); (0x6194, 0xe3be); (0x619d, 0xedad);
  (0x61a7, 0xe3bf); (0x61a8, 0xbaa9); (0x61a9, 0xedac); (0x61ac, 0xe3bd); (0x61b7, 0xe3c0); (0x61be, 0xbab6); (0x61c2, 0xb6ae); (0x61c8, 0xd0b8);
  (0x61ca, 0xb0c3); (0x61cb, 0xedae); (0x61d1, 0xedaf); (0x61d2, 0xc0c1); (0x61d4, 0xe3c1); (0x61e6, 0xc5b3); (0x61f5, 0xe3c2); (0x61ff, 0xdcb2);
  (0x6206, 0xedb0); (0x6208, 0xb8ea); (0x620a, 0xceec); (0x620b, 0xeaa7); (0x620c, 0xd0e7); (0x620d, 0xcaf9); (0x620e, 0xc8d6); (0x620f, 0xcfb7);
  (0x6210, 0xb3c9); (0x6211, 0xced2); (0x6212, 0xbde4); (0x6215, 0xe3de); (0x6216, 0xbbf2); (0x6217, 0xeaa8); (0x6218, 0xd5bd); (0x621a, 0xc6dd);
  (0x621b, 0xeaa9); (0x621f, 0xeaaa); (0x6221, 0xeaac); (0x6222, 0xeaab); (0x6224, 0xeaae); (0x6225, 0xeaad); (0x622a, 0xbdd8); (0x622c, 0xeaaf);
  (0x622e, 0xc2be); (0x6233, 0xb4c1); (0x6234, 0xb4f7); (0x6237, 0xbba7); (0x623d, 0xece6); (0x623e, 0xece5); (0x623f, 0xb7bf); (0x6240, 0xcbf9);
  (0x6241, 0xb1e2); (0x6243, 0xece7); (0x6247, 0xc9c8); (0x6248, 0xece8); (0x6249, 0xece9); (0x624b, 0xcad6); (0x624c, 0xded0); (0x624d, 0xb2c5);
  (0x624e, 0xd4fa); (0x6251, 0xc6cb); (0x6252, 0xb0c7); (0x6253, 0xb4f2); (0x6254, 0xc8d3); (0x6258, 0xcdd0)].

Definition gb_rows_21 : list (Z * Z) := [
  (0x625b, 0xbfb8); (0x6263, 0xbfdb); (0x6266, 0xc7a4); (0x6267, 0xd6b4); (0x6269, 0xc0a9); (0x626a, 0xded1); (0x626b, 0xc9a8); (0x626c, 0xd1ef);
  (0x626d, 0xc5a4); (0x626e, 0xb0e7); (0x626f, 0xb3b6); (0x6270, 0xc8c5); (0x6273, 0xb0e2); (0x6276, 0xb7f6); (0x6279, 0xc5fa); (0x627c, 0xb6f3);
  (0x627e, 0xd5d2); (0x627f, 0xb3d0); (0x6280, 0xbcbc); (0x6284, 0xb3ad); (0x6289, 0xbef1); (0x628a, 0xb0d1); (0x6291, 0xd2d6); (0x6292, 0xcae3);
  (0x6293, 0xd7a5); (0x6295, 0xcdb6); (0x6296, 0xb6b6); (0x6297, 0xbfb9); (0x6298, 0xd5db); (0x629a, 0xb8a7); (0x629b, 0xc5d7); (0x629f, 0xded2);
  (0x62a0, 0xbfd9); (0x62a1, 0xc2d5); (0x62a2, 0xc7c0); (0x62a4, 0xbba4); (0x62a5, 0xb1a8); (0x62a8, 0xc5ea); (0x62ab, 0xc5fb); (0x62ac, 0xcca7);
  (0x62b1, 0xb1a7); (0x62b5, 0xb5d6); (0x62b9, 0xc4a8); (0x62bb, 0xded3); (0x62bc, 0xd1ba); (0x62bd, 0xb3e9); (0x62bf, 0xc3f2); (0x62c2, 0xb7f7);
  (0x62c4, 0xd6f4); (0x62c5, 0xb5a3); (0x62c6, 0xb2f0); (0x62c7, 0xc4b4); (0x62c8, 0xc4e9); (0x62c9, 0xc0ad); (0x62ca, 0xded4); (0x62cc, 0xb0e8);
  (0x62cd, 0xc5c4); (0x62ce, 0xc1e0); (0x62d0, 0xb9d5); (0x62d2, 0xbedc); (0x62d3, 0xcdd8); (0x62d4, 0xb0ce); (0x62d6, 0xcdcf); (0x62d7, 0xded6);
  (0x62d8, 0xbed0); (0x62d9, 0xd7be); (0x62da, 0xded5); (0x62db, 0xd5d0); (0x62dc, 0xb0dd); (0x62df, 0xc4e2); (0x62e2, 0xc2a3); (0x62e3, 0xbcf0);
  (0x62e5, 0xd3b5); (0x62e6, 0xc0b9); (0x62e7, 0xc5a1); (0x62e8, 0xb2a6); (0x62e9, 0xd4f1); (0x62ec, 0xc0a8); (0x62ed, 0xcac3); (0x62ee, 0xded7);
  (0x62ef, 0xd5fc); (0x62f1, 0xb9b0); (0x62f3, 0xc8ad); (0x62f4, 0xcba9); (0x62f6, 0xded9); (0x62f7, 0xbfbd); (0x62fc, 0xc6b4); (0x62fd, 0xd7a7);
  (0x62fe, 0xcab0); (0x62ff, 0xc4c3); (0x6301, 0xb3d6); (0x6302, 0xb9d2); (0x6307, 0xd6b8); (0x6308, 0xeafc)].

Definition gb_rows_22 : list (Z * Z) := [
  (0x6309, 0xb0b4); (0x630e, 0xbfe6); (0x6311, 0xccf4); (0x6316, 0xcdda); (0x631a, 0xd6bf); (0x631b, 0xc2ce); (0x631d, 0xcece); (0x631e, 0xcca2);
  (0x631f, 0xd0ae); (0x6320, 0xc4d3); (0x6321, 0xb5b2); (0x6322, 0xded8); (0x6323, 0xd5f5); (0x6324, 0xbcb7); (0x6325, 0xbbd3); (0x6328, 0xb0a4);
  (0x632a, 0xc5b2); (0x632b, 0xb4ec); (0x632f, 0xd5f1); (0x6332, 0xeafd); (0x6339, 0xdeda); (0x633a, 0xcda6); (0x633d, 0xcdec); (0x6342, 0xcee6);
  (0x6343, 0xdedc); (0x6345, 0xcdb1); (0x6346, 0xc0a6); (0x6349, 0xd7bd); (0x634b, 0xdedb); (0x634c, 0xb0c6); (0x634d, 0xbab4); (0x634e, 0xc9d3);
  (0x634f, 0xc4f3); (0x6350, 0xbee8); (0x6355, 0xb2b6); (0x635e, 0xc0cc); (0x635f, 0xcbf0); (0x6361, 0xbcf1); (0x6362, 0xbbbb); (0x6363, 0xb5b7);
  (0x6367, 0xc5f5); (0x6369, 0xdee6); (0x636d, 0xdee3); (0x636e, 0xbedd); (0x6371, 0xdedf); (0x6376, 0xb4b7); (0x6377, 0xbddd); (0x637a, 0xdee0);
  (0x637b, 0xc4ed); (0x6380, 0xcfc6); (0x6382, 0xb5e0); (0x6387, 0xb6de); (0x6388, 0xcada); (0x6389, 0xb5f4); (0x638a, 0xdee5); (0x638c, 0xd5c6);
  (0x638e, 0xdee1); (0x638f, 0xcccd); (0x6390, 0xc6fe); (0x6392, 0xc5c5); (0x6396, 0xd2b4); (0x6398, 0xbef2); (0x63a0, 0xc2d3); (0x63a2, 0xccbd);
  (0x63a3, 0xb3b8); (0x63a5, 0xbdd3); (0x63a7, 0xbfd8); (0x63a8, 0xcdc6); (0x63a9, 0xd1da); (0x63aa, 0xb4eb); (0x63ac, 0xdee4); (0x63ad, 0xdedd);
  (0x63ae, 0xdee7); (0x63b0, 0xeafe); (0x63b3, 0xc2b0); (0x63b4, 0xdee2); (0x63b7, 0xd6c0); (0x63b8, 0xb5a7); (0x63ba, 0xb2f4); (0x63bc, 0xdee8);
  (0x63be, 0xdef2); (0x63c4, 0xdeed); (0x63c6, 0xdef1); (0x63c9, 0xc8e0); (0x63cd, 0xd7e1); (0x63ce, 0xdeef); (0x63cf, 0xc3e8); (0x63d0, 0xcce1);
  (0x63d2, 0xb2e5); (0x63d6, 0xd2be); (0x63de, 0xdeee); (0x63e0, 0xdeeb); (0x63e1, 0xced5); (0x63e3, 0xb4a7)].

Definition gb_rows_23 : list (Z * Z) := [
  (0x63e9, 0xbfab); (0x63ea, 0xbebe); (0x63ed, 0xbdd2); (0x63f2, 0xdee9); (0x63f4, 0xd4ae); (0x63f6, 0xdede); (0x63f8, 0xdeea); (0x63fd, 0xc0bf);
  (0x63ff, 0xdeec); (0x6400, 0xb2f3); (0x6401, 0xb8e9); (0x6402, 0xc2a7); (0x6405, 0xbdc1); (0x640b, 0xdef5); (0x640c, 0xdef8); (0x640f, 0xb2ab);
  (0x6410, 0xb4a4); (0x6413, 0xb4ea); (0x6414, 0xc9a6); (0x641b, 0xdef6); (0x641c, 0xcbd1); (0x641e, 0xb8e3); (0x6420, 0xdef7); (0x6421, 0xdefa);
  (0x6426, 0xdef9); (0x642a, 0xccc2); (0x642c, 0xb0e1); (0x642d, 0xb4ee); (0x6434, 0xe5ba); (0x643a, 0xd0af); (0x643d, 0xb2eb); (0x643f, 0xeba1);
  (0x6441, 0xdef4); (0x6444, 0xc9e3); (0x6445, 0xdef3); (0x6446, 0xb0da); (0x6447, 0xd2a1); (0x6448, 0xb1f7); (0x644a, 0xccaf); (0x6452, 0xdef0);
  (0x6454, 0xcba4); (0x6458, 0xd5aa); (0x645e, 0xdefb); (0x6467, 0xb4dd); (0x6469, 0xc4a6); (0x646d, 0xdefd); (0x6478, 0xc3fe); (0x6479, 0xc4a1);
  (0x647a, 0xdfa1); (0x6482, 0xc1cc); (0x6484, 0xdefc); (0x6485, 0xbeef); (0x6487, 0xc6b2); (0x6491, 0xb3c5); (0x6492, 0xc8f6); (0x6495, 0xcbba);
  (0x6496, 0xdefe); (0x6499, 0xdfa4); (0x649e, 0xd7b2); (0x64a4, 0xb3b7); (0x64a9, 0xc1c3); (0x64ac, 0xc7cb); (0x64ad, 0xb2a5); (0x64ae, 0xb4e9);
  (0x64b0, 0xd7ab); (0x64b5, 0xc4ec); (0x64b7, 0xdfa2); (0x64b8, 0xdfa3); (0x64ba, 0xdfa5); (0x64bc, 0xbab3); (0x64c0, 0xdfa6); (0x64c2, 0xc0de);
  (0x64c5, 0xc9c3); (0x64cd, 0xb2d9); (0x64ce, 0xc7e6); (0x64d0, 0xdfa7); (0x64d2, 0xc7dc); (0x64d7, 0xdfa8); (0x64d8, 0xeba2); (0x64de, 0xcbd3);
  (0x64e2, 0xdfaa); (0x64e4, 0xdfa9); (0x64e6, 0xb2c1); (0x6500, 0xc5ca); (0x6509, 0xdfab); (0x6512, 0xd4dc); (0x6518, 0xc8c1); (0x6525, 0xdfac);
  (0x652b, 0xbef0); (0x652e, 0xdfad); (0x652f, 0xd6a7); (0x6534, 0xeab7); (0x6535, 0xebb6); (0x6536, 0xcad5)].

Definition gb_rows_24 : list (Z * Z) := [
  (0x6538, 0xd8fc); (0x6539, 0xb8c4); (0x653b, 0xb9a5); (0x653e, 0xb7c5); (0x653f, 0xd5fe); (0x6545, 0xb9ca); (0x6548, 0xd0a7); (0x6549, 0xf4cd);
  (0x654c, 0xb5d0); (0x654f, 0xc3f4); (0x6551, 0xbec8); (0x6555, 0xebb7); (0x6556, 0xb0bd); (0x6559, 0xbdcc); (0x655b, 0xc1b2); (0x655d, 0xb1d6);
  (0x655e, 0xb3a8); (0x6562, 0xb8d2); (0x6563, 0xc9a2); (0x6566, 0xb6d8); (0x656b, 0xebb8); (0x656c, 0xbeb4); (0x6570, 0xcafd); (0x6572, 0xc7c3);
  (0x6574, 0xd5fb); (0x6577, 0xb7f3); (0x6587, 0xcec4); (0x658b, 0xd5ab); (0x658c, 0xb1f3); (0x6590, 0xecb3); (0x6591, 0xb0df); (0x6593, 0xecb5);
  (0x6597, 0xb6b7); (0x6599, 0xc1cf); (0x659b, 0xf5fa); (0x659c, 0xd0b1); (0x659f, 0xd5e5); (0x65a1, 0xced3); (0x65a4, 0xbdef); (0x65a5, 0xb3e2);
  (0x65a7, 0xb8ab); (0x65a9, 0xd5b6); (0x65ab, 0xedbd); (0x65ad, 0xb6cf); (0x65af, 0xcbb9); (0x65b0, 0xd0c2); (0x65b9, 0xb7bd); (0x65bc, 0xecb6);
  (0x65bd, 0xcaa9); (0x65c1, 0xc5d4); (0x65c3, 0xecb9); (0x65c4, 0xecb8); (0x65c5, 0xc2c3); (0x65c6, 0xecb7); (0x65cb, 0xd0fd); (0x65cc, 0xecba);
  (0x65ce, 0xecbb); (0x65cf, 0xd7e5); (0x65d2, 0xecbc); (0x65d6, 0xecbd); (0x65d7, 0xc6ec); (0x65e0, 0xcede); (0x65e2, 0xbcc8); (0x65e5, 0xc8d5);
  (0x65e6, 0xb5a9); (0x65e7, 0xbec9); (0x65e8, 0xd6bc); (0x65e9, 0xd4e7); (0x65ec, 0xd1ae); (0x65ed, 0xd0f1); (0x65ee, 0xeab8); (0x65ef, 0xeab9);
  (0x65f0, 0xeaba); (0x65f1, 0xbab5); (0x65f6, 0xcab1); (0x65f7, 0xbff5); (0x65fa, 0xcdfa); (0x6600, 0xeac0); (0x6602, 0xb0ba); (0x6603, 0xeabe);
  (0x6606, 0xc0a5); (0x660a, 0xeabb); (0x660c, 0xb2fd); (0x660e, 0xc3f7); (0x660f, 0xbbe8); (0x6613, 0xd2d7); (0x6614, 0xcef4); (0x6615, 0xeabf);
  (0x6619, 0xeabc); (0x661d, 0xeac3); (0x661f, 0xd0c7); (0x6620, 0xd3b3); (0x6625, 0xb4ba); (0x6627, 0xc3c1)].

Definition gb_rows_25 : list (Z * Z) := [
  (0x6628, 0xd7f2); (0x662d, 0xd5d1); (0x662f, 0xcac7); (0x6631, 0xeac5); (0x6634, 0xeac4); (0x6635, 0xeac7); (0x6636, 0xeac6); (0x663c, 0xd6e7);
  (0x663e, 0xcfd4); (0x6641, 0xeacb); (0x6643, 0xbbce); (0x664b, 0xbdfa); (0x664c, 0xc9ce); (0x664f, 0xeacc); (0x6652, 0xc9b9); (0x6653, 0xcffe);
  (0x6654, 0xeaca); (0x6655, 0xd4ce); (0x6656, 0xeacd); (0x6657, 0xeacf); (0x665a, 0xcded); (0x665f, 0xeac9); (0x6661, 0xeace); (0x6664, 0xceee);
  (0x6666, 0xbbde); (0x6668, 0xb3bf); (0x666e, 0xc6d5); (0x666f, 0xbeb0); (0x6670, 0xcefa); (0x6674, 0xc7e7); (0x6676, 0xbea7); (0x6677, 0xead0);
  (0x667a, 0xd6c7); (0x667e, 0xc1c0); (0x6682, 0xd4dd); (0x6684, 0xead1); (0x6687, 0xcfbe); (0x668c, 0xead2); (0x6691, 0xcaee); (0x6696, 0xc5af);
  (0x6697, 0xb0b5); (0x669d, 0xead4); (0x66a7, 0xead3); (0x66a8, 0xf4df); (0x66ae, 0xc4ba); (0x66b4, 0xb1a9); (0x66b9, 0xe5df); (0x66be, 0xead5);
  (0x66d9, 0xcaef); (0x66db, 0xead6); (0x66dc, 0xead7); (0x66dd, 0xc6d8); (0x66e6, 0xead8); (0x66e9, 0xead9); (0x66f0, 0xd4bb); (0x66f2, 0xc7fa);
  (0x66f3, 0xd2b7); (0x66f4, 0xb8fc); (0x66f7, 0xeac2); (0x66f9, 0xb2dc); (0x66fc, 0xc2fc); (0x66fe, 0xd4f8); (0x66ff, 0xcce6); (0x6700, 0xd7ee);
  (0x6708, 0xd4c2); (0x6709, 0xd3d0); (0x670a, 0xebc3); (0x670b, 0xc5f3); (0x670d, 0xb7fe); (0x6710, 0xebd4); (0x6714, 0xcbb7); (0x6715, 0xebde);
  (0x6717, 0xc0ca); (0x671b, 0xcdfb); (0x671d, 0xb3af); (0x671f, 0xc6da); (0x6726, 0xebfc); (0x6728, 0xc4be); (0x672a, 0xceb4); (0x672b, 0xc4a9);
  (0x672c, 0xb1be); (0x672d, 0xd4fd); (0x672f, 0xcaf5); (0x6731, 0xd6ec); (0x6734, 0xc6d3); (0x6735, 0xb6e4); (0x673a, 0xbbfa); (0x673d, 0xd0e0);
  (0x6740, 0xc9b1); (0x6742, 0xd4d3); (0x6743, 0xc8a8); (0x6746, 0xb8cb); (0x6748, 0xe8be); (0x6749, 0xc9bc)].

Definition gb_rows_26 : list (Z * Z) := [
  (0x674c, 0xe8bb); (0x674e, 0xc0ee); (0x674f, 0xd0d3); (0x6750, 0xb2c4); (0x6751, 0xb4e5); (0x6753, 0xe8bc); (0x6756, 0xd5c8); (0x675c, 0xb6c5);
  (0x675e, 0xe8bd); (0x675f, 0xcaf8); (0x6760, 0xb8dc); (0x6761, 0xccf5); (0x6765, 0xc0b4); (0x6768, 0xd1ee); (0x6769, 0xe8bf); (0x676a, 0xe8c2);
  (0x676d, 0xbabc); (0x676f, 0xb1ad); (0x6770, 0xbddc); (0x6772, 0xeabd); (0x6773, 0xe8c3); (0x6775, 0xe8c6); (0x6777, 0xe8cb); (0x677c, 0xe8cc);
  (0x677e, 0xcbc9); (0x677f, 0xb0e5); (0x6781, 0xbcab); (0x6784, 0xb9b9); (0x6787, 0xe8c1); (0x6789, 0xcdf7); (0x678b, 0xe8ca); (0x6790, 0xcef6);
  (0x6795, 0xd5ed); (0x6797, 0xc1d6); (0x6798, 0xe8c4); (0x679a, 0xc3b6); (0x679c, 0xb9fb); (0x679d, 0xd6a6); (0x679e, 0xe8c8); (0x67a2, 0xcae0);
  (0x67a3, 0xd4e6); (0x67a5, 0xe8c0); (0x67a7, 0xe8c5); (0x67a8, 0xe8c7); (0x67aa, 0xc7b9); (0x67ab, 0xb7e3); (0x67ad, 0xe8c9); (0x67af, 0xbfdd);
  (0x67b0, 0xe8d2); (0x67b3, 0xe8d7); (0x67b5, 0xe8d5); (0x67b6, 0xbcdc); (0x67b7, 0xbccf); (0x67b8, 0xe8db); (0x67c1, 0xe8de); (0x67c3, 0xe8da);
  (0x67c4, 0xb1fa); (0x67cf, 0xb0d8); (0x67d0, 0xc4b3); (0x67d1, 0xb8cc); (0x67d2, 0xc6e2); (0x67d3, 0xc8be); (0x67d4, 0xc8e1); (0x67d8, 0xe8cf);
  (0x67d9, 0xe8d4); (0x67da, 0xe8d6); (0x67dc, 0xb9f1); (0x67dd, 0xe8d8); (0x67de, 0xd7f5); (0x67e0, 0xc4fb); (0x67e2, 0xe8dc); (0x67e5, 0xb2e9);
  (0x67e9, 0xe8d1); (0x67ec, 0xbced); (0x67ef, 0xbfc2); (0x67f0, 0xe8cd); (0x67f1, 0xd6f9); (0x67f3, 0xc1f8); (0x67f4, 0xb2f1); (0x67fd, 0xe8df);
  (0x67ff, 0xcac1); (0x6800, 0xe8d9); (0x6805, 0xd5a4); (0x6807, 0xb1ea); (0x6808, 0xd5bb); (0x6809, 0xe8ce); (0x680a, 0xe8d0); (0x680b, 0xb6b0);
  (0x680c, 0xe8d3); (0x680e, 0xe8dd); (0x680f, 0xc0b8); (0x6811, 0xcaf7); (0x6813, 0xcba8); (0x6816, 0xc6dc)].

Definition gb_rows_27 : list (Z * Z) := [
  (0x6817, 0xc0f5); (0x681d, 0xe8e9); (0x6821, 0xd0a3); (0x6829, 0xe8f2); (0x682a, 0xd6ea); (0x6832, 0xe8e0); (0x6833, 0xe8e1); (0x6837, 0xd1f9);
  (0x6838, 0xbacb); (0x6839, 0xb8f9); (0x683c, 0xb8f1); (0x683d, 0xd4d4); (0x683e, 0xe8ef); (0x6840, 0xe8ee); (0x6841, 0xe8ec); (0x6842, 0xb9f0);
  (0x6843, 0xccd2); (0x6844, 0xe8e6); (0x6845, 0xcea6); (0x6846, 0xbff2); (0x6848, 0xb0b8); (0x6849, 0xe8f1); (0x684a, 0xe8f0); (0x684c, 0xd7c0);
  (0x684e, 0xe8e4); (0x6850, 0xcda9); (0x6851, 0xc9a3); (0x6853, 0xbbb8); (0x6854, 0xbddb); (0x6855, 0xe8ea); (0x6860, 0xe8e2); (0x6861, 0xe8e3);
  (0x6862, 0xe8e5); (0x6863, 0xb5b5); (0x6864, 0xe8e7); (0x6865, 0xc7c5); (0x6866, 0xe8eb); (0x6867, 0xe8ed); (0x6868, 0xbdb0); (0x6869, 0xd7ae);
  (0x686b, 0xe8f8); (0x6874, 0xe8f5); (0x6876, 0xcdb0); (0x6877, 0xe8f6); (0x6881, 0xc1ba); (0x6883, 0xe8e8); (0x6885, 0xc3b7); (0x6886, 0xb0f0);
  (0x688f, 0xe8f4); (0x6893, 0xe8f7); (0x6897, 0xb9a3); (0x68a2, 0xc9d2); (0x68a6, 0xc3ce); (0x68a7, 0xcee0); (0x68a8, 0xc0e6); (0x68ad, 0xcbf3);
  (0x68af, 0xccdd); (0x68b0, 0xd0b5); (0x68b3, 0xcae1); (0x68b5, 0xe8f3); (0x68c0, 0xbcec); (0x68c2, 0xe8f9); (0x68c9, 0xc3de); (0x68cb, 0xc6e5);
  (0x68cd, 0xb9f7); (0x68d2, 0xb0f4); (0x68d5, 0xd7d8); (0x68d8, 0xbcac); (0x68da, 0xc5ef); (0x68e0, 0xccc4); (0x68e3, 0xe9a6); (0x68ee, 0xc9ad);
  (0x68f0, 0xe9a2); (0x68f1, 0xc0e2); (0x68f5, 0xbfc3); (0x68f9, 0xe8fe); (0x68fa, 0xb9d7); (0x68fc, 0xe8fb); (0x6901, 0xe9a4); (0x6905, 0xd2ce);
  (0x690b, 0xe9a3); (0x690d, 0xd6b2); (0x690e, 0xd7b5); (0x6910, 0xe9a7); (0x6912, 0xbdb7); (0x691f, 0xe8fc); (0x6920, 0xe8fd); (0x6924, 0xe9a1);
  (0x692d, 0xcdd6); (0x6930, 0xd2ac); (0x6934, 0xe9b2); (0x6939, 0xe9a9); (0x693d, 0xb4aa); (0x693f, 0xb4bb)].

Definition gb_rows_28 : list (Z * Z) := [
  (0x6942, 0xe9ab); (0x6954, 0xd0a8); (0x6957, 0xe9a5); (0x695a, 0xb3fe); (0x695d, 0xe9ac); (0x695e, 0xc0e3); (0x6960, 0xe9aa); (0x6963, 0xe9b9);
  (0x6966, 0xe9b8); (0x696b, 0xe9ae); (0x696e, 0xe8fa); (0x6971, 0xe9a8); (0x6977, 0xbfac); (0x6978, 0xe9b1); (0x6979, 0xe9ba); (0x697c, 0xc2a5);
  (0x6980, 0xe9af); (0x6982, 0xb8c5); (0x6984, 0xe9ad); (0x6986, 0xd3dc); (0x6987, 0xe9b4); (0x6988, 0xe9b5); (0x6989, 0xe9b7); (0x698d, 0xe9c7);
  (0x6994, 0xc0c6); (0x6995, 0xe9c5); (0x6998, 0xe9b0); (0x699b, 0xe9bb); (0x699c, 0xb0f1); (0x69a7, 0xe9bc); (0x69a8, 0xd5a5); (0x69ab, 0xe9be);
  (0x69ad, 0xe9bf); (0x69b1, 0xe9c1); (0x69b4, 0xc1f1); (0x69b7, 0xc8b6); (0x69bb, 0xe9bd); (0x69c1, 0xe9c2); (0x69ca, 0xe9c3); (0x69cc, 0xe9b3);
  (0x69ce, 0xe9b6); (0x69d0, 0xbbb1); (0x69d4, 0xe9c0); (0x69db, 0xbcf7); (0x69df, 0xe9c4); (0x69e0, 0xe9c6); (0x69ed, 0xe9ca); (0x69f2, 0xe9ce);
  (0x69fd, 0xb2db); (0x69ff, 0xe9c8); (0x6a0a, 0xb7ae); (0x6a17, 0xe9cb); (0x6a18, 0xe9cc); (0x6a1f, 0xd5c1); (0x6a21, 0xc4a3); (0x6a28, 0xe9d8);
  (0x6a2a, 0xbae1); (0x6a2f, 0xe9c9); (0x6a31, 0xd3a3); (0x6a35, 0xe9d4); (0x6a3d, 0xe9d7); (0x6a3e, 0xe9d0); (0x6a44, 0xe9cf); (0x6a47, 0xc7c1);
  (0x6a50, 0xe9d2); (0x6a58, 0xe9d9); (0x6a59, 0xb3c8); (0x6a5b, 0xe9d3); (0x6a61, 0xcff0); (0x6a65, 0xe9cd); (0x6a71, 0xb3f7); (0x6a79, 0xe9d6);
  (0x6a7c, 0xe9da); (0x6a80, 0xccb4); (0x6a84, 0xcfad); (0x6a8e, 0xe9d5); (0x6a90, 0xe9dc); (0x6a91, 0xe9db); (0x6a97, 0xe9de); (0x6aa0, 0xe9d1);
  (0x6aa9, 0xe9dd); (0x6aab, 0xe9df); (0x6aac, 0xc3ca); (0x6b20, 0xc7b7); (0x6b21, 0xb4ce); (0x6b22, 0xbbb6); (0x6b23, 0xd0c0); (0x6b24, 0xeca3);
  (0x6b27, 0xc5b7); (0x6b32, 0xd3fb); (0x6b37, 0xeca4); (0x6b39, 0xeca5); (0x6b3a, 0xc6db); (0x6b3e, 0xbfee)].

Definition gb_rows_29 : list (Z * Z) := [
  (0x6b43, 0xeca6); (0x6b46, 0xeca7); (0x6b47, 0xd0aa); (0x6b49, 0xc7b8); (0x6b4c, 0xb8e8); (0x6b59, 0xeca8); (0x6b62, 0xd6b9); (0x6b63, 0xd5fd);
  (0x6b64, 0xb4cb); (0x6b65, 0xb2bd); (0x6b66, 0xcee4); (0x6b67, 0xc6e7); (0x6b6a, 0xcde1); (0x6b79, 0xb4f5); (0x6b7b, 0xcbc0); (0x6b7c, 0xbcdf);
  (0x6b81, 0xe9e2); (0x6b82, 0xe9e3); (0x6b83, 0xd1ea); (0x6b84, 0xe9e5); (0x6b86, 0xb4f9); (0x6b87, 0xe9e4); (0x6b89, 0xd1b3); (0x6b8a, 0xcae2);
  (0x6b8b, 0xb2d0); (0x6b8d, 0xe9e8); (0x6b92, 0xe9e6); (0x6b93, 0xe9e7); (0x6b96, 0xd6b3); (0x6b9a, 0xe9e9); (0x6b9b, 0xe9ea); (0x6ba1, 0xe9eb);
  (0x6baa, 0xe9ec); (0x6bb3, 0xecaf); (0x6bb4, 0xc5b9); (0x6bb5, 0xb6ce); (0x6bb7, 0xd2f3); (0x6bbf, 0xb5ee); (0x6bc1, 0xbbd9); (0x6bc2, 0xecb1);
  (0x6bc5, 0xd2e3); (0x6bcb, 0xcee3); (0x6bcd, 0xc4b8); (0x6bcf, 0xc3bf); (0x6bd2, 0xb6be); (0x6bd3, 0xd8b9); (0x6bd4, 0xb1c8); (0x6bd5, 0xb1cf);
  (0x6bd6, 0xb1d1); (0x6bd7, 0xc5fe); (0x6bd9, 0xb1d0); (0x6bdb, 0xc3ab); (0x6be1, 0xd5b1); (0x6bea, 0xeba4); (0x6beb, 0xbac1); (0x6bef, 0xccba);
  (0x6bf3, 0xeba5); (0x6bf5, 0xeba7); (0x6bf9, 0xeba8); (0x6bfd, 0xeba6); (0x6c05, 0xeba9); (0x6c06, 0xebab); (0x6c07, 0xebaa); (0x6c0d, 0xebac);
  (0x6c0f, 0xcacf); (0x6c10, 0xd8b5); (0x6c11, 0xc3f1); (0x6c13, 0xc3a5); (0x6c14, 0xc6f8); (0x6c15, 0xebad); (0x6c16, 0xc4ca); (0x6c18, 0xebae);
  (0x6c19, 0xebaf); (0x6c1a, 0xebb0); (0x6c1b, 0xb7d5); (0x6c1f, 0xb7fa); (0x6c21, 0xebb1); (0x6c22, 0xc7e2); (0x6c24, 0xebb3); (0x6c26, 0xbaa4);
  (0x6c27, 0xd1f5); (0x6c28, 0xb0b1); (0x6c29, 0xebb2); (0x6c2a, 0xebb4); (0x6c2e, 0xb5aa); (0x6c2f, 0xc2c8); (0x6c30, 0xc7e8); (0x6c32, 0xebb5);
  (0x6c34, 0xcbae); (0x6c35, 0xe3df); (0x6c38, 0xd3c0); (0x6c3d, 0xd9db); (0x6c40, 0xcda1); (0x6c41, 0xd6ad)].

Definition gb_rows_30 : list (Z * Z) := [
  (0x6c42, 0xc7f3); (0x6c46, 0xd9e0); (0x6c47, 0xbbe3); (0x6c49, 0xbaba); (0x6c4a, 0xe3e2); (0x6c50, 0xcfab); (0x6c54, 0xe3e0); (0x6c55, 0xc9c7);
  (0x6c57, 0xbab9); (0x6c5b, 0xd1b4); (0x6c5c, 0xe3e1); (0x6c5d, 0xc8ea); (0x6c5e, 0xb9af); (0x6c5f, 0xbdad); (0x6c60, 0xb3d8); (0x6c61, 0xcedb);
  (0x6c64, 0xccc0); (0x6c68, 0xe3e8); (0x6c69, 0xe3e9); (0x6c6a, 0xcdf4); (0x6c70, 0xccad); (0x6c72, 0xbcb3); (0x6c74, 0xe3ea); (0x6c76, 0xe3eb);
  (0x6c79, 0xd0da); (0x6c7d, 0xc6fb); (0x6c7e, 0xb7da); (0x6c81, 0xc7df); (0x6c82, 0xd2ca); (0x6c83, 0xced6); (0x6c85, 0xe3e4); (0x6c86, 0xe3ec);
  (0x6c88, 0xc9f2); (0x6c89, 0xb3c1); (0x6c8c, 0xe3e7); (0x6c8f, 0xc6e3); (0x6c90, 0xe3e5); (0x6c93, 0xedb3); (0x6c94, 0xe3e6); (0x6c99, 0xc9b3);
  (0x6c9b, 0xc5e6); (0x6c9f, 0xb9b5); (0x6ca1, 0xc3bb); (0x6ca3, 0xe3e3); (0x6ca4, 0xc5bd); (0x6ca5, 0xc1a4); (0x6ca6, 0xc2d9); (0x6ca7, 0xb2d7);
  (0x6ca9, 0xe3ed); (0x6caa, 0xbba6); (0x6cab, 0xc4ad); (0x6cad, 0xe3f0); (0x6cae, 0xbeda); (0x6cb1, 0xe3fb); (0x6cb2, 0xe3f5); (0x6cb3, 0xbad3);
  (0x6cb8, 0xb7d0); (0x6cb9, 0xd3cd); (0x6cbb, 0xd6ce); (0x6cbc, 0xd5d3); (0x6cbd, 0xb9c1); (0x6cbe, 0xd5b4); (0x6cbf, 0xd1d8); (0x6cc4, 0xd0b9);
  (0x6cc5, 0xc7f6); (0x6cc9, 0xc8aa); (0x6cca, 0xb2b4); (0x6ccc, 0xc3da); (0x6cd0, 0xe3ee); (0x6cd3, 0xe3fc); (0x6cd4, 0xe3ef); (0x6cd5, 0xb7a8);
  (0x6cd6, 0xe3f7); (0x6cd7, 0xe3f4); (0x6cdb, 0xb7ba); (0x6cde, 0xc5a2); (0x6ce0, 0xe3f6); (0x6ce1, 0xc5dd); (0x6ce2, 0xb2a8); (0x6ce3, 0xc6fc);
  (0x6ce5, 0xc4e0); (0x6ce8, 0xd7a2); (0x6cea, 0xc0e1); (0x6ceb, 0xe3f9); (0x6cee, 0xe3fa); (0x6cef, 0xe3fd); (0x6cf0, 0xcca9); (0x6cf1, 0xe3f3);
  (0x6cf3, 0xd3be); (0x6cf5, 0xb1c3); (0x6cf6, 0xedb4); (0x6cf7, 0xe3f1); (0x6cf8, 0xe3f2); (0x6cfa, 0xe3f8)].

Definition gb_rows_31 : list (Z * Z) := [
  (0x6cfb, 0xd0ba); (0x6cfc, 0xc6c3); (0x6cfd, 0xd4f3); (0x6cfe, 0xe3fe); (0x6d01, 0xbde0); (0x6d04, 0xe4a7); (0x6d07, 0xe4a6); (0x6d0b, 0xd1f3);
  (0x6d0c, 0xe4a3); (0x6d0e, 0xe4a9); (0x6d12, 0xc8f7); (0x6d17, 0xcfb4); (0x6d19, 0xe4a8); (0x6d1a, 0xe4ae); (0x6d1b, 0xc2e5); (0x6d1e, 0xb6b4);
  (0x6d25, 0xbdf2); (0x6d27, 0xe4a2); (0x6d2a, 0xbae9); (0x6d2b, 0xe4aa); (0x6d2e, 0xe4ac); (0x6d31, 0xb6fd); (0x6d32, 0xd6de); (0x6d33, 0xe4b2);
  (0x6d35, 0xe4ad); (0x6d39, 0xe4a1); (0x6d3b, 0xbbee); (0x6d3c, 0xcddd); (0x6d3d, 0xc7a2); (0x6d3e, 0xc5c9); (0x6d41, 0xc1f7); (0x6d43, 0xe4a4);
  (0x6d45, 0xc7b3); (0x6d46, 0xbdac); (0x6d47, 0xbdbd); (0x6d48, 0xe4a5); (0x6d4a, 0xd7c7); (0x6d4b, 0xb2e2); (0x6d4d, 0xe4ab); (0x6d4e, 0xbcc3);
  (0x6d4f, 0xe4af); (0x6d51, 0xbbeb); (0x6d52, 0xe4b0); (0x6d53, 0xc5a8); (0x6d54, 0xe4b1); (0x6d59, 0xd5e3); (0x6d5a, 0xbfa3); (0x6d5c, 0xe4ba);
  (0x6d5e, 0xe4b7); (0x6d60, 0xe4bb); (0x6d63, 0xe4bd); (0x6d66, 0xc6d6); (0x6d69, 0xbac6); (0x6d6a, 0xc0cb); (0x6d6e, 0xb8a1); (0x6d6f, 0xe4b4);
  (0x6d74, 0xd4a1); (0x6d77, 0xbaa3); (0x6d78, 0xbdfe); (0x6d7c, 0xe4bc); (0x6d82, 0xcdbf); (0x6d85, 0xc4f9); (0x6d88, 0xcffb); (0x6d89, 0xc9e6);
  (0x6d8c, 0xd3bf); (0x6d8e, 0xcfd1); (0x6d91, 0xe4b3); (0x6d93, 0xe4b8); (0x6d94, 0xe4b9); (0x6d95, 0xcce9); (0x6d9b, 0xccce); (0x6d9d, 0xc0d4);
  (0x6d9e, 0xe4b5); (0x6d9f, 0xc1b0); (0x6da0, 0xe4b6); (0x6da1, 0xced0); (0x6da3, 0xbbc1); (0x6da4, 0xb5d3); (0x6da6, 0xc8f3); (0x6da7, 0xbda7);
  (0x6da8, 0xd5c7); (0x6da9, 0xc9ac); (0x6daa, 0xb8a2); (0x6dab, 0xe4ca); (0x6dae, 0xe4cc); (0x6daf, 0xd1c4); (0x6db2, 0xd2ba); (0x6db5, 0xbaad);
  (0x6db8, 0xbad4); (0x6dbf, 0xe4c3); (0x6dc0, 0xb5ed); (0x6dc4, 0xd7cd); (0x6dc5, 0xe4c0); (0x6dc6, 0xcffd)].

Definition gb_rows_32 : list (Z * Z) := [
  (0x6dc7, 0xe4bf); (0x6dcb, 0xc1dc); (0x6dcc, 0xccca); (0x6dd1, 0xcae7); (0x6dd6, 0xc4d7); (0x6dd8, 0xccd4); (0x6dd9, 0xe4c8); (0x6ddd, 0xe4c7);
  (0x6dde, 0xe4c1); (0x6de0, 0xe4c4); (0x6de1, 0xb5ad); (0x6de4, 0xd3d9); (0x6de6, 0xe4c6); (0x6deb, 0xd2f9); (0x6dec, 0xb4e3); (0x6dee, 0xbbb4);
  (0x6df1, 0xc9ee); (0x6df3, 0xb4be); (0x6df7, 0xbbec); (0x6df9, 0xd1cd); (0x6dfb, 0xcced); (0x6dfc, 0xedb5); (0x6e05, 0xc7e5); (0x6e0a, 0xd4a8);
  (0x6e0c, 0xe4cb); (0x6e0d, 0xd7d5); (0x6e0e, 0xe4c2); (0x6e10, 0xbda5); (0x6e11, 0xe4c5); (0x6e14, 0xd3e6); (0x6e16, 0xe4c9); (0x6e17, 0xc9f8);
  (0x6e1a, 0xe4be); (0x6e1d, 0xd3e5); (0x6e20, 0xc7fe); (0x6e21, 0xb6c9); (0x6e23, 0xd4fc); (0x6e24, 0xb2b3); (0x6e25, 0xe4d7); (0x6e29, 0xcec2);
  (0x6e2b, 0xe4cd); (0x6e2d, 0xcebc); (0x6e2f, 0xb8db); (0x6e32, 0xe4d6); (0x6e34, 0xbfca); (0x6e38, 0xd3ce); (0x6e3a, 0xc3ec); (0x6e43, 0xc5c8);
  (0x6e44, 0xe4d8); (0x6e4d, 0xcdc4); (0x6e4e, 0xe4cf); (0x6e53, 0xe4d4); (0x6e54, 0xe4d5); (0x6e56, 0xbafe); (0x6e58, 0xcfe6); (0x6e5b, 0xd5bf);
  (0x6e5f, 0xe4d2); (0x6e6b, 0xe4d0); (0x6e6e, 0xe4ce); (0x6e7e, 0xcde5); (0x6e7f, 0xcaaa); (0x6e83, 0xc0a3); (0x6e85, 0xbda6); (0x6e86, 0xe4d3);
  (0x6e89, 0xb8c8); (0x6e8f, 0xe4e7); (0x6e90, 0xd4b4); (0x6e98, 0xe4db); (0x6e9c, 0xc1ef); (0x6e9f, 0xe4e9); (0x6ea2, 0xd2e7); (0x6ea5, 0xe4df);
  (0x6ea7, 0xe4e0); (0x6eaa, 0xcfaa); (0x6eaf, 0xcbdd); (0x6eb1, 0xe4da); (0x6eb2, 0xe4d1); (0x6eb4, 0xe4e5); (0x6eb6, 0xc8dc); (0x6eb7, 0xe4e3);
  (0x6eba, 0xc4e7); (0x6ebb, 0xe4e2); (0x6ebd, 0xe4e1); (0x6ec1, 0xb3fc); (0x6ec2, 0xe4e8); (0x6ec7, 0xb5e1); (0x6ecb, 0xd7cc); (0x6ecf, 0xe4e6);
  (0x6ed1, 0xbbac); (0x6ed3, 0xd7d2); (0x6ed4, 0xcccf); (0x6ed5, 0xebf8); (0x6ed7, 0xe4e4); (0x6eda, 0xb9f6)].

Definition gb_rows_33 : list (Z * Z) := [
  (0x6ede, 0xd6cd); (0x6edf, 0xe4d9); (0x6ee0, 0xe4dc); (0x6ee1, 0xc2fa); (0x6ee2, 0xe4de); (0x6ee4, 0xc2cb); (0x6ee5, 0xc0c4); (0x6ee6, 0xc2d0);
  (0x6ee8, 0xb1f5); (0x6ee9, 0xccb2); (0x6ef4, 0xb5ce); (0x6ef9, 0xe4ef); (0x6f02, 0xc6af); (0x6f06, 0xc6e1); (0x6f09, 0xe4f5); (0x6f0f, 0xc2a9);
  (0x6f13, 0xc0ec); (0x6f14, 0xd1dd); (0x6f15, 0xe4ee); (0x6f20, 0xc4ae); (0x6f24, 0xe4ed); (0x6f29, 0xe4f6); (0x6f2a, 0xe4f4); (0x6f2b, 0xc2fe);
  (0x6f2d, 0xe4dd); (0x6f2f, 0xe4f0); (0x6f31, 0xcafe); (0x6f33, 0xd5c4); (0x6f36, 0xe4f1); (0x6f3e, 0xd1fa); (0x6f46, 0xe4eb); (0x6f47, 0xe4ec);
  (0x6f4b, 0xe4f2); (0x6f4d, 0xceab); (0x6f58, 0xc5cb); (0x6f5c, 0xc7b1); (0x6f5e, 0xc2ba); (0x6f62, 0xe4ea); (0x6f66, 0xc1ca); (0x6f6d, 0xccb6);
  (0x6f6e, 0xb3b1); (0x6f72, 0xe4fb); (0x6f74, 0xe4f3); (0x6f78, 0xe4fa); (0x6f7a, 0xe4fd); (0x6f7c, 0xe4fc); (0x6f84, 0xb3ce); (0x6f88, 0xb3ba);
  (0x6f89, 0xe4f7); (0x6f8c, 0xe4f9); (0x6f8d, 0xe4f8); (0x6f8e, 0xc5ec); (0x6f9c, 0xc0bd); (0x6fa1, 0xd4e8); (0x6fa7, 0xe5a2); (0x6fb3, 0xb0c4);
  (0x6fb6, 0xe5a4); (0x6fb9, 0xe5a3); (0x6fc0, 0xbca4); (0x6fc2, 0xe5a5); (0x6fc9, 0xe5a1); (0x6fd1, 0xe4fe); (0x6fd2, 0xb1f4); (0x6fde, 0xe5a8);
  (0x6fe0, 0xe5a9); (0x6fe1, 0xe5a6); (0x6fee, 0xe5a7); (0x6fef, 0xe5aa); (0x7011, 0xc6d9); (0x701a, 0xe5ab); (0x701b, 0xe5ad); (0x7023, 0xe5ac);
  (0x7035, 0xe5af); (0x7039, 0xe5ae); (0x704c, 0xb9e0); (0x704f, 0xe5b0); (0x705e, 0xe5b1); (0x706b, 0xbbf0); (0x706c, 0xece1); (0x706d, 0xc3f0);
  (0x706f, 0xb5c6); (0x7070, 0xbbd2); (0x7075, 0xc1e9); (0x7076, 0xd4ee); (0x7078, 0xbec4); (0x707c, 0xd7c6); (0x707e, 0xd4d6); (0x707f, 0xb2d3);
  (0x7080, 0xecbe); (0x7085, 0xeac1); (0x7089, 0xc2af); (0x708a, 0xb4b6); (0x708e, 0xd1d7); (0x7092, 0xb3b4)].

Definition gb_rows_34 : list (Z * Z) := [
  (0x7094, 0xc8b2); (0x7095, 0xbfbb); (0x7096, 0xecc0); (0x7099, 0xd6cb); (0x709c, 0xecbf); (0x709d, 0xecc1); (0x70ab, 0xecc5); (0x70ac, 0xbee6);
  (0x70ad, 0xccbf); (0x70ae, 0xc5da); (0x70af, 0xbebc); (0x70b1, 0xecc6); (0x70b3, 0xb1fe); (0x70b7, 0xecc4); (0x70b8, 0xd5a8); (0x70b9, 0xb5e3);
  (0x70bb, 0xecc2); (0x70bc, 0xc1b6); (0x70bd, 0xb3e3); (0x70c0, 0xecc3); (0x70c1, 0xcbb8); (0x70c2, 0xc0c3); (0x70c3, 0xccfe); (0x70c8, 0xc1d2);
  (0x70ca, 0xecc8); (0x70d8, 0xbae6); (0x70d9, 0xc0d3); (0x70db, 0xd6f2); (0x70df, 0xd1cc); (0x70e4, 0xbfbe); (0x70e6, 0xb7b3); (0x70e7, 0xc9d5);
  (0x70e8, 0xecc7); (0x70e9, 0xbbe2); (0x70eb, 0xcccc); (0x70ec, 0xbdfd); (0x70ed, 0xc8c8); (0x70ef, 0xcfa9); (0x70f7, 0xcde9); (0x70f9, 0xc5eb);
  (0x70fd, 0xb7e9); (0x7109, 0xd1c9); (0x710a, 0xbab8); (0x7110, 0xecc9); (0x7113, 0xecca); (0x7115, 0xbbc0); (0x7116, 0xeccb); (0x7118, 0xece2);
  (0x7119, 0xb1ba); (0x711a, 0xb7d9); (0x7126, 0xbdb9); (0x712f, 0xeccc); (0x7130, 0xd1e6); (0x7131, 0xeccd); (0x7136, 0xc8bb); (0x7145, 0xecd1);
  (0x714a, 0xecd3); (0x714c, 0xbbcd); (0x714e, 0xbce5); (0x715c, 0xeccf); (0x715e, 0xc9b7); (0x7164, 0xc3ba); (0x7166, 0xece3); (0x7167, 0xd5d5);
  (0x7168, 0xecd0); (0x716e, 0xd6f3); (0x7172, 0xecd2); (0x7173, 0xecce); (0x7178, 0xecd4); (0x717a, 0xecd5); (0x717d, 0xc9bf); (0x7184, 0xcfa8);
  (0x718a, 0xd0dc); (0x718f, 0xd1ac); (0x7194, 0xc8db); (0x7198, 0xecd6); (0x7199, 0xcef5); (0x719f, 0xcaec); (0x71a0, 0xecda); (0x71a8, 0xecd9);
  (0x71ac, 0xb0be); (0x71b3, 0xecd7); (0x71b5, 0xecd8); (0x71b9, 0xece4); (0x71c3, 0xc8bc); (0x71ce, 0xc1c7); (0x71d4, 0xecdc); (0x71d5, 0xd1e0);
  (0x71e0, 0xecdb); (0x71e5, 0xd4ef); (0x71e7, 0xecdd); (0x71ee, 0xdbc6); (0x71f9, 0xecde); (0x7206, 0xb1ac)].

Definition gb_rows_35 : list (Z * Z) := [
  (0x721d, 0xecdf); (0x7228, 0xece0); (0x722a, 0xd7a6); (0x722c, 0xc5c0); (0x7230, 0xebbc); (0x7231, 0xb0ae); (0x7235, 0xbef4); (0x7236, 0xb8b8);
  (0x7237, 0xd2af); (0x7238, 0xb0d6); (0x7239, 0xb5f9); (0x723b, 0xd8b3); (0x723d, 0xcbac); (0x723f, 0xe3dd); (0x7247, 0xc6ac); (0x7248, 0xb0e6);
  (0x724c, 0xc5c6); (0x724d, 0xebb9); (0x7252, 0xebba); (0x7256, 0xebbb); (0x7259, 0xd1c0); (0x725b, 0xc5a3); (0x725d, 0xeaf2); (0x725f, 0xc4b2);
  (0x7261, 0xc4b5); (0x7262, 0xc0ce); (0x7266, 0xeaf3); (0x7267, 0xc4c1); (0x7269, 0xceef); (0x726e, 0xeaf0); (0x726f, 0xeaf4); (0x7272, 0xc9fc);
  (0x7275, 0xc7a3); (0x7279, 0xccd8); (0x727a, 0xcefe); (0x727e, 0xeaf5); (0x727f, 0xeaf6); (0x7280, 0xcfac); (0x7281, 0xc0e7); (0x7284, 0xeaf7);
  (0x728a, 0xb6bf); (0x728b, 0xeaf8); (0x728d, 0xeaf9); (0x728f, 0xeafa); (0x7292, 0xeafb); (0x729f, 0xeaf1); (0x72ac, 0xc8ae); (0x72ad, 0xe1eb);
  (0x72af, 0xb7b8); (0x72b0, 0xe1ec); (0x72b4, 0xe1ed); (0x72b6, 0xd7b4); (0x72b7, 0xe1ee); (0x72b8, 0xe1ef); (0x72b9, 0xd3cc); (0x72c1, 0xe1f1);
  (0x72c2, 0xbff1); (0x72c3, 0xe1f0); (0x72c4, 0xb5d2); (0x72c8, 0xb1b7); (0x72cd, 0xe1f3); (0x72ce, 0xe1f2); (0x72d0, 0xbafc); (0x72d2, 0xe1f4);
  (0x72d7, 0xb9b7); (0x72d9, 0xbed1); (0x72de, 0xc4fc); (0x72e0, 0xbadd); (0x72e1, 0xbdc6); (0x72e8, 0xe1f5); (0x72e9, 0xe1f7); (0x72ec, 0xb6c0);
  (0x72ed, 0xcfc1); (0x72ee, 0xcaa8); (0x72ef, 0xe1f6); (0x72f0, 0xd5f8); (0x72f1, 0xd3fc); (0x72f2, 0xe1f8); (0x72f3, 0xe1fc); (0x72f4, 0xe1f9);
  (0x72f7, 0xe1fa); (0x72f8, 0xc0ea); (0x72fa, 0xe1fe); (0x72fb, 0xe2a1); (0x72fc, 0xc0c7); (0x7301, 0xe1fb); (0x7303, 0xe1fd); (0x730a, 0xe2a5);
  (0x730e, 0xc1d4); (0x7313, 0xe2a3); (0x7315, 0xe2a8); (0x7316, 0xb2fe); (0x7317, 0xe2a2); (0x731b, 0xc3cd)].

Definition gb_rows_36 : list (Z * Z) := [
  (0x731c, 0xb2c2); (0x731d, 0xe2a7); (0x731e, 0xe2a6); (0x7321, 0xe2a4); (0x7322, 0xe2a9); (0x7325, 0xe2ab); (0x7329, 0xd0c9); (0x732a, 0xd6ed);
  (0x732b, 0xc3a8); (0x732c, 0xe2ac); (0x732e, 0xcfd7); (0x7331, 0xe2ae); (0x7334, 0xbaef); (0x7337, 0xe9e0); (0x7338, 0xe2ad); (0x7339, 0xe2aa);
  (0x733e, 0xbbab); (0x733f, 0xd4b3); (0x734d, 0xe2b0); (0x7350, 0xe2af); (0x7352, 0xe9e1); (0x7357, 0xe2b1); (0x7360, 0xe2b2); (0x736c, 0xe2b3);
  (0x736d, 0xcca1); (0x736f, 0xe2b4); (0x737e, 0xe2b5); (0x7384, 0xd0fe); (0x7387, 0xc2ca); (0x7389, 0xd3f1); (0x738b, 0xcdf5); (0x738e, 0xe7e0);
  (0x7391, 0xe7e1); (0x7396, 0xbec1); (0x739b, 0xc2ea); (0x739f, 0xe7e4); (0x73a2, 0xe7e3); (0x73a9, 0xcde6); (0x73ab, 0xc3b5); (0x73ae, 0xe7e2);
  (0x73af, 0xbbb7); (0x73b0, 0xcfd6); (0x73b2, 0xc1e1); (0x73b3, 0xe7e9); (0x73b7, 0xe7e8); (0x73ba, 0xe7f4); (0x73bb, 0xb2a3); (0x73c0, 0xe7ea);
  (0x73c2, 0xe7e6); (0x73c8, 0xe7ec); (0x73c9, 0xe7eb); (0x73ca, 0xc9ba); (0x73cd, 0xd5e4); (0x73cf, 0xe7e5); (0x73d0, 0xb7a9); (0x73d1, 0xe7e7);
  (0x73d9, 0xe7ee); (0x73de, 0xe7f3); (0x73e0, 0xd6e9); (0x73e5, 0xe7ed); (0x73e7, 0xe7f2); (0x73e9, 0xe7f1); (0x73ed, 0xb0e0); (0x73f2, 0xe7f5);
  (0x7403, 0xc7f2); (0x7405, 0xc0c5); (0x7406, 0xc0ed); (0x7409, 0xc1f0); (0x740a, 0xe7f0); (0x740f, 0xe7f6); (0x7410, 0xcbf6); (0x741a, 0xe8a2);
  (0x741b, 0xe8a1); (0x7422, 0xd7c1); (0x7425, 0xe7fa); (0x7426, 0xe7f9); (0x7428, 0xe7fb); (0x742a, 0xe7f7); (0x742c, 0xe7fe); (0x742e, 0xe7fd);
  (0x7430, 0xe7fc); (0x7433, 0xc1d5); (0x7434, 0xc7d9); (0x7435, 0xc5fd); (0x7436, 0xc5c3); (0x743c, 0xc7ed); (0x7441, 0xe8a3); (0x7455, 0xe8a6);
  (0x7457, 0xe8a5); (0x7459, 0xe8a7); (0x745a, 0xbaf7); (0x745b, 0xe7f8); (0x745c, 0xe8a4); (0x745e, 0xc8f0)].

Definition gb_rows_37 : list (Z * Z) := [
  (0x745f, 0xc9aa); (0x746d, 0xe8a9); (0x7470, 0xb9e5); (0x7476, 0xd1fe); (0x7477, 0xe8a8); (0x747e, 0xe8aa); (0x7480, 0xe8ad); (0x7481, 0xe8ae);
  (0x7483, 0xc1a7); (0x7487, 0xe8af); (0x748b, 0xe8b0); (0x748e, 0xe8ac); (0x7490, 0xe8b4); (0x749c, 0xe8ab); (0x749e, 0xe8b1); (0x74a7, 0xe8b5);
  (0x74a8, 0xe8b2); (0x74a9, 0xe8b3); (0x74ba, 0xe8b7); (0x74d2, 0xe8b6); (0x74dc, 0xb9cf); (0x74de, 0xf0ac); (0x74e0, 0xf0ad); (0x74e2, 0xc6b0);
  (0x74e3, 0xb0ea); (0x74e4, 0xc8bf); (0x74e6, 0xcddf); (0x74ee, 0xcecd); (0x74ef, 0xeab1); (0x74f4, 0xeab2); (0x74f6, 0xc6bf); (0x74f7, 0xb4c9);
  (0x74ff, 0xeab3); (0x7504, 0xd5e7); (0x750d, 0xddf9); (0x750f, 0xeab4); (0x7511, 0xeab5); (0x7513, 0xeab6); (0x7518, 0xb8ca); (0x7519, 0xdfb0);
  (0x751a, 0xc9f5); (0x751c, 0xccf0); (0x751f, 0xc9fa); (0x7525, 0xc9fb); (0x7528, 0xd3c3); (0x7529, 0xcba6); (0x752b, 0xb8a6); (0x752c, 0xf0ae);
  (0x752d, 0xb1c2); (0x752f, 0xe5b8); (0x7530, 0xccef); (0x7531, 0xd3c9); (0x7532, 0xbcd7); (0x7533, 0xc9ea); (0x7535, 0xb5e7); (0x7537, 0xc4d0);
  (0x7538, 0xb5e9); (0x753a, 0xeeae); (0x753b, 0xbbad); (0x753e, 0xe7de); (0x7540, 0xeeaf); (0x7545, 0xb3a9); (0x7548, 0xeeb2); (0x754b, 0xeeb1);
  (0x754c, 0xbde7); (0x754e, 0xeeb0); (0x754f, 0xceb7); (0x7554, 0xc5cf); (0x7559, 0xc1f4); (0x755a, 0xdbce); (0x755b, 0xeeb3); (0x755c, 0xd0f3);
  (0x7565, 0xc2d4); (0x7566, 0xc6e8); (0x756a, 0xb7ac); (0x7572, 0xeeb4); (0x7574, 0xb3eb); (0x7578, 0xbbfb); (0x7579, 0xeeb5); (0x757f, 0xe7dc);
  (0x7583, 0xeeb6); (0x7586, 0xbdae); (0x758b, 0xf1e2); (0x758f, 0xcae8); (0x7591, 0xd2c9); (0x7592, 0xf0da); (0x7594, 0xf0db); (0x7596, 0xf0dc);
  (0x7597, 0xc1c6); (0x7599, 0xb8ed); (0x759a, 0xbece); (0x759d, 0xf0de); (0x759f, 0xc5b1); (0x75a0, 0xf0dd)].

Definition gb_rows_38 : list (Z * Z) := [
  (0x75a1, 0xd1f1); (0x75a3, 0xf0e0); (0x75a4, 0xb0cc); (0x75a5, 0xbdea); (0x75ab, 0xd2df); (0x75ac, 0xf0df); (0x75ae, 0xb4af); (0x75af, 0xb7e8);
  (0x75b0, 0xf0e6); (0x75b1, 0xf0e5); (0x75b2, 0xc6a3); (0x75b3, 0xf0e1); (0x75b4, 0xf0e2); (0x75b5, 0xb4c3); (0x75b8, 0xf0e3); (0x75b9, 0xd5ee);
  (0x75bc, 0xccdb); (0x75bd, 0xbed2); (0x75be, 0xbcb2); (0x75c2, 0xf0e8); (0x75c3, 0xf0e7); (0x75c4, 0xf0e4); (0x75c5, 0xb2a1); (0x75c7, 0xd6a2);
  (0x75c8, 0xd3b8); (0x75c9, 0xbeb7); (0x75ca, 0xc8ac); (0x75cd, 0xf0ea); (0x75d2, 0xd1f7); (0x75d4, 0xd6cc); (0x75d5, 0xbadb); (0x75d6, 0xf0e9);
  (0x75d8, 0xb6bb); (0x75db, 0xcdb4); (0x75de, 0xc6a6); (0x75e2, 0xc1a1); (0x75e3, 0xf0eb); (0x75e4, 0xf0ee); (0x75e6, 0xf0ed); (0x75e7, 0xf0f0);
  (0x75e8, 0xf0ec); (0x75ea, 0xbbbe); (0x75eb, 0xf0ef); (0x75f0, 0xccb5); (0x75f1, 0xf0f2); (0x75f4, 0xb3d5); (0x75f9, 0xb1d4); (0x75fc, 0xf0f3);
  (0x75ff, 0xf0f4); (0x7600, 0xf0f6); (0x7601, 0xb4e1); (0x7603, 0xf0f1); (0x7605, 0xf0f7); (0x760a, 0xf0fa); (0x760c, 0xf0f8); (0x7610, 0xf0f5);
  (0x7615, 0xf0fd); (0x7617, 0xf0f9); (0x7618, 0xf0fc); (0x7619, 0xf0fe); (0x761b, 0xf1a1); (0x761f, 0xcec1); (0x7620, 0xf1a4); (0x7622, 0xf1a3);
  (0x7624, 0xc1f6); (0x7625, 0xf0fb); (0x7626, 0xcadd); (0x7629, 0xb4f1); (0x762a, 0xb1f1); (0x762b, 0xccb1); (0x762d, 0xf1a6); (0x7630, 0xf1a7);
  (0x7633, 0xf1ac); (0x7634, 0xd5ce); (0x7635, 0xf1a9); (0x7638, 0xc8b3); (0x763c, 0xf1a2); (0x763e, 0xf1ab); (0x763f, 0xf1a8); (0x7640, 0xf1a5);
  (0x7643, 0xf1aa); (0x764c, 0xb0a9); (0x764d, 0xf1ad); (0x7654, 0xf1af); (0x7656, 0xf1b1); (0x765c, 0xf1b0); (0x765e, 0xf1ae); (0x7663, 0xd1a2);
  (0x766b, 0xf1b2); (0x766f, 0xf1b3); (0x7678, 0xb9ef); (0x767b, 0xb5c7); (0x767d, 0xb0d7); (0x767e, 0xb0d9)].

Definition gb_rows_39 : list (Z * Z) := [
  (0x7682, 0xd4ed); (0x7684, 0xb5c4); (0x7686, 0xbdd4); (0x7687, 0xbbca); (0x7688, 0xf0a7); (0x768b, 0xb8de); (0x768e, 0xf0a8); (0x7691, 0xb0a8);
  (0x7693, 0xf0a9); (0x7696, 0xcdee); (0x7699, 0xf0aa); (0x76a4, 0xf0ab); (0x76ae, 0xc6a4); (0x76b1, 0xd6e5); (0x76b2, 0xf1e4); (0x76b4, 0xf1e5);
  (0x76bf, 0xc3f3); (0x76c2, 0xd3db); (0x76c5, 0xd6d1); (0x76c6, 0xc5e8); (0x76c8, 0xd3af); (0x76ca, 0xd2e6); (0x76cd, 0xeec1); (0x76ce, 0xb0bb);
  (0x76cf, 0xd5b5); (0x76d0, 0xd1ce); (0x76d1, 0xbce0); (0x76d2, 0xbad0); (0x76d4, 0xbff8); (0x76d6, 0xb8c7); (0x76d7, 0xb5c1); (0x76d8, 0xc5cc);
  (0x76db, 0xcaa2); (0x76df, 0xc3cb); (0x76e5, 0xeec2); (0x76ee, 0xc4bf); (0x76ef, 0xb6a2); (0x76f1, 0xedec); (0x76f2, 0xc3a4); (0x76f4, 0xd6b1);
  (0x76f8, 0xcfe0); (0x76f9, 0xedef); (0x76fc, 0xc5ce); (0x76fe, 0xb6dc); (0x7701, 0xcaa1); (0x7704, 0xeded); (0x7707, 0xedf0); (0x7708, 0xedf1);
  (0x7709, 0xc3bc); (0x770b, 0xbfb4); (0x770d, 0xedee); (0x7719, 0xedf4); (0x771a, 0xedf2); (0x771f, 0xd5e6); (0x7720, 0xc3df); (0x7722, 0xedf3);
  (0x7726, 0xedf6); (0x7728, 0xd5a3); (0x7729, 0xd1a3); (0x772d, 0xedf5); (0x772f, 0xc3d0); (0x7735, 0xedf7); (0x7736, 0xbff4); (0x7737, 0xbeec);
  (0x7738, 0xedf8); (0x773a, 0xccf7); (0x773c, 0xd1db); (0x7740, 0xd7c5); (0x7741, 0xd5f6); (0x7743, 0xedfc); (0x7747, 0xedfb); (0x7750, 0xedf9);
  (0x7751, 0xedfa); (0x775a, 0xedfd); (0x775b, 0xbea6); (0x7761, 0xcbaf); (0x7762, 0xeea1); (0x7763, 0xb6bd); (0x7765, 0xeea2); (0x7766, 0xc4c0);
  (0x7768, 0xedfe); (0x776b, 0xbdde); (0x776c, 0xb2c7); (0x7779, 0xb6c3); (0x777d, 0xeea5); (0x777e, 0xd8ba); (0x777f, 0xeea3); (0x7780, 0xeea6);
  (0x7784, 0xc3e9); (0x7785, 0xb3f2); (0x778c, 0xeea7); (0x778d, 0xeea4); (0x778e, 0xcfb9); (0x7791, 0xeea8)].

Definition gb_rows_40 : list (Z * Z) := [
  (0x7792, 0xc2f7); (0x779f, 0xeea9); (0x77a0, 0xeeaa); (0x77a2, 0xdeab); (0x77a5, 0xc6b3); (0x77a7, 0xc7c6); (0x77a9, 0xd6f5); (0x77aa, 0xb5c9);
  (0x77ac, 0xcbb2); (0x77b0, 0xeeab); (0x77b3, 0xcdab); (0x77b5, 0xeeac); (0x77bb, 0xd5b0); (0x77bd, 0xeead); (0x77bf, 0xf6c4); (0x77cd, 0xdbc7);
  (0x77d7, 0xb4a3); (0x77db, 0xc3ac); (0x77dc, 0xf1e6); (0x77e2, 0xcab8); (0x77e3, 0xd2d3); (0x77e5, 0xd6aa); (0x77e7, 0xeff2); (0x77e9, 0xbed8);
  (0x77eb, 0xbdc3); (0x77ec, 0xeff3); (0x77ed, 0xb6cc); (0x77ee, 0xb0ab); (0x77f3, 0xcaaf); (0x77f6, 0xedb6); (0x77f8, 0xedb7); (0x77fd, 0xcef9);
  (0x77fe, 0xb7af); (0x77ff, 0xbff3); (0x7800, 0xedb8); (0x7801, 0xc2eb); (0x7802, 0xc9b0); (0x7809, 0xedb9); (0x780c, 0xc6f6); (0x780d, 0xbfb3);
  (0x7811, 0xedbc); (0x7812, 0xc5f8); (0x7814, 0xd1d0); (0x7816, 0xd7a9); (0x7817, 0xedba); (0x7818, 0xedbb); (0x781a, 0xd1e2); (0x781c, 0xedbf);
  (0x781d, 0xedc0); (0x781f, 0xedc4); (0x7823, 0xedc8); (0x7825, 0xedc6); (0x7826, 0xedce); (0x7827, 0xd5e8); (0x7829, 0xedc9); (0x782c, 0xedc7);
  (0x782d, 0xedbe); (0x7830, 0xc5e9); (0x7834, 0xc6c6); (0x7837, 0xc9e9); (0x7838, 0xd4d2); (0x7839, 0xedc1); (0x783a, 0xedc2); (0x783b, 0xedc3);
  (0x783c, 0xedc5); (0x783e, 0xc0f9); (0x7840, 0xb4a1); (0x7845, 0xb9e8); (0x7847, 0xedd0); (0x784c, 0xedd1); (0x784e, 0xedca); (0x7850, 0xedcf);
  (0x7852, 0xcef8); (0x7855, 0xcbb6); (0x7856, 0xedcc); (0x7857, 0xedcd); (0x785d, 0xcff5); (0x786a, 0xedd2); (0x786b, 0xc1f2); (0x786c, 0xd3b2);
  (0x786d, 0xedcb); (0x786e, 0xc8b7); (0x7877, 0xbcef); (0x787c, 0xc5f0); (0x7887, 0xedd6); (0x7889, 0xb5ef); (0x788c, 0xc2b5); (0x788d, 0xb0ad);
  (0x788e, 0xcbe9); (0x7891, 0xb1ae); (0x7893, 0xedd4); (0x7897, 0xcdeb); (0x7898, 0xb5e2); (0x789a, 0xedd5)].

Definition gb_rows_41 : list (Z * Z) := [
  (0x789b, 0xedd3); (0x789c, 0xedd7); (0x789f, 0xb5fa); (0x78a1, 0xedd8); (0x78a3, 0xedd9); (0x78a5, 0xeddc); (0x78a7, 0xb1cc); (0x78b0, 0xc5f6);
  (0x78b1, 0xbcee); (0x78b2, 0xedda); (0x78b3, 0xccbc); (0x78b4, 0xb2ea); (0x78b9, 0xeddb); (0x78be, 0xc4eb); (0x78c1, 0xb4c5); (0x78c5, 0xb0f5);
  (0x78c9, 0xeddf); (0x78ca, 0xc0da); (0x78cb, 0xb4e8); (0x78d0, 0xc5cd); (0x78d4, 0xeddd); (0x78d5, 0xbfc4); (0x78d9, 0xedde); (0x78e8, 0xc4a5);
  (0x78ec, 0xede0); (0x78f2, 0xede1); (0x78f4, 0xede3); (0x78f7, 0xc1d7); (0x78fa, 0xbbc7); (0x7901, 0xbdb8); (0x7905, 0xede2); (0x7913, 0xede4);
  (0x791e, 0xede6); (0x7924, 0xede5); (0x7934, 0xede7); (0x793a, 0xcabe); (0x793b, 0xecea); (0x793c, 0xc0f1); (0x793e, 0xc9e7); (0x7940, 0xeceb);
  (0x7941, 0xc6ee); (0x7946, 0xecec); (0x7948, 0xc6ed); (0x7949, 0xeced); (0x7953, 0xecf0); (0x7956, 0xd7e6); (0x7957, 0xecf3); (0x795a, 0xecf1);
  (0x795b, 0xecee); (0x795c, 0xecef); (0x795d, 0xd7a3); (0x795e, 0xc9f1); (0x795f, 0xcbee); (0x7960, 0xecf4); (0x7962, 0xecf2); (0x7965, 0xcfe9);
  (0x7967, 0xecf6); (0x7968, 0xc6b1); (0x796d, 0xbcc0); (0x796f, 0xecf5); (0x7977, 0xb5bb); (0x7978, 0xbbf6); (0x797a, 0xecf7); (0x7980, 0xd9f7);
  (0x7981, 0xbdfb); (0x7984, 0xc2bb); (0x7985, 0xecf8); (0x798a, 0xecf9); (0x798f, 0xb8a3); (0x799a, 0xecfa); (0x79a7, 0xecfb); (0x79b3, 0xecfc);
  (0x79b9, 0xd3ed); (0x79ba, 0xd8ae); (0x79bb, 0xc0eb); (0x79bd, 0xc7dd); (0x79be, 0xbacc); (0x79c0, 0xd0e3); (0x79c1, 0xcbbd); (0x79c3, 0xcdba);
  (0x79c6, 0xb8d1); (0x79c9, 0xb1fc); (0x79cb, 0xc7ef); (0x79cd, 0xd6d6); (0x79d1, 0xbfc6); (0x79d2, 0xc3eb); (0x79d5, 0xeff5); (0x79d8, 0xc3d8);
  (0x79df, 0xd7e2); (0x79e3, 0xeff7); (0x79e4, 0xb3d3); (0x79e6, 0xc7d8); (0x79e7, 0xd1ed); (0x79e9, 0xd6c8)].

Definition gb_rows_42 : list (Z * Z) := [
  (0x79eb, 0xeff8); (0x79ed, 0xeff6); (0x79ef, 0xbbfd); (0x79f0, 0xb3c6); (0x79f8, 0xbdd5); (0x79fb, 0xd2c6); (0x79fd, 0xbbe0); (0x7a00, 0xcfa1);
  (0x7a02, 0xeffc); (0x7a03, 0xeffb); (0x7a06, 0xeff9); (0x7a0b, 0xb3cc); (0x7a0d, 0xc9d4); (0x7a0e, 0xcbb0); (0x7a14, 0xeffe); (0x7a17, 0xb0de);
  (0x7a1a, 0xd6c9); (0x7a1e, 0xeffd); (0x7a20, 0xb3ed); (0x7a23, 0xf6d5); (0x7a33, 0xcec8); (0x7a37, 0xf0a2); (0x7a39, 0xf0a1); (0x7a3b, 0xb5be);
  (0x7a3c, 0xbcda); (0x7a3d, 0xbbfc); (0x7a3f, 0xb8e5); (0x7a46, 0xc4c2); (0x7a51, 0xf0a3); (0x7a57, 0xcbeb); (0x7a70, 0xf0a6); (0x7a74, 0xd1a8);
  (0x7a76, 0xbebf); (0x7a77, 0xc7ee); (0x7a78, 0xf1b6); (0x7a79, 0xf1b7); (0x7a7a, 0xbfd5); (0x7a7f, 0xb4a9); (0x7a80, 0xf1b8); (0x7a81, 0xcdbb);
  (0x7a83, 0xc7d4); (0x7a84, 0xd5ad); (0x7a86, 0xf1b9); (0x7a88, 0xf1ba); (0x7a8d, 0xc7cf); (0x7a91, 0xd2a4); (0x7a92, 0xd6cf); (0x7a95, 0xf1bb);
  (0x7a96, 0xbdd1); (0x7a97, 0xb4b0); (0x7a98, 0xbebd); (0x7a9c, 0xb4dc); (0x7a9d, 0xced1); (0x7a9f, 0xbfdf); (0x7aa0, 0xf1bd); (0x7aa5, 0xbffa);
  (0x7aa6, 0xf1bc); (0x7aa8, 0xf1bf); (0x7aac, 0xf1be); (0x7aad, 0xf1c0); (0x7ab3, 0xf1c1); (0x7abf, 0xc1fe); (0x7acb, 0xc1a2); (0x7ad6, 0xcafa);
  (0x7ad9, 0xd5be); (0x7ade, 0xbeba); (0x7adf, 0xbeb9); (0x7ae0, 0xd5c2); (0x7ae3, 0xbfa2); (0x7ae5, 0xcdaf); (0x7ae6, 0xf1b5); (0x7aed, 0xbddf);
  (0x7aef, 0xb6cb); (0x7af9, 0xd6f1); (0x7afa, 0xf3c3); (0x7afd, 0xf3c4); (0x7aff, 0xb8cd); (0x7b03, 0xf3c6); (0x7b04, 0xf3c7); (0x7b06, 0xb0ca);
  (0x7b08, 0xf3c5); (0x7b0a, 0xf3c9); (0x7b0b, 0xcbf1); (0x7b0f, 0xf3cb); (0x7b11, 0xd0a6); (0x7b14, 0xb1ca); (0x7b15, 0xf3c8); (0x7b19, 0xf3cf);
  (0x7b1b, 0xb5d1); (0x7b1e, 0xf3d7); (0x7b20, 0xf3d2); (0x7b24, 0xf3d4); (0x7b25, 0xf3d3); (0x7b26, 0xb7fb)].

Definition gb_rows_43 : list (Z * Z) := [
  (0x7b28, 0xb1bf); (0x7b2a, 0xf3ce); (0x7b2b, 0xf3ca); (0x7b2c, 0xb5da); (0x7b2e, 0xf3d0); (0x7b31, 0xf3d1); (0x7b33, 0xf3d5); (0x7b38, 0xf3cd);
  (0x7b3a, 0xbce3); (0x7b3c, 0xc1fd); (0x7b3e, 0xf3d6); (0x7b45, 0xf3da); (0x7b47, 0xf3cc); (0x7b49, 0xb5c8); (0x7b4b, 0xbdee); (0x7b4c, 0xf3dc);
  (0x7b4f, 0xb7a4); (0x7b50, 0xbff0); (0x7b51, 0xd6fe); (0x7b52, 0xcdb2); (0x7b54, 0xb4f0); (0x7b56, 0xb2df); (0x7b58, 0xf3d8); (0x7b5a, 0xf3d9);
  (0x7b5b, 0xc9b8); (0x7b5d, 0xf3dd); (0x7b60, 0xf3de); (0x7b62, 0xf3e1); (0x7b6e, 0xf3df); (0x7b71, 0xf3e3); (0x7b72, 0xf3e2); (0x7b75, 0xf3db);
  (0x7b77, 0xbfea); (0x7b79, 0xb3ef); (0x7b7b, 0xf3e0); (0x7b7e, 0xc7a9); (0x7b80, 0xbcf2); (0x7b85, 0xf3eb); (0x7b8d, 0xb9bf); (0x7b90, 0xf3e4);
  (0x7b94, 0xb2ad); (0x7b95, 0xbbfe); (0x7b97, 0xcbe3); (0x7b9c, 0xf3ed); (0x7b9d, 0xf3e9); (0x7ba1, 0xb9dc); (0x7ba2, 0xf3ee); (0x7ba6, 0xf3e5);
  (0x7ba7, 0xf3e6); (0x7ba8, 0xf3ea); (0x7ba9, 0xc2e1); (0x7baa, 0xf3ec); (0x7bab, 0xf3ef); (0x7bac, 0xf3e8); (0x7bad, 0xbcfd); (0x7bb1, 0xcfe4);
  (0x7bb4, 0xf3f0); (0x7bb8, 0xf3e7); (0x7bc1, 0xf3f2); (0x7bc6, 0xd7ad); (0x7bc7, 0xc6aa); (0x7bcc, 0xf3f3); (0x7bd1, 0xf3f1); (0x7bd3, 0xc2a8);
  (0x7bd9, 0xb8dd); (0x7bda, 0xf3f5); (0x7bdd, 0xf3f4); (0x7be1, 0xb4db); (0x7be5, 0xf3f6); (0x7be6, 0xf3f7); (0x7bea, 0xf3f8); (0x7bee, 0xc0ba);
  (0x7bf1, 0xc0e9); (0x7bf7, 0xc5f1); (0x7bfc, 0xf3fb); (0x7bfe, 0xf3fa); (0x7c07, 0xb4d8); (0x7c0b, 0xf3fe); (0x7c0c, 0xf3f9); (0x7c0f, 0xf3fc);
  (0x7c16, 0xf3fd); (0x7c1f, 0xf4a1); (0x7c26, 0xf4a3); (0x7c27, 0xbbc9); (0x7c2a, 0xf4a2); (0x7c38, 0xf4a4); (0x7c3f, 0xb2be); (0x7c40, 0xf4a6);
  (0x7c41, 0xf4a5); (0x7c4d, 0xbcae); (0x7c73, 0xc3d7); (0x7c74, 0xd9e1); (0x7c7b, 0xc0e0); (0x7c7c, 0xf4cc)].

Definition gb_rows_44 : list (Z * Z) := [
  (0x7c7d, 0xd7d1); (0x7c89, 0xb7db); (0x7c91, 0xf4ce); (0x7c92, 0xc1a3); (0x7c95, 0xc6c9); (0x7c97, 0xb4d6); (0x7c98, 0xd5b3); (0x7c9c, 0xf4d0);
  (0x7c9d, 0xf4cf); (0x7c9e, 0xf4d1); (0x7c9f, 0xcbda); (0x7ca2, 0xf4d2); (0x7ca4, 0xd4c1); (0x7ca5, 0xd6e0); (0x7caa, 0xb7e0); (0x7cae, 0xc1b8);
  (0x7cb1, 0xc1bb); (0x7cb2, 0xf4d3); (0x7cb3, 0xbeac); (0x7cb9, 0xb4e2); (0x7cbc, 0xf4d4); (0x7cbd, 0xf4d5); (0x7cbe, 0xbeab); (0x7cc1, 0xf4d6);
  (0x7cc5, 0xf4db); (0x7cc7, 0xf4d7); (0x7cc8, 0xf4da); (0x7cca, 0xbafd); (0x7ccc, 0xf4d8); (0x7ccd, 0xf4d9); (0x7cd5, 0xb8e2); (0x7cd6, 0xccc7);
  (0x7cd7, 0xf4dc); (0x7cd9, 0xb2da); (0x7cdc, 0xc3d3); (0x7cdf, 0xd4e3); (0x7ce0, 0xbfb7); (0x7ce8, 0xf4dd); (0x7cef, 0xc5b4); (0x7cf8, 0xf4e9);
  (0x7cfb, 0xcfb5); (0x7d0a, 0xcec9); (0x7d20, 0xcbd8); (0x7d22, 0xcbf7); (0x7d27, 0xbdf4); (0x7d2b, 0xd7cf); (0x7d2f, 0xc0db); (0x7d6e, 0xd0f5);
  (0x7d77, 0xf4ea); (0x7da6, 0xf4eb); (0x7dae, 0xf4ec); (0x7e3b, 0xf7e3); (0x7e41, 0xb7b1); (0x7e47, 0xf4ed); (0x7e82, 0xd7eb); (0x7e9b, 0xf4ee);
  (0x7e9f, 0xe6f9); (0x7ea0, 0xbec0); (0x7ea1, 0xe6fa); (0x7ea2, 0xbaec); (0x7ea3, 0xe6fb); (0x7ea4, 0xcfcb); (0x7ea5, 0xe6fc); (0x7ea6, 0xd4bc);
  (0x7ea7, 0xbcb6); (0x7ea8, 0xe6fd); (0x7ea9, 0xe6fe); (0x7eaa, 0xbccd); (0x7eab, 0xc8d2); (0x7eac, 0xceb3); (0x7ead, 0xe7a1); (0x7eaf, 0xb4bf);
  (0x7eb0, 0xe7a2); (0x7eb1, 0xc9b4); (0x7eb2, 0xb8d9); (0x7eb3, 0xc4c9); (0x7eb5, 0xd7dd); (0x7eb6, 0xc2da); (0x7eb7, 0xb7d7); (0x7eb8, 0xd6bd);
  (0x7eb9, 0xcec6); (0x7eba, 0xb7c4); (0x7ebd, 0xc5a6); (0x7ebe, 0xe7a3); (0x7ebf, 0xcfdf); (0x7ec0, 0xe7a4); (0x7ec1, 0xe7a5); (0x7ec2, 0xe7a6);
  (0x7ec3, 0xc1b7); (0x7ec4, 0xd7e9); (0x7ec5, 0xc9f0); (0x7ec6, 0xcfb8); (0x7ec7, 0xd6af); (0x7ec8, 0xd6d5)].

Definition gb_rows_45 : list (Z * Z) := [
  (0x7ec9, 0xe7a7); (0x7eca, 0xb0ed); (0x7ecb, 0xe7a8); (0x7ecc, 0xe7a9); (0x7ecd, 0xc9dc); (0x7ece, 0xd2ef); (0x7ecf, 0xbead); (0x7ed0, 0xe7aa);
  (0x7ed1, 0xb0f3); (0x7ed2, 0xc8de); (0x7ed3, 0xbde1); (0x7ed4, 0xe7ab); (0x7ed5, 0xc8c6); (0x7ed7, 0xe7ac); (0x7ed8, 0xbbe6); (0x7ed9, 0xb8f8);
  (0x7eda, 0xd1a4); (0x7edb, 0xe7ad); (0x7edc, 0xc2e7); (0x7edd, 0xbef8); (0x7ede, 0xbdca); (0x7edf, 0xcdb3); (0x7ee0, 0xe7ae); (0x7ee1, 0xe7af);
  (0x7ee2, 0xbeee); (0x7ee3, 0xd0e5); (0x7ee5, 0xcbe7); (0x7ee6, 0xccd0); (0x7ee7, 0xbccc); (0x7ee8, 0xe7b0); (0x7ee9, 0xbca8); (0x7eea, 0xd0f7);
  (0x7eeb, 0xe7b1); (0x7eed, 0xd0f8); (0x7eee, 0xe7b2); (0x7eef, 0xe7b3); (0x7ef0, 0xb4c2); (0x7ef1, 0xe7b4); (0x7ef2, 0xe7b5); (0x7ef3, 0xc9fe);
  (0x7ef4, 0xceac); (0x7ef5, 0xc3e0); (0x7ef6, 0xe7b7); (0x7ef7, 0xb1c1); (0x7ef8, 0xb3f1); (0x7efa, 0xe7b8); (0x7efb, 0xe7b9); (0x7efc, 0xd7db);
  (0x7efd, 0xd5c0); (0x7efe, 0xe7ba); (0x7eff, 0xc2cc); (0x7f00, 0xd7ba); (0x7f01, 0xe7bb); (0x7f02, 0xe7bc); (0x7f03, 0xe7bd); (0x7f04, 0xbcea);
  (0x7f05, 0xc3e5); (0x7f06, 0xc0c2); (0x7f07, 0xe7be); (0x7f08, 0xe7bf); (0x7f09, 0xbca9); (0x7f0b, 0xe7c0); (0x7f0c, 0xe7c1); (0x7f0d, 0xe7b6);
  (0x7f0e, 0xb6d0); (0x7f0f, 0xe7c2); (0x7f11, 0xe7c3); (0x7f12, 0xe7c4); (0x7f13, 0xbbba); (0x7f14, 0xb5de); (0x7f15, 0xc2c6); (0x7f16, 0xb1e0);
  (0x7f17, 0xe7c5); (0x7f18, 0xd4b5); (0x7f19, 0xe7c6); (0x7f1a, 0xb8bf); (0x7f1b, 0xe7c8); (0x7f1c, 0xe7c7); (0x7f1d, 0xb7ec); (0x7f1f, 0xe7c9);
  (0x7f20, 0xb2f8); (0x7f21, 0xe7ca); (0x7f22, 0xe7cb); (0x7f23, 0xe7cc); (0x7f24, 0xe7cd); (0x7f25, 0xe7ce); (0x7f26, 0xe7cf); (0x7f27, 0xe7d0);
  (0x7f28, 0xd3a7); (0x7f29, 0xcbf5); (0x7f2a, 0xe7d1); (0x7f2b, 0xe7d2); (0x7f2c, 0xe7d3); (0x7f2d, 0xe7d4)].

Definition gb_rows_46 : list (Z * Z) := [
  (0x7f2e, 0xc9c9); (0x7f2f, 0xe7d5); (0x7f30, 0xe7d6); (0x7f31, 0xe7d7); (0x7f32, 0xe7d8); (0x7f33, 0xe7d9); (0x7f34, 0xbdc9); (0x7f35, 0xe7da);
  (0x7f36, 0xf3be); (0x7f38, 0xb8d7); (0x7f3a, 0xc8b1); (0x7f42, 0xf3bf); (0x7f44, 0xf3c0); (0x7f45, 0xf3c1); (0x7f50, 0xb9de); (0x7f51, 0xcdf8);
  (0x7f54, 0xd8e8); (0x7f55, 0xbab1); (0x7f57, 0xc2de); (0x7f58, 0xeeb7); (0x7f5a, 0xb7a3); (0x7f5f, 0xeeb9); (0x7f61, 0xeeb8); (0x7f62, 0xb0d5);
  (0x7f68, 0xeebb); (0x7f69, 0xd5d6); (0x7f6a, 0xd7ef); (0x7f6e, 0xd6c3); (0x7f71, 0xeebd); (0x7f72, 0xcaf0); (0x7f74, 0xeebc); (0x7f79, 0xeebe);
  (0x7f7e, 0xeec0); (0x7f81, 0xeebf); (0x7f8a, 0xd1f2); (0x7f8c, 0xc7bc); (0x7f8e, 0xc3c0); (0x7f94, 0xb8e1); (0x7f9a, 0xc1e7); (0x7f9d, 0xf4c6);
  (0x7f9e, 0xd0df); (0x7f9f, 0xf4c7); (0x7fa1, 0xcfdb); (0x7fa4, 0xc8ba); (0x7fa7, 0xf4c8); (0x7faf, 0xf4c9); (0x7fb0, 0xf4ca); (0x7fb2, 0xf4cb);
  (0x7fb8, 0xd9fa); (0x7fb9, 0xb8fe); (0x7fbc, 0xe5f1); (0x7fbd, 0xd3f0); (0x7fbf, 0xf4e0); (0x7fc1, 0xcecc); (0x7fc5, 0xb3e1); (0x7fca, 0xf1b4);
  (0x7fcc, 0xd2ee); (0x7fce, 0xf4e1); (0x7fd4, 0xcfe8); (0x7fd5, 0xf4e2); (0x7fd8, 0xc7cc); (0x7fdf, 0xb5d4); (0x7fe0, 0xb4e4); (0x7fe1, 0xf4e4);
  (0x7fe5, 0xf4e3); (0x7fe6, 0xf4e5); (0x7fe9, 0xf4e6); (0x7fee, 0xf4e7); (0x7ff0, 0xbab2); (0x7ff1, 0xb0bf); (0x7ff3, 0xf4e8); (0x7ffb, 0xb7ad);
  (0x7ffc, 0xd2ed); (0x8000, 0xd2ab); (0x8001, 0xc0cf); (0x8003, 0xbfbc); (0x8004, 0xeba3); (0x8005, 0xd5df); (0x8006, 0xeac8); (0x800b, 0xf1f3);
  (0x800c, 0xb6f8); (0x800d, 0xcba3); (0x8010, 0xc4cd); (0x8012, 0xf1e7); (0x8014, 0xf1e8); (0x8015, 0xb8fb); (0x8016, 0xf1e9); (0x8017, 0xbac4);
  (0x8018, 0xd4c5); (0x8019, 0xb0d2); (0x801c, 0xf1ea); (0x8020, 0xf1eb); (0x8022, 0xf1ec); (0x8025, 0xf1ed)].

Definition gb_rows_47 : list (Z * Z) := [
  (0x8026, 0xf1ee); (0x8027, 0xf1ef); (0x8028, 0xf1f1); (0x8029, 0xf1f0); (0x802a, 0xc5d5); (0x8031, 0xf1f2); (0x8033, 0xb6fa); (0x8035, 0xf1f4);
  (0x8036, 0xd2ae); (0x8037, 0xdec7); (0x8038, 0xcbca); (0x803b, 0xb3dc); (0x803d, 0xb5a2); (0x803f, 0xb9a2); (0x8042, 0xc4f4); (0x8043, 0xf1f5);
  (0x8046, 0xf1f6); (0x804a, 0xc1c4); (0x804b, 0xc1fb); (0x804c, 0xd6b0); (0x804d, 0xf1f7); (0x8052, 0xf1f8); (0x8054, 0xc1aa); (0x8058, 0xc6b8);
  (0x805a, 0xbedb); (0x8069, 0xf1f9); (0x806a, 0xb4cf); (0x8071, 0xf1fa); (0x807f, 0xedb2); (0x8080, 0xedb1); (0x8083, 0xcbe0); (0x8084, 0xd2de);
  (0x8086, 0xcbc1); (0x8087, 0xd5d8); (0x8089, 0xc8e2); (0x808b, 0xc0df); (0x808c, 0xbca1); (0x8093, 0xebc1); (0x8096, 0xd0a4); (0x8098, 0xd6e2);
  (0x809a, 0xb6c7); (0x809b, 0xb8d8); (0x809c, 0xebc0); (0x809d, 0xb8ce); (0x809f, 0xebbf); (0x80a0, 0xb3a6); (0x80a1, 0xb9c9); (0x80a2, 0xd6ab);
  (0x80a4, 0xb7f4); (0x80a5, 0xb7ca); (0x80a9, 0xbce7); (0x80aa, 0xb7be); (0x80ab, 0xebc6); (0x80ad, 0xebc7); (0x80ae, 0xb0b9); (0x80af, 0xbfcf);
  (0x80b1, 0xebc5); (0x80b2, 0xd3fd); (0x80b4, 0xebc8); (0x80b7, 0xebc9); (0x80ba, 0xb7ce); (0x80bc, 0xebc2); (0x80bd, 0xebc4); (0x80be, 0xc9f6);
  (0x80bf, 0xd6d7); (0x80c0, 0xd5cd); (0x80c1, 0xd0b2); (0x80c2, 0xebcf); (0x80c3, 0xceb8); (0x80c4, 0xebd0); (0x80c6, 0xb5a8); (0x80cc, 0xb1b3);
  (0x80cd, 0xebd2); (0x80ce, 0xcca5); (0x80d6, 0xc5d6); (0x80d7, 0xebd3); (0x80d9, 0xebd1); (0x80da, 0xc5df); (0x80db, 0xebce); (0x80dc, 0xcaa4);
  (0x80dd, 0xebd5); (0x80de, 0xb0fb); (0x80e1, 0xbafa); (0x80e4, 0xd8b7); (0x80e5, 0xf1e3); (0x80e7, 0xebca); (0x80e8, 0xebcb); (0x80e9, 0xebcc);
  (0x80ea, 0xebcd); (0x80eb, 0xebd6); (0x80ec, 0xe6c0); (0x80ed, 0xebd9); (0x80ef, 0xbfe8); (0x80f0, 0xd2c8)].

Definition gb_rows_48 : list (Z * Z) := [
  (0x80f1, 0xebd7); (0x80f2, 0xebdc); (0x80f3, 0xb8ec); (0x80f4, 0xebd8); (0x80f6, 0xbdba); (0x80f8, 0xd0d8); (0x80fa, 0xb0b7); (0x80fc, 0xebdd);
  (0x80fd, 0xc4dc); (0x8102, 0xd6ac); (0x8106, 0xb4e0); (0x8109, 0xc2f6); (0x810a, 0xbcb9); (0x810d, 0xebda); (0x810e, 0xebdb); (0x810f, 0xd4e0);
  (0x8110, 0xc6ea); (0x8111, 0xc4d4); (0x8112, 0xebdf); (0x8113, 0xc5a7); (0x8114, 0xd9f5); (0x8116, 0xb2b1); (0x8118, 0xebe4); (0x811a, 0xbdc5);
  (0x811e, 0xebe2); (0x812c, 0xebe3); (0x812f, 0xb8ac); (0x8131, 0xcdd1); (0x8132, 0xebe5); (0x8136, 0xebe1); (0x8138, 0xc1b3); (0x813e, 0xc6a2);
  (0x8146, 0xccf3); (0x8148, 0xebe6); (0x814a, 0xc0b0); (0x814b, 0xd2b8); (0x814c, 0xebe7); (0x8150, 0xb8af); (0x8151, 0xb8ad); (0x8153, 0xebe8);
  (0x8154, 0xc7bb); (0x8155, 0xcdf3); (0x8159, 0xebea); (0x815a, 0xebeb); (0x8160, 0xebed); (0x8165, 0xd0c8); (0x8167, 0xebf2); (0x8169, 0xebee);
  (0x816d, 0xebf1); (0x816e, 0xc8f9); (0x8170, 0xd1fc); (0x8171, 0xebec); (0x8174, 0xebe9); (0x8179, 0xb8b9); (0x817a, 0xcfd9); (0x817b, 0xc4e5);
  (0x817c, 0xebef); (0x817d, 0xebf0); (0x817e, 0xccda); (0x817f, 0xcdc8); (0x8180, 0xb0f2); (0x8182, 0xebf6); (0x8188, 0xebf5); (0x818a, 0xb2b2);
  (0x818f, 0xb8e0); (0x8191, 0xebf7); (0x8198, 0xb1ec); (0x819b, 0xccc5); (0x819c, 0xc4a4); (0x819d, 0xcfa5); (0x81a3, 0xebf9); (0x81a6, 0xeca2);
  (0x81a8, 0xc5f2); (0x81aa, 0xebfa); (0x81b3, 0xc9c5); (0x81ba, 0xe2df); (0x81bb, 0xebfe); (0x81c0, 0xcdce); (0x81c1, 0xeca1); (0x81c2, 0xb1db);
  (0x81c3, 0xd3b7); (0x81c6, 0xd2dc); (0x81ca, 0xebfd); (0x81cc, 0xebfb); (0x81e3, 0xb3bc); (0x81e7, 0xeab0); (0x81ea, 0xd7d4); (0x81ec, 0xf4ab);
  (0x81ed, 0xb3f4); (0x81f3, 0xd6c1); (0x81f4, 0xd6c2); (0x81fb, 0xd5e9); (0x81fc, 0xbeca); (0x81fe, 0xf4a7)].

Definition gb_rows_49 : list (Z * Z) := [
  (0x8200, 0xd2a8); (0x8201, 0xf4a8); (0x8202, 0xf4a9); (0x8204, 0xf4aa); (0x8205, 0xbecb); (0x8206, 0xd3df); (0x820c, 0xc9e0); (0x820d, 0xc9e1);
  (0x8210, 0xf3c2); (0x8212, 0xcae6); (0x8214, 0xccf2); (0x821b, 0xe2b6); (0x821c, 0xcbb4); (0x821e, 0xcee8); (0x821f, 0xd6db); (0x8221, 0xf4ad);
  (0x8222, 0xf4ae); (0x8223, 0xf4af); (0x8228, 0xf4b2); (0x822a, 0xbabd); (0x822b, 0xf4b3); (0x822c, 0xb0e3); (0x822d, 0xf4b0); (0x822f, 0xf4b1);
  (0x8230, 0xbda2); (0x8231, 0xb2d5); (0x8233, 0xf4b6); (0x8234, 0xf4b7); (0x8235, 0xb6e6); (0x8236, 0xb2b0); (0x8237, 0xcfcf); (0x8238, 0xf4b4);
  (0x8239, 0xb4ac); (0x823b, 0xf4b5); (0x823e, 0xf4b8); (0x8244, 0xf4b9); (0x8247, 0xcda7); (0x8249, 0xf4ba); (0x824b, 0xf4bb); (0x824f, 0xf4bc);
  (0x8258, 0xcbd2); (0x825a, 0xf4bd); (0x825f, 0xf4be); (0x8268, 0xf4bf); (0x826e, 0xf4de); (0x826f, 0xc1bc); (0x8270, 0xbce8); (0x8272, 0xc9ab);
  (0x8273, 0xd1de); (0x8274, 0xe5f5); (0x8279, 0xdcb3); (0x827a, 0xd2d5); (0x827d, 0xdcb4); (0x827e, 0xb0ac); (0x827f, 0xdcb5); (0x8282, 0xbdda);
  (0x8284, 0xdcb9); (0x8288, 0xd8c2); (0x828a, 0xdcb7); (0x828b, 0xd3f3); (0x828d, 0xc9d6); (0x828e, 0xdcba); (0x828f, 0xdcb6); (0x8291, 0xdcbb);
  (0x8292, 0xc3a2); (0x8297, 0xdcbc); (0x8298, 0xdcc5); (0x8299, 0xdcbd); (0x829c, 0xcedf); (0x829d, 0xd6a5); (0x829f, 0xdccf); (0x82a1, 0xdccd);
  (0x82a4, 0xdcd2); (0x82a5, 0xbde6); (0x82a6, 0xc2ab); (0x82a8, 0xdcb8); (0x82a9, 0xdccb); (0x82aa, 0xdcce); (0x82ab, 0xdcbe); (0x82ac, 0xb7d2);
  (0x82ad, 0xb0c5); (0x82ae, 0xdcc7); (0x82af, 0xd0be); (0x82b0, 0xdcc1); (0x82b1, 0xbba8); (0x82b3, 0xb7bc); (0x82b4, 0xdccc); (0x82b7, 0xdcc6);
  (0x82b8, 0xdcbf); (0x82b9, 0xc7db); (0x82bd, 0xd1bf); (0x82be, 0xdcc0); (0x82c1, 0xdcca); (0x82c4, 0xdcd0)].

Definition gb_rows_50 : list (Z * Z) := [
  (0x82c7, 0xcead); (0x82c8, 0xdcc2); (0x82ca, 0xdcc3); (0x82cb, 0xdcc8); (0x82cc, 0xdcc9); (0x82cd, 0xb2d4); (0x82ce, 0xdcd1); (0x82cf, 0xcbd5);
  (0x82d1, 0xd4b7); (0x82d2, 0xdcdb); (0x82d3, 0xdcdf); (0x82d4, 0xcca6); (0x82d5, 0xdce6); (0x82d7, 0xc3e7); (0x82d8, 0xdcdc); (0x82db, 0xbfc1);
  (0x82dc, 0xdcd9); (0x82de, 0xb0fa); (0x82df, 0xb9b6); (0x82e0, 0xdce5); (0x82e1, 0xdcd3); (0x82e3, 0xdcc4); (0x82e4, 0xdcd6); (0x82e5, 0xc8f4);
  (0x82e6, 0xbfe0); (0x82eb, 0xc9bb); (0x82ef, 0xb1bd); (0x82f1, 0xd3a2); (0x82f4, 0xdcda); (0x82f7, 0xdcd5); (0x82f9, 0xc6bb); (0x82fb, 0xdcde);
  (0x8301, 0xd7c2); (0x8302, 0xc3af); (0x8303, 0xb7b6); (0x8304, 0xc7d1); (0x8305, 0xc3a9); (0x8306, 0xdce2); (0x8307, 0xdcd8); (0x8308, 0xdceb);
  (0x8309, 0xdcd4); (0x830c, 0xdcdd); (0x830e, 0xbea5); (0x830f, 0xdcd7); (0x8311, 0xdce0); (0x8314, 0xdce3); (0x8315, 0xdce4); (0x8317, 0xdcf8);
  (0x831a, 0xdce1); (0x831b, 0xdda2); (0x831c, 0xdce7); (0x8327, 0xbceb); (0x8328, 0xb4c4); (0x832b, 0xc3a3); (0x832c, 0xb2e7); (0x832d, 0xdcfa);
  (0x832f, 0xdcf2); (0x8331, 0xdcef); (0x8333, 0xdcfc); (0x8334, 0xdcee); (0x8335, 0xd2f0); (0x8336, 0xb2e8); (0x8338, 0xc8d7); (0x8339, 0xc8e3);
  (0x833a, 0xdcfb); (0x833c, 0xdced); (0x8340, 0xdcf7); (0x8343, 0xdcf5); (0x8346, 0xbea3); (0x8347, 0xdcf4); (0x8349, 0xb2dd); (0x834f, 0xdcf3);
  (0x8350, 0xbcf6); (0x8351, 0xdce8); (0x8352, 0xbbc4); (0x8354, 0xc0f3); (0x835a, 0xbcd4); (0x835b, 0xdce9); (0x835c, 0xdcea); (0x835e, 0xdcf1);
  (0x835f, 0xdcf6); (0x8360, 0xdcf9); (0x8361, 0xb5b4); (0x8363, 0xc8d9); (0x8364, 0xbbe7); (0x8365, 0xdcfe); (0x8366, 0xdcfd); (0x8367, 0xd3ab);
  (0x8368, 0xdda1); (0x8369, 0xdda3); (0x836a, 0xdda5); (0x836b, 0xd2f1); (0x836c, 0xdda4); (0x836d, 0xdda6)].

Definition gb_rows_51 : list (Z * Z) := [
  (0x836e, 0xdda7); (0x836f, 0xd2a9); (0x8377, 0xbac9); (0x8378, 0xdda9); (0x837b, 0xddb6); (0x837c, 0xddb1); (0x837d, 0xddb4); (0x8385, 0xddb0);
  (0x8386, 0xc6ce); (0x8389, 0xc0f2); (0x838e, 0xc9af); (0x8392, 0xdcec); (0x8393, 0xddae); (0x8398, 0xddb7); (0x839b, 0xdcf0); (0x839c, 0xddaf);
  (0x839e, 0xddb8); (0x83a0, 0xddac); (0x83a8, 0xddb9); (0x83a9, 0xddb3); (0x83aa, 0xddad); (0x83ab, 0xc4aa); (0x83b0, 0xdda8); (0x83b1, 0xc0b3);
  (0x83b2, 0xc1ab); (0x83b3, 0xddaa); (0x83b4, 0xddab); (0x83b6, 0xddb2); (0x83b7, 0xbbf1); (0x83b8, 0xddb5); (0x83b9, 0xd3a8); (0x83ba, 0xddba);
  (0x83bc, 0xddbb); (0x83bd, 0xc3a7); (0x83c0, 0xddd2); (0x83c1, 0xddbc); (0x83c5, 0xddd1); (0x83c7, 0xb9bd); (0x83ca, 0xbed5); (0x83cc, 0xbefa);
  (0x83cf, 0xbaca); (0x83d4, 0xddca); (0x83d6, 0xddc5); (0x83d8, 0xddbf); (0x83dc, 0xb2cb); (0x83dd, 0xddc3); (0x83df, 0xddcb); (0x83e0, 0xb2a4);
  (0x83e1, 0xddd5); (0x83e5, 0xddbe); (0x83e9, 0xc6d0); (0x83ea, 0xddd0); (0x83f0, 0xddd4); (0x83f1, 0xc1e2); (0x83f2, 0xb7c6); (0x83f8, 0xddce);
  (0x83f9, 0xddcf); (0x83fd, 0xddc4); (0x8401, 0xddbd); (0x8403, 0xddcd); (0x8404, 0xccd1); (0x8406, 0xddc9); (0x840b, 0xddc2); (0x840c, 0xc3c8);
  (0x840d, 0xc6bc); (0x840e, 0xceae); (0x840f, 0xddcc); (0x8411, 0xddc8); (0x8418, 0xddc1); (0x841c, 0xddc6); (0x841d, 0xc2dc); (0x8424, 0xd3a9);
  (0x8425, 0xd3aa); (0x8426, 0xddd3); (0x8427, 0xcff4); (0x8428, 0xc8f8); (0x8431, 0xdde6); (0x8438, 0xddc7); (0x843c, 0xdde0); (0x843d, 0xc2e4);
  (0x8446, 0xdde1); (0x8451, 0xddd7); (0x8457, 0xd6f8); (0x8459, 0xddd9); (0x845a, 0xddd8); (0x845b, 0xb8f0); (0x845c, 0xddd6); (0x8461, 0xc6cf);
  (0x8463, 0xb6ad); (0x8469, 0xdde2); (0x846b, 0xbaf9); (0x846c, 0xd4e1); (0x846d, 0xdde7); (0x8471, 0xb4d0)].

Definition gb_rows_52 : list (Z * Z) := [
  (0x8473, 0xddda); (0x8475, 0xbffb); (0x8476, 0xdde3); (0x8478, 0xdddf); (0x847a, 0xdddd); (0x8482, 0xb5d9); (0x8487, 0xdddb); (0x8488, 0xdddc);
  (0x8489, 0xddde); (0x848b, 0xbdaf); (0x848c, 0xdde4); (0x848e, 0xdde5); (0x8497, 0xddf5); (0x8499, 0xc3c9); (0x849c, 0xcbe2); (0x84a1, 0xddf2);
  (0x84af, 0xd8e1); (0x84b2, 0xc6d1); (0x84b4, 0xddf4); (0x84b8, 0xd5f4); (0x84b9, 0xddf3); (0x84ba, 0xddf0); (0x84bd, 0xddec); (0x84bf, 0xddef);
  (0x84c1, 0xdde8); (0x84c4, 0xd0ee); (0x84c9, 0xc8d8); (0x84ca, 0xddee); (0x84cd, 0xdde9); (0x84d0, 0xddea); (0x84d1, 0xcbf2); (0x84d3, 0xdded);
  (0x84d6, 0xb1cd); (0x84dd, 0xc0b6); (0x84df, 0xbcbb); (0x84e0, 0xddf1); (0x84e3, 0xddf7); (0x84e5, 0xddf6); (0x84e6, 0xddeb); (0x84ec, 0xc5ee);
  (0x84f0, 0xddfb); (0x84fc, 0xdea4); (0x84ff, 0xdea3); (0x850c, 0xddf8); (0x8511, 0xc3ef); (0x8513, 0xc2fb); (0x8517, 0xd5e1); (0x851a, 0xceb5);
  (0x851f, 0xddfd); (0x8521, 0xb2cc); (0x852b, 0xc4e8); (0x852c, 0xcadf); (0x8537, 0xc7be); (0x8538, 0xddfa); (0x8539, 0xddfc); (0x853a, 0xddfe);
  (0x853b, 0xdea2); (0x853c, 0xb0aa); (0x853d, 0xb1ce); (0x8543, 0xdeac); (0x8548, 0xdea6); (0x8549, 0xbdb6); (0x854a, 0xc8ef); (0x8556, 0xdea1);
  (0x8559, 0xdea5); (0x855e, 0xdea9); (0x8564, 0xdea8); (0x8568, 0xdea7); (0x8572, 0xdead); (0x8574, 0xd4cc); (0x8579, 0xdeb3); (0x857a, 0xdeaa);
  (0x857b, 0xdeae); (0x857e, 0xc0d9); (0x8584, 0xb1a1); (0x8585, 0xdeb6); (0x8587, 0xdeb1); (0x858f, 0xdeb2); (0x859b, 0xd1a6); (0x859c, 0xdeb5);
  (0x85a4, 0xdeaf); (0x85a8, 0xdeb0); (0x85aa, 0xd0bd); (0x85ae, 0xdeb4); (0x85af, 0xcaed); (0x85b0, 0xdeb9); (0x85b7, 0xdeb8); (0x85b9, 0xdeb7);
  (0x85c1, 0xdebb); (0x85c9, 0xbde5); (0x85cf, 0xb2d8); (0x85d0, 0xc3ea); (0x85d3, 0xdeba); (0x85d5, 0xc5ba)].

Definition gb_rows_53 : list (Z * Z) := [
  (0x85dc, 0xdebc); (0x85e4, 0xccd9); (0x85e9, 0xb7aa); (0x85fb, 0xd4e5); (0x85ff, 0xdebd); (0x8605, 0xdebf); (0x8611, 0xc4a2); (0x8616, 0xdec1);
  (0x8627, 0xdebe); (0x8629, 0xdec0); (0x8638, 0xd5ba); (0x863c, 0xdec2); (0x864d, 0xf2ae); (0x864e, 0xbba2); (0x864f, 0xc2b2); (0x8650, 0xc5b0);
  (0x8651, 0xc2c7); (0x8654, 0xf2af); (0x865a, 0xd0e9); (0x865e, 0xd3dd); (0x8662, 0xebbd); (0x866b, 0xb3e6); (0x866c, 0xf2b0); (0x866e, 0xf2b1);
  (0x8671, 0xcaad); (0x8679, 0xbae7); (0x867a, 0xf2b3); (0x867b, 0xf2b5); (0x867c, 0xf2b4); (0x867d, 0xcbe4); (0x867e, 0xcfba); (0x867f, 0xf2b2);
  (0x8680, 0xcab4); (0x8681, 0xd2cf); (0x8682, 0xc2ec); (0x868a, 0xcec3); (0x868b, 0xf2b8); (0x868c, 0xb0f6); (0x868d, 0xf2b7); (0x8693, 0xf2be);
  (0x8695, 0xb2cf); (0x869c, 0xd1c1); (0x869d, 0xf2ba); (0x86a3, 0xf2bc); (0x86a4, 0xd4e9); (0x86a7, 0xf2bb); (0x86a8, 0xf2b6); (0x86a9, 0xf2bf);
  (0x86aa, 0xf2bd); (0x86ac, 0xf2b9); (0x86af, 0xf2c7); (0x86b0, 0xf2c4); (0x86b1, 0xf2c6); (0x86b4, 0xf2ca); (0x86b5, 0xf2c2); (0x86b6, 0xf2c0);
  (0x86ba, 0xf2c5); (0x86c0, 0xd6fb); (0x86c4, 0xf2c1); (0x86c6, 0xc7f9); (0x86c7, 0xc9df); (0x86c9, 0xf2c8); (0x86ca, 0xb9c6); (0x86cb, 0xb5b0);
  (0x86ce, 0xf2c3); (0x86cf, 0xf2c9); (0x86d0, 0xf2d0); (0x86d1, 0xf2d6); (0x86d4, 0xbbd7); (0x86d8, 0xf2d5); (0x86d9, 0xcddc); (0x86db, 0xd6eb);
  (0x86de, 0xf2d2); (0x86df, 0xf2d4); (0x86e4, 0xb8f2); (0x86e9, 0xf2cb); (0x86ed, 0xf2ce); (0x86ee, 0xc2f9); (0x86f0, 0xd5dd); (0x86f1, 0xf2cc);
  (0x86f2, 0xf2cd); (0x86f3, 0xf2cf); (0x86f4, 0xf2d3); (0x86f8, 0xf2d9); (0x86f9, 0xd3bc); (0x86fe, 0xb6ea); (0x8700, 0xcaf1); (0x8702, 0xb7e4);
  (0x8703, 0xf2d7); (0x8707, 0xf2d8); (0x8708, 0xf2da); (0x8709, 0xf2dd); (0x870a, 0xf2db); (0x870d, 0xf2dc)].

Definition gb_rows_54 : list (Z * Z) := [
  (0x8712, 0xd1d1); (0x8713, 0xf2d1); (0x8715, 0xcdc9); (0x8717, 0xcecf); (0x8718, 0xd6a9); (0x871a, 0xf2e3); (0x871c, 0xc3db); (0x871e, 0xf2e0);
  (0x8721, 0xc0af); (0x8722, 0xf2ec); (0x8723, 0xf2de); (0x8725, 0xf2e1); (0x8729, 0xf2e8); (0x872e, 0xf2e2); (0x8731, 0xf2e7); (0x8734, 0xf2e6);
  (0x8737, 0xf2e9); (0x873b, 0xf2df); (0x873e, 0xf2e4); (0x873f, 0xf2ea); (0x8747, 0xd3ac); (0x8748, 0xf2e5); (0x8749, 0xb2f5); (0x874c, 0xf2f2);
  (0x874e, 0xd0ab); (0x8753, 0xf2f5); (0x8757, 0xbbc8); (0x8759, 0xf2f9); (0x8760, 0xf2f0); (0x8763, 0xf2f6); (0x8764, 0xf2f8); (0x8765, 0xf2fa);
  (0x876e, 0xf2f3); (0x8770, 0xf2f1); (0x8774, 0xbafb); (0x8776, 0xb5fb); (0x877b, 0xf2ef); (0x877c, 0xf2f7); (0x877d, 0xf2ed); (0x877e, 0xf2ee);
  (0x8782, 0xf2eb); (0x8783, 0xf3a6); (0x8785, 0xf3a3); (0x8788, 0xf3a2); (0x878b, 0xf2f4); (0x878d, 0xc8da); (0x8793, 0xf2fb); (0x8797, 0xf3a5);
  (0x879f, 0xc3f8); (0x87a8, 0xf2fd); (0x87ab, 0xf3a7); (0x87ac, 0xf3a9); (0x87ad, 0xf3a4); (0x87af, 0xf2fc); (0x87b3, 0xf3ab); (0x87b5, 0xf3aa);
  (0x87ba, 0xc2dd); (0x87bd, 0xf3ae); (0x87c0, 0xf3b0); (0x87c6, 0xf3a1); (0x87ca, 0xf3b1); (0x87cb, 0xf3ac); (0x87d1, 0xf3af); (0x87d2, 0xf2fe);
  (0x87d3, 0xf3ad); (0x87db, 0xf3b2); (0x87e0, 0xf3b4); (0x87e5, 0xf3a8); (0x87ea, 0xf3b3); (0x87ee, 0xf3b5); (0x87f9, 0xd0b7); (0x87fe, 0xf3b8);
  (0x8803, 0xd9f9); (0x880a, 0xf3b9); (0x8813, 0xf3b7); (0x8815, 0xc8e4); (0x8816, 0xf3b6); (0x881b, 0xf3ba); (0x8821, 0xf3bb); (0x8822, 0xb4c0);
  (0x8832, 0xeec3); (0x8839, 0xf3bc); (0x883c, 0xf3bd); (0x8840, 0xd1aa); (0x8844, 0xf4ac); (0x8845, 0xd0c6); (0x884c, 0xd0d0); (0x884d, 0xd1dc);
  (0x8854, 0xcfce); (0x8857, 0xbdd6); (0x8859, 0xd1c3); (0x8861, 0xbae2); (0x8862, 0xe1e9); (0x8863, 0xd2c2)].

Definition gb_rows_55 : list (Z * Z) := [
  (0x8864, 0xf1c2); (0x8865, 0xb2b9); (0x8868, 0xb1ed); (0x8869, 0xf1c3); (0x886b, 0xc9c0); (0x886c, 0xb3c4); (0x886e, 0xd9f2); (0x8870, 0xcba5);
  (0x8872, 0xf1c4); (0x8877, 0xd6d4); (0x887d, 0xf1c5); (0x887e, 0xf4c0); (0x887f, 0xf1c6); (0x8881, 0xd4ac); (0x8882, 0xf1c7); (0x8884, 0xb0c0);
  (0x8885, 0xf4c1); (0x8888, 0xf4c2); (0x888b, 0xb4fc); (0x888d, 0xc5db); (0x8892, 0xccbb); (0x8896, 0xd0e4); (0x889c, 0xcde0); (0x88a2, 0xf1c8);
  (0x88a4, 0xd9f3); (0x88ab, 0xb1bb); (0x88ad, 0xcfae); (0x88b1, 0xb8a4); (0x88b7, 0xf1ca); (0x88bc, 0xf1cb); (0x88c1, 0xb2c3); (0x88c2, 0xc1d1);
  (0x88c5, 0xd7b0); (0x88c6, 0xf1c9); (0x88c9, 0xf1cc); (0x88ce, 0xf1ce); (0x88d2, 0xd9f6); (0x88d4, 0xd2e1); (0x88d5, 0xd4a3); (0x88d8, 0xf4c3);
  (0x88d9, 0xc8b9); (0x88df, 0xf4c4); (0x88e2, 0xf1cd); (0x88e3, 0xf1cf); (0x88e4, 0xbfe3); (0x88e5, 0xf1d0); (0x88e8, 0xf1d4); (0x88f0, 0xf1d6);
  (0x88f1, 0xf1d1); (0x88f3, 0xc9d1); (0x88f4, 0xc5e1); (0x88f8, 0xc2e3); (0x88f9, 0xb9fc); (0x88fc, 0xf1d3); (0x88fe, 0xf1d5); (0x8902, 0xb9d3);
  (0x890a, 0xf1db); (0x8910, 0xbad6); (0x8912, 0xb0fd); (0x8913, 0xf1d9); (0x8919, 0xf1d8); (0x891a, 0xf1d2); (0x891b, 0xf1da); (0x8921, 0xf1d7);
  (0x8925, 0xc8ec); (0x892a, 0xcdca); (0x892b, 0xf1dd); (0x8930, 0xe5bd); (0x8934, 0xf1dc); (0x8936, 0xf1de); (0x8941, 0xf1df); (0x8944, 0xcfe5);
  (0x895e, 0xf4c5); (0x895f, 0xbdf3); (0x8966, 0xf1e0); (0x897b, 0xf1e1); (0x897f, 0xcef7); (0x8981, 0xd2aa); (0x8983, 0xf1fb); (0x8986, 0xb8b2);
  (0x89c1, 0xbcfb); (0x89c2, 0xb9db); (0x89c4, 0xb9e6); (0x89c5, 0xc3d9); (0x89c6, 0xcad3); (0x89c7, 0xeae8); (0x89c8, 0xc0c0); (0x89c9, 0xbef5);
  (0x89ca, 0xeae9); (0x89cb, 0xeaea); (0x89cc, 0xeaeb); (0x89ce, 0xeaec); (0x89cf, 0xeaed); (0x89d0, 0xeaee)].

Definition gb_rows_56 : list (Z * Z) := [
  (0x89d1, 0xeaef); (0x89d2, 0xbdc7); (0x89d6, 0xf5fb); (0x89da, 0xf5fd); (0x89dc, 0xf5fe); (0x89de, 0xf5fc); (0x89e3, 0xbde2); (0x89e5, 0xf6a1);
  (0x89e6, 0xb4a5); (0x89eb, 0xf6a2); (0x89ef, 0xf6a3); (0x89f3, 0xecb2); (0x8a00, 0xd1d4); (0x8a07, 0xd9ea); (0x8a3e, 0xf6a4); (0x8a48, 0xeeba);
  (0x8a79, 0xd5b2); (0x8a89, 0xd3fe); (0x8a8a, 0xccdc); (0x8a93, 0xcac4); (0x8b07, 0xe5c0); (0x8b26, 0xf6a5); (0x8b66, 0xbeaf); (0x8b6c, 0xc6a9);
  (0x8ba0, 0xdaa5); (0x8ba1, 0xbcc6); (0x8ba2, 0xb6a9); (0x8ba3, 0xb8bc); (0x8ba4, 0xc8cf); (0x8ba5, 0xbca5); (0x8ba6, 0xdaa6); (0x8ba7, 0xdaa7);
  (0x8ba8, 0xccd6); (0x8ba9, 0xc8c3); (0x8baa, 0xdaa8); (0x8bab, 0xc6fd); (0x8bad, 0xd1b5); (0x8bae, 0xd2e9); (0x8baf, 0xd1b6); (0x8bb0, 0xbcc7);
  (0x8bb2, 0xbdb2); (0x8bb3, 0xbbe4); (0x8bb4, 0xdaa9); (0x8bb5, 0xdaaa); (0x8bb6, 0xd1c8); (0x8bb7, 0xdaab); (0x8bb8, 0xd0ed); (0x8bb9, 0xb6ef);
  (0x8bba, 0xc2db); (0x8bbc, 0xcbcf); (0x8bbd, 0xb7ed); (0x8bbe, 0xc9e8); (0x8bbf, 0xb7c3); (0x8bc0, 0xbef7); (0x8bc1, 0xd6a4); (0x8bc2, 0xdaac);
  (0x8bc3, 0xdaad); (0x8bc4, 0xc6c0); (0x8bc5, 0xd7e7); (0x8bc6, 0xcab6); (0x8bc8, 0xd5a9); (0x8bc9, 0xcbdf); (0x8bca, 0xd5ef); (0x8bcb, 0xdaae);
  (0x8bcc, 0xd6df); (0x8bcd, 0xb4ca); (0x8bce, 0xdab0); (0x8bcf, 0xdaaf); (0x8bd1, 0xd2eb); (0x8bd2, 0xdab1); (0x8bd3, 0xdab2); (0x8bd4, 0xdab3);
  (0x8bd5, 0xcad4); (0x8bd6, 0xdab4); (0x8bd7, 0xcaab); (0x8bd8, 0xdab5); (0x8bd9, 0xdab6); (0x8bda, 0xb3cf); (0x8bdb, 0xd6ef); (0x8bdc, 0xdab7);
  (0x8bdd, 0xbbb0); (0x8bde, 0xb5ae); (0x8bdf, 0xdab8); (0x8be0, 0xdab9); (0x8be1, 0xb9ee); (0x8be2, 0xd1af); (0x8be3, 0xd2e8); (0x8be4, 0xdaba);
  (0x8be5, 0xb8c3); (0x8be6, 0xcfea); (0x8be7, 0xb2ef); (0x8be8, 0xdabb); (0x8be9, 0xdabc); (0x8beb, 0xbdeb)].

Definition gb_rows_57 : list (Z * Z) := [
  (0x8bec, 0xcedc); (0x8bed, 0xd3ef); (0x8bee, 0xdabd); (0x8bef, 0xcef3); (0x8bf0, 0xdabe); (0x8bf1, 0xd3d5); (0x8bf2, 0xbbe5); (0x8bf3, 0xdabf);
  (0x8bf4, 0xcbb5); (0x8bf5, 0xcbd0); (0x8bf6, 0xdac0); (0x8bf7, 0xc7eb); (0x8bf8, 0xd6ee); (0x8bf9, 0xdac1); (0x8bfa, 0xc5b5); (0x8bfb, 0xb6c1);
  (0x8bfc, 0xdac2); (0x8bfd, 0xb7cc); (0x8bfe, 0xbfce); (0x8bff, 0xdac3); (0x8c00, 0xdac4); (0x8c01, 0xcbad); (0x8c02, 0xdac5); (0x8c03, 0xb5f7);
  (0x8c04, 0xdac6); (0x8c05, 0xc1c2); (0x8c06, 0xd7bb); (0x8c07, 0xdac7); (0x8c08, 0xccb8); (0x8c0a, 0xd2ea); (0x8c0b, 0xc4b1); (0x8c0c, 0xdac8);
  (0x8c0d, 0xb5fd); (0x8c0e, 0xbbd1); (0x8c0f, 0xdac9); (0x8c10, 0xd0b3); (0x8c11, 0xdaca); (0x8c12, 0xdacb); (0x8c13, 0xcebd); (0x8c14, 0xdacc);
  (0x8c15, 0xdacd); (0x8c16, 0xdace); (0x8c17, 0xb2f7); (0x8c18, 0xdad1); (0x8c19, 0xdacf); (0x8c1a, 0xd1e8); (0x8c1b, 0xdad0); (0x8c1c, 0xc3d5);
  (0x8c1d, 0xdad2); (0x8c1f, 0xdad3); (0x8c20, 0xdad4); (0x8c21, 0xdad5); (0x8c22, 0xd0bb); (0x8c23, 0xd2a5); (0x8c24, 0xb0f9); (0x8c25, 0xdad6);
  (0x8c26, 0xc7ab); (0x8c27, 0xdad7); (0x8c28, 0xbdf7); (0x8c29, 0xc3a1); (0x8c2a, 0xdad8); (0x8c2b, 0xdad9); (0x8c2c, 0xc3fd); (0x8c2d, 0xccb7);
  (0x8c2e, 0xdada); (0x8c2f, 0xdadb); (0x8c30, 0xc0be); (0x8c31, 0xc6d7); (0x8c32, 0xdadc); (0x8c33, 0xdadd); (0x8c34, 0xc7b4); (0x8c35, 0xdade);
  (0x8c36, 0xdadf); (0x8c37, 0xb9c8); (0x8c41, 0xbbed); (0x8c46, 0xb6b9); (0x8c47, 0xf4f8); (0x8c49, 0xf4f9); (0x8c4c, 0xcde3); (0x8c55, 0xf5b9);
  (0x8c5a, 0xebe0); (0x8c61, 0xcff3); (0x8c62, 0xbbbf); (0x8c6a, 0xbac0); (0x8c6b, 0xd4a5); (0x8c73, 0xe1d9); (0x8c78, 0xf5f4); (0x8c79, 0xb1aa);
  (0x8c7a, 0xb2f2); (0x8c82, 0xf5f5); (0x8c85, 0xf5f7); (0x8c89, 0xbad1); (0x8c8a, 0xf5f6); (0x8c8c, 0xc3b2)].

Definition gb_rows_58 : list (Z * Z) := [
  (0x8c94, 0xf5f9); (0x8c98, 0xf5f8); (0x8d1d, 0xb1b4); (0x8d1e, 0xd5ea); (0x8d1f, 0xb8ba); (0x8d21, 0xb9b1); (0x8d22, 0xb2c6); (0x8d23, 0xd4f0);
  (0x8d24, 0xcfcd); (0x8d25, 0xb0dc); (0x8d26, 0xd5cb); (0x8d27, 0xbbf5); (0x8d28, 0xd6ca); (0x8d29, 0xb7b7); (0x8d2a, 0xccb0); (0x8d2b, 0xc6b6);
  (0x8d2c, 0xb1e1); (0x8d2d, 0xb9ba); (0x8d2e, 0xd6fc); (0x8d2f, 0xb9e1); (0x8d30, 0xb7a1); (0x8d31, 0xbcfa); (0x8d32, 0xeada); (0x8d33, 0xeadb);
  (0x8d34, 0xccf9); (0x8d35, 0xb9f3); (0x8d36, 0xeadc); (0x8d37, 0xb4fb); (0x8d38, 0xc3b3); (0x8d39, 0xb7d1); (0x8d3a, 0xbad8); (0x8d3b, 0xeadd);
  (0x8d3c, 0xd4f4); (0x8d3d, 0xeade); (0x8d3e, 0xbcd6); (0x8d3f, 0xbbdf); (0x8d40, 0xeadf); (0x8d41, 0xc1de); (0x8d42, 0xc2b8); (0x8d43, 0xd4df);
  (0x8d44, 0xd7ca); (0x8d45, 0xeae0); (0x8d46, 0xeae1); (0x8d47, 0xeae4); (0x8d48, 0xeae2); (0x8d49, 0xeae3); (0x8d4a, 0xc9de); (0x8d4b, 0xb8b3);
  (0x8d4c, 0xb6c4); (0x8d4d, 0xeae5); (0x8d4e, 0xcaea); (0x8d4f, 0xc9cd); (0x8d50, 0xb4cd); (0x8d53, 0xe2d9); (0x8d54, 0xc5e2); (0x8d55, 0xeae6);
  (0x8d56, 0xc0b5); (0x8d58, 0xd7b8); (0x8d59, 0xeae7); (0x8d5a, 0xd7ac); (0x8d5b, 0xc8fc); (0x8d5c, 0xd8d3); (0x8d5d, 0xd8cd); (0x8d5e, 0xd4de);
  (0x8d60, 0xd4f9); (0x8d61, 0xc9c4); (0x8d62, 0xd3ae); (0x8d63, 0xb8d3); (0x8d64, 0xb3e0); (0x8d66, 0xc9e2); (0x8d67, 0xf4f6); (0x8d6b, 0xbad5);
  (0x8d6d, 0xf4f7); (0x8d70, 0xd7df); (0x8d73, 0xf4f1); (0x8d74, 0xb8b0); (0x8d75, 0xd5d4); (0x8d76, 0xb8cf); (0x8d77, 0xc6f0); (0x8d81, 0xb3c3);
  (0x8d84, 0xf4f2); (0x8d85, 0xb3ac); (0x8d8a, 0xd4bd); (0x8d8b, 0xc7f7); (0x8d91, 0xf4f4); (0x8d94, 0xf4f3); (0x8d9f, 0xcccb); (0x8da3, 0xc8a4);
  (0x8db1, 0xf4f5); (0x8db3, 0xd7e3); (0x8db4, 0xc5bf); (0x8db5, 0xf5c0); (0x8db8, 0xf5bb); (0x8dba, 0xf5c3)].

Definition gb_rows_59 : list (Z * Z) := [
  (0x8dbc, 0xf5c2); (0x8dbe, 0xd6ba); (0x8dbf, 0xf5c1); (0x8dc3, 0xd4be); (0x8dc4, 0xf5c4); (0x8dc6, 0xf5cc); (0x8dcb, 0xb0cf); (0x8dcc, 0xb5f8);
  (0x8dce, 0xf5c9); (0x8dcf, 0xf5ca); (0x8dd1, 0xc5dc); (0x8dd6, 0xf5c5); (0x8dd7, 0xf5c6); (0x8dda, 0xf5c7); (0x8ddb, 0xf5cb); (0x8ddd, 0xbee0);
  (0x8dde, 0xf5c8); (0x8ddf, 0xb8fa); (0x8de3, 0xf5d0); (0x8de4, 0xf5d3); (0x8de8, 0xbfe7); (0x8dea, 0xb9f2); (0x8deb, 0xf5bc); (0x8dec, 0xf5cd);
  (0x8def, 0xc2b7); (0x8df3, 0xccf8); (0x8df5, 0xbcf9); (0x8df7, 0xf5ce); (0x8df8, 0xf5cf); (0x8df9, 0xf5d1); (0x8dfa, 0xb6e5); (0x8dfb, 0xf5d2);
  (0x8dfd, 0xf5d5); (0x8e05, 0xf5bd); (0x8e09, 0xf5d4); (0x8e0a, 0xd3bb); (0x8e0c, 0xb3ec); (0x8e0f, 0xcca4); (0x8e14, 0xf5d6); (0x8e1d, 0xf5d7);
  (0x8e1e, 0xbee1); (0x8e1f, 0xf5d8); (0x8e22, 0xccdf); (0x8e23, 0xf5db); (0x8e29, 0xb2c8); (0x8e2a, 0xd7d9); (0x8e2c, 0xf5d9); (0x8e2e, 0xf5da);
  (0x8e2f, 0xf5dc); (0x8e31, 0xf5e2); (0x8e35, 0xf5e0); (0x8e39, 0xf5df); (0x8e3a, 0xf5dd); (0x8e3d, 0xf5e1); (0x8e40, 0xf5de); (0x8e41, 0xf5e4);
  (0x8e42, 0xf5e5); (0x8e44, 0xcce3); (0x8e47, 0xe5bf); (0x8e48, 0xb5b8); (0x8e49, 0xf5e3); (0x8e4a, 0xf5e8); (0x8e4b, 0xcca3); (0x8e51, 0xf5e6);
  (0x8e52, 0xf5e7); (0x8e59, 0xf5be); (0x8e66, 0xb1c4); (0x8e69, 0xf5bf); (0x8e6c, 0xb5c5); (0x8e6d, 0xb2e4); (0x8e6f, 0xf5ec); (0x8e70, 0xf5e9);
  (0x8e72, 0xb6d7); (0x8e74, 0xf5ed); (0x8e76, 0xf5ea); (0x8e7c, 0xf5eb); (0x8e7f, 0xb4da); (0x8e81, 0xd4ea); (0x8e85, 0xf5ee); (0x8e87, 0xb3f9);
  (0x8e8f, 0xf5ef); (0x8e90, 0xf5f1); (0x8e94, 0xf5f0); (0x8e9c, 0xf5f2); (0x8e9e, 0xf5f3); (0x8eab, 0xc9ed); (0x8eac, 0xb9aa); (0x8eaf, 0xc7fb);
  (0x8eb2, 0xb6e3); (0x8eba, 0xccc9); (0x8ece, 0xeaa6); (0x8f66, 0xb3b5); (0x8f67, 0xd4fe); (0x8f68, 0xb9ec)].

Definition gb_rows_60 : list (Z * Z) := [
  (0x8f69, 0xd0f9); (0x8f6b, 0xe9ed); (0x8f6c, 0xd7aa); (0x8f6d, 0xe9ee); (0x8f6e, 0xc2d6); (0x8f6f, 0xc8ed); (0x8f70, 0xbae4); (0x8f71, 0xe9ef);
  (0x8f72, 0xe9f0); (0x8f73, 0xe9f1); (0x8f74, 0xd6e1); (0x8f75, 0xe9f2); (0x8f76, 0xe9f3); (0x8f77, 0xe9f5); (0x8f78, 0xe9f4); (0x8f79, 0xe9f6);
  (0x8f7a, 0xe9f7); (0x8f7b, 0xc7e1); (0x8f7c, 0xe9f8); (0x8f7d, 0xd4d8); (0x8f7e, 0xe9f9); (0x8f7f, 0xbdce); (0x8f81, 0xe9fa); (0x8f82, 0xe9fb);
  (0x8f83, 0xbdcf); (0x8f84, 0xe9fc); (0x8f85, 0xb8a8); (0x8f86, 0xc1be); (0x8f87, 0xe9fd); (0x8f88, 0xb1b2); (0x8f89, 0xbbd4); (0x8f8a, 0xb9f5);
  (0x8f8b, 0xe9fe); (0x8f8d, 0xeaa1); (0x8f8e, 0xeaa2); (0x8f8f, 0xeaa3); (0x8f90, 0xb7f8); (0x8f91, 0xbcad); (0x8f93, 0xcae4); (0x8f94, 0xe0ce);
  (0x8f95, 0xd4af); (0x8f96, 0xcfbd); (0x8f97, 0xd5b7); (0x8f98, 0xeaa4); (0x8f99, 0xd5de); (0x8f9a, 0xeaa5); (0x8f9b, 0xd0c1); (0x8f9c, 0xb9bc);
  (0x8f9e, 0xb4c7); (0x8f9f, 0xb1d9); (0x8fa3, 0xc0b1); (0x8fa8, 0xb1e6); (0x8fa9, 0xb1e7); (0x8fab, 0xb1e8); (0x8fb0, 0xb3bd); (0x8fb1, 0xc8e8);
  (0x8fb6, 0xe5c1); (0x8fb9, 0xb1df); (0x8fbd, 0xc1c9); (0x8fbe, 0xb4ef); (0x8fc1, 0xc7a8); (0x8fc2, 0xd3d8); (0x8fc4, 0xc6f9); (0x8fc5, 0xd1b8);
  (0x8fc7, 0xb9fd); (0x8fc8, 0xc2f5); (0x8fce, 0xd3ad); (0x8fd0, 0xd4cb); (0x8fd1, 0xbdfc); (0x8fd3, 0xe5c2); (0x8fd4, 0xb7b5); (0x8fd5, 0xe5c3);
  (0x8fd8, 0xbbb9); (0x8fd9, 0xd5e2); (0x8fdb, 0xbdf8); (0x8fdc, 0xd4b6); (0x8fdd, 0xcea5); (0x8fde, 0xc1ac); (0x8fdf, 0xb3d9); (0x8fe2, 0xccf6);
  (0x8fe4, 0xe5c6); (0x8fe5, 0xe5c4); (0x8fe6, 0xe5c8); (0x8fe8, 0xe5ca); (0x8fe9, 0xe5c7); (0x8fea, 0xb5cf); (0x8feb, 0xc6c8); (0x8fed, 0xb5fc);
  (0x8fee, 0xe5c5); (0x8ff0, 0xcaf6); (0x8ff3, 0xe5c9); (0x8ff7, 0xc3d4); (0x8ff8, 0xb1c5); (0x8ff9, 0xbca3)].

Definition gb_rows_61 : list (Z * Z) := [
  (0x8ffd, 0xd7b7); (0x9000, 0xcdcb); (0x9001, 0xcbcd); (0x9002, 0xcaca); (0x9003, 0xccd3); (0x9004, 0xe5cc); (0x9005, 0xe5cb); (0x9006, 0xc4e6);
  (0x9009, 0xd1a1); (0x900a, 0xd1b7); (0x900b, 0xe5cd); (0x900d, 0xe5d0); (0x900f, 0xcdb8); (0x9010, 0xd6f0); (0x9011, 0xe5cf); (0x9012, 0xb5dd);
  (0x9014, 0xcdbe); (0x9016, 0xe5d1); (0x9017, 0xb6ba); (0x901a, 0xcda8); (0x901b, 0xb9e4); (0x901d, 0xcac5); (0x901e, 0xb3d1); (0x901f, 0xcbd9);
  (0x9020, 0xd4ec); (0x9021, 0xe5d2); (0x9022, 0xb7ea); (0x9026, 0xe5ce); (0x902d, 0xe5d5); (0x902e, 0xb4fe); (0x902f, 0xe5d6); (0x9035, 0xe5d3);
  (0x9036, 0xe5d4); (0x9038, 0xd2dd); (0x903b, 0xc2df); (0x903c, 0xb1c6); (0x903e, 0xd3e2); (0x9041, 0xb6dd); (0x9042, 0xcbec); (0x9044, 0xe5d7);
  (0x9047, 0xd3f6); (0x904d, 0xb1e9); (0x904f, 0xb6f4); (0x9050, 0xe5da); (0x9051, 0xe5d8); (0x9052, 0xe5d9); (0x9053, 0xb5c0); (0x9057, 0xd2c5);
  (0x9058, 0xe5dc); (0x905b, 0xe5de); (0x9062, 0xe5dd); (0x9063, 0xc7b2); (0x9065, 0xd2a3); (0x9068, 0xe5db); (0x906d, 0xd4e2); (0x906e, 0xd5da);
  (0x9074, 0xe5e0); (0x9075, 0xd7f1); (0x907d, 0xe5e1); (0x907f, 0xb1dc); (0x9080, 0xd1fb); (0x9082, 0xe5e2); (0x9083, 0xe5e4); (0x9088, 0xe5e3);
  (0x908b, 0xe5e5); (0x9091, 0xd2d8); (0x9093, 0xb5cb); (0x9095, 0xe7df); (0x9097, 0xdaf5); (0x9099, 0xdaf8); (0x909b, 0xdaf6); (0x909d, 0xdaf7);
  (0x90a1, 0xdafa); (0x90a2, 0xd0cf); (0x90a3, 0xc4c7); (0x90a6, 0xb0ee); (0x90aa, 0xd0b0); (0x90ac, 0xdaf9); (0x90ae, 0xd3ca); (0x90af, 0xbaaa);
  (0x90b0, 0xdba2); (0x90b1, 0xc7f1); (0x90b3, 0xdafc); (0x90b4, 0xdafb); (0x90b5, 0xc9db); (0x90b6, 0xdafd); (0x90b8, 0xdba1); (0x90b9, 0xd7de);
  (0x90ba, 0xdafe); (0x90bb, 0xc1da); (0x90be, 0xdba5); (0x90c1, 0xd3f4); (0x90c4, 0xdba7); (0x90c5, 0xdba4)].

Definition gb_rows_62 : list (Z * Z) := [
  (0x90c7, 0xdba8); (0x90ca, 0xbdbc); (0x90ce, 0xc0c9); (0x90cf, 0xdba3); (0x90d0, 0xdba6); (0x90d1, 0xd6a3); (0x90d3, 0xdba9); (0x90d7, 0xdbad);
  (0x90db, 0xdbae); (0x90dc, 0xdbac); (0x90dd, 0xbac2); (0x90e1, 0xbfa4); (0x90e2, 0xdbab); (0x90e6, 0xdbaa); (0x90e7, 0xd4c7); (0x90e8, 0xb2bf);
  (0x90eb, 0xdbaf); (0x90ed, 0xb9f9); (0x90ef, 0xdbb0); (0x90f4, 0xb3bb); (0x90f8, 0xb5a6); (0x90fd, 0xb6bc); (0x90fe, 0xdbb1); (0x9102, 0xb6f5);
  (0x9104, 0xdbb2); (0x9119, 0xb1c9); (0x911e, 0xdbb4); (0x9122, 0xdbb3); (0x9123, 0xdbb5); (0x912f, 0xdbb7); (0x9131, 0xdbb6); (0x9139, 0xdbb8);
  (0x9143, 0xdbb9); (0x9146, 0xdbba); (0x9149, 0xd3cf); (0x914a, 0xf4fa); (0x914b, 0xc7f5); (0x914c, 0xd7c3); (0x914d, 0xc5e4); (0x914e, 0xf4fc);
  (0x914f, 0xf4fd); (0x9150, 0xf4fb); (0x9152, 0xbec6); (0x9157, 0xd0ef); (0x915a, 0xb7d3); (0x915d, 0xd4cd); (0x915e, 0xccaa); (0x9161, 0xf5a2);
  (0x9162, 0xf5a1); (0x9163, 0xbaa8); (0x9164, 0xf4fe); (0x9165, 0xcbd6); (0x9169, 0xf5a4); (0x916a, 0xc0d2); (0x916c, 0xb3ea); (0x916e, 0xcdaa);
  (0x916f, 0xf5a5); (0x9170, 0xf5a3); (0x9171, 0xbdb4); (0x9172, 0xf5a8); (0x9174, 0xf5a9); (0x9175, 0xbdcd); (0x9176, 0xc3b8); (0x9177, 0xbfe1);
  (0x9178, 0xcbe1); (0x9179, 0xf5aa); (0x917d, 0xf5a6); (0x917e, 0xf5a7); (0x917f, 0xc4f0); (0x9185, 0xf5ac); (0x9187, 0xb4bc); (0x9189, 0xd7ed);
  (0x918b, 0xb4d7); (0x918c, 0xf5ab); (0x918d, 0xf5ae); (0x9190, 0xf5ad); (0x9191, 0xf5af); (0x9192, 0xd0d1); (0x919a, 0xc3d1); (0x919b, 0xc8a9);
  (0x91a2, 0xf5b0); (0x91a3, 0xf5b1); (0x91aa, 0xf5b2); (0x91ad, 0xf5b3); (0x91ae, 0xf5b4); (0x91af, 0xf5b5); (0x91b4, 0xf5b7); (0x91b5, 0xf5b6);
  (0x91ba, 0xf5b8); (0x91c7, 0xb2c9); (0x91c9, 0xd3d4); (0x91ca, 0xcacd); (0x91cc, 0xc0ef); (0x91cd, 0xd6d8)].

Definition gb_rows_63 : list (Z * Z) := [
  (0x91ce, 0xd2b0); (0x91cf, 0xc1bf); (0x91d1, 0xbdf0); (0x91dc, 0xb8aa); (0x9274, 0xbcf8); (0x928e, 0xf6c6); (0x92ae, 0xf6c7); (0x92c8, 0xf6c8);
  (0x933e, 0xf6c9); (0x936a, 0xf6ca); (0x938f, 0xf6cc); (0x93ca, 0xf6cb); (0x93d6, 0xf7e9); (0x943e, 0xf6cd); (0x946b, 0xf6ce); (0x9485, 0xeec4);
  (0x9486, 0xeec5); (0x9487, 0xeec6); (0x9488, 0xd5eb); (0x9489, 0xb6a4); (0x948a, 0xeec8); (0x948b, 0xeec7); (0x948c, 0xeec9); (0x948d, 0xeeca);
  (0x948e, 0xc7a5); (0x948f, 0xeecb); (0x9490, 0xeecc); (0x9492, 0xb7b0); (0x9493, 0xb5f6); (0x9494, 0xeecd); (0x9495, 0xeecf); (0x9497, 0xeece);
  (0x9499, 0xb8c6); (0x949a, 0xeed0); (0x949b, 0xeed1); (0x949c, 0xeed2); (0x949d, 0xb6db); (0x949e, 0xb3ae); (0x949f, 0xd6d3); (0x94a0, 0xc4c6);
  (0x94a1, 0xb1b5); (0x94a2, 0xb8d6); (0x94a3, 0xeed3); (0x94a4, 0xeed4); (0x94a5, 0xd4bf); (0x94a6, 0xc7d5); (0x94a7, 0xbefb); (0x94a8, 0xced9);
  (0x94a9, 0xb9b3); (0x94aa, 0xeed6); (0x94ab, 0xeed5); (0x94ac, 0xeed8); (0x94ad, 0xeed7); (0x94ae, 0xc5a5); (0x94af, 0xeed9); (0x94b0, 0xeeda);
  (0x94b1, 0xc7ae); (0x94b2, 0xeedb); (0x94b3, 0xc7af); (0x94b4, 0xeedc); (0x94b5, 0xb2a7); (0x94b6, 0xeedd); (0x94b7, 0xeede); (0x94b8, 0xeedf);
  (0x94b9, 0xeee0); (0x94ba, 0xeee1); (0x94bb, 0xd7ea); (0x94bc, 0xeee2); (0x94bd, 0xeee3); (0x94be, 0xbcd8); (0x94bf, 0xeee4); (0x94c0, 0xd3cb);
  (0x94c1, 0xccfa); (0x94c2, 0xb2ac); (0x94c3, 0xc1e5); (0x94c4, 0xeee5); (0x94c5, 0xc7a6); (0x94c6, 0xc3ad); (0x94c8, 0xeee6); (0x94c9, 0xeee7);
  (0x94ca, 0xeee8); (0x94cb, 0xeee9); (0x94cc, 0xeeea); (0x94cd, 0xeeeb); (0x94ce, 0xeeec); (0x94d0, 0xeeed); (0x94d1, 0xeeee); (0x94d2, 0xeeef);
  (0x94d5, 0xeef0); (0x94d6, 0xeef1); (0x94d7, 0xeef2); (0x94d8, 0xeef4); (0x94d9, 0xeef3); (0x94db, 0xeef5)].

Definition gb_rows_64 : list (Z * Z) := [
  (0x94dc, 0xcdad); (0x94dd, 0xc2c1); (0x94de, 0xeef6); (0x94df, 0xeef7); (0x94e0, 0xeef8); (0x94e1, 0xd5a1); (0x94e2, 0xeef9); (0x94e3, 0xcfb3);
  (0x94e4, 0xeefa); (0x94e5, 0xeefb); (0x94e7, 0xeefc); (0x94e8, 0xeefd); (0x94e9, 0xefa1); (0x94ea, 0xeefe); (0x94eb, 0xefa2); (0x94ec, 0xb8f5);
  (0x94ed, 0xc3fa); (0x94ee, 0xefa3); (0x94ef, 0xefa4); (0x94f0, 0xbdc2); (0x94f1, 0xd2bf); (0x94f2, 0xb2f9); (0x94f3, 0xefa5); (0x94f4, 0xefa6);
  (0x94f5, 0xefa7); (0x94f6, 0xd2f8); (0x94f7, 0xefa8); (0x94f8, 0xd6fd); (0x94f9, 0xefa9); (0x94fa, 0xc6cc); (0x94fc, 0xefaa); (0x94fd, 0xefab);
  (0x94fe, 0xc1b4); (0x94ff, 0xefac); (0x9500, 0xcffa); (0x9501, 0xcbf8); (0x9502, 0xefae); (0x9503, 0xefad); (0x9504, 0xb3fa); (0x9505, 0xb9f8);
  (0x9506, 0xefaf); (0x9507, 0xefb0); (0x9508, 0xd0e2); (0x9509, 0xefb1); (0x950a, 0xefb2); (0x950b, 0xb7e6); (0x950c, 0xd0bf); (0x950d, 0xefb3);
  (0x950e, 0xefb4); (0x950f, 0xefb5); (0x9510, 0xc8f1); (0x9511, 0xcce0); (0x9512, 0xefb6); (0x9513, 0xefb7); (0x9514, 0xefb8); (0x9515, 0xefb9);
  (0x9516, 0xefba); (0x9517, 0xd5e0); (0x9518, 0xefbb); (0x9519, 0xb4ed); (0x951a, 0xc3aa); (0x951b, 0xefbc); (0x951d, 0xefbd); (0x951e, 0xefbe);
  (0x951f, 0xefbf); (0x9521, 0xcefd); (0x9522, 0xefc0); (0x9523, 0xc2e0); (0x9524, 0xb4b8); (0x9525, 0xd7b6); (0x9526, 0xbdf5); (0x9528, 0xcfc7);
  (0x9529, 0xefc3); (0x952a, 0xefc1); (0x952b, 0xefc2); (0x952c, 0xefc4); (0x952d, 0xb6a7); (0x952e, 0xbcfc); (0x952f, 0xbee2); (0x9530, 0xc3cc);
  (0x9531, 0xefc5); (0x9532, 0xefc6); (0x9534, 0xefc7); (0x9535, 0xefcf); (0x9536, 0xefc8); (0x9537, 0xefc9); (0x9538, 0xefca); (0x9539, 0xc7c2);
  (0x953a, 0xeff1); (0x953b, 0xb6cd); (0x953c, 0xefcb); (0x953e, 0xefcc); (0x953f, 0xefcd); (0x9540, 0xb6c6)].

Definition gb_rows_65 : list (Z * Z) := [
  (0x9541, 0xc3be); (0x9542, 0xefce); (0x9544, 0xefd0); (0x9545, 0xefd1); (0x9546, 0xefd2); (0x9547, 0xd5f2); (0x9549, 0xefd3); (0x954a, 0xc4f7);
  (0x954c, 0xefd4); (0x954d, 0xc4f8); (0x954e, 0xefd5); (0x954f, 0xefd6); (0x9550, 0xb8e4); (0x9551, 0xb0f7); (0x9552, 0xefd7); (0x9553, 0xefd8);
  (0x9554, 0xefd9); (0x9556, 0xefda); (0x9557, 0xefdb); (0x9558, 0xefdc); (0x9559, 0xefdd); (0x955b, 0xefde); (0x955c, 0xbeb5); (0x955d, 0xefe1);
  (0x955e, 0xefdf); (0x955f, 0xefe0); (0x9561, 0xefe2); (0x9562, 0xefe3); (0x9563, 0xc1cd); (0x9564, 0xefe4); (0x9565, 0xefe5); (0x9566, 0xefe6);
  (0x9567, 0xefe7); (0x9568, 0xefe8); (0x9569, 0xefe9); (0x956a, 0xefea); (0x956b, 0xefeb); (0x956c, 0xefec); (0x956d, 0xc0d8); (0x956f, 0xefed);
  (0x9570, 0xc1ad); (0x9571, 0xefee); (0x9572, 0xefef); (0x9573, 0xeff0); (0x9576, 0xcfe2); (0x957f, 0xb3a4); (0x95e8, 0xc3c5); (0x95e9, 0xe3c5);
  (0x95ea, 0xc9c1); (0x95eb, 0xe3c6); (0x95ed, 0xb1d5); (0x95ee, 0xceca); (0x95ef, 0xb4b3); (0x95f0, 0xc8f2); (0x95f1, 0xe3c7); (0x95f2, 0xcfd0);
  (0x95f3, 0xe3c8); (0x95f4, 0xbce4); (0x95f5, 0xe3c9); (0x95f6, 0xe3ca); (0x95f7, 0xc3c6); (0x95f8, 0xd5a2); (0x95f9, 0xc4d6); (0x95fa, 0xb9eb);
  (0x95fb, 0xcec5); (0x95fc, 0xe3cb); (0x95fd, 0xc3f6); (0x95fe, 0xe3cc); (0x9600, 0xb7a7); (0x9601, 0xb8f3); (0x9602, 0xbad2); (0x9603, 0xe3cd);
  (0x9604, 0xe3ce); (0x9605, 0xd4c4); (0x9606, 0xe3cf); (0x9608, 0xe3d0); (0x9609, 0xd1cb); (0x960a, 0xe3d1); (0x960b, 0xe3d2); (0x960c, 0xe3d3);
  (0x960d, 0xe3d4); (0x960e, 0xd1d6); (0x960f, 0xe3d5); (0x9610, 0xb2fb); (0x9611, 0xc0bb); (0x9612, 0xe3d6); (0x9614, 0xc0ab); (0x9615, 0xe3d7);
  (0x9616, 0xe3d8); (0x9617, 0xe3d9); (0x9619, 0xe3da); (0x961a, 0xe3db); (0x961c, 0xb8b7); (0x961d, 0xdae2)].

Definition gb_rows_66 : list (Z * Z) := [
  (0x961f, 0xb6d3); (0x9621, 0xdae4); (0x9622, 0xdae3); (0x962a, 0xdae6); (0x962e, 0xc8ee); (0x9631, 0xdae5); (0x9632, 0xb7c0); (0x9633, 0xd1f4);
  (0x9634, 0xd2f5); (0x9635, 0xd5f3); (0x9636, 0xbdd7); (0x963b, 0xd7e8); (0x963c, 0xdae8); (0x963d, 0xdae7); (0x963f, 0xb0a2); (0x9640, 0xcdd3);
  (0x9642, 0xdae9); (0x9644, 0xb8bd); (0x9645, 0xbcca); (0x9646, 0xc2bd); (0x9647, 0xc2a4); (0x9648, 0xb3c2); (0x9649, 0xdaea); (0x964b, 0xc2aa);
  (0x964c, 0xc4b0); (0x964d, 0xbdb5); (0x9650, 0xcfde); (0x9654, 0xdaeb); (0x9655, 0xc9c2); (0x965b, 0xb1dd); (0x965f, 0xdaec); (0x9661, 0xb6b8);
  (0x9662, 0xd4ba); (0x9664, 0xb3fd); (0x9667, 0xdaed); (0x9668, 0xd4c9); (0x9669, 0xcfd5); (0x966a, 0xc5e3); (0x966c, 0xdaee); (0x9672, 0xdaef);
  (0x9674, 0xdaf0); (0x9675, 0xc1ea); (0x9676, 0xccd5); (0x9677, 0xcfdd); (0x9685, 0xd3e7); (0x9686, 0xc2a1); (0x9688, 0xdaf1); (0x968b, 0xcbe5);
  (0x968d, 0xdaf2); (0x968f, 0xcbe6); (0x9690, 0xd2fe); (0x9694, 0xb8f4); (0x9697, 0xdaf3); (0x9698, 0xb0af); (0x9699, 0xcfb6); (0x969c, 0xd5cf);
  (0x96a7, 0xcbed); (0x96b0, 0xdaf4); (0x96b3, 0xe3c4); (0x96b6, 0xc1a5); (0x96b9, 0xf6bf); (0x96bc, 0xf6c0); (0x96bd, 0xf6c1); (0x96be, 0xc4d1);
  (0x96c0, 0xc8b8); (0x96c1, 0xd1e3); (0x96c4, 0xd0db); (0x96c5, 0xd1c5); (0x96c6, 0xbcaf); (0x96c7, 0xb9cd); (0x96c9, 0xeff4); (0x96cc, 0xb4c6);
  (0x96cd, 0xd3ba); (0x96ce, 0xf6c2); (0x96cf, 0xb3fb); (0x96d2, 0xf6c3); (0x96d5, 0xb5f1); (0x96e0, 0xf6c5); (0x96e8, 0xd3ea); (0x96e9, 0xf6a7);
  (0x96ea, 0xd1a9); (0x96ef, 0xf6a9); (0x96f3, 0xf6a8); (0x96f6, 0xc1e3); (0x96f7, 0xc0d7); (0x96f9, 0xb1a2); (0x96fe, 0xceed); (0x9700, 0xd0e8);
  (0x9701, 0xf6ab); (0x9704, 0xcff6); (0x9706, 0xf6aa); (0x9707, 0xd5f0); (0x9708, 0xf6ac); (0x9709, 0xc3b9)].

Definition gb_rows_67 : list (Z * Z) := [
  (0x970d, 0xbbf4); (0x970e, 0xf6ae); (0x970f, 0xf6ad); (0x9713, 0xc4de); (0x9716, 0xc1d8); (0x971c, 0xcbaa); (0x971e, 0xcfbc); (0x972a, 0xf6af);
  (0x972d, 0xf6b0); (0x9730, 0xf6b1); (0x9732, 0xc2b6); (0x9738, 0xb0d4); (0x9739, 0xc5f9); (0x973e, 0xf6b2); (0x9752, 0xc7e0); (0x9753, 0xf6a6);
  (0x9756, 0xbeb8); (0x9759, 0xbeb2); (0x975b, 0xb5e5); (0x975e, 0xb7c7); (0x9760, 0xbfbf); (0x9761, 0xc3d2); (0x9762, 0xc3e6); (0x9765, 0xd8cc);
  (0x9769, 0xb8ef); (0x9773, 0xbdf9); (0x9774, 0xd1a5); (0x9776, 0xb0d0); (0x977c, 0xf7b0); (0x9785, 0xf7b1); (0x978b, 0xd0ac); (0x978d, 0xb0b0);
  (0x9791, 0xf7b2); (0x9792, 0xf7b3); (0x9794, 0xf7b4); (0x9798, 0xc7ca); (0x97a0, 0xbecf); (0x97a3, 0xf7b7); (0x97ab, 0xf7b6); (0x97ad, 0xb1de);
  (0x97af, 0xf7b5); (0x97b2, 0xf7b8); (0x97b4, 0xf7b9); (0x97e6, 0xcea4); (0x97e7, 0xc8cd); (0x97e9, 0xbaab); (0x97ea, 0xe8b8); (0x97eb, 0xe8b9);
  (0x97ec, 0xe8ba); (0x97ed, 0xbec2); (0x97f3, 0xd2f4); (0x97f5, 0xd4cf); (0x97f6, 0xc9d8); (0x9875, 0xd2b3); (0x9876, 0xb6a5); (0x9877, 0xc7ea);
  (0x9878, 0xf1fc); (0x9879, 0xcfee); (0x987a, 0xcbb3); (0x987b, 0xd0eb); (0x987c, 0xe7ef); (0x987d, 0xcde7); (0x987e, 0xb9cb); (0x987f, 0xb6d9);
  (0x9880, 0xf1fd); (0x9881, 0xb0e4); (0x9882, 0xcbcc); (0x9883, 0xf1fe); (0x9884, 0xd4a4); (0x9885, 0xc2ad); (0x9886, 0xc1ec); (0x9887, 0xc6c4);
  (0x9888, 0xbeb1); (0x9889, 0xf2a1); (0x988a, 0xbcd5); (0x988c, 0xf2a2); (0x988d, 0xf2a3); (0x988f, 0xf2a4); (0x9890, 0xd2c3); (0x9891, 0xc6b5);
  (0x9893, 0xcdc7); (0x9894, 0xf2a5); (0x9896, 0xd3b1); (0x9897, 0xbfc5); (0x9898, 0xcce2); (0x989a, 0xf2a6); (0x989b, 0xf2a7); (0x989c, 0xd1d5);
  (0x989d, 0xb6ee); (0x989e, 0xf2a8); (0x989f, 0xf2a9); (0x98a0, 0xb5df); (0x98a1, 0xf2aa); (0x98a2, 0xf2ab)].

Definition gb_rows_68 : list (Z * Z) := [
  (0x98a4, 0xb2fc); (0x98a5, 0xf2ac); (0x98a6, 0xf2ad); (0x98a7, 0xc8a7); (0x98ce, 0xb7e7); (0x98d1, 0xeca9); (0x98d2, 0xecaa); (0x98d3, 0xecab);
  (0x98d5, 0xecac); (0x98d8, 0xc6ae); (0x98d9, 0xecad); (0x98da, 0xecae); (0x98de, 0xb7c9); (0x98df, 0xcab3); (0x98e7, 0xe2b8); (0x98e8, 0xf7cf);
  (0x990d, 0xf7d0); (0x9910, 0xb2cd); (0x992e, 0xf7d1); (0x9954, 0xf7d3); (0x9955, 0xf7d2); (0x9963, 0xe2bb); (0x9965, 0xbca2); (0x9967, 0xe2bc);
  (0x9968, 0xe2bd); (0x9969, 0xe2be); (0x996a, 0xe2bf); (0x996b, 0xe2c0); (0x996c, 0xe2c1); (0x996d, 0xb7b9); (0x996e, 0xd2fb); (0x996f, 0xbda4);
  (0x9970, 0xcace); (0x9971, 0xb1a5); (0x9972, 0xcbc7); (0x9974, 0xe2c2); (0x9975, 0xb6fc); (0x9976, 0xc8c4); (0x9977, 0xe2c3); (0x997a, 0xbdc8);
  (0x997c, 0xb1fd); (0x997d, 0xe2c4); (0x997f, 0xb6f6); (0x9980, 0xe2c5); (0x9981, 0xc4d9); (0x9984, 0xe2c6); (0x9985, 0xcfda); (0x9986, 0xb9dd);
  (0x9987, 0xe2c7); (0x9988, 0xc0a1); (0x998a, 0xe2c8); (0x998b, 0xb2f6); (0x998d, 0xe2c9); (0x998f, 0xc1f3); (0x9990, 0xe2ca); (0x9991, 0xe2cb);
  (0x9992, 0xc2f8); (0x9993, 0xe2cc); (0x9994, 0xe2cd); (0x9995, 0xe2ce); (0x9996, 0xcad7); (0x9997, 0xd8b8); (0x9998, 0xd9e5); (0x9999, 0xcfe3);
  (0x99a5, 0xf0a5); (0x99a8, 0xdcb0); (0x9a6c, 0xc2ed); (0x9a6d, 0xd4a6); (0x9a6e, 0xcdd4); (0x9a6f, 0xd1b1); (0x9a70, 0xb3db); (0x9a71, 0xc7fd);
  (0x9a73, 0xb2b5); (0x9a74, 0xc2bf); (0x9a75, 0xe6e0); (0x9a76, 0xcabb); (0x9a77, 0xe6e1); (0x9a78, 0xe6e2); (0x9a79, 0xbed4); (0x9a7a, 0xe6e3);
  (0x9a7b, 0xd7a4); (0x9a7c, 0xcdd5); (0x9a7d, 0xe6e5); (0x9a7e, 0xbcdd); (0x9a7f, 0xe6e4); (0x9a80, 0xe6e6); (0x9a81, 0xe6e7); (0x9a82, 0xc2ee);
  (0x9a84, 0xbdbe); (0x9a85, 0xe6e8); (0x9a86, 0xc2e6); (0x9a87, 0xbaa7); (0x9a88, 0xe6e9); (0x9a8a, 0xe6ea)].

Definition gb_rows_69 : list (Z * Z) := [
  (0x9a8b, 0xb3d2); (0x9a8c, 0xd1e9); (0x9a8f, 0xbfa5); (0x9a90, 0xe6eb); (0x9a91, 0xc6ef); (0x9a92, 0xe6ec); (0x9a93, 0xe6ed); (0x9a96, 0xe6ee);
  (0x9a97, 0xc6ad); (0x9a98, 0xe6ef); (0x9a9a, 0xc9a7); (0x9a9b, 0xe6f0); (0x9a9c, 0xe6f1); (0x9a9d, 0xe6f2); (0x9a9e, 0xe5b9); (0x9a9f, 0xe6f3);
  (0x9aa0, 0xe6f4); (0x9aa1, 0xc2e2); (0x9aa2, 0xe6f5); (0x9aa3, 0xe6f6); (0x9aa4, 0xd6e8); (0x9aa5, 0xe6f7); (0x9aa7, 0xe6f8); (0x9aa8, 0xb9c7);
  (0x9ab0, 0xf7bb); (0x9ab1, 0xf7ba); (0x9ab6, 0xf7be); (0x9ab7, 0xf7bc); (0x9ab8, 0xbaa1); (0x9aba, 0xf7bf); (0x9abc, 0xf7c0); (0x9ac0, 0xf7c2);
  (0x9ac1, 0xf7c1); (0x9ac2, 0xf7c4); (0x9ac5, 0xf7c3); (0x9acb, 0xf7c5); (0x9acc, 0xf7c6); (0x9ad1, 0xf7c7); (0x9ad3, 0xcbe8); (0x9ad8, 0xb8df);
  (0x9adf, 0xf7d4); (0x9ae1, 0xf7d5); (0x9ae6, 0xf7d6); (0x9aeb, 0xf7d8); (0x9aed, 0xf7da); (0x9aef, 0xf7d7); (0x9af9, 0xf7db); (0x9afb, 0xf7d9);
  (0x9b03, 0xd7d7); (0x9b08, 0xf7dc); (0x9b0f, 0xf7dd); (0x9b13, 0xf7de); (0x9b1f, 0xf7df); (0x9b23, 0xf7e0); (0x9b2f, 0xdbcb); (0x9b32, 0xd8aa);
  (0x9b3b, 0xe5f7); (0x9b3c, 0xb9ed); (0x9b41, 0xbffd); (0x9b42, 0xbbea); (0x9b43, 0xf7c9); (0x9b44, 0xc6c7); (0x9b45, 0xf7c8); (0x9b47, 0xf7ca);
  (0x9b48, 0xf7cc); (0x9b49, 0xf7cb); (0x9b4d, 0xf7cd); (0x9b4f, 0xceba); (0x9b51, 0xf7ce); (0x9b54, 0xc4a7); (0x9c7c, 0xd3e3); (0x9c7f, 0xf6cf);
  (0x9c81, 0xc2b3); (0x9c82, 0xf6d0); (0x9c85, 0xf6d1); (0x9c86, 0xf6d2); (0x9c87, 0xf6d3); (0x9c88, 0xf6d4); (0x9c8b, 0xf6d6); (0x9c8d, 0xb1ab);
  (0x9c8e, 0xf6d7); (0x9c90, 0xf6d8); (0x9c91, 0xf6d9); (0x9c92, 0xf6da); (0x9c94, 0xf6db); (0x9c95, 0xf6dc); (0x9c9a, 0xf6dd); (0x9c9b, 0xf6de);
  (0x9c9c, 0xcfca); (0x9c9e, 0xf6df); (0x9c9f, 0xf6e0); (0x9ca0, 0xf6e1); (0x9ca1, 0xf6e2); (0x9ca2, 0xf6e3)].

Definition gb_rows_70 : list (Z * Z) := [
  (0x9ca3, 0xf6e4); (0x9ca4, 0xc0f0); (0x9ca5, 0xf6e5); (0x9ca6, 0xf6e6); (0x9ca7, 0xf6e7); (0x9ca8, 0xf6e8); (0x9ca9, 0xf6e9); (0x9cab, 0xf6ea);
  (0x9cad, 0xf6eb); (0x9cae, 0xf6ec); (0x9cb0, 0xf6ed); (0x9cb1, 0xf6ee); (0x9cb2, 0xf6ef); (0x9cb3, 0xf6f0); (0x9cb4, 0xf6f1); (0x9cb5, 0xf6f2);
  (0x9cb6, 0xf6f3); (0x9cb7, 0xf6f4); (0x9cb8, 0xbea8); (0x9cba, 0xf6f5); (0x9cbb, 0xf6f6); (0x9cbc, 0xf6f7); (0x9cbd, 0xf6f8); (0x9cc3, 0xc8fa);
  (0x9cc4, 0xf6f9); (0x9cc5, 0xf6fa); (0x9cc6, 0xf6fb); (0x9cc7, 0xf6fc); (0x9cca, 0xf6fd); (0x9ccb, 0xf6fe); (0x9ccc, 0xf7a1); (0x9ccd, 0xf7a2);
  (0x9cce, 0xf7a3); (0x9ccf, 0xf7a4); (0x9cd0, 0xf7a5); (0x9cd3, 0xf7a6); (0x9cd4, 0xf7a7); (0x9cd5, 0xf7a8); (0x9cd6, 0xb1ee); (0x9cd7, 0xf7a9);
  (0x9cd8, 0xf7aa); (0x9cd9, 0xf7ab); (0x9cdc, 0xf7ac); (0x9cdd, 0xf7ad); (0x9cde, 0xc1db); (0x9cdf, 0xf7ae); (0x9ce2, 0xf7af); (0x9e1f, 0xc4f1);
  (0x9e20, 0xf0af); (0x9e21, 0xbca6); (0x9e22, 0xf0b0); (0x9e23, 0xc3f9); (0x9e25, 0xc5b8); (0x9e26, 0xd1bb); (0x9e28, 0xf0b1); (0x9e29, 0xf0b2);
  (0x9e2a, 0xf0b3); (0x9e2b, 0xf0b4); (0x9e2c, 0xf0b5); (0x9e2d, 0xd1bc); (0x9e2f, 0xd1ec); (0x9e31, 0xf0b7); (0x9e32, 0xf0b6); (0x9e33, 0xd4a7);
  (0x9e35, 0xcdd2); (0x9e36, 0xf0b8); (0x9e37, 0xf0ba); (0x9e38, 0xf0b9); (0x9e39, 0xf0bb); (0x9e3a, 0xf0bc); (0x9e3d, 0xb8eb); (0x9e3e, 0xf0bd);
  (0x9e3f, 0xbae8); (0x9e41, 0xf0be); (0x9e42, 0xf0bf); (0x9e43, 0xbee9); (0x9e44, 0xf0c0); (0x9e45, 0xb6ec); (0x9e46, 0xf0c1); (0x9e47, 0xf0c2);
  (0x9e48, 0xf0c3); (0x9e49, 0xf0c4); (0x9e4a, 0xc8b5); (0x9e4b, 0xf0c5); (0x9e4c, 0xf0c6); (0x9e4e, 0xf0c7); (0x9e4f, 0xc5f4); (0x9e51, 0xf0c8);
  (0x9e55, 0xf0c9); (0x9e57, 0xf0ca); (0x9e58, 0xf7bd); (0x9e5a, 0xf0cb); (0x9e5b, 0xf0cc); (0x9e5c, 0xf0cd)].

Definition gb_rows_71 : list (Z * Z) := [
  (0x9e5e, 0xf0ce); (0x9e63, 0xf0cf); (0x9e64, 0xbad7); (0x9e66, 0xf0d0); (0x9e67, 0xf0d1); (0x9e68, 0xf0d2); (0x9e69, 0xf0d3); (0x9e6a, 0xf0d4);
  (0x9e6b, 0xf0d5); (0x9e6c, 0xf0d6); (0x9e6d, 0xf0d8); (0x9e70, 0xd3a5); (0x9e71, 0xf0d7); (0x9e73, 0xf0d9); (0x9e7e, 0xf5ba); (0x9e7f, 0xc2b9);
  (0x9e82, 0xf7e4); (0x9e87, 0xf7e5); (0x9e88, 0xf7e6); (0x9e8b, 0xf7e7); (0x9e92, 0xf7e8); (0x9e93, 0xc2b4); (0x9e9d, 0xf7ea); (0x9e9f, 0xf7eb);
  (0x9ea6, 0xc2f3); (0x9eb4, 0xf4f0); (0x9eb8, 0xf4ef); (0x9ebb, 0xc2e9); (0x9ebd, 0xf7e1); (0x9ebe, 0xf7e2); (0x9ec4, 0xbbc6); (0x9ec9, 0xd9e4);
  (0x9ecd, 0xcaf2); (0x9ece, 0xc0e8); (0x9ecf, 0xf0a4); (0x9ed1, 0xbada); (0x9ed4, 0xc7ad); (0x9ed8, 0xc4ac); (0x9edb, 0xf7ec); (0x9edc, 0xf7ed);
  (0x9edd, 0xf7ee); (0x9edf, 0xf7f0); (0x9ee0, 0xf7ef); (0x9ee2, 0xf7f1); (0x9ee5, 0xf7f4); (0x9ee7, 0xf7f3); (0x9ee9, 0xf7f2); (0x9eea, 0xf7f5);
  (0x9eef, 0xf7f6); (0x9ef9, 0xede9); (0x9efb, 0xedea); (0x9efc, 0xedeb); (0x9efe, 0xf6bc); (0x9f0b, 0xf6bd); (0x9f0d, 0xf6be); (0x9f0e, 0xb6a6);
  (0x9f10, 0xd8be); (0x9f13, 0xb9c4); (0x9f17, 0xd8bb); (0x9f19, 0xdcb1); (0x9f20, 0xcaf3); (0x9f22, 0xf7f7); (0x9f2c, 0xf7f8); (0x9f2f, 0xf7f9);
  (0x9f37, 0xf7fb); (0x9f39, 0xf7fa); (0x9f3b, 0xb1c7); (0x9f3d, 0xf7fc); (0x9f3e, 0xf7fd); (0x9f44, 0xf7fe); (0x9f50, 0xc6eb); (0x9f51, 0xecb4);
  (0x9f7f, 0xb3dd); (0x9f80, 0xf6b3); (0x9f83, 0xf6b4); (0x9f84, 0xc1e4); (0x9f85, 0xf6b5); (0x9f86, 0xf6b6); (0x9f87, 0xf6b7); (0x9f88, 0xf6b8);
  (0x9f89, 0xf6b9); (0x9f8a, 0xf6ba); (0x9f8b, 0xc8a3); (0x9f8c, 0xf6bb); (0x9f99, 0xc1fa); (0x9f9a, 0xb9a8); (0x9f9b, 0xede8); (0x9f9f, 0xb9ea);
  (0x9fa0, 0xd9df)].

Definition unicode_to_gb2312 : list (Z * Z) := concat [
  gb_rows_00; gb_rows_01; gb_rows_02; gb_rows_03; gb_rows_04; gb_rows_05; gb_rows_06; gb_rows_07;
  gb_rows_08; gb_rows_09; gb_rows_10; gb_rows_11; gb_rows_12; gb_rows_13; gb_rows_14; gb_rows_15;
  gb_rows_16; gb_rows_17; gb_rows_18; gb_rows_19; gb_rows_20; gb_rows_21; gb_rows_22; gb_rows_23;
  gb_rows_24; gb_rows_25; gb_rows_26; gb_rows_27; gb_rows_28; gb_rows_29; gb_rows_30; gb_rows_31;
  gb_rows_32; gb_rows_33; gb_rows_34; gb_rows_35; gb_rows_36; gb_rows_37; gb_rows_38; gb_rows_39;
  gb_rows_40; gb_rows_41; gb_rows_42; gb_rows_43; gb_rows_44; gb_rows_45; gb_rows_46; gb_rows_47;
  gb_rows_48; gb_rows_49; gb_rows_50; gb_rows_51; gb_rows_52; gb_rows_53; gb_rows_54; gb_rows_55;
  gb_rows_56; gb_rows_57; gb_rows_58; gb_rows_59; gb_rows_60; gb_rows_61; gb_rows_62; gb_rows_63;
  gb_rows_64; gb_rows_65; gb_rows_66; gb_rows_67; gb_rows_68; gb_rows_69; gb_rows_70; gb_rows_71].
