(* ===== verification/Utf8.v ===== *)
(** * Character sets (components/utf8/conv_utf8.c)

    A text in GB 2312 to UTF-8, into memory that is allocated for it, and a text
    in UTF-8 back, in place.  Memory is arrays of bytes, a text ends with a zero;
    an access outside an array is a fault.  What [os_malloc] gives is an argument. *)
From stdpp Require Import list numbers.
From S2P Require Import Prelude Utf8Tables.
Local Open Scope Z_scope.

(** [*p] in the array [l]. *)
Definition byte_at (l : list Z) (p : Z) : res Z := of_option BadAccess (zlookup l p).

(** [strlen(s)]: where the zero is. *)
Fixpoint strlen (s : list Z) : res Z :=
  match s with
  | [] => Err BadAccess
  | c :: s' => if c =? 0 then mret 0 else n ← strlen s'; mret (n + 1)
  end.

(** ** To UTF-8 *)

(** Whether a character of GB 2312 is at [pin] of [input]; its UTF-8 is put at [pout] of [out]. *)
Definition conv_utf8_for_gb2312 (input : list Z) (pin : Z) (out : list Z) (pout : Z) : res (Z * list Z) :=
  hi_bits ← byte_at input pin;
  low_bit ← byte_at input (pin + 1);
  if (hi_bits <? 0xB0) || (0xF7 <? hi_bits) then mret (0, out)
  else if (low_bit <? 0xA1) || (0xFE <? low_bit) then mret (0, out)
  else
    let gb_code := u16 (Z.shiftl hi_bits 8 + low_bit) in
    let dist_cnt := u16 (hi_bits - 0xB0) in
    let dist_cnt := u16 (dist_cnt * (0xA1 + 0x01)) in
    let gb_code := u16 (gb_code - 0xB0A1 - dist_cnt) in
    utf8 ← of_option BadAccess (zlookup t_gb2312_utf8 gb_code);
    let '(b0, b1, b2) := utf8 in
    out' ← mem_write out pout [b0; b1; b2];
    mret (1, out').

Fixpoint conv_loop (fuel : nat) (input : list Z) (ptr : Z) (out : list Z) (o : Z) : res (list Z * Z) :=
  c ← byte_at input ptr;
  if c =? 0 then mret (out, o)
  else match fuel with
  | O => Err NoFuel
  | Datatypes.S fuel' =>
    r ← conv_utf8_for_gb2312 input ptr out o;
    if truthy r.1 then conv_loop fuel' input (ptr + 2) r.2 (o + 3)
    else out' ← mem_write out o [c]; conv_loop fuel' input (ptr + 1) out' (o + 1)
  end.

Definition conv_utf8 (os_malloc : Z -> option (list Z)) (input : list Z) : res (option (list Z)) :=
  len ← strlen input;
  let len := len / 2 * 3 + 1 in
  match os_malloc len with
  | None => mret None
  | Some out_bak =>
    r ← conv_loop (length input) input 0 out_bak 0;
    out ← mem_write r.1 r.2 [0];
    mret (Some out)
  end.

(** ** From UTF-8 *)

Fixpoint search_loop (fuel : nat) (tbl : list (Z * Z)) (first end_ unicodeKey : Z) : res Z :=
  if first <=? end_ then
    match fuel with
    | O => Err NoFuel
    | Datatypes.S fuel' =>
      let mid := (first + end_) / 2 in
      row ← of_option BadAccess (zlookup tbl mid);
      if row.1 =? unicodeKey then mret row.2
      else if unicodeKey <? row.1 then search_loop fuel' tbl first (mid - 1) unicodeKey
      else search_loop fuel' tbl (mid + 1) end_ unicodeKey
    end
  else mret 0.
Definition SearchCodeTable (unicodeKey : Z) : res Z :=
  search_loop (length unicode_to_gb2312) unicode_to_gb2312 0 (Z.of_nat (length unicode_to_gb2312) - 1) unicodeKey.

(** The bits of one at the front; [temp] is a byte, which has run out after eight turns. *)
Fixpoint lead_loop (fuel : nat) (temp num firstCh : Z) : res Z :=
  if truthy (Z.land temp firstCh) then
    match fuel with O => Err NoFuel | Datatypes.S fuel' => lead_loop fuel' (u8 (Z.shiftr temp 1)) (num + 1) firstCh end
  else mret num.
Definition GetUtf8ByteNumForWord (firstCh : Z) : res Z := lead_loop 8 0x80 0 firstCh.

(** The loop; [search] is the search of a code. *)
Fixpoint gb_loop (search : Z -> res Z) (fuel : nat) (utf8 : list Z) (len : Z) (temp : list Z) (i j : Z) : res (list Z * Z) :=
  if i <? len then
    match fuel with
    | O => Err NoFuel
    | Datatypes.S fuel' =>
      c ← byte_at utf8 i;
      nbyte ← GetUtf8ByteNumForWord c;
      if nbyte =? 0 then
        temp ← mem_write temp j [c];
        gb_loop search fuel' utf8 len temp (i + 1) (j + 1)
      else if nbyte =? 2 then
        temp ← mem_write temp j [c];
        c1 ← byte_at utf8 (i + 1);
        temp ← mem_write temp (j + 1) [c1];
        gb_loop search fuel' utf8 len temp (i + 2) (j + 2)
      else if nbyte =? 3 then
        c1 ← byte_at utf8 (i + 1);
        temp ← mem_write temp (j + 1) [Z.lor (Z.shiftl (Z.land c 0x0F) 4) (Z.land (Z.shiftr c1 2) 0x0F)];
        c2 ← byte_at utf8 (i + 2);
        temp ← mem_write temp j [Z.shiftl (Z.land c1 0x03) 6 + Z.land c2 0x3F];
        key ← mem_read temp j 2;
        gbKey ← search (word_of_le key);
        temp ← mem_write temp j [Z.shiftr (Z.land gbKey 0xff00) 8];
        temp ← mem_write temp (j + 1) [Z.land gbKey 0x00ff];
        gb_loop search fuel' utf8 len temp (i + 3) (j + 2)
      else if (4 <=? nbyte) && (nbyte <=? 6) then gb_loop search fuel' utf8 len temp (i + nbyte) j
      else gb_loop search fuel' utf8 len temp (i + 1) j
    end
  else mret (temp, j).

(** The new contents of the array, if it was converted. *)
Definition Utf8ToGb2312 (os_malloc : Z -> option (list Z)) (utf8 : option (list Z)) : res (option (list Z)) :=
  match utf8 with
  | None => mret None
  | Some utf8 =>
    len ← strlen utf8;
    if len <=? 0 then mret None
    else match os_malloc len with
    | None => mret None
    | Some temp =>
      r ← gb_loop SearchCodeTable (length utf8) utf8 len temp 0 0;
      temp ← mem_write r.1 r.2 [0];
      bs ← mem_read temp 0 (r.2 + 1);
      utf8 ← mem_write utf8 0 bs;
      mret (Some utf8)
    end
  end.
