(* ===== verification/Utf8Correct.v ===== *)
(** * Correctness of the character sets

    The search is the lookup in its table; a text of the first level of GB 2312
    becomes its UTF-8, and comes back from it; exactly which texts do not fit the
    memory that is allocated for them; what becomes of the second level. *)
From stdpp Require Import list numbers gmap.
From S2P Require Import Prelude Utf8Tables Utf8.
Local Open Scope Z_scope.

(** ** The search *)
Definition lookup_row (tbl : list (Z * Z)) (key : Z) : Z := from_option snd 0 (List.find (fun r => r.1 =? key) tbl).
Definition rising (tbl : list (Z * Z)) : Prop := forall i j r r', (i < j)%nat -> tbl !! i = Some r -> tbl !! j = Some r' -> r.1 < r'.1.

(** Neighbours in order are enough. *)
Fixpoint risingb (tbl : list (Z * Z)) : bool :=
  match tbl with
  | r :: (r' :: _) as tbl' => (r.1 <? r'.1) && risingb tbl'
  | _ => true
  end.
Lemma risingb_rising tbl : risingb tbl = true -> rising tbl.
Proof.
  induction tbl as [|r [|r' tbl] IH]; intros Hb i j x y Hij Hx Hy; [done|by destruct i, j; try lia|].
  cbn [risingb] in Hb. apply andb_true_iff in Hb as [Hr Hb]. apply Z.ltb_lt in Hr. specialize (IH Hb).
  destruct i as [|i], j as [|j]; try lia; cbn in Hx, Hy.
  - injection Hx as <-. destruct j as [|j]; [by injection Hy as <-|]. transitivity (r'.1); [done|]. exact (IH 0%nat (Datatypes.S j) r' y ltac:(lia) eq_refl Hy).
  - exact (IH i j x y ltac:(lia) Hx Hy).
Qed.

(** The rows outside [first .. end_] do not have the key. *)
Lemma find_row tbl key i r : rising tbl -> tbl !! i = Some r -> r.1 = key -> List.find (fun r => r.1 =? key) tbl = Some r.
Proof.
  intros Hs Hi <-. revert i Hi. induction tbl as [|x tbl IH]; intros [|i] Hi; try done; cbn in Hi |- *.
  - injection Hi as ->. by rewrite Z.eqb_refl.
  - assert (x.1 < r.1) by (apply (Hs 0%nat (Datatypes.S i)); [lia|done|done]). rewrite (proj2 (Z.eqb_neq _ _)) by lia.
    eapply IH; [|exact Hi]. intros a b u v Hab Hu Hv. apply (Hs (Datatypes.S a) (Datatypes.S b) u v); [lia|done|done].
Qed.
Lemma find_no_row (tbl : list (Z * Z)) key : (forall i r, tbl !! i = Some r -> r.1 <> key) -> List.find (fun r => r.1 =? key) tbl = None.
Proof.
  induction tbl as [|x tbl IH]; intros Hn; [done|]. cbn. rewrite (proj2 (Z.eqb_neq _ _)) by (exact (Hn 0%nat x eq_refl)). apply IH. intros i r Hr. exact (Hn (Datatypes.S i) r Hr).
Qed.

Lemma search_loop_val n tbl first end_ key : rising tbl -> 0 <= first -> end_ < Z.of_nat (length tbl) -> end_ - first + 1 <= Z.of_nat n ->
  (forall i r, tbl !! i = Some r -> r.1 = key -> first <= Z.of_nat i <= end_) -> search_loop n tbl first end_ key = Val (lookup_row tbl key).
Proof.
  intros Hs. revert first end_. induction n as [|n IH]; intros first end_ Hf He Hn Hin; cbn [search_loop]; destruct (Z.leb_spec first end_) as [Hle|Hgt]; try lia.
  1, 3: unfold lookup_row; rewrite find_no_row; [done|]; intros i r Hr Hk; pose proof (Hin i r Hr Hk); lia.
  set (mid := (first + end_) / 2). assert (Hmid : first <= mid <= end_) by (unfold mid; split; [apply Z.div_le_lower_bound|apply Z.div_le_upper_bound]; lia).
  destruct (lookup_lt_is_Some_2 tbl (Z.to_nat mid) ltac:(lia)) as [row Hrow].
  unfold zlookup. rewrite (proj2 (Z.leb_le 0 mid)) by lia. rewrite Hrow. cbn.
  destruct (Z.eqb_spec row.1 key) as [E|Hne].
  - unfold lookup_row. by rewrite (find_row tbl key _ row Hs Hrow E).
  - destruct (Z.ltb_spec key row.1) as [Hlt|Hge].
    + apply IH; try lia. intros i r Hr Hk. pose proof (Hin i r Hr Hk). destruct (Z.le_gt_cases (Z.of_nat i) (mid - 1)) as [?|Hi]; [lia|].
      destruct (Z.eq_dec (Z.of_nat i) mid) as [Em|Hm]; [rewrite <- Em, Nat2Z.id in Hrow; assert (r = row) by congruence; subst; lia|].
      pose proof (Hs (Z.to_nat mid) i row r ltac:(lia) Hrow Hr). lia.
    + apply IH; try lia. intros i r Hr Hk. pose proof (Hin i r Hr Hk). destruct (Z.le_gt_cases (mid + 1) (Z.of_nat i)) as [?|Hi]; [lia|].
      destruct (Z.eq_dec (Z.of_nat i) mid) as [Em|Hm]; [rewrite <- Em, Nat2Z.id in Hrow; assert (r = row) by congruence; subst; lia|].
      pose proof (Hs i (Z.to_nat mid) r row ltac:(lia) Hr Hrow). lia.
Qed.

Lemma unicode_rising : rising unicode_to_gb2312.
Proof. apply risingb_rising. vm_compute. reflexivity. Qed.

(** C32: the binary search for a code ends and finds what going through the whole table
    finds, and zero when the table does not have the code. *)
Theorem search_is_lookup key : SearchCodeTable key = Val (lookup_row unicode_to_gb2312 key).
Proof.
  unfold SearchCodeTable. apply search_loop_val; [exact unicode_rising|lia|lia|lia|]. intros i r Hr _. apply lookup_lt_Some in Hr. lia.
Qed.

(** ** Texts *)
Inductive gb_char := Ascii (c : Z) | Hanzi (hi lo : Z).
Definition gb_word (hi lo : Z) : Z := hi * 256 + lo.
(** The two levels of the standard: the districts 0xB0 to 0xD7 without the last five places, and 0xD8 to 0xF7. *)
Definition level1 (hi lo : Z) : bool := (0xB0 <=? hi) && (hi <=? 0xD7) && (0xA1 <=? lo) && (lo <=? 0xFE) && (gb_word hi lo <? 0xD7FA).
Definition level2 (hi lo : Z) : bool := (0xD8 <=? hi) && (hi <=? 0xF7) && (0xA1 <=? lo) && (lo <=? 0xFE).
Definition char_ok (c : gb_char) : Prop := match c with Ascii c => 1 <= c < 128 | Hanzi hi lo => level1 hi lo = true end.

Definition gb_bytes (c : gb_char) : list Z := match c with Ascii c => [c] | Hanzi hi lo => [hi; lo] end.
Definition gb_text (t : list gb_char) : list Z := t ≫= gb_bytes.

(** The Unicode of a character, and the UTF-8 of a code from 0x800 on. *)
Definition gb_map : gmap Z Z := list_to_map ((fun r => (r.2, r.1)) <$> unicode_to_gb2312).
Definition unicode_of (gb : Z) : Z := default 0 (gb_map !! gb).
Definition utf8_encode (u : Z) : Z * Z * Z :=
  (Z.lor 0xE0 (Z.shiftr u 12), Z.lor 0x80 (Z.land (Z.shiftr u 6) 0x3F), Z.lor 0x80 (Z.land u 0x3F)).
Arguments utf8_encode u : simpl never.
Definition row_bytes (r : Z * Z * Z) : list Z := let '(a, b, c) := r in [a; b; c].
Definition utf8_bytes (c : gb_char) : list Z := match c with Ascii c => [c] | Hanzi hi lo => row_bytes (utf8_encode (unicode_of (gb_word hi lo))) end.
Definition utf8_text (t : list gb_char) : list Z := t ≫= utf8_bytes.

Definition is_ascii (c : gb_char) : bool := match c with Ascii _ => true | _ => false end.
Definition ascii_count (t : list gb_char) : nat := length (List.filter is_ascii t).
Definition hanzi_count (t : list gb_char) : nat := length (List.filter (fun c => negb (is_ascii c)) t).

(** ** The tables *)
Definition unicode_map : gmap Z Z := list_to_map unicode_to_gb2312.
Lemma lookup_row_map key : lookup_row unicode_to_gb2312 key = default 0 (unicode_map !! key).
Proof.
  unfold lookup_row, unicode_map. induction unicode_to_gb2312 as [|[u g] tbl IH]; [done|]. cbn [List.find list_to_map fst].
  destruct (Z.eqb_spec u key) as [->|Hne]; cbn; [by rewrite lookup_insert_eq|by rewrite lookup_insert_ne].
Qed.

(** The character with number [k] when the places of the districts are counted. *)
Definition place (k : Z) : Z := gb_word (0xB0 + k / 94) (0xA1 + k mod 94).
(** The row is the UTF-8 of the character, which the table of codes leads back to. *)
Definition row_is (r : Z * Z * Z) (gb : Z) : bool :=
  let u := unicode_of gb in
  bool_decide (r = utf8_encode u) && (0x800 <=? u) && (u <? 0x10000) && bool_decide (unicode_map !! u = Some gb).
Lemma row_is_facts r gb : row_is r gb = true -> r = utf8_encode (unicode_of gb) /\ 0x800 <= unicode_of gb < 0x10000 /\ unicode_map !! unicode_of gb = Some gb.
Proof.
  unfold row_is. intros R. apply andb_true_iff in R as [R R4]. apply andb_true_iff in R as [R R3]. apply andb_true_iff in R as [R1 R2].
  apply bool_decide_eq_true in R1, R4. exact (conj R1 (conj (conj (proj1 (Z.leb_le _ _) R2) (proj1 (Z.ltb_lt _ _) R3)) R4)).
Qed.
(** [n] rows are those of the characters from number [k] on. *)
Fixpoint rows_are (n : nat) (k : Z) (rows : list (Z * Z * Z)) : bool :=
  match n, rows with
  | O, _ => true
  | Datatypes.S n', r :: rows' => row_is r (place k) && rows_are n' (k + 1) rows'
  | _, [] => false
  end.
Lemma rows_are_row n k rows i : rows_are n k rows = true -> (i < n)%nat -> exists r, rows !! i = Some r /\ row_is r (place (k + Z.of_nat i)) = true.
Proof.
  revert k rows i. induction n as [|n IH]; intros k [|r rows] i Hr Hi; try done; try lia. cbn [rows_are] in Hr. apply andb_true_iff in Hr as [Hr Hrs].
  destruct i as [|i]; [exists r; by rewrite Z.add_0_r|]. destruct (IH (k + 1) rows i Hrs ltac:(lia)) as (r' & E & R). exists r'. split; [done|].
  by replace (k + Z.of_nat (Datatypes.S i)) with (k + 1 + Z.of_nat i) by lia.
Qed.

(** The rows of the first level are in their places; those of the second are five places early. *)
Lemma level1_checked : rows_are 3755 0 t_gb2312_utf8 = true.
Proof. vm_compute. reflexivity. Qed.
Lemma level2_checked : rows_are 3008 3760 (drop 3755 t_gb2312_utf8) && (Z.of_nat (length t_gb2312_utf8) =? 6763) = true.
Proof. vm_compute. reflexivity. Qed.

(** ** Bytes *)
Lemma byte_at_app pre c post : byte_at (pre ++ c :: post) (Z.of_nat (length pre)) = Val c.
Proof. unfold byte_at. by rewrite zlookup_nat, list_lookup_middle. Qed.
Lemma byte_at_next pre c c' post : byte_at (pre ++ c :: c' :: post) (Z.of_nat (length pre) + 1) = Val c'.
Proof.
  replace (Z.of_nat (length pre) + 1) with (Z.of_nat (length (pre ++ [c]))) by (rewrite length_app; cbn; lia).
  replace (pre ++ c :: c' :: post) with ((pre ++ [c]) ++ c' :: post) by (by rewrite <- app_assoc). apply byte_at_app.
Qed.
Lemma byte_at_third pre c c' c'' post : byte_at (pre ++ c :: c' :: c'' :: post) (Z.of_nat (length pre) + 2) = Val c''.
Proof.
  replace (Z.of_nat (length pre) + 2) with (Z.of_nat (length (pre ++ [c])) + 1) by (rewrite length_app; cbn; lia).
  replace (pre ++ c :: c' :: c'' :: post) with ((pre ++ [c]) ++ c' :: c'' :: post) by (by rewrite <- app_assoc). apply byte_at_next.
Qed.
Lemma write_next (done_ bs junk : list Z) : (length bs <= length junk)%nat ->
  mem_write (done_ ++ junk) (Z.of_nat (length done_)) bs = Val (done_ ++ bs ++ drop (length bs) junk).
Proof.
  intros Hl. rewrite mem_write_val by (rewrite ?length_app; lia). rewrite Nat2Z.id. unfold splice. do 2 f_equal; [apply take_app_length|].
  f_equal. by rewrite <- drop_drop, drop_app_length.
Qed.

Lemma length_row_bytes r : length (row_bytes r) = 3%nat.
Proof. by destruct r as [[? ?] ?]. Qed.

(** The code computes the number of the character. *)
Definition number (hi lo : Z) : Z := (hi - 0xB0) * 94 + (lo - 0xA1).
Definition in_grid (hi lo : Z) : Prop := 0xB0 <= hi <= 0xF7 /\ 0xA1 <= lo <= 0xFE.
Lemma place_number hi lo : in_grid hi lo -> place (number hi lo) = gb_word hi lo.
Proof.
  intros [Hh Hl]. unfold place, number. rewrite Z.div_add_l, Z.div_small by lia. rewrite (Z.add_comm (_ * 94) (lo - _)), Z.mod_add, Z.mod_small by lia. unfold gb_word. lia.
Qed.

Lemma for_gb2312_val pre hi lo post (done_ junk : list Z) r : in_grid hi lo -> t_gb2312_utf8 !! Z.to_nat (number hi lo) = Some r -> (3 <= length junk)%nat ->
  conv_utf8_for_gb2312 (pre ++ hi :: lo :: post) (Z.of_nat (length pre)) (done_ ++ junk) (Z.of_nat (length done_)) = Val (1, done_ ++ row_bytes r ++ drop 3 junk).
Proof.
  intros [Hh Hl] Hr Hj. unfold conv_utf8_for_gb2312. rewrite byte_at_app. cbn [mbind res_bind]. rewrite byte_at_next. cbn [mbind res_bind].
  rewrite !(proj2 (Z.ltb_ge _ _)) by lia. cbn [orb].
  assert (En : u16 (u16 (Z.shiftl hi 8 + lo) - 0xB0A1 - u16 (u16 (hi - 0xB0) * (0xA1 + 0x01))) = number hi lo).
  { rewrite Z.shiftl_mul_pow2 by lia. unfold number, u16. rewrite (Z.mod_small (hi - 0xB0)), (Z.mod_small (hi * 2 ^ 8 + lo)), (Z.mod_small (_ * _)), Z.mod_small by lia. lia. }
  rewrite En. unfold zlookup. rewrite (proj2 (Z.leb_le _ _)), Hr by (unfold number; lia). destruct r as [[b0 b1] b2]. cbn.
  by rewrite (write_next done_ [b0; b1; b2] junk Hj).
Qed.

(** A row of the first level. *)
Lemma level1_row hi lo : level1 hi lo = true -> in_grid hi lo /\ exists r, t_gb2312_utf8 !! Z.to_nat (number hi lo) = Some r /\ row_is r (gb_word hi lo) = true.
Proof.
  intros Hl. unfold level1, gb_word in Hl. assert (Hg : in_grid hi lo) by (unfold in_grid; lia). split; [done|].
  destruct (rows_are_row 3755 0 t_gb2312_utf8 (Z.to_nat (number hi lo)) level1_checked) as (r & E & R); [unfold number; lia|].
  exists r. split; [done|]. rewrite Z2Nat.id in R by (unfold number, in_grid in *; lia). by rewrite Z.add_0_l, place_number in R.
Qed.
Lemma row_bytes_of hi lo r : row_is r (gb_word hi lo) = true -> row_bytes r = utf8_bytes (Hanzi hi lo).
Proof. intros R. apply row_is_facts in R as [E _]. cbn [utf8_bytes]. by rewrite E. Qed.

(** ** A text to UTF-8 *)
Lemma conv_step n pre c post (done_ junk : list Z) : char_ok c -> post <> [] -> (length (utf8_bytes c) <= length junk)%nat ->
  conv_loop (Datatypes.S n) (pre ++ gb_bytes c ++ post) (Z.of_nat (length pre)) (done_ ++ junk) (Z.of_nat (length done_)) =
  conv_loop n ((pre ++ gb_bytes c) ++ post) (Z.of_nat (length (pre ++ gb_bytes c))) ((done_ ++ utf8_bytes c) ++ drop (length (utf8_bytes c)) junk)
    (Z.of_nat (length (done_ ++ utf8_bytes c))).
Proof.
  intros Hc Hp Hj. rewrite !length_app, !Nat2Z.inj_add, <- !app_assoc. destruct c as [c|hi lo]; cbn [gb_bytes utf8_bytes char_ok app length] in *.
  - destruct post as [|c' post]; [done|]. cbn [conv_loop]. rewrite byte_at_app. cbn [mbind res_bind]. rewrite (proj2 (Z.eqb_neq _ _)) by lia.
    unfold conv_utf8_for_gb2312. rewrite byte_at_app. cbn [mbind res_bind]. rewrite byte_at_next. cbn [mbind res_bind].
    rewrite (proj2 (Z.ltb_lt c 0xB0)) by lia. cbn [orb mret res_ret truthy fst snd negb Z.eqb]. by rewrite (write_next done_ [c] junk Hj).
  - destruct (level1_row hi lo Hc) as (Hg & r & Hr & R). rewrite length_row_bytes in *. cbn [conv_loop]. rewrite byte_at_app. cbn [mbind res_bind].
    rewrite (proj2 (Z.eqb_neq _ _)) by (unfold in_grid in Hg; lia). rewrite (for_gb2312_val pre hi lo post done_ junk r Hg Hr Hj). cbn. by rewrite (row_bytes_of _ _ _ R).
Qed.

Lemma conv_text n t pre post (done_ junk : list Z) : Forall char_ok t -> (length t <= n)%nat -> (length (utf8_text t) <= length junk)%nat ->
  conv_loop n (pre ++ gb_text t ++ 0 :: post) (Z.of_nat (length pre)) (done_ ++ junk) (Z.of_nat (length done_)) =
  Val (done_ ++ utf8_text t ++ drop (length (utf8_text t)) junk, Z.of_nat (length (done_ ++ utf8_text t))).
Proof.
  revert n pre done_ junk. induction t as [|c t IH]; intros n pre done_ junk Ht Hn Hj.
  { cbn [gb_text utf8_text mbind list_bind app drop length]. rewrite app_nil_r. destruct n; cbn [conv_loop]; by rewrite byte_at_app. }
  destruct n as [|n]; [cbn in Hn; lia|]. inversion_clear Ht as [|? ? Hc Ht']. unfold gb_text, utf8_text in *. rewrite !bind_cons, length_app in *.
  rewrite <- app_assoc, conv_step; [|done|by destruct (t ≫= gb_bytes)|lia].
  rewrite (IH n _ (done_ ++ utf8_bytes c)) by (try done; rewrite ?length_drop; cbn in Hn; lia). by rewrite drop_drop, <- !app_assoc.
Qed.

(** The lengths of the texts. *)
Lemma text_lengths t : length (gb_text t) = (ascii_count t + 2 * hanzi_count t)%nat /\ length (utf8_text t) = (ascii_count t + 3 * hanzi_count t)%nat.
Proof.
  induction t as [|c t [IH1 IH2]]; [done|]. unfold gb_text, utf8_text in *. rewrite !bind_cons, !length_app, IH1, IH2. unfold ascii_count, hanzi_count.
  destruct c as [c|hi lo]; cbn [gb_bytes utf8_bytes List.filter is_ascii negb]; rewrite ?length_row_bytes; cbn [length]; lia.
Qed.
Lemma strlen_val l post : Forall (fun c => c <> 0) l -> strlen (l ++ 0 :: post) = Val (Z.of_nat (length l)).
Proof.
  induction l as [|c l IH]; intros Hl; [done|]. inversion_clear Hl as [|? ? Hc Hl']. cbn [app strlen length]. rewrite (proj2 (Z.eqb_neq _ _)), IH by done. cbn. f_equal. lia.
Qed.
Lemma lor_nonzero x y : 0 <= x -> 0 <= y -> 0 < x -> Z.lor x y <> 0.
Proof. intros Hx Hy Hp E. apply Z.lor_eq_0_iff in E. lia. Qed.
Lemma texts_nonzero t : Forall char_ok t -> Forall (fun c => c <> 0) (gb_text t) /\ Forall (fun c => c <> 0) (utf8_text t).
Proof.
  induction 1 as [|c t Hc _ [IH1 IH2]]; [done|]. unfold gb_text, utf8_text. rewrite !bind_cons, !Forall_app. split; (split; [|done]); destruct c as [c|hi lo]; cbn in Hc |- *.
  - by repeat constructor; lia.
  - unfold level1 in Hc. repeat constructor; lia.
  - by repeat constructor; lia.
  - destruct (level1_row hi lo Hc) as (_ & r & _ & R). apply row_is_facts in R as (_ & R & _). unfold utf8_encode. cbn.
    repeat constructor; apply lor_nonzero; try lia; [apply Z.shiftr_nonneg; lia|apply Z.land_nonneg; lia..].
Qed.

(** C31: converting a text of ASCII and of the first level of GB 2312 gives its UTF-8,
    with the zero, in memory of the size that the code asks for, except for a text with
    exactly one ASCII character, for which the zero is written past the end of that
    memory; without memory the result is null. *)
Theorem conv_utf8_converts os_malloc t post : Forall char_ok t -> (forall n l, os_malloc n = Some l -> length l = Z.to_nat n) ->
  conv_utf8 os_malloc (gb_text t ++ 0 :: post) =
    match os_malloc (Z.of_nat (length (gb_text t)) / 2 * 3 + 1) with
    | None => Val None
    | Some junk => if (ascii_count t =? 1)%nat then Err BadAccess
                   else Val (Some (utf8_text t ++ 0 :: drop (Datatypes.S (length (utf8_text t))) junk))
    end.
Proof.
  intros Ht Hm. unfold conv_utf8. rewrite strlen_val by apply (texts_nonzero t Ht). cbn [mbind res_bind].
  destruct (os_malloc _) as [junk|] eqn:Ej; [|done]. apply Hm in Ej. destruct (text_lengths t) as [L1 L2]. rewrite L1 in Ej.
  assert (Hjunk : length junk = (ascii_count t / 2 * 3 + 3 * hanzi_count t + 1)%nat).
  { rewrite Ej, Nat2Z.inj_add, Nat2Z.inj_mul, (Z.mul_comm (Z.of_nat 2)), Z.div_add by lia. rewrite <- (Nat2Z.inj_div _ 2). lia. }
  pose proof (Nat.div_mod_eq (ascii_count t) 2) as Hdm. pose proof (Nat.mod_upper_bound (ascii_count t) 2 ltac:(lia)) as Hmb.
  pose proof (conv_text (length (gb_text t ++ 0 :: post)) t [] post [] junk Ht) as E. cbn [app length] in E. change (Z.of_nat 0) with 0 in E.
  rewrite E; [|rewrite length_app, L1; unfold ascii_count, hanzi_count; pose proof (filter_length is_ascii t); lia|lia]. cbn [mbind res_bind fst snd].
  destruct (Nat.eqb_spec (ascii_count t) 1) as [E1|E1].
  - rewrite mem_write_out; [done|]. rewrite !length_app, length_drop, E1 in *. cbn [length]. cbn in Hjunk. lia.
  - rewrite write_next by (rewrite length_drop; cbn; lia). cbn. rewrite drop_drop. by rewrite Nat.add_comm.
Qed.

(** ** A text from UTF-8 *)
Lemma lead_checked : forallb (fun c => match GetUtf8ByteNumForWord c with Val n => if c <? 128 then n =? 0 else if (0xE0 <=? c) && (c <? 0xF0) then n =? 3 else true | Err _ => false end)
  (Z.of_nat <$> seq 0 256) = true.
Proof. vm_compute. reflexivity. Qed.
Lemma lead_val c : 0 <= c < 256 -> exists n, GetUtf8ByteNumForWord c = Val n /\ (c < 128 -> n = 0) /\ (0xE0 <= c < 0xF0 -> n = 3).
Proof.
  intros Hc. pose proof (proj1 (forallb_forall _ _) lead_checked c) as E.
  assert (Hin : In c (Z.of_nat <$> seq 0 256)) by (apply list_elem_of_In, list_elem_of_fmap; exists (Z.to_nat c); split; [lia|apply elem_of_seq; lia]).
  specialize (E Hin). cbv beta in E. destruct (GetUtf8ByteNumForWord c) as [n|]; [|done]. exists n. split; [done|].
  destruct (Z.ltb_spec c 128), (Z.leb_spec 0xE0 c), (Z.ltb_spec c 0xF0); cbn [andb] in E; lia.
Qed.

(** The three bytes of a code, taken apart. *)
Lemma small_lor a b n : 0 <= n -> 0 <= b < 2 ^ n -> Z.land a (Z.ones n) = 0 -> Z.lor a b = a + b.
Proof.
  intros Hn Hb Ha. assert (Hd : Z.land a b = 0); [|by rewrite Z.add_nocarry_lxor, Z.lxor_lor].
  rewrite <- (Z.mod_small b (2 ^ n)), <- Z.land_ones by lia. by rewrite (Z.land_comm b), Z.land_assoc, Ha.
Qed.
Lemma encode_fields u : 0x800 <= u < 0x10000 -> exists a b c, 0 <= a < 16 /\ 0 <= b < 64 /\ 0 <= c < 64 /\ u = a * 4096 + b * 64 + c /\
  utf8_encode u = (0xE0 + a, 0x80 + b, 0x80 + c).
Proof.
  intros Hu. exists (u / 4096), (u / 64 mod 64), (u mod 64). pose proof (Z.div_mod u 64 ltac:(lia)) as D1. pose proof (Z.div_mod (u / 64) 64 ltac:(lia)) as D2.
  rewrite Z.div_div in D2 by lia. change (64 * 64) with 4096 in D2. pose proof (Z.mod_pos_bound u 64 ltac:(lia)). pose proof (Z.mod_pos_bound (u / 64) 64 ltac:(lia)).
  assert (0 <= u / 4096 < 16) by (split; [apply Z.div_pos|apply Z.div_lt_upper_bound]; lia). split_and!; try lia. unfold utf8_encode.
  rewrite !Z.shiftr_div_pow2 by lia. change (2 ^ 12) with 4096. change (2 ^ 6) with 64. change 0x3F with (Z.ones 6). rewrite !Z.land_ones by lia. change (2 ^ 6) with 64.
  rewrite (small_lor 0xE0 _ 4), !(small_lor 0x80 _ 6) by (try done; lia). done.
Qed.
Lemma decode_fields a b c : 0 <= a < 16 -> 0 <= b < 64 -> 0 <= c < 64 ->
  Z.lor (Z.shiftl (Z.land (0xE0 + a) 0x0F) 4) (Z.land (Z.shiftr (0x80 + b) 2) 0x0F) = a * 16 + b / 4 /\
  Z.shiftl (Z.land (0x80 + b) 0x03) 6 + Z.land (0x80 + c) 0x3F = b mod 4 * 64 + c.
Proof.
  intros Ha Hb Hc. change 0x0F with (Z.ones 4). change 0x03 with (Z.ones 2). change 0x3F with (Z.ones 6). rewrite !Z.land_ones, !Z.shiftl_mul_pow2, Z.shiftr_div_pow2 by lia.
  assert (0 <= b / 4 < 16) by (split; [apply Z.div_pos|apply Z.div_lt_upper_bound]; lia).
  replace (0xE0 + a) with (a + 14 * 2 ^ 4) by lia. replace (0x80 + c) with (c + 2 * 2 ^ 6) by lia. rewrite !Z.mod_add, !(Z.mod_small a), !(Z.mod_small c) by lia.
  change (2 ^ 2) with 4. replace (0x80 + b) with (b + 32 * 4) by lia. rewrite Z.div_add, Z.mod_add by lia. replace (b / 4 + 32) with (b / 4 + 2 * 2 ^ 4) by lia. rewrite Z.mod_add, Z.mod_small by lia.
  split; [|done]. apply (small_lor _ _ 4); [lia|lia|]. rewrite Z.land_ones by lia. by rewrite Z.mod_mul.
Qed.

(** The bytes of the row of a character, and what the table of codes has for them. *)
Lemma hanzi_fields hi lo : level1 hi lo = true -> exists a b c, 0 <= a < 16 /\ 0 <= b < 64 /\ 0 <= c < 64 /\
  utf8_bytes (Hanzi hi lo) = [0xE0 + a; 0x80 + b; 0x80 + c] /\ SearchCodeTable (a * 4096 + b * 64 + c) = Val (gb_word hi lo).
Proof.
  intros Hl. destruct (level1_row hi lo Hl) as (_ & r & _ & R). apply row_is_facts in R as (_ & R2 & R4).
  destruct (encode_fields _ R2) as (a & b & c & Ha & Hb & Hc & Eu & Ee).
  exists a, b, c. split_and!; try lia; [cbn [utf8_bytes]; by rewrite Ee|]. rewrite <- Eu, search_is_lookup, lookup_row_map. by rewrite R4.
Qed.

Lemma write_after (done_ : list Z) x y junk b : mem_write (done_ ++ x :: y :: junk) (Z.of_nat (length done_) + 1) [b] = Val (done_ ++ x :: b :: junk).
Proof.
  replace (Z.of_nat (length done_) + 1) with (Z.of_nat (length (done_ ++ [x]))) by (rewrite length_app; cbn; lia).
  replace (done_ ++ x :: y :: junk) with ((done_ ++ [x]) ++ y :: junk) by (by rewrite <- app_assoc).
  rewrite write_next by (cbn; lia). cbn. by rewrite <- app_assoc, drop_0.
Qed.
Lemma write_here (done_ : list Z) x junk b : mem_write (done_ ++ x :: junk) (Z.of_nat (length done_)) [b] = Val (done_ ++ b :: junk).
Proof. rewrite write_next by (cbn; lia). cbn. by rewrite drop_0. Qed.
Lemma read_two (done_ : list Z) x y junk : mem_read (done_ ++ x :: y :: junk) (Z.of_nat (length done_)) 2 = Val [x; y].
Proof.
  rewrite mem_read_val by (rewrite ?length_app; cbn; lia). rewrite Nat2Z.id. unfold slice. by rewrite drop_app_length.
Qed.

Lemma word_bytes hi lo : 0 <= hi < 256 -> 0 <= lo < 256 -> Z.shiftr (Z.land (gb_word hi lo) 0xff00) 8 = hi /\ Z.land (gb_word hi lo) 0x00ff = lo.
Proof.
  intros Hh Hl. unfold gb_word. change 0xff00 with (Z.shiftl (Z.ones 8) 8). change 0x00ff with (Z.ones 8). split.
  - rewrite Z.shiftr_land, Z.shiftr_shiftl_l, Z.shiftl_0_r, Z.shiftr_div_pow2, Z.land_ones by lia. change (2 ^ 8) with 256.
    rewrite Z.div_add_l, (Z.div_small lo), Z.add_0_r, Z.mod_small by lia. done.
  - rewrite Z.land_ones by lia. change (2 ^ 8) with 256. rewrite Z.add_comm, Z.mod_add, Z.mod_small by lia. done.
Qed.

(** One turn, on a byte of ASCII and on the three of a character. *)
Lemma gb_loop_ascii search n utf8 len temp temp' i j c : i < len -> byte_at utf8 i = Val c -> GetUtf8ByteNumForWord c = Val 0 -> mem_write temp j [c] = Val temp' ->
  gb_loop search (Datatypes.S n) utf8 len temp i j = gb_loop search n utf8 len temp' (i + 1) (j + 1).
Proof. intros Hi E1 E2 E3. cbn [gb_loop]. by rewrite (proj2 (Z.ltb_lt _ _) Hi), E1; cbn [mbind res_bind]; rewrite E2; cbn [mbind res_bind Z.eqb]; rewrite E3. Qed.
Lemma gb_loop_three search n utf8 len i j c c1 c2 g (done_ junk : list Z) x y : i < len -> byte_at utf8 i = Val c -> byte_at utf8 (i + 1) = Val c1 -> byte_at utf8 (i + 2) = Val c2 ->
  GetUtf8ByteNumForWord c = Val 3 -> j = Z.of_nat (length done_) ->
  search (Z.shiftl (Z.land c1 0x03) 6 + Z.land c2 0x3F + 256 * Z.lor (Z.shiftl (Z.land c 0x0F) 4) (Z.land (Z.shiftr c1 2) 0x0F)) = Val g ->
  gb_loop search (Datatypes.S n) utf8 len (done_ ++ x :: y :: junk) i j =
  gb_loop search n utf8 len (done_ ++ Z.shiftr (Z.land g 0xff00) 8 :: Z.land g 0x00ff :: junk) (i + 3) (j + 2).
Proof.
  intros Hi E E1 E2 E3 -> Es. cbn [gb_loop]. rewrite (proj2 (Z.ltb_lt _ _) Hi), E. cbn [mbind res_bind]. rewrite E3. cbn [mbind res_bind Z.eqb Pos.eqb].
  rewrite E1. cbn [mbind res_bind]. rewrite write_after. cbn [mbind res_bind]. rewrite E2. cbn [mbind res_bind].
  rewrite write_here. cbn [mbind res_bind]. rewrite read_two. cbn [mbind res_bind word_of_le]. rewrite Z.mul_0_r, Z.add_0_r, Es. cbn [mbind res_bind].
  rewrite write_here. cbn [mbind res_bind]. by rewrite write_after.
Qed.

Lemma gb_step n pre c post len (done_ junk : list Z) : char_ok c -> Z.of_nat (length pre) < len -> (length (gb_bytes c) <= length junk)%nat ->
  gb_loop SearchCodeTable (Datatypes.S n) (pre ++ utf8_bytes c ++ post) len (done_ ++ junk) (Z.of_nat (length pre)) (Z.of_nat (length done_)) =
  gb_loop SearchCodeTable n ((pre ++ utf8_bytes c) ++ post) len ((done_ ++ gb_bytes c) ++ drop (length (gb_bytes c)) junk) (Z.of_nat (length (pre ++ utf8_bytes c)))
    (Z.of_nat (length (done_ ++ gb_bytes c))).
Proof.
  intros Hc Hp Hj. rewrite !length_app, !Nat2Z.inj_add, <- !app_assoc. destruct c as [c|hi lo]; cbn [char_ok] in Hc.
  - cbn [gb_bytes utf8_bytes app length] in *. destruct (lead_val c ltac:(lia)) as (k & Ek & Hk & _). rewrite Hk in Ek by lia.
    exact (gb_loop_ascii _ n _ len _ _ _ _ c Hp (byte_at_app _ _ _) Ek (write_next done_ [c] junk Hj)).
  - destruct (hanzi_fields hi lo Hc) as (a & b & c & Ha & Hb & Hcc & Eb & Es). rewrite Eb. cbn [gb_bytes app length] in *.
    destruct (lead_val (0xE0 + a) ltac:(lia)) as (k & Ek & _ & Hk). rewrite Hk in Ek by lia.
    destruct junk as [|x [|y junk]]; cbn [length] in Hj; try lia. destruct (decode_fields a b c Ha Hb Hcc) as [D1 D2].
    pose proof (Z.div_mod b 4 ltac:(lia)) as Hd. assert (Hw : 0 <= hi < 256 /\ 0 <= lo < 256) by (unfold level1 in Hc; lia).
    rewrite (gb_loop_three _ n _ len _ _ _ _ _ (gb_word hi lo) done_ junk x y Hp (byte_at_app _ _ _) (byte_at_next _ _ _ _) (byte_at_third _ _ _ _ _) Ek eq_refl).
    + destruct (word_bytes hi lo (proj1 Hw) (proj2 Hw)) as [-> ->]. done.
    + rewrite D1, D2. replace (b mod 4 * 64 + c + 256 * (a * 16 + b / 4)) with (a * 4096 + b * 64 + c) by lia. exact Es.
Qed.

Lemma gb_text_val n t pre post len (done_ junk : list Z) : Forall char_ok t -> (length t <= n)%nat -> (length (gb_text t) <= length junk)%nat ->
  len = Z.of_nat (length pre + length (utf8_text t)) ->
  gb_loop SearchCodeTable n (pre ++ utf8_text t ++ 0 :: post) len (done_ ++ junk) (Z.of_nat (length pre)) (Z.of_nat (length done_)) =
  Val (done_ ++ gb_text t ++ drop (length (gb_text t)) junk, Z.of_nat (length (done_ ++ gb_text t))).
Proof.
  revert n pre done_ junk. induction t as [|c t IH]; intros n pre done_ junk Ht Hn Hj Hlen.
  { cbn [gb_text utf8_text mbind list_bind app drop length] in *. rewrite app_nil_r. subst len.
    destruct n; cbn [gb_loop]; by rewrite (proj2 (Z.ltb_ge _ _)) by lia. }
  destruct n as [|n]; [cbn in Hn; lia|]. inversion_clear Ht as [|? ? Hc Ht']. unfold gb_text, utf8_text in *. rewrite !bind_cons, !length_app in *.
  assert (Hu : (0 < length (utf8_bytes c))%nat) by (destruct c; cbn; [lia|rewrite length_row_bytes; lia]).
  rewrite <- app_assoc, gb_step; [|done|lia|lia].
  rewrite (IH n _ (done_ ++ gb_bytes c)) by (try done; rewrite ?length_drop, ?length_app; cbn in Hn; lia). rewrite drop_drop, <- !app_assoc.
  do 2 f_equal. rewrite !length_app. lia.
Qed.

(** C30: a text of ASCII and of the first level that has been converted to UTF-8 comes
    back, in place, followed by its zero; a text without any character of GB 2312 is
    written one byte past the end of the memory allocated for it, and of an empty
    one null is the result. *)
Theorem gb2312_roundtrip os_malloc t junk junk' : Forall char_ok t -> (forall n l, os_malloc n = Some l -> length l = Z.to_nat n) ->
  os_malloc (Z.of_nat (length (utf8_text t))) = Some junk' ->
  Utf8ToGb2312 os_malloc (Some (utf8_text t ++ 0 :: junk)) =
    if (length t =? 0)%nat then Val None
    else if (hanzi_count t =? 0)%nat then Err BadAccess
    else Val (Some (gb_text t ++ 0 :: drop (Datatypes.S (length (gb_text t))) (utf8_text t ++ 0 :: junk))).
Proof.
  intros Ht Hm Ej. pose proof (Hm _ _ Ej) as Hl. rewrite Nat2Z.id in Hl. unfold Utf8ToGb2312. rewrite strlen_val by apply (texts_nonzero t Ht). cbn [mbind res_bind].
  destruct (text_lengths t) as [L1 L2]. pose proof (filter_length is_ascii t) as Hcnt. fold (ascii_count t) in Hcnt. fold (hanzi_count t) in Hcnt.
  destruct (Nat.eqb_spec (length t) 0) as [E0|E0].
  { apply nil_length_inv in E0. by subst t. }
  rewrite (proj2 (Z.leb_gt _ _)), Ej by lia.
  pose proof (gb_text_val (length (utf8_text t ++ 0 :: junk)) t [] junk (Z.of_nat (length (utf8_text t))) [] junk' Ht) as E. cbn [app length] in E. change (Z.of_nat 0) with 0 in E.
  rewrite E; [|rewrite length_app, L2; lia|lia|done]. cbn [mbind res_bind fst snd].
  destruct (Nat.eqb_spec (hanzi_count t) 0) as [Eh|Eh].
  - rewrite mem_write_out; [done|]. rewrite length_app, length_drop. cbn [length]. lia.
  - rewrite write_next by (rewrite length_drop; cbn; lia). cbn [mbind res_bind length]. set (n := length (gb_text t)) in *.
    rewrite mem_read_val by (rewrite ?length_app; cbn; rewrite ?length_drop; lia).
    cbn [mbind res_bind]. unfold slice. change (Z.to_nat 0) with 0%nat. rewrite drop_0.
    replace (Z.to_nat (Z.of_nat n + 1)) with (Datatypes.S n) by lia. cbn [app].
    assert (Et : take (Datatypes.S n) (gb_text t ++ 0 :: drop 1 (drop n junk')) = gb_text t ++ [0]).
    { replace (Datatypes.S n) with (length (gb_text t) + 1)%nat by (fold n; lia). by rewrite take_app_add. }
    rewrite Et. rewrite mem_write_val by (rewrite ?length_app; cbn; fold n; lia). cbn [mbind res_bind]. unfold splice.
    change (Z.to_nat 0) with 0%nat. cbn [take app]. rewrite length_app. cbn [length]. fold n. by rewrite Nat.add_1_r, <- app_assoc.
Qed.

(** The second level: the row that the code reads is that of the character five places
    further, and for the last five characters there is none. *)
Theorem level2_shifted hi lo : level2 hi lo = true ->
  (number hi lo < 6763 -> exists r, t_gb2312_utf8 !! Z.to_nat (number hi lo) = Some r /\ row_is r (place (number hi lo + 5)) = true) /\
  (6763 <= number hi lo -> t_gb2312_utf8 !! Z.to_nat (number hi lo) = None).
Proof.
  intros Hl. pose proof level2_checked as Hc. apply andb_true_iff in Hc as [Hc Hlen]. apply Z.eqb_eq in Hlen. unfold level2 in Hl.
  assert (Hn : 3760 <= number hi lo) by (unfold number; lia). split; intros Hk.
  - destruct (rows_are_row 3008 3760 _ (Z.to_nat (number hi lo - 3755)) Hc) as (r & E & R); [lia|]. rewrite lookup_drop in E. exists r. split.
    + rewrite <- E. f_equal. lia.
    + by replace (number hi lo + 5) with (3760 + Z.of_nat (Z.to_nat (number hi lo - 3755))) by lia.
  - apply lookup_ge_None_2. lia.
Qed.

(** ** Two letters around a character *)
Definition demo_text : list gb_char := [Ascii 65; Hanzi 0xB0 0xA1; Ascii 66].
Definition demo_malloc (n : Z) : option (list Z) := Some (replicate (Z.to_nat n) 7).
Lemma demo_malloc_size n l : demo_malloc n = Some l -> length l = Z.to_nat n.
Proof. intros [= <-]. apply length_replicate. Qed.
Lemma demo_text_ok : Forall char_ok demo_text.
Proof. repeat constructor; done. Qed.

Lemma conv_utf8_converts_witness : exists junk, conv_utf8 demo_malloc (gb_text demo_text ++ [0]) = Val (Some (utf8_text demo_text ++ 0 :: junk)).
Proof. eexists. exact (conv_utf8_converts demo_malloc demo_text [] demo_text_ok demo_malloc_size). Defined.
Lemma gb2312_roundtrip_witness : exists junk, Utf8ToGb2312 demo_malloc (Some (utf8_text demo_text ++ [0])) = Val (Some (gb_text demo_text ++ 0 :: junk)).
Proof. eexists. exact (gb2312_roundtrip demo_malloc demo_text [] _ demo_text_ok demo_malloc_size eq_refl). Defined.
Example demo_utf8 : utf8_text demo_text = [65; 0xE5; 0x95; 0x8A; 66].
Proof. vm_compute. reflexivity. Qed.
(** One letter before a character: the zero does not fit. *)
Example demo_overflow : conv_utf8 demo_malloc (gb_text [Ascii 65; Hanzi 0xB0 0xA1] ++ [0]) = Err BadAccess.
Proof. vm_compute. reflexivity. Qed.
