(* ===== verification/Kfifo.v ===== *)
(** * Byte queues (include/fifo.h)

    A queue in a buffer whose size is a power of two: [in] and [out] count the
    bytes put and taken modulo 2^32, and their low bits are the positions.  A
    put and a get mask interrupts, and each is one step.  The allocator is
    outside the file: its state is the number of blocks allocated and not
    freed, [malloc_ok] says which allocation succeeds, and [junk] is what a new
    block holds. *)
From S2P Require Import Prelude.
Local Open Scope Z_scope.

Record KFIFO_T := Fifo { f_in : Z; f_out : Z; f_mask : Z; f_size : Z; f_buffer : list Z }.

Section alloc.
Context (malloc_ok : Z -> Z -> bool) (junk : Z -> list Z).

(** [os_malloc(size)], [os_free(p)] *)
Definition os_malloc (size : Z) : M Z bool :=
  live ← get; if malloc_ok live size then put (live + 1);; mret true else mret false.
Definition os_free : M Z unit := modify (fun live => live - 1).

(** [sizeof(struct kfifo)] *)
Definition sizeof_kfifo : Z := 20.

Definition kfifo_init (buffer : list Z) (size : Z) : M Z (option KFIFO_T) :=
  assert (negb (truthy (Z.land size (u32 (size - 1)))));;
  fifo ← os_malloc sizeof_kfifo;
  if negb fifo then mret None
  else mret (Some (Fifo 0 0 (u32 (size - 1)) size buffer)).

Definition kfifo_alloc (size : Z) : M Z (option KFIFO_T) :=
  buffer ← os_malloc size;
  if negb buffer then mret None
  else
    ret ← kfifo_init (junk size) size;
    match ret with
    | None => os_free;; mret None
    | Some fifo => mret (Some fifo)
    end.

Definition kfifo_free (fifo : KFIFO_T) : M Z unit := os_free;; os_free.
End alloc.

(** [os_memcpy(dst + off, src, n)] into an array *)
Definition memcpy_in (dst : list Z) (off : Z) (src : list Z) (from n : Z) : res (list Z) :=
  bs ← mem_read src from n; mem_write dst off bs.

Definition kfifo_put (fifo : KFIFO_T) (buffer : list Z) (len : Z) : res (Z * KFIFO_T) :=
  let len := Z.min len (u32 (u32 (f_size fifo - f_in fifo) + f_out fifo)) in
  let pos := Z.land (f_in fifo) (u32 (f_size fifo - 1)) in
  let l := Z.min len (u32 (f_size fifo - pos)) in
  b ← memcpy_in (f_buffer fifo) pos buffer 0 l;
  b ← memcpy_in b 0 buffer l (u32 (len - l));
  mret (len, Fifo (u32 (f_in fifo + len)) (f_out fifo) (f_mask fifo) (f_size fifo) b).

(** The count, the caller's buffer behind the call, and the queue. *)
Definition kfifo_get (fifo : KFIFO_T) (buffer : list Z) (len : Z) : res (Z * list Z * KFIFO_T) :=
  let len := Z.min len (u32 (f_in fifo - f_out fifo)) in
  let pos := Z.land (f_out fifo) (u32 (f_size fifo - 1)) in
  let l := Z.min len (u32 (f_size fifo - pos)) in
  buffer ← memcpy_in buffer 0 (f_buffer fifo) pos l;
  buffer ← memcpy_in buffer l (f_buffer fifo) 0 (u32 (len - l));
  mret (len, buffer, Fifo (f_in fifo) (u32 (f_out fifo + len)) (f_mask fifo) (f_size fifo) (f_buffer fifo)).

Definition kfifo_data_size (fifo : KFIFO_T) : Z := u32 (f_in fifo - f_out fifo).

Definition kfifo_unused (fifo : KFIFO_T) : Z := u32 (u32 (f_mask fifo + 1) - u32 (f_in fifo - f_out fifo)).

Definition kfifo_copy_out (fifo : KFIFO_T) (dst : list Z) (len off : Z) : res (list Z) :=
  let size := u32 (f_mask fifo + 1) in
  let off := Z.land off (f_mask fifo) in
  let l := Z.min len (u32 (size - off)) in
  dst ← memcpy_in dst 0 (f_buffer fifo) off l;
  memcpy_in dst l (f_buffer fifo) 0 (u32 (len - l)).

Definition kfifo_out_peek (fifo : KFIFO_T) (buffer : list Z) (len : Z) : res (Z * list Z) :=
  let l := u32 (f_in fifo - f_out fifo) in
  let len := if l <? len then l else len in
  buffer ← kfifo_copy_out fifo buffer len (f_out fifo);
  mret (len, buffer).

(** ** The queue that a buffer holds *)

(** [n] bytes of a ring from position [pos]. *)
Definition ring_bytes (b : list Z) (size pos : Z) (n : nat) : list Z :=
  map (fun i => default 0 (zlookup b ((pos + Z.of_nat i) mod size))) (seq 0 n).

Definition fifo_queue (fifo : KFIFO_T) : list Z :=
  ring_bytes (f_buffer fifo) (f_size fifo) (f_out fifo) (Z.to_nat (u32 (f_in fifo - f_out fifo))).

Record fifo_ok (fifo : KFIFO_T) : Prop := {
  fok_size : exists k, 0 <= k <= 31 /\ f_size fifo = 2 ^ k;
  fok_mask : f_mask fifo = f_size fifo - 1;
  fok_len : Z.of_nat (length (f_buffer fifo)) = f_size fifo;
  fok_in : is_u32 (f_in fifo);
  fok_out : is_u32 (f_out fifo);
  fok_fill : u32 (f_in fifo - f_out fifo) <= f_size fifo;
}.

(** ** Rings by position *)

Lemma ring_bytes_lookup b size pos n k : (k < n)%nat ->
  ring_bytes b size pos n !! k = Some (default 0 (zlookup b ((pos + Z.of_nat k) mod size))).
Proof. intros Hk. unfold ring_bytes. by rewrite list_lookup_fmap, lookup_seq_lt by done. Qed.

Lemma length_ring_bytes b size pos n : length (ring_bytes b size pos n) = n.
Proof. unfold ring_bytes. by rewrite length_map, length_seq. Qed.

(** Two rings agree when their bytes do. *)
Lemma ring_bytes_ext b b' size pos pos' n :
  (forall k, (k < n)%nat -> default 0 (zlookup b ((pos + Z.of_nat k) mod size)) =
    default 0 (zlookup b' ((pos' + Z.of_nat k) mod size))) ->
  ring_bytes b size pos n = ring_bytes b' size pos' n.
Proof.
  intros H. apply list_eq. intros k. destruct (decide (k < n)%nat) as [Hk|Hk].
  - by rewrite !ring_bytes_lookup, H by done.
  - by rewrite !lookup_ge_None_2 by (rewrite length_ring_bytes; lia).
Qed.

(** A list is a part of a ring when its bytes are. *)
Lemma ring_bytes_list b size pos l :
  (forall k x, l !! k = Some x -> zlookup b ((pos + Z.of_nat k) mod size) = Some x) ->
  ring_bytes b size pos (length l) = l.
Proof.
  intros H. apply list_eq. intros k. destruct (l !! k) as [x|] eqn:E.
  - rewrite ring_bytes_lookup by (by eapply lookup_lt_Some). by rewrite (H _ _ E).
  - apply lookup_ge_None_2. rewrite length_ring_bytes. by apply lookup_ge_None_1.
Qed.

Lemma ring_bytes_cong b size pos pos' n : pos mod size = pos' mod size ->
  ring_bytes b size pos n = ring_bytes b size pos' n.
Proof. intros H. apply ring_bytes_ext. intros k _. by rewrite <- Zplus_mod_idemp_l, H, Zplus_mod_idemp_l. Qed.

Lemma ring_bytes_app b size pos n m :
  ring_bytes b size pos (n + m) = ring_bytes b size pos n ++ ring_bytes b size (pos + Z.of_nat n) m.
Proof.
  apply list_eq. intros k. destruct (decide (k < n + m)%nat) as [Hk|Hk].
  - rewrite ring_bytes_lookup by done. destruct (decide (k < n)%nat).
    + by rewrite lookup_app_l, ring_bytes_lookup by (rewrite ?length_ring_bytes; done).
    + rewrite lookup_app_r, length_ring_bytes, ring_bytes_lookup by (rewrite ?length_ring_bytes; lia).
      do 4 f_equal. lia.
  - rewrite !lookup_ge_None_2; [done| |]; rewrite ?length_app, !length_ring_bytes; lia.
Qed.

Lemma take_ring_bytes b size pos n k : (k <= n)%nat -> take k (ring_bytes b size pos n) = ring_bytes b size pos k.
Proof.
  intros Hk. replace n with (k + (n - k))%nat by lia. rewrite ring_bytes_app.
  by rewrite take_app_length' by (symmetry; apply length_ring_bytes).
Qed.

Lemma drop_ring_bytes b size pos n k : (k <= n)%nat ->
  drop k (ring_bytes b size pos n) = ring_bytes b size (pos + Z.of_nat k) (n - k).
Proof.
  intros Hk. replace n with (k + (n - k))%nat at 1 by lia. rewrite ring_bytes_app.
  by rewrite drop_app_length' by (symmetry; apply length_ring_bytes).
Qed.

(** The position of byte [k] from position [pos], before and behind the end. *)
Lemma ring_index pos k size : 0 <= pos < size -> 0 <= k < size ->
  (pos + k) mod size = if pos + k <? size then pos + k else pos + k - size.
Proof.
  intros Hp Hk. destruct (Z.ltb_spec (pos + k) size); [by apply Z.mod_small; lia|].
  symmetry. apply (Zmod_unique_full _ _ 1); [left|]; lia.
Qed.

(** Part of the array, read in at most two pieces. *)
Lemma ring_two_pieces b size pos n : Z.of_nat (length b) = size -> 0 <= pos < size -> 0 <= n <= size ->
  let l := Z.min n (size - pos) in
  slice (Z.to_nat pos) (Z.to_nat l) b ++ slice 0 (Z.to_nat (n - l)) b = ring_bytes b size pos (Z.to_nat n).
Proof.
  intros Hb Hp Hn l. symmetry.
  assert (Hl1 : length (slice (Z.to_nat pos) (Z.to_nat l) b) = Z.to_nat l) by (apply length_slice; lia).
  assert (Hl2 : length (slice 0 (Z.to_nat (n - l)) b) = Z.to_nat (n - l)) by (apply length_slice; lia).
  replace (Z.to_nat n) with (length (slice (Z.to_nat pos) (Z.to_nat l) b ++ slice 0 (Z.to_nat (n - l)) b))
    by (rewrite length_app; lia).
  apply ring_bytes_list. intros k x Hx. pose proof (lookup_lt_Some _ _ _ Hx) as Hk. rewrite length_app in Hk.
  rewrite ring_index by lia. unfold zlookup. destruct (Z.ltb_spec (pos + Z.of_nat k) size).
  - rewrite lookup_app_l, slice_lookup in Hx by lia. rewrite (proj2 (Z.leb_le _ _)) by lia. rewrite <- Hx. f_equal. lia.
  - rewrite lookup_app_r, Hl1, slice_lookup in Hx by lia. rewrite (proj2 (Z.leb_le _ _)) by lia. rewrite <- Hx. f_equal. lia.
Qed.

(** A list stored in at most two pieces. *)
Definition ring_store (b : list Z) (size pos : Z) (bs : list Z) : list Z :=
  let l := Z.to_nat (Z.min (Z.of_nat (length bs)) (size - pos)) in
  splice 0 (drop l bs) (splice (Z.to_nat pos) (take l bs) b).

Section store.
Context (b bs : list Z) (size pos : Z).
Hypotheses (Hb : Z.of_nat (length b) = size) (Hp : 0 <= pos < size) (Hbs : Z.of_nat (length bs) <= size).

Lemma length_ring_store : length (ring_store b size pos bs) = length b.
Proof using All.
  unfold ring_store. rewrite !length_splice; rewrite ?length_splice, ?length_take, ?length_drop; try lia.
  all: rewrite length_take; lia.
Qed.

Lemma ring_store_lookup k : (Z.of_nat k < size) ->
  zlookup (ring_store b size pos bs) ((pos + Z.of_nat k) mod size) =
    if (k <? length bs)%nat then bs !! k else zlookup b ((pos + Z.of_nat k) mod size).
Proof using All.
  intros Hk. rewrite ring_index by lia. unfold ring_store. set (l := Z.to_nat _).
  assert (Ht : length (take l bs) = l) by (rewrite length_take; lia).
  assert (Hd : length (drop l bs) = (length bs - l)%nat) by (by rewrite length_drop).
  unfold zlookup. destruct (Z.ltb_spec (pos + Z.of_nat k) size).
  - rewrite (proj2 (Z.leb_le _ _)) by lia. rewrite splice_lookup_out by (rewrite ?length_splice; lia).
    destruct (Nat.ltb_spec k (length bs)).
    + rewrite splice_lookup_in by lia. rewrite lookup_take_lt by lia. f_equal. lia.
    + rewrite splice_lookup_out by lia. f_equal.
  - rewrite (proj2 (Z.leb_le _ _)) by lia. destruct (Nat.ltb_spec k (length bs)).
    + rewrite splice_lookup_in by (rewrite ?length_splice; lia). rewrite lookup_drop. f_equal. lia.
    + rewrite !splice_lookup_out by (rewrite ?length_splice; lia). f_equal.
Qed.

(** What was stored is there, behind what was before it. *)
Lemma ring_store_append n : Z.of_nat n + Z.of_nat (length bs) <= size ->
  ring_bytes (ring_store b size pos bs) size (pos - Z.of_nat n) (n + length bs) =
    ring_bytes b size (pos - Z.of_nat n) n ++ bs.
Proof using All.
  intros Hn. rewrite ring_bytes_app. f_equal.
  - apply ring_bytes_ext. intros k Hk. rewrite <- (Z.mod_add (pos - _ + _) 1) by lia.
    replace (pos - Z.of_nat n + Z.of_nat k + 1 * size) with (pos + Z.of_nat (Z.to_nat size - n + k)) by lia.
    rewrite ring_store_lookup by lia. by rewrite (proj2 (Nat.ltb_ge _ _)) by lia.
  - replace (pos - Z.of_nat n + Z.of_nat n) with pos by lia. apply ring_bytes_list. intros k x Hx.
    pose proof (lookup_lt_Some _ _ _ Hx). rewrite ring_store_lookup by lia. by rewrite (proj2 (Nat.ltb_lt _ _)).
Qed.
End store.

(** ** Each call on a well-formed queue *)

Lemma memcpy_in_val dst off src from n : 0 <= off -> 0 <= from -> 0 <= n ->
  off + n <= Z.of_nat (length dst) -> from + n <= Z.of_nat (length src) ->
  memcpy_in dst off src from n = Val (splice (Z.to_nat off) (slice (Z.to_nat from) (Z.to_nat n) src) dst).
Proof.
  intros. unfold memcpy_in. rewrite mem_read_val by lia. cbn [mbind res_bind].
  by rewrite mem_write_val by (rewrite ?length_slice; lia).
Qed.

Lemma slice_zero_take {A} n (l : list A) : slice 0 n l = take n l.
Proof. unfold slice. by rewrite drop_0. Qed.

Lemma pow2_u32 k : 0 <= k <= 31 -> exists c, 4294967296 = c * 2 ^ k /\ 0 < 2 ^ k <= 2147483648.
Proof.
  intros Hk. exists (2 ^ (32 - k)). split.
  - rewrite <- Z.pow_add_r by lia. by replace (32 - k + k) with 32 by lia.
  - split; [by apply Z.pow_pos_nonneg; lia|]. change 2147483648 with (2 ^ 31). apply Z.pow_le_mono_r; lia.
Qed.

Section ok.
Context (fifo : KFIFO_T).
Hypothesis Hok : fifo_ok fifo.

Lemma fifo_size_range : 0 < f_size fifo <= 2147483648.
Proof using All. destruct (fok_size _ Hok) as (k & Hk & ->). destruct (pow2_u32 k Hk) as (c & _ & ?). done. Qed.

(** Counting modulo 2^32 is counting modulo the size. *)
Lemma fifo_mod_u32 x : u32 x mod f_size fifo = x mod f_size fifo.
Proof using All.
  destruct (fok_size _ Hok) as (k & Hk & ->). destruct (pow2_u32 k Hk) as (c & Hc & Hr). unfold u32.
  rewrite Hc. apply Z.mod_mod_divide. by exists c.
Qed.

Lemma fifo_pos x : Z.land x (u32 (f_size fifo - 1)) = x mod f_size fifo.
Proof using All.
  pose proof fifo_size_range as Hr. rewrite u32_id by (unfold is_u32; lia).
  destruct (fok_size _ Hok) as (k & Hk & ->). replace (2 ^ k - 1) with (Z.ones k) by (rewrite Z.ones_equiv; lia).
  apply Z.land_ones. lia.
Qed.

Lemma fifo_pos_range x : 0 <= x mod f_size fifo < f_size fifo.
Proof using All. pose proof fifo_size_range. apply Z.mod_pos_bound. lia. Qed.

Definition fill : Z := u32 (f_in fifo - f_out fifo).

Lemma fill_range : 0 <= fill <= f_size fifo.
Proof using All. pose proof (fok_fill _ Hok). pose proof (u32_range (f_in fifo - f_out fifo)). unfold fill, is_u32 in *. lia. Qed.

Lemma length_fifo_queue : Z.of_nat (length (fifo_queue fifo)) = fill.
Proof using All. unfold fifo_queue. rewrite length_ring_bytes. fold fill. pose proof fill_range. lia. Qed.

Lemma fifo_room : u32 (u32 (f_size fifo - f_in fifo) + f_out fifo) = f_size fifo - fill.
Proof using All.
  pose proof fill_range as Hf. pose proof fifo_size_range as Hs. unfold fill in *.
  destruct (fok_in _ Hok), (fok_out _ Hok). clear Hok. zlia.
Qed.

(** [out] is [in] less the fill, as a position. *)
Lemma fifo_out_pos : (f_in fifo mod f_size fifo - fill) mod f_size fifo = f_out fifo mod f_size fifo.
Proof using All.
  rewrite Zminus_mod_idemp_l. unfold fill. rewrite <- Zminus_mod_idemp_r, fifo_mod_u32, Zminus_mod_idemp_r. f_equal. lia.
Qed.

Lemma kfifo_put_spec buffer len : is_u32 len -> len <= Z.of_nat (length buffer) ->
  let n := Z.min len (f_size fifo - Z.of_nat (length (fifo_queue fifo))) in
  exists fifo', kfifo_put fifo buffer len = Val (n, fifo') /\ fifo_ok fifo' /\ f_size fifo' = f_size fifo /\
    fifo_queue fifo' = fifo_queue fifo ++ take (Z.to_nat n) buffer.
Proof using All.
  intros Hlen Hbuf n. subst n. rewrite length_fifo_queue.
  pose proof fill_range as Hf. pose proof fifo_size_range as Hs. pose proof (fok_len _ Hok) as Hl.
  set (n := Z.min len (f_size fifo - fill)). pose proof (fifo_pos_range (f_in fifo)) as Hpos.
  unfold is_u32 in Hlen. assert (Hn : 0 <= n <= f_size fifo) by lia.
  exists (Fifo (u32 (f_in fifo + n)) (f_out fifo) (f_mask fifo) (f_size fifo)
    (ring_store (f_buffer fifo) (f_size fifo) (f_in fifo mod f_size fifo) (take (Z.to_nat n) buffer))).
  assert (Hfill : u32 (u32 (f_in fifo + n) - f_out fifo) = fill + n).
  { unfold fill in *. assert (n <= f_size fifo - u32 (f_in fifo - f_out fifo)) by lia. clear Hpos Hbuf. clearbody n. destruct (fok_in _ Hok), (fok_out _ Hok). clear Hok. zlia. }
  assert (Hb : length (take (Z.to_nat n) buffer) = Z.to_nat n) by (rewrite length_take; lia).
  split; [|split; [|split; [done|]]].
  - unfold kfifo_put. rewrite fifo_room, fifo_pos. fold n. set (pos := f_in fifo mod f_size fifo) in *.
    rewrite (u32_id (_ - pos)) by (unfold is_u32; lia). set (l := Z.min n (f_size fifo - pos)).
    rewrite (u32_id (n - l)) by (unfold is_u32; lia).
    rewrite memcpy_in_val by lia. cbn [mbind res_bind].
    rewrite memcpy_in_val by (rewrite ?length_splice; rewrite ?length_slice; lia). cbn [mbind res_bind].
    unfold ring_store. rewrite Hb. replace (Z.to_nat (Z.min _ _)) with (Z.to_nat l) by lia.
    change (Z.to_nat 0) with 0%nat. rewrite slice_zero_take. do 4 f_equal.
    + unfold slice. rewrite take_drop_commute. do 2 f_equal. lia.
    + rewrite take_take. do 2 f_equal. lia.
  - destruct Hok. split; cbn; try done; [|apply u32_range|rewrite Hfill; lia].
    rewrite length_ring_store by (rewrite ?Hb; lia). done.
  - unfold fifo_queue. cbn [f_buffer f_size f_out f_in]. fold fill. rewrite Hfill.
    rewrite <- !(ring_bytes_cong _ _ _ _ _ fifo_out_pos). rewrite <- (Z2Nat.id fill) at 1 3 by lia.
    rewrite <- (ring_store_append _ _ _ (f_in fifo mod f_size fifo)) by (rewrite ?Hb; lia). f_equal. rewrite Hb. lia.
Qed.

(** A copy out of the ring in two pieces. *)
Lemma ring_copy_out buffer x n : 0 <= n <= f_size fifo -> n <= Z.of_nat (length buffer) ->
  let pos := x mod f_size fifo in
  let l := Z.min n (u32 (f_size fifo - pos)) in
  (b ← memcpy_in buffer 0 (f_buffer fifo) pos l; memcpy_in b l (f_buffer fifo) 0 (u32 (n - l))) =
    Val (ring_bytes (f_buffer fifo) (f_size fifo) x (Z.to_nat n) ++ drop (Z.to_nat n) buffer).
Proof using All.
  intros Hn Hbuf pos l. pose proof fifo_size_range as Hs. pose proof (fok_len _ Hok) as Hl.
  pose proof (fifo_pos_range x) as Hpos. fold pos in Hpos. subst l. rewrite (u32_id (_ - pos)) by (unfold is_u32; lia).
  set (l := Z.min n _). rewrite (u32_id (n - l)) by (unfold is_u32; lia).
  rewrite memcpy_in_val by lia. cbn [mbind res_bind].
  rewrite memcpy_in_val by (rewrite ?length_splice; rewrite ?length_slice; lia). f_equal.
  rewrite (ring_bytes_cong _ _ _ pos) by (symmetry; subst pos; apply Z.mod_mod; lia).
  rewrite <- (ring_two_pieces _ _ pos n) by lia. fold l. change (Z.to_nat 0) with 0%nat.
  assert (H1 : length (slice (Z.to_nat pos) (Z.to_nat l) (f_buffer fifo)) = Z.to_nat l) by (rewrite length_slice; lia).
  assert (H2 : length (slice 0 (Z.to_nat (n - l)) (f_buffer fifo)) = Z.to_nat (n - l)) by (rewrite length_slice; lia).
  set (s1 := slice (Z.to_nat pos) _ _) in *. set (s2 := slice 0 _ _) in *. unfold splice.
  rewrite take_0. cbn [app Nat.add]. rewrite H1, H2. rewrite take_app_length' by lia. rewrite <- app_assoc. do 2 f_equal.
  rewrite drop_app, H1, skipn_all2 by lia. rewrite drop_drop. cbn [app]. f_equal. lia.
Qed.

Lemma kfifo_get_spec buffer len : is_u32 len -> len <= Z.of_nat (length buffer) ->
  let n := Z.min len (Z.of_nat (length (fifo_queue fifo))) in
  exists fifo', kfifo_get fifo buffer len =
      Val (n, take (Z.to_nat n) (fifo_queue fifo) ++ drop (Z.to_nat n) buffer, fifo') /\
    fifo_ok fifo' /\ f_size fifo' = f_size fifo /\ fifo_queue fifo' = drop (Z.to_nat n) (fifo_queue fifo).
Proof using All.
  intros Hlen Hbuf n. subst n. rewrite length_fifo_queue. pose proof fill_range as Hf.
  pose proof fifo_size_range as Hs. set (n := Z.min len fill). unfold is_u32 in Hlen. assert (Hn : 0 <= n <= fill) by lia.
  exists (Fifo (f_in fifo) (u32 (f_out fifo + n)) (f_mask fifo) (f_size fifo) (f_buffer fifo)).
  assert (Hfill : u32 (f_in fifo - u32 (f_out fifo + n)) = fill - n).
  { unfold fill in *. clear Hbuf. clearbody n. destruct (fok_in _ Hok), (fok_out _ Hok). clear Hok. zlia. }
  split; [|split; [|split; [done|]]].
  - unfold kfifo_get. rewrite fifo_pos. fold fill. fold n. pose proof (ring_copy_out buffer (f_out fifo) n ltac:(lia) ltac:(lia)) as Hc.
    cbv zeta in Hc. destruct (memcpy_in buffer 0 _ _ _) as [b|]; cbn [mbind res_bind] in *; [|done]. rewrite Hc.
    cbn [mbind res_bind]. unfold fifo_queue. fold fill. by rewrite take_ring_bytes by lia.
  - destruct Hok. split; cbn; try done; [apply u32_range|rewrite Hfill; lia].
  - unfold fifo_queue. cbn [f_buffer f_size f_out f_in]. fold fill. rewrite Hfill, drop_ring_bytes by lia.
    rewrite Z2Nat.id by lia. replace (Z.to_nat (fill - n)) with (Z.to_nat fill - Z.to_nat n)%nat by lia.
    apply ring_bytes_cong. apply fifo_mod_u32.
Qed.

Lemma kfifo_peek_spec buffer len : is_u32 len -> len <= Z.of_nat (length buffer) ->
  let n := Z.min len (Z.of_nat (length (fifo_queue fifo))) in
  kfifo_out_peek fifo buffer len = Val (n, take (Z.to_nat n) (fifo_queue fifo) ++ drop (Z.to_nat n) buffer).
Proof using All.
  intros Hlen Hbuf n. subst n. rewrite length_fifo_queue. pose proof fill_range as Hf.
  pose proof fifo_size_range as Hs. set (n := Z.min len fill). unfold is_u32 in Hlen. unfold kfifo_out_peek. fold fill.
  replace (if fill <? len then fill else len) with n by (subst n; bdestr; lia).
  unfold kfifo_copy_out. rewrite (fok_mask _ Hok). replace (f_size fifo - 1 + 1) with (f_size fifo) by lia.
  rewrite (u32_id (f_size fifo)) by (unfold is_u32; lia).
  replace (Z.land (f_out fifo) (f_size fifo - 1)) with (f_out fifo mod f_size fifo)
    by (by rewrite <- fifo_pos, u32_id by (unfold is_u32; lia)).
  pose proof (ring_copy_out buffer (f_out fifo) n ltac:(lia) ltac:(lia)) as Hc. cbv zeta in Hc. rewrite Hc.
  cbn [mbind res_bind]. unfold fifo_queue. fold fill. by rewrite take_ring_bytes by lia.
Qed.

Lemma kfifo_sizes : kfifo_data_size fifo = Z.of_nat (length (fifo_queue fifo)) /\
  kfifo_unused fifo = f_size fifo - Z.of_nat (length (fifo_queue fifo)).
Proof using All.
  rewrite length_fifo_queue. split; [done|]. unfold kfifo_unused. rewrite (fok_mask _ Hok). fold fill.
  pose proof fill_range. pose proof fifo_size_range. replace (f_size fifo - 1 + 1) with (f_size fifo) by lia.
  rewrite (u32_id (f_size fifo)) by (unfold is_u32; lia). apply u32_id. unfold is_u32. lia.
Qed.
End ok.

(** ** The queue as a contract *)

(** The calls of a client: [Put buffer len], [Get buffer len], [Peek buffer len]. *)
Inductive fifo_op :=
  | Put (buffer : list Z) (len : Z)
  | Get (buffer : list Z) (len : Z)
  | Peek (buffer : list Z) (len : Z)
  | DataSize
  | Unused.

(** The length of a call is a C number and its buffer is that long. *)
Definition fifo_op_ok (op : fifo_op) : Prop :=
  match op with
  | Put buffer len | Get buffer len | Peek buffer len => is_u32 len /\ len <= Z.of_nat (length buffer)
  | DataSize | Unused => True
  end.

(** What a call returns, the caller's buffer behind it, and the queue. *)
Definition fifo_step (fifo : KFIFO_T) (op : fifo_op) : res (Z * list Z * KFIFO_T) :=
  match op with
  | Put buffer len => '(n, fifo') ← kfifo_put fifo buffer len; mret (n, buffer, fifo')
  | Get buffer len => kfifo_get fifo buffer len
  | Peek buffer len => '(n, buffer') ← kfifo_out_peek fifo buffer len; mret (n, buffer', fifo)
  | DataSize => mret (kfifo_data_size fifo, [], fifo)
  | Unused => mret (kfifo_unused fifo, [], fifo)
  end.

Fixpoint fifo_run (fifo : KFIFO_T) (ops : list fifo_op) : res (list (Z * list Z) * KFIFO_T) :=
  match ops with
  | [] => mret ([], fifo)
  | op :: ops' =>
    '(n, bs, fifo') ← fifo_step fifo op; '(outs, fifo'') ← fifo_run fifo' ops'; mret ((n, bs) :: outs, fifo'')
  end.

(** The same calls on a list of at most [cap] bytes: what fits goes in, what
    there is comes out. *)
Definition bounded_step (cap : Z) (q : list Z) (op : fifo_op) : Z * list Z * list Z :=
  match op with
  | Put buffer len =>
    let n := Z.min len (cap - Z.of_nat (length q)) in (n, buffer, q ++ take (Z.to_nat n) buffer)
  | Get buffer len =>
    let n := Z.min len (Z.of_nat (length q)) in
    (n, take (Z.to_nat n) q ++ drop (Z.to_nat n) buffer, drop (Z.to_nat n) q)
  | Peek buffer len =>
    let n := Z.min len (Z.of_nat (length q)) in (n, take (Z.to_nat n) q ++ drop (Z.to_nat n) buffer, q)
  | DataSize => (Z.of_nat (length q), [], q)
  | Unused => (cap - Z.of_nat (length q), [], q)
  end.

Fixpoint bounded_run (cap : Z) (q : list Z) (ops : list fifo_op) : list (Z * list Z) * list Z :=
  match ops with
  | [] => ([], q)
  | op :: ops' =>
    let '(n, bs, q') := bounded_step cap q op in
    let '(outs, q'') := bounded_run cap q' ops' in ((n, bs) :: outs, q'')
  end.

Lemma fifo_step_refines fifo op : fifo_ok fifo -> fifo_op_ok op ->
  let '(n, bs, q) := bounded_step (f_size fifo) (fifo_queue fifo) op in
  exists fifo', fifo_step fifo op = Val (n, bs, fifo') /\ fifo_ok fifo' /\ f_size fifo' = f_size fifo /\ fifo_queue fifo' = q.
Proof.
  intros Hok Hop. destruct op as [buffer len|buffer len|buffer len| |]; cbn [bounded_step fifo_step fifo_op_ok] in *.
  - destruct Hop as [Hl Hb]. destruct (kfifo_put_spec fifo Hok buffer len Hl Hb) as (fifo' & -> & H). by exists fifo'.
  - destruct Hop as [Hl Hb]. destruct (kfifo_get_spec fifo Hok buffer len Hl Hb) as (fifo' & -> & H). by exists fifo'.
  - destruct Hop as [Hl Hb]. rewrite (kfifo_peek_spec fifo Hok buffer len Hl Hb). by exists fifo.
  - rewrite (proj1 (kfifo_sizes fifo Hok)). by exists fifo.
  - rewrite (proj2 (kfifo_sizes fifo Hok)). by exists fifo.
Qed.

Lemma fifo_run_refines ops fifo : fifo_ok fifo -> Forall fifo_op_ok ops ->
  let '(outs, q) := bounded_run (f_size fifo) (fifo_queue fifo) ops in
  exists fifo', fifo_run fifo ops = Val (outs, fifo') /\ fifo_ok fifo' /\ fifo_queue fifo' = q.
Proof.
  intros Hok Hops. revert fifo Hok. induction Hops as [|op ops Hop _ IH]; intros fifo Hok; cbn [bounded_run fifo_run].
  - by exists fifo.
  - pose proof (fifo_step_refines fifo op Hok Hop) as Hstep. destruct (bounded_step _ _ op) as [[n bs] q].
    destruct Hstep as (fifo1 & -> & Hok1 & Hs & <-). cbn [mbind res_bind]. specialize (IH fifo1 Hok1). rewrite Hs in IH.
    destruct (bounded_run _ _ ops) as [outs q']. destruct IH as (fifo2 & -> & Hok2 & Hq). by exists fifo2.
Qed.

(** ** Creation *)

Lemma fifo_init_ok buffer k : 0 <= k <= 31 -> Z.of_nat (length buffer) = 2 ^ k ->
  fifo_ok (Fifo 0 0 (u32 (2 ^ k - 1)) (2 ^ k) buffer).
Proof.
  intros Hk Hb. destruct (pow2_u32 k Hk) as (_ & _ & Hr). rewrite u32_id by (unfold is_u32; lia).
  split; cbn [f_in f_out f_mask f_size f_buffer]; try done; [by exists k|]. change (u32 (0 - 0)) with 0. lia.
Qed.

(** The test of [kfifo_init] lets powers of two and zero through. *)
Lemma power_of_two_test size : 0 < size < 2 ^ 32 ->
  Z.land size (u32 (size - 1)) = 0 <-> exists k, 0 <= k <= 31 /\ size = 2 ^ k.
Proof.
  intros Hs. rewrite u32_id by (unfold is_u32; lia). split.
  - intros Hand. exists (Z.log2 size). assert (Hlog : 0 <= Z.log2 size < 32).
    { split; [apply Z.log2_nonneg|]. apply Z.log2_lt_pow2; lia. }
    split; [lia|]. pose proof (Z.log2_spec size ltac:(lia)) as Hspec.
    destruct (Z.eq_dec size (2 ^ Z.log2 size)) as [|Hne]; [done|]. exfalso.
    assert (Hbit : Z.testbit (Z.land size (size - 1)) (Z.log2 size) = true).
    { rewrite Z.land_spec, Z.bit_log2 by lia. cbn [andb].
      replace (Z.log2 size) with (Z.log2 (size - 1)); [apply Z.bit_log2; lia|].
      apply Z.log2_unique; [lia|]. rewrite <- Z.add_1_r in *. lia. }
    by rewrite Hand, Z.bits_0 in Hbit.
  - intros (k & Hk & ->). replace (2 ^ k - 1) with (Z.ones k) by (rewrite Z.ones_equiv; lia).
    rewrite Z.land_ones by lia. apply Z.mod_same. apply Z.pow_nonzero; lia.
Qed.

Lemma kfifo_alloc_val malloc_ok junk k live : 0 <= k <= 31 ->
  malloc_ok live (2 ^ k) = true -> malloc_ok (live + 1) sizeof_kfifo = true ->
  kfifo_alloc malloc_ok junk (2 ^ k) live = Val (Some (Fifo 0 0 (u32 (2 ^ k - 1)) (2 ^ k) (junk (2 ^ k))), live + 1 + 1).
Proof.
  intros Hk H1 H2. destruct (pow2_u32 k Hk) as (_ & _ & Hr).
  unfold kfifo_alloc. mstep by (unfold os_malloc; mstep; rewrite H1; reflexivity). cbn [negb].
  assert (Hp : Z.land (2 ^ k) (u32 (2 ^ k - 1)) = 0) by (apply power_of_two_test; [lia|by exists k]).
  unfold kfifo_init. mstep by (mstep by (rewrite Hp; reflexivity);
    mstep by (unfold os_malloc; mstep; rewrite H2; reflexivity); reflexivity). reflexivity.
Qed.

(** C26: any calls on an allocated queue of 2^k bytes return what a list of
    at most 2^k bytes returns, partial puts and gets included and whatever the
    counters wrap to; and freeing it gives both blocks back. *)
Theorem kfifo_refines_queue malloc_ok junk k live ops : 0 <= k <= 31 ->
  Z.of_nat (length (junk (2 ^ k))) = 2 ^ k ->
  malloc_ok live (2 ^ k) = true -> malloc_ok (live + 1) sizeof_kfifo = true -> Forall fifo_op_ok ops ->
  exists fifo fifo', kfifo_alloc malloc_ok junk (2 ^ k) live = Val (Some fifo, live + 1 + 1) /\
    fifo_run fifo ops = Val (fst (bounded_run (2 ^ k) [] ops), fifo') /\
    fifo_ok fifo' /\ fifo_queue fifo' = snd (bounded_run (2 ^ k) [] ops) /\
    kfifo_free fifo' (live + 1 + 1) = Val (tt, live).
Proof.
  intros Hk Hj H1 H2 Hops. destruct (pow2_u32 k Hk) as (_ & _ & Hr).
  pose proof (fifo_init_ok (junk (2 ^ k)) k Hk Hj) as Hok.
  assert (Hempty : forall b s, fifo_queue (Fifo 0 0 (u32 (2 ^ k - 1)) s b) = []) by done.
  pose proof (fifo_run_refines ops _ Hok Hops) as Hrun. cbn [f_size] in Hrun. rewrite Hempty in Hrun.
  destruct (bounded_run (2 ^ k) [] ops) as [outs q]. destruct Hrun as (fifo' & Hrun & Hok' & Hq).
  eexists _, fifo'. split; [by apply kfifo_alloc_val|split; [exact Hrun|split_and!; [done|done|]]].
  unfold kfifo_free. mstep. unfold os_free, modify. do 2 f_equal. lia.
Qed.

(** What [kfifo_alloc] does when it gives no queue: nothing stays
    allocated when there is no memory; a size that is not a power of two is not
    rounded up but stops the system; and a size of zero gives a queue that
    takes nothing. *)
Theorem kfifo_alloc_errors malloc_ok junk size live : is_u32 size ->
  (malloc_ok live size = false -> kfifo_alloc malloc_ok junk size live = Val (None, live)) /\
  ((exists k, 0 <= k <= 31 /\ size = 2 ^ k) -> malloc_ok live size = true -> malloc_ok (live + 1) sizeof_kfifo = false ->
    kfifo_alloc malloc_ok junk size live = Val (None, live)) /\
  (0 < size -> ~ (exists k, 0 <= k <= 31 /\ size = 2 ^ k) -> malloc_ok live size = true ->
    kfifo_alloc malloc_ok junk size live = Err AssertFail) /\
  (size = 0 -> malloc_ok live size = true -> malloc_ok (live + 1) sizeof_kfifo = true ->
    exists fifo, kfifo_alloc malloc_ok junk size live = Val (Some fifo, live + 1 + 1) /\
      forall buffer len, is_u32 len -> kfifo_put fifo buffer len = Val (0, fifo)).
Proof.
  intros Hs. unfold is_u32 in Hs. unfold kfifo_alloc. split_and!.
  - intros H1. mstep by (unfold os_malloc; mstep; rewrite H1; reflexivity). reflexivity.
  - intros [k [Hk Hp]] H1 H2. mstep by (unfold os_malloc; mstep; rewrite H1; reflexivity). cbn [negb].
    assert (Hz : Z.land size (u32 (size - 1)) = 0).
    { apply power_of_two_test; [|by exists k]. destruct (pow2_u32 k Hk) as (_ & _ & ?). lia. }
    unfold kfifo_init. mstep by (mstep by (rewrite Hz; reflexivity);
      mstep by (unfold os_malloc; mstep; rewrite H2; reflexivity); reflexivity).
    mstep. unfold mret, M_ret. do 2 f_equal. lia.
  - intros H0 Hno H1. mstep by (unfold os_malloc; mstep; rewrite H1; reflexivity). cbn [negb].
    assert (Hz : Z.land size (u32 (size - 1)) <> 0) by (intros Hz; apply Hno, power_of_two_test; [lia|done]).
    apply bind_err. apply bind_err. unfold truthy. by rewrite (proj2 (Z.eqb_neq _ _)).
  - intros -> H1 H2. eexists. split.
    + mstep by (unfold os_malloc; mstep; rewrite H1; reflexivity). cbn [negb].
      unfold kfifo_init. mstep by (mstep by reflexivity; mstep by (unfold os_malloc; mstep; rewrite H2; reflexivity); reflexivity).
      reflexivity.
    + intros buffer len Hl. unfold is_u32 in Hl. unfold kfifo_put. cbn [f_in f_out f_size f_mask f_buffer].
      change (u32 (u32 (0 - 0) + 0)) with 0. replace (Z.min len 0) with 0 by lia.
      change (Z.land 0 (u32 (0 - 1))) with 0. change (Z.min 0 (u32 (0 - 0))) with 0. change (u32 (0 - 0)) with 0.
      assert (Hcopy : forall b, memcpy_in b 0 buffer 0 0 = Val b).
      { intros b. rewrite memcpy_in_val by lia. f_equal. }
      rewrite !Hcopy. cbn [mbind res_bind]. by rewrite Hcopy.
Qed.

(** ** Witnesses *)

Lemma kfifo_refines_queue_witness :
  let ops := [Put [1; 2; 3; 4; 5; 6] 6; Get [0; 0; 0; 0; 0] 5; Put [7; 8; 9] 3; Peek [0; 0; 0; 0; 0; 0; 0; 0; 0] 9; Unused] in
  exists fifo fifo', kfifo_alloc (fun _ _ => true) (fun n => replicate (Z.to_nat n) 255) 8 0 = Val (Some fifo, 2) /\
    fifo_run fifo ops =
      Val ([(6, [1; 2; 3; 4; 5; 6]); (5, [1; 2; 3; 4; 5]); (3, [7; 8; 9]); (4, [6; 7; 8; 9; 0; 0; 0; 0; 0]); (4, [])], fifo') /\
    fifo_ok fifo' /\ fifo_queue fifo' = [6; 7; 8; 9] /\ kfifo_free fifo' 2 = Val (tt, 0).
Proof.
  refine (kfifo_refines_queue (fun _ _ => true) (fun n => replicate (Z.to_nat n) 255) 3 0
    [Put [1; 2; 3; 4; 5; 6] 6; Get [0; 0; 0; 0; 0] 5; Put [7; 8; 9] 3; Peek [0; 0; 0; 0; 0; 0; 0; 0; 0] 9; Unused]
    _ eq_refl eq_refl eq_refl _); [lia|].
  repeat constructor; unfold is_u32; cbn; lia.
Defined.

Lemma kfifo_alloc_errors_witness : kfifo_alloc (fun _ _ => true) (fun n => []) 100 0 = Err AssertFail.
Proof.
  refine (proj1 (proj2 (proj2 (kfifo_alloc_errors (fun _ _ => true) (fun n => []) 100 0 _))) _ _ eq_refl);
    [unfold is_u32; lia|lia|].
  intros (k & Hk & He). apply (f_equal Z.log2) in He as He2. rewrite Z.log2_pow2 in He2 by lia. cbn in He2. subst k.
  discriminate He.
Defined.
