(* ===== verification/Icu.v ===== *)
(** * Interrupt and clock control (driver/icu/icu.c)

    [icu_ctrl] over the registers of the unit ([RegBus]), as built for the
    BK7231U: enabling and acknowledging interrupts, gating and selecting
    clocks.  A parameter is a pointer to a word: [None] is the null pointer.
    Each command masks interrupts and is one step. *)
From S2P Require Import Prelude DrvModel.
From stdpp Require Import strings.
Local Open Scope Z_scope.

Definition ICU_FAILURE : Z := 1.
Definition ICU_SUCCESS : Z := 0.
Definition ICU_DEV_NAME : string := "icu".

Definition ICU_CMD_MAGIC : Z := 0xe220000.
Definition CMD_ICU_CLKGATING_DISABLE : Z := ICU_CMD_MAGIC + 1.
Definition CMD_ICU_CLKGATING_ENABLE : Z := ICU_CMD_MAGIC + 2.
Definition CMD_ICU_INT_DISABLE : Z := ICU_CMD_MAGIC + 3.
Definition CMD_ICU_INT_ENABLE : Z := ICU_CMD_MAGIC + 4.
Definition CMD_ICU_GLOBAL_INT_DISABLE : Z := ICU_CMD_MAGIC + 5.
Definition CMD_ICU_GLOBAL_INT_ENABLE : Z := ICU_CMD_MAGIC + 6.
Definition CMD_GET_INTR_STATUS : Z := ICU_CMD_MAGIC + 7.
Definition CMD_CLR_INTR_STATUS : Z := ICU_CMD_MAGIC + 8.
Definition CMD_GET_INTR_RAW_STATUS : Z := ICU_CMD_MAGIC + 9.
Definition CMD_CLR_INTR_RAW_STATUS : Z := ICU_CMD_MAGIC + 10.
Definition CMD_CLK_PWR_DOWN : Z := ICU_CMD_MAGIC + 11.
Definition CMD_CLK_PWR_UP : Z := ICU_CMD_MAGIC + 12.
Definition CMD_CONF_PWM_PCLK : Z := ICU_CMD_MAGIC + 13.
Definition CMD_CONF_PWM_LPOCLK : Z := ICU_CMD_MAGIC + 14.
Definition CMD_TL410_CLK_PWR_DOWN : Z := ICU_CMD_MAGIC + 15.
Definition CMD_TL410_CLK_PWR_UP : Z := ICU_CMD_MAGIC + 16.
Definition CMD_CONF_PCLK_26M : Z := ICU_CMD_MAGIC + 17.
Definition CMD_CONF_PCLK_DCO : Z := ICU_CMD_MAGIC + 18.
Definition CMD_SET_JTAG_MODE : Z := ICU_CMD_MAGIC + 19.
Definition CMD_GET_JTAG_MODE : Z := ICU_CMD_MAGIC + 20.
Definition CMD_ARM_WAKEUP : Z := ICU_CMD_MAGIC + 21.
Definition CMD_QSPI_CLK_SEL : Z := ICU_CMD_MAGIC + 22.

Definition ICU_BASE : Z := 0x00802000.
Definition ICU_PERI_CLK_MUX : Z := ICU_BASE + 0 * 4.
Definition ICU_PWM_CLK_MUX : Z := ICU_BASE + 1 * 4.
Definition ICU_PERI_CLK_PWD : Z := ICU_BASE + 2 * 4.
Definition ICU_PERI_CLK_GATING : Z := ICU_BASE + 3 * 4.
Definition ICU_TL410_CLK_PWD : Z := ICU_BASE + 4 * 4.
Definition ICU_JTAG_SELECT : Z := ICU_BASE + 6 * 4.
Definition JTAG_SEL_WR_ARM : Z := 0x7111E968.
Definition JTAG_SEL_WR_TL4 : Z := 0x7111E410.
Definition ICU_INTERRUPT_ENABLE : Z := ICU_BASE + 16 * 4.
Definition ICU_GLOBAL_INT_EN : Z := ICU_BASE + 17 * 4.
Definition ICU_INT_RAW_STATUS : Z := ICU_BASE + 18 * 4.
Definition ICU_INT_STATUS : Z := ICU_BASE + 19 * 4.
Definition ICU_ARM_WAKEUP_EN : Z := ICU_BASE + 20 * 4.

Definition PCLK_POSI_UART1 : Z := Z.shiftl 1 0.
Definition PCLK_POSI_UART2 : Z := Z.shiftl 1 1.
Definition PCLK_POSI_I2C1 : Z := Z.shiftl 1 2.
Definition PCLK_POSI_I2C2 : Z := Z.shiftl 1 4.
Definition PCLK_POSI_PWMS : Z := Z.shiftl 1 7.
Definition PCLK_POSI_SDIO : Z := Z.shiftl 1 8.
Definition JTAG_ARM_MODE : Z := 0.
Definition JTAG_TL410_MODE : Z := 1.

Section icu.
Context {hw : Type} `{RegBus hw}.

Definition REG_READ (a : Z) : M hw Z := fun h => Val (bus_read a h).
Definition REG_WRITE (a v : Z) : M hw unit := modify (bus_write a v).

(** [*(UINT32 * )param] *)
Definition deref (param : option Z) : M hw Z := lift_res (of_option BadAccess param).

(** [reg = REG_READ(r); reg |= f(param); REG_WRITE(r, reg);] and its inverse. *)
Definition or_bits (r : Z) (f : Z -> Z) (param : option Z) : M hw Z :=
  reg ← REG_READ r; p ← deref param; REG_WRITE r (Z.lor reg (f p));; mret ICU_SUCCESS.
Definition clr_bits (r : Z) (f : Z -> Z) (param : option Z) : M hw Z :=
  reg ← REG_READ r; p ← deref param; REG_WRITE r (Z.ldiff reg (f p));; mret ICU_SUCCESS.
(** [1 << param] *)
Definition bit_of (p : Z) : Z := u32 (Z.shiftl 1 p).

(** [ASSERT(param); reg = REG_READ(r); REG_WRITE(r, reg | param);] *)
Definition clr_status (r : Z) (param : option Z) : M hw Z :=
  assert (bool_decide (is_Some param));;
  reg ← REG_READ r; p ← deref param; REG_WRITE r (Z.lor reg p);; mret ICU_SUCCESS.

Definition icu_ctrl (cmd : Z) (param : option Z) : M hw Z :=
  if cmd =? CMD_CONF_PCLK_26M then or_bits ICU_PERI_CLK_MUX id param
  else if cmd =? CMD_CONF_PWM_LPOCLK then or_bits ICU_PWM_CLK_MUX bit_of param
  else if cmd =? CMD_CONF_PCLK_DCO then clr_bits ICU_PERI_CLK_MUX id param
  else if cmd =? CMD_CONF_PWM_PCLK then clr_bits ICU_PWM_CLK_MUX bit_of param
  else if cmd =? CMD_CLK_PWR_UP then clr_bits ICU_PERI_CLK_PWD id param
  else if cmd =? CMD_CLK_PWR_DOWN then or_bits ICU_PERI_CLK_PWD id param
  else if cmd =? CMD_TL410_CLK_PWR_UP then clr_bits ICU_TL410_CLK_PWD id param
  else if cmd =? CMD_TL410_CLK_PWR_DOWN then or_bits ICU_TL410_CLK_PWD id param
  else if cmd =? CMD_ICU_CLKGATING_DISABLE then or_bits ICU_PERI_CLK_GATING id param
  else if cmd =? CMD_ICU_CLKGATING_ENABLE then clr_bits ICU_PERI_CLK_GATING id param
  else if cmd =? CMD_ICU_INT_DISABLE then clr_bits ICU_INTERRUPT_ENABLE id param
  else if cmd =? CMD_ICU_INT_ENABLE then or_bits ICU_INTERRUPT_ENABLE id param
  else if cmd =? CMD_ICU_GLOBAL_INT_DISABLE then clr_bits ICU_GLOBAL_INT_EN id param
  else if cmd =? CMD_ICU_GLOBAL_INT_ENABLE then or_bits ICU_GLOBAL_INT_EN id param
  else if cmd =? CMD_GET_INTR_STATUS then REG_READ ICU_INT_STATUS
  else if cmd =? CMD_CLR_INTR_STATUS then clr_status ICU_INT_STATUS param
  else if cmd =? CMD_GET_INTR_RAW_STATUS then REG_READ ICU_INT_RAW_STATUS
  else if cmd =? CMD_CLR_INTR_RAW_STATUS then clr_status ICU_INT_RAW_STATUS param
  else if cmd =? CMD_SET_JTAG_MODE then
    assert (bool_decide (is_Some param));;
    p ← deref param;
    (if JTAG_ARM_MODE =? p then REG_WRITE ICU_JTAG_SELECT JTAG_SEL_WR_ARM
     else when (JTAG_TL410_MODE =? p) (REG_WRITE ICU_JTAG_SELECT JTAG_SEL_WR_TL4));;
    mret ICU_SUCCESS
  else if cmd =? CMD_GET_JTAG_MODE then REG_READ ICU_JTAG_SELECT
  else if cmd =? CMD_ARM_WAKEUP then
    reg ← deref param; REG_WRITE ICU_ARM_WAKEUP_EN reg;; mret ICU_SUCCESS
  else if cmd =? CMD_QSPI_CLK_SEL then
    reg ← REG_READ ICU_PERI_CLK_MUX; p ← deref param;
    REG_WRITE ICU_PERI_CLK_MUX (Z.lor (Z.ldiff reg (Z.shiftl 3 16)) p);; mret ICU_SUCCESS
  else mret ICU_SUCCESS.

(** [op_addr]: the address of [icu_op]. *)
Definition icu_op : SDD_OPERATIONS hw := {| sop_control := Some (fun cmd param => r ← icu_ctrl cmd (Some param); mret (r, param)) |}.

Definition icu_init (op_addr : Z) : M (drv_state hw) unit :=
  _ ← sddev_register_dev (Some ICU_DEV_NAME) (Some op_addr);
  _ ← call (icu_ctrl CMD_CONF_PCLK_26M (Some (Z.lor (Z.lor (Z.lor (Z.lor (Z.lor
    PCLK_POSI_UART1 PCLK_POSI_UART2) PCLK_POSI_PWMS) PCLK_POSI_SDIO) PCLK_POSI_I2C1) PCLK_POSI_I2C2)));
  mret tt.

Definition icu_exit : M (drv_state hw) unit := _ ← sddev_unregister_dev (Some ICU_DEV_NAME); mret tt.
End icu.

(** ** What the registers are

    A register file at its own addresses, which accesses to other addresses
    leave alone, in which a status register loses the bits written to it as one
    (what CMD_CLR_INTR_STATUS relies on); the JTAG selector reads differently
    from what is written. *)
Definition in_icu (a : Z) : bool := (ICU_BASE <=? a) && (a <=? ICU_ARM_WAKEUP_EN).
Definition is_status (a : Z) : bool := (a =? ICU_INT_STATUS) || (a =? ICU_INT_RAW_STATUS).

Class IcuRegs (hw : Type) `{RegBus hw} := {
  ireg : hw -> Z -> Z;
  ireg_read h a : in_icu a = true -> bus_read a h = (ireg h a, h);
  ireg_read_other h a b : in_icu a = false -> ireg (bus_read a h).2 b = ireg h b;
  ireg_write_other h a v b : in_icu a = false -> ireg (bus_write a v h) b = ireg h b;
  ireg_write h a v b : in_icu a = true -> a <> ICU_JTAG_SELECT -> ireg (bus_write a v h) b =
    if b =? a then (if is_status a then Z.ldiff (ireg h a) v else v) else ireg h b;
}.

Lemma reg_read_touches {hw} `{RegBus hw} P a : P a = true -> touches (id : hw -> hw) P (REG_READ a).
Proof. apply touches_bus_read. Qed.
Lemma reg_write_touches {hw} `{RegBus hw} P a v : P a = true -> touches (id : hw -> hw) P (REG_WRITE a v).
Proof. apply touches_bus_write. Qed.
#[export] Hint Resolve reg_read_touches reg_write_touches : touch.

(** A command accesses the unit only. *)
Lemma icu_touches {hw} `{RegBus hw} cmd param : touches (id : hw -> hw) in_icu (icu_ctrl cmd param).
Proof. unfold icu_ctrl, or_bits, clr_bits, clr_status, deref. touch. Qed.

(** A command that sets the bits of its parameter, the one that clears them, the register. *)
Definition icu_pairs : list (Z * Z * Z) :=
  [(CMD_CONF_PCLK_26M, CMD_CONF_PCLK_DCO, ICU_PERI_CLK_MUX);
   (CMD_CLK_PWR_DOWN, CMD_CLK_PWR_UP, ICU_PERI_CLK_PWD);
   (CMD_TL410_CLK_PWR_DOWN, CMD_TL410_CLK_PWR_UP, ICU_TL410_CLK_PWD);
   (CMD_ICU_CLKGATING_DISABLE, CMD_ICU_CLKGATING_ENABLE, ICU_PERI_CLK_GATING);
   (CMD_ICU_INT_ENABLE, CMD_ICU_INT_DISABLE, ICU_INTERRUPT_ENABLE);
   (CMD_ICU_GLOBAL_INT_ENABLE, CMD_ICU_GLOBAL_INT_DISABLE, ICU_GLOBAL_INT_EN)].

Section icu_facts.
Context {hw : Type} `{IcuRegs hw}.
Implicit Types h : hw.

Lemma or_bits_val r f p h : in_icu r = true -> r <> ICU_JTAG_SELECT -> is_status r = false ->
  exists h', or_bits r f (Some p) h = Val (ICU_SUCCESS, h') /\
    forall b, ireg h' b = if b =? r then Z.lor (ireg h r) (f p) else ireg h b.
Proof.
  intros Hi Hr Hs. exists (bus_write r (Z.lor (ireg h r) (f p)) h). split.
  - unfold or_bits. mstep by (unfold REG_READ; by rewrite ireg_read by done). do 2 mstep. reflexivity.
  - intros b. by rewrite ireg_write, Hs by done.
Qed.

Lemma clr_bits_val r f p h : in_icu r = true -> r <> ICU_JTAG_SELECT -> is_status r = false ->
  exists h', clr_bits r f (Some p) h = Val (ICU_SUCCESS, h') /\
    forall b, ireg h' b = if b =? r then Z.ldiff (ireg h r) (f p) else ireg h b.
Proof.
  intros Hi Hr Hs. exists (bus_write r (Z.ldiff (ireg h r) (f p)) h). split.
  - unfold clr_bits. mstep by (unfold REG_READ; by rewrite ireg_read by done). do 2 mstep. reflexivity.
  - intros b. by rewrite ireg_write, Hs by done.
Qed.

Lemma clr_status_val r p h : in_icu r = true -> r <> ICU_JTAG_SELECT -> is_status r = true ->
  exists h', clr_status r (Some p) h = Val (ICU_SUCCESS, h') /\
    forall b, ireg h' b = if b =? r then Z.ldiff (ireg h r) (Z.lor (ireg h r) p) else ireg h b.
Proof.
  intros Hi Hr Hs. exists (bus_write r (Z.lor (ireg h r) p) h). split.
  - unfold clr_status. mstep. mstep by (unfold REG_READ; by rewrite ireg_read by done). do 2 mstep. reflexivity.
  - intros b. by rewrite ireg_write, Hs by done.
Qed.

Lemma icu_pair_step on off r p h : (on, off, r) ∈ icu_pairs ->
  (exists h', icu_ctrl on (Some p) h = Val (ICU_SUCCESS, h') /\
    forall b, ireg h' b = if b =? r then Z.lor (ireg h r) p else ireg h b) /\
  (exists h', icu_ctrl off (Some p) h = Val (ICU_SUCCESS, h') /\
    forall b, ireg h' b = if b =? r then Z.ldiff (ireg h r) p else ireg h b).
Proof.
  intros Hin. unfold icu_pairs in Hin.
  repeat (apply elem_of_cons in Hin as [[= -> -> ->]|Hin];
    [split; [by apply (or_bits_val _ id p h)|by apply (clr_bits_val _ id p h)]|]).
  by apply not_elem_of_nil in Hin.
Qed.

Lemma ldiff_lor_self a b : Z.ldiff (Z.lor a b) b = Z.ldiff a b.
Proof. bits. by destruct (Z.testbit a i), (Z.testbit b i). Qed.

Lemma ldiff_lor_all a b : Z.ldiff a (Z.lor a b) = 0.
Proof. bits. rewrite Z.bits_0. by destruct (Z.testbit a i), (Z.testbit b i). Qed.

(** Each pair of commands that switches clocks, gates and interrupts
    sets and clears exactly the bits it is given, in its register and in no
    other, and switching on and off again leaves those bits clear and the
    others as they were. *)
Theorem icu_on_off on off r p h : (on, off, r) ∈ icu_pairs ->
  exists h1 h2, icu_ctrl on (Some p) h = Val (ICU_SUCCESS, h1) /\ icu_ctrl off (Some p) h1 = Val (ICU_SUCCESS, h2) /\
    ireg h1 r = Z.lor (ireg h r) p /\ ireg h2 r = Z.ldiff (ireg h r) p /\
    forall b, b <> r -> ireg h1 b = ireg h b /\ ireg h2 b = ireg h b.
Proof.
  intros Hin. destruct (proj1 (icu_pair_step on off r p h Hin)) as (h1 & E1 & H1).
  destruct (proj2 (icu_pair_step on off r p h1 Hin)) as (h2 & E2 & H2). exists h1, h2.
  assert (Hr : ireg h1 r = Z.lor (ireg h r) p) by (by rewrite H1, Z.eqb_refl).
  split_and!; [done|done|done| |].
  - rewrite H2, Z.eqb_refl, Hr. apply ldiff_lor_self.
  - intros b Hb. by rewrite H2, H1, (proj2 (Z.eqb_neq _ _)).
Qed.

Lemma clr_intr_val p h : exists h', icu_ctrl CMD_CLR_INTR_STATUS (Some p) h = Val (ICU_SUCCESS, h') /\
  forall b, ireg h' b = if b =? ICU_INT_STATUS then 0 else ireg h b.
Proof.
  destruct (clr_status_val ICU_INT_STATUS p h) as (h' & E & Hb); [done..|]. exists h'. split; [exact E|].
  intros b. rewrite Hb. destruct (b =? ICU_INT_STATUS); [apply ldiff_lor_all|done].
Qed.
End icu_facts.

(** ** A unit, and a witness *)

(** Registers, and the routines that were run. *)
Record icu_file := IcuFile { i_regs : Z -> Z; i_log : list Z }.

#[export] Instance icu_file_bus : RegBus icu_file := {|
  bus_read := fun a h => (i_regs h a, h);
  bus_write := fun a v h => if in_icu a
    then IcuFile (fun b => if b =? a then (if is_status a then Z.ldiff (i_regs h a) v else v) else i_regs h b) (i_log h) else h;
|}.
#[export, refine] Instance icu_file_regs : IcuRegs icu_file := {| ireg := i_regs |}.
Proof.
  - done.
  - done.
  - intros h a v b Ha. cbn. by rewrite Ha.
  - intros h a v b Ha _. cbn. by rewrite Ha.
Defined.

(** Interrupts 0, 7 and 20 are pending. *)
Definition demo_icu : icu_file := IcuFile (fun a => if a =? ICU_INT_STATUS then 0x100081 else 0x5) [].

Lemma icu_on_off_witness :
  exists h1 h2, icu_ctrl CMD_CLK_PWR_DOWN (Some 3) demo_icu = Val (ICU_SUCCESS, h1) /\
    icu_ctrl CMD_CLK_PWR_UP (Some 3) h1 = Val (ICU_SUCCESS, h2) /\
    ireg h1 ICU_PERI_CLK_PWD = 7 /\ ireg h2 ICU_PERI_CLK_PWD = 4 /\
    forall b, b <> ICU_PERI_CLK_PWD -> ireg h1 b = ireg demo_icu b /\ ireg h2 b = ireg demo_icu b.
Proof. refine (icu_on_off CMD_CLK_PWR_DOWN CMD_CLK_PWR_UP ICU_PERI_CLK_PWD 3 demo_icu _). by apply (list_elem_of_lookup_2 _ 1). Defined.
