(* ===== verification/Regs.v ===== *)
(** * Blocks of registers

    A block of registers of one unit, with the bits that the unit controls and
    those of them that software clears by writing one; what a client of such a
    block relies on ([BlockRegs]), and runs of the calls of a driver as relations
    between the parts of the registers that software controls. *)
From S2P Require Import Prelude DrvModel Icu.
Local Open Scope Z_scope.

(** [b_hard]: the bits of a register that keep nothing software writes;
    [b_ack]: those of them that are pending until written as one. *)
Record block := Block { b_in : Z -> bool; b_hard : Z -> Z; b_ack : Z -> Z }.

Definition soft_of (B : block) (g : Z -> Z) (a : Z) : Z := Z.ldiff (g a) (b_hard B a).

(** Reading does not change the block, and accesses elsewhere leave what
    software controls alone; no access clears a pending bit it does not write. *)
Class BlockRegs (B : block) (hw : Type) `{RegBus hw} := {
  breg : hw -> Z -> Z;
  breg_u32 h a : is_u32 (breg h a);
  breg_read h a : b_in B a = true -> bus_read a h = (breg h a, h);
  breg_read_other h a b : b_in B a = false -> soft_of B (breg (bus_read a h).2) b = soft_of B (breg h) b;
  breg_write h a v b : b_in B a = true -> is_u32 v ->
    soft_of B (breg (bus_write a v h)) b = if b =? a then Z.ldiff v (b_hard B a) else soft_of B (breg h) b;
  breg_write_other h a v b : b_in B a = false -> soft_of B (breg (bus_write a v h)) b = soft_of B (breg h) b;
  breg_ack h a v i : b_in B a = true -> Z.testbit (b_ack B a) i = true ->
    Z.testbit (breg (bus_write a v h) a) i = Z.testbit (breg h a) i && negb (Z.testbit v i);
  breg_read_pending h a b i : Z.testbit (b_ack B b) i = true -> Z.testbit (breg h b) i = true ->
    Z.testbit (breg (bus_read a h).2 b) i = true;
  breg_pending h a v b i : b <> a -> Z.testbit (b_ack B b) i = true -> Z.testbit (breg h b) i = true ->
    Z.testbit (breg (bus_write a v h) b) i = true;
}.

Definition assigns (a : Z) (k : Z -> Z) (g g' : Z -> Z) : Prop := forall b, g' b = if b =? a then k (g a) else g b.
Definition same (g g' : Z -> Z) : Prop := forall b, g' b = g b.

Section runs.
Context {B : block} {hw : Type} `{BlockRegs B hw}.
Implicit Types h : hw.

(** What software controls, as a function of the address. *)
Definition soft h : Z -> Z := soft_of B (breg h).

(** [m] returns from every state, and [R] relates what software controls before and after. *)
Definition runs (m : M hw unit) (R : (Z -> Z) -> (Z -> Z) -> Prop) : Prop :=
  forall h, exists h', m h = Val (tt, h') /\ R (soft h) (soft h').

Lemma soft_other h a v b : b_in B a = false -> soft (bus_write a v h) b = soft h b.
Proof. apply breg_write_other. Qed.

Lemma runs_ret : runs (mret tt) same.
Proof. intros h. by exists h. Qed.

Lemma runs_mono m (R R' : (Z -> Z) -> (Z -> Z) -> Prop) : runs m R -> (forall g g', R g g' -> R' g g') -> runs m R'.
Proof. intros Hm HR h. destruct (Hm h) as (h' & E & Hr). exists h'. auto. Qed.

Lemma runs_seq m1 m2 (R1 R2 R : (Z -> Z) -> (Z -> Z) -> Prop) : runs m1 R1 -> runs m2 R2 ->
  (forall g g1 g2, R1 g g1 -> R2 g1 g2 -> R g g2) -> runs (m1;; m2) R.
Proof.
  intros H1 H2 HR h. destruct (H1 h) as (h1 & E1 & Q1), (H2 h1) as (h2 & E2 & Q2). exists h2.
  split; [by rewrite (bind_ret_val _ _ _ _ _ E1)|by eapply HR].
Qed.

Lemma runs_write a v : b_in B a = true -> is_u32 v -> runs (REG_WRITE a v) (assigns a (fun _ => Z.ldiff v (b_hard B a))).
Proof. intros Ha Hv h. exists (bus_write a v h). split; [done|]. intros b. by apply breg_write. Qed.

(** A read, then a write of what was read and changed by [k]; software sees [k']. *)
Lemma runs_rmw a (k k' : Z -> Z) : b_in B a = true -> (forall x, is_u32 x -> is_u32 (k x)) ->
  (forall x, Z.ldiff (k x) (b_hard B a) = k' (Z.ldiff x (b_hard B a))) -> runs (r ← REG_READ a; REG_WRITE a (k r)) (assigns a k').
Proof.
  intros Ha Hu Hk h. exists (bus_write a (k (breg h a)) h). split.
  - by mstep by (unfold REG_READ; by rewrite breg_read).
  - intros b. unfold soft at 1. rewrite breg_write by (done || apply Hu, breg_u32). by rewrite Hk.
Qed.

Lemma runs_when (b : bool) m R : (b = true -> runs m R) -> (b = false -> forall g g', same g g' -> R g g') -> runs (when b m) R.
Proof. destruct b; intros Ht Hf; [by apply Ht|]. eapply runs_mono; [apply runs_ret|by apply Hf]. Qed.
End runs.

Arguments soft B {hw _ _} h _ : assert.
Arguments runs B {hw _ _} m R : assert.

(** ** Words made of masks *)
Lemma disjoint_bit a b i : Z.land a b = 0 -> Z.testbit a i && Z.testbit b i = false.
Proof. intros E. by rewrite <- Z.land_spec, E, Z.bits_0. Qed.
Lemma subset_bit a b i : Z.ldiff a b = 0 -> Z.testbit a i && negb (Z.testbit b i) = false.
Proof. intros E. by rewrite <- Z.ldiff_spec, E, Z.bits_0. Qed.

(** Bits of words made of masks with known relations: [E] relates two of them. *)
Ltac word_bits :=
  bits; repeat match goal with
    | E : Z.land ?a ?b = 0 |- context [Z.testbit _ ?i] => apply (disjoint_bit a b i) in E
    | E : Z.ldiff ?a ?b = 0 |- context [Z.testbit _ ?i] => apply (subset_bit a b i) in E
    end;
  repeat match goal with |- context [Z.testbit ?a ?i] => destruct (Z.testbit a i) end; cbn in *; done.

(** ** A block of registers on a bus

    A register file that behaves as a block, beside what else is on the bus. *)
Class BlockOk (B : block) : Prop := {
  block_hard_u32 a : is_u32 (b_hard B a);
  block_ack_hard a i : Z.testbit (b_ack B a) i = true -> Z.testbit (b_hard B a) i = true;
}.
Class Apart (P Q : Z -> bool) : Prop := apart a : P a = true -> Q a = false.

(** What a register holds after [v] is written over [old]. *)
Definition written (B : block) (a old v : Z) : Z :=
  Z.lor (Z.ldiff (u32 v) (b_hard B a)) (Z.ldiff (Z.land old (b_hard B a)) (Z.land (b_ack B a) v)).

Section written_facts.
Context {B : block} `{!BlockOk B}.

Lemma written_u32 a old v : is_u32 old -> is_u32 (written B a old v).
Proof. intros Ho. apply lor_u32; apply ldiff_u32; [apply u32_range|by apply land_u32]. Qed.

Lemma written_soft a old v : is_u32 v -> Z.ldiff (written B a old v) (b_hard B a) = Z.ldiff v (b_hard B a).
Proof.
  intros Hv. unfold written. rewrite u32_id by done. bits.
  by destruct (Z.testbit v i), (Z.testbit (b_hard B a) i), (Z.testbit old i), (Z.testbit (b_ack B a) i).
Qed.

Lemma written_ack a old v i : Z.testbit (b_ack B a) i = true ->
  Z.testbit (written B a old v) i = Z.testbit old i && negb (Z.testbit v i).
Proof.
  intros Hi. unfold written. rewrite Z.lor_spec, !Z.ldiff_spec, !Z.land_spec, Hi, (block_ack_hard a i Hi), andb_false_r. cbn.
  by rewrite andb_true_r.
Qed.
End written_facts.

Record with_file (B : block) (rest : Type) := WithFile { wf_regs : Z -> Z; wf_rest : rest }.
Arguments WithFile B {rest}. Arguments wf_regs {B rest}. Arguments wf_rest {B rest}.

#[export] Instance with_file_bus B `{RegBus rest} : RegBus (with_file B rest) := {|
  bus_read a h := if b_in B a then (u32 (wf_regs h a), h)
    else (fst (bus_read a (wf_rest h)), WithFile B (wf_regs h) (snd (bus_read a (wf_rest h))));
  bus_write a v h := if b_in B a
    then WithFile B (fun b => if b =? a then written B a (u32 (wf_regs h a)) v else wf_regs h b) (wf_rest h)
    else WithFile B (wf_regs h) (bus_write a v (wf_rest h));
|}.

#[export, refine] Instance with_file_regs B `{!BlockOk B, RegBus rest} : BlockRegs B (with_file B rest) :=
  {| breg h a := u32 (wf_regs h a) |}.
Proof.
  - intros h a. apply u32_range.
  - intros h a Ha. cbn [bus_read with_file_bus]. by rewrite Ha.
  - intros h a b Ha. cbn [bus_read with_file_bus]. by rewrite Ha.
  - intros h a v b Ha Hv. cbn [bus_write with_file_bus]. rewrite Ha. unfold soft_of. cbn [wf_regs].
    destruct (Z.eqb_spec b a) as [->|]; [|done]. rewrite u32_id by apply written_u32, u32_range. by apply written_soft.
  - intros h a v b Ha. cbn [bus_write with_file_bus]. by rewrite Ha.
  - intros h a v i Ha Hm. cbn [bus_write with_file_bus]. rewrite Ha. cbn [wf_regs]. rewrite Z.eqb_refl.
    rewrite u32_id by apply written_u32, u32_range. by apply written_ack.
  - intros h a b i Hm Hp. cbn [bus_read with_file_bus]. by destruct (b_in B a).
  - intros h a v b i Hne Hm Hp. cbn [bus_write with_file_bus]. destruct (b_in B a); [|done]. cbn [wf_regs].
    by rewrite (proj2 (Z.eqb_neq _ _)).
Defined.

(** The other units on the bus are what they were. *)
#[export, refine] Instance with_file_other B B' `{BlockRegs B' rest} `{!Apart (b_in B') (b_in B)} : BlockRegs B' (with_file B rest) :=
  {| breg h := breg (wf_rest h) |}.
Proof.
  - intros h a. apply breg_u32.
  - intros [g r] a Ha. cbn [bus_read with_file_bus wf_rest wf_regs]. rewrite (apart (P := b_in B') (Q := b_in B) a Ha). by rewrite breg_read.
  - intros h a b Ha. cbn [bus_read with_file_bus]. destruct (b_in B a); [done|]. by apply breg_read_other.
  - intros h a v b Ha Hv. cbn [bus_write with_file_bus]. rewrite (apart (P := b_in B') (Q := b_in B) a Ha). by apply breg_write.
  - intros h a v b Ha. cbn [bus_write with_file_bus]. destruct (b_in B a); [done|]. by apply breg_write_other.
  - intros h a v i Ha Hm. cbn [bus_write with_file_bus]. rewrite (apart (P := b_in B') (Q := b_in B) a Ha). by apply breg_ack.
  - intros h a b i Hm Hp. cbn [bus_read with_file_bus]. destruct (b_in B a); [done|]. by apply breg_read_pending.
  - intros h a v b i Hne Hm Hp. cbn [bus_write with_file_bus]. destruct (b_in B a); [done|]. by apply breg_pending.
Defined.

#[export, refine] Instance with_file_icu B `{IcuRegs rest} `{!Apart in_icu (b_in B)} : IcuRegs (with_file B rest) :=
  {| ireg h := ireg (wf_rest h) |}.
Proof.
  - intros [g r] a Ha. cbn [bus_read with_file_bus wf_rest wf_regs]. rewrite (apart (P := in_icu) (Q := b_in B) a Ha). by rewrite ireg_read.
  - intros h a b Ha. cbn [bus_read with_file_bus]. destruct (b_in B a); [done|]. by apply ireg_read_other.
  - intros h a v b Ha. cbn [bus_write with_file_bus]. destruct (b_in B a); [done|]. by apply ireg_write_other.
  - intros h a v b Ha Hj. cbn [bus_write with_file_bus]. rewrite (apart (P := in_icu) (Q := b_in B) a Ha). by apply ireg_write.
Defined.
