(* ===== verification/DList.v ===== *)
(** * Doubly linked lists (include/doubly_list.h)

    Circular lists through the members [next] and [prev] of nodes that the
    caller owns; a list is named by the node that heads it.  The state is the
    nodes that exist, by address; an access to another address is a
    [BadAccess]. *)
From stdpp Require Import gmap.
From S2P Require Import Prelude.
Local Open Scope Z_scope.

Record list_head (A : Type) := ListHead { next : A; prev : A }.
Arguments ListHead {A} next prev.
Arguments next {A} l.
Arguments prev {A} l.

Section dlist.
Context {A : Type} `{Countable A}.
Implicit Types (a p n x : A).

Abbreviation heap := (gmap A (list_head A)).

(** [p->next], [p->prev], [p->next = v], [p->prev = v] *)
Definition get_next (p : A) : M heap A := h ← get; d ← lift_res (of_option BadAccess (h !! p)); mret (next d).
Definition get_prev (p : A) : M heap A := h ← get; d ← lift_res (of_option BadAccess (h !! p)); mret (prev d).
Definition set_next (p v : A) : M heap unit :=
  h ← get; d ← lift_res (of_option BadAccess (h !! p)); put (<[p := ListHead v (prev d)]> h).
Definition set_prev (p v : A) : M heap unit :=
  h ← get; d ← lift_res (of_option BadAccess (h !! p)); put (<[p := ListHead (next d) v]> h).

Definition INIT_LIST_HEAD (ptr : A) : M heap unit := set_next ptr ptr;; set_prev ptr ptr.

Definition __list_add (new_node prev next : A) : M heap unit :=
  set_prev next new_node;; set_next new_node next;; set_prev new_node prev;; set_next prev new_node.

Definition list_add_head (new_node head : A) : M heap unit := n ← get_next head; __list_add new_node head n.
Definition list_add_tail (new_node head : A) : M heap unit := p ← get_prev head; __list_add new_node p head.

Definition __list_del (prev next : A) : M heap unit := set_prev next prev;; set_next prev next.

Definition list_del (entry : A) : M heap unit := p ← get_prev entry; n ← get_next entry; __list_del p n.
Definition list_del_init (entry : A) : M heap unit :=
  p ← get_prev entry; n ← get_next entry; __list_del p n;; INIT_LIST_HEAD entry.

Definition list_move (list head : A) : M heap unit :=
  p ← get_prev list; n ← get_next list; __list_del p n;; list_add_head list head.
Definition list_move_tail (list head : A) : M heap unit :=
  p ← get_prev list; n ← get_next list; __list_del p n;; list_add_tail list head.

Definition list_empty (head : A) : M heap bool := n ← get_next head; mret (bool_decide (n = head)).

Definition __list_splice (list head : A) : M heap unit :=
  first ← get_next list; last ← get_prev list; at_ ← get_next head;
  set_prev first head;; set_next head first;; set_next last at_;; set_prev at_ last.

Definition list_splice (list head : A) : M heap unit :=
  e ← list_empty list; when (negb e) (__list_splice list head).
Definition list_splice_init (list head : A) : M heap unit :=
  e ← list_empty list; when (negb e) (__list_splice list head;; INIT_LIST_HEAD list).

Definition list_switch (list1 list2 : A) : A * A := (list2, list1).

(** [list_for_each_safe(pos, n, head)]: the body gives [inl] to leave the loop
    and [inr] to go on; [next_of] reads [pos->next] in the state of the caller. *)
Fixpoint list_for_each_safe {S R C} (next_of : A -> M S A) (body : A -> C -> M S (R + C))
  (fuel : nat) (pos n head : A) (acc : C) : M S (R + C) :=
  match fuel with
  | O => fail NoFuel
  | Datatypes.S fuel' =>
    if decide (pos = head) then mret (inr acc)
    else
      r ← body pos acc;
      match r with
      | inl r => mret (inl r)
      | inr acc => n' ← next_of n; list_for_each_safe next_of body fuel' n n' head acc
      end
  end.

(** [pos = (head)->next, n = pos->next] in front of the loop. *)
Definition for_each {S R C} (next_of : A -> M S A) (body : A -> C -> M S (R + C))
  (fuel : nat) (head : A) (acc : C) : M S (R + C) :=
  pos ← next_of head; n ← next_of pos; list_for_each_safe next_of body fuel pos n head acc.

(** [num_of_list++] *)
Definition count_body (pos : A) (num : Z) : M heap (Z + Z) := mret (inr (u32 (num + 1))).

Definition list_size (fuel : nat) (list : A) : M heap Z :=
  r ← for_each get_next count_body fuel list 0;
  mret (match r with inl r => r | inr num => num end).

(** ** The list that a head stands for *)

Definition nxt (h : heap) a : option A := next <$> h !! a.
Definition prv (h : heap) a : option A := prev <$> h !! a.
Definition node (h : heap) a : Prop := is_Some (h !! a).

Definition linked (h : heap) a b : Prop := nxt h a = Some b /\ prv h b = Some a.

Fixpoint chain (h : heap) (l : list A) : Prop :=
  match l with
  | a :: (b :: _) as l' => linked h a b /\ chain h l'
  | _ => True
  end.

(** The nodes from [head] round to [head]. *)
Definition dlist (h : heap) (head : A) (l : list A) : Prop := NoDup (head :: l) /\ chain h (head :: l ++ [head]).

(** *** Chains *)

Lemma chain_join h u p n w : chain h ((u ++ [p]) ++ n :: w) <-> chain h (u ++ [p]) /\ linked h p n /\ chain h (n :: w).
Proof.
  induction u as [|a u IH]; [cbn; tauto|]. destruct u as [|b u]; cbn [app chain] in *; [tauto|]. rewrite IH. tauto.
Qed.

Lemma chain_frame h h' l : chain h l -> (forall a, a ∈ removelast l -> nxt h' a = nxt h a) ->
  (forall a, a ∈ tail l -> prv h' a = prv h a) -> chain h' l.
Proof.
  induction l as [|a l IH]; [done|]. destruct l as [|b l]; [done|]. intros [[Hn Hp] Hc] HN HP. split.
  - split; [rewrite HN by (cbn; set_solver); done|rewrite HP by (cbn; set_solver); done].
  - apply IH; [done| |].
    + intros c Hcc. apply HN. change (removelast (a :: b :: l)) with (a :: removelast (b :: l)). set_solver.
    + intros c Hcc. apply HP. cbn in *. set_solver.
Qed.

Lemma linked_nodes h a b : linked h a b -> node h a /\ node h b.
Proof.
  intros [Hn Hp]. unfold nxt, prv, node in *. destruct (h !! a), (h !! b); try done; eauto.
Qed.

Lemma chain_nodes h l a : chain h l -> (2 <= length l)%nat -> a ∈ l -> node h a.
Proof.
  induction l as [|b l IH]; [set_solver|]. destruct l as [|c l]; [cbn; lia|]. intros [Hl Hc] _ Ha.
  apply linked_nodes in Hl as [Hb Hcn]. apply elem_of_cons in Ha as [->|Ha]; [done|].
  destruct l as [|d l]; [set_solver|]. apply IH; [done|cbn; lia|done].
Qed.

Lemma dlist_nodes h head l a : dlist h head l -> a ∈ head :: l -> node h a.
Proof.
  intros [_ Hc] Ha. eapply chain_nodes; [exact Hc| |].
  - cbn. rewrite length_app. cbn. lia.
  - set_solver.
Qed.

(** *** What the primitives change *)

(** [h'] has the nodes of [h], with the members [N] and [P]. *)
Definition becomes (h h' : heap) (N P : A -> option A) : Prop :=
  (forall a, nxt h' a = N a) /\ (forall a, prv h' a = P a) /\ (forall a, node h' a <-> node h a).

Lemma get_next_val h p n : nxt h p = Some n -> get_next p h = Val (n, h).
Proof.
  unfold nxt. intros Hn. destruct (h !! p) as [d|] eqn:E; [|done]. injection Hn as <-.
  unfold get_next. mstep. mstep by (unfold lift_res, of_option; rewrite E; reflexivity). reflexivity.
Qed.

Lemma get_prev_val h p n : prv h p = Some n -> get_prev p h = Val (n, h).
Proof.
  unfold prv. intros Hn. destruct (h !! p) as [d|] eqn:E; [|done]. injection Hn as <-.
  unfold get_prev. mstep. mstep by (unfold lift_res, of_option; rewrite E; reflexivity). reflexivity.
Qed.

Lemma set_next_val h p v : node h p -> exists h', set_next p v h = Val (tt, h') /\
  becomes h h' (fun a => if decide (a = p) then Some v else nxt h a) (prv h).
Proof.
  intros [d E]. eexists. split.
  - unfold set_next. mstep. mstep by (unfold lift_res, of_option; rewrite E; reflexivity). reflexivity.
  - unfold becomes, nxt, prv, node. split_and!; intros a; destruct (decide (a = p)) as [->|Hne];
      rewrite ?lookup_insert_eq, ?lookup_insert_ne, ?E by done; first [done|by split; eauto].
Qed.

Lemma set_prev_val h p v : node h p -> exists h', set_prev p v h = Val (tt, h') /\
  becomes h h' (nxt h) (fun a => if decide (a = p) then Some v else prv h a).
Proof.
  intros [d E]. eexists. split.
  - unfold set_prev. mstep. mstep by (unfold lift_res, of_option; rewrite E; reflexivity). reflexivity.
  - unfold becomes, nxt, prv, node. split_and!; intros a; destruct (decide (a = p)) as [->|Hne];
      rewrite ?lookup_insert_eq, ?lookup_insert_ne, ?E by done; first [done|by split; eauto].
Qed.

(** The members behind each function, for any nodes, equal ones included. *)
Lemma list_init_val h p : node h p -> exists h', INIT_LIST_HEAD p h = Val (tt, h') /\
  becomes h h' (fun a => if decide (a = p) then Some p else nxt h a) (fun a => if decide (a = p) then Some p else prv h a).
Proof.
  intros Hp. destruct (set_next_val h p p Hp) as (h1 & E1 & N1 & P1 & D1).
  destruct (set_prev_val h1 p p (proj2 (D1 p) Hp)) as (h2 & E2 & N2 & P2 & D2).
  exists h2. split; [unfold INIT_LIST_HEAD; mstep by exact E1; exact E2|].
  split_and!; intros a; rewrite ?N2, ?P2, ?D2; auto. by destruct (decide _).
Qed.

Lemma list_add_val h new p n : node h new -> node h p -> node h n -> exists h', __list_add new p n h = Val (tt, h') /\
  becomes h h' (fun a => if decide (a = p) then Some new else if decide (a = new) then Some n else nxt h a)
    (fun a => if decide (a = new) then Some p else if decide (a = n) then Some new else prv h a).
Proof.
  intros Hnew Hp Hn. destruct (set_prev_val h n new Hn) as (h1 & E1 & N1 & P1 & D1).
  destruct (set_next_val h1 new n) as (h2 & E2 & N2 & P2 & D2); [by apply D1|].
  destruct (set_prev_val h2 new p) as (h3 & E3 & N3 & P3 & D3); [by apply D2, D1|].
  destruct (set_next_val h3 p new) as (h4 & E4 & N4 & P4 & D4); [by apply D3, D2, D1|].
  exists h4. split; [unfold __list_add; mstep by exact E1; mstep by exact E2; mstep by exact E3; exact E4|].
  split_and!; intros a; rewrite ?N4, ?N3, ?N2, ?N1, ?P4, ?P3, ?P2, ?P1, ?D4, ?D3, ?D2, ?D1; done.
Qed.

Lemma list_unlink_val h p n : node h p -> node h n -> exists h', __list_del p n h = Val (tt, h') /\
  becomes h h' (fun a => if decide (a = p) then Some n else nxt h a) (fun a => if decide (a = n) then Some p else prv h a).
Proof.
  intros Hp Hn. destruct (set_prev_val h n p Hn) as (h1 & E1 & N1 & P1 & D1).
  destruct (set_next_val h1 p n) as (h2 & E2 & N2 & P2 & D2); [by apply D1|].
  exists h2. split; [unfold __list_del; mstep by exact E1; exact E2|].
  split_and!; intros a; rewrite ?N2, ?N1, ?P2, ?P1, ?D2, ?D1; done.
Qed.

Lemma list_splice_val h list head first last_ at_ :
  nxt h list = Some first -> prv h list = Some last_ -> nxt h head = Some at_ ->
  node h first -> node h last_ -> node h at_ ->
  exists h', __list_splice list head h = Val (tt, h') /\
  becomes h h' (fun a => if decide (a = last_) then Some at_ else if decide (a = head) then Some first else nxt h a)
    (fun a => if decide (a = at_) then Some last_ else if decide (a = first) then Some head else prv h a).
Proof.
  intros H1 H2 H3 Hf Hl Ha. assert (Hh : node h head) by (unfold nxt in H3; unfold node; destruct (h !! head); [done|discriminate H3]).
  destruct (set_prev_val h first head Hf) as (h1 & E1 & N1 & P1 & D1).
  destruct (set_next_val h1 head first) as (h2 & E2 & N2 & P2 & D2); [by apply D1|].
  destruct (set_next_val h2 last_ at_) as (h3 & E3 & N3 & P3 & D3); [by apply D2, D1|].
  destruct (set_prev_val h3 at_ last_) as (h4 & E4 & N4 & P4 & D4); [by apply D3, D2, D1|].
  exists h4. split.
  - unfold __list_splice. mstep by exact (get_next_val _ _ _ H1). mstep by exact (get_prev_val _ _ _ H2).
    mstep by exact (get_next_val _ _ _ H3). mstep by exact E1. mstep by exact E2. mstep by exact E3. exact E4.
  - split_and!; intros a; rewrite ?N4, ?N3, ?N2, ?N1, ?P4, ?P3, ?P2, ?P1, ?D4, ?D3, ?D2, ?D1; done.
Qed.

(** *** Lists under these changes *)

(** The node in front of a position, and the one at it. *)
Definition before (head : A) (l1 : list A) : A := default head (list.last l1).
Definition first_of (head : A) (l2 : list A) : A := default head (hd_error l2).

Lemma before_split head l1 : exists u, head :: l1 = u ++ [before head l1] /\ removelast (head :: l1) = u.
Proof.
  destruct l1 as [|x l1 _] using rev_ind.
  - by exists [].
  - exists (head :: l1). unfold before. rewrite list.last_snoc. split; [done|]. by rewrite app_comm_cons, removelast_last.
Qed.

Lemma first_split head l2 : exists w, l2 ++ [head] = first_of head l2 :: w /\ tail (l2 ++ [head]) = w.
Proof. destruct l2 as [|x l2]; eexists; done. Qed.

Lemma dlist_cut h head l1 l2 : chain h (head :: (l1 ++ l2) ++ [head]) <->
  chain h (head :: l1) /\ linked h (before head l1) (first_of head l2) /\ chain h (l2 ++ [head]).
Proof.
  destruct (before_split head l1) as (u & Hu & _), (first_split head l2) as (w & Hw & _).
  rewrite <- app_assoc, app_comm_cons, Hu, Hw. apply chain_join.
Qed.

Lemma before_in head l1 : before head l1 ∈ head :: l1.
Proof. destruct (before_split head l1) as (u & -> & _). set_solver. Qed.
Lemma first_in head l2 : first_of head l2 ∈ head :: l2.
Proof. destruct l2; cbn; set_solver. Qed.

Lemma before_not_init head l1 : NoDup (head :: l1) -> before head l1 ∉ removelast (head :: l1).
Proof.
  destruct (before_split head l1) as (u & Hu & ->). rewrite Hu. intros Hnd Hin.
  apply list.NoDup_app in Hnd as (_ & Hd & _). by apply (Hd _ Hin); set_solver.
Qed.
Lemma first_not_tail head l2 : NoDup (head :: l2) -> first_of head l2 ∉ tail (l2 ++ [head]).
Proof.
  destruct l2 as [|x l2]; [cbn; set_solver|]. intros Hnd. inversion_clear Hnd as [|? ? H1 H2].
  inversion_clear H2 as [|? ? H3 H4]. cbn. set_solver.
Qed.

Lemma removelast_subset (l : list A) a : a ∈ removelast l -> a ∈ l.
Proof.
  destruct l as [|b l _] using rev_ind; [done|]. rewrite removelast_last. set_solver.
Qed.
Lemma tail_subset (l : list A) a : a ∈ tail l -> a ∈ l.
Proof. destruct l; cbn; set_solver. Qed.

(** Only the nodes of [S] differ. *)
Definition same_off (h h' : heap) (S : list A) : Prop :=
  (forall a, a ∉ S -> nxt h' a = nxt h a /\ prv h' a = prv h a) /\ (forall a, node h' a <-> node h a).

Lemma dlist_frame h h' S head l : same_off h h' S -> (forall a, a ∈ head :: l -> a ∉ S) -> dlist h head l -> dlist h' head l.
Proof.
  intros [Hs _] Hd [Hnd Hc]. split; [done|]. apply (chain_frame h); [done| |]; intros a Ha; apply Hs, Hd.
  - rewrite app_comm_cons, removelast_last in Ha. done.
  - cbn in Ha. set_solver.
Qed.

Lemma chain_first h head x l2 : chain h ((x :: l2) ++ [head]) <-> linked h x (first_of head l2) /\ chain h (l2 ++ [head]).
Proof. by destruct l2. Qed.

(** Where the ends of the two halves of a list are not. *)
Lemma halves_ends head l1 l2 : NoDup (head :: l1 ++ l2) ->
  (before head l1 ∉ removelast (head :: l1)) /\ (first_of head l2 ∉ l1) /\
  (before head l1 ∉ l2) /\ (first_of head l2 ∉ tail (l2 ++ [head])).
Proof.
  intros Hnd. pose proof (before_in head l1) as Hp. pose proof (first_in head l2) as Hn.
  pose proof Hnd as Hnd0. rewrite app_comm_cons in Hnd. apply list.NoDup_app in Hnd as (H1 & H2 & H3).
  split_and!.
  - by apply before_not_init.
  - inversion_clear H1 as [|? ? H4 H5]. destruct l2 as [|y l2]; cbn; [done|]. intros Hin. apply (H2 y); set_solver.
  - by apply H2.
  - apply first_not_tail. constructor; [apply H2; set_solver|done].
Qed.

(** Both halves stay when only the ends where they meet change. *)
Lemma halves_frame h h' head l1 l2 : NoDup (head :: l1 ++ l2) -> chain h (head :: l1) -> chain h (l2 ++ [head]) ->
  (forall a, a ∈ head :: l1 ++ l2 -> a <> before head l1 -> nxt h' a = nxt h a) ->
  (forall a, a ∈ head :: l1 ++ l2 -> a <> first_of head l2 -> prv h' a = prv h a) ->
  chain h' (head :: l1) /\ chain h' (l2 ++ [head]).
Proof.
  intros Hnd C1 C2 HN HP. destruct (halves_ends head l1 l2 Hnd) as (E1 & E2 & E3 & E4).
  split; (apply (chain_frame h); [done| |]; intros a Ha; [apply HN|apply HP]).
  - apply removelast_subset in Ha. set_solver.
  - by intros ->.
  - cbn in Ha. set_solver.
  - cbn in Ha. by intros ->.
  - rewrite removelast_last in Ha. set_solver.
  - rewrite removelast_last in Ha. by intros ->.
  - apply tail_subset in Ha. set_solver.
  - by intros ->.
Qed.

(** A node between two neighbours. *)
Lemma dlist_insert h head l1 l2 new : dlist h head (l1 ++ l2) -> node h new -> new ∉ head :: l1 ++ l2 ->
  exists h', __list_add new (before head l1) (first_of head l2) h = Val (tt, h') /\
    dlist h' head (l1 ++ new :: l2) /\ same_off h h' (new :: head :: l1 ++ l2).
Proof.
  intros Hd Hnew Hout. pose proof Hd as [Hnd Hc]. pose proof (before_in head l1) as Hp. pose proof (first_in head l2) as Hn.
  assert (Hpn : before head l1 <> new) by (intros He; rewrite He in Hp; set_solver).
  assert (Hnn : first_of head l2 <> new) by (intros He; rewrite He in Hn; set_solver).
  destruct (list_add_val h new (before head l1) (first_of head l2) Hnew) as (h' & E & HN & HP & HD);
    [apply (dlist_nodes h head (l1 ++ l2)); [done|set_solver]..|].
  exists h'. split; [done|]. apply dlist_cut in Hc as (C1 & _ & C2). split; [split|split].
  - rewrite app_comm_cons, <- Permutation_middle. by constructor.
  - apply dlist_cut. rewrite chain_first. change (first_of head (new :: l2)) with new.
    destruct (halves_frame h h' head l1 l2 Hnd C1 C2) as [F1 F2].
    + intros a Ha Hne. rewrite HN, !decide_False; [done|intros ->; set_solver|done].
    + intros a Ha Hne. rewrite HP, !decide_False; [done|done|intros ->; set_solver].
    + split_and!; [done| | |done]; split; rewrite ?HN, ?HP.
      * by rewrite decide_True.
      * by rewrite decide_True.
      * by rewrite decide_False, decide_True.
      * by rewrite decide_False, decide_True.
  - intros a Ha. rewrite HN, HP, !decide_False; [done|..]; intros ->; set_solver.
  - done.
Qed.

(** A node out of its neighbours; its own members stay. *)
Lemma dlist_remove h head l1 x l2 : dlist h head (l1 ++ x :: l2) ->
  prv h x = Some (before head l1) /\ nxt h x = Some (first_of head l2) /\
  exists h', __list_del (before head l1) (first_of head l2) h = Val (tt, h') /\
    dlist h' head (l1 ++ l2) /\ same_off h h' (head :: l1 ++ l2).
Proof.
  intros Hd. pose proof Hd as [Hnd Hc]. apply dlist_cut in Hc as (C1 & [_ L2] & C2).
  apply chain_first in C2 as [[L3 _] C2]. split; [done|]. split; [done|].
  pose proof (before_in head l1) as Hp. pose proof (first_in head l2) as Hn.
  assert (Hnd' : NoDup (head :: l1 ++ l2)).
  { apply (sublist_NoDup _ (head :: l1 ++ x :: l2)); [done|]. apply sublist_skip, sublist_app; [done|by apply sublist_cons]. }
  destruct (list_unlink_val h (before head l1) (first_of head l2)) as (h' & E & HN & HP & HD);
    [apply (dlist_nodes h head (l1 ++ x :: l2)); [done|set_solver]..|].
  exists h'. split; [done|]. split; [split; [done|]|split].
  - destruct (halves_frame h h' head l1 l2 Hnd' C1 C2) as [F1 F2].
    + intros a _ Hne. by rewrite HN, decide_False.
    + intros a _ Hne. by rewrite HP, decide_False.
    + apply dlist_cut. split_and!; [done|split; [by rewrite HN, decide_True|by rewrite HP, decide_True]|done].
  - intros a Ha. rewrite HN, HP, !decide_False; [done|..]; intros ->; set_solver.
  - done.
Qed.

(** A new head, alone. *)
Lemma dlist_init h p : node h p -> exists h', INIT_LIST_HEAD p h = Val (tt, h') /\ dlist h' p [] /\ same_off h h' [p].
Proof.
  intros Hp. destruct (list_init_val h p Hp) as (h' & E & HN & HP & HD). exists h'. split; [done|]. split; [split|split].
  - apply NoDup_singleton.
  - cbn. split; [|done]. split; [by rewrite HN, decide_True|by rewrite HP, decide_True].
  - intros a Ha. rewrite HN, HP, !decide_False; [done|..]; set_solver.
  - done.
Qed.

Lemma dlist_first h head l : dlist h head l -> nxt h head = Some (first_of head l).
Proof. intros [_ Hc]. apply (dlist_cut h head [] l) in Hc as (_ & [Hn _] & _). exact Hn. Qed.
Lemma dlist_last h head l : dlist h head l -> prv h head = Some (before head l).
Proof. intros [_ Hc]. rewrite <- (app_nil_r l) in Hc. apply dlist_cut in Hc as (_ & [_ Hp] & _). exact Hp. Qed.

Lemma first_of_app head l l' : first_of head (l ++ l') = first_of (first_of head l') l.
Proof. by destruct l. Qed.

(** The nodes of one list in front of those of another. *)
Lemma dlist_splice h list l1 head l2 : dlist h list l1 -> dlist h head l2 -> l1 <> [] ->
  (forall a, a ∈ list :: l1 -> a ∉ head :: l2) ->
  exists h', __list_splice list head h = Val (tt, h') /\ dlist h' head (l1 ++ l2) /\ same_off h h' (head :: l1 ++ l2).
Proof.
  intros Hd1 Hd2 Hne Hdis. pose proof Hd1 as [Hnd1 Hc1]. pose proof Hd2 as [Hnd2 Hc2].
  assert (Hf : first_of list l1 ∈ l1) by (destruct l1; cbn; set_solver).
  assert (Hl : before list l1 ∈ l1).
  { unfold before. destruct l1 as [|x l _] using rev_ind; [done|]. rewrite list.last_snoc. set_solver. }
  pose proof (first_in head l2) as Ha.
  assert (Hh : (head ∉ l1) /\ (forall a, a ∈ l1 -> a <> first_of head l2)).
  { split; [intros Hin; apply (Hdis head); set_solver|]. intros a Hin ->. apply (Hdis (first_of head l2)); set_solver. }
  destruct Hh as [Hh Hla].
  destruct (list_splice_val h list head (first_of list l1) (before list l1) (first_of head l2)) as (h' & E & HN & HP & HD).
  { by apply dlist_first. } { by apply dlist_last. } { by apply dlist_first. }
  1-2: apply (dlist_nodes h list l1); set_solver. { by apply (dlist_nodes h head l2). }
  exists h'. split; [done|]. split; [split|split].
  - inversion_clear Hnd1 as [|? ? H1 H2]. inversion_clear Hnd2 as [|? ? H3 H4].
    constructor; [set_solver|]. apply list.NoDup_app. split_and!; [done| |done]. intros a Hin Hin2. apply (Hdis a); set_solver.
  - assert (Hb : before head l1 = before list l1).
    { unfold before in *. destruct l1 as [|x l _] using rev_ind; [done|]. by rewrite list.last_snoc. }
    apply (dlist_cut h' head l1 l2). rewrite Hb.
    rewrite <- (app_nil_r l1) in Hc1. apply dlist_cut in Hc1 as (C1 & _ & _).
    apply (dlist_cut h head [] l2) in Hc2 as (_ & _ & C2). split_and!.
    + assert (Hhb : head <> before list l1) by (intros He; by rewrite <- He in Hl).
      pose proof (Hla _ Hf) as Hfa. destruct l1 as [|x l]; [done|]. destruct C1 as [_ C1]. change (first_of list (x :: l)) with x in *. split.
      { split; [rewrite HN, decide_False, decide_True|rewrite HP, decide_False, decide_True]; auto. }
      apply (chain_frame h); [done| |]; intros a Hin.
      * rewrite HN, !decide_False; [done|intros ->; apply removelast_subset in Hin; set_solver|].
        intros ->. apply (before_not_init list (x :: l) Hnd1). cbn [removelast] in *. set_solver.
      * cbn in Hin. rewrite HP, !decide_False; [done| |apply Hla; set_solver].
        intros ->. inversion_clear Hnd1 as [|? ? _ H2]. by inversion_clear H2.
    + split; [by rewrite HN, decide_True|by rewrite HP, decide_True].
    + destruct (halves_ends head [] l2 Hnd2) as (_ & _ & E3 & E4).
      apply (chain_frame h); [done| |]; intros a Hin.
      * rewrite removelast_last in Hin. rewrite HN, !decide_False; [done| |]; intros ->; [done|].
        apply (Hdis (before list l1)); set_solver.
      * rewrite HP, !decide_False; [done| |by intros ->]. intros ->. apply tail_subset in Hin.
        apply (Hdis (first_of list l1)); set_solver.
  - intros a Hin. rewrite HN, HP, !decide_False; [done|..]; intros ->; set_solver.
  - done.
Qed.

(** ** Several lists *)

(** The heads and what is behind them. *)
Abbreviation lists := (gmap A (list A)).

Record rep (h : heap) (m : lists) : Prop := {
  rep_list : forall hd l, m !! hd = Some l -> dlist h hd l;
  rep_disjoint : forall hd1 l1 hd2 l2 a, m !! hd1 = Some l1 -> m !! hd2 = Some l2 -> hd1 <> hd2 ->
    a ∈ hd1 :: l1 -> a ∉ hd2 :: l2;
}.

(** [a] is in no list, and in none but that of [hd]. *)
Definition unused (m : lists) a : Prop := forall hd l, m !! hd = Some l -> a ∉ hd :: l.
Definition owned (m : lists) (hd : A) a : Prop := forall hd2 l2, m !! hd2 = Some l2 -> hd2 <> hd -> a ∉ hd2 :: l2.

Lemma unused_owned m hd a : unused m a -> owned m hd a.
Proof. intros Hu hd2 l2 Hm _. by apply Hu. Qed.

Lemma rep_owned h m hd l a : rep h m -> m !! hd = Some l -> a ∈ hd :: l -> owned m hd a.
Proof. intros Hr Hm Ha hd2 l2 Hm2 Hne. by apply (rep_disjoint h m Hr hd l hd2 l2). Qed.

(** One list changes. *)
Lemma rep_set h h' m hd l S : rep h m -> dlist h' hd l -> same_off h h' S ->
  (forall a, a ∈ S ++ hd :: l -> owned m hd a) -> rep h' (<[hd := l]> m).
Proof.
  intros Hr Hd Hs Ho. split.
  - intros hd2 l2. destruct (decide (hd2 = hd)) as [->|Hne].
    + rewrite lookup_insert_eq. intros [= <-]. done.
    + rewrite lookup_insert_ne by done. intros Hm. apply (dlist_frame h h' S); [done| |by apply (rep_list h m)].
      intros a Ha Hin. apply (Ho a ltac:(set_solver) hd2 l2); done.
  - intros hd1 l1 hd2 l2 a. destruct (decide (hd1 = hd)) as [->|N1], (decide (hd2 = hd)) as [->|N2];
      rewrite ?lookup_insert_eq, ?lookup_insert_ne by done; [done| | |].
    + intros [= <-] Hm _ Ha. apply (Ho a); [set_solver|done..].
    + intros Hm [= <-] _ Ha Hin. by apply (Ho a ltac:(set_solver) hd1 l1).
    + by apply (rep_disjoint h m).
Qed.

(** A head is forgotten. *)
Lemma rep_delete h m hd : rep h m -> rep h (delete hd m).
Proof.
  intros Hr. split.
  - intros hd1 l1 Hm. apply lookup_delete_Some in Hm as [_ Hm]. by apply (rep_list h m).
  - intros hd1 l1 hd2 l2 a Hm1 Hm2. apply lookup_delete_Some in Hm1 as [_ Hm1], Hm2 as [_ Hm2].
    by apply (rep_disjoint h m).
Qed.

Lemma unused_delete h m hd l a : rep h m -> m !! hd = Some l -> a ∈ hd :: l -> unused (delete hd m) a.
Proof.
  intros Hr Hm Ha hd2 l2 Hm2. apply lookup_delete_Some in Hm2 as [Hne Hm2]. by apply (rep_owned h m hd l a Hr Hm Ha).
Qed.

Lemma unused_insert m hd l a : owned m hd a -> a ∉ hd :: l -> unused (<[hd := l]> m) a.
Proof.
  intros Ho Ha hd2 l2. destruct (decide (hd2 = hd)) as [->|Hne].
  - rewrite lookup_insert_eq. by intros [= <-].
  - rewrite lookup_insert_ne by done. intros Hm. by apply Ho.
Qed.

(** *** Each operation on represented lists *)

Lemma list_add_head_rep h m hd l new : rep h m -> m !! hd = Some l -> unused m new -> node h new ->
  exists h', list_add_head new hd h = Val (tt, h') /\ rep h' (<[hd := new :: l]> m) /\ (forall a, node h' a <-> node h a).
Proof.
  intros Hr Hm Hu Hn. pose proof (rep_list h m Hr hd l Hm) as Hd.
  destruct (dlist_insert h hd [] l new Hd Hn (Hu _ _ Hm)) as (h' & E & Hd' & Hs).
  exists h'. split; [unfold list_add_head; mstep by exact (get_next_val _ _ _ (dlist_first _ _ _ Hd)); exact E|].
  split; [|apply Hs]. apply (rep_set h h' m hd (new :: l) (new :: hd :: l) Hr Hd' Hs).
  intros a Ha. destruct (decide (a = new)) as [->|]; [by apply unused_owned|]. apply (rep_owned h m hd l); set_solver.
Qed.

Lemma list_add_tail_rep h m hd l new : rep h m -> m !! hd = Some l -> unused m new -> node h new ->
  exists h', list_add_tail new hd h = Val (tt, h') /\ rep h' (<[hd := l ++ [new]]> m) /\ (forall a, node h' a <-> node h a).
Proof.
  intros Hr Hm Hu Hn. pose proof (rep_list h m Hr hd l Hm) as Hd. pose proof Hd as Hd0. rewrite <- (app_nil_r l) in Hd0.
  destruct (dlist_insert h hd l [] new Hd0 Hn) as (h' & E & Hd' & Hs); [rewrite app_nil_r; by apply (Hu _ _ Hm)|].
  rewrite app_nil_r in Hs.
  exists h'. split; [unfold list_add_tail; mstep by exact (get_prev_val _ _ _ (dlist_last _ _ _ Hd)); exact E|].
  split; [|apply Hs]. apply (rep_set h h' m hd (l ++ [new]) (new :: hd :: l) Hr Hd' Hs).
  intros a Ha. destruct (decide (a = new)) as [->|]; [by apply unused_owned|]. apply (rep_owned h m hd l); set_solver.
Qed.

(** The common start of the removing operations. *)
Lemma unlink_rep h m hd l1 x l2 : rep h m -> m !! hd = Some (l1 ++ x :: l2) ->
  let m1 := <[hd := l1 ++ l2]> m in
  exists h1, list_del x h = Val (tt, h1) /\
    (forall B (k : M heap B), (p ← get_prev x; n ← get_next x; __list_del p n;; k) h = k h1) /\
    rep h1 m1 /\ unused m1 x /\ (forall a, node h1 a <-> node h a).
Proof.
  intros Hr Hm m1. pose proof (rep_list h m Hr hd _ Hm) as Hd.
  destruct (dlist_remove h hd l1 x l2 Hd) as (Hp & Hn & h1 & E & Hd1 & Hs). exists h1. split_and!.
  - unfold list_del. mstep by exact (get_prev_val _ _ _ Hp). mstep by exact (get_next_val _ _ _ Hn). exact E.
  - intros B k. mstep by exact (get_prev_val _ _ _ Hp). mstep by exact (get_next_val _ _ _ Hn). mstep by exact E. done.
  - apply (rep_set h h1 m hd (l1 ++ l2) (hd :: l1 ++ l2) Hr Hd1 Hs). intros a Ha. apply (rep_owned h m hd (l1 ++ x :: l2)); set_solver.
  - apply unused_insert; [apply (rep_owned h m hd (l1 ++ x :: l2)); set_solver|].
    destruct Hd as [Hnd _]. rewrite app_comm_cons, <- Permutation_middle in Hnd. by inversion_clear Hnd.
  - apply Hs.
Qed.

Lemma list_init_rep h m x : rep h m -> unused m x -> node h x ->
  exists h', INIT_LIST_HEAD x h = Val (tt, h') /\ rep h' (<[x := []]> m) /\ (forall a, node h' a <-> node h a).
Proof.
  intros Hr Hu Hn. destruct (dlist_init h x Hn) as (h' & E & Hd & Hs). exists h'. split; [done|]. split; [|apply Hs].
  apply (rep_set h h' m x [] [x] Hr Hd Hs). intros a Ha. assert (a = x) as -> by set_solver. by apply unused_owned.
Qed.

Lemma list_empty_rep h m hd l : rep h m -> m !! hd = Some l -> list_empty hd h = Val (bool_decide (l = []), h).
Proof.
  intros Hr Hm. pose proof (rep_list h m Hr hd l Hm) as Hd. unfold list_empty.
  mstep by exact (get_next_val _ _ _ (dlist_first _ _ _ Hd)). unfold mret, M_ret. do 2 f_equal. destruct Hd as [Hnd _].
  apply bool_decide_ext. destruct l as [|x l]; cbn; [done|]. split; [|done]. intros ->. inversion_clear Hnd. set_solver.
Qed.

Lemma list_splice_rep h m list l1 head l2 : rep h m -> m !! list = Some l1 -> m !! head = Some l2 -> list <> head -> l1 <> [] ->
  exists h', __list_splice list head h = Val (tt, h') /\ rep h' (<[head := l1 ++ l2]> (delete list m)) /\
    unused (<[head := l1 ++ l2]> (delete list m)) list /\ (forall a, node h' a <-> node h a).
Proof.
  intros Hr H1 H2 Hne Hl1. pose proof (rep_delete h m list Hr) as Hr'.
  assert (H2' : delete list m !! head = Some l2) by (by rewrite lookup_delete_ne).
  assert (Hdis : forall a, a ∈ list :: l1 -> a ∉ head :: l2) by (intros a; by apply (rep_disjoint h m Hr list l1 head l2)).
  destruct (dlist_splice h list l1 head l2) as (h' & E & Hd' & Hs); [by apply (rep_list h m)|by apply (rep_list h m)|done|done|].
  exists h'. split; [done|]. split_and!; [|apply unused_insert|apply Hs].
  - apply (rep_set h h' (delete list m) head (l1 ++ l2) (head :: l1 ++ l2) Hr' Hd' Hs). intros a Ha.
    destruct (decide (a ∈ list :: l1)) as [Hin|Hin]; [by apply unused_owned, (unused_delete h m list l1)|].
    apply (rep_owned h (delete list m) head l2 a Hr' H2'). set_solver.
  - apply unused_owned, (unused_delete h m list l1 list Hr H1). set_solver.
  - pose proof (rep_list h m Hr list l1 H1) as [Hnd _]. inversion_clear Hnd. specialize (Hdis list ltac:(set_solver)). set_solver.
Qed.

(** *** The loop over a list *)

Lemma dlist_next h hd l1 x l2 : dlist h hd (l1 ++ x :: l2) -> nxt h x = Some (first_of hd l2).
Proof. intros Hd. by apply (dlist_remove h hd l1 x l2) in Hd as (_ & ? & _). Qed.

Section each.
Context {S R C : Type} (hp : S -> heap) (next_of : A -> M S A) (body : A -> C -> M S (R + C)).
(** The loop reads the nodes in [hp s], and a body that goes on keeps them. *)
Hypothesis next_of_val : forall s p n, nxt (hp s) p = Some n -> next_of p s = Val (n, s).
Hypothesis body_keeps : forall x acc s acc' s', body x acc s = Val (inr acc', s') -> hp s' = hp s.

(** The body on the elements of a list, in order. *)
Fixpoint each_fold (l : list A) (acc : C) : M S (R + C) :=
  match l with
  | [] => mret (inr acc)
  | x :: l' => r ← body x acc; match r with inl r => mret (inl r) | inr acc => each_fold l' acc end
  end.

Lemma each_loop h hd l2 : forall l1 fuel acc s, hp s = h -> dlist h hd (l1 ++ l2) -> (length l2 < fuel)%nat ->
  forall n, nxt h (first_of hd l2) = Some n ->
  list_for_each_safe next_of body fuel (first_of hd l2) n hd acc s = each_fold l2 acc s.
Proof using All.
  induction l2 as [|x l2 IH]; intros l1 fuel acc s Hs Hd Hf n Hn; (destruct fuel as [|fuel]; [cbn in Hf; lia|]);
    cbn [list_for_each_safe each_fold].
  - by rewrite decide_True.
  - change (first_of hd (x :: l2)) with x in *. pose proof Hd as [Hnd _]. rewrite decide_False.
    2: { intros ->. inversion_clear Hnd. set_solver. }
    rewrite (dlist_next h hd l1 x l2 Hd) in Hn. injection Hn as <-.
    destruct (body x acc s) as [[[r|acc'] s']|f] eqn:E.
    { rewrite (bind_val _ _ _ _ _ _ E eq_refl). symmetry. exact (bind_val _ _ _ _ _ _ E eq_refl). }
    2: { rewrite (bind_err _ _ _ _ E). symmetry. exact (bind_err _ _ _ _ E). }
    rewrite (bind_val _ _ _ _ _ _ E eq_refl). symmetry. rewrite (bind_val _ _ _ _ _ _ E eq_refl). symmetry.
    apply body_keeps in E as Hk. rewrite Hs in Hk.
    assert (Hd' : dlist h hd ((l1 ++ [x]) ++ l2)) by (by rewrite <- app_assoc).
    assert (exists n', nxt h (first_of hd l2) = Some n') as [n' Hn'].
    { pose proof (dlist_nodes h hd _ (first_of hd l2) Hd) as [d Hnode]; [pose proof (first_in hd l2); set_solver|].
      exists (next d). unfold nxt. by rewrite Hnode. }
    mstep by (apply next_of_val; rewrite Hk; exact Hn'). apply (IH (l1 ++ [x])); [done|done|cbn in Hf; lia|done].
Qed.

Lemma for_each_val hd l fuel acc s : dlist (hp s) hd l -> (length l < fuel)%nat ->
  for_each next_of body fuel hd acc s = each_fold l acc s.
Proof using All.
  intros Hd Hf. unfold for_each. mstep by (apply next_of_val; exact (dlist_first _ _ _ Hd)).
  assert (exists n', nxt (hp s) (first_of hd l) = Some n') as [n' Hn'].
  { pose proof (dlist_nodes (hp s) hd l (first_of hd l) Hd (first_in hd l)) as [d Hnode]. exists (next d). unfold nxt. by rewrite Hnode. }
  mstep by (apply next_of_val; exact Hn'). by apply (each_loop (hp s) hd l []).
Qed.
End each.

Lemma list_size_rep h m hd l fuel : rep h m -> m !! hd = Some l -> (length l < fuel)%nat ->
  list_size fuel hd h = Val (u32 (Z.of_nat (length l)), h).
Proof.
  intros Hr Hm Hf. pose proof (rep_list h m Hr hd l Hm) as Hd. unfold list_size.
  assert (Hloop : for_each get_next count_body fuel hd 0 h =
    Val (inr (u32 (Z.of_nat (length l))), h)).
  { rewrite (for_each_val (fun h => h) _ count_body get_next_val ltac:(intros ? ? ? ? ? [= _ ->]; done) hd l fuel 0 h Hd Hf).
    clear. change (Z.of_nat (length l)) with (0 + Z.of_nat (length l)). assert (H0 : 0 = u32 0) by done. rewrite H0 at 1.
    generalize 0. clear. induction l as [|x l IH]; intros z; cbn [each_fold length].
    - by rewrite Z.add_0_r.
    - mstep. cbv beta iota. assert (He : u32 (u32 z + 1) = u32 (z + 1)) by zlia. rewrite He, IH, Nat2Z.inj_succ. do 2 f_equal. f_equal. zlia. }
  mstep by exact Hloop. done.
Qed.

(** ** The lists as a contract *)

(** The calls of a client. *)
Inductive dl_op :=
  | AddHead (new_node head : A)
  | AddTail (new_node head : A)
  | Del (entry : A)
  | DelInit (entry : A)
  | Move (list head : A)
  | MoveTail (list head : A)
  | Splice (list head : A)
  | SpliceInit (list head : A)
  | IsEmpty (head : A)
  | Size (head : A).

(** A call, and the number it gives (0 for none). *)
Definition dl_step (fuel : nat) (op : dl_op) : M heap Z :=
  match op with
  | AddHead new_node head => list_add_head new_node head;; mret 0
  | AddTail new_node head => list_add_tail new_node head;; mret 0
  | Del entry => list_del entry;; mret 0
  | DelInit entry => list_del_init entry;; mret 0
  | Move list head => list_move list head;; mret 0
  | MoveTail list head => list_move_tail list head;; mret 0
  | Splice list head => list_splice list head;; mret 0
  | SpliceInit list head => list_splice_init list head;; mret 0
  | IsEmpty head => b ← list_empty head; mret (b2z b)
  | Size head => list_size fuel head
  end.

(** The calls that the header allows, and what they do to lists of nodes; [N]
    are the nodes that exist.  A spliced list is no list any more. *)
Inductive dl_spec (N : A -> Prop) (m : lists) : dl_op -> Z -> lists -> Prop :=
  | spec_add_head new hd l : m !! hd = Some l -> unused m new -> N new ->
      dl_spec N m (AddHead new hd) 0 (<[hd := new :: l]> m)
  | spec_add_tail new hd l : m !! hd = Some l -> unused m new -> N new ->
      dl_spec N m (AddTail new hd) 0 (<[hd := l ++ [new]]> m)
  | spec_del hd l1 x l2 : m !! hd = Some (l1 ++ x :: l2) -> dl_spec N m (Del x) 0 (<[hd := l1 ++ l2]> m)
  | spec_del_init hd l1 x l2 : m !! hd = Some (l1 ++ x :: l2) ->
      dl_spec N m (DelInit x) 0 (<[x := []]> (<[hd := l1 ++ l2]> m))
  | spec_move hd l1 x l2 hd' l : m !! hd = Some (l1 ++ x :: l2) -> <[hd := l1 ++ l2]> m !! hd' = Some l ->
      dl_spec N m (Move x hd') 0 (<[hd' := x :: l]> (<[hd := l1 ++ l2]> m))
  | spec_move_tail hd l1 x l2 hd' l : m !! hd = Some (l1 ++ x :: l2) -> <[hd := l1 ++ l2]> m !! hd' = Some l ->
      dl_spec N m (MoveTail x hd') 0 (<[hd' := l ++ [x]]> (<[hd := l1 ++ l2]> m))
  | spec_splice list l1 hd l2 : m !! list = Some l1 -> m !! hd = Some l2 -> list <> hd -> l1 <> [] ->
      dl_spec N m (Splice list hd) 0 (<[hd := l1 ++ l2]> (delete list m))
  | spec_splice_nil list hd : m !! list = Some [] -> dl_spec N m (Splice list hd) 0 m
  | spec_splice_init list l1 hd l2 : m !! list = Some l1 -> m !! hd = Some l2 -> list <> hd -> l1 <> [] ->
      dl_spec N m (SpliceInit list hd) 0 (<[list := []]> (<[hd := l1 ++ l2]> (delete list m)))
  | spec_splice_init_nil list hd : m !! list = Some [] -> dl_spec N m (SpliceInit list hd) 0 m
  | spec_empty hd l : m !! hd = Some l -> dl_spec N m (IsEmpty hd) (b2z (bool_decide (l = []))) m
  | spec_size hd l : m !! hd = Some l -> dl_spec N m (Size hd) (u32 (Z.of_nat (length l))) m.

Fixpoint dl_run (fuel : nat) (ops : list dl_op) : M heap (list Z) :=
  match ops with
  | [] => mret []
  | op :: ops' => r ← dl_step fuel op; rs ← dl_run fuel ops'; mret (r :: rs)
  end.

Inductive dl_specs (N : A -> Prop) : lists -> list dl_op -> list Z -> lists -> Prop :=
  | specs_nil m : dl_specs N m [] [] m
  | specs_cons m op r m1 ops rs m2 : dl_spec N m op r m1 -> dl_specs N m1 ops rs m2 ->
      dl_specs N m (op :: ops) (r :: rs) m2.

(** A list has fewer nodes than there are. *)
Lemma length_below h m hd l : rep h m -> m !! hd = Some l -> (length l < size h)%nat.
Proof.
  intros Hr Hm. pose proof (rep_list h m Hr hd l Hm) as Hd. pose proof Hd as [Hnd _].
  assert (Hsub : list_to_set (hd :: l) ⊆ dom h).
  { intros a Ha. apply elem_of_list_to_set in Ha. apply elem_of_dom. by apply (dlist_nodes h hd l). }
  apply subseteq_size in Hsub. rewrite size_list_to_set, size_dom in Hsub by done. cbn in Hsub. lia.
Qed.

(** A removal, and what follows it. *)
Lemma unlink_then h m hd l1 x l2 (k : M heap unit) m2 : rep h m -> m !! hd = Some (l1 ++ x :: l2) ->
  (forall h1, rep h1 (<[hd := l1 ++ l2]> m) -> unused (<[hd := l1 ++ l2]> m) x -> node h1 x ->
    exists h2, k h1 = Val (tt, h2) /\ rep h2 m2 /\ (forall a, node h2 a <-> node h1 a)) ->
  exists h', (p ← get_prev x; n ← get_next x; __list_del p n;; k) h = Val (tt, h') /\
    rep h' m2 /\ (forall a, node h' a <-> node h a).
Proof.
  intros Hr Hm Hk. destruct (unlink_rep h m hd l1 x l2 Hr Hm) as (h1 & _ & E1 & Hr1 & Hu1 & Hn1).
  assert (Hx : node h1 x) by (apply Hn1; apply (dlist_nodes h hd (l1 ++ x :: l2)); [by apply (rep_list h m)|set_solver]).
  destruct (Hk h1 Hr1 Hu1 Hx) as (h2 & E2 & Hr2 & Hn2). exists h2. split; [by rewrite E1|]. split; [done|].
  intros a. rewrite Hn2. apply Hn1.
Qed.

(** A call that returns nothing. *)
Lemma void_step h m (f : M heap unit) : 
  (exists h', f h = Val (tt, h') /\ rep h' m /\ (forall a, node h' a <-> node h a)) ->
  exists h', (f;; mret 0) h = Val (0, h') /\ rep h' m /\ (forall a, node h' a <-> node h a).
Proof. intros (h' & E & Hh). exists h'. split; [by mstep by exact E|done]. Qed.

Lemma splice_rep h m list l1 hd l2 : rep h m -> m !! list = Some l1 -> m !! hd = Some l2 -> list <> hd -> l1 <> [] ->
  exists h', list_splice list hd h = Val (tt, h') /\ rep h' (<[hd := l1 ++ l2]> (delete list m)) /\ (forall a, node h' a <-> node h a).
Proof.
  intros Hr H1 H2 Hne Hl1. destruct (list_splice_rep h m list l1 hd l2 Hr H1 H2 Hne Hl1) as (h' & E & ? & _ & ?).
  exists h'. split; [|done]. unfold list_splice. mstep by exact (list_empty_rep h m list l1 Hr H1).
  rewrite bool_decide_false by done. exact E.
Qed.

Lemma splice_init_rep h m list l1 hd l2 : rep h m -> m !! list = Some l1 -> m !! hd = Some l2 -> list <> hd -> l1 <> [] ->
  exists h', list_splice_init list hd h = Val (tt, h') /\ rep h' (<[list := []]> (<[hd := l1 ++ l2]> (delete list m))) /\
    (forall a, node h' a <-> node h a).
Proof.
  intros Hr H1 H2 Hne Hl1. destruct (list_splice_rep h m list l1 hd l2 Hr H1 H2 Hne Hl1) as (h1 & E1 & Hr1 & Hu1 & Hn1).
  assert (Hx : node h1 list) by (apply Hn1; apply (dlist_nodes h list l1); [by apply (rep_list h m)|set_solver]).
  destruct (list_init_rep h1 _ list Hr1 Hu1 Hx) as (h2 & E2 & Hr2 & Hn2). exists h2. split; [|split; [done|]].
  - unfold list_splice_init. mstep by exact (list_empty_rep h m list l1 Hr H1).
    rewrite bool_decide_false by done. cbn [negb when]. mstep by exact E1. exact E2.
  - intros a. rewrite Hn2. apply Hn1.
Qed.

Lemma dl_step_refines h m op r m' fuel : rep h m -> dl_spec (node h) m op r m' -> (size h <= fuel)%nat ->
  exists h', dl_step fuel op h = Val (r, h') /\ rep h' m' /\ (forall a, node h' a <-> node h a).
Proof.
  intros Hr Hs Hf. destruct Hs as [new hd l Hm Hu Hn|new hd l Hm Hu Hn|hd l1 x l2 Hm|hd l1 x l2 Hm|hd l1 x l2 hd' l Hm Hm'
    |hd l1 x l2 hd' l Hm Hm'|list l1 hd l2 H1 H2 Hne Hl1|list hd H1|list l1 hd l2 H1 H2 Hne Hl1|list hd H1|hd l Hm|hd l Hm];
    cbn [dl_step].
  1-10: apply void_step.
  - by apply list_add_head_rep.
  - by apply list_add_tail_rep.
  - destruct (unlink_rep h m hd l1 x l2 Hr Hm) as (h' & E & _ & ? & _ & ?). by exists h'.
  - apply (unlink_then h m hd l1 x l2); [done|done|]. intros h1 Hr1 Hu1 Hx. by apply list_init_rep.
  - apply (unlink_then h m hd l1 x l2); [done|done|]. intros h1 Hr1 Hu1 Hx. by apply list_add_head_rep.
  - apply (unlink_then h m hd l1 x l2); [done|done|]. intros h1 Hr1 Hu1 Hx. by apply list_add_tail_rep.
  - by apply splice_rep.
  - exists h. split; [|done]. unfold list_splice. by mstep by exact (list_empty_rep h m list [] Hr H1).
  - by apply splice_init_rep.
  - exists h. split; [|done]. unfold list_splice_init. by mstep by exact (list_empty_rep h m list [] Hr H1).
  - exists h. split; [|done]. by mstep by exact (list_empty_rep h m hd l Hr Hm).
  - exists h. split; [|done]. apply (list_size_rep h m hd l); [done|done|]. pose proof (length_below h m hd l Hr Hm). lia.
Qed.

Lemma same_nodes_size h h' : (forall a, node h' a <-> node h a) -> size h' = size h.
Proof. intros Hs. rewrite <- !size_dom. f_equal. apply set_eq. intros a. rewrite !elem_of_dom. apply Hs. Qed.

Lemma dl_run_refines (N : A -> Prop) m ops rs m' fuel : dl_specs N m ops rs m' ->
  forall h, (forall a, N a -> node h a) -> rep h m -> (size h <= fuel)%nat ->
  exists h', dl_run fuel ops h = Val (rs, h') /\ rep h' m'.
Proof.
  induction 1 as [m|m op r m1 ops rs m2 Hop _ IH]; intros h HN Hr Hf; cbn [dl_run].
  - by exists h.
  - assert (Hop' : dl_spec (node h) m op r m1) by (destruct Hop; econstructor; eauto).
    destruct (dl_step_refines h m op r m1 fuel Hr Hop' Hf) as (h1 & E1 & Hr1 & Hn1).
    destruct (IH h1) as (h2 & E2 & Hr2); [intros a Ha; by apply Hn1, HN|done|by rewrite (same_nodes_size h h1)|].
    exists h2. split; [|done]. mstep by exact E1. by mstep by exact E2.
Qed.
End dlist.

(** C27: any sequence of the calls on any lists of a heap does to the nodes
    what it does to lists: it returns, gives what the lists give, and leaves the
    heap representing them, whatever other lists there are. *)
Theorem dlists_refine `{Countable A} (h : gmap A (list_head A)) m ops rs m' fuel :
  rep h m -> dl_specs (node h) m ops rs m' -> (size h <= fuel)%nat ->
  exists h', dl_run fuel ops h = Val (rs, h') /\ rep h' m'.
Proof. intros Hr Hs Hf. by apply (dl_run_refines (node h) m ops rs m' fuel Hs h). Qed.

(** ** Witness *)

(** Two heads, 1 and 2, and three nodes. *)
Definition heap5 : gmap Z (list_head Z) :=
  list_to_map [(1, ListHead 1 1); (2, ListHead 2 2); (10, ListHead 0 0); (11, ListHead 0 0); (12, ListHead 0 0)].

Lemma heap5_rep : rep heap5 {[1 := []; 2 := []]}.
Proof.
  split.
  - intros hd l Hm. destruct (decide (hd = 1)) as [->|]; [|destruct (decide (hd = 2)) as [->|]].
    + injection Hm as <-. split; [apply NoDup_singleton|repeat split; reflexivity].
    + injection Hm as <-. split; [apply NoDup_singleton|repeat split; reflexivity].
    + by rewrite lookup_insert_ne, lookup_singleton_ne in Hm by done.
  - intros hd1 l1 hd2 l2 a H1 H2 Hne. apply lookup_insert_Some in H1 as [[<- <-]|[_ H1]], H2 as [[<- <-]|[_ H2]];
      [done|apply lookup_singleton_Some in H2 as [<- <-]|apply lookup_singleton_Some in H1 as [<- <-]|].
    + set_solver.
    + set_solver.
    + apply lookup_singleton_Some in H1 as [<- <-], H2 as [<- <-]. done.
Qed.

(** [a] is in none of finitely many lists. *)
Ltac unused_concrete :=
  let Hm := fresh in intros ? ? Hm;
  repeat (apply lookup_insert_Some in Hm as [[<- <-]|[_ Hm]]; [set_solver|]);
  try (apply lookup_delete_Some in Hm as [_ Hm]);
  repeat (apply lookup_insert_Some in Hm as [[<- <-]|[_ Hm]]; [set_solver|]);
  first [by rewrite lookup_empty in Hm | apply lookup_singleton_Some in Hm as [<- <-]; set_solver].

Lemma dlists_refine_witness :
  exists h', dl_run 5 [AddTail 10 1; AddTail 11 1; AddHead 12 1; Size 1; Move 11 2; SpliceInit 1 2; IsEmpty 1; Size 2] heap5 =
    Val ([0; 0; 0; 3; 0; 0; 1; 3], h') /\ rep h' {[1 := []; 2 := [12; 10; 11]]}.
Proof.
  refine (dlists_refine heap5 {[1 := []; 2 := []]} _ _ {[1 := []; 2 := [12; 10; 11]]} 5 heap5_rep _ _); [|reflexivity].
  eapply specs_cons; [apply (spec_add_tail _ _ 10 1 []); [reflexivity|unused_concrete|by eexists]|].
  eapply specs_cons; [apply (spec_add_tail _ _ 11 1 [10]); [reflexivity|unused_concrete|by eexists]|].
  eapply specs_cons; [apply (spec_add_head _ _ 12 1 [10; 11]); [reflexivity|unused_concrete|by eexists]|].
  eapply specs_cons; [apply (spec_size _ _ 1 [12; 10; 11]); reflexivity|].
  eapply specs_cons; [apply (spec_move _ _ 1 [12; 10] 11 [] 2 []); reflexivity|].
  eapply specs_cons; [apply (spec_splice_init _ _ 1 [12; 10] 2 [11]); [reflexivity|reflexivity|done|done]|].
  eapply specs_cons; [apply (spec_empty _ _ 1 []); reflexivity|].
  eapply specs_cons; [apply (spec_size _ _ 2 [12; 10; 11]); reflexivity|].
  apply specs_nil.
Defined.
