(* ===== verification/Intc.v ===== *)
(** * Interrupt dispatch (driver/intc/intc.c)

    The table of interrupt service routines and the list of those registered,
    sorted by priority, through which the FIQ and IRQ entries run the routines
    of the pending interrupts.  The routines and the wake-up of the power-save
    code are parameters that change the state [ext] behind the table, not the
    table itself.  An array element is a node by its index; memory is cleared
    at start-up, so that its members are null pointers. *)
From stdpp Require Import gmap.
From Stdlib Require Import Sorting.Sorted.
From S2P Require Import Prelude DrvModel Icu DList.
Local Open Scope Z_scope.

Definition INTC_MAX_COUNT : nat := 32.

(** The addresses of list nodes: null, [&isr_hdr.isr], [&_isrs[i].list]. *)
Inductive loc := Null | Hdr | Isr (i : nat).

#[export] Instance loc_eq_dec : EqDecision loc.
Proof. solve_decision. Defined.
#[export] Instance loc_countable : Countable loc.
Proof.
  refine (inj_countable' (fun l => match l with Null => None | Hdr => Some None | Isr i => Some (Some i) end)
    (fun o => match o with None => Null | Some None => Hdr | Some (Some i) => Isr i end) _).
  by intros [].
Defined.

(** The members besides [list]; [isr_func] is 0 for the null pointer. *)
Record ISR_T := ISR { isr_func : Z; pri : Z; int_num : Z }.

Record intc_st (W : Type) := IntcSt {
  nodes : gmap loc (list_head loc);
  _isrs : list ISR_T;
  isrs_mask : Z;
  ext : W;
}.
Arguments IntcSt {W}. Arguments nodes {W}. Arguments _isrs {W}. Arguments isrs_mask {W}. Arguments ext {W}.

(** Before the first registration. *)
Definition intc_start {W} (w : W) : intc_st W :=
  IntcSt (<[Hdr := ListHead Hdr Hdr]> (list_to_map (map (fun i => (Isr i, ListHead Null Null)) (seq 0 INTC_MAX_COUNT))))
    (replicate INTC_MAX_COUNT (ISR 0 0 0)) 0 w.

(** [1 << i] *)
Definition BIT (i : Z) : Z := u32 (Z.shiftl 1 i).

Section intc.
Context {W : Type} (call_isr : Z -> M W unit) (dtim_wake : Z -> M W unit).
Abbreviation st := (intc_st W).

(** A list operation, on the nodes of the table. *)
Definition on_nodes {A} (m : M (gmap loc (list_head loc)) A) : M st A := fun s =>
  match m (nodes s) with
  | Val (a, h) => Val (a, IntcSt h (_isrs s) (isrs_mask s) (ext s))
  | Err f => Err f
  end.
Definition on_ext {A} (m : M W A) : M st A := fun s =>
  match m (ext s) with
  | Val (a, w) => Val (a, IntcSt (nodes s) (_isrs s) (isrs_mask s) w)
  | Err f => Err f
  end.

Definition get_isr (i : nat) : M st ISR_T := s ← get; lift_res (of_option BadAccess (_isrs s !! i)).
Definition set_isr (i : nat) (e : ISR_T) : M st unit :=
  modify (fun s => IntcSt (nodes s) (<[i := e]> (_isrs s)) (isrs_mask s) (ext s)).
Definition set_mask (m : Z) : M st unit := modify (fun s => IntcSt (nodes s) (_isrs s) m (ext s)).

(** [list_entry(pos, ISR_T, list)]: the element that a node other than the
    header is in. *)
Definition list_entry (pos : loc) : M st nat :=
  match pos with Isr i => mret i | _ => fail BadAccess end.

Definition next_pos (p : loc) : M st loc := on_nodes (get_next p).

(** One element of the loop of [intc_hdl_entry]; it leaves when no bit is left. *)
Definition hdl_body (pos : loc) (status : Z) : M st (unit + Z) :=
  j ← list_entry pos; f ← get_isr j;
  let i := int_num f in
  status ← (if truthy (Z.land (BIT i) status) then
              (if truthy (isr_func f) then on_ext (call_isr (isr_func f)) else fail BadAccess);;
              mret (Z.ldiff status (BIT i))
            else mret status);
  mret (if status =? 0 then inl tt else inr status).

Definition intc_hdl_entry (fuel : nat) (int_status : Z) : M st unit :=
  s ← get;
  let status := Z.land int_status (isrs_mask s) in
  on_ext (dtim_wake status);;
  _ ← for_each next_pos hdl_body fuel Hdr status;
  mret tt.

(** One element of the loop of [intc_service_register]: [true] for [goto ok]
    after an insertion, [false] for [goto error]. *)
Definition register_body (int_pri : Z) (cur : loc) (pos : loc) (_ : unit) : M st (bool + unit) :=
  j ← list_entry pos; tmp ← get_isr j;
  if int_pri <? pri tmp then on_nodes (list_add_tail cur pos);; mret (inl true)
  else if int_pri =? pri tmp then mret (inl false)
  else mret (inr tt).

(** The insertion: whether it goes to [ok]. *)
Definition insert_isr (fuel : nat) (int_pri : Z) (cur : loc) : M st bool :=
  empty ← on_nodes (list_empty Hdr);
  if empty : bool then on_nodes (list_add_head cur Hdr);; mret true
  else
    r ← for_each next_pos (register_body int_pri cur) fuel Hdr tt;
    match r with
    | inl ok => mret ok
    | inr _ => on_nodes (list_add_tail cur Hdr);; mret true
    end.

(** [buf_ele = _isrs[k]] and [_isrs[k] = buf_ele], with the member [list]. *)
Definition load_isr (k : nat) : M st (ISR_T * list_head loc) :=
  e ← get_isr k; l ← on_nodes (h ← get; lift_res (of_option BadAccess (h !! Isr k))); mret (e, l).
Definition store_isr (k : nat) (buf : ISR_T * list_head loc) : M st unit :=
  set_isr k (fst buf);; on_nodes (modify (<[Isr k := snd buf]>)).

Definition intc_service_register (fuel : nat) (num int_pri isr : Z) : M st unit :=
  let k := Z.to_nat num in
  buf_ele ← load_isr k;
  set_isr k (ISR isr int_pri num);;
  ok ← insert_isr fuel int_pri (Isr k);
  if ok : bool then s ← get; set_mask (Z.lor (isrs_mask s) (BIT num))
  else store_isr k buf_ele.

(** The loop of [intc_service_change_handler] looks for an element of the
    same priority. *)
Definition change_body (int_pri : Z) (pos : loc) (_ : unit) : M st (unit + unit) :=
  j ← list_entry pos; tmp ← get_isr j;
  mret (if int_pri =? pri tmp then inl tt else inr tt).

Definition intc_service_change_handler (fuel : nat) (num isr : Z) : M st unit :=
  let k := Z.to_nat num in
  '(e, l) ← load_isr k;
  if negb (truthy (isr_func e)) then mret tt
  else
    empty ← on_nodes (list_empty Hdr);
    e ← (if empty : bool then mret e
         else
           r ← for_each next_pos (change_body (pri e)) fuel Hdr tt;
           mret (match r with inl _ => ISR isr (pri e) (int_num e) | inr _ => e end));
    store_isr k (e, l).

Definition intc_spurious : M st unit := fail AssertFail.
End intc.

(** ** The entries, over the interrupt unit *)
Section entries.
Context {hw : Type} `{RegBus hw} (call_isr : Z -> M hw unit) (dtim_wake : Z -> M hw unit).

Definition intc_irq (fuel : nat) : M (intc_st hw) unit :=
  irq_status ← on_ext (icu_ctrl CMD_GET_INTR_STATUS None);
  let irq_status := Z.land irq_status 0xFFFF in
  _ ← on_ext (icu_ctrl CMD_CLR_INTR_STATUS (Some irq_status));
  intc_hdl_entry call_isr dtim_wake fuel irq_status.

Definition intc_fiq (fuel : nat) : M (intc_st hw) unit :=
  fiq_status ← on_ext (icu_ctrl CMD_GET_INTR_STATUS None);
  let fiq_status := Z.land fiq_status 0xFFFF0000 in
  _ ← on_ext (icu_ctrl CMD_CLR_INTR_STATUS (Some fiq_status));
  intc_hdl_entry call_isr dtim_wake fuel fiq_status.

(** [sdev_ops]: the operations behind the registered addresses. *)
Context (sdev_ops : Z -> SDD_OPERATIONS hw).

Definition intc_enable (index : Z) : M (drv_state hw) unit :=
  _ ← sddev_control sdev_ops (Some ICU_DEV_NAME) CMD_ICU_INT_ENABLE (u32 (Z.shiftl 1 index)); mret tt.
Definition intc_disable (index : Z) : M (drv_state hw) unit :=
  _ ← sddev_control sdev_ops (Some ICU_DEV_NAME) CMD_ICU_INT_DISABLE (u32 (Z.shiftl 1 index)); mret tt.

Definition FIQ_DPLL_UNLOCK : Z := 28.
Definition FIQ_MAC_GENERAL : Z := 22.
Definition FIQ_MAC_PROT_TRIGGER : Z := 21.
Definition FIQ_MAC_TX_TRIGGER : Z := 20.
Definition FIQ_MAC_RX_TRIGGER : Z := 19.
Definition FIQ_MAC_TX_RX_MISC : Z := 18.
Definition FIQ_MAC_TX_RX_TIMER : Z := 17.
Definition FIQ_MODEM : Z := 16.
Definition GINTR_FIQ_BIT : Z := Z.shiftl 1 1.
Definition GINTR_IRQ_BIT : Z := Z.shiftl 1 0.

(** The exception entries of the start-up code, by address. *)
Record vectors := Vectors { do_irq : Z; do_fiq : Z; do_swi : Z; do_undefined : Z; do_pabort : Z; do_dabort : Z; do_reserved : Z }.

Definition intc_init (v : vectors) : M (drv_state hw) unit :=
  call (REG_WRITE 0x400000 (do_irq v));;
  call (REG_WRITE 0x400004 (do_fiq v));;
  call (REG_WRITE 0x400008 (do_swi v));;
  call (REG_WRITE 0x40000c (do_undefined v));;
  call (REG_WRITE 0x400010 (do_pabort v));;
  call (REG_WRITE 0x400014 (do_dabort v));;
  call (REG_WRITE 0x400018 (do_reserved v));;
  intc_enable FIQ_MAC_GENERAL;;
  intc_enable FIQ_MAC_PROT_TRIGGER;;
  intc_enable FIQ_MAC_TX_TRIGGER;;
  intc_enable FIQ_MAC_RX_TRIGGER;;
  intc_enable FIQ_MAC_TX_RX_MISC;;
  intc_enable FIQ_MAC_TX_RX_TIMER;;
  intc_enable FIQ_MODEM;;
  _ ← sddev_control sdev_ops (Some ICU_DEV_NAME) CMD_ICU_GLOBAL_INT_ENABLE (Z.lor GINTR_FIQ_BIT GINTR_IRQ_BIT);
  mret tt.

(** [for (int i = 0; i <= FIQ_DPLL_UNLOCK; i++) intc_disable(i);] *)
Fixpoint disable_from (turns : nat) (i : Z) : M (drv_state hw) unit :=
  match turns with
  | O => mret tt
  | S turns' => intc_disable i;; disable_from turns' (i + 1)
  end.

Definition intc_deinit : M (drv_state hw) unit :=
  disable_from (Z.to_nat (FIQ_DPLL_UNLOCK + 1)) 0;;
  _ ← sddev_control sdev_ops (Some ICU_DEV_NAME) CMD_ICU_GLOBAL_INT_DISABLE (Z.lor GINTR_FIQ_BIT GINTR_IRQ_BIT);
  mret tt.
End entries.

(** ** The table as a list sorted by priority *)

(** A routine takes its place; one of a priority already there is dropped. *)
Fixpoint table_insert (e : ISR_T) (es : list ISR_T) : list ISR_T :=
  match es with
  | [] => [e]
  | x :: es' => if pri e <? pri x then e :: es else if pri e =? pri x then es else x :: table_insert e es'
  end.

(** A routine that is there is replaced. *)
Definition changed (num isr : Z) (e : ISR_T) : ISR_T :=
  if (int_num e =? num) && truthy (isr_func e) then ISR isr (pri e) (int_num e) else e.
Definition table_change (num isr : Z) (es : list ISR_T) : list ISR_T := map (changed num isr) es.

(** The routines whose bits are pending, in the order of the table. *)
Fixpoint serve {W} (call_isr : Z -> M W unit) (es : list ISR_T) (status : Z) : M W unit :=
  match es with
  | [] => mret tt
  | e :: es' =>
    (if Z.testbit status (int_num e) then (if truthy (isr_func e) then call_isr (isr_func e) else fail BadAccess)
     else mret tt);;
    serve call_isr es' status
  end.

Definition index (e : ISR_T) : nat := Z.to_nat (int_num e).
Definition node_of (e : ISR_T) : loc := Isr (index e).

(** [es]: the registered elements, in the order of the list. *)
Record table_rep {W} (es : list ISR_T) (s : intc_st W) : Prop := {
  tr_list : dlist (nodes s) Hdr (map node_of es);
  tr_nodes : forall i, (i < INTC_MAX_COUNT)%nat -> node (nodes s) (Isr i);
  tr_len : length (_isrs s) = INTC_MAX_COUNT;
  tr_elem : forall e, e ∈ es -> 0 <= int_num e < 32 /\ _isrs s !! index e = Some e;
  tr_free : forall i e, _isrs s !! i = Some e -> Isr i ∉ map node_of es -> isr_func e = 0;
  tr_sorted : StronglySorted (fun e e' => pri e < pri e') es;
  tr_mask : forall i, 0 <= i -> Z.testbit (isrs_mask s) i = true <-> exists e, e ∈ es /\ int_num e = i;
}.

Lemma BIT_testbit i j : 0 <= i < 32 -> 0 <= j -> Z.testbit (BIT i) j = (i =? j).
Proof.
  intros Hi Hj. unfold BIT. assert (H0 : 0 < 2 ^ i) by (by apply Z.pow_pos_nonneg; lia).
  assert (2 ^ i <= 2 ^ 31) by (apply Z.pow_le_mono_r; lia).
  rewrite Z.shiftl_1_l, u32_id by (unfold is_u32; lia). apply Z.pow2_bits_eqb. lia.
Qed.

Lemma BIT_pending i status : 0 <= i < 32 -> truthy (Z.land (BIT i) status) = Z.testbit status i.
Proof.
  intros Hi. unfold truthy. assert (Hbit : forall j, 0 <= j -> Z.testbit (Z.land (BIT i) status) j = (i =? j) && Z.testbit status j)
    by (intros j Hj; by rewrite Z.land_spec, BIT_testbit by lia).
  destruct (Z.eqb_spec (Z.land (BIT i) status) 0) as [E|Hne]; cbn [negb].
  - specialize (Hbit i ltac:(lia)). by rewrite E, Z.bits_0, Z.eqb_refl in Hbit.
  - destruct (Z.testbit status i) eqn:Ei; [done|]. exfalso. apply Hne. apply Z.bits_inj'. intros j Hj.
    rewrite Hbit, Z.bits_0 by done. destruct (Z.eqb_spec i j) as [<-|]; [by rewrite Ei|done].
Qed.

Lemma ext_rep {W W'} es (s : intc_st W) (s' : intc_st W') : nodes s' = nodes s -> _isrs s' = _isrs s -> isrs_mask s' = isrs_mask s ->
  table_rep es s -> table_rep es s'.
Proof. intros E1 E2 E3 []. split; by rewrite ?E1, ?E2, ?E3. Qed.

Lemma table_insert_has e es : (forall x, x ∈ es -> pri x <> pri e) -> e ∈ table_insert e es.
Proof.
  induction es as [|x es IH]; intros Hx; cbn [table_insert]; [set_solver|].
  destruct (pri e <? pri x); [set_solver|]. rewrite (proj2 (Z.eqb_neq _ _)) by (intros E; apply (Hx x); [set_solver|done]).
  apply elem_of_cons. right. apply IH. intros y Hy. apply Hx. set_solver.
Qed.

(** *** What the calls access of the state behind the table *)
Section accesses.
Context {hw W : Type} `{RegBus hw} (proj : W -> hw) (P : Z -> bool).
Abbreviation behind := (fun s : intc_st W => proj (ext s)).

Lemma touches_on_ext {A} (m : M W A) : touches proj P m -> touches behind P (on_ext m).
Proof.
  intros Hm R HR s a s'. unfold on_ext. destruct (m (ext s)) as [[b w]|] eqn:E; [|done]. intros [= _ <-]. cbn. by eapply Hm.
Qed.

Lemma touches_on_nodes {A} (m : M (gmap loc (list_head loc)) A) : touches behind P (on_nodes m).
Proof. apply touches_quiet. intros s a s'. unfold on_nodes. destruct (m (nodes s)) as [[b h]|]; [|done]. by intros [= _ <-]. Qed.
Lemma touches_set_isr i e : touches behind P (set_isr i e).
Proof. by apply touches_modify. Qed.
Lemma touches_set_mask m : touches behind P (set_mask m).
Proof. by apply touches_modify. Qed.

Lemma touches_for_each {R C} next_of (body : loc -> C -> M (intc_st W) (R + C)) fuel hd acc :
  (forall p, touches behind P (next_of p)) -> (forall p c, touches behind P (body p c)) ->
  touches behind P (for_each next_of body fuel hd acc).
Proof.
  intros Hn Hb. unfold for_each. apply touches_bind; [done|intros pos]. apply touches_bind; [done|intros n].
  revert pos n acc. induction fuel as [|fuel IH]; intros pos n acc; cbn [list_for_each_safe]; touch; auto.
Qed.

Lemma service_register_touches fuel num int_pri isr : touches behind P (intc_service_register fuel num int_pri isr).
Proof.
  unfold intc_service_register, load_isr, insert_isr, store_isr, get_isr.
  repeat first [progress touch | apply touches_on_nodes | apply touches_set_isr | apply touches_set_mask].
  apply touches_for_each; intros; unfold register_body, list_entry, get_isr, next_pos;
    repeat first [progress touch | apply touches_on_nodes].
Qed.
End accesses.

Section base.
Context {W : Type}.
Implicit Types (s : intc_st W) (es : list ISR_T).

Definition with_nodes s h : intc_st W := IntcSt h (_isrs s) (isrs_mask s) (ext s).
Definition with_ext s w : intc_st W := IntcSt (nodes s) (_isrs s) (isrs_mask s) w.

(** A run on [ext], seen from the whole state. *)
Definition on_ext_res {A} s (r : res (A * W)) : res (A * intc_st W) :=
  match r with Val (a, w) => Val (a, with_ext s w) | Err f => Err f end.

Lemma next_pos_val s p n : nxt (nodes s) p = Some n -> next_pos p s = Val (n, s).
Proof. intros Hn. unfold next_pos, on_nodes. rewrite (get_next_val _ _ _ Hn). by destruct s. Qed.

Lemma get_isr_val s i e : _isrs s !! i = Some e -> get_isr i s = Val (e, s).
Proof. intros He. unfold get_isr. mstep. unfold lift_res. by rewrite He. Qed.

(** Distinct elements, at most 32. *)
Lemma rep_nodup es s : table_rep es s -> NoDup (map node_of es) /\ NoDup (map int_num es) /\ (length es <= INTC_MAX_COUNT)%nat.
Proof.
  intros Hr. destruct (tr_list es s Hr) as [Hnd _]. inversion_clear Hnd as [|? ? _ Hnd']. split; [done|]. split.
  - apply (NoDup_fmap_1 (fun z => Isr (Z.to_nat z))). revert Hnd'. clear. change (NoDup (node_of <$> es) -> NoDup ((fun z => Isr (Z.to_nat z)) <$> (int_num <$> es))).
    by rewrite <- list_fmap_compose.
  - assert (Hsub : map node_of es ⊆+ (Isr <$> seq 0 INTC_MAX_COUNT)).
    { apply NoDup_submseteq; [done|]. intros x Hx. apply list_elem_of_fmap in Hx as (e & -> & He).
      destruct (tr_elem es s Hr e He) as [Hi _]. change (node_of e) with (Isr (index e)). apply list_elem_of_fmap_2. apply elem_of_seq. unfold index, INTC_MAX_COUNT. lia. }
    apply submseteq_length in Hsub. by rewrite length_map, length_fmap, length_seq in Hsub.
Qed.

End base.

Section table.
Context {W : Type} (call_isr : Z -> M W unit) (dtim_wake : Z -> M W unit).
Implicit Types (s : intc_st W) (es : list ISR_T).

Lemma hdl_body_keeps pos status s status' s' : hdl_body call_isr pos status s = Val (inr status', s') -> nodes s' = nodes s.
Proof.
  unfold hdl_body. destruct pos as [| |i]; [done..|]. cbn [list_entry]. unfold get_isr.
  unfold mbind, M_bind, mret, M_ret, get, lift_res, of_option. destruct (_isrs s !! i) as [f|]; [|done].
  destruct (truthy _); [|by intros [= _ <-]]. destruct (truthy (isr_func f)); [|done].
  unfold on_ext. destruct (call_isr (isr_func f) (ext s)) as [[[] w]|]; [|done]. by intros [= _ <-].
Qed.

Lemma serve_zero es w : serve call_isr es 0 w = Val (tt, w).
Proof. revert w. induction es as [|e es IH]; intros w; cbn [serve]; [done|]. rewrite Z.bits_0. mstep. apply IH. Qed.

Lemma serve_ext es st1 st2 : (forall e, e ∈ es -> Z.testbit st1 (int_num e) = Z.testbit st2 (int_num e)) ->
  serve call_isr es st1 = serve call_isr es st2.
Proof.
  induction es as [|e es IH]; intros He; cbn [serve]; [done|]. rewrite (He e) by set_solver.
  f_equal. rewrite IH by set_solver. done.
Qed.

Definition run_isr (e : ISR_T) : M W unit := if truthy (isr_func e) then call_isr (isr_func e) else fail BadAccess.

Lemma hdl_body_val e status s : 0 <= int_num e < 32 -> _isrs s !! index e = Some e ->
  hdl_body call_isr (node_of e) status s =
    if Z.testbit status (int_num e) then
      let status' := Z.ldiff status (BIT (int_num e)) in
      match run_isr e (ext s) with
      | Val (_, w) => Val (if status' =? 0 then inl tt else inr status', with_ext s w)
      | Err f => Err f
      end
    else Val (if status =? 0 then inl tt else inr status, s).
Proof.
  intros Hi He. unfold hdl_body. mstep. mstep by exact (get_isr_val s _ e He). rewrite BIT_pending by done.
  destruct (Z.testbit status (int_num e)); [|by mstep].
  unfold run_isr. cbv zeta. unfold mbind, M_bind, mret, M_ret, on_ext, fail. destruct (truthy (isr_func e)); [|done].
  destruct (call_isr (isr_func e) (ext s)) as [[[] w]|]; done.
Qed.

Lemma serve_cons e es status : serve call_isr (e :: es) status =
  ((if Z.testbit status (int_num e) then run_isr e else mret tt);; serve call_isr es status).
Proof. done. Qed.

Lemma serve_later e es status w : 0 <= int_num e < 32 -> (forall x, x ∈ es -> 0 <= int_num x < 32) ->
  int_num e ∉ map int_num es ->
  serve call_isr es (Z.ldiff status (BIT (int_num e))) w = serve call_isr es status w.
Proof.
  intros Hi Hes Hin. erewrite serve_ext; [done|]. intros x Hx. rewrite Z.ldiff_spec, BIT_testbit by (done || by apply Hes).
  destruct (Z.eqb_spec (int_num e) (int_num x)) as [E|]; [|by rewrite andb_true_r].
  exfalso. apply Hin. rewrite E. by apply list_elem_of_fmap_2.
Qed.

(** The loop runs the routines of the pending bits. *)
Lemma hdl_fold es : forall status s, (forall e, e ∈ es -> 0 <= int_num e < 32 /\ _isrs s !! index e = Some e) ->
  NoDup (map int_num es) ->
  match serve call_isr es status (ext s) with
  | Val (_, w) => exists r, each_fold (hdl_body call_isr) (map node_of es) status s = Val (r, with_ext s w)
  | Err f => each_fold (hdl_body call_isr) (map node_of es) status s = Err f
  end.
Proof.
  induction es as [|e es IH]; intros status s Hes Hnd.
  { cbn. exists (inr status). by destruct s. }
  inversion_clear Hnd as [|? ? Hin Hnd']. destruct (Hes e ltac:(set_solver)) as [Hi He].
  (* what is left of the loop, with the next status *)
  assert (Hrest : forall st w, match serve call_isr es st w with
    | Val (_, w') => exists r, (match (if st =? 0 then inl tt else inr st) with
        | inl r => mret (inl r) | inr acc => each_fold (hdl_body call_isr) (map node_of es) acc end) (with_ext s w) =
        Val (r, with_ext s w')
    | Err f => (match (if st =? 0 then inl tt else inr st) with
        | inl r => mret (inl r) | inr acc => each_fold (hdl_body call_isr) (map node_of es) acc end) (with_ext s w) = Err f
    end).
  { intros st w. destruct (Z.eqb_spec st 0) as [->|].
    - rewrite serve_zero. by eexists.
    - apply (IH st (with_ext s w)); [intros x Hx; apply Hes; set_solver|done]. }
  rewrite serve_cons. cbn [map each_fold]. unfold mbind at 1 2 3, M_bind at 1 2 3. rewrite hdl_body_val by done.
  destruct (Z.testbit status (int_num e)).
  - cbv zeta. destruct (run_isr e (ext s)) as [[[] w]|f]; [|done].
    rewrite <- (serve_later e es status w) by (done || intros x Hx; apply Hes; set_solver). apply Hrest.
  - change ((mret tt : M W unit) (ext s)) with (Val (tt, ext s)). cbv beta iota.
    specialize (Hrest status (ext s)). by replace (with_ext s (ext s)) with s in Hrest by (by destruct s).
Qed.

Lemma hdl_entry_val es s fuel int_status : table_rep es s -> (INTC_MAX_COUNT < fuel)%nat ->
  intc_hdl_entry call_isr dtim_wake fuel int_status s =
    on_ext_res s ((dtim_wake (Z.land int_status (isrs_mask s));; serve call_isr es int_status) (ext s)).
Proof.
  intros Hr Hf. unfold intc_hdl_entry. mstep. unfold mbind at 1 2 3, M_bind at 1 2 3. unfold on_ext at 1.
  destruct (dtim_wake (Z.land int_status (isrs_mask s)) (ext s)) as [[[] w]|f]; [|done].
  change (IntcSt (nodes s) (_isrs s) (isrs_mask s) w) with (with_ext s w).
  destruct (rep_nodup es s Hr) as (_ & Hnum & Hlen).
  assert (Hloop : for_each next_pos (hdl_body call_isr) fuel Hdr (Z.land int_status (isrs_mask s)) (with_ext s w) =
    each_fold (hdl_body call_isr) (map node_of es) (Z.land int_status (isrs_mask s)) (with_ext s w)).
  { apply (for_each_val nodes); [exact next_pos_val|exact hdl_body_keeps|exact (tr_list es s Hr)|rewrite length_map; lia]. }
  rewrite Hloop. pose proof (hdl_fold es (Z.land int_status (isrs_mask s)) (with_ext s w)) as Hfold.
  rewrite (serve_ext es (Z.land int_status (isrs_mask s)) int_status) in Hfold.
  2: { intros e He. destruct (tr_elem es s Hr e He) as [Hi _]. rewrite Z.land_spec.
    rewrite (proj2 (tr_mask es s Hr (int_num e) ltac:(lia))), andb_true_r by (by exists e). done. }
  specialize (Hfold (tr_elem es s Hr) Hnum). change (ext (with_ext s w)) with w in Hfold.
  destruct (serve call_isr es int_status w) as [[[] w']|f]; [|by rewrite Hfold]. destruct Hfold as [r ->]. done.
Qed.

End table.

(** One interrupt alone. *)
Lemma serve_one {W} (call_isr : Z -> M W unit) es e w : e ∈ es -> NoDup (map int_num es) -> (forall x, x ∈ es -> 0 <= int_num x < 32) ->
  serve call_isr es (BIT (int_num e)) w = run_isr call_isr e w.
Proof.
  intros He Hnd Hr. assert (Hbit : forall x, x ∈ es -> Z.testbit (BIT (int_num e)) (int_num x) = (int_num e =? int_num x))
    by (intros x Hx; apply BIT_testbit; [by apply Hr|by apply Hr]).
  clear Hr. revert w. generalize (BIT (int_num e)) Hbit. clear Hbit. intros st Hbit.
  assert (Hnone : forall l w, (forall x, x ∈ l -> Z.testbit st (int_num x) = false) -> serve call_isr l st w = Val (tt, w)).
  { induction l as [|x l IH]; intros w Hl; [done|]. cbn [serve]. rewrite Hl by set_solver. mstep. apply IH. set_solver. }
  induction es as [|x es IH]; [set_solver|]. cbn [map] in Hnd. apply list.NoDup_cons in Hnd as [Hx Hnd]. intros w. rewrite serve_cons.
  rewrite Hbit by set_solver. apply elem_of_cons in He as [<-|He].
  - rewrite Z.eqb_refl. unfold mbind, M_bind. destruct (run_isr call_isr _ w) as [[[] w']|]; [|done]. apply Hnone.
    intros y Hy. rewrite Hbit by set_solver. apply Z.eqb_neq. intros E. apply Hx. rewrite E. apply list_elem_of_fmap. eauto.
  - rewrite (proj2 (Z.eqb_neq _ _)).
    + mstep. apply IH; [done|done|]. intros y Hy. apply Hbit. set_solver.
    + intros E. apply Hx. rewrite <- E. apply list_elem_of_fmap. eauto.
Qed.

(** *** Registration *)

Section registration.
Context {W : Type}.
Implicit Types (s : intc_st W) (es : list ISR_T).

Lemma insert_cases e es : StronglySorted (fun e e' => pri e < pri e') es ->
  (table_insert e es = es /\ exists es1 x es2, es = es1 ++ x :: es2 /\ (forall y, y ∈ es1 -> pri y < pri e) /\ pri x = pri e) \/
  (exists es1 es2, es = es1 ++ es2 /\ table_insert e es = es1 ++ e :: es2 /\
    (forall x, x ∈ es1 -> pri x < pri e) /\ (forall x, x ∈ es2 -> pri e < pri x)).
Proof.
  induction 1 as [|x es Hs IH Hall]; cbn [table_insert].
  - right. exists [], []. set_solver.
  - rewrite list.Forall_forall in Hall. destruct (Z.ltb_spec (pri e) (pri x)) as [Hlt|Hge].
    { right. exists [], (x :: es). split_and!; [done|done|set_solver|]. intros y Hy. apply elem_of_cons in Hy as [->|Hy]; [done|].
      specialize (Hall y Hy). lia. }
    destruct (Z.eqb_spec (pri e) (pri x)) as [Heq|Hne]; [left; split; [done|exists [], x, es; set_solver]|].
    destruct IH as [(-> & es1 & y & es2 & He & H1 & Hp)|(es1 & es2 & He & -> & H1 & H2)].
    + left. split; [done|]. exists (x :: es1), y, es2. rewrite He. split_and!; [done| |done].
      intros z Hz. apply elem_of_cons in Hz as [->|Hz]; [lia|auto].
    + right. exists (x :: es1), es2. rewrite He. split_and!; [done|done| |done].
      intros y Hy. apply elem_of_cons in Hy as [->|Hy]; [lia|auto].
Qed.

(** The loop over elements of smaller priority numbers goes on. *)
Lemma register_skip int_pri cur es1 l s : (forall e, e ∈ es1 -> _isrs s !! index e = Some e /\ pri e < int_pri) ->
  each_fold (register_body int_pri cur) (map node_of es1 ++ l) tt s = each_fold (register_body int_pri cur) l tt s.
Proof.
  induction es1 as [|e es1 IH]; intros He; [done|]. destruct (He e ltac:(set_solver)) as [Hget Hlt]. cbn [map app each_fold].
  erewrite bind_ret_val.
  2: { unfold register_body. mstep. mstep by exact (get_isr_val s _ e Hget).
    rewrite (proj2 (Z.ltb_ge _ _)), (proj2 (Z.eqb_neq _ _)) by lia. reflexivity. }
  apply IH. set_solver.
Qed.

Lemma register_keeps int_pri cur pos acc s acc' s' : register_body int_pri cur pos acc s = Val (inr acc', s') -> nodes s' = nodes s.
Proof.
  unfold register_body. destruct pos as [| |i]; [done..|]. cbn [list_entry]. unfold get_isr.
  unfold mbind, M_bind, mret, M_ret, get, lift_res, of_option. destruct (_isrs s !! i) as [f|]; [|done].
  destruct (int_pri <? pri f); [|destruct (int_pri =? pri f); [done|by intros [= _ <-]]].
  destruct (on_nodes _ s) as [[[] ?]|]; done.
Qed.

Lemma on_nodes_val {A} (m : M (gmap loc (list_head loc)) A) s a h : m (nodes s) = Val (a, h) -> on_nodes m s = Val (a, with_nodes s h).
Proof. unfold on_nodes. by intros ->. Qed.

Lemma list_empty_dlist (h : gmap loc (list_head loc)) hd l : dlist h hd l -> list_empty hd h = Val (bool_decide (l = []), h).
Proof.
  intros Hd. apply (list_empty_rep h {[hd := l]}); [|by rewrite lookup_singleton_eq]. split.
  - intros hd' l' Hm. by apply lookup_singleton_Some in Hm as [<- <-].
  - intros hd1 l1 hd2 l2 a H1 H2. by apply lookup_singleton_Some in H1 as [<- <-], H2 as [<- <-].
Qed.

(** A new element finds its place, or one of its priority. *)
Lemma insert_isr_val fuel e es s : dlist (nodes s) Hdr (map node_of es) ->
  (forall x, x ∈ es -> _isrs s !! index x = Some x) -> StronglySorted (fun e e' => pri e < pri e') es ->
  node (nodes s) (node_of e) -> node_of e ∉ map node_of es -> (length es < fuel)%nat ->
  exists ok h, insert_isr fuel (pri e) (node_of e) s = Val (ok, with_nodes s h) /\
    if ok : bool then (exists es1 es2, es = es1 ++ es2 /\ table_insert e es = es1 ++ e :: es2) /\
      dlist h Hdr (map node_of (table_insert e es)) /\ (forall a, node h a <-> node (nodes s) a)
    else h = nodes s /\ table_insert e es = es.
Proof.
  intros Hd Hes Hs Hn Hout Hf. unfold insert_isr.
  assert (Hins : forall es1 es2, es = es1 ++ es2 -> exists h', 
    __list_add (node_of e) (before Hdr (map node_of es1)) (first_of Hdr (map node_of es2)) (nodes s) = Val (tt, h') /\
    dlist h' Hdr (map node_of (es1 ++ e :: es2)) /\ (forall a, node h' a <-> node (nodes s) a)).
  { intros es1 es2 ->. rewrite map_app in Hd, Hout. destruct (dlist_insert (nodes s) Hdr _ _ (node_of e) Hd Hn) as (h' & E & Hd' & Hsame).
    { intros Hin. apply elem_of_cons in Hin as [Hin|Hin]; [done|by apply Hout]. }
    exists h'. split; [done|]. rewrite map_app. split; [done|apply Hsame]. }
  destruct (decide (es = [])) as [->|Hne].
  { destruct (Hins [] [] eq_refl) as (h' & E & Hd' & Hsame). exists true, h'. split; [|split; [by exists [], []|done]].
    mstep by (exact (on_nodes_val _ s _ _ (list_empty_dlist _ _ _ Hd))). rewrite bool_decide_true by done.
    destruct s as [h0 ? ? ?]. mstep by (apply on_nodes_val; unfold list_add_head;
      mstep by exact (get_next_val _ _ _ (dlist_first _ _ _ Hd)); exact E). done. }
  rewrite (bind_ret_val _ _ s _ _ (on_nodes_val _ s _ _ (list_empty_dlist _ _ _ Hd))), bool_decide_false by (by destruct es).
  replace (with_nodes s (nodes s)) with s by (by destruct s).
  assert (Hloop : for_each next_pos (register_body (pri e) (node_of e)) fuel Hdr tt s =
    each_fold (register_body (pri e) (node_of e)) (map node_of es) tt s).
  { apply (for_each_val nodes); [exact next_pos_val|intros ? ? ? ? ?; apply register_keeps|done|rewrite length_map; lia]. }
  destruct (insert_cases e es Hs) as [(Hsame & es1 & x & es2 & -> & H1 & Hp)|(es1 & es2 & -> & Htab & H1 & H2)].
  - exists false, (nodes s). split; [|done]. replace (with_nodes s (nodes s)) with s by (by destruct s). mstep by (rewrite Hloop, map_app, register_skip by (intros y Hy; split; [apply Hes; set_solver|by apply H1]);
      cbn [map each_fold]; mstep by (unfold register_body; mstep; mstep by (apply (get_isr_val s _ x), Hes; set_solver);
        rewrite Hp, Z.ltb_irrefl, Z.eqb_refl; reflexivity); reflexivity). reflexivity.
  - destruct (Hins es1 es2 eq_refl) as (h' & E & Hd' & Hsame). exists true, h'. rewrite Htab. split; [|split; [by exists es1, es2|done]].
    assert (Hskip : each_fold (register_body (pri e) (node_of e)) (map node_of (es1 ++ es2)) tt s =
      each_fold (register_body (pri e) (node_of e)) (map node_of es2) tt s).
    { rewrite map_app. apply register_skip. intros y Hy. split; [apply Hes; set_solver|by apply H1]. }
    destruct es2 as [|x es2].
    + mstep by (rewrite Hloop, Hskip; reflexivity). cbv beta iota. rewrite app_nil_r in Hd.
      mstep by (apply on_nodes_val; unfold list_add_tail; mstep by exact (get_prev_val _ _ _ (dlist_last _ _ _ Hd)); exact E). done.
    + rewrite map_app in Hd. destruct (dlist_remove _ _ _ _ _ Hd) as (Hprev & _ & _).
      mstep by (rewrite Hloop, Hskip; cbn [map each_fold]; mstep by (unfold register_body; mstep;
        mstep by (apply (get_isr_val s _ x), Hes; set_solver);
        rewrite (proj2 (Z.ltb_lt _ _)) by (apply H2; set_solver);
        mstep by (apply on_nodes_val; unfold list_add_tail; mstep by exact (get_prev_val _ _ _ Hprev); exact E); reflexivity);
        reflexivity). done.
Qed.

Lemma table_insert_elem e es x : x ∈ table_insert e es -> x = e \/ x ∈ es.
Proof.
  induction es as [|y es IH]; cbn [table_insert]; [set_solver|]. destruct (pri e <? pri y); [set_solver|].
  destruct (pri e =? pri y); set_solver.
Qed.

Lemma table_insert_sorted e es : StronglySorted (fun e e' => pri e < pri e') es ->
  StronglySorted (fun e e' => pri e < pri e') (table_insert e es).
Proof.
  induction 1 as [|x es Hs IH Hall]; cbn [table_insert]; [repeat constructor|]. rewrite list.Forall_forall in Hall.
  destruct (Z.ltb_spec (pri e) (pri x)) as [Hlt|Hge].
  - constructor; [constructor; [done|by apply list.Forall_forall]|]. apply list.Forall_forall. intros y Hy.
    apply elem_of_cons in Hy as [->|Hy]; [done|]. specialize (Hall y Hy). lia.
  - destruct (Z.eqb_spec (pri e) (pri x)); (constructor; [done|]); apply list.Forall_forall; intros y Hy; [auto|].
    apply table_insert_elem in Hy as [->|Hy]; [lia|auto].
Qed.

Lemma load_isr_val s k e l : _isrs s !! k = Some e -> nodes s !! Isr k = Some l -> load_isr k s = Val (e, l, s).
Proof.
  intros He Hl. unfold load_isr. mstep by exact (get_isr_val s k e He).
  mstep by (apply (on_nodes_val _ s l (nodes s)); mstep; unfold lift_res; by rewrite Hl). by destruct s.
Qed.

Lemma rep_slot es s num : table_rep es s -> 0 <= num < 32 ->
  exists e l, _isrs s !! Z.to_nat num = Some e /\ nodes s !! Isr (Z.to_nat num) = Some l.
Proof.
  intros Hr Hn. destruct (tr_nodes es s Hr (Z.to_nat num)) as [l Hl]; [unfold INTC_MAX_COUNT; lia|].
  destruct (lookup_lt_is_Some_2 (_isrs s) (Z.to_nat num)) as [e He]; [rewrite (tr_len es s Hr); unfold INTC_MAX_COUNT; lia|].
  by exists e, l.
Qed.

Lemma register_val es s fuel num p f : table_rep es s -> 0 <= num < 32 -> num ∉ map int_num es ->
  (INTC_MAX_COUNT < fuel)%nat ->
  exists s', intc_service_register fuel num p f s = Val (tt, s') /\ ext s' = ext s /\
    table_rep (table_insert (ISR f p num) es) s' /\ (table_insert (ISR f p num) es = es -> s' = s).
Proof.
  intros Hr Hn Hout Hf. destruct (rep_slot es s num Hr Hn) as (e0 & l0 & He0 & Hl0).
  destruct (rep_nodup es s Hr) as (_ & _ & Hlen). set (e := ISR f p num). set (k := Z.to_nat num) in *.
  assert (Hk : node_of e ∉ map node_of es).
  { intros Hin. apply list_elem_of_fmap in Hin as (x & Hx & Hxin). destruct (tr_elem es s Hr x Hxin) as [Hi _].
    injection Hx as Hx. unfold index in Hx. cbn in Hx. apply Hout. apply list_elem_of_fmap. exists x. split; [lia|done]. }
  assert (Hidx : forall x, x ∈ es -> index x <> k).
  { intros x Hx E. apply Hk. apply list_elem_of_fmap. exists x. split; [|done]. unfold node_of. by rewrite E. }
  set (s1 := IntcSt (nodes s) (<[k := e]> (_isrs s)) (isrs_mask s) (ext s)).
  assert (Hes1 : forall x, x ∈ es -> _isrs s1 !! index x = Some x).
  { intros x Hx. cbn. rewrite list_lookup_insert_ne by (by apply not_eq_sym, Hidx). by apply (tr_elem es s Hr). }
  destruct (insert_isr_val fuel e es s1 (tr_list es s Hr) Hes1 (tr_sorted es s Hr)) as (ok & h & Erun & Hok).
  { by exists l0. } { done. } { lia. }
  assert (Hklt : (k < length (_isrs s))%nat) by (by apply (lookup_lt_Some _ _ e0)).
  destruct ok.
  - destruct Hok as ((es1 & es2 & Hes & Htab) & Hd & Hsame). set (m := Z.lor (isrs_mask s) (BIT num)).
    exists (IntcSt h (<[k := e]> (_isrs s)) m (ext s)). split_and!; [|done| |].
    + unfold intc_service_register. mstep by exact (load_isr_val s k e0 l0 He0 Hl0). mstep. mstep by exact Erun. by mstep.
    + assert (Helem : forall x, x ∈ table_insert e es <-> x = e \/ x ∈ es) by (intros x; rewrite Htab, Hes; set_solver).
      split; cbn [nodes _isrs isrs_mask].
      * done.
      * intros i Hi. apply Hsame. by apply (tr_nodes es s Hr).
      * rewrite length_insert. apply (tr_len es s Hr).
      * intros x Hx. apply Helem in Hx as [->|Hx]; [|split; [by apply (tr_elem es s Hr)|by apply Hes1]].
        split; [done|]. by rewrite list_lookup_insert_eq.
      * intros i x Hx Hi. apply (tr_free es s Hr i).
        -- rewrite list_lookup_insert_ne in Hx; [done|]. intros <-. apply Hi. rewrite Htab, map_app. cbn. set_solver.
        -- intros Hin. apply Hi. rewrite Htab, Hes, map_app in *. cbn. set_solver.
      * apply table_insert_sorted, (tr_sorted es s Hr).
      * intros i Hi. subst m. rewrite Z.lor_spec, BIT_testbit, orb_true_iff, (tr_mask es s Hr i Hi), Z.eqb_eq by done.
        split; [intros [(x & Hx & Hxi)|<-]; [exists x|exists e]|intros (x & Hx & Hxi); apply Helem in Hx as [->|Hx]];
          rewrite ?Helem; eauto.
    + intros E. apply (f_equal length) in E. rewrite Htab, Hes, !length_app in E. cbn in E. lia.
  - destruct Hok as [-> Hsame]. exists s. split_and!; [|done|by rewrite Hsame|done].
    unfold intc_service_register. mstep by exact (load_isr_val s k e0 l0 He0 Hl0). mstep. mstep by exact Erun.
    unfold store_isr. mstep. cbn. unfold on_nodes. cbn. rewrite list_insert_insert_eq, list_insert_id, insert_id by done.
    by destruct s.
Qed.

(** Registering an element again as it is changes nothing. *)
Lemma reregister_val es s fuel e : table_rep es s -> e ∈ es -> (INTC_MAX_COUNT < fuel)%nat ->
  intc_service_register fuel (int_num e) (pri e) (isr_func e) s = Val (tt, s).
Proof.
  intros Hr He Hf. destruct (tr_elem es s Hr e He) as [Hi Hget]. destruct (rep_slot es s _ Hr Hi) as (e0 & l0 & He0 & Hl0).
  fold (index e) in He0, Hl0. rewrite Hget in He0. injection He0 as <-. destruct (rep_nodup es s Hr) as (_ & _ & Hlen).
  assert (Hset : set_isr (index e) (ISR (isr_func e) (pri e) (int_num e)) s = Val (tt, s)).
  { unfold set_isr, modify. destruct e. cbn in *. rewrite list_insert_id by done. by destruct s. }
  assert (Hins : insert_isr fuel (pri e) (Isr (index e)) s = Val (false, s)).
  { unfold insert_isr. mstep by exact (on_nodes_val _ s _ _ (list_empty_dlist _ _ _ (tr_list es s Hr))).
    rewrite bool_decide_false by (by destruct es; [set_solver|]). replace (with_nodes s (nodes s)) with s by (by destruct s).
    assert (Hloop : for_each next_pos (register_body (pri e) (Isr (index e))) fuel Hdr tt s =
      each_fold (register_body (pri e) (Isr (index e))) (map node_of es) tt s).
    { apply (for_each_val nodes); [exact next_pos_val|intros ? ? ? ? ?; apply register_keeps|exact (tr_list es s Hr)|rewrite length_map; lia]. }
    pose proof (tr_elem es s Hr) as Hel.
    destruct (insert_cases e es (tr_sorted es s Hr)) as [(_ & es1 & x & es2 & Hes & H1 & Hp)|(es1 & es2 & Hes & _ & H1 & H2)].
    2: { exfalso. rewrite Hes in He. apply elem_of_app in He as [He|He]; [specialize (H1 e He)|specialize (H2 e He)]; lia. }
    rewrite Hes in Hloop, Hel. mstep by (rewrite Hloop, map_app, register_skip by (intros y Hy; split; [apply Hel; set_solver|by apply H1]);
      cbn [map each_fold]; mstep by (unfold register_body; mstep; mstep by (apply (get_isr_val s _ x), Hel; set_solver);
        rewrite Hp, Z.ltb_irrefl, Z.eqb_refl; reflexivity); reflexivity). reflexivity. }
  unfold intc_service_register. fold (index e). mstep by exact (load_isr_val s _ e l0 Hget Hl0). mstep by exact Hset. mstep by exact Hins.
  unfold store_isr. cbn [fst snd]. mstep by (destruct e; exact Hset). unfold on_nodes, modify. rewrite insert_id by done. by destruct s.
Qed.

(** The table after the registration of [e] as new, or again. *)
Definition registered (e : ISR_T) (es es' : list ISR_T) : Prop :=
  (e ∈ es /\ es' = es) \/
  ((int_num e ∉ map int_num es) /\ (forall x, x ∈ es -> pri x <> pri e) /\ es' = table_insert e es).

Lemma register_once es es' s fuel e : table_rep es s -> 0 <= int_num e < 32 -> registered e es es' -> (INTC_MAX_COUNT < fuel)%nat ->
  exists s', intc_service_register fuel (int_num e) (pri e) (isr_func e) s = Val (tt, s') /\ ext s' = ext s /\
    table_rep es' s' /\ e ∈ es'.
Proof.
  intros Hr Hi [[He ->]|(Hn & Hp & ->)] Hf.
  - exists s. by rewrite (reregister_val es).
  - destruct (register_val es s fuel (int_num e) (pri e) (isr_func e) Hr Hi Hn Hf) as (s' & E & Hx & Hr' & _).
    exists s'. destruct e. split_and!; [done|done|done|by apply table_insert_has].
Qed.

(** *** A changed routine *)

Lemma change_fold es p x s : (forall e, e ∈ es -> _isrs s !! index e = Some e) -> x ∈ es -> pri x = p ->
  each_fold (change_body p) (map node_of es) tt s = Val (inl tt, s).
Proof.
  intros Hes Hx Hp. induction es as [|e es IH]; [set_solver|]. cbn [map each_fold].
  erewrite bind_ret_val by (unfold change_body; mstep; mstep by (apply (get_isr_val s _ e), Hes; set_solver); reflexivity).
  destruct (Z.eqb_spec p (pri e)); [done|]. apply elem_of_cons in Hx as [->|Hx]; [done|]. apply IH; [|done].
  intros y Hy. apply Hes. set_solver.
Qed.

Lemma change_keeps p pos acc s acc' s' : change_body p pos acc s = Val (inr acc', s') -> nodes s' = nodes s.
Proof.
  unfold change_body. destruct pos as [| |i]; [done..|]. cbn [list_entry]. unfold get_isr.
  unfold mbind, M_bind, mret, M_ret, get, lift_res, of_option. destruct (_isrs s !! i) as [f|]; [|done]. by intros [= _ <-].
Qed.

Lemma table_change_id num f es : (forall e, e ∈ es -> int_num e = num -> isr_func e = 0) -> table_change num f es = es.
Proof.
  intros He. unfold table_change. rewrite <- (map_id es) at 2. apply map_ext_in. intros e Hin. apply list_elem_of_In in Hin.
  unfold changed. destruct (Z.eqb_spec (int_num e) num); [|done]. by rewrite He.
Qed.

Lemma changed_same num f e : pri (changed num f e) = pri e /\ int_num (changed num f e) = int_num e.
Proof. unfold changed. by destruct (_ && _). Qed.

Lemma table_change_nodes num f es : map node_of (table_change num f es) = map node_of es.
Proof.
  unfold table_change. rewrite map_map. apply map_ext. intros e. unfold node_of, index.
  by rewrite (proj2 (changed_same num f e)).
Qed.

Lemma table_change_sorted num f es : StronglySorted (fun e e' => pri e < pri e') es ->
  StronglySorted (fun e e' => pri e < pri e') (table_change num f es).
Proof.
  induction 1 as [|x es Hs IH Hall]; cbn [table_change map]; [constructor|]. constructor; [done|].
  rewrite list.Forall_forall in *. intros y Hy. apply list_elem_of_fmap in Hy as (z & -> & Hz).
  rewrite !(proj1 (changed_same num f _)). by apply Hall.
Qed.

Lemma change_val es s fuel num f : table_rep es s -> 0 <= num < 32 -> (INTC_MAX_COUNT < fuel)%nat ->
  exists s', intc_service_change_handler fuel num f s = Val (tt, s') /\ ext s' = ext s /\ table_rep (table_change num f es) s'.
Proof.
  intros Hr Hn Hf. destruct (rep_slot es s num Hr Hn) as (e0 & l0 & He0 & Hl0). set (k := Z.to_nat num) in *.
  destruct (rep_nodup es s Hr) as (Hnd & _ & Hlen). unfold intc_service_change_handler.
  assert (Hsame : forall e, e ∈ es -> int_num e = num -> e = e0).
  { intros e He Hi. destruct (tr_elem es s Hr e He) as [_ Hget]. unfold index in Hget. rewrite Hi in Hget. fold k in Hget. congruence. }
  destruct (truthy (isr_func e0)) eqn:Ef.
  2: { exists s. rewrite table_change_id; [|intros e He Hi; rewrite (Hsame e He Hi); unfold truthy in Ef; lia].
    split_and!; [|done|done]. mstep by exact (load_isr_val s k e0 l0 He0 Hl0). cbv beta iota. by rewrite Ef. }
  assert (Hin : e0 ∈ es /\ int_num e0 = num).
  { destruct (decide (Isr k ∈ map node_of es)) as [Hk|Hk].
    - apply list_elem_of_fmap in Hk as (e & Hek & He). destruct (tr_elem es s Hr e He) as [Hi Hget].
      injection Hek as Hek. unfold index in Hek, Hget. rewrite <- Hek in Hget. assert (e = e0) as -> by congruence. split; [done|lia].
    - rewrite (tr_free es s Hr k e0 He0 Hk) in Ef. done. }
  destruct Hin as [Hin Hnum].
  exists (IntcSt (nodes s) (<[k := ISR f (pri e0) (int_num e0)]> (_isrs s)) (isrs_mask s) (ext s)). split_and!; [|done|].
  - mstep by exact (load_isr_val s k e0 l0 He0 Hl0). cbv beta iota. rewrite Ef. cbn [negb].
    mstep by (exact (on_nodes_val _ s _ _ (list_empty_dlist _ _ _ (tr_list es s Hr)))).
    rewrite bool_decide_false by (destruct es; [set_solver|done]). replace (with_nodes s (nodes s)) with s by (by destruct s).
    mstep by (mstep by (rewrite (for_each_val nodes next_pos (change_body (pri e0)) next_pos_val (change_keeps (pri e0)) Hdr (map node_of es))
      by (first [exact (tr_list es s Hr)|rewrite length_map; lia]);
      apply (change_fold es (pri e0) e0); [by apply (tr_elem es s Hr)|done|done]); reflexivity).
    unfold store_isr. mstep. cbn. unfold on_nodes. cbn. by rewrite insert_id.
  - assert (Hklt : (k < length (_isrs s))%nat) by (by apply (lookup_lt_Some _ _ e0)).
    split; cbn [nodes _isrs isrs_mask].
    + rewrite table_change_nodes. apply (tr_list es s Hr).
    + apply (tr_nodes es s Hr).
    + rewrite length_insert. apply (tr_len es s Hr).
    + intros y Hy. apply list_elem_of_fmap in Hy as (x & -> & Hx).
      destruct (tr_elem es s Hr x Hx) as [Hi Hget]. rewrite (proj2 (changed_same num f x)). split; [done|].
      assert (Hix : index (changed num f x) = index x) by (unfold index; by rewrite (proj2 (changed_same num f x))). rewrite Hix.
      unfold changed. destruct (Z.eqb_spec (int_num x) num) as [E|E]; cbn [andb].
      * apply (Hsame x Hx) in E as ->. rewrite Ef. unfold index. rewrite Hnum. fold k. by rewrite list_lookup_insert_eq.
      * rewrite list_lookup_insert_ne; [done|]. unfold index, k. lia.
    + rewrite table_change_nodes. intros i x Hx Hi. apply (tr_free es s Hr i); [|done].
      rewrite list_lookup_insert_ne in Hx; [done|]. intros <-. apply Hi. apply list_elem_of_fmap. exists e0. split; [|done].
      unfold node_of, index. by rewrite Hnum.
    + apply table_change_sorted, (tr_sorted es s Hr).
    + intros i Hi. rewrite (tr_mask es s Hr i Hi). split; intros (x & Hx & Hxi).
      * exists (changed num f x). split; [by apply (list_elem_of_fmap_2 (changed num f))|by rewrite (proj2 (changed_same num f x))].
      * apply list_elem_of_fmap in Hx as (y & -> & Hy). exists y. split; [done|]. by rewrite <- (proj2 (changed_same num f y)).
Qed.
End registration.

(** ** The table as a contract *)

(** The calls on the table: registrations, changes, and interrupts. *)
Inductive intc_op :=
  | Register (num pri isr : Z)
  | ChangeHandler (num isr : Z)
  | Dispatch (int_status : Z).

Definition table_step (op : intc_op) (es : list ISR_T) : list ISR_T :=
  match op with
  | Register num p f => table_insert (ISR f p num) es
  | ChangeHandler num f => table_change num f es
  | Dispatch _ => es
  end.

(** An interrupt registered once only. *)
Fixpoint ops_ok (es : list ISR_T) (ops : list intc_op) : Prop :=
  match ops with
  | [] => True
  | op :: ops' =>
    match op with
    | Register num _ _ => 0 <= num < 32 /\ num ∉ map int_num es
    | ChangeHandler num _ => 0 <= num < 32
    | Dispatch _ => True
    end /\ ops_ok (table_step op es) ops'
  end.

Definition mask_of (es : list ISR_T) : Z := foldr (fun e m => Z.lor (BIT (int_num e)) m) 0 es.

Section contract.
Context {W : Type} (call_isr : Z -> M W unit) (dtim_wake : Z -> M W unit).
Implicit Types (s : intc_st W) (es : list ISR_T).

Definition intc_step (fuel : nat) (op : intc_op) : M (intc_st W) unit :=
  match op with
  | Register num p f => intc_service_register fuel num p f
  | ChangeHandler num f => intc_service_change_handler fuel num f
  | Dispatch int_status => intc_hdl_entry call_isr dtim_wake fuel int_status
  end.

Fixpoint intc_run (fuel : nat) (ops : list intc_op) : M (intc_st W) unit :=
  match ops with [] => mret tt | op :: ops' => intc_step fuel op;; intc_run fuel ops' end.

(** What is seen behind the table, and the table behind the calls. *)
Fixpoint table_run (ops : list intc_op) (es : list ISR_T) : M W (list ISR_T) :=
  match ops with
  | [] => mret es
  | op :: ops' =>
    match op with
    | Dispatch int_status => dtim_wake (Z.land int_status (mask_of es));; serve call_isr es int_status
    | _ => mret tt
    end;;
    table_run ops' (table_step op es)
  end.

Lemma mask_of_rep es s : table_rep es s -> isrs_mask s = mask_of es.
Proof.
  intros Hr. apply Z.bits_inj'. intros i Hi.
  assert (Hm : forall l, (forall e, e ∈ l -> 0 <= int_num e < 32) ->
    Z.testbit (mask_of l) i = true <-> exists e, e ∈ l /\ int_num e = i).
  { clear Hr. induction l as [|e l IH]; intros Hl; cbn [mask_of foldr].
    - rewrite Z.bits_0. split; [done|]. intros (e & He & _). by apply not_elem_of_nil in He.
    - rewrite Z.lor_spec, BIT_testbit, orb_true_iff, Z.eqb_eq by (try apply Hl; set_solver).
      fold (mask_of l). rewrite IH by (intros x Hx; apply Hl; set_solver). split.
      + intros [<-|(x & Hx & Hi')]; [exists e|exists x]; set_solver.
      + intros (x & Hx & Hi'). apply elem_of_cons in Hx as [->|Hx]; [by left|right; by exists x]. }
  specialize (Hm es (fun e He => proj1 (tr_elem es s Hr e He))). rewrite <- (tr_mask es s Hr i Hi) in Hm.
  destruct (Z.testbit (isrs_mask s) i), (Z.testbit (mask_of es) i); try done; [by symmetry; apply Hm|by apply Hm].
Qed.

Lemma intc_run_refines fuel ops : (INTC_MAX_COUNT < fuel)%nat -> forall es s, table_rep es s -> ops_ok es ops ->
  match table_run ops es (ext s) with
  | Val (es', w) => exists s', intc_run fuel ops s = Val (tt, s') /\ ext s' = w /\ table_rep es' s'
  | Err f => intc_run fuel ops s = Err f
  end.
Proof.
  intros Hf. induction ops as [|op ops IH]; intros es s Hr Hok; cbn [table_run intc_run].
  { by exists s. }
  destruct op as [num p f|num f|st]; cbn [ops_ok table_step intc_step] in *.
  - destruct Hok as [[Hn Hout] Hok]. destruct (register_val es s fuel num p f Hr Hn Hout Hf) as (s' & E & He & Hr' & _).
    specialize (IH _ s' Hr' Hok). rewrite He in IH. rewrite bind_mret. destruct (table_run ops _ (ext s)) as [[es' w]|].
    + destruct IH as (s2 & E2 & ?). exists s2. split; [by mstep by exact E|done].
    + by mstep by exact E.
  - destruct Hok as [Hn Hok]. destruct (change_val es s fuel num f Hr Hn Hf) as (s' & E & He & Hr').
    specialize (IH _ s' Hr' Hok). rewrite He in IH. rewrite bind_mret. destruct (table_run ops _ (ext s)) as [[es' w]|].
    + destruct IH as (s2 & E2 & ?). exists s2. split; [by mstep by exact E|done].
    + by mstep by exact E.
  - destruct Hok as [_ Hok]. pose proof (hdl_entry_val call_isr dtim_wake es s fuel st Hr Hf) as E.
    rewrite (mask_of_rep es s Hr) in E. unfold mbind at 1, M_bind at 1.
    destruct ((dtim_wake (Z.land st (mask_of es));; serve call_isr es st) (ext s)) as [[[] w]|fl]; cbn [on_ext_res] in E.
    2: { by apply bind_err. }
    assert (Hr' : table_rep es (with_ext s w)) by (destruct Hr; by split).
    specialize (IH es (with_ext s w) Hr' Hok). change (ext (with_ext s w)) with w in IH.
    destruct (table_run ops es w) as [[es' w']|].
    + destruct IH as (s2 & E2 & ?). exists s2. split; [by mstep by exact E|done].
    + by mstep by exact E.
Qed.

Lemma start_rep (w : W) : table_rep [] (intc_start w).
Proof.
  assert (Hall : forallb (fun i => bool_decide (is_Some (nodes (intc_start tt) !! Isr i))) (seq 0 32) = true) by (vm_compute; reflexivity).
  split.
  - split; [apply NoDup_singleton|]. repeat split; reflexivity.
  - intros i Hi. rewrite forallb_forall in Hall. apply (bool_decide_eq_true_1 _), Hall, in_seq. unfold INTC_MAX_COUNT in Hi. lia.
  - done.
  - intros e He. by apply not_elem_of_nil in He.
  - intros i e He _. change (replicate INTC_MAX_COUNT (ISR 0 0 0) !! i = Some e) in He. apply lookup_replicate in He as [-> _]. done.
  - constructor.
  - intros i Hi. cbn. rewrite Z.bits_0. split; [done|]. intros (e & He & _). by apply not_elem_of_nil in He.
Qed.
End contract.

(** C24: from the state at start-up, any sequence of registrations, changes of
    handlers and interrupts, in which every registration is of an interrupt from 0
    to 31 that is not registered yet ([ops_ok]), runs, on what is behind the table, exactly the
    routines of the pending registered interrupts, in the order of their
    priorities, and always returns when they do; at most one routine is
    registered for a priority.  (Registering an interrupt again can make the list a
    circle: [reregister_never_returns].) *)
Theorem intc_refines_table {W} (call_isr dtim_wake : Z -> M W unit) fuel ops w :
  (INTC_MAX_COUNT < fuel)%nat -> ops_ok [] ops ->
  match table_run call_isr dtim_wake ops [] w with
  | Val (es, w') => exists s, intc_run call_isr dtim_wake fuel ops (intc_start w) = Val (tt, s) /\ ext s = w' /\ table_rep es s
  | Err f => intc_run call_isr dtim_wake fuel ops (intc_start w) = Err f
  end.
Proof. intros Hf Hok. exact (intc_run_refines call_isr dtim_wake fuel ops Hf [] (intc_start w) (start_rep w) Hok). Qed.

(** An interrupt whose priority another registered interrupt has is not
    registered: the call returns as if it had been and changes nothing. *)
Theorem register_drops_same_priority {W} es (s : intc_st W) fuel num p f x :
  table_rep es s -> 0 <= num < 32 -> num ∉ map int_num es -> (INTC_MAX_COUNT < fuel)%nat -> x ∈ es -> pri x = p ->
  intc_service_register fuel num p f s = Val (tt, s).
Proof.
  intros Hr Hn Hout Hf Hx Hp. destruct (register_val es s fuel num p f Hr Hn Hout Hf) as (s' & E & _ & _ & Hsame).
  rewrite E, Hsame; [done|]. destruct (insert_cases (ISR f p num) es (tr_sorted es s Hr)) as [(-> & _)|(es1 & es2 & -> & _ & H1 & H2)]; [done|].
  exfalso. apply elem_of_app in Hx as [Hx|Hx]; [specialize (H1 x Hx)|specialize (H2 x Hx)]; cbn in *; lia.
Qed.

(** Two nodes that follow each other, away from the header. *)
Lemma hdl_circle {W} (call_isr : Z -> M W unit) (s : intc_st W) e e' status : 0 <= int_num e < 32 -> 0 <= int_num e' < 32 ->
  _isrs s !! index e = Some e -> _isrs s !! index e' = Some e' ->
  nxt (nodes s) (node_of e) = Some (node_of e') -> nxt (nodes s) (node_of e') = Some (node_of e) ->
  Z.testbit status (int_num e) = false -> Z.testbit status (int_num e') = false -> status <> 0 ->
  forall fuel, list_for_each_safe next_pos (hdl_body call_isr) fuel (node_of e) (node_of e') Hdr status s = Err NoFuel /\
    list_for_each_safe next_pos (hdl_body call_isr) fuel (node_of e') (node_of e) Hdr status s = Err NoFuel.
Proof.
  intros Hi Hi' He He' Hn Hn' Hb Hb' Hs fuel. induction fuel as [|fuel [IH IH']]; [done|]. cbn [list_for_each_safe].
  rewrite !decide_False by done.
  assert (Hbody : forall x, 0 <= int_num x < 32 -> _isrs s !! index x = Some x -> Z.testbit status (int_num x) = false ->
    hdl_body call_isr (node_of x) status s = Val (inr status, s)).
  { intros x Hx Hget Hbit. rewrite hdl_body_val, Hbit by done. by rewrite (proj2 (Z.eqb_neq _ _)). }
  rewrite (bind_ret_val _ _ s _ _ (Hbody e Hi He Hb)), (bind_ret_val _ _ s _ _ (Hbody e' Hi' He' Hb')).
  by rewrite (bind_ret_val _ _ s _ _ (next_pos_val s _ _ Hn)), (bind_ret_val _ _ s _ _ (next_pos_val s _ _ Hn')).
Qed.

(** The state after registering 0, 1, 2, and 1 again with a higher priority. *)
Definition registered_twice {W} (w : W) : intc_st W :=
  let s := intc_start w in
  IntcSt (<[Hdr := ListHead (Isr 1) (Isr 2)]> (<[Isr 0 := ListHead (Isr 1) (Isr 1)]>
    (<[Isr 1 := ListHead (Isr 0) Hdr]> (<[Isr 2 := ListHead Hdr (Isr 1)]> (nodes s)))))
    (<[0%nat := ISR 100 10 0]> (<[1%nat := ISR 101 5 1]> (<[2%nat := ISR 102 30 2]> (_isrs s)))) 7 w.

(** Registering an interrupt a second time with a priority above that of
    an earlier element links its node in twice: here interrupts 0, 1 and 2 are
    registered, then 1 again; the list is a circle that the header is not on,
    interrupt 2 is never reached, and when it is pending the dispatch does not
    end, whatever time it is given. *)
Theorem reregister_never_returns {W} (call_isr dtim_wake : Z -> M W unit) (w : W) :
  (forall st w, dtim_wake st w = Val (tt, w)) ->
  (intc_service_register 40 0 10 100;; intc_service_register 40 1 20 101;; intc_service_register 40 2 30 102;;
    intc_service_register 40 1 5 101) (intc_start w) = Val (tt, registered_twice w) /\
  forall fuel, intc_hdl_entry call_isr dtim_wake fuel (BIT 2) (registered_twice w) = Err NoFuel.
Proof.
  intros Hd. split; [vm_compute; reflexivity|]. intros fuel. unfold intc_hdl_entry. mstep.
  mstep by (unfold on_ext; rewrite Hd; reflexivity). apply bind_err. unfold for_each.
  mstep by (apply next_pos_val; vm_compute; reflexivity). mstep by (apply next_pos_val; vm_compute; reflexivity).
  apply (hdl_circle call_isr (registered_twice w) (ISR 101 5 1) (ISR 100 10 0) (BIT 2)); try (vm_compute; reflexivity).
  - cbn. lia.
  - cbn. lia.
  - vm_compute. discriminate.
Qed.

(** ** The interrupt entries *)

Section entry_facts.
Context {hw : Type} `{IcuRegs hw} (call_isr dtim_wake : Z -> M hw unit).
Implicit Types s : intc_st hw.

(** Reading and acknowledging, common to both entries. *)
Lemma entry_status s mask : exists h,
  icu_ctrl CMD_CLR_INTR_STATUS (Some (Z.land (ireg (ext s) ICU_INT_STATUS) mask)) (ext s) = Val (ICU_SUCCESS, h) /\ (forall b, ireg h b = if b =? ICU_INT_STATUS then 0 else ireg (ext s) b) /\
  forall k : Z -> M (intc_st hw) unit,
    (st ← on_ext (icu_ctrl CMD_GET_INTR_STATUS None); let st := Z.land st mask in
     _ ← on_ext (icu_ctrl CMD_CLR_INTR_STATUS (Some st)); k st) s = k (Z.land (ireg (ext s) ICU_INT_STATUS) mask) (with_ext s h).
Proof.
  destruct (clr_intr_val (Z.land (ireg (ext s) ICU_INT_STATUS) mask) (ext s)) as (h & E & Hb). exists h. split; [exact E|]. split; [exact Hb|].
  intros k. erewrite bind_ret_val.
  2: { unfold on_ext. change (icu_ctrl CMD_GET_INTR_STATUS None (ext s)) with (REG_READ ICU_INT_STATUS (ext s)).
    unfold REG_READ. rewrite ireg_read by done. reflexivity. }
  cbv zeta. erewrite bind_ret_val by (unfold on_ext; cbn [ext nodes _isrs isrs_mask]; rewrite E; reflexivity). by destruct s.
Qed.
End entry_facts.

(** The IRQ entry runs the routines of the registered interrupts 0 to 15
    that were pending, the FIQ entry those of 16 to 31, in the order of their
    priorities; each entry acknowledges every pending interrupt, those of the
    other entry included, which nobody then serves. *)
Theorem intc_entries_serve `{IcuRegs hw} (call_isr dtim_wake : Z -> M hw unit) fuel es (s : intc_st hw) :
  table_rep es s -> (INTC_MAX_COUNT < fuel)%nat ->
  let pending := ireg (ext s) ICU_INT_STATUS in
  let entry mask h := on_ext_res s ((dtim_wake (Z.land (Z.land pending mask) (isrs_mask s));;
    serve call_isr es (Z.land pending mask)) h) in
  let acknowledged h := forall b, ireg h b = if b =? ICU_INT_STATUS then 0 else ireg (ext s) b in
  (exists h, acknowledged h /\ intc_irq call_isr dtim_wake fuel s = entry 0xFFFF h) /\
  (exists h, acknowledged h /\ intc_fiq call_isr dtim_wake fuel s = entry 0xFFFF0000 h).
Proof.
  intros Hr Hf pending entry acknowledged.
  assert (Hr' : forall h, table_rep es (with_ext s h)) by (intros h; destruct Hr; by split).
  split; [destruct (entry_status s 0xFFFF) as (h & _ & Hb & E)|destruct (entry_status s 0xFFFF0000) as (h & _ & Hb & E)];
    exists h; (split; [done|]); unfold intc_irq, intc_fiq; rewrite E; by rewrite (hdl_entry_val _ _ es _ fuel _ (Hr' h) Hf).
Qed.

(** The registry with the interrupt unit in its first slot. *)
Definition with_icu {W} (icu_addr : Z) (w : W) : drv_state W :=
  DrvState (replicate DD_MAX_DEV zero_dev)
    (<[0%nat := DRV_DEV (Some ICU_DEV_NAME) 0 DD_STATE_CLOSED (Some icu_addr)]> (replicate DD_MAX_SDEV zero_dev)) w.

Lemma sddev_control_icu `{RegBus hw} (sdev_ops : Z -> SDD_OPERATIONS hw) icu_addr (w : hw) cmd param r w' :
  sdev_ops icu_addr = icu_op -> icu_ctrl cmd (Some param) w = Val (r, w') ->
  sddev_control sdev_ops (Some ICU_DEV_NAME) cmd param (with_icu icu_addr w) = Val ((r, param), with_icu icu_addr w').
Proof.
  intros Hop E. unfold sddev_control. mstep. mstep by (instantiate (2 := Some 0%nat); reflexivity).
  change ((Some 0%nat ≫= fun i => drv_sdev_tbl (with_icu icu_addr w) !! i ≫= op)) with (Some icu_addr).
  cbv iota. rewrite Hop. cbn [icu_op sop_control]. unfold call. cbn [world with_icu].
  erewrite bind_ret_val by exact E. reflexivity.
Qed.

Section registry.
Context `{IcuRegs hw} (sdev_ops : Z -> SDD_OPERATIONS hw) (icu_addr : Z).
Hypothesis Hop : sdev_ops icu_addr = icu_op.
Implicit Types w : hw.

(** A run that changes one register of the unit, through the registry. *)
Definition updates (m : M (drv_state hw) unit) (r : Z) (f : Z -> Z) : Prop := forall w,
  exists w', m (with_icu icu_addr w) = Val (tt, with_icu icu_addr w') /\ forall b, ireg w' b = if b =? r then f (ireg w r) else ireg w b.

Lemma updates_on on off r p : (on, off, r) ∈ icu_pairs ->
  updates (_ ← sddev_control sdev_ops (Some ICU_DEV_NAME) on p; mret tt) r (fun x => Z.lor x p) /\
  updates (_ ← sddev_control sdev_ops (Some ICU_DEV_NAME) off p; mret tt) r (fun x => Z.ldiff x p).
Proof using All.
  intros Hin. split; intros w; [destruct (proj1 (icu_pair_step on off r p w Hin)) as (w' & E & Hb)
    |destruct (proj2 (icu_pair_step on off r p w Hin)) as (w' & E & Hb)]; exists w'; (split; [|exact Hb]);
    by mstep by exact (sddev_control_icu sdev_ops icu_addr w _ _ _ _ Hop E).
Qed.

Lemma updates_enable i : updates (intc_enable sdev_ops i) ICU_INTERRUPT_ENABLE (fun x => Z.lor x (BIT i)).
Proof using All. apply (updates_on CMD_ICU_INT_ENABLE CMD_ICU_INT_DISABLE). by apply (list_elem_of_lookup_2 _ 4). Qed.
Lemma updates_disable i : updates (intc_disable sdev_ops i) ICU_INTERRUPT_ENABLE (fun x => Z.ldiff x (BIT i)).
Proof using All. apply (updates_on CMD_ICU_INT_ENABLE CMD_ICU_INT_DISABLE). by apply (list_elem_of_lookup_2 _ 4). Qed.

(** One after the other, on the same register. *)
Lemma updates_seq m1 m2 r f1 f2 : updates m1 r f1 -> updates m2 r f2 -> updates (m1;; m2) r (fun x => f2 (f1 x)).
Proof using All.
  intros H1 H2 w. destruct (H1 w) as (w1 & E1 & B1), (H2 w1) as (w2 & E2 & B2). exists w2. split; [by mstep by exact E1|].
  intros b. rewrite B2, !B1, Z.eqb_refl. by destruct (b =? r).
Qed.

Lemma updates_ext m r f g : updates m r f -> (forall x, f x = g x) -> updates m r g.
Proof using All. intros Hm He w. destruct (Hm w) as (w' & E & B). exists w'. split; [done|]. intros b. by rewrite B, He. Qed.

Lemma disable_bits x n i : 0 <= i -> i + Z.of_nat (S n) <= 32 ->
  Z.ldiff (Z.ldiff x (BIT i)) (Z.shiftl (Z.ones (Z.of_nat n)) (i + 1)) = Z.ldiff x (Z.shiftl (Z.ones (Z.of_nat (S n))) i).
Proof using All.
  intros Hi Hn. apply Z.bits_inj'. intros j Hj. rewrite !Z.ldiff_spec, !Z.shiftl_spec, BIT_testbit by lia.
  rewrite !Z.testbit_ones by lia. rewrite <- andb_assoc, <- negb_orb. f_equal. f_equal.
  destruct (Z.eqb_spec i j), (Z.leb_spec 0 (j - (i + 1))), (Z.ltb_spec (j - (i + 1)) (Z.of_nat n)), (Z.leb_spec 0 (j - i)),
    (Z.ltb_spec (j - i) (Z.of_nat (S n))); try done; lia.
Qed.

Lemma updates_disable_from n : forall i, 0 <= i -> i + Z.of_nat n <= 32 ->
  updates (disable_from sdev_ops n i) ICU_INTERRUPT_ENABLE (fun x => Z.ldiff x (Z.shiftl (Z.ones (Z.of_nat n)) i)).
Proof using All.
  induction n as [|n IH]; intros i Hi Hn; cbn [disable_from].
  - intros w. exists w. split; [done|]. intros b. change (Z.ones (Z.of_nat 0)) with 0.
    rewrite Z.shiftl_0_l, Z.ldiff_0_r. destruct (Z.eqb_spec b ICU_INTERRUPT_ENABLE) as [->|]; done.
  - eapply updates_ext; [apply updates_seq; [apply updates_disable|apply (IH (i + 1)); lia]|].
    intros x. cbv beta. by apply disable_bits.
Qed.

(** A step of a sequence. *)
Lemma updates_bind m r f (k : unit -> M (drv_state hw) unit) w : updates m r f ->
  exists w', mbind k m (with_icu icu_addr w) = k tt (with_icu icu_addr w') /\
    forall b, ireg w' b = if b =? r then f (ireg w r) else ireg w b.
Proof using All. intros Hm. destruct (Hm w) as (w' & E & B). exists w'. split; [by apply bind_ret_val|done]. Qed.

(** The vectors are written first. *)
Lemma call_write a v w (k : M (drv_state hw) unit) :
  (call (REG_WRITE a v);; k) (with_icu icu_addr w) = k (with_icu icu_addr (bus_write a v w)).
Proof using All. done. Qed.

Lemma intc_init_val v w : exists w', intc_init sdev_ops v (with_icu icu_addr w) = Val (tt, with_icu icu_addr w') /\
  ireg w' ICU_INTERRUPT_ENABLE = Z.lor (ireg w ICU_INTERRUPT_ENABLE) 0x7f0000 /\
  ireg w' ICU_GLOBAL_INT_EN = Z.lor (ireg w ICU_GLOBAL_INT_EN) 3.
Proof using All.
  unfold intc_init. rewrite !call_write. set (w1 := bus_write 0x400018 _ _).
  assert (H1 : ireg w1 ICU_INTERRUPT_ENABLE = ireg w ICU_INTERRUPT_ENABLE /\ ireg w1 ICU_GLOBAL_INT_EN = ireg w ICU_GLOBAL_INT_EN)
    by (subst w1; by rewrite !ireg_write_other by done).
  destruct H1 as [<- <-]. clearbody w1.
  do 7 (match goal with |- context [intc_enable _ ?i] => edestruct (updates_bind (intc_enable sdev_ops i)) as (? & -> & ?);
    [apply updates_enable|] end; cbv beta).
  destruct (proj1 (updates_on CMD_ICU_GLOBAL_INT_ENABLE CMD_ICU_GLOBAL_INT_DISABLE ICU_GLOBAL_INT_EN
    (Z.lor GINTR_FIQ_BIT GINTR_IRQ_BIT) ltac:(by apply (list_elem_of_lookup_2 _ 5))) x5) as (w3 & E3 & B3).
  exists w3. assert (Hig : (ICU_INTERRUPT_ENABLE =? ICU_GLOBAL_INT_EN) = false /\ (ICU_GLOBAL_INT_EN =? ICU_INTERRUPT_ENABLE) = false) by done.
  destruct Hig as [Hig Hgi]. split; [exact E3|]. split;
    repeat match goal with B : (forall b, ireg ?w b = _) |- context [ireg ?w ?r] => rewrite (B r), ?Hig, ?Hgi, ?Z.eqb_refl end;
    by rewrite <- ?Z.lor_assoc.
Qed.

Lemma intc_deinit_val w : exists w', intc_deinit sdev_ops (with_icu icu_addr w) = Val (tt, with_icu icu_addr w') /\
  ireg w' ICU_INTERRUPT_ENABLE = Z.ldiff (ireg w ICU_INTERRUPT_ENABLE) 0x1fffffff /\
  ireg w' ICU_GLOBAL_INT_EN = Z.ldiff (ireg w ICU_GLOBAL_INT_EN) 3.
Proof using All.
  unfold intc_deinit. destruct (updates_bind _ _ _ (fun _ => _ ← sddev_control sdev_ops (Some ICU_DEV_NAME) CMD_ICU_GLOBAL_INT_DISABLE
    (Z.lor GINTR_FIQ_BIT GINTR_IRQ_BIT); mret tt) w (updates_disable_from (Z.to_nat (FIQ_DPLL_UNLOCK + 1)) 0 ltac:(lia) ltac:(vm_compute; discriminate)))
    as (w1 & E1 & B1). rewrite E1.
  destruct (proj2 (updates_on CMD_ICU_GLOBAL_INT_ENABLE CMD_ICU_GLOBAL_INT_DISABLE ICU_GLOBAL_INT_EN
    (Z.lor GINTR_FIQ_BIT GINTR_IRQ_BIT) ltac:(by apply (list_elem_of_lookup_2 _ 5))) w1) as (w2 & E2 & B2).
  exists w2. split; [exact E2|]. by rewrite !B2, !B1.
Qed.
End registry.

(** On registry tables just initialised, the interrupt unit registers
    itself, and what follows reaches it through the registry: the start enables
    interrupts 16 to 22 and both lines, enabling and disabling an interrupt set
    and clear its bit alone, and the end disables interrupts 0 to 28 and both
    lines; interrupts 29 to 31 stay as they are. *)
Theorem interrupts_through_registry `{IcuRegs hw} (sdev_ops : Z -> SDD_OPERATIONS hw) icu_addr v (s0 : drv_state hw) index :
  sdev_ops icu_addr = icu_op ->
  let enabled (s : drv_state hw) := ireg (world s) ICU_INTERRUPT_ENABLE in
  let lines (s : drv_state hw) := ireg (world s) ICU_GLOBAL_INT_EN in
  exists s1 s2 s3 s4, (drv_model_init;; icu_init icu_addr;; intc_init sdev_ops v) s0 = Val (tt, s1) /\
    intc_enable sdev_ops index s1 = Val (tt, s2) /\ intc_disable sdev_ops index s2 = Val (tt, s3) /\
    intc_deinit sdev_ops s3 = Val (tt, s4) /\
    enabled s1 = Z.lor (enabled s0) 0x7f0000 /\ lines s1 = Z.lor (lines s0) 3 /\
    enabled s2 = Z.lor (enabled s1) (BIT index) /\ lines s2 = lines s1 /\
    enabled s3 = Z.ldiff (enabled s1) (BIT index) /\ lines s3 = lines s1 /\
    enabled s4 = Z.ldiff (enabled s3) 0x1fffffff /\ lines s4 = Z.ldiff (lines s0) 3.
Proof.
  intros Hop enabled lines.
  assert (Hin0 : (CMD_CONF_PCLK_26M, CMD_CONF_PCLK_DCO, ICU_PERI_CLK_MUX) ∈ icu_pairs) by (by apply (list_elem_of_lookup_2 _ 0)).
  destruct (proj1 (icu_pair_step _ _ _ 0x197 (world s0) Hin0)) as (w0 & E0 & B0).
  destruct (intc_init_val sdev_ops icu_addr Hop v w0) as (w1 & E1 & I1 & G1).
  destruct (updates_enable sdev_ops icu_addr Hop index w1) as (w2 & E2 & B2).
  destruct (updates_disable sdev_ops icu_addr Hop index w2) as (w3 & E3 & B3).
  destruct (intc_deinit_val sdev_ops icu_addr Hop w3) as (w4 & E4 & I4 & G4).
  exists (with_icu icu_addr w1), (with_icu icu_addr w2), (with_icu icu_addr w3), (with_icu icu_addr w4).
  subst enabled lines. cbv beta. cbn [world with_icu]. rewrite I4, G4, !B3, !B2, I1, G1, !B0.
  change (ICU_GLOBAL_INT_EN =? ICU_INTERRUPT_ENABLE) with false. rewrite !Z.eqb_refl.
  change (ICU_INTERRUPT_ENABLE =? ICU_PERI_CLK_MUX) with false. change (ICU_GLOBAL_INT_EN =? ICU_PERI_CLK_MUX) with false. cbv iota.
  split_and!; try done; [|by rewrite ldiff_lor_self|by rewrite ldiff_lor_self].
  mstep. unfold icu_init at 1. rewrite bind_assoc. mstep by exact (eq_refl (Val (DRV_SUCCESS, with_icu icu_addr (world s0)))).
  rewrite bind_assoc.
  mstep by exact (f_equal (fun r => match r with Val (a, w) => Val (a, with_icu icu_addr w) | Err f => Err f end) E0). exact E1.
Qed.

(** ** Witnesses *)

Definition log_isr (f : Z) : M (list Z) unit := modify (fun l => l ++ [f]).
Definition no_wake {W} (_ : Z) : M W unit := mret tt.

(** UART1, GPIO, PSRAM, then audio with the priority of PSRAM; then UART1 gets
    another routine. *)
Definition demo_ops : list intc_op :=
  [Register 0 26 100; Register 7 19 107; Register 31 27 131; Register 10 27 110; Dispatch 0x481;
   ChangeHandler 0 200; Dispatch 0x80000001].

Lemma intc_refines_table_witness :
  exists s, intc_run log_isr no_wake 33 demo_ops (intc_start []) = Val (tt, s) /\
    ext s = [107; 100; 200; 131] /\ table_rep [ISR 107 19 7; ISR 200 26 0; ISR 131 27 31] s.
Proof.
  refine (intc_refines_table log_isr no_wake 33 demo_ops [] _ _); [unfold INTC_MAX_COUNT; lia|].
  cbn. repeat split; (lia || set_solver || done).
Defined.

Lemma register_drops_same_priority_witness :
  exists s : intc_st Z, intc_service_register 33 10 27 110 (intc_start 0) = Val (tt, s) /\
    intc_service_register 33 31 27 131 s = Val (tt, s).
Proof.
  destruct (register_val [] (intc_start 0) 33 10 27 110 (start_rep 0) ltac:(lia) ltac:(set_solver)
    ltac:(unfold INTC_MAX_COUNT; lia)) as (s & E & _ & Hr & _).
  exists s. split; [exact E|]. refine (register_drops_same_priority _ s 33 31 27 131 (ISR 110 27 10) Hr _ _ _ _ _);
    [lia|cbn; set_solver|unfold INTC_MAX_COUNT; lia|cbn; set_solver|reflexivity].
Defined.

Lemma reregister_never_returns_witness :
  intc_hdl_entry log_isr no_wake 1000 4 (registered_twice []) = Err NoFuel.
Proof. exact (proj2 (reregister_never_returns log_isr no_wake [] (fun _ _ => eq_refl)) 1000%nat). Defined.

Definition icu_log_isr (f : Z) : M icu_file unit := modify (fun h => IcuFile (i_regs h) (i_log h ++ [f])).

Lemma intc_entries_serve_witness :
  exists s, intc_run icu_log_isr no_wake 33 [Register 0 26 100; Register 7 19 107; Register 20 3 120] (intc_start demo_icu) = Val (tt, s) /\
    exists h, ireg h ICU_INT_STATUS = 0 /\ intc_irq icu_log_isr no_wake 33 s = on_ext_res s (Val (tt, IcuFile (i_regs h) ((i_log h ++ [107]) ++ [100]))).
Proof.
  assert (Hf : (INTC_MAX_COUNT < 33)%nat) by (unfold INTC_MAX_COUNT; lia).
  pose proof (intc_run_refines icu_log_isr no_wake 33 [Register 0 26 100; Register 7 19 107; Register 20 3 120] Hf []
    (intc_start demo_icu) (start_rep demo_icu) ltac:(cbn; repeat split; (lia || set_solver || done))) as Hrun.
  destruct Hrun as (s & E & Hext & Hr). exists s. split; [exact E|].
  destruct (proj1 (intc_entries_serve icu_log_isr no_wake 33 _ s Hr Hf)) as (h & Hb & Eirq).
  exists h. split; [exact (Hb ICU_INT_STATUS)|]. rewrite Eirq, Hext. reflexivity.
Defined.

Lemma interrupts_through_registry_witness :
  exists s1 s2 s3 s4, (drv_model_init;; icu_init 0x100;; intc_init (fun _ => icu_op) (Vectors 1 2 3 4 5 6 7)) (with_icu 0 demo_icu) = Val (tt, s1) /\
    intc_enable (fun _ => icu_op) 15 s1 = Val (tt, s2) /\ intc_disable (fun _ => icu_op) 15 s2 = Val (tt, s3) /\
    intc_deinit (fun _ => icu_op) s3 = Val (tt, s4) /\
    ireg (world s2) ICU_INTERRUPT_ENABLE = 0x7f8005 /\ ireg (world s4) ICU_INTERRUPT_ENABLE = 0.
Proof.
  destruct (interrupts_through_registry (fun _ => icu_op) 0x100 (Vectors 1 2 3 4 5 6 7) (with_icu 0 demo_icu) 15 eq_refl)
    as (s1 & s2 & s3 & s4 & E1 & E2 & E3 & E4 & I1 & _ & I2 & _ & I3 & _ & I4 & _).
  exists s1, s2, s3, s4. split_and!; [exact E1|exact E2|exact E3|exact E4|rewrite I2, I1; reflexivity|rewrite I4, I3, I1; reflexivity].
Defined.
