(* ===== verification/Stack.v ===== *)
(** * Driver states over a bus

    A state that holds the variables of a driver ([Holds]), and stacks of such
    states over a bus: the registry over the interrupt table over the variables
    of each driver over the units.  The code of a driver runs at every level of a
    stack that has its variables and the bus under it; a command to the interrupt
    unit reaches it through the registry from the top. *)
From stdpp Require Import strings.
From S2P Require Import Prelude DrvModel Icu Regs Intc.
Local Open Scope Z_scope.

Class Holds (X S : Type) := {
  hget : S -> X;
  hput : X -> S -> S;
  hget_put x s : hget (hput x s) = x;
  hput_get s : hput (hget s) s = s;
  hput_put x y s : hput x (hput y s) = hput x s;
}.

(** Reading and assigning variables. *)
Definition gets {X S A} `{Holds X S} (f : X -> A) : M S A := fun s => Val (f (hget s), s).
Definition sets {X S} `{Holds X S} (f : X -> X) : M S unit := modify (fun s => hput (f (hget s)) s).

(** The bus does not change the variables, nor they the bus. *)
Class Quiet (X S : Type) `{Holds X S, RegBus S} : Prop := {
  quiet_read a (s : S) : hget (X := X) (bus_read a s).2 = hget s;
  quiet_write a v (s : S) : hget (X := X) (bus_write a v s) = hget s;
  quiet_put_read a (x : X) (s : S) : bus_read a (hput x s) = ((bus_read a s).1, hput x (bus_read a s).2);
}.

(** ** A part of a state *)
Section part.
Context {W S : Type} `{P : Holds W S}.

Definition part_bus `{RegBus W} : RegBus S := {|
  bus_read a s := ((bus_read a (hget (X := W) s)).1, hput (bus_read a (hget (X := W) s)).2 s);
  bus_write a v s := hput (bus_write a v (hget (X := W) s)) s;
|}.

Definition part_block B `{RegBus W, !BlockRegs B W} : @BlockRegs B S part_bus.
Proof.
  refine {| breg s := breg (hget (X := W) s) : _ -> Z |}; intros; cbn [bus_read bus_write part_bus fst snd] in *; rewrite ?hget_put.
  - apply breg_u32.
  - rewrite breg_read by done. cbn [fst snd]. by rewrite hput_get.
  - by apply breg_read_other.
  - by apply breg_write.
  - by apply breg_write_other.
  - by apply breg_ack.
  - by apply breg_read_pending.
  - by apply breg_pending.
Defined.

Definition part_icu `{RegBus W, !IcuRegs W} : @IcuRegs S part_bus.
Proof.
  refine {| ireg s := ireg (hget (X := W) s) : _ -> Z |}; intros; cbn [bus_read bus_write part_bus fst snd] in *; rewrite ?hget_put.
  - rewrite ireg_read by done. cbn [fst snd]. by rewrite hput_get.
  - by apply ireg_read_other.
  - by apply ireg_write_other.
  - by apply ireg_write.
Defined.

Definition part_holds X `{Holds X W} : Holds X S.
Proof.
  refine {| hget s := hget (X := X) (hget (X := W) s); hput x s := hput (hput x (hget (X := W) s)) s |}; intros.
  - by rewrite !hget_put.
  - by rewrite !hput_get.
  - by rewrite hget_put, !hput_put.
Defined.

Lemma part_quiet X `{Holds X W, RegBus W, !Quiet X W} : @Quiet X S (part_holds X) part_bus.
Proof.
  split; intros; cbn [hget hput bus_read bus_write part_holds part_bus fst snd]; rewrite ?hget_put.
  - apply quiet_read.
  - apply quiet_write.
  - rewrite quiet_put_read. cbn [fst snd]. by rewrite hput_put, hput_put.
Qed.
End part.

(** ** Variables over the rest *)
Record with_state (X W : Type) := WithState { ws : X; ws_rest : W }.
Arguments WithState {X W}. Arguments ws {X W}. Arguments ws_rest {X W}.

#[export, refine] Instance holds_ws X W : Holds X (with_state X W) | 0 :=
  {| hget := ws; hput x s := WithState x (ws_rest s) |}.
Proof. - done. - by intros []. - done. Defined.
Definition holds_rest X W : Holds W (with_state X W).
Proof. refine {| hget := ws_rest; hput r s := WithState (ws s) r |}; [done|by intros []|done]. Defined.

#[export] Instance with_state_bus X `{RegBus W} : RegBus (with_state X W) := part_bus (P := holds_rest X W).
#[export] Instance with_state_block B X `{RegBus W, !BlockRegs B W} : BlockRegs B (with_state X W) := part_block (P := holds_rest X W) B.
#[export] Instance with_state_icu X `{RegBus W, !IcuRegs W} : IcuRegs (with_state X W) := part_icu (P := holds_rest X W).
#[export] Instance with_state_holds X Y `{Holds Y W} : Holds Y (with_state X W) | 10 := part_holds (P := holds_rest X W) Y.
#[export] Instance with_state_quiet X `{RegBus W} : Quiet X (with_state X W) | 0.
Proof. by split. Qed.
#[export] Instance with_state_quiet_rest X Y `{Holds Y W, RegBus W, !Quiet Y W} : Quiet Y (with_state X W) | 10.
Proof. exact (part_quiet (P := holds_rest X W) Y). Qed.

(** Assigning the variables [X] does not change the variables [Y]. *)
Class VarsApart (X Y S : Type) `{Holds X S, Holds Y S} : Prop := vars_apart (x : X) (s : S) : hget (X := Y) (hput x s) = hget s.
#[export] Instance with_state_apart_down X Y W `{Holds Y W} : VarsApart X Y (with_state X W) | 0.
Proof. by intros x s. Qed.
#[export] Instance with_state_apart_up X Y W `{Holds Y W} : VarsApart Y X (with_state X W) | 1.
Proof. by intros x s. Qed.
#[export] Instance with_state_apart_rest X Y Z W `{Holds X W, Holds Y W, !VarsApart X Y W} : VarsApart X Y (with_state Z W) | 10.
Proof. intros x s. exact (vars_apart x (ws_rest s)). Qed.

(** ** The interrupt table and the registry *)
Definition holds_ext W : Holds W (intc_st W).
Proof. refine {| hget := ext; hput w s := with_ext s w |}; [done|by intros []|done]. Defined.
Definition holds_world W : Holds W (drv_state W).
Proof. refine {| hget := world; hput w s := DrvState (drv_dev_tbl s) (drv_sdev_tbl s) w |}; [done|by intros []|done]. Defined.

#[export] Instance intc_bus `{RegBus W} : RegBus (intc_st W) := part_bus (P := holds_ext W).
#[export] Instance intc_block B `{RegBus W, !BlockRegs B W} : BlockRegs B (intc_st W) := part_block (P := holds_ext W) B.
#[export] Instance intc_icu `{RegBus W, !IcuRegs W} : IcuRegs (intc_st W) := part_icu (P := holds_ext W).
#[export] Instance intc_holds Y `{Holds Y W} : Holds Y (intc_st W) := part_holds (P := holds_ext W) Y.
#[export] Instance intc_quiet Y `{Holds Y W, RegBus W, !Quiet Y W} : Quiet Y (intc_st W).
Proof. exact (part_quiet (P := holds_ext W) Y). Qed.

#[export] Instance drv_bus `{RegBus W} : RegBus (drv_state W) := part_bus (P := holds_world W).
#[export] Instance drv_block B `{RegBus W, !BlockRegs B W} : BlockRegs B (drv_state W) := part_block (P := holds_world W) B.
#[export] Instance drv_icu `{RegBus W, !IcuRegs W} : IcuRegs (drv_state W) := part_icu (P := holds_world W).
#[export] Instance drv_holds Y `{Holds Y W} : Holds Y (drv_state W) := part_holds (P := holds_world W) Y.
#[export] Instance drv_quiet Y `{Holds Y W, RegBus W, !Quiet Y W} : Quiet Y (drv_state W).
Proof. exact (part_quiet (P := holds_world W) Y). Qed.

(** ** What accesses leave alone *)
Section frames.
Context {W : Type} `{RegBus W}.

(** Assigning variables does not change the registers. *)
Lemma breg_put B X `{!BlockRegs B W, Holds X W, !Quiet X W} x (s : W) a : b_in B a = true -> breg (B := B) (hput x s) a = breg (B := B) s a.
Proof.
  intros Ha. pose proof (quiet_put_read a x s) as E. rewrite !breg_read in E by done. by injection E.
Qed.
Lemma ireg_put X `{!IcuRegs W, Holds X W, !Quiet X W} x (s : W) a : in_icu a = true -> ireg (hput x s) a = ireg s a.
Proof.
  intros Ha. pose proof (quiet_put_read a x s) as E. rewrite !ireg_read in E by done. by injection E.
Qed.

Lemma respects_soft B P `{!BlockRegs B W, !Apart P (b_in B)} : respects P (fun s s' : W => forall b, soft B s' b = soft B s b).
Proof.
  split.
  - done.
  - intros s1 s2 s3 H1 H2 b. by rewrite H2, H1.
  - intros a s Ha b. by apply breg_read_other, apart.
  - intros a v s Ha b. by apply breg_write_other, apart.
Qed.

Lemma respects_icu P `{!IcuRegs W, !Apart P in_icu} : respects P (fun s s' : W => forall b, ireg s' b = ireg s b).
Proof.
  split.
  - done.
  - intros s1 s2 s3 H1 H2 b. by rewrite H2, H1.
  - intros a s Ha b. by apply ireg_read_other, apart.
  - intros a v s Ha b. by apply ireg_write_other, apart.
Qed.

Lemma respects_vars X P `{Holds X W, !Quiet X W} : respects P (fun s s' : W => hget (X := X) s' = hget s).
Proof.
  split.
  - done.
  - intros s1 s2 s3 H1 H2. by rewrite H2.
  - intros a s _. apply quiet_read.
  - intros a v s _. apply quiet_write.
Qed.
End frames.

(** ** Commands to the interrupt unit, from the top *)
Section system.
Context {W : Type} `{RegBus W, !IcuRegs W} (sdev_ops : Z -> SDD_OPERATIONS (intc_st W)) (icu_addr : Z).
Implicit Types s : drv_state (intc_st W).

Definition icu_behind : Prop := sdev_ops icu_addr = sop_lift (fun A => on_ext (A := A)) icu_op.

Definition at_ext {A} (m : M W A) : M (drv_state (intc_st W)) A := call (on_ext m).
(** The state behind the registry and the table. *)
Definition at_world s : W := ext (world s).
Definition with_world s (w : W) : drv_state (intc_st W) := DrvState (drv_dev_tbl s) (drv_sdev_tbl s) (with_ext (world s) w).

Lemma at_ext_val {A} (m : M W A) s a w : m (ext (world s)) = Val (a, w) -> at_ext m s = Val (a, with_world s w).
Proof using Type. intros E. unfold at_ext, call, on_ext. by rewrite E. Qed.

Lemma on_ext_lifts : lifts (ext (W := W)) with_ext (fun A => on_ext (A := A)).
Proof using Type. intros A m w. unfold on_ext. by destruct (m (ext w)) as [[a v]|]. Qed.

Lemma icu_command cmd p s r w : icu_behind -> sdev_slot (drv_sdev_tbl s) ICU_DEV_NAME icu_addr ->
  icu_ctrl cmd (Some p) (ext (world s)) = Val (r, w) ->
  sddev_control sdev_ops (Some ICU_DEV_NAME) cmd p s = Val ((r, p), with_world s w).
Proof using Type.
  intros Hb Hs E. eapply (sddev_control_lift _ _ _ icu_op); [exact on_ext_lifts|exact Hs|exact Hb|reflexivity|].
  cbv beta. by rewrite (bind_ret_val _ _ _ _ _ E).
Qed.

(** Setting or clearing the bits [p] of the register of a pair of commands. *)
Lemma icu_set on off r p s : icu_behind -> sdev_slot (drv_sdev_tbl s) ICU_DEV_NAME icu_addr -> (on, off, r) ∈ icu_pairs ->
  exists w, sddev_control sdev_ops (Some ICU_DEV_NAME) on p s = Val ((ICU_SUCCESS, p), with_world s w) /\
    icu_ctrl on (Some p) (ext (world s)) = Val (ICU_SUCCESS, w) /\
    forall b, ireg w b = if b =? r then Z.lor (ireg (ext (world s)) r) p else ireg (ext (world s)) b.
Proof using Type.
  intros Hb Hs Hp. destruct (proj1 (icu_pair_step on off r p (ext (world s)) Hp)) as (w & E & R). exists w.
  split_and!; [by apply icu_command|done|done].
Qed.
Lemma icu_clear on off r p s : icu_behind -> sdev_slot (drv_sdev_tbl s) ICU_DEV_NAME icu_addr -> (on, off, r) ∈ icu_pairs ->
  exists w, sddev_control sdev_ops (Some ICU_DEV_NAME) off p s = Val ((ICU_SUCCESS, p), with_world s w) /\
    icu_ctrl off (Some p) (ext (world s)) = Val (ICU_SUCCESS, w) /\
    forall b, ireg w b = if b =? r then Z.ldiff (ireg (ext (world s)) r) p else ireg (ext (world s)) b.
Proof using Type.
  intros Hb Hs Hp. destruct (proj2 (icu_pair_step on off r p (ext (world s)) Hp)) as (w & E & R). exists w.
  split_and!; [by apply icu_command|done|done].
Qed.
End system.
Arguments at_ext {W A} m. Arguments with_world {W} s w. Arguments at_world {W} s.
