(* ===== verification/Gpio.v ===== *)
(** * The pin driver (driver/gpio/gpio.c, components/user_driver/BkDriverGpio.c)

    Configuration, level and interrupts of the 40 pins, as built for the
    BK7231U without the JTAG filter.  What only accesses registers is an action
    on the bus; the table of handlers is [gpio_st]; what registers the interrupt
    routine or goes through the registry acts on both tables.  A handler is an
    address, 0 the null pointer.  A shift by 32 or more, which C leaves
    undefined, gives 0 here: only an identifier of 64 or more needs it. *)
From stdpp Require Import strings.
From S2P Require Import Prelude Serve DrvModel Icu Intc.
Local Open Scope Z_scope.

Definition GPIO_FAILURE : Z := 1.
Definition GPIO_SUCCESS : Z := 0.
Definition GPIO_DEV_NAME : string := "gpio".
Definition GPIONUM : Z := 40.
Definition GPIO16 : Z := 16.
Definition GPIO28 : Z := 28.
Definition GPIO31 : Z := 31.
Definition GPIO32 : Z := 32.

Definition GPIO_CMD_MAGIC : Z := 0xcaa0000.
Definition CMD_GPIO_CFG : Z := GPIO_CMD_MAGIC + 0.
Definition CMD_GPIO_OUTPUT_REVERSE : Z := GPIO_CMD_MAGIC + 1.
Definition CMD_GPIO_ENABLE_SECOND : Z := GPIO_CMD_MAGIC + 2.
Definition CMD_GPIO_INPUT : Z := GPIO_CMD_MAGIC + 3.
Definition CMD_GPIO_OUTPUT : Z := GPIO_CMD_MAGIC + 4.
Definition CMD_GPIO_CLR_DPLL_UNLOOK_INT_BIT : Z := GPIO_CMD_MAGIC + 5.
Definition CMD_GPIO_EN_DPLL_UNLOOK_INT : Z := GPIO_CMD_MAGIC + 6.
Definition CMD_GPIO_INT_ENABLE : Z := GPIO_CMD_MAGIC + 7.
Definition CMD_GPIO_INT_DISABLE : Z := GPIO_CMD_MAGIC + 8.

Definition GMODE_INPUT_PULLDOWN : Z := 0.
Definition GMODE_OUTPUT : Z := 1.
Definition GMODE_SECOND_FUNC : Z := 2.
Definition GMODE_INPUT_PULLUP : Z := 3.
Definition GMODE_INPUT : Z := 4.
Definition GMODE_SECOND_FUNC_PULL_UP : Z := 5.
Definition GMODE_OUTPUT_PULLUP : Z := 6.
Definition GMODE_SET_HIGH_IMPENDANCE : Z := 7.
Definition GMODE_DEEP_PS : Z := 8.
Definition GMODE_HIGH_Z : Z := 9.

(** gpio.h *)
Definition GPIO_BASE_ADDR : Z := 0x0802800.
Definition REG_GPIO_CFG_BASE_ADDR : Z := GPIO_BASE_ADDR + 0 * 4.
Definition GCFG_INPUT_BIT : Z := Z.shiftl 1 0.
Definition GCFG_OUTPUT_POS : Z := 1.
Definition GCFG_OUTPUT_BIT : Z := Z.shiftl 1 1.
Definition REG_GPIO_FUNC_CFG : Z := GPIO_BASE_ADDR + 32 * 4.
Definition PERIAL_MODE_1 : Z := 0.
Definition PERIAL_MODE_2 : Z := 1.
Definition PERIAL_MODE_3 : Z := 2.
Definition REG_GPIO_INTEN : Z := GPIO_BASE_ADDR + 33 * 4.
Definition REG_GPIO_INTLV0 : Z := GPIO_BASE_ADDR + 34 * 4.
Definition REG_GPIO_INTLV1 : Z := GPIO_BASE_ADDR + 35 * 4.
Definition REG_GPIO_INTSTA : Z := GPIO_BASE_ADDR + 36 * 4.
Definition REG_GPIO_EXTRAL_INT_CFG : Z := GPIO_BASE_ADDR + 38 * 4.
Definition DPLL_UNLOCK_INT_EN : Z := Z.shiftl 1 0.
Definition DPLL_UNLOCK_INT : Z := Z.shiftl 1 2.
Definition AUDIO_DPLL_UNLOCK_INT : Z := Z.shiftl 1 3.
Definition GPIO_EXTRAL_INT_MASK : Z := Z.lor DPLL_UNLOCK_INT AUDIO_DPLL_UNLOCK_INT.
Definition REG_GPIO_MODULE_SELECT : Z := GPIO_BASE_ADDR + 45 * 4.
Definition GPIO_MODUL_NONE : Z := 0xff.
Definition GPIO_SD_DMA_MODULE : Z := Z.shiftl 0 2.
Definition GPIO_SD_HOST_MODULE : Z := Z.shiftl 1 2.
Definition GPIO_SD1_DMA_MODULE : Z := Z.shiftl 2 2.
Definition GPIO_SD1_HOST_MODULE : Z := Z.shiftl 3 2.
Definition GPIO_SD_MODULE_MASK : Z := Z.shiftl 3 2.
Definition GPIO_SPI1_DMA_MODULE : Z := Z.shiftl 2 0.
Definition GPIO_SPI1_MODULE : Z := Z.shiftl 3 0.
Definition GPIO_SPI_DMA_MODULE : Z := Z.shiftl 0 0.
Definition GPIO_SPI_MODULE : Z := Z.shiftl 1 0.
Definition GPIO_SPI_MODULE_MASK : Z := Z.shiftl 3 0.
Definition REG_GPIO_FUNC_CFG_2 : Z := GPIO_BASE_ADDR + 46 * 4.
Definition REG_GPIO_FUNC_CFG_3 : Z := GPIO_BASE_ADDR + 47 * 4.
Definition REG_GPIO_32_CONFIG : Z := GPIO_BASE_ADDR + 48 * 4.
Definition REG_GPIO_INTEN2 : Z := GPIO_BASE_ADDR + 56 * 4.
Definition REG_GPIO_INTLV3 : Z := GPIO_BASE_ADDR + 57 * 4.
Definition REG_GPIO_INTSTA2 : Z := GPIO_BASE_ADDR + 58 * 4.
Definition GPIO_USB_DP_PIN : Z := 25.
Definition GPIO_USB_DN_PIN : Z := 28.

(** gpio_pub.h, icu_pub.h and intc_pub.h *)
Definition GPIO_CFG_PARAM (id mode : Z) : Z := u32 (id + Z.shiftl (Z.land mode 0xff) 8).
Definition GPIO_CFG_PARAM_DEMUX_ID (param : Z) : Z := Z.land param 0xff.
Definition GPIO_CFG_PARAM_DEMUX_MODE (param : Z) : Z := Z.land (Z.shiftr param 8) 0xff.
Definition GPIO_OUTPUT_PARAM (id val : Z) : Z := u32 (id + Z.shiftl (Z.land val 0xff) 8).
Definition GPIO_OUTPUT_DEMUX_ID (param : Z) : Z := Z.land param 0xff.
Definition GPIO_OUTPUT_DEMUX_VAL (param : Z) : Z := Z.land (Z.shiftr param 8) 0xff.
Definition IRQ_GPIO : Z := 7.
Definition PRI_IRQ_GPIO : Z := 19.
Definition IRQ_GPIO_BIT : Z := Z.shiftl 1 7.

Definition GFUNC_MODE_UART2 : Z := 0.
Definition GFUNC_MODE_I2C2 : Z := 1.
Definition GFUNC_MODE_I2S : Z := 2.
Definition GFUNC_MODE_ADC1 : Z := 3.
Definition GFUNC_MODE_ADC2 : Z := 4.
Definition GFUNC_MODE_CLK13M : Z := 5.
Definition GFUNC_MODE_PWM0 : Z := 6.
Definition GFUNC_MODE_PWM1 : Z := 7.
Definition GFUNC_MODE_PWM2 : Z := 8.
Definition GFUNC_MODE_PWM3 : Z := 9.
Definition GFUNC_MODE_WIFI_ACTIVE : Z := 10.
Definition GFUNC_MODE_BT_ACTIVE : Z := 11.
Definition GFUNC_MODE_BT_PRIORITY : Z := 12.
Definition GFUNC_MODE_UART1 : Z := 13.
Definition GFUNC_MODE_SD_DMA : Z := 14.
Definition GFUNC_MODE_SD_HOST : Z := 15.
Definition GFUNC_MODE_SPI_DMA : Z := 16.
Definition GFUNC_MODE_SPI : Z := 17.
Definition GFUNC_MODE_PWM4 : Z := 18.
Definition GFUNC_MODE_PWM5 : Z := 19.
Definition GFUNC_MODE_I2C1 : Z := 20.
Definition GFUNC_MODE_JTAG : Z := 21.
Definition GFUNC_MODE_CLK26M : Z := 22.
Definition GFUNC_MODE_ADC3 : Z := 23.
Definition GFUNC_MODE_DCMI : Z := 24.
Definition GFUNC_MODE_ADC4 : Z := 25.
Definition GFUNC_MODE_ADC5 : Z := 26.
Definition GFUNC_MODE_ADC6 : Z := 27.
Definition GFUNC_MODE_ADC7 : Z := 28.
Definition GFUNC_MODE_SD1_HOST : Z := 29.
Definition GFUNC_MODE_SD1_DMA : Z := 30.
Definition GFUNC_MODE_SPI1 : Z := 31.
Definition GFUNC_MODE_SPI_DMA1 : Z := 32.
Definition GFUNC_MODE_QSPI_1LINE : Z := 33.
Definition GFUNC_MODE_QSPI_4LINE : Z := 34.
Definition GFUNC_MODE_QSPI_CLK : Z := 35.
Definition GFUNC_MODE_QSPI_CSN : Z := 36.
Definition GFUNC_MODE_IRDA : Z := 37.

(** The variables the switch of [gpio_enable_second_function] sets. *)
Record GFUNC := Gfunc {
  start_index : Z; end_index : Z; pmode : Z; config_mode : Z; modul_select : Z; pmask : Z }.

Definition pins (a b m : Z) : GFUNC := Gfunc a b m GMODE_SECOND_FUNC GPIO_MODUL_NONE 0.
Definition pull_up (f : GFUNC) : GFUNC :=
  Gfunc (start_index f) (end_index f) (pmode f) GMODE_SECOND_FUNC_PULL_UP (modul_select f) (pmask f).
Definition select (m mask : Z) (f : GFUNC) : GFUNC := Gfunc (start_index f) (end_index f) (pmode f) (config_mode f) m mask.

(** Their values before the switch. *)
Definition gfunc_default : GFUNC := pins 0 0 PERIAL_MODE_1.

(** The cases of the switch. *)
Definition second_functions : list (Z * GFUNC) := [
  (GFUNC_MODE_UART2, pull_up (pins 0 1 PERIAL_MODE_1));
  (GFUNC_MODE_I2C2, pull_up (pins 0 1 PERIAL_MODE_2));
  (GFUNC_MODE_I2S, pins 2 5 PERIAL_MODE_1);
  (GFUNC_MODE_ADC1, pins 4 4 PERIAL_MODE_2);
  (GFUNC_MODE_ADC2, pins 5 5 PERIAL_MODE_2);
  (GFUNC_MODE_CLK13M, pins 6 6 PERIAL_MODE_1);
  (GFUNC_MODE_PWM0, pins 6 6 PERIAL_MODE_2);
  (GFUNC_MODE_PWM1, pins 7 7 PERIAL_MODE_2);
  (GFUNC_MODE_PWM2, pins 8 8 PERIAL_MODE_2);
  (GFUNC_MODE_PWM3, pins 9 9 PERIAL_MODE_2);
  (GFUNC_MODE_BT_PRIORITY, pins 9 9 PERIAL_MODE_1);
  (GFUNC_MODE_WIFI_ACTIVE, pins 7 7 PERIAL_MODE_1);
  (GFUNC_MODE_BT_ACTIVE, pins 8 8 PERIAL_MODE_1);
  (GFUNC_MODE_UART1, pull_up (pins 10 13 PERIAL_MODE_1));
  (GFUNC_MODE_SD_DMA, select GPIO_SD_DMA_MODULE GPIO_SD_MODULE_MASK (pins 14 19 PERIAL_MODE_1));
  (GFUNC_MODE_SD1_DMA, select GPIO_SD1_DMA_MODULE GPIO_SD_MODULE_MASK (pins 34 39 PERIAL_MODE_2));
  (GFUNC_MODE_SD_HOST, select GPIO_SD_HOST_MODULE GPIO_SD_MODULE_MASK (pull_up (pins 14 19 PERIAL_MODE_1)));
  (GFUNC_MODE_SPI_DMA, select GPIO_SPI_DMA_MODULE GPIO_SPI_MODULE_MASK (pins 14 17 PERIAL_MODE_2));
  (GFUNC_MODE_SPI, select GPIO_SPI_MODULE GPIO_SPI_MODULE_MASK (pins 14 17 PERIAL_MODE_2));
  (GFUNC_MODE_PWM4, pins 24 24 PERIAL_MODE_2);
  (GFUNC_MODE_PWM5, pins 26 26 PERIAL_MODE_2);
  (GFUNC_MODE_I2C1, pull_up (pins 20 21 PERIAL_MODE_1));
  (GFUNC_MODE_JTAG, pins 20 23 PERIAL_MODE_2);
  (GFUNC_MODE_CLK26M, pins 22 22 PERIAL_MODE_1);
  (GFUNC_MODE_ADC3, pins 23 23 PERIAL_MODE_1);
  (GFUNC_MODE_DCMI, pins 27 39 PERIAL_MODE_1);
  (GFUNC_MODE_ADC4, pins 3 3 PERIAL_MODE_2);
  (GFUNC_MODE_ADC5, pins 2 2 PERIAL_MODE_2);
  (GFUNC_MODE_ADC6, pins 12 12 PERIAL_MODE_2);
  (GFUNC_MODE_ADC7, pins 13 13 PERIAL_MODE_2);
  (GFUNC_MODE_SD1_HOST, select GPIO_SD1_HOST_MODULE GPIO_SD_MODULE_MASK (pull_up (pins 34 39 PERIAL_MODE_2)));
  (GFUNC_MODE_SPI1, select GPIO_SPI1_MODULE GPIO_SPI_MODULE_MASK (pins 30 33 PERIAL_MODE_2));
  (GFUNC_MODE_SPI_DMA1, select GPIO_SPI1_DMA_MODULE GPIO_SPI_MODULE_MASK (pins 30 33 PERIAL_MODE_2));
  (GFUNC_MODE_QSPI_1LINE, pull_up (pins 16 17 PERIAL_MODE_3));
  (GFUNC_MODE_QSPI_4LINE, pins 18 19 PERIAL_MODE_2);
  (GFUNC_MODE_QSPI_CLK, pins 24 24 PERIAL_MODE_3);
  (GFUNC_MODE_QSPI_CSN, pins 26 26 PERIAL_MODE_3);
  (GFUNC_MODE_IRDA, pins 26 26 PERIAL_MODE_1)].

Definition gfunc_of (func_mode : Z) : GFUNC :=
  match find (fun c => c.1 =? func_mode) second_functions with Some c => c.2 | None => gfunc_default end.

(** What the [void *] of a control command points to. *)
Inductive gpio_parm :=
  | GNull
  | GWord (w : Z)
  | GInt (id mode phandler : Z).

Record gpio_st (hw : Type) := GpioSt { g_hw : hw; p_gpio_intr_handler : list Z; gpio_ops_filter_flag : Z }.
Arguments GpioSt {hw}. Arguments g_hw {hw}. Arguments p_gpio_intr_handler {hw}. Arguments gpio_ops_filter_flag {hw}.

(** ** Registers *)
Section pins.
Context {hw : Type} `{RegBus hw}.

Definition gpio_ops_filter (index : Z) : Z := GPIO_FAILURE.

(** The register of a pin. *)
Definition gpio_cfg_addr (id : Z) : Z :=
  if id <=? GPIO31 then u32 (REG_GPIO_CFG_BASE_ADDR + id * 4) else u32 (REG_GPIO_32_CONFIG + (id - 32) * 4).

(** The switch of [gpio_config]. *)
Definition mode_word (mode : Z) : option Z :=
  if mode =? GMODE_INPUT_PULLDOWN then Some 0x2C
  else if mode =? GMODE_OUTPUT then Some 0x00
  else if mode =? GMODE_SECOND_FUNC then Some 0x48
  else if mode =? GMODE_INPUT_PULLUP then Some 0x3C
  else if mode =? GMODE_INPUT then Some 0x0C
  else if mode =? GMODE_SECOND_FUNC_PULL_UP then Some 0x78
  else if (mode =? GMODE_DEEP_PS) || (mode =? GMODE_SET_HIGH_IMPENDANCE) then Some 0x08
  else None.

Definition gpio_config (index mode : Z) : M hw unit :=
  if GPIO_SUCCESS =? gpio_ops_filter index then mret tt
  else if GPIONUM <=? index then mret tt
  else match mode_word mode with
       | Some val => REG_WRITE (gpio_cfg_addr index) val
       | None => mret tt
       end.

Definition gpio_usb_second_function : M hw unit :=
  let posi x := (x - 16) * 2 in
  val ← REG_READ REG_GPIO_FUNC_CFG_2;
  let val := Z.ldiff val (Z.lor (Z.shiftl 3 (posi GPIO_USB_DP_PIN)) (Z.shiftl 3 (posi GPIO_USB_DN_PIN))) in
  let val := Z.lor val (Z.lor (Z.shiftl 1 (posi GPIO_USB_DP_PIN)) (Z.shiftl 1 (posi GPIO_USB_DN_PIN))) in
  REG_WRITE REG_GPIO_FUNC_CFG_2 val.

(** The register with the function of a pin, and the place in it; past the
    last pin they stay as they are. *)
Definition func_field (i regist shift : Z) : Z * Z :=
  if i <? GPIO16 then (REG_GPIO_FUNC_CFG, i * 2)
  else if i <? GPIO32 then (REG_GPIO_FUNC_CFG_2, (i - 16) * 2)
  else if i <? GPIONUM then (REG_GPIO_FUNC_CFG_3, (i - 32) * 2)
  else (regist, shift).

(** The loop over the pins, [n] of them from [i]. *)
Fixpoint second_pins (n : nat) (func_mode : Z) (f : GFUNC) (i regist shift : Z) : M hw unit :=
  match n with
  | O => mret tt
  | S n' =>
    if (func_mode =? GFUNC_MODE_DCMI) && (i =? GPIO28) then second_pins n' func_mode f (i + 1) regist shift
    else
      let '(regist, shift) := func_field i regist shift in
      reg ← REG_READ regist;
      REG_WRITE regist (Z.lor (Z.ldiff reg (u32 (Z.shiftl 3 shift))) (u32 (Z.shiftl (Z.land (pmode f) 3) shift)));;
      gpio_config i (config_mode f);;
      second_pins n' func_mode f (i + 1) regist shift
  end.

Definition gpio_enable_second_function (func_mode : Z) : M hw unit :=
  let f := gfunc_of func_mode in
  second_pins (Z.to_nat (end_index f + 1 - start_index f)) func_mode f (start_index f) 0 0;;
  when (negb (modul_select f =? GPIO_MODUL_NONE)) (
    reg ← REG_READ REG_GPIO_MODULE_SELECT;
    REG_WRITE REG_GPIO_MODULE_SELECT (Z.lor (Z.ldiff reg (pmask f)) (modul_select f))).

Definition gpio_input (id : Z) : M hw Z :=
  val ← (if GPIO_SUCCESS =? gpio_ops_filter id then mret 0 else REG_READ (gpio_cfg_addr id));
  mret (Z.land val GCFG_INPUT_BIT).

Definition gpio_output (id val : Z) : M hw unit :=
  if GPIO_SUCCESS =? gpio_ops_filter id then mret tt
  else
    reg_val ← REG_READ (gpio_cfg_addr id);
    let reg_val := Z.ldiff reg_val GCFG_OUTPUT_BIT in
    REG_WRITE (gpio_cfg_addr id) (Z.lor reg_val (Z.shiftl (Z.land val 1) GCFG_OUTPUT_POS)).

Definition gpio_output_reverse (id : Z) : M hw unit :=
  if GPIO_SUCCESS =? gpio_ops_filter id then mret tt
  else
    reg_val ← REG_READ (gpio_cfg_addr id);
    REG_WRITE (gpio_cfg_addr id) (Z.lxor reg_val GCFG_OUTPUT_BIT).

(** The loop of [gpio_disable_jtag] has no body. *)
Definition gpio_disable_jtag : M hw unit := mret tt.

Definition gpio_int_disable (index : Z) : M hw unit :=
  if index <=? GPIO31 then
    r ← REG_READ REG_GPIO_INTEN; REG_WRITE REG_GPIO_INTEN (Z.ldiff r (u32 (Z.shiftl 1 index)))
  else
    r ← REG_READ REG_GPIO_INTEN2; REG_WRITE REG_GPIO_INTEN2 (Z.ldiff r (u32 (Z.shiftl 1 (index - 32)))).

(** [*r = ( *r & ~(3 << (i << 1))) | (mode << (i << 1))] *)
Definition set_level (r i mode : Z) : M hw unit :=
  reg ← REG_READ r;
  REG_WRITE r (Z.lor (Z.ldiff reg (u32 (Z.shiftl 3 (Z.shiftl i 1)))) (u32 (Z.shiftl mode (Z.shiftl i 1)))).

(** [gpio_int_enable] up to the assignment of the handler, and after it. *)
Definition int_configure (index mode : Z) : M hw unit :=
  (if (mode =? 0) || (mode =? 3) then gpio_config index GMODE_INPUT_PULLUP else gpio_config index GMODE_INPUT_PULLDOWN);;
  (if index <=? 15 then set_level REG_GPIO_INTLV0 index mode
   else if (GPIO16 <=? index) && (index <=? GPIO31) then set_level REG_GPIO_INTLV1 (index - 16) mode
   else when ((GPIO32 <=? index) && (index <=? 39)) (set_level REG_GPIO_INTLV3 (index - 32) mode)).
Definition int_unmask (index : Z) : M hw unit :=
  if index <=? GPIO31 then
    r ← REG_READ REG_GPIO_INTEN; REG_WRITE REG_GPIO_INTEN (Z.lor r (u32 (Z.shiftl 1 index)))
  else
    r ← REG_READ REG_GPIO_INTEN2; REG_WRITE REG_GPIO_INTEN2 (Z.lor r (u32 (Z.shiftl 1 (index - GPIO32)))).

(** [*(UINT32 * )param]: a structure starts with its identifier. *)
Definition gderef (param : gpio_parm) : M hw Z :=
  match param with GNull => fail BadAccess | GWord w => mret w | GInt id _ _ => mret id end.
Definition not_null (param : gpio_parm) : bool := match param with GNull => false | _ => true end.

(** The commands of [gpio_ctrl] that access registers only. *)
Definition gpio_ctrl_regs (cmd : Z) (param : gpio_parm) : M hw Z :=
  if cmd =? CMD_GPIO_CFG then
    p ← gderef param; gpio_config (GPIO_CFG_PARAM_DEMUX_ID p) (GPIO_CFG_PARAM_DEMUX_MODE p);; mret GPIO_SUCCESS
  else if cmd =? CMD_GPIO_OUTPUT_REVERSE then
    assert (not_null param);; p ← gderef param; gpio_output_reverse p;; mret GPIO_SUCCESS
  else if cmd =? CMD_GPIO_OUTPUT then
    p ← gderef param; gpio_output (GPIO_OUTPUT_DEMUX_ID p) (GPIO_OUTPUT_DEMUX_VAL p);; mret GPIO_SUCCESS
  else if cmd =? CMD_GPIO_INPUT then
    assert (not_null param);; p ← gderef param; gpio_input p
  else if cmd =? CMD_GPIO_ENABLE_SECOND then
    assert (not_null param);; p ← gderef param; gpio_enable_second_function p;; mret GPIO_SUCCESS
  else if cmd =? CMD_GPIO_CLR_DPLL_UNLOOK_INT_BIT then
    reg ← REG_READ REG_GPIO_EXTRAL_INT_CFG;
    REG_WRITE REG_GPIO_EXTRAL_INT_CFG (Z.lor (Z.ldiff reg GPIO_EXTRAL_INT_MASK) DPLL_UNLOCK_INT);; mret GPIO_SUCCESS
  else if cmd =? CMD_GPIO_EN_DPLL_UNLOOK_INT then
    reg ← REG_READ REG_GPIO_EXTRAL_INT_CFG;
    assert (not_null param);;
    enable ← gderef param;
    let reg := Z.ldiff reg GPIO_EXTRAL_INT_MASK in
    REG_WRITE REG_GPIO_EXTRAL_INT_CFG (if truthy enable then Z.lor reg DPLL_UNLOCK_INT_EN else Z.ldiff reg DPLL_UNLOCK_INT_EN);;
    mret GPIO_SUCCESS
  else if cmd =? CMD_GPIO_INT_DISABLE then
    id ← gderef param; gpio_int_disable id;; mret GPIO_SUCCESS
  else mret GPIO_SUCCESS.

(** [gpio_ctrl] with a pointer to a word, where the tables are out of reach:
    what CMD_GPIO_INT_ENABLE reads after the word is outside the object. *)
Definition gpio_word_op : SDD_OPERATIONS hw := {| sop_control := Some (fun cmd param =>
  if cmd =? CMD_GPIO_INT_ENABLE then fail BadAccess else r ← gpio_ctrl_regs cmd (GWord param); mret (r, param)) |}.
End pins.

(** ** The interrupt routine *)
Section isr.
Context {hw : Type} `{RegBus hw}.
(** [p_gpio_intr_handler[i](pin)]: the address called, and the pin. *)
Context (call_handler : Z -> Z -> M (gpio_st hw) unit).
Abbreviation st := (gpio_st hw).

Definition on_regs {A} (m : M hw A) : M st A := fun s =>
  match m (g_hw s) with
  | Val (a, h) => Val (a, GpioSt h (p_gpio_intr_handler s) (gpio_ops_filter_flag s))
  | Err f => Err f
  end.

Definition get_handler (i : Z) : M st Z := s ← get; lift_res (of_option BadAccess (zlookup (p_gpio_intr_handler s) i)).

(** [p_gpio_intr_handler[i] = h]: the callers have compared the index. *)
Definition set_handler (i h : Z) : M st unit := modify (fun s =>
  GpioSt (g_hw s) (<[Z.to_nat i := h]> (p_gpio_intr_handler s)) (gpio_ops_filter_flag s)).

Definition gpio_ops_disable_filter : M st unit := modify (fun s => GpioSt (g_hw s) (p_gpio_intr_handler s) 1).

(** The [n] turns from [i] of a loop over a status word whose bit 0 is the pin [base]. *)
Definition isr_loop (n : nat) (i base ulIntStatus : Z) : M st unit := serve_bits get_handler call_handler n i 0 base ulIntStatus.

Definition gpio_isr : M st unit :=
  ulIntStatus ← on_regs (REG_READ REG_GPIO_INTSTA);
  isr_loop (Z.to_nat (GPIO31 + 1)) 0 0 ulIntStatus;;
  on_regs (REG_WRITE REG_GPIO_INTSTA ulIntStatus);;
  ulIntStatus ← on_regs (REG_READ REG_GPIO_INTSTA2);
  isr_loop (Z.to_nat (GPIONUM - GPIO32)) 0 GPIO32 ulIntStatus;;
  on_regs (REG_WRITE REG_GPIO_INTSTA2 ulIntStatus).
End isr.

(** ** Over the registry and the interrupt table *)
Section system.
Context {hw : Type} `{RegBus hw} (fuel : nat).
Abbreviation sys := (intc_st (gpio_st hw)).
Abbreviation all := (drv_state (intc_st (gpio_st hw))).
Context (sdev_ops : Z -> SDD_OPERATIONS sys).
(** The addresses of [gpio_op] and [gpio_isr]. *)
Context (gpio_op gpio_isr_addr : Z).

Definition on_gpio {A} (m : M (gpio_st hw) A) : M all A := call (on_ext m).

Definition gpio_int_enable (index mode p_Int_Handler : Z) : M all unit :=
  call (intc_service_register fuel IRQ_GPIO PRI_IRQ_GPIO gpio_isr_addr);;
  _ ← sddev_control sdev_ops (Some ICU_DEV_NAME) CMD_ICU_INT_ENABLE IRQ_GPIO_BIT;
  if GPIONUM <=? index then mret tt
  else
    let mode := Z.land mode 0x03 in
    on_gpio (on_regs (int_configure index mode));;
    on_gpio (set_handler index p_Int_Handler);;
    on_gpio (on_regs (int_unmask index)).

Definition gpio_ctrl (cmd : Z) (param : gpio_parm) : M all Z :=
  if cmd =? CMD_GPIO_INT_ENABLE then
    match param with
    | GInt id mode phandler => gpio_int_enable id mode phandler;; mret GPIO_SUCCESS
    | _ => fail BadAccess
    end
  else on_gpio (on_regs (gpio_ctrl_regs cmd param)).

Definition gpio_init : M all unit :=
  on_gpio (on_regs gpio_disable_jtag);;
  _ ← sddev_register_dev (Some GPIO_DEV_NAME) (Some gpio_op);
  mret tt.

Definition gpio_exit : M all unit := _ ← sddev_unregister_dev (Some GPIO_DEV_NAME); mret tt.

(** ** The calls of applications

    [sddev_control(GPIO_DEV_NAME, cmd, param)] with a pointer. *)
Definition gpio_control : Z -> gpio_parm -> M all Z := dev_control GPIO_DEV_NAME gpio_op gpio_ctrl.

Definition bk_gpio_config_input (id : Z) : M all unit :=
  _ ← gpio_control CMD_GPIO_CFG (GWord (GPIO_CFG_PARAM id GMODE_INPUT)); mret tt.
Definition bk_gpio_config_input_pup (id : Z) : M all unit :=
  _ ← gpio_control CMD_GPIO_CFG (GWord (GPIO_CFG_PARAM id GMODE_INPUT_PULLUP)); mret tt.
Definition bk_gpio_config_input_pdwn (id : Z) : M all unit :=
  _ ← gpio_control CMD_GPIO_CFG (GWord (GPIO_CFG_PARAM id GMODE_INPUT_PULLDOWN)); mret tt.
Definition bk_gpio_input (id : Z) : M all Z := gpio_control CMD_GPIO_INPUT (GWord id).
Definition bk_gpio_config_output (id : Z) : M all unit :=
  ret ← gpio_control CMD_GPIO_CFG (GWord (GPIO_CFG_PARAM id GMODE_OUTPUT)); assert (GPIO_SUCCESS =? ret).
Definition bk_gpio_output (id val : Z) : M all unit :=
  ret ← gpio_control CMD_GPIO_OUTPUT (GWord (GPIO_OUTPUT_PARAM id val)); assert (GPIO_SUCCESS =? ret).
Definition bk_gpio_output_reverse (id : Z) : M all unit :=
  ret ← gpio_control CMD_GPIO_OUTPUT_REVERSE (GWord id); assert (GPIO_SUCCESS =? ret).

(** [bk_gpio_config_t] *)
Definition INPUT_PULL_UP : Z := 0.
Definition INPUT_PULL_DOWN : Z := 1.
Definition INPUT_NORMAL : Z := 2.
Definition OUTPUT_NORMAL : Z := 3.
Definition GPIO_SECOND_FNNC : Z := 4.

Definition BkGpioInitialize (gpio configuration : Z) : M all Z :=
  let mode := if configuration =? INPUT_PULL_UP then Some GMODE_INPUT_PULLUP
    else if configuration =? INPUT_PULL_DOWN then Some GMODE_INPUT_PULLDOWN
    else if configuration =? INPUT_NORMAL then Some GMODE_INPUT
    else if configuration =? OUTPUT_NORMAL then Some GMODE_OUTPUT
    else if configuration =? GPIO_SECOND_FNNC then Some GMODE_SECOND_FUNC
    else None in
  match mode with
  | Some mode => ret ← gpio_control CMD_GPIO_CFG (GWord (GPIO_CFG_PARAM gpio mode)); assert (GPIO_SUCCESS =? ret)
  | None => mret tt
  end;;
  mret 0.
Definition BkGpioFinalize (gpio : Z) : M all Z := _ ← BkGpioInitialize gpio INPUT_NORMAL; mret 0.
Definition BkGpioOutputHigh (gpio : Z) : M all Z := bk_gpio_output gpio 1;; mret 0.
Definition BkGpioOutputLow (gpio : Z) : M all Z := bk_gpio_output gpio 0;; mret 0.
Definition BkGpioOutputTrigger (gpio : Z) : M all Z := mret 0.
Definition BkGpioInputGet (gpio : Z) : M all bool := r ← bk_gpio_input gpio; mret (truthy r).
Definition BkGpioEnableIRQ (gpio trigger handler arg : Z) : M all Z :=
  gpio_control CMD_GPIO_INT_ENABLE (GInt gpio trigger handler).
Definition BkGpioDisableIRQ (gpio : Z) : M all Z := gpio_control CMD_GPIO_INT_DISABLE (GWord gpio).

(** [cmd] and [mode] are characters. *)
Definition BKGpioOp (cmd id mode : Z) : M all Z :=
  let command := if cmd =? 48 then CMD_GPIO_CFG else if cmd =? 49 then CMD_GPIO_INPUT
    else if cmd =? 50 then CMD_GPIO_OUTPUT else CMD_GPIO_OUTPUT_REVERSE in
  let mode_set := if mode =? 48 then GMODE_INPUT_PULLDOWN else if mode =? 49 then GMODE_OUTPUT
    else if mode =? 50 then GMODE_INPUT_PULLUP else GMODE_INPUT in
  let mode_set := Z.lor (Z.shiftl mode_set 8) id in
  gpio_control command (GWord mode_set).

Definition BKGpioIntcEn (cmd id mode p_handle : Z) : M all unit :=
  _ ← (if cmd =? 1 then BkGpioEnableIRQ id mode p_handle 0 else BkGpioDisableIRQ id); mret tt.
End system.
