(* ===== verification/GpioCorrect.v ===== *)
(** * Correctness of the pin driver

    What the registers are ([GpioRegs]); what each call changes in them, as a
    relation between the parts of the registers that software controls; the
    second functions of the pins; levels; the interrupt routine. *)
From stdpp Require Import strings.
From S2P Require Import Prelude Serve DrvModel Icu Regs Intc Gpio.
Local Open Scope Z_scope.

(** ** The registers

    Bit 0 of the register of a pin is the level at the pin.  The bits of the
    interrupt status are set by the unit and cleared by writing one; the
    others keep what is written.  Accesses elsewhere leave what software
    controls alone, and no access clears a pending bit it does not write. *)
Definition in_gpio (a : Z) : bool := (GPIO_BASE_ADDR <=? a) && (a <=? REG_GPIO_INTSTA2).
Definition cfg_reg (a : Z) : bool :=
  ((REG_GPIO_CFG_BASE_ADDR <=? a) && (a <? REG_GPIO_FUNC_CFG)) || ((REG_GPIO_32_CONFIG <=? a) && (a <? REG_GPIO_INTEN2)).
Definition gpio_ack (a : Z) : Z :=
  if (a =? REG_GPIO_INTSTA) || (a =? REG_GPIO_INTSTA2) then 0xFFFFFFFF
  else if a =? REG_GPIO_EXTRAL_INT_CFG then GPIO_EXTRAL_INT_MASK else 0.

(** The bits software does not control. *)
Definition gpio_hard (a : Z) : Z := if cfg_reg a then GCFG_INPUT_BIT else gpio_ack a.

Definition gpio_block : block := Block in_gpio gpio_hard gpio_ack.
Class GpioRegs (hw : Type) `{RegBus hw} := gpio_regs :: BlockRegs gpio_block hw.
Abbreviation hard := (b_hard gpio_block).
Abbreviation ack_mask := (b_ack gpio_block).
Abbreviation greg := (breg (B := gpio_block)).
Abbreviation soft := (Regs.soft gpio_block).
Abbreviation runs := (Regs.runs gpio_block).

(** ** The registers of the pins *)

(** Decide equations and bounds between addresses. *)
Ltac gaddr :=
  unfold gpio_cfg_addr, in_gpio, in_icu, cfg_reg, func_field, ICU_ARM_WAKEUP_EN, ICU_BASE, REG_GPIO_INTSTA2, REG_GPIO_INTLV3, REG_GPIO_INTEN2,
    REG_GPIO_32_CONFIG, REG_GPIO_FUNC_CFG_3, REG_GPIO_FUNC_CFG_2, REG_GPIO_MODULE_SELECT, REG_GPIO_EXTRAL_INT_CFG,
    REG_GPIO_INTSTA, REG_GPIO_INTLV1, REG_GPIO_INTLV0, REG_GPIO_INTEN, REG_GPIO_FUNC_CFG, REG_GPIO_CFG_BASE_ADDR,
    GPIO_BASE_ADDR, GPIO16, GPIO31, GPIO32, GPIONUM, u32 in *; bdestr; Z.to_euclidean_division_equations; try lia.

#[export, refine] Instance gpio_block_ok : BlockOk gpio_block := {}.
Proof.
  - intros a. cbn [b_hard gpio_block]. unfold gpio_hard, gpio_ack. destruct (cfg_reg a); [done|]. destruct (_ || _); [done|]. by destruct (_ =? _).
  - intros a i. cbn [b_ack b_hard gpio_block]. unfold gpio_hard. destruct (cfg_reg a) eqn:Hc; [|done]. unfold gpio_ack.
    destruct (Z.eqb_spec a REG_GPIO_INTSTA) as [->|]; [done|]. destruct (Z.eqb_spec a REG_GPIO_INTSTA2) as [->|]; [done|].
    destruct (Z.eqb_spec a REG_GPIO_EXTRAL_INT_CFG) as [->|]; [done|]. by rewrite Z.bits_0.
Defined.
#[export] Instance icu_apart_gpio : Apart in_icu in_gpio.
Proof. intros a. unfold in_icu, in_gpio. gaddr. Qed.
#[export] Instance gpio_apart_icu : Apart in_gpio in_icu.
Proof. intros a. unfold in_icu, in_gpio. gaddr. Qed.

Definition func_reg (i : Z) : Z := (func_field i 0 0).1.
Definition func_shift (i : Z) : Z := (func_field i 0 0).2.

Lemma cfg_addr i : 0 <= i < GPIONUM -> gpio_cfg_addr i = GPIO_BASE_ADDR + 4 * (if i <? 32 then i else i + 16).
Proof. intros Hi. gaddr. Qed.

Lemma cfg_addr_facts i : 0 <= i < GPIONUM -> in_gpio (gpio_cfg_addr i) = true /\ hard (gpio_cfg_addr i) = GCFG_INPUT_BIT.
Proof.
  intros Hi. rewrite cfg_addr by done. cbn [b_hard gpio_block]. unfold gpio_hard. enough (in_gpio (GPIO_BASE_ADDR + 4 * (if i <? 32 then i else i + 16)) = true /\
    cfg_reg (GPIO_BASE_ADDR + 4 * (if i <? 32 then i else i + 16)) = true) as [-> ->] by done.
  unfold in_gpio, cfg_reg, GPIONUM, GPIO_BASE_ADDR in *. destruct (Z.ltb_spec i 32); split; gaddr.
Qed.

Lemma cfg_addr_inj i j : 0 <= i < GPIONUM -> 0 <= j < GPIONUM -> gpio_cfg_addr i = gpio_cfg_addr j -> i = j.
Proof. intros Hi Hj. rewrite !cfg_addr by done. destruct (Z.ltb_spec i 32), (Z.ltb_spec j 32); lia. Qed.

Lemma func_reg_cases i : 0 <= i < GPIONUM ->
  (func_reg i = REG_GPIO_FUNC_CFG \/ func_reg i = REG_GPIO_FUNC_CFG_2 \/ func_reg i = REG_GPIO_FUNC_CFG_3) /\
  0 <= func_shift i <= 30.
Proof. intros Hi. unfold func_reg, func_shift, func_field, GPIO16, GPIO32, GPIONUM in *. bdestr; cbn [fst snd]; split; auto; lia. Qed.

Lemma func_reg_facts i : 0 <= i < GPIONUM -> in_gpio (func_reg i) = true /\ hard (func_reg i) = 0.
Proof. intros Hi. by destruct (func_reg_cases i Hi) as [[->|[->| ->]] _]. Qed.

(** Two pins have different places. *)
Lemma func_place_ne i j : 0 <= i < GPIONUM -> 0 <= j < GPIONUM -> i <> j -> func_reg i = func_reg j ->
  func_shift i + 2 <= func_shift j \/ func_shift j + 2 <= func_shift i.
Proof.
  intros Hi Hj Hne. unfold func_reg, func_shift, func_field, GPIO16, GPIO32, GPIONUM in *.
  destruct (Z.ltb_spec i 16), (Z.ltb_spec i 32), (Z.ltb_spec i 40), (Z.ltb_spec j 16), (Z.ltb_spec j 32), (Z.ltb_spec j 40); cbn [fst snd];
    intros E; try (vm_compute in E; discriminate E); lia.
Qed.

Lemma cfg_not_func i j : 0 <= i < GPIONUM -> 0 <= j < GPIONUM -> gpio_cfg_addr i <> func_reg j.
Proof.
  intros Hi Hj. rewrite cfg_addr by done. unfold GPIONUM in Hi. destruct (func_reg_cases j Hj) as [[->|[->| ->]] _];
    unfold REG_GPIO_FUNC_CFG, REG_GPIO_FUNC_CFG_2, REG_GPIO_FUNC_CFG_3, GPIO_BASE_ADDR; destruct (Z.ltb_spec i 32); lia.
Qed.

(** ** Configurations and functions of pins

    [g'] is [g] with the pins that satisfy [P] configured as [w] and given the
    function [pm]. *)
Definition pin_function (g : Z -> Z) (i : Z) : Z := Z.land (Z.shiftr (g (func_reg i)) (func_shift i)) 3.
Definition other_reg (b : Z) : Prop := forall i, 0 <= i < GPIONUM -> b <> gpio_cfg_addr i /\ b <> func_reg i.

Record pins_set (P : Z -> bool) (w pm : Z) (g g' : Z -> Z) : Prop := {
  ps_config i : 0 <= i < GPIONUM -> g' (gpio_cfg_addr i) = if P i then w else g (gpio_cfg_addr i);
  ps_function i : 0 <= i < GPIONUM -> pin_function g' i = if P i then pm else pin_function g i;
  ps_other b : other_reg b -> g' b = g b;
}.

Lemma pins_set_trans P Q R w pm g g1 g2 : pins_set P w pm g g1 -> pins_set Q w pm g1 g2 ->
  (forall i, R i = P i || Q i) -> pins_set R w pm g g2.
Proof.
  intros [P1 P2 P3] [Q1 Q2 Q3] HR. split.
  - intros i Hi. rewrite HR, Q1, P1 by done. by destruct (P i), (Q i).
  - intros i Hi. rewrite HR, Q2, P2 by done. by destruct (P i), (Q i).
  - intros b Hb. by rewrite Q3, P3.
Qed.

Lemma pins_set_none P w pm g g' : (forall i, P i = false) -> same g g' -> pins_set P w pm g g'.
Proof. intros HP Hs. split; intros; rewrite ?HP; try apply Hs. unfold pin_function. by rewrite Hs. Qed.

Lemma pins_set_ext P Q w pm g g' : (forall i, Q i = P i) -> pins_set P w pm g g' -> pins_set Q w pm g g'.
Proof. intros HQ [H1 H2 H3]. split; intros; rewrite ?HQ; auto. Qed.

Lemma mode_word_facts mode w : mode_word mode = Some w -> is_u32 w /\ Z.ldiff w GCFG_INPUT_BIT = w.
Proof.
  unfold mode_word. intros E.
  repeat (match type of E with (if ?b then _ else _) = _ => destruct b end; [injection E as <-; by split|]). done.
Qed.

Section config.
Context {hw : Type} `{GpioRegs hw}.

Lemma config_runs i mode w : 0 <= i < GPIONUM -> mode_word mode = Some w ->
  runs (gpio_config i mode) (assigns (gpio_cfg_addr i) (fun _ => w)).
Proof.
  intros Hi Hw. destruct (mode_word_facts _ _ Hw) as [Hu Hl], (cfg_addr_facts i Hi) as [Ha Hh].
  unfold gpio_config. change (GPIO_SUCCESS =? gpio_ops_filter i) with false. rewrite (proj2 (Z.leb_gt _ _)) by lia. rewrite Hw.
  eapply runs_mono; [by apply runs_write|]. intros g g' Hg b. by rewrite Hg, Hh, Hl.
Qed.

(** The field of a pin in its function register. *)
Lemma func_word reg pm s : 0 <= s <= 30 ->
  Z.lor (Z.ldiff reg (u32 (Z.shiftl 3 s))) (u32 (Z.shiftl (Z.land pm 3) s)) = set_field reg pm s 2.
Proof.
  intros Hs. unfold set_field. change (Z.ones 2) with 3.
  assert (Hb : forall x, 0 <= x <= 3 -> u32 (Z.shiftl x s) = Z.shiftl x s).
  { intros x Hx. rewrite Z.shiftl_mul_pow2 by lia. apply u32_id. assert (2 ^ s <= 2 ^ 30) by (apply Z.pow_le_mono_r; lia).
    assert (0 < 2 ^ s) by lia. unfold is_u32. change 4294967296 with (4 * 2 ^ 30). nia. }
  rewrite (Hb 3) by lia. rewrite Hb; [done|]. change 3 with (Z.ones 2). rewrite Z.land_ones by lia. change (2 ^ 2) with 4.
  change (Z.ones 2) with 3. pose proof (Z.mod_pos_bound pm 4). lia.
Qed.

Lemma pin_step_runs i mode w pm : 0 <= i < GPIONUM -> mode_word mode = Some w -> 0 <= pm < 4 ->
  runs (reg ← REG_READ (func_reg i);
        REG_WRITE (func_reg i) (Z.lor (Z.ldiff reg (u32 (Z.shiftl 3 (func_shift i)))) (u32 (Z.shiftl (Z.land pm 3) (func_shift i))));;
        gpio_config i mode) (pins_set (fun j => j =? i) w pm).
Proof.
  intros Hi Hw Hpm. destruct (func_reg_facts i Hi) as [Ha Hh], (func_reg_cases i Hi) as [_ Hs].
  eapply (runs_mono (B := gpio_block) _ (fun g g' => exists g1, assigns (func_reg i) (fun x => set_field x pm (func_shift i) 2) g g1 /\
    assigns (gpio_cfg_addr i) (fun _ => w) g1 g')).
  - intros h.
    destruct (runs_rmw (B := gpio_block) (func_reg i) (fun x => Z.lor (Z.ldiff x (u32 (Z.shiftl 3 (func_shift i)))) (u32 (Z.shiftl (Z.land pm 3) (func_shift i))))
      (fun x => set_field x pm (func_shift i) 2) Ha) with (h := h) as (h1 & E1 & R1).
    + intros x Hx. rewrite func_word by done. apply set_field_u32; [lia..|done].
    + intros x. by rewrite Hh, !Z.ldiff_0_r, func_word.
    + destruct (config_runs i mode w Hi Hw h1) as (h2 & E2 & R2). exists h2. split; [|by exists (soft h1)].
      revert E1. unfold REG_READ at 1 2. unfold mbind, M_bind. destruct (bus_read (func_reg i) h) as [v h0]. intros ->. exact E2.
  - intros g g' (g1 & R1 & R2). split.
    + intros j Hj. rewrite R2, R1. destruct (Z.eqb_spec j i) as [->|Hne]; [by rewrite Z.eqb_refl|].
      rewrite !(proj2 (Z.eqb_neq _ _)); [done|by apply cfg_not_func|by intros ?%cfg_addr_inj].
    + intros j Hj. unfold pin_function. rewrite R2, (proj2 (Z.eqb_neq _ _)) by (by apply not_eq_sym, cfg_not_func). rewrite R1.
      change 3 with (Z.ones 2). destruct (Z.eqb_spec j i) as [->|Hne].
      * rewrite Z.eqb_refl, set_field_read by lia. rewrite Z.land_ones by lia. by apply Z.mod_small.
      * destruct (Z.eqb_spec (func_reg j) (func_reg i)) as [E|]; [|done]. rewrite set_field_apart, E; [done|lia|lia|lia|by apply func_reg_cases|].
        apply func_place_ne; [done|done|lia|done].
    + intros b Hb. destruct (Hb i Hi) as [Hb1 Hb2]. by rewrite R2, R1, !(proj2 (Z.eqb_neq _ _)).
Qed.

Lemma func_field_pin i regist shift : 0 <= i < GPIONUM -> func_field i regist shift = (func_reg i, func_shift i).
Proof. intros Hi. unfold func_reg, func_shift, func_field. rewrite (proj2 (Z.ltb_lt i GPIONUM)) by lia. by destruct (i <? GPIO16), (i <? GPIO32). Qed.

(** The pins of a loop of [n] turns from [i]. *)
Definition loop_pins (fm i : Z) (n : nat) (j : Z) : bool :=
  (i <=? j) && (j <? i + Z.of_nat n) && negb ((fm =? GFUNC_MODE_DCMI) && (j =? GPIO28)).

Lemma second_pins_runs fm f w n : mode_word (config_mode f) = Some w -> 0 <= pmode f < 4 -> forall i regist shift,
  0 <= i -> i + Z.of_nat n <= GPIONUM -> runs (second_pins n fm f i regist shift) (pins_set (loop_pins fm i n) w (pmode f)).
Proof.
  intros Hw Hpm. induction n as [|n IH]; intros i regist shift Hi Hn; cbn [second_pins].
  { eapply runs_mono; [apply runs_ret|]. intros g g'. apply pins_set_none. intros j. unfold loop_pins.
    destruct (Z.leb_spec i j), (Z.ltb_spec j (i + Z.of_nat 0)); try done. lia. }
  assert (Hstep : forall j, loop_pins fm i (S n) j = loop_pins fm i 1 j || loop_pins fm (i + 1) n j).
  { intros j. unfold loop_pins. destruct ((fm =? GFUNC_MODE_DCMI) && (j =? GPIO28)); [by rewrite !andb_false_r|]. rewrite !andb_true_r.
    destruct (Z.leb_spec i j), (Z.leb_spec (i + 1) j), (Z.ltb_spec j (i + Z.of_nat (S n))), (Z.ltb_spec j (i + Z.of_nat 1)),
      (Z.ltb_spec j (i + 1 + Z.of_nat n)); try done; lia. }
  destruct ((fm =? GFUNC_MODE_DCMI) && (i =? GPIO28)) eqn:Eskip.
  - eapply runs_mono; [apply (IH (i + 1)); lia|]. intros g g'. apply pins_set_ext. intros j. rewrite Hstep.
    unfold loop_pins at 1. destruct (Z.leb_spec i j), (Z.ltb_spec j (i + Z.of_nat 1)); try done.
    replace j with i by lia. by rewrite Eskip.
  - rewrite func_field_pin by lia. intros h. destruct (pin_step_runs i (config_mode f) w (pmode f) ltac:(lia) Hw Hpm h) as (h1 & E1 & R1).
    destruct (IH (i + 1) (func_reg i) (func_shift i) ltac:(lia) ltac:(lia) h1) as (h2 & E2 & R2). exists h2. split.
    + revert E1. unfold mbind, M_bind. destruct (REG_READ (func_reg i) h) as [[v h0]|]; [|done].
      destruct (REG_WRITE (func_reg i) _ h0) as [[u h0']|]; [|done]. intros ->. exact E2.
    + eapply pins_set_trans; [exact R1|exact R2|]. intros j. rewrite Hstep. f_equal. unfold loop_pins.
      destruct (Z.leb_spec i j), (Z.ltb_spec j (i + Z.of_nat 1)), (Z.eqb_spec j i); try lia; subst; try done; by rewrite Eskip.
Qed.
End config.

Lemma other_reg_intro b : cfg_reg b = false -> b <> REG_GPIO_FUNC_CFG -> b <> REG_GPIO_FUNC_CFG_2 -> b <> REG_GPIO_FUNC_CFG_3 -> other_reg b.
Proof.
  intros Hc H1 H2 H3 i Hi. split; intros ->.
  - rewrite cfg_addr in Hc by done. unfold GPIONUM in Hi. revert Hc. unfold cfg_reg. destruct (Z.ltb_spec i 32); gaddr.
  - by destruct (func_reg_cases i Hi) as [[E|[E|E]] _].
Qed.

#[export] Instance gfunc_eq_dec : EqDecision GFUNC.
Proof. solve_decision. Defined.

(** What the table of functions must satisfy, decided. *)
Definition case_ok (c : Z * GFUNC) : bool :=
  let '(m, f) := c in
  (0 <=? start_index f) && (start_index f <=? end_index f) && (end_index f <? GPIONUM) && (0 <=? pmode f) && (pmode f <? 4) &&
  bool_decide (mode_word (config_mode f) <> None) && bool_decide (gfunc_of m = f) &&
  ((modul_select f =? GPIO_MODUL_NONE) || ((0 <=? modul_select f) && (modul_select f <=? pmask f) && (pmask f <? 16))).

Lemma cases_ok : forallb case_ok second_functions = true.
Proof. by vm_compute. Qed.

(** The pins a function uses. *)
Definition function_pins (m : Z) (f : GFUNC) (i : Z) : bool :=
  (start_index f <=? i) && (i <=? end_index f) && negb ((m =? GFUNC_MODE_DCMI) && (i =? GPIO28)).

Section functions.
Context {hw : Type} `{GpioRegs hw}.

Lemma function_loop_runs m f w : mode_word (config_mode f) = Some w -> 0 <= pmode f < 4 -> 0 <= start_index f <= end_index f ->
  end_index f < GPIONUM ->
  runs (second_pins (Z.to_nat (end_index f + 1 - start_index f)) m f (start_index f) 0 0) (pins_set (function_pins m f) w (pmode f)).
Proof.
  intros Hw Hpm Hs He. eapply runs_mono; [apply second_pins_runs; [exact Hw|done|lia|lia]|].
  intros g g'. apply pins_set_ext. intros j. unfold function_pins, loop_pins. rewrite Z2Nat.id by lia. f_equal.
  destruct (Z.leb_spec (start_index f) j), (Z.leb_spec j (end_index f)), (Z.ltb_spec j (start_index f + (end_index f + 1 - start_index f)));
    try done; lia.
Qed.

(** What a known function changes: its pins, and the selection of its module. *)
Definition function_selected (m : Z) (f : GFUNC) (w : Z) (g g' : Z -> Z) : Prop :=
  pins_set (function_pins m f) w (pmode f) g
    (fun b => if b =? REG_GPIO_MODULE_SELECT then g REG_GPIO_MODULE_SELECT else g' b) /\
  g' REG_GPIO_MODULE_SELECT = if modul_select f =? GPIO_MODUL_NONE then g REG_GPIO_MODULE_SELECT
    else Z.lor (Z.ldiff (g REG_GPIO_MODULE_SELECT) (pmask f)) (modul_select f).

(** A function of pins alone. *)
Lemma function_pins_set m f w g g' : function_selected m f w g g' -> modul_select f = GPIO_MODUL_NONE ->
  pins_set (function_pins m f) w (pmode f) g g'.
Proof.
  intros [[Q1 Q2 Q3] R] Hm. rewrite Hm, Z.eqb_refl in R.
  assert (Hb : forall b, (if b =? REG_GPIO_MODULE_SELECT then g REG_GPIO_MODULE_SELECT else g' b) = g' b)
    by (intros b; destruct (Z.eqb_spec b REG_GPIO_MODULE_SELECT) as [->|]; done).
  split; intros; unfold pin_function in *; rewrite <- Hb; auto.
Qed.

Lemma module_runs f : modul_select f = GPIO_MODUL_NONE \/ (0 <= modul_select f <= pmask f /\ pmask f < 16) ->
  runs (when (negb (modul_select f =? GPIO_MODUL_NONE)) (
    reg ← REG_READ REG_GPIO_MODULE_SELECT;
    REG_WRITE REG_GPIO_MODULE_SELECT (Z.lor (Z.ldiff reg (pmask f)) (modul_select f))))
  (assigns REG_GPIO_MODULE_SELECT (fun x => if modul_select f =? GPIO_MODUL_NONE then x else Z.lor (Z.ldiff x (pmask f)) (modul_select f))).
Proof.
  intros Hm. apply runs_when.
  - intros Hn%negb_true_iff. rewrite Hn. apply Z.eqb_neq in Hn. apply runs_rmw; [done| |].
    + intros x Hx. apply lor_u32; [rewrite Z.ldiff_land; by apply land_u32|]. unfold is_u32. lia.
    + intros x. change (hard REG_GPIO_MODULE_SELECT) with 0. by rewrite !Z.ldiff_0_r.
  - intros ->%negb_false_iff g g' Hg b. rewrite Hg. by destruct (Z.eqb_spec b REG_GPIO_MODULE_SELECT) as [->|].
Qed.

Lemma function_val m f w : mode_word (config_mode f) = Some w -> 0 <= pmode f < 4 -> 0 <= start_index f <= end_index f ->
  end_index f < GPIONUM -> gfunc_of m = f ->
  modul_select f = GPIO_MODUL_NONE \/ (0 <= modul_select f <= pmask f /\ pmask f < 16) ->
  runs (gpio_enable_second_function m) (function_selected m f w).
Proof.
  intros Hw Hpm Hs He Hf Hm. unfold gpio_enable_second_function. rewrite Hf.
  eapply runs_seq; [by apply function_loop_runs|by apply module_runs|]. intros g g1 g2 [P1 P2 P3] R.
  assert (Ho : other_reg REG_GPIO_MODULE_SELECT) by (by apply other_reg_intro).
  split; [|by rewrite R, Z.eqb_refl, P3 by done].
  assert (Hb : forall b, (if b =? REG_GPIO_MODULE_SELECT then g REG_GPIO_MODULE_SELECT else g2 b) = g1 b).
  { intros b. destruct (Z.eqb_spec b REG_GPIO_MODULE_SELECT) as [->|Hne]; [by rewrite P3|]. by rewrite R, (proj2 (Z.eqb_neq _ _)). }
  split; intros; unfold pin_function; rewrite Hb; auto. by apply P2.
Qed.

Lemma known_function m f : (m, f) ∈ second_functions ->
  exists w, mode_word (config_mode f) = Some w /\ runs (gpio_enable_second_function m) (function_selected m f w).
Proof.
  intros Hin. pose proof cases_ok as Hok. rewrite forallb_forall in Hok. specialize (Hok (m, f) (proj1 (list_elem_of_In _ _) Hin)).
  unfold case_ok in Hok. rewrite !andb_true_iff, !bool_decide_eq_true in Hok.
  destruct Hok as [[[[[[[H1 H2] H3] H4] H5] H6] H7] H8].
  destruct (mode_word (config_mode f)) as [w|] eqn:Ew; [|done]. exists w. split; [done|].
  apply function_val; [done|lia|lia|lia|done|]. apply orb_true_iff in H8 as [?%Z.eqb_eq|H8]; [by left|right; lia].
Qed.

Lemma find_none m : (forall f, (m, f) ∉ second_functions) -> gfunc_of m = gfunc_default.
Proof.
  intros Hm. unfold gfunc_of. destruct (find _ _) as [[m' f]|] eqn:E; [|done]. apply find_some in E as [Hin E%Z.eqb_eq].
  cbn in E. subst m'. destruct (Hm f). by apply list_elem_of_In.
Qed.

(** The accesses of a selection. *)
Lemma gfunc_range m : 0 <= start_index (gfunc_of m) <= end_index (gfunc_of m) /\ end_index (gfunc_of m) < GPIONUM.
Proof.
  unfold gfunc_of. destruct (find _ _) as [[m' f]|] eqn:E; [|by cbn; unfold GPIONUM; lia]. apply find_some in E as [Hin _].
  pose proof cases_ok as Hok. rewrite forallb_forall in Hok. specialize (Hok _ Hin).
  unfold case_ok in Hok. rewrite !andb_true_iff in Hok. cbn [snd]. lia.
Qed.

Lemma second_pins_touches fm f n : forall i regist shift, 0 <= i -> i + Z.of_nat n <= GPIONUM ->
  touches (id : hw -> hw) in_gpio (second_pins n fm f i regist shift).
Proof.
  induction n as [|n IH]; intros i regist shift Hi Hn; cbn [second_pins]; [touch|].
  destruct (cfg_addr_facts i ltac:(lia)) as [Ha _], (func_reg_facts i ltac:(lia)) as [Hf _].
  rewrite func_field_pin by lia. unfold gpio_config. touch; apply IH; lia.
Qed.

Lemma function_touches m : touches (id : hw -> hw) in_gpio (gpio_enable_second_function m).
Proof.
  destruct (gfunc_range m) as [Hs He]. unfold gpio_enable_second_function. apply touches_bind; [apply second_pins_touches; lia|].
  intros _. touch.
Qed.

(** Selecting a function configures exactly its pins, pin 28 of the
    camera left out: each gets the configuration and the function number of the
    case, and the multiplexer of shared modules its field; every other pin and
    register stays as it is.  A number without a case takes pin 0 over, which
    gets its first function, that of the second UART. *)
Theorem second_function_configures m (h : hw) :
  (forall f, (m, f) ∈ second_functions -> exists w h', mode_word (config_mode f) = Some w /\
    gpio_enable_second_function m h = Val (tt, h') /\ function_selected m f w (soft h) (soft h')) /\
  ((forall f, (m, f) ∉ second_functions) -> exists h', gpio_enable_second_function m h = Val (tt, h') /\
    pins_set (fun i => i =? 0) 0x48 PERIAL_MODE_1 (soft h) (soft h')).
Proof.
  split.
  - intros f Hin. destruct (known_function m f Hin) as (w & Hw & Hr). destruct (Hr h) as (h' & E & R). by exists w, h'.
  - intros Hm. pose proof (find_none m Hm) as Hf.
    destruct (function_val m gfunc_default 0x48 eq_refl ltac:(cbn; unfold PERIAL_MODE_1; lia) ltac:(cbn; lia) ltac:(cbn; unfold GPIONUM; lia) Hf ltac:(by left) h) as (h' & E & R).
    exists h'. split; [done|]. apply (pins_set_ext (function_pins m gfunc_default)).
    { intros i. unfold function_pins. cbn. destruct (Z.leb_spec 0 i), (Z.leb_spec i 0), (Z.eqb_spec i 0); try lia; subst; try done.
      by rewrite andb_false_r. }
    by apply (function_pins_set _ _ _ _ _ R).
Qed.
End functions.

(** ** Levels *)
Section levels.
Context {hw : Type} `{GpioRegs hw}.

(** Bit 1 of the register of a pin is the level it is driven to. *)
Definition drive (v : Z) (x : Z) : Z := set_field x v GCFG_OUTPUT_POS 1.

Lemma output_word x v : Z.lor (Z.ldiff x GCFG_OUTPUT_BIT) (Z.shiftl (Z.land v 1) GCFG_OUTPUT_POS) = drive v x.
Proof. done. Qed.

Lemma ldiff_comm_set x v : Z.ldiff (drive v x) GCFG_INPUT_BIT = drive v (Z.ldiff x GCFG_INPUT_BIT).
Proof.
  unfold drive, GCFG_OUTPUT_POS. apply Z.bits_inj'. intros i Hi. rewrite Z.ldiff_spec, !set_field_bits, Z.ldiff_spec by lia.
  destruct (Z.leb_spec 1 i), (Z.ltb_spec i (1 + 1)); cbn [andb]; try done. replace i with 1 by lia. apply andb_true_r.
Qed.

Lemma drive_u32 x v : is_u32 x -> is_u32 (drive v x).
Proof. apply set_field_u32; unfold GCFG_OUTPUT_POS; lia. Qed.

Lemma output_runs i v : 0 <= i < GPIONUM -> runs (gpio_output i v) (assigns (gpio_cfg_addr i) (drive v)).
Proof.
  intros Hi. destruct (cfg_addr_facts i Hi) as [Ha Hh]. unfold gpio_output.
  change (GPIO_SUCCESS =? gpio_ops_filter i) with false. apply (runs_rmw (B := gpio_block) (gpio_cfg_addr i) (drive v)); [done| |].
  - intros x. apply drive_u32.
  - intros x. by rewrite Hh, ldiff_comm_set.
Qed.

Lemma flip_field x : Z.lxor x GCFG_OUTPUT_BIT = set_field x (Z.lxor (Z.shiftr x 1) 1) 1 1.
Proof.
  apply Z.bits_inj'. intros j Hj. rewrite set_field_bits by lia. unfold GCFG_OUTPUT_BIT. change (Z.shiftl 1 1) with (2 ^ 1).
  rewrite Z.lxor_spec, Z.pow2_bits_eqb by lia. destruct (Z.eqb_spec 1 j) as [<-|Hne].
  - cbn [Z.leb Z.ltb Z.compare andb]. change ((1 <=? 1) && (1 <? 1 + 1)) with true. cbv iota.
    by rewrite Z.lxor_spec, Z.shiftr_spec by lia.
  - rewrite xorb_false_r. destruct (Z.leb_spec 1 j), (Z.ltb_spec j (1 + 1)); cbn [andb]; first [done|lia].
Qed.

Lemma reverse_runs i : 0 <= i < GPIONUM -> runs (gpio_output_reverse i) (assigns (gpio_cfg_addr i) (fun x => Z.lxor x GCFG_OUTPUT_BIT)).
Proof.
  intros Hi. destruct (cfg_addr_facts i Hi) as [Ha Hh]. unfold gpio_output_reverse.
  change (GPIO_SUCCESS =? gpio_ops_filter i) with false. apply (runs_rmw (B := gpio_block) (gpio_cfg_addr i)); [done| |].
  - intros x Hx. rewrite flip_field. by apply set_field_u32.
  - intros x. rewrite Hh. apply Z.bits_inj'. intros j Hj. rewrite !Z.ldiff_spec, !Z.lxor_spec, Z.ldiff_spec.
    unfold GCFG_OUTPUT_BIT, GCFG_INPUT_BIT. change (Z.shiftl 1 1) with (2 ^ 1). change (Z.shiftl 1 0) with (2 ^ 0).
    rewrite !Z.pow2_bits_eqb by lia. destruct (Z.testbit x j), (Z.eqb_spec 0 j), (Z.eqb_spec 1 j); first [done|lia].
Qed.

Lemma input_val i h : 0 <= i < GPIONUM -> gpio_input i h = Val (b2z (Z.testbit (greg h (gpio_cfg_addr i)) 0), h).
Proof.
  intros Hi. destruct (cfg_addr_facts i Hi) as [Ha _]. unfold gpio_input. change (GPIO_SUCCESS =? gpio_ops_filter i) with false.
  mstep by (unfold REG_READ; by rewrite breg_read). unfold mret, M_ret. do 2 f_equal. change GCFG_INPUT_BIT with (2 ^ 0).
  rewrite land_pow2 by lia. by rewrite Z.shiftl_0_r.
Qed.

(** Driving a pin sets the level bit of its register and reversing
    flips it, in no other bit or register; reading returns the level at the pin. *)
Theorem pin_levels i v (h : hw) : 0 <= i < GPIONUM ->
  (exists h', gpio_output i v h = Val (tt, h') /\ Z.testbit (soft h' (gpio_cfg_addr i)) GCFG_OUTPUT_POS = Z.testbit v 0 /\
    Z.ldiff (soft h' (gpio_cfg_addr i)) GCFG_OUTPUT_BIT = Z.ldiff (soft h (gpio_cfg_addr i)) GCFG_OUTPUT_BIT /\
    forall b, b <> gpio_cfg_addr i -> soft h' b = soft h b) /\
  (exists h', gpio_output_reverse i h = Val (tt, h') /\
    soft h' (gpio_cfg_addr i) = Z.lxor (soft h (gpio_cfg_addr i)) GCFG_OUTPUT_BIT /\
    forall b, b <> gpio_cfg_addr i -> soft h' b = soft h b) /\
  gpio_input i h = Val (b2z (Z.testbit (greg h (gpio_cfg_addr i)) 0), h).
Proof.
  intros Hi. split_and!; [| |by apply input_val].
  - destruct (output_runs i v Hi h) as (h' & E & R). exists h'. split; [done|]. rewrite R, Z.eqb_refl. unfold drive.
    split_and!; [|by apply (set_field_others _ v 1 1)|intros b Hb; by rewrite R, (proj2 (Z.eqb_neq _ _))].
    rewrite set_field_bits by (unfold GCFG_OUTPUT_POS; lia). done.
  - destruct (reverse_runs i Hi h) as (h' & E & R). exists h'. split; [done|]. rewrite R, Z.eqb_refl.
    split; [done|]. intros b Hb. by rewrite R, (proj2 (Z.eqb_neq _ _)).
Qed.

(** The identifier of a pin to drive is not compared with the number of
    pins: driving pin 40 through the device sets or clears bit 1 of the second
    interrupt enable register, which switches the interrupt of pin 33. *)
Theorem output_past_the_pins v (h : hw) : let param := GWord (GPIO_OUTPUT_PARAM 40 v) in
  exists h', gpio_ctrl_regs CMD_GPIO_OUTPUT param h = Val (GPIO_SUCCESS, h') /\
    Z.testbit (soft h' REG_GPIO_INTEN2) (33 - GPIO32) = Z.testbit v 0 /\
    Z.ldiff (soft h' REG_GPIO_INTEN2) GCFG_OUTPUT_BIT = Z.ldiff (soft h REG_GPIO_INTEN2) GCFG_OUTPUT_BIT /\
    forall b, b <> REG_GPIO_INTEN2 -> soft h' b = soft h b.
Proof.
  assert (Hp : GPIO_OUTPUT_PARAM 40 v = 40 + 256 * (v mod 256)).
  { unfold GPIO_OUTPUT_PARAM. rewrite land_0xff, Z.shiftl_mul_pow2 by lia. change (2 ^ 8) with 256. zlia. }
  assert (Hid : GPIO_OUTPUT_DEMUX_ID (GPIO_OUTPUT_PARAM 40 v) = 40) by (unfold GPIO_OUTPUT_DEMUX_ID; rewrite Hp, land_0xff; zlia).
  assert (Hval : GPIO_OUTPUT_DEMUX_VAL (GPIO_OUTPUT_PARAM 40 v) = v mod 256).
  { unfold GPIO_OUTPUT_DEMUX_VAL. rewrite Hp, Z.shiftr_div_pow2, land_0xff by lia. change (2 ^ 8) with 256. zlia. }
  assert (Hr : runs (gpio_output 40 (v mod 256)) (assigns REG_GPIO_INTEN2 (drive (v mod 256)))).
  { apply (runs_rmw (B := gpio_block) REG_GPIO_INTEN2 (drive (v mod 256))); [done|intros x; apply drive_u32|].
    intros x. change (hard REG_GPIO_INTEN2) with 0. by rewrite !Z.ldiff_0_r. }
  cbv zeta. destruct (Hr h) as (h' & E & R). exists h'. split.
  - change (gpio_ctrl_regs CMD_GPIO_OUTPUT (GWord (GPIO_OUTPUT_PARAM 40 v))) with
      (gpio_output (GPIO_OUTPUT_DEMUX_ID (GPIO_OUTPUT_PARAM 40 v)) (GPIO_OUTPUT_DEMUX_VAL (GPIO_OUTPUT_PARAM 40 v));; (mret GPIO_SUCCESS : M hw Z)).
    rewrite Hid, Hval. by mstep by exact E.
  - rewrite R, Z.eqb_refl. unfold drive. split_and!; [|by apply (set_field_others _ _ 1 1)|intros b Hb; by rewrite R, (proj2 (Z.eqb_neq _ _))].
    change (33 - GPIO32) with 1. unfold GCFG_OUTPUT_POS. rewrite set_field_bits by lia.
    change ((1 <=? 1) && (1 <? 1 + 1)) with true. change (1 - 1) with 0. cbv iota. change 256 with (2 ^ 8). by rewrite Z.mod_pow2_bits_low by lia.
Qed.
End levels.

(** ** The interrupt routine *)

Section isr_facts.
Context {hw : Type} `{GpioRegs hw} (call_handler : Z -> Z -> M (gpio_st hw) unit).
Implicit Types s : gpio_st hw.

(** A handler returns, keeps the table and clears no pending interrupt. *)
Definition pending_stays s s' : Prop :=
  forall a j, Z.testbit (ack_mask a) j = true -> Z.testbit (greg (g_hw s) a) j = true -> Z.testbit (greg (g_hw s') a) j = true.
Definition handlers_ok : Prop := serve_ok call_handler p_gpio_intr_handler pending_stays.
#[export] Instance pending_stays_pre : PreOrder pending_stays.
Proof. split; [by intros s a j|]. intros s1 s2 s3 H1 H2 a j Ha Hj. auto. Qed.

Definition pending_kept s s' : Prop := p_gpio_intr_handler s' = p_gpio_intr_handler s /\ pending_stays s s'.

Lemma isr_loop_val base ulIntStatus n s : handlers_ok -> 0 <= base -> base + Z.of_nat n <= GPIONUM ->
  length (p_gpio_intr_handler s) = Z.to_nat GPIONUM ->
  exists s', isr_loop call_handler n 0 base ulIntStatus s = Val (tt, s') /\
    served call_handler s (due (p_gpio_intr_handler s) 0 base n 0 ulIntStatus) s' /\ pending_kept s s'.
Proof.
  intros Hok Hb Hn Hl. unfold GPIONUM in *.
  assert (Hh : forall i s1 h, zlookup (p_gpio_intr_handler s1) i = Some h -> get_handler i s1 = Val (h, s1))
    by (intros i s1 h Eh; unfold get_handler; mstep; by rewrite Eh).
  destruct (serve_bits_val _ call_handler _ Hh pending_stays 0 base ulIntStatus n 0 s) as (s' & E & R & T); [done|done|lia..|by exists s'].
Qed.

(** The state after the bus is written. *)
Definition bus_at s (a v : Z) : gpio_st hw := GpioSt (bus_write a v (g_hw s)) (p_gpio_intr_handler s) (gpio_ops_filter_flag s).

Lemma on_regs_read s a : in_gpio a = true -> on_regs (REG_READ a) s = Val (greg (g_hw s) a, s).
Proof. intros Ha. unfold on_regs, REG_READ. rewrite breg_read by done. by destruct s. Qed.

Lemma sta_mask i : 0 <= i < 32 -> Z.testbit (ack_mask REG_GPIO_INTSTA) i = true /\ Z.testbit (ack_mask REG_GPIO_INTSTA2) i = true.
Proof.
  intros Hi. change (ack_mask REG_GPIO_INTSTA) with (Z.ones 32). change (ack_mask REG_GPIO_INTSTA2) with (Z.ones 32).
  by rewrite Z.ones_spec_low by lia.
Qed.

(** Reading a status word, serving it and acknowledging it. *)
Definition sta_base (r : Z) : Z := if r =? REG_GPIO_INTSTA then 0 else GPIO32.
Definition sta_pins (r : Z) : nat := if r =? REG_GPIO_INTSTA then 32%nat else 8%nat.

Lemma half_val r s (k : M (gpio_st hw) unit) : r = REG_GPIO_INTSTA \/ r = REG_GPIO_INTSTA2 -> handlers_ok ->
  length (p_gpio_intr_handler s) = Z.to_nat GPIONUM ->
  let sta := greg (g_hw s) r in
  exists s1, served call_handler s (due (p_gpio_intr_handler s) 0 (sta_base r) (sta_pins r) 0 sta) s1 /\ pending_kept s s1 /\
    (x ← on_regs (REG_READ r); isr_loop call_handler (sta_pins r) 0 (sta_base r) x;; on_regs (REG_WRITE r x);; k) s = k (bus_at s1 r sta).
Proof.
  intros Hr Hok Hl sta. assert (Hin : in_gpio r = true) by (by destruct Hr as [-> | ->]).
  destruct (isr_loop_val (sta_base r) sta (sta_pins r) s Hok) as (s1 & E & R & P); [..|done|].
  1-2: by destruct Hr as [-> | ->]; vm_compute.
  exists s1. split_and!; [done|done|]. rewrite (bind_ret_val _ _ _ _ _ (on_regs_read s r Hin)). by rewrite (bind_ret_val _ _ _ _ _ E).
Qed.

(** The routine made the calls [cs], those of pins 0 to 31 and then those of
    32 to 39, and acknowledged each status word once its calls had run. *)
Definition isr_serves s cs s' : Prop := exists s1 s3,
  let sta := greg (g_hw s) REG_GPIO_INTSTA in let s2 := bus_at s1 REG_GPIO_INTSTA sta in
  let sta2 := greg (g_hw s2) REG_GPIO_INTSTA2 in
  let cs1 := due (p_gpio_intr_handler s) 0 0 32 0 sta in let cs2 := due (p_gpio_intr_handler s) 0 GPIO32 8 0 sta2 in
  served call_handler s cs1 s1 /\ pending_kept s s1 /\ served call_handler s2 cs2 s3 /\ pending_kept s2 s3 /\
  cs = cs1 ++ cs2 /\ s' = bus_at s3 REG_GPIO_INTSTA2 sta2.

Lemma isr_val s : handlers_ok -> length (p_gpio_intr_handler s) = Z.to_nat GPIONUM ->
  exists cs s', gpio_isr call_handler s = Val (tt, s') /\ isr_serves s cs s'.
Proof.
  intros Hok Hl. unfold gpio_isr.
  destruct (half_val REG_GPIO_INTSTA s (x ← on_regs (REG_READ REG_GPIO_INTSTA2);
    isr_loop call_handler (Z.to_nat (GPIONUM - GPIO32)) 0 GPIO32 x;; on_regs (REG_WRITE REG_GPIO_INTSTA2 x)) ltac:(by left) Hok Hl)
    as (s1 & R1 & P1 & E1).
  set (s2 := bus_at s1 REG_GPIO_INTSTA _) in E1.
  destruct (half_val REG_GPIO_INTSTA2 s2 (mret tt) ltac:(by right) Hok) as (s3 & R2 & P2 & E2).
  { subst s2. cbn. by rewrite (proj1 P1). }
  subst s2. cbn [bus_at p_gpio_intr_handler] in R2. rewrite (proj1 P1) in R2. eexists _, _. split.
  - etransitivity; [exact E1|]. etransitivity; [|exact E2]. unfold mbind, M_bind. cbn [sta_base sta_pins].
    destruct (on_regs (REG_READ REG_GPIO_INTSTA2) _) as [[x s4]|]; [|done].
    change (sta_pins REG_GPIO_INTSTA2) with (Z.to_nat (GPIONUM - GPIO32)). change (sta_base REG_GPIO_INTSTA2) with GPIO32.
    destruct (isr_loop _ _ _ _ x s4) as [[[] s5]|]; [|done]. done.
  - exists s1, s3. split_and!; [exact R1|exact P1|exact R2|exact P2|done|done].
Qed.

(** The status word of a pin and its bit there. *)
Definition status_reg (i : Z) : Z := if i <=? GPIO31 then REG_GPIO_INTSTA else REG_GPIO_INTSTA2.
Definition status_bit (i : Z) : Z := if i <=? GPIO31 then i else i - 32.

(** A pin that is pending and has a handler is among the calls. *)
Lemma serves_pending s cs s' i h : isr_serves s cs s' -> 0 <= i < GPIONUM ->
  Z.testbit (greg (g_hw s) (status_reg i)) (status_bit i) = true ->
  zlookup (p_gpio_intr_handler s) i = Some h -> truthy h = true -> (h, i) ∈ cs.
Proof.
  intros (s1 & s3 & _ & P1 & _ & _ & -> & _) Hi Hp Hh Ht. unfold status_reg, status_bit, GPIO31, GPIONUM in *.
  apply elem_of_app. destruct (Z.leb_spec i 31); [left|right].
  - replace i with (i + 0) in Hh |- * by lia. apply due_elem; [done|done|by rewrite Z.add_0_r|lia].
  - replace i with (i - 32 + GPIO32) in Hh |- * by (unfold GPIO32; lia). apply due_elem; [done..| |lia].
    rewrite Z.add_0_r. cbn. apply breg_pending; [done|by apply sta_mask; lia|]. apply (proj2 P1); [by apply sta_mask; lia|done].
Qed.
End isr_facts.

(** The interrupt routine calls the handler of every pin that is
    pending and has one, once, in the order of the pins, first those of 0 to 31,
    then those of 32 to 39; each half is acknowledged after its handlers have
    run, so a pin that was not pending when its half began stays pending if it
    fires meanwhile, and one that was is cleared even if it fires again. *)
Theorem gpio_isr_serves {hw} `{GpioRegs hw} call_handler (s : gpio_st hw) :
  handlers_ok call_handler -> length (p_gpio_intr_handler s) = Z.to_nat GPIONUM ->
  let l := p_gpio_intr_handler s in
  exists s1 s2 s3 s',
    let sta := greg (g_hw s) REG_GPIO_INTSTA in let sta2 := greg (g_hw s2) REG_GPIO_INTSTA2 in
    gpio_isr call_handler s = Val (tt, s') /\
    served call_handler s (due l 0 0 32 0 sta) s1 /\ s2 = bus_at s1 REG_GPIO_INTSTA sta /\
    served call_handler s2 (due l 0 GPIO32 8 0 sta2) s3 /\ s' = bus_at s3 REG_GPIO_INTSTA2 sta2 /\
    (forall i, 0 <= i < 32 -> Z.testbit (greg (g_hw s2) REG_GPIO_INTSTA) i =
      Z.testbit (greg (g_hw s1) REG_GPIO_INTSTA) i && negb (Z.testbit sta i)) /\
    (forall i, 0 <= i < 32 -> Z.testbit (greg (g_hw s2) REG_GPIO_INTSTA) i = true -> Z.testbit (greg (g_hw s') REG_GPIO_INTSTA) i = true) /\
    (forall i, 0 <= i < 32 -> Z.testbit (greg (g_hw s') REG_GPIO_INTSTA2) i =
      Z.testbit (greg (g_hw s3) REG_GPIO_INTSTA2) i && negb (Z.testbit sta2 i)).
Proof.
  intros Hok Hl l. destruct (isr_val call_handler s Hok Hl) as (cs & s' & E & s1 & s3 & R1 & _ & R2 & P2 & _ & Hs').
  exists s1, (bus_at s1 REG_GPIO_INTSTA (greg (g_hw s) REG_GPIO_INTSTA)), s3, s'. cbv zeta.
  split_and!; [exact E|exact R1|done|exact R2|exact Hs'|..]; rewrite ?Hs'.
  - intros i Hi. apply breg_ack; [done|by apply sta_mask].
  - intros i Hi Hp. cbn. apply breg_pending; [done|by apply sta_mask|]. apply (proj2 P2); [by apply sta_mask|done].
  - intros i Hi. apply breg_ack; [done|by apply sta_mask].
Qed.

(** ** Interrupts of pins *)

Definition level_reg (i : Z) : Z :=
  if i <=? 15 then REG_GPIO_INTLV0 else if i <=? GPIO31 then REG_GPIO_INTLV1 else REG_GPIO_INTLV3.
Definition level_shift (i : Z) : Z := 2 * (if i <=? 15 then i else if i <=? GPIO31 then i - 16 else i - 32).
Definition enable_reg (i : Z) : Z := if i <=? GPIO31 then REG_GPIO_INTEN else REG_GPIO_INTEN2.
Definition enable_bit (i : Z) : Z := if i <=? GPIO31 then i else i - 32.

(** The pull of a pin for the trigger of its interrupt: up for low and falling. *)
Definition trigger_word (mode : Z) : Z := if (mode =? 0) || (mode =? 3) then 0x3C else 0x2C.

(** The trigger and the configuration of a pin, and its interrupt enabled. *)
Definition int_configured (i mode : Z) (g g' : Z -> Z) : Prop := forall b, g' b =
  if b =? gpio_cfg_addr i then trigger_word mode
  else if b =? level_reg i then set_field (g b) mode (level_shift i) 2 else g b.
Definition int_unmasked (i : Z) : (Z -> Z) -> (Z -> Z) -> Prop :=
  assigns (enable_reg i) (fun x => Z.lor x (2 ^ enable_bit i)).

Lemma level_facts i : 0 <= i < GPIONUM -> in_gpio (level_reg i) = true /\ hard (level_reg i) = 0 /\ 0 <= level_shift i <= 30 /\
  level_reg i <> gpio_cfg_addr i /\ other_reg (level_reg i).
Proof.
  intros Hi. assert (Hr : level_reg i = REG_GPIO_INTLV0 \/ level_reg i = REG_GPIO_INTLV1 \/ level_reg i = REG_GPIO_INTLV3)
    by (unfold level_reg; destruct (i <=? 15), (i <=? GPIO31); auto).
  assert (Ho : other_reg (level_reg i)) by (destruct Hr as [->|[->| ->]]; by apply other_reg_intro).
  split_and!; [..|by apply (Ho i)|exact Ho]; [by destruct Hr as [->|[->| ->]]|by destruct Hr as [->|[->| ->]]| |];
    unfold level_shift, GPIO31, GPIONUM in *; destruct (Z.leb_spec i 15), (Z.leb_spec i 31); lia.
Qed.

Lemma enable_facts i : 0 <= i < GPIONUM -> in_gpio (enable_reg i) = true /\ hard (enable_reg i) = 0 /\ 0 <= enable_bit i < 32 /\
  other_reg (enable_reg i) /\ (forall j, enable_reg i <> level_reg j).
Proof.
  intros Hi. assert (Hr : enable_reg i = REG_GPIO_INTEN \/ enable_reg i = REG_GPIO_INTEN2)
    by (unfold enable_reg; destruct (i <=? GPIO31); auto).
  assert (Ho : other_reg (enable_reg i)) by (destruct Hr as [->| ->]; by apply other_reg_intro).
  split_and!; [..|exact Ho|intros j; unfold level_reg; by destruct Hr as [->| ->], (j <=? 15), (j <=? GPIO31)];
    [by destruct Hr as [->| ->]|by destruct Hr as [->| ->]|..]; unfold enable_bit, GPIO31, GPIONUM in *; destruct (Z.leb_spec i 31); lia.
Qed.

Lemma enable_place_inj i j : 0 <= i < GPIONUM -> 0 <= j < GPIONUM -> enable_reg i = enable_reg j -> enable_bit i = enable_bit j -> i = j.
Proof.
  unfold enable_reg, enable_bit, GPIO31. destruct (Z.leb_spec i 31), (Z.leb_spec j 31); try lia;
    unfold REG_GPIO_INTEN, REG_GPIO_INTEN2, GPIO_BASE_ADDR; lia.
Qed.

Section interrupts.
Context {hw : Type} `{GpioRegs hw}.

Lemma one_bit n : 0 <= n < 32 -> u32 (Z.shiftl 1 n) = 2 ^ n.
Proof. intros Hn. rewrite Z.shiftl_1_l. apply u32_id. split; [lia|]. change 4294967296 with (2 ^ 32). apply Z.pow_lt_mono_r; lia. Qed.

Lemma set_level_runs i mode : 0 <= i < GPIONUM -> 0 <= mode < 4 -> forall j, level_shift i = 2 * j ->
  runs (set_level (level_reg i) j mode) (assigns (level_reg i) (fun x => set_field x mode (level_shift i) 2)).
Proof.
  intros Hi Hm j Hj. destruct (level_facts i Hi) as (Ha & Hh & Hs & _). unfold set_level.
  assert (Hw : forall x, Z.lor (Z.ldiff x (u32 (Z.shiftl 3 (Z.shiftl j 1)))) (u32 (Z.shiftl mode (Z.shiftl j 1))) =
    set_field x mode (level_shift i) 2).
  { intros x. rewrite (Z.shiftl_mul_pow2 j) by lia. replace (j * 2 ^ 1) with (level_shift i) by lia. rewrite <- func_word by lia.
    do 3 f_equal. change 3 with (Z.ones 2). rewrite Z.land_ones by lia. symmetry. by apply Z.mod_small. }
  apply (runs_rmw (B := gpio_block) _ (fun x => Z.lor (Z.ldiff x (u32 (Z.shiftl 3 (Z.shiftl j 1)))) (u32 (Z.shiftl mode (Z.shiftl j 1))))); [done|..].
  - intros x Hx. rewrite Hw. by apply set_field_u32; [lia..|].
  - intros x. by rewrite Hw, Hh, !Z.ldiff_0_r.
Qed.

Lemma int_configure_runs i mode : 0 <= i < GPIONUM -> 0 <= mode < 4 -> runs (int_configure i mode) (int_configured i mode).
Proof.
  intros Hi Hm. destruct (level_facts i Hi) as (_ & _ & _ & Hne & _). unfold int_configure.
  eapply runs_seq with (R1 := assigns (gpio_cfg_addr i) (fun _ => trigger_word mode))
    (R2 := assigns (level_reg i) (fun x => set_field x mode (level_shift i) 2)).
  - unfold trigger_word. destruct ((mode =? 0) || (mode =? 3)); by apply config_runs.
  - pose proof (set_level_runs i mode Hi Hm) as Hl. revert Hl. unfold level_reg, level_shift. intros Hl.
    unfold GPIO16, GPIO31, GPIO32, GPIONUM in *. destruct (Z.leb_spec i 15); [by apply Hl|].
    destruct (Z.leb_spec i 31); [rewrite (proj2 (Z.leb_le 16 _)) by lia; by apply Hl|].
    rewrite (proj2 (Z.leb_le 16 _)), (proj2 (Z.leb_le 32 _)), (proj2 (Z.leb_le i 39)) by lia. by apply Hl.
  - intros g g1 g2 R1 R2 b. rewrite R2, !R1.
    rewrite (proj2 (Z.eqb_neq (level_reg i) _)) by done.
    destruct (Z.eqb_spec b (gpio_cfg_addr i)) as [->|]; [by rewrite (proj2 (Z.eqb_neq _ _)) by auto|].
    by destruct (Z.eqb_spec b (level_reg i)) as [->|].
Qed.

Lemma int_unmask_runs i : 0 <= i < GPIONUM -> runs (int_unmask i) (int_unmasked i).
Proof.
  intros Hi. destruct (enable_facts i Hi) as (Ha & Hh & Hb & _). unfold int_unmasked, int_unmask.
  assert (Hr : runs (r ← REG_READ (enable_reg i); REG_WRITE (enable_reg i) (Z.lor r (2 ^ enable_bit i)))
    (assigns (enable_reg i) (fun x => Z.lor x (2 ^ enable_bit i)))).
  { apply (runs_rmw (B := gpio_block) _ (fun x => Z.lor x (2 ^ enable_bit i))); [done| |intros x; by rewrite Hh, !Z.ldiff_0_r].
    intros x Hx. apply lor_u32; [done|]. rewrite <- one_bit by done. apply u32_range. }
  revert Hr. rewrite <- (one_bit (enable_bit i)) by done. unfold enable_reg, enable_bit, GPIO32. by destruct (i <=? GPIO31).
Qed.

Lemma int_disable_runs i : 0 <= i < GPIONUM -> runs (gpio_int_disable i) (assigns (enable_reg i) (fun x => Z.ldiff x (2 ^ enable_bit i))).
Proof.
  intros Hi. destruct (enable_facts i Hi) as (Ha & Hh & Hb & _). unfold gpio_int_disable.
  assert (Hr : runs (r ← REG_READ (enable_reg i); REG_WRITE (enable_reg i) (Z.ldiff r (2 ^ enable_bit i)))
    (assigns (enable_reg i) (fun x => Z.ldiff x (2 ^ enable_bit i)))).
  { apply (runs_rmw (B := gpio_block) _ (fun x => Z.ldiff x (2 ^ enable_bit i))); [done| |intros x; by rewrite Hh, !Z.ldiff_0_r].
    intros x Hx. rewrite Z.ldiff_land. by apply land_u32. }
  revert Hr. rewrite <- (one_bit (enable_bit i)) by done. unfold enable_reg, enable_bit. by destruct (i <=? GPIO31).
Qed.
End interrupts.

(** ** The interrupts of the clock generators *)
Section extral.
Context {hw : Type} `{GpioRegs hw}.

Lemma extral_write (h : hw) k : (forall x, is_u32 x -> is_u32 (k x)) ->
  exists h', (r ← REG_READ REG_GPIO_EXTRAL_INT_CFG; REG_WRITE REG_GPIO_EXTRAL_INT_CFG (k r)) h = Val (tt, h') /\
    (forall b, soft h' b = if b =? REG_GPIO_EXTRAL_INT_CFG then Z.ldiff (k (greg h b)) GPIO_EXTRAL_INT_MASK else soft h b) /\
    forall i, i = 2 \/ i = 3 -> Z.testbit (greg h' REG_GPIO_EXTRAL_INT_CFG) i =
      Z.testbit (greg h REG_GPIO_EXTRAL_INT_CFG) i && negb (Z.testbit (k (greg h REG_GPIO_EXTRAL_INT_CFG)) i).
Proof.
  intros Hk. exists (bus_write REG_GPIO_EXTRAL_INT_CFG (k (greg h REG_GPIO_EXTRAL_INT_CFG)) h).
  split; [by mstep by (unfold REG_READ; by rewrite breg_read)|]. split.
  - intros b. unfold soft at 1. rewrite breg_write by (done || apply Hk, breg_u32).
    by destruct (Z.eqb_spec b REG_GPIO_EXTRAL_INT_CFG) as [->|].
  - intros i Hi. apply breg_ack; [done|]. by destruct Hi as [-> | ->].
Qed.

(** Clearing the unlock interrupt of the clock generator clears its
    pending bit and no other, keeping the interrupts that are enabled; enabling or
    disabling it sets or clears its enable bit and clears no pending bit. *)
Theorem dpll_interrupt (h : hw) enable : let r := REG_GPIO_EXTRAL_INT_CFG in
  (exists h', gpio_ctrl_regs CMD_GPIO_CLR_DPLL_UNLOOK_INT_BIT GNull h = Val (GPIO_SUCCESS, h') /\ same (soft h) (soft h') /\
    Z.testbit (greg h' r) 2 = false /\ Z.testbit (greg h' r) 3 = Z.testbit (greg h r) 3) /\
  (exists h', gpio_ctrl_regs CMD_GPIO_EN_DPLL_UNLOOK_INT (GWord enable) h = Val (GPIO_SUCCESS, h') /\
    assigns r (fun x => set_field x (b2z (truthy enable)) 0 1) (soft h) (soft h') /\
    forall i, i = 2 \/ i = 3 -> Z.testbit (greg h' r) i = Z.testbit (greg h r) i).
Proof.
  intros r. assert (Hm : Z.testbit GPIO_EXTRAL_INT_MASK 2 = true /\ Z.testbit GPIO_EXTRAL_INT_MASK 3 = true) by done. destruct Hm as [Hm2 Hm3].
  split.
  - destruct (extral_write h (fun x => Z.lor (Z.ldiff x GPIO_EXTRAL_INT_MASK) DPLL_UNLOCK_INT)) as (h' & E & S & P).
    { intros x Hx. apply lor_u32; [by apply ldiff_u32|done]. }
    exists h'. split_and!.
    + change (gpio_ctrl_regs CMD_GPIO_CLR_DPLL_UNLOOK_INT_BIT GNull h) with ((reg ← REG_READ r;
        REG_WRITE r (Z.lor (Z.ldiff reg GPIO_EXTRAL_INT_MASK) DPLL_UNLOCK_INT);; (mret GPIO_SUCCESS : M hw Z)) h).
      rewrite <- bind_assoc. by mstep by exact E.
    + intros b. rewrite S. destruct (Z.eqb_spec b REG_GPIO_EXTRAL_INT_CFG) as [->|]; [|done].
      unfold soft, soft_of. change (hard REG_GPIO_EXTRAL_INT_CFG) with GPIO_EXTRAL_INT_MASK. bits.
      unfold GPIO_EXTRAL_INT_MASK. rewrite Z.lor_spec. by destruct (Z.testbit DPLL_UNLOCK_INT i); rewrite ?orb_true_r, ?orb_false_r, ?andb_false_r, <- ?andb_assoc, ?andb_diag.
    + by rewrite P, Z.lor_spec, orb_true_r, andb_false_r by auto.
    + by rewrite P, Z.lor_spec, Z.ldiff_spec, Hm3, andb_false_r, andb_true_r by auto.
  - destruct (extral_write h (fun x => if truthy enable then Z.lor (Z.ldiff x GPIO_EXTRAL_INT_MASK) DPLL_UNLOCK_INT_EN
      else Z.ldiff (Z.ldiff x GPIO_EXTRAL_INT_MASK) DPLL_UNLOCK_INT_EN)) as (h' & E & S & P).
    { intros x Hx. destruct (truthy enable); [apply lor_u32; [by apply ldiff_u32|done]|by do 2 apply ldiff_u32]. }
    exists h'. split_and!.
    + change (gpio_ctrl_regs CMD_GPIO_EN_DPLL_UNLOOK_INT (GWord enable) h) with ((reg ← REG_READ r;
        REG_WRITE r (if truthy enable then Z.lor (Z.ldiff reg GPIO_EXTRAL_INT_MASK) DPLL_UNLOCK_INT_EN
          else Z.ldiff (Z.ldiff reg GPIO_EXTRAL_INT_MASK) DPLL_UNLOCK_INT_EN);; (mret GPIO_SUCCESS : M hw Z)) h).
      rewrite <- bind_assoc. by mstep by exact E.
    + intros b. rewrite S. destruct (Z.eqb_spec b REG_GPIO_EXTRAL_INT_CFG) as [->|Hne]; subst r; [rewrite Z.eqb_refl|by rewrite (proj2 (Z.eqb_neq _ _))].
      unfold soft, soft_of. change (hard REG_GPIO_EXTRAL_INT_CFG) with GPIO_EXTRAL_INT_MASK. apply Z.bits_inj'. intros i Hi.
      rewrite set_field_bits, Z.ldiff_spec by lia. rewrite (Z.ldiff_spec (greg h _)).
      destruct (Z.leb_spec 0 i), (Z.ltb_spec i (0 + 1)); cbn [andb]; try lia.
      * replace i with 0 by lia. destruct (truthy enable); [by rewrite Z.lor_spec, orb_true_r|by rewrite !Z.ldiff_spec, andb_false_r].
      * assert (Hen : Z.testbit DPLL_UNLOCK_INT_EN i = false)
          by (unfold DPLL_UNLOCK_INT_EN; change (Z.shiftl 1 0) with (2 ^ 0); rewrite Z.pow2_bits_eqb by lia; apply Z.eqb_neq; lia).
        by destruct (truthy enable); rewrite ?Z.lor_spec, !Z.ldiff_spec, Hen, ?orb_false_r, ?andb_true_r, <- ?andb_assoc, ?andb_diag.
    + intros i Hi. subst r. rewrite (P i Hi). destruct (truthy enable); rewrite ?Z.lor_spec, !Z.ldiff_spec;
        destruct Hi as [-> | ->]; rewrite ?Hm2, ?Hm3; by rewrite ?andb_false_r, ?andb_true_r.
Qed.
End extral.
