(* ===== verification/GpioSystem.v ===== *)
(** * The pin driver in the system

    [gpio_int_enable] through the registry, with the interrupt unit behind it,
    and through the interrupt table; the way of an interrupt from the unit to
    the handler of a pin; what every command keeps; the calls of applications.
    [pin_board] is an interrupt unit and the pins on one bus. *)
From stdpp Require Import strings.
From S2P Require Import Prelude Serve DrvModel Icu Regs Intc Gpio GpioCorrect.
Local Open Scope Z_scope.

(** ** Through the registry and the interrupt table *)

Lemma on_regs_touches {hw A} `{RegBus hw} P (m : M hw A) : touches id P m -> touches g_hw P (on_regs m).
Proof. intros Hm R HR s a s'. unfold on_regs. destruct (m (g_hw s)) as [[b h]|] eqn:E; [|done]. intros [= _ <-]. by eapply Hm in E. Qed.

Section system.
Context {hw : Type} `{RegBus hw, !IcuRegs hw, !GpioRegs hw} (fuel : nat).
Abbreviation sys := (intc_st (gpio_st hw)).
Abbreviation all := (drv_state (intc_st (gpio_st hw))).
Context (sdev_ops : Z -> SDD_OPERATIONS sys) (gpio_isr_addr icu_addr : Z).
Implicit Types s : all.

Definition gpio_of s : gpio_st hw := ext (world s).
Definition hw_of s : hw := g_hw (gpio_of s).

(** The operations of the interrupt unit, on the state of this system. *)
Definition on_hw {A} (m : M hw A) : M sys A := on_ext (on_regs m).
Definition icu_here : Prop := sdev_ops icu_addr = sop_lift (fun A => on_hw (A := A)) icu_op.

Definition put_gpio (w : sys) (g : gpio_st hw) : sys := with_ext w g.
Definition put_hw (w : sys) (h : hw) : sys :=
  put_gpio w (GpioSt h (p_gpio_intr_handler (ext w)) (gpio_ops_filter_flag (ext w))).

Lemma on_hw_lifts : lifts (fun w : sys => g_hw (ext w)) put_hw (fun A => on_hw (A := A)).
Proof using Type. intros A m w. unfold on_hw, on_ext, on_regs. by destruct (m (g_hw (ext w))) as [[a h]|]. Qed.

Definition gpio_isr_e : ISR_T := ISR gpio_isr_addr PRI_IRQ_GPIO IRQ_GPIO.

Lemma icu_not_gpio a : in_icu a = true -> in_gpio a = false.
Proof using Type. clear. unfold in_icu, in_gpio. gaddr. Qed.

(** A command to the interrupt unit leaves the pins alone. *)
Lemma icu_keeps_soft cmd param (h h' : hw) r : icu_ctrl cmd param h = Val (r, h') -> forall b, soft h' b = soft h b.
Proof using Type.
  intros E. refine (icu_touches cmd param (fun h1 h2 => forall b, soft h2 b = soft h1 b) _ h r h' E). split.
  - done.
  - intros h1 h2 h3 H1 H2 b. by rewrite H2, H1.
  - intros a h1 Ha b. by apply breg_read_other, icu_not_gpio.
  - intros a v h1 Ha b. by apply breg_write_other, icu_not_gpio.
Qed.

(** Accesses to the pins leave the interrupt unit alone. *)
Lemma gpio_respects_icu : respects in_gpio (fun h1 h2 : hw => forall b, ireg h2 b = ireg h1 b).
Proof using Type.
  split.
  - done.
  - intros h1 h2 h3 H1 H2 b. by rewrite H2, H1.
  - intros a h1 Ha b. apply ireg_read_other. revert Ha. clear. unfold in_icu, in_gpio. gaddr.
  - intros a v h1 Ha b. apply ireg_write_other. revert Ha. clear. unfold in_icu, in_gpio. gaddr.
Qed.

Lemma on_gpio_val {A} (m : M (gpio_st hw) A) s a g : m (gpio_of s) = Val (a, g) ->
  on_gpio m s = Val (a, DrvState (drv_dev_tbl s) (drv_sdev_tbl s) (put_gpio (world s) g)).
Proof using Type. intros E. unfold on_gpio, call, on_ext. unfold gpio_of in E. by rewrite E. Qed.

Lemma int_configure_touches i mode : 0 <= i < GPIONUM -> touches (id : hw -> hw) in_gpio (int_configure i mode).
Proof using Type.
  intros Hi. destruct (cfg_addr_facts i Hi) as [Ha _]. unfold int_configure, gpio_config, set_level. touch.
Qed.

Lemma int_unmask_touches i : touches (id : hw -> hw) in_gpio (int_unmask i).
Proof using Type. unfold int_unmask. touch. Qed.

(** What enabling the interrupt of a pin changes in a state. *)
Record int_enabled (es' : list ISR_T) (i mode h : Z) s s' : Prop := {
  ie_tables : drv_dev_tbl s' = drv_dev_tbl s /\ drv_sdev_tbl s' = drv_sdev_tbl s;
  ie_rep : table_rep es' (world s');
  ie_isr : gpio_isr_e ∈ es';
  ie_icu b : ireg (hw_of s') b = if b =? ICU_INTERRUPT_ENABLE then Z.lor (ireg (hw_of s) b) IRQ_GPIO_BIT else ireg (hw_of s) b;
  ie_pin : if GPIONUM <=? i
    then same (soft (hw_of s)) (soft (hw_of s')) /\ p_gpio_intr_handler (gpio_of s') = p_gpio_intr_handler (gpio_of s)
    else (exists g, int_configured i (Z.land mode 3) (soft (hw_of s)) g /\ int_unmasked i g (soft (hw_of s'))) /\
      p_gpio_intr_handler (gpio_of s') = <[Z.to_nat i := h]> (p_gpio_intr_handler (gpio_of s));
}.

Lemma int_enable_val es es' i mode h s : icu_here -> sdev_slot (drv_sdev_tbl s) ICU_DEV_NAME icu_addr -> 0 <= i ->
  table_rep es (world s) -> registered gpio_isr_e es es' -> (INTC_MAX_COUNT < fuel)%nat ->
  exists s', gpio_int_enable fuel sdev_ops gpio_isr_addr i mode h s = Val (tt, s') /\ int_enabled es' i mode h s s'.
Proof using All.
  intros Hicu Hslot Hi Hr Hreg Hf. unfold gpio_int_enable.
  destruct (register_once es es' (world s) fuel gpio_isr_e Hr ltac:(cbn; unfold IRQ_GPIO; lia) Hreg Hf) as (w & E1 & Hx & Hr1 & Hin).
  set (s1 := DrvState (drv_dev_tbl s) (drv_sdev_tbl s) w).
  erewrite bind_ret_val by (unfold call; cbn in E1; rewrite E1; reflexivity). fold s1.
  assert (Hicu_e : (CMD_ICU_INT_ENABLE, CMD_ICU_INT_DISABLE, ICU_INTERRUPT_ENABLE) ∈ icu_pairs) by (by apply (list_elem_of_lookup_2 _ 4)).
  destruct (proj1 (icu_pair_step _ _ _ IRQ_GPIO_BIT (hw_of s1) Hicu_e)) as (h2 & E2 & B2).
  pose proof (icu_keeps_soft _ _ _ _ _ E2) as S2.
  erewrite bind_ret_val by (eapply (sddev_control_lift _ _ _ icu_op); [exact on_hw_lifts|exact Hslot|exact Hicu|reflexivity|];
    cbv beta; erewrite bind_ret_val by exact E2; reflexivity).
  set (s2 := DrvState _ _ (put_hw (world s1) h2)).
  assert (Hr2 : forall g, table_rep es' (put_gpio (world s2) g)) by (intros g; by eapply ext_rep; [..|exact Hr1]).
  assert (Hw : hw_of s1 = hw_of s) by (unfold hw_of, gpio_of; cbn; by rewrite Hx). rewrite Hw in B2, S2.
  assert (Ht : p_gpio_intr_handler (gpio_of s2) = p_gpio_intr_handler (gpio_of s)) by (unfold gpio_of; cbn; by rewrite Hx).
  assert (B2' : forall b, ireg h2 b = if b =? ICU_INTERRUPT_ENABLE then Z.lor (ireg (hw_of s) b) IRQ_GPIO_BIT else ireg (hw_of s) b).
  { intros b. rewrite B2. by destruct (Z.eqb_spec b ICU_INTERRUPT_ENABLE) as [->|]. }
  destruct (Z.leb_spec GPIONUM i) as [Hge|Hlt].
  { exists s2. split; [done|]. split; [done|by apply (Hr2 (gpio_of s2))|done|exact B2'|]. rewrite (proj2 (Z.leb_le _ _)) by lia. by split. }
  cbv zeta. set (md := Z.land mode 3).
  assert (Hmd : 0 <= md < 4) by (subst md; change 3 with (Z.ones 2); rewrite Z.land_ones by lia; apply Z.mod_pos_bound; lia).
  destruct (int_configure_runs i md ltac:(lia) Hmd h2) as (h3 & E3 & R3), (int_unmask_runs i ltac:(lia) h3) as (h4 & E4 & R4).
  erewrite bind_ret_val by (apply on_gpio_val; unfold on_regs; change (g_hw (gpio_of s2)) with h2; rewrite E3; reflexivity).
  erewrite bind_ret_val by (apply on_gpio_val; reflexivity).
  eexists. split; [apply on_gpio_val; unfold on_regs; cbn [g_hw put_gpio with_ext gpio_of ext world]; rewrite E4; reflexivity|].
  split; [done|by apply Hr2|done| |].
  - intros b. unfold hw_of, gpio_of. cbn. rewrite (int_unmask_touches i _ gpio_respects_icu h3 tt h4 E4).
    by rewrite (int_configure_touches i md ltac:(lia) _ gpio_respects_icu h2 tt h3 E3).
  - rewrite (proj2 (Z.leb_gt _ _)) by lia. split; [|unfold gpio_of; cbn; by rewrite Hx].
    exists (soft h3). split; [|exact R4]. intros b. unfold hw_of, gpio_of. rewrite R3, S2. done.
Qed.
End system.

(** ** From the interrupt to the handler

    The bus and the interrupt unit, seen from the driver's state. *)
#[local] Instance gpio_st_bus `{RegBus hw} : RegBus (gpio_st hw) := {|
  bus_read a s := let '(v, h) := bus_read a (g_hw s) in (v, GpioSt h (p_gpio_intr_handler s) (gpio_ops_filter_flag s));
  bus_write a v s := bus_at s a v;
|}.
#[local, refine] Instance gpio_st_icu `{IcuRegs hw} : IcuRegs (gpio_st hw) := {| ireg s := ireg (g_hw s) |}.
Proof.
  - intros s a Ha. cbn. rewrite ireg_read by done. by destruct s.
  - intros s a b Ha. cbn. pose proof (ireg_read_other (g_hw s) a b Ha) as E. by destruct (bus_read a (g_hw s)).
  - intros s a v b Ha. by apply ireg_write_other.
  - intros s a v b Ha Hj. by apply ireg_write.
Defined.

Section delivery.
Context {hw : Type} `{RegBus hw, !IcuRegs hw, !GpioRegs hw} (call_handler : Z -> Z -> M (gpio_st hw) unit).
Implicit Types s : gpio_st hw.

Lemma icu_no_ack a i : in_icu a = true -> Z.testbit (ack_mask a) i = true -> False.
Proof using Type.
  intros Ha. cbn [b_ack gpio_block]. unfold gpio_ack.
  destruct (Z.eqb_spec a REG_GPIO_INTSTA) as [->|]; [done|]. destruct (Z.eqb_spec a REG_GPIO_INTSTA2) as [->|]; [done|].
  destruct (Z.eqb_spec a REG_GPIO_EXTRAL_INT_CFG) as [->|]; [done|]. by rewrite Z.bits_0.
Qed.

Lemma pending_kept_respects : respects in_icu (pending_kept (hw := hw)).
Proof using Type.
  split.
  - intros s. split; [done|reflexivity].
  - intros s1 s2 s3 [T1 P1] [T2 P2]. split; [by rewrite T2|by etransitivity].
  - intros a s Ha. cbn. pose proof (fun b i => breg_read_pending (g_hw s) a b i) as Hp.
    destruct (bus_read a (g_hw s)) as [v h]. split; [done|exact (fun b i => Hp b i)].
  - intros a v s Ha. split; [done|]. intros b i Hm. cbn. apply breg_pending; [|done]. intros ->. by apply (icu_no_ack a) in Hm.
Qed.

End delivery.

(** C18: when the interrupt of the pins is the only one pending among 0 to 15,
    the IRQ entry runs the interrupt routine to its end, and the handler of every
    pin that is pending and has one is among the calls it makes. *)
Theorem pin_interrupt_reaches_handler {hw} `{RegBus hw, !IcuRegs hw, !GpioRegs hw} call_handler call_isr dtim_wake fuel es
    gpio_isr_addr (w : intc_st (gpio_st hw)) :
  table_rep es w -> (INTC_MAX_COUNT < fuel)%nat -> gpio_isr_e gpio_isr_addr ∈ es -> gpio_isr_addr <> 0 ->
  call_isr gpio_isr_addr = gpio_isr call_handler -> (forall x s, dtim_wake x s = Val (tt, s)) ->
  handlers_ok call_handler -> length (p_gpio_intr_handler (ext w)) = Z.to_nat GPIONUM ->
  Z.land (ireg (ext w) ICU_INT_STATUS) 0xFFFF = BIT IRQ_GPIO ->
  exists g cs s', intc_irq call_isr dtim_wake fuel w = Val (tt, with_ext w s') /\ isr_serves call_handler g cs s' /\
    forall i h, 0 <= i < GPIONUM -> Z.testbit (greg (g_hw (ext w)) (status_reg i)) (status_bit i) = true ->
      zlookup (p_gpio_intr_handler (ext w)) i = Some h -> truthy h = true -> (h, i) ∈ cs.
Proof.
  intros Hr Hf Hin Haddr Hisr Hwake Hok Hl Hp.
  destruct (entry_status (hw := gpio_st hw) w 0xFFFF) as (g & Eg & _ & Ek).
  rewrite Hp in Eg, Ek.
  assert (Hg : pending_kept (ext w) g).
  { refine (icu_touches (hw := gpio_st hw) _ _ pending_kept _ _ _ _ Eg). apply pending_kept_respects. }
  destruct Hg as [Ht Hkeep]. destruct (isr_val call_handler g Hok ltac:(by rewrite Ht)) as (cs & s' & Erun & Hserved).
  assert (Hr' : table_rep es (with_ext w g)) by (by eapply ext_rep; [..|exact Hr]).
  destruct (rep_nodup es w Hr) as (_ & Hnd & _).
  exists g, cs, s'. split_and!; [|exact Hserved|].
  - unfold intc_irq. rewrite Ek, (hdl_entry_val _ _ es _ fuel _ Hr' Hf). cbn [ext with_ext].
    rewrite (bind_ret_val _ _ _ _ _ (Hwake _ _)).
    change (BIT IRQ_GPIO) with (BIT (int_num (gpio_isr_e gpio_isr_addr))).
    rewrite (serve_one call_isr es _ g Hin Hnd (fun x Hx => proj1 (tr_elem es w Hr x Hx))).
    unfold run_isr. cbn [isr_func gpio_isr_e]. unfold truthy. rewrite (proj2 (Z.eqb_neq _ _)) by done. cbn [negb]. by rewrite Hisr, Erun.
  - intros i h Hi Hpend Hh Htr. eapply serves_pending; [exact Hserved|done| |by rewrite Ht|done]. apply Hkeep; [|done].
    unfold status_reg, status_bit, GPIO31, GPIONUM in *. destruct (Z.leb_spec i 31); apply sta_mask; lia.
Qed.

(** ** What every command keeps *)

(** A pin whose interrupt is enabled was enabled before. *)
Definition no_new_enables (g g' : Z -> Z) : Prop := forall i, 0 <= i < GPIONUM ->
  Z.testbit (g' (enable_reg i)) (enable_bit i) = true -> Z.testbit (g (enable_reg i)) (enable_bit i) = true.

(** The word a parameter points to, and what a command needs of it. *)
Definition parm_word (param : gpio_parm) : option Z :=
  match param with GNull => None | GWord w => Some w | GInt id _ _ => Some id end.
Definition parm_ok (cmd : Z) (param : gpio_parm) : Prop := exists p, parm_word param = Some p /\ is_u32 p /\
  (cmd = CMD_GPIO_OUTPUT_REVERSE -> p < GPIONUM) /\ (cmd = CMD_GPIO_OUTPUT -> GPIO_OUTPUT_DEMUX_ID p < GPIONUM).

Section keeps.
Context {hw : Type} `{RegBus hw, !GpioRegs hw}.

Lemma enable_not_module i : enable_reg i <> REG_GPIO_MODULE_SELECT /\ enable_reg i <> REG_GPIO_EXTRAL_INT_CFG.
Proof using Type. unfold enable_reg. by destruct (i <=? GPIO31). Qed.

Lemma no_new_same g g' : (forall i, 0 <= i < GPIONUM -> g' (enable_reg i) = g (enable_reg i)) -> no_new_enables g g'.
Proof using Type. intros Hs i Hi. by rewrite Hs. Qed.

Lemma no_new_assigns a k g g' : (forall i, 0 <= i < GPIONUM -> enable_reg i <> a) -> assigns a k g g' -> no_new_enables g g'.
Proof using Type. intros Ha Hg. apply no_new_same. intros i Hi. by rewrite Hg, (proj2 (Z.eqb_neq _ _)) by auto. Qed.

Lemma no_new_ldiff a m g g' : assigns a (fun x => Z.ldiff x m) g g' -> no_new_enables g g'.
Proof using Type.
  intros Hg i Hi. rewrite Hg. destruct (Z.eqb_spec (enable_reg i) a) as [<-|]; [|done].
  rewrite Z.ldiff_spec. intros Hb. by apply andb_true_iff in Hb as [? _].
Qed.

Lemma no_new_function m f w g g' : function_selected m f w g g' -> no_new_enables g g'.
Proof using Type.
  intros [[_ _ Ho] _]. apply no_new_same. intros i Hi. destruct (enable_facts i Hi) as (_ & _ & _ & He & _).
  specialize (Ho _ He). by rewrite (proj2 (Z.eqb_neq _ _)) in Ho by apply enable_not_module.
Qed.

(** A run that returns a value and enables no interrupt. *)
Definition calm {A} (m : M hw A) : Prop := forall h, exists r h', m h = Val (r, h') /\ no_new_enables (soft h) (soft h').

Lemma calm_runs m (R : (Z -> Z) -> (Z -> Z) -> Prop) : runs m R -> (forall g g', R g g' -> no_new_enables g g') -> calm m.
Proof using Type. intros Hm HR h. destruct (Hm h) as (h' & E & Hr). exists tt, h'. auto. Qed.

Lemma calm_ret {A} (a : A) : calm (mret a).
Proof using Type. intros h. exists a, h. split; [done|by intros i Hi]. Qed.

Lemma calm_bind {A B} (m : M hw A) (k : A -> M hw B) : calm m -> (forall a, calm (k a)) -> calm (mbind k m).
Proof using Type.
  intros Hm Hk h. destruct (Hm h) as (a & h1 & E1 & N1), (Hk a h1) as (b & h2 & E2 & N2). exists b, h2.
  split; [by rewrite (bind_ret_val _ _ _ _ _ E1)|]. intros i Hi Hb. auto.
Qed.

Lemma calm_read a : calm (REG_READ a).
Proof using Type.
  intros h. unfold REG_READ. destruct (bus_read a h) as [v h'] eqn:E. exists v, h'. split; [done|]. apply no_new_same. intros i Hi.
  destruct (in_gpio a) eqn:Ha; [rewrite breg_read in E by done; by injection E as <- <-|].
  change h' with (v, h').2. rewrite <- E. by apply breg_read_other.
Qed.

Lemma calm_config i mode : 0 <= i -> calm (gpio_config i mode).
Proof using Type.
  intros Hi. destruct (Z.leb_spec GPIONUM i) as [Hge|Hlt], (mode_word mode) as [w|] eqn:Ew;
    try (unfold gpio_config; change (GPIO_SUCCESS =? gpio_ops_filter i) with false;
      rewrite ?(proj2 (Z.leb_le GPIONUM i)), ?(proj2 (Z.leb_gt GPIONUM i)), ?Ew by lia; apply calm_ret).
  eapply calm_runs; [by apply (config_runs i mode w)|]. intros g g'. apply no_new_assigns.
  intros j Hj E. by apply (proj1 (proj2 (proj2 (proj2 (enable_facts j Hj)))) i ltac:(lia)) in E.
Qed.

Lemma enable_not_cfg i j : 0 <= i < GPIONUM -> 0 <= j < GPIONUM -> enable_reg i <> gpio_cfg_addr j.
Proof using Type. intros Hi Hj. by apply (proj1 (proj2 (proj2 (proj2 (enable_facts i Hi))))). Qed.

Lemma calm_function m : calm (gpio_enable_second_function m).
Proof using Type.
  destruct (decide (m ∈ map fst second_functions)) as [([m' f] & -> & Hf)%list_elem_of_fmap|Hn].
  - cbn. destruct (known_function m' f Hf) as (w & _ & Hr). eapply calm_runs; [exact Hr|]. intros g g'. apply no_new_function.
  - pose proof (find_none m (fun f Hf => Hn (list_elem_of_fmap_2 fst _ _ Hf))) as Hf.
    eapply calm_runs; [apply (function_val m gfunc_default 0x48 eq_refl ltac:(cbn; unfold PERIAL_MODE_1; lia) ltac:(cbn; lia)
      ltac:(cbn; unfold GPIONUM; lia) Hf ltac:(by left))|]. intros g g'. apply no_new_function.
Qed.

Lemma calm_rmw a k : in_gpio a = true -> (forall i, enable_reg i <> a) -> (forall x, is_u32 x -> is_u32 (k x)) ->
  calm (r ← REG_READ a; REG_WRITE a (k r)).
Proof using Type.
  intros Ha He Hk h. exists tt, (bus_write a (k (greg h a)) h). split; [by mstep by (unfold REG_READ; by rewrite breg_read)|].
  apply no_new_same. intros i _. unfold soft. rewrite breg_write by (done || apply Hk, breg_u32). by rewrite (proj2 (Z.eqb_neq _ _)).
Qed.

(** The status word of the other interrupts, for any change within its bits. *)
Lemma calm_extral k : (forall x, is_u32 x -> is_u32 (k x)) ->
  calm (r ← REG_READ REG_GPIO_EXTRAL_INT_CFG; REG_WRITE REG_GPIO_EXTRAL_INT_CFG (k r)).
Proof using Type. intros Hk. apply calm_rmw; [done|intros i; apply enable_not_module|done]. Qed.

Lemma calm_disable i : calm (gpio_int_disable i).
Proof using Type.
  assert (Hr : forall a m, in_gpio a = true -> hard a = 0 -> calm (r ← REG_READ a; REG_WRITE a (Z.ldiff r m))).
  { intros a m Ha Hh. eapply calm_runs; [apply (runs_rmw (B := gpio_block) a (fun x => Z.ldiff x m) (fun x => Z.ldiff x m) Ha)|]; [..|intros g g'; apply no_new_ldiff].
    - intros x Hx. rewrite Z.ldiff_land. by apply land_u32.
    - intros x. by rewrite Hh, !Z.ldiff_0_r. }
  unfold gpio_int_disable. destruct (i <=? GPIO31); by apply Hr.
Qed.

Lemma calm_assoc {A B C} (m : M hw A) (k : A -> M hw B) (k' : B -> M hw C) :
  calm (b ← (a ← m; k a); k' b) -> calm (a ← m; b ← k a; k' b).
Proof using Type. intros Hc h. specialize (Hc h). by rewrite bind_assoc in Hc. Qed.

Lemma calm_ctrl cmd param : parm_ok cmd param -> calm (gpio_ctrl_regs cmd param).
Proof using Type.
  intros (p & Hp & Hu & Hrev & Hout).
  assert (Hd : forall A (k : Z -> M hw A), calm (k p) -> calm (x ← gderef param; k x)).
  { intros A k Hk h. destruct (Hk h) as (r & h' & E & N). exists r, h'. split; [|done].
    destruct param as [|x|x ? ?]; [done|..]; injection Hp as ->; exact E. }
  assert (Ha : calm (assert (not_null param))) by (destruct param; [done|apply calm_ret..]).
  assert (Hseq : forall m : M hw unit, calm m -> calm (m;; mret GPIO_SUCCESS)) by (intros m Hm; apply calm_bind; [done|intros _; apply calm_ret]).
  unfold gpio_ctrl_regs.
  destruct (Z.eqb_spec cmd CMD_GPIO_CFG) as [->|]. { apply Hd, Hseq, calm_config. apply Z.land_nonneg. by right. }
  destruct (Z.eqb_spec cmd CMD_GPIO_OUTPUT_REVERSE) as [->|].
  { apply calm_bind; [done|intros _]. apply Hd, Hseq. eapply calm_runs; [apply reverse_runs; unfold is_u32 in Hu; specialize (Hrev eq_refl); lia|].
    intros g g'. apply no_new_assigns. intros i Hi. apply enable_not_cfg; [done|unfold is_u32 in Hu; specialize (Hrev eq_refl); lia]. }
  destruct (Z.eqb_spec cmd CMD_GPIO_OUTPUT) as [->|].
  { assert (Hi : 0 <= GPIO_OUTPUT_DEMUX_ID p < GPIONUM) by (split; [apply Z.land_nonneg; by right|by apply Hout]).
    apply Hd, Hseq. eapply calm_runs; [by apply output_runs|]. intros g g'. apply no_new_assigns. intros i Hi'. by apply enable_not_cfg. }
  destruct (Z.eqb_spec cmd CMD_GPIO_INPUT) as [->|].
  { apply calm_bind; [done|intros _]. apply Hd. apply calm_bind; [apply calm_read|intros x; apply calm_ret]. }
  destruct (Z.eqb_spec cmd CMD_GPIO_ENABLE_SECOND) as [->|]. { apply calm_bind; [done|intros _]. apply Hd, Hseq, calm_function. }
  destruct (Z.eqb_spec cmd CMD_GPIO_CLR_DPLL_UNLOOK_INT_BIT) as [->|].
  { apply calm_assoc. apply calm_bind; [|intros _; apply calm_ret]. apply (calm_extral (fun x => Z.lor (Z.ldiff x GPIO_EXTRAL_INT_MASK) DPLL_UNLOCK_INT)).
    intros x Hx. apply lor_u32; [by apply ldiff_u32|done]. }
  destruct (Z.eqb_spec cmd CMD_GPIO_EN_DPLL_UNLOOK_INT) as [->|].
  { assert (Hw : calm (r ← REG_READ REG_GPIO_EXTRAL_INT_CFG; REG_WRITE REG_GPIO_EXTRAL_INT_CFG
      ((fun x => if truthy p then Z.lor (Z.ldiff x GPIO_EXTRAL_INT_MASK) DPLL_UNLOCK_INT_EN
        else Z.ldiff (Z.ldiff x GPIO_EXTRAL_INT_MASK) DPLL_UNLOCK_INT_EN) r))).
    { apply calm_extral. intros x Hx. destruct (truthy p); [apply lor_u32; [by apply ldiff_u32|done]|by apply ldiff_u32, ldiff_u32]. }
    intros h. destruct (Hw h) as ([] & h' & E & N). exists GPIO_SUCCESS, h'. split; [|done]. revert E. unfold mbind at 1 2, M_bind.
    destruct (REG_READ REG_GPIO_EXTRAL_INT_CFG h) as [[x h1]|]; [|done]. cbv beta.
    destruct param as [|y|y ? ?]; [done|..]; injection Hp as ->; intros E; do 2 mstep; by mstep by exact E. }
  destruct (Z.eqb_spec cmd CMD_GPIO_INT_DISABLE) as [->|]. { apply Hd, Hseq, calm_disable. }
  apply calm_ret.
Qed.
End keeps.

(** ** Any sequence of commands *)
Section sequences.
Context {hw : Type} `{RegBus hw, !IcuRegs hw, !GpioRegs hw} (fuel : nat).
Abbreviation sys := (intc_st (gpio_st hw)).
Abbreviation all := (drv_state (intc_st (gpio_st hw))).
Context (sdev_ops : Z -> SDD_OPERATIONS sys) (gpio_isr_addr icu_addr gpio_op : Z).
Implicit Types s : all.

(** The interrupt unit is registered, and the routine is or can be. *)
Record gpio_ready s : Prop := {
  gr_slot : sdev_slot (drv_sdev_tbl s) ICU_DEV_NAME icu_addr;
  gr_table : exists es es', table_rep es (world s) /\ registered (gpio_isr_e gpio_isr_addr) es es';
}.

(** The table has an entry for each pin, and a pin whose interrupt is enabled has a handler. *)
Record handled s : Prop := {
  hd_length : length (p_gpio_intr_handler (gpio_of s)) = Z.to_nat GPIONUM;
  hd_enabled i : 0 <= i < GPIONUM -> Z.testbit (soft (hw_of s) (enable_reg i)) (enable_bit i) = true ->
    exists h, zlookup (p_gpio_intr_handler (gpio_of s)) i = Some h /\ h <> 0;
}.

Definition command_ok (c : Z * gpio_parm) : Prop :=
  (c.1 <> CMD_GPIO_INT_ENABLE /\ parm_ok c.1 c.2) \/
  (c.1 = CMD_GPIO_INT_ENABLE /\ exists id mode h, c.2 = GInt id mode h /\ 0 <= id /\ h <> 0).

Fixpoint gpio_run (cs : list (Z * gpio_parm)) : M all (list Z) :=
  match cs with
  | [] => mret []
  | (cmd, param) :: cs' => r ← gpio_ctrl fuel sdev_ops gpio_isr_addr cmd param; rs ← gpio_run cs'; mret (r :: rs)
  end.

Lemma unmasked_enables i mode g g1 g2 : 0 <= i < GPIONUM -> int_configured i mode g g1 -> int_unmasked i g1 g2 ->
  forall j, 0 <= j < GPIONUM -> Z.testbit (g2 (enable_reg j)) (enable_bit j) = true ->
    j = i \/ Z.testbit (g (enable_reg j)) (enable_bit j) = true.
Proof using Type.
  intros Hi H1 H2 j Hj. destruct (enable_facts i Hi) as (_ & _ & Hbi & _), (enable_facts j Hj) as (_ & _ & Hbj & _ & Hlv).
  assert (Hg1 : g1 (enable_reg j) = g (enable_reg j))
    by (by rewrite H1, (proj2 (Z.eqb_neq _ _)), (proj2 (Z.eqb_neq _ _)) by (by apply enable_not_cfg || apply Hlv)).
  rewrite H2. destruct (Z.eqb_spec (enable_reg j) (enable_reg i)) as [E|]; [|rewrite Hg1; by right].
  rewrite <- E, Hg1, Z.lor_spec, Z.pow2_bits_eqb by lia. intros [Hb|Hb%Z.eqb_eq]%orb_true_iff; [by right|left].
  by apply enable_place_inj.
Qed.

Lemma command_keeps c s : icu_here sdev_ops icu_addr -> (INTC_MAX_COUNT < fuel)%nat -> command_ok c -> gpio_ready s -> handled s ->
  exists r s', gpio_ctrl fuel sdev_ops gpio_isr_addr c.1 c.2 s = Val (r, s') /\ gpio_ready s' /\ handled s'.
Proof using IcuRegs0.
  intros Hicu Hf Hc [Hslot (es & es' & Hr & Hreg)] [Hl He]. destruct c as [cmd param]. unfold command_ok in Hc. cbn [fst snd] in *.
  destruct Hc as [[Hne Hp]|[-> (id & mode & h & -> & Hid & Hh)]]; unfold gpio_ctrl.
  - rewrite (proj2 (Z.eqb_neq _ _)) by done.
    destruct (calm_ctrl cmd param Hp (hw_of s)) as (r & h' & E & N).
    exists r, (DrvState (drv_dev_tbl s) (drv_sdev_tbl s) (put_hw (world s) h')). split; [|split].
    + apply on_gpio_val. unfold on_regs. unfold hw_of in E. by rewrite E.
    + split; [done|]. exists es, es'. split; [by eapply ext_rep; [..|exact Hr]|done].
    + split; [done|]. intros i Hi Hb. apply He; [done|]. by apply (N i Hi).
  - change (CMD_GPIO_INT_ENABLE =? CMD_GPIO_INT_ENABLE) with true. cbv iota.
    destruct (int_enable_val fuel sdev_ops gpio_isr_addr icu_addr es es' id mode h s Hicu Hslot Hid Hr Hreg Hf)
      as (s' & E & [[T1 T2] Hr' Hin _ Hpin]). exists GPIO_SUCCESS, s'. split; [by mstep by exact E|]. split.
    { split; [by rewrite T2|]. exists es', es'. split; [done|by left]. }
    destruct (Z.leb_spec GPIONUM id) as [Hge|Hlt].
    + destruct Hpin as [Hs Ht]. split; [by rewrite Ht|]. intros i Hi. rewrite Ht, Hs. by apply He.
    + destruct Hpin as [(g & H1 & H2) Ht]. split; [by rewrite Ht, length_insert|].
      intros i Hi Hb. rewrite Ht. unfold zlookup. rewrite (proj2 (Z.leb_le _ _)) by lia.
      destruct (unmasked_enables id _ _ _ _ ltac:(lia) H1 H2 i Hi Hb) as [->|Hb'].
      * exists h. split; [|done]. apply list_lookup_insert_eq. rewrite Hl. unfold GPIONUM in *. lia.
      * destruct (He i Hi Hb') as (h0 & Hh0 & Hn0). unfold zlookup in Hh0. rewrite (proj2 (Z.leb_le _ _)) in Hh0 by lia.
        destruct (decide (i = id)) as [->|Hne]; [exists h; split; [|done]; apply list_lookup_insert_eq; rewrite Hl; unfold GPIONUM in *; lia|].
        exists h0. rewrite list_lookup_insert_ne by lia. done.
Qed.

(** C17: after any sequence of commands that drive only existing pins and
    enable interrupts with a handler, every command has returned, the handler
    table still has its size, and every pin whose interrupt is enabled has a handler. *)
Theorem commands_keep_handled cs s : icu_here sdev_ops icu_addr -> (INTC_MAX_COUNT < fuel)%nat -> Forall command_ok cs ->
  gpio_ready s -> handled s ->
  exists rs s', gpio_run cs s = Val (rs, s') /\ length rs = length cs /\ gpio_ready s' /\ handled s'.
Proof using IcuRegs0.
  intros Hicu Hf Hcs. revert s. induction Hcs as [|[cmd param] cs Hc Hcs IH]; intros s Hg Hh; [by exists [], s|]. cbn [gpio_run].
  destruct (command_keeps _ s Hicu Hf Hc Hg Hh) as (r & s1 & E1 & G1 & H1), (IH s1 G1 H1) as (rs & s2 & E2 & L2 & G2 & H2).
  exists (r :: rs), s2. split_and!; [|cbn; by rewrite L2|done|done]. mstep by exact E1. by mstep by exact E2.
Qed.

(** A command through the registry. *)
Lemma control_val cmd param s : sdev_slot (drv_sdev_tbl s) GPIO_DEV_NAME gpio_op ->
  gpio_control fuel sdev_ops gpio_op gpio_isr_addr cmd param s = gpio_ctrl fuel sdev_ops gpio_isr_addr cmd param s.
Proof using Type. apply dev_control_val. Qed.

(** An application that enables the interrupt of a pin through the
    registry gets the routine registered and its interrupt enabled in the unit,
    once; the pin pulled against its trigger, its trigger and its handler set
    and its interrupt enabled, and nothing else; disabling it again clears the
    enable bit alone, the handler stays.  The identifier is compared with the
    number of pins only after the registration. *)
Theorem enable_irq_configures es es' i trigger handler arg s : icu_here sdev_ops icu_addr ->
  sdev_slot (drv_sdev_tbl s) ICU_DEV_NAME icu_addr -> sdev_slot (drv_sdev_tbl s) GPIO_DEV_NAME gpio_op -> 0 <= i ->
  table_rep es (world s) -> registered (gpio_isr_e gpio_isr_addr) es es' -> (INTC_MAX_COUNT < fuel)%nat ->
  exists s1, BkGpioEnableIRQ fuel sdev_ops gpio_op gpio_isr_addr i trigger handler arg s = Val (GPIO_SUCCESS, s1) /\
    int_enabled gpio_isr_addr es' i trigger handler s s1 /\
    (i < GPIONUM -> exists s2, BkGpioDisableIRQ fuel sdev_ops gpio_op gpio_isr_addr i s1 = Val (GPIO_SUCCESS, s2) /\
      assigns (enable_reg i) (fun x => Z.ldiff x (2 ^ enable_bit i)) (soft (hw_of s1)) (soft (hw_of s2)) /\
      p_gpio_intr_handler (gpio_of s2) = p_gpio_intr_handler (gpio_of s1) /\ table_rep es' (world s2)).
Proof using IcuRegs0.
  intros Hicu Hslot Hgpio Hi Hr Hreg Hf.
  destruct (int_enable_val fuel sdev_ops gpio_isr_addr icu_addr es es' i trigger handler s Hicu Hslot Hi Hr Hreg Hf) as (s1 & E1 & Hie).
  exists s1. split_and!; [|done|].
  - unfold BkGpioEnableIRQ. rewrite control_val by done. unfold gpio_ctrl.
    change (CMD_GPIO_INT_ENABLE =? CMD_GPIO_INT_ENABLE) with true. cbv iota. by mstep by exact E1.
  - intros Hlt. destruct Hie as [[T1 T2] Hr' Hin _ _]. destruct (int_disable_runs i ltac:(lia) (hw_of s1)) as (h2 & E2 & R2).
    exists (DrvState (drv_dev_tbl s1) (drv_sdev_tbl s1) (put_hw (world s1) h2)). split_and!; [|exact R2|done|by eapply ext_rep; [..|exact Hr']].
    unfold BkGpioDisableIRQ. rewrite control_val by (by rewrite T2). unfold gpio_ctrl.
    change (CMD_GPIO_INT_DISABLE =? CMD_GPIO_INT_ENABLE) with false. cbv iota. apply on_gpio_val. unfold on_regs.
    change (gpio_ctrl_regs CMD_GPIO_INT_DISABLE (GWord i)) with (id ← gderef (GWord i); gpio_int_disable id;; (mret GPIO_SUCCESS : M hw Z)).
    unfold gderef. rewrite bind_mret. unfold hw_of in E2. by rewrite (bind_ret_val _ _ _ _ _ E2).
Qed.
End sequences.

(** ** An interrupt unit and the pins on one bus *)
Definition pin_board : Type := with_file gpio_block icu_file.
#[export] Instance pin_board_bus : RegBus pin_board := with_file_bus gpio_block (rest := icu_file).
#[export] Instance pin_board_icu : IcuRegs pin_board := with_file_icu gpio_block (rest := icu_file).
#[export] Instance pin_board_gpio : GpioRegs pin_board := with_file_regs gpio_block (rest := icu_file).
Definition PinBoard (i : icu_file) (g : Z -> Z) : pin_board := WithFile gpio_block g i.

(** Pins 0 and 2 fire, and so does the interrupt of the pins. *)
Definition demo_pins : pin_board :=
  PinBoard (IcuFile (fun a => if a =? ICU_INT_STATUS then 0x80 else 0) []) (fun a => if a =? REG_GPIO_INTSTA then 5 else 0).

(** Pin 2 has the handler at 9. *)
Definition demo_gpio : gpio_st pin_board := GpioSt demo_pins (<[2%nat := 9]> (replicate 40 0)) 0.

(** A handler that counts its calls in the flag. *)
Definition count_handler (h i : Z) : M (gpio_st pin_board) unit :=
  modify (fun s => GpioSt (g_hw s) (p_gpio_intr_handler s) (gpio_ops_filter_flag s + 1)).

Lemma count_handler_ok : handlers_ok count_handler.
Proof. intros h i s. eexists. split; [reflexivity|]. split; [done|by intros a j]. Qed.

Definition demo_sdev_tbl : list DRV_SDEV_S :=
  [DRV_DEV (Some ICU_DEV_NAME) 0 DD_STATE_CLOSED (Some 1); DRV_DEV (Some GPIO_DEV_NAME) 0 DD_STATE_CLOSED (Some 2)].
Definition demo_ops_of (a : Z) : SDD_OPERATIONS (intc_st (gpio_st pin_board)) := sop_lift (fun A => on_hw (A := A)) icu_op.

Definition demo_all : drv_state (intc_st (gpio_st pin_board)) := DrvState [] demo_sdev_tbl (intc_start demo_gpio).

Lemma demo_slots : sdev_slot demo_sdev_tbl ICU_DEV_NAME 1 /\ sdev_slot demo_sdev_tbl GPIO_DEV_NAME 2.
Proof. split; [by exists 0%nat|by exists 1%nat]. Qed.

Lemma demo_registered : registered (gpio_isr_e 7) [] [gpio_isr_e 7].
Proof. right. split; [apply not_elem_of_nil|]. split; [by intros x Hx%elem_of_nil|done]. Qed.

Lemma pin_levels_witness : 0 <= 33 < GPIONUM /\
  exists h', gpio_output 33 1 demo_pins = Val (tt, h') /\ Z.testbit (soft h' (gpio_cfg_addr 33)) GCFG_OUTPUT_POS = true.
Proof.
  split; [by vm_compute|]. destruct (pin_levels 33 1 demo_pins ltac:(by vm_compute)) as ((h' & E & Hb & _) & _). by exists h'.
Defined.

Lemma second_function_witness : (GFUNC_MODE_SPI, select GPIO_SPI_MODULE GPIO_SPI_MODULE_MASK (pins 14 17 PERIAL_MODE_2)) ∈ second_functions /\
  exists h', gpio_enable_second_function GFUNC_MODE_SPI demo_pins = Val (tt, h') /\ soft h' REG_GPIO_MODULE_SELECT = 1.
Proof.
  assert (Hin : (GFUNC_MODE_SPI, select GPIO_SPI_MODULE GPIO_SPI_MODULE_MASK (pins 14 17 PERIAL_MODE_2)) ∈ second_functions)
    by (by apply (list_elem_of_lookup_2 _ 18)).
  split; [exact Hin|]. destruct (proj1 (second_function_configures GFUNC_MODE_SPI demo_pins) _ Hin) as (w & h' & _ & E & _ & Hm).
  exists h'. split; [exact E|]. rewrite Hm. by vm_compute.
Defined.

Lemma gpio_isr_serves_witness : handlers_ok count_handler /\
  exists s1 s', gpio_isr count_handler demo_gpio = Val (tt, s') /\ served count_handler demo_gpio [(9, 2)] s1.
Proof.
  split; [exact count_handler_ok|].
  destruct (gpio_isr_serves count_handler demo_gpio count_handler_ok eq_refl) as (s1 & s2 & s3 & s' & E & R & _). by exists s1, s'.
Defined.

Lemma pin_interrupt_reaches_handler_witness :
  let w := IntcSt (nodes (intc_start demo_gpio)) (_isrs (intc_start demo_gpio)) (isrs_mask (intc_start demo_gpio)) demo_gpio in
  exists w1 g cs s', table_rep [gpio_isr_e 7] w1 /\ intc_irq (fun _ => gpio_isr count_handler) no_wake 33 w1 = Val (tt, with_ext w1 s') /\
    isr_serves count_handler g cs s' /\ (9, 2) ∈ cs.
Proof.
  destruct (register_once [] [gpio_isr_e 7] (intc_start demo_gpio) 33 (gpio_isr_e 7) (start_rep _) ltac:(by vm_compute) demo_registered
    ltac:(unfold INTC_MAX_COUNT; lia)) as (w1 & _ & Hx & Hr & Hin).
  destruct (pin_interrupt_reaches_handler count_handler (fun _ => gpio_isr count_handler) no_wake 33 [gpio_isr_e 7] 7 w1 Hr
    ltac:(unfold INTC_MAX_COUNT; lia) Hin ltac:(done) eq_refl (fun _ _ => eq_refl) count_handler_ok) as (g & cs & s' & E & Hs & Hcall); [by rewrite Hx|by rewrite Hx|].
  exists w1, g, cs, s'. split; [exact Hr|]. split; [exact E|]. split; [exact Hs|].
  apply (Hcall 2 9); [unfold GPIONUM; lia|by rewrite Hx|by rewrite Hx|done].
Defined.

Lemma demo_gpio_ready : gpio_ready 7 1 demo_all /\ handled demo_all.
Proof.
  split.
  - split; [apply demo_slots|]. exists [], [gpio_isr_e 7]. split; [apply start_rep|exact demo_registered].
  - split; [done|]. intros i Hi. unfold enable_reg. destruct (i <=? GPIO31); cbn; rewrite Z.bits_0; done.
Qed.

Definition demo_commands : list (Z * gpio_parm) :=
  [(CMD_GPIO_ENABLE_SECOND, GWord GFUNC_MODE_DCMI); (CMD_GPIO_INT_ENABLE, GInt 33 3 9); (CMD_GPIO_OUTPUT, GWord (GPIO_OUTPUT_PARAM 39 1))].

Lemma commands_keep_handled_witness : Forall command_ok demo_commands /\
  exists rs s', gpio_run 33 demo_ops_of 7 demo_commands demo_all = Val (rs, s') /\ handled s'.
Proof.
  assert (Hok : Forall command_ok demo_commands).
  { repeat apply Forall_cons_2; [left|right|left|apply Forall_nil_2].
    - split; [done|]. exists GFUNC_MODE_DCMI. by repeat split.
    - split; [done|]. exists 33, 3, 9. by repeat split.
    - split; [done|]. exists (GPIO_OUTPUT_PARAM 39 1). by repeat split. }
  split; [exact Hok|]. destruct demo_gpio_ready as [Hg Hh].
  destruct (commands_keep_handled 33 demo_ops_of 7 1 demo_commands demo_all eq_refl ltac:(unfold INTC_MAX_COUNT; lia) Hok Hg Hh)
    as (rs & s' & E & _ & _ & Hh'). exists rs, s'. split; [exact E|exact Hh'].
Defined.

Lemma enable_irq_configures_witness : exists s1 s2,
  BkGpioEnableIRQ 33 demo_ops_of 2 7 33 3 9 0 demo_all = Val (GPIO_SUCCESS, s1) /\ int_enabled 7 [gpio_isr_e 7] 33 3 9 demo_all s1 /\
  BkGpioDisableIRQ 33 demo_ops_of 2 7 33 s1 = Val (GPIO_SUCCESS, s2).
Proof.
  destruct demo_slots as [Hi Hg].
  destruct (enable_irq_configures 33 demo_ops_of 7 1 2 [] [gpio_isr_e 7] 33 3 9 0 demo_all eq_refl Hi Hg ltac:(lia) (start_rep _)
    demo_registered ltac:(unfold INTC_MAX_COUNT; lia)) as (s1 & E1 & Hie & Hd).
  destruct (Hd ltac:(by vm_compute)) as (s2 & E2 & _). exists s1, s2. split; [exact E1|]. split; [exact Hie|exact E2].
Defined.
