(* ===== verification/GpioStack.v ===== *)
(** * The pins, from the top of a stack

    A driver above the registry asks for pins with the control commands of the
    pin driver ([gpio_word_op]), which runs on the bus under the variables of the
    drivers; what the two commands that drivers use do there. *)
From stdpp Require Import strings.
From S2P Require Import Prelude DrvModel Icu Regs Intc Stack Gpio GpioCorrect.
Local Open Scope Z_scope.

Abbreviation gsoft := (Regs.soft gpio_block).

Section pins.
Context {W : Type} `{RegBus W, !GpioRegs W} (sdev_ops : Z -> SDD_OPERATIONS (intc_st W)) (gpio_addr : Z).
Implicit Types s : drv_state (intc_st W).

Definition gpio_behind : Prop := sdev_ops gpio_addr = sop_lift (fun A => on_ext (A := A)) gpio_word_op.

Lemma gpio_command cmd p s r w : gpio_behind -> sdev_slot (drv_sdev_tbl s) GPIO_DEV_NAME gpio_addr ->
  cmd <> CMD_GPIO_INT_ENABLE -> gpio_ctrl_regs cmd (GWord p) (ext (world s)) = Val (r, w) ->
  sddev_control sdev_ops (Some GPIO_DEV_NAME) cmd p s = Val ((r, p), with_world s w).
Proof using Type.
  intros Hb Hs Hc E. eapply (sddev_control_lift _ _ _ gpio_word_op); [exact on_ext_lifts|exact Hs|exact Hb|reflexivity|].
  cbv beta. rewrite (proj2 (Z.eqb_neq _ _)) by done. by rewrite (bind_ret_val _ _ _ _ _ E).
Qed.

(** Giving a function its pins: [f] is a function of pins alone. *)
Lemma gpio_second m f s : gpio_behind -> sdev_slot (drv_sdev_tbl s) GPIO_DEV_NAME gpio_addr ->
  (m, f) ∈ second_functions -> modul_select f = GPIO_MODUL_NONE ->
  exists v w, mode_word (config_mode f) = Some v /\
    sddev_control sdev_ops (Some GPIO_DEV_NAME) CMD_GPIO_ENABLE_SECOND m s = Val ((GPIO_SUCCESS, m), with_world s w) /\
    gpio_enable_second_function m (ext (world s)) = Val (tt, w) /\
    pins_set (function_pins m f) v (pmode f) (gsoft (ext (world s))) (gsoft w).
Proof using Type.
  intros Hb Hs Hin Hm. destruct (known_function (hw := W) m f Hin) as (v & Hv & Hr). destruct (Hr (ext (world s))) as (w & E & R).
  exists v, w. split_and!; [done| |done|by apply function_pins_set]. apply gpio_command; [done..|].
  change (gpio_ctrl_regs CMD_GPIO_ENABLE_SECOND (GWord m)) with (gpio_enable_second_function m;; (mret GPIO_SUCCESS : M W Z)).
  by rewrite (bind_ret_val _ _ _ _ _ E).
Qed.

(** Configuring a pin. *)
Lemma gpio_cfg i mode v s : gpio_behind -> sdev_slot (drv_sdev_tbl s) GPIO_DEV_NAME gpio_addr ->
  0 <= i < GPIONUM -> 0 <= mode < 256 -> mode_word mode = Some v ->
  exists w, sddev_control sdev_ops (Some GPIO_DEV_NAME) CMD_GPIO_CFG (GPIO_CFG_PARAM i mode) s =
      Val ((GPIO_SUCCESS, GPIO_CFG_PARAM i mode), with_world s w) /\
    gpio_config i mode (ext (world s)) = Val (tt, w) /\
    assigns (gpio_cfg_addr i) (fun _ => v) (gsoft (ext (world s))) (gsoft w).
Proof using Type.
  intros Hb Hs Hi Hmode Hm. destruct (config_runs (hw := W) i mode v Hi Hm (ext (world s))) as (w & E & R).
  exists w. split_and!; [|done|done]. apply gpio_command; [done..|]. unfold gpio_ctrl_regs. rewrite Z.eqb_refl.
  mstep by reflexivity. assert (Hp : GPIO_CFG_PARAM_DEMUX_ID (GPIO_CFG_PARAM i mode) = i /\ GPIO_CFG_PARAM_DEMUX_MODE (GPIO_CFG_PARAM i mode) = mode).
  { unfold GPIO_CFG_PARAM_DEMUX_ID, GPIO_CFG_PARAM_DEMUX_MODE, GPIO_CFG_PARAM, GPIONUM, u32 in *.
    change 0xff with (Z.ones 8). rewrite !Z.land_ones, Z.shiftl_mul_pow2, Z.shiftr_div_pow2 by lia.
    change (2 ^ 8) with 256. rewrite (Z.mod_small mode) by lia. rewrite (Z.mod_small (i + mode * 256)) by lia.
    split; Z.to_euclidean_division_equations; lia. }
  destruct Hp as [-> ->]. by mstep by exact E.
Qed.
End pins.

(** ** The pins under variables of drivers

    Assigning variables keeps the registers of the pins; what lies outside them
    does not matter. *)
Definition gview {W} `{RegBus W, !GpioRegs W} (w : W) (b : Z) : Z := if in_gpio b then gsoft w b else 0.

Section view.
Context {W : Type} `{RegBus W, !GpioRegs W}.
Implicit Types w : W.

Lemma func_reg_in i : 0 <= i < GPIONUM -> in_gpio (func_reg i) = true.
Proof. apply func_reg_facts. Qed.

Lemma pins_set_view P v pm w w1 w2 : pins_set P v pm (gsoft w) (gsoft w1) ->
  (forall b, in_gpio b = true -> gsoft w2 b = gsoft w1 b) -> pins_set P v pm (gview w) (gview w2).
Proof using Type.
  intros [Q1 Q2 Q3] Hs. unfold gview. split.
  - intros i Hi. destruct (cfg_addr_facts i Hi) as [Ha _]. rewrite Ha, Hs by done. by apply Q1.
  - intros i Hi. pose proof (func_reg_in i Hi) as Ha. specialize (Q2 i Hi). unfold pin_function in *. by rewrite Ha, Hs.
  - intros b Hb. destruct (in_gpio b) eqn:E; [|done]. rewrite Hs by done. by apply Q3.
Qed.
End view.
