(* ===== verification/Timer.v ===== *)
(** * The timers (driver/pwm/bk_timer.c, components/user_driver/BkDriverTimer.c)

    Six timers in two groups of three, on a clock of 26 MHz and on one of
    32 kHz; a group has one control register with the enable bits, the divider
    and the interrupt bits, and a way to read a counter.  What accesses the
    registers and the table of handlers runs on any state that has them
    ([RegBus], [Holds]); what goes through the registry runs on the whole stack.
    Masking interrupts makes each access sequence one step. *)
From stdpp Require Import strings.
From S2P Require Import Prelude Serve DrvModel Icu Regs Intc Stack.
Local Open Scope Z_scope.

Definition PWM_NEW_BASE : Z := 0x00802A00.
Definition TIMER0_2_CTL : Z := PWM_NEW_BASE + 3 * 4.
Definition TIMERCTLA_CLKDIV_POSI : Z := 3.
Definition TIMERCTLA_CLKDIV_MASK : Z := 0x07.
Definition TIMERCTLA_INT_POSI : Z := 7.
Definition REG_TIMERCTLA_PERIOD_ADDR (n : Z) : Z := PWM_NEW_BASE + 0x04 * n.
Definition TIMER0_2_READ_CTL : Z := PWM_NEW_BASE + 4 * 4.
Definition TIMER0_2_READ_VALUE : Z := PWM_NEW_BASE + 5 * 4.
Definition TIMER3_CNT : Z := PWM_NEW_BASE + 0x10 * 4.
Definition TIMER3_5_CTL : Z := PWM_NEW_BASE + 0x13 * 4.
Definition TIMERCTLB_CLKDIV_POSI : Z := 3.
Definition TIMERCTLB_CLKDIV_MASK : Z := 0x07.
Definition TIMERCTLB_INT_POSI : Z := 7.
Definition REG_TIMERCTLB_PERIOD_ADDR (n : Z) : Z := PWM_NEW_BASE + 0x10 * 4 + 0x04 * (n - 3).
Definition TIMER3_5_READ_CTL : Z := PWM_NEW_BASE + 0x14 * 4.
Definition TIMER_READ_INDEX_POSI : Z := 2.
Definition TIMER_READ_INDEX_MASK : Z := 0x3.
Definition TIMER3_5_READ_INDEX_3 : Z := 0.
Definition TIMER3_5_READ_INDEX_4 : Z := 1.
Definition TIMER3_5_READ_INDEX_5 : Z := 2.
Definition TIMER3_5_READ_VALUE : Z := PWM_NEW_BASE + 0x15 * 4.
Definition TIMER_CHANNEL_NO : Z := 6.

(** bk_timer_pub.h, intc_pub.h, icu_pub.h *)
Definition TIMER_DEV_NAME : string := "bk_timer".
Definition BK_TIMER_FAILURE : Z := 1.
Definition BK_TIMER_SUCCESS : Z := 0.
Definition TIMER_CMD_MAGIC : Z := 0xe340000.
Definition CMD_TIMER_UNIT_ENABLE : Z := TIMER_CMD_MAGIC + 1.
Definition CMD_TIMER_UNIT_DISABLE : Z := TIMER_CMD_MAGIC + 2.
Definition CMD_TIMER_INIT_PARAM : Z := TIMER_CMD_MAGIC + 3.
Definition CMD_TIMER_INIT_PARAM_US : Z := TIMER_CMD_MAGIC + 4.
Definition CMD_TIMER_READ_CNT : Z := TIMER_CMD_MAGIC + 5.
Definition BKTIMER2 : Z := 2.
Definition IRQ_TIMER : Z := 8.
Definition PRI_IRQ_TIMER : Z := 18.
Definition PWD_TIMER_32K_CLK_BIT : Z := Z.shiftl 1 21.
Definition PWD_TIMER_26M_CLK_BIT : Z := Z.shiftl 1 20.

(** A handler is an address, 0 the null pointer. *)
Record timer_param_t := TimerParam { tp_channel : Z; tp_div : Z; tp_period : Z; t_Int_Handler : Z }.

(** What the [void *] of a control command points to. *)
Inductive timer_parm :=
  | TNull
  | TWord (w : Z)
  | TParam (p : timer_param_t).

Record timer_vars := TimerVars { p_TIMER_Int_Handler : list Z }.
Definition timer_start : timer_vars := TimerVars (replicate (Z.to_nat TIMER_CHANNEL_NO) 0).

(** The products are of 32-bit integers; the 64-bit variable gets the quotient. *)
Definition bk_timer_cal_endvalue (ucChannel time_ms div : Z) : Z :=
  let div := if div =? 0 then 1 else div in
  let value := if ucChannel <? 3 then u32 (time_ms * 26000) / div else u32 (time_ms * 32) / div in
  if 0xffffffff <? value then 0xffffffff else value.
Definition bk_timer_cal_endvalue_us (ucChannel time_us div : Z) : Z :=
  let div := if div =? 0 then 1 else div in
  let value := u32 (time_us * 26) / div in
  if 0xffffffff <? value then 0xffffffff else value.

(** The registers of a timer and its place in its group. *)
Definition timer_ctl (ch : Z) : Z := if ch <? 3 then TIMER0_2_CTL else TIMER3_5_CTL.
Definition timer_bit (ch : Z) : Z := if ch <? 3 then ch else ch - 3.
Definition timer_period (ch : Z) : Z := if ch <? 3 then REG_TIMERCTLA_PERIOD_ADDR ch else REG_TIMERCTLB_PERIOD_ADDR ch.

Section regs.
Context {S : Type} `{RegBus S}.

Definition timer_unit_enable (ucChannel : Z) : M S unit :=
  value ← REG_READ (timer_ctl ucChannel);
  let value := Z.lor value (u32 (Z.shiftl 1 (timer_bit ucChannel))) in
  let value := Z.ldiff value (Z.shiftl 0x7 TIMERCTLB_INT_POSI) in
  let value := Z.lor value (u32 (Z.shiftl 0x1 (TIMERCTLB_INT_POSI + timer_bit ucChannel))) in
  REG_WRITE (timer_ctl ucChannel) value.

Definition timer_unit_disable (ucChannel : Z) : M S unit :=
  value ← REG_READ (timer_ctl ucChannel);
  let value := Z.ldiff value (Z.shiftl 0x7 TIMERCTLB_INT_POSI) in
  let value := Z.ldiff value (u32 (Z.shiftl 1 (timer_bit ucChannel))) in
  let value := Z.lor value (u32 (Z.shiftl 0x1 (TIMERCTLB_INT_POSI + timer_bit ucChannel))) in
  REG_WRITE (timer_ctl ucChannel) value.

(** The registers of [init_timer_param] after the clock is powered; a divider
    of 0 makes the shifted number -1, whose bits above the field stay set. *)
Definition timer_configure (ucChannel endvalue div : Z) : M S unit :=
  REG_WRITE (timer_period ucChannel) endvalue;;
  value ← REG_READ (timer_ctl ucChannel);
  let value := Z.ldiff value (Z.shiftl TIMERCTLA_CLKDIV_MASK TIMERCTLA_CLKDIV_POSI) in
  let value := Z.lor value (u32 (Z.shiftl (div - 1) TIMERCTLA_CLKDIV_POSI)) in
  let value := Z.lor value (u32 (Z.shiftl 1 (timer_bit ucChannel))) in
  REG_WRITE (timer_ctl ucChannel) value.

(** [while (REG_READ(r) & 1)] with its count: whether it gave up. *)
Fixpoint wait_count (fuel : nat) (r i_time_out : Z) : M S bool :=
  match fuel with
  | O => fail NoFuel
  | Datatypes.S fuel' =>
    v ← REG_READ r;
    if truthy (Z.land v 1) then
      let i_time_out := i_time_out + 1 in
      if 120 * 1000 <? i_time_out then mret true else wait_count fuel' r i_time_out
    else mret false
  end.

(** Reading the counter of the group: [None] after the time-out. *)
Definition timer_read_count (channel read_ctl read_value : Z) : M S (option Z) :=
  REG_WRITE read_ctl (Z.lor (Z.shiftl channel 2) 1);;
  timed_out ← wait_count (Z.to_nat (120 * 1000 + 1)) read_ctl 0;
  if (timed_out : bool) then mret None else v ← REG_READ read_value; mret (Some v).

Definition timer_read_cnt (p : timer_param_t) : M S (Z * timer_parm) :=
  let result r := match r with
    | Some v => (BK_TIMER_SUCCESS, TParam (TimerParam (tp_channel p) (tp_div p) v (t_Int_Handler p)))
    | None => (BK_TIMER_FAILURE, TParam p)
    end in
  if tp_channel p <? 3 then r ← timer_read_count (tp_channel p) TIMER0_2_READ_CTL TIMER0_2_READ_VALUE; mret (result r)
  else if tp_channel p <? 6 then r ← timer_read_count (tp_channel p) TIMER3_5_READ_CTL TIMER3_5_READ_VALUE; mret (result r)
  else mret (BK_TIMER_SUCCESS, TParam p).

(** [*(UINT32 * )param]: the word of a channel; the padding of a structure
    would be read with it. *)
Definition tderef (param : timer_parm) : M S Z :=
  match param with TWord w => mret w | _ => fail BadAccess end.
Definition tparam (param : timer_parm) : M S timer_param_t :=
  match param with TParam p => mret p | _ => fail BadAccess end.
End regs.

(** ** The interrupt routine *)
Section isr.
Context {S : Type} `{RegBus S, !Holds timer_vars S}.
(** [p_TIMER_Int_Handler[i](channel)]: the address called, and the channel. *)
Context (call_handler : Z -> Z -> M S unit) (fuel : nat).

Definition timer_handler (i : Z) : M S Z :=
  l ← gets p_TIMER_Int_Handler; lift_res (of_option BadAccess (zlookup l i)).
(** [p_TIMER_Int_Handler[i] = h]: the callers have compared the index. *)
Definition set_timer_handler (i h : Z) : M S unit :=
  sets (fun v => TimerVars (<[Z.to_nat i := h]> (p_TIMER_Int_Handler v))).

(** [do REG_WRITE(r, (REG_READ(r) & ~(7 << 7)) | status); while (REG_READ(r) & status & (7 << 7));] *)
Fixpoint timer_ack (n : nat) (r status : Z) : M S unit :=
  match n with
  | O => fail NoFuel
  | Datatypes.S n' =>
    v ← REG_READ r;
    REG_WRITE r (Z.lor (Z.ldiff v (Z.shiftl 0x7 TIMERCTLA_INT_POSI)) status);;
    v ← REG_READ r;
    if truthy (Z.land (Z.land v status) (Z.shiftl 0x7 TIMERCTLA_INT_POSI)) then timer_ack n' r status else mret tt
  end.

Definition timer_isr_group (r base : Z) : M S unit :=
  v ← REG_READ r;
  let status := Z.land v (Z.shiftl 0x7 TIMERCTLA_INT_POSI) in
  serve_bits timer_handler call_handler 3 0 TIMERCTLA_INT_POSI base status;;
  timer_ack fuel r status.

Definition bk_timer_isr : M S unit :=
  timer_isr_group TIMER0_2_CTL 0;;
  timer_isr_group TIMER3_5_CTL 3.
End isr.

(** ** Over the registry and the interrupt table *)
Section system.
Context {W : Type} `{RegBus W, !Holds timer_vars W} (fuel : nat).
Abbreviation all := (drv_state (intc_st W)).
Context (sdev_ops : Z -> SDD_OPERATIONS (intc_st W)).
(** The addresses of [bk_timer_op] and [bk_timer_isr]. *)
Context (bk_timer_op bk_timer_isr_addr : Z).

Definition init_timer_param (timer_param : timer_parm) : M all Z :=
  p ← tparam timer_param;
  let ucChannel := tp_channel p in
  if 5 <? ucChannel then mret BK_TIMER_FAILURE
  else
    at_ext (set_timer_handler ucChannel (t_Int_Handler p));;
    _ ← sddev_control sdev_ops (Some ICU_DEV_NAME) CMD_CLK_PWR_UP
      (if ucChannel <? 3 then PWD_TIMER_26M_CLK_BIT else PWD_TIMER_32K_CLK_BIT);
    at_ext (timer_configure ucChannel (bk_timer_cal_endvalue ucChannel (tp_period p) (tp_div p)) (tp_div p));;
    intc_enable sdev_ops IRQ_TIMER;;
    mret BK_TIMER_SUCCESS.

Definition init_timer_param_us (timer_param : timer_parm) : M all Z :=
  p ← tparam timer_param;
  let ucChannel := tp_channel p in
  if 2 <? ucChannel then mret BK_TIMER_FAILURE
  else
    at_ext (set_timer_handler ucChannel (t_Int_Handler p));;
    _ ← sddev_control sdev_ops (Some ICU_DEV_NAME) CMD_CLK_PWR_UP PWD_TIMER_26M_CLK_BIT;
    at_ext (timer_configure ucChannel (bk_timer_cal_endvalue_us ucChannel (tp_period p) (tp_div p)) (tp_div p));;
    intc_enable sdev_ops IRQ_TIMER;;
    mret BK_TIMER_SUCCESS.

(** The result, and what the parameter points to afterwards. *)
Definition bk_timer_ctrl (cmd : Z) (param : timer_parm) : M all (Z * timer_parm) :=
  if cmd =? CMD_TIMER_UNIT_ENABLE then
    ucChannel ← tderef param;
    if 5 <? ucChannel then mret (BK_TIMER_FAILURE, param)
    else at_ext (timer_unit_enable ucChannel);; mret (BK_TIMER_SUCCESS, param)
  else if cmd =? CMD_TIMER_UNIT_DISABLE then
    ucChannel ← tderef param;
    if 5 <? ucChannel then mret (BK_TIMER_FAILURE, param)
    else at_ext (timer_unit_disable ucChannel);; mret (BK_TIMER_SUCCESS, param)
  else if cmd =? CMD_TIMER_INIT_PARAM then ret ← init_timer_param param; mret (ret, param)
  else if cmd =? CMD_TIMER_INIT_PARAM_US then ret ← init_timer_param_us param; mret (ret, param)
  else if cmd =? CMD_TIMER_READ_CNT then p ← tparam param; at_ext (timer_read_cnt p)
  else mret (BK_TIMER_FAILURE, param).

Definition bk_timer_init : M all unit :=
  at_ext (
    value ← REG_READ TIMER0_2_CTL;
    REG_WRITE TIMER0_2_CTL (Z.ldiff (Z.ldiff value 0x7) (Z.shiftl 0x7 TIMERCTLB_INT_POSI));;
    value ← REG_READ TIMER3_5_CTL;
    REG_WRITE TIMER3_5_CTL (Z.ldiff (Z.ldiff value 0x7) (Z.shiftl 0x7 TIMERCTLB_INT_POSI)));;
  call (intc_service_register fuel IRQ_TIMER PRI_IRQ_TIMER bk_timer_isr_addr);;
  _ ← sddev_register_dev (Some TIMER_DEV_NAME) (Some bk_timer_op);
  mret tt.

Definition bk_timer_exit : M all unit := _ ← sddev_unregister_dev (Some TIMER_DEV_NAME); mret tt.

(** ** The calls of applications *)
Definition timer_control : Z -> timer_parm -> M all (Z * timer_parm) := dev_control TIMER_DEV_NAME bk_timer_op bk_timer_ctrl.

Definition kNoErr : Z := 0.

Definition timer_begin (cmd timer_id time callback : Z) : M all Z :=
  r ← timer_control cmd (TParam (TimerParam timer_id 1 time callback));
  assert (BK_TIMER_SUCCESS =? r.1);;
  r ← timer_control CMD_TIMER_UNIT_ENABLE (TWord timer_id);
  assert (BK_TIMER_SUCCESS =? r.1);;
  mret kNoErr.

Definition bk_timer_initialize (timer_id time_ms callback : Z) : M all Z := timer_begin CMD_TIMER_INIT_PARAM timer_id time_ms callback.
Definition bk_timer_initialize_us (timer_id time_us callback : Z) : M all Z :=
  timer_begin CMD_TIMER_INIT_PARAM_US timer_id time_us callback.

(** [junk]: what the stack holds in the members that are not set. *)
Definition bk_get_timer_cnt (junk : timer_param_t) (timer_id : Z) : M all Z :=
  r ← timer_control CMD_TIMER_READ_CNT (TParam (TimerParam timer_id (tp_div junk) (tp_period junk) (t_Int_Handler junk)));
  match r with
  | (ret, TParam p) => mret (if negb (ret =? BK_TIMER_SUCCESS) then 0xFFFFFFFF else tp_period p)
  | _ => fail BadAccess
  end.

Definition bk_timer_stop (timer_id : Z) : M all Z :=
  r ← timer_control CMD_TIMER_UNIT_DISABLE (TWord timer_id);
  assert (BK_TIMER_SUCCESS =? r.1);;
  mret kNoErr.
End system.
