(* ===== verification/Pwm.v ===== *)
(** * Pulse-width modulation (driver/pwm/pwm.c, components/user_driver/BkDriverPwm.c)

    Six channels with one control register of four bits each: enable, interrupt
    enable and a mode (wave, timer, capture of an edge).  A channel that is not a
    timer takes a pin through the driver of the pins, and every channel its clock
    through the interrupt unit.  What accesses the registers and the table of
    handlers runs on any state that has them; what goes through the registry runs
    on the whole stack. *)
From stdpp Require Import strings.
From S2P Require Import Prelude Serve DrvModel Icu Regs Intc Stack Gpio Timer.
Local Open Scope Z_scope.

Definition PWM_BASE : Z := PWM_NEW_BASE + 0x20 * 4.
Definition PWM_CTL : Z := PWM_BASE + 0 * 4.
Definition PWM_INTERRUPT_STATUS : Z := PWM_BASE + 1 * 4.
Definition REG_APB_BK_PWMn_END_ADDR (n : Z) : Z := PWM_BASE + 0x08 + 3 * 0x04 * n.
Definition REG_APB_BK_PWMn_DC_ADDR (n : Z) : Z := PWM_BASE + 0x0C + 3 * 0x04 * n.
Definition REG_APB_BK_PWMn_CAP_ADDR (n : Z) : Z := PWM_BASE + 0x10 + 3 * 0x04 * n.
Definition CHANNEL_NO : Z := 6.

(** pwm_pub.h, icu_pub.h, intc_pub.h *)
Definition PWM_FAILURE : Z := 1.
Definition PWM_SUCCESS : Z := 0.
Definition PWM_DEV_NAME : string := "pwm".
Definition PWM_CMD_MAGIC : Z := 0xe230000.
Definition CMD_PWM_UNIT_ENABLE : Z := PWM_CMD_MAGIC + 1.
Definition CMD_PWM_UNIT_DISABLE : Z := PWM_CMD_MAGIC + 2.
Definition CMD_PWM_IR_ENABLE : Z := PWM_CMD_MAGIC + 3.
Definition CMD_PWM_IR_DISABLE : Z := PWM_CMD_MAGIC + 4.
Definition CMD_PWM_IR_CLEAR : Z := PWM_CMD_MAGIC + 5.
Definition CMD_PWM_INIT_PARAM : Z := PWM_CMD_MAGIC + 6.
Definition CMD_PWM_SET_DUTY_CYCLE : Z := PWM_CMD_MAGIC + 7.
Definition CMD_PWM_SET_END_VALUE : Z := PWM_CMD_MAGIC + 8.
Definition CMD_PWM_CAP_GET : Z := PWM_CMD_MAGIC + 9.
Definition CMD_PWM_DEINIT_PARAM : Z := PWM_CMD_MAGIC + 10.
Definition PWM0 : Z := 0.
Definition PWM1 : Z := 1.
Definition PWM2 : Z := 2.
Definition PWM3 : Z := 3.
Definition PWM4 : Z := 4.
Definition PWM5 : Z := 5.
Definition PWM_COUNT : Z := 6.
Definition PWM_ENABLE : Z := 1.
Definition PWM_INT_EN : Z := 1.
Definition PWM_INT_DIS : Z := 0.
Definition PWM_PWM_MODE : Z := 0.
Definition PWM_TIMER_MODE : Z := 1.
Definition PWM_CAP_POS_MODE : Z := 2.
Definition PWM_CAP_NEG_MODE : Z := 3.
Definition PWM_CLK_32K : Z := 0.
Definition PWM_CLK_26M : Z := 1.
Definition IRQ_PWM : Z := 9.
Definition PRI_IRQ_PWM : Z := 17.
Definition IRQ_PWM_BIT : Z := Z.shiftl 1 9.
Definition PWD_PWM0_CLK_BIT : Z := Z.shiftl 1 9.
Definition PWD_PWM1_CLK_BIT : Z := Z.shiftl 1 10.
Definition PWD_PWM2_CLK_BIT : Z := Z.shiftl 1 11.
Definition PWD_PWM3_CLK_BIT : Z := Z.shiftl 1 12.
Definition PWD_PWM4_CLK_BIT : Z := Z.shiftl 1 13.
Definition PWD_PWM5_CLK_BIT : Z := Z.shiftl 1 14.

(** The bit fields of [cfg], and its value as a byte. *)
Record pwm_cfg := PwmCfg { c_en : Z; c_int_en : Z; c_mode : Z; c_clk : Z; c_rsv : Z }.
Definition cfg_val (c : pwm_cfg) : Z :=
  Z.lor (c_en c) (Z.lor (Z.shiftl (c_int_en c) 1) (Z.lor (Z.shiftl (c_mode c) 2) (Z.lor (Z.shiftl (c_clk c) 4) (Z.shiftl (c_rsv c) 6)))).

(** A handler is an address, 0 the null pointer. *)
Record pwm_param_t := PwmParam { pw_channel : Z; pw_cfg : pwm_cfg; pw_end_value : Z; pw_duty_cycle : Z; pw_Int_Handler : Z }.
Record pwm_capture_t := PwmCapture { ca_channel : Z; ca_value : Z }.

(** What the [void *] of a control command points to. *)
Inductive pwm_parm :=
  | PNull
  | PWord (w : Z)
  | PParam (p : pwm_param_t)
  | PCapture (c : pwm_capture_t).

Record pwm_vars := PwmVars { p_PWM_Int_Handler : list Z }.
Definition pwm_start : pwm_vars := PwmVars (replicate (Z.to_nat CHANNEL_NO) 0).

(** The switches of [pwm_gpio_configuration] and [pwm_icu_configuration]; their
    variable is not set for another channel. *)
Definition pwm_function (chan : Z) : option Z :=
  if chan =? PWM0 then Some GFUNC_MODE_PWM0 else if chan =? PWM1 then Some GFUNC_MODE_PWM1
  else if chan =? PWM2 then Some GFUNC_MODE_PWM2 else if chan =? PWM3 then Some GFUNC_MODE_PWM3
  else if chan =? PWM4 then Some GFUNC_MODE_PWM4 else if chan =? PWM5 then Some GFUNC_MODE_PWM5 else None.
Definition pwm_power (channel : Z) : option Z :=
  if channel =? PWM0 then Some PWD_PWM0_CLK_BIT else if channel =? PWM1 then Some PWD_PWM1_CLK_BIT
  else if channel =? PWM2 then Some PWD_PWM2_CLK_BIT else if channel =? PWM3 then Some PWD_PWM3_CLK_BIT
  else if channel =? PWM4 then Some PWD_PWM4_CLK_BIT else if channel =? PWM5 then Some PWD_PWM5_CLK_BIT else None.

Section regs.
Context {S : Type} `{RegBus S}.

(** [value = REG_READ(PWM_CTL); value |= bits << (ch * 4); REG_WRITE(PWM_CTL, value);] and its inverse. *)
Definition ctl_set (bits ucChannel : Z) : M S unit :=
  value ← REG_READ PWM_CTL; REG_WRITE PWM_CTL (Z.lor value (Z.shiftl bits (ucChannel * 4))).
Definition ctl_clear (bits ucChannel : Z) : M S unit :=
  value ← REG_READ PWM_CTL; REG_WRITE PWM_CTL (Z.ldiff value (Z.shiftl bits (ucChannel * 4))).

(** A [UINT16]. *)
Definition pwm_capture_value_get (ucChannel : Z) : M S Z := v ← REG_READ (REG_APB_BK_PWMn_CAP_ADDR ucChannel); mret (u16 v).
Definition pwm_set_duty_cycle (ucChannel u32DutyCycle : Z) : M S unit := REG_WRITE (REG_APB_BK_PWMn_DC_ADDR ucChannel) u32DutyCycle.
Definition pwm_set_end_value (ucChannel u32EndValue : Z) : M S unit := REG_WRITE (REG_APB_BK_PWMn_END_ADDR ucChannel) u32EndValue.

(** [pwm_ctrl], CMD_PWM_UNIT_DISABLE *)
Definition pwm_unit_off (ucChannel : Z) : M S unit :=
  ctl_clear 3 ucChannel;; pwm_set_end_value ucChannel 0;; pwm_set_duty_cycle ucChannel 0.

(** [init_pwm_param]: the mode, the end and the duty cycle, before the handler. *)
Definition pwm_wave (p : pwm_param_t) : M S unit :=
  value ← REG_READ PWM_CTL;
  REG_WRITE PWM_CTL (Z.lor (Z.ldiff value (Z.shiftl 0x03 (0x04 * pw_channel p + 2))) (Z.shiftl (c_mode (pw_cfg p)) (0x04 * pw_channel p + 2)));;
  REG_WRITE (REG_APB_BK_PWMn_END_ADDR (pw_channel p)) (pw_end_value p);;
  REG_WRITE (REG_APB_BK_PWMn_DC_ADDR (pw_channel p)) (pw_duty_cycle p).
(** ... and the four bits of the channel, after it. *)
Definition pwm_switch (p : pwm_param_t) : M S unit :=
  value ← REG_READ PWM_CTL;
  REG_WRITE PWM_CTL (Z.lor (Z.ldiff value (Z.shiftl 0x0F (0x04 * pw_channel p)))
    (Z.shiftl (Z.land (cfg_val (pw_cfg p)) 0x0F) (0x04 * pw_channel p))).

(** [*(UINT32 * )param], and the structures. *)
Definition pderef (param : pwm_parm) : M S Z := match param with PWord w => mret w | _ => fail BadAccess end.
Definition pparam (param : pwm_parm) : M S pwm_param_t := match param with PParam p => mret p | _ => fail BadAccess end.
Definition pcapture (param : pwm_parm) : M S pwm_capture_t := match param with PCapture c => mret c | _ => fail BadAccess end.
End regs.

(** ** The interrupt routine *)
Section isr.
Context {S : Type} `{RegBus S, !Holds pwm_vars S}.
(** [p_PWM_Int_Handler[i](channel)]: the address called, and the channel. *)
Context (call_handler : Z -> Z -> M S unit) (fuel : nat).

Definition pwm_handler (i : Z) : M S Z :=
  l ← gets p_PWM_Int_Handler; lift_res (of_option BadAccess (zlookup l i)).
(** [p_PWM_Int_Handler[i] = h]: the callers have compared the index. *)
Definition set_pwm_handler (i h : Z) : M S unit := sets (fun v => PwmVars (<[Z.to_nat i := h]> (p_PWM_Int_Handler v))).
Definition pwm_int_handler_clear (ucChannel : Z) : M S unit := set_pwm_handler ucChannel 0.

(** [do REG_WRITE(PWM_INTERRUPT_STATUS, bits); while (REG_READ(PWM_INTERRUPT_STATUS) & mask);] *)
Fixpoint pwm_ack (n : nat) (bits mask : Z) : M S unit :=
  match n with
  | O => fail NoFuel
  | Datatypes.S n' =>
    REG_WRITE PWM_INTERRUPT_STATUS bits;;
    v ← REG_READ PWM_INTERRUPT_STATUS;
    if truthy (Z.land v mask) then pwm_ack n' bits mask else mret tt
  end.

(** A handler that is set is called, and the bit of its channel cleared. *)
Definition pwm_serve (h i : Z) : M S unit := call_handler h i;; pwm_ack fuel (Z.shiftl 1 i) (Z.shiftl 1 i).

Definition pwm_isr : M S unit :=
  status ← REG_READ PWM_INTERRUPT_STATUS;
  serve_bits pwm_handler pwm_serve (Z.to_nat CHANNEL_NO) 0 0 0 status;;
  pwm_ack fuel status (Z.land status 0x3F).
End isr.

(** ** Over the registry and the interrupt table *)
Section system.
Context {W : Type} `{RegBus W, !Holds pwm_vars W} (fuel : nat).
Abbreviation all := (drv_state (intc_st W)).
Context (sdev_ops : Z -> SDD_OPERATIONS (intc_st W)).
(** The addresses of [pwm_op] and [pwm_isr]. *)
Context (pwm_op pwm_isr_addr : Z).

Definition pwm_gpio_configuration (chan enable : Z) : M all unit :=
  param ← lift_res (of_option BadAccess (pwm_function chan));
  ret ← (if truthy enable then sddev_control sdev_ops (Some GPIO_DEV_NAME) CMD_GPIO_ENABLE_SECOND param
         else sddev_control sdev_ops (Some GPIO_DEV_NAME) CMD_GPIO_CFG (GPIO_CFG_PARAM param GMODE_INPUT));
  assert (GPIO_SUCCESS =? ret.1).

(** [ASSERT(ICU_SUCCESS == sddev_control(ICU_DEV_NAME, cmd, &param));] *)
Definition icu_sure (cmd param : Z) : M all unit :=
  ret ← sddev_control sdev_ops (Some ICU_DEV_NAME) cmd param; assert (ICU_SUCCESS =? ret.1).

Definition pwm_icu_configuration (p : pwm_param_t) (enable : Z) : M all unit :=
  match pwm_power (pw_channel p) with
  | None => mret tt
  | Some param =>
    (if truthy enable then
       icu_sure CMD_CLK_PWR_UP param;;
       icu_sure (if PWM_CLK_32K =? c_clk (pw_cfg p) then CMD_CONF_PWM_LPOCLK else CMD_CONF_PWM_PCLK) (pw_channel p)
     else icu_sure CMD_CLK_PWR_DOWN param);;
    when (PWM_INT_EN =? c_int_en (pw_cfg p)) (
      _ ← sddev_control sdev_ops (Some ICU_DEV_NAME) CMD_ICU_INT_ENABLE IRQ_PWM_BIT; mret tt)
  end.

Definition init_pwm_param (pwm_param : pwm_parm) (enable : Z) : M all unit :=
  match pwm_param with
  | PNull => mret tt
  | _ =>
    p ← pparam pwm_param;
    if (PWM_COUNT <=? pw_channel p) || (pw_end_value p <? pw_duty_cycle p) then mret tt
    else
      when (negb (c_mode (pw_cfg p) =? PWM_TIMER_MODE)) (pwm_gpio_configuration (pw_channel p) enable);;
      at_ext (pwm_wave p;; set_pwm_handler (pw_channel p) (pw_Int_Handler p);; pwm_switch p);;
      pwm_icu_configuration p enable
  end.

Definition pwm_init : M all unit :=
  at_ext (REG_WRITE PWM_CTL 0x0);;
  call (intc_service_register fuel IRQ_PWM PRI_IRQ_PWM pwm_isr_addr);;
  _ ← sddev_register_dev (Some PWM_DEV_NAME) (Some pwm_op);
  mret tt.
Definition pwm_exit : M all unit := _ ← sddev_unregister_dev (Some PWM_DEV_NAME); mret tt.

(** A command on a channel, by its number. *)
Definition on_channel (param : pwm_parm) (f : Z -> M W unit) : M all (Z * pwm_parm) :=
  ucChannel ← pderef param;
  if 5 <? ucChannel then mret (PWM_FAILURE, param) else at_ext (f ucChannel);; mret (PWM_SUCCESS, param).

(** The result, and what the parameter points to afterwards. *)
Definition pwm_ctrl (cmd : Z) (param : pwm_parm) : M all (Z * pwm_parm) :=
  if cmd =? CMD_PWM_UNIT_ENABLE then on_channel param (ctl_set 1)
  else if cmd =? CMD_PWM_UNIT_DISABLE then on_channel param pwm_unit_off
  else if cmd =? CMD_PWM_IR_ENABLE then on_channel param (ctl_set 2)
  else if cmd =? CMD_PWM_IR_DISABLE then on_channel param (ctl_clear 2)
  else if cmd =? CMD_PWM_IR_CLEAR then on_channel param pwm_int_handler_clear
  else if cmd =? CMD_PWM_INIT_PARAM then init_pwm_param param 1;; mret (PWM_SUCCESS, param)
  else if cmd =? CMD_PWM_SET_DUTY_CYCLE then
    p ← pparam param;
    if PWM_COUNT <=? pw_channel p then mret (PWM_FAILURE, param)
    else at_ext (pwm_set_duty_cycle (pw_channel p) (pw_duty_cycle p));; mret (PWM_SUCCESS, param)
  else if cmd =? CMD_PWM_SET_END_VALUE then
    p ← pparam param;
    if PWM_COUNT <=? pw_channel p then mret (PWM_FAILURE, param)
    else at_ext (pwm_set_end_value (pw_channel p) (pw_end_value p));; mret (PWM_SUCCESS, param)
  else if cmd =? CMD_PWM_CAP_GET then
    c ← pcapture param;
    if PWM_COUNT <=? ca_channel c then mret (PWM_FAILURE, param)
    else v ← at_ext (pwm_capture_value_get (u8 (ca_channel c))); mret (PWM_SUCCESS, PCapture (PwmCapture (ca_channel c) v))
  else if cmd =? CMD_PWM_DEINIT_PARAM then init_pwm_param param 0;; mret (PWM_SUCCESS, param)
  else mret (PWM_FAILURE, param).

(** ** The calls of applications

    [rsv]: what the stack holds in the two bits of [cfg] that are not set. *)
Definition pwm_control : Z -> pwm_parm -> M all (Z * pwm_parm) := dev_control PWM_DEV_NAME pwm_op pwm_ctrl.

Definition bk_pwm_initialize (rsv pwm frequency duty_cycle : Z) : M all Z :=
  r ← pwm_control CMD_PWM_INIT_PARAM
    (PParam (PwmParam (u8 pwm) (PwmCfg PWM_INT_DIS PWM_INT_DIS PWM_PWM_MODE PWM_CLK_26M rsv) frequency duty_cycle 0));
  assert (PWM_SUCCESS =? r.1);;
  mret r.1.

Definition cap_mode_of (cap_mode : Z) : Z :=
  if cap_mode =? 0x01 then PWM_CAP_POS_MODE else if cap_mode =? 0x02 then PWM_CAP_NEG_MODE else PWM_PWM_MODE.
Definition bk_pwm_capture_initialize (rsv pwm cap_mode : Z) : M all Z :=
  r ← pwm_control CMD_PWM_INIT_PARAM
    (PParam (PwmParam (u8 pwm) (PwmCfg PWM_INT_EN PWM_INT_EN (cap_mode_of cap_mode) PWM_CLK_26M rsv) 0 0 0));
  assert (PWM_SUCCESS =? u8 r.1);;
  mret kNoErr.

Definition bk_pwm_start (pwm : Z) : M all Z :=
  r ← pwm_control CMD_PWM_UNIT_ENABLE (PWord pwm); assert (PWM_SUCCESS =? r.1);; mret r.1.
Definition bk_pwm_stop (pwm : Z) : M all Z :=
  r ← pwm_control CMD_PWM_UNIT_DISABLE (PWord pwm); assert (PWM_SUCCESS =? r.1);; mret r.1.

Definition bk_pwm_get_capvalue (junk pwm : Z) : M all Z :=
  r ← pwm_control CMD_PWM_CAP_GET (PCapture (PwmCapture pwm junk));
  assert (PWM_SUCCESS =? r.1);;
  match r.2 with PCapture c => mret (ca_value c) | _ => fail BadAccess end.
End system.
