(* ===== verification/PwmCorrect.v ===== *)
(** * Correctness of the pulse-width modulation

    The registers ([pwm_block]); starting and stopping a wave, from the top of
    the stack, with the pin and the clock it takes; what taking a channel out of
    use does to pins; the interrupt routine. *)
From stdpp Require Import strings.
From S2P Require Import Prelude Serve DrvModel Icu Regs Intc Stack Gpio GpioCorrect GpioStack Timer Pwm.
Local Open Scope Z_scope.

(** ** The registers

    The captured values are the unit's; the interrupt bits are set by the unit
    and cleared by writing one. *)
Definition in_pwm (a : Z) : bool := (PWM_BASE <=? a) && (a <=? REG_APB_BK_PWMn_CAP_ADDR 5).
Definition is_capture (a : Z) : bool := (REG_APB_BK_PWMn_CAP_ADDR 0 <=? a) && ((a - REG_APB_BK_PWMn_CAP_ADDR 0) mod 12 =? 0).
Definition pwm_hard (a : Z) : Z := if (a =? PWM_INTERRUPT_STATUS) || is_capture a then 0xFFFFFFFF else 0.
Definition pwm_pending (a : Z) : Z := if a =? PWM_INTERRUPT_STATUS then 0x3F else 0.
Definition pwm_block : block := Block in_pwm pwm_hard pwm_pending.
Abbreviation preg := (breg (B := pwm_block)).
Abbreviation psoft := (Regs.soft pwm_block).
Abbreviation pruns := (Regs.runs pwm_block).

#[export] Instance pwm_block_ok : BlockOk pwm_block.
Proof.
  split; intros a; cbn; unfold pwm_hard, pwm_pending; [by destruct (_ || _)|].
  intros i. destruct (a =? PWM_INTERRUPT_STATUS); cbn [orb]; [|by rewrite Z.bits_0]. intros Hi.
  assert (0 <= i) by (destruct (Z.neg_nonneg_cases i); [by rewrite Z.testbit_neg_r in Hi|done]).
  change 0x3F with (Z.ones 6) in Hi. change 0xFFFFFFFF with (Z.ones 32). rewrite Z.testbit_ones_nonneg in * by lia. lia.
Qed.

Ltac paddr := unfold in_pwm, in_icu, in_gpio, is_capture, pwm_hard, pwm_pending, REG_APB_BK_PWMn_END_ADDR, REG_APB_BK_PWMn_DC_ADDR,
  REG_APB_BK_PWMn_CAP_ADDR, PWM_INTERRUPT_STATUS, PWM_CTL, PWM_BASE, PWM_NEW_BASE in *.
#[export] Instance pwm_apart_icu : Apart in_pwm in_icu.
Proof. intros a. paddr. unfold ICU_ARM_WAKEUP_EN, ICU_BASE. bdestr; lia. Qed.
#[export] Instance icu_apart_pwm : Apart in_icu in_pwm.
Proof. intros a. paddr. unfold ICU_ARM_WAKEUP_EN, ICU_BASE. bdestr; lia. Qed.
#[export] Instance pwm_apart_gpio : Apart in_pwm in_gpio.
Proof. intros a. paddr. unfold GPIO_BASE_ADDR, REG_GPIO_INTSTA2, GPIO_BASE_ADDR. bdestr; lia. Qed.
#[export] Instance gpio_apart_pwm : Apart in_gpio in_pwm.
Proof. intros a. paddr. unfold GPIO_BASE_ADDR, REG_GPIO_INTSTA2, GPIO_BASE_ADDR. bdestr; lia. Qed.

(** Where a channel is. *)
Lemma channel_place ch : 0 <= ch < 6 ->
  (in_pwm (REG_APB_BK_PWMn_END_ADDR ch) = true /\ pwm_hard (REG_APB_BK_PWMn_END_ADDR ch) = 0) /\
  (in_pwm (REG_APB_BK_PWMn_DC_ADDR ch) = true /\ pwm_hard (REG_APB_BK_PWMn_DC_ADDR ch) = 0) /\
  in_pwm (REG_APB_BK_PWMn_CAP_ADDR ch) = true /\
  REG_APB_BK_PWMn_END_ADDR ch <> PWM_CTL /\ REG_APB_BK_PWMn_DC_ADDR ch <> PWM_CTL /\
  REG_APB_BK_PWMn_END_ADDR ch <> REG_APB_BK_PWMn_DC_ADDR ch.
Proof.
  intros Hc. assert (Hs : ch = 0 \/ ch = 1 \/ ch = 2 \/ ch = 3 \/ ch = 4 \/ ch = 5) by lia.
  repeat (destruct Hs as [->|Hs]; [by vm_compute|]). subst. by vm_compute.
Qed.

(** The masks of a channel: its four bits, and its mode in them. *)
Definition channel_bits (ch : Z) : Z := Z.shiftl 0x0F (0x04 * ch).
Lemma channel_masks ch m : 0 <= ch < 6 -> 0 <= m < 4 ->
  is_u32 (channel_bits ch) /\ is_u32 (Z.shiftl m (0x04 * ch + 2)) /\
  Z.ldiff (Z.shiftl m (0x04 * ch + 2)) (channel_bits ch) = 0 /\ Z.ldiff (Z.shiftl 0x03 (0x04 * ch + 2)) (channel_bits ch) = 0.
Proof.
  intros Hc Hm. assert (Hs : ch = 0 \/ ch = 1 \/ ch = 2 \/ ch = 3 \/ ch = 4 \/ ch = 5) by lia.
  assert (Ht : m = 0 \/ m = 1 \/ m = 2 \/ m = 3) by lia.
  repeat (destruct Hs as [->|Hs] || subst ch); repeat (destruct Ht as [->|Ht] || subst m); by vm_compute.
Qed.
Lemma nibble_u32 ch x : 0 <= ch < 6 -> 0 <= x < 16 -> is_u32 (Z.shiftl x (0x04 * ch)) /\ Z.ldiff (Z.shiftl x (0x04 * ch)) (channel_bits ch) = 0.
Proof.
  intros Hc Hx. unfold is_u32. rewrite Z.shiftl_mul_pow2 by lia.
  assert (2 ^ (4 * ch) <= 2 ^ 20) by (apply Z.pow_le_mono_r; lia). assert (0 < 2 ^ (4 * ch)) by (apply Z.pow_pos_nonneg; lia).
  split; [nia|]. rewrite <- Z.shiftl_mul_pow2 by lia. unfold channel_bits. rewrite <- Z.shiftl_ldiff.
  change 0x0F with (Z.ones 4). rewrite Z.ldiff_ones_r by lia. rewrite Z.shiftr_div_pow2 by lia.
  rewrite Z.div_small by lia. by rewrite !Z.shiftl_0_l.
Qed.

(** The word of the control register with a channel set to [x]. *)
Definition with_channel (ch x : Z) (v : Z) : Z := Z.lor (Z.ldiff v (channel_bits ch)) (Z.shiftl x (0x04 * ch)).

Lemma mode_word_bits x f m c : Z.ldiff m c = 0 -> Z.ldiff f c = 0 -> Z.ldiff (Z.lor (Z.ldiff x f) m) c = Z.ldiff x c.
Proof. intros E1 E2. word_bits. Qed.

(** ** The calls that access the registers *)
Section regs_facts.
Context {hw : Type} `{RegBus hw, !BlockRegs pwm_block hw}.
Implicit Types h : hw.

Lemma ctl_set_runs b ch : 0 <= b < 4 -> 0 <= ch < 6 -> pruns (ctl_set b ch) (assigns PWM_CTL (fun x => Z.lor x (Z.shiftl b (4 * ch)))).
Proof.
  intros Hb Hc. unfold ctl_set. rewrite (Z.mul_comm ch 4). destruct (nibble_u32 ch b Hc ltac:(lia)) as [Hu _].
  apply (runs_rmw (B := pwm_block)); [done|intros x Hx; by apply lor_u32|]. intros x. by rewrite !Z.ldiff_0_r.
Qed.
Lemma ctl_clear_runs b ch : pruns (ctl_clear b ch) (assigns PWM_CTL (fun x => Z.ldiff x (Z.shiftl b (4 * ch)))).
Proof.
  unfold ctl_clear. rewrite (Z.mul_comm ch 4).
  apply (runs_rmw (B := pwm_block)); [done|intros x Hx; by apply ldiff_u32|]. intros x. by rewrite !Z.ldiff_0_r.
Qed.

(** The registers of a wave. *)
Definition wave_regs (ch e d : Z) (k : Z -> Z) (g g' : Z -> Z) : Prop := forall b,
  g' b = if b =? REG_APB_BK_PWMn_DC_ADDR ch then d else if b =? REG_APB_BK_PWMn_END_ADDR ch then e
    else if b =? PWM_CTL then k (g PWM_CTL) else g b.

Lemma end_duty_runs ch e d : 0 <= ch < 6 -> is_u32 e -> is_u32 d ->
  pruns (pwm_set_end_value ch e;; pwm_set_duty_cycle ch d) (wave_regs ch e d id).
Proof.
  intros Hc He Hd. destruct (channel_place ch Hc) as ([Ea Eh] & [Da Dh] & _).
  eapply runs_seq; [by apply (runs_write (B := pwm_block))|by apply (runs_write (B := pwm_block))|].
  intros g g1 g2 R1 R2 b. cbn [b_hard pwm_block] in *. rewrite R2, Dh, Z.ldiff_0_r.
  destruct (b =? REG_APB_BK_PWMn_DC_ADDR ch); [done|]. rewrite R1, Eh, Z.ldiff_0_r.
  destruct (b =? REG_APB_BK_PWMn_END_ADDR ch); [done|]. by destruct (Z.eqb_spec b PWM_CTL) as [->|].
Qed.

Lemma ctl_then_wave m ch e d k : 0 <= ch < 6 -> is_u32 e -> is_u32 d -> pruns m (assigns PWM_CTL k) ->
  pruns (m;; pwm_set_end_value ch e;; pwm_set_duty_cycle ch d) (wave_regs ch e d k).
Proof.
  intros Hc He Hd Hm. destruct (channel_place ch Hc) as (_ & _ & _ & N1 & N2 & N3).
  eapply runs_seq; [exact Hm|by apply end_duty_runs|]. intros g g1 g2 R1 R2 b. rewrite R2, !R1. unfold id.
  destruct (b =? REG_APB_BK_PWMn_DC_ADDR ch); [done|]. destruct (b =? REG_APB_BK_PWMn_END_ADDR ch); [done|].
  rewrite Z.eqb_refl. by destruct (Z.eqb_spec b PWM_CTL).
Qed.

Lemma unit_off_runs ch : 0 <= ch < 6 ->
  pruns (pwm_unit_off ch) (wave_regs ch 0 0 (fun x => Z.ldiff x (Z.shiftl 3 (4 * ch)))).
Proof. intros Hc. apply ctl_then_wave; [done..|]. apply ctl_clear_runs. Qed.

Definition cfg_ok (c : pwm_cfg) : Prop := 0 <= c_mode c < 4.

Lemma wave_runs p : 0 <= pw_channel p < 6 -> is_u32 (pw_end_value p) -> is_u32 (pw_duty_cycle p) -> cfg_ok (pw_cfg p) ->
  exists k, pruns (pwm_wave p) (wave_regs (pw_channel p) (pw_end_value p) (pw_duty_cycle p) k) /\
    forall x, Z.ldiff (k x) (channel_bits (pw_channel p)) = Z.ldiff x (channel_bits (pw_channel p)).
Proof.
  intros Hc He Hd Hm. destruct (channel_masks _ _ Hc Hm) as (U1 & U2 & E1 & E2).
  exists (fun x => Z.lor (Z.ldiff x (Z.shiftl 0x03 (0x04 * pw_channel p + 2))) (Z.shiftl (c_mode (pw_cfg p)) (0x04 * pw_channel p + 2))). split.
  - assert (R := ctl_then_wave (value ← REG_READ PWM_CTL; REG_WRITE PWM_CTL (Z.lor (Z.ldiff value (Z.shiftl 0x03 (0x04 * pw_channel p + 2)))
      (Z.shiftl (c_mode (pw_cfg p)) (0x04 * pw_channel p + 2)))) _ _ _
      (fun x => Z.lor (Z.ldiff x (Z.shiftl 0x03 (0x04 * pw_channel p + 2))) (Z.shiftl (c_mode (pw_cfg p)) (0x04 * pw_channel p + 2))) Hc He Hd).
    intros h. destruct (R ltac:(apply (runs_rmw (B := pwm_block)); [done|intros x Hx; apply lor_u32; [by apply ldiff_u32|done]|intros x; by rewrite !Z.ldiff_0_r]) h)
      as (h' & E & Q). exists h'. split; [|exact Q]. rewrite <- E. unfold pwm_wave. by rewrite bind_assoc.
  - intros x. by apply mode_word_bits.
Qed.

Lemma switch_runs p : 0 <= pw_channel p < 6 ->
  pruns (pwm_switch p) (assigns PWM_CTL (with_channel (pw_channel p) (Z.land (cfg_val (pw_cfg p)) 0x0F))).
Proof.
  intros Hc. assert (Hx : 0 <= Z.land (cfg_val (pw_cfg p)) 0x0F < 16).
  { change 0x0F with (Z.ones 4). rewrite Z.land_ones by lia. apply Z.mod_pos_bound. lia. }
  destruct (nibble_u32 _ _ Hc Hx) as [Hu _].
  apply (runs_rmw (B := pwm_block)); [done|intros x Hi; apply lor_u32; [by apply ldiff_u32|done]|]. intros x. by rewrite !Z.ldiff_0_r.
Qed.
End regs_facts.

(** ** From the top of the stack *)
Section system.
Context {W : Type} `{RegBus W, !IcuRegs W, !GpioRegs W, !BlockRegs pwm_block W, !Holds pwm_vars W, !Quiet pwm_vars W}.
Abbreviation all := (drv_state (intc_st W)).
Context (sdev_ops : Z -> SDD_OPERATIONS (intc_st W)) (icu_addr gpio_addr : Z).
Implicit Types (s : all) (w : W).

Definition pwm_handlers w : list Z := p_PWM_Int_Handler (hget w).
Definition pwm_same w w' : Prop := same (psoft w) (psoft w') /\ pwm_handlers w' = pwm_handlers w.
Definition pins_same w w' : Prop := same (gsoft w) (gsoft w').
Definition icu_same w w' : Prop := forall b, ireg w' b = ireg w b.

(** What accesses to one unit leave as it is. *)
Lemma vars_stay P : respects P (fun w w' => pwm_handlers w' = pwm_handlers w).
Proof using Quiet0.
  pose proof (respects_vars (W := W) pwm_vars P) as [v1 v2 v3 v4]. unfold pwm_handlers.
  split; intros; [done|congruence|by rewrite v3|by rewrite v4].
Qed.
Lemma pwm_stays P `{!Apart P in_pwm} : respects P pwm_same.
Proof using BlockRegs0 Quiet0. exact (respects_and P _ _ (respects_soft (W := W) pwm_block P) (vars_stay P)). Qed.
Lemma pins_stay P `{!Apart P in_gpio} : respects P pins_same.
Proof using GpioRegs0. exact (respects_soft (W := W) gpio_block P). Qed.
Lemma icu_stays P `{!Apart P in_icu} : respects P icu_same.
Proof using IcuRegs0. exact (respects_icu (W := W) P). Qed.

Lemma pwm_touches p : 0 <= pw_channel p < 6 ->
  touches (id : W -> W) in_pwm (pwm_wave p) /\ touches (id : W -> W) in_pwm (pwm_switch p).
Proof using Type.
  intros Hc. destruct (channel_place _ Hc) as ([Ea _] & [Da _] & _). unfold pwm_wave, pwm_switch. split; touch.
Qed.

(** The registers and the handler that [init_pwm_param] sets. *)
Record pwm_set_up (p : pwm_param_t) w w' : Prop := {
  su_regs b : in_pwm b = true -> psoft w' b =
    if b =? REG_APB_BK_PWMn_DC_ADDR (pw_channel p) then pw_duty_cycle p
    else if b =? REG_APB_BK_PWMn_END_ADDR (pw_channel p) then pw_end_value p
    else if b =? PWM_CTL then with_channel (pw_channel p) (Z.land (cfg_val (pw_cfg p)) 0x0F) (psoft w PWM_CTL) else psoft w b;
  su_handlers : pwm_handlers w' = <[Z.to_nat (pw_channel p) := pw_Int_Handler p]> (pwm_handlers w);
}.

Definition param_ok (p : pwm_param_t) : Prop :=
  0 <= pw_channel p < 6 /\ is_u32 (pw_end_value p) /\ 0 <= pw_duty_cycle p <= pw_end_value p /\ cfg_ok (pw_cfg p).

(** The other two units are what they were. *)
Definition beside_pwm w w' : Prop :=
  (forall b, in_gpio b = true -> gsoft w' b = gsoft w b) /\ (forall b, in_icu b = true -> ireg w' b = ireg w b).
#[export] Instance beside_pwm_trans : Transitive beside_pwm.
Proof using Type. intros w1 w2 w3 [A1 B1] [A2 B2]. split; intros b Hb; [by rewrite A2, A1|by rewrite B2, B1]. Qed.

Lemma pwm_beside m w w' : touches (id : W -> W) in_pwm m -> m w = Val (tt, w') -> beside_pwm w w' /\ pwm_handlers w' = pwm_handlers w.
Proof using IcuRegs0 GpioRegs0 Quiet0.
  intros Hm E. pose proof (Hm _ (pins_stay in_pwm) w tt w' E). pose proof (Hm _ (icu_stays in_pwm) w tt w' E).
  pose proof (Hm _ (vars_stay in_pwm) w tt w' E). by split_and!.
Qed.

Lemma set_up_val p w : param_ok p -> exists w',
  (pwm_wave p;; set_pwm_handler (pw_channel p) (pw_Int_Handler p);; pwm_switch p) w = Val (tt, w') /\ pwm_set_up p w w' /\ beside_pwm w w'.
Proof using IcuRegs0 GpioRegs0 BlockRegs0 Quiet0.
  intros (Hc & He & Hd & Hm). destruct (pwm_touches p Hc) as [T1 T3].
  destruct (wave_runs (hw := W) p Hc He ltac:(unfold is_u32 in *; lia) Hm) as (k & R1 & K). destruct (R1 w) as (w1 & E1 & Q1).
  set (w2 := hput (PwmVars (<[Z.to_nat (pw_channel p) := pw_Int_Handler p]> (pwm_handlers w1))) w1).
  destruct (switch_runs (hw := W) p Hc w2) as (w3 & E3 & Q3). exists w3.
  destruct (pwm_beside _ _ _ T1 E1) as [B1 H1], (pwm_beside _ _ _ T3 E3) as [B3 H3]. split_and!.
  - rewrite (bind_ret_val _ _ _ _ _ E1). by mstep by reflexivity.
  - assert (S2 : forall b, in_pwm b = true -> psoft w2 b = psoft w1 b) by (intros b Hb; unfold w2, Regs.soft, soft_of; by rewrite breg_put).
    split.
    + intros b Hb. rewrite Q3, !S2, !Q1 by done. destruct (channel_place _ Hc) as (_ & _ & _ & N1 & N2 & _).
      rewrite (proj2 (Z.eqb_neq PWM_CTL _)), (proj2 (Z.eqb_neq PWM_CTL (REG_APB_BK_PWMn_END_ADDR _))), Z.eqb_refl by done.
      destruct (Z.eqb_spec b PWM_CTL) as [->|]; [|done]. rewrite !(proj2 (Z.eqb_neq PWM_CTL _)) by done. unfold with_channel. by rewrite K.
    + rewrite H3. unfold w2, pwm_handlers at 1. by rewrite hget_put, H1.
  - transitivity w1; [done|]. transitivity w2; [|done].
    split; intros b Hb; [unfold w2, Regs.soft, soft_of; by rewrite breg_put|unfold w2; by rewrite ireg_put].
Qed.

(** *** The clock and the pin of a channel *)
Definition on_world s (m : M all unit) (w : W) : Prop := m s = Val (tt, with_world s w).

Lemma icu_sure_val cmd p s w : icu_behind sdev_ops icu_addr -> sdev_slot (drv_sdev_tbl s) ICU_DEV_NAME icu_addr ->
  icu_ctrl cmd (Some p) (ext (world s)) = Val (ICU_SUCCESS, w) -> on_world s (icu_sure sdev_ops cmd p) w.
Proof using Type.
  intros Hb Hs E. unfold on_world, icu_sure. by rewrite (bind_ret_val _ _ _ _ _ (icu_command _ _ _ _ _ _ _ Hb Hs E)).
Qed.

(** The interrupt unit after a channel was given its clock. *)
Definition clocked (p : pwm_param_t) (power : Z) (g : Z -> Z) (b : Z) : Z :=
  if b =? ICU_PERI_CLK_PWD then Z.ldiff (g b) power
  else if b =? ICU_PWM_CLK_MUX then (if PWM_CLK_32K =? c_clk (pw_cfg p) then Z.lor else Z.ldiff) (g b) (bit_of (pw_channel p))
  else if (b =? ICU_INTERRUPT_ENABLE) && (PWM_INT_EN =? c_int_en (pw_cfg p)) then Z.lor (g b) IRQ_PWM_BIT
  else g b.

Lemma icu_keeps cmd p w r w' : icu_ctrl cmd (Some p) w = Val (r, w') -> pins_same w w' /\ pwm_same w w'.
Proof using GpioRegs0 BlockRegs0 Quiet0.
  intros E. split; [exact (icu_touches _ _ _ (pins_stay in_icu) w r w' E)|exact (icu_touches _ _ _ (pwm_stays in_icu) w r w' E)].
Qed.

Lemma clock_val p power s : icu_behind sdev_ops icu_addr -> sdev_slot (drv_sdev_tbl s) ICU_DEV_NAME icu_addr ->
  pwm_power (pw_channel p) = Some power ->
  exists w, on_world s (pwm_icu_configuration sdev_ops p 1) w /\ same (clocked p power (ireg (ext (world s)))) (ireg w) /\
    pins_same (ext (world s)) w /\ pwm_same (ext (world s)) w.
Proof using GpioRegs0 BlockRegs0 Quiet0.
  intros Hb Hs Hp. unfold pwm_icu_configuration. rewrite Hp. cbn [truthy]. set (w0 := ext (world s)).
  assert (Hclk : (CMD_CLK_PWR_DOWN, CMD_CLK_PWR_UP, ICU_PERI_CLK_PWD) ∈ icu_pairs) by (by apply (list_elem_of_lookup_2 _ 1)).
  assert (Hint : (CMD_ICU_INT_ENABLE, CMD_ICU_INT_DISABLE, ICU_INTERRUPT_ENABLE) ∈ icu_pairs) by (by apply (list_elem_of_lookup_2 _ 4)).
  destruct (proj2 (icu_pair_step _ _ _ power w0 Hclk)) as (w1 & E1 & I1).
  assert (Hmux : exists w2, icu_ctrl (if PWM_CLK_32K =? c_clk (pw_cfg p) then CMD_CONF_PWM_LPOCLK else CMD_CONF_PWM_PCLK) (Some (pw_channel p)) w1 = Val (ICU_SUCCESS, w2) /\
    forall b, ireg w2 b = if b =? ICU_PWM_CLK_MUX then (if PWM_CLK_32K =? c_clk (pw_cfg p) then Z.lor else Z.ldiff) (ireg w1 b) (bit_of (pw_channel p)) else ireg w1 b).
  { destruct (PWM_CLK_32K =? c_clk (pw_cfg p)).
    - destruct (or_bits_val ICU_PWM_CLK_MUX bit_of (pw_channel p) w1) as (w2 & E & I); [done..|]. exists w2. split; [exact E|].
      intros b. rewrite I. by destruct (Z.eqb_spec b ICU_PWM_CLK_MUX) as [->|].
    - destruct (clr_bits_val ICU_PWM_CLK_MUX bit_of (pw_channel p) w1) as (w2 & E & I); [done..|]. exists w2. split; [exact E|].
      intros b. rewrite I. by destruct (Z.eqb_spec b ICU_PWM_CLK_MUX) as [->|]. }
  destruct Hmux as (w2 & E2 & I2). destruct (icu_keeps _ _ _ _ _ E1) as [P1 [Q1 H1]], (icu_keeps _ _ _ _ _ E2) as [P2 [Q2 H2]].
  assert (Hfirst : on_world s (icu_sure sdev_ops CMD_CLK_PWR_UP power;;
    icu_sure sdev_ops (if PWM_CLK_32K =? c_clk (pw_cfg p) then CMD_CONF_PWM_LPOCLK else CMD_CONF_PWM_PCLK) (pw_channel p)) w2).
  { unfold on_world. rewrite (bind_ret_val _ _ _ _ _ (icu_sure_val _ _ s w1 Hb Hs E1)). exact (icu_sure_val _ _ (with_world s w1) w2 Hb Hs E2). }
  assert (I12 : forall b, ireg w2 b = if b =? ICU_PERI_CLK_PWD then Z.ldiff (ireg w0 b) power
    else if b =? ICU_PWM_CLK_MUX then (if PWM_CLK_32K =? c_clk (pw_cfg p) then Z.lor else Z.ldiff) (ireg w0 b) (bit_of (pw_channel p)) else ireg w0 b).
  { intros b. rewrite I2, I1. destruct (Z.eqb_spec b ICU_PERI_CLK_PWD) as [->|]; [done|]. by destruct (b =? ICU_PWM_CLK_MUX). }
  unfold on_world in *. unfold clocked. destruct (PWM_INT_EN =? c_int_en (pw_cfg p)); cbn [when].
  - destruct (proj1 (icu_pair_step _ _ _ IRQ_PWM_BIT w2 Hint)) as (w3 & E3 & I3). destruct (icu_keeps _ _ _ _ _ E3) as [P3 [Q3 H3]].
    exists w3. split_and!.
    + rewrite (bind_ret_val _ _ _ _ _ Hfirst). by mstep by exact (icu_command _ _ _ _ (with_world s w2) _ _ Hb Hs E3).
    + intros b. rewrite I3, !I12. destruct (Z.eqb_spec b ICU_INTERRUPT_ENABLE) as [->|]; [done|]. by rewrite andb_false_l.
    + intros b. by rewrite P3, P2, P1.
    + split; [intros b; by rewrite Q3, Q2, Q1|by rewrite H3, H2, H1].
  - exists w2. split_and!.
    + by rewrite (bind_ret_val _ _ _ _ _ Hfirst).
    + intros b. rewrite I12. by rewrite andb_false_r.
    + intros b. by rewrite P2, P1.
    + split; [intros b; by rewrite Q2, Q1|by rewrite H2, H1].
Qed.

(** The pin of a channel. *)
Definition pwm_pin (ch : Z) : Z := if ch <? 4 then 6 + ch else if ch =? PWM4 then 24 else 26.
Lemma pwm_pin_function ch : 0 <= ch < 6 -> exists m, pwm_function ch = Some m /\
  (m, pins (pwm_pin ch) (pwm_pin ch) PERIAL_MODE_2) ∈ second_functions /\ exists power, pwm_power ch = Some power /\ power = 2 ^ (9 + ch) /\
  m <> GFUNC_MODE_DCMI /\ 0 <= m < GPIONUM /\ (m = pwm_pin ch <-> ch < 4).
Proof using Type.
  intros Hc. assert (Hs : ch = 0 \/ ch = 1 \/ ch = 2 \/ ch = 3 \/ ch = 4 \/ ch = 5) by lia.
  repeat (destruct Hs as [->|Hs] || subst ch); eexists; (split; [reflexivity|]);
    (split; [apply (bool_decide_unpack _); by vm_compute|]); eexists; (split; [reflexivity|]); split_and!; try by vm_compute.
Qed.

(** What giving a channel its parameters changes: its registers and handler, the
    pin of a channel that is not a timer, its clock and the interrupt. *)
Record pwm_given (p : pwm_param_t) w w' : Prop := {
  pg_regs : pwm_set_up p w w';
  pg_pins : if c_mode (pw_cfg p) =? PWM_TIMER_MODE then forall b, in_gpio b = true -> gsoft w' b = gsoft w b
    else pins_set (fun i => i =? pwm_pin (pw_channel p)) 0x48 PERIAL_MODE_2 (gview w) (gview w');
  pg_icu b : in_icu b = true -> ireg w' b = clocked p (2 ^ (9 + pw_channel p)) (ireg w) b;
}.

Definition drivers_behind s : Prop :=
  icu_behind sdev_ops icu_addr /\ sdev_slot (drv_sdev_tbl s) ICU_DEV_NAME icu_addr /\
  gpio_behind sdev_ops gpio_addr /\ sdev_slot (drv_sdev_tbl s) GPIO_DEV_NAME gpio_addr.

Lemma gpio_keeps w w' m : touches (id : W -> W) in_gpio m -> m w = Val (tt, w') -> pwm_same w w' /\ icu_same w w'.
Proof using IcuRegs0 BlockRegs0 Quiet0.
  intros Hm E. split; [exact (Hm _ (pwm_stays in_gpio) w tt w' E)|exact (Hm _ (icu_stays in_gpio) w tt w' E)].
Qed.

(** The pin, if the channel takes one. *)
Lemma pin_val p s : drivers_behind s -> 0 <= pw_channel p < 6 ->
  exists w, on_world s (when (negb (c_mode (pw_cfg p) =? PWM_TIMER_MODE)) (pwm_gpio_configuration sdev_ops (pw_channel p) 1)) w /\
    (if c_mode (pw_cfg p) =? PWM_TIMER_MODE then pins_same (ext (world s)) w
     else pins_set (fun i => i =? pwm_pin (pw_channel p)) 0x48 PERIAL_MODE_2 (gsoft (ext (world s))) (gsoft w)) /\
    pwm_same (ext (world s)) w /\ icu_same (ext (world s)) w.
Proof using IcuRegs0 GpioRegs0 BlockRegs0 Quiet0.
  intros (_ & _ & Hg & Hgs) Hc. destruct (pwm_pin_function _ Hc) as (m & Hm & Hin & _ & _ & _ & Hd & _).
  destruct (Z.eqb_spec (c_mode (pw_cfg p)) PWM_TIMER_MODE) as [Et|Et]; cbn [negb when].
  { exists (ext (world s)). split_and!; [|done..]. unfold on_world, with_world. by destruct s as [? ? []]. }
  destruct (gpio_second sdev_ops gpio_addr m _ s Hg Hgs Hin eq_refl) as (v & w & Hv & E & Ew & P). injection Hv as <-.
  exists w. destruct (gpio_keeps _ _ _ (function_touches m) Ew) as [K1 K2]. split_and!; [|..|done|done].
  - unfold on_world, pwm_gpio_configuration. rewrite Hm. mstep by reflexivity. cbn [truthy]. by rewrite (bind_ret_val _ _ _ _ _ E).
  - eapply pins_set_ext; [|exact P]. intros i. unfold function_pins. cbn [start_index end_index pins].
    rewrite (proj2 (Z.eqb_neq m _)) by done. cbn [andb negb]. rewrite andb_true_r. bdestr; lia.
Qed.

Lemma pwm_init_val p s : drivers_behind s -> param_ok p ->
  exists w, on_world s (init_pwm_param sdev_ops (PParam p) 1) w /\ pwm_given p (ext (world s)) w.
Proof using IcuRegs0 GpioRegs0 BlockRegs0 Quiet0.
  intros Hb Hp. pose proof Hp as (Hc & He & Hd & Hm). destruct (pwm_pin_function _ Hc) as (m & _ & _ & power & Hpow & -> & _).
  destruct (pin_val p s Hb Hc) as (w1 & E1 & P1 & [S1 H1] & I1). destruct (set_up_val p w1 Hp) as (w2 & E2 & [R2 H2] & [G2 I2]).
  destruct Hb as (Hi & His & _). destruct (clock_val p _ (with_world s w2) Hi His Hpow) as (w3 & E3 & I3 & G3 & [S3 H3]).
  change (ext (world (with_world s w2))) with w2 in *. exists w3. unfold on_world in *. split.
  - unfold init_pwm_param. mstep by reflexivity. rewrite (proj2 (Z.leb_gt _ _)), (proj2 (Z.ltb_ge _ _)) by (unfold PWM_COUNT; lia).
    cbn [orb]. rewrite (bind_ret_val _ _ _ _ _ E1). rewrite (bind_ret_val _ _ _ _ _ (at_ext_val _ (with_world s w1) _ _ E2)). exact E3.
  - split.
    + split; [intros b Hb'; rewrite S3, R2 by done; by rewrite !S1|by rewrite H3, H2, H1].
    + destruct (c_mode (pw_cfg p) =? PWM_TIMER_MODE); [intros b Hb'; by rewrite G3, G2, P1|].
      eapply pins_set_view; [exact P1|]. intros b Hb'. by rewrite G3, G2.
    + intros b Hb'. rewrite I3. unfold clocked. by rewrite !I2, !I1.
Qed.

(** A command on a channel that exists. *)
Lemma channel_command cmd f k ch s : 0 <= ch < 6 ->
  (cmd, f) = (CMD_PWM_UNIT_ENABLE, ctl_set 1) \/ (cmd, f) = (CMD_PWM_UNIT_DISABLE, pwm_unit_off) ->
  pruns (f ch) k -> touches (id : W -> W) in_pwm (f ch) ->
  exists w, pwm_ctrl sdev_ops cmd (PWord ch) s = Val ((PWM_SUCCESS, PWord ch), with_world s w) /\
    k (psoft (ext (world s))) (psoft w) /\ beside_pwm (ext (world s)) w /\ pwm_handlers w = pwm_handlers (ext (world s)).
Proof using IcuRegs0 GpioRegs0 Quiet0.
  intros Hc Hf Hr Ht. destruct (Hr (ext (world s))) as (w & E & R). exists w. destruct (pwm_beside _ _ _ Ht E) as [B Hh].
  split_and!; [|done..]. destruct Hf as [[= -> ->]|[= -> ->]]; unfold pwm_ctrl; cbn [Z.eqb]; unfold on_channel; mstep by reflexivity;
    rewrite (proj2 (Z.ltb_ge _ _)) by lia; by mstep by (by apply at_ext_val).
Qed.

Lemma unit_touches ch : 0 <= ch < 6 -> touches (id : W -> W) in_pwm (ctl_set 1 ch) /\ touches (id : W -> W) in_pwm (pwm_unit_off ch).
Proof using Type.
  intros Hc. destruct (channel_place _ Hc) as ([Ea _] & [Da _] & _).
  unfold ctl_set, pwm_unit_off, ctl_clear, pwm_set_end_value, pwm_set_duty_cycle. split; touch.
Qed.

(** Taking a channel out of use: the pin it was given is not the one configured. *)
Lemma deinit_pin_val p s : drivers_behind s -> param_ok p -> c_mode (pw_cfg p) <> PWM_TIMER_MODE ->
  exists m w, pwm_function (pw_channel p) = Some m /\
    on_world s (when (negb (c_mode (pw_cfg p) =? PWM_TIMER_MODE)) (pwm_gpio_configuration sdev_ops (pw_channel p) 0)) w /\
    assigns (gpio_cfg_addr m) (fun _ => 0x0C) (gsoft (ext (world s))) (gsoft w) /\ pwm_same (ext (world s)) w /\ icu_same (ext (world s)) w.
Proof using IcuRegs0 GpioRegs0 BlockRegs0 Quiet0.
  intros (_ & _ & Hg & Hgs) (Hc & _) Ht. destruct (pwm_pin_function _ Hc) as (m & Hm & _ & _ & _ & _ & _ & Hr & _).
  destruct (gpio_cfg sdev_ops gpio_addr m GMODE_INPUT 0x0C s Hg Hgs Hr ltac:(unfold GMODE_INPUT; lia) eq_refl) as (w & E & Ew & A).
  assert (Htc : touches (id : W -> W) in_gpio (gpio_config m GMODE_INPUT)).
  { destruct (cfg_addr_facts m Hr) as [Ha _]. unfold gpio_config. touch. }
  exists m, w. destruct (gpio_keeps _ _ _ Htc Ew) as [K1 K2]. split_and!; try done.
  unfold on_world, pwm_gpio_configuration. rewrite (proj2 (Z.eqb_neq _ _)) by done. cbn [negb when truthy]. rewrite Hm.
  mstep by reflexivity. by rewrite (bind_ret_val _ _ _ _ _ E).
Qed.

Lemma power_down_val p power s : icu_behind sdev_ops icu_addr -> sdev_slot (drv_sdev_tbl s) ICU_DEV_NAME icu_addr ->
  pwm_power (pw_channel p) = Some power ->
  exists w, on_world s (pwm_icu_configuration sdev_ops p 0) w /\ pins_same (ext (world s)) w /\ pwm_same (ext (world s)) w /\
    ireg w ICU_PERI_CLK_PWD = Z.lor (ireg (ext (world s)) ICU_PERI_CLK_PWD) power.
Proof using GpioRegs0 BlockRegs0 Quiet0.
  intros Hb Hs Hp. unfold pwm_icu_configuration. rewrite Hp. cbn [truthy negb Z.eqb]. cbv iota.
  assert (Hclk : (CMD_CLK_PWR_DOWN, CMD_CLK_PWR_UP, ICU_PERI_CLK_PWD) ∈ icu_pairs) by (by apply (list_elem_of_lookup_2 _ 1)).
  assert (Hint : (CMD_ICU_INT_ENABLE, CMD_ICU_INT_DISABLE, ICU_INTERRUPT_ENABLE) ∈ icu_pairs) by (by apply (list_elem_of_lookup_2 _ 4)).
  destruct (proj1 (icu_pair_step _ _ _ power (ext (world s)) Hclk)) as (w1 & E1 & I1). destruct (icu_keeps _ _ _ _ _ E1) as [P1 [Q1 H1]].
  unfold on_world. destruct (PWM_INT_EN =? c_int_en (pw_cfg p)); cbn [when].
  - destruct (proj1 (icu_pair_step _ _ _ IRQ_PWM_BIT w1 Hint)) as (w2 & E2 & I2). destruct (icu_keeps _ _ _ _ _ E2) as [P2 [Q2 H2]].
    exists w2. split_and!.
    + rewrite (bind_ret_val _ _ _ _ _ (icu_sure_val _ _ s w1 Hb Hs E1)).
      by mstep by exact (icu_command _ _ _ _ (with_world s w1) _ _ Hb Hs E2).
    + intros b. by rewrite P2, P1.
    + split; [intros b; by rewrite Q2, Q1|by rewrite H2, H1].
    + rewrite I2. change (ICU_PERI_CLK_PWD =? ICU_INTERRUPT_ENABLE) with false. cbv iota. by rewrite I1, Z.eqb_refl.
  - exists w1. split_and!; [|done..|by rewrite I1, Z.eqb_refl]. by rewrite (bind_ret_val _ _ _ _ _ (icu_sure_val _ _ s w1 Hb Hs E1)).
Qed.
End system.

(** The four bits of a configuration. *)
Lemma cfg_nibble c : 0 <= c_en c < 2 -> 0 <= c_int_en c < 2 -> 0 <= c_mode c < 4 ->
  Z.land (cfg_val c) 0x0F = c_en c + 2 * c_int_en c + 4 * c_mode c.
Proof.
  intros He Hi Hm. unfold cfg_val. rewrite !Z.land_lor_distr_l.
  assert (Hz : forall x n, 4 <= n -> Z.land (Z.shiftl x n) 0x0F = 0).
  { intros x n Hn. change 0x0F with (Z.ones 4). rewrite Z.land_ones, Z.shiftl_mul_pow2 by lia.
    replace n with (4 + (n - 4)) by lia. rewrite Z.pow_add_r by lia. rewrite Z.mul_comm, <- Z.mul_assoc, Z.mul_comm. by rewrite Z.mod_mul. }
  rewrite (Hz (c_clk c) 4), (Hz (c_rsv c) 6), !Z.lor_0_r by lia. clear Hz.
  assert (Se : c_en c = 0 \/ c_en c = 1) by lia. assert (Si : c_int_en c = 0 \/ c_int_en c = 1) by lia.
  assert (Sm : c_mode c = 0 \/ c_mode c = 1 \/ c_mode c = 2 \/ c_mode c = 3) by lia.
  destruct Se as [-> | ->], Si as [-> | ->]; (destruct Sm as [-> |[-> |[-> | ->]]]); reflexivity.
Qed.

(** The parameters of [bk_pwm_initialize]. *)
Definition wave (rsv ch frequency duty_cycle : Z) : pwm_param_t :=
  PwmParam ch (PwmCfg PWM_INT_DIS PWM_INT_DIS PWM_PWM_MODE PWM_CLK_26M rsv) frequency duty_cycle 0.

(** C6: initialising a wave gives the channel its period and duty cycle with its
    enable bits off, gives its pin the second function, powers its clock and
    selects the fast one, and changes no other pin, channel or clock; starting it
    sets its enable bit alone, stopping it clears its bits, its period and its duty
    cycle.  A duty cycle above the period, or a channel that does not exist, does
    nothing and still reports success; starting such a channel stops the program. *)
Theorem pwm_wave_starts_and_stops {W} `{RegBus W, !IcuRegs W, !GpioRegs W, !BlockRegs pwm_block W, !Holds pwm_vars W, !Quiet pwm_vars W}
    sdev_ops icu_addr gpio_addr pwm_op rsv ch frequency duty_cycle (s : drv_state (intc_st W)) :
  drivers_behind sdev_ops icu_addr gpio_addr s -> sdev_slot (drv_sdev_tbl s) PWM_DEV_NAME pwm_op ->
  is_u8 ch -> is_u32 frequency -> is_u32 duty_cycle ->
  (ch < 6 -> duty_cycle <= frequency -> exists w w1 w2,
    bk_pwm_initialize sdev_ops pwm_op rsv ch frequency duty_cycle s = Val (PWM_SUCCESS, with_world s w) /\
    pwm_given (wave rsv ch frequency duty_cycle) (ext (world s)) w /\
    psoft w PWM_CTL = Z.ldiff (psoft (ext (world s)) PWM_CTL) (channel_bits ch) /\
    bk_pwm_start sdev_ops pwm_op ch (with_world s w) = Val (PWM_SUCCESS, with_world s w1) /\
    assigns PWM_CTL (fun x => Z.lor x (2 ^ (4 * ch))) (psoft w) (psoft w1) /\ beside_pwm w w1 /\
    bk_pwm_stop sdev_ops pwm_op ch (with_world s w1) = Val (PWM_SUCCESS, with_world s w2) /\
    wave_regs ch 0 0 (fun x => Z.ldiff x (Z.shiftl 3 (4 * ch))) (psoft w1) (psoft w2) /\ beside_pwm w1 w2) /\
  (6 <= ch \/ frequency < duty_cycle -> bk_pwm_initialize sdev_ops pwm_op rsv ch frequency duty_cycle s = Val (PWM_SUCCESS, s)) /\
  (6 <= ch -> bk_pwm_start sdev_ops pwm_op ch s = Err AssertFail).
Proof.
  intros Hb Hs Hu Hf Hd. assert (Hu8 : u8 ch = ch) by (by apply u8_id). unfold is_u8 in Hu. split_and!.
  - intros Hc Hle. assert (Hp : param_ok (wave rsv ch frequency duty_cycle)).
    { unfold param_ok, cfg_ok, is_u32 in *. cbn. unfold PWM_PWM_MODE. lia. }
    destruct (pwm_init_val sdev_ops icu_addr gpio_addr _ s Hb Hp) as (w & E & R).
    destruct (unit_touches (W := W) ch ltac:(lia)) as [T1 T2].
    destruct (channel_command sdev_ops CMD_PWM_UNIT_ENABLE (ctl_set 1) _ ch (with_world s w) ltac:(lia) ltac:(by left) (ctl_set_runs 1 ch ltac:(lia) ltac:(lia)) T1)
      as (w1 & E1 & R1 & B1 & _).
    destruct (channel_command sdev_ops CMD_PWM_UNIT_DISABLE pwm_unit_off _ ch (with_world s w1) ltac:(lia) ltac:(by right) (unit_off_runs ch ltac:(lia)) T2)
      as (w2 & E2 & R2 & B2 & _).
    exists w, w1, w2. split_and!; [|exact R| | | |exact B1| |exact R2|exact B2].
    + unfold bk_pwm_initialize, pwm_control. rewrite Hu8. mstep by (rewrite dev_control_val by done; unfold pwm_ctrl; cbn [Z.eqb]; by mstep by exact E).
      by mstep by reflexivity.
    + destruct R as [[Rr _] _ _]. rewrite Rr by done. destruct (channel_place ch ltac:(lia)) as (_ & _ & _ & N1 & N2 & _).
      cbn [wave pw_channel pw_cfg]. rewrite !(proj2 (Z.eqb_neq PWM_CTL _)), Z.eqb_refl by done. rewrite cfg_nibble by (cbn; unfold PWM_INT_DIS, PWM_PWM_MODE; lia).
      unfold with_channel. cbn [c_en c_int_en c_mode]. change (PWM_INT_DIS + 2 * PWM_INT_DIS + 4 * PWM_PWM_MODE) with 0. by rewrite Z.shiftl_0_l, Z.lor_0_r.
    + unfold bk_pwm_start, pwm_control. mstep by (rewrite dev_control_val by done; exact E1). by mstep by reflexivity.
    + intros b. rewrite R1. by rewrite Z.shiftl_1_l.
    + unfold bk_pwm_stop, pwm_control. mstep by (rewrite dev_control_val by done; exact E2). by mstep by reflexivity.
  - intros Hbad. assert (E : init_pwm_param sdev_ops (PParam (wave rsv ch frequency duty_cycle)) 1 s = Val (tt, s)).
    { unfold init_pwm_param. mstep by reflexivity. cbn [pw_channel pw_end_value pw_duty_cycle wave].
      by rewrite (proj2 (orb_true_iff _ _)) by (unfold PWM_COUNT; lia). }
    unfold bk_pwm_initialize, pwm_control. rewrite Hu8.
    mstep by (rewrite dev_control_val by done; unfold pwm_ctrl; cbn [Z.eqb]; by mstep by exact E). by mstep by reflexivity.
  - intros Hge. unfold bk_pwm_start, pwm_control. rewrite (bind_ret_val _ _ _ (PWM_FAILURE, PWord ch) s); [done|].
    rewrite dev_control_val by done. unfold pwm_ctrl; cbn [Z.eqb]. unfold on_channel. mstep by reflexivity. by rewrite (proj2 (Z.ltb_lt _ _)) by lia.
Qed.

(** Taking a channel out of use configures the pin whose number is that of the
    channel's function as an input: for channels 0 to 3 their own pin, for
    channels 4 and 5 pin 18 or 19, and their own pin keeps the wave's function; the
    clock of the channel is powered down. *)
Theorem pwm_deinit_pins {W} `{RegBus W, !IcuRegs W, !GpioRegs W, !BlockRegs pwm_block W, !Holds pwm_vars W, !Quiet pwm_vars W}
    sdev_ops icu_addr gpio_addr pwm_op p (s : drv_state (intc_st W)) :
  drivers_behind sdev_ops icu_addr gpio_addr s -> sdev_slot (drv_sdev_tbl s) PWM_DEV_NAME pwm_op ->
  param_ok p -> c_mode (pw_cfg p) <> PWM_TIMER_MODE ->
  exists w, pwm_control sdev_ops pwm_op CMD_PWM_DEINIT_PARAM (PParam p) s = Val ((PWM_SUCCESS, PParam p), with_world s w) /\
    (forall i, 0 <= i < GPIONUM -> gsoft w (gpio_cfg_addr i) =
      if i =? (if pw_channel p <? 4 then pwm_pin (pw_channel p) else 14 + pw_channel p) then 0x0C else gsoft (ext (world s)) (gpio_cfg_addr i)) /\
    ireg w ICU_PERI_CLK_PWD = Z.lor (ireg (ext (world s)) ICU_PERI_CLK_PWD) (2 ^ (9 + pw_channel p)).
Proof.
  intros Hb Hs Hp Ht. pose proof Hp as (Hc & He & Hd & Hm).
  destruct (deinit_pin_val sdev_ops icu_addr gpio_addr p s Hb Hp Ht) as (m & w1 & Hf & E1 & A1 & _ & I1).
  destruct (set_up_val p w1 Hp) as (w2 & E2 & _ & [G2 I2]). destruct Hb as (Hi & His & _).
  destruct (pwm_pin_function _ Hc) as (m' & Hf' & _ & power & Hpow & -> & _ & Hr & _).
  destruct (power_down_val sdev_ops icu_addr p _ (with_world s w2) Hi His Hpow) as (w3 & E3 & G3 & _ & I3).
  change (ext (world (with_world s w2))) with w2 in *. exists w3. split_and!.
  - unfold pwm_control. rewrite dev_control_val by done. unfold pwm_ctrl; cbn [Z.eqb].
    enough (E : init_pwm_param sdev_ops (PParam p) 0 s = Val (tt, with_world s w3)) by (by mstep by exact E).
    unfold on_world in *. unfold init_pwm_param. mstep by reflexivity. rewrite (proj2 (Z.leb_gt _ _)), (proj2 (Z.ltb_ge _ _)) by (unfold PWM_COUNT; lia).
    cbn [orb]. rewrite (bind_ret_val _ _ _ _ _ E1). rewrite (bind_ret_val _ _ _ _ _ (at_ext_val _ (with_world s w1) _ _ E2)). exact E3.
  - intros i Hi'. destruct (cfg_addr_facts i Hi') as [Ha _]. rewrite G3, G2, A1 by done. rewrite Hf in Hf'. injection Hf' as <-.
    assert (Hmv : m = if pw_channel p <? 4 then pwm_pin (pw_channel p) else 14 + pw_channel p).
    { assert (Hsx : pw_channel p = 0 \/ pw_channel p = 1 \/ pw_channel p = 2 \/ pw_channel p = 3 \/ pw_channel p = 4 \/ pw_channel p = 5) by lia.
      destruct Hsx as [E|[E|[E|[E|[E|E]]]]]; rewrite E in *; by injection Hf as <-. }
    rewrite <- Hmv. destruct (Z.eqb_spec i m) as [->|Hne]; [by rewrite Z.eqb_refl|].
    rewrite (proj2 (Z.eqb_neq (gpio_cfg_addr i) _)); [done|]. intros Hx. by apply Hne, (cfg_addr_inj i m).
  - by rewrite I3, I2, I1.
Qed.

(** ** The interrupt routine *)
Section isr_facts.
Context {S : Type} `{RegBus S, !BlockRegs pwm_block S, !Holds pwm_vars S, !Quiet pwm_vars S}.
Context (call_handler : Z -> Z -> M S unit) (fuel : nat).
Implicit Types s : S.

(** A handler returns and keeps the table; it may access the unit. *)
Definition pwm_handlers_ok : Prop := serve_ok call_handler pwm_handlers (fun _ _ => True).

Lemma pwm_handler_val i s h : zlookup (pwm_handlers s) i = Some h -> pwm_handler i s = Val (h, s).
Proof using Type. intros Eh. unfold pwm_handler. mstep by reflexivity. fold (pwm_handlers s). by rewrite Eh. Qed.

(** Bits that are written are no longer pending: the loop takes one turn. *)
Lemma pwm_ack_val bits mask s : (0 < fuel)%nat -> Z.ldiff mask (Z.land bits 0x3F) = 0 ->
  pwm_ack fuel bits mask s = Val (tt, bus_write PWM_INTERRUPT_STATUS bits s).
Proof using BlockRegs0.
  intros Hf Hm. destruct fuel as [|n]; [lia|]. cbn [pwm_ack]. mstep by reflexivity. mstep by (unfold REG_READ; by rewrite breg_read).
  assert (E : Z.land (preg (bus_write PWM_INTERRUPT_STATUS bits s) PWM_INTERRUPT_STATUS) mask = 0); [|by rewrite E].
  apply Z.bits_inj'. intros i Hi. rewrite Z.land_spec, Z.bits_0. destruct (Z.testbit mask i) eqn:Em; [|by rewrite andb_false_r].
  pose proof (subset_bit _ _ i Hm) as Hb. rewrite Em, Z.land_spec in Hb. apply negb_false_iff, andb_true_iff in Hb as [Hb1 Hb2].
  rewrite breg_ack by done. by rewrite Hb1, andb_false_r.
Qed.

Lemma pwm_serve_val h i s : (0 < fuel)%nat -> pwm_handlers_ok -> 0 <= i < 6 ->
  exists s', pwm_serve call_handler fuel h i s = Val (tt, s') /\ pwm_handlers s' = pwm_handlers s /\ True.
Proof using BlockRegs0 Quiet0.
  intros Hf Hok Hi. destruct (Hok h i s) as (s1 & E1 & T1 & _).
  exists (bus_write PWM_INTERRUPT_STATUS (Z.shiftl 1 i) s1). split_and!; [| |done].
  - unfold pwm_serve. mstep by exact E1. apply pwm_ack_val; [done|].
    assert (Hs : i = 0 \/ i = 1 \/ i = 2 \/ i = 3 \/ i = 4 \/ i = 5) by lia. by destruct Hs as [->|[->|[->|[->|[-> | ->]]]]].
  - rewrite <- T1. unfold pwm_handlers. by rewrite quiet_write.
Qed.
End isr_facts.

(** The interrupt routine ends, and each of its waits after one turn; it calls
    the handler of every pending channel that has one, once and in order, and
    clears the bit of the channel after its call.  At the end it clears every bit
    that was pending at the start once more: so a channel that fired again after
    its call is not served. *)
Theorem pwm_isr_serves {S} `{RegBus S, !BlockRegs pwm_block S, !Holds pwm_vars S, !Quiet pwm_vars S} call_handler fuel (s : S) :
  (0 < fuel)%nat -> pwm_handlers_ok call_handler -> length (pwm_handlers s) = Z.to_nat CHANNEL_NO ->
  exists s1 s', pwm_isr call_handler fuel s = Val (tt, s') /\
    served (pwm_serve call_handler fuel) s (due (pwm_handlers s) 0 0 6 0 (preg s PWM_INTERRUPT_STATUS)) s1 /\
    same (psoft s1) (psoft s') /\ pwm_handlers s' = pwm_handlers s /\
    forall i, 0 <= i < 6 -> Z.testbit (preg s' PWM_INTERRUPT_STATUS) i =
      Z.testbit (preg s1 PWM_INTERRUPT_STATUS) i && negb (Z.testbit (preg s PWM_INTERRUPT_STATUS) i).
Proof.
  intros Hf Hok Hl. set (st := preg s PWM_INTERRUPT_STATUS).
  assert (Hcs : forall h i s1, (h, i) ∈ due (pwm_handlers s) 0 0 6 0 st -> exists s2, pwm_serve call_handler fuel h i s1 = Val (tt, s2) /\
    pwm_handlers s2 = pwm_handlers s1 /\ True) by (intros h i s1 Hin; apply due_index in Hin; apply pwm_serve_val; [done..|lia]).
  assert (Hpre : PreOrder (fun _ _ : S => True)) by (by split).
  destruct (listed_served (pwm_serve call_handler fuel) pwm_handlers (fun _ _ => True) _ Hcs s) as (s1 & R & _).
  destruct (keep_served_served _ _ _ _ _ R) as [Rs Rt]. exists s1, (bus_write PWM_INTERRUPT_STATUS st s1). split_and!; [|exact Rs|..].
  - unfold pwm_isr. mstep by (unfold REG_READ; by rewrite breg_read). fold st.
    rewrite (bind_ret_val _ _ _ tt s1); [|by apply (serve_bits_calls _ _ _ pwm_handler_val); [lia|lia|lia|rewrite Hl; by vm_compute|by vm_compute|exact R]].
    apply pwm_ack_val; [done|]. bits. rewrite Z.bits_0. by destruct (Z.testbit st i), (Z.testbit 63 i).
  - intros b. unfold Regs.soft. rewrite breg_write by (done || apply breg_u32). destruct (Z.eqb_spec b PWM_INTERRUPT_STATUS) as [->|]; [|done].
    assert (E : forall x, is_u32 x -> Z.ldiff x 0xFFFFFFFF = 0).
    { intros x Hx. change 0xFFFFFFFF with (Z.ones 32). rewrite Z.ldiff_ones_r, Z.shiftr_div_pow2 by lia. unfold is_u32 in Hx.
      by rewrite Z.div_small, Z.shiftl_0_l by lia. }
    unfold soft_of. cbn [b_hard pwm_block]. change (pwm_hard PWM_INTERRUPT_STATUS) with 0xFFFFFFFF. by rewrite !E by apply breg_u32.
  - rewrite <- Rt. unfold pwm_handlers. by rewrite quiet_write.
  - intros i Hi. rewrite breg_ack; [done|done|]. cbn [b_ack pwm_block]. change (pwm_pending PWM_INTERRUPT_STATUS) with (Z.ones 6).
    apply Z.ones_spec_low. lia.
Qed.

(** ** Captures

    The result is the low half of the captured count. *)
Lemma capture_val {W} `{RegBus W, !BlockRegs pwm_block W, !Holds pwm_vars W} sdev_ops pwm_op junk ch (s : drv_state (intc_st W)) :
  sdev_slot (drv_sdev_tbl s) PWM_DEV_NAME pwm_op -> 0 <= ch < 6 ->
  bk_pwm_get_capvalue sdev_ops pwm_op junk ch s = Val (u16 (preg (ext (world s)) (REG_APB_BK_PWMn_CAP_ADDR ch)), with_world s (ext (world s))).
Proof.
  intros Hs Hc. destruct (channel_place ch Hc) as (_ & _ & Ha & _). unfold bk_pwm_get_capvalue, pwm_control.
  mstep by (rewrite dev_control_val by done; unfold pwm_ctrl; cbn [Z.eqb]; mstep by reflexivity; cbn [ca_channel];
    rewrite (proj2 (Z.leb_gt _ _)) by (unfold PWM_COUNT; lia); rewrite u8_id by (unfold is_u8; lia);
    mstep by (apply at_ext_val; unfold pwm_capture_value_get; mstep by (unfold REG_READ; by rewrite breg_read); reflexivity); reflexivity).
  by mstep by reflexivity.
Qed.

(** ** A board *)
Definition pwm_board : Type := with_state pwm_vars (with_file pwm_block (with_file gpio_block icu_file)).
#[export] Instance pwm_board_gpio : GpioRegs pwm_board := with_state_block gpio_block pwm_vars.
Definition PwmBoard (v : pwm_vars) (p g : Z -> Z) (i : icu_file) : pwm_board := WithState v (WithFile pwm_block p (WithFile gpio_block g i)).

(** Channels 1 and 4 fire; channel 1 has the handler at 9; channel 2 runs. *)
Definition demo_pwm : pwm_board :=
  PwmBoard (PwmVars (<[1%nat := 9]> (replicate 6 0))) (fun a => if a =? PWM_INTERRUPT_STATUS then 0x12 else if a =? PWM_CTL then 0x100 else 0)
    (fun _ => 0) (IcuFile (fun _ => 0xFFFFFFFF) []).
Definition demo_pwm_tbl : list DRV_SDEV_S :=
  [DRV_DEV (Some PWM_DEV_NAME) 0 DD_STATE_CLOSED (Some 3); DRV_DEV (Some ICU_DEV_NAME) 0 DD_STATE_CLOSED (Some 1);
   DRV_DEV (Some GPIO_DEV_NAME) 0 DD_STATE_CLOSED (Some 2)].
Definition demo_pwm_ops (a : Z) : SDD_OPERATIONS (intc_st pwm_board) := sop_lift (fun A => on_ext (A := A)) (if a =? 1 then icu_op else gpio_word_op).
Definition demo_pwm_all : drv_state (intc_st pwm_board) := DrvState [] demo_pwm_tbl (intc_start demo_pwm).

Lemma demo_pwm_drivers : drivers_behind demo_pwm_ops 1 2 demo_pwm_all /\ sdev_slot demo_pwm_tbl PWM_DEV_NAME 3.
Proof. split; [split_and!; [done|by exists 1%nat|done|by exists 2%nat]|by exists 0%nat]. Qed.

Lemma pwm_wave_starts_and_stops_witness : exists w w1 w2,
  bk_pwm_initialize demo_pwm_ops 3 0 4 1000 250 demo_pwm_all = Val (PWM_SUCCESS, with_world demo_pwm_all w) /\
  gview w (gpio_cfg_addr 24) = 0x48 /\
  bk_pwm_start demo_pwm_ops 3 4 (with_world demo_pwm_all w) = Val (PWM_SUCCESS, with_world demo_pwm_all w1) /\
  psoft w1 PWM_CTL = 0x10100 /\
  bk_pwm_stop demo_pwm_ops 3 4 (with_world demo_pwm_all w1) = Val (PWM_SUCCESS, with_world demo_pwm_all w2).
Proof.
  destruct demo_pwm_drivers as [Hd Hs].
  destruct (proj1 (pwm_wave_starts_and_stops demo_pwm_ops 1 2 3 0 4 1000 250 demo_pwm_all Hd Hs ltac:(done) ltac:(done) ltac:(done))
    ltac:(lia) ltac:(lia)) as (w & w1 & w2 & E & [_ Pp _] & C & E1 & R1 & _ & E2 & _).
  exists w, w1, w2. split_and!; [exact E| |exact E1| |exact E2].
  - by rewrite (ps_config _ _ _ _ _ Pp 24 ltac:(unfold GPIONUM; lia)).
  - by rewrite R1, Z.eqb_refl, C.
Defined.

Lemma pwm_deinit_pins_witness : exists w,
  pwm_control demo_pwm_ops 3 CMD_PWM_DEINIT_PARAM (PParam (wave 0 4 1000 250)) demo_pwm_all = Val ((PWM_SUCCESS, PParam (wave 0 4 1000 250)), with_world demo_pwm_all w) /\
  gsoft w (gpio_cfg_addr 18) = 0x0C /\ gsoft w (gpio_cfg_addr 24) = gsoft demo_pwm (gpio_cfg_addr 24).
Proof.
  destruct demo_pwm_drivers as [Hd Hs].
  destruct (pwm_deinit_pins demo_pwm_ops 1 2 3 (wave 0 4 1000 250) demo_pwm_all Hd Hs) as (w & E & P & _).
  - unfold param_ok, cfg_ok, is_u32. cbn. unfold PWM_PWM_MODE. lia.
  - done.
  - exists w. split_and!; [exact E|by rewrite P by (unfold GPIONUM; lia)|by rewrite P by (unfold GPIONUM; lia)].
Defined.

(** A handler that sets the duty cycle of its channel. *)
Definition duty_handler (h i : Z) : M pwm_board unit := pwm_set_duty_cycle i h.
Lemma duty_handler_ok : pwm_handlers_ok duty_handler.
Proof.
  intros h i s. exists (bus_write (REG_APB_BK_PWMn_DC_ADDR i) h s). split_and!; [done| |done]. unfold pwm_handlers.
  by rewrite (quiet_write (X := pwm_vars)).
Qed.

Lemma pwm_isr_serves_witness : pwm_handlers_ok duty_handler /\
  exists s1 s', pwm_isr duty_handler 1 demo_pwm = Val (tt, s') /\ served (pwm_serve duty_handler 1) demo_pwm [(9, 1)] s1.
Proof.
  split; [exact duty_handler_ok|].
  destruct (pwm_isr_serves duty_handler 1 demo_pwm ltac:(lia) duty_handler_ok eq_refl) as (s1 & s' & E & R & _). by exists s1, s'.
Defined.
