(* ===== verification/TimerCorrect.v ===== *)
(** * Correctness of the timers

    The registers of the timers ([timer_block]); periods and their bounds;
    starting and stopping a timer from the top of the stack; the interrupt
    routine; reading a counter on any hardware. *)
From stdpp Require Import strings.
From S2P Require Import Prelude Serve DrvModel Icu Regs Intc Stack Timer.
Local Open Scope Z_scope.

(** ** The registers

    The periods and the two control registers; the interrupt bits of a control
    register are set by the unit and cleared by writing one. *)
Definition in_timer (a : Z) : bool :=
  ((PWM_NEW_BASE <=? a) && (a <=? TIMER0_2_CTL)) || ((TIMER3_CNT <=? a) && (a <=? TIMER3_5_CTL)).
Definition TIMER_INT_BITS : Z := Z.shiftl 0x7 TIMERCTLA_INT_POSI.
Definition timer_pending (a : Z) : Z := if (a =? TIMER0_2_CTL) || (a =? TIMER3_5_CTL) then TIMER_INT_BITS else 0.
Definition timer_block : block := Block in_timer timer_pending timer_pending.
Abbreviation treg := (breg (B := timer_block)).
Abbreviation tsoft := (Regs.soft timer_block).
Abbreviation truns := (Regs.runs timer_block).

#[export] Instance timer_block_ok : BlockOk timer_block.
Proof.
  split; [|done]. intros a. cbn. unfold timer_pending. by destruct ((a =? TIMER0_2_CTL) || (a =? TIMER3_5_CTL)).
Qed.
#[export] Instance timer_apart_icu : Apart in_timer in_icu.
Proof. intros a. unfold in_timer, in_icu, PWM_NEW_BASE, TIMER0_2_CTL, TIMER3_CNT, TIMER3_5_CTL, PWM_NEW_BASE, ICU_BASE, ICU_ARM_WAKEUP_EN, ICU_BASE. bdestr; lia. Qed.
#[export] Instance icu_apart_timer : Apart in_icu in_timer.
Proof. intros a Ha. destruct (in_timer a) eqn:E; [|done]. apply timer_apart_icu in E. congruence. Qed.

(** Where a timer is in its group. *)
Lemma timer_place ch : 0 <= ch < 6 ->
  0 <= timer_bit ch < 3 /\ (timer_ctl ch = TIMER0_2_CTL \/ timer_ctl ch = TIMER3_5_CTL) /\
  timer_period ch <> timer_ctl ch /\ in_timer (timer_period ch) = true /\ timer_pending (timer_period ch) = 0.
Proof.
  intros Hc. unfold timer_bit, timer_ctl, timer_period, REG_TIMERCTLA_PERIOD_ADDR, REG_TIMERCTLB_PERIOD_ADDR, in_timer, timer_pending.
  unfold TIMER0_2_CTL, TIMER3_5_CTL, TIMER3_CNT, PWM_NEW_BASE. destruct (Z.ltb_spec ch 3); split_and!; try lia; bdestr; cbn; lia.
Qed.
Lemma ctl_facts r : r = TIMER0_2_CTL \/ r = TIMER3_5_CTL -> in_timer r = true /\ timer_pending r = TIMER_INT_BITS.
Proof. by intros [-> | ->]. Qed.

(** ** Words of the control registers *)
(** Setting or clearing the bits [e], with the pending bits [p] written as ones. *)
Lemma enable_word x e m p : Z.land e m = 0 -> Z.ldiff p m = 0 ->
  Z.ldiff (Z.lor (Z.ldiff (Z.lor x e) m) p) m = Z.lor (Z.ldiff x m) e.
Proof. intros E1 E2. word_bits. Qed.
Lemma disable_word x e m p : Z.land e m = 0 -> Z.ldiff p m = 0 ->
  Z.ldiff (Z.lor (Z.ldiff (Z.ldiff x m) e) p) m = Z.ldiff (Z.ldiff x m) e.
Proof. intros E1 E2. word_bits. Qed.
Lemma config_word x f e m : Z.land e m = 0 -> Z.land f m = 0 ->
  Z.ldiff (Z.lor (Z.ldiff x f) e) m = Z.lor (Z.ldiff (Z.ldiff x m) f) e.
Proof. intros E1 E2. word_bits. Qed.
Lemma ack_word x m p : Z.ldiff p m = 0 -> Z.ldiff (Z.lor (Z.ldiff x m) p) m = Z.ldiff x m.
Proof. intros E. word_bits. Qed.

(** The masks of a place. *)
Lemma place_masks b : 0 <= b < 3 ->
  u32 (Z.shiftl 1 b) = 2 ^ b /\ is_u32 (2 ^ b) /\ Z.land (2 ^ b) TIMER_INT_BITS = 0 /\
  is_u32 (u32 (Z.shiftl 0x1 (TIMERCTLB_INT_POSI + b))) /\ Z.ldiff (u32 (Z.shiftl 0x1 (TIMERCTLB_INT_POSI + b))) TIMER_INT_BITS = 0.
Proof.
  intros Hb. assert (Hs : b = 0 \/ b = 1 \/ b = 2) by lia.
  repeat (destruct Hs as [->|Hs]; [by vm_compute|]). subst. by vm_compute.
Qed.

(** ** Periods *)

(** Ticks of the group's clock in a millisecond. *)
Definition timer_rate (ch : Z) : Z := if ch <? 3 then 26000 else 32.

(** The period for [time] at a rate is exact, rounded down to the divider,
    when the product fits 32 bits; otherwise it is that of the product modulo
    2^32, shorter than asked: so for more than 165191 ms on timers 0 to 2, 134217727
    ms on timers 3 to 5, 165191049 us.  The bound of the result never applies. *)
Theorem timer_period_bounds ch time div : is_u32 time -> 0 < div ->
  bk_timer_cal_endvalue ch time div = (time * timer_rate ch) mod 2 ^ 32 / div /\
  bk_timer_cal_endvalue_us ch time div = (time * 26) mod 2 ^ 32 / div /\
  bk_timer_cal_endvalue ch time 0 = bk_timer_cal_endvalue ch time 1 /\
  (time <= (if ch <? 3 then 165191 else 134217727) -> bk_timer_cal_endvalue ch time div = time * timer_rate ch / div) /\
  ((if ch <? 3 then 165191 else 134217727) < time -> bk_timer_cal_endvalue ch time 1 < time * timer_rate ch) /\
  (time <= 165191049 -> bk_timer_cal_endvalue_us ch time div = time * 26 / div) /\
  (165191049 < time -> bk_timer_cal_endvalue_us ch time 1 < time * 26).
Proof.
  intros Ht Hd.
  assert (Hclamp : forall x d, 0 < d -> (if 0xffffffff <? u32 x / d then 0xffffffff else u32 x / d) = x mod 2 ^ 32 / d).
  { intros x d Hd'. pose proof (Z.mod_pos_bound x (2 ^ 32) ltac:(lia)) as Hm. unfold u32 in *. change 4294967296 with (2 ^ 32) in *.
    assert (x mod 2 ^ 32 / d <= x mod 2 ^ 32) by (apply Z.div_le_upper_bound; nia). change 0xffffffff with (2 ^ 32 - 1).
    by rewrite (proj2 (Z.ltb_ge _ _)) by lia. }
  assert (Hms : forall d, 0 < d -> bk_timer_cal_endvalue ch time d = (time * timer_rate ch) mod 2 ^ 32 / d).
  { intros d Hd'. unfold bk_timer_cal_endvalue. rewrite (proj2 (Z.eqb_neq d 0)) by lia. unfold timer_rate. destruct (ch <? 3); by apply Hclamp. }
  assert (Hus : forall d, 0 < d -> bk_timer_cal_endvalue_us ch time d = (time * 26) mod 2 ^ 32 / d).
  { intros d Hd'. unfold bk_timer_cal_endvalue_us. rewrite (proj2 (Z.eqb_neq d 0)) by lia. by apply Hclamp. }
  assert (Hlt : forall x, 2 ^ 32 <= x -> x mod 2 ^ 32 / 1 < x)
    by (intros x Hx; rewrite Z.div_1_r; pose proof (Z.mod_pos_bound x (2 ^ 32)); lia).
  unfold is_u32 in Ht. split_and!; try done.
  - by apply Hms.
  - by apply Hus.
  - intros Hb. rewrite Hms by done. f_equal. apply Z.mod_small. unfold timer_rate. destruct (ch <? 3); lia.
  - intros Hb. rewrite Hms by lia. apply Hlt. unfold timer_rate. destruct (ch <? 3); lia.
  - intros Hb. rewrite Hus by done. f_equal. apply Z.mod_small. lia.
  - intros Hb. rewrite Hus by lia. apply Hlt. lia.
Qed.

Lemma endvalue_u32 ch time div : 0 <= div ->
  is_u32 (bk_timer_cal_endvalue ch time div) /\ is_u32 (bk_timer_cal_endvalue_us ch time div).
Proof.
  intros Hd.
  assert (Hc : forall x d, 0 < d -> is_u32 (if 0xffffffff <? u32 x / d then 0xffffffff else u32 x / d)).
  { intros x d Hd'. pose proof (u32_range x) as Hx. unfold is_u32 in *. destruct (Z.ltb_spec 0xffffffff (u32 x / d)); [lia|].
    split; [apply Z.div_pos; lia|]. lia. }
  unfold bk_timer_cal_endvalue, bk_timer_cal_endvalue_us. destruct (Z.eqb_spec div 0), (ch <? 3); split; apply Hc; lia.
Qed.

(** ** The calls that access the registers *)
Section regs_facts.
Context {hw : Type} `{RegBus hw, !BlockRegs timer_block hw}.
Implicit Types h : hw.

Lemma enable_runs ch : 0 <= ch < 6 -> truns (timer_unit_enable ch) (assigns (timer_ctl ch) (fun x => Z.lor x (2 ^ timer_bit ch))).
Proof.
  intros Hc. destruct (timer_place ch Hc) as (Hb & Hr & _). destruct (ctl_facts _ Hr) as [Ha Hp].
  destruct (place_masks _ Hb) as (E & U & D & U' & D'). unfold timer_unit_enable. rewrite E. change (Z.shiftl 7 TIMERCTLB_INT_POSI) with TIMER_INT_BITS.
  apply (runs_rmw (B := timer_block) _ (fun x => Z.lor (Z.ldiff (Z.lor x (2 ^ timer_bit ch)) TIMER_INT_BITS) _)); [done|..].
  - intros x Hx. auto using lor_u32, ldiff_u32.
  - intros x. cbn [b_hard timer_block]. rewrite Hp. by apply enable_word.
Qed.

Lemma disable_runs ch : 0 <= ch < 6 -> truns (timer_unit_disable ch) (assigns (timer_ctl ch) (fun x => Z.ldiff x (2 ^ timer_bit ch))).
Proof.
  intros Hc. destruct (timer_place ch Hc) as (Hb & Hr & _). destruct (ctl_facts _ Hr) as [Ha Hp].
  destruct (place_masks _ Hb) as (E & U & D & U' & D'). unfold timer_unit_disable. rewrite E. change (Z.shiftl 7 TIMERCTLB_INT_POSI) with TIMER_INT_BITS.
  apply (runs_rmw (B := timer_block) _ (fun x => Z.lor (Z.ldiff (Z.ldiff x TIMER_INT_BITS) (2 ^ timer_bit ch)) _)); [done|..].
  - intros x Hx. auto using lor_u32, ldiff_u32.
  - intros x. cbn [b_hard timer_block]. rewrite Hp. by apply disable_word.
Qed.

(** The control register of a timer that is configured with the divider 1. *)
Definition configured (ch x : Z) : Z := Z.lor (Z.ldiff x (Z.shiftl TIMERCTLA_CLKDIV_MASK TIMERCTLA_CLKDIV_POSI)) (2 ^ timer_bit ch).

Lemma configure_val ch endvalue h : 0 <= ch < 6 -> is_u32 endvalue -> exists h', timer_configure ch endvalue 1 h = Val (tt, h') /\
  (forall b, tsoft h' b = if b =? timer_period ch then endvalue else if b =? timer_ctl ch then configured ch (tsoft h b) else tsoft h b) /\
  forall i, Z.testbit TIMER_INT_BITS i = true -> Z.testbit (treg h' (timer_ctl ch)) i = false.
Proof.
  intros Hc Hu. destruct (timer_place ch Hc) as (Hb & Hr & Hne & Hap & Hpp). destruct (ctl_facts _ Hr) as [Ha Hp].
  destruct (place_masks _ Hb) as (E & U & D & _). unfold timer_configure. rewrite E. rewrite Z.sub_diag, Z.shiftl_0_l.
  change (u32 0) with 0. set (h1 := bus_write (timer_period ch) endvalue h).
  assert (S1 : forall b, tsoft h1 b = if b =? timer_period ch then endvalue else tsoft h b).
  { intros b. unfold soft at 1. subst h1. rewrite breg_write by done. cbn [b_hard timer_block]. by rewrite Hpp, Z.ldiff_0_r. }
  assert (W : forall x, is_u32 x -> is_u32 (configured ch x)) by (intros x Hx; by apply lor_u32; [apply ldiff_u32|]).
  exists (bus_write (timer_ctl ch) (configured ch (treg h1 (timer_ctl ch))) h1). split_and!.
  - mstep by reflexivity. fold h1. mstep by (unfold REG_READ; by rewrite breg_read). by rewrite Z.lor_0_r.
  - intros b. unfold soft at 1. rewrite breg_write by (done || apply W, breg_u32). fold (tsoft h1 b). rewrite S1.
    destruct (Z.eqb_spec b (timer_ctl ch)) as [->|]; [|done]. rewrite (proj2 (Z.eqb_neq _ (timer_period ch))) by done.
    cbn [b_hard timer_block]. rewrite Hp. unfold configured. rewrite config_word by done. do 2 f_equal.
    transitivity (tsoft h1 (timer_ctl ch)); [unfold soft, soft_of; cbn [b_hard timer_block]; by rewrite Hp|].
    by rewrite S1, (proj2 (Z.eqb_neq _ _)).
  - intros i Hi. rewrite breg_ack by (done || (cbn [b_ack timer_block]; by rewrite Hp)). unfold configured. rewrite Z.lor_spec, Z.ldiff_spec.
    assert (Hi' : Z.testbit (Z.shiftl TIMERCTLA_CLKDIV_MASK TIMERCTLA_CLKDIV_POSI) i = false).
    { pose proof (disjoint_bit _ TIMER_INT_BITS i (eq_refl : Z.land (Z.shiftl TIMERCTLA_CLKDIV_MASK TIMERCTLA_CLKDIV_POSI) TIMER_INT_BITS = 0)) as Hd.
      by rewrite Hi, andb_true_r in Hd. }
    rewrite Hi'. by destruct (Z.testbit (treg h1 _) i); rewrite ?andb_false_l, ?andb_true_l.
Qed.

(** Configuring a timer clears the pending interrupts of its whole group:
    the interrupt bits read with the control register are written back. *)
Theorem configure_drops_interrupts ch endvalue h : 0 <= ch < 6 -> is_u32 endvalue ->
  exists h', timer_configure ch endvalue 1 h = Val (tt, h') /\
    forall ch', 0 <= ch' < 6 -> timer_ctl ch' = timer_ctl ch ->
      Z.testbit (treg h' (timer_ctl ch')) (TIMERCTLA_INT_POSI + timer_bit ch') = false.
Proof.
  intros Hc Hu. destruct (configure_val ch endvalue h Hc Hu) as (h' & E & _ & P). exists h'. split; [done|].
  intros ch' Hc' ->. apply P. destruct (timer_place ch' Hc') as (Hb & _).
  assert (Hs : timer_bit ch' = 0 \/ timer_bit ch' = 1 \/ timer_bit ch' = 2) by lia. by destruct Hs as [->|[->| ->]].
Qed.

(** Starting and stopping the unit of a timer write the interrupt bits as
    zeros but its own: its pending interrupt is cleared, no other. *)
Lemma own_bit b i : 0 <= b < 3 -> Z.testbit TIMER_INT_BITS i = true -> Z.testbit (u32 (Z.shiftl 0x1 (TIMERCTLB_INT_POSI + b))) i = (i =? TIMERCTLA_INT_POSI + b).
Proof.
  intros Hb Hi. assert (Hs : i = 7 \/ i = 8 \/ i = 9).
  { assert (Hn : 0 <= i) by (destruct (Z.ltb_spec i 0); [by rewrite Z.testbit_neg_r in Hi|done]).
    destruct (Z.leb_spec 10 i) as [Hl|Hl]; [rewrite Z.bits_above_log2 in Hi; [done|done|change (Z.log2 TIMER_INT_BITS) with 9; lia]|].
    assert (Hc : In i (map Z.of_nat (seq 0 10))) by (apply in_map_iff; exists (Z.to_nat i); split; [lia|apply in_seq; lia]).
    revert Hi. cbn in Hc. repeat destruct Hc as [<-|Hc]; try done; auto. }
  assert (Hb' : b = 0 \/ b = 1 \/ b = 2) by lia. by destruct Hs as [->|[->| ->]], Hb' as [->|[->| ->]].
Qed.

Lemma unit_acks ch h : 0 <= ch < 6 -> forall f, f = timer_unit_enable \/ f = timer_unit_disable ->
  exists h', f ch h = Val (tt, h') /\ forall i, Z.testbit TIMER_INT_BITS i = true ->
    Z.testbit (treg h' (timer_ctl ch)) i = Z.testbit (treg h (timer_ctl ch)) i && negb (i =? TIMERCTLA_INT_POSI + timer_bit ch).
Proof.
  intros Hc f Hf. destruct (timer_place ch Hc) as (Hb & Hr & _). destruct (ctl_facts _ Hr) as [Ha Hp].
  destruct (place_masks _ Hb) as (E & _).
  destruct Hf as [-> | ->]; [unfold timer_unit_enable|unfold timer_unit_disable]; rewrite E;
    (eexists; split; [mstep by (unfold REG_READ; by rewrite breg_read); reflexivity|]; intros i Hi;
     rewrite breg_ack by (done || (cbn [b_ack timer_block]; by rewrite Hp)); f_equal; f_equal; rewrite Z.lor_spec, (own_bit _ i Hb Hi)).
  all: change (Z.shiftl 7 TIMERCTLB_INT_POSI) with TIMER_INT_BITS; rewrite !Z.ldiff_spec, Hi; cbn [negb]; by rewrite andb_false_r.
Qed.

(** ** Acknowledging *)
Definition acked (r status : Z) h : hw := bus_write r (Z.lor (Z.ldiff (treg h r) TIMER_INT_BITS) status) h.

Lemma acked_facts r status h : r = TIMER0_2_CTL \/ r = TIMER3_5_CTL -> is_u32 status -> Z.ldiff status TIMER_INT_BITS = 0 ->
  same (tsoft h) (tsoft (acked r status h)) /\
  forall i, Z.testbit TIMER_INT_BITS i = true -> Z.testbit (treg (acked r status h) r) i = Z.testbit (treg h r) i && negb (Z.testbit status i).
Proof.
  intros Hr Hu Hs. destruct (ctl_facts _ Hr) as [Ha Hp]. unfold acked. split.
  - intros b. unfold soft at 1. rewrite breg_write by first [done|by apply lor_u32; [apply ldiff_u32, breg_u32|]].
    destruct (Z.eqb_spec b r) as [->|]; [|done]. cbn [b_hard timer_block]. unfold soft, soft_of. cbn [b_hard timer_block].
    rewrite Hp. by apply ack_word.
  - intros i Hi. rewrite breg_ack by (done || (cbn [b_ack timer_block]; by rewrite Hp)). rewrite Z.lor_spec, Z.ldiff_spec, Hi. cbn.
    by rewrite andb_false_r.
Qed.

Lemma timer_ack_val fuel r status h : (0 < fuel)%nat -> r = TIMER0_2_CTL \/ r = TIMER3_5_CTL -> is_u32 status -> Z.ldiff status TIMER_INT_BITS = 0 ->
  timer_ack fuel r status h = Val (tt, acked r status h).
Proof.
  intros Hf Hr Hu Hs. destruct (ctl_facts _ Hr) as [Ha Hp]. destruct fuel as [|fuel]; [lia|]. cbn [timer_ack].
  mstep by (unfold REG_READ; by rewrite breg_read). mstep by reflexivity.
  change (bus_write r _ h) with (acked r status h). mstep by (unfold REG_READ; by rewrite breg_read).
  enough (Z.land (Z.land (treg (acked r status h) r) status) (Z.shiftl 0x7 TIMERCTLA_INT_POSI) = 0) as -> by done.
  apply Z.bits_inj'. intros i Hi. rewrite !Z.land_spec, Z.bits_0. change (Z.shiftl 7 TIMERCTLA_INT_POSI) with TIMER_INT_BITS.
  destruct (Z.testbit TIMER_INT_BITS i) eqn:Ei; [|by rewrite andb_false_r]. rewrite (proj2 (acked_facts r status h Hr Hu Hs)) by done.
  by destruct (Z.testbit (treg h r) i), (Z.testbit status i).
Qed.
End regs_facts.

(** ** The interrupt routine *)
Section isr_facts.
Context {S : Type} `{RegBus S, !BlockRegs timer_block S, !Holds timer_vars S, !Quiet timer_vars S}.
Context (call_handler : Z -> Z -> M S unit) (fuel : nat).
Implicit Types s : S.

Definition handlers s : list Z := p_TIMER_Int_Handler (hget s).
(** A handler returns and keeps the table; it may access the timers. *)
Definition timer_handlers_ok : Prop := serve_ok call_handler handlers (fun _ _ => True).

(** The status word read from a control register. *)
Definition status_of r s : Z := Z.land (treg s r) TIMER_INT_BITS.

Lemma status_facts r s : is_u32 (status_of r s) /\ Z.ldiff (status_of r s) TIMER_INT_BITS = 0.
Proof using Type.
  split; [by apply land_u32, breg_u32|]. unfold status_of. bits. rewrite Z.bits_0.
  by destruct (Z.testbit (treg s r) i), (Z.testbit TIMER_INT_BITS i).
Qed.

Lemma timer_handler_val i s h : zlookup (handlers s) i = Some h -> timer_handler i s = Val (h, s).
Proof using Type. intros Eh. unfold timer_handler. mstep by reflexivity. fold (handlers s). by rewrite Eh. Qed.

(** The calls due in a group. *)
Definition group_due (r base : Z) s : list (Z * Z) := due (handlers s) TIMERCTLA_INT_POSI base 3 0 (status_of r s).
Abbreviation calls := (keep_served call_handler handlers).

(** One group: what is pending is served, then acknowledged. *)
Lemma group_val r base s s1 : (0 < fuel)%nat -> r = TIMER0_2_CTL \/ r = TIMER3_5_CTL -> 0 <= base <= 3 ->
  length (handlers s) = Z.to_nat TIMER_CHANNEL_NO -> calls s (group_due r base s) s1 ->
  timer_isr_group call_handler fuel r base s = Val (tt, acked r (status_of r s) s1).
Proof using BlockRegs0.
  intros Hf Hr Hb Hl Hc. unfold TIMER_CHANNEL_NO in Hl. destruct (ctl_facts _ Hr) as [Ha _], (status_facts r s) as [Hu Hd].
  unfold timer_isr_group. mstep by (unfold REG_READ; by rewrite breg_read). change (Z.shiftl 7 TIMERCTLA_INT_POSI) with TIMER_INT_BITS. fold (status_of r s).
  rewrite (bind_ret_val _ _ _ tt s1) by (apply (serve_bits_calls _ _ _ timer_handler_val); [by vm_compute|lia..|exact Hc]). by apply timer_ack_val.
Qed.

Lemma acked_handlers r status s : handlers (acked r status s) = handlers s.
Proof using Quiet0. unfold handlers, acked. by rewrite quiet_write. Qed.

(** The routine made the calls [cs], those of timers 0 to 2 and then those of
    3 to 5, and acknowledged each group once its calls had run. *)
Definition timer_serves s cs s' : Prop := exists s1 s3,
  let st0 := status_of TIMER0_2_CTL s in let s2 := acked TIMER0_2_CTL st0 s1 in
  let st3 := status_of TIMER3_5_CTL s2 in
  let cs0 := due (handlers s) TIMERCTLA_INT_POSI 0 3 0 st0 in let cs3 := due (handlers s) TIMERCTLA_INT_POSI 3 3 0 st3 in
  served call_handler s cs0 s1 /\ served call_handler s2 cs3 s3 /\ cs = cs0 ++ cs3 /\ s' = acked TIMER3_5_CTL st3 s3.

(** The routine, given the calls it makes. *)
Lemma timer_isr_calls s s1 s3 : (0 < fuel)%nat -> length (handlers s) = Z.to_nat TIMER_CHANNEL_NO -> calls s (group_due TIMER0_2_CTL 0 s) s1 ->
  let s2 := acked TIMER0_2_CTL (status_of TIMER0_2_CTL s) s1 in calls s2 (group_due TIMER3_5_CTL 3 s2) s3 ->
  bk_timer_isr call_handler fuel s = Val (tt, acked TIMER3_5_CTL (status_of TIMER3_5_CTL s2) s3).
Proof using BlockRegs0 Quiet0.
  intros Hf Hl H1 s2 H3. unfold bk_timer_isr. rewrite (bind_ret_val _ _ _ _ _ (group_val _ 0 _ _ Hf ltac:(by left) ltac:(lia) Hl H1)). fold s2.
  apply group_val; [done|by right|lia| |done]. subst s2. rewrite acked_handlers. by rewrite (proj2 (keep_served_served _ _ _ _ _ H1)).
Qed.

Lemma timer_isr_val s : (0 < fuel)%nat -> timer_handlers_ok -> length (handlers s) = Z.to_nat TIMER_CHANNEL_NO ->
  exists cs s', bk_timer_isr call_handler fuel s = Val (tt, s') /\ timer_serves s cs s' /\ handlers s' = handlers s.
Proof using All.
  intros Hf Hok Hl. assert (PreOrder (fun _ _ : S => True)) by (by split).
  destruct (all_served call_handler handlers _ (group_due TIMER0_2_CTL 0 s) Hok s) as (s1 & R1 & _).
  set (s2 := acked TIMER0_2_CTL (status_of TIMER0_2_CTL s) s1).
  destruct (all_served call_handler handlers _ (group_due TIMER3_5_CTL 3 s2) Hok s2) as (s3 & R3 & _).
  destruct (keep_served_served _ _ _ _ _ R1) as [Q1 T1], (keep_served_served _ _ _ _ _ R3) as [Q3 T3].
  assert (T2 : handlers s2 = handlers s) by (subst s2; by rewrite acked_handlers). eexists _, _. split_and!.
  - by apply timer_isr_calls.
  - exists s1, s3. cbv zeta. fold s2. unfold group_due in Q3. rewrite T2 in Q3. by split_and!.
  - by rewrite acked_handlers, T3.
Qed.

Lemma timer_serves_due s cs s' ch h : timer_serves s cs s' -> 0 <= ch < 3 ->
  Z.testbit (treg s TIMER0_2_CTL) (TIMERCTLA_INT_POSI + ch) = true -> zlookup (handlers s) ch = Some h -> truthy h = true -> (h, ch) ∈ cs.
Proof using All.
  intros (s1 & s3 & _ & _ & -> & _) Hc Hp Hh Ht. apply elem_of_app. left. replace ch with (ch + 0) in Hh |- * by lia.
  apply due_elem; [done|done| |lia]. rewrite (Z.add_comm ch). unfold status_of. rewrite Z.land_spec, Hp.
  assert (Hs : ch = 0 \/ ch = 1 \/ ch = 2) by lia. by destruct Hs as [->|[->| ->]].
Qed.
End isr_facts.

(** C7: the interrupt routine ends, with one turn of each waiting loop; it calls
    the handler of every timer that is pending and has one, once, in the order of
    the timers, and acknowledges each group after its handlers: exactly the
    interrupts it has served, and no other bit of the registers changes. *)
Theorem timer_isr_serves {S} `{RegBus S, !BlockRegs timer_block S, !Holds timer_vars S, !Quiet timer_vars S} call_handler fuel (s : S) :
  (0 < fuel)%nat -> timer_handlers_ok call_handler -> length (handlers s) = Z.to_nat TIMER_CHANNEL_NO ->
  exists s1 s2 s3 s',
    let st0 := status_of TIMER0_2_CTL s in let st3 := status_of TIMER3_5_CTL s2 in
    bk_timer_isr call_handler fuel s = Val (tt, s') /\
    served call_handler s (due (handlers s) TIMERCTLA_INT_POSI 0 3 0 st0) s1 /\
    served call_handler s2 (due (handlers s) TIMERCTLA_INT_POSI 3 3 0 st3) s3 /\
    same (tsoft s1) (tsoft s2) /\ same (tsoft s3) (tsoft s') /\
    forall i, Z.testbit TIMER_INT_BITS i = true ->
      Z.testbit (treg s2 TIMER0_2_CTL) i = Z.testbit (treg s1 TIMER0_2_CTL) i && negb (Z.testbit st0 i) /\
      Z.testbit (treg s' TIMER3_5_CTL) i = Z.testbit (treg s3 TIMER3_5_CTL) i && negb (Z.testbit st3 i).
Proof.
  intros Hf Hok Hl. destruct (timer_isr_val call_handler fuel s Hf Hok Hl) as (cs & s' & E & (s1 & s3 & R1 & R3 & _ & ->) & _).
  destruct (status_facts TIMER0_2_CTL s) as [U0 D0]. set (s2 := acked TIMER0_2_CTL (status_of TIMER0_2_CTL s) s1) in *.
  destruct (status_facts TIMER3_5_CTL s2) as [U3 D3].
  destruct (acked_facts TIMER0_2_CTL _ s1 ltac:(by left) U0 D0) as [A1 P1], (acked_facts TIMER3_5_CTL _ s3 ltac:(by right) U3 D3) as [A3 P3].
  exists s1, s2, s3, (acked TIMER3_5_CTL (status_of TIMER3_5_CTL s2) s3).
  split_and!; [exact E|exact R1|exact R3|exact A1|exact A3|]. intros i Hi. auto.
Qed.

(** ** Reading a counter

    On any hardware: the state after reads of a register, and whether the next
    one finds bit 0 set. *)
Section count.
Context {S : Type} `{RegBus S}.
Implicit Types s : S.

Fixpoint after_reads (r : Z) (n : nat) s : S :=
  match n with O => s | Datatypes.S n' => after_reads r n' (bus_read r s).2 end.
Definition reads_busy (r : Z) (n : nat) s : bool := truthy (Z.land (bus_read r (after_reads r n s)).1 1).

Lemma wait_step fuel r i s : wait_count (Datatypes.S fuel) r i s =
  if reads_busy r 0 s then (if 120 * 1000 <? i + 1 then Val (true, (bus_read r s).2) else wait_count fuel r (i + 1) (bus_read r s).2)
  else Val (false, (bus_read r s).2).
Proof using Type.
  cbn [wait_count]. unfold REG_READ, reads_busy, mbind, M_bind. cbn [after_reads]. destruct (bus_read r s) as [v s1]. cbn [fst snd].
  destruct (truthy (Z.land v 1)); [|done]. by destruct (120 * 1000 <? i + 1).
Qed.

Lemma wait_free fuel r k : forall i s, i + Z.of_nat fuel = 120001 -> (k < fuel)%nat ->
  (forall j, (j < k)%nat -> reads_busy r j s = true) -> reads_busy r k s = false ->
  wait_count fuel r i s = Val (false, after_reads r (Datatypes.S k) s).
Proof using Type.
  revert fuel. induction k as [|k IH]; intros fuel i s Hi Hk Hb He; (destruct fuel as [|fuel]; [lia|]); rewrite wait_step.
  - by rewrite He.
  - rewrite (Hb 0%nat) by lia. rewrite (proj2 (Z.ltb_ge _ _)) by lia. rewrite (IH fuel (i + 1) (bus_read r s).2); [done|lia|lia| |done].
    intros j Hj. apply (Hb (Datatypes.S j)). lia.
Qed.

Lemma wait_busy fuel r : forall i s, i + Z.of_nat fuel = 120001 -> (0 < fuel)%nat ->
  (forall j, (j < fuel)%nat -> reads_busy r j s = true) -> wait_count fuel r i s = Val (true, after_reads r fuel s).
Proof using Type.
  induction fuel as [|fuel IH]; intros i s Hi Hf Hb; [lia|]. rewrite wait_step, (Hb 0%nat) by lia. destruct fuel as [|fuel].
  - by rewrite (proj2 (Z.ltb_lt _ _)) by lia.
  - rewrite (proj2 (Z.ltb_ge _ _)) by lia. rewrite (IH (i + 1)); [done|lia|lia|]. intros j Hj. apply (Hb (Datatypes.S j)). lia.
Qed.

Lemma busy_dec r n s : (forall j, (j < n)%nat -> reads_busy r j s = true) \/
  exists k, (k < n)%nat /\ (forall j, (j < k)%nat -> reads_busy r j s = true) /\ reads_busy r k s = false.
Proof using Type.
  induction n as [|n [IH|(k & Hk & ? & ?)]]; [by left; lia| |right; exists k; split_and!; auto with lia].
  destruct (reads_busy r n s) eqn:E; [left|right; exists n; auto with lia].
  intros j Hj. destruct (decide (j = n)) as [->|]; [done|]. apply IH. lia.
Qed.
End count.

(** The request for a counter, and the registers of the group. *)
Definition count_request (ch : Z) : Z := Z.lor (Z.shiftl ch 2) 1.
Definition count_ctl (ch : Z) : Z := if ch <? 3 then TIMER0_2_READ_CTL else TIMER3_5_READ_CTL.
Definition count_value (ch : Z) : Z := if ch <? 3 then TIMER0_2_READ_VALUE else TIMER3_5_READ_VALUE.

(** C35: reading a counter ends on any hardware, after at most 120001 reads of
    the control register: with the value read once the request is done, if one of
    them finds it done, and otherwise with a failure, the parameter unchanged.  A
    channel past the last is a success that leaves the parameter as it is. *)
Theorem timer_read_ends {S} `{RegBus S} (p : timer_param_t) (s : S) :
  let ch := tp_channel p in let r := count_ctl ch in let s1 := bus_write r (count_request ch) s in
  (6 <= ch -> timer_read_cnt p s = Val ((BK_TIMER_SUCCESS, TParam p), s)) /\
  (ch < 6 ->
    (exists k v s', Z.of_nat k <= 120000 /\ reads_busy r k s1 = false /\ (forall j, (j < k)%nat -> reads_busy r j s1 = true) /\
      bus_read (count_value ch) (after_reads r (Datatypes.S k) s1) = (v, s') /\
      timer_read_cnt p s = Val ((BK_TIMER_SUCCESS, TParam (TimerParam ch (tp_div p) v (t_Int_Handler p))), s')) \/
    (exists n s', Z.of_nat n = 120001 /\ s' = after_reads r n s1 /\ (forall j, (j < n)%nat -> reads_busy r j s1 = true) /\
      timer_read_cnt p s = Val ((BK_TIMER_FAILURE, TParam p), s'))).
Proof.
  intros ch r s1. split.
  - intros Hc. unfold timer_read_cnt. fold ch. by rewrite !(proj2 (Z.ltb_ge _ _)) by lia.
  - intros Hc. assert (Hn : Z.of_nat (Z.to_nat (120 * 1000 + 1)) = 120001) by lia.
    assert (Hread : forall r', timer_read_count ch r (count_value ch) s = r' -> timer_read_cnt p s = match r' with
      | Val (Some v, s') => Val ((BK_TIMER_SUCCESS, TParam (TimerParam ch (tp_div p) v (t_Int_Handler p))), s')
      | Val (None, s') => Val ((BK_TIMER_FAILURE, TParam p), s') | Err f => Err f end).
    { intros r' E. unfold timer_read_cnt. fold ch. unfold r, count_ctl, count_value in E. destruct (ch <? 3).
      - unfold mbind, M_bind. rewrite E. by destruct r' as [[[v|] s']|].
      - rewrite (proj2 (Z.ltb_lt _ _)) by lia. unfold mbind, M_bind. rewrite E. by destruct r' as [[[v|] s']|]. }
    revert Hn Hread. unfold timer_read_count. generalize (Z.to_nat (120 * 1000 + 1)). intros n Hn Hread.
    destruct (busy_dec r n s1) as [Hb|(k & Hk & Hb & He)].
    + right. exists n, (after_reads r n s1). split_and!; [done..|]. rewrite (Hread (Val (None, after_reads r n s1))); [done|].
      mstep by reflexivity. fold (count_request ch) s1. by mstep by (apply wait_busy; [lia|lia|done]).
    + left. destruct (bus_read (count_value ch) (after_reads r (Datatypes.S k) s1)) as [v s'] eqn:Ev. exists k, v, s'.
      split_and!; [lia|done..|]. rewrite (Hread (Val (Some v, s'))); [done|].
      mstep by reflexivity. fold (count_request ch) s1. mstep by (apply wait_free; [lia|exact Hk|exact Hb|exact He]). cbv iota.
      unfold REG_READ, mbind, M_bind. by rewrite Ev.
Qed.

(** The index field of the request for timers 0 to 2 is the timer's; that
    for timers 4 and 5 is the one of timers 3 and 4, and that for timer 3 is none. *)
Theorem count_request_index : let index ch := Z.land (Z.shiftr (count_request ch) TIMER_READ_INDEX_POSI) TIMER_READ_INDEX_MASK in
  (forall ch, 0 <= ch < 3 -> index ch = ch) /\
  index 3 = 3 /\ index 4 = TIMER3_5_READ_INDEX_3 /\ index 5 = TIMER3_5_READ_INDEX_4.
Proof.
  intros index. split; [|done]. intros ch Hc. assert (Hs : ch = 0 \/ ch = 1 \/ ch = 2) by lia. by destruct Hs as [->|[->| ->]].
Qed.

(** ** Starting and stopping, from the top of the stack *)
Section system.
Context {W : Type} `{RegBus W, !IcuRegs W, !BlockRegs timer_block W, !Holds timer_vars W, !Quiet timer_vars W}.
Context (sdev_ops : Z -> SDD_OPERATIONS (intc_st W)) (icu_addr : Z).
Abbreviation all := (drv_state (intc_st W)).
Implicit Types (s : all) (w : W).

Definition timer_clock (ch : Z) : Z := if ch <? 3 then PWD_TIMER_26M_CLK_BIT else PWD_TIMER_32K_CLK_BIT.

(** What the calls for timer [ch] access: its period, the control of its group
    and the interrupt unit. *)
Definition own_or_icu (ch a : Z) : bool := (a =? timer_period ch) || (a =? timer_ctl ch) || in_icu a.
Definition timer_or_icu (a : Z) : bool := in_timer a || in_icu a.
Definition own (ch a : Z) : bool := (a =? timer_period ch) || (a =? timer_ctl ch).
Lemma own_in_either ch R : respects (own_or_icu ch) R -> respects (own ch) R.
Proof using Type. apply respects_mono. intros a Ha. unfold own_or_icu. by unfold own in Ha; rewrite Ha. Qed.
Lemma icu_in_either ch R : respects (own_or_icu ch) R -> respects in_icu R.
Proof using Type. apply respects_mono. intros a Ha. unfold own_or_icu. by rewrite Ha, orb_true_r. Qed.
Lemma own_timer ch R : 0 <= ch < 6 -> respects in_timer R -> respects (own ch) R.
Proof using Type.
  intros Hc. destruct (timer_place ch Hc) as (_ & Hr & _ & Hp & _). destruct (ctl_facts _ Hr) as [Ha _].
  apply respects_mono. intros a [->%Z.eqb_eq| ->%Z.eqb_eq]%orb_true_iff; done.
Qed.
Lemma own_either ch R : 0 <= ch < 6 -> respects timer_or_icu R -> respects (own_or_icu ch) R.
Proof using Type.
  intros Hc. destruct (timer_place ch Hc) as (_ & Hr & _ & Hp & _). destruct (ctl_facts _ Hr) as [Ha _].
  apply respects_mono. intros a [[->%Z.eqb_eq| ->%Z.eqb_eq]%orb_true_iff|Hi]%orb_true_iff; unfold timer_or_icu; rewrite ?Hp, ?Ha, ?Hi, ?orb_true_r; done.
Qed.

(** Timer [ch] runs with [period] and [callback]: its registers and its entry of
    the table, the clock of its group powered and its interrupt enabled; all
    else is as before. *)
Record timer_started (ch period callback : Z) (w w' : W) : Prop := {
  ts_regs b : in_timer b = true ->
    tsoft w' b = if b =? timer_period ch then period else if b =? timer_ctl ch then configured ch (tsoft w b) else tsoft w b;
  ts_table : handlers w' = <[Z.to_nat ch := callback]> (handlers w);
  ts_icu b : in_icu b = true ->
    ireg w' b = if b =? ICU_PERI_CLK_PWD then Z.ldiff (ireg w b) (timer_clock ch)
      else if b =? ICU_INTERRUPT_ENABLE then Z.lor (ireg w b) (2 ^ IRQ_TIMER) else ireg w b;
  ts_frame (R : W -> W -> Prop) : respects (own_or_icu ch) R -> (forall (x : timer_vars) v, R v (hput x v)) -> R w w';
}.

(** What starting timer [ch] does to pending interrupts: those of its group
    are dropped when it is configured, in [v], from where only its registers and
    the interrupt unit are accessed; its own is clear at the end; and none of
    the other group is lost. *)
Definition group_clear (ch : Z) (v : W) : Prop := forall i, Z.testbit TIMER_INT_BITS i = true -> Z.testbit (treg v (timer_ctl ch)) i = false.
Definition pending_kept (r : Z) (w w' : W) : Prop :=
  forall i, Z.testbit TIMER_INT_BITS i = true -> Z.testbit (treg w r) i = true -> Z.testbit (treg w' r) i = true.
Definition cleared_before (ch : Z) (w' : W) : Prop := exists v, group_clear ch v /\ forall R : W -> W -> Prop, respects (own_or_icu ch) R -> R v w'.
Record interrupts_dropped (ch : Z) (w w' : W) : Prop := {
  id_group : cleared_before ch w';
  id_own : Z.testbit (treg w' (timer_ctl ch)) (TIMERCTLA_INT_POSI + timer_bit ch) = false;
  id_other r : r = TIMER0_2_CTL \/ r = TIMER3_5_CTL -> r <> timer_ctl ch -> pending_kept r w w';
}.

Lemma respects_pending ch r : r = TIMER0_2_CTL \/ r = TIMER3_5_CTL -> r <> timer_ctl ch -> 0 <= ch < 6 -> respects (own_or_icu ch) (pending_kept r).
Proof using IcuRegs0 BlockRegs0.
  intros Hr Hne Hc. destruct (timer_place ch Hc) as (_ & _ & _ & Hp & Hpp). destruct (ctl_facts _ Hr) as [Ha Hb]. unfold pending_kept. split.
  - by intros w i.
  - intros w1 w2 w3 H1 H2 i Hi Hw. auto.
  - intros a w _ i Hi. apply breg_read_pending. cbn [b_ack timer_block]. by rewrite Hb.
  - intros a v w Hi' i Hi. apply breg_pending; [|cbn [b_ack timer_block]; by rewrite Hb]. intros ->.
    apply orb_true_iff in Hi' as [[E|E]%orb_true_iff|E].
    + apply Z.eqb_eq in E. rewrite E, Hpp in Hb. done.
    + by apply Z.eqb_eq in E.
    + apply icu_apart_timer in E. congruence.
Qed.

(** What accesses to the timers leave alone, and those to the interrupt unit. *)
Definition beside_timers w w' : Prop := (forall b, ireg w' b = ireg w b) /\ handlers w' = handlers w.
Definition beside_icu w w' : Prop := same (tsoft w) (tsoft w') /\ handlers w' = handlers w.

Lemma timer_beside : respects in_timer beside_timers.
Proof using IcuRegs0 BlockRegs0 Quiet0.
  pose proof (respects_icu (W := W) in_timer) as [r1 r2 r3 r4]. pose proof (respects_vars (W := W) timer_vars in_timer) as [v1 v2 v3 v4].
  unfold beside_timers, handlers. split.
  - intros w. auto.
  - intros w1 w2 w3 [A1 B1] [A2 B2]. split; [by eapply r2|by rewrite B2].
  - intros a w Ha. split; [by apply r3|by rewrite v3].
  - intros a v w Ha. split; [by apply r4|by rewrite v4].
Qed.
Lemma icu_beside : respects in_icu beside_icu.
Proof using IcuRegs0 BlockRegs0 Quiet0.
  pose proof (respects_soft (W := W) timer_block in_icu) as [r1 r2 r3 r4].
  pose proof (respects_vars (W := W) timer_vars in_icu) as [v1 v2 v3 v4].
  unfold beside_icu, handlers. split.
  - intros w. by split.
  - intros w1 w2 w3 [A1 B1] [A2 B2]. split; [exact (r2 _ _ _ A1 A2)|by rewrite B2].
  - intros a w Ha. split; [exact (r3 a w Ha)|by rewrite v3].
  - intros a v w Ha. split; [exact (r4 a v w Ha)|by rewrite v4].
Qed.

Lemma icu_ctrl_beside cmd p w r w' : icu_ctrl cmd (Some p) w = Val (r, w') -> beside_icu w w'.
Proof using IcuRegs0 BlockRegs0 Quiet0. intros E. exact (icu_touches _ _ _ icu_beside w r w' E). Qed.

Lemma timer_touches ch : 0 <= ch < 6 -> forall endvalue div,
  touches (id : W -> W) (own ch) (timer_configure ch endvalue div) /\ touches (id : W -> W) (own ch) (timer_unit_enable ch) /\
  touches (id : W -> W) (own ch) (timer_unit_disable ch).
Proof using Type.
  intros Hc endvalue div. assert (Hp : own ch (timer_period ch) = true) by (unfold own; by rewrite Z.eqb_refl).
  assert (Ha : own ch (timer_ctl ch) = true) by (unfold own; by rewrite Z.eqb_refl, orb_true_r).
  unfold timer_configure, timer_unit_enable, timer_unit_disable. split_and!; touch; by apply touches_bus_read || apply touches_bus_write.
Qed.

(** The two ways of initialising a timer: in milliseconds and in microseconds. *)
Definition init_steps (ch endvalue callback : Z) : M all Z :=
  at_ext (set_timer_handler ch callback);;
  _ ← sddev_control sdev_ops (Some ICU_DEV_NAME) CMD_CLK_PWR_UP (timer_clock ch);
  at_ext (timer_configure ch endvalue 1);;
  intc_enable sdev_ops IRQ_TIMER;;
  mret BK_TIMER_SUCCESS.

Lemma init_steps_val ch endvalue callback s : icu_behind sdev_ops icu_addr -> sdev_slot (drv_sdev_tbl s) ICU_DEV_NAME icu_addr ->
  0 <= ch < 6 -> is_u32 endvalue ->
  exists w, init_steps ch endvalue callback s = Val (BK_TIMER_SUCCESS, with_world s w) /\
    timer_started ch endvalue callback (ext (world s)) w /\ cleared_before ch w.
Proof using IcuRegs0 BlockRegs0 Quiet0.
  intros Hb Hs Hc Hu. set (w0 := ext (world s)).
  set (w1 := hput (TimerVars (<[Z.to_nat ch := callback]> (handlers w0))) w0).
  assert (Hclk : (CMD_CLK_PWR_DOWN, CMD_CLK_PWR_UP, ICU_PERI_CLK_PWD) ∈ icu_pairs) by (by apply (list_elem_of_lookup_2 _ 1)).
  assert (Hint : (CMD_ICU_INT_ENABLE, CMD_ICU_INT_DISABLE, ICU_INTERRUPT_ENABLE) ∈ icu_pairs) by (by apply (list_elem_of_lookup_2 _ 4)).
  destruct (icu_clear sdev_ops icu_addr _ _ _ (timer_clock ch) (with_world s w1) Hb Hs Hclk) as (w2 & E2 & C2 & I2).
  destruct (configure_val ch endvalue w2 Hc Hu) as (w3 & E3 & S3 & P3).
  destruct (icu_set sdev_ops icu_addr _ _ _ (2 ^ IRQ_TIMER) (with_world s w3) Hb Hs Hint) as (w4 & E4 & C4 & I4).
  cbn [ext world with_world with_ext] in *.
  destruct (icu_ctrl_beside _ _ _ _ _ C2) as [S2 T2], (icu_ctrl_beside _ _ _ _ _ C4) as [S4 T4].
  destruct (proj1 (timer_touches ch Hc endvalue 1) _ (own_timer _ _ Hc timer_beside) w2 tt w3 E3) as [I3 T3].
  cbv [id] in I3, T3.
  assert (F4 : forall R : W -> W -> Prop, respects (own_or_icu ch) R -> R w3 w4)
    by (intros R HR; exact (icu_touches _ _ R (icu_in_either ch R HR) _ _ _ C4)).
  exists w4. split; [|split; [|by exists w3]].
  - unfold init_steps. rewrite (bind_ret_val _ _ _ _ _ (at_ext_val (set_timer_handler ch callback) s tt w1 eq_refl)).
    rewrite (bind_ret_val _ _ _ _ _ E2). rewrite (bind_ret_val _ _ _ _ _ (at_ext_val _ (with_world s w2) _ _ E3)).
    unfold intc_enable. rewrite bind_assoc. change (u32 (Z.shiftl 1 IRQ_TIMER)) with (2 ^ IRQ_TIMER).
    by rewrite (bind_ret_val _ _ _ _ _ E4).
  - assert (Sp : forall b, in_timer b = true -> tsoft w1 b = tsoft w0 b) by (intros b Hi; unfold w1, soft, soft_of; by rewrite breg_put).
    split.
    + intros b Hi. rewrite S4, S3. destruct (Z.eqb_spec b (timer_period ch)); [done|]. by rewrite S2, Sp.
    + rewrite T4, T3, T2. unfold handlers, w1. by rewrite hget_put.
    + intros b Hi. rewrite I4, !I3, !I2. destruct (Z.eqb_spec b ICU_PERI_CLK_PWD) as [->|Hne].
      * change (ICU_PERI_CLK_PWD =? ICU_INTERRUPT_ENABLE) with false. cbv iota. f_equal. by apply ireg_put.
      * destruct (Z.eqb_spec b ICU_INTERRUPT_ENABLE) as [->|].
        -- change (ICU_INTERRUPT_ENABLE =? ICU_PERI_CLK_PWD) with false. cbv iota. f_equal. by apply ireg_put.
        -- by apply ireg_put.
    + intros R HR Hput. pose proof (icu_in_either _ _ HR) as Hi. pose proof (own_in_either _ _ HR) as Ht.
      assert (R0 : R w0 w1) by apply Hput.
      pose proof (icu_touches _ _ R Hi _ _ _ C2 : R w1 w2) as R2. pose proof (F4 R HR) as R4.
      pose proof (proj1 (timer_touches ch Hc endvalue 1) R Ht w2 tt w3 E3) as R3.
      eapply (res_trans _ _ Hi); [exact R0|]. eapply (res_trans _ _ Hi); [exact R2|]. by eapply (res_trans _ _ Hi).
Qed.

Lemma init_param_val ch time callback s : icu_behind sdev_ops icu_addr -> sdev_slot (drv_sdev_tbl s) ICU_DEV_NAME icu_addr ->
  0 <= ch < 6 -> exists w, init_timer_param sdev_ops (TParam (TimerParam ch 1 time callback)) s = Val (BK_TIMER_SUCCESS, with_world s w) /\
    timer_started ch (bk_timer_cal_endvalue ch time 1) callback (ext (world s)) w /\ cleared_before ch w.
Proof using IcuRegs0 BlockRegs0 Quiet0.
  intros Hb Hs Hc. destruct (init_steps_val ch (bk_timer_cal_endvalue ch time 1) callback s Hb Hs Hc) as (w & E & R).
  { by apply endvalue_u32. }
  exists w. split; [|done]. unfold init_timer_param. mstep by reflexivity. cbn [tp_channel tp_div tp_period t_Int_Handler].
  rewrite (proj2 (Z.ltb_ge _ _)) by lia. exact E.
Qed.

Lemma init_param_us_val ch time callback s : icu_behind sdev_ops icu_addr -> sdev_slot (drv_sdev_tbl s) ICU_DEV_NAME icu_addr ->
  0 <= ch < 3 -> exists w, init_timer_param_us sdev_ops (TParam (TimerParam ch 1 time callback)) s = Val (BK_TIMER_SUCCESS, with_world s w) /\
    timer_started ch (bk_timer_cal_endvalue_us ch time 1) callback (ext (world s)) w /\ cleared_before ch w.
Proof using IcuRegs0 BlockRegs0 Quiet0.
  intros Hb Hs Hc. destruct (init_steps_val ch (bk_timer_cal_endvalue_us ch time 1) callback s Hb Hs ltac:(lia)) as (w & E & R).
  { by apply endvalue_u32. }
  exists w. split; [|done]. unfold init_timer_param_us. mstep by reflexivity. cbn [tp_channel tp_div tp_period t_Int_Handler].
  rewrite (proj2 (Z.ltb_ge _ _)) by lia. unfold init_steps, timer_clock in E. by rewrite (proj2 (Z.ltb_lt _ _)) in E by lia.
Qed.

(** What stopping a timer changes. *)
Definition acks_own (ch : Z) (w w' : W) : Prop := forall i, Z.testbit TIMER_INT_BITS i = true ->
  Z.testbit (treg w' (timer_ctl ch)) i = Z.testbit (treg w (timer_ctl ch)) i && negb (i =? TIMERCTLA_INT_POSI + timer_bit ch).
Definition timer_stopped (ch : Z) w w' : Prop :=
  assigns (timer_ctl ch) (fun x => Z.ldiff x (2 ^ timer_bit ch)) (tsoft w) (tsoft w') /\ beside_timers w w' /\ acks_own ch w w' /\
  forall r, r = TIMER0_2_CTL \/ r = TIMER3_5_CTL -> r <> timer_ctl ch -> pending_kept r w w'.

Lemma unit_val cmd (f : Z -> M W unit) k ch s : 0 <= ch < 6 ->
  (cmd, f, k) = (CMD_TIMER_UNIT_ENABLE, timer_unit_enable, fun x => Z.lor x (2 ^ timer_bit ch)) \/
  (cmd, f, k) = (CMD_TIMER_UNIT_DISABLE, timer_unit_disable, fun x => Z.ldiff x (2 ^ timer_bit ch)) ->
  exists w, bk_timer_ctrl sdev_ops cmd (TWord ch) s = Val ((BK_TIMER_SUCCESS, TWord ch), with_world s w) /\
    assigns (timer_ctl ch) k (tsoft (ext (world s))) (tsoft w) /\ beside_timers (ext (world s)) w /\ acks_own ch (ext (world s)) w /\
    forall R : W -> W -> Prop, respects (own ch) R -> R (ext (world s)) w.
Proof using IcuRegs0 BlockRegs0 Quiet0.
  intros Hc Hk. destruct (timer_touches ch Hc 0 0) as (_ & Te & Td).
  assert (Hrun : truns (f ch) (assigns (timer_ctl ch) k) /\ touches (id : W -> W) (own ch) (f ch) /\ (f = timer_unit_enable \/ f = timer_unit_disable)).
  { destruct Hk as [[= _ -> ->]|[= _ -> ->]]; split_and!; auto; [by apply enable_runs|by apply disable_runs]. }
  destruct Hrun as (Hrun & Hto & Hf). destruct (Hrun (ext (world s))) as (w & E & R). exists w. split_and!; [|done| | |].
  - destruct Hk as [[= -> -> _]|[= -> -> _]]; unfold bk_timer_ctrl; cbn [Z.eqb]; mstep by reflexivity;
      rewrite (proj2 (Z.ltb_ge _ _)) by lia; by mstep by (by apply at_ext_val).
  - exact (Hto _ (own_timer _ _ Hc timer_beside) (ext (world s)) tt w E).
  - destruct (unit_acks ch (ext (world s)) Hc f Hf) as (w' & E' & A). rewrite E in E'. injection E' as <-. exact A.
  - intros R' HR. exact (Hto R' HR (ext (world s)) tt w E).
Qed.

Lemma begin_val bk_timer_op cmd ch time endvalue callback s w : sdev_slot (drv_sdev_tbl s) TIMER_DEV_NAME bk_timer_op -> 0 <= ch < 6 ->
  bk_timer_ctrl sdev_ops cmd (TParam (TimerParam ch 1 time callback)) s =
    Val ((BK_TIMER_SUCCESS, TParam (TimerParam ch 1 time callback)), with_world s w) ->
  timer_started ch endvalue callback (ext (world s)) w -> cleared_before ch w ->
  exists w', timer_begin sdev_ops bk_timer_op cmd ch time callback s = Val (kNoErr, with_world s w') /\
    timer_started ch endvalue callback (ext (world s)) w' /\ interrupts_dropped ch (ext (world s)) w'.
Proof using IcuRegs0 BlockRegs0 Quiet0.
  intros Ht Hc E [R1 R2 R3 R4] (v & Gv & Fv). destruct (unit_val _ _ _ ch (with_world s w) Hc ltac:(by left)) as (w' & E' & A & [I T] & Ak & F).
  cbn [ext world with_world with_ext] in Ak, F.
  assert (Fr : forall R : W -> W -> Prop, respects (own_or_icu ch) R -> (forall (x : timer_vars) v, R v (hput x v)) -> R (ext (world s)) w').
  { intros R HR Hput. eapply (res_trans _ _ HR); [by apply R4|]. by apply F, own_in_either. }
  exists w'. split; [|split].
  - unfold timer_begin, timer_control. rewrite (bind_ret_val _ _ _ _ _ (eq_trans (dev_control_val _ _ _ _ _ _ Ht) E)).
    mstep by reflexivity. mstep by (rewrite dev_control_val by done; exact E'). by mstep by reflexivity.
  - cbn [ext world with_world with_ext] in *. split.
    + intros b Hb. rewrite A. destruct (timer_place ch Hc) as (_ & _ & Hne & _).
      destruct (Z.eqb_spec b (timer_ctl ch)) as [->|Hbc].
      * rewrite R1 by done. rewrite (proj2 (Z.eqb_neq _ _)), Z.eqb_refl by done. unfold configured.
        rewrite <- Z.lor_assoc. by rewrite Z.lor_diag.
      * rewrite R1 by done. by rewrite (proj2 (Z.eqb_neq b (timer_ctl ch))).
    + by rewrite T.
    + intros b Hb. rewrite I. by apply R3.
    + exact Fr.
  - split.
    + exists v. split; [done|]. intros R HR. eapply (res_trans _ _ HR); [by apply Fv|]. by apply F, own_in_either.
    + destruct (timer_place ch Hc) as (Hb & _). rewrite Ak by (assert (Hs : timer_bit ch = 0 \/ timer_bit ch = 1 \/ timer_bit ch = 2) by lia;
        by destruct Hs as [->|[->| ->]]). by rewrite Z.eqb_refl, andb_false_r.
    + intros r Hr Hne. apply Fr; [by apply respects_pending|]. intros x u i _ Hp. rewrite breg_put; [done|..]; [apply _|by destruct Hr as [-> | ->]].
Qed.
End system.

(** C8: starting a timer gives its registers the period and the divider, sets
    its enable bit and its handler, powers the clock of its group and enables the
    interrupt; stopping it then clears its enable bit; the other registers of the timers and of the
    interrupt unit and the other entries of the table stay as they are.  Of the interrupts
    that are pending, a start drops those of all timers of the group and a stop the timer's own;
    those of the other group stay pending.  A timer that
    does not exist, or for microseconds one of the slow clock, stops the program. *)
Theorem timer_starts_and_stops {W} `{RegBus W, !IcuRegs W, !BlockRegs timer_block W, !Holds timer_vars W, !Quiet timer_vars W}
    sdev_ops bk_timer_op icu_addr ch time callback (s : drv_state (intc_st W)) :
  icu_behind sdev_ops icu_addr -> sdev_slot (drv_sdev_tbl s) ICU_DEV_NAME icu_addr -> sdev_slot (drv_sdev_tbl s) TIMER_DEV_NAME bk_timer_op ->
  is_u8 ch ->
  (ch < 6 -> exists w w', bk_timer_initialize sdev_ops bk_timer_op ch time callback s = Val (kNoErr, with_world s w) /\
    timer_started ch (bk_timer_cal_endvalue ch time 1) callback (ext (world s)) w /\ interrupts_dropped ch (ext (world s)) w /\
    bk_timer_stop sdev_ops bk_timer_op ch (with_world s w) = Val (kNoErr, with_world s w') /\ timer_stopped ch w w') /\
  (ch < 3 -> exists w, bk_timer_initialize_us sdev_ops bk_timer_op ch time callback s = Val (kNoErr, with_world s w) /\
    timer_started ch (bk_timer_cal_endvalue_us ch time 1) callback (ext (world s)) w /\ interrupts_dropped ch (ext (world s)) w) /\
  (6 <= ch -> bk_timer_initialize sdev_ops bk_timer_op ch time callback s = Err AssertFail /\
    bk_timer_stop sdev_ops bk_timer_op ch s = Err AssertFail) /\
  (3 <= ch -> bk_timer_initialize_us sdev_ops bk_timer_op ch time callback s = Err AssertFail).
Proof.
  intros Hb Hi Ht Hc. unfold is_u8 in Hc. split_and!.
  - intros Hlt. destruct (init_param_val sdev_ops icu_addr ch time callback s Hb Hi ltac:(lia)) as (w0 & E0 & R0 & C0).
    destruct (begin_val sdev_ops bk_timer_op CMD_TIMER_INIT_PARAM ch time (bk_timer_cal_endvalue ch time 1) callback s w0 Ht ltac:(lia)) as (w & E & R & D);
      [unfold bk_timer_ctrl; cbn [Z.eqb]; by mstep by exact E0|done|done|].
    destruct (unit_val sdev_ops _ _ _ ch (with_world s w) ltac:(lia) ltac:(by right)) as (w' & E' & A & B & Ak & F).
    exists w, w'. split_and!; [exact E|exact R|exact D| |].
    2:{ split_and!; [done..|]. intros r Hr Hne. exact (F _ (own_in_either _ _ (respects_pending ch r Hr Hne ltac:(lia)))). }
    unfold bk_timer_stop, timer_control. mstep by (rewrite dev_control_val by done; exact E'). by mstep by reflexivity.
  - intros Hlt. destruct (init_param_us_val sdev_ops icu_addr ch time callback s Hb Hi ltac:(lia)) as (w0 & E0 & R0 & C0).
    eapply begin_val; [done|lia| |exact R0|exact C0]. unfold bk_timer_ctrl; cbn [Z.eqb]; by mstep by exact E0.
  - intros Hge. split.
    + unfold bk_timer_initialize, timer_begin, timer_control. rewrite (bind_ret_val _ _ _ (BK_TIMER_FAILURE, TParam (TimerParam ch 1 time callback)) s); [done|].
      rewrite dev_control_val by done. unfold bk_timer_ctrl; cbn [Z.eqb]. mstep by (unfold init_timer_param; mstep by reflexivity;
        cbn [tp_channel]; rewrite (proj2 (Z.ltb_lt _ _)) by lia; reflexivity). done.
    + unfold bk_timer_stop, timer_control. rewrite (bind_ret_val _ _ _ (BK_TIMER_FAILURE, TWord ch) s); [done|].
      rewrite dev_control_val by done. unfold bk_timer_ctrl; cbn [Z.eqb]. mstep by reflexivity.
      by rewrite (proj2 (Z.ltb_lt _ _)) by lia.
  - intros Hge. unfold bk_timer_initialize_us, timer_begin, timer_control.
    rewrite (bind_ret_val _ _ _ (BK_TIMER_FAILURE, TParam (TimerParam ch 1 time callback)) s); [done|].
    rewrite dev_control_val by done. unfold bk_timer_ctrl; cbn [Z.eqb]. mstep by (unfold init_timer_param_us; mstep by reflexivity;
      cbn [tp_channel]; rewrite (proj2 (Z.ltb_lt _ _)) by lia; reflexivity). done.
Qed.

(** ** The timers beside an interrupt unit *)
Definition timer_board : Type := with_state timer_vars (with_file timer_block icu_file).
Definition TimerBoard (v : timer_vars) (t : Z -> Z) (i : icu_file) : timer_board := WithState v (WithFile timer_block t i).

(** Timers 1 and 4 fire; timer 1 has the handler at 9. *)
Definition demo_timers : timer_board :=
  TimerBoard (TimerVars (<[1%nat := 9]> (replicate 6 0))) (fun a => if in_timer a && (timer_pending a =? TIMER_INT_BITS) then 0x100 else 0)
    (IcuFile (fun _ => 0xFFFFFFFF) []).

(** A handler that sets the period of its timer. *)
Definition period_handler (h i : Z) : M timer_board unit := REG_WRITE (timer_period i) h.
Lemma period_handler_ok : timer_handlers_ok period_handler.
Proof.
  intros h i s. exists (bus_write (timer_period i) h s). split; [done|]. split; [|done]. unfold handlers.
  by rewrite (quiet_write (X := timer_vars)).
Qed.

Definition demo_timer_tbl : list DRV_SDEV_S :=
  [DRV_DEV (Some TIMER_DEV_NAME) 0 DD_STATE_CLOSED (Some 2); DRV_DEV (Some ICU_DEV_NAME) 0 DD_STATE_CLOSED (Some 1)].
Definition demo_timer_ops (a : Z) : SDD_OPERATIONS (intc_st timer_board) := sop_lift (fun A => on_ext (A := A)) icu_op.
Definition demo_timer_all : drv_state (intc_st timer_board) := DrvState [] demo_timer_tbl (intc_start demo_timers).
Lemma demo_timer_slots : sdev_slot demo_timer_tbl ICU_DEV_NAME 1 /\ sdev_slot demo_timer_tbl TIMER_DEV_NAME 2.
Proof. split; [by exists 1%nat|by exists 0%nat]. Qed.

Lemma timer_period_bounds_witness : is_u32 165192 /\ bk_timer_cal_endvalue 0 165192 1 < 165192 * 26000.
Proof. split; [done|]. by apply (timer_period_bounds 0 165192 1). Defined.

Lemma configure_drops_interrupts_witness : exists h', timer_configure 0 26000 1 demo_timers = Val (tt, h') /\
  Z.testbit (treg demo_timers TIMER0_2_CTL) 8 = true /\ Z.testbit (treg h' TIMER0_2_CTL) 8 = false.
Proof.
  destruct (configure_drops_interrupts 0 26000 demo_timers ltac:(lia) ltac:(done)) as (h' & E & P). exists h'.
  split; [exact E|]. split; [by vm_compute|]. by apply (P 1).
Defined.

Lemma timer_isr_serves_witness : timer_handlers_ok period_handler /\
  exists s1 s', bk_timer_isr period_handler 1 demo_timers = Val (tt, s') /\ served period_handler demo_timers [(9, 1)] s1.
Proof.
  split; [exact period_handler_ok|].
  destruct (timer_isr_serves period_handler 1 demo_timers ltac:(lia) period_handler_ok eq_refl) as (s1 & s2 & s3 & s' & E & R & _).
  by exists s1, s'.
Defined.

Lemma timer_starts_and_stops_witness : is_u8 4 /\ exists w,
  bk_timer_initialize demo_timer_ops 2 4 1000 7 demo_timer_all = Val (kNoErr, with_world demo_timer_all w) /\
  tsoft w (timer_period 4) = 32000 /\ handlers w = [0; 9; 0; 0; 7; 0].
Proof.
  split; [done|]. destruct demo_timer_slots as [Hi Ht].
  destruct (proj1 (timer_starts_and_stops demo_timer_ops 2 1 4 1000 7 demo_timer_all eq_refl Hi Ht ltac:(done)) ltac:(lia)) as (w & w' & E & [R T _] & _).
  exists w. split; [exact E|]. split; [by rewrite R|by rewrite T].
Defined.
