(* ===== verification/Wdg.v ===== *)
(** * The watchdog and the reset types (driver/wdt/wdt.c, components/user_driver/BkDriverWdg.c, components/misc/start_type.c)

    The watchdog is given its period with two keys, and again at every feed, which
    also leaves the type of the reset that would follow in a register that
    survives it; at the start the type of the last reset is worked out from there.
    The driver runs over the registry, on any state with its variables and a bus. *)
From stdpp Require Import strings.
From S2P Require Import Prelude DrvModel Icu Regs Intc Stack.
Local Open Scope Z_scope.

Definition WDT_BASE : Z := 0x00802900.
Definition WDT_CTRL_REG : Z := WDT_BASE + 0 * 4.
Definition WDT_KEY_POSI : Z := 16.
Definition WDT_1ST_KEY : Z := 0x5A.
Definition WDT_2ND_KEY : Z := 0xA5.
Definition WDT_PERIOD_POSI : Z := 0.
Definition WDT_PERIOD_MASK : Z := 0xFFFF.
Definition WDT_SUCCESS : Z := 0.
Definition WDT_DEV_NAME : string := "wdt".
Definition WDT_CMD_MAGIC : Z := 0xe330000.
Definition WCMD_POWER_UP : Z := WDT_CMD_MAGIC + 1.
Definition WCMD_SET_PERIOD : Z := WDT_CMD_MAGIC + 2.
Definition WCMD_RELOAD_PERIOD : Z := WDT_CMD_MAGIC + 3.
Definition WCMD_POWER_DOWN : Z := WDT_CMD_MAGIC + 4.
Definition PWD_ARM_WATCHDOG_CLK_BIT : Z := Z.shiftl 1 8.

(** start_type_pub.h *)
Definition START_TYPE_ADDR : Z := 0x0080a080.
Definition START_TYPE_DMEMORY_ADDR : Z := 0x0040001c.
Definition CRASH_XAT0_VALUE : Z := 0xbedead00.
Definition CRASH_UNDEFINED_VALUE : Z := 0xbedead01.
Definition CRASH_PREFETCH_ABORT_VALUE : Z := 0xbedead02.
Definition CRASH_DATA_ABORT_VALUE : Z := 0xbedead03.
Definition CRASH_UNUSED_VALUE : Z := 0xbedead04.
Definition CRASH_2ND_XAT0_VALUE : Z := 0xbedead05.
Definition RESET_SOURCE_POWERON : Z := 0x0.
Definition RESET_SOURCE_REBOOT : Z := 0x1.
Definition RESET_SOURCE_WATCHDOG : Z := 0x2.
Definition RESET_SOURCE_CRASH_XAT0 : Z := 0x5.
Definition RESET_SOURCE_CRASH_UNDEFINED : Z := 0x6.
Definition RESET_SOURCE_CRASH_PREFETCH_ABORT : Z := 0x7.
Definition RESET_SOURCE_CRASH_DATA_ABORT : Z := 0x8.
Definition RESET_SOURCE_CRASH_UNUSED : Z := 0x9.
Definition RESET_SOURCE_CRASH_PER_XAT0 : Z := 0xc.

Record wdt_vars := WdtVars { g_wdt_period : Z; start_type : Z }.
Definition wdt_start : wdt_vars := WdtVars 0 0.

(** ** Reset types *)
Section start.
Context {S : Type} `{RegBus S, !Holds wdt_vars S}.
(** The cause of a wake from deep sleep, 0 for none. *)
Context (sctrl_get_deep_sleep_wake_soure : M S Z).

Definition set_start_type (t : Z) : M S unit := sets (fun v => WdtVars (g_wdt_period v) t).
Definition bk_misc_get_start_type : M S Z := gets start_type.

Definition bk_misc_init_start_type : M S Z :=
  misc_value ← REG_READ START_TYPE_ADDR;
  wake ← sctrl_get_deep_sleep_wake_soure;
  set_start_type wake;;
  when (wake =? 0) (
    if misc_value =? RESET_SOURCE_REBOOT then set_start_type misc_value
    else if misc_value =? CRASH_UNDEFINED_VALUE then set_start_type RESET_SOURCE_CRASH_UNDEFINED
    else if misc_value =? CRASH_PREFETCH_ABORT_VALUE then set_start_type RESET_SOURCE_CRASH_PREFETCH_ABORT
    else if misc_value =? CRASH_DATA_ABORT_VALUE then set_start_type RESET_SOURCE_CRASH_DATA_ABORT
    else if misc_value =? CRASH_UNUSED_VALUE then set_start_type RESET_SOURCE_CRASH_UNUSED
    else if misc_value =? CRASH_XAT0_VALUE then set_start_type RESET_SOURCE_CRASH_PER_XAT0
    else if misc_value =? CRASH_2ND_XAT0_VALUE then set_start_type RESET_SOURCE_CRASH_XAT0
    else if misc_value =? RESET_SOURCE_WATCHDOG then
      v ← REG_READ START_TYPE_DMEMORY_ADDR;
      if CRASH_XAT0_VALUE =? v then set_start_type RESET_SOURCE_CRASH_PER_XAT0 else set_start_type misc_value
    else set_start_type RESET_SOURCE_POWERON);;
  REG_WRITE START_TYPE_DMEMORY_ADDR CRASH_XAT0_VALUE;;
  REG_WRITE START_TYPE_ADDR CRASH_XAT0_VALUE;;
  bk_misc_get_start_type.

Definition bk_misc_update_set_type (type : Z) : M S unit := REG_WRITE START_TYPE_ADDR (u32 type).
End start.

(** ** The watchdog *)
Section wdt.
Context {W : Type} `{RegBus W, !Holds wdt_vars W}.
Abbreviation st := (drv_state W).
Context (sdev_ops : Z -> SDD_OPERATIONS W) (wdt_op : Z).

(** The two writes with the keys. *)
Definition wdt_write_period (period : Z) : M st unit :=
  REG_WRITE WDT_CTRL_REG (Z.lor (Z.shiftl WDT_1ST_KEY WDT_KEY_POSI) (Z.shiftl (Z.land period WDT_PERIOD_MASK) WDT_PERIOD_POSI));;
  REG_WRITE WDT_CTRL_REG (Z.lor (Z.shiftl WDT_2ND_KEY WDT_KEY_POSI) (Z.shiftl (Z.land period WDT_PERIOD_MASK) WDT_PERIOD_POSI)).

Definition set_period (p : Z) : M st unit := sets (fun v => WdtVars p (start_type v)).

(** A power-down clears the period before the clock is switched. *)
Definition wdt_ctrl (cmd : Z) (param : option Z) : M st Z :=
  if cmd =? WCMD_POWER_DOWN then
    set_period 0;;
    r ← sddev_control sdev_ops (Some ICU_DEV_NAME) CMD_CLK_PWR_DOWN PWD_ARM_WATCHDOG_CLK_BIT; mret r.1
  else if cmd =? WCMD_POWER_UP then
    r ← sddev_control sdev_ops (Some ICU_DEV_NAME) CMD_CLK_PWR_UP PWD_ARM_WATCHDOG_CLK_BIT; mret r.1
  else if cmd =? WCMD_RELOAD_PERIOD then
    p ← gets g_wdt_period;
    wdt_write_period p;;
    bk_misc_update_set_type RESET_SOURCE_WATCHDOG;;
    mret WDT_SUCCESS
  else if cmd =? WCMD_SET_PERIOD then
    match param with
    | None => fail AssertFail
    | Some p => set_period p;; wdt_write_period p;; mret WDT_SUCCESS
    end
  else mret WDT_SUCCESS.

Definition wdt_init : M st unit := _ ← sddev_register_dev (Some WDT_DEV_NAME) (Some wdt_op); mret tt.
Definition wdt_exit : M st unit := _ ← sddev_unregister_dev (Some WDT_DEV_NAME); mret tt.

(** ** The calls of applications *)
Definition wdt_control : Z -> option Z -> M st Z := dev_control WDT_DEV_NAME wdt_op wdt_ctrl.

Definition bk_wdg_initialize (timeout : Z) : M st Z :=
  ret ← wdt_control WCMD_POWER_UP None;
  assert (WDT_SUCCESS =? ret);;
  ret ← wdt_control WCMD_SET_PERIOD (Some timeout);
  assert (WDT_SUCCESS =? ret);;
  mret 0.
Definition bk_wdg_reload : M st unit :=
  ret ← wdt_control WCMD_RELOAD_PERIOD None;
  assert (WDT_SUCCESS =? ret).
Definition bk_wdg_finalize : M st Z :=
  ret ← wdt_control WCMD_POWER_DOWN None;
  assert (WDT_SUCCESS =? ret);;
  mret 0.

(** The reset after a crash, up to the loop that waits for it. *)
Definition bk_misc_crash_xat0_reboot (delay_ms : Z -> M st unit) : M st unit :=
  _ ← wdt_control WCMD_POWER_DOWN None;
  delay_ms 100;;
  _ ← wdt_control WCMD_SET_PERIOD (Some 5);
  _ ← wdt_control WCMD_POWER_UP None;
  mret tt.
Definition bk_misc_check_start_type (delay_ms : Z -> M st unit) : M st unit :=
  t ← gets start_type;
  when (RESET_SOURCE_CRASH_PER_XAT0 =? t) (
    REG_WRITE START_TYPE_ADDR CRASH_2ND_XAT0_VALUE;;
    bk_misc_crash_xat0_reboot delay_ms).
End wdt.
