(* ===== verification/Clock.v ===== *)
(** * The system clock (components/misc/fake_clock.c, components/power_save/mcu_ps.c)

    The tick of a hardware timer advances a 64-bit clock, its seconds, the kernel
    and the watchdogs; the clock is kept right against a slow timer, the time of
    the radio, or the time stamps of beacons: ticks that were lost are added, and
    ticks too many become a debt that is paid by skipping one interrupt in five.
    The code runs on any state with the clock's variables, over the calls of the
    kernel and the radio it uses ([ClockEnv]); interrupts are masked, so each call
    is one step. *)
From stdpp Require Import list.
From S2P Require Import Prelude Stack Timer Pwm.
Local Open Scope Z_scope.

Definition FCLK_DURATION_MS : Z := 2.
Definition FCLK_SECOND : Z := 1000 / FCLK_DURATION_MS.
Definition BK_MS_TO_TICKS (x : Z) : Z := x / FCLK_DURATION_MS.
Definition BK_TICKS_TO_MS (x : Z) : Z := x * FCLK_DURATION_MS.
Definition ONE_CAL_TIME : Z := 15000.
Definition CAL_TIMER_ID : Z := BKTIMER2.
Definition BK_TIMER_ID3 : Z := 3.
Definition BK_PWM_TIMER_ID0 : Z := 6.
Definition CFG_INT_WDG_PERIOD_MS : Z := 10000.
Definition CFG_TASK_WDG_PERIOD_MS : Z := 60000.
Definition INT_WDG_FEED_PERIOD_TICK : Z := Z.shiftr (BK_MS_TO_TICKS CFG_INT_WDG_PERIOD_MS) 4.
Definition TASK_WDG_PERIOD_TICK : Z := BK_MS_TO_TICKS CFG_TASK_WDG_PERIOD_MS.

(** 64-bit and signed 32-bit integers. *)
Definition u64 (x : Z) : Z := x mod 2 ^ 64.
Definition s32 (x : Z) : Z := (x + 2 ^ 31) mod 2 ^ 32 - 2 ^ 31.

(** ** The variables *)
Record fclk_vars := Fclk { current_clock : Z; current_seconds : Z; second_countdown : Z; fclk_id : Z; use_cal_net : Z }.
Record CAL_TICK_T := CalTick { cal_fclk_tick : Z; tmp1 : Z }.
Record wdg_vars := WdgVars { s_last_int_wdg_feed : Z; s_last_task_wdg_feed_tick : Z; s_last_task_wdg_log_tick : Z }.
Record MCU_PS_INFO := McuPsInfo { mcu_ps_on : Z; peri_busy_count : Z; mcu_prevent : Z }.
Record MCU_PS_TSF := McuPsTsf { first_tick : Z; first_tsf : Z }.
Record MCU_PS_MACHW_TM := McuPsMachw { machw_fclk_tick : Z; machw_tm : Z }.
Record debt_vars := Debt { increase_tick : Z; need_pass : Z }.
Record bcn_vars := Bcn { bssid : list Z; last_tsf : Z }.

Record clock_vars := ClockVars {
  fclk : fclk_vars; cal_tick_save : CAL_TICK_T; wdgs : wdg_vars; mcu_ps_info : MCU_PS_INFO;
  mcu_ps_tsf_save : MCU_PS_TSF; mcu_ps_machw_save : MCU_PS_MACHW_TM; debt : debt_vars; bcns : bcn_vars;
}.
Definition clock_start : clock_vars :=
  ClockVars (Fclk 0 0 FCLK_SECOND BK_PWM_TIMER_ID0 0) (CalTick 0 0) (WdgVars 0 0 0) (McuPsInfo 0 0 0) (McuPsTsf 0 0) (McuPsMachw 0 0)
    (Debt 0 0) (Bcn (replicate 6 0) 0).

(** Assigning a group of the variables. *)
Definition with_fclk (f : fclk_vars -> fclk_vars) (v : clock_vars) : clock_vars :=
  ClockVars (f (fclk v)) (cal_tick_save v) (wdgs v) (mcu_ps_info v) (mcu_ps_tsf_save v) (mcu_ps_machw_save v) (debt v) (bcns v).
Definition with_cal (c : CAL_TICK_T) (v : clock_vars) : clock_vars :=
  ClockVars (fclk v) c (wdgs v) (mcu_ps_info v) (mcu_ps_tsf_save v) (mcu_ps_machw_save v) (debt v) (bcns v).
Definition with_wdgs (f : wdg_vars -> wdg_vars) (v : clock_vars) : clock_vars :=
  ClockVars (fclk v) (cal_tick_save v) (f (wdgs v)) (mcu_ps_info v) (mcu_ps_tsf_save v) (mcu_ps_machw_save v) (debt v) (bcns v).
Definition with_mcu (f : MCU_PS_INFO -> MCU_PS_INFO) (v : clock_vars) : clock_vars :=
  ClockVars (fclk v) (cal_tick_save v) (wdgs v) (f (mcu_ps_info v)) (mcu_ps_tsf_save v) (mcu_ps_machw_save v) (debt v) (bcns v).
Definition with_tsf (t : MCU_PS_TSF) (v : clock_vars) : clock_vars :=
  ClockVars (fclk v) (cal_tick_save v) (wdgs v) (mcu_ps_info v) t (mcu_ps_machw_save v) (debt v) (bcns v).
Definition with_machw (m : MCU_PS_MACHW_TM) (v : clock_vars) : clock_vars :=
  ClockVars (fclk v) (cal_tick_save v) (wdgs v) (mcu_ps_info v) (mcu_ps_tsf_save v) m (debt v) (bcns v).
Definition with_debt (f : debt_vars -> debt_vars) (v : clock_vars) : clock_vars :=
  ClockVars (fclk v) (cal_tick_save v) (wdgs v) (mcu_ps_info v) (mcu_ps_tsf_save v) (mcu_ps_machw_save v) (f (debt v)) (bcns v).
Definition with_bcns (b : bcn_vars) (v : clock_vars) : clock_vars :=
  ClockVars (fclk v) (cal_tick_save v) (wdgs v) (mcu_ps_info v) (mcu_ps_tsf_save v) (mcu_ps_machw_save v) (debt v) b.

Definition set_increase (x : Z) : debt_vars -> debt_vars := fun d => Debt x (need_pass d).

(** The calls of the kernel, and of the radio and its power save. *)
Class ClockEnv (S : Type) := {
  xTaskIncrementTick : M S Z;
  vTaskStepTick : Z -> M S unit;
  vTaskSwitchContext : M S unit;
  preempt_delayed_schedule_get_flag : M S Z;
  preempt_delayed_schedule_clear_flag : M S unit;
  hal_machw_time : M S Z;
  bk_unconditional_sleep_mode_get : M S Z;
  power_save_if_ps_rf_dtim_enabled : M S Z;
}.

Section clock.
Context {S : Type} `{!Holds clock_vars S, !ClockEnv S} (bk_wdg_reload : M S unit).

(** ** Reading the clock *)
Definition fclk_freertos_get_tick32 : M S Z := gets (fun v => u32 (current_clock (fclk v))).
Definition fclk_freertos_get_tick64 : M S Z := gets (fun v => current_clock (fclk v)).
Definition fclk_get_tick : M S Z := fclk_freertos_get_tick32.
Definition fclk_get_second : M S Z := t ← fclk_freertos_get_tick32; mret (t / FCLK_SECOND).
Definition fclk_from_sec_to_tick (sec : Z) : Z := u32 (sec * FCLK_SECOND).
Definition fclk_get_tick_id : M S Z := gets (fun v => fclk_id (fclk v)).
Definition fclk_cal_endvalue (mode : Z) : Z :=
  if PWM_CLK_32K =? mode then FCLK_DURATION_MS * 32 else if PWM_CLK_26M =? mode then FCLK_DURATION_MS * 26000 else 1.
Definition fclk_reset_count : M S unit :=
  sets (with_fclk (fun f => Fclk 0 0 (second_countdown f) (fclk_id f) (use_cal_net f))).

(** The clock in milliseconds, as its callers keep it. *)
Definition clock_ms : M S Z := t ← fclk_get_tick; mret (u32 (BK_TICKS_TO_MS t)).

(** ** The debt of ticks (mcu_ps.c) *)
Definition mcu_ps_is_on : M S bool := gets (fun v => 1 =? mcu_ps_on (mcu_ps_info v)).
Definition mcu_ps_increase_clr : M S unit := sets (with_debt (set_increase 0)).

(** The new value of what the parameter points to. *)
Definition mcu_ps_cal_increase_tick (lost_p : Z) : M S Z :=
  let lost := s32 lost_p in
  inc ← gets (fun v => increase_tick (debt v));
  if (lost <=? 0) || (0 =? inc) then mret lost_p
  else
    let lost := s32 (lost + inc) in
    if lost <? 0 then sets (with_debt (set_increase lost));; mret 0
    else sets (with_debt (set_increase 0));; mret lost.

(** Whether the tick counts; what the power save says is not used. *)
Definition mcu_ps_need_pstick : M S Z :=
  on ← mcu_ps_is_on;
  when (on : bool) (_ ← power_save_if_ps_rf_dtim_enabled; mret tt);;
  n ← gets (fun v => need_pass (debt v));
  sets (with_debt (fun d => Debt (increase_tick d) (u32 (need_pass d + 1))));;
  if n mod 5 =? 0 then mcu_ps_cal_increase_tick FCLK_DURATION_MS else mret FCLK_DURATION_MS.

(** ** The watchdogs *)
Definition int_watchdog_feed : M S unit :=
  current_tick ← fclk_freertos_get_tick64;
  last ← gets (fun v => s_last_int_wdg_feed (wdgs v));
  when (INT_WDG_FEED_PERIOD_TICK <=? u64 (current_tick - last)) (
    bk_wdg_reload;;
    sets (with_wdgs (fun w => WdgVars current_tick (s_last_task_wdg_feed_tick w) (s_last_task_wdg_log_tick w)))).

Definition task_watchdog_feed : M S unit :=
  t ← fclk_freertos_get_tick64;
  sets (with_wdgs (fun w => WdgVars (s_last_int_wdg_feed w) t (s_last_task_wdg_log_tick w))).

(** The check prints a warning, at most once per period. *)
Definition task_watchdog_timeout_check : M S unit :=
  w ← gets wdgs;
  when (truthy (s_last_task_wdg_feed_tick w)) (
    current_tick ← fclk_freertos_get_tick64;
    when (TASK_WDG_PERIOD_TICK <? u64 (current_tick - s_last_task_wdg_feed_tick w)) (
      when (TASK_WDG_PERIOD_TICK <? u64 (current_tick - s_last_task_wdg_log_tick w)) (
        sets (with_wdgs (fun w => WdgVars (s_last_int_wdg_feed w) (s_last_task_wdg_feed_tick w) current_tick))))).

(** ** The tick *)
Definition clock_tick (f : fclk_vars) : fclk_vars :=
  let f := Fclk (u64 (current_clock f + 1)) (current_seconds f) (u32 (second_countdown f - 1)) (fclk_id f) (use_cal_net f) in
  if second_countdown f =? 0 then Fclk (current_clock f) (u32 (current_seconds f + 1)) FCLK_SECOND (fclk_id f) (use_cal_net f) else f.

Definition fclk_hdl (param : Z) : M S unit :=
  pst ← mcu_ps_need_pstick;
  when (truthy pst) (
    sets (with_fclk clock_tick);;
    int_watchdog_feed;;
    task_watchdog_timeout_check;;
    r ← xTaskIncrementTick;
    b ← (if truthy r then mret true else flag ← preempt_delayed_schedule_get_flag; mret (truthy flag));
    when (b : bool) (preempt_delayed_schedule_clear_flag;; vTaskSwitchContext)).

(** The seconds of a number of ticks: [while (tick >= FCLK_SECOND)]; a second
    fits in the ticks at most as often as the fuel says. *)
Fixpoint whole_seconds (n : nat) (secs tick : Z) : option (Z * Z) :=
  match n with
  | O => None
  | Datatypes.S n' => if FCLK_SECOND <=? tick then whole_seconds n' (u32 (secs + 1)) (tick - FCLK_SECOND) else Some (secs, tick)
  end.

Definition clock_advance (tick : Z) (f : fclk_vars) : option fclk_vars :=
  let clock := u64 (current_clock f + tick) in
  match whole_seconds (Z.to_nat (tick / FCLK_SECOND + 1)) (current_seconds f) tick with
  | None => None
  | Some (secs, tick) =>
    Some (if second_countdown f <=? tick
          then Fclk clock (u32 (secs + 1)) (u32 (FCLK_SECOND - (tick - second_countdown f))) (fclk_id f) (use_cal_net f)
          else Fclk clock secs (second_countdown f - tick) (fclk_id f) (use_cal_net f))
  end.

Definition fclk_freertos_update_tick (tick : Z) : M S unit :=
  v ← gets fclk;
  f ← lift_res (of_option NoFuel (clock_advance tick v));
  sets (with_fclk (fun _ => f)).

Definition fclk_update_tick (tick : Z) : M S unit :=
  if tick =? 0 then mret tt
  else
    mcu_ps_increase_clr;;
    fclk_freertos_update_tick tick;;
    vTaskStepTick tick.

(** ** Against the time of the radio *)
Definition mcu_ps_machw_reset : M S unit := sets (with_machw (McuPsMachw 0 0)).
Definition mcu_ps_machw_init : M S unit :=
  ms ← clock_ms;
  t ← hal_machw_time;
  sets (with_machw (McuPsMachw ms t)).

(** [hal_machw_time] is read for the comparison only when the others are false. *)
Definition machw_invalid : M S bool :=
  m ← gets (fun v => machw_tm (mcu_ps_machw_save v));
  if (0 =? m) || (0xdead5555 =? m) then mret true else t ← hal_machw_time; mret (0xdead5555 =? t).

(** What the three differences lost, as an unsigned word. *)
Definition machw_lost (machw ms : Z) (save : MCU_PS_MACHW_TM) : Z :=
  u32 (u32 (machw - machw_tm save) / 1000 - u32 (ms - machw_fclk_tick save)).

Definition mcu_ps_machw_cal : M S unit :=
  sleeping ← (u ← bk_unconditional_sleep_mode_get;
    if 1 =? u then mret true
    else on ← mcu_ps_is_on; if (on : bool) then d ← power_save_if_ps_rf_dtim_enabled; mret (truthy d) else mret false);
  if negb sleeping then mret tt
  else
    invalid ← machw_invalid;
    if (invalid : bool) then mcu_ps_machw_init
    else
      ms ← clock_ms;
      machw ← hal_machw_time;
      save ← gets mcu_ps_machw_save;
      let lost := machw_lost machw ms save in
      if (lost <? 0xFFFFFFFF / 2) && (0 <? lost) then
        if 50000 <? lost then mcu_ps_machw_init
        else
          lost ← mcu_ps_cal_increase_tick lost;
          fclk_update_tick (BK_MS_TO_TICKS lost);;
          mcu_ps_machw_init
      else mret tt.

(** ** Against the time stamps of beacons *)
Definition tsf_reset (tsf : Z) : M S unit := ms ← clock_ms; sets (with_tsf (McuPsTsf ms tsf)).

Definition mcu_ps_tsf_cal (tsf : Z) : M S unit :=
  save ← gets mcu_ps_tsf_save;
  if (0 =? tsf) || (0 =? first_tsf save) then tsf_reset tsf
  else
    ms ← clock_ms;
    if tsf <? first_tsf save then tsf_reset tsf
    else
      let loss := s32 ((tsf - first_tsf save) / 1000 - u32 (ms - first_tick save)) in
      if 0 <? loss then
        if 50000 <? loss then tsf_reset tsf
        else
          fclk_update_tick (BK_MS_TO_TICKS loss);;
          mcu_ps_machw_init;;
          mcu_ps_increase_clr
      else if loss <? 0 then
        if loss <? -50000 then tsf_reset tsf else sets (with_debt (set_increase loss))
      else mret tt.

(** A beacon: its time stamp and the address of its sender. *)
Definition mcu_ps_bcn_callback (tsf : Z) (addr3 : list Z) : M S unit :=
  net ← gets (fun v => use_cal_net (fclk v));
  b ← gets bcns;
  if net =? 0 then sets (with_bcns (Bcn (bssid b) tsf))
  else
    bssid' ← (if negb (bool_decide (addr3 = bssid b)) || (tsf <=? last_tsf b)
      then mcu_ps_tsf_cal 0;; mret addr3
      else mcu_ps_tsf_cal tsf;; mret (bssid b));
    sets (with_bcns (Bcn bssid' tsf)).

(** ** Against the calibration timer *)
Definition timer_cal_init : M S unit := ms ← clock_ms; sets (with_cal (CalTick ms 0)).

Definition timer_cal_tick : M S unit :=
  ms ← clock_ms;
  c ← gets cal_tick_save;
  let t := u32 (tmp1 c + ONE_CAL_TIME) in
  sets (with_cal (CalTick (cal_fclk_tick c) t));;
  let lost := s32 (t - ms) in
  (if 2 * FCLK_DURATION_MS <=? lost then
     fclk_update_tick (u32 (BK_MS_TO_TICKS (lost - FCLK_DURATION_MS)));;
     mcu_ps_increase_clr
   else when (lost <=? -(2 * FCLK_DURATION_MS)) (sets (with_debt (set_increase (lost + FCLK_DURATION_MS)))));;
  mcu_ps_machw_init.

Definition cal_timer_hdl (param : Z) : M S unit := timer_cal_tick.

(** ** The processor's power save *)
Definition peri_busy_count_add : M S unit := sets (with_mcu (fun i => McuPsInfo (mcu_ps_on i) (s32 (peri_busy_count i + 1)) (mcu_prevent i))).
Definition peri_busy_count_dec : M S unit := sets (with_mcu (fun i => McuPsInfo (mcu_ps_on i) (s32 (peri_busy_count i - 1)) (mcu_prevent i))).
Definition peri_busy_count_get : M S Z := gets (fun v => u32 (peri_busy_count (mcu_ps_info v))).
Definition mcu_prevent_set (prevent : Z) : M S unit :=
  sets (with_mcu (fun i => McuPsInfo (mcu_ps_on i) (peri_busy_count i) (Z.lor (mcu_prevent i) prevent))).
Definition mcu_prevent_clear (prevent : Z) : M S unit :=
  sets (with_mcu (fun i => McuPsInfo (mcu_ps_on i) (peri_busy_count i) (Z.ldiff (mcu_prevent i) prevent))).
Definition mcu_prevent_get : M S Z := gets (fun v => mcu_prevent (mcu_ps_info v)).
Definition mcu_ps_enable : M S unit := sets (with_mcu (fun i => McuPsInfo 1 (peri_busy_count i) (mcu_prevent i))).
Definition mcu_ps_disable : M S unit := sets (with_mcu (fun i => McuPsInfo 0 (peri_busy_count i) (mcu_prevent i))).
End clock.
