(* ===== verification/ClockCorrect.v ===== *)
(** * Correctness of the clock

    What the kernel and the radio promise ([ClockEnvOk]); the clock, its seconds
    and the kernel's ticks agree after any sequence of ticks and corrections; how
    a debt is paid; how far a correction leaves the clock from the time it was
    given; the watchdog is fed in time. *)
From stdpp Require Import list.
From S2P Require Import Prelude Stack Timer Clock.
Local Open Scope Z_scope.

(** ** What the clock relies on

    The kernel counts the ticks it is told, modulo 2^32; the calls return, and
    none of them changes the clock's variables.  [feeds] counts the feeds of the
    watchdog, which can be fed in a state that is [ready]; [keeps] is what all of this leaves as it is. *)
Class ClockEnvOk (S : Type) `{Holds clock_vars S, !ClockEnv S} (bk_wdg_reload : M S unit) := {
  kticks : S -> Z;
  feeds : S -> Z;
  ready : S -> Prop;
  keeps : S -> S -> Prop;
  keeps_pre :: PreOrder keeps;
  keeps_ready s s' : keeps s s' -> ready s -> ready s';
  kticks_u32 s : is_u32 (kticks s);
  beside s s' : Prop := hget (X := clock_vars) s' = hget s /\ feeds s' = feeds s /\ keeps s s';
  tick_ok s : exists r s', xTaskIncrementTick s = Val (r, s') /\ beside s s' /\ kticks s' = u32 (kticks s + 1);
  step_ok n s : exists s', vTaskStepTick n s = Val (tt, s') /\ beside s s' /\ kticks s' = u32 (kticks s + n);
  switch_ok s : exists s', vTaskSwitchContext s = Val (tt, s') /\ beside s s' /\ kticks s' = kticks s;
  flag_ok s : exists r s', preempt_delayed_schedule_get_flag s = Val (r, s') /\ beside s s' /\ kticks s' = kticks s;
  flag_clear_ok s : exists s', preempt_delayed_schedule_clear_flag s = Val (tt, s') /\ beside s s' /\ kticks s' = kticks s;
  machw_ok s : exists t s', hal_machw_time s = Val (t, s') /\ beside s s' /\ kticks s' = kticks s;
  sleep_mode_ok s : exists r s', bk_unconditional_sleep_mode_get s = Val (r, s') /\ beside s s' /\ kticks s' = kticks s;
  dtim_ok s : exists r s', power_save_if_ps_rf_dtim_enabled s = Val (r, s') /\ beside s s' /\ kticks s' = kticks s;
  reload_ok s : ready s -> exists s', bk_wdg_reload s = Val (tt, s') /\ hget (X := clock_vars) s' = hget s /\ kticks s' = kticks s /\
    feeds s' = feeds s + 1 /\ keeps s s';
  env_put x s : kticks (hput x s) = kticks s /\ feeds (hput x s) = feeds s /\ keeps s (hput x s);
}.

(** ** Arithmetic of the clock *)
Lemma u32_add x y : u32 (u32 x + y) = u32 (x + y).
Proof. unfold u32. by rewrite Z.add_mod_idemp_l. Qed.

(** The clock with its seconds: what the two variables hold at a time. *)
Definition seconds_ok (f : fclk_vars) : Prop :=
  0 <= current_clock f < 2 ^ 64 /\ current_seconds f = u32 (current_clock f / FCLK_SECOND) /\
  second_countdown f = FCLK_SECOND - current_clock f mod FCLK_SECOND.

(** [f] moved to the time [t]. *)
Definition moved (f : fclk_vars) (t : Z) (f' : fclk_vars) : Prop :=
  seconds_ok f' /\ current_clock f' = t /\ fclk_id f' = fclk_id f /\ use_cal_net f' = use_cal_net f.

Lemma clock_tick_moved f : seconds_ok f -> current_clock f + 1 < 2 ^ 64 -> moved f (current_clock f + 1) (clock_tick f).
Proof.
  intros (Hc & Hs & Hd) Hb. unfold clock_tick, moved, seconds_ok, u64. cbn [current_clock second_countdown current_seconds fclk_id use_cal_net].
  unfold FCLK_SECOND, FCLK_DURATION_MS in *. change (1000 / 2) with 500 in *.
  rewrite (u32_id (second_countdown f - 1)) by (unfold is_u32; zlia).
  destruct (Z.eqb_spec (second_countdown f - 1) 0) as [E|E]; cbn; rewrite (Z.mod_small _ (2 ^ 64)) by lia; split_and!; try done; try lia.
  - rewrite Hs, u32_add. f_equal. zlia.
  - zlia.
  - rewrite Hs. f_equal. zlia.
  - zlia.
Qed.

Lemma whole_seconds_val n : forall secs tick, 0 <= tick -> tick / FCLK_SECOND < Z.of_nat n -> is_u32 secs ->
  whole_seconds n secs tick = Some (u32 (secs + tick / FCLK_SECOND), tick mod FCLK_SECOND).
Proof.
  unfold FCLK_SECOND, FCLK_DURATION_MS. change (1000 / 2) with 500.
  induction n as [|n IH]; intros secs tick Ht Hn Hs; [zlia|]. cbn [whole_seconds]. unfold FCLK_SECOND, FCLK_DURATION_MS. change (1000 / 2) with 500.
  destruct (Z.leb_spec 500 tick) as [Hle|Hlt].
  - rewrite IH; [|lia|zlia|apply u32_range]. rewrite u32_add. f_equal. f_equal; [f_equal; zlia|zlia].
  - rewrite Z.div_small, Z.mod_small, Z.add_0_r by lia. by rewrite u32_id.
Qed.

(** The fuel of the loop is enough, and the clock moves by the ticks. *)
Lemma clock_advance_moved f tick : seconds_ok f -> 0 <= tick -> current_clock f + tick < 2 ^ 64 ->
  exists f', clock_advance tick f = Some f' /\ moved f (current_clock f + tick) f'.
Proof.
  intros (Hc & Hs & Hd) Ht Hb. unfold clock_advance.
  assert (0 <= tick / FCLK_SECOND) by (by apply Z.div_pos).
  rewrite whole_seconds_val by first [lia|rewrite Hs; apply u32_range].
  eexists. split; [reflexivity|]. unfold moved, seconds_ok, u64, FCLK_SECOND, FCLK_DURATION_MS in *. change (1000 / 2) with 500 in *.
  destruct (Z.leb_spec (second_countdown f) (tick mod 500)) as [Hle|Hlt]; cbn; rewrite (Z.mod_small _ (2 ^ 64)) by lia; split_and!; try done; try lia.
  - rewrite Hs, !u32_add. rewrite <- Z.add_assoc, u32_add. f_equal. zlia.
  - rewrite u32_id by (unfold is_u32; zlia). zlia.
  - rewrite Hs, u32_add. f_equal. zlia.
  - zlia.
Qed.

(** ** Runs that move the clock *)
Section runs.
Context {S : Type} `{!Holds clock_vars S, !ClockEnv S} {bk_wdg_reload : M S unit} `{!ClockEnvOk S bk_wdg_reload}.
Implicit Types s : S.

Definition vars s : clock_vars := hget s.
Definition clk s : Z := current_clock (fclk (vars s)).
Definition owed s : Z := increase_tick (debt (vars s)).

(** The clock agrees with its seconds, and what is owed is never a gain. *)
Definition clock_ok s : Prop := ready s /\ seconds_ok (fclk (vars s)) /\ -2 ^ 31 <= owed s <= 0.

(** [m] returns a value in [Q], having moved the clock forward by at most [B]
    ticks, and the kernel by as many. *)
Definition advances {A} (m : M S A) (B : Z) (Q : A -> Prop) : Prop := forall s, clock_ok s -> clk s + B < 2 ^ 64 ->
  exists a s', m s = Val (a, s') /\ Q a /\ keeps s s' /\ clock_ok s' /\ clk s <= clk s' <= clk s + B /\ kticks s' = u32 (kticks s + (clk s' - clk s)).

Lemma vars_put x s : vars (hput x s) = x.
Proof using Type. apply hget_put. Qed.
Lemma beside_vars s s' : beside s s' -> vars s' = vars s.
Proof using Type. by intros [E _]. Qed.

Lemma sets_val (f : clock_vars -> clock_vars) s : sets f s = Val (tt, hput (f (vars s)) s).
Proof using Type. done. Qed.
Lemma gets_val {A} (f : clock_vars -> A) s : gets f s = Val (f (vars s), s).
Proof using Type. done. Qed.

Lemma advances_ret {A} (a : A) (Q : A -> Prop) : Q a -> advances (mret a) 0 Q.
Proof using Type.
  intros Hq s Hok Hb. exists a, s. split_and!; [done|done|reflexivity|done|lia|lia|]. rewrite Z.sub_diag, Z.add_0_r. by rewrite u32_id by apply kticks_u32.
Qed.

Lemma advances_bind {A B} (m : M S A) (k : A -> M S B) b1 b2 b (Q : A -> Prop) (R : B -> Prop) : 0 <= b1 -> 0 <= b2 -> b1 + b2 <= b ->
  advances m b1 Q -> (forall a, Q a -> advances (k a) b2 R) -> advances (mbind k m) b R.
Proof using Type.
  intros H1 H2 Hb Hm Hk s Hok Hs. destruct (Hm s Hok ltac:(lia)) as (a & s1 & E1 & Hq & Hg1 & Hok1 & Hc1 & Hk1).
  destruct (Hk a Hq s1 Hok1 ltac:(lia)) as (r & s2 & E2 & Hr & Hg2 & Hok2 & Hc2 & Hk2). exists r, s2.
  split_and!; [by rewrite (bind_ret_val _ _ _ _ _ E1)|done|by etransitivity|done|lia|lia|]. rewrite Hk2, Hk1, u32_add. f_equal. lia.
Qed.

Lemma advances_mono {A} (m : M S A) b b' (Q Q' : A -> Prop) : b <= b' -> (forall a, Q a -> Q' a) -> advances m b Q -> advances m b' Q'.
Proof using Type.
  intros Hb HQ Hm s Hok Hs. destruct (Hm s Hok ltac:(lia)) as (a & s1 & E1 & Hq & Hg1 & Hok1 & Hc1 & Hk1). exists a, s1.
  split_and!; [done|auto|done|done|lia|lia|done].
Qed.

(** Reading variables, and assigning some that are not the clock's. *)
Lemma advances_gets {A} (f : clock_vars -> A) (Q : A -> Prop) : (forall s, clock_ok s -> Q (f (vars s))) -> advances (gets f) 0 Q.
Proof using Type. intros HQ s Hok Hs. rewrite gets_val. by apply (advances_ret _ Q (HQ s Hok)). Qed.

Lemma advances_sets (f : clock_vars -> clock_vars) : (forall v, fclk (f v) = fclk v) ->
  (forall s, clock_ok s -> -2 ^ 31 <= increase_tick (debt (f (vars s))) <= 0) -> advances (sets f) 0 (fun _ => True).
Proof using Type.
  intros Hf Hd s Hok Hs. exists tt, (hput (f (vars s)) s). rewrite sets_val. unfold clock_ok, owed, clk. rewrite vars_put, Hf.
  split_and!; [done|done|apply env_put|eapply keeps_ready; [apply env_put|apply Hok]|apply Hok|apply Hd, Hok|apply Hd, Hok|reflexivity|lia|].
  rewrite (proj1 (env_put _ s)), Z.sub_diag, Z.add_0_r. by rewrite u32_id by apply kticks_u32.
Qed.

(** A call of the environment. *)
Lemma advances_env {A} (m : M S A) : (forall s, exists a s', m s = Val (a, s') /\ (vars s' = vars s /\ keeps s s') /\ kticks s' = kticks s) ->
  advances m 0 (fun _ => True).
Proof using Type.
  intros Hm s Hok Hs. destruct (Hm s) as (a & s' & E & [Hv Hg] & Hk). exists a, s'. unfold clock_ok, owed, clk. rewrite Hv, Hk.
  split_and!; [done|done|exact Hg|eapply keeps_ready; [exact Hg|apply Hok]|apply Hok|apply Hok|apply Hok|reflexivity|lia|]. rewrite Z.sub_diag, Z.add_0_r. by rewrite u32_id by apply kticks_u32.
Qed.

Lemma advances_if {A} (c : bool) (m1 m2 : M S A) b Q : (c = true -> advances m1 b Q) -> (c = false -> advances m2 b Q) -> advances (if c then m1 else m2) b Q.
Proof using Type. destruct c; auto. Qed.

(** ** The debt *)

(** What is left of a debt after a gain of [lost], and of the gain. *)
Definition paid (inc lost : Z) : Z := Z.min 0 (inc + lost).
Definition gained (inc lost : Z) : Z := Z.max 0 (inc + lost).

Lemma s32_id x : -2 ^ 31 <= x < 2 ^ 31 -> s32 x = x.
Proof using Type. clear. intros Hx. unfold s32. rewrite Z.mod_small by lia. lia. Qed.

Definition debt_put (inc : Z) s : S := hput (with_debt (set_increase inc) (vars s)) s.

Lemma cal_increase_val lost s : 0 < lost < 2 ^ 31 -> -2 ^ 31 <= owed s <= 0 ->
  mcu_ps_cal_increase_tick lost s = Val (gained (owed s) lost, if owed s =? 0 then s else debt_put (paid (owed s) lost) s).
Proof using Type.
  intros Hl Ho. unfold mcu_ps_cal_increase_tick. rewrite s32_id by lia. rewrite (bind_ret_val _ _ _ _ _ (gets_val _ s)). fold (owed s).
  rewrite (proj2 (Z.leb_gt _ _)) by lia. cbn [orb]. rewrite (Z.eqb_sym 0). unfold gained, paid.
  destruct (Z.eqb_spec (owed s) 0) as [E|E]; [rewrite E; unfold mret, M_ret; do 2 f_equal; lia|].
  rewrite s32_id by lia. destruct (Z.ltb_spec (lost + owed s) 0).
  - rewrite (bind_ret_val _ _ _ _ _ (sets_val _ s)). unfold mret, M_ret, debt_put. do 2 f_equal; [lia|]. do 3 f_equal. lia.
  - rewrite (bind_ret_val _ _ _ _ _ (sets_val _ s)). unfold mret, M_ret, debt_put. do 2 f_equal; [lia|]. do 3 f_equal. lia.
Qed.

Lemma hput_vars s : hput (vars s) s = s.
Proof using Type. apply hput_get. Qed.

Lemma debt_put_facts inc s : vars (debt_put inc s) = with_debt (set_increase inc) (vars s) /\ kticks (debt_put inc s) = kticks s /\
  keeps s (debt_put inc s).
Proof using Type. unfold debt_put. rewrite vars_put. by destruct (env_put (with_debt (set_increase inc) (vars s)) s) as (-> & _ & Hr). Qed.

Lemma owed_put inc s : owed (debt_put inc s) = inc.
Proof using Type. unfold owed, debt_put. by rewrite vars_put. Qed.

(** ** One interrupt *)

(** Every fifth interrupt is skipped while two milliseconds are owed. *)
Definition skips (d : debt_vars) : bool := (need_pass d mod 5 =? 0) && (increase_tick d <=? -2).
Definition debt_after (d : debt_vars) : debt_vars :=
  Debt (if need_pass d mod 5 =? 0 then paid (increase_tick d) 2 else increase_tick d) (u32 (need_pass d + 1)).

(** The state moved to variables [v], with [k] more ticks of the kernel and [n] feeds. *)
Definition reaches s (v : clock_vars) (k n : Z) s' : Prop :=
  vars s' = v /\ kticks s' = u32 (kticks s + k) /\ feeds s' = feeds s + n /\ keeps s s'.

Lemma reaches_trans s v k n s1 v' k' n' s' : reaches s v k n s1 -> reaches s1 v' k' n' s' -> reaches s v' (k + k') (n + n') s'.
Proof using Type. intros (_ & K1 & F1 & G1) (V2 & K2 & F2 & G2). split_and!; [done| |lia|by etransitivity]. rewrite K2, K1, u32_add. f_equal. lia. Qed.

Lemma reaches_sets f s : reaches s (f (vars s)) 0 0 (hput (f (vars s)) s).
Proof using Type.
  destruct (env_put (f (vars s)) s) as (E1 & E2 & E3).
  split_and!; [apply vars_put|rewrite E1, Z.add_0_r; by rewrite u32_id by apply kticks_u32|lia|done].
Qed.

Lemma reaches_beside s s' : beside s s' -> kticks s' = kticks s -> reaches s (vars s) 0 0 s'.
Proof using Type. intros (V & F & G) K. split_and!; [done|rewrite K, Z.add_0_r; by rewrite u32_id by apply kticks_u32|lia|done]. Qed.

Lemma pstick_val s : -2 ^ 31 <= owed s <= 0 -> exists r s', mcu_ps_need_pstick s = Val (r, s') /\ truthy r = negb (skips (debt (vars s))) /\
  reaches s (with_debt debt_after (vars s)) 0 0 s'.
Proof using Type.
  intros Ho. unfold mcu_ps_need_pstick.
  assert (H1 : exists s1, (on ← mcu_ps_is_on; when (on : bool) (_ ← power_save_if_ps_rf_dtim_enabled; mret tt)) s = Val (tt, s1) /\ reaches s (vars s) 0 0 s1).
  { unfold mcu_ps_is_on. rewrite (bind_ret_val _ _ _ _ _ (gets_val _ s)). destruct (1 =? _); cbn [when].
    - destruct (dtim_ok s) as (r & s1 & E & Hb & Hk). exists s1. split; [by rewrite (bind_ret_val _ _ _ _ _ E)|by apply reaches_beside].
    - exists s. split; [done|]. by apply reaches_beside. }
  destruct H1 as (s1 & E1 & R1). rewrite <- bind_assoc. rewrite (bind_ret_val _ _ _ _ _ E1).
  rewrite (bind_ret_val _ _ _ _ _ (gets_val _ s1)), (bind_ret_val _ _ _ _ _ (sets_val _ s1)).
  set (s2 := hput _ s1). pose proof (reaches_sets (with_debt (fun d => Debt (increase_tick d) (u32 (need_pass d + 1)))) s1) as R2. fold s2 in R2.
  pose proof (reaches_trans _ _ _ _ _ _ _ _ _ R1 R2) as R. destruct R1 as (V1 & _ & _). rewrite V1 in R |- *.
  assert (Ho2 : owed s2 = owed s) by (unfold owed; by rewrite (proj1 R)).
  unfold skips, debt_after. fold (owed s). destruct (Z.eqb_spec (need_pass (debt (vars s)) mod 5) 0) as [Em|Em]; cbn [andb].
  - rewrite cal_increase_val by (rewrite ?Ho2; done). rewrite Ho2. eexists _, _. split; [reflexivity|]. split.
    + unfold gained, truthy, FCLK_DURATION_MS. destruct (Z.leb_spec (owed s) (-2)); [by replace (Z.max 0 (owed s + 2)) with 0 by lia|].
      apply negb_true_iff, Z.eqb_neq. lia.
    + destruct (Z.eqb_spec (owed s) 0) as [E0|E0].
      * destruct R as (V & K & F & G). split_and!; [|done|lia|exact G]. rewrite V. unfold with_debt. cbn. rewrite Em. cbn.
        change (increase_tick (debt (vars s))) with (owed s). by rewrite E0.
      * pose proof (reaches_sets (with_debt (set_increase (paid (owed s) FCLK_DURATION_MS))) s2) as R3.
        pose proof (reaches_trans _ _ _ _ _ _ _ _ _ R R3) as (V & K & F & G). split_and!; [|exact K|etransitivity; [exact F|lia]|exact G].
        change (hput (with_debt (set_increase (paid (owed s) FCLK_DURATION_MS)) (vars s2)) s2) with (debt_put (paid (owed s) FCLK_DURATION_MS) s2) in *.
        rewrite V, (proj1 R). unfold with_debt. cbn. by rewrite Em.
  - eexists _, _. split; [reflexivity|]. split; [done|]. destruct R as (V & K & F & G). split_and!; [|done|lia|exact G]. rewrite V.
    unfold with_debt. cbn. by rewrite (proj2 (Z.eqb_neq _ _)).
Qed.

(** What the checks of the watchdogs do to variables, at the clock they hold. *)
Definition int_fed (v : clock_vars) : bool :=
  INT_WDG_FEED_PERIOD_TICK <=? u64 (current_clock (fclk v) - s_last_int_wdg_feed (wdgs v)).
Definition task_warned (v : clock_vars) : bool :=
  truthy (s_last_task_wdg_feed_tick (wdgs v)) &&
  (TASK_WDG_PERIOD_TICK <? u64 (current_clock (fclk v) - s_last_task_wdg_feed_tick (wdgs v))) &&
  (TASK_WDG_PERIOD_TICK <? u64 (current_clock (fclk v) - s_last_task_wdg_log_tick (wdgs v))).
Definition int_vars (v : clock_vars) : clock_vars :=
  if int_fed v then with_wdgs (fun w => WdgVars (current_clock (fclk v)) (s_last_task_wdg_feed_tick w) (s_last_task_wdg_log_tick w)) v else v.
Definition task_vars (v : clock_vars) : clock_vars :=
  if task_warned v then with_wdgs (fun w => WdgVars (s_last_int_wdg_feed w) (s_last_task_wdg_feed_tick w) (current_clock (fclk v))) v else v.

Lemma int_feed_val s : ready s -> exists s', int_watchdog_feed bk_wdg_reload s = Val (tt, s') /\ reaches s (int_vars (vars s)) 0 (b2z (int_fed (vars s))) s'.
Proof using Type.
  intros Hg. unfold int_watchdog_feed, fclk_freertos_get_tick64. rewrite (bind_ret_val _ _ _ _ _ (gets_val _ s)), (bind_ret_val _ _ _ _ _ (gets_val _ s)).
  unfold int_vars. fold (int_fed (vars s)). destruct (int_fed (vars s)); cbn [when b2z].
  - destruct (reload_ok s Hg) as (s1 & E1 & V1 & K1 & F1 & G1). change (vars s1 = vars s) in V1. rewrite (bind_ret_val _ _ _ _ _ E1), sets_val.
    eexists. split; [reflexivity|]. destruct (env_put (with_wdgs (fun w => WdgVars (current_clock (fclk (vars s))) (s_last_task_wdg_feed_tick w)
      (s_last_task_wdg_log_tick w)) (vars s1)) s1) as (E2 & E3 & E4).
    split_and!; [by rewrite vars_put, V1|rewrite E2, K1, Z.add_0_r; by rewrite u32_id by apply kticks_u32|lia|by etransitivity].
  - exists s. split; [done|]. by apply reaches_beside.
Qed.

Lemma task_check_val s : exists s', task_watchdog_timeout_check s = Val (tt, s') /\ reaches s (task_vars (vars s)) 0 0 s'.
Proof using Type.
  unfold task_watchdog_timeout_check, fclk_freertos_get_tick64, task_vars, task_warned. rewrite (bind_ret_val _ _ _ _ _ (gets_val _ s)).
  assert (H0 : reaches s (vars s) 0 0 s) by (by apply reaches_beside).
  destruct (truthy _); cbn [when andb]; [|by exists s]. rewrite (bind_ret_val _ _ _ _ _ (gets_val _ s)).
  destruct (TASK_WDG_PERIOD_TICK <? u64 (_ - s_last_task_wdg_feed_tick _)); cbn [when andb]; [|by exists s].
  destruct (TASK_WDG_PERIOD_TICK <? u64 (_ - s_last_task_wdg_log_tick _)); cbn [when andb]; [|by exists s].
  rewrite sets_val. eexists. split; [reflexivity|]. apply (reaches_sets (with_wdgs _)).
Qed.

(** The kernel is told, and asked for a switch. *)
Definition kernel_tick : M S unit :=
  r ← xTaskIncrementTick;
  b ← (if truthy r then mret true else flag ← preempt_delayed_schedule_get_flag; mret (truthy flag));
  when (b : bool) (preempt_delayed_schedule_clear_flag;; vTaskSwitchContext).

Lemma kernel_tick_val s : exists s', kernel_tick s = Val (tt, s') /\ reaches s (vars s) 1 0 s'.
Proof using All.
  unfold kernel_tick. destruct (tick_ok s) as (r & s1 & E1 & (V1 & F1 & G1) & K1). rewrite (bind_ret_val _ _ _ _ _ E1).
  assert (R1 : reaches s (vars s) 1 0 s1) by (split_and!; [done|done|lia|done]).
  assert (H2 : exists b s2, (if truthy r then mret true else flag ← preempt_delayed_schedule_get_flag; mret (truthy flag)) s1 = Val (b, s2) /\
    reaches s1 (vars s1) 0 0 s2).
  { destruct (truthy r); [exists true, s1; split; [done|by apply reaches_beside]|]. destruct (flag_ok s1) as (f & s2 & E2 & B2 & K2).
    exists (truthy f), s2. split; [by rewrite (bind_ret_val _ _ _ _ _ E2)|by apply reaches_beside]. }
  destruct H2 as (b & s2 & E2 & R2). rewrite (bind_ret_val _ _ _ _ _ E2). pose proof (reaches_trans _ _ _ _ _ _ _ _ _ R1 R2) as R.
  rewrite (proj1 R1) in R. destruct b; cbn [when]; [|by exists s2].
  destruct (flag_clear_ok s2) as (s3 & E3 & B3 & K3), (switch_ok s3) as (s4 & E4 & B4 & K4). exists s4.
  split; [by rewrite (bind_ret_val _ _ _ _ _ E3)|].
  pose proof (reaches_trans _ _ _ _ _ _ _ _ _ R (reaches_beside _ _ B3 K3)) as R3.
  pose proof (reaches_trans _ _ _ _ _ _ _ _ _ R3 (reaches_beside _ _ B4 K4)) as R4.
  by rewrite (beside_vars _ _ B3), (proj1 R) in R4.
Qed.

(** The variables after an interrupt. *)
Definition ticked (v : clock_vars) : clock_vars := with_fclk clock_tick (with_debt debt_after v).
Definition hdl_vars (v : clock_vars) : clock_vars :=
  if skips (debt v) then with_debt debt_after v else task_vars (int_vars (ticked v)).

Lemma hdl_val param s : ready s -> -2 ^ 31 <= owed s <= 0 -> exists s', fclk_hdl bk_wdg_reload param s = Val (tt, s') /\
  reaches s (hdl_vars (vars s)) (if skips (debt (vars s)) then 0 else 1)
    (if skips (debt (vars s)) then 0 else b2z (int_fed (ticked (vars s)))) s'.
Proof using All.
  intros Hg Ho. unfold fclk_hdl, hdl_vars. destruct (pstick_val s Ho) as (r & s1 & E1 & Hr & R1). rewrite (bind_ret_val _ _ _ _ _ E1), Hr.
  destruct (skips (debt (vars s))); cbn [negb when]; [by exists s1|].
  rewrite (bind_ret_val _ _ _ _ _ (sets_val _ s1)). set (s2 := hput _ s1). pose proof (reaches_sets (with_fclk clock_tick) s1) as R2. fold s2 in R2.
  rewrite (proj1 R1) in R2. fold (ticked (vars s)) in R2. destruct (int_feed_val s2) as (s3 & E3 & R3);
    [eapply keeps_ready; [apply R2|]; eapply keeps_ready; [apply R1|done]|]. rewrite (proj1 R2) in R3.
  rewrite (bind_ret_val _ _ _ _ _ E3). destruct (task_check_val s3) as (s4 & E4 & R4). rewrite (proj1 R3) in R4. rewrite (bind_ret_val _ _ _ _ _ E4).
  destruct (kernel_tick_val s4) as (s5 & E5 & R5). rewrite (proj1 R4) in R5. exists s5. split; [exact E5|].
  pose proof (reaches_trans _ _ _ _ _ _ _ _ _ (reaches_trans _ _ _ _ _ _ _ _ _ (reaches_trans _ _ _ _ _ _ _ _ _ (reaches_trans _ _ _ _ _ _ _ _ _ R1 R2) R3) R4) R5)
    as (V & K & F & G). split_and!; [exact V|rewrite K; f_equal; lia|rewrite F; lia|exact G].
Qed.

(** ** Moving the clock *)
Definition jumped (f' : fclk_vars) (v : clock_vars) : clock_vars := with_fclk (fun _ => f') (with_debt (set_increase 0) v).

Lemma update_tick_val n s : seconds_ok (fclk (vars s)) -> 0 < n -> clk s + n < 2 ^ 64 ->
  exists f' s', fclk_update_tick n s = Val (tt, s') /\ moved (fclk (vars s)) (clk s + n) f' /\ reaches s (jumped f' (vars s)) n 0 s'.
Proof using Type.
  intros Hok Hn Hb. destruct (clock_advance_moved (fclk (vars s)) n Hok ltac:(lia) Hb) as (f' & Ef & Hm).
  unfold fclk_update_tick. rewrite (proj2 (Z.eqb_neq _ _)) by lia. unfold mcu_ps_increase_clr. rewrite (bind_ret_val _ _ _ _ _ (sets_val _ s)).
  set (s1 := hput _ s). pose proof (reaches_sets (with_debt (set_increase 0)) s) as R1. fold s1 in R1.
  assert (E2 : fclk_freertos_update_tick n s1 = Val (tt, hput (with_fclk (fun _ => f') (vars s1)) s1)).
  { unfold fclk_freertos_update_tick. rewrite (bind_ret_val _ _ _ _ _ (gets_val _ s1)), (proj1 R1). change (fclk (with_debt _ _)) with (fclk (vars s)).
    mstep by (unfold lift_res; rewrite Ef; reflexivity). by rewrite sets_val, (proj1 R1). }
  rewrite (bind_ret_val _ _ _ _ _ E2). pose proof (reaches_sets (with_fclk (fun _ => f')) s1) as R2. set (s2 := hput _ s1) in *.
  destruct (step_ok n s2) as (s3 & E3 & (V3 & F3 & G3) & K3). exists f', s3. split_and!; [exact E3|exact Hm|].
  pose proof (reaches_trans _ _ _ _ _ _ _ _ _ R1 R2) as (V & K & F & G). split_and!.
  - change (vars s3 = vars s2) in V3. rewrite V3, V, (proj1 R1). done.
  - rewrite K3, K, u32_add. f_equal. lia.
  - rewrite F3, F. lia.
  - by etransitivity.
Qed.

Lemma advances_update n b : 0 <= n <= b -> advances (fclk_update_tick n) b (fun _ => True).
Proof using Type.
  intros Hn s Hok Hb. destruct (Z.eqb_spec n 0) as [->|Hne].
  - destruct (advances_ret tt (fun _ => True) I s Hok ltac:(lia)) as (a & s' & E & _ & Hg & Hok' & Hc & Hk). exists tt, s'.
    split_and!; [by destruct a|done|done|done|lia|lia|done].
  - destruct (update_tick_val n s (proj1 (proj2 Hok)) ltac:(lia) ltac:(lia)) as (f' & s' & E & Hm & V & K & F & G). exists tt, s'.
    unfold clock_ok, owed, clk. rewrite V. cbn. destruct Hm as (Hs & Ht & _). unfold clk in Ht. rewrite Ht, K.
    split_and!; [done|done|exact G|eapply keeps_ready; [exact G|apply Hok]|done|lia|lia|lia|lia|]. f_equal. lia.
Qed.

Lemma advances_hdl param : advances (fclk_hdl bk_wdg_reload param) 1 (fun _ => True).
Proof using All.
  intros s Hok Hb. destruct Hok as (Hg & Hs & Ho). destruct (hdl_val param s Hg Ho) as (s' & E & V & K & _ & G). exists tt, s'.
  assert (Hd : -2 ^ 31 <= increase_tick (debt_after (debt (vars s))) <= 0).
  { unfold owed in Ho. unfold debt_after, paid. cbn. destruct (_ =? 0); lia. }
  destruct (clock_tick_moved (fclk (vars s)) Hs Hb) as (Hs' & Ht & _).
  assert (Hv : fclk (vars s') = (if skips (debt (vars s)) then fclk (vars s) else clock_tick (fclk (vars s))) /\ debt (vars s') = debt_after (debt (vars s))).
  { rewrite V. unfold hdl_vars. destruct (skips (debt (vars s))); [done|]. unfold task_vars, int_vars. by destruct (int_fed _), (task_warned _). }
  destruct Hv as [Hf Hd']. unfold clock_ok, owed, clk. rewrite Hf, Hd', K. unfold clk in *.
  destruct (skips (debt (vars s))); [split_and!; try done; try lia; try (by eapply keeps_ready); f_equal; lia|].
  rewrite Ht. split_and!; try done; try lia; try (by eapply keeps_ready). f_equal. lia.
Qed.

(** ** The corrections *)
Lemma advances_call {A} (m : M S A) : (forall s, exists a s', m s = Val (a, s') /\ beside s s' /\ kticks s' = kticks s) -> advances m 0 (fun _ => True).
Proof using Type. intros Hm. apply advances_env. intros s. destruct (Hm s) as (a & s' & E & B & K). exists a, s'.
  split_and!; [done|by apply beside_vars|apply B|done].
Qed.

Lemma advances_ms : advances clock_ms 0 is_u32.
Proof using Type.
  unfold clock_ms, fclk_get_tick, fclk_freertos_get_tick32. eapply (advances_bind _ _ 0 0); [lia..|by apply (advances_gets _ (fun _ => True))|].
  intros t _. apply advances_ret, u32_range.
Qed.

Lemma advances_any {A} (m : M S A) Q : advances m 0 Q -> advances m 0 (fun _ => True).
Proof using Type. by apply advances_mono. Qed.

Lemma advances_then {A B} (m : M S A) (k : A -> M S B) b (R : B -> Prop) : 0 <= b -> advances m 0 (fun _ => True) ->
  (forall a, advances (k a) b R) -> advances (mbind k m) b R.
Proof using Type. intros Hb Hm Hk. eapply (advances_bind _ _ 0 b); [lia..|done|auto]. Qed.

Lemma advances_finally {A B} (m : M S A) (k : A -> M S B) b (R : B -> Prop) : 0 <= b -> advances m b (fun _ => True) ->
  (forall a, advances (k a) 0 R) -> advances (mbind k m) b R.
Proof using Type. intros Hb Hm Hk. eapply (advances_bind _ _ b 0); [lia..|done|auto]. Qed.

Lemma advances_keep (f : clock_vars -> clock_vars) : (forall v, fclk (f v) = fclk v /\ debt (f v) = debt v) -> advances (sets f) 0 (fun _ => True).
Proof using Type. intros Hf. apply advances_sets; [apply Hf|]. intros s (_ & _ & Ho). by rewrite (proj2 (Hf _)). Qed.

Lemma advances_machw_init : advances mcu_ps_machw_init 0 (fun _ => True).
Proof using Type.
  unfold mcu_ps_machw_init. apply advances_then; [done|eapply advances_any, advances_ms|]. intros ms.
  apply advances_then; [done|apply advances_call, machw_ok|]. intros t. by apply advances_keep.
Qed.

Lemma advances_zero {A} (m : M S A) b Q : 0 <= b -> advances m 0 Q -> advances m b Q.
Proof using Type. intros Hb. by apply advances_mono. Qed.

Lemma advances_cal_increase lost : 0 < lost < 2 ^ 31 -> advances (mcu_ps_cal_increase_tick lost) 0 (fun r => 0 <= r <= lost).
Proof using Type.
  intros Hl s (Hg & Hs & Ho) Hb. rewrite cal_increase_val by done. eexists _, _. split; [reflexivity|]. unfold gained.
  destruct (Z.eqb_spec (owed s) 0) as [E0|E0].
  - destruct (advances_ret tt (fun _ => True) I s (conj Hg (conj Hs Ho)) ltac:(lia)) as (a & s' & [= _ <-] & _ & Hg' & Hok' & Hc & Hk).
    split_and!; [lia|lia|done|done|lia|lia|done].
  - destruct (debt_put_facts (paid (owed s) lost) s) as (V & K & G).
    assert (Hp : -2 ^ 31 <= paid (owed s) lost <= 0) by (unfold paid; lia).
    split_and!; [lia|lia|done|split_and!; [by eapply keeps_ready|by rewrite V|rewrite owed_put; lia..]|unfold clk; rewrite V; cbn; lia|unfold clk; rewrite V; cbn; lia|].
    rewrite K. unfold clk. rewrite V. cbn. rewrite Z.sub_diag, Z.add_0_r. by rewrite u32_id by apply kticks_u32.
Qed.

Lemma advances_machw_cal : advances mcu_ps_machw_cal 50000 (fun _ => True).
Proof using Type.
  unfold mcu_ps_machw_cal. apply advances_then; [done| |intros sleeping].
  { apply advances_then; [done|apply advances_call, sleep_mode_ok|]. intros u. apply advances_if; intros _; [by apply advances_ret|].
    apply advances_then; [done|by apply (advances_gets _ (fun _ => True))|]. intros on. apply advances_if; intros _; [|by apply advances_ret].
    apply advances_then; [done|apply advances_call, dtim_ok|]. intros d. by apply advances_ret. }
  apply advances_if; intros _; [apply advances_zero; [done|by apply advances_ret]|]. apply advances_then; [done| |intros invalid].
  { unfold machw_invalid. apply advances_then; [done|by apply (advances_gets _ (fun _ => True))|]. intros m.
    apply advances_if; intros _; [by apply advances_ret|]. apply advances_then; [done|apply advances_call, machw_ok|]. intros t. by apply advances_ret. }
  apply advances_if; intros _; [apply advances_zero; [done|apply advances_machw_init]|].
  apply advances_then; [done|eapply advances_any, advances_ms|]. intros ms. apply advances_then; [done|apply advances_call, machw_ok|]. intros machw.
  apply advances_then; [done|by apply (advances_gets _ (fun _ => True))|]. intros save.
  apply advances_if; intros Hl; [|apply advances_zero; [done|by apply advances_ret]].
  apply andb_true_iff in Hl as [H1%Z.ltb_lt H2%Z.ltb_lt].
  apply advances_if; intros Hm; [apply advances_zero; [done|apply advances_machw_init]|]. apply Z.ltb_ge in Hm.
  eapply (advances_bind _ _ 0 50000); [lia..|apply advances_cal_increase; lia|]. intros lost Hlost. cbv beta in Hlost.
  apply advances_finally; [done| |intros _; apply advances_machw_init]. apply advances_update. unfold BK_MS_TO_TICKS, FCLK_DURATION_MS. zlia.
Qed.

Lemma s32_range x : -2 ^ 31 <= s32 x < 2 ^ 31.
Proof using Type. clear. unfold s32. pose proof (Z.mod_pos_bound (x + 2 ^ 31) (2 ^ 32)). lia. Qed.

Lemma advances_tsf_reset tsf : advances (tsf_reset tsf) 0 (fun _ => True).
Proof using Type.
  unfold tsf_reset. apply advances_then; [done|eapply advances_any, advances_ms|]. intros ms. by apply advances_keep.
Qed.

Lemma advances_clr : advances mcu_ps_increase_clr 0 (fun _ => True).
Proof using Type. by apply advances_sets. Qed.

Lemma advances_tsf_cal tsf : advances (mcu_ps_tsf_cal tsf) 50000 (fun _ => True).
Proof using Type.
  assert (Hr : forall b, 0 <= b -> advances (tsf_reset tsf) b (fun _ => True)) by (intros b Hb; apply advances_zero; [done|apply advances_tsf_reset]).
  unfold mcu_ps_tsf_cal. apply advances_then; [done|by apply (advances_gets _ (fun _ => True))|]. intros save.
  apply advances_if; intros _; [by apply Hr|]. apply advances_then; [done|eapply advances_any, advances_ms|]. intros ms.
  apply advances_if; intros _; [by apply Hr|]. set (loss := s32 _).
  apply advances_if; intros Hl; [apply Z.ltb_lt in Hl|].
  - apply advances_if; intros Hm; [by apply Hr|]. apply Z.ltb_ge in Hm. apply advances_finally; [done| |intros _].
    + apply advances_update. unfold BK_MS_TO_TICKS, FCLK_DURATION_MS. zlia.
    + apply advances_then; [done|apply advances_machw_init|intros _; apply advances_clr].
  - apply advances_if; intros Hn; [|apply advances_zero; [done|by apply advances_ret]]. apply Z.ltb_lt in Hn.
    apply advances_if; intros Hm; [by apply Hr|]. apply Z.ltb_ge in Hm. apply advances_zero; [done|]. apply advances_sets; [done|]. intros s _. cbn. lia.
Qed.

Lemma advances_bcn tsf addr3 : advances (mcu_ps_bcn_callback tsf addr3) 50000 (fun _ => True).
Proof using Type.
  unfold mcu_ps_bcn_callback. apply advances_then; [done|by apply (advances_gets _ (fun _ => True))|]. intros net.
  apply advances_then; [done|by apply (advances_gets _ (fun _ => True))|]. intros b.
  apply advances_if; intros _; [apply advances_zero; [done|by apply advances_keep]|].
  apply advances_finally; [done| |intros bs; by apply advances_keep].
  apply advances_if; intros _; (apply advances_finally; [done|apply advances_tsf_cal|]; intros _; by apply advances_ret).
Qed.

Lemma advances_timer_cal : advances timer_cal_tick (2 ^ 30) (fun _ => True).
Proof using Type.
  unfold timer_cal_tick. apply advances_then; [done|eapply advances_any, advances_ms|]. intros ms.
  apply advances_then; [done|by apply (advances_gets _ (fun _ => True))|]. intros c. cbv zeta.
  apply advances_then; [done|by apply advances_keep|intros _]. set (lost := s32 _). pose proof (s32_range (u32 (tmp1 c + ONE_CAL_TIME) - ms)) as Hl.
  fold lost in Hl. unfold FCLK_DURATION_MS. apply advances_finally; [done| |intros _; apply advances_machw_init].
  apply advances_if; intros Hc.
  - apply Z.leb_le in Hc. apply advances_finally; [done| |intros _; apply advances_clr]. apply advances_update. unfold BK_MS_TO_TICKS, FCLK_DURATION_MS.
    rewrite u32_id by (unfold is_u32; zlia). zlia.
  - apply advances_zero; [done|]. apply Z.leb_gt in Hc. destruct (Z.leb_spec lost (-(2 * 2))); cbn [when]; [|by apply advances_ret].
    apply advances_sets; [done|]. intros s _. cbn. lia.
Qed.
(** ** The calibration and the watchdog

    A calibration neither feeds the watchdog nor touches what is kept of its feeds. *)
Definition unwatched {A} (m : M S A) : Prop := forall s a s', m s = Val (a, s') -> feeds s' = feeds s /\ wdgs (vars s') = wdgs (vars s).

Lemma unwatched_bind {A B} (m : M S A) (k : A -> M S B) : unwatched m -> (forall a, unwatched (k a)) -> unwatched (mbind k m).
Proof using Type.
  intros Hm Hk s b s' (a & s1 & E1 & E2)%bind_inv. destruct (Hm _ _ _ E1) as [F1 W1], (Hk _ _ _ _ E2) as [F2 W2]. by rewrite F2, F1, W2, W1.
Qed.
Lemma unwatched_ret {A} (a : A) : unwatched (mret a).
Proof using Type. by intros s b s' [= _ <-]. Qed.
Lemma unwatched_gets {A} (f : clock_vars -> A) : unwatched (gets f).
Proof using Type. by intros s b s' [= _ <-]. Qed.
Lemma unwatched_sets f : (forall v, wdgs (f v) = wdgs v) -> unwatched (sets f).
Proof using Type. intros Hf s b s' E. rewrite sets_val in E. injection E as _ <-. rewrite vars_put, Hf. split; [apply env_put|done]. Qed.
Lemma unwatched_res {A} (r : res A) : unwatched (lift_res r).
Proof using Type. intros s b s'. unfold lift_res. destruct r; [|done]. by intros [= _ <-]. Qed.
Lemma unwatched_call {A} (m : M S A) : (forall s, exists a s', m s = Val (a, s') /\ beside s s') -> unwatched m.
Proof using Type. intros Hm s a s' E. destruct (Hm s) as (b & s1 & E1 & V & F & _). rewrite E1 in E. injection E as _ <-. split; [done|]. unfold vars. by rewrite V. Qed.

Lemma unwatched_update n : unwatched (fclk_update_tick n).
Proof using Type.
  unfold fclk_update_tick, mcu_ps_increase_clr, fclk_freertos_update_tick. destruct (n =? 0); [apply unwatched_ret|].
  apply unwatched_bind; [by apply unwatched_sets|intros _]. apply unwatched_bind; [|intros _].
  - apply unwatched_bind; [apply unwatched_gets|intros v]. apply unwatched_bind; [apply unwatched_res|intros f]. by apply unwatched_sets.
  - apply unwatched_call. intros s. destruct (step_ok n s) as (s' & E & B & _). by exists tt, s'.
Qed.

Lemma unwatched_ms : unwatched clock_ms.
Proof using Type. unfold clock_ms, fclk_get_tick, fclk_freertos_get_tick32. apply unwatched_bind; [apply unwatched_gets|intros t; apply unwatched_ret]. Qed.

Lemma unwatched_cal timer : unwatched (cal_timer_hdl timer).
Proof using Type.
  unfold cal_timer_hdl, timer_cal_tick, mcu_ps_machw_init. apply unwatched_bind; [apply unwatched_ms|intros ms].
  apply unwatched_bind; [apply unwatched_gets|intros c]. cbv zeta. apply unwatched_bind; [by apply unwatched_sets|intros _]. apply unwatched_bind; [|intros _].
  - destruct (_ <=? _); [apply unwatched_bind; [apply unwatched_update|intros _; by apply unwatched_sets]|].
    destruct (_ <=? _); cbn [when]; [by apply unwatched_sets|apply unwatched_ret].
  - apply unwatched_bind; [apply unwatched_ms|intros ms']. apply unwatched_bind; [|intros t; by apply unwatched_sets].
    apply unwatched_call. intros s. destruct (machw_ok s) as (t & s' & E & B & _). by exists t, s'.
Qed.
End runs.

(** ** Sequences of events *)
Inductive clock_event :=
  | Interrupt (timer : Z)
  | CalInterrupt (timer : Z)
  | RadioWakes
  | Beacon (tsf : Z) (addr3 : list Z)
  | Sleeps (ticks : Z)
  | Idle.

Section events.
Context {S : Type} `{!Holds clock_vars S, !ClockEnv S} (bk_wdg_reload : M S unit) `{!ClockEnvOk S bk_wdg_reload}.

Definition clock_run_event (e : clock_event) : M S unit :=
  match e with
  | Interrupt timer => fclk_hdl bk_wdg_reload timer
  | CalInterrupt timer => cal_timer_hdl timer
  | RadioWakes => mcu_ps_machw_cal
  | Beacon tsf addr3 => mcu_ps_bcn_callback tsf addr3
  | Sleeps ticks => fclk_update_tick ticks
  | Idle => task_watchdog_feed
  end.
Fixpoint clock_run (es : list clock_event) : M S unit :=
  match es with [] => mret tt | e :: es => clock_run_event e;; clock_run es end.

(** No event moves the clock by 2^32 ticks; a sleep is of a number of ticks. *)
Definition event_ok (e : clock_event) : Prop := match e with Sleeps n => is_u32 n | _ => True end.

Lemma event_advances e : event_ok e -> advances (clock_run_event e) (2 ^ 32) (fun _ => True).
Proof using ClockEnvOk0.
  intros He. destruct e; cbn [clock_run_event].
  - eapply (advances_mono _ 1); [lia|done|apply advances_hdl].
  - eapply (advances_mono _ (2 ^ 30)); [lia|done|apply advances_timer_cal].
  - eapply (advances_mono _ 50000); [lia|done|apply advances_machw_cal].
  - eapply (advances_mono _ 50000); [lia|done|apply advances_bcn].
  - cbn in He. unfold is_u32 in He. apply advances_update. lia.
  - unfold task_watchdog_feed, fclk_freertos_get_tick64. apply advances_zero; [lia|].
    apply advances_then; [done|by apply (advances_gets _ (fun _ => True))|]. intros t. by apply advances_keep.
Qed.

(** C2: whatever interrupts, corrections and sleeps come, in any order, each
    returns; the clock never goes back; its seconds and the countdown to the next
    one are those of the clock; the kernel has been told every tick the clock has
    gained; and what is owed is never a gain. *)
Theorem clock_stays_consistent es (s : S) : Forall event_ok es -> clock_ok s -> clk s + 2 ^ 32 * Z.of_nat (length es) < 2 ^ 64 ->
  exists s', clock_run es s = Val (tt, s') /\ clock_ok s' /\ clk s <= clk s' /\ kticks s' = u32 (kticks s + (clk s' - clk s)).
Proof using ClockEnvOk0.
  intros He Hok Hb.
  assert (Hrun : advances (clock_run es) (2 ^ 32 * Z.of_nat (length es)) (fun _ => True)).
  { clear Hok Hb. induction He as [|e es Hev Hes IH]; cbn [clock_run length]; [by apply advances_ret|].
    eapply (advances_bind _ _ (2 ^ 32) (2 ^ 32 * Z.of_nat (length es))); [lia|lia|lia|by apply event_advances|done]. }
  destruct (Hrun s Hok Hb) as ([] & s' & E & _ & _ & Hok' & Hc & Hk). exists s'. split_and!; [done|done|lia|done].
Qed.
End events.

(** ** Runs of interrupts *)
Section interrupts.
Context {S : Type} `{!Holds clock_vars S, !ClockEnv S} (bk_wdg_reload : M S unit) `{!ClockEnvOk S bk_wdg_reload}.
Implicit Types s : S.

Definition interrupts (n : nat) : M S unit := repeat_m n (fclk_hdl bk_wdg_reload BK_TIMER_ID3).

(** What one interrupt changes. *)
Lemma hdl_step s : clock_ok s -> clk s + 1 < 2 ^ 64 -> exists s', fclk_hdl bk_wdg_reload BK_TIMER_ID3 s = Val (tt, s') /\ clock_ok s' /\
  debt (vars s') = debt_after (debt (vars s)) /\ clk s' = clk s + (if skips (debt (vars s)) then 0 else 1) /\
  let last := s_last_int_wdg_feed (wdgs (vars s)) in
  let fed := negb (skips (debt (vars s))) && (INT_WDG_FEED_PERIOD_TICK <=? u64 (clk s' - last)) in
  s_last_int_wdg_feed (wdgs (vars s')) = (if fed then clk s' else last) /\ feeds s' = feeds s + b2z fed.
Proof using All.
  intros Hok Hb. destruct (advances_hdl BK_TIMER_ID3 s Hok Hb) as (? & s' & E & _ & _ & Hok' & _).
  destruct (hdl_val BK_TIMER_ID3 s (proj1 Hok) (proj2 (proj2 Hok))) as (s1 & E1 & V & _ & F & _). rewrite E1 in E. injection E as _ ->. exists s'.
  destruct (clock_tick_moved (fclk (vars s)) (proj1 (proj2 Hok)) Hb) as (_ & Ht & _). unfold clk. rewrite V. unfold hdl_vars in *.
  destruct (skips (debt (vars s))); cbn [negb andb b2z]; cbv zeta; [split_and!; try done; cbn; lia|].
  assert (Hf : fclk (task_vars (int_vars (ticked (vars s)))) = clock_tick (fclk (vars s)) /\
    debt (task_vars (int_vars (ticked (vars s)))) = debt_after (debt (vars s)) /\
    s_last_int_wdg_feed (wdgs (task_vars (int_vars (ticked (vars s))))) =
      if int_fed (ticked (vars s)) then current_clock (clock_tick (fclk (vars s))) else s_last_int_wdg_feed (wdgs (vars s))).
  { unfold task_vars, int_vars. by destruct (int_fed (ticked (vars s))), (task_warned _). }
  destruct Hf as (Hf & Hd & Hw). rewrite Hf, Hd, Hw, F. split_and!; done.
Qed.

Lemma interrupts_add n m s s1 : interrupts n s = Val (tt, s1) -> interrupts (n + m) s = interrupts m s1.
Proof using Type.
  revert s. induction n as [|n IH]; intros s; [by intros [= ->]|]. unfold interrupts. cbn [Nat.add]. rewrite !repeat_m_succ.
  unfold mbind, M_bind. destruct (fclk_hdl bk_wdg_reload BK_TIMER_ID3 s) as [[[] s2]|]; [|done]. apply IH.
Qed.

Lemma interrupts_one s s1 : fclk_hdl bk_wdg_reload BK_TIMER_ID3 s = Val (tt, s1) -> interrupts 1 s = Val (tt, s1).
Proof using Type. intros E. unfold interrupts. rewrite repeat_m_succ. by rewrite (bind_ret_val _ _ _ _ _ E). Qed.

(** Interrupts that cannot be skipped. *)
Lemma interrupts_count n : forall s, clock_ok s -> clk s + Z.of_nat n < 2 ^ 64 -> 0 <= need_pass (debt (vars s)) ->
  need_pass (debt (vars s)) + Z.of_nat n < 2 ^ 32 -> (forall k, 0 <= k < Z.of_nat n -> (need_pass (debt (vars s)) + k) mod 5 <> 0) ->
  exists s', interrupts n s = Val (tt, s') /\ clock_ok s' /\ clk s' = clk s + Z.of_nat n /\
    debt (vars s') = Debt (owed s) (need_pass (debt (vars s)) + Z.of_nat n).
Proof using All.
  induction n as [|n IH]; intros s Hok Hc Hp Hn Hk.
  - exists s. split_and!; [done|done|lia|]. unfold owed. rewrite Z.add_0_r. by destruct (debt (vars s)).
  - destruct (hdl_step s Hok ltac:(lia)) as (s1 & E1 & Hok1 & D1 & C1 & _).
    pose proof (Hk 0 ltac:(lia)) as H0. rewrite Z.add_0_r in H0. unfold debt_after in D1. unfold skips in C1.
    rewrite (proj2 (Z.eqb_neq _ _)) in D1, C1 by done. cbn [andb] in C1. rewrite u32_id in D1 by (unfold is_u32; lia).
    destruct (IH s1 Hok1) as (s' & E & Hok' & C & D); rewrite ?D1; cbn [need_pass]; try lia.
    { intros k Hk'. replace (need_pass (debt (vars s)) + 1 + k) with (need_pass (debt (vars s)) + (k + 1)) by lia. apply Hk. lia. }
    exists s'. split_and!; [|done|lia|].
    + change (Datatypes.S n) with (1 + n)%nat. rewrite (interrupts_add _ _ _ _ (interrupts_one _ _ E1)). done.
    + rewrite D. unfold owed. rewrite D1. cbn. f_equal. lia.
Qed.

(** Five interrupts, of which the first may be skipped. *)
Lemma interrupts_five s : clock_ok s -> clk s + 5 < 2 ^ 64 -> 0 <= need_pass (debt (vars s)) -> need_pass (debt (vars s)) + 5 < 2 ^ 32 ->
  need_pass (debt (vars s)) mod 5 = 0 ->
  exists s', interrupts 5 s = Val (tt, s') /\ clock_ok s' /\ clk s' = clk s + (if owed s <=? -2 then 4 else 5) /\
    debt (vars s') = Debt (paid (owed s) 2) (need_pass (debt (vars s)) + 5).
Proof using All.
  intros Hok Hc Hp Hn Hm. destruct (hdl_step s Hok ltac:(lia)) as (s1 & E1 & Hok1 & D1 & C1 & _).
  unfold debt_after in D1. unfold skips in C1. rewrite (proj2 (Z.eqb_eq _ _)) in D1, C1 by done. cbn [andb] in C1.
  rewrite u32_id in D1 by (unfold is_u32; lia). fold (owed s) in D1, C1.
  destruct (interrupts_count 4 s1 Hok1) as (s' & E & Hok' & C & D); rewrite ?D1; cbn [need_pass]; try lia.
  { destruct (owed s <=? -2); lia. }
  { intros k Hk. zlia. }
  exists s'. split_and!; [|done|destruct (owed s <=? -2); lia|].
  - change 5%nat with (1 + 4)%nat. by rewrite (interrupts_add _ _ _ _ (interrupts_one _ _ E1)).
  - rewrite D. unfold owed at 1. rewrite D1. cbn. f_equal. lia.
Qed.

(** C4: milliseconds owed are paid two at a time: of [5 * k] interrupts, one in
    five is skipped as long as two are owed, and all others count; an odd one is
    dropped.  So a debt of [d] is paid after [5 * ((d + 1) / 2)] interrupts. *)
Theorem debt_is_paid (k : nat) s : clock_ok s -> clk s + 5 * Z.of_nat k < 2 ^ 64 -> 0 <= need_pass (debt (vars s)) ->
  need_pass (debt (vars s)) mod 5 = 0 -> need_pass (debt (vars s)) + 5 * Z.of_nat k < 2 ^ 32 ->
  exists s', interrupts (5 * k) s = Val (tt, s') /\ clk s' = clk s + 5 * Z.of_nat k - Z.min (Z.of_nat k) (- owed s / 2) /\
    owed s' = Z.min 0 (owed s + 2 * Z.of_nat k).
Proof using All.
  revert s. induction k as [|k IH]; intros s Hok Hc Hp Hm Hn.
  { exists s. destruct Hok as (_ & _ & Ho). split_and!; [done|zlia|lia]. }
  destruct (interrupts_five s Hok ltac:(lia) Hp ltac:(lia) Hm) as (s1 & E1 & Hok1 & C1 & D1).
  assert (O1 : owed s1 = paid (owed s) 2) by (unfold owed at 1; by rewrite D1).
  destruct (IH s1 Hok1) as (s' & E & C & O); rewrite ?D1; cbn [need_pass]; try lia.
  { destruct (owed s <=? -2); lia. }
  { rewrite Z.add_mod, Hm by lia. done. }
  exists s'. replace (5 * Datatypes.S k)%nat with (5 + 5 * k)%nat by lia. rewrite (interrupts_add _ _ _ _ E1).
  destruct Hok as (_ & _ & Ho). split_and!; [done| |].
  - rewrite C, C1, O1. unfold paid. destruct (Z.leb_spec (owed s) (-2)).
    + replace (- Z.min 0 (owed s + 2)) with (- owed s + (-1) * 2) by lia. rewrite Z.div_add by lia. zlia.
    + assert (owed s = 0 \/ owed s = -1) as [-> | ->] by lia; zlia.
  - rewrite O, O1. unfold paid. lia.
Qed.

(** ** The watchdog *)

(** How far the counter of interrupts is from the next that may be skipped. *)
Definition phase (np : Z) : Z := (5 - np mod 5) mod 5.

(** What has happened in [n] interrupts without a feed: no more than one in
    five was skipped, one more when the counter wraps. *)
Definition unfed (n : Z) s0 s : Prop :=
  feeds s = feeds s0 /\ s_last_int_wdg_feed (wdgs (vars s)) = s_last_int_wdg_feed (wdgs (vars s0)) /\
  (clk s = clk s0 \/ clk s - s_last_int_wdg_feed (wdgs (vars s0)) < INT_WDG_FEED_PERIOD_TICK) /\
  exists w, 0 <= w /\ need_pass (debt (vars s)) = need_pass (debt (vars s0)) + n - 2 ^ 32 * w /\
    4 * n + phase (need_pass (debt (vars s0))) - phase (need_pass (debt (vars s))) <= 5 * (clk s - clk s0) + 4 * w.

Lemma phase_step np : is_u32 np -> exists w, 0 <= w /\ u32 (np + 1) = np + 1 - 2 ^ 32 * w /\
  4 + phase np - phase (u32 (np + 1)) <= 5 * (if np mod 5 =? 0 then 0 else 1) + 4 * w.
Proof using Type.
  clear. intros Hu. unfold is_u32 in Hu. destruct (Z.eqb_spec np (2 ^ 32 - 1)) as [->|Hne]; [by exists 1|]. exists 0.
  rewrite u32_id by (unfold is_u32; lia). unfold phase. split_and!; [lia|lia|]. destruct (Z.eqb_spec (np mod 5) 0); zlia.
Qed.

Lemma unfed_step n s0 s1 s : is_u32 (need_pass (debt (vars s0))) -> clock_ok s1 -> clk s1 + 1 < 2 ^ 64 -> clk s0 <= clk s1 ->
  0 <= s_last_int_wdg_feed (wdgs (vars s0)) <= clk s0 -> is_u32 (need_pass (debt (vars s1))) -> unfed n s0 s1 ->
  fclk_hdl bk_wdg_reload BK_TIMER_ID3 s1 = Val (tt, s) -> clock_ok s /\ clk s1 <= clk s <= clk s1 + 1 /\ is_u32 (need_pass (debt (vars s))) /\
    feeds s1 <= feeds s /\ (feeds s = feeds s0 + 1 \/ unfed (n + 1) s0 s).
Proof using All.
  intros Hu0 Hok Hb Hc Hl Hu (F & L & N & w & Hw & Ew & Hsum) E. destruct (hdl_step s1 Hok Hb) as (s' & E' & Hok' & D & C & L' & F').
  rewrite E in E'. injection E' as <-. cbv zeta in *. rewrite L in L', F'.
  destruct (phase_step _ Hu) as (w1 & Hw1 & Ew1 & Hp). unfold debt_after in D.
  assert (Hnp : need_pass (debt (vars s)) = u32 (need_pass (debt (vars s1)) + 1)) by (by rewrite D).
  unfold skips in C, L', F'. set (sk := (_ mod 5 =? 0) && _) in C, L', F'.
  split_and!; [done|destruct sk; lia|destruct sk; lia|rewrite Hnp; apply u32_range|destruct (negb sk && _); cbn [b2z] in F'; lia|].
  assert (Hu64 : u64 (clk s - s_last_int_wdg_feed (wdgs (vars s0))) = clk s - s_last_int_wdg_feed (wdgs (vars s0)))
    by (apply Z.mod_small; destruct sk; lia).
  rewrite Hu64 in L', F'. destruct (Z.leb_spec INT_WDG_FEED_PERIOD_TICK (clk s - s_last_int_wdg_feed (wdgs (vars s0)))) as [Hfed|Hnot];
    destruct sk eqn:Esk; cbn [negb andb b2z] in L', F'; [|left; lia| |].
  all: right; split_and!; [lia|done|lia|exists (w + w1); split_and!; [lia|lia|rewrite Hnp]].
  all: subst sk; destruct (need_pass (debt (vars s1)) mod 5 =? 0); cbn [andb] in Esk; try done; lia.
Qed.

(** C3: however many ticks are owed, and whatever the counters: the watchdog is
    fed at least once in any 392 interrupts, that is within 784 ms. *)
Theorem watchdog_fed_in_time s : clock_ok s -> clk s + 392 < 2 ^ 64 -> is_u32 (need_pass (debt (vars s))) ->
  0 <= s_last_int_wdg_feed (wdgs (vars s)) <= clk s -> exists s', interrupts 392 s = Val (tt, s') /\ feeds s + 1 <= feeds s'.
Proof using All.
  intros Hok Hb Hu Hl.
  assert (Hrun : forall n : nat, (n <= 392)%nat -> exists s', interrupts n s = Val (tt, s') /\ clock_ok s' /\ clk s <= clk s' <= clk s + Z.of_nat n /\
    is_u32 (need_pass (debt (vars s'))) /\ (feeds s + 1 <= feeds s' \/ unfed (Z.of_nat n) s s')).
  { induction n as [|n IH]; intros Hn.
    - exists s. split_and!; [done|done|lia|lia|done|]. right. split_and!; [done|done|by left|]. exists 0. lia.
    - destruct IH as (s1 & E1 & Hok1 & C1 & U1 & H1); [lia|].
      destruct (hdl_step s1 Hok1 ltac:(lia)) as (s' & E & Hok' & D' & C' & _ & F'). exists s'. split_and!.
      + replace (Datatypes.S n) with (n + 1)%nat by lia. rewrite (interrupts_add _ _ _ _ E1). by apply interrupts_one.
      + done.
      + destruct (skips _); lia.
      + destruct (skips _); lia.
      + rewrite D'. apply u32_range.
      + destruct H1 as [H1|H1]; [left; destruct (_ && _); cbn [b2z] in F'; lia|].
        destruct (unfed_step _ s s1 s' Hu Hok1 ltac:(lia) ltac:(lia) Hl U1 H1 E) as (_ & _ & _ & _ & [Hf|Hf]); [left; lia|right].
        by replace (Z.of_nat (Datatypes.S n)) with (Z.of_nat n + 1) by lia. }
  destruct (Hrun 392%nat ltac:(lia)) as (s' & E & _ & _ & U' & H'). exists s'. split; [done|].
  destruct H' as [H'|(F & L & N & w & Hw & Ew & Hs)]; [done|exfalso]. unfold is_u32 in U', Hu. change (Z.of_nat 392) with 392 in *.
  assert (0 <= phase (need_pass (debt (vars s))) /\ phase (need_pass (debt (vars s'))) <= 4) by (unfold phase; zlia).
  change INT_WDG_FEED_PERIOD_TICK with 312 in N. lia.
Qed.
End interrupts.

(** ** What a correction leaves *)
Section corrections.
Context {S : Type} `{!Holds clock_vars S, !ClockEnv S} {bk_wdg_reload : M S unit} `{!ClockEnvOk S bk_wdg_reload}.
Implicit Types s : S.

(** The clock in milliseconds, as a word. *)
Definition ms_of s : Z := u32 (BK_TICKS_TO_MS (u32 (clk s))).

Lemma ms_val s : clock_ms s = Val (ms_of s, s).
Proof using Type. done. Qed.

Lemma ms_word t : u32 (BK_TICKS_TO_MS (u32 t)) = u32 (2 * t).
Proof using Type. clear. unfold u32, BK_TICKS_TO_MS, FCLK_DURATION_MS. rewrite Z.mul_mod_idemp_l by lia. by rewrite Z.mul_comm. Qed.

Lemma s32_cong x y k : x = y + 2 ^ 32 * k -> s32 x = s32 y.
Proof using Type. clear. intros ->. unfold s32. f_equal. replace (y + 2 ^ 32 * k + 2 ^ 31) with (y + 2 ^ 31 + k * 2 ^ 32) by lia. by rewrite Z.mod_add by lia. Qed.

Lemma s32_u32_r x y : s32 (x - u32 y) = s32 (x - y).
Proof using Type. clear. apply (s32_cong _ _ (y / 2 ^ 32)). unfold u32. change 4294967296 with (2 ^ 32). pose proof (Z.div_mod y (2 ^ 32)). lia. Qed.

Lemma s32_split x : exists k, x = s32 x + 2 ^ 32 * k.
Proof using Type.
  clear. exists ((x + 2 ^ 31) / 2 ^ 32). unfold s32. pose proof (Z.div_mod (x + 2 ^ 31) (2 ^ 32)). lia.
Qed.

Lemma machw_init_val s : exists s', mcu_ps_machw_init s = Val (tt, s') /\ fclk (vars s') = fclk (vars s) /\
  debt (vars s') = debt (vars s) /\ cal_tick_save (vars s') = cal_tick_save (vars s) /\ kticks s' = kticks s.
Proof using Type.
  unfold mcu_ps_machw_init. rewrite (bind_ret_val _ _ _ _ _ (ms_val s)). destruct (machw_ok s) as (t & s1 & E & (V & _ & G) & K).
  rewrite (bind_ret_val _ _ _ _ _ E), sets_val. eexists. split; [reflexivity|]. rewrite vars_put. cbn. change (vars s1 = vars s) in V. rewrite V.
  split_and!; [done..|]. by rewrite (proj1 (env_put _ s1)).
Qed.

(** A calibration compares the clock with the number of periods of its
    timer.  If the clock is 4 ms late or more, it is moved up to 2 or 3 ms behind,
    the kernel with it, and nothing is owed; if it is 4 ms early or more, all
    but 2 ms of that is owed; otherwise the clock and the debt stay.  The
    difference is of 32-bit words, so it holds over their wrap. *)
Theorem calibration_bounds s : clock_ok s -> clk s + 2 ^ 30 < 2 ^ 64 ->
  let t := u32 (tmp1 (cal_tick_save (vars s)) + ONE_CAL_TIME) in let lost := s32 (t - ms_of s) in
  exists s', timer_cal_tick s = Val (tt, s') /\ tmp1 (cal_tick_save (vars s')) = t /\
    (4 <= lost -> 2 <= s32 (t - ms_of s') <= 3 /\ clk s' = clk s + (lost - 2) / 2 /\ owed s' = 0 /\ kticks s' = u32 (kticks s + (lost - 2) / 2)) /\
    (lost <= -4 -> clk s' = clk s /\ owed s' = lost + 2) /\
    (-4 < lost < 4 -> clk s' = clk s /\ owed s' = owed s).
Proof using All.
  intros Hok Hb t lost. pose proof (s32_range (t - ms_of s)) as Hl. fold lost in Hl.
  unfold timer_cal_tick. rewrite (bind_ret_val _ _ _ _ _ (ms_val s)), (bind_ret_val _ _ _ _ _ (gets_val _ s)). cbv zeta. fold t lost.
  rewrite (bind_ret_val _ _ _ _ _ (sets_val _ s)). set (s1 := hput _ s). change (2 * FCLK_DURATION_MS) with 4.
  pose proof (reaches_sets (with_cal (CalTick (cal_fclk_tick (cal_tick_save (vars s))) t)) s) as (V1 & K1 & _). fold s1 in V1, K1.
  destruct (Z.leb_spec 4 lost) as [H4|H4]; [|destruct (Z.leb_spec lost (Z.opp 4)) as [Hm|Hm]; cbn [when]].
  - assert (Hu : u32 (BK_MS_TO_TICKS (lost - FCLK_DURATION_MS)) = (lost - 2) / 2)
      by (unfold BK_MS_TO_TICKS, FCLK_DURATION_MS; apply u32_id; unfold is_u32; zlia).
    rewrite Hu.
    destruct (update_tick_val ((lost - 2) / 2) s1) as (f' & s2 & E2 & (Hs2 & Ht2 & _) & V2 & K2 & _).
    { rewrite V1. apply Hok. } { zlia. } { unfold clk. rewrite V1. cbn. unfold clk in Hb. zlia. }
    set (s3 := hput (with_debt (set_increase 0) (vars s2)) s2). destruct (machw_init_val s3) as (s4 & E4 & V4 & D4 & C4 & K4).
    assert (V3 : vars s3 = with_debt (set_increase 0) (vars s2)) by apply vars_put.
    assert (Hc4 : clk s4 = clk s + (lost - 2) / 2) by (unfold clk at 1; rewrite V4, V3, V2; cbn; rewrite Ht2; unfold clk at 1; by rewrite V1).
    exists s4. split_and!; [| |intros _; split|lia|lia].
    + rewrite bind_assoc, (bind_ret_val _ _ _ _ _ E2). unfold mcu_ps_increase_clr. rewrite (bind_ret_val _ _ _ _ _ (sets_val _ s2)). exact E4.
    + by rewrite C4, V3, V2, V1.
    + assert (Hr : s32 (t - ms_of s4) = s32 (2 + lost mod 2)); [|pose proof (Z.mod_pos_bound lost 2 ltac:(lia)); rewrite Hr, s32_id; lia].
      unfold ms_of. rewrite ms_word, s32_u32_r, Hc4.
      assert (Hs : lost = s32 (t - 2 * clk s)) by (subst lost; unfold ms_of; by rewrite ms_word, s32_u32_r).
      destruct (s32_split (t - 2 * clk s)) as (k & Ek). rewrite <- Hs in Ek. apply (s32_cong _ _ k). generalize lost, Ek. clear. intros lost Ek. zlia.
    + split_and!; [done|unfold owed; by rewrite D4, V3|]. rewrite K4. unfold s3. rewrite (proj1 (env_put _ s2)), K2, K1, u32_add. f_equal. lia.
  - set (s2 := hput (with_debt (set_increase (lost + FCLK_DURATION_MS)) (vars s1)) s1). destruct (machw_init_val s2) as (s3 & E3 & V3 & D3 & C3 & _).
    assert (V2 : vars s2 = with_debt (set_increase (lost + FCLK_DURATION_MS)) (vars s1)) by apply vars_put.
    exists s3. split_and!; [by rewrite (bind_ret_val _ _ _ _ _ (sets_val _ s1))|by rewrite C3, V2, V1|lia|intros _|lia].
    unfold clk, owed. by rewrite V3, D3, V2, V1.
  - destruct (machw_init_val s1) as (s2 & E2 & V2 & D2 & C2 & _). exists s2.
    split_and!; [by rewrite bind_mret|by rewrite C2, V1|lia|lia|intros _]. unfold clk, owed. by rewrite V2, D2, V1.
Qed.

(** The seconds applications read are those of the clock's low 32 bits: they
    are the clock's own up to 2^32 ticks, about 99 days, and then start from 0
    again, while the clock's own go on. *)
Theorem seconds_wrap s : clock_ok s -> exists t, fclk_get_second s = Val (t, s) /\ 0 <= t <= 8589934 /\
  (clk s < 2 ^ 32 -> t = current_seconds (fclk (vars s))) /\
  (2 ^ 32 <= clk s < 2 ^ 32 * 500 -> t < current_seconds (fclk (vars s))).
Proof using Type.
  intros (_ & (Hc & Hs & _) & _). exists (u32 (clk s) / FCLK_SECOND). rewrite Hs. unfold clk. fold (clk s) in *.
  unfold FCLK_SECOND, FCLK_DURATION_MS. change (1000 / 2) with 500. pose proof (u32_range (clk s)) as Hu. unfold is_u32 in Hu. split_and!.
  - done.
  - apply Z.div_pos; lia.
  - zlia.
  - intros Hlt. rewrite !u32_id; [done|unfold is_u32; zlia|unfold is_u32; lia].
  - intros Hge. rewrite (u32_id (clk s / 500)) by (unfold is_u32; zlia). zlia.
Qed.
End corrections.
