(* ===== verification/ClockSystem.v ===== *)
(** * The clock in the system

    What the kernel and the radio promise of the state under the registry
    ([KernelOk]); the watchdog fed through the registry, which gives the clock what
    it relies on; the way of a tick from the interrupt unit through the timers to
    the clock and the kernel. *)
From stdpp Require Import strings.
From S2P Require Import Prelude Serve DrvModel Icu Regs Intc Stack Timer TimerCorrect Wdg Clock ClockCorrect.
Local Open Scope Z_scope.

(** ** The watchdog's registers

    A feed is the period written with the first key and then with the second. *)
Definition wdt_word (key period : Z) : Z := Z.lor (Z.shiftl key WDT_KEY_POSI) (Z.shiftl (Z.land period WDT_PERIOD_MASK) WDT_PERIOD_POSI).

Class WdtRegs (hw : Type) `{RegBus hw} := {
  wcount : hw -> Z;
  wcount_feed p h : wcount (bus_write WDT_CTRL_REG (wdt_word WDT_2ND_KEY p) (bus_write WDT_CTRL_REG (wdt_word WDT_1ST_KEY p) h)) = wcount h + 1;
  wcount_write a v h : a <> WDT_CTRL_REG -> wcount (bus_write a v h) = wcount h;
  wcount_read a h : wcount (bus_read a h).2 = wcount h;
}.

(** ** What the kernel and the radio promise

    Each of their calls returns and leaves the drivers and what software set in
    the timers alone, and no pending interrupt of the timers is lost; the kernel counts the ticks it is told. *)
Definition timers_stay {V} `{BlockRegs timer_block V} (v v' : V) : Prop :=
  (forall a i, Z.testbit (timer_pending a) i = true -> Z.testbit (treg v a) i = true -> Z.testbit (treg v' a) i = true) /\
  forall b, in_timer b = true -> tsoft v' b = tsoft v b.

Lemma timers_stay_read {V} `{BlockRegs timer_block V} a (v : V) : timers_stay v (bus_read a v).2.
Proof.
  split; [intros b i Hb Hi; by apply breg_read_pending|]. intros b _. destruct (in_timer a) eqn:Ha; [|by apply breg_read_other].
  by rewrite (breg_read (B := timer_block)).
Qed.
Lemma timers_stay_write {V} `{BlockRegs timer_block V} a x (v : V) : in_timer a = false -> timers_stay v (bus_write a x v).
Proof.
  intros Ha. split; [|intros b _; by apply soft_other]. intros b i Hb Hi. apply breg_pending; [|done|done]. intros ->.
  revert Hb. unfold timer_pending. destruct (Z.eqb_spec a TIMER0_2_CTL) as [->|]; [done|].
  destruct (Z.eqb_spec a TIMER3_5_CTL) as [->|]; [done|]. by rewrite Z.bits_0.
Qed.
#[export] Instance timers_stay_pre {V} `{BlockRegs timer_block V} : PreOrder (timers_stay (V := V)).
Proof.
  split; [intros v; by split; [intros a i|]|]. intros v1 v2 v3 [A1 B1] [A2 B2]. split; [auto|]. intros b Hb. by rewrite B2, B1.
Qed.

Class KernelOk (V : Type) `{RegBus V, !WdtRegs V, !BlockRegs timer_block V, !Holds clock_vars V, !Holds wdt_vars V, !Holds timer_vars V, !ClockEnv V} := {
  kcount : V -> Z;
  kcount_u32 v : is_u32 (kcount v);
  leaves v v' : Prop := hget (X := clock_vars) v' = hget v /\ hget (X := timer_vars) v' = hget v /\ timers_stay v v' /\ wcount v' = wcount v;
  k_tick v : exists r v', xTaskIncrementTick v = Val (r, v') /\ leaves v v' /\ kcount v' = u32 (kcount v + 1);
  k_step n v : exists v', vTaskStepTick n v = Val (tt, v') /\ leaves v v' /\ kcount v' = u32 (kcount v + n);
  k_switch v : exists v', vTaskSwitchContext v = Val (tt, v') /\ leaves v v' /\ kcount v' = kcount v;
  k_flag v : exists r v', preempt_delayed_schedule_get_flag v = Val (r, v') /\ leaves v v' /\ kcount v' = kcount v;
  k_clear v : exists v', preempt_delayed_schedule_clear_flag v = Val (tt, v') /\ leaves v v' /\ kcount v' = kcount v;
  k_machw v : exists t v', hal_machw_time v = Val (t, v') /\ leaves v v' /\ kcount v' = kcount v;
  k_mode v : exists r v', bk_unconditional_sleep_mode_get v = Val (r, v') /\ leaves v v' /\ kcount v' = kcount v;
  k_dtim v : exists r v', power_save_if_ps_rf_dtim_enabled v = Val (r, v') /\ leaves v v' /\ kcount v' = kcount v;
  k_put (x : clock_vars) v : kcount (hput x v) = kcount v /\ wcount (hput x v) = wcount v /\ hget (X := timer_vars) (hput x v) = hget v /\ timers_stay v (hput x v);
  k_put_timers (x : timer_vars) v : kcount (hput x v) = kcount v /\ wcount (hput x v) = wcount v /\ hget (X := clock_vars) (hput x v) = hget v;
  k_read a v : kcount (bus_read a v).2 = kcount v;
  k_write a v w : kcount (bus_write a v w) = kcount w;
}.

(** Their calls, on the state with the registry. *)
#[export] Instance drv_env V `{ClockEnv V} : ClockEnv (drv_state V) := {|
  xTaskIncrementTick := call xTaskIncrementTick;
  vTaskStepTick n := call (vTaskStepTick n);
  vTaskSwitchContext := call vTaskSwitchContext;
  preempt_delayed_schedule_get_flag := call preempt_delayed_schedule_get_flag;
  preempt_delayed_schedule_clear_flag := call preempt_delayed_schedule_clear_flag;
  hal_machw_time := call hal_machw_time;
  bk_unconditional_sleep_mode_get := call bk_unconditional_sleep_mode_get;
  power_save_if_ps_rf_dtim_enabled := call power_save_if_ps_rf_dtim_enabled;
|}.

Section system.
Context {V : Type} `{RegBus V, !WdtRegs V, !BlockRegs timer_block V, !Holds clock_vars V, !Holds wdt_vars V, !Holds timer_vars V, !ClockEnv V, !KernelOk V}.
Context `{!Quiet clock_vars V, !Quiet timer_vars V}.
Context (sdev_ops : Z -> SDD_OPERATIONS V) (wdt_op : Z).
Implicit Types s : drv_state V.

Definition feed : M (drv_state V) unit := bk_wdg_reload sdev_ops wdt_op.

(** A feed writes the period with both keys and leaves the type of the reset. *)
Definition fed_world (v : V) : V :=
  let p := g_wdt_period (hget v) in
  bus_write START_TYPE_ADDR RESET_SOURCE_WATCHDOG (bus_write WDT_CTRL_REG (wdt_word WDT_2ND_KEY p) (bus_write WDT_CTRL_REG (wdt_word WDT_1ST_KEY p) v)).

Lemma feed_val s : sdev_slot (drv_sdev_tbl s) WDT_DEV_NAME wdt_op ->
  feed s = Val (tt, DrvState (drv_dev_tbl s) (drv_sdev_tbl s) (fed_world (world s))).
Proof using Type.
  intros Hs. unfold feed, bk_wdg_reload, wdt_control. rewrite (bind_ret_val _ _ _ WDT_SUCCESS (DrvState (drv_dev_tbl s) (drv_sdev_tbl s) (fed_world (world s)))).
  - done.
  - by rewrite dev_control_val.
Qed.

(** What a call of the kernel keeps above it. *)
Definition drivers_kept s s' : Prop :=
  drv_dev_tbl s' = drv_dev_tbl s /\ drv_sdev_tbl s' = drv_sdev_tbl s /\ hget (X := timer_vars) (world s') = hget (world s) /\
  timers_stay (world s) (world s').
#[export] Instance drivers_kept_pre : PreOrder drivers_kept.
Proof.
  split; [by intros s|]. intros s1 s2 s3 (A1 & B1 & C1 & D1) (A2 & B2 & C2 & D2). split_and!; [congruence..|by etransitivity].
Qed.

Lemma call_kept {A} (m : M V A) (f : Z -> Z) s : (exists a v, m (world s) = Val (a, v) /\ leaves (world s) v /\ kcount v = f (kcount (world s))) ->
  exists a s', call m s = Val (a, s') /\
    (hget (X := clock_vars) s' = hget s /\ wcount (world s') = wcount (world s) /\ drivers_kept s s') /\ kcount (world s') = f (kcount (world s)).
Proof using Type.
  intros (a & v & E & (L1 & L2 & L3 & L4) & K). exists a, (DrvState (drv_dev_tbl s) (drv_sdev_tbl s) v).
  split; [unfold call; by rewrite E|]. by split_and!.
Qed.

Lemma fed_facts v : hget (X := clock_vars) (fed_world v) = hget v /\ hget (X := timer_vars) (fed_world v) = hget v /\
  timers_stay v (fed_world v) /\ kcount (fed_world v) = kcount v /\ wcount (fed_world v) = wcount v + 1.
Proof using Type*.
  unfold fed_world. split_and!.
  - by rewrite !quiet_write.
  - by rewrite !quiet_write.
  - by repeat (etransitivity; [|by apply timers_stay_write]).
  - by rewrite !k_write.
  - rewrite wcount_write by done. apply wcount_feed.
Qed.

(** The kernel's promises, and the feed through the registry, are what the
    clock relies on. *)
#[export] Instance clock_env_ok : ClockEnvOk (drv_state V) feed.
Proof.
  refine {| kticks s := kcount (world s) : Z; feeds s := wcount (world s); ready s := sdev_slot (drv_sdev_tbl s) WDT_DEV_NAME wdt_op;
    keeps := drivers_kept |}.
  - intros s s' (_ & E & _). by rewrite E.
  - intros s. apply kcount_u32.
  - intros s. destruct (call_kept xTaskIncrementTick (fun k => u32 (k + 1)) s (k_tick _)) as (r & s' & E & B & K). by exists r, s'.
  - intros n s. destruct (k_step n (world s)) as (v & E & L & K).
    destruct (call_kept (vTaskStepTick n) (fun k => u32 (k + n)) s) as ([] & s' & E' & B' & K'); [by exists tt, v|by exists s'].
  - intros s. destruct (k_switch (world s)) as (v & E & L & K).
    destruct (call_kept vTaskSwitchContext (fun k => k) s) as ([] & s' & E' & B' & K'); [by exists tt, v|by exists s'].
  - intros s. destruct (call_kept preempt_delayed_schedule_get_flag (fun k => k) s (k_flag _)) as (r & s' & E & B & K). by exists r, s'.
  - intros s. destruct (k_clear (world s)) as (v & E & L & K).
    destruct (call_kept preempt_delayed_schedule_clear_flag (fun k => k) s) as ([] & s' & E' & B' & K'); [by exists tt, v|by exists s'].
  - intros s. destruct (call_kept hal_machw_time (fun k => k) s (k_machw _)) as (r & s' & E & B & K). by exists r, s'.
  - intros s. destruct (call_kept bk_unconditional_sleep_mode_get (fun k => k) s (k_mode _)) as (r & s' & E & B & K). by exists r, s'.
  - intros s. destruct (call_kept power_save_if_ps_rf_dtim_enabled (fun k => k) s (k_dtim _)) as (r & s' & E & B & K). by exists r, s'.
  - intros s Hs. eexists. split; [by apply feed_val|]. destruct (fed_facts (world s)) as (F1 & F2 & F3 & F4 & F5). cbn. by split_and!.
  - intros x s. destruct (k_put x (world s)) as (P1 & P2 & P3 & P4). cbn. by split_and!.
Defined.
End system.

(** ** From the interrupt to the clock *)
Section delivery.
Context {V : Type} `{RegBus V, !WdtRegs V, !BlockRegs timer_block V, !Holds clock_vars V, !Holds wdt_vars V, !Holds timer_vars V, !ClockEnv V, !KernelOk V}.
Context `{!Quiet clock_vars V, !Quiet timer_vars V, !IcuRegs V}.
Context (sdev_ops : Z -> SDD_OPERATIONS V) (wdt_op : Z) (fuel : nat) (call_handler : Z -> Z -> M (drv_state V) unit).
Implicit Types s : drv_state V.
Abbreviation feed := (feed sdev_ops wdt_op).

(** The table of the timers holds the handlers of the calibration and of the clock, at two addresses. *)
Record clock_handlers (cal tick : Z) s : Prop := {
  ch_table : handlers s = [0; 0; cal; tick; 0; 0];
  ch_cal : truthy cal = true /\ forall i, call_handler cal i = cal_timer_hdl i;
  ch_tick : truthy tick = true /\ forall i, call_handler tick i = fclk_hdl feed i;
}.

(** The clock moved from [s] to [s'] by at most [B], the kernel with it. *)
Definition clock_moves (B : Z) s s' : Prop :=
  clock_ok (bk_wdg_reload := feed) s' /\ clk s <= clk s' <= clk s + B /\ kticks (bk_wdg_reload := feed) s' = u32 (kticks (bk_wdg_reload := feed) s + (clk s' - clk s)).

(** A tick from [s] to [s']: it counts unless it is one of those owed.  The
    watchdog is fed if the tick counts and its period has passed since the last
    feed, once, and the time of the feed is kept; otherwise it is not. *)
Definition tick_counts s : bool := negb (skips (debt (vars s))).
Definition last_feed s : Z := s_last_int_wdg_feed (wdgs (vars s)).
Definition feed_due s s' : bool := tick_counts s && (INT_WDG_FEED_PERIOD_TICK <=? u64 (clk s' - last_feed s)).
Definition ticks_and_feeds s s' : Prop :=
  clk s' = clk s + b2z (tick_counts s) /\
  wcount (world s') = wcount (world s) + b2z (feed_due s s') /\
  last_feed s' = (if feed_due s s' then clk s' else last_feed s).

(** The calibration, if it ran. *)
Definition calibrated (ran : bool) s s' : Prop :=
  (if ran then cal_timer_hdl CAL_TIMER_ID s = Val (tt, s') else s' = s) /\
  wcount (world s') = wcount (world s) /\ last_feed s' = last_feed s.

Lemma status_bit r s k : 7 <= k <= 9 -> Z.testbit (status_of r s) k = Z.testbit (treg s r) k.
Proof using Type.
  intros Hk. unfold status_of. rewrite Z.land_spec. assert (Hs : k = 7 \/ k = 8 \/ k = 9) by lia.
  destruct Hs as [->|[->| ->]]; apply andb_true_r.
Qed.

(** The calls due in a group, when the table has three handlers. *)
Lemma group_calls r base a b c s : slice (Z.to_nat base) 3 (handlers s) = [a; b; c] -> base = 0 \/ base = 3 -> length (handlers s) = 6%nat ->
  group_due r base s = (if Z.testbit (treg s r) 7 && truthy a then [(a, base)] else []) ++
    (if Z.testbit (treg s r) 8 && truthy b then [(b, 1 + base)] else []) ++ (if Z.testbit (treg s r) 9 && truthy c then [(c, 2 + base)] else []).
Proof using Type.
  intros Hs Hb Hl. unfold group_due, due. change (seqZ 0 (Z.of_nat 3)) with [0; 1; 2]. cbn [omap list_omap]. unfold due_call.
  assert (Hz : zlookup (handlers s) (0 + base) = Some a /\ zlookup (handlers s) (1 + base) = Some b /\ zlookup (handlers s) (2 + base) = Some c).
  { destruct (handlers s) as [|x0 [|x1 [|x2 [|x3 [|x4 [|x5 [|]]]]]]]; try done. destruct Hb as [-> | ->]; injection Hs as -> -> ->; done. }
  destruct Hz as (-> & -> & ->). change (0 + TIMERCTLA_INT_POSI) with 7. change (1 + TIMERCTLA_INT_POSI) with 8. change (2 + TIMERCTLA_INT_POSI) with 9.
  rewrite !status_bit by lia. by destruct (Z.testbit _ 7), (Z.testbit _ 8), (Z.testbit _ 9), (truthy a), (truthy b), (truthy c).
Qed.

Lemma due_cal cal tick s : handlers s = [0; 0; cal; tick; 0; 0] -> truthy cal = true ->
  group_due TIMER0_2_CTL 0 s = if Z.testbit (treg s TIMER0_2_CTL) 9 then [(cal, 2)] else [].
Proof using Type.
  intros Ht Hc. rewrite (group_calls _ _ 0 0 cal) by (by rewrite ?Ht; auto). change (truthy 0) with false. rewrite Hc, !andb_false_r, andb_true_r. done.
Qed.

Lemma due_tick cal tick s : handlers s = [0; 0; cal; tick; 0; 0] -> truthy tick = true -> Z.testbit (treg s TIMER3_5_CTL) 7 = true ->
  group_due TIMER3_5_CTL 3 s = [(tick, 3)].
Proof using Type.
  intros Ht Hc Hp. rewrite (group_calls _ _ tick 0 0) by (by rewrite ?Ht; auto). change (truthy 0) with false. rewrite Hc, Hp, !andb_false_r. done.
Qed.

Lemma acked_clock r st s : clock_ok (bk_wdg_reload := feed) s -> clock_ok (bk_wdg_reload := feed) (acked r st s) /\ vars (acked r st s) = vars s /\
  kticks (bk_wdg_reload := feed) (acked r st s) = kticks (bk_wdg_reload := feed) s.
Proof using Type.
  intros Hok. assert (Hv : vars (acked r st s) = vars s) by (unfold vars, acked; apply quiet_write).
  split_and!; [|done|cbn; apply k_write]. unfold clock_ok, owed. rewrite Hv. destruct Hok as (Hr & Hs & Ho). split; [exact Hr|by split].
Qed.

Lemma drivers_kept_handlers s s' : drivers_kept s s' -> handlers s' = handlers s.
Proof using Type. intros (_ & _ & E & _). unfold handlers. cbn. by rewrite E. Qed.

(** The calibration, if its timer is pending, and nothing otherwise. *)
Lemma first_group cal tick s : clock_handlers cal tick s -> clock_ok (bk_wdg_reload := feed) s -> clk s + 2 ^ 30 < 2 ^ 64 ->
  exists s1, keep_served call_handler handlers s (group_due TIMER0_2_CTL 0 s) s1 /\ clock_moves (2 ^ 30) s s1 /\ drivers_kept s s1 /\
    calibrated (Z.testbit (treg s TIMER0_2_CTL) 9) s s1.
Proof using Quiet0.
  intros [Ht [Hc Ec] _] Hok Hb. rewrite (due_cal cal tick s Ht Hc). destruct (Z.testbit (treg s TIMER0_2_CTL) 9).
  - destruct (advances_timer_cal (bk_wdg_reload := feed) s Hok Hb) as ([] & s1 & E & _ & Hk & Hok1 & Hc1 & Hk1). exists s1.
    split_and!; [|by split_and!; [|lia|lia|]|done|].
    + eapply keep_cons; [by rewrite Ec|by apply drivers_kept_handlers|constructor].
    + destruct (unwatched_cal (bk_wdg_reload := feed) CAL_TIMER_ID s tt s1 E) as [F W]. split_and!; [exact E|exact F|unfold last_feed; by rewrite W].
  - exists s. split_and!; [constructor| |reflexivity|by split_and!]. split_and!; [done|lia|lia|]. rewrite Z.sub_diag, Z.add_0_r. by rewrite u32_id by apply kticks_u32.
Qed.

Lemma tick_isr cal tick s : (0 < fuel)%nat -> clock_handlers cal tick s -> clock_ok (bk_wdg_reload := feed) s -> clk s + 2 ^ 31 < 2 ^ 64 ->
  Z.testbit (treg s TIMER3_5_CTL) 7 = true -> exists s1 s', bk_timer_isr call_handler fuel s = Val (tt, s') /\ clock_moves (2 ^ 30 + 1) s s' /\
    handlers s' = handlers s /\ calibrated (Z.testbit (treg s TIMER0_2_CTL) 9) s s1 /\ ticks_and_feeds s1 s'.
Proof using Quiet0 Quiet1.
  intros Hf Hch Hok Hb Hp. destruct (first_group cal tick s Hch Hok ltac:(lia)) as (s1 & R1 & (Hok1 & Hc1 & Hk1) & K1 & N1).
  destruct Hch as [Ht _ [Htk Etk]]. set (s2 := acked TIMER0_2_CTL (status_of TIMER0_2_CTL s) s1).
  destruct (acked_clock TIMER0_2_CTL (status_of TIMER0_2_CTL s) s1 Hok1) as (Hok2 & V2 & T2). fold s2 in Hok2, V2, T2.
  assert (H2 : handlers s2 = [0; 0; cal; tick; 0; 0]) by (subst s2; by rewrite acked_handlers, (drivers_kept_handlers _ _ K1)).
  assert (C2 : clk s2 = clk s1) by (unfold clk; by rewrite V2).
  assert (P2 : Z.testbit (treg s2 TIMER3_5_CTL) 7 = true).
  { subst s2. unfold acked. apply breg_pending; [done|done|]. destruct K1 as (_ & _ & _ & K). by apply K. }
  destruct (hdl_step feed s2 Hok2 ltac:(lia)) as (s3 & E3 & Hok3 & _ & C3 & L3 & F3).
  destruct (advances_hdl (bk_wdg_reload := feed) BK_TIMER_ID3 s2 Hok2 ltac:(lia)) as ([] & s3' & E3' & _ & K3 & _ & _ & Hk3).
  rewrite E3 in E3'. injection E3' as <-.
  destruct (acked_clock TIMER3_5_CTL (status_of TIMER3_5_CTL s2) s3 Hok3) as (Hok4 & V4 & T4).
  set (s4 := acked TIMER3_5_CTL (status_of TIMER3_5_CTL s2) s3) in *. assert (C4 : clk s4 = clk s3) by (unfold clk; by rewrite V4).
  exists s1, s4. split_and!; [|split_and!; [done|destruct (skips _); lia|destruct (skips _); lia|]| |exact N1|].
  - apply timer_isr_calls; [done|by rewrite Ht|exact R1|]. fold s2. rewrite (due_tick cal tick s2 H2 Htk P2).
    eapply keep_cons; [by rewrite Etk|by apply drivers_kept_handlers|constructor].
  - rewrite T4, Hk3, T2, Hk1, u32_add. f_equal. lia.
  - subst s4. rewrite acked_handlers, (drivers_kept_handlers _ _ K3), H2. by rewrite Ht.
  - rewrite V2 in C3, L3, F3. rewrite <- C4 in L3, F3. rewrite <- V4 in L3. change (feeds s3) with (wcount (world s3)) in F3.
    assert (W2 : wcount (world s2) = wcount (world s1)) by (subst s2; by apply wcount_write).
    assert (W4 : wcount (world s4) = wcount (world s3)) by (subst s4; by apply wcount_write).
    unfold ticks_and_feeds, feed_due, tick_counts, last_feed. split_and!; [rewrite C4, C3, C2; by destruct (skips _)|rewrite W4, F3; change (feeds s2) with (wcount (world s2)); by rewrite W2|exact L3].
Qed.

(** What accesses to the interrupt unit leave alone. *)
Definition icu_beside_clock s s' : Prop := vars s' = vars s /\ drivers_kept s s' /\ kcount (world s') = kcount (world s) /\ wcount (world s') = wcount (world s).
Lemma icu_clock_respects : respects in_icu icu_beside_clock.
Proof using KernelOk0 Quiet0 Quiet1.
  split.
  - intros s. by split_and!.
  - intros s1 s2 s3 (A1 & B1 & C1 & D1) (A2 & B2 & C2 & D2). split_and!; [congruence|by etransitivity|congruence|congruence].
  - intros a s Ha. split_and!; [apply quiet_read|split_and!; [done|done|apply quiet_read|apply timers_stay_read]|apply k_read|apply wcount_read].
  - intros a v s Ha. split_and!; [apply quiet_write|split_and!; [done|done|apply quiet_write|]|apply k_write|].
    + by apply timers_stay_write, icu_apart_timer.
    + apply wcount_write. intros ->. by revert Ha; vm_compute.
Qed.

Lemma beside_clock_ok s s' : icu_beside_clock s s' -> clock_ok (bk_wdg_reload := feed) s ->
  clock_ok (bk_wdg_reload := feed) s' /\ handlers s' = handlers s /\ clk s' = clk s.
Proof using Type.
  intros (V1 & K1 & T1 & _) (Hr & Hs & Ho). split_and!; [|by apply drivers_kept_handlers|unfold clk; by rewrite V1].
  unfold clock_ok, owed. rewrite V1. split; [|by split]. by eapply keeps_ready.
Qed.
End delivery.

Definition timer_isr_e (addr : Z) : ISR_T := ISR addr PRI_IRQ_TIMER IRQ_TIMER.

(** C1: when the timers' interrupt is the only one pending among 0 to 15 and
    timer 3 is pending, the IRQ entry runs to its end: the calibration if timer 2
    is pending too, which feeds nothing, then the tick.  The clock moves on and
    its seconds with it, and the kernel is told exactly as many ticks.  The tick
    counts one, or none if it is one of those owed.  If it counts and 312 ticks
    or more have passed since the watchdog's last feed, the watchdog is fed through the registry,
    once, and the clock kept as the time of the feed; otherwise it is not fed. *)
Theorem tick_reaches_clock {V} `{RegBus V, !WdtRegs V, !BlockRegs timer_block V, !Holds clock_vars V, !Holds wdt_vars V, !Holds timer_vars V,
    !ClockEnv V, !KernelOk V, !Quiet clock_vars V, !Quiet timer_vars V, !IcuRegs V}
    sdev_ops wdt_op fuel n call_handler call_isr dtim_wake es addr cal tick (w : intc_st (drv_state V)) :
  table_rep es w -> (INTC_MAX_COUNT < n)%nat -> timer_isr_e addr ∈ es -> addr <> 0 -> (0 < fuel)%nat ->
  call_isr addr = bk_timer_isr call_handler fuel -> (forall x s, dtim_wake x s = Val (tt, s)) ->
  clock_handlers sdev_ops wdt_op call_handler cal tick (ext w) -> clock_ok (bk_wdg_reload := feed sdev_ops wdt_op) (ext w) ->
  clk (ext w) + 2 ^ 31 < 2 ^ 64 ->
  Z.land (ireg (ext w) ICU_INT_STATUS) 0xFFFF = BIT IRQ_TIMER -> Z.testbit (treg (ext w) TIMER3_5_CTL) 7 = true ->
  exists g s1 s', intc_irq call_isr dtim_wake n w = Val (tt, with_ext w s') /\ clock_moves sdev_ops wdt_op (2 ^ 30 + 1) (ext w) s' /\
    handlers s' = handlers (ext w) /\ icu_beside_clock (ext w) g /\
    calibrated (Z.testbit (treg g TIMER0_2_CTL) 9) g s1 /\ ticks_and_feeds s1 s' /\
    (Z.testbit (treg g TIMER0_2_CTL) 9 = false -> ticks_and_feeds (ext w) s').
Proof.
  intros Hr Hn Hin Haddr Hf Hisr Hwake Hch Hok Hb Hst Hp.
  destruct (entry_status (hw := drv_state V) w 0xFFFF) as (g & Eg & _ & Ek). rewrite Hst in Eg, Ek.
  pose proof (icu_touches (hw := drv_state V) _ _ icu_beside_clock icu_clock_respects _ _ _ Eg) as Hg. cbv [id] in Hg.
  destruct (beside_clock_ok sdev_ops wdt_op _ _ Hg Hok) as (Hokg & Htg & Hcg).
  assert (Hchg : clock_handlers sdev_ops wdt_op call_handler cal tick g) by (destruct Hch as [E1 E2 E3]; split; [by rewrite Htg|done..]).
  assert (Hpg : Z.testbit (treg g TIMER3_5_CTL) 7 = true) by (destruct Hg as (_ & (_ & _ & _ & K) & _); by apply K).
  destruct (tick_isr sdev_ops wdt_op fuel call_handler cal tick g Hf Hchg Hokg ltac:(lia) Hpg) as (s1 & s' & Erun & (M1 & M2 & M3) & Ht' & Hc' & Hn').
  assert (Hr' : table_rep es (with_ext w g)) by (by eapply ext_rep; [..|exact Hr]).
  destruct (rep_nodup es w Hr) as (_ & Hnd & _). exists g, s1, s'. split_and!; [| |by rewrite Ht'|exact Hg|exact Hc'|exact Hn'|].
  - unfold intc_irq. rewrite Ek, (hdl_entry_val _ _ es _ n _ Hr' Hn). cbn [ext with_ext].
    rewrite (bind_ret_val _ _ _ _ _ (Hwake _ _)). change (BIT IRQ_TIMER) with (BIT (int_num (timer_isr_e addr))).
    rewrite (serve_one call_isr es _ g Hin Hnd (fun x Hx => proj1 (tr_elem es w Hr x Hx))).
    unfold run_isr. cbn [isr_func timer_isr_e]. unfold truthy. rewrite (proj2 (Z.eqb_neq _ _)) by done. cbn [negb]. by rewrite Hisr, Erun.
  - rewrite Hcg in M2, M3. destruct Hg as (_ & _ & Hk & _). split_and!; [done|lia|lia|]. cbn in M3 |- *. by rewrite M3, Hk.
  - intros Hno. rewrite Hno in Hc'. destruct Hc' as (-> & _). destruct Hg as (Hv & _ & _ & Hw).
    revert Hn'. unfold ticks_and_feeds, feed_due, tick_counts, last_feed. by rewrite Hcg, Hv, Hw.
Qed.
