(* ===== verification/ClockInit.v ===== *)
(** * Starting the clock (components/misc/fake_clock.c)

    The hardware timers behind the clock and its calibration: timer 3 for the
    ticks, timer 2 for the calibration, set up through the registry; a
    calibration against the network stops the latter.  The clock's own variables
    are below the interrupt table with those of the other drivers. *)
From stdpp Require Import strings.
From S2P Require Import Prelude Serve DrvModel Icu Regs Intc Stack Gpio GpioCorrect GpioStack Timer TimerCorrect Pwm PwmCorrect Wdg Clock ClockCorrect ClockSystem.
Local Open Scope Z_scope.

(** The calls of the kernel, under the interrupt table. *)
#[export] Instance intc_env W `{ClockEnv W} : ClockEnv (intc_st W) := {|
  xTaskIncrementTick := on_ext xTaskIncrementTick;
  vTaskStepTick n := on_ext (vTaskStepTick n);
  vTaskSwitchContext := on_ext vTaskSwitchContext;
  preempt_delayed_schedule_get_flag := on_ext preempt_delayed_schedule_get_flag;
  preempt_delayed_schedule_clear_flag := on_ext preempt_delayed_schedule_clear_flag;
  hal_machw_time := on_ext hal_machw_time;
  bk_unconditional_sleep_mode_get := on_ext bk_unconditional_sleep_mode_get;
  power_save_if_ps_rf_dtim_enabled := on_ext power_save_if_ps_rf_dtim_enabled;
|}.

Section init.
Context {W : Type} `{RegBus W, !Holds timer_vars W, !Holds pwm_vars W, !Holds clock_vars W, !ClockEnv W}.
Abbreviation all := (drv_state (intc_st W)).
Context (sdev_ops : Z -> SDD_OPERATIONS (intc_st W)) (bk_timer_op pwm_op : Z).
(** The addresses of [fclk_hdl] and [cal_timer_hdl]. *)
Context (fclk_hdl_addr cal_timer_hdl_addr : Z).

Definition set_cal_net (x : Z) : M all unit :=
  sets (with_fclk (fun f => Fclk (current_clock f) (current_seconds f) (second_countdown f) (fclk_id f) x)).
Definition set_fclk_id (x : Z) : M all unit :=
  sets (with_fclk (fun f => Fclk (current_clock f) (current_seconds f) (second_countdown f) x (use_cal_net f))).

(** The calls of the timer driver are those of [bk_timer_initialize] and [bk_timer_stop]. *)
Definition cal_timer_set : M all unit :=
  timer_cal_init;;
  _ ← timer_begin sdev_ops bk_timer_op CMD_TIMER_INIT_PARAM CAL_TIMER_ID ONE_CAL_TIME cal_timer_hdl_addr;
  mret tt.

Definition cal_timer_deset : M all unit :=
  _ ← bk_timer_stop sdev_ops bk_timer_op CAL_TIMER_ID;
  timer_cal_init.

Definition bk_cal_init (setting : Z) : M all Z :=
  (if 1 =? setting then
     cal_timer_deset;; set_cal_net 1;; mcu_ps_machw_init
   else
     mcu_ps_machw_cal;; cal_timer_set;; set_cal_net 0;; mcu_ps_machw_reset);;
  mret 0.

(** [rsv]: the bits of [cfg] that are not set. *)
Definition fclk_timer_hw_init (rsv timer_id : Z) : M all unit :=
  set_fclk_id timer_id;;
  if BK_PWM_TIMER_ID0 <=? timer_id then
    _ ← pwm_control sdev_ops pwm_op CMD_PWM_INIT_PARAM (PParam (PwmParam (u8 (timer_id - PWM0))
      (PwmCfg PWM_ENABLE PWM_INT_EN PWM_TIMER_MODE PWM_CLK_26M rsv) (fclk_cal_endvalue PWM_CLK_26M) 0 fclk_hdl_addr));
    mret tt
  else
    ret ← timer_control sdev_ops bk_timer_op CMD_TIMER_INIT_PARAM (TParam (TimerParam timer_id 1 FCLK_DURATION_MS fclk_hdl_addr));
    assert (BK_TIMER_SUCCESS =? ret.1);;
    _ ← timer_control sdev_ops bk_timer_op CMD_TIMER_UNIT_ENABLE (TWord timer_id);
    mret tt.

Definition fclk_init (rsv : Z) : M all unit :=
  fclk_timer_hw_init rsv BK_TIMER_ID3;;
  _ ← bk_cal_init 0;
  mret tt.
End init.

(** ** What the kernel promises, under the interrupt table *)
#[export, refine] Instance intc_count W `{WdtRegs W} : WdtRegs (intc_st W) := {| wcount s := wcount (ext s) |}.
Proof.
  - intros p s. exact (wcount_feed p (ext s)).
  - intros a v s Ha. exact (wcount_write a v (ext s) Ha).
  - intros a s. exact (wcount_read a (ext s)).
Defined.

Section lift.
Context {W : Type} `{RegBus W, !WdtRegs W, !BlockRegs timer_block W, !Holds clock_vars W, !Holds wdt_vars W, !Holds timer_vars W, !ClockEnv W, !KernelOk W}.

Definition intc_leaves (s s' : intc_st W) : Prop := hget (X := clock_vars) s' = hget s /\ hget (X := timer_vars) s' = hget s /\
  timers_stay s s' /\ wcount s' = wcount s.

Lemma on_ext_leaves {A} (m : M W A) (f : Z -> Z) (s : intc_st W) : (exists a v, m (ext s) = Val (a, v) /\ leaves (ext s) v /\ kcount v = f (kcount (ext s))) ->
  exists a s', on_ext m s = Val (a, s') /\ intc_leaves s s' /\ kcount (ext s') = f (kcount (ext s)).
Proof. intros (a & v & E & L & K). exists a, (with_ext s v). split; [unfold on_ext; by rewrite E|by split]. Qed.
Lemma on_ext_leaves_unit (m : M W unit) (f : Z -> Z) (s : intc_st W) : (exists v, m (ext s) = Val (tt, v) /\ leaves (ext s) v /\ kcount v = f (kcount (ext s))) ->
  exists s', on_ext m s = Val (tt, s') /\ intc_leaves s s' /\ kcount (ext s') = f (kcount (ext s)).
Proof.
  intros (v & E & L & K). destruct (on_ext_leaves m f s) as ([] & s' & R); [by exists tt, v|by exists s'].
Qed.

#[export, refine] Instance intc_kernel : KernelOk (intc_st W) := {| kcount s := kcount (ext s) |}.
Proof.
  - intros s. apply kcount_u32.
  - intros s. exact (on_ext_leaves _ (fun k => u32 (k + 1)) s (k_tick (ext s))).
  - intros n s. exact (on_ext_leaves_unit _ (fun k => u32 (k + n)) s (k_step n (ext s))).
  - intros s. exact (on_ext_leaves_unit _ id s (k_switch (ext s))).
  - intros s. exact (on_ext_leaves _ id s (k_flag (ext s))).
  - intros s. exact (on_ext_leaves_unit _ id s (k_clear (ext s))).
  - intros s. exact (on_ext_leaves _ id s (k_machw (ext s))).
  - intros s. exact (on_ext_leaves _ id s (k_mode (ext s))).
  - intros s. exact (on_ext_leaves _ id s (k_dtim (ext s))).
  - intros x s. exact (k_put x (ext s)).
  - intros x s. exact (k_put_timers x (ext s)).
  - intros a s. exact (k_read a (ext s)).
  - intros a v s. exact (k_write a v (ext s)).
Defined.
End lift.

(** ** Start-up *)
Section start.
Context {W : Type} `{RegBus W, !WdtRegs W, !BlockRegs timer_block W, !Holds clock_vars W, !Holds wdt_vars W, !Holds timer_vars W, !Holds pwm_vars W,
  !ClockEnv W, !KernelOk W, !Quiet clock_vars W, !Quiet timer_vars W, !IcuRegs W}.
Abbreviation all := (drv_state (intc_st W)).
Context (sdev_ops : Z -> SDD_OPERATIONS (intc_st W)) (wdt_op bk_timer_op icu_addr : Z).
Abbreviation feed := (feed sdev_ops wdt_op).
Abbreviation fine := (clock_ok (bk_wdg_reload := feed)).
Implicit Types (s : all) (w : W).

(** The timers and the table as they were. *)
Definition timers_same s s' : Prop :=
  (forall b, in_timer b = true -> tsoft (ext (world s')) b = tsoft (ext (world s)) b) /\ handlers (ext (world s')) = handlers (ext (world s)).

(** What the start of a timer leaves to the clock. *)
Lemma started_clock ch period callback s w : timer_started ch period callback (ext (world s)) w -> fine s ->
  fine (with_world s w) /\ vars (with_world s w) = vars s.
Proof using KernelOk0 Quiet0.
  intros R Hok. assert (V : vars (with_world s w) = vars s) by exact (ts_frame _ _ _ _ _ R _ (respects_vars clock_vars _)
    (fun x v => proj2 (proj2 (k_put_timers x v)))).
  split; [|done]. destruct Hok as (Hr & Hs & Ho). unfold clock_ok, owed. by rewrite V.
Qed.

(** Assigning what is not the clock itself. *)
Definition clock_kept (f : clock_vars -> clock_vars) : Prop := forall v,
  current_clock (fclk (f v)) = current_clock (fclk v) /\ current_seconds (fclk (f v)) = current_seconds (fclk v) /\
  second_countdown (fclk (f v)) = second_countdown (fclk v) /\ debt (f v) = debt v.
Lemma sets_clock f s : clock_kept f -> fine s -> exists s', sets (f : clock_vars -> clock_vars) s = Val (tt, s') /\ fine s' /\ vars s' = f (vars s) /\
  timers_same s s' /\ drv_sdev_tbl s' = drv_sdev_tbl s /\ forall b, in_icu b = true -> ireg (ext (world s')) b = ireg (ext (world s)) b.
Proof using Quiet0.
  intros Hf (Hr & Hs & Ho). exists (hput (f (vars s)) s). split; [apply sets_val|]. rewrite vars_put.
  destruct (Hf (vars s)) as (C1 & C2 & C3 & C4). split_and!; [|done| |done|].
  - unfold clock_ok, owed. rewrite vars_put, C4. split; [|split; [|done]].
    + eapply keeps_ready; [apply env_put|done].
    + unfold seconds_ok in *. by rewrite C1, C2, C3.
  - destruct (k_put (f (vars s)) (world s)) as (_ & _ & T & _ & B). split; [exact B|]. unfold handlers. exact (f_equal p_TIMER_Int_Handler T).
  - intros b Hb. by apply (ireg_put (W := W)  clock_vars).
Qed.

(** A correction leaves the timers alone. *)
Lemma machw_timers s : fine s -> clk s + 50000 < 2 ^ 64 -> exists s', mcu_ps_machw_cal s = Val (tt, s') /\ fine s' /\ clk s <= clk s' /\
  timers_same s s' /\ drv_sdev_tbl s' = drv_sdev_tbl s.
Proof using Type.
  intros Hok Hb. destruct (advances_machw_cal (bk_wdg_reload := feed) s Hok Hb) as ([] & s' & E & _ & (_ & T & V & _ & B) & Hok' & Hc & _).
  exists s'. split_and!; [done|done|lia| |done]. split; [exact B|]. unfold handlers. exact (f_equal p_TIMER_Int_Handler V).
Qed.

Lemma timers_same_trans s1 s2 s3 : timers_same s1 s2 -> timers_same s2 s3 -> timers_same s1 s3.
Proof using Type. intros [A1 B1] [A2 B2]. split; [intros b Hb; by rewrite A2, A1|by rewrite B2]. Qed.

(** Starting a timer, from the top. *)
Lemma start_timer ch time callback s : icu_behind sdev_ops icu_addr -> sdev_slot (drv_sdev_tbl s) ICU_DEV_NAME icu_addr ->
  sdev_slot (drv_sdev_tbl s) TIMER_DEV_NAME bk_timer_op -> 0 <= ch < 6 ->
  exists w, timer_begin sdev_ops bk_timer_op CMD_TIMER_INIT_PARAM ch time callback s = Val (kNoErr, with_world s w) /\
    timer_started ch (bk_timer_cal_endvalue ch time 1) callback (ext (world s)) w.
Proof using Quiet1 IcuRegs0 BlockRegs0.
  intros Hb Hi Ht Hc. destruct (init_param_val sdev_ops icu_addr ch time callback s Hb Hi Hc) as (w0 & E0 & R0 & C0).
  destruct (begin_val sdev_ops bk_timer_op CMD_TIMER_INIT_PARAM ch time (bk_timer_cal_endvalue ch time 1) callback s w0 Ht Hc) as (w & E & R & _);
    [unfold bk_timer_ctrl; cbn [Z.eqb]; by mstep by exact E0|done|done|by exists w].
Qed.
Lemma begin_unchecked ch time callback s s' : timer_begin sdev_ops bk_timer_op CMD_TIMER_INIT_PARAM ch time callback s = Val (kNoErr, s') ->
  (ret ← timer_control sdev_ops bk_timer_op CMD_TIMER_INIT_PARAM (TParam (TimerParam ch 1 time callback));
   assert (BK_TIMER_SUCCESS =? ret.1);;
   _ ← timer_control sdev_ops bk_timer_op CMD_TIMER_UNIT_ENABLE (TWord ch);
   mret tt) s = Val (tt, s').
Proof using Type.
  intros E. unfold timer_begin in E. apply bind_inv in E as (r & s1 & E1 & E). apply bind_inv in E as ([] & s2 & E2 & E).
  apply bind_inv in E as (r' & s3 & E3 & E). apply bind_inv in E as ([] & s4 & E4 & E). injection E as <-.
  rewrite (bind_ret_val _ _ _ _ _ E1), (bind_ret_val _ _ _ _ _ E2), (bind_ret_val _ _ _ _ _ E3).
  unfold assert in E4. destruct (BK_TIMER_SUCCESS =? r'.1); [|done]. by injection E4 as ->.
Qed.
End start.

(** C5: start-up gives timer 3 the period and the routine of the tick and timer 2
    those of the calibration, enables both and their interrupt, and changes no
    other timer; the clock goes on consistently from where it was, at most 50000
    ticks ahead where the time of the radio says so, and its calibration starts
    from 0 against the calibration timer. *)
Theorem clock_starts {W} `{RegBus W, !WdtRegs W, !BlockRegs timer_block W, !Holds clock_vars W, !Holds wdt_vars W, !Holds timer_vars W, !Holds pwm_vars W,
    !ClockEnv W, !KernelOk W, !Quiet clock_vars W, !Quiet timer_vars W, !IcuRegs W}
    sdev_ops wdt_op bk_timer_op pwm_op icu_addr tick_addr cal_addr rsv (s : drv_state (intc_st W)) :
  icu_behind sdev_ops icu_addr -> sdev_slot (drv_sdev_tbl s) ICU_DEV_NAME icu_addr -> sdev_slot (drv_sdev_tbl s) TIMER_DEV_NAME bk_timer_op ->
  clock_ok (bk_wdg_reload := feed sdev_ops wdt_op) s -> clk s + 50000 < 2 ^ 64 ->
  exists s', fclk_init sdev_ops bk_timer_op pwm_op tick_addr cal_addr rsv s = Val (tt, s') /\
    clock_ok (bk_wdg_reload := feed sdev_ops wdt_op) s' /\ clk s <= clk s' /\
    (forall b, in_timer b = true -> tsoft (ext (world s')) b =
      if b =? timer_period 2 then 390000000 else if b =? timer_ctl 2 then configured 2 (tsoft (ext (world s)) b)
      else if b =? timer_period 3 then 64 else if b =? timer_ctl 3 then configured 3 (tsoft (ext (world s)) b)
      else tsoft (ext (world s)) b) /\
    handlers (ext (world s')) = <[2%nat := cal_addr]> (<[3%nat := tick_addr]> (handlers (ext (world s)))) /\
    Z.testbit (ireg (ext (world s')) ICU_INTERRUPT_ENABLE) IRQ_TIMER = true /\
    use_cal_net (fclk (vars s')) = 0 /\
    tmp1 (cal_tick_save (vars s')) = 0 /\ mcu_ps_machw_save (vars s') = McuPsMachw 0 0.
Proof.
  intros Hb Hi Ht Hok Hc.
  destruct (sets_clock sdev_ops wdt_op (with_fclk (fun f => Fclk (current_clock f) (current_seconds f) (second_countdown f) BK_TIMER_ID3 (use_cal_net f))) s
    ltac:(by intros v) Hok) as (s1 & E1 & K1 & V1 & [T1 H1] & D1 & _).
  destruct (start_timer sdev_ops bk_timer_op icu_addr 3 FCLK_DURATION_MS tick_addr s1 Hb ltac:(by rewrite D1) ltac:(by rewrite D1) ltac:(lia)) as (w2 & E2 & R2).
  apply begin_unchecked in E2. destruct (started_clock sdev_ops wdt_op _ _ _ _ _ R2 K1) as [K2 V2].
  assert (C2 : clk (with_world s1 w2) = clk s) by (unfold clk; by rewrite V2, V1).
  destruct (machw_timers sdev_ops wdt_op _ K2 ltac:(by rewrite C2)) as (s3 & E3 & K3 & C3 & [T3 H3] & D3).
  assert (Hms : exists ms, clock_ms s3 = Val (ms, s3)) by (eexists; apply ms_val). destruct Hms as [ms Hms].
  destruct (sets_clock sdev_ops wdt_op (with_cal (CalTick ms 0)) s3 ltac:(by intros v) K3) as (s4 & E4 & K4 & V4 & [T4 H4] & D4 & _).
  assert (D14 : drv_sdev_tbl s4 = drv_sdev_tbl s) by (by rewrite D4, D3, <- D1).
  destruct (start_timer sdev_ops bk_timer_op icu_addr 2 ONE_CAL_TIME cal_addr s4 Hb ltac:(by rewrite D14) ltac:(by rewrite D14) ltac:(lia)) as (w5 & E5 & R5).
  destruct (started_clock sdev_ops wdt_op _ _ _ _ _ R5 K4) as [K5 V5].
  destruct (sets_clock sdev_ops wdt_op (with_fclk (fun f => Fclk (current_clock f) (current_seconds f) (second_countdown f) (fclk_id f) 0)) _
    ltac:(by intros v) K5) as (s6 & E6 & K6 & V6 & [T6 H6] & D6 & I6).
  destruct (sets_clock sdev_ops wdt_op (with_machw (McuPsMachw 0 0)) s6 ltac:(by intros v) K6) as (s7 & E7 & K7 & V7 & [T7 H7] & D7 & I7).
  cbn [ext world with_world with_ext] in *. exists s7. split_and!.
  - unfold fclk_init, fclk_timer_hw_init. change (BK_PWM_TIMER_ID0 <=? BK_TIMER_ID3) with false. cbv iota.
    rewrite bind_assoc. unfold set_fclk_id. rewrite (bind_ret_val _ _ _ _ _ E1), (bind_ret_val _ _ _ _ _ E2).
    unfold bk_cal_init. change (1 =? 0) with false. cbv iota. rewrite !bind_assoc, (bind_ret_val _ _ _ _ _ E3). rewrite !bind_assoc.
    unfold cal_timer_set, timer_cal_init. rewrite !bind_assoc, (bind_ret_val _ _ _ _ _ Hms), (bind_ret_val _ _ _ _ _ E4).
    rewrite !bind_assoc, (bind_ret_val _ _ _ _ _ E5). rewrite bind_mret. unfold set_cal_net. rewrite !bind_assoc, (bind_ret_val _ _ _ _ _ E6).
    unfold mcu_ps_machw_reset. by rewrite (bind_ret_val _ _ _ _ _ E7).
  - exact K7.
  - assert (C7 : clk s7 = clk s3) by (unfold clk; by rewrite V7, V6, V5, V4). lia.
  - intros b Hin. rewrite T7, T6, (ts_regs _ _ _ _ _ R5) by done.
    assert (E : forall b, in_timer b = true -> tsoft (ext (world s4)) b =
      if b =? timer_period 3 then 64 else if b =? timer_ctl 3 then configured 3 (tsoft (ext (world s)) b) else tsoft (ext (world s)) b).
    { intros b' Hb'. rewrite T4, T3, (ts_regs _ _ _ _ _ R2) by done. by rewrite T1. }
    rewrite (E b) by done. destruct (Z.eqb_spec b (timer_period 2)); [done|].
    destruct (Z.eqb_spec b (timer_ctl 2)) as [->|]; [|done]. done.
  - rewrite H7, H6, (ts_table _ _ _ _ _ R5), H4, H3, (ts_table _ _ _ _ _ R2), H1. done.
  - rewrite I7, I6, (ts_icu _ _ _ _ _ R5) by done. change (ICU_INTERRUPT_ENABLE =? ICU_PERI_CLK_PWD) with false.
    rewrite Z.eqb_refl, Z.lor_spec. apply orb_true_r.
  - by rewrite V7, V6.
  - by rewrite V7, V6, V5, V4.
  - by rewrite V7.
Qed.

(** Asked for one of the six channels of the pulse-width unit, the set-up of the
    tick starts nothing and reports nothing: it takes the number of the timer,
    6 to 11, for that of a channel, which the unit does not have. *)
Theorem pwm_tick_never_starts {W} `{RegBus W, !Holds timer_vars W, !Holds pwm_vars W, !Holds clock_vars W}
    sdev_ops bk_timer_op pwm_op tick_addr rsv id (s : drv_state (intc_st W)) :
  sdev_slot (drv_sdev_tbl s) PWM_DEV_NAME pwm_op -> BK_PWM_TIMER_ID0 <= id < BK_PWM_TIMER_ID0 + PWM_COUNT ->
  fclk_timer_hw_init sdev_ops bk_timer_op pwm_op tick_addr rsv id s = set_fclk_id id s.
Proof.
  intros Hs Hid. unfold BK_PWM_TIMER_ID0, PWM_COUNT in Hid. unfold fclk_timer_hw_init.
  rewrite (proj2 (Z.leb_le _ _)) by (unfold BK_PWM_TIMER_ID0; lia). unfold set_fclk_id.
  rewrite (bind_ret_val _ _ _ tt _ eq_refl). unfold sets, modify. set (s1 := hput _ s).
  assert (Hs1 : sdev_slot (drv_sdev_tbl s1) PWM_DEV_NAME pwm_op) by done.
  unfold PWM0. rewrite Z.sub_0_r, u8_id by (unfold is_u8; lia). unfold pwm_control.
  mstep by (rewrite dev_control_val by done; unfold pwm_ctrl; cbn [Z.eqb]; mstep by (unfold init_pwm_param; mstep by reflexivity; cbn [pw_channel];
    rewrite (proj2 (Z.leb_le _ _)) by (unfold PWM_COUNT; lia); reflexivity); reflexivity). done.
Qed.
