(* ===== verification/ClockBoard.v ===== *)
(** * A board with a clock

    The timers, a watchdog that counts its feeds and an interrupt unit on one
    bus, under the variables of the drivers and a kernel that counts ticks; the
    theorems about the clock, at concrete states of it. *)
From stdpp Require Import strings.
From S2P Require Import Prelude Serve DrvModel Icu Regs Intc Stack Timer TimerCorrect Pwm Wdg Clock ClockCorrect ClockSystem ClockInit.
Local Open Scope Z_scope.

(** ** A watchdog beside an interrupt unit

    A feed is counted when the second key follows the first. *)
Record wdt_hw := WdtHw { wd_armed : bool; wd_count : Z; wd_icu : icu_file }.
Definition word_key (v : Z) : Z := Z.shiftr v WDT_KEY_POSI.

#[export] Instance wdt_hw_bus : RegBus wdt_hw := {|
  bus_read a h := ((bus_read a (wd_icu h)).1, WdtHw (wd_armed h) (wd_count h) (bus_read a (wd_icu h)).2);
  bus_write a v h :=
    if a =? WDT_CTRL_REG
    then WdtHw (word_key v =? WDT_1ST_KEY) (if wd_armed h && (word_key v =? WDT_2ND_KEY) then wd_count h + 1 else wd_count h) (wd_icu h)
    else WdtHw (wd_armed h) (wd_count h) (bus_write a v (wd_icu h));
|}.

Lemma word_key_val key p : 0 <= key -> word_key (wdt_word key p) = key.
Proof.
  intros Hk. unfold word_key, wdt_word, WDT_KEY_POSI, WDT_PERIOD_POSI, WDT_PERIOD_MASK. rewrite Z.shiftl_0_r, Z.shiftr_lor.
  rewrite Z.shiftr_shiftl_l, Z.sub_diag, Z.shiftl_0_r by lia. change 0xFFFF with (Z.ones 16).
  rewrite Z.land_ones, (Z.shiftr_div_pow2 _ 16) by lia. rewrite Z.div_small by (apply Z.mod_pos_bound; lia). apply Z.lor_0_r.
Qed.

#[export, refine] Instance wdt_hw_count : WdtRegs wdt_hw := {| wcount := wd_count |}.
Proof.
  - intros p h. cbn [bus_write wdt_hw_bus]. rewrite !Z.eqb_refl, !word_key_val by done. cbn [wd_armed wd_count]. change (WDT_1ST_KEY =? WDT_2ND_KEY) with false. by rewrite andb_false_r.
  - intros a v h Ha. cbn [bus_write wdt_hw_bus]. by rewrite (proj2 (Z.eqb_neq _ _)).
  - intros a h. cbn [bus_read wdt_hw_bus]. done.
Defined.

Lemma icu_not_wdt a : in_icu a = true -> (a =? WDT_CTRL_REG) = false.
Proof. intros Ha. apply Z.eqb_neq. intros ->. by vm_compute in Ha. Qed.

#[export, refine] Instance wdt_hw_icu : IcuRegs wdt_hw := {| ireg h := ireg (wd_icu h) |}.
Proof.
  - intros [x n h] a Ha. cbn [bus_read wdt_hw_bus wd_icu wd_armed wd_count]. by rewrite ireg_read.
  - intros h a b Ha. cbn [bus_read wdt_hw_bus snd wd_icu]. by apply ireg_read_other.
  - intros h a v b Ha. cbn [bus_write wdt_hw_bus]. destruct (a =? WDT_CTRL_REG); [done|]. by apply ireg_write_other.
  - intros h a v b Ha Hj. cbn [bus_write wdt_hw_bus]. rewrite icu_not_wdt by done. by apply ireg_write.
Defined.

(** ** The board *)
Definition board_bus : Type := with_file timer_block wdt_hw.
#[export, refine] Instance board_bus_count : WdtRegs board_bus := {| wcount h := wcount (wf_rest h) |}.
Proof.
  - intros p h. exact (wcount_feed p (wf_rest h)).
  - intros a v h Ha. cbn [bus_write with_file_bus]. destruct (b_in timer_block a); [done|]. by apply wcount_write.
  - intros a h. cbn [bus_read with_file_bus]. destruct (b_in timer_block a); [done|]. apply wcount_read.
Defined.
#[export, refine] Instance state_count X W `{WdtRegs W} : WdtRegs (with_state X W) := {| wcount h := wcount (ws_rest h) |}.
Proof.
  - intros p h. exact (wcount_feed p (ws_rest h)).
  - intros a v h Ha. exact (wcount_write a v (ws_rest h) Ha).
  - intros a h. exact (wcount_read a (ws_rest h)).
Defined.

(** The kernel's ticks are a number under the variables of the drivers. *)
Definition clock_board : Type := with_state clock_vars (with_state timer_vars (with_state wdt_vars (with_state pwm_vars (with_state Z board_bus)))).

#[export] Instance board_env : ClockEnv clock_board := {|
  xTaskIncrementTick := sets (fun k : Z => u32 (k + 1));; mret 0;
  vTaskStepTick n := sets (fun k : Z => u32 (k + n));
  vTaskSwitchContext := mret tt;
  preempt_delayed_schedule_get_flag := mret 1;
  preempt_delayed_schedule_clear_flag := mret tt;
  hal_machw_time := mret 7;
  bk_unconditional_sleep_mode_get := mret 0;
  power_save_if_ps_rf_dtim_enabled := mret 1;
|}.

(** Assigning the kernel's ticks leaves the drivers alone. *)
Lemma put_ticks (k : Z) (v : clock_board) : hget (X := clock_vars) (hput k v) = hget v /\ hget (X := timer_vars) (hput k v) = hget v /\
  timers_stay v (hput k v) /\ wcount (hput k v) = wcount v.
Proof. split_and!; [done|done|by split; [intros a i|]|done]. Qed.

#[export, refine] Instance board_kernel : KernelOk clock_board := {| kcount v := u32 (hget (X := Z) v) |}.
Proof.
  - intros v. apply u32_range.
  - intros v. eexists _, _. split; [reflexivity|]. split; [apply put_ticks|]. cbn. rewrite u32_add. by rewrite u32_id by apply u32_range.
  - intros n v. eexists. split; [reflexivity|]. split; [apply put_ticks|]. cbn. rewrite u32_add. by rewrite u32_id by apply u32_range.
  - intros v. eexists. split; [reflexivity|]. split; [split_and!; [done|done|by split; [intros a i|]|done]|done].
  - intros v. eexists _, _. split; [reflexivity|]. split; [split_and!; [done|done|by split; [intros a i|]|done]|done].
  - intros v. eexists. split; [reflexivity|]. split; [split_and!; [done|done|by split; [intros a i|]|done]|done].
  - intros v. eexists _, _. split; [reflexivity|]. split; [split_and!; [done|done|by split; [intros a i|]|done]|done].
  - intros v. eexists _, _. split; [reflexivity|]. split; [split_and!; [done|done|by split; [intros a i|]|done]|done].
  - intros v. eexists _, _. split; [reflexivity|]. split; [split_and!; [done|done|by split; [intros a i|]|done]|done].
  - intros x v. split_and!; [done|done|done|by split; [intros a i|]].
  - intros x v. by split_and!.
  - intros a v. by rewrite quiet_read.
  - intros a v w. by rewrite quiet_write.
Defined.

(** ** A state of it

    2.5 s after the start, 7 ms are owed, and timer 3 fires. *)
Definition demo_clock : clock_vars :=
  ClockVars (Fclk 1250 2 250 BK_TIMER_ID3 0) (CalTick 0 0) (WdgVars 1000 0 0) (McuPsInfo 1 0 0) (McuPsTsf 0 0) (McuPsMachw 0 0)
    (Debt (-7) 10) (Bcn (replicate 6 0) 0).
Definition demo_board : clock_board :=
  WithState demo_clock (WithState (TimerVars [0; 0; 5; 6; 0; 0]) (WithState (WdtVars 10000 0) (WithState pwm_start (WithState 1250
    (WithFile timer_block (fun a => if a =? TIMER3_5_CTL then 0x80 else 0)
      (WdtHw false 0 (IcuFile (fun a => if a =? ICU_INT_STATUS then 0x100 else 0) []))))))).
Definition demo_wdt_ops (a : Z) : SDD_OPERATIONS clock_board := icu_op.
Definition demo_state : drv_state clock_board := DrvState [] [DRV_DEV (Some WDT_DEV_NAME) 0 DD_STATE_CLOSED (Some 4)] demo_board.
Abbreviation demo_feed := (feed demo_wdt_ops 4).

Lemma demo_state_ok : clock_ok (bk_wdg_reload := demo_feed) demo_state.
Proof. split; [by exists 0%nat|]. split; [by split_and!|done]. Qed.

Definition demo_events : list clock_event := [Interrupt 3; Beacon 1000 (replicate 6 1); CalInterrupt 2; RadioWakes; Sleeps 499; Idle].

Lemma clock_stays_consistent_witness : clock_ok (bk_wdg_reload := demo_feed) demo_state /\
  exists s', clock_run demo_feed demo_events demo_state = Val (tt, s') /\ clock_ok (bk_wdg_reload := demo_feed) s'.
Proof.
  split; [exact demo_state_ok|]. destruct (clock_stays_consistent demo_feed demo_events demo_state) as (s' & E & Hok & _); [..|by exists s'].
  - by repeat apply Forall_cons_2.
  - exact demo_state_ok.
  - done.
Defined.

Lemma debt_is_paid_witness : owed demo_state = -7 /\ exists s', interrupts demo_feed 20 demo_state = Val (tt, s') /\ clk s' = 1267 /\ owed s' = 0.
Proof.
  split; [done|]. destruct (debt_is_paid demo_feed 4 demo_state demo_state_ok) as (s' & E & C & O); [done..|]. exists s'.
  split; [exact E|]. split; [exact C|exact O].
Defined.

Lemma watchdog_fed_in_time_witness : clock_ok (bk_wdg_reload := demo_feed) demo_state /\
  exists s', interrupts demo_feed 392 demo_state = Val (tt, s') /\ 1 <= wcount (world s').
Proof.
  split; [exact demo_state_ok|]. destruct (watchdog_fed_in_time demo_feed demo_state demo_state_ok) as (s' & E & F); [done..|].
  exists s'. split; [exact E|exact F].
Defined.

Lemma calibration_bounds_witness : exists s', timer_cal_tick demo_state = Val (tt, s') /\ 2 <= s32 (15000 - ms_of s') <= 3.
Proof.
  destruct (calibration_bounds (bk_wdg_reload := demo_feed) demo_state demo_state_ok ltac:(done)) as (s' & E & _ & L & _). exists s'.
  split; [exact E|]. apply L. by vm_compute.
Defined.

Lemma seconds_wrap_witness : exists t, fclk_get_second demo_state = Val (t, demo_state) /\ t = 2.
Proof.
  destruct (seconds_wrap (bk_wdg_reload := demo_feed) demo_state demo_state_ok) as (t & E & _ & H & _). exists t.
  split; [exact E|]. by apply H.
Defined.

(** The handlers at their addresses. *)
Definition demo_handlers (h i : Z) : M (drv_state clock_board) unit :=
  if h =? 5 then cal_timer_hdl i else if h =? 6 then fclk_hdl demo_feed i else mret tt.

Lemma demo_clock_handlers : clock_handlers demo_wdt_ops 4 demo_handlers 5 6 demo_state.
Proof. by split. Qed.

Lemma demo_timer_registered : registered (timer_isr_e 9) [] [timer_isr_e 9].
Proof. right. split; [apply not_elem_of_nil|]. split; [by intros x Hx%elem_of_nil|done]. Qed.

Definition demo_wake (x : Z) : M (drv_state clock_board) unit := mret tt.

Lemma tick_reaches_clock_witness : exists w g s1 s', table_rep [timer_isr_e 9] w /\
  intc_irq (fun _ => bk_timer_isr demo_handlers 1) demo_wake 33 w = Val (tt, with_ext w s') /\
  icu_beside_clock (ext w) g /\ ticks_and_feeds s1 s' /\ clock_moves demo_wdt_ops 4 (2 ^ 30 + 1) (ext w) s'.
Proof.
  destruct (register_once [] [timer_isr_e 9] (intc_start demo_state) 33 (timer_isr_e 9) (start_rep _) ltac:(by vm_compute) demo_timer_registered
    ltac:(unfold INTC_MAX_COUNT; lia)) as (w & _ & Hx & Hr & Hin). cbn in Hx.
  destruct (tick_reaches_clock demo_wdt_ops 4 1 33 demo_handlers (fun _ => bk_timer_isr demo_handlers 1) demo_wake [timer_isr_e 9] 9 5 6 w Hr
    ltac:(unfold INTC_MAX_COUNT; lia) Hin ltac:(done) ltac:(lia) eq_refl (fun _ _ => eq_refl)) as (g & s1 & s' & E & M & _ & B & _ & T & _); rewrite ?Hx.
  - exact demo_clock_handlers.
  - exact demo_state_ok.
  - done.
  - done.
  - done.
  - exists w, g, s1, s'. split; [exact Hr|]. split; [exact E|]. split; [exact B|]. split; [exact T|exact M].
Defined.

(** The board with the drivers registered, before the clock starts. *)
Definition start_tbl : list DRV_SDEV_S :=
  [DRV_DEV (Some WDT_DEV_NAME) 0 DD_STATE_CLOSED (Some 4); DRV_DEV (Some ICU_DEV_NAME) 0 DD_STATE_CLOSED (Some 1);
   DRV_DEV (Some TIMER_DEV_NAME) 0 DD_STATE_CLOSED (Some 2); DRV_DEV (Some PWM_DEV_NAME) 0 DD_STATE_CLOSED (Some 3)].
Definition start_ops (a : Z) : SDD_OPERATIONS (intc_st clock_board) := sop_lift (fun A => on_ext (A := A)) icu_op.
Definition start_state : drv_state (intc_st clock_board) := DrvState [] start_tbl (intc_start demo_board).

Lemma clock_starts_witness : clock_ok (bk_wdg_reload := feed start_ops 4) start_state /\ exists s',
  fclk_init start_ops 2 3 8 9 0 start_state = Val (tt, s') /\ 1250 <= clk s' /\
  tsoft (ext (world s')) (timer_period 3) = 64 /\ handlers (ext (world s')) = [0; 0; 9; 8; 0; 0].
Proof.
  assert (Hok : clock_ok (bk_wdg_reload := feed start_ops 4) start_state) by (split; [by exists 0%nat|by vm_compute]).
  split; [exact Hok|].
  destruct (clock_starts start_ops 4 2 3 1 8 9 0 start_state eq_refl ltac:(by exists 1%nat) ltac:(by exists 2%nat) Hok ltac:(by vm_compute))
    as (s' & E & _ & C & R & Hh & _).
  exists s'. split_and!; [exact E|exact C|by rewrite R|by rewrite Hh].
Defined.

Lemma pwm_tick_never_starts_witness : fclk_timer_hw_init start_ops 2 3 8 0 BK_PWM_TIMER_ID0 start_state = set_fclk_id BK_PWM_TIMER_ID0 start_state.
Proof. apply pwm_tick_never_starts; [by exists 3%nat|unfold BK_PWM_TIMER_ID0, PWM_COUNT; lia]. Defined.
