(* ===== verification/Queue.v ===== *)
(** * Queues of the operating system (os/FreeRTOSv9.0.0/rtos_pub.c)

    The calls of drivers and applications on message queues, over the calls of
    the kernel.  The kernel is an interface ([Kernel]) with the contract its
    documentation gives ([QueueSpec]); a message is a word.  An instance shows
    that the contract can hold. *)
From stdpp Require Import gmap.
From S2P Require Import Prelude Timer Clock.
Local Open Scope Z_scope.

(** error.h, rtos_pub.h, projdefs.h, portmacro.h *)
Definition kGeneralErr : Z := -1.
Definition BEKEN_WAIT_FOREVER : Z := 0xFFFFFFFF.
Definition pdPASS : Z := 1.
Definition errQUEUE_FULL : Z := 0.
Definition portMAX_DELAY : Z := 0xffffffff.
Definition ms_to_tick_ratio : Z := FCLK_DURATION_MS.

(** The calls of the kernel; a queue is its handle, 0 for none. *)
Class Kernel (Q : Type) := {
  xQueueCreate : Z -> Z -> M Q Z;
  xQueueSendToBackFromISR : Z -> Z -> M Q Z;
  xQueueSendToBack : Z -> Z -> Z -> M Q Z;
  xQueueSendToFrontFromISR : Z -> Z -> M Q Z;
  xQueueSendToFront : Z -> Z -> Z -> M Q Z;
  xQueueReceive : Z -> Z -> M Q (Z * option Z);
  vQueueDelete : Z -> M Q unit;
  xQueueIsQueueEmptyFromISR : Z -> M Q Z;
  xQueueIsQueueFullFromISR : Z -> M Q Z;
}.

Section calls.
Context {Q : Type} `{Kernel Q}.

Definition ticks_of (timeout_ms : Z) : Z := if timeout_ms =? BEKEN_WAIT_FOREVER then portMAX_DELAY else timeout_ms / ms_to_tick_ratio.
Definition os_status (result : Z) : Z := if result =? pdPASS then kNoErr else kGeneralErr.

(** The result, and what [*queue] is afterwards. *)
Definition rtos_init_queue (message_size number_of_messages : Z) : M Q (Z * Z) :=
  queue ← xQueueCreate number_of_messages message_size;
  mret (if queue =? 0 then kGeneralErr else kNoErr, queue).

(** [in_interrupt]: what [platform_is_in_interrupt_context] says. *)
Definition rtos_push_to_queue (in_interrupt : bool) (queue message timeout_ms : Z) : M Q Z :=
  result ← (if in_interrupt then xQueueSendToBackFromISR queue message else xQueueSendToBack queue message (ticks_of timeout_ms));
  mret (os_status result).
Definition rtos_push_to_queue_front (in_interrupt : bool) (queue message timeout_ms : Z) : M Q Z :=
  result ← (if in_interrupt then xQueueSendToFrontFromISR queue message else xQueueSendToFront queue message (ticks_of timeout_ms));
  mret (os_status result).

(** The result, and the message if there is one. *)
Definition rtos_pop_from_queue (queue timeout_ms : Z) : M Q (Z * option Z) :=
  r ← xQueueReceive queue (ticks_of timeout_ms);
  mret (if negb (r.1 =? pdPASS) then kGeneralErr else kNoErr, r.2).

Definition rtos_deinit_queue (queue : Z) : M Q (Z * Z) := vQueueDelete queue;; mret (kNoErr, 0).
Definition rtos_is_queue_empty (queue : Z) : M Q bool := result ← xQueueIsQueueEmptyFromISR queue; mret (truthy result).
Definition rtos_is_queue_full (queue : Z) : M Q bool := result ← xQueueIsQueueFullFromISR queue; mret (truthy result).
End calls.

(** ** The contract

    [queue_of q h]: how many messages the queue [h] holds at most, and those it holds. *)
Class QueueSpec (Q : Type) `{Kernel Q} := {
  queue_of : Q -> Z -> option (Z * list Z);
  queue_null q : queue_of q 0 = None;
  queue_create n size q : 0 < n -> exists h q', xQueueCreate n size q = Val (h, q') /\
    if h =? 0 then forall k, queue_of q' k = queue_of q k
    else queue_of q h = None /\ forall k, queue_of q' k = if k =? h then Some (n, []) else queue_of q k;
  queue_send q h n l x : queue_of q h = Some (n, l) ->
    if Z.of_nat (length l) <? n then
      exists q', xQueueSendToBackFromISR h x q = Val (pdPASS, q') /\ forall k, queue_of q' k = if k =? h then Some (n, l ++ [x]) else queue_of q k
    else xQueueSendToBackFromISR h x q = Val (errQUEUE_FULL, q);
  queue_receive q h n x l t : queue_of q h = Some (n, x :: l) ->
    exists q', xQueueReceive h t q = Val ((pdPASS, Some x), q') /\ forall k, queue_of q' k = if k =? h then Some (n, l) else queue_of q k;
  queue_receive_none q h n : queue_of q h = Some (n, []) -> xQueueReceive h 0 q = Val ((errQUEUE_FULL, None), q);
}.

(** [l] after [x] is sent to it. *)
Definition sent (n : Z) (l : list Z) (x : Z) : list Z := if Z.of_nat (length l) <? n then l ++ [x] else l.

Lemma push_val {Q} `{QueueSpec Q} q h n l x t : queue_of q h = Some (n, l) ->
  exists r q', rtos_push_to_queue true h x t q = Val (r, q') /\ r = (if Z.of_nat (length l) <? n then kNoErr else kGeneralErr) /\
    forall k, queue_of q' k = if k =? h then Some (n, sent n l x) else queue_of q k.
Proof.
  intros E. pose proof (queue_send q h n l x E) as Hs. unfold rtos_push_to_queue, sent. destruct (Z.of_nat (length l) <? n).
  - destruct Hs as (q' & E' & R). exists kNoErr, q'. split_and!; [by mstep by exact E'|done|exact R].
  - exists kGeneralErr, q. split_and!; [by mstep by exact Hs|done|]. intros k. by destruct (Z.eqb_spec k h) as [->|].
Qed.

(** ** A kernel that meets it

    A call that would wait in a task returns at once here. *)
Abbreviation queues := (gmap Z (Z * list Z)).
Definition the_queue (h : Z) : M queues (Z * list Z) := q ← get; lift_res (of_option BadAccess (if h =? 0 then None else q !! h)).
Definition send_with (f : list Z -> Z -> list Z) (h x : Z) : M queues Z :=
  c ← the_queue h;
  if Z.of_nat (length c.2) <? c.1 then modify (<[h := (c.1, f c.2 x)]>);; mret pdPASS else mret errQUEUE_FULL.
Definition receive (h : Z) : M queues (Z * option Z) :=
  c ← the_queue h;
  match c.2 with
  | [] => mret (errQUEUE_FULL, None)
  | x :: l => modify (<[h := (c.1, l)]>);; mret (pdPASS, Some x)
  end.
Definition new_handle (q : queues) : Z := fresh ({[0]} ∪ dom q : gset Z).

#[export] Instance queues_kernel : Kernel queues := {|
  xQueueCreate n _ q := Val (new_handle q, <[new_handle q := (n, [])]> q);
  xQueueSendToBackFromISR := send_with (fun l x => l ++ [x]);
  xQueueSendToBack h x _ := send_with (fun l x => l ++ [x]) h x;
  xQueueSendToFrontFromISR := send_with (fun l x => x :: l);
  xQueueSendToFront h x _ := send_with (fun l x => x :: l) h x;
  xQueueReceive h _ := receive h;
  vQueueDelete h := modify (delete h);
  xQueueIsQueueEmptyFromISR h := c ← the_queue h; mret (b2z (bool_decide (c.2 = [])));
  xQueueIsQueueFullFromISR h := c ← the_queue h; mret (b2z (Z.of_nat (length c.2) =? c.1));
|}.

Lemma the_queue_val (q : queues) h c : (if h =? 0 then None else q !! h) = Some c -> the_queue h q = Val (c, q).
Proof. intros E. unfold the_queue. mstep. unfold lift_res, of_option. by rewrite E. Qed.
Lemma queue_insert (q : queues) h c k : h <> 0 ->
  (if k =? 0 then None else <[h := c]> q !! k) = if k =? h then Some c else if k =? 0 then None else q !! k.
Proof.
  intros Hh. destruct (Z.eqb_spec k h) as [->|]; [|by rewrite lookup_insert_ne]. by rewrite (proj2 (Z.eqb_neq _ _)), lookup_insert_eq.
Qed.
Lemma some_handle {A} h (o : option A) c : (if h =? 0 then None else o) = Some c -> h <> 0.
Proof. by destruct (Z.eqb_spec h 0). Qed.

#[export, refine] Instance queues_spec : QueueSpec queues := {| queue_of q h := if h =? 0 then None else q !! h |}.
Proof.
  - done.
  - intros n size q Hn. exists (new_handle q). eexists. split; [done|].
    pose proof (is_fresh ({[0]} ∪ dom q : gset Z)) as Hf. fold (new_handle q) in Hf.
    assert (Hne : new_handle q <> 0) by set_solver. rewrite (proj2 (Z.eqb_neq _ _)) by done. split.
    + apply not_elem_of_dom. set_solver.
    + intros k. by apply queue_insert.
  - intros q h n l x E. pose proof (some_handle _ _ _ E) as Hh. cbn [xQueueSendToBackFromISR queues_kernel]. unfold send_with.
    destruct (Z.of_nat (length l) <? n) eqn:El.
    + eexists. split; [mstep by (by apply the_queue_val); cbn [fst snd]; rewrite El; by mstep|]. intros k. by apply queue_insert.
    + mstep by (by apply the_queue_val). cbn [fst snd]. by rewrite El.
  - intros q h n x l t E. pose proof (some_handle _ _ _ E) as Hh. eexists. split.
    + cbn [xQueueReceive queues_kernel]. unfold receive. mstep by (by apply the_queue_val). cbn [fst snd]. by mstep.
    + intros k. by apply queue_insert.
  - intros q h n E. cbn [xQueueReceive queues_kernel]. unfold receive. mstep by (by apply the_queue_val). done.
Defined.
