(* ===== verification/Irda.v ===== *)
(** * The infrared receiver (driver/irda/irda.c)

    The receiver decodes the NEC protocol: a leader code, a frame of 32 bits, and
    a repeat code every 108 ms while the key is held.  The interrupt routine
    counts the repeat codes and starts a timer of 112 ms; the handler of the timer
    tells from the counts how long the key is held, and sends a message to a
    queue of three.  The random number generator is a command of the same device. *)
From stdpp Require Import strings.
From S2P Require Import Prelude DrvModel Icu Regs Intc Stack Gpio Timer Clock Queue.
Local Open Scope Z_scope.

(** ** irda.h *)
Definition IRDA_BASE : Z := 0x00802400.
Definition IRDA_CTRL : Z := IRDA_BASE + 0 * 4.
Definition IRDA_NEC_EN : Z := Z.shiftl 0x01 0.
Definition IRDA_POLARITY : Z := Z.shiftl 0x01 1.
Definition CLK_DIVID_POSI : Z := 8.
Definition CLK_DIVID_MASK : Z := 0xFFFF.
Definition IRDA_INT_MASK : Z := IRDA_BASE + 1 * 4.
Definition IRDA_END_INT_MASK : Z := Z.shiftl 0x01 0.
Definition IRDA_RIGHT_INT_MASK : Z := Z.shiftl 0x01 1.
Definition IRDA_REPEAT_INT_MASK : Z := Z.shiftl 0x01 2.
Definition INT_MASK_EN : Z := 0x3f.
Definition IRDA_INT : Z := IRDA_BASE + 2 * 4.
Definition IRDA_END_INT : Z := Z.shiftl 0x01 0.
Definition IRDA_RIGHT_INT : Z := Z.shiftl 0x01 1.
Definition IRDA_REPEAT_INT : Z := Z.shiftl 0x01 2.
Definition RX_FIFO_DOUT : Z := IRDA_BASE + 3 * 4.
Definition IRDA_KEY_HTIMER_CHNAL : Z := 4.
Definition TRNG_BASE : Z := 0x00802480.
Definition TRNG_CTRL : Z := TRNG_BASE + 0 * 4.
Definition TRNG_EN : Z := Z.shiftl 0x01 0.
Definition TRNG_DATA : Z := TRNG_BASE + 1 * 4.

(** ** irda_pub.h, icu_pub.h, intc_pub.h *)
Definition IRDA_FAILURE : Z := 1.
Definition IRDA_SUCCESS : Z := 0.
Definition IRDA_DEV_NAME : string := "irda".
Definition IRDA_CMD_MAGIC : Z := 0xe290000.
Definition IRDA_CMD_ACTIVE : Z := IRDA_CMD_MAGIC + 1.
Definition IRDA_CMD_SET_POLARITY : Z := IRDA_CMD_MAGIC + 2.
Definition IRDA_CMD_SET_CLK : Z := IRDA_CMD_MAGIC + 3.
Definition IRDA_CMD_SET_INT_MASK : Z := IRDA_CMD_MAGIC + 4.
Definition TRNG_CMD_GET : Z := IRDA_CMD_MAGIC + 5.
Definition IR_KEY_TYPE_SHORT : Z := 0.
Definition IR_KEY_TYPE_LONG : Z := 1.
Definition IR_KEY_TYPE_HOLD : Z := 2.
Definition USERCODE_MASK : Z := 0xffff.
Definition KEY_CODE_MASK : Z := 0xff0000.
Definition KEY_CODE_SHIFT : Z := 16.
Definition KEY_CODE_INVERS_MASK : Z := 0xff000000.
Definition KEY_CODE_INVERS_SHIFT : Z := 24.
Definition KEY_SHORT_CNT : Z := 3.
Definition KEY_LONG_CNT : Z := 8.
Definition KEY_HOLD_CNT : Z := 11.
Definition GENERATE_KEY (type value : Z) : Z := Z.lor (Z.shiftl type 24) value.
Definition GET_KEY_TYPE (msg : Z) : Z := Z.land (Z.shiftr msg 24) 0xff.
Definition GET_KEY_VALUE (msg : Z) : Z := Z.land msg 0xff.
Definition PCLK_POSI_IRDA : Z := Z.shiftl 1 3.
Definition PWD_IRDA_CLK_BIT : Z := Z.shiftl 1 3.
Definition IRQ_IRDA : Z := 3.
Definition PRI_IRQ_IRDA : Z := 23.

(** [IR_key], and the variable of its handler. *)
Record irda_vars := IrdaVars {
  IRkey_mq : Z;
  IR_UserCode : Z;
  valid_flag : Z;
  IR_key_code : Z;
  repeat_flag : Z;
  repeat_cnt : Z;
  timer_cnt : Z;
  hold_flag : Z;
}.
Definition irda_start : irda_vars := IrdaVars 0 0 0 0 0 0 0 0.

Definition with_mq (q : Z) (v : irda_vars) : irda_vars :=
  IrdaVars q (IR_UserCode v) (valid_flag v) (IR_key_code v) (repeat_flag v) (repeat_cnt v) (timer_cnt v) (hold_flag v).
Definition with_user (u : Z) (v : irda_vars) : irda_vars :=
  IrdaVars (IRkey_mq v) u (valid_flag v) (IR_key_code v) (repeat_flag v) (repeat_cnt v) (timer_cnt v) (hold_flag v).
Definition with_valid (b : Z) (v : irda_vars) : irda_vars :=
  IrdaVars (IRkey_mq v) (IR_UserCode v) b (IR_key_code v) (repeat_flag v) (repeat_cnt v) (timer_cnt v) (hold_flag v).
Definition with_code (c : Z) (v : irda_vars) : irda_vars :=
  IrdaVars (IRkey_mq v) (IR_UserCode v) (valid_flag v) c (repeat_flag v) (repeat_cnt v) (timer_cnt v) (hold_flag v).
Definition with_repeat (f c : Z) (v : irda_vars) : irda_vars :=
  IrdaVars (IRkey_mq v) (IR_UserCode v) (valid_flag v) (IR_key_code v) f c (timer_cnt v) (hold_flag v).
Definition with_timer_cnt (c : Z) (v : irda_vars) : irda_vars :=
  IrdaVars (IRkey_mq v) (IR_UserCode v) (valid_flag v) (IR_key_code v) (repeat_flag v) (repeat_cnt v) c (hold_flag v).
Definition with_hold (h : Z) (v : irda_vars) : irda_vars :=
  IrdaVars (IRkey_mq v) (IR_UserCode v) (valid_flag v) (IR_key_code v) (repeat_flag v) (repeat_cnt v) (timer_cnt v) h.

(** What the [void *] of a control command points to. *)
Inductive irda_parm :=
  | IrNull
  | IrByte (b : Z)
  | IrHalf (h : Z)
  | IrWord (w : Z).

(** The condition of the routine on a received word, and the code in it. *)
Definition frame_bad (user tmp : Z) : bool :=
  negb (Z.land tmp USERCODE_MASK =? user) ||
  negb (Z.lxor (Z.shiftr (Z.land tmp KEY_CODE_INVERS_MASK) KEY_CODE_INVERS_SHIFT) (Z.shiftr (Z.land tmp KEY_CODE_MASK) KEY_CODE_SHIFT) =? 0xff).
Definition frame_code (tmp : Z) : Z := Z.shiftr (Z.land tmp KEY_CODE_MASK) KEY_CODE_SHIFT.

Arguments frame_bad : simpl never.
Arguments frame_code : simpl never.

(** ** The registers *)
Section regs.
Context {S : Type} `{RegBus S}.

Definition irda_active (enable : Z) : M S unit :=
  value ← REG_READ IRDA_CTRL;
  REG_WRITE IRDA_CTRL (if truthy enable then Z.lor value IRDA_NEC_EN else Z.ldiff value IRDA_NEC_EN).
Definition irda_set_polarity (polarity : Z) : M S unit :=
  value ← REG_READ IRDA_CTRL;
  REG_WRITE IRDA_CTRL (if truthy polarity then Z.lor value IRDA_POLARITY else Z.ldiff value IRDA_POLARITY).
Definition irda_set_clk (clk : Z) : M S unit :=
  value ← REG_READ IRDA_CTRL;
  let value := Z.ldiff value (Z.shiftl CLK_DIVID_MASK CLK_DIVID_POSI) in
  REG_WRITE IRDA_CTRL (Z.lor value (Z.shiftl clk CLK_DIVID_POSI)).
Definition irda_set_int_mask (int_en_bits : Z) : M S unit :=
  value ← REG_READ IRDA_INT_MASK;
  REG_WRITE IRDA_INT_MASK (Z.lor (Z.ldiff value INT_MASK_EN) int_en_bits).

Definition trng_active (enable : Z) : M S unit := mret tt.
Definition trng_get_random : M S Z :=
  reg ← REG_READ TRNG_CTRL;
  REG_WRITE TRNG_CTRL (Z.lor reg TRNG_EN);;
  value ← REG_READ TRNG_DATA;
  reg ← REG_READ TRNG_CTRL;
  REG_WRITE TRNG_CTRL (Z.ldiff reg TRNG_EN);;
  mret value.

Definition byte_of (param : irda_parm) : M S Z := match param with IrByte b => mret b | _ => fail BadAccess end.
Definition half_of (param : irda_parm) : M S Z := match param with IrHalf h => mret h | _ => fail BadAccess end.

(** The result, and what the parameter points to afterwards. *)
Definition irda_ctrl (cmd : Z) (param : irda_parm) : M S (Z * irda_parm) :=
  if cmd =? IRDA_CMD_ACTIVE then b ← byte_of param; irda_active b;; mret (IRDA_SUCCESS, param)
  else if cmd =? IRDA_CMD_SET_POLARITY then b ← byte_of param; irda_set_polarity b;; mret (IRDA_SUCCESS, param)
  else if cmd =? IRDA_CMD_SET_CLK then h ← half_of param; irda_set_clk h;; mret (IRDA_SUCCESS, param)
  else if cmd =? IRDA_CMD_SET_INT_MASK then b ← byte_of param; irda_set_int_mask b;; mret (IRDA_SUCCESS, param)
  else if cmd =? TRNG_CMD_GET then
    w ← trng_get_random;
    match param with IrWord _ => mret (IRDA_SUCCESS, IrWord w) | _ => fail BadAccess end
  else mret (IRDA_FAILURE, param).
End regs.

(** ** The queue of keys *)
(** A run of the kernel, in a state that holds it. *)
Definition on_held {Q S A} `{Holds Q S} (m : M Q A) : M S A := fun s =>
  match m (hget s) with Val (a, q) => Val (a, hput q s) | Err f => Err f end.

Section queue.
Context {Q S : Type} `{!Kernel Q, !Holds irda_vars S, !Holds Q S}.

(** The time to wait is given as [sizeof(msg)]. *)
Definition IR_send_key (in_interrupt : bool) (msg : Z) : M S Z :=
  mq ← gets IRkey_mq;
  if negb (mq =? 0) then on_held (Q := Q) (rtos_push_to_queue in_interrupt mq msg 4) else mret (-1).

Definition IR_get_key (timeout : Z) : M S (Z * option Z) :=
  mq ← gets IRkey_mq; on_held (Q := Q) (rtos_pop_from_queue mq (u32 timeout)).

Definition set_irda_usrcode (ir_usercode : Z) : M S unit := sets (with_user ir_usercode).
End queue.

(** ** Over the registry, the timers and the interrupt table *)
Section system.
Context {Q W : Type} `{RegBus W, !Kernel Q, !Holds irda_vars W, !Holds Q W, !Holds timer_vars W}.
Abbreviation all := (drv_state (intc_st W)).
Context (sdev_ops : Z -> SDD_OPERATIONS (intc_st W)) (fuel : nat).
(** The addresses of [bk_timer_op], [irda_op], [irda_isr] and [irda_key_timer_hdl]. *)
Context (bk_timer_op irda_op irda_isr_addr key_timer_hdl_addr : Z).

Definition SND_KEY : Z := Z.shiftl 1 0.
Definition STOP_TIMER : Z := Z.shiftl 1 1.

(** The flags and the type of key that the handler decides on, and the variables it assigns. *)
Definition key_decision (v : irda_vars) : Z * Z * irda_vars :=
  if repeat_cnt v <? timer_cnt v then
    let '(op_flag, key_type) :=
      if repeat_cnt v <? KEY_SHORT_CNT then (Z.lor SND_KEY STOP_TIMER, IR_KEY_TYPE_SHORT)
      else if repeat_cnt v <? KEY_LONG_CNT then (Z.lor SND_KEY STOP_TIMER, IR_KEY_TYPE_LONG)
      else if hold_flag v =? 0 then (Z.lor SND_KEY STOP_TIMER, IR_KEY_TYPE_HOLD)
      else (STOP_TIMER, 0) in
    (op_flag, key_type, with_hold 0 v)
  else if KEY_HOLD_CNT <=? repeat_cnt v then
    (SND_KEY, IR_KEY_TYPE_HOLD, with_timer_cnt KEY_LONG_CNT (with_repeat (repeat_flag v) KEY_LONG_CNT (with_hold 1 v)))
  else (0, 0, v).

Definition irda_key_timer_hdl (param : Z) : M all unit :=
  at_ext (sets (fun v => with_timer_cnt (u8 (timer_cnt v + 1)) v));;
  v ← at_ext (gets id);
  let '(op_flag, key_type, v') := key_decision v in
  at_ext (sets (fun _ => v'));;
  when (truthy (Z.land op_flag SND_KEY)) (_ ← at_ext (IR_send_key (Q := Q) true (GENERATE_KEY key_type (IR_key_code v'))); mret tt);;
  when (truthy (Z.land op_flag STOP_TIMER)) (_ ← timer_control sdev_ops bk_timer_op CMD_TIMER_UNIT_DISABLE (TWord IRDA_KEY_HTIMER_CHNAL); mret tt).

Definition start_irda_handle_timer (period : Z) : M all unit :=
  _ ← timer_control sdev_ops bk_timer_op CMD_TIMER_INIT_PARAM (TParam (TimerParam IRDA_KEY_HTIMER_CHNAL 1 period key_timer_hdl_addr));
  mret tt.

Definition REPEAT_KEY_TIME_INTERVAL : Z := 112.

(** The end of a frame; [false]: the routine returns. *)
Definition irda_frame_end : M all bool :=
  v ← at_ext (gets id);
  if truthy (valid_flag v) then
    tmp ← at_ext (REG_READ RX_FIFO_DOUT);
    if frame_bad (IR_UserCode v) tmp then at_ext (sets (with_valid 0));; mret false
    else
      at_ext (sets (fun v => with_timer_cnt 0 (with_code (frame_code tmp) v)));;
      start_irda_handle_timer REPEAT_KEY_TIME_INTERVAL;;
      mret true
  else mret true.

Definition irda_isr : M all unit :=
  irda_int ← at_ext (REG_READ IRDA_INT);
  let end_int := Z.land irda_int IRDA_END_INT in
  let right_int := Z.land irda_int IRDA_RIGHT_INT in
  let repeat_int := Z.land irda_int IRDA_REPEAT_INT in
  at_ext (REG_WRITE IRDA_INT irda_int);;
  when (truthy right_int) (at_ext (sets (fun v => with_repeat 0 0 (with_valid 1 v))));;
  goes_on ← (if truthy end_int then irda_frame_end else mret true);
  when ((goes_on : bool) && truthy repeat_int) (at_ext (sets (fun v => with_repeat 1 (u8 (repeat_cnt v + 1)) v))).

Definition irda_init : M all unit :=
  call (intc_service_register fuel IRQ_IRDA PRI_IRQ_IRDA irda_isr_addr);;
  _ ← sddev_register_dev (Some IRDA_DEV_NAME) (Some irda_op);
  at_ext (trng_active 1).
Definition irda_exit : M all unit := _ ← sddev_unregister_dev (Some IRDA_DEV_NAME); mret tt.

Definition Irda_init_app : M all unit :=
  at_ext (sets (with_valid 0));;
  r ← at_ext (on_held (Q := Q) (rtos_init_queue 4 3));
  at_ext (sets (with_mq r.2));;
  if negb (kNoErr =? r.1) then mret tt
  else
    _ ← sddev_control sdev_ops (Some ICU_DEV_NAME) CMD_CONF_PCLK_26M PCLK_POSI_IRDA;
    _ ← sddev_control sdev_ops (Some ICU_DEV_NAME) CMD_CLK_PWR_UP PWD_IRDA_CLK_BIT;
    _ ← sddev_control sdev_ops (Some GPIO_DEV_NAME) CMD_GPIO_ENABLE_SECOND GFUNC_MODE_IRDA;
    at_ext (
      irda_set_polarity 0;;
      irda_active 1;;
      irda_set_clk 0x3921;;
      irda_set_int_mask (Z.lor IRDA_RIGHT_INT_MASK (Z.lor IRDA_REPEAT_INT_MASK IRDA_END_INT_MASK)));;
    intc_enable sdev_ops IRQ_IRDA;;
    _ ← sddev_control sdev_ops (Some ICU_DEV_NAME) CMD_ICU_GLOBAL_INT_ENABLE GINTR_IRQ_BIT;
    mret tt.
End system.
