(* ===== verification/IrdaKeys.v ===== *)
(** * Keys from the infrared receiver

    The receiver as a machine on its variables, its timer and its queue
    ([key_state]): an interrupt of the receiver with its status and frame, a
    period of the timer.  What a press of a key sends, for any number of repeat
    codes in each period: [press_sends]. *)
From S2P Require Import Prelude Queue Irda.
Local Open Scope Z_scope.

(** An interrupt of the receiver, its status and the word it holds; a period of the timer. *)
Inductive ir_event := Received (status word : Z) | Tick.

Record key_state := KeyState { k_vars : irda_vars; k_on : bool; k_queue : list Z }.

Definition QUEUE_LENGTH : Z := 3.

(** [irda_isr] *)
Definition key_received (st word : Z) (k : key_state) : key_state :=
  let v := k_vars k in
  let v := if Z.testbit st 1 then with_repeat 0 0 (with_valid 1 v) else v in
  let '(goes_on, v, on) :=
    if Z.testbit st 0 && truthy (valid_flag v) then
      if frame_bad (IR_UserCode v) word then (false, with_valid 0 v, k_on k)
      else (true, with_timer_cnt 0 (with_code (frame_code word) v), true)
    else (true, v, k_on k) in
  KeyState (if goes_on && Z.testbit st 2 then with_repeat 1 (u8 (repeat_cnt v + 1)) v else v) on (k_queue k).

(** [irda_key_timer_hdl], if the timer runs. *)
Definition key_tick (k : key_state) : key_state :=
  if k_on k then
    let v := with_timer_cnt (u8 (timer_cnt (k_vars k) + 1)) (k_vars k) in
    let '(op_flag, key_type, v') := key_decision v in
    KeyState v' (negb (truthy (Z.land op_flag STOP_TIMER)))
      (if truthy (Z.land op_flag SND_KEY) then sent QUEUE_LENGTH (k_queue k) (GENERATE_KEY key_type (IR_key_code v')) else k_queue k)
  else k.

Definition key_step (k : key_state) (e : ir_event) : key_state :=
  match e with Received st word => key_received st word k | Tick => key_tick k end.
Definition key_run (es : list ir_event) (k : key_state) : key_state := foldl key_step k es.

Lemma key_run_app es es' k : key_run (es ++ es') k = key_run es' (key_run es k).
Proof. apply foldl_app. Qed.

(** ** The events of a press *)
Definition leader : ir_event := Received IRDA_RIGHT_INT 0.
Definition frame (word : Z) : ir_event := Received IRDA_END_INT word.
Definition repeat_code : ir_event := Received IRDA_REPEAT_INT 0.
(** [g] repeat codes, then the end of a period of the timer. *)
Definition gap (g : nat) : list ir_event := replicate g repeat_code ++ [Tick].
Definition press (word : Z) (gs : list nat) : list ir_event := leader :: frame word :: concat (gap <$> gs).
(** The key is released: periods without a repeat code. *)
Definition release : list ir_event := replicate 11 Tick.

(** The messages of a press with [n] repeat codes, [j] of them if it is held. *)
Definition press_messages (code n : Z) (j : nat) : list Z :=
  if n <? KEY_SHORT_CNT then [GENERATE_KEY IR_KEY_TYPE_SHORT code]
  else if n <? KEY_LONG_CNT then [GENERATE_KEY IR_KEY_TYPE_LONG code]
  else replicate j (GENERATE_KEY IR_KEY_TYPE_HOLD code).

Definition sends (q msgs : list Z) : list Z := foldl (sent QUEUE_LENGTH) q msgs.

Lemma sends_take q msgs : Z.of_nat (length q) <= QUEUE_LENGTH -> sends q msgs = take 3 (q ++ msgs).
Proof.
  unfold QUEUE_LENGTH. revert q. induction msgs as [|x msgs IH]; intros q Hq; cbn [sends foldl].
  { rewrite app_nil_r, take_ge by lia. done. }
  change (foldl (sent QUEUE_LENGTH) (sent QUEUE_LENGTH q x) msgs) with (sends (sent QUEUE_LENGTH q x) msgs).
  unfold sent, QUEUE_LENGTH. destruct (Z.ltb_spec (Z.of_nat (length q)) 3).
  - rewrite IH by (rewrite length_app; cbn; lia). by rewrite <- (assoc_L (++)).
  - rewrite IH by lia. by rewrite !take_app_le by lia.
Qed.
Lemma sends_snoc q msgs x : sends q (msgs ++ [x]) = sent QUEUE_LENGTH (sends q msgs) x.
Proof. unfold sends. by rewrite foldl_app. Qed.

(** ** The counts *)
Record counts (k : key_state) (on : bool) (mq user code r t h : Z) (q : list Z) : Prop := {
  ct_on : k_on k = on;
  ct_mq : IRkey_mq (k_vars k) = mq;
  ct_user : IR_UserCode (k_vars k) = user;
  ct_code : IR_key_code (k_vars k) = code;
  ct_repeat : repeat_cnt (k_vars k) = r;
  ct_timer : timer_cnt (k_vars k) = t;
  ct_hold : hold_flag (k_vars k) = h;
  ct_queue : k_queue k = q;
}.

Lemma repeat_counts k on mq user code r t h q : counts k on mq user code r t h q ->
  counts (key_step k repeat_code) on mq user code (u8 (r + 1)) t h q.
Proof. destruct k as [[]]. intros []; cbn in *. by subst. Qed.

Lemma repeats_count g k on mq user code r t h q : counts k on mq user code r t h q -> 0 <= r -> r + Z.of_nat g < 256 ->
  counts (key_run (replicate g repeat_code) k) on mq user code (r + Z.of_nat g) t h q.
Proof.
  revert k r. induction g as [|g IH]; intros k r Hk Hr Hb; cbn [replicate key_run foldl].
  { by rewrite Z.add_0_r. }
  apply repeat_counts in Hk. rewrite u8_id in Hk by (unfold is_u8; lia). apply IH in Hk; [|lia..].
  by replace (r + Z.of_nat (Datatypes.S g)) with (r + 1 + Z.of_nat g) by lia.
Qed.

(** The period: the key is released, or held, or neither yet. *)
Definition released_messages (code r h : Z) : list Z :=
  if r <? KEY_SHORT_CNT then [GENERATE_KEY IR_KEY_TYPE_SHORT code]
  else if r <? KEY_LONG_CNT then [GENERATE_KEY IR_KEY_TYPE_LONG code]
  else if h =? 0 then [GENERATE_KEY IR_KEY_TYPE_HOLD code] else [].

Lemma tick_counts k mq user code r t h q : counts k true mq user code r t h q -> 0 <= t < 255 ->
  if r <? t + 1 then counts (key_tick k) false mq user code r (t + 1) 0 (sends q (released_messages code r h))
  else if KEY_HOLD_CNT <=? r then
    counts (key_tick k) true mq user code KEY_LONG_CNT KEY_LONG_CNT 1 (sends q [GENERATE_KEY IR_KEY_TYPE_HOLD code])
  else counts (key_tick k) true mq user code r (t + 1) h q.
Proof.
  destruct k as [[m u a c f r' t' h'] on' q']. intros [E1 E2 E3 E4 E5 E6 E7 E8] Ht. cbn in E1, E2, E3, E4, E5, E6, E7, E8. subst.
  unfold key_tick, key_decision, released_messages, KEY_HOLD_CNT. cbn [k_on k_vars k_queue timer_cnt repeat_cnt with_timer_cnt hold_flag].
  rewrite u8_id by (unfold is_u8; lia). destruct (r <? t + 1); [|by destruct (11 <=? r)].
  destruct (r <? KEY_SHORT_CNT); [done|]. destruct (r <? KEY_LONG_CNT); [done|]. by destruct (h =? 0).
Qed.

(** A receiver whose timer is stopped sends nothing more for repeat codes. *)
Definition quiet (e : ir_event) : Prop := e = repeat_code \/ e = Tick.
Definition stopped (k : key_state) (mq : Z) (q : list Z) : Prop :=
  k_on k = false /\ IRkey_mq (k_vars k) = mq /\ hold_flag (k_vars k) = 0 /\ k_queue k = q.
Lemma stopped_run es k mq q : Forall quiet es -> stopped k mq q -> stopped (key_run es k) mq q.
Proof.
  intros Hq. revert k. induction Hq as [|e es [-> | ->] _ IH]; intros k Hs; [done|apply IH..].
  - destruct k as [[]]. exact Hs.
  - unfold key_step, key_tick. destruct Hs as (Hon & Hs). by rewrite Hon.
Qed.
Lemma gaps_quiet gs : Forall quiet (concat (gap <$> gs)).
Proof.
  induction gs as [|g gs IH]; [done|]. cbn [fmap list_fmap concat]. apply Forall_app. split; [|done]. unfold gap. apply Forall_app.
  split; [apply Forall_replicate; by left|]. constructor; [by right|done].
Qed.

(** ** A press *)

(** The key is held: [n] repeat codes so far and [j] messages, [regular] if each
    period had one repeat code. *)
Record held (mq user code : Z) (q0 : list Z) (regular : Prop) (n : Z) (j : nat) (k : key_state) : Prop := {
  hd_state : exists r t h, counts k true mq user code r t h (sends q0 (replicate j (GENERATE_KEY IR_KEY_TYPE_HOLD code))) /\
    0 <= t <= r /\ r < KEY_HOLD_CNT /\ (regular -> t = r) /\
    ((h = 0 /\ j = 0%nat /\ n = r) \/
     (h = 1 /\ (0 < j)%nat /\ KEY_LONG_CNT <= r /\ 3 * Z.of_nat j + r <= n /\ (regular -> 3 * Z.of_nat j + r = n)));
}.

(** How many messages a press of [n] repeat codes sends at most if it is held. *)
Definition most (n : Z) : Z := Z.max 1 ((n - KEY_LONG_CNT) / 3).

(** A press has ended, after [n] repeat codes. *)
Definition ended (mq code : Z) (q0 : list Z) (regular : Prop) (n : Z) (k : key_state) : Prop :=
  exists j, stopped k mq (sends q0 (press_messages code n j)) /\ 1 <= Z.of_nat j <= most n /\ (regular -> Z.of_nat j = most n).

(** The last period of a press. *)
Lemma held_released mq user code q0 reg n k r t h j :
  counts k false mq user code r t 0 (sends (sends q0 (replicate j (GENERATE_KEY IR_KEY_TYPE_HOLD code))) (released_messages code r h)) ->
  r < KEY_HOLD_CNT ->
  (h = 0 /\ j = 0%nat /\ n = r) \/
  (h = 1 /\ (0 < j)%nat /\ KEY_LONG_CNT <= r /\ 3 * Z.of_nat j + r <= n /\ (reg -> 3 * Z.of_nat j + r = n)) ->
  ended mq code q0 reg n k.
Proof.
  intros [C1 C2 _ _ _ _ C7 C8] Hr Hc. unfold ended, stopped, released_messages, press_messages, most in *.
  unfold KEY_HOLD_CNT, KEY_LONG_CNT, KEY_SHORT_CNT in *. destruct Hc as [(-> & -> & ->)|(-> & Hj & Hl & Hn & Hreg)].
  - exists 1%nat. split; [|split; [|intros _]; [|Z.to_euclidean_division_equations; lia]; Z.to_euclidean_division_equations; lia].
    split_and!; [done..|]. rewrite C8. cbn [replicate sends foldl]. by destruct (r <? 3), (r <? 8).
  - exists j. split.
    + split_and!; [done..|]. rewrite C8. rewrite !(proj2 (Z.ltb_ge _ _)) by lia. done.
    + split; [|intros Hr'; specialize (Hreg Hr')]; Z.to_euclidean_division_equations; lia.
Qed.

Lemma held_gap mq user code q0 (reg : Prop) n j k g : held mq user code q0 reg n j k -> (g <= 240)%nat -> (reg -> g = 1%nat) ->
  (exists j', held mq user code q0 reg (n + Z.of_nat g) j' (key_run (gap g) k)) \/ (g = 0%nat /\ ended mq code q0 reg n (key_run (gap g) k)).
Proof.
  intros [(r & t & h & C & Ht & Hr & Hreg & Hc)] Hg H1. unfold gap. rewrite key_run_app. unfold KEY_HOLD_CNT in Hr.
  apply (repeats_count g) in C; [|lia..]. set (k1 := key_run (replicate g repeat_code) k) in *. change (key_run [Tick] k1) with (key_tick k1).
  pose proof (tick_counts _ _ _ _ _ _ _ _ C ltac:(lia)) as Hk. unfold KEY_HOLD_CNT in Hk. destruct (Z.ltb_spec (r + Z.of_nat g) (t + 1)).
  - assert (g = 0%nat) as -> by lia. right. split; [done|]. rewrite Z.add_0_r in Hk. by eapply held_released.
  - left. destruct (Z.leb_spec 11 (r + Z.of_nat g)).
    + exists (Datatypes.S j). split. exists KEY_LONG_CNT, KEY_LONG_CNT, 1.
      unfold KEY_HOLD_CNT, KEY_LONG_CNT in *. split_and!; try lia.
      * rewrite replicate_S_end, sends_snoc. exact Hk.
      * right. split_and!; try lia.
        intros Hx. specialize (Hreg Hx). specialize (H1 Hx). destruct Hc as [(-> & -> & ->)|(-> & Hj & Hl & Hn & He)]; [lia|]. specialize (He Hx). lia.
    + exists j. split. exists (r + Z.of_nat g), (t + 1), h. unfold KEY_HOLD_CNT, KEY_LONG_CNT in *. split_and!; try done; try lia.
      * intros Hx. specialize (Hreg Hx). specialize (H1 Hx). lia.
      * destruct Hc as [(-> & -> & ->)|(-> & Hj & Hl & Hn & He)]; [left; by split_and!|right]. split_and!; try lia. intros Hx. specialize (He Hx). lia.
Qed.

(** The codes received until the timer is stopped: all of them, or those of the
    periods before the first without one. *)
Lemma held_gaps mq user code q0 (reg : Prop) gs : Forall (fun g => g <= 240)%nat gs -> (reg -> Forall (eq 1%nat) gs) -> forall n j k,
  held mq user code q0 reg n j k ->
  (exists j', held mq user code q0 reg (n + Z.of_nat (sum_list gs)) j' (key_run (concat (gap <$> gs)) k)) \/
  (exists gs1 gs2, gs = gs1 ++ 0%nat :: gs2 /\ ended mq code q0 reg (n + Z.of_nat (sum_list gs1)) (key_run (concat (gap <$> gs)) k)).
Proof.
  induction 1 as [|g gs Hg _ IH]; intros Hreg n j k Hk; cbn [fmap list_fmap concat].
  { left. exists j. by rewrite Z.add_0_r. }
  assert (H1 : reg -> g = 1%nat) by (intros Hr; specialize (Hreg Hr); by inversion Hreg).
  assert (H2 : reg -> Forall (eq 1%nat) gs) by (intros Hr; specialize (Hreg Hr); by inversion Hreg).
  change (sum_list (g :: gs)) with (g + sum_list gs)%nat. rewrite key_run_app, Nat2Z.inj_add, Z.add_assoc.
  destruct (held_gap _ _ _ _ _ _ _ _ g Hk Hg H1) as [[j1 Hj]|[-> (j1 & S1 & B1)]].
  - destruct (IH H2 _ j1 _ Hj) as [HL|(gs1 & gs2 & -> & E)]; [by left|right].
    exists (g :: gs1), gs2. split; [done|]. change (sum_list (g :: gs1)) with (g + sum_list gs1)%nat. by rewrite Nat2Z.inj_add, Z.add_assoc.
  - right. exists [], gs. split; [done|]. exists j1. rewrite Z.add_0_r. split; [|done]. by apply stopped_run; [apply gaps_quiet|].
Qed.

(** The end of a press: at most 11 periods without a repeat code. *)
Lemma held_release mq user code q0 reg m : forall n j k, held mq user code q0 reg n j k ->
  (forall r t, repeat_cnt (k_vars k) = r -> timer_cnt (k_vars k) = t -> r - t < Z.of_nat m) -> ended mq code q0 reg n (key_run (replicate m Tick) k).
Proof.
  induction m as [|m IH]; intros n j k [(r & t & h & C & Ht & Hr & Hreg & Hc)] Hm; cbn [replicate key_run foldl].
  { specialize (Hm r t (ct_repeat _ _ _ _ _ _ _ _ _ C) (ct_timer _ _ _ _ _ _ _ _ _ C)). lia. }
  specialize (Hm r t (ct_repeat _ _ _ _ _ _ _ _ _ C) (ct_timer _ _ _ _ _ _ _ _ _ C)). unfold KEY_HOLD_CNT in Hr.
  change (foldl key_step (key_step k Tick) (replicate m Tick)) with (key_run (replicate m Tick) (key_tick k)).
  pose proof (tick_counts _ _ _ _ _ _ _ _ C ltac:(lia)) as Hk. unfold KEY_HOLD_CNT in Hk. destruct (Z.ltb_spec r (t + 1)).
  - destruct (held_released mq user code q0 reg n _ r (t + 1) h j Hk Hr Hc) as (j' & S1 & B1). exists j'. split; [|done].
    apply stopped_run; [|done]. apply Forall_replicate. by right.
  - rewrite (proj2 (Z.leb_gt _ _)) in Hk by lia. apply (IH n j).
    + split. exists r, (t + 1), h. unfold KEY_HOLD_CNT. split_and!; try done; try lia. intros Hx. specialize (Hreg Hx). lia.
    + intros r' t' <- <-. rewrite (ct_repeat _ _ _ _ _ _ _ _ _ Hk), (ct_timer _ _ _ _ _ _ _ _ _ Hk). lia.
Qed.

(** The two frames of a press. *)
Lemma press_start word k : key_run [leader; frame word] k =
  let v := with_repeat 0 0 (with_valid 1 (k_vars k)) in
  if frame_bad (IR_UserCode (k_vars k)) word then KeyState (with_valid 0 v) (k_on k) (k_queue k)
  else KeyState (with_timer_cnt 0 (with_code (frame_code word) v)) true (k_queue k).
Proof. cbn [key_run foldl key_step leader frame]. unfold key_received. destruct k. cbn -[frame_bad frame_code]. by destruct (frame_bad _ word). Qed.
Lemma press_begins reg word k : hold_flag (k_vars k) = 0 -> frame_bad (IR_UserCode (k_vars k)) word = false ->
  held (IRkey_mq (k_vars k)) (IR_UserCode (k_vars k)) (frame_code word) (k_queue k) reg 0 0 (key_run [leader; frame word] k).
Proof.
  destruct k as [[mq user v c f r t h] on q]. cbn [k_vars hold_flag IR_UserCode IRkey_mq k_queue]. intros -> Hb. split. exists 0, 0, 0.
  split_and!; try done; [|by left]. rewrite press_start. cbn [k_vars IR_UserCode]. rewrite Hb. by split.
Qed.
Lemma foreign_press word k : frame_bad (IR_UserCode (k_vars k)) word = true -> k_on k = false ->
  stopped (key_run [leader; frame word] k) (IRkey_mq (k_vars k)) (k_queue k) \/ hold_flag (k_vars k) <> 0.
Proof.
  destruct k as [[mq user v c f r t h] on q]. cbn [k_vars hold_flag IR_UserCode IRkey_mq k_queue k_on]. intros Hb ->.
  destruct (decide (h = 0)) as [->|]; [left|by right]. rewrite press_start. cbn [k_vars IR_UserCode]. by rewrite Hb.
Qed.

(** What a press sends: nothing for a frame of another remote or one with an
    error; otherwise one message, or those of a key that is held. *)
Theorem press_sends word gs k : hold_flag (k_vars k) = 0 -> Forall (fun g => g <= 240)%nat gs ->
  let k' := key_run (press word gs ++ release) k in
  if frame_bad (IR_UserCode (k_vars k)) word then
    k_on k = false -> stopped k' (IRkey_mq (k_vars k)) (k_queue k)
  else exists gs1 gs2, gs = gs1 ++ gs2 /\ (gs2 = [] \/ exists gs', gs2 = 0%nat :: gs') /\
    ended (IRkey_mq (k_vars k)) (frame_code word) (k_queue k) (Forall (eq 1%nat) gs) (Z.of_nat (sum_list gs1)) k'.
Proof.
  intros Hh Hg k'. subst k'. unfold press. change (leader :: frame word :: ?es) with ([leader; frame word] ++ es). rewrite !key_run_app.
  destruct (frame_bad (IR_UserCode (k_vars k)) word) eqn:Hb.
  - intros Hon. destruct (foreign_press word k Hb Hon) as [Hs|]; [|done]. apply stopped_run; [apply Forall_replicate; by right|].
    apply stopped_run; [apply gaps_quiet|done].
  - set (reg := Forall (eq 1%nat) gs). pose proof (press_begins reg word k Hh Hb) as Hk.
    destruct (held_gaps _ _ _ _ reg gs Hg ltac:(done) _ _ _ Hk) as [[j Hj]|(gs1 & gs2 & -> & j & S1 & B1)].
    + exists gs, []. split_and!; [by rewrite app_nil_r|by left|]. eapply held_release; [exact Hj|]. destruct Hj as [(r' & t' & h' & C' & Ht' & Hr' & _)].
      intros ? ? <- <-. rewrite (ct_repeat _ _ _ _ _ _ _ _ _ C'), (ct_timer _ _ _ _ _ _ _ _ _ C'). unfold KEY_HOLD_CNT in Hr'. lia.
    + exists gs1, (0%nat :: gs2). split_and!; [done|right; by exists gs2|]. exists j. split; [|done]. apply stopped_run; [|done]. apply Forall_replicate. by right.
Qed.

(** ** What the receiver loses *)
(** Key 1, held for 11 repeat codes, and key 2 before the period that would end
    key 1: its hold flag is left, and key 2, held for 8 repeat codes, sends
    nothing. *)
Definition fresh_keys (q : list Z) : key_state := KeyState (IrdaVars 1 0x1234 0 0 0 0 0 0) false q.
Example hold_swallows_next_key :
  k_queue (key_run (press 0xFE011234 (replicate 11 1%nat) ++ press 0xFD021234 (replicate 8 1%nat) ++ release) (fresh_keys [])) =
    [GENERATE_KEY IR_KEY_TYPE_HOLD 1] /\
  k_queue (key_run (press 0xFD021234 (replicate 8 1%nat) ++ release) (fresh_keys [])) = [GENERATE_KEY IR_KEY_TYPE_HOLD 2].
Proof. by vm_compute. Qed.

(** Three messages fill the queue: key 2 is lost behind a key held for 17 repeat codes. *)
Example full_queue_loses_key :
  k_queue (key_run (press 0xFE011234 (replicate 17 1%nat) ++ release ++ press 0xFD021234 [] ++ release) (fresh_keys [])) =
    replicate 3 (GENERATE_KEY IR_KEY_TYPE_HOLD 1).
Proof. by vm_compute. Qed.
