(* ===== verification/IrdaSystem.v ===== *)
(** * The infrared receiver over the registry and the timers

    The interrupt routine of the receiver and the handler of its timer, called by
    the interrupt routine of the timers, refine the machine of IrdaKeys.v; a press
    of a key, from its leader code to its release, leaves its messages in the
    queue that [IR_get_key] reads. *)
From stdpp Require Import strings gmap.
From S2P Require Import Prelude Serve DrvModel Icu Regs Intc Stack Gpio Timer TimerCorrect Clock Queue Irda IrdaKeys.
Local Open Scope Z_scope.

(** ** What happens between two calls *)
Section world.
Context {Q W : Type} `{RegBus W, !BlockRegs timer_block W, !Holds irda_vars W, !Holds Q W, !Holds timer_vars W}.
Implicit Types w : W.

Abbreviation irv := (hget (X := irda_vars) (S := W)).
Abbreviation krn := (hget (X := Q) (S := W)).

(** The timers' registers as far as software controls them, and the variables. *)
Record beside w w' : Prop := {
  be_soft b : in_timer b = true -> tsoft w' b = tsoft w b;
  be_irda : irv w' = irv w;
  be_queue : krn w' = krn w;
  be_table : handlers w' = handlers w;
}.

(** The routine will read [st] from the status register, and if that says that a
    frame has ended, [word] from the register of data. *)
Definition arrives (st word : Z) w w' : Prop :=
  beside w w' /\ (bus_read IRDA_INT w').1 = st /\
  (Z.testbit st 0 = true -> (bus_read RX_FIFO_DOUT (bus_write IRDA_INT st (bus_read IRDA_INT w').2)).1 = word).
(** The period of timer 4 ends, and no other timer's. *)
Definition fires w w' : Prop :=
  beside w w' /\ status_of TIMER0_2_CTL w' = 0 /\ status_of TIMER3_5_CTL (acked TIMER0_2_CTL 0 w') = 2 ^ 8.
End world.
Arguments beside Q {W _ _ _ _ _} w w'. Arguments arrives Q {W _ _ _ _ _} st word w w'. Arguments fires Q {W _ _ _ _ _} w w'.

(** The calls due for a status word. *)
Lemma due_none l posi base n i : due l posi base n i 0 = [].
Proof.
  unfold due. generalize (seqZ i (Z.of_nat n)). intros js. induction js as [|j js IH]; [done|]. cbn [omap list_omap]. unfold due_call at 1. by rewrite Z.bits_0.
Qed.
Lemma due_timer4 l a : l !! 4%nat = Some a -> truthy a = true -> due l TIMERCTLA_INT_POSI 3 3 0 (2 ^ 8) = [(a, 4)].
Proof.
  intros El Ha. unfold due. change (seqZ 0 (Z.of_nat 3)) with [0; 1; 2]. cbn [omap list_omap].
  change (due_call l TIMERCTLA_INT_POSI 3 (2 ^ 8) 0) with (None : option (Z * Z)). change (due_call l TIMERCTLA_INT_POSI 3 (2 ^ 8) 2) with (None : option (Z * Z)).
  assert (due_call l TIMERCTLA_INT_POSI 3 (2 ^ 8) 1 = Some (a, 4)) as ->; [|done].
  unfold due_call. change (Z.testbit (2 ^ 8) (1 + TIMERCTLA_INT_POSI)) with true. cbv iota. change (1 + 3) with 4.
  assert (zlookup l 4 = Some a) as -> by exact El. by rewrite Ha.
Qed.

(** Interrupts of the receiver and of timer 4 can happen at any time. *)
Class IrEnv (Q W : Type) `{RegBus W, !BlockRegs timer_block W, !Holds irda_vars W, !Holds Q W, !Holds timer_vars W} : Prop := {
  env_receives st word (w : W) : is_u8 st -> is_u32 word -> exists w', arrives Q st word w w';
  env_fires (w : W) : exists w', fires Q w w';
}.

Section system.
Context {Q W : Type} `{RegBus W, !IcuRegs W, !BlockRegs timer_block W, !Kernel Q, !QueueSpec Q}.
Context `{!Holds irda_vars W, !Quiet irda_vars W, !Holds Q W, !Quiet Q W, !Holds timer_vars W, !Quiet timer_vars W}.
Context `{!VarsApart irda_vars Q W, !VarsApart irda_vars timer_vars W, !VarsApart Q irda_vars W, !VarsApart Q timer_vars W,
  !VarsApart timer_vars irda_vars W, !VarsApart timer_vars Q W}.
Context (sdev_ops : Z -> SDD_OPERATIONS (intc_st W)) (icu_addr bk_timer_op key_timer_hdl_addr : Z).
Abbreviation all := (drv_state (intc_st W)).
Implicit Types (s : all) (w : W) (k : key_state).
Abbreviation beside := (beside Q (W := W)).

(** The interrupt unit and the timers are in the registry. *)
Definition ir_drivers s : Prop :=
  icu_behind sdev_ops icu_addr /\ sdev_slot (drv_sdev_tbl s) ICU_DEV_NAME icu_addr /\ sdev_slot (drv_sdev_tbl s) TIMER_DEV_NAME bk_timer_op.

(** Timer 4 counts. *)
Definition timer4_on w : bool := Z.testbit (tsoft w TIMER3_5_CTL) 1.

(** The state of the machine is that of the program. *)
Record shows k w : Prop := {
  sh_vars : hget w = k_vars k;
  sh_queue : queue_of (hget w) (IRkey_mq (k_vars k)) = Some (QUEUE_LENGTH, k_queue k);
  sh_table : length (handlers w) = Z.to_nat TIMER_CHANNEL_NO;
  sh_on : timer4_on w = k_on k;
  sh_armed : k_on k = true -> handlers w !! 4%nat = Some key_timer_hdl_addr /\ tsoft w (timer_period 4) = REPEAT_KEY_TIME_INTERVAL * 32;
}.

Lemma beside_refl w : beside w w.
Proof using Type. done. Qed.
Lemma beside_trans w1 w2 w3 : beside w1 w2 -> beside w2 w3 -> beside w1 w3.
Proof using Type. intros [A1 A2 A3 A4] [B1 B2 B3 B4]. split; [|congruence..]. intros b Hb. by rewrite B1, A1. Qed.
Lemma beside_read a w : in_timer a = false -> beside w (bus_read a w).2.
Proof using Quiet0 Quiet1 Quiet2.
  intros Ha. split; [intros b _; by apply breg_read_other|apply quiet_read..|]. unfold handlers. by rewrite (quiet_read (X := timer_vars)).
Qed.
Lemma beside_write a v w : in_timer a = false -> beside w (bus_write a v w).
Proof using Quiet0 Quiet1 Quiet2.
  intros Ha. split; [intros b _; by apply breg_write_other|apply quiet_write..|]. unfold handlers. by rewrite (quiet_write (X := timer_vars)).
Qed.
Lemma beside_acked r st w : r = TIMER0_2_CTL \/ r = TIMER3_5_CTL -> is_u32 st -> Z.ldiff st TIMER_INT_BITS = 0 -> beside w (acked r st w).
Proof using Quiet0 Quiet1 Quiet2.
  intros Hr Hu Hd. split; [intros b _; by apply acked_facts|apply quiet_write..|by apply acked_handlers].
Qed.

Lemma shows_beside k w w' : shows k w -> beside w w' -> shows k w'.
Proof using Type.
  intros [S1 S2 S3 S4 S5] [B1 B2 B3 B4]. unfold timer4_on in *. split.
  - by rewrite B2.
  - by rewrite B3.
  - by rewrite B4.
  - unfold timer4_on. by rewrite B1.
  - intros Hon. rewrite B4, B1 by done. by apply S5.
Qed.

Lemma shows_vars v k w : shows k w -> IRkey_mq v = IRkey_mq (k_vars k) -> shows (KeyState v (k_on k) (k_queue k)) (hput v w).
Proof using Quiet0 VarsApart0 VarsApart1.
  intros [S1 S2 S3 S4 S5] Hm.
  assert (Et : forall b, in_timer b = true -> tsoft (hput v w) b = tsoft w b) by (intros b Hb; unfold soft, soft_of; by rewrite (breg_put timer_block irda_vars)).
  assert (Eh : handlers (hput v w) = handlers w) by (unfold handlers; by rewrite (vars_apart (X := irda_vars) (Y := timer_vars))).
  split; cbn [k_vars k_queue k_on].
  - apply hget_put.
  - by rewrite (vars_apart (X := irda_vars) (Y := Q)), Hm.
  - by rewrite Eh.
  - unfold timer4_on in *. by rewrite Et.
  - intros Hon. rewrite Eh, Et by done. by apply S5.
Qed.

(** Commands on the variables, from the top. *)
Lemma top_sets (f : irda_vars -> irda_vars) s k : shows k (at_world s) -> IRkey_mq (f (k_vars k)) = IRkey_mq (k_vars k) ->
  at_ext (sets f) s = Val (tt, with_world s (hput (f (k_vars k)) (at_world s))) /\
  shows (KeyState (f (k_vars k)) (k_on k) (k_queue k)) (hput (f (k_vars k)) (at_world s)).
Proof using Quiet0 VarsApart0 VarsApart1.
  intros Hs Hm. split; [|by apply shows_vars]. apply (at_ext_val (sets f) s). unfold sets, modify. change (ext (world s)) with (at_world s). by rewrite (sh_vars k _ Hs).
Qed.
Lemma top_gets s k : shows k (at_world s) -> at_ext (gets id) s = Val (k_vars k, s).
Proof using Type.
  intros Hs. rewrite (at_ext_val (gets id) s (k_vars k) (at_world s)) by (unfold gets; change (ext (world s)) with (at_world s); by rewrite (sh_vars k _ Hs)). by destruct s as [? ? []].
Qed.

(** ** Starting and stopping timer 4 *)
Lemma started_others R : (forall w w', R w w' <-> hget (X := irda_vars) w' = hget w /\ hget (X := Q) w' = hget w) ->
  respects timer_or_icu R /\ forall (x : timer_vars) w, R w (hput x w).
Proof using Quiet0 Quiet1 VarsApart4 VarsApart5.
  intros HR. split.
  - split.
    + intros w. by apply HR.
    + intros w1 w2 w3 [A1 B1]%HR [A2 B2]%HR. apply HR. split; congruence.
    + intros a w _. apply HR. split; apply quiet_read.
    + intros a v w _. apply HR. split; apply quiet_write.
  - intros x w. apply HR. split; apply vars_apart.
Qed.

Lemma start_timer_val s k : ir_drivers s -> shows k (at_world s) ->
  exists w, start_irda_handle_timer sdev_ops bk_timer_op key_timer_hdl_addr REPEAT_KEY_TIME_INTERVAL s = Val (tt, with_world s w) /\
    shows (KeyState (k_vars k) true (k_queue k)) w.
Proof using Quiet0 Quiet1 Quiet2 IcuRegs0 VarsApart4 VarsApart5.
  intros (Hi & Hs & Ht) [S1 S2 S3 S4 S5].
  destruct (init_param_val sdev_ops icu_addr 4 112 key_timer_hdl_addr s Hi Hs ltac:(lia)) as (w & E & [R1 R2 _ R4] & _).
  destruct (started_others (fun w w' => hget (X := irda_vars) w' = hget w /\ hget (X := Q) w' = hget w) ltac:(done)) as [Hr Hp].
  destruct (R4 _ (own_either 4 _ ltac:(lia) Hr) Hp) as [F1 F2]. change (ext (world s)) with (at_world s) in *. exists w. split.
  - unfold start_irda_handle_timer, timer_control. mstep by (rewrite dev_control_val by done; unfold bk_timer_ctrl; cbn [Z.eqb]; mstep by exact E; reflexivity). done.
  - split; cbn [k_vars k_on k_queue].
    + by rewrite F1.
    + by rewrite F2.
    + by rewrite R2, length_insert.
    + unfold timer4_on. rewrite R1 by done. change (TIMER3_5_CTL =? timer_period 4) with false. change (TIMER3_5_CTL =? timer_ctl 4) with true.
      cbv iota. unfold configured. rewrite Z.lor_spec. apply orb_true_r.
    + intros _. split; [|by rewrite R1]. rewrite R2. apply list_lookup_insert_eq. rewrite S3. unfold TIMER_CHANNEL_NO. lia.
Qed.

Lemma stop_timer_val s k : ir_drivers s -> shows k (at_world s) ->
  exists w, timer_control sdev_ops bk_timer_op CMD_TIMER_UNIT_DISABLE (TWord IRDA_KEY_HTIMER_CHNAL) s =
      Val ((BK_TIMER_SUCCESS, TWord IRDA_KEY_HTIMER_CHNAL), with_world s w) /\
    shows (KeyState (k_vars k) false (k_queue k)) w /\ handlers w = handlers (at_world s).
Proof using Quiet0 Quiet1 Quiet2 IcuRegs0.
  intros (Hi & Hs & Ht) [S1 S2 S3 S4 S5].
  destruct (unit_val sdev_ops CMD_TIMER_UNIT_DISABLE timer_unit_disable (fun x => Z.ldiff x (2 ^ timer_bit 4)) 4 s ltac:(lia) ltac:(by right))
    as (w & E & A & [_ T] & _ & F). change (ext (world s)) with (at_world s) in *.
  pose proof (F _ (respects_vars irda_vars _)) as F1. pose proof (F _ (respects_vars Q _)) as F2. cbv beta in F1, F2.
  exists w. split_and!; [unfold timer_control; by rewrite dev_control_val| |exact T]. split; cbn [k_vars k_on k_queue].
  - by rewrite F1.
  - by rewrite F2.
  - by rewrite T.
  - unfold timer4_on. rewrite A. change (TIMER3_5_CTL =? timer_ctl 4) with true. cbv iota. rewrite Z.ldiff_spec. apply andb_false_r.
  - done.
Qed.

(** ** The interrupt routine of the receiver *)
Lemma frame_end_val word s k : ir_drivers s -> shows k (at_world s) -> (bus_read RX_FIFO_DOUT (at_world s)).1 = word ->
  exists w, irda_frame_end sdev_ops bk_timer_op key_timer_hdl_addr s =
      Val (negb (truthy (valid_flag (k_vars k))) || negb (frame_bad (IR_UserCode (k_vars k)) word), with_world s w) /\
    shows (if truthy (valid_flag (k_vars k)) then
        if frame_bad (IR_UserCode (k_vars k)) word then KeyState (with_valid 0 (k_vars k)) (k_on k) (k_queue k)
        else KeyState (with_timer_cnt 0 (with_code (frame_code word) (k_vars k))) true (k_queue k)
      else k) w.
Proof using All.
  intros Hd Hs Hw. unfold irda_frame_end. rewrite (bind_ret_val _ _ _ _ _ (top_gets _ _ Hs)).
  destruct (truthy (valid_flag (k_vars k))); [|exists (at_world s); split; [by destruct s as [? ? []]|done]]. cbn [negb orb].
  set (w1 := (bus_read RX_FIFO_DOUT (at_world s)).2).
  assert (E1 : at_ext (REG_READ RX_FIFO_DOUT) s = Val (word, with_world s w1))
    by (apply (at_ext_val (REG_READ RX_FIFO_DOUT) s); unfold REG_READ; change (ext (world s)) with (at_world s); rewrite <- Hw; by destruct (bus_read _ _)).
  rewrite (bind_ret_val _ _ _ _ _ E1). assert (H1 : shows k (at_world (with_world s w1))) by (eapply shows_beside; [exact Hs|by apply beside_read]).
  destruct (frame_bad (IR_UserCode (k_vars k)) word); cbn [negb].
  - destruct (top_sets (with_valid 0) _ _ H1 eq_refl) as [E2 H2]. eexists. split; [|exact H2]. by rewrite (bind_ret_val _ _ _ _ _ E2).
  - destruct (top_sets (fun v => with_timer_cnt 0 (with_code (frame_code word) v)) _ _ H1 eq_refl) as [E2 H2].
    rewrite (bind_ret_val _ _ _ _ _ E2). destruct (start_timer_val (with_world s _) _ Hd H2) as (w & E3 & H3). exists w. split; [|exact H3].
    by rewrite (bind_ret_val _ _ _ _ _ E3).
Qed.

Lemma irda_isr_refines st word s k w : ir_drivers s -> shows k (at_world s) -> arrives Q st word (at_world s) w ->
  exists w', irda_isr sdev_ops bk_timer_op key_timer_hdl_addr (with_world s w) = Val (tt, with_world s w') /\ shows (key_received st word k) w'.
Proof using All.
  intros Hd Hs (Hb & Hst & Hw). set (w1 := (bus_read IRDA_INT w).2). set (w2 := bus_write IRDA_INT st w1).
  assert (H2 : shows k w2).
  { eapply shows_beside; [exact Hs|]. eapply beside_trans; [exact Hb|]. eapply beside_trans; [by apply (beside_read IRDA_INT)|by apply beside_write]. }
  unfold irda_isr.
  assert (E1 : at_ext (REG_READ IRDA_INT) (with_world s w) = Val (st, with_world s w1))
    by (apply (at_ext_val (REG_READ IRDA_INT) (with_world s w)); unfold REG_READ; cbn; rewrite <- Hst; by destruct (bus_read _ _)).
  rewrite (bind_ret_val _ _ _ _ _ E1).
  rewrite (bind_ret_val _ _ _ _ _ (at_ext_val (REG_WRITE IRDA_INT st) (with_world s w1) tt w2 eq_refl)).
  unfold IRDA_RIGHT_INT, IRDA_END_INT, IRDA_REPEAT_INT. rewrite !truthy_bit by done.
  set (v1 := if Z.testbit st 1 then with_repeat 0 0 (with_valid 1 (k_vars k)) else k_vars k).
  set (w3 := if Z.testbit st 1 then hput v1 w2 else w2).
  assert (E3 : (when (Z.testbit st 1) (at_ext (sets (fun v => with_repeat 0 0 (with_valid 1 v)))) : M all unit) (with_world s w2) = Val (tt, with_world s w3) /\
    shows (KeyState v1 (k_on k) (k_queue k)) w3 /\ (Z.testbit st 0 = true -> (bus_read RX_FIFO_DOUT w3).1 = word)).
  { subst v1 w3. destruct (Z.testbit st 1); cbn [when].
    - destruct (top_sets (fun v => with_repeat 0 0 (with_valid 1 v)) (with_world s w2) k H2 eq_refl) as [E3 H3].
      split_and!; [exact E3|exact H3|]. intros H0. rewrite quiet_put_read. by apply Hw.
    - split_and!; [done|by destruct k|done]. }
  destruct E3 as (E3 & H3 & Hw3). rewrite (bind_ret_val _ _ _ _ _ E3).
  unfold key_received. fold v1. destruct (Z.testbit st 0) eqn:E0; cbn [andb].
  - destruct (frame_end_val word (with_world s w3) _ Hd H3 (Hw3 eq_refl)) as (w4 & E4 & H4). cbn [k_vars k_on k_queue] in E4, H4.
    rewrite (bind_ret_val _ _ _ _ _ E4).
    destruct (truthy (valid_flag v1)); [destruct (frame_bad (IR_UserCode v1) word)|]; cbn [negb orb andb] in *; [by exists w4| |];
      (destruct (Z.testbit st 2); [|by exists w4]); cbn [when];
      destruct (top_sets (fun v => with_repeat 1 (u8 (repeat_cnt v + 1)) v) (with_world s w4) _ H4 eq_refl) as [E5 H5];
      eexists; (split; [exact E5|exact H5]).
  - rewrite bind_mret. cbn [andb]. destruct (Z.testbit st 2); [|by exists w3]. cbn [when].
    destruct (top_sets (fun v => with_repeat 1 (u8 (repeat_cnt v + 1)) v) (with_world s w3) _ H3 eq_refl) as [E5 H5].
    eexists. split; [exact E5|exact H5].
Qed.

(** ** The handler of the timer *)
Lemma send_key_val msg s k : shows k (at_world s) ->
  exists r w, at_ext (IR_send_key (Q := Q) true msg) s = Val (r, with_world s w) /\
    shows (KeyState (k_vars k) (k_on k) (sent QUEUE_LENGTH (k_queue k) msg)) w /\ handlers w = handlers (at_world s).
Proof using All.
  intros [S1 S2 S3 S4 S5]. destruct (push_val _ _ _ _ msg 4 S2) as (r & q' & E & _ & Hq).
  assert (Et : forall b, in_timer b = true -> tsoft (hput q' (at_world s)) b = tsoft (at_world s) b)
    by (intros b Hb; unfold soft, soft_of; by rewrite (breg_put timer_block Q)).
  assert (Eh : handlers (hput q' (at_world s)) = handlers (at_world s)) by (unfold handlers; by rewrite (vars_apart (X := Q) (Y := timer_vars))).
  exists r, (hput q' (at_world s)). split_and!; [|split; cbn [k_vars k_on k_queue]|exact Eh].
  - apply (at_ext_val (IR_send_key true msg) s). change (ext (world s)) with (at_world s). unfold IR_send_key. mstep by reflexivity. rewrite S1.
    destruct (Z.eqb_spec (IRkey_mq (k_vars k)) 0) as [E0|Hne]; cbn [negb]; [by rewrite E0, queue_null in S2|]. unfold on_held. by rewrite E.
  - by rewrite (vars_apart (X := Q) (Y := irda_vars)).
  - rewrite hget_put, Hq. by rewrite Z.eqb_refl.
  - by rewrite Eh.
  - unfold timer4_on. by rewrite Et.
  - intros Hon. rewrite Eh, Et by done. by apply S5.
Qed.

Lemma key_timer_refines param s k : ir_drivers s -> shows k (at_world s) -> k_on k = true ->
  exists w, irda_key_timer_hdl (Q := Q) sdev_ops bk_timer_op param s = Val (tt, with_world s w) /\ shows (key_tick k) w /\
    handlers w = handlers (at_world s).
Proof using All.
  intros Hd Hs Hon. unfold irda_key_timer_hdl, key_tick. rewrite Hon.
  destruct (top_sets (fun v => with_timer_cnt (u8 (timer_cnt v + 1)) v) s k Hs eq_refl) as [E1 H1]. rewrite (bind_ret_val _ _ _ _ _ E1).
  set (v := with_timer_cnt (u8 (timer_cnt (k_vars k) + 1)) (k_vars k)) in *. set (w1 := hput v (at_world s)) in *.
  assert (T1 : handlers w1 = handlers (at_world s)) by (unfold handlers, w1; by rewrite (vars_apart (X := irda_vars) (Y := timer_vars))).
  rewrite (bind_ret_val _ _ _ _ _ (top_gets (with_world s w1) _ H1)). cbn [k_vars].
  destruct (key_decision v) as [[op_flag key_type] v'] eqn:Ek.
  assert (Hmq : IRkey_mq v' = IRkey_mq v).
  { unfold key_decision in Ek. destruct (repeat_cnt v <? timer_cnt v); [|by destruct (KEY_HOLD_CNT <=? repeat_cnt v); injection Ek as _ _ <-].
    destruct (repeat_cnt v <? KEY_SHORT_CNT); [by injection Ek as _ _ <-|]. destruct (repeat_cnt v <? KEY_LONG_CNT); [by injection Ek as _ _ <-|].
    destruct (hold_flag v =? 0); by injection Ek as _ _ <-. }
  destruct (top_sets (fun _ => v') (with_world s w1) _ H1 Hmq) as [E2 H2]. cbn [k_vars k_on k_queue] in E2, H2. rewrite (bind_ret_val _ _ _ _ _ E2).
  change (at_world (with_world s w1)) with w1 in *. set (w2 := hput v' w1) in *. change (with_world (with_world s w1) w2) with (with_world s w2).
  assert (T2 : handlers w2 = handlers w1) by (unfold handlers, w2; by rewrite (vars_apart (X := irda_vars) (Y := timer_vars))).
  assert (E3 : exists w3, (when (truthy (Z.land op_flag SND_KEY)) (_ ← at_ext (IR_send_key (Q := Q) true (GENERATE_KEY key_type (IR_key_code v'))); mret tt) : M all unit)
      (with_world s w2) = Val (tt, with_world s w3) /\ handlers w3 = handlers w2 /\
    shows (KeyState v' (k_on k) (if truthy (Z.land op_flag SND_KEY) then sent QUEUE_LENGTH (k_queue k) (GENERATE_KEY key_type (IR_key_code v')) else k_queue k)) w3).
  { destruct (truthy (Z.land op_flag SND_KEY)); cbn [when]; [|by exists w2].
    destruct (send_key_val (GENERATE_KEY key_type (IR_key_code v')) (with_world s w2) _ H2) as (r & w3 & E3 & H3 & T3). exists w3.
    split_and!; [by rewrite (bind_ret_val _ _ _ _ _ E3)|exact T3|exact H3]. }
  destruct E3 as (w3 & E3 & T3 & H3). rewrite (bind_ret_val _ _ _ _ _ E3). rewrite Hon in H3.
  destruct (truthy (Z.land op_flag STOP_TIMER)); cbn [when negb]; [|exists w3; split_and!; [done|exact H3|congruence]].
  destruct (stop_timer_val (with_world s w3) _ Hd H3) as (w4 & E4 & H4 & T4). exists w4. change (at_world (with_world s w3)) with w3 in T4.
  split_and!; [by rewrite (bind_ret_val _ _ _ _ _ E4)|exact H4|congruence].
Qed.

(** ** The interrupt routine of the timers *)
(** The handlers behind the addresses in the table. *)
Context (other_handler : Z -> Z -> M all unit) (fuel : nat).
Definition call_handler (h i : Z) : M all unit :=
  if h =? key_timer_hdl_addr then irda_key_timer_hdl (Q := Q) sdev_ops bk_timer_op i else other_handler h i.

Lemma timer_isr_refines s k w : ir_drivers s -> shows k (at_world s) -> k_on k = true -> fires Q (at_world s) w -> (0 < fuel)%nat -> key_timer_hdl_addr <> 0 ->
  exists w', bk_timer_isr call_handler fuel (with_world s w) = Val (tt, with_world s w') /\ shows (key_tick k) w'.
Proof using All.
  intros Hd Hs Hon (Hb & F0 & F3) Hf Ha. pose proof (shows_beside _ _ _ Hs Hb) as H1. set (s1 := with_world s w).
  set (w2 := acked TIMER0_2_CTL 0 w). assert (B2 : beside w w2) by (apply beside_acked; [by left|done|done]).
  change (status_of TIMER3_5_CTL w2 = 2 ^ 8) in F3. pose proof (shows_beside _ _ _ H1 B2) as H2.
  destruct (key_timer_refines 4 (with_world s w2) k Hd H2 Hon) as (w3 & E3 & H3 & T3). change (at_world (with_world s w2)) with w2 in T3.
  exists (acked TIMER3_5_CTL (2 ^ 8) w3). split.
  - assert (L1 : handlers s1 = handlers w) by done.
    assert (C1 : keep_served call_handler handlers s1 (group_due TIMER0_2_CTL 0 s1) s1).
    { unfold group_due. change (status_of TIMER0_2_CTL s1) with (status_of TIMER0_2_CTL w). rewrite F0, due_none. constructor. }
    assert (Es2 : acked TIMER0_2_CTL (status_of TIMER0_2_CTL s1) s1 = with_world s w2).
    { change (status_of TIMER0_2_CTL s1) with (status_of TIMER0_2_CTL w). by rewrite F0. }
    assert (C3 : keep_served call_handler handlers (with_world s w2) (group_due TIMER3_5_CTL 3 (with_world s w2)) (with_world s w3)).
    { unfold group_due. change (status_of TIMER3_5_CTL (with_world s w2)) with (status_of TIMER3_5_CTL w2).
      change (handlers (with_world s w2)) with (handlers w2). rewrite F3.
      rewrite (due_timer4 _ key_timer_hdl_addr) by (first [by apply (sh_armed _ _ H2)|unfold truthy; by rewrite (proj2 (Z.eqb_neq _ _))]).
      econstructor; [unfold call_handler; by rewrite Z.eqb_refl|exact T3|constructor]. }
    pose proof (timer_isr_calls call_handler fuel s1 s1 (with_world s w3) Hf (sh_table _ _ H1) C1) as Hc. cbv zeta in Hc. rewrite Es2 in Hc. rewrite (Hc C3).
    change (status_of TIMER3_5_CTL (with_world s w2)) with (status_of TIMER3_5_CTL w2). by rewrite F3.
  - eapply shows_beside; [exact H3|]. apply beside_acked; [by right|done|done].
Qed.

(** ** Runs

    [outcome es s P]: the events [es] can happen from [s] on, one after the other,
    and however they do, the routines return and [P] holds at the end.  The period
    of a timer that does not count has no end. *)
Fixpoint outcome (es : list ir_event) s (P : all -> Prop) : Prop :=
  match es with
  | [] => P s
  | Received st word :: es' => (exists w, arrives Q st word (at_world s) w) /\ forall w, arrives Q st word (at_world s) w ->
      wp (irda_isr sdev_ops bk_timer_op key_timer_hdl_addr) (with_world s w) (fun _ s' => outcome es' s' P)
  | Tick :: es' => if timer4_on (at_world s) then
      (exists w, fires Q (at_world s) w) /\ forall w, fires Q (at_world s) w ->
        wp (bk_timer_isr call_handler fuel) (with_world s w) (fun _ s' => outcome es' s' P)
    else outcome es' s P
  end.

Definition event_ok (e : ir_event) : Prop := match e with Received st word => is_u8 st /\ is_u32 word | Tick => True end.

Lemma outcome_refines `{!IrEnv Q W} es (P : all -> Prop) : Forall event_ok es -> (0 < fuel)%nat -> key_timer_hdl_addr <> 0 ->
  forall s k, ir_drivers s -> shows k (at_world s) ->
  (forall w, shows (key_run es k) w -> P (with_world s w)) -> outcome es s P.
Proof using All.
  intros He Hf Ha. induction He as [|e es He _ IH]; intros s k Hd Hs HP; cbn [outcome].
  { replace s with (with_world s (at_world s)) by (by destruct s as [? ? []]). by apply HP. }
  destruct e as [st word|].
  - destruct He as [Hst Hword]. split; [by apply env_receives|]. intros w Hw.
    destruct (irda_isr_refines st word s k w Hd Hs Hw) as (w' & E & H'). eapply wp_intro; [exact E|]. exact (IH (with_world s w') _ Hd H' HP).
  - destruct (timer4_on (at_world s)) eqn:Eon.
    + assert (Hon : k_on k = true) by (by rewrite <- (sh_on _ _ Hs)). split; [apply env_fires|]. intros w Hw.
      destruct (timer_isr_refines s k w Hd Hs Hon Hw Hf Ha) as (w' & E & H'). eapply wp_intro; [exact E|]. exact (IH (with_world s w') _ Hd H' HP).
    + apply (IH s k Hd Hs). intros w Hw. apply HP. assert (Hoff : k_on k = false) by (by rewrite <- (sh_on _ _ Hs)).
      replace (key_run (Tick :: es) k) with (key_run es k); [done|]. cbn [key_run foldl key_step]. unfold key_tick. by rewrite Hoff.
Qed.

Lemma outcome_mono es (P P' : all -> Prop) : (forall s, P s -> P' s) -> forall s, outcome es s P -> outcome es s P'.
Proof using Type.
  intros HP. induction es as [|e es IH]; intros s Ho; cbn [outcome] in *; [by apply HP|]. destruct e as [st word|].
  - destruct Ho as [Hx Ho]. split; [done|]. intros w Hw. eapply wp_mono; [by apply Ho|]. intros a s'. apply IH.
  - destruct (timer4_on (at_world s)); [|by apply IH]. destruct Ho as [Hx Ho]. split; [done|]. intros w Hw. eapply wp_mono; [by apply Ho|]. intros a s'. apply IH.
Qed.

Lemma press_events_ok word gs : is_u32 word -> Forall event_ok (press word gs ++ release).
Proof using Type.
  intros Hw. unfold press. constructor; [done|]. constructor; [done|]. apply Forall_app. split.
  - eapply list.Forall_impl; [apply gaps_quiet|]. by intros e [-> | ->].
  - by apply Forall_replicate.
Qed.

(** Taking a message. *)
Lemma get_key_val timeout x l s k : shows k (at_world s) -> k_queue k = x :: l ->
  exists w, at_ext (IR_get_key (Q := Q) timeout) s = Val ((kNoErr, Some x), with_world s w) /\ shows (KeyState (k_vars k) (k_on k) l) w.
Proof using All.
  intros [S1 S2 S3 S4 S5] Hk. rewrite Hk in S2. destruct (queue_receive _ _ _ _ _ (ticks_of (u32 timeout)) S2) as (q' & E & Hq).
  assert (Et : forall b, in_timer b = true -> tsoft (hput q' (at_world s)) b = tsoft (at_world s) b)
    by (intros b Hb; unfold soft, soft_of; by rewrite (breg_put timer_block Q)).
  assert (Eh : handlers (hput q' (at_world s)) = handlers (at_world s)) by (unfold handlers; by rewrite (vars_apart (X := Q) (Y := timer_vars))).
  exists (hput q' (at_world s)). split; [|split; cbn [k_vars k_on k_queue]].
  - apply (at_ext_val (IR_get_key timeout) s). change (ext (world s)) with (at_world s). unfold IR_get_key. mstep by reflexivity. rewrite S1.
    unfold on_held, rtos_pop_from_queue. rewrite (bind_ret_val _ _ _ _ _ E). done.
  - by rewrite (vars_apart (X := Q) (Y := irda_vars)).
  - rewrite hget_put, Hq. by rewrite Z.eqb_refl.
  - by rewrite Eh.
  - unfold timer4_on. by rewrite Et.
  - intros Hon. rewrite Eh, Et by done. by apply S5.
Qed.

(** C14: if the press before it is over ([hold_flag] is 0), then a press of a key, from its leader code
    through any number of repeat codes in
    each period of the timer to its release, always ends with the timer stopped, and
    leaves in the queue, as far as it has room for three, one message of a short or
    of a long press, by the number of repeat codes, or at least one and at most one
    for every three repeat codes of a key that is held; exactly that many if every
    period had one repeat code.  If besides the timer is stopped, a press of another
    remote or with an error in the frame leaves the timer stopped and the queue as
    it is.  (After a press that ended while held, [hold_flag] is still set, and the
    next press may send nothing: [hold_swallows_next_key].) *)
Theorem ir_press_delivers `{!IrEnv Q W} s k word gs : ir_drivers s -> shows k (at_world s) -> (0 < fuel)%nat -> key_timer_hdl_addr <> 0 ->
  hold_flag (k_vars k) = 0 -> Z.of_nat (length (k_queue k)) <= QUEUE_LENGTH -> is_u32 word -> Forall (fun g => g <= 240)%nat gs ->
  let queue s' := queue_of (hget (at_world s')) (IRkey_mq (k_vars k)) in
  outcome (press word gs ++ release) s (fun s' =>
    if frame_bad (IR_UserCode (k_vars k)) word then k_on k = false -> timer4_on (at_world s') = false /\ queue s' = queue s
    else exists gs1 gs2 j, gs = gs1 ++ gs2 /\ (gs2 = [] \/ exists gs', gs2 = 0%nat :: gs') /\
      let n := Z.of_nat (sum_list gs1) in
      timer4_on (at_world s') = false /\
      queue s' = Some (QUEUE_LENGTH, take 3 (k_queue k ++ press_messages (frame_code word) n j)) /\
      1 <= Z.of_nat j <= most n /\ (Forall (eq 1%nat) gs -> Z.of_nat j = most n)).
Proof using All.
  intros Hd Hs Hf Ha Hh Hl Hw Hg queue. apply (outcome_refines _ _ (press_events_ok word gs Hw) Hf Ha s k Hd Hs). intros w Hk.
  pose proof (press_sends word gs k Hh Hg) as Hp. cbv zeta in Hp. destruct Hk as [_ K2 _ K4 _]. unfold queue. change (at_world (with_world s w)) with w.
  destruct (frame_bad (IR_UserCode (k_vars k)) word).
  - intros Hoff. destruct (Hp Hoff) as (P1 & P2 & _ & P4). rewrite P2, P4 in K2. split; [by rewrite K4|]. by rewrite K2, (sh_queue _ _ Hs).
  - destruct Hp as (gs1 & gs2 & Eg & H2 & j & (P1 & P2 & _ & P4) & B1 & B2). exists gs1, gs2, j. rewrite P2, P4 in K2.
    split_and!; [done|done|by rewrite K4| |apply B1|apply B1|exact B2]. rewrite K2. do 2 f_equal. by apply sends_take.
Qed.
End system.
