(* ===== verification/IrdaBoard.v ===== *)
(** * The infrared receiver on a board

    [Irda_init_app] through the registry: what it makes of the receiver's
    registers, the interrupt unit and the pins, and that it leaves a receiver that
    the theorems of IrdaSystem.v are about.  A board that has everything these
    theorems need, and a press of a key on it. *)
From stdpp Require Import strings gmap.
From S2P Require Import Prelude Serve DrvModel Icu Regs Intc Stack Gpio GpioCorrect GpioStack Timer TimerCorrect Clock Queue Irda IrdaKeys IrdaSystem.
Local Open Scope Z_scope.

(** The registers of the receiver that hold what is written. *)
Definition in_irda (a : Z) : bool := (a =? IRDA_CTRL) || (a =? IRDA_INT_MASK).
Definition irda_block : block := Block in_irda (fun _ => 0) (fun _ => 0).
Abbreviation isoft := (Regs.soft irda_block).
#[export] Instance irda_block_ok : BlockOk irda_block.
Proof. split; [done|]. intros a i. by rewrite Z.bits_0. Qed.

(** An address of one block and not of another: by their bounds. *)
Ltac apart_regs :=
  intros ?; unfold in_irda, in_gpio, in_icu, in_timer, IRDA_CTRL, IRDA_INT_MASK, IRDA_BASE, GPIO_BASE_ADDR, REG_GPIO_INTSTA2, GPIO_BASE_ADDR,
    ICU_ARM_WAKEUP_EN, ICU_BASE, PWM_NEW_BASE, TIMER0_2_CTL, TIMER3_CNT, TIMER3_5_CTL, PWM_NEW_BASE; bdestr; try lia; done.
#[export] Instance irda_apart_icu : Apart in_irda in_icu. Proof. apart_regs. Qed.
#[export] Instance icu_apart_irda : Apart in_icu in_irda. Proof. apart_regs. Qed.
#[export] Instance irda_apart_gpio : Apart in_irda in_gpio. Proof. apart_regs. Qed.
#[export] Instance gpio_apart_irda : Apart in_gpio in_irda. Proof. apart_regs. Qed.
#[export] Instance irda_apart_timer : Apart in_irda in_timer. Proof. apart_regs. Qed.
#[export] Instance timer_apart_irda : Apart in_timer in_irda. Proof. apart_regs. Qed.
#[export] Instance gpio_apart_timer : Apart in_gpio in_timer. Proof. apart_regs. Qed.
#[export] Instance timer_apart_gpio : Apart in_timer in_gpio. Proof. apart_regs. Qed.

(** ** The registers of the receiver *)
(** On, the level not inverted, the clock divided by 562.5 times 26; three interrupts. *)
Definition ctrl_word (x : Z) : Z :=
  Z.lor (Z.ldiff (Z.lor (Z.ldiff x IRDA_POLARITY) IRDA_NEC_EN) (Z.shiftl CLK_DIVID_MASK CLK_DIVID_POSI)) (Z.shiftl 0x3921 CLK_DIVID_POSI).
Definition mask_word (x : Z) : Z := Z.lor (Z.ldiff x INT_MASK_EN) 7.
Definition receives (g g' : Z -> Z) : Prop :=
  forall b, g' b = if b =? IRDA_INT_MASK then mask_word (g b) else if b =? IRDA_CTRL then ctrl_word (g b) else g b.

Definition init_regs {S} `{RegBus S} : M S unit :=
  irda_set_polarity 0;; irda_active 1;; irda_set_clk 0x3921;;
  irda_set_int_mask (Z.lor IRDA_RIGHT_INT_MASK (Z.lor IRDA_REPEAT_INT_MASK IRDA_END_INT_MASK)).

Section regs.
Context {W : Type} `{RegBus W, !BlockRegs irda_block W}.
Abbreviation iruns := (Regs.runs irda_block).

Lemma irda_rmw a (k : Z -> Z) : in_irda a = true -> (forall x, is_u32 x -> is_u32 (k x)) ->
  iruns (value ← REG_READ a; REG_WRITE a (k value)) (assigns a k).
Proof. intros Ha Hk. apply runs_rmw; [done|done|]. intros x. cbn [b_hard irda_block]. by rewrite !Z.ldiff_0_r. Qed.

Lemma init_regs_run : iruns init_regs receives.
Proof.
  intros h. destruct (irda_rmw IRDA_CTRL (fun x => Z.ldiff x IRDA_POLARITY) eq_refl ltac:(by intros; apply ldiff_u32) h) as (h1 & E1 & R1).
  destruct (irda_rmw IRDA_CTRL (fun x => Z.lor x IRDA_NEC_EN) eq_refl ltac:(by intros; apply lor_u32) h1) as (h2 & E2 & R2).
  destruct (irda_rmw IRDA_CTRL (fun x => Z.lor (Z.ldiff x (Z.shiftl CLK_DIVID_MASK CLK_DIVID_POSI)) (Z.shiftl 0x3921 CLK_DIVID_POSI)) eq_refl
    ltac:(by intros; apply lor_u32; [apply ldiff_u32|]) h2) as (h3 & E3 & R3).
  destruct (irda_rmw IRDA_INT_MASK mask_word eq_refl ltac:(by intros; apply lor_u32; [apply ldiff_u32|]) h3) as (h4 & E4 & R4).
  exists h4. split.
  - unfold init_regs, irda_set_polarity, irda_active, irda_set_clk, irda_set_int_mask.
    rewrite (bind_ret_val _ _ _ _ _ E1), (bind_ret_val _ _ _ _ _ E2), (bind_ret_val _ _ _ _ _ E3). exact E4.
  - intros b. rewrite R4, !R3, !R2, !R1. rewrite !Z.eqb_refl. change (IRDA_INT_MASK =? IRDA_CTRL) with false. cbv iota.
    destruct (Z.eqb_spec b IRDA_INT_MASK) as [->|]; [done|]. by destruct (Z.eqb_spec b IRDA_CTRL) as [->|].
Qed.

Lemma init_regs_touches : touches (id : W -> W) in_irda init_regs.
Proof.
  unfold init_regs, irda_set_polarity, irda_active, irda_set_clk, irda_set_int_mask. touch; by apply touches_bus_read || apply touches_bus_write.
Qed.

(** What the receiver is set to: on, its levels not inverted, and the clock divided. *)
Lemma ctrl_word_fields x : Z.testbit (ctrl_word x) 0 = true /\ Z.testbit (ctrl_word x) 1 = false /\
  Z.land (Z.shiftr (ctrl_word x) CLK_DIVID_POSI) CLK_DIVID_MASK = 0x3921.
Proof.
  unfold ctrl_word. split_and!.
  - rewrite Z.lor_spec, Z.ldiff_spec, Z.lor_spec. by destruct (Z.testbit (Z.ldiff x IRDA_POLARITY) 0).
  - rewrite Z.lor_spec, Z.ldiff_spec, Z.lor_spec, Z.ldiff_spec. by destruct (Z.testbit x 1).
  - set (y := Z.lor (Z.ldiff x IRDA_POLARITY) IRDA_NEC_EN).
    change (Z.lor (Z.ldiff y (Z.shiftl CLK_DIVID_MASK CLK_DIVID_POSI)) (Z.shiftl 0x3921 CLK_DIVID_POSI)) with (set_field y 0x3921 8 16).
    exact (set_field_read y 0x3921 8 16 ltac:(lia) ltac:(lia)).
Qed.
Lemma mask_word_field x : Z.land (mask_word x) INT_MASK_EN = 7.
Proof.
  change (mask_word x) with (set_field x 7 0 6). rewrite <- (Z.shiftr_0_r (set_field x 7 0 6)). exact (set_field_read x 7 0 6 ltac:(lia) ltac:(lia)).
Qed.
End regs.

(** ** The start of the application *)
Section system.
Context {Q W : Type} `{RegBus W, !IcuRegs W, !GpioRegs W, !BlockRegs irda_block W, !BlockRegs timer_block W, !Kernel Q, !QueueSpec Q}.
Context `{!Holds irda_vars W, !Quiet irda_vars W, !Holds Q W, !Quiet Q W, !Holds timer_vars W, !Quiet timer_vars W}.
Context `{!VarsApart irda_vars Q W, !VarsApart irda_vars timer_vars W, !VarsApart Q irda_vars W, !VarsApart Q timer_vars W}.
Context (sdev_ops : Z -> SDD_OPERATIONS (intc_st W)) (icu_addr gpio_addr key_timer_hdl_addr : Z).
Abbreviation all := (drv_state (intc_st W)).
Implicit Types (s : all) (w : W).

(** The variables and the timers. *)
Record others_stay w w' : Prop := {
  os_beside : beside Q w w';
  os_timers : hget (X := timer_vars) w' = hget w;
}.
Lemma others_respected P `{!Apart P in_timer} : respects P others_stay.
Proof using Quiet0 Quiet1 Quiet2.
  pose proof (respects_soft (W := W) timer_block P) as [r1 r2 r3 r4].
  split.
  - by intros w.
  - intros w1 w2 w3 [[A1 A2 A3 A4] A5] [[B1 B2 B3 B4] B5]. split; [split|]; try congruence. intros b Hb. by rewrite B1, A1.
  - intros a w Ha. split; [split|].
    all: try apply quiet_read. + intros b _. by apply r3. + unfold handlers. by rewrite (quiet_read (X := timer_vars)).
  - intros a v w Ha. split; [split|].
    all: try apply quiet_write. + intros b _. by apply r4. + unfold handlers. by rewrite (quiet_write (X := timer_vars)).
Qed.

(** A command to the interrupt unit leaves the receiver, the pins and the rest. *)
Record beside_unit w w' : Prop := {
  bu_irda b : isoft w' b = isoft w b;
  bu_pins b : gsoft w' b = gsoft w b;
  bu_others : others_stay w w';
}.
Definition app_drivers s : Prop :=
  icu_behind sdev_ops icu_addr /\ sdev_slot (drv_sdev_tbl s) ICU_DEV_NAME icu_addr /\
  gpio_behind sdev_ops gpio_addr /\ sdev_slot (drv_sdev_tbl s) GPIO_DEV_NAME gpio_addr.

Lemma unit_beside cmd p w r w' : icu_ctrl cmd (Some p) w = Val (r, w') -> beside_unit w w'.
Proof using IcuRegs0 Quiet0 Quiet1 Quiet2.
  intros E. split.
  - exact (icu_touches cmd (Some p) _ (respects_soft (W := W) irda_block in_icu) w r w' E).
  - exact (icu_touches cmd (Some p) _ (respects_soft (W := W) gpio_block in_icu) w r w' E).
  - exact (icu_touches cmd (Some p) _ (others_respected in_icu) w r w' E).
Qed.
Lemma unit_set on off r p s : app_drivers s -> (on, off, r) ∈ icu_pairs ->
  exists w, sddev_control sdev_ops (Some ICU_DEV_NAME) on p s = Val ((ICU_SUCCESS, p), with_world s w) /\ beside_unit (at_world s) w /\
    forall b, ireg w b = if b =? r then Z.lor (ireg (at_world s) r) p else ireg (at_world s) b.
Proof using IcuRegs0 Quiet0 Quiet1 Quiet2.
  intros (Hi & Hs & _) Hp. destruct (icu_set sdev_ops icu_addr on off r p s Hi Hs Hp) as (w & E & C & R). exists w. split_and!; [done|by eapply unit_beside|done].
Qed.
Lemma unit_clear on off r p s : app_drivers s -> (on, off, r) ∈ icu_pairs ->
  exists w, sddev_control sdev_ops (Some ICU_DEV_NAME) off p s = Val ((ICU_SUCCESS, p), with_world s w) /\ beside_unit (at_world s) w /\
    forall b, ireg w b = if b =? r then Z.ldiff (ireg (at_world s) r) p else ireg (at_world s) b.
Proof using IcuRegs0 Quiet0 Quiet1 Quiet2.
  intros (Hi & Hs & _) Hp. destruct (icu_clear sdev_ops icu_addr on off r p s Hi Hs Hp) as (w & E & C & R). exists w. split_and!; [done|by eapply unit_beside|done].
Qed.

Lemma irda_pin s : app_drivers s ->
  exists w, sddev_control sdev_ops (Some GPIO_DEV_NAME) CMD_GPIO_ENABLE_SECOND GFUNC_MODE_IRDA s = Val ((GPIO_SUCCESS, GFUNC_MODE_IRDA), with_world s w) /\
    pins_set (fun i => i =? 26) 0x48 PERIAL_MODE_1 (gsoft (at_world s)) (gsoft w) /\
    (forall b, ireg w b = ireg (at_world s) b) /\ (forall b, isoft w b = isoft (at_world s) b) /\ others_stay (at_world s) w.
Proof using IcuRegs0 Quiet0 Quiet1 Quiet2.
  intros (_ & _ & Hg & Hs).
  assert (Hin : (GFUNC_MODE_IRDA, pins 26 26 PERIAL_MODE_1) ∈ second_functions) by (apply (bool_decide_unpack _); by vm_compute).
  destruct (gpio_second sdev_ops gpio_addr GFUNC_MODE_IRDA _ s Hg Hs Hin eq_refl) as (v & w & Hv & E & Ew & P). injection Hv as <-.
  exists w. split_and!; [exact E| |..].
  - eapply pins_set_ext; [|exact P]. intros i. unfold function_pins. cbn [start_index end_index pins]. change (GFUNC_MODE_IRDA =? GFUNC_MODE_DCMI) with false.
    cbn [andb negb]. rewrite andb_true_r. bdestr; lia.
  - exact (function_touches _ _ (respects_icu (W := W) in_gpio) _ _ _ Ew).
  - exact (function_touches _ _ (respects_soft (W := W) irda_block in_gpio) _ _ _ Ew).
  - exact (function_touches _ _ (others_respected in_gpio) _ _ _ Ew).
Qed.

Lemma irda_regs_set s : exists w, at_ext init_regs s = Val (tt, with_world s w) /\ receives (isoft (at_world s)) (isoft w) /\
  (forall b, ireg w b = ireg (at_world s) b) /\ (forall b, gsoft w b = gsoft (at_world s) b) /\ others_stay (at_world s) w.
Proof using IcuRegs0 Quiet0 Quiet1 Quiet2.
  destruct (init_regs_run (at_world s)) as (w & E & R). exists w. split_and!; [by apply (at_ext_val init_regs s)|exact R|..].
  - exact (init_regs_touches _ (respects_icu (W := W) in_irda) _ _ _ E).
  - exact (init_regs_touches _ (respects_soft (W := W) gpio_block in_irda) _ _ _ E).
  - exact (init_regs_touches _ (others_respected in_irda) _ _ _ E).
Qed.

(** The receiver has its clock, its pin, its registers and its interrupt. *)
Record app_started (mq : Z) (q' : Q) w w' : Prop := {
  as_irda b : in_irda b = true -> isoft w' b = if b =? IRDA_INT_MASK then mask_word (isoft w b) else if b =? IRDA_CTRL then ctrl_word (isoft w b) else isoft w b;
  as_pins : pins_set (fun i => i =? 26) 0x48 PERIAL_MODE_1 (gview w) (gview w');
  as_icu b : in_icu b = true -> ireg w' b =
    if b =? ICU_PERI_CLK_MUX then Z.lor (ireg w b) PCLK_POSI_IRDA else if b =? ICU_PERI_CLK_PWD then Z.ldiff (ireg w b) PWD_IRDA_CLK_BIT
    else if b =? ICU_INTERRUPT_ENABLE then Z.lor (ireg w b) (2 ^ IRQ_IRDA) else if b =? ICU_GLOBAL_INT_EN then Z.lor (ireg w b) GINTR_IRQ_BIT
    else ireg w b;
  as_vars : hget w' = with_mq mq (with_valid 0 (hget w));
  as_kernel : hget w' = q';
  as_table : handlers w' = handlers w;
  as_timers b : in_timer b = true -> tsoft w' b = tsoft w b;
}.

(** The variables assigned before the commands. *)
Record app_assigned (mq : Z) (q' : Q) w w' : Prop := {
  aa_regs b : (in_irda b = true -> isoft w' b = isoft w b) /\ (in_gpio b = true -> gsoft w' b = gsoft w b) /\
    (in_icu b = true -> ireg w' b = ireg w b) /\ (in_timer b = true -> tsoft w' b = tsoft w b);
  aa_vars : hget w' = with_mq mq (with_valid 0 (hget w));
  aa_kernel : hget w' = q';
  aa_table : handlers w' = handlers w;
}.
Lemma put_regs {X} `{!Holds X W, !Quiet X W} (x : X) w b :
  (in_irda b = true -> isoft (hput x w) b = isoft w b) /\ (in_gpio b = true -> gsoft (hput x w) b = gsoft w b) /\
  (in_icu b = true -> ireg (hput x w) b = ireg w b) /\ (in_timer b = true -> tsoft (hput x w) b = tsoft w b).
Proof using Type.
  split_and!; intros Hb; [unfold soft, soft_of; by rewrite (breg_put irda_block X)|unfold soft, soft_of; by rewrite (breg_put gpio_block X)
    |by apply ireg_put|unfold soft, soft_of; by rewrite (breg_put timer_block X)].
Qed.

(** The first commands: the queue. *)
Lemma app_queue mq q' s : xQueueCreate QUEUE_LENGTH 4 (hget (at_world s)) = Val (mq, q') ->
  exists w, app_assigned mq q' (at_world s) w /\ forall k : Z * Z -> M all unit,
    (at_ext (sets (with_valid 0));; r ← at_ext (on_held (Q := Q) (rtos_init_queue 4 3)); at_ext (sets (with_mq r.2));; k r) s =
      k (if mq =? 0 then kGeneralErr else kNoErr, mq) (with_world s w).
Proof using Quiet0 Quiet1 VarsApart0 VarsApart1 VarsApart2 VarsApart3.
  intros E. set (w1 := hput (with_valid 0 (hget (at_world s))) (at_world s)). set (w2 := hput q' w1). set (w3 := hput (with_mq mq (hget w2)) w2).
  assert (H1 : hget (X := irda_vars) w1 = with_valid 0 (hget (at_world s))) by apply hget_put.
  assert (H2 : hget (X := irda_vars) w2 = hget w1) by apply (vars_apart (X := Q) (Y := irda_vars)).
  exists w3. split.
  - split.
    + intros b. destruct (put_regs (with_valid 0 (hget (at_world s))) (at_world s) b) as (A1 & A2 & A3 & A4), (put_regs q' w1 b) as (B1 & B2 & B3 & B4),
        (put_regs (with_mq mq (hget w2)) w2 b) as (C1 & C2 & C3 & C4).
      split_and!; intros Hb; (etransitivity; [by first [apply C1|apply C2|apply C3|apply C4]|]); (etransitivity; [by first [apply B1|apply B2|apply B3|apply B4]|]);
        by first [apply A1|apply A2|apply A3|apply A4].
    + unfold w3. by rewrite hget_put, H2, H1.
    + unfold w3. rewrite (vars_apart (X := irda_vars) (Y := Q)). apply hget_put.
    + unfold handlers, w3. rewrite (vars_apart (X := irda_vars) (Y := timer_vars)). unfold w2. rewrite (vars_apart (X := Q) (Y := timer_vars)).
      unfold w1. by rewrite (vars_apart (X := irda_vars) (Y := timer_vars)).
  - intros k. rewrite (bind_ret_val _ _ _ _ _ (at_ext_val (sets (with_valid 0)) s tt w1 eq_refl)).
    assert (E2 : at_ext (on_held (Q := Q) (rtos_init_queue 4 3)) (with_world s w1) = Val ((if mq =? 0 then kGeneralErr else kNoErr, mq), with_world s w2)).
    { apply (at_ext_val (on_held (rtos_init_queue 4 3)) (with_world s w1)). unfold on_held. change (ext (world (with_world s w1))) with w1.
      unfold w1 at 1. rewrite (vars_apart (X := irda_vars) (Y := Q)). unfold rtos_init_queue. by rewrite (bind_ret_val _ _ _ _ _ E). }
    rewrite (bind_ret_val _ _ _ _ _ E2). cbn [snd]. by rewrite (bind_ret_val _ _ _ _ _ (at_ext_val (sets (with_mq mq)) (with_world s w2) tt w3 eq_refl)).
Qed.

Lemma init_app_val mq q' s : app_drivers s -> xQueueCreate QUEUE_LENGTH 4 (hget (at_world s)) = Val (mq, q') ->
  exists w, Irda_init_app (Q := Q) sdev_ops s = Val (tt, with_world s w) /\
    if mq =? 0 then app_assigned mq q' (at_world s) w else app_started mq q' (at_world s) w.
Proof using All.
  intros Hd Eq. unfold Irda_init_app. destruct (app_queue mq q' s Eq) as (w0 & A0 & Ek). rewrite Ek. cbn [fst].
  destruct (mq =? 0); cbn [Z.eqb kNoErr kGeneralErr negb]; [exists w0; by split|].
  destruct (unit_set CMD_CONF_PCLK_26M CMD_CONF_PCLK_DCO ICU_PERI_CLK_MUX PCLK_POSI_IRDA (with_world s w0) Hd ltac:(by apply (list_elem_of_lookup_2 _ 0)))
    as (w1 & E1 & [U1 P1 [O1 T1]] & I1).
  destruct (unit_clear CMD_CLK_PWR_DOWN CMD_CLK_PWR_UP ICU_PERI_CLK_PWD PWD_IRDA_CLK_BIT (with_world s w1) Hd ltac:(by apply (list_elem_of_lookup_2 _ 1)))
    as (w2 & E2 & [U2 P2 [O2 T2]] & I2).
  destruct (irda_pin (with_world s w2) Hd) as (w3 & E3 & P3 & I3 & U3 & [O3 T3]).
  destruct (irda_regs_set (with_world s w3)) as (w4 & E4 & U4 & I4 & P4 & [O4 T4]).
  destruct (unit_set CMD_ICU_INT_ENABLE CMD_ICU_INT_DISABLE ICU_INTERRUPT_ENABLE (2 ^ IRQ_IRDA) (with_world s w4) Hd ltac:(by apply (list_elem_of_lookup_2 _ 4)))
    as (w5 & E5 & [U5 P5 [O5 T5]] & I5).
  destruct (unit_set CMD_ICU_GLOBAL_INT_ENABLE CMD_ICU_GLOBAL_INT_DISABLE ICU_GLOBAL_INT_EN GINTR_IRQ_BIT (with_world s w5) Hd ltac:(by apply (list_elem_of_lookup_2 _ 5)))
    as (w6 & E6 & [U6 P6 [O6 T6]] & I6).
  change (at_world (with_world s w0)) with w0 in *. change (at_world (with_world s w1)) with w1 in *. change (at_world (with_world s w2)) with w2 in *.
  change (at_world (with_world s w3)) with w3 in *. change (at_world (with_world s w4)) with w4 in *. change (at_world (with_world s w5)) with w5 in *.
  assert (B : beside Q w0 w6) by (do 5 (eapply beside_trans; [|eassumption]); exact O1).
  exists w6. split.
  - rewrite (bind_ret_val _ _ _ _ _ E1), (bind_ret_val _ _ _ _ _ E2), (bind_ret_val _ _ _ _ _ E3), (bind_ret_val _ _ _ _ _ E4).
    unfold intc_enable. rewrite bind_assoc. change (u32 (Z.shiftl 1 IRQ_IRDA)) with (2 ^ IRQ_IRDA). rewrite (bind_ret_val _ _ _ _ _ E5).
    rewrite bind_mret. by rewrite (bind_ret_val _ _ _ _ _ E6).
  - destruct A0 as [R0 V0 K0 H0], B as [B1 B2 B3 B4]. split.
    + intros b Hb. rewrite U6, U5, U4, !U3, !U2, !U1. by rewrite !(proj1 (R0 b)).
    + assert (Hp : pins_set (fun i => i =? 26) 0x48 PERIAL_MODE_1 (gview w2) (gview w6)).
      { eapply pins_set_view; [exact P3|]. intros b _. by rewrite P6, P5, P4. }
      assert (Eg : forall b, gview w2 b = gview (at_world s) b) by (intros b; unfold gview; destruct (in_gpio b) eqn:Eb; [|done]; rewrite P2, P1; by apply R0).
      destruct Hp as [Q1 Q2 Q3]. split.
      * intros i Hi. by rewrite Q1, Eg.
      * intros i Hi. rewrite Q2 by done. unfold pin_function. by rewrite Eg.
      * intros b Hb. by rewrite Q3, Eg.
    + intros b Hb. rewrite I6, !I5, !I4, !I3, !I2, !I1.
      assert (Er : forall a, in_icu a = true -> ireg w0 a = ireg (at_world s) a) by (intros a Ha; by apply R0).
      destruct (Z.eqb_spec b ICU_PERI_CLK_MUX) as [->|N1]; [by rewrite <- (Er _ Hb)|]. destruct (Z.eqb_spec b ICU_PERI_CLK_PWD) as [->|N2]; [by rewrite <- (Er _ Hb)|].
      destruct (Z.eqb_spec b ICU_INTERRUPT_ENABLE) as [->|N3]; [by rewrite <- (Er _ Hb)|]. destruct (Z.eqb_spec b ICU_GLOBAL_INT_EN) as [->|N4]; by rewrite <- (Er _ Hb).
    + by rewrite B2.
    + by rewrite B3.
    + by rewrite B4.
    + intros b Hb. rewrite B1 by done. by apply R0.
Qed.
End system.

(** C15: starting the application gives the receiver its clock of 26 MHz, its pin, a
    register that has it on, its levels not inverted and its clock divided by 562.5
    times 26, and the interrupts of a leader, a frame and a repeat code, those of its
    line and all others enabled; the receiver is then ready for keys, with an
    empty queue.  Without a queue only variables change. *)
Theorem irda_app_starts {Q W} `{RegBus W, !IcuRegs W, !GpioRegs W, !BlockRegs irda_block W, !BlockRegs timer_block W, !Kernel Q, !QueueSpec Q}
    `{!Holds irda_vars W, !Quiet irda_vars W, !Holds Q W, !Quiet Q W, !Holds timer_vars W, !Quiet timer_vars W}
    `{!VarsApart irda_vars Q W, !VarsApart irda_vars timer_vars W, !VarsApart Q irda_vars W, !VarsApart Q timer_vars W}
    sdev_ops icu_addr gpio_addr hdl (s : drv_state (intc_st W)) :
  app_drivers sdev_ops icu_addr gpio_addr s -> length (handlers (at_world s)) = Z.to_nat TIMER_CHANNEL_NO -> timer4_on (at_world s) = false ->
  let vars := hget (X := irda_vars) (at_world s) in
  exists mq q' w, xQueueCreate QUEUE_LENGTH 4 (hget (at_world s)) = Val (mq, q') /\ Irda_init_app (Q := Q) sdev_ops s = Val (tt, with_world s w) /\
    if mq =? 0 then app_assigned mq q' (at_world s) w
    else
      (Z.testbit (isoft w IRDA_CTRL) 0 = true /\ Z.testbit (isoft w IRDA_CTRL) 1 = false /\
       Z.land (Z.shiftr (isoft w IRDA_CTRL) CLK_DIVID_POSI) CLK_DIVID_MASK = 0x3921 /\ Z.land (isoft w IRDA_INT_MASK) INT_MASK_EN = 7) /\
      pins_set (fun i => i =? 26) 0x48 PERIAL_MODE_1 (gview (at_world s)) (gview w) /\
      (Z.testbit (ireg w ICU_PERI_CLK_MUX) 3 = true /\ Z.testbit (ireg w ICU_PERI_CLK_PWD) 3 = false /\
       Z.testbit (ireg w ICU_INTERRUPT_ENABLE) 3 = true /\ Z.testbit (ireg w ICU_GLOBAL_INT_EN) 0 = true) /\
      shows (Q := Q) hdl (KeyState (with_mq mq (with_valid 0 vars)) false []) w.
Proof.
  intros Hd Ht Hon vars. destruct (queue_create QUEUE_LENGTH 4 (hget (at_world s)) ltac:(done)) as (mq & q' & Eq & Hq).
  destruct (init_app_val sdev_ops icu_addr gpio_addr hdl mq q' s Hd Eq) as (w & E & Hw). exists mq, q', w. split_and!; [done|done|].
  destruct (mq =? 0); [done|]. destruct Hw as [A1 A2 A3 A4 A5 A6 A7]. destruct Hq as [_ Hq].
  assert (Ec : isoft w IRDA_CTRL = ctrl_word (isoft (at_world s) IRDA_CTRL)) by (by rewrite A1).
  assert (Em : isoft w IRDA_INT_MASK = mask_word (isoft (at_world s) IRDA_INT_MASK)) by (by rewrite A1).
  destruct (ctrl_word_fields (isoft (at_world s) IRDA_CTRL)) as (F1 & F2 & F3). split_and!; try by rewrite Ec.
  - rewrite Em. apply mask_word_field.
  - exact A2.
  - rewrite A3, Z.eqb_refl, Z.lor_spec by done. apply orb_true_r.
  - rewrite A3 by done. change (ICU_PERI_CLK_PWD =? ICU_PERI_CLK_MUX) with false. rewrite Z.eqb_refl, Z.ldiff_spec. apply andb_false_r.
  - rewrite A3 by done. change (ICU_INTERRUPT_ENABLE =? ICU_PERI_CLK_MUX) with false. change (ICU_INTERRUPT_ENABLE =? ICU_PERI_CLK_PWD) with false.
    rewrite Z.eqb_refl, Z.lor_spec. apply orb_true_r.
  - rewrite A3 by done. change (ICU_GLOBAL_INT_EN =? ICU_PERI_CLK_MUX) with false. change (ICU_GLOBAL_INT_EN =? ICU_PERI_CLK_PWD) with false.
    change (ICU_GLOBAL_INT_EN =? ICU_INTERRUPT_ENABLE) with false. rewrite Z.eqb_refl, Z.lor_spec. apply orb_true_r.
  - split; cbn [k_vars k_on k_queue].
    + done.
    + rewrite A5. cbn [IRkey_mq with_mq]. by rewrite Hq, Z.eqb_refl.
    + by rewrite A6.
    + unfold timer4_on in *. by rewrite A7.
    + done.
Qed.

(** ** A board

    The status and the data of the receiver, beside its other registers. *)
Definition in_rx (a : Z) : bool := (a =? IRDA_INT) || (a =? RX_FIFO_DOUT).
Definition rx_hard (a : Z) : Z := if in_rx a then Z.ones 32 else 0.
Definition rx_ack (a : Z) : Z := if a =? IRDA_INT then Z.ones 32 else 0.
Definition rx_block : block := Block in_rx rx_hard rx_ack.
#[export] Instance rx_block_ok : BlockOk rx_block.
Proof.
  split; intros a; cbn; unfold rx_hard, rx_ack, in_rx.
  - by destruct ((a =? IRDA_INT) || (a =? RX_FIFO_DOUT)).
  - intros i. destruct (a =? IRDA_INT); cbn; [done|by rewrite Z.bits_0].
Qed.
#[export] Instance icu_apart_rx : Apart in_icu in_rx. Proof. unfold in_rx, IRDA_INT, RX_FIFO_DOUT. apart_regs. Qed.
#[export] Instance gpio_apart_rx : Apart in_gpio in_rx. Proof. unfold in_rx, IRDA_INT, RX_FIFO_DOUT. apart_regs. Qed.
#[export] Instance timer_apart_rx : Apart in_timer in_rx. Proof. unfold in_rx, IRDA_INT, RX_FIFO_DOUT. apart_regs. Qed.
#[export] Instance irda_apart_rx : Apart in_irda in_rx. Proof. unfold in_rx, IRDA_INT, RX_FIFO_DOUT. apart_regs. Qed.

Definition ir_hw : Type := with_file rx_block (with_file irda_block (with_file timer_block (with_file gpio_block icu_file))).
Definition ir_board : Type := with_state irda_vars (with_state queues (with_state timer_vars ir_hw)).
#[export] Instance ir_board_gpio : GpioRegs ir_board := with_state_block gpio_block irda_vars.
Definition IrBoard (v : irda_vars) (q : queues) (t : timer_vars) (rx irda tm gp : Z -> Z) (i : icu_file) : ir_board :=
  WithState v (WithState q (WithState t (WithFile rx_block rx (WithFile irda_block irda (WithFile timer_block tm (WithFile gpio_block gp i)))))).

(** The receiver and the timers of a board are changed by hand. *)
Definition set_rx (st word : Z) (w : ir_board) : ir_board :=
  let h := ws_rest (ws_rest (ws_rest w)) in
  WithState (ws w) (WithState (ws (ws_rest w)) (WithState (ws (ws_rest (ws_rest w)))
    (WithFile rx_block (fun a => if a =? IRDA_INT then st else if a =? RX_FIFO_DOUT then word else wf_regs h a) (wf_rest h)))).
Definition timer_word (a x : Z) : Z :=
  if a =? TIMER0_2_CTL then Z.ldiff (u32 x) TIMER_INT_BITS else if a =? TIMER3_5_CTL then Z.lor (Z.ldiff (u32 x) TIMER_INT_BITS) (2 ^ 8) else x.
Definition set_timer4 (w : ir_board) : ir_board :=
  let h := ws_rest (ws_rest (ws_rest w)) in let t := wf_rest (wf_rest h) in
  WithState (ws w) (WithState (ws (ws_rest w)) (WithState (ws (ws_rest (ws_rest w)))
    (WithFile rx_block (wf_regs h) (WithFile irda_block (wf_regs (wf_rest h)) (WithFile timer_block (fun a => timer_word a (wf_regs t a)) (wf_rest t)))))).

Lemma timer_word_soft a x : Z.ldiff (u32 (timer_word a x)) (timer_pending a) = Z.ldiff (u32 x) (timer_pending a).
Proof.
  unfold timer_word, timer_pending. destruct (a =? TIMER0_2_CTL); cbn [orb]; [|destruct (a =? TIMER3_5_CTL); [|done]].
  - rewrite (u32_id (Z.ldiff _ _)) by apply ldiff_u32, u32_range. generalize TIMER_INT_BITS. intros m. word_bits.
  - rewrite (u32_id (Z.lor _ _)) by (apply lor_u32; [apply ldiff_u32, u32_range|done]).
    assert (E : Z.ldiff (2 ^ 8) TIMER_INT_BITS = 0) by done. generalize dependent (2 ^ 8). intros p E. generalize dependent TIMER_INT_BITS. intros m E. word_bits.
Qed.

Lemma timer_word_fires x : Z.land (u32 (timer_word TIMER0_2_CTL x)) TIMER_INT_BITS = 0 /\ Z.land (u32 (timer_word TIMER3_5_CTL x)) TIMER_INT_BITS = 2 ^ 8.
Proof.
  split; unfold timer_word.
  - rewrite Z.eqb_refl, (u32_id (Z.ldiff _ _)) by apply ldiff_u32, u32_range. generalize TIMER_INT_BITS. intros m. bits. rewrite Z.bits_0.
    by destruct (Z.testbit (u32 _) i), (Z.testbit m i).
  - change (TIMER3_5_CTL =? TIMER0_2_CTL) with false. rewrite Z.eqb_refl, (u32_id (Z.lor _ _)) by (apply lor_u32; [apply ldiff_u32, u32_range|done]).
    assert (E : Z.ldiff (2 ^ 8) TIMER_INT_BITS = 0) by done. generalize dependent (2 ^ 8). intros p E. generalize dependent TIMER_INT_BITS. intros m E. word_bits.
Qed.

#[export] Instance ir_board_env : IrEnv queues ir_board.
Proof.
  split.
  - intros st word w Hst Hword. exists (set_rx st word w). split; [done|]. split.
    + change (u32 st = st). apply u32_id. unfold is_u8, is_u32 in *. lia.
    + intros _. change (u32 word = word). by apply u32_id.
  - intros w. exists (set_timer4 w). split; [|split].
    + split; [|done..]. intros b _. apply timer_word_soft.
    + apply (timer_word_fires (wf_regs _ _)).
    + exact (proj2 (timer_word_fires (wf_regs (wf_rest (wf_rest (ws_rest (ws_rest (ws_rest w))))) TIMER3_5_CTL))).
Qed.

Definition demo_ir_vars : irda_vars := IrdaVars 1 0x1234 0 0 0 0 0 0.
Definition demo_ir : ir_board :=
  IrBoard demo_ir_vars {[1 := (QUEUE_LENGTH, [])]} timer_start (fun _ => 0) (fun _ => 0) (fun _ => 0) (fun _ => 0) (IcuFile (fun _ => 0x8) []).
Definition demo_ir_tbl : list DRV_SDEV_S :=
  [DRV_DEV (Some ICU_DEV_NAME) 0 DD_STATE_CLOSED (Some 1); DRV_DEV (Some GPIO_DEV_NAME) 0 DD_STATE_CLOSED (Some 2);
   DRV_DEV (Some TIMER_DEV_NAME) 0 DD_STATE_CLOSED (Some 3)].
Definition demo_ir_ops (a : Z) : SDD_OPERATIONS (intc_st ir_board) := sop_lift (fun A => on_ext (A := A)) (if a =? 1 then icu_op else gpio_word_op).
Definition demo_ir_all : drv_state (intc_st ir_board) := DrvState [] demo_ir_tbl (intc_start demo_ir).
Definition no_handler (h i : Z) : M (drv_state (intc_st ir_board)) unit := mret tt.

Lemma demo_ir_drivers : ir_drivers demo_ir_ops 1 3 demo_ir_all.
Proof. split_and!; [done|by exists 0%nat|by exists 2%nat]. Qed.
Lemma demo_app_drivers : app_drivers demo_ir_ops 1 2 demo_ir_all.
Proof. split_and!; [done|by exists 0%nat|done|by exists 1%nat]. Qed.
Lemma demo_ir_shows : shows (Q := queues) 9 (KeyState demo_ir_vars false []) (at_world demo_ir_all).
Proof. by split. Qed.

(** Key 1, held for four repeat codes, is a long press. *)
Lemma ir_press_delivers_witness :
  outcome (Q := queues) demo_ir_ops 3 9 no_handler 1 (press 0xFE011234 [1; 1; 1; 1]%nat ++ release) demo_ir_all (fun s' =>
    timer4_on (at_world s') = false /\ queue_of (hget (at_world s')) 1 = Some (QUEUE_LENGTH, [GENERATE_KEY IR_KEY_TYPE_LONG 1])).
Proof.
  eapply outcome_mono; [|apply (ir_press_delivers demo_ir_ops 1 3 9 no_handler 1 demo_ir_all (KeyState demo_ir_vars false []) 0xFE011234 [1; 1; 1; 1]%nat);
    [exact demo_ir_drivers|exact demo_ir_shows|lia|done|done|done|done|repeat constructor]].
  intros s' (gs1 & gs2 & j & Eg & H2 & Ht & Hq & _). split; [exact Ht|].
  assert (sum_list gs1 = 4%nat) as En; [|rewrite En in Hq; exact Hq].
  assert (gs2 = []) as ->; [|by rewrite app_nil_r in Eg; subst].
  destruct H2 as [|(gs' & ->)]; [done|]. assert (In : 0%nat ∈ [1; 1; 1; 1]%nat) by (rewrite Eg; set_solver). by repeat (apply elem_of_cons in In as [In|In]; [done|]); apply elem_of_nil in In.
Defined.

Lemma irda_app_starts_witness : exists mq w, Irda_init_app (Q := queues) demo_ir_ops demo_ir_all = Val (tt, with_world demo_ir_all w) /\
  mq <> 0 /\ Z.testbit (ireg w ICU_INTERRUPT_ENABLE) 3 = true /\ queue_of (hget (X := queues) w) mq = Some (QUEUE_LENGTH, []).
Proof.
  destruct (irda_app_starts (Q := queues) demo_ir_ops 1 2 9 demo_ir_all demo_app_drivers ltac:(done) ltac:(done)) as (mq & q' & w & Eq & E & Hw).
  assert (Hmq : mq <> 0) by (injection Eq as <- _; by vm_compute). rewrite (proj2 (Z.eqb_neq mq 0) Hmq) in Hw. destruct Hw as (_ & _ & (_ & _ & I & _) & [_ K _ _ _]).
  exists mq, w. split_and!; [exact E|exact Hmq|exact I|exact K].
Defined.

(** The events of a press, made to happen on the board. *)
Definition happen (e : ir_event) : M (drv_state (intc_st ir_board)) unit :=
  match e with
  | Received st word => at_ext (modify (set_rx st word));; irda_isr demo_ir_ops 3 9
  | Tick => fun s => (if timer4_on (at_world s) then
      (at_ext (modify set_timer4);; bk_timer_isr (call_handler (Q := queues) demo_ir_ops 3 9 no_handler) 1) s else Val (tt, s))
  end.
Definition happens : list ir_event -> M (drv_state (intc_st ir_board)) unit := foldr (fun e m => happen e;; m) (mret tt).

(** Started, given its user code, and a key held for 14 repeat codes: two messages. *)
Example demo_press :
  match (Irda_init_app (Q := queues) demo_ir_ops;; happens (press 0xFE011234 (replicate 14 1%nat) ++ release);;
         m1 ← at_ext (IR_get_key (Q := queues) 0); m2 ← at_ext (IR_get_key (Q := queues) 0); m3 ← at_ext (IR_get_key (Q := queues) 0);
         mret [m1; m2; m3]) demo_ir_all with
  | Val (ms, _) => ms
  | Err _ => []
  end = [(kNoErr, Some 0x2000001); (kNoErr, Some 0x2000001); (kGeneralErr, None)].
Proof. vm_compute. reflexivity. Qed.
