(* ===== verification/UartHw.v ===== *)
(** * The two UARTs as hardware (driver/uart/uart.h)

    The registers, and what the driver relies on in them ([UartSpec]): a unit
    delivers the bytes it received in order and, being slower than a reader,
    reports after at most [rx_max] bytes that none is left, it has room for a byte after at most [wait_max] readings of its status, takes
    the bytes written, and its control registers keep what is written.  Bytes
    that arrive while the driver reads are in [rx_bytes] from the start: the
    field is what the unit delivers before it next reports that it is empty.
    [UartLog] adds the log of the bytes taken from the second unit, one for each reading of its data.
    [uart_sim] is a device that satisfies the interface. *)
From S2P Require Import Prelude.
Local Open Scope Z_scope.

Definition UART1_BASE_ADDR : Z := 0x0802100.
Definition UART2_BASE_ADDR : Z := 0x0802200.
Definition REG_UART1_CONFIG : Z := UART1_BASE_ADDR + 4 * 0.
Definition REG_UART2_CONFIG : Z := UART2_BASE_ADDR + 4 * 0.
Definition UART_TX_ENABLE : Z := Z.shiftl 1 0.
Definition UART_RX_ENABLE : Z := Z.shiftl 1 1.
Definition UART_IRDA : Z := Z.shiftl 1 2.
Definition UART_DATA_LEN_POSI : Z := 3.
Definition UART_DATA_LEN_MASK : Z := 0x03.
Definition UART_PAR_EN : Z := Z.shiftl 1 5.
Definition UART_PAR_ODD_MODE : Z := Z.shiftl 1 6.
Definition UART_STOP_LEN_2 : Z := Z.shiftl 1 7.
Definition UART_CLK_DIVID_POSI : Z := 8.
Definition UART_CLK_DIVID_MASK : Z := 0x1FFF.
Definition REG_UART1_FIFO_CONFIG : Z := UART1_BASE_ADDR + 4 * 1.
Definition REG_UART2_FIFO_CONFIG : Z := UART2_BASE_ADDR + 4 * 1.
Definition TX_FIFO_THRESHOLD_MASK : Z := 0xFF.
Definition TX_FIFO_THRESHOLD_POSI : Z := 0.
Definition RX_FIFO_THRESHOLD_MASK : Z := 0xFF.
Definition RX_FIFO_THRESHOLD_POSI : Z := 8.
Definition RX_STOP_DETECT_TIME_MASK : Z := 0x03.
Definition RX_STOP_DETECT_TIME_POSI : Z := 16.
Definition RX_STOP_DETECT_TIME32 : Z := 0.
Definition REG_UART1_FIFO_STATUS : Z := UART1_BASE_ADDR + 4 * 2.
Definition REG_UART2_FIFO_STATUS : Z := UART2_BASE_ADDR + 4 * 2.
Definition TX_FIFO_COUNT_MASK : Z := 0xFF.
Definition TX_FIFO_COUNT_POSI : Z := 0.
Definition RX_FIFO_COUNT_MASK : Z := 0xFF.
Definition RX_FIFO_COUNT_POSI : Z := 8.
Definition TX_FIFO_FULL : Z := Z.shiftl 1 16.
Definition TX_FIFO_EMPTY : Z := Z.shiftl 1 17.
Definition FIFO_WR_READY : Z := Z.shiftl 1 20.
Definition FIFO_RD_READY : Z := Z.shiftl 1 21.
Definition REG_UART1_FIFO_PORT : Z := UART1_BASE_ADDR + 4 * 3.
Definition REG_UART2_FIFO_PORT : Z := UART2_BASE_ADDR + 4 * 3.
Definition UART_TX_FIFO_DIN_MASK : Z := 0xFF.
Definition UART_TX_FIFO_DIN_POSI : Z := 0.
Definition UART_RX_FIFO_DOUT_MASK : Z := 0xFF.
Definition UART_RX_FIFO_DOUT_POSI : Z := 8.
Definition REG_UART1_INTR_ENABLE : Z := UART1_BASE_ADDR + 4 * 4.
Definition REG_UART2_INTR_ENABLE : Z := UART2_BASE_ADDR + 4 * 4.
Definition TX_FIFO_NEED_WRITE_EN : Z := Z.shiftl 1 0.
Definition RX_FIFO_NEED_READ_EN : Z := Z.shiftl 1 1.
Definition UART_TX_STOP_END_EN : Z := Z.shiftl 1 5.
Definition UART_RX_STOP_END_EN : Z := Z.shiftl 1 6.
Definition REG_UART1_INTR_STATUS : Z := UART1_BASE_ADDR + 4 * 5.
Definition REG_UART2_INTR_STATUS : Z := UART2_BASE_ADDR + 4 * 5.
Definition TX_FIFO_NEED_WRITE_STA : Z := Z.shiftl 1 0.
Definition RX_FIFO_NEED_READ_STA : Z := Z.shiftl 1 1.
Definition UART_RX_PARITY_ERR_STA : Z := Z.shiftl 1 3.
Definition UART_TX_STOP_END_STA : Z := Z.shiftl 1 5.
Definition UART_RX_STOP_END_STA : Z := Z.shiftl 1 6.
Definition REG_UART1_FLOW_CONFIG : Z := UART1_BASE_ADDR + 4 * 6.
Definition REG_UART2_FLOW_CONFIG : Z := UART2_BASE_ADDR + 4 * 6.
Definition REG_UART1_WAKE_CONFIG : Z := UART1_BASE_ADDR + 4 * 7.
Definition REG_UART2_WAKE_CONFIG : Z := UART2_BASE_ADDR + 4 * 7.

(** ** The interface *)

Inductive port := P1 | P2.

#[export] Instance port_eq_dec : EqDecision port.
Proof. solve_decision. Defined.

Definition port_base (p : port) : Z := match p with P1 => UART1_BASE_ADDR | P2 => UART2_BASE_ADDR end.
Definition port_reg (p : port) (n : Z) : Z := port_base p + 4 * n.

(** One unit as the driver sees it: the bytes to deliver before it reports that
    none is left; the bytes written to it; how many readings of its status show
    no room, and how many show bytes left to send; the interrupt status; the
    values written to the status; the control registers by their index. *)
Record line := Line {
  rx_bytes : list Z;
  tx_sent : list Z;
  tx_wait : nat;
  tx_drain : nat;
  pending : Z;
  acked : list Z;
  ctl : Z -> Z;
}.

(** The indices of the control registers: configuration of the unit and of its
    FIFO, interrupt enable, flow control and wake-up. *)
Definition ctl_index (n : Z) : bool := (n =? 0) || (n =? 1) || (n =? 4) || (n =? 6) || (n =? 7).

(** What stays while time passes: the driver's own doing. *)
Definition same_doing (l l' : line) : Prop :=
  tx_sent l' = tx_sent l /\ acked l' = acked l /\ (forall n, ctl_index n = true -> ctl l' n = ctl l n).

Definition passes (l l' : line) : Prop := rx_bytes l' = rx_bytes l /\ same_doing l l'.

Class UartSpec (hw : Type) `{RegBus hw} := {
  uart_ok : hw -> Prop;
  unit_of : hw -> port -> line;
  wait_max : nat;
  rx_max : nat;
  uart_bounds h p : uart_ok h -> (length (rx_bytes (unit_of h p)) <= rx_max)%nat /\ (tx_wait (unit_of h p) <= wait_max)%nat /\ (tx_drain (unit_of h p) <= wait_max)%nat /\
    Forall is_u8 (rx_bytes (unit_of h p)) /\ is_u32 (pending (unit_of h p)) /\
    forall n, ctl_index n = true -> is_u32 (ctl (unit_of h p) n);
  uart_read_status h p : uart_ok h -> exists v h', bus_read (port_reg p 2) h = (v, h') /\ uart_ok h' /\ is_u32 v /\
    Z.testbit v 21 = negb (bool_decide (rx_bytes (unit_of h p) = [])) /\
    Z.testbit v 20 = bool_decide (tx_wait (unit_of h p) = 0%nat) /\
    Z.testbit v 17 = bool_decide (tx_drain (unit_of h p) = 0%nat) /\
    same_doing (unit_of h p) (unit_of h' p) /\
    (rx_bytes (unit_of h p) <> [] -> rx_bytes (unit_of h' p) = rx_bytes (unit_of h p)) /\
    tx_wait (unit_of h' p) = pred (tx_wait (unit_of h p)) /\
    tx_drain (unit_of h' p) = pred (tx_drain (unit_of h p)) /\
    forall q, q <> p -> passes (unit_of h q) (unit_of h' q);
  uart_read_data h p : uart_ok h -> exists v h', bus_read (port_reg p 3) h = (v, h') /\ uart_ok h' /\ is_u32 v /\
    same_doing (unit_of h p) (unit_of h' p) /\
    (forall b l, rx_bytes (unit_of h p) = b :: l -> (v / 256) mod 256 = b /\ rx_bytes (unit_of h' p) = l) /\
    forall q, q <> p -> passes (unit_of h q) (unit_of h' q);
  uart_write_data h p v : uart_ok h -> tx_wait (unit_of h p) = 0%nat ->
    let h' := bus_write (port_reg p 3) v h in
    uart_ok h' /\ tx_sent (unit_of h' p) = tx_sent (unit_of h p) ++ [v mod 256] /\
    rx_bytes (unit_of h' p) = rx_bytes (unit_of h p) /\ acked (unit_of h' p) = acked (unit_of h p) /\
    (forall n, ctl_index n = true -> ctl (unit_of h' p) n = ctl (unit_of h p) n) /\
    forall q, q <> p -> passes (unit_of h q) (unit_of h' q);
  uart_read_pending h p : uart_ok h -> exists h', bus_read (port_reg p 5) h = (pending (unit_of h p), h') /\ uart_ok h' /\
    forall q, passes (unit_of h q) (unit_of h' q);
  uart_write_pending h p v : uart_ok h ->
    let h' := bus_write (port_reg p 5) v h in
    uart_ok h' /\ rx_bytes (unit_of h' p) = rx_bytes (unit_of h p) /\ tx_sent (unit_of h' p) = tx_sent (unit_of h p) /\
    acked (unit_of h' p) = acked (unit_of h p) ++ [v] /\
    (forall n, ctl_index n = true -> ctl (unit_of h' p) n = ctl (unit_of h p) n) /\
    forall q, q <> p -> passes (unit_of h q) (unit_of h' q);
  uart_read_ctl h p n : uart_ok h -> ctl_index n = true ->
    exists h', bus_read (port_reg p n) h = (ctl (unit_of h p) n, h') /\ uart_ok h' /\
    pending (unit_of h' p) = pending (unit_of h p) /\
    forall q, passes (unit_of h q) (unit_of h' q);
  uart_write_ctl h p n v : uart_ok h -> ctl_index n = true -> is_u32 v ->
    let h' := bus_write (port_reg p n) v h in
    uart_ok h' /\ tx_sent (unit_of h' p) = tx_sent (unit_of h p) /\ acked (unit_of h' p) = acked (unit_of h p) /\
    (n <> 0 -> rx_bytes (unit_of h' p) = rx_bytes (unit_of h p)) /\
    (forall m, ctl_index m = true -> ctl (unit_of h' p) m = if m =? n then v else ctl (unit_of h p) m) /\
    forall q, q <> p -> passes (unit_of h q) (unit_of h' q);
}.

(** Every byte that was read from the data register of the second unit, in order. *)
Class UartLog (hw : Type) `{UartSpec hw} := {
  rx_log : hw -> list Z;
  log_data h : rx_log (bus_read (port_reg P2 3) h).2 = rx_log h ++ [((bus_read (port_reg P2 3) h).1 / 256) mod 256];
  log_read a h : a <> port_reg P2 3 -> rx_log (bus_read a h).2 = rx_log h;
  log_write a v h : rx_log (bus_write a v h) = rx_log h;
}.

(** ** A device that satisfies the interface

    A byte written takes two more readings of the status to make room and three
    to be sent; when a unit has reported that it is empty, the next bytes of its
    script arrive. *)
Record uart_sim := UartSim { s_line : port -> line; s_next : port -> list (list Z); s_log : list Z }.

Definition decode (a : Z) : option (port * Z) :=
  if (UART1_BASE_ADDR <=? a) && (a <? UART1_BASE_ADDR + 32) then Some (P1, (a - UART1_BASE_ADDR) / 4)
  else if (UART2_BASE_ADDR <=? a) && (a <? UART2_BASE_ADDR + 32) then Some (P2, (a - UART2_BASE_ADDR) / 4)
  else None.

Definition set_at {A} (p : port) (x : A) (f : port -> A) : port -> A := fun q => if decide (q = p) then x else f q.

Definition status_word (l : line) : Z :=
  (if decide (rx_bytes l = []) then 0 else FIFO_RD_READY) +
  (if decide (tx_wait l = 0%nat) then FIFO_WR_READY else 0) + (if decide (tx_drain l = 0%nat) then TX_FIFO_EMPTY else 0).

(** Reading the register with index [n]: the word, the unit, the script. *)
Definition line_read (n : Z) (l : line) (next : list (list Z)) : Z * line * list (list Z) :=
  if n =? 2 then
    (status_word l,
     Line (if decide (rx_bytes l = []) then default [] (head next) else rx_bytes l) (tx_sent l) (pred (tx_wait l))
       (pred (tx_drain l)) (pending l) (acked l) (ctl l),
     if decide (rx_bytes l = []) then tail next else next)
  else if n =? 3 then
    (default 0 (head (rx_bytes l)) * 256,
     Line (tail (rx_bytes l)) (tx_sent l) (tx_wait l) (tx_drain l) (pending l) (acked l) (ctl l), next)
  else if n =? 5 then (pending l, l, next)
  else (ctl l n, l, next).

Definition line_write (n v : Z) (l : line) : line :=
  if n =? 3 then Line (rx_bytes l) (tx_sent l ++ [v mod 256]) 2 3 (pending l) (acked l) (ctl l)
  else if n =? 5 then
    Line (rx_bytes l) (tx_sent l) (tx_wait l) (tx_drain l) (Z.ldiff (pending l) v) (acked l ++ [v]) (ctl l)
  else
    Line (rx_bytes l) (tx_sent l) (tx_wait l) (tx_drain l) (pending l) (acked l)
      (fun m => if m =? n then v else ctl l m).

Definition log_of (a v : Z) (l : list Z) : list Z := if a =? port_reg P2 3 then l ++ [(v / 256) mod 256] else l.

#[export] Instance uart_sim_bus : RegBus uart_sim := {|
  bus_read a h := match decode a with
    | Some (p, n) =>
      let '(v, l, next) := line_read n (s_line h p) (s_next h p) in (v, UartSim (set_at p l (s_line h)) (set_at p next (s_next h)) (log_of a v (s_log h)))
    | None => (0, h)
    end;
  bus_write a v h := match decode a with
    | Some (p, n) => UartSim (set_at p (line_write n v (s_line h p)) (s_line h)) (s_next h) (s_log h)
    | None => h
    end;
|}.

Definition batch_ok (bs : list Z) : Prop := (length bs <= 256)%nat /\ Forall is_u8 bs.

Definition line_ok (l : line) : Prop :=
  batch_ok (rx_bytes l) /\ (tx_wait l <= 3)%nat /\ (tx_drain l <= 3)%nat /\ is_u32 (pending l) /\
  forall n, ctl_index n = true -> is_u32 (ctl l n).

Definition sim_ok (h : uart_sim) : Prop := (forall p, line_ok (s_line h p)) /\ forall p, Forall batch_ok (s_next h p).

Lemma decode_reg p n : 0 <= n < 8 -> decode (port_reg p n) = Some (p, n).
Proof.
  intros Hn. assert (n = 0 \/ n = 1 \/ n = 2 \/ n = 3 \/ n = 4 \/ n = 5 \/ n = 6 \/ n = 7) as Hc by lia.
  destruct Hc as [->|[->|[->|[->|[->|[->|[->| ->]]]]]]], p; reflexivity.
Qed.

Lemma set_at_eq {A} p (x : A) f : set_at p x f p = x.
Proof. unfold set_at. by rewrite decide_True. Qed.
Lemma set_at_ne {A} p q (x : A) f : q <> p -> set_at p x f q = f q.
Proof. intros H. unfold set_at. by rewrite decide_False. Qed.

Lemma passes_refl l : passes l l.
Proof. unfold passes, same_doing. by split_and!. Qed.

Lemma same_doing_refl l : same_doing l l.
Proof. apply passes_refl. Qed.

Lemma set_at_passes p x f (q : port) : q <> p -> passes (f q) (set_at p x f q).
Proof. intros H. rewrite set_at_ne by done. apply passes_refl. Qed.

Lemma sim_ok_set h p l next lg : sim_ok h -> line_ok l -> Forall batch_ok next ->
  sim_ok (UartSim (set_at p l (s_line h)) (set_at p next (s_next h)) lg).
Proof.
  intros [Hl Hn] Hl' Hn'. split; cbn; intros q; (destruct (decide (q = p)) as [->|]; [by rewrite set_at_eq|by rewrite set_at_ne]).
Qed.

Lemma sim_read p n h : 0 <= n < 8 -> bus_read (port_reg p n) h =
  (let '(v, l, next) := line_read n (s_line h p) (s_next h p) in
   (v, UartSim (set_at p l (s_line h)) (set_at p next (s_next h)) (log_of (port_reg p n) v (s_log h)))).
Proof. intros Hn. cbn [bus_read uart_sim_bus]. by rewrite decode_reg. Qed.

Lemma sim_write p n v h : 0 <= n < 8 -> bus_write (port_reg p n) v h =
  UartSim (set_at p (line_write n v (s_line h p)) (s_line h)) (s_next h) (s_log h).
Proof. intros Hn. cbn [bus_write uart_sim_bus]. by rewrite decode_reg. Qed.

Lemma sim_ok_write h p l lg : sim_ok h -> line_ok l -> sim_ok (UartSim (set_at p l (s_line h)) (s_next h) lg).
Proof.
  intros [Hl Hn] Hl'. split; cbn; intros q; [|done]. destruct (decide (q = p)) as [->|]; [by rewrite set_at_eq|by rewrite set_at_ne].
Qed.

Lemma status_word_bits l : is_u32 (status_word l) /\
  Z.testbit (status_word l) 21 = negb (bool_decide (rx_bytes l = [])) /\
  Z.testbit (status_word l) 20 = bool_decide (tx_wait l = 0%nat) /\
  Z.testbit (status_word l) 17 = bool_decide (tx_drain l = 0%nat).
Proof.
  unfold status_word, is_u32. rewrite !bool_decide_decide.
  destruct (decide (rx_bytes l = [])), (decide (tx_wait l = 0%nat)), (decide (tx_drain l = 0%nat)); by vm_compute.
Qed.

Lemma ctl_index_cases n : ctl_index n = true -> n = 0 \/ n = 1 \/ n = 4 \/ n = 6 \/ n = 7.
Proof. unfold ctl_index. intros H. lia. Qed.

Lemma Forall_head {A} (P : A -> Prop) d l : P d -> Forall P l -> P (default d (head l)).
Proof. intros Hd Hl. by destruct Hl. Qed.
Lemma Forall_tail {A} (P : A -> Prop) l : Forall P l -> Forall P (tail l).
Proof. intros Hl. by destruct Hl. Qed.

#[export, refine] Instance uart_sim_spec : UartSpec uart_sim := {|
  uart_ok := sim_ok; unit_of := s_line; wait_max := 3; rx_max := 256;
|}.
Proof.
  - intros h p [H _]. destruct (H p) as ([? ?] & ? & ? & ? & ?). by split_and!.
  - intros h p Hok. rewrite sim_read by lia. cbn. destruct (status_word_bits (s_line h p)) as (H1 & H2 & H3 & H4).
    destruct (proj1 Hok p) as (Hrx & Hw & Hd & Hp & Hc). pose proof (proj2 Hok p) as Hnx.
    eexists _, _. split; [done|]. cbn. rewrite set_at_eq. cbn. split_and!; try done.
    + apply sim_ok_set; [done|unfold line_ok; cbn; split_and!; [|lia|lia|done|done]|].
      * destruct (decide (rx_bytes (s_line h p) = [])); [by apply (Forall_head batch_ok); [split; [cbn; lia|done]|]|exact Hrx].
      * destruct (decide (rx_bytes (s_line h p) = [])); [by apply (Forall_tail batch_ok)|exact Hnx].
    + intros Hne. by rewrite decide_False.
    + intros q Hq. by apply set_at_passes.
  - intros h p Hok. rewrite sim_read by lia. cbn. destruct (proj1 Hok p) as (Hrx & Hw & Hd & Hp & Hc).
    eexists _, _. split; [done|]. cbn. rewrite set_at_eq. cbn. split_and!; try done.
    + apply sim_ok_set; [done| |apply Hok]. unfold line_ok; cbn. split_and!; try done. destruct Hrx as [Hlen Hb].
      split; [destruct (rx_bytes (s_line h p)); cbn in *; lia|by apply Forall_tail].
    + pose proof (Forall_head is_u8 0 (rx_bytes (s_line h p)) ltac:(done) (proj2 Hrx)). unfold is_u8, is_u32 in *. lia.
    + intros b l E. destruct Hrx as [_ Hrx]. rewrite E in Hrx |- *. inversion_clear Hrx as [|? ? Hb Hl]. cbn. unfold is_u8 in Hb.
      rewrite Z.div_mul by lia. split; [by apply Z.mod_small|done].
    + intros q Hq. by apply set_at_passes.
  - intros h p v Hok _. rewrite sim_write by lia. cbn. destruct (proj1 Hok p) as (Hrx & Hw & Hd & Hp & Hc).
    rewrite set_at_eq. cbn. split_and!; try done.
    + apply sim_ok_write; [done|]. unfold line_ok; cbn. split_and!; [done|lia|lia|done..].
    + intros q Hq. by apply set_at_passes.
  - intros h p Hok. rewrite sim_read by lia. cbn. eexists. split; [done|]. split; [by apply sim_ok_set; [|apply Hok..]|].
    intros q. destruct (decide (q = p)) as [->|]; cbn; [rewrite set_at_eq; apply passes_refl|by apply set_at_passes].
  - intros h p v Hok. rewrite sim_write by lia. cbn. destruct (proj1 Hok p) as (Hrx & Hw & Hd & Hp & Hc).
    rewrite set_at_eq. cbn. split_and!; try done.
    + apply sim_ok_write; [done|]. unfold line_ok; cbn. split_and!; try done. by apply ldiff_u32.
    + intros q Hq. by apply set_at_passes.
  - intros h p n Hok Hn. rewrite sim_read by (apply ctl_index_cases in Hn; lia).
    assert (E : line_read n (s_line h p) (s_next h p) = (ctl (s_line h p) n, s_line h p, s_next h p))
      by (apply ctl_index_cases in Hn as [->|[->|[->|[->| ->]]]]; done).
    rewrite E. eexists. split; [done|]. cbn. split; [by apply sim_ok_set; [|apply Hok..]|]. rewrite set_at_eq. split; [done|].
    intros q. destruct (decide (q = p)) as [->|]; cbn; [rewrite set_at_eq; apply passes_refl|by apply set_at_passes].
  - intros h p n v Hok Hn Hv. rewrite sim_write by (apply ctl_index_cases in Hn; lia). destruct (proj1 Hok p) as (Hrx & Hw & Hd & Hp & Hc).
    assert (E : line_write n v (s_line h p) = Line (rx_bytes (s_line h p)) (tx_sent (s_line h p)) (tx_wait (s_line h p))
      (tx_drain (s_line h p)) (pending (s_line h p)) (acked (s_line h p)) (fun m => if m =? n then v else ctl (s_line h p) m))
      by (apply ctl_index_cases in Hn as [->|[->|[->|[->| ->]]]]; done).
    rewrite E. cbn. rewrite set_at_eq. cbn. split_and!; try done.
    + apply sim_ok_write; [done|]. unfold line_ok; cbn. split_and!; try done. intros m Hm. destruct (m =? n); [done|by apply Hc].
    + intros q Hq. by apply set_at_passes.
Defined.

#[export, refine] Instance uart_sim_log : UartLog uart_sim := {| rx_log := s_log |}.
Proof.
  - intros h. rewrite sim_read by lia. by destruct (line_read _ _ _) as [[v l] next].
  - intros a h Ha. cbn [bus_read uart_sim_bus]. destruct (decode a) as [[p n]|]; [|done]. destruct (line_read _ _ _) as [[v l] next].
    cbn. unfold log_of. by rewrite (proj2 (Z.eqb_neq _ _)).
  - intros a v h. cbn [bus_write uart_sim_bus]. by destruct (decode a) as [[p n]|].
Defined.
