(* ===== verification/Uart.v ===== *)
(** * The UART driver (driver/uart/uart.c)

    Both ports over the registers of [UartHw], with the byte queues of [Kfifo]
    between the interrupt handlers and the device calls, as built with
    [CFG_UART_DEBUG_COMMAND_LINE].  A pointer to a queue is an address, 0 the
    null pointer, and [kfifos] the queues allocated and not freed.  Callbacks
    are addresses; calling one is a parameter, an action on the driver's state.
    Every wait and every loop over bytes takes [fuel] turns.  Formatting is the
    C library's: [bk_printf] gets the text it yields. *)
From stdpp Require Import gmap strings.
From S2P Require Import Prelude DrvModel Kfifo Icu Intc Gpio UartHw.
Local Open Scope Z_scope.

Definition UART_SUCCESS : Z := 0.
Definition UART_FAILURE : Z := u32 (-1).
Definition UART1_DEV_NAME : string := "uart1".
Definition UART2_DEV_NAME : string := "uart2".
Definition UART1_PORT : Z := 0.
Definition UART2_PORT : Z := 1.

Definition UART_CMD_MAGIC : Z := 0xC124000.
Definition CMD_SEND_BACKGROUND : Z := UART_CMD_MAGIC + 0.
Definition CMD_UART_RESET : Z := UART_CMD_MAGIC + 1.
Definition CMD_RX_COUNT : Z := UART_CMD_MAGIC + 2.
Definition CMD_RX_PEEK : Z := UART_CMD_MAGIC + 3.
Definition CMD_UART_INIT : Z := UART_CMD_MAGIC + 4.
Definition CMD_UART_SET_RX_CALLBACK : Z := UART_CMD_MAGIC + 5.
Definition CMD_UART_SET_TX_CALLBACK : Z := UART_CMD_MAGIC + 6.
Definition CMD_SET_STOP_END : Z := UART_CMD_MAGIC + 7.
Definition CMD_UART_SET_TX_FIFO_NEEDWR_CALLBACK : Z := UART_CMD_MAGIC + 8.
Definition CMD_SET_TX_FIFO_NEEDWR_INT : Z := UART_CMD_MAGIC + 9.
Definition CMD_SET_BAUT : Z := UART_CMD_MAGIC + 10.
Definition URX_PEEK_SIG : Z := 0x0ee.

Definition BK_PARITY_NO : Z := 0.
Definition BK_PARITY_ODD : Z := 1.

Definition DEBUG_PRT_MAX_CNT : Z := 16.
Definition RX_RB_LENGTH : Z := 128.
Definition TX_RB_LENGTH : Z := 64.
Definition UART_BAUD_RATE : Z := 115200.
Definition UART_CLOCK : Z := 26000000.
Definition TX_FIFO_THRD : Z := 0x40.
Definition RX_FIFO_THRD : Z := 0x10.
Definition DEF_DATA_LEN : Z := 0x3.

(** icu_pub.h and intc_pub.h *)
Definition IRQ_UART1 : Z := 0.
Definition IRQ_UART2 : Z := 1.
Definition PRI_IRQ_UART1 : Z := 26.
Definition PRI_IRQ_UART2 : Z := 25.
Definition IRQ_UART1_BIT : Z := Z.shiftl 1 0.
Definition IRQ_UART2_BIT : Z := Z.shiftl 1 1.
Definition PWD_UART1_CLK_BIT : Z := Z.shiftl 1 0.
Definition PWD_UART2_CLK_BIT : Z := Z.shiftl 1 1.

Definition chr_cr : Z := 13.
Definition chr_nl : Z := 10.

(** [status] is never used; [rx] and [tx] are queues. *)
Record UART_S := Uart { status : Z; rx : Z; tx : Z }.
Definition no_uart : UART_S := Uart 0 0 0.

Record uart_callback_des := CallbackDes { callback : Z; param : Z }.
Definition no_callback : uart_callback_des := CallbackDes 0 0.

Record UART_PEEK_RX_T := PeekRx { sig : Z; len : Z; ptr : option (list Z) }.

Record bk_uart_config_t := UartConfig {
  baud_rate : Z; data_width : Z; parity : Z; stop_bits : Z; flow_control : Z }.

(** What the [void *] of a control command points to. *)
Inductive uart_parm :=
  | UNull
  | UPeek (p : UART_PEEK_RX_T)
  | UConfig (c : bk_uart_config_t)
  | UCallback (d : uart_callback_des)
  | UByte (b : Z)
  | UInt (i : Z).

Record uart_st (hw : Type) := UartSt {
  u_hw : hw;
  uart : list UART_S;
  kfifos : gmap Z KFIFO_T;
  blocks : Z;
  next_block : Z;
  uart_print_port : Z;
  uart_receive_callback : list uart_callback_des;
  uart_txfifo_needwr_callback : list uart_callback_des;
  uart_tx_end_callback : list uart_callback_des;
  busy_count : Z;
}.
Arguments UartSt {hw}. Arguments u_hw {hw}. Arguments uart {hw}. Arguments kfifos {hw}. Arguments blocks {hw}.
Arguments next_block {hw}. Arguments uart_print_port {hw}. Arguments uart_receive_callback {hw}.
Arguments uart_txfifo_needwr_callback {hw}. Arguments uart_tx_end_callback {hw}. Arguments busy_count {hw}.

(** At start-up, with the next addresses of the allocator. *)
Definition uart_start {hw} (h : hw) (a : Z) : uart_st hw :=
  UartSt h [no_uart; no_uart] ∅ 0 a UART1_PORT [no_callback; no_callback] [no_callback; no_callback]
    [no_callback; no_callback] 0.

Section uart.
Context {hw : Type} `{RegBus hw}.
Context (malloc_ok : Z -> Z -> bool) (junk : Z -> list Z).
Abbreviation st := (uart_st hw).
Context (call_cb : Z -> Z -> Z -> M st unit).
Context (fuel : nat).

Definition with_hw (s : st) (h : hw) : st :=
  UartSt h (uart s) (kfifos s) (blocks s) (next_block s) (uart_print_port s) (uart_receive_callback s)
    (uart_txfifo_needwr_callback s) (uart_tx_end_callback s) (busy_count s).
Definition with_uart (s : st) (l : list UART_S) : st :=
  UartSt (u_hw s) l (kfifos s) (blocks s) (next_block s) (uart_print_port s) (uart_receive_callback s)
    (uart_txfifo_needwr_callback s) (uart_tx_end_callback s) (busy_count s).
Definition with_kfifos (s : st) (m : gmap Z KFIFO_T) (b n : Z) : st :=
  UartSt (u_hw s) (uart s) m b n (uart_print_port s) (uart_receive_callback s)
    (uart_txfifo_needwr_callback s) (uart_tx_end_callback s) (busy_count s).
Definition with_callbacks (s : st) (r n e : list uart_callback_des) : st :=
  UartSt (u_hw s) (uart s) (kfifos s) (blocks s) (next_block s) (uart_print_port s) r n e (busy_count s).
Definition with_busy (s : st) (n : Z) : st :=
  UartSt (u_hw s) (uart s) (kfifos s) (blocks s) (next_block s) (uart_print_port s) (uart_receive_callback s)
    (uart_txfifo_needwr_callback s) (uart_tx_end_callback s) n.

Definition REG_READ (a : Z) : M st Z := fun s => let '(v, h) := bus_read a (u_hw s) in Val (v, with_hw s h).
Definition REG_WRITE (a v : Z) : M st unit := modify (fun s => with_hw s (bus_write a v (u_hw s))).

(** components/power_save/mcu_ps.c *)
Definition peri_busy_count_add : M st unit := modify (fun s => with_busy s (u32 (busy_count s + 1))).
Definition peri_busy_count_dec : M st unit := modify (fun s => with_busy s (u32 (busy_count s - 1))).

(** [if (UART1_PORT == uport) r = r1; else r = r2;] *)
Definition sel (uport r1 r2 : Z) : Z := if UART1_PORT =? uport then r1 else r2.

(** ** Bytes *)

Definition uart_is_tx_fifo_empty (uport : Z) : M st Z :=
  param ← REG_READ (sel uport REG_UART1_FIFO_STATUS REG_UART2_FIFO_STATUS);
  mret (if truthy (Z.land param TX_FIFO_EMPTY) then 1 else 0).

Definition uart_is_tx_fifo_full (uport : Z) : M st Z :=
  param ← REG_READ (sel uport REG_UART1_FIFO_STATUS REG_UART2_FIFO_STATUS);
  mret (if truthy (Z.land param TX_FIFO_FULL) then 1 else 0).

(** [while (!UART1_TX_WRITE_READY);], [while (UART1_TX_FIFO_EMPTY_GET() == 0);]:
    until the status has a bit of the mask. *)
Fixpoint wait_status (n : nat) (reg mask : Z) : M st unit :=
  match n with
  | O => fail NoFuel
  | S n' => v ← REG_READ reg; if truthy (Z.land v mask) then mret tt else wait_status n' reg mask
  end.

Definition wait_write_ready (uport : Z) : M st unit :=
  wait_status fuel (sel uport REG_UART1_FIFO_STATUS REG_UART2_FIFO_STATUS) FIFO_WR_READY.

Definition UART_WRITE_BYTE (ch v : Z) : M st unit :=
  let v := Z.shiftl (Z.land v UART_TX_FIFO_DIN_MASK) UART_TX_FIFO_DIN_POSI in
  REG_WRITE (sel ch REG_UART1_FIFO_PORT REG_UART2_FIFO_PORT) v.

Definition UART_READ_BYTE (ch : Z) : M st Z :=
  v ← REG_READ (sel ch REG_UART1_FIFO_PORT REG_UART2_FIFO_PORT);
  mret (Z.land (Z.shiftr v UART_RX_FIFO_DOUT_POSI) UART_RX_FIFO_DOUT_MASK).

Definition UART_READ_BYTE_DISCARD (ch : Z) : M st unit :=
  _ ← REG_READ (sel ch REG_UART1_FIFO_PORT REG_UART2_FIFO_PORT); mret tt.

Definition bk_send_byte (uport data : Z) : M st unit :=
  wait_write_ready uport;; UART_WRITE_BYTE uport data.

Definition bkreg_send_byte (dummy_port data : Z) : M st unit :=
  s ← get; let uport := uart_print_port s in
  wait_write_ready uport;; UART_WRITE_BYTE uport data.

(** The loop over the characters before the final NUL; [before] is the
    character before the current one, [None] at the start of the string. *)
Fixpoint send_chars (uport : Z) (before : option Z) (string : list Z) : M st unit :=
  match string with
  | [] => mret tt
  | c :: string' =>
    when (c =? chr_nl) (
      when (negb (bool_decide (before = Some chr_cr))) (bk_send_byte uport chr_cr));;
    bk_send_byte uport c;;
    send_chars uport (Some c) string'
  end.

Definition bk_send_string (uport : Z) (string : list Z) : M st unit := send_chars uport None string.

(** [text] is what the format and its arguments yield; [vsnprintf] stores at
    most 126 characters and the NUL. *)
Definition bk_printf (text : list Z) : M st unit :=
  let string := take 126 text in
  s ← get; bk_send_string (uart_print_port s) string.

(** ["%02X "] *)
Definition hex_digit (d : Z) : Z := if d <? 10 then 48 + d else 55 + d.
Definition hex_text (b : Z) : list Z := [hex_digit (b / 16); hex_digit (b mod 16); 32].

Fixpoint hex_loop (b : list Z) : M st unit :=
  match b with [] => mret tt | x :: b' => bk_printf (hex_text x);; hex_loop b' end.

Definition print_hex_dump (prefix : option (list Z)) (buf : list Z) (len : Z) : M st unit :=
  match prefix with Some p => bk_printf p | None => mret tt end;;
  b ← lift_res (mem_read buf 0 (Z.max 0 len));
  hex_loop b;;
  bk_printf [chr_nl].

(** [DEAD_WHILE] never ends. *)
Definition fatal_print (text : list Z) : M st unit := bk_printf text;; fail AssertFail.

Definition uart_read_byte (uport : Z) : M st Z :=
  v ← REG_READ (sel uport REG_UART1_FIFO_STATUS REG_UART2_FIFO_STATUS);
  if truthy (Z.land v FIFO_RD_READY) then UART_READ_BYTE uport else mret (-1).

Definition uart_write_byte (uport c : Z) : M st Z :=
  wait_write_ready uport;; UART_WRITE_BYTE uport c;; mret 1.

(** ** Queues *)

Definition get_kfifo (p : Z) : M st KFIFO_T := s ← get; lift_res (of_option BadAccess (kfifos s !! p)).
Definition set_kfifo (p : Z) (f : KFIFO_T) : M st unit :=
  modify (fun s => with_kfifos s (<[p := f]> (kfifos s)) (blocks s) (next_block s)).

(** The calls of [Kfifo] on the queue at an address. *)
Definition kput (p : Z) (buffer : list Z) (n : Z) : M st Z :=
  f ← get_kfifo p; '(r, f') ← lift_res (kfifo_put f buffer n); set_kfifo p f';; mret r.
Definition kget (p : Z) (buffer : list Z) (n : Z) : M st (Z * list Z) :=
  f ← get_kfifo p; '(r, b, f') ← lift_res (kfifo_get f buffer n); set_kfifo p f';; mret (r, b).
Definition kpeek (p : Z) (buffer : list Z) (n : Z) : M st (Z * list Z) :=
  f ← get_kfifo p; lift_res (kfifo_out_peek f buffer n).

(** An action of the allocator. *)
Definition on_blocks {A} (m : M Z A) : M st A := fun s =>
  match m (blocks s) with
  | Val (a, b) => Val (a, with_kfifos s (kfifos s) b (next_block s))
  | Err f => Err f
  end.

(** The address of the queue, which no block had before. *)
Definition kalloc (size : Z) : M st Z :=
  r ← on_blocks (kfifo_alloc malloc_ok junk size);
  match r with
  | None => mret 0
  | Some f =>
    s ← get; let p := next_block s in
    put (with_kfifos s (<[p := f]> (kfifos s)) (blocks s) (p + 1));; mret p
  end.

Definition kfree (p : Z) : M st unit :=
  f ← get_kfifo p; on_blocks (kfifo_free f);;
  modify (fun s => with_kfifos s (delete p (kfifos s)) (blocks s) (next_block s)).

Definition get_uart (uport : Z) : M st UART_S := s ← get; lift_res (of_option BadAccess (zlookup (uart s) uport)).
Definition set_uart (uport : Z) (u : UART_S) : M st unit :=
  _ ← get_uart uport; modify (fun s => with_uart s (<[Z.to_nat uport := u]> (uart s))).

Definition uart_sw_init (uport : Z) : M st Z :=
  p ← kalloc RX_RB_LENGTH; u ← get_uart uport; set_uart uport (Uart (status u) p (tx u));;
  p ← kalloc TX_RB_LENGTH; u ← get_uart uport; set_uart uport (Uart (status u) (rx u) p);;
  u ← get_uart uport;
  if (tx u =? 0) || (rx u =? 0) then
    when (truthy (tx u)) (kfree (tx u));;
    when (truthy (rx u)) (kfree (rx u));;
    mret UART_FAILURE
  else mret UART_SUCCESS.

Definition uart_sw_uninit (uport : Z) : M st Z :=
  u ← get_uart uport;
  when (truthy (tx u)) (kfree (tx u));;
  when (truthy (rx u)) (kfree (rx u));;
  set_uart uport no_uart;;
  mret UART_SUCCESS.

(** ** Registers *)

Definition uart_hw_init (uport : Z) : M st unit :=
  let baud_div := Z.quot UART_CLOCK UART_BAUD_RATE in
  let baud_div := u32 (baud_div - 1) in
  let reg := Z.lor (Z.lor (Z.lor UART_TX_ENABLE (Z.ldiff UART_RX_ENABLE UART_IRDA))
      (Z.ldiff (Z.ldiff (Z.ldiff (Z.shiftl (Z.land DEF_DATA_LEN UART_DATA_LEN_MASK) UART_DATA_LEN_POSI) UART_PAR_EN)
        UART_PAR_ODD_MODE) UART_STOP_LEN_2))
    (u32 (Z.shiftl (Z.land baud_div UART_CLK_DIVID_MASK) UART_CLK_DIVID_POSI)) in
  REG_WRITE (sel uport REG_UART1_CONFIG REG_UART2_CONFIG) reg;;
  let reg := Z.lor (Z.lor (Z.shiftl (Z.land TX_FIFO_THRD TX_FIFO_THRESHOLD_MASK) TX_FIFO_THRESHOLD_POSI)
      (Z.shiftl (Z.land RX_FIFO_THRD RX_FIFO_THRESHOLD_MASK) RX_FIFO_THRESHOLD_POSI))
    (Z.shiftl (Z.land RX_STOP_DETECT_TIME32 RX_STOP_DETECT_TIME_MASK) RX_STOP_DETECT_TIME_POSI) in
  REG_WRITE (sel uport REG_UART1_FIFO_CONFIG REG_UART2_FIFO_CONFIG) reg;;
  REG_WRITE (sel uport REG_UART1_FLOW_CONFIG REG_UART2_FLOW_CONFIG) 0;;
  REG_WRITE (sel uport REG_UART1_WAKE_CONFIG REG_UART2_WAKE_CONFIG) 0;;
  let reg := Z.lor RX_FIFO_NEED_READ_EN UART_RX_STOP_END_EN in
  REG_WRITE (sel uport REG_UART1_INTR_ENABLE REG_UART2_INTR_ENABLE) reg.

(** A division by zero has no defined result. *)
Definition uart_hw_set_change (uport : Z) (uart_config : bk_uart_config_t) : M st unit :=
  REG_WRITE (sel uport REG_UART1_INTR_ENABLE REG_UART2_INTR_ENABLE) 0;;
  baud_div ← (if baud_rate uart_config =? 0 then fail BadAccess else mret (UART_CLOCK / baud_rate uart_config));
  let baud_div := u32 (baud_div - 1) in
  let width := data_width uart_config in
  let parity_en := parity uart_config in
  let stop_bits := stop_bits uart_config in
  let '(parity_en, parity_mode) :=
    if truthy parity_en then (1, if parity_en =? BK_PARITY_ODD then 1 else 0) else (parity_en, 0) in
  let reg := Z.lor (Z.lor (Z.lor (Z.lor (Z.lor (Z.lor UART_TX_ENABLE (Z.ldiff UART_RX_ENABLE UART_IRDA))
      (Z.shiftl (Z.land width UART_DATA_LEN_MASK) UART_DATA_LEN_POSI)) (Z.shiftl parity_en 5)) (Z.shiftl parity_mode 6))
      (Z.shiftl stop_bits 7)) (u32 (Z.shiftl (Z.land baud_div UART_CLK_DIVID_MASK) UART_CLK_DIVID_POSI)) in
  REG_WRITE (sel uport REG_UART1_CONFIG REG_UART2_CONFIG) (u32 reg);;
  let reg := Z.lor (Z.lor (Z.shiftl (Z.land TX_FIFO_THRD TX_FIFO_THRESHOLD_MASK) TX_FIFO_THRESHOLD_POSI)
      (Z.shiftl (Z.land RX_FIFO_THRD RX_FIFO_THRESHOLD_MASK) RX_FIFO_THRESHOLD_POSI))
    (Z.shiftl (Z.land RX_STOP_DETECT_TIME32 RX_STOP_DETECT_TIME_MASK) RX_STOP_DETECT_TIME_POSI) in
  REG_WRITE (sel uport REG_UART1_FIFO_CONFIG REG_UART2_FIFO_CONFIG) reg;;
  REG_WRITE (sel uport REG_UART1_FLOW_CONFIG REG_UART2_FLOW_CONFIG) 0;;
  REG_WRITE (sel uport REG_UART1_WAKE_CONFIG REG_UART2_WAKE_CONFIG) 0;;
  let reg := Z.lor RX_FIFO_NEED_READ_EN UART_RX_STOP_END_EN in
  REG_WRITE (sel uport REG_UART1_INTR_ENABLE REG_UART2_INTR_ENABLE) reg.

Definition uart_fifo_flush (uport : Z) : M st unit :=
  let reg_addr := sel uport REG_UART1_CONFIG REG_UART2_CONFIG in
  val ← REG_READ reg_addr;
  let reg := Z.ldiff val (Z.lor UART_TX_ENABLE UART_RX_ENABLE) in
  REG_WRITE reg_addr reg;;
  REG_WRITE reg_addr val.

Fixpoint discard_loop (uport : Z) (n : nat) : M st unit :=
  match n with O => mret tt | S n' => UART_READ_BYTE_DISCARD uport;; discard_loop uport n' end.

Definition uart_hw_uninit (uport : Z) : M st unit :=
  let intr_ena_reg_addr := sel uport REG_UART1_INTR_ENABLE REG_UART2_INTR_ENABLE in
  let conf_reg_addr := sel uport REG_UART1_CONFIG REG_UART2_CONFIG in
  let fifostatus_reg_addr := sel uport REG_UART1_FIFO_STATUS REG_UART2_FIFO_STATUS in
  reg ← REG_READ intr_ena_reg_addr;
  REG_WRITE intr_ena_reg_addr (Z.ldiff reg (Z.lor RX_FIFO_NEED_READ_EN UART_RX_STOP_END_EN));;
  uart_fifo_flush uport;;
  reg ← REG_READ conf_reg_addr;
  REG_WRITE conf_reg_addr (Z.ldiff reg (Z.lor UART_TX_ENABLE UART_RX_ENABLE));;
  reg ← REG_READ fifostatus_reg_addr;
  let rx_count := Z.land (Z.shiftr reg RX_FIFO_COUNT_POSI) RX_FIFO_COUNT_MASK in
  discard_loop uport (Z.to_nat rx_count).

Definition uart_set_tx_fifo_needwr_int (uport set : Z) : M st unit :=
  reg ← REG_READ (sel uport REG_UART1_INTR_ENABLE REG_UART2_INTR_ENABLE);
  let reg := if set =? 1 then Z.lor reg TX_FIFO_NEED_WRITE_EN else Z.ldiff reg TX_FIFO_NEED_WRITE_EN in
  REG_WRITE (sel uport REG_UART1_INTR_ENABLE REG_UART2_INTR_ENABLE) reg.

Definition uart_set_tx_stop_end_int (uport set : Z) : M st unit :=
  reg ← REG_READ (sel uport REG_UART1_INTR_ENABLE REG_UART2_INTR_ENABLE);
  let reg := if set =? 1 then Z.lor reg UART_TX_STOP_END_EN else Z.ldiff reg UART_TX_STOP_END_EN in
  REG_WRITE (sel uport REG_UART1_INTR_ENABLE REG_UART2_INTR_ENABLE) reg.

(** The divider that a [CMD_SET_BAUT] computes and where it is stored. *)
Definition set_baut (uport baud : Z) : M st unit :=
  baud_div ← (if baud =? 0 then fail BadAccess else mret (u32 (Z.quot UART_CLOCK baud)));
  let baud_div := u32 (baud_div - 1) in
  let conf_reg_addr := sel uport REG_UART1_CONFIG REG_UART2_CONFIG in
  r ← REG_READ conf_reg_addr;
  let reg := Z.ldiff r (Z.shiftl UART_CLK_DIVID_MASK UART_CLK_DIVID_POSI) in
  let reg := Z.lor reg (u32 (Z.shiftl (Z.land baud_div UART_CLK_DIVID_MASK) UART_CLK_DIVID_POSI)) in
  REG_WRITE conf_reg_addr reg.

(** ** Frames *)

(** The byte that [kfifo_get] stores into the word [val]. *)
Fixpoint write_loop (n : nat) (uport tx_ptr count len : Z) : M st Z :=
  match n with
  | O => fail NoFuel
  | S n' =>
    '(ret, val) ← kget tx_ptr [0] 1;
    if 0 =? ret then mret len
    else
      bk_send_byte uport (default 0 (head val));;
      let len := u32 (len + ret) in
      if count <=? len then mret len else write_loop n' uport tx_ptr count len
  end.

Definition uart_write_fifo_frame (uport tx_ptr count : Z) : M st Z := write_loop fuel uport tx_ptr count 0.

Definition uart_send_backgroud : M st unit :=
  u ← get_uart UART2_PORT;
  _ ← uart_write_fifo_frame UART2_PORT (tx u) DEBUG_PRT_MAX_CNT; mret tt.

Fixpoint read_loop (n : nat) (uport rx_ptr unused rx_count : Z) : M st Z :=
  match n with
  | O => fail NoFuel
  | S n' =>
    status ← REG_READ (sel uport REG_UART1_FIFO_STATUS REG_UART2_FIFO_STATUS);
    if truthy (Z.land status FIFO_RD_READY) then
      val ← UART_READ_BYTE uport;
      rx_count ← (if rx_count <? unused then r ← kput rx_ptr (word_to_le 4 val) 1; mret (u32 (rx_count + r))
                  else mret rx_count);
      read_loop n' uport rx_ptr unused rx_count
    else mret rx_count
  end.

(** "uart rx fifo full\r\n" *)
Definition full_text : list Z := [117; 97; 114; 116; 32; 114; 120; 32; 102; 105; 102; 111; 32; 102; 117; 108; 108; 13; 10].

Definition uart_read_fifo_frame (uport rx_ptr : Z) : M st Z :=
  f ← get_kfifo rx_ptr;
  let unused := kfifo_unused f in
  rx_count ← read_loop fuel uport rx_ptr unused 0;
  when (unused <=? rx_count) (bk_printf full_text);;
  mret rx_count.

(** ** Callbacks *)

(** Which of the two table entries a setter changes: [None] for an unknown port. *)
Definition cb_index (uport : Z) : option nat :=
  if uport =? UART1_PORT then Some 0%nat else if uport =? UART2_PORT then Some 1%nat else None.

Definition uart_rx_callback_set (uport cb p : Z) : M st Z :=
  match cb_index uport with
  | Some i => modify (fun s => with_callbacks s (<[i := CallbackDes cb p]> (uart_receive_callback s))
      (uart_txfifo_needwr_callback s) (uart_tx_end_callback s));; mret 0
  | None => mret (-1)
  end.

Definition uart_tx_fifo_needwr_callback_set (uport cb p : Z) : M st Z :=
  match cb_index uport with
  | Some i => modify (fun s => with_callbacks s (uart_receive_callback s)
      (<[i := CallbackDes cb p]> (uart_txfifo_needwr_callback s)) (uart_tx_end_callback s));; mret 0
  | None => mret (-1)
  end.

Definition uart_tx_end_callback_set (uport cb p : Z) : M st Z :=
  match cb_index uport with
  | Some i => modify (fun s => with_callbacks s (uart_receive_callback s) (uart_txfifo_needwr_callback s)
      (<[i := CallbackDes cb p]> (uart_tx_end_callback s)));; mret 0
  | None => mret (-1)
  end.

(** [if (tbl[i].callback != 0) tbl[i].callback(port, tbl[i].param); else other] *)
Definition run_callback (tbl : st -> list uart_callback_des) (i : nat) (uport : Z) (other : M st unit) : M st unit :=
  s ← get; d ← lift_res (of_option BadAccess (tbl s !! i));
  if truthy (callback d) then call_cb (callback d) uport (param d) else other.

(** ** Interrupts

    The two handlers differ in the port alone, [i] in the tables. *)
Definition uart_isr (uport : Z) (i : nat) : M st unit :=
  intr_en ← REG_READ (sel uport REG_UART1_INTR_ENABLE REG_UART2_INTR_ENABLE);
  intr_status ← REG_READ (sel uport REG_UART1_INTR_STATUS REG_UART2_INTR_STATUS);
  REG_WRITE (sel uport REG_UART1_INTR_STATUS REG_UART2_INTR_STATUS) intr_status;;
  let status := Z.land intr_status intr_en in
  when (truthy (Z.land status (Z.lor RX_FIFO_NEED_READ_STA UART_RX_STOP_END_STA))) (
    u ← get_uart uport;
    _ ← uart_read_fifo_frame uport (rx u);
    run_callback uart_receive_callback i uport (_ ← uart_read_byte uport; mret tt));;
  when (truthy (Z.land status TX_FIFO_NEED_WRITE_STA)) (
    run_callback uart_txfifo_needwr_callback i uport (mret tt));;
  when (truthy (Z.land status UART_RX_PARITY_ERR_STA)) (uart_fifo_flush uport);;
  when (truthy (Z.land status UART_TX_STOP_END_STA)) (run_callback uart_tx_end_callback i uport (mret tt)).

Definition uart1_isr : M st unit := uart_isr UART1_PORT 0.
Definition uart2_isr : M st unit := uart_isr UART2_PORT 1.

(** ** The device *)

Definition uart1_open (op_flag : Z) : M st Z := mret UART_SUCCESS.
Definition uart1_close : M st Z := mret UART_SUCCESS.
Definition uart2_open (op_flag : Z) : M st Z := mret UART_SUCCESS.
Definition uart2_close : M st Z := mret UART_SUCCESS.

Definition uart_read (uport : Z) (user_buf : list Z) (count : Z) : M st (Z * list Z) :=
  u ← get_uart uport; kget (rx u) user_buf count.
Definition uart_write (uport : Z) (user_buf : list Z) (count : Z) : M st Z :=
  u ← get_uart uport; kput (tx u) user_buf count.

Definition uart1_read (user_buf : list Z) (count op_flag : Z) : M st (Z * list Z) := uart_read UART1_PORT user_buf count.
Definition uart1_write (user_buf : list Z) (count op_flag : Z) : M st Z := uart_write UART1_PORT user_buf count.
Definition uart2_read (user_buf : list Z) (count op_flag : Z) : M st (Z * list Z) := uart_read UART2_PORT user_buf count.
Definition uart2_write (user_buf : list Z) (count op_flag : Z) : M st Z := uart_write UART2_PORT user_buf count.

(** The commands that act on the driver alone; the result, and the buffer of a
    peek behind the call. *)
Definition uart_cmd (uport cmd : Z) (parm : uart_parm) : M st (Z * list Z) :=
  let set_cb (f : Z -> Z -> Z -> M st Z) :=
    match parm with
    | UNull => _ ← f uport 0 0; mret (UART_SUCCESS, [])
    | UCallback d => _ ← f uport (callback d) (param d); mret (UART_SUCCESS, [])
    | _ => fail BadAccess
    end in
  if cmd =? CMD_RX_COUNT then u ← get_uart uport; f ← get_kfifo (rx u); mret (kfifo_data_size f, [])
  else if cmd =? CMD_RX_PEEK then
    match parm with
    | UPeek peek =>
      if negb (negb (URX_PEEK_SIG =? sig peek) || bool_decide (ptr peek = None) || (0 =? len peek)) then
        u ← get_uart uport; kpeek (rx u) (default [] (ptr peek)) (len peek)
      else mret (UART_SUCCESS, default [] (ptr peek))
    | _ => fail BadAccess
    end
  else if cmd =? CMD_UART_INIT then
    match parm with UConfig c => uart_hw_set_change uport c;; mret (UART_SUCCESS, []) | _ => fail BadAccess end
  else if cmd =? CMD_UART_SET_RX_CALLBACK then set_cb uart_rx_callback_set
  else if cmd =? CMD_UART_SET_TX_CALLBACK then set_cb uart_tx_end_callback_set
  else if cmd =? CMD_UART_SET_TX_FIFO_NEEDWR_CALLBACK then set_cb uart_tx_fifo_needwr_callback_set
  else if cmd =? CMD_SET_STOP_END then
    match parm with UByte b => uart_set_tx_stop_end_int uport b;; mret (UART_SUCCESS, []) | _ => fail BadAccess end
  else if cmd =? CMD_SET_TX_FIFO_NEEDWR_INT then
    match parm with UByte b => uart_set_tx_fifo_needwr_int uport b;; mret (UART_SUCCESS, []) | _ => fail BadAccess end
  else if cmd =? CMD_SET_BAUT then
    match parm with UInt baud => set_baut uport baud;; mret (UART_SUCCESS, []) | _ => fail BadAccess end
  else mret (UART_SUCCESS, []).

(** Microseconds, and when both units have sent everything. *)
Definition uart_wait_tx_over : M st Z :=
  r1 ← REG_READ REG_UART1_CONFIG;
  let baudrate1 := UART_CLOCK / (Z.land (Z.shiftr r1 UART_CLK_DIVID_POSI) UART_CLK_DIVID_MASK + 1) in
  r2 ← REG_READ REG_UART2_CONFIG;
  let baudrate2 := UART_CLOCK / (Z.land (Z.shiftr r2 UART_CLK_DIVID_POSI) UART_CLK_DIVID_MASK + 1) in
  n2 ← REG_READ REG_UART2_FIFO_STATUS;
  n1 ← REG_READ REG_UART1_FIFO_STATUS;
  let count2 := Z.land (Z.shiftr n2 TX_FIFO_COUNT_POSI) TX_FIFO_COUNT_MASK in
  let count1 := Z.land (Z.shiftr n1 TX_FIFO_COUNT_POSI) TX_FIFO_COUNT_MASK in
  let uart_wait_us := u32 (u32 (u32 (1000000 * count2) * 10) / baudrate2 + u32 (u32 (1000000 * count1) * 10) / baudrate1) in
  wait_status fuel REG_UART2_FIFO_STATUS TX_FIFO_EMPTY;;
  wait_status fuel REG_UART1_FIFO_STATUS TX_FIFO_EMPTY;;
  mret uart_wait_us.
End uart.

(** ** Start and stop, over the registry and the interrupt table

    The driver's state is behind the interrupt table, which is behind the
    registry. *)
Section system.
Context {hw : Type} `{RegBus hw}.
Context (malloc_ok : Z -> Z -> bool) (junk : Z -> list Z).
Context (fuel : nat).
Abbreviation sys := (intc_st (uart_st hw)).
Abbreviation all := (drv_state (intc_st (uart_st hw))).
Context (sdev_ops : Z -> SDD_OPERATIONS sys).
Context (uart1_op uart2_op : Z) (uart1_isr_addr uart2_isr_addr : Z).

Definition on_uart {A} (m : M (uart_st hw) A) : M all A := call (on_ext m).

(** [param = v; sddev_control(name, cmd, &param)] *)
Definition control_word (name : string) (cmd v : Z) : M all unit := _ ← sddev_control sdev_ops (Some name) cmd v; mret tt.

Definition uart_init (uport : Z) (name : string) (op irq pri isr clk_bit mode irq_bit : Z) : M all unit :=
  ret ← on_uart (uart_sw_init malloc_ok junk uport);
  assert (UART_SUCCESS =? ret);;
  _ ← ddev_register_dev (Some name) (Some op);
  call (intc_service_register fuel irq pri isr);;
  control_word ICU_DEV_NAME CMD_CLK_PWR_UP clk_bit;;
  control_word GPIO_DEV_NAME CMD_GPIO_ENABLE_SECOND mode;;
  on_uart (uart_hw_init uport);;
  intr_status ← on_uart (REG_READ (sel uport REG_UART1_INTR_STATUS REG_UART2_INTR_STATUS));
  on_uart (REG_WRITE (sel uport REG_UART1_INTR_STATUS REG_UART2_INTR_STATUS) intr_status);;
  control_word ICU_DEV_NAME CMD_ICU_INT_ENABLE irq_bit.

Definition uart1_init : M all unit :=
  uart_init UART1_PORT UART1_DEV_NAME uart1_op IRQ_UART1 PRI_IRQ_UART1 uart1_isr_addr PWD_UART1_CLK_BIT
    GFUNC_MODE_UART1 IRQ_UART1_BIT.
Definition uart2_init : M all unit :=
  uart_init UART2_PORT UART2_DEV_NAME uart2_op IRQ_UART2 PRI_IRQ_UART2 uart2_isr_addr PWD_UART2_CLK_BIT
    GFUNC_MODE_UART2 IRQ_UART2_BIT.

Definition uart_exit (uport : Z) (name : string) (irq_bit : Z) : M all unit :=
  control_word ICU_DEV_NAME CMD_ICU_INT_DISABLE irq_bit;;
  on_uart (uart_hw_uninit uport);;
  _ ← ddev_unregister_dev (Some name);
  _ ← on_uart (uart_sw_uninit uport);
  mret tt.

Definition uart1_exit : M all unit := uart_exit UART1_PORT UART1_DEV_NAME IRQ_UART1_BIT.
Definition uart2_exit : M all unit := uart_exit UART2_PORT UART2_DEV_NAME IRQ_UART2_BIT.

Definition uart_reset (uport : Z) : M all unit :=
  if UART1_PORT =? uport then uart1_exit;; uart1_init else uart2_exit;; uart2_init.

Definition uart1_ctrl (cmd : Z) (parm : uart_parm) : M all (Z * list Z) :=
  on_uart peri_busy_count_add;;
  ret ← (if cmd =? CMD_SEND_BACKGROUND then mret (UART_SUCCESS, [])
         else if cmd =? CMD_UART_RESET then uart_reset UART1_PORT;; mret (UART_SUCCESS, [])
         else on_uart (uart_cmd UART1_PORT cmd parm));
  on_uart peri_busy_count_dec;;
  mret ret.

Definition uart2_ctrl (cmd : Z) (parm : uart_parm) : M all (Z * list Z) :=
  on_uart peri_busy_count_add;;
  ret ← (if cmd =? CMD_SEND_BACKGROUND then on_uart (uart_send_backgroud fuel);; mret (UART_SUCCESS, [])
         else if cmd =? CMD_UART_RESET then uart_reset UART2_PORT;; mret (UART_SUCCESS, [])
         else on_uart (uart_cmd UART2_PORT cmd parm));
  on_uart peri_busy_count_dec;;
  mret ret.
End system.
