(* ===== verification/UartCorrect.v ===== *)
(** * What the UART driver guarantees

    Strings and bytes go out in order with line ends translated; an interrupt
    takes the bytes the unit delivers into the queue, as far as it has room; any
    run of interrupts and device calls is a pair of bounded queues; start-up
    through the registry; the divider of the baud rate.  Everything is proved
    for any hardware in [UartSpec]. *)
From stdpp Require Import gmap strings.
From S2P Require Import Prelude DrvModel Kfifo Icu Intc UartHw Uart.
Local Open Scope Z_scope.

Definition port_of (uport : Z) : port := if UART1_PORT =? uport then P1 else P2.

Definition none : port -> list Z := fun _ => [].
Definition only (p : port) (l : list Z) : port -> list Z := fun q => if decide (q = p) then l else [].

Section hardware.
Context {hw : Type} `{UartSpec hw}.
Implicit Types h : hw.

(** From [h] to [h'] the driver wrote [sent] to the ports and [ack] to their
    interrupt status, and the control registers are the same. *)
Definition did (sent ack : port -> list Z) (h h' : hw) : Prop :=
  uart_ok h' /\ forall q,
    tx_sent (unit_of h' q) = tx_sent (unit_of h q) ++ sent q /\ acked (unit_of h' q) = acked (unit_of h q) ++ ack q /\
    forall n, ctl_index n = true -> ctl (unit_of h' q) n = ctl (unit_of h q) n.

(** Bytes waiting stay in front of what arrives. *)
Definition keeps (q : port) (h h' : hw) : Prop :=
  rx_bytes (unit_of h q) <> [] -> rx_bytes (unit_of h' q) = rx_bytes (unit_of h q).

Lemma did_refl h : uart_ok h -> did none none h h.
Proof. intros Ho. split; [done|]. intros q. by rewrite !app_nil_r. Qed.

Lemma did_trans s1 a1 s2 a2 s a h h' h'' : did s1 a1 h h' -> did s2 a2 h' h'' ->
  (forall q, s q = s1 q ++ s2 q) -> (forall q, a q = a1 q ++ a2 q) -> did s a h h''.
Proof.
  intros [_ H1] [Ho H2] Hs Ha. split; [done|]. intros q. destruct (H1 q) as (A1 & A2 & A3), (H2 q) as (B1 & B2 & B3).
  rewrite Hs, Ha, !app_assoc, <- A1, <- A2. split_and!; [done..|]. intros n Hn. by rewrite B3, A3.
Qed.

Lemma did_none s a h h' h'' : did none none h h' -> did s a h' h'' -> did s a h h''.
Proof. intros H1 H2. by eapply did_trans. Qed.

Lemma did_none_r s a h h' h'' : did s a h h' -> did none none h' h'' -> did s a h h''.
Proof. intros H1 H2. eapply did_trans; [done..| |]; intros q; by rewrite app_nil_r. Qed.

Lemma keeps_refl q h : keeps q h h.
Proof. by intros ?. Qed.

Lemma keeps_trans q h h' h'' : keeps q h h' -> keeps q h' h'' -> keeps q h h''.
Proof. unfold keeps. intros H1 H2 Hne. rewrite H2, H1; [done|done|]. by rewrite H1. Qed.

Lemma passes_did h h' : uart_ok h' -> (forall q, passes (unit_of h q) (unit_of h' q)) -> did none none h h'.
Proof.
  intros Ho Hp. split; [done|]. intros q. destruct (Hp q) as (_ & A1 & A2 & A3). unfold none. rewrite !app_nil_r. by split_and!.
Qed.

Lemma passes_keeps q h h' : passes (unit_of h q) (unit_of h' q) -> keeps q h h'.
Proof. by intros [E _] _. Qed.

(** All units but [p] by [passes], and [p] as told. *)
Lemma did_at p s a h h' : uart_ok h' ->
  tx_sent (unit_of h' p) = tx_sent (unit_of h p) ++ s -> acked (unit_of h' p) = acked (unit_of h p) ++ a ->
  (forall n, ctl_index n = true -> ctl (unit_of h' p) n = ctl (unit_of h p) n) ->
  (forall q, q <> p -> passes (unit_of h q) (unit_of h' q)) -> did (only p s) (only p a) h h'.
Proof.
  intros Ho H1 H2 H3 Hp. split; [done|]. intros q. unfold only. destruct (decide (q = p)) as [->|Hq]; [done|].
  destruct (Hp q Hq) as (_ & A1 & A2 & A3). rewrite !app_nil_r. by split_and!.
Qed.

Lemma only_nil p q : only p [] q = [].
Proof. unfold only. by destruct (decide (q = p)). Qed.

Lemma did_only_nil p h h' : did (only p []) (only p []) h h' -> did none none h h'.
Proof. intros [Ho Hd]. split; [done|]. intros q. specialize (Hd q). by rewrite !only_nil in Hd. Qed.

Lemma did_only_refl p h : uart_ok h -> did (only p []) none h h.
Proof. intros Ho. split; [done|]. intros q. by rewrite only_nil, !app_nil_r. Qed.

Lemma did_only_ack p s h h' : did (only p s) (only p []) h h' -> did (only p s) none h h'.
Proof. intros [Ho Hd]. split; [done|]. intros q. specialize (Hd q). by rewrite !only_nil in Hd. Qed.

Lemma same_doing_did p h h' : uart_ok h' -> same_doing (unit_of h p) (unit_of h' p) ->
  (forall q, q <> p -> passes (unit_of h q) (unit_of h' q)) -> did none none h h'.
Proof.
  intros Ho (A1 & A2 & A3) Hp. apply (did_only_nil p). apply did_at; [done|by rewrite app_nil_r..|done|done].
Qed.
End hardware.

Lemma sel_reg uport n : sel uport (UART1_BASE_ADDR + 4 * n) (UART2_BASE_ADDR + 4 * n) = port_reg (port_of uport) n.
Proof. unfold sel, port_of, port_reg. by destruct (UART1_PORT =? uport). Qed.

(** ** Register accesses *)
Section access.
Context {hw : Type} `{UartSpec hw}.
Abbreviation st := (uart_st hw).
Implicit Types s : st.

Lemma with_hw_twice s h h' : with_hw (with_hw s h) h' = with_hw s h'.
Proof. done. Qed.
Lemma with_hw_same s : with_hw s (u_hw s) = s.
Proof. by destruct s. Qed.

Lemma read_wp (a : Z) s v h (Q : Z -> st -> Prop) : bus_read a (u_hw s) = (v, h) -> Q v (with_hw s h) -> wp (REG_READ a) s Q.
Proof. intros E HQ. unfold wp, REG_READ. by rewrite E. Qed.

Lemma write_wp (a v : Z) s (Q : unit -> st -> Prop) : Q tt (with_hw s (bus_write a v (u_hw s))) -> wp (REG_WRITE a v) s Q.
Proof. exact id. Qed.

Lemma status_wp p s (Q : Z -> st -> Prop) : uart_ok (u_hw s) ->
  (forall v h', Z.testbit v 21 = negb (bool_decide (rx_bytes (unit_of (u_hw s) p) = [])) ->
    Z.testbit v 20 = bool_decide (tx_wait (unit_of (u_hw s) p) = 0%nat) ->
    Z.testbit v 17 = bool_decide (tx_drain (unit_of (u_hw s) p) = 0%nat) ->
    is_u32 v -> did none none (u_hw s) h' -> (forall q, keeps q (u_hw s) h') ->
    tx_wait (unit_of h' p) = pred (tx_wait (unit_of (u_hw s) p)) ->
    tx_drain (unit_of h' p) = pred (tx_drain (unit_of (u_hw s) p)) -> Q v (with_hw s h')) ->
  wp (REG_READ (port_reg p 2)) s Q.
Proof.
  intros Ho HQ. destruct (uart_read_status (u_hw s) p Ho) as (v & h' & E & Ho' & Hv & B1 & B2 & B3 & Hd & Hk & Hw & Hdr & Hp).
  apply (read_wp _ _ _ _ _ E). apply HQ; try done; [by apply (same_doing_did p)|].
  intros q. destruct (decide (q = p)) as [->|Hq]; [done|]. apply passes_keeps. by apply Hp.
Qed.

(** The two waits: for room, and for everything to be sent. *)
Lemma wait_ready_wp p n : forall s (Q : unit -> st -> Prop), uart_ok (u_hw s) -> (tx_wait (unit_of (u_hw s) p) < n)%nat ->
  (forall h', did none none (u_hw s) h' -> (forall q, keeps q (u_hw s) h') -> tx_wait (unit_of h' p) = 0%nat -> Q tt (with_hw s h')) ->
  wp (wait_status n (port_reg p 2) FIFO_WR_READY) s Q.
Proof.
  induction n as [|n IH]; intros s Q Ho Hn HQ; [lia|]. cbn [wait_status]. apply wp_bind. apply status_wp; [done|].
  intros v h' _ B2 _ _ Hd Hk Hw _. change FIFO_WR_READY with (2 ^ 20). rewrite truthy_land_pow2, B2 by lia.
  case_bool_decide as E0.
  - apply wp_ret. apply HQ; [done|done|]. by rewrite Hw, E0.
  - apply IH; [apply Hd|cbn [u_hw with_hw]; lia|]. intros h2 Hd2 Hk2 Hw2. rewrite with_hw_twice. apply HQ; [by eapply did_none| |done].
    intros q. eapply keeps_trans; [apply Hk|apply Hk2].
Qed.

Lemma wait_empty_wp p n : forall s (Q : unit -> st -> Prop), uart_ok (u_hw s) -> (tx_drain (unit_of (u_hw s) p) < n)%nat ->
  (forall h', did none none (u_hw s) h' -> tx_drain (unit_of h' p) = 0%nat -> Q tt (with_hw s h')) ->
  wp (wait_status n (port_reg p 2) TX_FIFO_EMPTY) s Q.
Proof.
  induction n as [|n IH]; intros s Q Ho Hn HQ; [lia|]. cbn [wait_status]. apply wp_bind. apply status_wp; [done|].
  intros v h' _ _ B3 _ Hd _ _ Hw. change TX_FIFO_EMPTY with (2 ^ 17). rewrite truthy_land_pow2, B3 by lia.
  case_bool_decide as E0.
  - apply wp_ret. apply HQ; [done|]. by rewrite Hw, E0.
  - apply IH; [apply Hd|cbn [u_hw with_hw]; lia|]. intros h2 Hd2 Hw2. rewrite with_hw_twice. apply HQ; [by eapply did_none|done].
Qed.

Section sending.
Context (fuel : nat) (Hfuel : (wait_max < fuel)%nat).

Lemma ready_wp uport s (Q : unit -> st -> Prop) : uart_ok (u_hw s) ->
  (forall h', did none none (u_hw s) h' -> (forall q, keeps q (u_hw s) h') -> tx_wait (unit_of h' (port_of uport)) = 0%nat ->
    Q tt (with_hw s h')) -> wp (wait_write_ready fuel uport) s Q.
Proof using Hfuel.
  intros Ho HQ. unfold wait_write_ready, REG_UART1_FIFO_STATUS, REG_UART2_FIFO_STATUS. rewrite sel_reg.
  apply wait_ready_wp; [done| |done]. pose proof (uart_bounds _ (port_of uport) Ho). lia.
Qed.

Lemma send_byte_wp uport data s (Q : unit -> st -> Prop) : uart_ok (u_hw s) ->
  (forall h', did (only (port_of uport) [data mod 256]) none (u_hw s) h' -> (forall q, keeps q (u_hw s) h') -> Q tt (with_hw s h')) ->
  wp (bk_send_byte fuel uport data) s Q.
Proof using Hfuel.
  intros Ho HQ. apply wp_bind, ready_wp; [done|]. intros h Hd Hk Hw. unfold UART_WRITE_BYTE.
  unfold REG_UART1_FIFO_PORT, REG_UART2_FIFO_PORT. rewrite sel_reg. apply write_wp.
  change (Z.shiftl ?x UART_TX_FIFO_DIN_POSI) with (Z.shiftl x 0). rewrite Z.shiftl_0_r.
  change (Z.land data UART_TX_FIFO_DIN_MASK) with (Z.land data 255). rewrite land_0xff.
  cbn [u_hw with_hw]. rewrite with_hw_twice.
  destruct (uart_write_data h (port_of uport) (data mod 256) (proj1 Hd) Hw) as (Ho' & A1 & A2 & A3 & A4 & A5).
  rewrite Z.mod_mod in A1 by lia. apply HQ.
  - eapply did_none; [exact Hd|]. apply did_only_ack. apply did_at; [done|done|by rewrite A3, app_nil_r|done|done].
  - intros q. eapply keeps_trans; [apply Hk|]. destruct (decide (q = port_of uport)) as [->|Hq]; [by intros _|].
    apply passes_keeps. by apply A5.
Qed.

(** What a string becomes: a carriage return before every line feed that does
    not follow one. *)
Fixpoint crlf (before : option Z) (string : list Z) : list Z :=
  match string with
  | [] => []
  | c :: string' =>
    (if (c =? chr_nl) && negb (bool_decide (before = Some chr_cr)) then [chr_cr; c] else [c]) ++ crlf (Some c) string'
  end.

Lemma only_app p l1 l2 q : only p (l1 ++ l2) q = only p l1 q ++ only p l2 q.
Proof. unfold only. by destruct (decide (q = p)). Qed.

Lemma send_chars_wp uport string : Forall is_u8 string -> forall before s (Q : unit -> st -> Prop), uart_ok (u_hw s) ->
  (forall h', did (only (port_of uport) (crlf before string)) none (u_hw s) h' -> (forall q, keeps q (u_hw s) h') -> Q tt (with_hw s h')) ->
  wp (send_chars fuel uport before string) s Q.
Proof using Hfuel.
  induction 1 as [|c string Hc Hs IH]; intros before s Q Ho HQ; cbn [send_chars].
  - apply wp_ret. rewrite <- (with_hw_same s). apply HQ; [|intros q; apply keeps_refl]. by apply did_only_refl.
  - set (first := (c =? chr_nl) && negb (bool_decide (before = Some chr_cr))).
    assert (Hrest : forall h1 s1, did (only (port_of uport) (if first then [chr_cr] else [])) none (u_hw s) h1 ->
      (forall q, keeps q (u_hw s) h1) -> s1 = with_hw s h1 ->
      wp (bk_send_byte fuel uport c;; send_chars fuel uport (Some c) string) s1 Q).
    { intros h1 s1 Hd Hk ->. apply wp_bind, send_byte_wp; [apply Hd|]. intros h2 Hd2 Hk2. apply IH; [apply Hd2|].
      intros h3 Hd3 Hk3. apply HQ; [|intros q; eapply keeps_trans; [|apply Hk3]; eapply keeps_trans; [apply Hk|apply Hk2]].
      eapply did_trans; [exact Hd|eapply did_trans; [exact Hd2|exact Hd3|done|done]| |done].
      intros q. cbn [crlf]. fold first. unfold is_u8 in Hc. rewrite (Z.mod_small c) by lia. rewrite <- !only_app. by destruct first. }
    apply wp_bind. apply wp_when. unfold first in Hrest. destruct (c =? chr_nl); cbn [andb] in Hrest.
    + apply wp_when. destruct (negb _).
      * apply send_byte_wp; [done|]. intros h1 Hd Hk. by apply (Hrest h1).
      * apply (Hrest (u_hw s)); [|intros q; apply keeps_refl|by rewrite with_hw_same]. by apply did_only_refl.
    + apply (Hrest (u_hw s)); [|intros q; apply keeps_refl|by rewrite with_hw_same]. by apply did_only_refl.
Qed.
End sending.
End access.

(** A sent string has a carriage return before every line feed, is the string
    but for carriage returns, and is the string itself when that needs none. *)
Fixpoint crlf_ok (before : option Z) (string : list Z) : bool :=
  match string with
  | [] => true
  | c :: string' => (negb (c =? chr_nl) || bool_decide (before = Some chr_cr)) && crlf_ok (Some c) string'
  end.

Definition not_cr (c : Z) : Prop := c <> chr_cr.

Lemma crlf_translates string : forall before, crlf_ok before (crlf before string) = true.
Proof.
  induction string as [|c string IH]; intros before; [done|]. cbn [crlf].
  destruct (Z.eqb_spec c chr_nl) as [->|Hc]; cbn [andb].
  - case_bool_decide as Hb; cbn [negb app crlf_ok]; rewrite IH, andb_true_r; [by rewrite bool_decide_true, orb_true_r by done|done].
  - cbn [app crlf_ok]. by rewrite IH, (proj2 (Z.eqb_neq _ _)) by done.
Qed.

Lemma crlf_same string : forall before, crlf_ok before string = true -> crlf before string = string.
Proof.
  induction string as [|c string IH]; intros before; [done|]. cbn [crlf crlf_ok]. intros [Hc Hs]%andb_prop.
  rewrite IH by done. destruct (c =? chr_nl); [|done]. cbn [negb orb andb] in *. by rewrite Hc.
Qed.

Lemma crlf_content string : forall before, filter not_cr (crlf before string) = filter not_cr string.
Proof.
  induction string as [|c string IH]; intros before; [done|]. cbn [crlf]. rewrite list.filter_app, IH, (filter_cons _ c string).
  destruct ((c =? chr_nl) && _); rewrite ?filter_cons, ?filter_nil; by repeat case_decide.
Qed.

(** ** Queues at addresses *)
Section queues.
Context {hw : Type} `{UartSpec hw}.
Abbreviation st := (uart_st hw).
Implicit Types s : st.

(** The queue of [size] bytes at [p] holds [q]. *)
Definition queue_at (m : gmap Z KFIFO_T) (p size : Z) (q : list Z) : Prop :=
  exists f, m !! p = Some f /\ fifo_ok f /\ f_size f = size /\ fifo_queue f = q.

Definition set_queue s (p : Z) (f : KFIFO_T) : st := with_kfifos s (<[p := f]> (kfifos s)) (blocks s) (next_block s).

Lemma get_kfifo_wp p f s (Q : KFIFO_T -> st -> Prop) : kfifos s !! p = Some f -> Q f s -> wp (get_kfifo p) s Q.
Proof. intros E HQ. unfold wp, get_kfifo, get, lift_res, of_option, mbind, M_bind. by rewrite E. Qed.

Lemma kput_wp p f buffer n s (Q : Z -> st -> Prop) : kfifos s !! p = Some f -> fifo_ok f -> is_u32 n ->
  n <= Z.of_nat (length buffer) ->
  (forall f', let r := Z.min n (f_size f - Z.of_nat (length (fifo_queue f))) in
    fifo_ok f' -> f_size f' = f_size f -> fifo_queue f' = fifo_queue f ++ take (Z.to_nat r) buffer -> Q r (set_queue s p f')) ->
  wp (kput p buffer n) s Q.
Proof.
  intros Ef Hok Hn Hl HQ. apply wp_bind. apply (get_kfifo_wp _ f); [done|].
  destruct (kfifo_put_spec f Hok buffer n Hn Hl) as (f' & E & Hok' & Hs & Hq). apply wp_bind.
  apply (wp_intro _ _ _ _ _ (f_equal (fun r => match r with Val a => Val (a, s) | Err e => Err e end) E)).
  apply HQ; done.
Qed.

Lemma kget_wp p f buffer n s (Q : Z * list Z -> st -> Prop) : kfifos s !! p = Some f -> fifo_ok f -> is_u32 n ->
  n <= Z.of_nat (length buffer) ->
  (forall f', let r := Z.min n (Z.of_nat (length (fifo_queue f))) in
    fifo_ok f' -> f_size f' = f_size f -> fifo_queue f' = drop (Z.to_nat r) (fifo_queue f) ->
    Q (r, take (Z.to_nat r) (fifo_queue f) ++ drop (Z.to_nat r) buffer) (set_queue s p f')) ->
  wp (kget p buffer n) s Q.
Proof.
  intros Ef Hok Hn Hl HQ. apply wp_bind. apply (get_kfifo_wp _ f); [done|].
  destruct (kfifo_get_spec f Hok buffer n Hn Hl) as (f' & E & Hok' & Hs & Hq). apply wp_bind.
  apply (wp_intro _ _ _ _ _ (f_equal (fun r => match r with Val a => Val (a, s) | Err e => Err e end) E)).
  apply HQ; done.
Qed.

Lemma kpeek_wp p f buffer n s (Q : Z * list Z -> st -> Prop) : kfifos s !! p = Some f -> fifo_ok f -> is_u32 n ->
  n <= Z.of_nat (length buffer) ->
  (let r := Z.min n (Z.of_nat (length (fifo_queue f))) in
    Q (r, take (Z.to_nat r) (fifo_queue f) ++ drop (Z.to_nat r) buffer) s) ->
  wp (kpeek p buffer n) s Q.
Proof.
  intros Ef Hok Hn Hl HQ. apply wp_bind. apply (get_kfifo_wp _ f); [done|].
  pose proof (kfifo_peek_spec f Hok buffer n Hn Hl) as E.
  apply (wp_intro _ _ _ _ _ (f_equal (fun r => match r with Val a => Val (a, s) | Err e => Err e end) E)). exact HQ.
Qed.

(** Reading a byte that is there. *)
Lemma read_byte_wp uport b l s (Q : Z -> st -> Prop) : uart_ok (u_hw s) ->
  rx_bytes (unit_of (u_hw s) (port_of uport)) = b :: l ->
  (forall h', did none none (u_hw s) h' -> rx_bytes (unit_of h' (port_of uport)) = l ->
    (forall q, q <> port_of uport -> keeps q (u_hw s) h') -> Q b (with_hw s h')) -> wp (UART_READ_BYTE uport) s Q.
Proof.
  intros Ho Hrx HQ. apply wp_bind. unfold REG_UART1_FIFO_PORT, REG_UART2_FIFO_PORT. rewrite sel_reg.
  destruct (uart_read_data (u_hw s) (port_of uport) Ho) as (v & h' & E & Ho' & Hv & Hs & Hb & Hp).
  apply (read_wp _ _ _ _ _ E). destruct (Hb b l Hrx) as [Hval Hl]. apply wp_ret.
  change UART_RX_FIFO_DOUT_POSI with 8. change UART_RX_FIFO_DOUT_MASK with 255. rewrite land_0xff, Z.shiftr_div_pow2 by lia.
  change (2 ^ 8) with 256. rewrite Hval. apply HQ; [by apply (same_doing_did (port_of uport))|done|].
  intros q Hq. apply passes_keeps. by apply Hp.
Qed.

(** Behind the loop: what fitted is in the queue, and the rest is gone. *)
Lemma read_loop_wp uport ptr l : Forall is_u8 l -> forall n f c s (Q : Z -> st -> Prop), uart_ok (u_hw s) ->
  rx_bytes (unit_of (u_hw s) (port_of uport)) = l -> kfifos s !! ptr = Some f -> fifo_ok f -> (length l < n)%nat ->
  0 <= c -> c + (f_size f - Z.of_nat (length (fifo_queue f))) < 4294967296 ->
  let room := f_size f - Z.of_nat (length (fifo_queue f)) in
  (forall f' h', fifo_ok f' -> f_size f' = f_size f -> fifo_queue f' = fifo_queue f ++ take (Z.to_nat room) l ->
    did none none (u_hw s) h' -> (forall q, q <> port_of uport -> keeps q (u_hw s) h') ->
    Q (c + Z.min room (Z.of_nat (length l))) (set_queue (with_hw s h') ptr f')) ->
  wp (read_loop n uport ptr (c + room) c) s Q.
Proof.
  induction 1 as [|b l Hb Hl IH]; intros [|n] f c s Q Ho Hrx Ef Hok Hn Hc Hc2 room HQ; try (cbn in Hn; lia); cbn [read_loop].
  all: unfold REG_UART1_FIFO_STATUS, REG_UART2_FIFO_STATUS; rewrite sel_reg; apply wp_bind, status_wp; [done|].
  all: intros v h1 B1 _ _ _ Hd Hk _ _; change FIFO_RD_READY with (2 ^ 21); rewrite truthy_land_pow2, B1, Hrx by lia.
  all: pose proof (length_fifo_queue f Hok) as Hfq; pose proof (fill_range f Hok) as Hfr; rewrite <- Hfq in Hfr.
  - rewrite bool_decide_true by done. apply wp_ret.
    replace (with_hw s h1) with (set_queue (with_hw s h1) ptr f)
      by (unfold set_queue; cbn [kfifos with_hw]; rewrite insert_id by done; by destruct s).
    replace c with (c + Z.min room (Z.of_nat (length (@nil Z)))) by (cbn; lia).
    apply HQ; [done..| |done|done]. by rewrite take_nil, app_nil_r.
  - rewrite bool_decide_false by done. cbn [negb]. apply wp_bind.
    apply (read_byte_wp _ b l); [apply Hd|cbn [u_hw with_hw]; rewrite Hk; by rewrite Hrx|].
    intros h2 Hd2 Hrx2 Hk2. rewrite with_hw_twice. cbn [u_hw with_hw] in Hd2. apply wp_bind.
    assert (Hdid : did none none (u_hw s) h2) by (by eapply did_none).
    assert (Hkeep : forall q, q <> port_of uport -> keeps q (u_hw s) h2) by (intros q Hq; eapply keeps_trans; [apply Hk|by apply Hk2]).
    destruct (Z.ltb_spec c (c + room)) as [Hroom|Hroom].
    + apply wp_bind. apply (kput_wp _ f); [done|done|done|cbn; lia|]. intros f1 r Hok1 Hs1 Hq1. fold room in r.
      assert (Hr1 : r = 1) by lia. rewrite Hr1 in Hq1 |- *. change (Z.to_nat 1) with 1%nat in Hq1. cbn [word_to_le take] in Hq1. unfold is_u8 in Hb. rewrite (Z.mod_small b) in Hq1 by lia.
      apply wp_ret. rewrite (u32_id (c + 1)) by (unfold is_u32; lia).
      replace (c + room) with (c + 1 + (f_size f1 - Z.of_nat (length (fifo_queue f1))))
        by (rewrite Hs1, Hq1, length_app; unfold room; cbn; lia).
      apply (IH n f1 (c + 1) (set_queue (with_hw s h2) ptr f1)); [apply Hdid|done|by cbn; rewrite lookup_insert_eq|done|cbn in Hn; lia|lia|rewrite Hs1, Hq1, length_app; cbn; lia|].
      rewrite Hs1, Hq1, length_app. cbn [length]. intros f' h' Hok' Hs' Hq' Hd' Hk'.
      replace (c + 1 + _) with (c + Z.min room (Z.of_nat (length (b :: l)))) by (cbn [length]; lia).
      replace (set_queue _ ptr f') with (set_queue (with_hw s h') ptr f')
        by (unfold set_queue, with_kfifos, with_hw; cbn; by rewrite insert_insert_eq).
      apply HQ; [done|done| |by eapply did_none|intros q Hq; eapply keeps_trans; [by apply Hkeep|by apply Hk']].
      rewrite Hq', <- app_assoc. f_equal. cbn [app]. replace (Z.to_nat room) with (S (Z.to_nat (f_size f - Z.of_nat (length (fifo_queue f) + 1)))) by lia.
      done.
    + assert (Hr0 : room = 0) by lia. apply wp_ret. rewrite Hr0 in *.
      replace (c + 0) with (c + (f_size f - Z.of_nat (length (fifo_queue f)))) by lia.
      apply (IH n f c (with_hw s h2)); [apply Hdid|done|done|done|cbn in Hn; lia|done|done|]. fold room.
      intros f' h' Hok' Hs' Hq' Hd' Hk'. rewrite Hr0, with_hw_twice. replace (c + _) with (c + Z.min 0 (Z.of_nat (length (b :: l)))) by (cbn [length]; lia).
      rewrite Hr0 in Hq'.
      apply HQ; [done|done|by rewrite Hq'|by eapply did_none|intros q Hq; eapply keeps_trans; [by apply Hkeep|by apply Hk']].
Qed.

Section frames.
Context (fuel : nat) (Hfuel : (wait_max < fuel)%nat).

Lemma printf_wp text s (Q : unit -> st -> Prop) : Forall is_u8 text -> uart_ok (u_hw s) ->
  (forall h', did (only (port_of (uart_print_port s)) (crlf None (take 126 text))) none (u_hw s) h' ->
    (forall q, keeps q (u_hw s) h') -> Q tt (with_hw s h')) -> wp (bk_printf fuel text) s Q.
Proof using Hfuel.
  intros Ht Ho HQ. apply wp_bind, wp_get. apply send_chars_wp; [done|by apply Forall_take|done|done].
Qed.

Lemma full_text_u8 : Forall is_u8 full_text.
Proof. unfold full_text, is_u8. repeat constructor; lia. Qed.

(** What the message of a full queue adds to what is sent. *)
Definition full_message (room : Z) (bs : list Z) : list Z := if room <=? Z.of_nat (length bs) then full_text else [].

Lemma read_frame_wp uport ptr f s (Q : Z -> st -> Prop) : uart_ok (u_hw s) -> kfifos s !! ptr = Some f -> fifo_ok f ->
  let l := rx_bytes (unit_of (u_hw s) (port_of uport)) in (length l < fuel)%nat ->
  let room := f_size f - Z.of_nat (length (fifo_queue f)) in
  (forall f' h', fifo_ok f' -> f_size f' = f_size f -> fifo_queue f' = fifo_queue f ++ take (Z.to_nat room) l ->
    did (only (port_of (uart_print_port s)) (full_message room l)) none (u_hw s) h' ->
    (forall q, q <> port_of uport -> keeps q (u_hw s) h') ->
    Q (Z.min room (Z.of_nat (length l))) (set_queue (with_hw s h') ptr f')) ->
  wp (uart_read_fifo_frame fuel uport ptr) s Q.
Proof using Hfuel.
  intros Ho Ef Hok l Hl room HQ. pose proof (uart_bounds _ (port_of uport) Ho) as (_ & _ & _ & Hb & _).
  pose proof (length_fifo_queue f Hok) as Hfq. pose proof (fill_range f Hok) as Hfr. pose proof (fifo_size_range f Hok) as Hfs.
  rewrite <- Hfq in Hfr. apply wp_bind, (get_kfifo_wp _ f); [done|]. rewrite (proj2 (kfifo_sizes f Hok)). fold room.
  apply wp_bind. replace room with (0 + room) at 1 by lia.
  apply (read_loop_wp _ _ l Hb fuel f 0); [done..|lia|subst room; lia|]. fold room. rewrite Z.add_0_l.
  intros f' h' Hok' Hs' Hq' Hd Hk. apply wp_bind, wp_when. unfold full_message in HQ.
  replace (room <=? Z.min room (Z.of_nat (length l))) with (room <=? Z.of_nat (length l))
    by (destruct (Z.leb_spec room (Z.of_nat (length l))); symmetry; [apply Z.leb_le|apply Z.leb_gt]; lia).
  destruct (room <=? Z.of_nat (length l)).
  - apply printf_wp; [apply full_text_u8|apply Hd|]. intros h2 Hd2 Hk2. apply wp_ret.
    change (with_hw (set_queue (with_hw s h') ptr f') h2) with (set_queue (with_hw s h2) ptr f'). apply HQ; [done..| |].
    + by eapply did_none.
    + intros q Hq. eapply keeps_trans; [by apply Hk|apply Hk2].
  - apply wp_ret. apply HQ; [done..| |done]. eapply did_none; [exact Hd|]. apply did_only_refl, Hd.
Qed.

(** Sending from a queue: the bytes leave it in order. *)
Lemma write_loop_wp uport ptr count : 0 < count -> forall n q f c s (Q : Z -> st -> Prop), uart_ok (u_hw s) ->
  kfifos s !! ptr = Some f -> fifo_ok f -> fifo_queue f = q -> Forall is_u8 q -> (length q < n)%nat ->
  0 <= c < count -> c + Z.of_nat (length q) < 4294967296 ->
  let m := Z.min (count - c) (Z.of_nat (length q)) in
  (forall f' h', fifo_ok f' -> f_size f' = f_size f -> fifo_queue f' = drop (Z.to_nat m) q ->
    did (only (port_of uport) (take (Z.to_nat m) q)) none (u_hw s) h' -> (forall p, keeps p (u_hw s) h') ->
    Q (c + m) (set_queue (with_hw s h') ptr f')) ->
  wp (write_loop fuel n uport ptr count c) s Q.
Proof using Hfuel.
  intros Hcount. induction n as [|n IH]; intros q f c s Q Ho Ef Hok Hq Hq8 Hn Hc Hbound m HQ; [lia|]. cbn [write_loop].
  apply wp_bind. apply (kget_wp _ f); [done|done|done|cbn; lia|]. intros f1 r Hok1 Hs1 Hq1. subst r. rewrite Hq in Hq1 |- *.
  set (r := Z.min 1 (Z.of_nat (length q))) in *.
  destruct q as [|b q].
  - change r with 0 in *. cbn [Z.eqb Z.to_nat]. apply wp_ret. assert (Hm : m = 0) by (subst m; cbn; lia).
    replace c with (c + m) by lia. replace (set_queue s ptr f1) with (set_queue (with_hw s (u_hw s)) ptr f1) by (by rewrite with_hw_same).
    rewrite Hm in HQ |- *. apply HQ; [done..|by apply did_only_refl|intros p; apply keeps_refl].
  - assert (Hr : r = 1) by (subst r; cbn [length]; lia). rewrite Hr in Hq1 |- *. cbn [Z.eqb]. change (Z.to_nat 1) with 1%nat in *.
    cbn [take drop app head default] in *. inversion_clear Hq8 as [|? ? Hb Hq8']. unfold is_u8 in Hb.
    apply wp_bind, send_byte_wp; [done|exact Ho|]. intros h1 Hd Hk. cbn [id] in Hd. rewrite (Z.mod_small b) in Hd by done.
    change (with_hw (set_queue s ptr f1) h1) with (set_queue (with_hw s h1) ptr f1).
    rewrite (u32_id (c + 1)) by (unfold is_u32; cbn [length] in Hbound; lia). destruct (Z.leb_spec count (c + 1)).
    + apply wp_ret. assert (Hm : m = 1) by (subst m; cbn [length]; lia). rewrite Hm in HQ. replace (c + 1) with (c + 1) by lia.
      by apply HQ.
    + apply (IH q f1); [apply Hd|by cbn; rewrite lookup_insert_eq|done|by rewrite Hq1|done|cbn in Hn; lia|lia|cbn [length] in Hbound; lia|].
      intros f' h' Hok' Hs' Hq' Hd' Hk'. set (m' := Z.min (count - (c + 1)) (Z.of_nat (length q))) in *. assert (Hm : m = 1 + m') by (subst m m'; cbn [length]; lia).
      assert (Hm' : 0 <= m') by lia. replace (c + 1 + m') with (c + m) by lia.
      replace (set_queue _ ptr f') with (set_queue (with_hw s h') ptr f')
        by (unfold set_queue, with_kfifos, with_hw; cbn; by rewrite insert_insert_eq).
      replace (Z.to_nat m) with (S (Z.to_nat m')) in HQ by lia. cbn [take drop] in HQ.
      apply HQ; [done|by rewrite Hs'|done| |intros p; eapply keeps_trans; [apply Hk|apply Hk']].
      eapply did_trans; [exact Hd|exact Hd'| |done]. intros p. by rewrite <- only_app.
Qed.
End frames.
End queues.

(** ** The interrupt handlers *)
Section isr.
Context {hw : Type} `{UartSpec hw}.
Abbreviation st := (uart_st hw).
Implicit Types s : st.
Context (call_cb : Z -> Z -> Z -> M st unit) (fuel : nat).

Lemma bind_wp {A B} (m : M st A) (k : A -> M st B) s (P : A -> st -> Prop) : wp m s P ->
  exists a s', P a s' /\ mbind k m s = k a s'.
Proof. intros (a & s' & E & HP)%wp_val. exists a, s'. split; [done|]. by apply bind_ret_val. Qed.

(** The handler behind the receive part. *)
Definition isr_tail (uport : Z) (i : nat) (status : Z) : M st unit :=
  when (truthy (Z.land status TX_FIFO_NEED_WRITE_STA)) (
    run_callback call_cb uart_txfifo_needwr_callback i uport (mret tt));;
  when (truthy (Z.land status UART_RX_PARITY_ERR_STA)) (uart_fifo_flush uport);;
  when (truthy (Z.land status UART_TX_STOP_END_STA)) (run_callback call_cb uart_tx_end_callback i uport (mret tt)).

(** The interrupts that are pending and enabled, and those of the receiver. *)
Definition isr_status (l : line) : Z := Z.land (pending l) (ctl l 4).
Definition receives (l : line) : bool := truthy (Z.land (isr_status l) (Z.lor RX_FIFO_NEED_READ_STA UART_RX_STOP_END_STA)).

(** The unit after the interrupt is looked at and its status written back. *)
Definition entered (p : port) (h : hw) : hw :=
  bus_write (port_reg p 5) (pending (unit_of h p)) (bus_read (port_reg p 5) (bus_read (port_reg p 4) h).2).2.

Lemma isr_entry uport i s : uart_ok (u_hw s) ->
  let p := port_of uport in let l := unit_of (u_hw s) p in
  exists h, h = entered p (u_hw s) /\ did none (only p [pending l]) (u_hw s) h /\ rx_bytes (unit_of h p) = rx_bytes l /\
    uart_isr call_cb fuel uport i s =
      (when (receives l) (
        u ← get_uart uport; _ ← uart_read_fifo_frame fuel uport (rx u);
        run_callback call_cb uart_receive_callback i uport (_ ← uart_read_byte uport; mret tt));;
      isr_tail uport i (isr_status l)) (with_hw s h).
Proof.
  intros Ho p l. unfold uart_isr, REG_UART1_INTR_ENABLE, REG_UART2_INTR_ENABLE, REG_UART1_INTR_STATUS, REG_UART2_INTR_STATUS.
  rewrite !sel_reg. fold p. destruct (uart_read_ctl (u_hw s) p 4 Ho eq_refl) as (h1 & E1 & Ho1 & Hpend & Hp1).
  destruct (uart_read_pending h1 p Ho1) as (h2 & E2 & Ho2 & Hp2). rewrite Hpend in E2. fold l in E1, E2.
  destruct (uart_write_pending h2 p (pending l) Ho2) as (Ho3 & A1 & A2 & A3 & A4 & A5).
  exists (bus_write (port_reg p 5) (pending l) h2). split; [unfold entered; rewrite E1; cbn [snd]; by rewrite E2|split; [|split]].
  - eapply did_none; [apply passes_did; [exact Ho1|exact Hp1]|]. eapply did_none; [apply passes_did; [exact Ho2|exact Hp2]|].
    destruct (did_at p [] [pending l] h2 (bus_write (port_reg p 5) (pending l) h2)) as [_ Hd]; [done|by rewrite A2, app_nil_r|done..|].
    split; [done|]. intros q. specialize (Hd q). by rewrite only_nil in Hd.
  - rewrite A1. destruct (Hp2 p) as [-> _]. by destruct (Hp1 p) as [-> _].
  - erewrite bind_ret_val by (unfold REG_READ; rewrite E1; reflexivity).
    erewrite bind_ret_val by (unfold REG_READ; cbn [u_hw with_hw]; rewrite E2; reflexivity).
    erewrite bind_ret_val by reflexivity. reflexivity.
Qed.

Lemma get_uart_val uport u s : zlookup (uart s) uport = Some u -> get_uart uport s = Val (u, s).
Proof. intros E. unfold get_uart, get, mbind, M_bind. by rewrite E. Qed.

Lemma isr_receive_val (Hfuel : (wait_max < fuel)%nat) uport i u f s : uart_ok (u_hw s) -> zlookup (uart s) uport = Some u ->
  kfifos s !! rx u = Some f -> fifo_ok f ->
  let p := port_of uport in let l := unit_of (u_hw s) p in (length (rx_bytes l) < fuel)%nat -> receives l = true ->
  let room := f_size f - Z.of_nat (length (fifo_queue f)) in
  exists f' h', fifo_ok f' /\ f_size f' = f_size f /\ fifo_queue f' = fifo_queue f ++ take (Z.to_nat room) (rx_bytes l) /\
    did (only (port_of (uart_print_port s)) (full_message room (rx_bytes l))) (only p [pending l]) (u_hw s) h' /\
    uart_isr call_cb fuel uport i s =
      (run_callback call_cb uart_receive_callback i uport (_ ← uart_read_byte uport; mret tt);; isr_tail uport i (isr_status l))
        (set_queue (with_hw s h') (rx u) f').
Proof.
  intros Ho Eu Ef Hok p l Hl Hr room. destruct (isr_entry uport i s Ho) as (h & _ & Hd & Hrx & E). fold p l in Hd, Hrx, E.
  rewrite Hr in E. cbn [when] in E. rewrite bind_assoc in E.
  rewrite (bind_ret_val _ _ (with_hw s h) u (with_hw s h)) in E by (by apply get_uart_val). rewrite bind_assoc in E.
  pose proof (read_frame_wp fuel Hfuel uport (rx u) f (with_hw s h)
    (fun _ s' => exists f' h', fifo_ok f' /\ f_size f' = f_size f /\ fifo_queue f' = fifo_queue f ++ take (Z.to_nat room) (rx_bytes l) /\
      did (only (port_of (uart_print_port s)) (full_message room (rx_bytes l))) none h h' /\
      s' = set_queue (with_hw s h') (rx u) f') (proj1 Hd) Ef Hok) as Hw.
  cbn [u_hw with_hw] in Hw. fold p in Hw. rewrite Hrx in Hw. specialize (Hw Hl ltac:(intros; eauto 10)).
  destruct (bind_wp _ (fun _ => run_callback call_cb uart_receive_callback i uport (_ ← uart_read_byte uport; mret tt);;
    isr_tail uport i (isr_status l)) _ _ Hw) as (r & s' & (f' & h' & Hok' & Hs' & Hq' & Hd' & ->) & E').
  exists f', h'. split_and!; [done..| |by rewrite E, E'].
  eapply did_trans; [exact Hd|exact Hd'|done|]. intros q. by rewrite app_nil_r.
Qed.
End isr.

(** ** The second port as a pair of queues *)

(** What a client and the hardware do: time passes, an interrupt arrives, the
    device calls, and the commands that send in the background and set or clear
    the callback of the receiver. *)
Inductive uart_op (hw : Type) :=
  | Elapse (t : hw -> hw)
  | Interrupt
  | Read (buffer : list Z) (count : Z)
  | Write (buffer : list Z) (count : Z)
  | RxCount
  | RxPeek (buffer : list Z) (count : Z)
  | SendBackground
  | SetRxCallback (d : uart_callback_des).
Arguments Elapse {hw}. Arguments Interrupt {hw}. Arguments Read {hw}. Arguments Write {hw}. Arguments RxCount {hw}.
Arguments RxPeek {hw}. Arguments SendBackground {hw}. Arguments SetRxCallback {hw}.

(** The queue of received bytes, the queue of bytes to send, and what each port
    was sent. *)
Record contract := Contract { c_rx : list Z; c_tx : list Z; c_sent : port -> list Z }.

Definition room_of (size : Z) (q : list Z) : Z := size - Z.of_nat (length q).
Definition append_sent (sent : port -> list Z) (p : port) (l : list Z) : port -> list Z := fun q => sent q ++ only p l q.

(** [delivers pp c op out c']: from [c], [op] may yield [out].  An interrupt
    yields whether it was one of the receiver and the bytes the unit delivered;
    [pp] is the port of messages. *)
Inductive delivers {hw} (pp : port) : contract -> uart_op hw -> Z * list Z -> contract -> Prop :=
  | deliver_elapse c t : delivers pp c (Elapse t) (0, []) c
  | deliver_receive rq tq sent bs :
      delivers pp (Contract rq tq sent) Interrupt (1, bs)
        (Contract (rq ++ take (Z.to_nat (room_of RX_RB_LENGTH rq)) bs) tq
          (append_sent sent pp (full_message (room_of RX_RB_LENGTH rq) bs)))
  | deliver_other c : delivers pp c Interrupt (0, []) c
  | deliver_read rq tq sent buffer count :
      let n := Z.min count (Z.of_nat (length rq)) in
      delivers pp (Contract rq tq sent) (Read buffer count) (n, take (Z.to_nat n) rq ++ drop (Z.to_nat n) buffer)
        (Contract (drop (Z.to_nat n) rq) tq sent)
  | deliver_write rq tq sent buffer count :
      let n := Z.min count (room_of TX_RB_LENGTH tq) in
      delivers pp (Contract rq tq sent) (Write buffer count) (n, []) (Contract rq (tq ++ take (Z.to_nat n) buffer) sent)
  | deliver_count c : delivers pp c RxCount (Z.of_nat (length (c_rx c)), []) c
  | deliver_peek c buffer count :
      let n := Z.min count (Z.of_nat (length (c_rx c))) in
      delivers pp c (RxPeek buffer count) (n, take (Z.to_nat n) (c_rx c) ++ drop (Z.to_nat n) buffer) c
  | deliver_send rq tq sent :
      delivers pp (Contract rq tq sent) SendBackground (0, [])
        (Contract rq (drop 16 tq) (append_sent sent P2 (take 16 tq)))
  | deliver_callback c d : delivers pp c (SetRxCallback d) (0, []) c.

Inductive deliver_all {hw} (pp : port) : contract -> list (uart_op hw) -> list (Z * list Z) -> contract -> Prop :=
  | deliver_nil c : deliver_all pp c [] [] c
  | deliver_cons c op out c' ops outs c'' : delivers pp c op out c' -> deliver_all pp c' ops outs c'' ->
      deliver_all pp c (op :: ops) (out :: outs) c''.

Section uart2.
Context {hw : Type} `{UartSpec hw}.
Abbreviation st := (uart_st hw).
Implicit Types s : st.
Context (call_cb : Z -> Z -> Z -> M st unit) (fuel : nat).

Definition op_ok (op : uart_op hw) : Prop :=
  match op with
  | Elapse t => forall h, uart_ok h -> did none none h (t h)
  | Read b n | Write b n | RxPeek b n => 0 < n < 4294967296 /\ n <= Z.of_nat (length b) /\ Forall is_u8 b
  | _ => True
  end.

(** The operation on the driver, with what the hardware delivers to it. *)
Definition uart_do (op : uart_op hw) : M st (Z * list Z) :=
  match op with
  | Elapse t => modify (fun s => with_hw s (t (u_hw s)));; mret (0, [])
  | Interrupt =>
    s ← get; let l := unit_of (u_hw s) P2 in
    uart2_isr call_cb fuel;; mret (b2z (receives l), if receives l then rx_bytes l else [])
  | Read buffer count => uart2_read buffer count 0
  | Write buffer count => n ← uart2_write buffer count 0; mret (n, [])
  | RxCount => uart_cmd UART2_PORT CMD_RX_COUNT UNull
  | RxPeek buffer count => uart_cmd UART2_PORT CMD_RX_PEEK (UPeek (PeekRx URX_PEEK_SIG count (Some buffer)))
  | SendBackground => uart_send_backgroud fuel;; mret (0, [])
  | SetRxCallback d => uart_cmd UART2_PORT CMD_UART_SET_RX_CALLBACK (UCallback d)
  end.

Fixpoint uart_run (ops : list (uart_op hw)) : M st (list (Z * list Z)) :=
  match ops with [] => mret [] | op :: ops' => out ← uart_do op; outs ← uart_run ops'; mret (out :: outs) end.

(** The driver keeps its queues and tables, and nothing is sent. *)
Record kept (s s' : st) : Prop := {
  kept_uart : uart s' = uart s;
  kept_queues : kfifos s' = kfifos s;
  kept_port : uart_print_port s' = uart_print_port s;
  kept_next : next_block s' = next_block s;
  kept_rx : length (uart_receive_callback s') = length (uart_receive_callback s);
  kept_needwr : length (uart_txfifo_needwr_callback s') = length (uart_txfifo_needwr_callback s);
  kept_end : length (uart_tx_end_callback s') = length (uart_tx_end_callback s);
  kept_did : did none none (u_hw s) (u_hw s');
}.

Definition tables_ok s : Prop := length (uart_receive_callback s) = 2%nat /\
  length (uart_txfifo_needwr_callback s) = 2%nat /\ length (uart_tx_end_callback s) = 2%nat.

(** Two queues, neither null. *)
Definition distinct (u : UART_S) : Prop := rx u <> tx u /\ rx u <> 0 /\ tx u <> 0.

(** The state implements the contract, [sent0] being what was sent before. *)
Record implements (sent0 : port -> list Z) (pp : port) (c : contract) (s : st) : Prop := {
  im_ok : uart_ok (u_hw s);
  im_port : port_of (uart_print_port s) = pp;
  im_tables : tables_ok s;
  im_sent q : tx_sent (unit_of (u_hw s) q) = sent0 q ++ c_sent c q;
  im_tx8 : Forall is_u8 (c_tx c);
  im_queues : exists u f g, zlookup (uart s) UART2_PORT = Some u /\ distinct u /\
    kfifos s !! rx u = Some f /\ fifo_ok f /\ f_size f = RX_RB_LENGTH /\ fifo_queue f = c_rx c /\
    kfifos s !! tx u = Some g /\ fifo_ok g /\ f_size g = TX_RB_LENGTH /\ fifo_queue g = c_tx c;
  im_next : 0 < next_block s;
}.

Lemma kept_refl s : uart_ok (u_hw s) -> kept s s.
Proof. intros Ho. split; [done..|by apply did_refl]. Qed.

Lemma kept_trans s s' s'' : kept s s' -> kept s' s'' -> kept s s''.
Proof. intros [] []. split; try congruence. by eapply did_none. Qed.

Lemma kept_hw s h : did none none (u_hw s) h -> kept s (with_hw s h).
Proof. by split. Qed.

Lemma kept_implements sent0 pp c s s' : kept s s' -> implements sent0 pp c s -> implements sent0 pp c s'.
Proof.
  intros [Ku Kq Kp Kn K1 K2 K3 [Ho Kd]] [I1 I2 I3 I4 I5 I6 I7]. split; [done|by rewrite Kp| | |done| |by rewrite Kn].
  - unfold tables_ok in *. by rewrite K1, K2, K3.
  - intros q. destruct (Kd q) as (-> & _ & _). by rewrite app_nil_r.
  - by rewrite Ku, Kq.
Qed.

(** A driver's callback that calls no driver function. *)
Hypothesis Hcb : forall cb uport p s, uart_ok (u_hw s) -> wp (call_cb cb uport p) s (fun _ s' => kept s s').
Hypothesis Hfuel : (wait_max < fuel)%nat /\ (rx_max < fuel)%nat /\ (64 < fuel)%nat.

Lemma run_callback_wp tbl i uport other s : length (tbl s) = 2%nat -> (i < 2)%nat -> uart_ok (u_hw s) ->
  wp other s (fun _ s' => kept s s') -> wp (run_callback call_cb tbl i uport other) s (fun _ s' => kept s s').
Proof using Hcb.
  intros Hl Hi Ho Hother. destruct (lookup_lt_is_Some_2 (tbl s) i) as [d Ed]; [by rewrite Hl|].
  apply wp_bind, wp_get. apply wp_bind. apply (wp_intro _ _ d s); [by rewrite Ed|]. destruct (truthy _); [by apply Hcb|done].
Qed.

Lemma drop_byte_wp uport s : uart_ok (u_hw s) -> wp (_ ← uart_read_byte uport; mret tt) s (fun _ s' => kept s s').
Proof.
  intros Ho. apply wp_bind. unfold uart_read_byte, REG_UART1_FIFO_STATUS, REG_UART2_FIFO_STATUS. rewrite sel_reg.
  apply wp_bind, status_wp; [done|]. intros v h _ _ _ _ Hd _ _ _. destruct (truthy _).
  - apply wp_bind. unfold REG_UART1_FIFO_PORT, REG_UART2_FIFO_PORT. rewrite sel_reg.
    destruct (uart_read_data h (port_of uport) (proj1 Hd)) as (w & h' & E & Ho' & _ & Hs & _ & Hp).
    apply (read_wp _ (with_hw s h) _ _ _ E). apply wp_ret, wp_ret. rewrite with_hw_twice. apply kept_hw. eapply did_none; [exact Hd|].
    by apply (same_doing_did (port_of uport)).
  - apply wp_ret, wp_ret. by apply kept_hw.
Qed.

(** Switching the unit off and on restores its configuration. *)
Lemma flush_wp uport s : uart_ok (u_hw s) -> wp (uart_fifo_flush uport) s (fun _ s' => kept s s').
Proof.
  intros Ho. unfold uart_fifo_flush, REG_UART1_CONFIG, REG_UART2_CONFIG. rewrite sel_reg. set (p := port_of uport).
  destruct (uart_read_ctl (u_hw s) p 0 Ho eq_refl) as (h1 & E1 & Ho1 & _ & Hp1). apply wp_bind. apply (read_wp _ _ _ _ _ E1).
  set (val := ctl (unit_of (u_hw s) p) 0). assert (Hval : is_u32 val) by (by apply (uart_bounds _ p Ho)).
  apply wp_bind, write_wp. set (reg := Z.ldiff val _). assert (Hreg : is_u32 reg) by (by apply ldiff_u32).
  destruct (uart_write_ctl h1 p 0 reg Ho1 eq_refl Hreg) as (Ho2 & A1 & A2 & _ & A3 & A4). cbn [u_hw with_hw] in *.
  set (h2 := bus_write _ reg h1) in *. apply write_wp.
  destruct (uart_write_ctl h2 p 0 val Ho2 eq_refl Hval) as (Ho3 & B1 & B2 & _ & B3 & B4). cbn [u_hw with_hw].
  set (h3 := bus_write _ val h2) in *. rewrite !with_hw_twice. apply kept_hw.
  pose proof (passes_did (u_hw s) h1 Ho1 Hp1) as Hd1. eapply did_none; [exact Hd1|].
  apply (did_only_nil p), did_at; [done|by rewrite B1, A1, app_nil_r|by rewrite B2, A2, app_nil_r| |].
  - intros n Hn. rewrite B3 by done. destruct (Z.eqb_spec n 0) as [->|Hne].
    + destruct Hd1 as [_ Hd1]. by rewrite (proj2 (proj2 (Hd1 p))).
    + rewrite A3 by done. by rewrite (proj2 (Z.eqb_neq _ _)).
  - intros q Hq. destruct (A4 q Hq) as (R1 & R2 & R3 & R4), (B4 q Hq) as (S1 & S2 & S3 & S4).
    split; [congruence|split_and!; try congruence]. intros n Hn. by rewrite S4, R4.
Qed.

Lemma when_kept b (m : M st unit) s : uart_ok (u_hw s) -> wp m s (fun _ s' => kept s s') -> wp (when b m) s (fun _ s' => kept s s').
Proof. intros Ho Hm. apply wp_when. destruct b; [done|by apply kept_refl]. Qed.

(** A sequence of commands that keep the driver. *)
Lemma seq_kept (m k : M st unit) s : wp m s (fun _ s' => kept s s') ->
  (forall s', kept s s' -> wp k s' (fun _ s'' => kept s' s'')) -> wp (m;; k) s (fun _ s' => kept s s').
Proof.
  intros Hm Hk. apply wp_bind. eapply wp_mono; [exact Hm|]. intros ? s' K. eapply wp_mono; [by apply Hk|].
  intros ? s'' K'. eapply kept_trans; [exact K|exact K'].
Qed.

Lemma kept_tables s s' : kept s s' -> tables_ok s -> tables_ok s'.
Proof. intros [_ _ _ _ K1 K2 K3 _]. unfold tables_ok. by rewrite K1, K2, K3. Qed.

Lemma tail_wp uport i status s : uart_ok (u_hw s) -> tables_ok s -> (i < 2)%nat ->
  wp (isr_tail call_cb uport i status) s (fun _ s' => kept s s').
Proof using Hcb.
  intros Ho Ht Hi. unfold isr_tail. apply seq_kept.
  - apply when_kept, run_callback_wp; [done|apply Ht|done..|]. by apply wp_ret, kept_refl.
  - intros s1 K1. pose proof (kept_tables _ _ K1 Ht) as Ht1. pose proof (proj1 (kept_did _ _ K1)) as Ho1.
    apply seq_kept; [by apply when_kept, flush_wp|]. intros s2 K2. pose proof (kept_tables _ _ K2 Ht1) as Ht2.
    pose proof (proj1 (kept_did _ _ K2)) as Ho2. apply when_kept, run_callback_wp; [done|apply Ht2|done..|]. by apply wp_ret, kept_refl.
Qed.

(** Only interrupt acknowledgements besides what is sent. *)
Lemma did_implements sent0 pp c s h sent ack : implements sent0 pp c s -> did sent ack (u_hw s) h ->
  implements sent0 pp (Contract (c_rx c) (c_tx c) (fun q => c_sent c q ++ sent q)) (with_hw s h).
Proof.
  intros [I1 I2 I3 I4 I5 I6 I7] [Ho Hd]. split; [done|done|done| |done|done|done]. intros q. cbn. destruct (Hd q) as (-> & _ & _).
  by rewrite I4, app_assoc.
Qed.

Lemma implements_sent sent0 pp rq tq sent sent' s : (forall q, sent q = sent' q) ->
  implements sent0 pp (Contract rq tq sent) s -> implements sent0 pp (Contract rq tq sent') s.
Proof. intros Hs [I1 I2 I3 I4 I5 I6 I7]. split; [done..| |done|done|done]. intros q. rewrite I4. cbn. by rewrite Hs. Qed.

(** Changing one of the two queues. *)
Lemma set_rx_implements sent0 pp c s u f q : implements sent0 pp c s -> zlookup (uart s) UART2_PORT = Some u ->
  fifo_ok f -> f_size f = RX_RB_LENGTH -> fifo_queue f = q ->
  implements sent0 pp (Contract q (c_tx c) (c_sent c)) (set_queue s (rx u) f).
Proof.
  intros [I1 I2 I3 I4 I5 (u' & f0 & g & Eu & Hne & _ & _ & _ & _ & Eg & Hg) I7] Eu' Hok Hs Hq.
  rewrite Eu' in Eu. injection Eu as <-. split; [done..| |done]. exists u, f, g. cbn [kfifos uart set_queue with_kfifos c_rx c_tx].
  rewrite lookup_insert_eq, lookup_insert_ne by (by destruct Hne). destruct Hg as (? & ? & ?). by split_and!.
Qed.

Lemma set_tx_implements sent0 pp c s u g q : implements sent0 pp c s -> zlookup (uart s) UART2_PORT = Some u ->
  fifo_ok g -> f_size g = TX_RB_LENGTH -> fifo_queue g = q -> Forall is_u8 q ->
  implements sent0 pp (Contract (c_rx c) q (c_sent c)) (set_queue s (tx u) g).
Proof.
  intros [I1 I2 I3 I4 I5 (u' & f & g0 & Eu & Hne & Ef & Hf) I7] Eu' Hok Hs Hq H8.
  rewrite Eu' in Eu. injection Eu as <-. split; [done..| |done]. exists u, f, g. cbn [kfifos uart set_queue with_kfifos c_rx c_tx].
  rewrite lookup_insert_eq, lookup_insert_ne by (by destruct Hne). destruct Hf as (? & ? & ? & _). by split_and!.
Qed.

Lemma isr_wp sent0 pp c s : implements sent0 pp c s ->
  let l := unit_of (u_hw s) P2 in
  wp (uart2_isr call_cb fuel) s (fun _ s' => exists c',
    delivers (hw := hw) pp c Interrupt (b2z (receives l), if receives l then rx_bytes l else []) c' /\ implements sent0 pp c' s').
Proof using All.
  intros I l. pose proof I as [Ho Hport Ht _ _ (u & f & g & Eu & Hne & Ef & Hf & Hfs & Hfq & _) _].
  destruct (uart_bounds (u_hw s) P2 Ho) as (Hmax & _). destruct (receives l) eqn:Hr.
  - destruct (isr_receive_val call_cb fuel (proj1 Hfuel) UART2_PORT 1 u f s Ho Eu Ef Hf) as (f' & h' & Hf' & Hs' & Hq' & Hd & E);
      [change (port_of UART2_PORT) with P2; lia|exact Hr|]. change (port_of UART2_PORT) with P2 in *. fold l in Hq', Hd, E.
    unfold wp. unfold uart2_isr. rewrite E. rewrite Hfs, Hfq, Hport in *. fold (room_of RX_RB_LENGTH (c_rx c)) in *.
    set (s1 := set_queue (with_hw s h') (rx u) f'). destruct c as [rq tq sent]. cbn [c_rx c_tx c_sent] in *.
    assert (I1 : implements sent0 pp (Contract (rq ++ take (Z.to_nat (room_of RX_RB_LENGTH rq)) (rx_bytes l)) tq
      (append_sent sent pp (full_message (room_of RX_RB_LENGTH rq) (rx_bytes l)))) s1).
    { pose proof (did_implements _ _ _ _ _ _ _ I Hd) as I1. by pose proof (set_rx_implements _ _ _ _ _ f' _ I1 Eu Hf' Hs' Hq'). }
    pose proof (im_ok _ _ _ _ I1) as Ho1. pose proof (im_tables _ _ _ _ I1) as Ht1.
    assert (Hw : wp (run_callback call_cb uart_receive_callback 1 UART2_PORT (_ ← uart_read_byte UART2_PORT; mret tt);;
      isr_tail call_cb UART2_PORT 1 (isr_status l)) s1 (fun _ s' => kept s1 s')).
    { apply seq_kept; [apply run_callback_wp; [apply Ht1|lia|done|by apply drop_byte_wp]|].
      intros s2 K. apply tail_wp; [apply (kept_did _ _ K)|by eapply kept_tables|lia]. }
    apply wp_val in Hw as ([] & s' & -> & K). eexists. split; [apply deliver_receive|]. by eapply kept_implements.
  - destruct (isr_entry call_cb fuel UART2_PORT 1 s Ho) as (h & _ & Hd & _ & E). change (port_of UART2_PORT) with P2 in *. fold l in Hd, E.
    unfold wp, uart2_isr. rewrite E, Hr. cbn [when]. rewrite bind_mret.
    pose proof (did_implements _ _ _ _ _ _ _ I Hd) as I1.
    assert (I2 : implements sent0 pp c (with_hw s h))
      by (destruct c; refine (implements_sent _ _ _ _ _ _ _ _ I1); intros q; apply app_nil_r).
    pose proof (tail_wp UART2_PORT 1 (isr_status l) (with_hw s h) (proj1 Hd) Ht ltac:(lia)) as Hw.
    apply wp_val in Hw as ([] & s' & -> & K). exists c. split; [apply deliver_other|]. by eapply kept_implements.
Qed.

Lemma get_uart_wp uport u s (Q : UART_S -> st -> Prop) : zlookup (uart s) uport = Some u -> Q u s -> wp (get_uart uport) s Q.
Proof. intros Eu. apply wp_intro. by apply get_uart_val. Qed.

Lemma do_wp sent0 pp c s op : implements sent0 pp c s -> op_ok op ->
  wp (uart_do op) s (fun out s' => exists c', delivers pp c op out c' /\ implements sent0 pp c' s').
Proof using All.
  intros I Hop. pose proof I as [Ho _ _ _ H8 (u & f & g & Eu & Hne & Ef & Hf & Hfs & Hfq & Eg & Hg & Hgs & Hgq) _].
  destruct op as [t| |b n|b n| |b n| |d]; cbn [uart_do].
  - exists c. split; [constructor|]. eapply kept_implements; [|exact I]. by apply kept_hw, Hop.
  - apply wp_bind, wp_get. apply wp_bind. eapply wp_mono; [by apply (isr_wp sent0 pp c)|]. intros ? s' Hs. exact Hs.
  - destruct Hop as (Hn & Hb & _). apply wp_bind, (get_uart_wp _ u); [done|].
    apply (kget_wp _ f); [done|done|unfold is_u32; lia|done|]. intros f' r Hf' Hs' Hq'. subst r. rewrite Hfq in *.
    destruct c as [rq tq sent]. eexists. split; [constructor|]. apply (set_rx_implements _ _ _ _ _ _ _ I Eu); [done| |done]. by rewrite Hs'.
  - destruct Hop as (Hn & Hb & Hb8). apply wp_bind, wp_bind, (get_uart_wp _ u); [done|].
    apply (kput_wp _ g); [done|done|unfold is_u32; lia|done|]. intros g' r Hg' Hs' Hq'. subst r. rewrite Hgq, Hgs in *.
    apply wp_ret. destruct c as [rq tq sent]. eexists. split; [constructor|].
    apply (set_tx_implements _ _ _ _ _ _ _ I Eu); [done|done|done|]. apply Forall_app. split; [done|by apply Forall_take].
  - unfold uart_cmd. change (CMD_RX_COUNT =? CMD_RX_COUNT) with true. cbv iota. apply wp_bind, (get_uart_wp _ u); [done|].
    apply wp_bind, (get_kfifo_wp _ f); [done|]. apply wp_ret. rewrite (proj1 (kfifo_sizes f Hf)), Hfq. exists c. split; [constructor|done].
  - destruct Hop as (Hn & Hb & _). unfold uart_cmd. change (CMD_RX_PEEK =? CMD_RX_COUNT) with false.
    change (CMD_RX_PEEK =? CMD_RX_PEEK) with true. cbn [sig ptr len default]. change (URX_PEEK_SIG =? URX_PEEK_SIG) with true.
    rewrite bool_decide_false, (proj2 (Z.eqb_neq 0 n)) by (done || lia). cbn [negb orb id].
    apply wp_bind, (get_uart_wp _ u); [done|]. apply (kpeek_wp _ f); [done|done|unfold is_u32; lia|done|].
    rewrite Hfq. exists c. split; [constructor|done].
  - apply wp_bind, wp_bind, (get_uart_wp _ u); [done|]. apply wp_bind. change DEBUG_PRT_MAX_CNT with 16.
    pose proof (length_fifo_queue g Hg) as Hl. pose proof (fill_range g Hg) as Hr. rewrite <- Hl, Hgq, Hgs in Hr. unfold TX_RB_LENGTH in Hr.
    apply (write_loop_wp fuel (proj1 Hfuel) UART2_PORT (tx u) 16 ltac:(lia) fuel (c_tx c) g 0); [done..|lia|lia|lia|].
    intros g' h' Hg' Hs' Hq' Hd _. apply wp_ret, wp_ret.
    destruct c as [rq tq sent]. cbn [c_tx c_rx c_sent] in *.
    assert (Ht : take (Z.to_nat (Z.min (16 - 0) (Z.of_nat (length tq)))) tq = take 16 tq)
      by (destruct (decide (length tq <= 16)%nat); [rewrite !take_ge by lia; done|f_equal; lia]).
    assert (Hdr : drop (Z.to_nat (Z.min (16 - 0) (Z.of_nat (length tq)))) tq = drop 16 tq)
      by (destruct (decide (length tq <= 16)%nat); [rewrite !drop_ge by lia; done|f_equal; lia]).
    rewrite Ht in Hd. rewrite Hdr in Hq'. eexists. split; [constructor|].
    pose proof (did_implements _ _ _ _ _ _ _ I Hd) as I1.
    apply (set_tx_implements _ _ _ _ _ _ _ I1 Eu Hg'); [by rewrite Hs'|done|by apply Forall_drop].
  - exists c. split; [constructor|]. destruct I as [I1 I2 I3 I4 I5 I6 I7]. split; [done|done| |done|done|done|done].
    unfold tables_ok in *. cbn. by rewrite length_insert.
Qed.

Lemma run_wp sent0 pp ops : Forall op_ok ops -> forall c s, implements sent0 pp c s ->
  wp (uart_run ops) s (fun outs s' => exists c', deliver_all pp c ops outs c' /\ implements sent0 pp c' s').
Proof using All.
  induction 1 as [|op ops Hop Hops IH]; intros c s I; cbn [uart_run].
  - apply wp_ret. exists c. split; [constructor|done].
  - apply wp_bind. eapply wp_mono; [by apply do_wp|]. intros out s1 (c1 & Hd & I1). apply wp_bind.
    eapply wp_mono; [by apply IH|]. intros outs s2 (c2 & Hds & I2). apply wp_ret. exists c2. split; [by econstructor|done].
Qed.
End uart2.

(** ** The bytes taken from the second unit

    An interrupt of the receiver takes the bytes the unit delivers, and one more
    that came behind them if no callback is set; that one is dropped.  Nothing
    else takes a byte. *)
Inductive takes {hw} : bool -> uart_op hw -> Z * list Z -> list Z -> bool -> Prop :=
  | take_received (cb : bool) bs late : (length late <= (if cb then 0 else 1))%nat -> takes cb Interrupt (1, bs) (bs ++ late) cb
  | take_not_received cb : takes cb Interrupt (0, []) [] cb
  | take_callback cb d out : takes cb (SetRxCallback d) out [] (truthy (callback d))
  | take_other cb op out : op <> Interrupt -> (forall d, op <> SetRxCallback d) -> takes cb op out [] cb.

Inductive take_all {hw} : bool -> list (uart_op hw) -> list (Z * list Z) -> list Z -> bool -> Prop :=
  | take_nil cb : take_all cb [] [] [] cb
  | take_cons cb op out bs cb' ops outs bs' cb'' : takes cb op out bs cb' -> take_all cb' ops outs bs' cb'' ->
      take_all cb (op :: ops) (out :: outs) (bs ++ bs') cb''.

Section log.
Context {hw : Type} `{UartSpec hw, !UartLog hw}.
Abbreviation st := (uart_st hw).
Implicit Types s : st.
Context (call_cb : Z -> Z -> Z -> M st unit) (fuel : nat).

Definition log_of_st s : list Z := rx_log (u_hw s).

(** [m] takes no byte of the second unit and sets no callback of a receiver;
    [still]: it accesses no register either. *)
Definition silent {A} (m : M st A) : Prop := forall s a s', m s = Val (a, s') ->
  log_of_st s' = log_of_st s /\ uart_receive_callback s' = uart_receive_callback s.
Definition still {A} (m : M st A) : Prop := forall s a s', m s = Val (a, s') ->
  u_hw s' = u_hw s /\ uart_receive_callback s' = uart_receive_callback s.

Lemma still_silent {A} (m : M st A) : still m -> silent m.
Proof using Type. intros Hm s a s' E. destruct (Hm s a s' E) as [E1 E2]. unfold log_of_st. by rewrite E1. Qed.
Lemma silent_bind {A B} (m : M st A) (k : A -> M st B) : silent m -> (forall a, silent (k a)) -> silent (mbind k m).
Proof using Type.
  intros Hm Hk s b s' (a & s1 & E1 & E2)%bind_inv. destruct (Hm _ _ _ E1) as [A1 B1], (Hk _ _ _ _ E2) as [A2 B2]. by rewrite A2, B2.
Qed.
Lemma still_bind {A B} (m : M st A) (k : A -> M st B) : still m -> (forall a, still (k a)) -> still (mbind k m).
Proof using Type.
  intros Hm Hk s b s' (a & s1 & E1 & E2)%bind_inv. destruct (Hm _ _ _ E1) as [A1 B1], (Hk _ _ _ _ E2) as [A2 B2]. by rewrite A2, B2.
Qed.
Lemma still_ret {A} (a : A) : still (mret a).
Proof using Type. by intros s b s' [= _ <-]. Qed.
Lemma still_get : still get.
Proof using Type. by intros s b s' [= _ <-]. Qed.
Lemma still_fail {A} e : still (fail e : M st A).
Proof using Type. done. Qed.
Lemma still_res {A} (r : res A) : still (lift_res r).
Proof using Type. intros s b s'. unfold lift_res. destruct r; [|done]. by intros [= _ <-]. Qed.
Lemma silent_read a : a <> port_reg P2 3 -> silent (REG_READ a).
Proof using Type.
  intros Ha s v s'. unfold REG_READ. destruct (bus_read a (u_hw s)) as [w h] eqn:E. intros [= _ <-]. split; [|done].
  unfold log_of_st. cbn. change h with (w, h).2. rewrite <- E. by apply log_read.
Qed.
Lemma silent_write a v : silent (REG_WRITE a v).
Proof using Type. intros s u s' [= _ <-]. split; [apply log_write|done]. Qed.
Lemma silent_when (b : bool) (m : M st unit) : silent m -> silent (when b m).
Proof using Type. intros Hm. destruct b; [done|apply still_silent, still_ret]. Qed.

Lemma reg_not_data uport n : 0 <= n < 8 -> n <> 3 -> sel uport (UART1_BASE_ADDR + 4 * n) (UART2_BASE_ADDR + 4 * n) <> port_reg P2 3.
Proof using Type.
  intros Hn Hne. rewrite sel_reg. unfold port_reg, port_base, UART1_BASE_ADDR, UART2_BASE_ADDR. destruct (port_of uport); lia.
Qed.

Lemma still_queue p f : still (@set_kfifo hw p f) /\ still (@get_kfifo hw p).
Proof using Type.
  split; [by intros s u s' [= _ <-]|]. unfold get_kfifo. apply still_bind; [apply still_get|intros s; apply still_res].
Qed.
Lemma still_kput p b n : still (@kput hw p b n).
Proof using Type.
  unfold kput. apply still_bind; [by apply (still_queue p (Fifo 0 0 0 0 []))|intros f]. apply still_bind; [apply still_res|intros [r f']].
  apply still_bind; [apply still_queue|intros _; apply still_ret].
Qed.
Lemma still_kget p b n : still (@kget hw p b n) /\ still (@kpeek hw p b n).
Proof using Type.
  unfold kget, kpeek. split; (apply still_bind; [by apply (still_queue p (Fifo 0 0 0 0 []))|intros f]); [|apply still_res].
  apply still_bind; [apply still_res|intros [[r b'] f']]. apply still_bind; [apply still_queue|intros _; apply still_ret].
Qed.
Lemma still_uart uport : still (@get_uart hw uport).
Proof using Type. unfold get_uart. apply still_bind; [apply still_get|intros s; apply still_res]. Qed.

Lemma silent_wait n uport mask : silent (wait_status n (sel uport REG_UART1_FIFO_STATUS REG_UART2_FIFO_STATUS) mask).
Proof using Type.
  induction n as [|n IH]; cbn [wait_status]; [apply still_silent, still_fail|].
  apply silent_bind; [by apply silent_read, (reg_not_data uport 2)|intros v]. destruct (truthy _); [apply still_silent, still_ret|exact IH].
Qed.
Lemma silent_send uport data : silent (bk_send_byte fuel uport data).
Proof using Type. unfold bk_send_byte, UART_WRITE_BYTE. apply silent_bind; [apply silent_wait|intros _; apply silent_write]. Qed.
Lemma silent_chars uport string : forall before, silent (send_chars fuel uport before string).
Proof using Type.
  induction string as [|c string IH]; intros before; cbn [send_chars]; [apply still_silent, still_ret|].
  apply silent_bind; [apply silent_when, silent_when, silent_send|intros _]. apply silent_bind; [apply silent_send|intros _; apply IH].
Qed.
Lemma silent_printf text : silent (bk_printf fuel text).
Proof using Type. unfold bk_printf. apply silent_bind; [apply still_silent, still_get|intros s; apply silent_chars]. Qed.
Lemma silent_flush uport : silent (uart_fifo_flush uport).
Proof using Type.
  unfold uart_fifo_flush. apply silent_bind; [by apply silent_read, (reg_not_data uport 0)|intros v]. cbv zeta.
  apply silent_bind; [apply silent_write|intros _; apply silent_write].
Qed.
Lemma silent_write_loop uport ptr count n : forall len, silent (write_loop fuel n uport ptr count len).
Proof using Type.
  induction n as [|n IH]; intros len; cbn [write_loop]; [apply still_silent, still_fail|].
  apply silent_bind; [apply still_silent, still_kget|intros [r v]]. destruct (0 =? r); [apply still_silent, still_ret|].
  apply silent_bind; [apply silent_send|intros _]. cbv zeta. destruct (count <=? _); [apply still_silent, still_ret|apply IH].
Qed.

(** The loop takes the bytes that are delivered. *)
Lemma read_loop_takes ptr unused l : forall n c s r s', uart_ok (u_hw s) -> rx_bytes (unit_of (u_hw s) P2) = l ->
  read_loop n UART2_PORT ptr unused c s = Val (r, s') ->
  log_of_st s' = log_of_st s ++ l /\ uart_receive_callback s' = uart_receive_callback s.
Proof using Type.
  induction l as [|b l IH]; intros [|n] c s r s' Ho Hl; cbn [read_loop]; try done; intros E;
    change (sel UART2_PORT REG_UART1_FIFO_STATUS REG_UART2_FIFO_STATUS) with (port_reg P2 2) in E;
    apply bind_inv in E as (v & s1 & E1 & E);
    destruct (uart_read_status (u_hw s) P2 Ho) as (v' & h1 & Eb & Ho1 & _ & B1 & _ & _ & _ & Hk & _);
    pose proof (silent_read (port_reg P2 2) ltac:(done) _ _ _ E1) as [L1 T1];
    unfold REG_READ in E1; rewrite Eb in E1; injection E1 as -> <-; revert E; change FIFO_RD_READY with (2 ^ 21);
    rewrite truthy_land_pow2, B1, Hl by lia.
  - rewrite bool_decide_true by done. intros [= _ <-]. by rewrite app_nil_r.
  - rewrite bool_decide_false by done. cbn [negb]. intros (val & s2 & E2 & (c' & s3 & E3 & E)%bind_inv)%bind_inv.
    unfold UART_READ_BYTE in E2. apply bind_inv in E2 as (w & s2' & E2 & E2'). injection E2' as _ <-.
    change (sel UART2_PORT REG_UART1_FIFO_PORT REG_UART2_FIFO_PORT) with (port_reg P2 3) in E2.
    destruct (uart_read_data h1 P2 Ho1) as (w' & h2 & Ed & Ho2 & _ & _ & Hd & _).
    destruct (Hd b l) as [Hb Hl2]; [by rewrite Hk; [|rewrite Hl]|].
    pose proof (log_data h1) as Lg. rewrite Ed in Lg. cbn [fst snd] in Lg. rewrite Hb in Lg.
    unfold REG_READ in E2. cbn [u_hw with_hw] in E2. rewrite Ed in E2. injection E2 as _ <-.
    assert (H3 : u_hw s3 = h2 /\ uart_receive_callback s3 = uart_receive_callback s).
    { enough (Hs : still (if c <? unused then r0 ← kput ptr (word_to_le 4 val) 1; mret (u32 (c + r0)) else mret c)) by exact (Hs _ _ _ E3).
      destruct (c <? unused); [apply still_bind; [apply still_kput|intros x; apply still_ret]|apply still_ret]. }
    destruct H3 as [H3 T3]. destruct (IH n c' s3 r s') as [L T]; [by rewrite H3|by rewrite H3|exact E|].
    split; [|by rewrite T, T3]. rewrite L. unfold log_of_st at 1. rewrite H3, Lg. change (rx_log h1) with (log_of_st (with_hw s h1)).
    by rewrite L1, <- app_assoc.
Qed.

Lemma read_frame_takes ptr s r s' : uart_ok (u_hw s) -> uart_read_fifo_frame fuel UART2_PORT ptr s = Val (r, s') ->
  log_of_st s' = log_of_st s ++ rx_bytes (unit_of (u_hw s) P2) /\ uart_receive_callback s' = uart_receive_callback s.
Proof using Type.
  intros Ho (f & s1 & E1 & E)%bind_inv. destruct (proj2 (still_queue ptr f) _ _ _ E1) as [H1 T1]. cbv zeta in E.
  apply bind_inv in E as (c & s2 & E2 & E). destruct (read_loop_takes ptr _ _ _ _ s1 c s2 ltac:(by rewrite H1) eq_refl E2) as [L2 T2].
  apply bind_inv in E as ([] & s3 & E3 & E). injection E as _ <-. destruct (silent_when _ _ (silent_printf full_text) _ _ _ E3) as [L3 T3].
  split; [|congruence]. rewrite L3, L2. unfold log_of_st. by rewrite H1.
Qed.

(** Behind the loop: one byte more if there is one, when no callback is set. *)
Lemma read_byte_takes s r s' : uart_read_byte UART2_PORT s = Val (r, s') ->
  (exists late, log_of_st s' = log_of_st s ++ late /\ (length late <= 1)%nat) /\ uart_receive_callback s' = uart_receive_callback s.
Proof using Type.
  intros (v & s1 & E1 & E)%bind_inv. destruct (silent_read _ (reg_not_data UART2_PORT 2 ltac:(lia) ltac:(lia)) _ _ _ E1) as [L1 T1].
  destruct (truthy _).
  - apply bind_inv in E as (w & s2 & E2 & E). injection E as _ <-. unfold REG_READ in E2.
    change (sel UART2_PORT REG_UART1_FIFO_PORT REG_UART2_FIFO_PORT) with (port_reg P2 3) in E2.
    pose proof (log_data (u_hw s1)) as Lg. destruct (bus_read (port_reg P2 3) (u_hw s1)) as [x h]. injection E2 as _ <-. cbn [fst snd] in Lg.
    split; [|exact T1]. eexists. split; [unfold log_of_st in *; cbn [u_hw with_hw]; rewrite Lg, L1; reflexivity|cbn; lia].
  - injection E as _ <-. split; [|done]. exists []. rewrite app_nil_r. split; [exact L1|cbn; lia].
Qed.

(** Callbacks take no byte and set no callback of a receiver. *)
Hypothesis Hsilent : forall cb uport p, silent (call_cb cb uport p).

Lemma silent_callback tbl i uport : silent (run_callback call_cb tbl i uport (mret tt)).
Proof using Hsilent.
  unfold run_callback. apply silent_bind; [apply still_silent, still_get|intros s]. apply silent_bind; [apply still_silent, still_res|intros d].
  destruct (truthy _); [apply Hsilent|apply still_silent, still_ret].
Qed.
Lemma silent_tail uport i status : silent (isr_tail call_cb uport i status).
Proof using Hsilent.
  unfold isr_tail. apply silent_bind; [apply silent_when, silent_callback|intros _]. apply silent_bind; [apply silent_when, silent_flush|intros _].
  apply silent_when, silent_callback.
Qed.

(** Whether a callback of the second receiver is set. *)
Definition rx_set s : bool := match uart_receive_callback s !! 1%nat with Some d => truthy (callback d) | None => false end.

Lemma isr_takes s s' : uart_ok (u_hw s) -> uart2_isr call_cb fuel s = Val (tt, s') ->
  let l := unit_of (u_hw s) P2 in
  uart_receive_callback s' = uart_receive_callback s /\
  exists late, log_of_st s' = log_of_st s ++ (if receives l then rx_bytes l ++ late else []) /\ (length late <= (if rx_set s then 0 else 1))%nat.
Proof using Hsilent.
  intros Ho E l. destruct (isr_entry call_cb fuel UART2_PORT 1 s Ho) as (h & Hh & Hd & Hrx & Ei). change (port_of UART2_PORT) with P2 in *.
  fold l in Hrx, Ei, Hd. unfold uart2_isr in E. rewrite Ei in E. clear Ei.
  assert (L0 : log_of_st (with_hw s h) = log_of_st s) by (unfold log_of_st; cbn; rewrite Hh; unfold entered; by rewrite log_write, !log_read).
  apply bind_inv in E as ([] & s1 & E & E'). destruct (silent_tail _ _ _ _ _ _ E') as [L' T']. rewrite T'.
  destruct (receives l); cbn [when] in E.
  2:{ injection E as <-. split; [done|]. exists []. rewrite L', L0, app_nil_r. split; [done|cbn; lia]. }
  apply bind_inv in E as (u & s2 & E2 & E). destruct (still_uart _ _ _ _ E2) as [H2 T2].
  apply bind_inv in E as (r & s3 & E3 & E). destruct (read_frame_takes _ s2 _ _ ltac:(rewrite H2; apply Hd) E3) as [L3 T3].
  rewrite H2 in L3. cbn [u_hw with_hw] in L3. rewrite Hrx in L3. unfold log_of_st in L3 at 2. rewrite H2 in L3. fold (log_of_st (with_hw s h)) in L3. rewrite L0 in L3.
  unfold run_callback in E. apply bind_inv in E as (s3' & s3'' & [= -> <-] & E). apply bind_inv in E as (d & s4 & E4 & E).
  unfold lift_res, of_option in E4. rewrite T3, T2 in E4. cbn [uart_receive_callback with_hw] in E4. unfold rx_set.
  destruct (uart_receive_callback s !! 1%nat) as [d'|]; [|done]. injection E4 as -> <-.
  destruct (truthy (callback d)).
  - destruct (Hsilent _ _ _ _ _ _ E) as [L4 T4]. split; [by rewrite T4, T3, T2|]. exists []. rewrite L', L4, L3, app_nil_r. split; [done|cbn; lia].
  - apply bind_inv in E as (r' & s5 & E5 & E). injection E as <-. destruct (read_byte_takes _ _ _ E5) as [(late & L5 & Hl) T5].
    split; [by rewrite T5, T3, T2|]. exists late. split; [|done]. by rewrite L', L5, L3, app_assoc.
Qed.

(** Time that passes takes no byte. *)
Definition log_ok (op : uart_op hw) : Prop := match op with Elapse t => forall h, rx_log (t h) = rx_log h | _ => True end.

Lemma do_takes op s out s' : uart_ok (u_hw s) -> tables_ok s -> op_ok op -> log_ok op ->
  uart_do call_cb fuel op s = Val (out, s') ->
  exists bs, takes (rx_set s) op out bs (rx_set s') /\ log_of_st s' = log_of_st s ++ bs.
Proof using Hsilent.
  intros Ho Ht Hop Hel E.
  assert (Hother : silent (uart_do call_cb fuel op) -> op <> Interrupt -> (forall d, op <> SetRxCallback d) ->
    exists bs, takes (rx_set s) op out bs (rx_set s') /\ log_of_st s' = log_of_st s ++ bs).
  { intros Hs H1 H2. destruct (Hs _ _ _ E) as [L T]. exists []. rewrite app_nil_r. split; [|done].
    replace (rx_set s') with (rx_set s) by (unfold rx_set; by rewrite T). by apply take_other. }
  destruct op as [t| |b n|b n| |b n| |d]; cbn [uart_do] in *.
  - apply Hother; [|done|done]. apply silent_bind; [|intros _; apply still_silent, still_ret]. intros s1 u s2 [= _ <-]. split; [|done]. apply Hel.
  - apply bind_inv in E as (s1 & s1' & [= -> <-] & E). cbv zeta in E. apply bind_inv in E as ([] & s2 & E2 & E). injection E as <- <-.
    destruct (isr_takes _ _ Ho E2) as (T & late & L & Hl). cbv zeta in L.
    replace (rx_set s2) with (rx_set s1) by (unfold rx_set; by rewrite T). destruct (receives _); eexists; (split; [|exact L]); by constructor.
  - apply Hother; [|done|done]. apply still_silent. apply still_bind; [apply still_uart|intros u; apply still_kget].
  - apply Hother; [|done|done]. apply still_silent. apply still_bind; [apply still_bind; [apply still_uart|intros u; apply still_kput]|intros r; apply still_ret].
  - apply Hother; [|done|done]. apply still_silent. unfold uart_cmd. change (CMD_RX_COUNT =? CMD_RX_COUNT) with true. cbv iota zeta.
    apply still_bind; [apply still_uart|intros u]. apply still_bind; [by apply (still_queue _ (Fifo 0 0 0 0 []))|intros f; apply still_ret].
  - apply Hother; [|done|done]. apply still_silent. unfold uart_cmd. change (CMD_RX_PEEK =? CMD_RX_COUNT) with false.
    change (CMD_RX_PEEK =? CMD_RX_PEEK) with true. cbv iota zeta. destruct (negb _); [|apply still_ret].
    apply still_bind; [apply still_uart|intros u; apply still_kget].
  - apply Hother; [|done|done]. apply silent_bind; [|intros _; apply still_silent, still_ret]. unfold uart_send_backgroud.
    apply silent_bind; [apply still_silent, still_uart|intros u]. apply silent_bind; [apply silent_write_loop|intros r; apply still_silent, still_ret].
  - exists []. injection E as <- <-. rewrite app_nil_r. split; [|done].
    match goal with |- takes _ _ _ _ (rx_set ?x) => assert (Hr : rx_set x = truthy (callback d)); [|rewrite Hr; by constructor] end.
    unfold rx_set. cbn. rewrite list_lookup_insert_eq by (rewrite (proj1 Ht); lia). done.
Qed.

Lemma run_takes sent0 pp ops : (forall cb uport p s, uart_ok (u_hw s) -> wp (call_cb cb uport p) s (fun _ s' => kept s s')) ->
  (wait_max < fuel)%nat /\ (rx_max < fuel)%nat /\ (64 < fuel)%nat -> Forall op_ok ops -> Forall log_ok ops ->
  forall c s outs s', implements sent0 pp c s -> uart_run call_cb fuel ops s = Val (outs, s') ->
  exists bs, take_all (rx_set s) ops outs bs (rx_set s') /\ log_of_st s' = log_of_st s ++ bs.
Proof using Hsilent.
  intros Hcb Hfuel Hops Hlog. induction Hops as [|op ops Hop Hops IH]; intros c s outs s' I E; cbn [uart_run] in E.
  - injection E as <- <-. exists []. split; [constructor|by rewrite app_nil_r].
  - inversion_clear Hlog as [|? ? Hl Hls]. apply bind_inv in E as (out & s1 & E1 & E). apply bind_inv in E as (outs' & s2 & E2 & E).
    injection E as <- <-. destruct (wp_val _ _ _ (do_wp call_cb fuel Hcb Hfuel _ _ _ _ op I Hop)) as (out' & s1' & E1' & c1 & _ & I1).
    rewrite E1 in E1'. injection E1' as <- <-. destruct (do_takes op s out s1 (im_ok _ _ _ _ I) (im_tables _ _ _ _ I) Hop Hl E1) as (bs & T1 & L1).
    destruct (IH Hls c1 s1 outs' s2 I1 E2) as (bs' & T2 & L2). exists (bs ++ bs'). split; [by econstructor|]. by rewrite L2, L1, app_assoc.
Qed.
End log.

(** ** Allocation of the queues *)
Section init.
Context {hw : Type} `{UartSpec hw}.
Abbreviation st := (uart_st hw).
Implicit Types s : st.
Context (malloc_ok : Z -> Z -> bool) (junk : Z -> list Z).

Definition has_memory (live : Z) : Prop :=
  malloc_ok live RX_RB_LENGTH = true /\ malloc_ok (live + 1) sizeof_kfifo = true /\
  malloc_ok (live + 1 + 1) TX_RB_LENGTH = true /\ malloc_ok (live + 1 + 1 + 1) sizeof_kfifo = true /\
  Z.of_nat (length (junk RX_RB_LENGTH)) = RX_RB_LENGTH /\ Z.of_nat (length (junk TX_RB_LENGTH)) = TX_RB_LENGTH.

Definition new_kfifo (size : Z) : KFIFO_T := Fifo 0 0 (u32 (size - 1)) size (junk size).

(** The state with the two queues of a port allocated. *)
Definition with_queues s (uport : Z) (u : UART_S) : st :=
  let a := next_block s in
  with_kfifos (with_uart s (<[Z.to_nat uport := Uart (status u) a (a + 1)]> (uart s)))
    (<[a + 1 := new_kfifo TX_RB_LENGTH]> (<[a := new_kfifo RX_RB_LENGTH]> (kfifos s)))
    (blocks s + 1 + 1 + 1 + 1) (a + 1 + 1).

Lemma kalloc_val k s : 0 <= k <= 31 -> malloc_ok (blocks s) (2 ^ k) = true -> malloc_ok (blocks s + 1) sizeof_kfifo = true ->
  kalloc malloc_ok junk (2 ^ k) s = Val (next_block s,
    with_kfifos s (<[next_block s := new_kfifo (2 ^ k)]> (kfifos s)) (blocks s + 1 + 1) (next_block s + 1)).
Proof.
  intros Hk H1 H2. unfold kalloc. mstep by (unfold on_blocks; rewrite (kfifo_alloc_val _ _ k) by done; reflexivity). reflexivity.
Qed.

Lemma set_uart_val uport u v s : zlookup (uart s) uport = Some v ->
  set_uart uport u s = Val (tt, with_uart s (<[Z.to_nat uport := u]> (uart s))).
Proof. intros E. unfold set_uart. mstep by (by apply get_uart_val). reflexivity. Qed.

Lemma zlookup_set (l : list UART_S) i u v : zlookup l i = Some v -> zlookup (<[Z.to_nat i := u]> l) i = Some u.
Proof.
  unfold zlookup. destruct (0 <=? i); [|done]. intros E. apply list_lookup_insert_eq. by eapply lookup_lt_Some.
Qed.

Lemma sw_init_val uport u s : zlookup (uart s) uport = Some u -> 0 < next_block s -> has_memory (blocks s) ->
  uart_sw_init malloc_ok junk uport s = Val (UART_SUCCESS, with_queues s uport u).
Proof.
  intros Eu Ha (M1 & M2 & M3 & M4 & _). unfold uart_sw_init. set (a := next_block s).
  mstep by (by apply (kalloc_val 7)). fold a. mstep by (by apply get_uart_val).
  mstep by (by apply (set_uart_val _ _ u)). mstep by (by apply (kalloc_val 6)).
  cbn [next_block with_uart with_kfifos kfifos uart].
  mstep by (apply get_uart_val; cbn; by eapply zlookup_set).
  mstep by (eapply set_uart_val; cbn; by eapply zlookup_set).
  cbn [uart with_uart with_kfifos status rx tx].
  mstep by (apply get_uart_val; cbn; eapply zlookup_set; by eapply zlookup_set).
  cbn [rx tx]. rewrite (proj2 (Z.eqb_neq _ _)), (proj2 (Z.eqb_neq _ _)) by lia. cbn [orb].
  unfold mret, M_ret, with_queues. fold a. cbn. by rewrite list_insert_insert_eq.
Qed.
End init.

(** ** Freeing the queues, and switching a unit off *)
Section uninit.
Context {hw : Type} `{UartSpec hw}.
Abbreviation st := (uart_st hw).
Implicit Types s : st.

Lemma kfree_val p f s : kfifos s !! p = Some f ->
  kfree p s = Val (tt, with_kfifos s (delete p (kfifos s)) (blocks s - 1 - 1) (next_block s)).
Proof.
  intros Ef. unfold kfree. mstep by (unfold get_kfifo; mstep; unfold lift_res; rewrite Ef; reflexivity). mstep. reflexivity.
Qed.

(** The state with the two queues of a port freed. *)
Definition without_queues s (uport : Z) (u : UART_S) : st :=
  with_uart (with_kfifos s (delete (rx u) (delete (tx u) (kfifos s))) (blocks s - 1 - 1 - 1 - 1) (next_block s))
    (<[Z.to_nat uport := no_uart]> (uart s)).

Lemma sw_uninit_val uport u f g s : zlookup (uart s) uport = Some u -> distinct u ->
  kfifos s !! rx u = Some f -> kfifos s !! tx u = Some g ->
  uart_sw_uninit uport s = Val (UART_SUCCESS, without_queues s uport u).
Proof.
  intros Eu (Hne & Hr & Ht) Ef Eg. unfold uart_sw_uninit. mstep by (by apply get_uart_val).
  unfold truthy. rewrite (proj2 (Z.eqb_neq _ _) Ht), (proj2 (Z.eqb_neq _ _) Hr). cbn [negb when].
  mstep by (by apply (kfree_val _ g)). mstep by (apply (kfree_val _ f); cbn; by rewrite lookup_delete_ne by done).
  mstep by (by apply (set_uart_val _ _ u)). reflexivity.
Qed.

(** Nothing was sent. *)
Definition quiet (h h' : hw) : Prop := uart_ok h' /\ forall q, tx_sent (unit_of h' q) = tx_sent (unit_of h q).

Lemma did_quiet a h h' : did none a h h' -> quiet h h'.
Proof. intros [Ho Hd]. split; [done|]. intros q. destruct (Hd q) as (-> & _ & _). by rewrite app_nil_r. Qed.

Lemma quiet_trans h h' h'' : quiet h h' -> quiet h' h'' -> quiet h h''.
Proof. intros [_ H1] [Ho H2]. split; [done|]. intros q. by rewrite H2. Qed.

(** A register access after which nothing was sent. *)
Definition quietly {A} (m : M st A) s : Prop := wp m s (fun _ s' => exists h, s' = with_hw s h /\ quiet (u_hw s) h).

Lemma quietly_bind {A B} (m : M st A) (k : A -> M st B) s : quietly m s ->
  (forall a h, uart_ok h -> quiet (u_hw s) h -> quietly (k a) (with_hw s h)) -> quietly (mbind k m) s.
Proof.
  intros Hm Hk. apply wp_bind. eapply wp_mono; [exact Hm|]. intros a s' (h & -> & Hq). eapply wp_mono; [apply Hk; [apply Hq|done]|].
  intros b s'' (h' & -> & Hq'). exists h'. split; [done|]. eapply quiet_trans; [exact Hq|exact Hq'].
Qed.

Lemma quietly_read_ctl p n s : uart_ok (u_hw s) -> ctl_index n = true ->
  wp (REG_READ (port_reg p n)) s (fun v s' => is_u32 v /\ exists h, s' = with_hw s h /\ quiet (u_hw s) h).
Proof.
  intros Ho Hn. destruct (uart_read_ctl (u_hw s) p n Ho Hn) as (h & E & Ho' & _ & Hp). apply (read_wp _ _ _ _ _ E).
  split; [by apply (uart_bounds _ p Ho)|]. exists h. split; [done|]. apply (did_quiet none). by apply passes_did.
Qed.

Lemma quietly_write_ctl p n v s : uart_ok (u_hw s) -> ctl_index n = true -> is_u32 v -> quietly (REG_WRITE (port_reg p n) v) s.
Proof.
  intros Ho Hn Hv. apply write_wp. destruct (uart_write_ctl (u_hw s) p n v Ho Hn Hv) as (A0 & A1 & _ & _ & _ & A5).
  eexists. split; [done|]. split; [done|]. intros q. destruct (decide (q = p)) as [->|Hq]; [done|]. by destruct (A5 q Hq) as (_ & -> & _).
Qed.

Lemma quietly_read {A} p n (k : Z -> M st A) s : uart_ok (u_hw s) -> ctl_index n = true ->
  (forall v h, is_u32 v -> uart_ok h -> quietly (k v) (with_hw s h)) -> quietly (v ← REG_READ (port_reg p n); k v) s.
Proof.
  intros Ho Hn Hk. apply wp_bind. eapply wp_mono; [by apply quietly_read_ctl|]. intros v s' (Hv & h & -> & Hq).
  eapply wp_mono; [by apply Hk; [|apply Hq]|]. intros b s'' (h' & -> & Hq'). exists h'. split; [done|].
  eapply quiet_trans; [exact Hq|exact Hq'].
Qed.

Lemma quietly_discard uport n : forall s, uart_ok (u_hw s) -> quietly (discard_loop uport n) s.
Proof.
  induction n as [|n IH]; intros s Ho; cbn [discard_loop].
  - apply wp_ret. exists (u_hw s). split; [by rewrite with_hw_same|done].
  - apply quietly_bind; [|intros _ h Ho' _; by apply IH]. unfold UART_READ_BYTE_DISCARD, REG_UART1_FIFO_PORT, REG_UART2_FIFO_PORT.
    rewrite sel_reg. destruct (uart_read_data (u_hw s) (port_of uport) Ho) as (v & h & E & Ho' & _ & Hs & _ & Hp).
    apply wp_bind, (read_wp _ _ _ _ _ E), wp_ret. exists h. split; [done|]. apply (did_quiet none). by apply (same_doing_did (port_of uport)).
Qed.

Lemma quietly_flush uport s : uart_ok (u_hw s) -> quietly (uart_fifo_flush uport) s.
Proof.
  intros Ho. unfold uart_fifo_flush, REG_UART1_CONFIG, REG_UART2_CONFIG. rewrite sel_reg. cbv zeta.
  apply quietly_read; [done|done|]. intros v h1 Hv Ho1.
  apply quietly_bind; [by apply quietly_write_ctl; [| |apply ldiff_u32]|]. intros _ h2 Ho2 _. by apply quietly_write_ctl.
Qed.

Lemma hw_uninit_quiet uport s : uart_ok (u_hw s) -> quietly (uart_hw_uninit uport) s.
Proof.
  intros Ho. unfold uart_hw_uninit, REG_UART1_INTR_ENABLE, REG_UART2_INTR_ENABLE, REG_UART1_CONFIG, REG_UART2_CONFIG,
    REG_UART1_FIFO_STATUS, REG_UART2_FIFO_STATUS. rewrite !sel_reg. cbv zeta.
  apply quietly_read; [done|done|]. intros v h1 Hv Ho1.
  apply quietly_bind; [by apply quietly_write_ctl; [| |apply ldiff_u32]|]. intros _ h2 Ho2 _.
  apply quietly_bind; [by apply quietly_flush|]. intros _ h3 Ho3 _. apply quietly_read; [done|done|]. intros w h4 Hw Ho4.
  apply quietly_bind; [by apply quietly_write_ctl; [| |apply ldiff_u32]|]. intros _ h5 Ho5 _.
  apply quietly_bind; [|intros x h6 Ho6 _; by apply quietly_discard]. apply status_wp; [done|].
  intros x h6 _ _ _ _ Hd _ _ _. exists h6. split; [done|]. by apply (did_quiet none).
Qed.
End uninit.

(** ** The divider of the baud rate *)

(** The divider in a configuration, and the rate that [uart_wait_tx_over]
    computes from it. *)
Definition divider (conf : Z) : Z := Z.land (Z.shiftr conf UART_CLK_DIVID_POSI) UART_CLK_DIVID_MASK.
Definition baud_of (conf : Z) : Z := UART_CLOCK / (divider conf + 1).

(** [CMD_SET_BAUT] changes the divider alone.  For a rate of at least 3174
    baud the unit then runs at the nearest rate not below it that its clock
    divides to, off by less than one part in the quotient; a rate below 3173
    baud does not fit the 13 bits of the divider, whose high bits are dropped,
    and the unit runs faster than asked. *)
Theorem set_baut_rate {hw} `{UartSpec hw} uport baud (s : uart_st hw) : uart_ok (u_hw s) -> 0 < baud <= UART_CLOCK ->
  let p := port_of uport in let old := ctl (unit_of (u_hw s) p) 0 in let q := UART_CLOCK / baud in
  let field := Z.shiftl UART_CLK_DIVID_MASK UART_CLK_DIVID_POSI in
  exists h, set_baut uport baud s = Val (tt, with_hw s h) /\ quiet (u_hw s) h /\
    let new := ctl (unit_of h p) 0 in
    Z.ldiff new field = Z.ldiff old field /\
    (3174 <= baud -> divider new + 1 = q /\ baud <= baud_of new /\ (baud_of new - baud) * q < baud) /\
    (baud < 3173 -> baud < baud_of new).
Proof.
  intros Ho Hb p old q field. unfold set_baut, REG_UART1_CONFIG, REG_UART2_CONFIG. rewrite sel_reg. fold p.
  rewrite (proj2 (Z.eqb_neq _ _)), bind_mret by lia. cbv zeta. rewrite Z.quot_div_nonneg by (unfold UART_CLOCK in *; lia). fold q.
  assert (Hq : 1 <= q <= 26000000) by (subst q; unfold UART_CLOCK in *; split; [apply Z.div_le_lower_bound; lia|apply Z.div_le_upper_bound; lia]).
  rewrite (u32_id q), (u32_id (q - 1)) by (unfold is_u32; lia).
  destruct (uart_read_ctl (u_hw s) p 0 Ho eq_refl) as (h1 & E1 & Ho1 & _ & Hp1). fold old in E1.
  erewrite bind_ret_val by (unfold REG_READ; rewrite E1; reflexivity).
  set (d := Z.land (q - 1) UART_CLK_DIVID_MASK). assert (Hd : d = (q - 1) mod 8192) by (apply (land_ones_mod (q - 1) 13); lia).
  pose proof (Z.mod_pos_bound (q - 1) 8192 ltac:(lia)) as Hdr.
  assert (Hsh : Z.shiftl d UART_CLK_DIVID_POSI = d * 256) by (by rewrite Z.shiftl_mul_pow2).
  rewrite (u32_id (Z.shiftl d _)) by (unfold is_u32; lia).
  set (new := Z.lor _ _). assert (Hnew : new = set_field old (q - 1) 8 13) by done.
  assert (Hold : is_u32 old) by (by apply (uart_bounds (u_hw s) p Ho)).
  assert (Hnew32 : is_u32 new) by (apply lor_u32; [by apply ldiff_u32|unfold is_u32; lia]).
  destruct (uart_write_ctl h1 p 0 new Ho1 eq_refl Hnew32) as (Ho2 & A1 & _ & _ & A3 & A4).
  exists (bus_write (port_reg p 0) new h1). split; [done|]. split; [|rewrite A3 by done; change (0 =? 0) with true; cbv iota zeta].
  - eapply quiet_trans; [apply (did_quiet none), passes_did; [exact Ho1|exact Hp1]|]. split; [done|].
    intros r. destruct (decide (r = p)) as [->|Hr]; [done|]. by destruct (A4 r Hr) as (_ & -> & _).
  - rewrite Hnew. split; [by apply (set_field_others old (q - 1) 8 13)|].
    assert (Hdiv : divider (set_field old (q - 1) 8 13) = (q - 1) mod 8192) by (rewrite <- Hd; by apply set_field_read).
    unfold baud_of. rewrite Hdiv. clear -Hb Hq Hdr. assert (Hlow : baud * q <= UART_CLOCK) by (by apply Z.mul_div_le; lia).
    assert (Hhigh : UART_CLOCK < baud * q + baud) by (pose proof (Z.mul_succ_div_gt UART_CLOCK baud ltac:(lia)) as Hg; change (UART_CLOCK / baud) with q in Hg; lia).
    split.
    + intros H3174. unfold UART_CLOCK in *. assert (q <= 8192) by nia. rewrite Z.mod_small by lia. replace (q - 1 + 1) with q by lia.
      split; [done|]. pose proof (Z.mul_div_le 26000000 q ltac:(lia)). split; [apply Z.div_le_lower_bound; lia|nia].
    + intros H3173. apply (Z.lt_le_trans _ 3173); [done|]. apply Z.div_le_lower_bound; unfold UART_CLOCK; lia.
Qed.

(** A string goes out on its port whole and in order, and nothing else
    does: with a carriage return before every line feed, the characters besides
    carriage returns as they are, and a string that needs no change as it is. *)
Theorem send_string_crlf {hw} `{UartSpec hw} fuel uport string (s : uart_st hw) : (wait_max < fuel)%nat ->
  uart_ok (u_hw s) -> Forall is_u8 string ->
  exists h out, bk_send_string fuel uport string s = Val (tt, with_hw s h) /\
    did (only (port_of uport) out) none (u_hw s) h /\
    crlf_ok None out = true /\ filter not_cr out = filter not_cr string /\ (crlf_ok None string = true -> out = string).
Proof.
  intros Hf Ho Hs.
  destruct (wp_val _ _ _ (send_chars_wp fuel Hf uport string Hs None s (fun _ s' => exists h, s' = with_hw s h /\
    did (only (port_of uport) (crlf None string)) none (u_hw s) h) Ho ltac:(intros h Hd _; by exists h))) as ([] & s' & E & h & -> & Hd).
  exists h, (crlf None string). split; [exact E|]. split; [exact Hd|]. split; [apply crlf_translates|]. split; [apply crlf_content|apply crlf_same].
Qed.

(** C21: the second port behaves as two bounded queues: from its allocation at
    start-up, any sequence of interrupts, reads, writes, counts, peeks, background
    transmissions and settings of the receiver's callback, with any time passing between, returns; what each
    call yields and what goes out on the ports is what a queue of 128 received
    bytes and one of 64 bytes to send yield, in order, for whatever the unit
    delivers at each interrupt; bytes beyond the room are lost, with a message.
    Exactly these bytes are taken from the unit: at each interrupt of the
    receiver those it delivers and, if no callback is set, at most one that came
    behind them, which is lost; with a callback that one stays in the unit.  There is
    memory for the queues; the callbacks are any that call no driver function. *)
Theorem uart2_refines_queues {hw} `{UartSpec hw, !UartLog hw} malloc_ok junk call_cb fuel (h : hw) a ops :
  (forall cb uport p s, uart_ok (u_hw s) -> wp (call_cb cb uport p) s (fun _ s' => kept s s')) -> (forall cb uport p, silent (call_cb cb uport p)) ->
  (wait_max < fuel)%nat /\ (rx_max < fuel)%nat /\ (64 < fuel)%nat -> 0 < a -> has_memory malloc_ok junk 0 -> uart_ok h ->
  Forall op_ok ops -> Forall log_ok ops ->
  wp (r ← uart_sw_init malloc_ok junk UART2_PORT; outs ← uart_run call_cb fuel ops; mret (r, outs)) (uart_start h a)
    (fun out s' => out.1 = UART_SUCCESS /\ exists c, deliver_all P1 (Contract [] [] none) ops out.2 c /\
      (forall q, tx_sent (unit_of (u_hw s') q) = tx_sent (unit_of h q) ++ c_sent c q) /\
      (exists taken, take_all false ops out.2 taken (rx_set s') /\ rx_log (u_hw s') = rx_log h ++ taken) /\
      exists u, zlookup (uart s') UART2_PORT = Some u /\ queue_at (kfifos s') (rx u) RX_RB_LENGTH (c_rx c) /\
        queue_at (kfifos s') (tx u) TX_RB_LENGTH (c_tx c)).
Proof.
  intros Hcb Hsil Hfuel Ha Hm Ho Hops Hlog. apply wp_bind.
  apply (wp_intro _ _ _ _ _ (sw_init_val malloc_ok junk UART2_PORT no_uart (uart_start h a) eq_refl Ha Hm)).
  pose proof Hm as (_ & _ & _ & _ & J1 & J2).
  assert (I : implements (fun q => tx_sent (unit_of h q)) P1 (Contract [] [] none) (with_queues junk (uart_start h a) UART2_PORT no_uart)).
  { split; [done|done|done| |constructor| |cbn; lia].
    - intros q. cbn. by rewrite app_nil_r.
    - exists (Uart 0 a (a + 1)), (new_kfifo junk RX_RB_LENGTH), (new_kfifo junk TX_RB_LENGTH).
      split; [done|]. split; [unfold distinct; cbn; lia|]. cbn [kfifos with_queues with_kfifos with_uart uart_start rx tx next_block].
      rewrite lookup_insert_eq, lookup_insert_ne, lookup_insert_eq by lia.
      pose proof (fifo_init_ok (junk RX_RB_LENGTH) 7 ltac:(lia) J1). pose proof (fifo_init_ok (junk TX_RB_LENGTH) 6 ltac:(lia) J2).
      by split_and!. }
  destruct (wp_val _ _ _ (run_wp call_cb fuel Hcb Hfuel _ _ ops Hops _ _ I)) as (outs & s' & E & c & Hd & I').
  destruct (run_takes call_cb fuel Hsil _ _ ops Hcb Hfuel Hops Hlog _ _ _ _ I E) as (taken & Ht & Hlg).
  apply wp_bind. eapply wp_intro; [exact E|]. apply wp_ret. cbn. destruct I' as [I1 I2 I3 I4 I5 I6 I7].
  split; [done|]. exists c. split; [done|]. split; [done|]. split; [by exists taken|]. destruct I6 as (u & f & g & Eu & _ & Hf & F1 & F2 & F3 & Hg & G1 & G2 & G3).
  exists u. split; [done|]. split; [by exists f|by exists g].
Qed.

(** ** Witnesses *)

(** The first unit idle, the second with three bytes and a receive interrupt;
    two more bytes arrive when it has reported that it is empty. *)
Definition idle_line : line := Line [] [] 0 0 0 [] (fun _ => 0).
Definition demo_uart : uart_sim :=
  UartSim (fun p => match p with P1 => idle_line | P2 => Line [65; 66; 67] [] 1 0 2 [] (fun n => if n =? 4 then 0x42 else 0) end)
    (fun p => match p with P1 => [] | P2 => [[68; 69]; [70; 71]; [72]] end) [].

(** The receive interrupt is raised. *)
Definition raise (h : uart_sim) : uart_sim :=
  UartSim (set_at P2 (let l := s_line h P2 in Line (rx_bytes l) (tx_sent l) (tx_wait l) (tx_drain l) 2 (acked l) (ctl l)) (s_line h))
    (s_next h) (s_log h).

Definition no_cb : Z -> Z -> Z -> M (uart_st uart_sim) unit := fun _ _ _ => mret tt.
Definition zeros (n : Z) : list Z := replicate (Z.to_nat n) 0.

Lemma demo_uart_ok : uart_ok demo_uart.
Proof.
  change (sim_ok demo_uart). split; intros [].
  - unfold line_ok, batch_ok, is_u32. cbn. split_and!; (lia || constructor || intros; lia).
  - unfold line_ok, batch_ok, is_u32. cbn. split_and!; try lia; [repeat constructor; lia|]. intros n _. destruct (n =? 4); lia.
  - constructor.
  - repeat constructor; cbn; lia.
Qed.

Lemma no_cb_ok cb uport p (u : uart_st uart_sim) : uart_ok (u_hw u) -> wp (no_cb cb uport p) u (fun _ u' => kept u u').
Proof. intros Ho. by apply wp_ret, kept_refl. Qed.

Lemma raise_ok h : uart_ok h -> did none none h (raise h).
Proof.
  intros [Hl Hn]. split.
  - change (sim_ok (raise h)). split; [|done]. intros q. cbn. unfold set_at. destruct (decide (q = P2)) as [->|]; [|done].
    destruct (Hl P2) as (A1 & A2 & A3 & A4 & A5). unfold line_ok, is_u32. cbn. by split_and!.
  - intros q. cbn. unfold set_at. destruct (decide (q = P2)) as [->|]; cbn; by rewrite !app_nil_r.
Qed.

Definition demo_ops : list (uart_op uart_sim) :=
  [Interrupt; Read [0; 0] 2; Write [104; 10] 2; SendBackground; RxCount; Elapse raise; Interrupt; RxPeek [0; 0; 0; 0] 4;
   SetRxCallback (CallbackDes 5 0); Elapse raise; Interrupt; Elapse raise; Interrupt; RxCount].

(** The bytes 68 and 70 that arrive behind the loop of an interrupt are read and
    dropped, as no callback is set; with a callback 72 stays for the next one. *)
Example demo_outs : match (_ ← uart_sw_init (fun _ _ => true) zeros UART2_PORT; uart_run no_cb 300 demo_ops) (uart_start demo_uart 1) with
  | Val (outs, s) => outs = [(1, [65; 66; 67]); (2, [65; 66]); (2, []); (0, []); (1, []); (0, []); (1, [69]); (2, [67; 69; 0; 0]);
        (0, []); (0, []); (1, [71]); (0, []); (1, [72]); (4, [])] /\
      tx_sent (unit_of (u_hw s) P2) = [104; 10] /\ rx_log (u_hw s) = [65; 66; 67; 68; 69; 70; 71; 72]
  | Err _ => False
  end.
Proof. vm_compute. by split_and!. Qed.

Lemma uart2_refines_queues_witness :
  wp (r ← uart_sw_init (fun _ _ => true) zeros UART2_PORT; outs ← uart_run no_cb 300 demo_ops; mret (r, outs)) (uart_start demo_uart 1)
    (fun out s' => out.1 = UART_SUCCESS /\ exists c, deliver_all P1 (Contract [] [] none) demo_ops out.2 c /\
      (forall q, tx_sent (unit_of (u_hw s') q) = tx_sent (unit_of demo_uart q) ++ c_sent c q) /\
      (exists taken, take_all false demo_ops out.2 taken (rx_set s') /\ rx_log (u_hw s') = rx_log demo_uart ++ taken) /\
      exists u, zlookup (uart s') UART2_PORT = Some u /\ queue_at (kfifos s') (rx u) RX_RB_LENGTH (c_rx c) /\
        queue_at (kfifos s') (tx u) TX_RB_LENGTH (c_tx c)).
Proof.
  apply (uart2_refines_queues (fun _ _ => true) zeros no_cb 300 demo_uart 1 demo_ops).
  - exact no_cb_ok.
  - intros cb uport p. apply still_silent, still_ret.
  - cbn. lia.
  - lia.
  - by vm_compute.
  - exact demo_uart_ok.
  - unfold demo_ops. repeat (apply List.Forall_cons || apply List.Forall_nil); cbn [op_ok].
    all: try exact I; try (split_and!; [lia|lia|cbn; lia|by repeat constructor]). all: intros h; apply raise_ok.
  - unfold demo_ops. by repeat (apply List.Forall_cons || apply List.Forall_nil).
Defined.

Lemma set_baut_rate_witness : let h := demo_uart in
  exists h', set_baut UART2_PORT 9600 (uart_start h 1) = Val (tt, with_hw (uart_start h 1) h') /\ quiet h h' /\
    divider (ctl (unit_of h' P2) 0) = 2707.
Proof.
  destruct (set_baut_rate UART2_PORT 9600 (uart_start demo_uart 1) demo_uart_ok ltac:(unfold UART_CLOCK; lia))
    as (h' & E & Hq & _ & H1 & _).
  exists h'. split; [exact E|]. split; [exact Hq|]. destruct (H1 ltac:(lia)) as [H2 _].
  change (UART_CLOCK / 9600) with 2708 in H2. change (port_of UART2_PORT) with P2 in H2. lia.
Defined.

Lemma send_string_crlf_witness :
  exists h out, bk_send_string 300 UART2_PORT [104; 10; 13; 10] (uart_start demo_uart 1) = Val (tt, with_hw (uart_start demo_uart 1) h) /\
    did (only P2 out) none demo_uart h /\ crlf_ok None out = true /\ filter not_cr out = [104; 10; 10].
Proof.
  destruct (send_string_crlf (hw := uart_sim) 300 UART2_PORT [104; 10; 13; 10] (uart_start demo_uart 1)) as (h & out & E & Hd & H1 & H2 & _).
  { cbn. lia. } { exact demo_uart_ok. } { by repeat constructor. }
  exists h, out. split; [exact E|]. split; [exact Hd|]. split; [exact H1|exact H2].
Defined.
