(* ===== verification/UartSystem.v ===== *)
(** * The UART through the registry and the interrupt table

    [Uart] with [DrvModel] and [Intc]: after [uart2_init], an interrupt that
    the dispatch delivers, an open and a read through the registry yield the
    bytes the unit received, and a reset starts again with empty queues.  The
    state of the UART driver is behind the interrupt table, and that is the
    state behind the registry. *)
From stdpp Require Import gmap strings.
From Stdlib Require Import Sorting.Sorted.
From S2P Require Import Prelude DrvModel Kfifo Icu DList Intc Gpio UartHw Uart UartCorrect.
Local Open Scope Z_scope.

(** ** The registers after start-up *)
Section registers.
Context {hw : Type} `{UartSpec hw}.
Abbreviation st := (uart_st hw).
Implicit Types s : st.

(** The registers at start-up: both directions on, 8 data bits, no parity, one
    stop bit, 115200 baud, thresholds of 64 and 16 bytes, receive interrupts. *)
Definition start_ctl (n : Z) : Z :=
  if n =? 0 then 0x1B + 224 * 256 else if n =? 1 then 0x1040 else if n =? 4 then 0x42 else 0.

Lemma write_reg_wp p n v s (Q : unit -> st -> Prop) : uart_ok (u_hw s) -> ctl_index n = true -> is_u32 v ->
  (forall h, uart_ok h -> tx_sent (unit_of h p) = tx_sent (unit_of (u_hw s) p) -> acked (unit_of h p) = acked (unit_of (u_hw s) p) ->
    (n <> 0 -> rx_bytes (unit_of h p) = rx_bytes (unit_of (u_hw s) p)) ->
    (forall m, ctl_index m = true -> ctl (unit_of h p) m = if m =? n then v else ctl (unit_of (u_hw s) p) m) ->
    (forall q, q <> p -> passes (unit_of (u_hw s) q) (unit_of h q)) -> Q tt (with_hw s h)) ->
  wp (REG_WRITE (port_reg p n) v) s Q.
Proof.
  intros Ho Hn Hv HQ. apply write_wp. destruct (uart_write_ctl (u_hw s) p n v Ho Hn Hv) as (A0 & A1 & A2 & A3 & A4 & A5). by apply HQ.
Qed.

Lemma passes_trans l l' l'' : passes l l' -> passes l' l'' -> passes l l''.
Proof.
  intros (A1 & A2 & A3 & A4) (B1 & B2 & B3 & B4). split; [congruence|split_and!; try congruence].
  intros n Hn. by rewrite B4, A4.
Qed.

(** What [uart_hw_init] leaves: the start-up values in one unit, and nothing
    else changed. *)
Record started (p : port) (h h' : hw) : Prop := {
  sd_ok : uart_ok h';
  sd_sent : tx_sent (unit_of h' p) = tx_sent (unit_of h p);
  sd_acked : acked (unit_of h' p) = acked (unit_of h p);
  sd_ctl n : ctl_index n = true -> ctl (unit_of h' p) n = start_ctl n;
  sd_others q : q <> p -> passes (unit_of h q) (unit_of h' q);
}.

Lemma hw_init_wp uport s (Q : unit -> st -> Prop) : uart_ok (u_hw s) ->
  (forall h, started (port_of uport) (u_hw s) h -> Q tt (with_hw s h)) -> wp (uart_hw_init uport) s Q.
Proof.
  intros Ho HQ. unfold uart_hw_init, REG_UART1_CONFIG, REG_UART2_CONFIG, REG_UART1_FIFO_CONFIG, REG_UART2_FIFO_CONFIG,
    REG_UART1_FLOW_CONFIG, REG_UART2_FLOW_CONFIG, REG_UART1_WAKE_CONFIG, REG_UART2_WAKE_CONFIG, REG_UART1_INTR_ENABLE,
    REG_UART2_INTR_ENABLE. rewrite !sel_reg. set (p := port_of uport) in *.
  apply wp_bind, write_reg_wp; [done|done|by vm_compute|]. intros h1 O1 A1 B1 _ C1 D1.
  apply wp_bind, write_reg_wp; [done|done|by vm_compute|]. intros h2 O2 A2 B2 _ C2 D2.
  apply wp_bind, write_reg_wp; [done|done|by vm_compute|]. intros h3 O3 A3 B3 _ C3 D3.
  apply wp_bind, write_reg_wp; [done|done|by vm_compute|]. intros h4 O4 A4 B4 _ C4 D4.
  apply write_reg_wp; [done|done|by vm_compute|]. intros h5 O5 A5 B5 _ C5 D5. cbn [u_hw with_hw] in *.
  apply HQ. split; [done|congruence|congruence| |].
  - intros n Hn. rewrite C5, C4, C3, C2, C1 by done. apply ctl_index_cases in Hn as [->|[->|[->|[->| ->]]]]; vm_compute; reflexivity.
  - intros q Hq. eapply passes_trans; [by apply D1|]. eapply passes_trans; [by apply D2|]. eapply passes_trans; [by apply D3|].
    eapply passes_trans; [by apply D4|by apply D5].
Qed.

Lemma did_started p h h' h'' : started p h h' -> did none (only p [pending (unit_of h' p)]) h' h'' ->
  uart_ok h'' /\ (forall q, tx_sent (unit_of h'' q) = tx_sent (unit_of h q)) /\
  (forall n, ctl_index n = true -> ctl (unit_of h'' p) n = start_ctl n).
Proof.
  intros [S1 S2 S3 S4 S5] [Ho Hd]. split; [done|]. split.
  - intros q. destruct (Hd q) as (-> & _ & _). rewrite app_nil_r. destruct (decide (q = p)) as [->|Hq]; [done|].
    by destruct (S5 q Hq) as (_ & -> & _).
  - intros n Hn. destruct (Hd p) as (_ & _ & Hc). rewrite Hc by done. by apply S4.
Qed.

(** The other unit, and the one status written back. *)
Lemma did_started_rest p v h h' h'' : started p h h' -> did none (only p [v]) h' h'' ->
  acked (unit_of h'' p) = acked (unit_of h p) ++ [v] /\ forall q, q <> p -> same_doing (unit_of h q) (unit_of h'' q).
Proof.
  intros [S1 S2 S3 S4 S5] [Ho Hd]. split.
  - destruct (Hd p) as (_ & -> & _). unfold only. rewrite decide_True by done. by rewrite S3.
  - intros q Hq. destruct (Hd q) as (D1 & D2 & D3), (S5 q Hq) as (_ & A1 & A2 & A3). unfold only in D2. rewrite decide_False in D2 by done.
    rewrite app_nil_r in D1, D2. split_and!; [congruence..|]. intros n Hn. by rewrite D3, A3.
Qed.

(** Reading and writing back the interrupt status. *)
Lemma ack_val p s : uart_ok (u_hw s) -> let v := pending (unit_of (u_hw s) p) in
  exists h, REG_READ (port_reg p 5) s = Val (v, with_hw s h) /\
    did none (only p [v]) (u_hw s) (bus_write (port_reg p 5) v h).
Proof.
  intros Ho v. destruct (uart_read_pending (u_hw s) p Ho) as (h1 & E1 & Ho1 & Hp1). fold v in E1.
  destruct (uart_write_pending h1 p v Ho1) as (Ho2 & A1 & A2 & A3 & A4 & A5). exists h1. split; [unfold REG_READ; by rewrite E1|].
  eapply did_none; [apply passes_did; [exact Ho1|exact Hp1]|].
  destruct (did_at p [] [v] h1 (bus_write (port_reg p 5) v h1)) as [_ Hd]; [done|by rewrite A2, app_nil_r|done..|].
  split; [done|]. intros q. specialize (Hd q). by rewrite only_nil in Hd.
Qed.
End registers.

(** ** The tables around the driver *)

Lemma find_name_before tbl nm : nm <> EmptyString -> forall j i, find_name tbl nm j = Val (Some (j + i)%nat) -> names_before tbl nm i.
Proof.
  intros Hne. assert (Hlen : exists m, String.length nm = S m) by (destruct nm; simpl; eauto; done). destruct Hlen as [m Hm].
  induction tbl as [|d tbl IH]; intros j i; cbn [find_name]; [done|]. unfold strncmp_ptr. rewrite Hm.
  destruct (name d) as [n|] eqn:En; [|done]. cbn [mbind res_bind]. rewrite <- Hm. destruct (Z.eqb_spec (os_strncmp n nm (String.length nm)) 0) as [Hz|Hz].
  - intros [= Hi]. intros k e Hk. lia.
  - intros Hf. destruct i as [|i].
    + apply find_name_lt in Hf. lia.
    + replace (j + S i)%nat with (S j + i)%nat in Hf by lia. specialize (IH _ _ Hf). intros [|k] e Hk He.
      * injection He as <-. exists n. split; [done|]. destruct (String.prefix nm n) eqn:Hp; [|done]. by apply strncmp_prefix in Hp.
      * apply (IH k e); [lia|done].
Qed.

Lemma find_free_before tbl nm i : forall j, names_before tbl nm i -> (i < length tbl)%nat ->
  find_free (<[i := DRV_DEV None 0 DD_STATE_NODEVICE None]> tbl) j = Some (j + i)%nat.
Proof.
  revert i. induction tbl as [|d tbl IH]; intros i j Hb Hi; [cbn in Hi; lia|]. destruct i as [|i]; cbn.
  - f_equal. lia.
  - destruct (Hb 0%nat d) as (n & Hn & _); [lia|done|]. rewrite Hn. rewrite IH; [f_equal; lia| |cbn in Hi; lia].
    intros k e Hk He. apply (Hb (S k) e); [lia|done].
Qed.

Lemma find_free_cnt tbl i n : forall j, find_free (<[i := DRV_DEV None n DD_STATE_NODEVICE None]> tbl) j =
  find_free (<[i := DRV_DEV None 0 DD_STATE_NODEVICE None]> tbl) j.
Proof. revert i. induction tbl as [|d tbl IH]; intros [|i] j; cbn; try done. by rewrite IH. Qed.

Lemma unregister_val {W} (s : drv_state W) nm i d : slot s nm i d ->
  ddev_unregister_dev (Some nm) s =
    Val (DRV_SUCCESS, upd_dev s i (DRV_DEV None (use_cnt d) DD_STATE_NODEVICE None) (world s)).
Proof.
  intros (Hf & Hl & Hi & Hlen). unfold ddev_unregister_dev. rewrite (proj2 (Z.ltb_ge _ _)) by done.
  mstep. mstep by (unfold lift_res; rewrite Hf; reflexivity). mstep by (by apply get_dev_val). mstep by (apply set_dev_val). reflexivity.
Qed.

(** ** Start-up *)
Section system.
Context {hw : Type} `{UartSpec hw}.
Abbreviation sys := (intc_st (uart_st hw)).
Abbreviation all := (drv_state (intc_st (uart_st hw))).
Context (malloc_ok : Z -> Z -> bool) (junk : Z -> list Z) (fuel : nat).
Context (dev_ops : Z -> DD_OPERATIONS sys) (sdev_ops : Z -> SDD_OPERATIONS sys).
Context (uart2_op uart2_isr_addr : Z) (sdevs : list DRV_SDEV_S).
Implicit Types s : all.

Definition uart_of s : uart_st hw := ext (world s).
Definition sys_with s (u : uart_st hw) : all := DrvState (drv_dev_tbl s) (drv_sdev_tbl s) (with_ext (world s) u).
Definition sys_hw s (h : hw) : all := sys_with s (with_hw (uart_of s) h).

Lemma on_uart_val {A} (m : M (uart_st hw) A) s a u : m (uart_of s) = Val (a, u) -> on_uart m s = Val (a, sys_with s u).
Proof using Type. intros E. unfold on_uart, call, on_ext. unfold uart_of in E. by rewrite E. Qed.

Lemma on_uart_wp {A} (m : M (uart_st hw) A) s (P : A -> uart_st hw -> Prop) : wp m (uart_of s) P ->
  exists a u, P a u /\ on_uart m s = Val (a, sys_with s u).
Proof using Type. intros (a & u & E & HP)%wp_val. exists a, u. split; [done|by apply on_uart_val]. Qed.

Lemma sys_with_twice s u u' : sys_with (sys_with s u) u' = sys_with s u'.
Proof using Type. done. Qed.

(** The interrupt unit and the pin driver are registered, and the commands the
    driver gives them leave the UARTs alone. *)
Definition used_controls : list (string * Z) :=
  [(ICU_DEV_NAME, CMD_CLK_PWR_UP); (ICU_DEV_NAME, CMD_ICU_INT_ENABLE); (ICU_DEV_NAME, CMD_ICU_INT_DISABLE);
   (GPIO_DEV_NAME, CMD_GPIO_ENABLE_SECOND)].
Lemma used_names nm cmd : (nm, cmd) ∈ used_controls -> nm = ICU_DEV_NAME \/ nm = GPIO_DEV_NAME.
Proof using Type. intros Hin. repeat (apply elem_of_cons in Hin as [[= -> ->]|Hin]; [auto|]). by apply not_elem_of_nil in Hin. Qed.

Definition controls_ok : Prop := forall nm cmd v s, drv_sdev_tbl s = sdevs -> (nm, cmd) ∈ used_controls ->
  uart_ok (u_hw (uart_of s)) ->
  exists h, control_word sdev_ops nm cmd v s = Val (tt, sys_hw s h) /\ did none none (u_hw (uart_of s)) h.

Definition isr2 : ISR_T := ISR uart2_isr_addr PRI_IRQ_UART2 IRQ_UART2.

(** The second port is registered, its interrupt has its routine, and its
    queues hold [rq] and [tq]. *)
Record ready (es : list ISR_T) (rq tq : list Z) (s : all) : Prop := {
  rd_sdevs : drv_sdev_tbl s = sdevs;
  rd_slot : exists i n stt, slot s UART2_DEV_NAME i (DRV_DEV (Some UART2_DEV_NAME) n stt (Some uart2_op)) /\
    (stt = DD_STATE_CLOSED \/ stt = DD_STATE_OPENED);
  rd_table : table_rep es (world s);
  rd_isr : isr2 ∈ es;
  rd_uart : implements (fun q => tx_sent (unit_of (u_hw (uart_of s)) q)) (port_of (uart_print_port (uart_of s)))
    (Contract rq tq none) (uart_of s);
}.

(** Fresh queues implement the empty contract. *)
Lemma fresh_implements u u0 h : zlookup (uart u) UART2_PORT = Some u0 -> 0 < next_block u -> tables_ok u -> has_memory malloc_ok junk (blocks u) ->
  uart_ok h -> implements (fun q => tx_sent (unit_of h q)) (port_of (uart_print_port u)) (Contract [] [] none)
    (with_hw (with_queues junk u UART2_PORT u0) h).
Proof using Type.
  intros Eu Ha Ht (_ & _ & _ & _ & J1 & J2) Ho. split; [done|done|exact Ht| |constructor| |cbn; lia].
  - intros q. cbn. by rewrite app_nil_r.
  - exists (Uart (status u0) (next_block u) (next_block u + 1)), (new_kfifo junk RX_RB_LENGTH), (new_kfifo junk TX_RB_LENGTH).
    split; [by eapply zlookup_set|]. split; [unfold distinct; cbn; lia|].
    cbn [kfifos with_queues with_hw with_kfifos with_uart rx tx]. rewrite lookup_insert_eq, lookup_insert_ne, lookup_insert_eq by lia.
    pose proof (fifo_init_ok (junk RX_RB_LENGTH) 7 ltac:(lia) J1). pose proof (fifo_init_ok (junk TX_RB_LENGTH) 6 ltac:(lia) J2).
    by split_and!.
Qed.

(** What start-up needs of the driver's state. *)
Definition startable (u : uart_st hw) (u0 : UART_S) : Prop :=
  uart_ok (u_hw u) /\ zlookup (uart u) UART2_PORT = Some u0 /\ 0 < next_block u /\ has_memory malloc_ok junk (blocks u) /\ tables_ok u.

Definition uart_regs_started (h h' : hw) : Prop :=
  (forall q, tx_sent (unit_of h' q) = tx_sent (unit_of h q)) /\
  forall n, ctl_index n = true -> ctl (unit_of h' P2) n = start_ctl n.

(** What start-up changes in the driver, the units and the devices: the second
    port has new queues, one status of its unit is written back, and the free slot
    has its device; the first port and its unit, the callbacks and the other
    devices are as before. *)
Record second_alone (i : nat) (u0 : UART_S) (s s' : all) : Prop := {
  sa_driver : uart_of s' = with_hw (with_queues junk (uart_of s) UART2_PORT u0) (u_hw (uart_of s'));
  sa_first : same_doing (unit_of (u_hw (uart_of s)) P1) (unit_of (u_hw (uart_of s')) P1);
  sa_second : exists v, acked (unit_of (u_hw (uart_of s')) P2) = acked (unit_of (u_hw (uart_of s)) P2) ++ [v];
  sa_devices : exists n, drv_dev_tbl s' = <[i := DRV_DEV (Some UART2_DEV_NAME) n DD_STATE_CLOSED (Some uart2_op)]> (drv_dev_tbl s);
}.

Lemma did_same_doing h h' q : did none none h h' -> same_doing (unit_of h q) (unit_of h' q).
Proof using Type. intros [_ Hd]. destruct (Hd q) as (A1 & A2 & A3). rewrite app_nil_r in A1, A2. by split_and!. Qed.
Lemma same_doing_trans l l' l'' : same_doing l l' -> same_doing l' l'' -> same_doing l l''.
Proof using Type. intros (A1 & A2 & A3) (B1 & B2 & B3). split_and!; [congruence..|]. intros n Hn. by rewrite B3, A3. Qed.

(** Start-up from a state whose table takes or already has the routine. *)
Lemma init_val s i es' u0 : controls_ok -> drv_sdev_tbl s = sdevs ->
  find_free (drv_dev_tbl s) 0 = Some i -> (i < DD_MAX_DEV)%nat -> names_before (drv_dev_tbl s) UART2_DEV_NAME i ->
  (forall w : sys, nodes w = nodes (world s) -> _isrs w = _isrs (world s) -> isrs_mask w = isrs_mask (world s) ->
    exists w', intc_service_register fuel IRQ_UART2 PRI_IRQ_UART2 uart2_isr_addr w = Val (tt, w') /\ ext w' = ext w /\ table_rep es' w') ->
  isr2 ∈ es' -> startable (uart_of s) u0 ->
  exists s', uart2_init malloc_ok junk fuel sdev_ops uart2_op uart2_isr_addr s = Val (tt, s') /\ ready es' [] [] s' /\
    uart_regs_started (u_hw (uart_of s)) (u_hw (uart_of s')) /\ second_alone i u0 s s'.
Proof using Type.
  intros Hctl Hsd Hfree Hi Hb Hreg Hin (Ho & Eu & Ha & Hm & Ht). unfold uart2_init, uart_init. set (u := uart_of s) in *.
  set (u1 := with_queues junk u UART2_PORT u0).
  erewrite bind_ret_val by (apply on_uart_val; by apply sw_init_val). fold u1.
  change (UART_SUCCESS =? UART_SUCCESS) with true. erewrite bind_ret_val by reflexivity.
  destruct (register_slot (sys_with s u1) UART2_DEV_NAME uart2_op i Hfree Hi Hb eq_refl ltac:(discriminate) ltac:(vm_compute; discriminate))
    as (n & E1 & Hs1). cbv zeta in E1, Hs1. set (d := DRV_DEV _ n _ _) in *. erewrite bind_ret_val by exact E1.
  cbn [world upd_dev sys_with] in *. destruct (Hreg (with_ext (world s) u1) eq_refl eq_refl eq_refl) as (w & E2 & Hw & Hr).
  set (tbl := <[i:=d]> (drv_dev_tbl s)) in *.
  erewrite (bind_ret_val _ _ _ tt (DrvState tbl (drv_sdev_tbl s) w)) by (unfold call; cbn [world upd_dev sys_with]; rewrite E2; reflexivity).
  set (s2 := DrvState tbl (drv_sdev_tbl s) w).
  assert (Hu2 : uart_of s2 = u1) by exact Hw.
  destruct (Hctl ICU_DEV_NAME CMD_CLK_PWR_UP PWD_UART2_CLK_BIT s2 Hsd ltac:(repeat constructor)) as (h3 & E3 & D3); [change (uart_of s2) with (ext w); rewrite Hw; exact Ho|].
  erewrite bind_ret_val by exact E3.
  destruct (Hctl GPIO_DEV_NAME CMD_GPIO_ENABLE_SECOND GFUNC_MODE_UART2 (sys_hw s2 h3) Hsd ltac:(repeat constructor)) as (h4 & E4 & D4); [apply D3|].
  erewrite bind_ret_val by exact E4. change (u_hw (uart_of (sys_hw s2 h3))) with h3 in D4.
  set (s4 := sys_hw (sys_hw s2 h3) h4).
  destruct (on_uart_wp (uart_hw_init UART2_PORT) s4 (fun _ u' => exists h, started P2 h4 h /\ u' = with_hw (uart_of s4) h)) as ([] & ? & (h5 & D5 & ->) & E5);
    [apply hw_init_wp; [apply D4|by eauto]|]. erewrite bind_ret_val by exact E5.
  unfold REG_UART1_INTR_STATUS, REG_UART2_INTR_STATUS. rewrite !sel_reg. change (port_of UART2_PORT) with P2.
  set (s5 := sys_with s4 _). destruct (ack_val P2 (uart_of s5) (sd_ok _ _ _ D5)) as (h & E6 & D6).
  change (u_hw (uart_of s5)) with h5 in D6. set (h6 := bus_write _ _ h) in D6.
  erewrite bind_ret_val by (apply on_uart_val; exact E6).
  erewrite bind_ret_val by (apply on_uart_val; reflexivity).
  set (s6 := sys_with _ _). assert (Hs6 : s6 = sys_hw s5 h6) by done.
  destruct (did_started P2 h4 h5 h6 D5 D6) as (Ho6 & Hsent6 & Hctl6).
  destruct (Hctl ICU_DEV_NAME CMD_ICU_INT_ENABLE IRQ_UART2_BIT s6) as (h8 & E8 & D8); [done|repeat constructor|by rewrite Hs6|].
  exists (sys_hw s6 h8). split; [exact E8|]. rewrite Hs6. rewrite Hs6 in D8. change (u_hw (uart_of (sys_hw s5 h6))) with h6 in D8.
  assert (Hu8 : uart_of (sys_hw (sys_hw s5 h6) h8) = with_hw u1 h8) by (change (with_hw (uart_of s2) h8 = with_hw u1 h8); by rewrite Hu2).
  assert (D34 : did none none (u_hw u) h4) by (eapply did_none; [|exact D4]; by rewrite Hu2 in D3).
  split; [split|split].
  - done.
  - exists i, n, DD_STATE_CLOSED. split; [exact Hs1|by left].
  - by eapply ext_rep; [..|exact Hr].
  - done.
  - rewrite Hu8. by apply (fresh_implements u u0 h8); [..|apply D8].
  - rewrite Hu8. cbn [u_hw with_hw]. split.
    + intros q. destruct D8 as [_ D8]. destruct (D8 q) as (-> & _ & _). rewrite app_nil_r, Hsent6.
      destruct D4 as [_ D4]. destruct (D4 q) as (-> & _ & _). rewrite app_nil_r.
      destruct D3 as [_ D3]. destruct (D3 q) as (-> & _ & _). rewrite app_nil_r. by rewrite Hu2.
    + intros m Hm'. destruct D8 as [_ D8]. destruct (D8 P2) as (_ & _ & Hc). by rewrite Hc, Hctl6.
  - destruct (did_started_rest P2 _ h4 h5 h6 D5 D6) as [Hak Hoth]. split.
    + by rewrite Hu8.
    + rewrite Hu8. cbn [u_hw with_hw]. eapply same_doing_trans; [exact (did_same_doing _ _ P1 D34)|].
      eapply same_doing_trans; [by apply Hoth|]. by apply did_same_doing.
    + rewrite Hu8. cbn [u_hw with_hw]. eexists. destruct (did_same_doing _ _ P2 D8) as (_ & -> & _). rewrite Hak.
      by destruct (did_same_doing _ _ P2 D34) as (_ & -> & _).
    + by exists n.
Qed.

(** *** The dispatch *)
Context (call_cb : Z -> Z -> Z -> M (uart_st hw) unit) (call_isr dtim_wake : Z -> M (uart_st hw) unit).

(** The image behind the addresses: the handler, the device functions; a wake-up
    that leaves the driver alone, and callbacks that call no driver function. *)
Record image_ok : Prop := {
  img_isr : call_isr uart2_isr_addr = uart2_isr call_cb fuel;
  img_addr : truthy uart2_isr_addr = true;
  img_wake : forall status u, dtim_wake status u = Val (tt, u);
  img_open : op_open (dev_ops uart2_op) = Some (fun flag => on_ext (uart2_open flag));
  img_read : op_read (dev_ops uart2_op) = Some (fun count flag =>
    on_ext ('(n, b) ← uart2_read (replicate (Z.to_nat count) 0) count flag; mret (n, take (Z.to_nat n) b)));
  img_cb : forall cb uport p u, uart_ok (u_hw u) -> wp (call_cb cb uport p) u (fun _ u' => kept u u');
  img_fuel : (wait_max < fuel)%nat /\ (rx_max < fuel)%nat /\ (64 < fuel)%nat;
}.

(** What was sent before is only history. *)
Lemma reimplement sent0 pp c u : implements sent0 pp c u ->
  implements (fun q => tx_sent (unit_of (u_hw u) q)) (port_of (uart_print_port u)) (Contract (c_rx c) (c_tx c) none) u.
Proof using Type. intros [I1 I2 I3 I4 I5 I6 I7]. split; [done..| |done|done|done]. intros q. cbn. by rewrite app_nil_r. Qed.

(** *** A change behind the table keeps what is before it. *)
Lemma ready_with es rq tq s u rq' tq' : ready es rq tq s ->
  (exists sent0 pp sent, implements sent0 pp (Contract rq' tq' sent) u) -> ready es rq' tq' (sys_with s u).
Proof using Type.
  intros [R1 R2 R3 R4 _] (sent0 & pp & sent & I). split; [done|done| |done|exact (reimplement _ _ _ _ I)].
  by eapply ext_rep; [..|exact R3].
Qed.

Lemma dispatch_val es rq tq s : image_ok -> ready es rq tq s -> (INTC_MAX_COUNT < fuel)%nat ->
  let l := unit_of (u_hw (uart_of s)) P2 in receives l = true ->
  exists s', call (intc_hdl_entry call_isr dtim_wake fuel (BIT IRQ_UART2)) s = Val (tt, s') /\
    ready es (rq ++ take (Z.to_nat (room_of RX_RB_LENGTH rq)) (rx_bytes l)) tq s'.
Proof using Type.
  intros Himg Hrd Hf l Hl. pose proof Hrd as [_ _ Ht Hin I]. destruct (rep_nodup es (world s) Ht) as (_ & Hnd & _).
  pose proof (isr_wp call_cb fuel (img_cb Himg) (img_fuel Himg) _ _ _ _ I) as Hw. cbv zeta in Hw. fold l in Hw. rewrite Hl in Hw.
  apply wp_val in Hw as ([] & u' & E & c' & Hd & I'). inversion Hd; subst.
  exists (sys_with s u'). split; [|by eapply ready_with; [exact Hrd|eauto]].
  unfold call. rewrite (hdl_entry_val call_isr dtim_wake es _ fuel _ Ht Hf). unfold on_ext_res, mbind, M_bind.
  rewrite (img_wake Himg). change IRQ_UART2 with (int_num isr2).
  rewrite (serve_one call_isr es isr2 _ Hin Hnd (fun x Hx => proj1 (tr_elem es _ Ht x Hx))). unfold run_isr. cbn [isr_func isr2].
  rewrite (img_addr Himg), (img_isr Himg). change (ext (world s)) with (uart_of s). by rewrite E.
Qed.

Lemma ready_dev es rq tq s i d n stt : ready es rq tq s -> slot s UART2_DEV_NAME i d -> name d = Some UART2_DEV_NAME ->
  stt = DD_STATE_CLOSED \/ stt = DD_STATE_OPENED ->
  ready es rq tq (upd_dev s i (DRV_DEV (name d) n stt (Some uart2_op)) (world s)).
Proof using Type.
  intros [R1 R2 R3 R4 R5] Hs Hn Hst. split; [done| |done|done|done]. exists i, n, stt. split; [|done].
  rewrite <- Hn. by apply (slot_upd _ _ _ d).
Qed.

Lemma open_val es rq tq s flag : image_ok -> ready es rq tq s ->
  exists i st s', ddev_open dev_ops (Some UART2_DEV_NAME) true flag s = Val ((ddev_make_handle (Z.of_nat i), st), s') /\
    ready es rq tq s' /\ exists d, drv_dev_tbl s' !! i = Some d /\ (i < DD_MAX_DEV)%nat /\ op d = Some uart2_op.
Proof using Type.
  intros Himg Hrd. destruct (rd_slot _ _ _ _ Hrd) as (i & n & stt & Hs & [-> | ->]).
  - eexists i, _, _. split; [apply (open_closed dev_ops _ _ _ _ flag UART_SUCCESS (world s) Hs eq_refl)|].
    + unfold run_open. cbn [op mbind option_bind]. rewrite (img_open Himg). unfold on_ext, uart2_open. cbn. by destruct (world s).
    + split; [by apply (ready_dev _ _ _ _ _ _ _ _ Hrd Hs); [|right]|]. eexists. split; [eapply lookup_upd; apply Hs|]. split; [apply Hs|done].
  - eexists i, _, _. split; [apply (open_opened dev_ops _ _ _ _ flag Hs eq_refl)|].
    split; [by apply (ready_dev _ _ _ _ _ _ _ _ Hrd Hs); [|right]|]. eexists. split; [eapply lookup_upd; apply Hs|]. split; [apply Hs|done].
Qed.

Lemma read_val es rq tq s i d count : image_ok -> ready es rq tq s -> drv_dev_tbl s !! i = Some d -> (i < DD_MAX_DEV)%nat ->
  op d = Some uart2_op -> 0 < count < 4294967296 ->
  let n := Z.min count (Z.of_nat (length rq)) in
  exists s', ddev_read dev_ops (ddev_make_handle (Z.of_nat i)) count 0 s = Val ((n, take (Z.to_nat n) rq), s') /\
    ready es (drop (Z.to_nat n) rq) tq s'.
Proof using Type.
  intros Himg Hrd Hd Hi Hop Hc n. pose proof (rd_uart _ _ _ _ Hrd) as I.
  pose proof (do_wp call_cb fuel (img_cb Himg) (img_fuel Himg) _ _ _ _ (Read (replicate (Z.to_nat count) 0) count) I) as Hw.
  apply wp_val in Hw as (out & u' & E & c' & Hdl & I').
  2: { cbn. rewrite length_replicate. split; [done|]. split; [lia|]. apply Forall_replicate. done. }
  inversion Hdl; subst. fold n in E.
  exists (sys_with s u'). split; [|by eapply ready_with; [exact Hrd|eauto]].
  destruct (handle_id_valid i Hi) as [Hid1 Hid2]. unfold ddev_read. rewrite Hid1, Hid2.
  mstep by (by apply get_dev_val). rewrite Hop. cbn [mbind option_bind]. rewrite (img_read Himg).
  unfold call, on_ext. cbn [uart_do] in E. unfold uart_of in E. rewrite (bind_ret_val _ _ _ _ _ E).
  unfold mret, M_ret. rewrite take_app_le by (rewrite length_take; lia). by rewrite take_take, Nat.min_id.
Qed.

(** C23: what the unit received reaches the reader: after an interrupt of the
    second port, whatever else is registered, the dispatch, an open and a read
    through the registry yield the oldest bytes received, those the queue held
    before first, and the next read goes on behind them. *)
Theorem uart2_bytes_reach_reader es rq tq s count : image_ok -> ready es rq tq s -> (INTC_MAX_COUNT < fuel)%nat ->
  0 < count < 4294967296 ->
  let l := unit_of (u_hw (uart_of s)) P2 in receives l = true ->
  let bytes := rq ++ take (Z.to_nat (room_of RX_RB_LENGTH rq)) (rx_bytes l) in
  let n := Z.min count (Z.of_nat (length bytes)) in
  exists s', (call (intc_hdl_entry call_isr dtim_wake fuel (BIT IRQ_UART2));;
      '(handle, _) ← ddev_open dev_ops (Some UART2_DEV_NAME) true 0; ddev_read dev_ops handle count 0) s =
    Val ((n, take (Z.to_nat n) bytes), s') /\ ready es (drop (Z.to_nat n) bytes) tq s'.
Proof using Type.
  intros Himg Hrd Hf Hc l Hl bytes n. destruct (dispatch_val es rq tq s Himg Hrd Hf Hl) as (s1 & E1 & R1).
  destruct (open_val _ _ _ s1 0 Himg R1) as (i & st & s2 & E2 & R2 & d & Hd & Hi & Hop).
  destruct (read_val _ _ _ s2 i d count Himg R2 Hd Hi Hop Hc) as (s3 & E3 & R3).
  exists s3. split; [|exact R3]. rewrite (bind_ret_val _ _ _ _ _ E1), (bind_ret_val _ _ _ _ _ E2). exact E3.
Qed.

(** [uart2_init] with a free device slot, an interrupt and a priority not
    yet taken, and memory for the queues: it returns with the device and the
    interrupt registered, both queues empty, the unit set to 115200 baud, 8
    data bits, no parity and one stop bit with receive interrupts on, and
    nothing sent. *)
Theorem uart2_init_ready s i es u0 : controls_ok -> drv_sdev_tbl s = sdevs ->
  find_free (drv_dev_tbl s) 0 = Some i -> (i < DD_MAX_DEV)%nat -> names_before (drv_dev_tbl s) UART2_DEV_NAME i ->
  table_rep es (world s) -> IRQ_UART2 ∉ map int_num es -> (forall x, x ∈ es -> pri x <> PRI_IRQ_UART2) ->
  (INTC_MAX_COUNT < fuel)%nat -> startable (uart_of s) u0 ->
  exists s', uart2_init malloc_ok junk fuel sdev_ops uart2_op uart2_isr_addr s = Val (tt, s') /\
    ready (table_insert isr2 es) [] [] s' /\ uart_regs_started (u_hw (uart_of s)) (u_hw (uart_of s')).
Proof using Type.
  intros Hctl Hsd Hfree Hi Hb Ht Hnum Hpri Hf Hst. destruct (init_val s i (table_insert isr2 es) u0 Hctl Hsd Hfree Hi Hb) as (s' & E & R & G & _); [|by apply table_insert_has|done|by exists s'].
  - intros w E1 E2 E3. destruct (register_val es w fuel IRQ_UART2 PRI_IRQ_UART2 uart2_isr_addr) as (w' & E & Hx & Hr & _);
      [by eapply ext_rep; [..|exact Ht]|done|done|done|]. by exists w'.
Qed.

(** *** Reset *)

(** [uart2_exit] leaves what [uart2_init] needs. *)
Lemma exit_val es rq tq s : controls_ok -> ready es rq tq s -> has_memory malloc_ok junk (blocks (uart_of s) - 1 - 1 - 1 - 1) ->
  exists s' i, uart2_exit sdev_ops s = Val (tt, s') /\ drv_sdev_tbl s' = sdevs /\ table_rep es (world s') /\
    find_free (drv_dev_tbl s') 0 = Some i /\ (i < DD_MAX_DEV)%nat /\ names_before (drv_dev_tbl s') UART2_DEV_NAME i /\
    startable (uart_of s') no_uart /\ quiet (u_hw (uart_of s)) (u_hw (uart_of s')).
Proof using Type.
  intros Hctl [R1 (i & n & stt & Hs & _) R3 R4 R5] Hm. pose proof R5 as [Ho _ Ht _ _ (u & f & g & Eu & Hne & Ef & _ & _ & _ & Eg & _) Ha].
  unfold uart2_exit, uart_exit.
  destruct (Hctl ICU_DEV_NAME CMD_ICU_INT_DISABLE IRQ_UART2_BIT s R1 ltac:(repeat constructor) Ho) as (h2 & E2 & D2).
  erewrite bind_ret_val by exact E2. set (s2 := sys_hw s h2).
  destruct (on_uart_wp (uart_hw_uninit UART2_PORT) s2 _ (hw_uninit_quiet UART2_PORT (uart_of s2) (proj1 D2))) as ([] & ? & (h3 & -> & Q3) & E3).
  erewrite bind_ret_val by exact E3. set (s3 := sys_with s2 _).
  assert (Hs3 : slot s3 UART2_DEV_NAME i (DRV_DEV (Some UART2_DEV_NAME) n stt (Some uart2_op))) by exact Hs.
  erewrite bind_ret_val by (by apply (unregister_val _ _ _ _ Hs3)). cbn [use_cnt].
  erewrite bind_ret_val by (apply on_uart_val, (sw_uninit_val UART2_PORT u f g); [exact Eu|exact Hne|exact Ef|exact Eg]).
  set (s5 := sys_with _ _). destruct Hs as (Hf & Hl & Hi & _).
  assert (Hb : names_before (drv_dev_tbl s) UART2_DEV_NAME i) by (apply (find_name_before _ UART2_DEV_NAME ltac:(discriminate) 0); exact Hf).
  exists s5, i. split; [done|]. split; [exact R1|]. split; [by eapply ext_rep; [..|exact R3]|].
  split; [cbn [drv_dev_tbl s5 sys_with upd_dev]; rewrite find_free_cnt; by apply (find_free_before _ _ i 0 Hb), (lookup_lt_Some _ _ _ Hl)|].
  split; [done|]. split; [|split].
  - intros j d Hj Hd. apply (Hb j d Hj). cbn [drv_dev_tbl s5 sys_with upd_dev] in Hd. by rewrite list_lookup_insert_ne in Hd by lia.
  - split; [apply Q3|]. split; [by eapply zlookup_set|]. split; [exact Ha|]. split; [exact Hm|exact Ht].
  - eapply quiet_trans; [by eapply did_quiet|exact Q3].
Qed.

Lemma with_busy_implements sent0 pp c u n : implements sent0 pp c u -> implements sent0 pp c (with_busy u n).
Proof using Type. by intros [I1 I2 I3 I4 I5 I6 I7]. Qed.

(** The count of busy peripherals is apart from everything else. *)
Lemma ready_busy es rq tq s n : ready es rq tq s -> ready es rq tq (sys_with s (with_busy (uart_of s) n)).
Proof using Type. intros Hrd. eapply ready_with; [exact Hrd|]. do 3 eexists. apply with_busy_implements, Hrd. Qed.

(** [CMD_UART_RESET] on a port in use: it returns with the same interrupt
    table, the port registered as after start-up, both queues empty, the start-up
    values in the unit and nothing sent; the memory of the old queues is freed
    before the new ones are allocated. *)
Theorem uart2_reset_ready uart1_op uart1_isr_addr es rq tq s parm : controls_ok -> ready es rq tq s ->
  (INTC_MAX_COUNT < fuel)%nat -> has_memory malloc_ok junk (blocks (uart_of s) - 1 - 1 - 1 - 1) ->
  exists s', uart2_ctrl malloc_ok junk fuel sdev_ops uart1_op uart2_op uart1_isr_addr uart2_isr_addr CMD_UART_RESET parm s =
      Val ((UART_SUCCESS, []), s') /\
    ready es [] [] s' /\ uart_regs_started (u_hw (uart_of s)) (u_hw (uart_of s')).
Proof using Type.
  intros Hctl Hrd Hf Hm. unfold uart2_ctrl. unfold peri_busy_count_add.
  erewrite bind_ret_val by (apply on_uart_val; reflexivity). set (s1 := sys_with s _).
  change (CMD_UART_RESET =? CMD_SEND_BACKGROUND) with false. change (CMD_UART_RESET =? CMD_UART_RESET) with true. cbv iota.
  rewrite bind_assoc. unfold uart_reset. change (UART1_PORT =? UART2_PORT) with false. cbv iota. rewrite bind_assoc.
  destruct (exit_val es rq tq s1 Hctl (ready_busy _ _ _ _ _ Hrd) Hm) as (s2 & i & E2 & Hsd & Ht & Hfree & Hi & Hb & Hst & Hq).
  erewrite bind_ret_val by exact E2.
  destruct (init_val s2 i es no_uart Hctl Hsd Hfree Hi Hb) as (s3 & E3 & R3 & Hreg & _); [|apply Hrd|done|].
  { intros w E1 E4 E5. exists w. split; [|split; [done|by eapply ext_rep; [..|exact Ht]]].
    apply (reregister_val es w fuel isr2); [by eapply ext_rep; [..|exact Ht]|apply Hrd|done]. }
  erewrite bind_ret_val by exact E3. rewrite bind_mret. unfold peri_busy_count_dec.
  erewrite bind_ret_val by (apply on_uart_val; reflexivity). eexists. split; [reflexivity|]. split; [by apply ready_busy|].
  destruct Hreg as [H1 H2]. split; [|exact H2]. intros q. change (u_hw (uart_of (sys_with s3 _))) with (u_hw (uart_of s3)).
  rewrite H1. apply Hq.
Qed.
End system.

(** ** Witnesses *)

(** An image: device operations at 1, the handler at 7, and two system devices
    whose commands do nothing. *)
Abbreviation demo_state := (drv_state (intc_st (uart_st uart_sim))).
Definition demo_dev_ops (a : Z) : DD_OPERATIONS (intc_st (uart_st uart_sim)) := {|
  op_open := Some (fun flag => on_ext (uart2_open flag));
  op_close := Some (on_ext uart2_close);
  op_read := Some (fun count flag => on_ext ('(n, b) ← uart2_read (replicate (Z.to_nat count) 0) count flag; mret (n, take (Z.to_nat n) b)));
  op_write := Some (fun b count flag => on_ext (uart2_write b count flag));
  op_control := None;
|}.
Definition demo_sdev_ops (a : Z) : SDD_OPERATIONS (intc_st (uart_st uart_sim)) := {| sop_control := Some (fun _ p => mret (0, p)) |}.
Definition demo_call_isr (a : Z) : M (uart_st uart_sim) unit := if a =? 7 then uart2_isr no_cb 300 else fail BadAccess.
Definition demo_wake (status : Z) : M (uart_st uart_sim) unit := mret tt.
Definition demo_sdevs : list DRV_SDEV_S :=
  [DRV_DEV (Some ICU_DEV_NAME) 0 DD_STATE_CLOSED (Some 2); DRV_DEV (Some GPIO_DEV_NAME) 0 DD_STATE_CLOSED (Some 3)].
Definition demo_sys : demo_state :=
  DrvState (replicate DD_MAX_DEV zero_dev) demo_sdevs (intc_start (uart_start demo_uart 1)).
Definition some_memory (live size : Z) : bool := true.

Lemma demo_controls : controls_ok demo_sdev_ops demo_sdevs.
Proof.
  intros nm cmd v s Hs Hnm Ho. exists (u_hw (uart_of s)). split; [|by apply did_refl]. apply used_names in Hnm.
  unfold sys_hw. rewrite with_hw_same. destruct s as [tbl sd [nodes isrs mask u]]. cbn in Hs. subst sd. destruct Hnm as [-> | ->]; reflexivity.
Qed.

Lemma demo_image : image_ok 300 demo_dev_ops 1 7 no_cb demo_call_isr demo_wake.
Proof. split; [done|done|done|done|done|exact no_cb_ok|cbn; lia]. Qed.

Lemma demo_startable : startable some_memory zeros (uart_of demo_sys) no_uart.
Proof. split; [exact demo_uart_ok|]. split; [done|]. split; [done|]. split; [by vm_compute|by vm_compute]. Qed.

Lemma demo_names : names_before (drv_dev_tbl demo_sys) UART2_DEV_NAME 0.
Proof. intros j d Hj. lia. Qed.

(** A state after start-up in which the receive interrupt is pending. *)
Lemma demo_ready : exists s, ready 1 7 demo_sdevs [isr2 7] [] [] s /\ receives (unit_of (u_hw (uart_of s)) P2) = true.
Proof.
  destruct (init_val some_memory zeros 300 demo_sdev_ops 1 7 demo_sdevs demo_sys 0 [isr2 7] no_uart demo_controls eq_refl eq_refl
    ltac:(unfold DD_MAX_DEV; lia) demo_names) as (s & _ & Hr & (_ & Hc) & _).
  - intros w E1 E2 E3. destruct (register_val [] w 300 IRQ_UART2 PRI_IRQ_UART2 7) as (w' & E & Hx & Hr & _);
      [apply (ext_rep [] (world demo_sys) w); [exact E1|exact E2|exact E3|apply start_rep]|unfold IRQ_UART2; lia|apply not_elem_of_nil|unfold INTC_MAX_COUNT; lia|].
    exists w'. split; [exact E|split; [exact Hx|exact Hr]].
  - apply list_elem_of_here.
  - exact demo_startable.
  - exists (sys_hw s (raise (u_hw (uart_of s)))). split.
    + eapply ready_with; [exact Hr|]. do 3 eexists. eapply kept_implements; [|exact (rd_uart _ _ _ _ _ _ _ Hr)].
      apply kept_hw, raise_ok, (rd_uart _ _ _ _ _ _ _ Hr).
    + unfold receives, isr_status. change (pending _) with 2. change (ctl _ 4) with (ctl (unit_of (u_hw (uart_of s)) P2) 4).
      by rewrite Hc.
Qed.

Lemma uart2_init_ready_witness : exists s, uart2_init some_memory zeros 300 demo_sdev_ops 1 7 demo_sys = Val (tt, s) /\
  ready 1 7 demo_sdevs [isr2 7] [] [] s.
Proof.
  destruct (uart2_init_ready some_memory zeros 300 demo_sdev_ops 1 7 demo_sdevs demo_sys 0 [] no_uart demo_controls eq_refl eq_refl
    ltac:(unfold DD_MAX_DEV; lia) demo_names (start_rep _) (not_elem_of_nil _) ltac:(intros x Hx; by apply not_elem_of_nil in Hx) ltac:(unfold INTC_MAX_COUNT; lia) demo_startable) as (s & E & R & _).
  exists s. split; [exact E|exact R].
Defined.

Lemma uart2_bytes_reach_reader_witness : exists (s s' : demo_state) n bytes,
  (call (intc_hdl_entry demo_call_isr demo_wake 300 (BIT IRQ_UART2));;
    '(handle, _) ← ddev_open demo_dev_ops (Some UART2_DEV_NAME) true 0; ddev_read demo_dev_ops handle 100 0) s = Val ((n, bytes), s').
Proof.
  destruct demo_ready as (s & Hr & Hp).
  destruct (uart2_bytes_reach_reader 300 demo_dev_ops 1 7 demo_sdevs no_cb demo_call_isr demo_wake [isr2 7] [] [] s 100 demo_image Hr
    ltac:(unfold INTC_MAX_COUNT; lia) ltac:(lia) Hp) as (s' & E & _).
  exists s, s'. eexists _, _. exact E.
Defined.

Lemma uart2_reset_ready_witness : exists s s' : demo_state,
  uart2_ctrl some_memory zeros 300 demo_sdev_ops 0 1 0 7 CMD_UART_RESET UNull s = Val ((UART_SUCCESS, []), s') /\
  ready 1 7 demo_sdevs [isr2 7] [] [] s'.
Proof.
  destruct demo_ready as (s & Hr & Hp).
  destruct (uart2_reset_ready some_memory zeros 300 demo_sdev_ops 1 7 demo_sdevs 0 0 [isr2 7] [] [] s UNull demo_controls Hr
    ltac:(unfold INTC_MAX_COUNT; lia) ltac:(by vm_compute)) as (s' & E & R & _).
  exists s, s'. split; [exact E|exact R].
Defined.
