(* ===== verification/UartBoard.v ===== *)
(** * The second UART on a board

    The UARTs, the pins and the interrupt unit on one bus, with the drivers of
    the three: start-up of [UartSystem] with the commands to the interrupt unit
    and to the pins run by [icu_ctrl] and [gpio_ctrl], not assumed. *)
From stdpp Require Import gmap strings.
From S2P Require Import Prelude DrvModel Kfifo Icu Regs DList Intc Gpio GpioCorrect GpioSystem UartHw Uart UartCorrect UartSystem.
Local Open Scope Z_scope.

Definition in_uart (a : Z) : bool := bool_decide (is_Some (decode a)).

(** Accesses away from the UARTs leave them alone. *)
Class UartApart (hw : Type) `{UartSpec hw} := {
  apart_read h a : uart_ok h -> in_uart a = false -> did none none h (bus_read a h).2;
  apart_write h a v : uart_ok h -> in_uart a = false -> did none none h (bus_write a v h);
}.

(** The blocks of registers do not overlap. *)
Lemma in_uart_range a : in_uart a = true -> UART1_BASE_ADDR <= a < UART2_BASE_ADDR + 32.
Proof.
  unfold in_uart, decode. intros [[p n] Hp]%bool_decide_eq_true. revert Hp. unfold UART1_BASE_ADDR, UART2_BASE_ADDR. bdestr; intros; try lia; done.
Qed.

Lemma blocks_apart a : (in_icu a = true -> in_uart a = false) /\ (in_gpio a = true -> in_uart a = false).
Proof.
  split; intros Ha; destruct (in_uart a) eqn:E; try done; apply in_uart_range in E; revert Ha E;
    unfold in_icu, in_gpio, UART1_BASE_ADDR, UART2_BASE_ADDR; gaddr.
Qed.

Section apart.
Context {hw : Type} `{RegBus hw, !UartSpec hw, !UartApart hw}.

Lemma did_respects P : (forall a, P a = true -> in_uart a = false) ->
  respects P (fun h h' : hw => uart_ok h -> did none none h h').
Proof.
  intros HP. split.
  - intros h. apply did_refl.
  - intros h1 h2 h3 H1 H2 Ho. eapply did_none; [by apply H1|]. apply H2. apply (H1 Ho).
  - intros a h Ha Ho. by apply apart_read; [|apply HP].
  - intros a v h Ha Ho. by apply apart_write; [|apply HP].
Qed.
End apart.

(** ** What the driver accesses *)
Section uart_accesses.
Context {hw : Type} `{RegBus hw} (malloc_ok : Z -> Z -> bool) (junk : Z -> list Z).
Abbreviation st := (uart_st hw).

Lemma uart_read_touches P a : P a = true -> touches u_hw P (REG_READ a : M st Z).
Proof using Type.
  intros Ha R HR s v s'. unfold REG_READ. destruct (bus_read a (u_hw s)) as [w h] eqn:E. intros [= _ <-]. cbn.
  change h with (w, h).2. rewrite <- E. by apply (res_read P).
Qed.
Lemma uart_write_touches P a v : P a = true -> touches u_hw P (REG_WRITE a v : M st unit).
Proof using Type. intros Ha R HR s u s' [= _ <-]. by apply (res_write P). Qed.

Lemma sel_in_uart p n : 0 <= n < 8 -> in_uart (sel p (port_reg P1 n) (port_reg P2 n)) = true.
Proof using Type. intros Hn. unfold sel, in_uart. destruct (UART1_PORT =? p); rewrite decode_reg by done; by apply bool_decide_eq_true. Qed.

Lemma hw_init_touches p : touches u_hw in_uart (uart_hw_init p : M st unit).
Proof using Type.
  unfold uart_hw_init. touch; apply uart_write_touches; [by apply (sel_in_uart p 0)|by apply (sel_in_uart p 1)|by apply (sel_in_uart p 6)
    |by apply (sel_in_uart p 7)|by apply (sel_in_uart p 4)].
Qed.

Lemma on_blocks_touches {A} P (m : M Z A) : touches (u_hw (hw := hw)) P (on_blocks m).
Proof using Type. apply touches_quiet. intros s a s'. unfold on_blocks. destruct (m (blocks s)) as [[b n]|]; [|done]. by intros [= _ <-]. Qed.

Lemma kalloc_touches P size : touches (u_hw (hw := hw)) P (kalloc malloc_ok junk size).
Proof using Type.
  unfold kalloc. apply touches_bind; [apply on_blocks_touches|intros [f|]]; [|touch].
  apply touches_quiet. intros s a s'. by intros [= _ <-].
Qed.

Lemma sw_init_touches P p : touches (u_hw (hw := hw)) P (uart_sw_init malloc_ok junk p).
Proof using Type.
  unfold uart_sw_init, get_uart, set_uart, kfree, get_kfifo.
  repeat first [progress touch | apply kalloc_touches | apply on_blocks_touches | by apply touches_modify]; unfold get_uart; touch.
Qed.
End uart_accesses.

(** *** Lifted to the system *)
Section lifted.
Context {hw : Type} `{RegBus hw}.
Abbreviation sys := (intc_st (uart_st hw)).
Abbreviation all := (drv_state (intc_st (uart_st hw))).

(** The bus of the system. *)
Definition bus_of (s : all) : hw := u_hw (uart_of s).

Lemma on_uart_touches {A} P (m : M (uart_st hw) A) : touches u_hw P m -> touches bus_of P (on_uart m).
Proof. intros Hm. exact (touches_call (fun w : sys => u_hw (ext w)) P _ (touches_on_ext u_hw P m Hm)). Qed.

Lemma register_dev_touches P nm p : touches bus_of P (ddev_register_dev nm p).
Proof.
  apply touches_quiet. intros s a s'. unfold ddev_register_dev. destruct nm as [nm|], p as [p|]; try by intros [= _ <-].
  unfold mbind, M_bind, get. destruct (find_free (drv_dev_tbl s) 0); [|done]. unfold get_dev.
  destruct (zlookup _ _); [|done]. by intros [= _ <-].
Qed.

Lemma service_touches P fuel n p f : touches bus_of P (call (intc_service_register fuel n p f)).
Proof. exact (touches_call (fun w : sys => u_hw (ext w)) P _ (service_register_touches u_hw P fuel n p f)). Qed.

(** Operations of the other drivers, on the bus behind this driver's state. *)
Definition on_uhw {A} (m : M hw A) : M sys A := on_ext (fun s =>
  match m (u_hw s) with Val (a, h) => Val (a, with_hw s h) | Err f => Err f end).
Definition put_uhw (w : sys) (h : hw) : sys := with_ext w (with_hw (ext w) h).

Lemma on_uhw_lifts : lifts (fun w : sys => u_hw (ext w)) put_uhw (fun A => on_uhw (A := A)).
Proof. intros A m w. unfold on_uhw, on_ext. by destruct (m (u_hw (ext w))) as [[a h]|]. Qed.
End lifted.

(** ** The drivers of the board *)
Section board.
Context {hw : Type} `{RegBus hw, !IcuRegs hw, !GpioRegs hw, !UartSpec hw, !UartApart hw}.
Abbreviation sys := (intc_st (uart_st hw)).
Abbreviation all := (drv_state (intc_st (uart_st hw))).
Context (sdev_ops : Z -> SDD_OPERATIONS sys) (icu_addr gpio_addr : Z) (sdevs : list DRV_SDEV_S).
Implicit Types s : all.

(** Both drivers are registered, with their operations. *)
Record board_ok : Prop := {
  bo_icu : sdev_slot sdevs ICU_DEV_NAME icu_addr;
  bo_gpio : sdev_slot sdevs GPIO_DEV_NAME gpio_addr;
  bo_icu_ops : sdev_ops icu_addr = sop_lift (fun A => on_uhw (A := A)) icu_op;
  bo_gpio_ops : sdev_ops gpio_addr = sop_lift (fun A => on_uhw (A := A)) gpio_word_op;
}.

Lemma icu_control_val on off r v s : board_ok -> drv_sdev_tbl s = sdevs -> (on, off, r) ∈ icu_pairs ->
  (exists h, control_word sdev_ops ICU_DEV_NAME on v s = Val (tt, sys_hw s h) /\ icu_ctrl on (Some v) (bus_of s) = Val (ICU_SUCCESS, h) /\
    forall b, ireg h b = if b =? r then Z.lor (ireg (bus_of s) r) v else ireg (bus_of s) b) /\
  (exists h, control_word sdev_ops ICU_DEV_NAME off v s = Val (tt, sys_hw s h) /\ icu_ctrl off (Some v) (bus_of s) = Val (ICU_SUCCESS, h) /\
    forall b, ireg h b = if b =? r then Z.ldiff (ireg (bus_of s) r) v else ireg (bus_of s) b).
Proof using Type.
  intros Hb Hs Hin. destruct (icu_pair_step on off r v (bus_of s) Hin) as [(h1 & E1 & B1) (h2 & E2 & B2)].
  assert (Hc : forall cmd h, icu_ctrl cmd (Some v) (bus_of s) = Val (ICU_SUCCESS, h) ->
    control_word sdev_ops ICU_DEV_NAME cmd v s = Val (tt, sys_hw s h)).
  { intros cmd h E. unfold control_word.
    erewrite bind_ret_val by (eapply (sddev_control_lift _ _ _ icu_op); [exact on_uhw_lifts|rewrite Hs; exact (bo_icu Hb)|exact (bo_icu_ops Hb)|reflexivity|];
      cbv beta; erewrite bind_ret_val by exact E; reflexivity). done. }
  split; [exists h1|exists h2]; split_and!; auto.
Qed.

Lemma gpio_control_val m s : board_ok -> drv_sdev_tbl s = sdevs ->
  exists h, control_word sdev_ops GPIO_DEV_NAME CMD_GPIO_ENABLE_SECOND m s = Val (tt, sys_hw s h) /\
    gpio_enable_second_function m (bus_of s) = Val (tt, h).
Proof using GpioRegs0.
  intros Hb Hs. destruct (calm_function m (bus_of s)) as ([] & h & E & _). exists h. split; [|done]. unfold control_word.
  erewrite bind_ret_val by (eapply (sddev_control_lift _ _ _ gpio_word_op); [exact on_uhw_lifts|rewrite Hs; exact (bo_gpio Hb)|exact (bo_gpio_ops Hb)
    |reflexivity|]; cbv beta; change (CMD_GPIO_ENABLE_SECOND =? CMD_GPIO_INT_ENABLE) with false; cbv iota;
    change (gpio_ctrl_regs CMD_GPIO_ENABLE_SECOND (GWord m)) with (gpio_enable_second_function m;; (mret GPIO_SUCCESS : M hw Z));
    rewrite bind_assoc, (bind_ret_val _ _ _ _ _ E); reflexivity). done.
Qed.

(** The drivers keep what [UartSystem] asks of them. *)
Lemma board_controls : board_ok -> controls_ok sdev_ops sdevs.
Proof using All.
  intros Hb nm cmd v s Hs Hin Ho.
  assert (Hdid : forall P (m : M hw Z) h r, (forall a, P a = true -> in_uart a = false) -> touches id P m ->
    m (bus_of s) = Val (r, h) -> did none none (u_hw (uart_of s)) h).
  { intros P m h r HP Hm E. exact (Hm _ (did_respects P HP) _ _ _ E Ho). }
  assert (Hicu : forall on off r, (on, off, r) ∈ icu_pairs -> cmd = on \/ cmd = off -> nm = ICU_DEV_NAME ->
    exists h, control_word sdev_ops nm cmd v s = Val (tt, sys_hw s h) /\ did none none (u_hw (uart_of s)) h).
  { intros on off r Hr Hc ->. destruct (icu_control_val on off r v s Hb Hs Hr) as [(h1 & E1 & I1 & _) (h2 & E2 & I2 & _)].
    destruct Hc as [-> | ->]; [exists h1|exists h2]; (split; [done|]);
      (eapply (Hdid in_icu); [intros a; apply blocks_apart|apply icu_touches|done]). }
  repeat (apply elem_of_cons in Hin as [[= -> ->]|Hin]); [..|by apply not_elem_of_nil in Hin].
  - eapply Hicu; [by apply (list_elem_of_lookup_2 _ 1)|by right|done].
  - eapply Hicu; [by apply (list_elem_of_lookup_2 _ 4)|by left|done].
  - eapply Hicu; [by apply (list_elem_of_lookup_2 _ 4)|by right|done].
  - destruct (gpio_control_val v s Hb Hs) as (h & E & Eg). exists h. split; [done|].
    exact (function_touches v _ (did_respects in_gpio (fun a => proj2 (blocks_apart a))) _ _ _ Eg Ho).
Qed.

(** *** What start-up leaves in the other units *)
Definition units_same (h h' : hw) : Prop := (forall b, ireg h' b = ireg h b) /\ forall b, soft h' b = soft h b.

Lemma uart_not_others a : in_uart a = true -> in_icu a = false /\ in_gpio a = false.
Proof using Type.
  intros Ha. destruct (in_icu a) eqn:Ei; [by rewrite (proj1 (blocks_apart a) Ei) in Ha|].
  destruct (in_gpio a) eqn:Eg; [by rewrite (proj2 (blocks_apart a) Eg) in Ha|done].
Qed.

Lemma units_respect : respects in_uart units_same.
Proof using Type.
  split.
  - by intros h.
  - intros h1 h2 h3 [A1 B1] [A2 B2]. split; intros b; [by rewrite A2|by rewrite B2].
  - intros a h Ha. destruct (uart_not_others a Ha). split; intros b; [by apply ireg_read_other|by apply breg_read_other].
  - intros a v h Ha. destruct (uart_not_others a Ha). split; intros b; [by apply ireg_write_other|by apply breg_write_other].
Qed.

(** The interrupt unit after start-up, and the pins. *)
Definition uart2_units (h h' : hw) : Prop :=
  (forall b, ireg h' b = if b =? ICU_INTERRUPT_ENABLE then Z.lor (ireg h b) IRQ_UART2_BIT
    else if b =? ICU_PERI_CLK_PWD then Z.ldiff (ireg h b) PWD_UART2_CLK_BIT else ireg h b) /\
  pins_set (fun i => (0 <=? i) && (i <=? 1)) 0x78 PERIAL_MODE_1 (soft h) (soft h').

Lemma icu_step_units cmd v h r h' : icu_ctrl cmd (Some v) h = Val (r, h') -> forall b, soft h' b = soft h b.
Proof using Type. apply icu_keeps_soft. Qed.

Lemma function_units m (h h' : hw) : gpio_enable_second_function m h = Val (tt, h') -> forall b, ireg h' b = ireg h b.
Proof using Type. intros E. exact (function_touches m _ gpio_respects_icu _ _ _ E). Qed.

Lemma uart2_pins (h h' : hw) : gpio_enable_second_function GFUNC_MODE_UART2 h = Val (tt, h') ->
  pins_set (fun i => (0 <=? i) && (i <=? 1)) 0x78 PERIAL_MODE_1 (soft h) (soft h').
Proof using Type.
  intros E. destruct (function_val GFUNC_MODE_UART2 (pull_up (pins 0 1 PERIAL_MODE_1)) 0x78 eq_refl ltac:(cbn; unfold PERIAL_MODE_1; lia)
    ltac:(cbn; lia) ltac:(cbn; unfold GPIONUM; lia) eq_refl ltac:(by left) h) as (h1 & E1 & R).
  rewrite E in E1. injection E1 as <-.
  apply (pins_set_ext (function_pins GFUNC_MODE_UART2 (pull_up (pins 0 1 PERIAL_MODE_1)))).
  { intros i. unfold function_pins. cbn. by rewrite andb_true_r. }
  by apply (function_pins_set _ _ _ _ _ R).
Qed.

Lemma pins_same_r P w pm g g1 g2 : pins_set P w pm g g1 -> same g1 g2 -> pins_set P w pm g g2.
Proof using Type. intros [H1 H2 H3] Hs. split; intros; unfold pin_function in *; rewrite Hs; auto. Qed.
Lemma pins_same_l P w pm g g1 g2 : same g g1 -> pins_set P w pm g1 g2 -> pins_set P w pm g g2.
Proof using Type. intros Hs [H1 H2 H3]. split; intros; unfold pin_function in *; rewrite <- Hs; auto. Qed.

Lemma call_sdev {A} (m : M sys A) s a s' : call m s = Val (a, s') -> drv_sdev_tbl s' = drv_sdev_tbl s.
Proof using Type. unfold call. destruct (m (world s)) as [[b w]|]; [|done]. by intros [= _ <-]. Qed.

Lemma register_sdev nm p s a s' : ddev_register_dev nm p s = Val (a, s') -> drv_sdev_tbl s' = drv_sdev_tbl s.
Proof using Type.
  unfold ddev_register_dev. destruct nm as [nm|], p as [p|]; try by intros [= _ <-].
  unfold mbind, M_bind, get. destruct (find_free (drv_dev_tbl s) 0); [|done]. unfold get_dev.
  destruct (zlookup _ _); [|done]. by intros [= _ <-].
Qed.

(** The first half of start-up: memory, the registry, the interrupt table. *)
Lemma init_before malloc_ok junk fuel uart2_op uart2_isr_addr s s' (k : M all unit) :
  (ret ← on_uart (uart_sw_init malloc_ok junk UART2_PORT);
   assert (UART_SUCCESS =? ret);;
   _ ← ddev_register_dev (Some UART2_DEV_NAME) (Some uart2_op);
   call (intc_service_register fuel IRQ_UART2 PRI_IRQ_UART2 uart2_isr_addr);; k) s = Val (tt, s') ->
  exists s3, units_same (bus_of s) (bus_of s3) /\ drv_sdev_tbl s3 = drv_sdev_tbl s /\ k s3 = Val (tt, s').
Proof using Type.
  intros E. apply bind_inv in E as (ret & s1 & E1 & E). apply bind_inv in E as ([] & s1' & E1' & E).
  assert (s1' = s1) as -> by (unfold assert in E1'; destruct (UART_SUCCESS =? ret); [by injection E1'|done]). clear E1'.
  apply bind_inv in E as (r2 & s2 & E2 & E). apply bind_inv in E as ([] & s3 & E3 & E). exists s3.
  pose proof (on_uart_touches in_uart _ (sw_init_touches malloc_ok junk in_uart UART2_PORT) _ units_respect _ _ _ E1) as U1.
  pose proof (register_dev_touches in_uart _ _ _ units_respect _ _ _ E2) as U2.
  pose proof (service_touches in_uart _ _ _ _ _ units_respect _ _ _ E3) as U3.
  split; [exact (res_trans _ _ units_respect _ _ _ U1 (res_trans _ _ units_respect _ _ _ U2 U3))|].
  split; [|done]. rewrite (call_sdev _ _ _ _ E3), (register_sdev _ _ _ _ _ E2). exact (call_sdev _ _ _ _ E1).
Qed.

(** The registers of the port, set and acknowledged. *)
Lemma init_registers s s' (k : M all unit) :
  (on_uart (uart_hw_init UART2_PORT);;
   intr_status ← on_uart (REG_READ (sel UART2_PORT REG_UART1_INTR_STATUS REG_UART2_INTR_STATUS));
   on_uart (REG_WRITE (sel UART2_PORT REG_UART1_INTR_STATUS REG_UART2_INTR_STATUS) intr_status);; k) s = Val (tt, s') ->
  exists s3, units_same (bus_of s) (bus_of s3) /\ drv_sdev_tbl s3 = drv_sdev_tbl s /\ k s3 = Val (tt, s').
Proof using Type.
  intros E. apply bind_inv in E as ([] & s1 & E1 & E). apply bind_inv in E as (v & s2 & E2 & E). apply bind_inv in E as ([] & s3 & E3 & E).
  exists s3. pose proof (sel_in_uart UART2_PORT 5 ltac:(lia)) as Ha.
  pose proof (on_uart_touches in_uart _ (hw_init_touches UART2_PORT) _ units_respect _ _ _ E1) as U1.
  pose proof (on_uart_touches in_uart _ (uart_read_touches in_uart _ Ha) _ units_respect _ _ _ E2) as U2.
  pose proof (on_uart_touches in_uart _ (uart_write_touches in_uart _ v Ha) _ units_respect _ _ _ E3) as U3.
  split; [exact (res_trans _ _ units_respect _ _ _ U1 (res_trans _ _ units_respect _ _ _ U2 U3))|].
  split; [|done]. rewrite (call_sdev _ _ _ _ E3), (call_sdev _ _ _ _ E2). exact (call_sdev _ _ _ _ E1).
Qed.

Lemma init_units malloc_ok junk fuel uart2_op uart2_isr_addr s s' : board_ok -> drv_sdev_tbl s = sdevs ->
  uart2_init malloc_ok junk fuel sdev_ops uart2_op uart2_isr_addr s = Val (tt, s') -> uart2_units (bus_of s) (bus_of s').
Proof using GpioRegs0 IcuRegs0.
  intros Hb Hs E. unfold uart2_init, uart_init in E. apply init_before in E as (s1 & [I1 S1] & T1 & E).
  assert (Hclk : (CMD_CLK_PWR_DOWN, CMD_CLK_PWR_UP, ICU_PERI_CLK_PWD) ∈ icu_pairs) by (by apply (list_elem_of_lookup_2 _ 1)).
  assert (Hint : (CMD_ICU_INT_ENABLE, CMD_ICU_INT_DISABLE, ICU_INTERRUPT_ENABLE) ∈ icu_pairs) by (by apply (list_elem_of_lookup_2 _ 4)).
  destruct (proj2 (icu_control_val _ _ _ PWD_UART2_CLK_BIT s1 Hb ltac:(by rewrite T1) Hclk)) as (h2 & E2 & C2 & I2).
  pose proof (icu_keeps_soft _ _ _ _ _ C2) as S2. rewrite (bind_ret_val _ _ _ _ _ E2) in E.
  destruct (gpio_control_val GFUNC_MODE_UART2 (sys_hw s1 h2) Hb ltac:(cbn; by rewrite T1)) as (h3 & E3 & C3).
  change (bus_of (sys_hw s1 h2)) with h2 in C3. rewrite (bind_ret_val _ _ _ _ _ E3) in E.
  pose proof (function_units _ _ _ C3) as I3. pose proof (uart2_pins _ _ C3) as S3.
  apply init_registers in E as (s4 & [I4 S4] & T4 & E). change (bus_of (sys_hw (sys_hw s1 h2) h3)) with h3 in I4, S4.
  destruct (proj1 (icu_control_val _ _ _ IRQ_UART2_BIT s4 Hb ltac:(rewrite T4; cbn; by rewrite T1) Hint)) as (h5 & E5 & C5 & I5).
  rewrite E5 in E. injection E as <-. change (bus_of (sys_hw s4 h5)) with h5. pose proof (icu_keeps_soft _ _ _ _ _ C5) as S5. split.
  - intros b. rewrite I5, !I4, !I3, !I2, !I1. change (ICU_INTERRUPT_ENABLE =? ICU_PERI_CLK_PWD) with false. cbv iota.
    destruct (Z.eqb_spec b ICU_INTERRUPT_ENABLE) as [->|]; [done|]. by destruct (Z.eqb_spec b ICU_PERI_CLK_PWD) as [->|].
  - eapply pins_same_l; [|eapply pins_same_r; [exact S3|]]; intros b; [by rewrite S2, S1|by rewrite S5, S4].
Qed.

(** C9: on a board with the drivers of the interrupt unit and of the pins
    registered, start-up of the second UART ends with the port ready and its
    registers set; its device is in the free slot, its routine in the interrupt
    table, and its two queues are new.  Nothing is sent, and one interrupt status of the
    unit is written back.  The first port, its registers and its queues, all callbacks, and the
    other devices are as before; in the interrupt unit its interrupt is enabled and its clock powered, in
    no other bit; its two pins have their first function with pull-up, and no
    other pin has changed. *)
Theorem uart2_init_on_board malloc_ok junk fuel uart2_op uart2_isr_addr s i es u0 : board_ok -> drv_sdev_tbl s = sdevs ->
  find_free (drv_dev_tbl s) 0 = Some i -> (i < DD_MAX_DEV)%nat -> names_before (drv_dev_tbl s) UART2_DEV_NAME i ->
  table_rep es (world s) -> IRQ_UART2 ∉ map int_num es -> (forall x, x ∈ es -> pri x <> PRI_IRQ_UART2) ->
  (INTC_MAX_COUNT < fuel)%nat -> startable malloc_ok junk (uart_of s) u0 ->
  exists s', uart2_init malloc_ok junk fuel sdev_ops uart2_op uart2_isr_addr s = Val (tt, s') /\
    ready uart2_op uart2_isr_addr sdevs (table_insert (isr2 uart2_isr_addr) es) [] [] s' /\
    uart_regs_started (bus_of s) (bus_of s') /\ second_alone junk uart2_op i u0 s s' /\ uart2_units (bus_of s) (bus_of s').
Proof using All.
  intros Hb Hs Hfree Hi Hnm Ht Hnum Hpri Hf Hst.
  destruct (init_val malloc_ok junk fuel sdev_ops uart2_op uart2_isr_addr sdevs s i (table_insert (isr2 uart2_isr_addr) es) u0
    (board_controls Hb) Hs Hfree Hi Hnm) as (s' & E & Hr & Hreg & Hal); [|by apply table_insert_has|done|].
  - intros w E1 E2 E3. destruct (register_val es w fuel IRQ_UART2 PRI_IRQ_UART2 uart2_isr_addr) as (w' & E & Hx & Hr & _);
      [by eapply ext_rep; [..|exact Ht]|done|done|done|]. by exists w'.
  - exists s'. split_and!; [exact E|exact Hr|exact Hreg|exact Hal|by eapply init_units].
Qed.
End board.

(** ** A board *)
Record uart_board := UartBoard { ub_pins : pin_board; ub_uart : uart_sim }.

#[export] Instance uart_board_bus : RegBus uart_board := {|
  bus_read a h := if in_uart a then let '(v, u) := bus_read a (ub_uart h) in (v, UartBoard (ub_pins h) u)
    else let '(v, p) := bus_read a (ub_pins h) in (v, UartBoard p (ub_uart h));
  bus_write a v h := if in_uart a then UartBoard (ub_pins h) (bus_write a v (ub_uart h))
    else UartBoard (bus_write a v (ub_pins h)) (ub_uart h);
|}.

Lemma board_read_pins a h : in_uart a = false -> bus_read a h =
  ((bus_read a (ub_pins h)).1, UartBoard (bus_read a (ub_pins h)).2 (ub_uart h)).
Proof. intros Ha. cbn [bus_read uart_board_bus]. rewrite Ha. by destruct (bus_read a (ub_pins h)). Qed.
Lemma board_write_pins a v h : in_uart a = false -> bus_write a v h = UartBoard (bus_write a v (ub_pins h)) (ub_uart h).
Proof. intros Ha. cbn [bus_write uart_board_bus]. by rewrite Ha. Qed.
Lemma board_read_uart a h : in_uart a = true -> bus_read a h =
  ((bus_read a (ub_uart h)).1, UartBoard (ub_pins h) (bus_read a (ub_uart h)).2).
Proof. intros Ha. cbn [bus_read uart_board_bus]. rewrite Ha. by destruct (bus_read a (ub_uart h)). Qed.
Lemma board_write_uart a v h : in_uart a = true -> bus_write a v h = UartBoard (ub_pins h) (bus_write a v (ub_uart h)).
Proof. intros Ha. cbn [bus_write uart_board_bus]. by rewrite Ha. Qed.

Lemma icu_elsewhere a : in_icu a = true -> in_uart a = false.
Proof. apply blocks_apart. Qed.
Lemma gpio_elsewhere a : in_gpio a = true -> in_uart a = false.
Proof. apply blocks_apart. Qed.

#[export, refine] Instance uart_board_icu : IcuRegs uart_board := {| ireg h := ireg (ub_pins h) |}.
Proof.
  - intros h a Ha. destruct h as [p u]. rewrite board_read_pins by exact (icu_elsewhere a Ha). cbn [ub_pins ub_uart]. by rewrite (ireg_read p) by done.
  - intros h a b Ha. destruct (in_uart a) eqn:E; [by rewrite board_read_uart|rewrite board_read_pins by done; by apply ireg_read_other].
  - intros h a v b Ha. destruct (in_uart a) eqn:E; [by rewrite board_write_uart|rewrite board_write_pins by done; by apply ireg_write_other].
  - intros h a v b Ha Hj. rewrite board_write_pins by exact (icu_elsewhere a Ha). by apply ireg_write.
Defined.

#[export, refine] Instance uart_board_gpio : GpioRegs uart_board := {| breg h := greg (ub_pins h) |}.
Proof.
  - intros h a. apply breg_u32.
  - intros h a Ha. destruct h as [p u]. rewrite board_read_pins by exact (gpio_elsewhere a Ha). cbn [ub_pins ub_uart]. by rewrite (breg_read p) by done.
  - intros h a b Ha. destruct (in_uart a) eqn:E; [by rewrite board_read_uart|rewrite board_read_pins by done; by apply breg_read_other].
  - intros h a v b Ha Hv. rewrite board_write_pins by exact (gpio_elsewhere a Ha). by apply breg_write.
  - intros h a v b Ha. destruct (in_uart a) eqn:E; [by rewrite board_write_uart|rewrite board_write_pins by done; by apply breg_write_other].
  - intros h a v i Ha Hm. rewrite board_write_pins by exact (gpio_elsewhere a Ha). by apply breg_ack.
  - intros h a b i Hm Hp. destruct (in_uart a) eqn:E; [by rewrite board_read_uart|rewrite board_read_pins by done; by apply breg_read_pending].
  - intros h a v b i Hne Hm Hp. destruct (in_uart a) eqn:E; [by rewrite board_write_uart|rewrite board_write_pins by done; by apply breg_pending].
Defined.

Lemma port_in_uart p n : 0 <= n < 8 -> in_uart (port_reg p n) = true.
Proof. intros Hn. unfold in_uart. rewrite decode_reg by done. by apply bool_decide_eq_true. Qed.

#[export, refine] Instance uart_board_spec : UartSpec uart_board := {|
  uart_ok h := uart_ok (ub_uart h); unit_of h := unit_of (ub_uart h);
  wait_max := wait_max (hw := uart_sim); rx_max := rx_max (hw := uart_sim);
|}.
Proof.
  - intros h p. apply uart_bounds.
  - intros h p Ho. rewrite board_read_uart by (by apply port_in_uart). destruct (uart_read_status (ub_uart h) p Ho) as (v & h' & E & R).
    rewrite E. by exists v, (UartBoard (ub_pins h) h').
  - intros h p Ho. rewrite board_read_uart by (by apply port_in_uart). destruct (uart_read_data (ub_uart h) p Ho) as (v & h' & E & R).
    rewrite E. by exists v, (UartBoard (ub_pins h) h').
  - intros h p v Ho Hw. rewrite board_write_uart by (by apply port_in_uart). by apply uart_write_data.
  - intros h p Ho. rewrite board_read_uart by (by apply port_in_uart). destruct (uart_read_pending (ub_uart h) p Ho) as (h' & E & R).
    rewrite E. by exists (UartBoard (ub_pins h) h').
  - intros h p v Ho. rewrite board_write_uart by (by apply port_in_uart). by apply uart_write_pending.
  - intros h p n Ho Hn. rewrite board_read_uart by (apply port_in_uart; apply ctl_index_cases in Hn; lia).
    destruct (uart_read_ctl (ub_uart h) p n Ho Hn) as (h' & E & R). rewrite E. by exists (UartBoard (ub_pins h) h').
  - intros h p n v Ho Hn Hv. rewrite board_write_uart by (apply port_in_uart; apply ctl_index_cases in Hn; lia). by apply uart_write_ctl.
Defined.

#[export] Instance uart_board_apart : UartApart uart_board.
Proof.
  split; intros h a; intros.
  - rewrite board_read_pins by done. by apply (did_refl (ub_uart h)).
  - rewrite board_write_pins by done. by apply (did_refl (ub_uart h)).
Qed.

(** The board at start-up: nothing registered but the two drivers. *)
Definition demo_board : drv_state (intc_st (uart_st uart_board)) :=
  DrvState (replicate DD_MAX_DEV zero_dev) demo_sdev_tbl
    (intc_start (uart_start (UartBoard (PinBoard (IcuFile (fun _ => 0xff) []) (fun _ => 0)) demo_uart) 1)).
Definition board_ops (a : Z) : SDD_OPERATIONS (intc_st (uart_st uart_board)) :=
  sop_lift (fun A => on_uhw (A := A)) (if a =? 1 then icu_op else gpio_word_op).

Lemma demo_board_ok : board_ok board_ops 1 2 demo_sdev_tbl.
Proof. destruct demo_slots. by split. Qed.

Lemma uart2_init_on_board_witness : exists s',
  uart2_init some_memory zeros 300 board_ops 1 7 demo_board = Val (tt, s') /\
  ireg (bus_of s') ICU_PERI_CLK_PWD = 0xfd /\ soft (bus_of s') (gpio_cfg_addr 1) = 0x78 /\
  ready 1 7 demo_sdev_tbl [isr2 7] [] [] s' /\ second_alone zeros 1 0 no_uart demo_board s'.
Proof.
  destruct (uart2_init_on_board board_ops 1 2 demo_sdev_tbl some_memory zeros 300 1 7 demo_board 0 [] no_uart demo_board_ok eq_refl eq_refl
    ltac:(unfold DD_MAX_DEV; lia) ltac:(intros j d Hj; lia) (start_rep _) (not_elem_of_nil _)
    ltac:(intros x Hx; by apply not_elem_of_nil in Hx) ltac:(unfold INTC_MAX_COUNT; lia)) as (s' & E & Hr & _ & Ha & Hi & Hp).
  - split; [exact demo_uart_ok|]. split; [reflexivity|]. split; [reflexivity|]. split; vm_compute; done.
  - exists s'. split; [exact E|]. split; [rewrite Hi; reflexivity|]. split; [|split; [exact Hr|exact Ha]].
    rewrite (ps_config _ _ _ _ _ Hp 1 ltac:(unfold GPIONUM; lia)). reflexivity.
Defined.
