(* ===== verification/SaradcHw.v ===== *)
(** * The analogue-to-digital converter as hardware (driver/saradc/saradc.h)

    The registers, and what the driver relies on in them ([AdcSpec]): the
    converter keeps its samples in a queue that reports when it is empty and gives
    them in order, one for each reading; samples arrive, at any access to the bus,
    while the channel is enabled and never when it is not; the bit that clears the
    interrupt falls after some requests; the rest of a register keeps what is
    written.  [with_adc] is a device that satisfies the interface, beside what
    else is on the bus. *)
From S2P Require Import Prelude DrvModel Icu Regs Stack.
Local Open Scope Z_scope.

Definition SARADC_BASE : Z := 0x00802C00.
Definition SARADC_ADC_CONFIG : Z := SARADC_BASE + 0 * 4.
Definition SARADC_ADC_MODE_POSI : Z := 0.
Definition SARADC_ADC_MODE_MASK : Z := 0x03.
Definition SARADC_ADC_CHNL_EN : Z := Z.shiftl 0x01 2.
Definition SARADC_ADC_CHNL_POSI : Z := 3.
Definition SARADC_ADC_CHNL_MAX : Z := 12.
Definition SARADC_ADC_CHNL_MASK : Z := 0x0F.
Definition SARADC_ADC_DELAY_CLK_POSI : Z := 7.
Definition SARADC_ADC_SETTING : Z := Z.shiftl 0x01 7.
Definition SARADC_ADC_INT_CLR : Z := Z.shiftl 0x01 8.
Definition SARADC_ADC_PRE_DIV_POSI : Z := 9.
Definition SARADC_ADC_PRE_DIV_MASK : Z := 0x3F.
Definition SARADC_ADC_SAMPLE_RATE_POSI : Z := 16.
Definition SARADC_ADC_SAMPLE_RATE_MASK : Z := 0x3F.
Definition SARADC_ADC_FILTER_POSI : Z := 22.
Definition SARADC_ADC_FILTER_MASK : Z := 0x7F.
Definition SARADC_ADC_BUSY : Z := Z.shiftl 0x01 29.
Definition SARADC_ADC_FIFO_EMPTY : Z := Z.shiftl 0x01 30.
Definition SARADC_ADC_FIFO_FULL : Z := Z.shiftl 0x01 31.
Definition SARADC_ADC_DATA : Z := SARADC_BASE + 1 * 4.
Definition SARADC_ADC_SATURATION_CFG : Z := SARADC_BASE + 3 * 4.
Definition SARADC_ADC_SAT_CTRL_POSI : Z := 0.
Definition SARADC_ADC_SAT_CTRL_MASK : Z := 0x3.
Definition SARADC_ADC_SAT_ENABLE : Z := Z.shiftl 0x01 2.
Definition SARADC_ADC_DAT_AFTER_STA : Z := SARADC_BASE + 4 * 4.

(** ** The interface *)

(** The samples not yet read; how many requests the clear bit still takes; the
    configuration without its status bits; the saturation register; and, for the
    theorems, the history: every sample the converter has delivered to its queue. *)
Record adc_line := AdcLine { a_fifo : list Z; a_clr : nat; a_cfg : Z; a_sat : Z; a_came : list Z }.

(** The bits of the configuration that report: clear, busy, empty, full. *)
Definition adc_status : Z := 0xE0000100.
Definition in_adc (a : Z) : bool := (SARADC_BASE <=? a) && (a <? SARADC_BASE + 5 * 4).
Definition enabled (l : adc_line) : bool := Z.testbit (a_cfg l) 2.

(** Time passes, with [q] left of the samples: more arrive if the channel is on, and the history has them. *)
Definition passes_with (q : list Z) (l l' : adc_line) : Prop :=
  (exists new, a_fifo l' = q ++ new /\ a_came l' = a_came l ++ new /\ (enabled l = false -> new = [])) /\
  (a_clr l' <= a_clr l)%nat /\ a_cfg l' = a_cfg l /\ a_sat l' = a_sat l.
Definition time_passes (l l' : adc_line) : Prop := passes_with (a_fifo l) l l'.

Class AdcSpec (hw : Type) `{RegBus hw} := {
  adc_ok : hw -> Prop;
  adc_of : hw -> adc_line;
  adc_depth : nat;
  adc_clr_max : nat;
  adc_bounds h : adc_ok h -> (length (a_fifo (adc_of h)) <= adc_depth)%nat /\ (a_clr (adc_of h) <= adc_clr_max)%nat /\
    Forall is_u16 (a_fifo (adc_of h)) /\ is_u32 (a_cfg (adc_of h)) /\ is_u32 (a_sat (adc_of h));
  adc_read_cfg h : adc_ok h -> exists v h', bus_read SARADC_ADC_CONFIG h = (v, h') /\ adc_ok h' /\ is_u32 v /\
    Z.testbit v 30 = bool_decide (a_fifo (adc_of h) = []) /\ Z.testbit v 8 = negb (bool_decide (a_clr (adc_of h) = 0%nat)) /\
    Z.ldiff v adc_status = a_cfg (adc_of h) /\ time_passes (adc_of h) (adc_of h');
  adc_write_cfg h v : adc_ok h -> is_u32 v ->
    let h' := bus_write SARADC_ADC_CONFIG v h in
    adc_ok h' /\ a_cfg (adc_of h') = Z.ldiff v adc_status /\ a_fifo (adc_of h') = a_fifo (adc_of h) /\ a_sat (adc_of h') = a_sat (adc_of h) /\
    a_came (adc_of h') = a_came (adc_of h) /\
    (a_clr (adc_of h') <= if Z.testbit v 8 then pred (a_clr (adc_of h)) else a_clr (adc_of h))%nat;
  adc_read_sat h : adc_ok h -> exists h', bus_read SARADC_ADC_SATURATION_CFG h = (a_sat (adc_of h), h') /\ adc_ok h' /\
    time_passes (adc_of h) (adc_of h');
  adc_write_sat h v : adc_ok h -> is_u32 v ->
    let h' := bus_write SARADC_ADC_SATURATION_CFG v h in
    adc_ok h' /\ a_cfg (adc_of h') = a_cfg (adc_of h) /\ a_fifo (adc_of h') = a_fifo (adc_of h) /\ a_sat (adc_of h') = v /\
    a_came (adc_of h') = a_came (adc_of h) /\ (a_clr (adc_of h') <= a_clr (adc_of h))%nat;
  adc_read_sample h : adc_ok h -> exists v h', bus_read SARADC_ADC_DAT_AFTER_STA h = (v, h') /\ adc_ok h' /\
    (forall x, head (a_fifo (adc_of h)) = Some x -> Z.land v 0xFFFF = x) /\ passes_with (tail (a_fifo (adc_of h))) (adc_of h) (adc_of h');
  (** Whether reading the other register of data takes a sample does not matter. *)
  adc_read_data h : adc_ok h -> exists v h', bus_read SARADC_ADC_DATA h = (v, h') /\ adc_ok h' /\
    exists q, (q = a_fifo (adc_of h) \/ q = tail (a_fifo (adc_of h))) /\ passes_with q (adc_of h) (adc_of h');
  adc_read_other h a : adc_ok h -> in_adc a = false -> adc_ok (bus_read a h).2 /\ time_passes (adc_of h) (adc_of (bus_read a h).2);
  adc_write_other h a v : adc_ok h -> in_adc a = false -> adc_ok (bus_write a v h) /\ time_passes (adc_of h) (adc_of (bus_write a v h));
}.

Lemma time_passes_refl l : time_passes l l.
Proof. split_and!; [exists []; by rewrite !app_nil_r|done..]. Qed.
Lemma passes_with_trans q l l1 l2 : passes_with q l l1 -> time_passes l1 l2 -> passes_with q l l2.
Proof.
  intros ((n1 & F1 & A1 & D1) & C1 & G1 & S1) ((n2 & F2 & A2 & D2) & C2 & G2 & S2).
  assert (He : enabled l1 = enabled l) by (unfold enabled; by rewrite G1). split_and!; [|lia|congruence|congruence].
  exists (n1 ++ n2). split_and!; [by rewrite F2, F1, (assoc_L (++))|by rewrite A2, A1, (assoc_L (++))|]. intros Hd. rewrite D1, D2 by (done || by rewrite He). done.
Qed.
Lemma time_passes_trans l l1 l2 : time_passes l l1 -> time_passes l1 l2 -> time_passes l l2.
Proof. apply passes_with_trans. Qed.

(** ** A device that satisfies the interface

    At each access to the bus while the channel is on, the next samples of a
    script arrive, as far as there is room; the clear bit falls at the third
    request. *)
Record with_adc (rest : Type) := WithAdc { wa_line : adc_line; wa_script : list (list Z); wa_rest : rest }.
Arguments WithAdc {rest}. Arguments wa_line {rest}. Arguments wa_script {rest}. Arguments wa_rest {rest}.

Definition sim_depth : nat := 8.
Definition more (l : adc_line) (script : list (list Z)) : list Z :=
  if enabled l then u16 <$> take (sim_depth - length (a_fifo l)) (default [] (head script)) else [].
Definition sim_pass (l : adc_line) (script : list (list Z)) : adc_line :=
  AdcLine (a_fifo l ++ more l script) (a_clr l) (a_cfg l) (a_sat l) (a_came l ++ more l script).
Definition sim_pop (l : adc_line) : adc_line := AdcLine (tail (a_fifo l)) (a_clr l) (a_cfg l) (a_sat l) (a_came l).
Definition cfg_word (l : adc_line) : Z :=
  Z.lor (Z.ldiff (u32 (a_cfg l)) adc_status)
    (Z.lor (if decide (a_fifo l = []) then SARADC_ADC_FIFO_EMPTY else 0) (if decide (a_clr l = 0%nat) then 0 else SARADC_ADC_INT_CLR)).

#[export] Instance with_adc_bus `{RegBus rest} : RegBus (with_adc rest) := {|
  bus_read a h :=
    if a =? SARADC_ADC_CONFIG then (cfg_word (wa_line h), WithAdc (sim_pass (wa_line h) (wa_script h)) (tail (wa_script h)) (wa_rest h))
    else if a =? SARADC_ADC_SATURATION_CFG then (a_sat (wa_line h), h)
    else if (a =? SARADC_ADC_DATA) || (a =? SARADC_ADC_DAT_AFTER_STA) then
      (default 0 (head (a_fifo (wa_line h))), WithAdc (sim_pop (wa_line h)) (wa_script h) (wa_rest h))
    else if in_adc a then (0, h)
    else ((bus_read a (wa_rest h)).1, WithAdc (wa_line h) (wa_script h) (bus_read a (wa_rest h)).2);
  bus_write a v h :=
    if a =? SARADC_ADC_CONFIG then
      WithAdc (AdcLine (a_fifo (wa_line h)) (if Z.testbit v 8 then pred (a_clr (wa_line h)) else a_clr (wa_line h))
        (Z.ldiff v adc_status) (a_sat (wa_line h)) (a_came (wa_line h))) (wa_script h) (wa_rest h)
    else if a =? SARADC_ADC_SATURATION_CFG then
      WithAdc (AdcLine (a_fifo (wa_line h)) (a_clr (wa_line h)) (a_cfg (wa_line h)) v (a_came (wa_line h))) (wa_script h) (wa_rest h)
    else if in_adc a then h
    else WithAdc (wa_line h) (wa_script h) (bus_write a v (wa_rest h));
|}.

Definition sim_line_ok (l : adc_line) : Prop :=
  (length (a_fifo l) <= sim_depth)%nat /\ (a_clr l <= 2)%nat /\ Forall is_u16 (a_fifo l) /\
  (is_u32 (a_cfg l) /\ Z.land (a_cfg l) adc_status = 0) /\ is_u32 (a_sat l).

Lemma more_ok l script : (length (a_fifo l) <= sim_depth)%nat -> Forall is_u16 (a_fifo l) ->
  (length (a_fifo l ++ more l script) <= sim_depth)%nat /\ Forall is_u16 (a_fifo l ++ more l script).
Proof.
  intros Hl Hf. unfold more. rewrite length_app, Forall_app. destruct (enabled l); [|cbn; split_and!; [lia|done..]].
  rewrite length_fmap, length_take. split_and!; [lia|done|]. apply Forall_fmap, Forall_true. intros x. apply u16_range.
Qed.

Lemma sim_pass_ok l script : sim_line_ok l -> sim_line_ok (sim_pass l script) /\ time_passes l (sim_pass l script).
Proof.
  intros (Hl & Hc & Hf & Hg & Hs). destruct (more_ok l script Hl Hf) as [M1 M2]. split; [done|].
  split_and!; [|done..]. exists (more l script). split_and!; [done|done|]. unfold more. by intros ->.
Qed.

Lemma sim_pop_ok l : sim_line_ok l -> sim_line_ok (sim_pop l) /\ passes_with (tail (a_fifo l)) l (sim_pop l).
Proof.
  intros (Hl & Hc & Hf & Hg & Hs). split.
  - split_and!; [destruct (a_fifo l) eqn:E; cbn in *; rewrite E; cbn; lia|done|cbn; by destruct Hf|apply Hg..|done].
  - split_and!; [|done..]. exists []. by rewrite !app_nil_r.
Qed.

Lemma cfg_word_bits l : sim_line_ok l -> is_u32 (cfg_word l) /\ Z.testbit (cfg_word l) 30 = bool_decide (a_fifo l = []) /\
  Z.testbit (cfg_word l) 8 = negb (bool_decide (a_clr l = 0%nat)) /\ Z.ldiff (cfg_word l) adc_status = a_cfg l.
Proof.
  intros (_ & _ & _ & (Hg & Hd) & _). unfold cfg_word. rewrite u32_id by done. rewrite !bool_decide_decide. split_and!.
  - apply lor_u32; [by apply ldiff_u32|]. destruct (decide (a_fifo l = [])), (decide (a_clr l = 0%nat)); by vm_compute.
  - rewrite !Z.lor_spec, Z.ldiff_spec. destruct (decide (a_fifo l = [])), (decide (a_clr l = 0%nat)), (Z.testbit (a_cfg l) 30); by vm_compute.
  - rewrite !Z.lor_spec, Z.ldiff_spec. destruct (decide (a_fifo l = [])), (decide (a_clr l = 0%nat)), (Z.testbit (a_cfg l) 8); by vm_compute.
  - assert (E : Z.ldiff (Z.lor (if decide (a_fifo l = []) then SARADC_ADC_FIFO_EMPTY else 0)
      (if decide (a_clr l = 0%nat) then 0 else SARADC_ADC_INT_CLR)) adc_status = 0)
      by (destruct (decide (a_fifo l = [])), (decide (a_clr l = 0%nat)); by vm_compute).
    generalize dependent (Z.lor (if decide (a_fifo l = []) then SARADC_ADC_FIFO_EMPTY else 0)
      (if decide (a_clr l = 0%nat) then 0 else SARADC_ADC_INT_CLR)). intros m E. word_bits.
Qed.

Lemma outside_adc a : in_adc a = false -> (a =? SARADC_ADC_CONFIG) = false /\ (a =? SARADC_ADC_SATURATION_CFG) = false /\
  (a =? SARADC_ADC_DATA) = false /\ (a =? SARADC_ADC_DAT_AFTER_STA) = false /\ in_adc a = false.
Proof. unfold in_adc, SARADC_ADC_CONFIG, SARADC_ADC_SATURATION_CFG, SARADC_ADC_DATA, SARADC_ADC_DAT_AFTER_STA. intros. lia. Qed.
Ltac adc_cases a := destruct (a =? SARADC_ADC_CONFIG); [done|]; destruct (a =? SARADC_ADC_SATURATION_CFG); [done|];
  try (destruct ((a =? SARADC_ADC_DATA) || (a =? SARADC_ADC_DAT_AFTER_STA)); [done|]); destruct (in_adc a); [done|].

#[export, refine] Instance with_adc_spec `{RegBus rest} : AdcSpec (with_adc rest) := {|
  adc_ok h := sim_line_ok (wa_line h); adc_of := wa_line; adc_depth := sim_depth; adc_clr_max := 2;
|}.
Proof.
  - intros h (Hl & Hc & Hf & (Hg & _) & Hs). by split_and!.
  - intros h Hok. destruct (cfg_word_bits _ Hok) as (B1 & B2 & B3 & B4), (sim_pass_ok _ (wa_script h) Hok) as [O1 O2].
    eexists _, _. split; [done|]. by split_and!.
  - intros h v Hok Hv. destruct Hok as (Hl & Hc & Hf & Hg & Hs). split_and!; try done.
    change (sim_line_ok (AdcLine (a_fifo (wa_line h)) (if Z.testbit v 8 then pred (a_clr (wa_line h)) else a_clr (wa_line h))
        (Z.ldiff v adc_status) (a_sat (wa_line h)) (a_came (wa_line h)))).
    unfold sim_line_ok. cbn [a_fifo a_clr a_cfg a_sat]. split_and!; [done|destruct (Z.testbit v 8); lia|done|by apply ldiff_u32| |done].
    generalize adc_status. intros m. bits. rewrite Z.bits_0. by destruct (Z.testbit v i), (Z.testbit m i).
  - intros h Hok. eexists. split; [done|]. split; [done|apply time_passes_refl].
  - intros h v (Hl & Hc & Hf & Hg & Hs) Hv. by split_and!.
  - intros h Hok. destruct (sim_pop_ok _ Hok) as [O1 O2]. eexists _, _. split; [done|]. split_and!; [done| |done].
    intros x. destruct Hok as (_ & _ & Hf & _). cbn. destruct Hf as [|y l Hy Hl]; [done|]. intros [= ->]. cbn. rewrite land_0xffff. by apply u16_id.
  - intros h Hok. destruct (sim_pop_ok _ Hok) as [O1 O2]. eexists _, _. split; [done|]. split; [done|]. eexists. split; [by right|done].
  - intros h a Hok Ha. cbn [bus_read with_adc_bus]. destruct (outside_adc a Ha) as (-> & -> & -> & -> & ->).
    split; [done|apply time_passes_refl].
  - intros h a v Hok Ha. cbn [bus_write with_adc_bus]. destruct (outside_adc a Ha) as (-> & -> & _ & _ & ->).
    split; [done|apply time_passes_refl].
Defined.

(** The other units on the bus are what they were. *)
#[export, refine] Instance with_adc_other B `{BlockRegs B rest} `{!Apart (b_in B) in_adc} : BlockRegs B (with_adc rest) :=
  {| breg h := breg (wa_rest h) |}.
Proof.
  all: intros; cbn [bus_read bus_write with_adc_bus].
  - apply breg_u32.
  - destruct (outside_adc a (apart (P := b_in B) (Q := in_adc) a ltac:(assumption))) as (-> & -> & -> & -> & ->). rewrite breg_read by done. by destruct h.
  - adc_cases a; by apply breg_read_other.
  - destruct (outside_adc a (apart (P := b_in B) (Q := in_adc) a ltac:(assumption))) as (-> & -> & _ & _ & ->). by apply breg_write.
  - adc_cases a; by apply breg_write_other.
  - destruct (outside_adc a (apart (P := b_in B) (Q := in_adc) a ltac:(assumption))) as (-> & -> & _ & _ & ->). by apply breg_ack.
  - adc_cases a; by apply breg_read_pending.
  - adc_cases a; by apply breg_pending.
Defined.

#[export, refine] Instance with_adc_icu `{IcuRegs rest} `{!Apart in_icu in_adc} : IcuRegs (with_adc rest) :=
  {| ireg h := ireg (wa_rest h) |}.
Proof.
  all: intros; cbn [bus_read bus_write with_adc_bus].
  - destruct (outside_adc a (apart (P := in_icu) (Q := in_adc) a ltac:(assumption))) as (-> & -> & -> & -> & ->). rewrite ireg_read by done. by destruct h.
  - adc_cases a; by apply ireg_read_other.
  - adc_cases a; by apply ireg_write_other.
  - destruct (outside_adc a (apart (P := in_icu) (Q := in_adc) a ltac:(assumption))) as (-> & -> & _ & _ & ->). by apply ireg_write.
Defined.

(** ** The converter under the variables of drivers *)

(** Assigning variables does not change the converter. *)
Class AdcPut (X W : Type) `{Holds X W, AdcSpec W} : Prop := {
  adc_put_ok (x : X) (w : W) : adc_ok w -> adc_ok (hput x w);
  adc_put (x : X) (w : W) : adc_of (hput x w) = adc_of w;
}.

Section part.
Context {W S : Type} `{P : Holds W S, RegBus W, !AdcSpec W}.
Local Existing Instance part_bus.

Definition part_adc : AdcSpec S.
Proof.
  refine {| adc_ok s := adc_ok (hget (X := W) s); adc_of s := adc_of (hget (X := W) s); adc_depth := adc_depth (hw := W); adc_clr_max := adc_clr_max (hw := W) |};
    intros; cbn [bus_read bus_write part_bus fst snd] in *; rewrite ?hget_put.
  - by apply adc_bounds.
  - destruct (adc_read_cfg _ ltac:(eassumption)) as (v & w & E & ?). rewrite E. eexists _, _. split; [done|]. by rewrite hget_put.
  - subst h'. rewrite !hget_put. by apply adc_write_cfg.
  - destruct (adc_read_sat _ ltac:(eassumption)) as (w & E & ?). rewrite E. eexists. split; [done|]. by rewrite hget_put.
  - subst h'. rewrite !hget_put. by apply adc_write_sat.
  - destruct (adc_read_sample _ ltac:(eassumption)) as (v & w & E & ?). rewrite E. eexists _, _. split; [done|]. by rewrite hget_put.
  - destruct (adc_read_data _ ltac:(eassumption)) as (v & w & E & ?). rewrite E. eexists _, _. split; [done|]. by rewrite hget_put.
  - by apply adc_read_other.
  - by apply adc_write_other.
Defined.
End part.

#[export] Instance with_state_adc X `{RegBus W, !AdcSpec W} : AdcSpec (with_state X W) := part_adc (P := holds_rest X W).
#[export] Instance with_state_adc_put X `{RegBus W, !AdcSpec W} : AdcPut X (with_state X W) | 0.
Proof. by split. Qed.
#[export] Instance with_state_adc_put_rest X Y `{RegBus W, !AdcSpec W, !Holds Y W, !AdcPut Y W} : AdcPut Y (with_state X W) | 10.
Proof. split; intros x w; [exact (adc_put_ok x (ws_rest w))|exact (adc_put x (ws_rest w))]. Qed.
