(* ===== verification/Saradc.v ===== *)
(** * The analogue-to-digital converter (driver/saradc/saradc.c)

    A device of the registry with one user at a time: opening it gives it a
    descriptor of the caller, with a buffer, the channel and the rates; the
    interrupt routine stores the samples in the buffer, closes the converter when
    the buffer is full and calls the handler of the descriptor.  What accesses the
    registers and the variables runs on any state that has them; what goes through
    the registry runs on the whole stack.  The descriptors and the buffers are the
    callers', reached by their addresses. *)
From stdpp Require Import strings gmap.
From S2P Require Import Prelude DrvModel Icu Regs Intc Stack Gpio Clock SaradcHw.
Local Open Scope Z_scope.

(** saradc_pub.h, icu_pub.h, intc_pub.h *)
Definition SARADC_FAILURE : Z := 1.
Definition SARADC_SUCCESS : Z := 0.
Definition SARADC_DEV_NAME : string := "saradc".
Definition SARADC_CMD_MAGIC : Z := 0xe290000.
Definition SARADC_CMD_SET_MODE : Z := SARADC_CMD_MAGIC + 1.
Definition SARADC_CMD_SET_CHANNEL : Z := SARADC_CMD_MAGIC + 2.
Definition SARADC_CMD_SET_SAMPLE_RATE : Z := SARADC_CMD_MAGIC + 3.
Definition SARADC_CMD_SET_WAITING_TIME : Z := SARADC_CMD_MAGIC + 4.
Definition SARADC_CMD_SET_VALID_MODE : Z := SARADC_CMD_MAGIC + 5.
Definition SARADC_CMD_CLEAR_INT : Z := SARADC_CMD_MAGIC + 6.
Definition SARADC_CMD_SET_CLK_RATE : Z := SARADC_CMD_MAGIC + 7.
Definition SARADC_CMD_RUN_OR_STOP_ADC : Z := SARADC_CMD_MAGIC + 8.
Definition SARADC_CMD_SET_CAL_VAL : Z := SARADC_CMD_MAGIC + 9.
Definition SARADC_CMD_SET_BYPASS_CALIB : Z := SARADC_CMD_MAGIC + 10.
Definition SARADC_CMD_PAUSE : Z := SARADC_CMD_MAGIC + 11.
Definition SARADC_CMD_RESUME : Z := SARADC_CMD_MAGIC + 12.
Definition SARADC_CALIBRATE_LOW : Z := 0.
Definition SARADC_CALIBRATE_HIGH : Z := 1.
Definition ADC_CONFIG_MODE_CONTINUE : Z := 0x03.
Definition ADC_CONFIG_MODE_4CLK_DELAY : Z := 0x0.
Definition ADC_CONFIG_MODE_SHOULD_OFF : Z := Z.shiftl 1 3.
Definition PWD_SARADC_CLK_BIT : Z := Z.shiftl 1 7.
Definition IRQ_SARADC_BIT : Z := Z.shiftl 1 11.
Definition IRQ_SARADC : Z := 11.
Definition PRI_IRQ_SARADC : Z := 16.

(** A buffer and a handler are addresses, 0 the null pointer. *)
Record saradc_desc_t := SaradcDesc {
  pData : Z;
  current_sample_data_cnt : Z;
  current_read_data_cnt : Z;
  data_buff_size : Z;
  has_data : Z;
  all_done : Z;
  sd_channel : Z;
  sd_mode : Z;
  p_Int_Handler : Z;
  pre_div : Z;
  samp_rate : Z;
  sd_filter : Z;
}.
Record saradc_chan_t := SaradcChan { ch_enable : Z; ch_channel : Z }.
Record saradc_cal_val_t := SaradcCal { cal_val : Z; cal_mode : Z }.
Record saradc_calibrate_val := SaradcCalibrate { low : Z; high : Z }.

(** What the [void *] of a control command points to. *)
Inductive saradc_parm :=
  | SNull
  | SByte (b : Z)
  | SChan (c : saradc_chan_t)
  | SCal (c : saradc_cal_val_t).

(** The variables of the driver, and the objects of its callers. *)
Record saradc_vars := SaradcVars {
  saradc_desc : Z;
  saradc_val : saradc_calibrate_val;
  saradc_is_busy : Z;
  descs : gmap Z saradc_desc_t;
  buffers : gmap Z (list Z);
}.
Definition saradc_start : saradc_vars := SaradcVars 0 (SaradcCalibrate 0x55 0x354) 0 ∅ ∅.

Definition with_desc (p : Z) (v : saradc_vars) : saradc_vars := SaradcVars p (saradc_val v) (saradc_is_busy v) (descs v) (buffers v).
Definition with_val (c : saradc_calibrate_val) (v : saradc_vars) : saradc_vars := SaradcVars (saradc_desc v) c (saradc_is_busy v) (descs v) (buffers v).
Definition with_busy (b : Z) (v : saradc_vars) : saradc_vars := SaradcVars (saradc_desc v) (saradc_val v) b (descs v) (buffers v).
Definition with_descs (d : gmap Z saradc_desc_t) (v : saradc_vars) : saradc_vars := SaradcVars (saradc_desc v) (saradc_val v) (saradc_is_busy v) d (buffers v).
Definition with_buffers (b : gmap Z (list Z)) (v : saradc_vars) : saradc_vars := SaradcVars (saradc_desc v) (saradc_val v) (saradc_is_busy v) (descs v) b.

(** Assigning the members that the driver changes. *)
Definition desc_reset (d : saradc_desc_t) : saradc_desc_t :=
  SaradcDesc (pData d) 0 0 (data_buff_size d) 0 0 (sd_channel d) (sd_mode d) (p_Int_Handler d) (pre_div d) (samp_rate d) (sd_filter d).
Definition desc_stored (d : saradc_desc_t) : saradc_desc_t :=
  SaradcDesc (pData d) (u8 (current_sample_data_cnt d + 1)) (current_read_data_cnt d) (data_buff_size d) 1 (all_done d) (sd_channel d) (sd_mode d)
    (p_Int_Handler d) (pre_div d) (samp_rate d) (sd_filter d).
Definition desc_done (d : saradc_desc_t) : saradc_desc_t :=
  SaradcDesc (pData d) (current_sample_data_cnt d) (current_read_data_cnt d) (data_buff_size d) (has_data d) 1 (sd_channel d) (sd_mode d)
    (p_Int_Handler d) (pre_div d) (samp_rate d) (sd_filter d).
Definition desc_again (d : saradc_desc_t) : saradc_desc_t :=
  SaradcDesc (pData d) 0 (current_read_data_cnt d) (data_buff_size d) (has_data d) (all_done d) (sd_channel d) (sd_mode d)
    (p_Int_Handler d) (pre_div d) (samp_rate d) (sd_filter d).

(** [memset], then the default of each member. *)
Definition default_desc : saradc_desc_t :=
  SaradcDesc 0 0 0 0 0 0 1 (Z.lor ADC_CONFIG_MODE_CONTINUE (Z.lor (Z.shiftl ADC_CONFIG_MODE_4CLK_DELAY 2) ADC_CONFIG_MODE_SHOULD_OFF)) 0 0x10 0x20 0.

(** The configuration that [saradc_open] writes. *)
Definition open_config (d : saradc_desc_t) : Z :=
  Z.lor (Z.shiftl (Z.land (sd_mode d) SARADC_ADC_MODE_MASK) SARADC_ADC_MODE_POSI) (Z.lor SARADC_ADC_CHNL_EN
    (Z.lor (Z.shiftl (Z.land (sd_channel d) SARADC_ADC_CHNL_MASK) SARADC_ADC_CHNL_POSI)
    (Z.lor (Z.shiftl (Z.land (Z.shiftr (sd_mode d) 2) 0x01) SARADC_ADC_DELAY_CLK_POSI) (Z.lor SARADC_ADC_INT_CLR
    (Z.lor (Z.shiftl (Z.land (pre_div d) SARADC_ADC_PRE_DIV_MASK) SARADC_ADC_PRE_DIV_POSI)
    (Z.lor (Z.shiftl (Z.land (samp_rate d) SARADC_ADC_SAMPLE_RATE_MASK) SARADC_ADC_SAMPLE_RATE_POSI)
      (Z.shiftl (Z.land (sd_filter d) SARADC_ADC_FILTER_MASK) SARADC_ADC_FILTER_POSI))))))).
Definition open_saturation : Z := Z.lor SARADC_ADC_SAT_ENABLE (Z.shiftl (Z.land 0x03 SARADC_ADC_SAT_CTRL_MASK) SARADC_ADC_SAT_CTRL_POSI).

(** The switch of [saradc_gpio_config]. *)
Definition adc_function (channel : Z) : option Z :=
  if channel =? 1 then Some GFUNC_MODE_ADC1 else if channel =? 2 then Some GFUNC_MODE_ADC2
  else if channel =? 3 then Some GFUNC_MODE_ADC3 else if channel =? 4 then Some GFUNC_MODE_ADC4
  else if channel =? 5 then Some GFUNC_MODE_ADC5 else if channel =? 6 then Some GFUNC_MODE_ADC6
  else if channel =? 7 then Some GFUNC_MODE_ADC7 else None.

(** ** The registers and the variables *)
Section regs.
Context {S : Type} `{RegBus S, !Holds saradc_vars S} (fuel : nat).

(** [*p], and an assignment to members of [*p]. *)
Definition desc_at (p : Z) : M S saradc_desc_t :=
  m ← gets descs; if p =? 0 then fail BadAccess else lift_res (of_option BadAccess (m !! p)).
Definition desc_set (p : Z) (f : saradc_desc_t -> saradc_desc_t) : M S unit :=
  d ← desc_at p; sets (fun v => with_descs (<[p := f d]> (descs v)) v).
(** ... with the pointer [saradc_desc]. *)
Definition cur_desc : M S saradc_desc_t := p ← gets saradc_desc; desc_at p.
Definition cur_set (f : saradc_desc_t -> saradc_desc_t) : M S unit := p ← gets saradc_desc; desc_set p f.
(** [b[i] = x] on a buffer of 16-bit words. *)
Definition buffer_set (b i x : Z) : M S unit :=
  m ← gets buffers;
  match m !! b with
  | Some l => if (0 <=? i) && (i <? Z.of_nat (length l)) then sets (fun v => with_buffers (<[b := <[Z.to_nat i := x]> l]> (buffers v)) v)
              else fail BadAccess
  | None => fail BadAccess
  end.

(** [value = REG_READ(SARADC_ADC_CONFIG); ... ; REG_WRITE(SARADC_ADC_CONFIG, value);] *)
Definition cfg_update (f : Z -> Z) : M S unit := value ← REG_READ SARADC_ADC_CONFIG; REG_WRITE SARADC_ADC_CONFIG (f value).

(** The loops that read until the queue reports that it is empty; [value] is the configuration last read. *)
Fixpoint drain_loop (n : nat) (value : Z) : M S unit :=
  if truthy (Z.land value SARADC_ADC_FIFO_EMPTY) then mret tt
  else match n with
  | O => fail NoFuel
  | Datatypes.S n' =>
    _ ← REG_READ SARADC_ADC_DATA;
    _ ← REG_READ SARADC_ADC_DAT_AFTER_STA;
    value' ← REG_READ SARADC_ADC_CONFIG;
    drain_loop n' value'
  end.
Definition clear_fifo : M S unit := value ← REG_READ SARADC_ADC_CONFIG; drain_loop fuel value.

Fixpoint int_clr_loop (n : nat) : M S unit :=
  match n with
  | O => fail NoFuel
  | Datatypes.S n' =>
    cfg_update (fun value => Z.lor value SARADC_ADC_INT_CLR);;
    value ← REG_READ SARADC_ADC_CONFIG;
    if truthy (Z.land value SARADC_ADC_INT_CLR) then int_clr_loop n' else mret tt
  end.
Definition saradc_int_clr : M S unit := int_clr_loop fuel.

(** [value &= ~(MODE_MASK << MODE_POSI); value &= ~CHNL_EN; value |= INT_CLR;] *)
Definition stop_word (value : Z) : Z :=
  Z.lor (Z.ldiff (Z.ldiff value (Z.shiftl SARADC_ADC_MODE_MASK SARADC_ADC_MODE_POSI)) SARADC_ADC_CHNL_EN) SARADC_ADC_INT_CLR.
Definition saradc_flush : M S unit := cfg_update stop_word;; clear_fifo;; saradc_int_clr.

Definition saradc_pause : M S Z :=
  cfg_update (fun value => Z.lor (Z.ldiff value SARADC_ADC_CHNL_EN) SARADC_ADC_INT_CLR);;
  clear_fifo;; saradc_int_clr;;
  mret SARADC_SUCCESS.

Definition saradc_disable : M S unit := cfg_update (fun value => Z.ldiff value SARADC_ADC_CHNL_EN).
Definition saradc_check_busy : M S Z := b ← gets saradc_is_busy; mret (if b =? 1 then 1 else 0).

(** A field of the configuration: its mask, where it is, its new value (not masked). *)
Definition field_put (mask posi x value : Z) : Z := Z.lor (Z.ldiff value (Z.shiftl mask posi)) (Z.shiftl x posi).

Definition saradc_set_mode (mode : Z) : M S Z :=
  if 3 <? mode then mret SARADC_FAILURE
  else cfg_update (field_put SARADC_ADC_MODE_MASK SARADC_ADC_MODE_POSI mode);; mret SARADC_SUCCESS.

Definition saradc_set_channel (p_chan : saradc_chan_t) : M S Z :=
  cfg_update (fun value => if ch_enable p_chan =? 0 then Z.ldiff value SARADC_ADC_CHNL_EN
    else Z.lor (field_put SARADC_ADC_CHNL_MASK SARADC_ADC_CHNL_POSI (ch_channel p_chan) value) SARADC_ADC_CHNL_EN);;
  mret SARADC_SUCCESS.

Definition saradc_set_sample_rate (rate : Z) : M S Z :=
  if 3 <? rate then mret SARADC_FAILURE
  else cfg_update (field_put SARADC_ADC_SAMPLE_RATE_MASK SARADC_ADC_SAMPLE_RATE_POSI rate);; mret SARADC_SUCCESS.

Definition saradc_set_waiting_time (time : Z) : M S Z :=
  value ← REG_READ SARADC_ADC_CONFIG;
  let mode := Z.land value (Z.shiftl SARADC_ADC_MODE_MASK SARADC_ADC_MODE_POSI) in
  if (mode =? 0) || (mode =? 3) then mret SARADC_FAILURE
  else
    REG_WRITE SARADC_ADC_CONFIG (if time =? 0 then Z.ldiff value SARADC_ADC_SETTING else Z.lor value SARADC_ADC_SETTING);;
    mret SARADC_SUCCESS.

Definition saradc_set_valid_mode (mode : Z) : M S Z := mret SARADC_SUCCESS.

Definition saradc_set_clk_rate (rate : Z) : M S Z :=
  if SARADC_ADC_PRE_DIV_MASK <? rate then mret SARADC_FAILURE
  else cfg_update (field_put SARADC_ADC_PRE_DIV_MASK SARADC_ADC_PRE_DIV_POSI rate);; mret SARADC_SUCCESS.

Definition saradc_run_or_stop_adc (run_stop : Z) : M S Z :=
  cfg_update (fun value => if truthy run_stop then Z.lor value SARADC_ADC_CHNL_EN else Z.ldiff value SARADC_ADC_CHNL_EN);;
  mret SARADC_SUCCESS.

Definition saradc_set_calibrate_val (p_cal : saradc_cal_val_t) : M S Z :=
  if SARADC_CALIBRATE_LOW =? cal_mode p_cal then sets (fun v => with_val (SaradcCalibrate (cal_val p_cal) (high (saradc_val v))) v);; mret SARADC_SUCCESS
  else if SARADC_CALIBRATE_HIGH =? cal_mode p_cal then sets (fun v => with_val (SaradcCalibrate (low (saradc_val v)) (cal_val p_cal)) v);; mret SARADC_SUCCESS
  else mret SARADC_FAILURE.

Definition saradc_config_param_init (adc_config : Z) : M S unit := desc_set adc_config (fun _ => default_desc).

Definition saradc_check_accuracy : M S Z :=
  value ← REG_READ SARADC_ADC_SATURATION_CFG; mret (Z.land value SARADC_ADC_SAT_CTRL_MASK).

(** [*(UINT8 * )param], and the structures. *)
Definition sbyte (param : saradc_parm) : M S Z := match param with SByte b => mret b | _ => fail BadAccess end.
Definition schan (param : saradc_parm) : M S saradc_chan_t := match param with SChan c => mret c | _ => fail BadAccess end.
Definition scal (param : saradc_parm) : M S saradc_cal_val_t := match param with SCal c => mret c | _ => fail BadAccess end.

(** [saradc_isr]: a sample is stored, if there is room; whether the buffer is full now. *)
Definition take_sample (dac_val : Z) : M S bool :=
  d ← cur_desc;
  if current_sample_data_cnt d <? data_buff_size d then
    buffer_set (pData d) (current_sample_data_cnt d) dac_val;;
    cur_set desc_stored;;
    d' ← cur_desc;
    mret (current_sample_data_cnt d' =? data_buff_size d')
  else mret false.
End regs.

(** ** Over the registry and the interrupt table *)
Section system.
Context {W : Type} `{RegBus W, !Holds saradc_vars W, !Holds clock_vars W} (fuel : nat).
Abbreviation all := (drv_state (intc_st W)).
Context (sdev_ops : Z -> SDD_OPERATIONS (intc_st W)).
(** The addresses of [saradc_op] and [saradc_isr]. *)
Context (saradc_op saradc_isr_addr : Z).
(** [p_Int_Handler()]: the address called. *)
Context (call_handler : Z -> M all unit).

(** [sddev_control(ICU_DEV_NAME, cmd, &param)], its result unused. *)
Definition icu_do (cmd param : Z) : M all unit := _ ← sddev_control sdev_ops (Some ICU_DEV_NAME) cmd param; mret tt.
Definition saradc_enable_icu_config : M all unit := icu_do CMD_CLK_PWR_UP PWD_SARADC_CLK_BIT.
Definition saradc_disable_icu_config : M all unit := icu_do CMD_CLK_PWR_DOWN PWD_SARADC_CLK_BIT.
Definition saradc_enable_interrupt : M all unit := icu_do CMD_ICU_INT_ENABLE IRQ_SARADC_BIT.
Definition saradc_disable_interrupt : M all unit := icu_do CMD_ICU_INT_DISABLE IRQ_SARADC_BIT.

Definition saradc_gpio_config : M all unit :=
  d ← at_ext cur_desc;
  match adc_function (sd_channel d) with
  | Some param => _ ← sddev_control sdev_ops (Some GPIO_DEV_NAME) CMD_GPIO_ENABLE_SECOND param; mret tt
  | None => mret tt
  end.

Definition saradc_init : M all unit :=
  call (intc_service_register fuel IRQ_SARADC PRI_IRQ_SARADC saradc_isr_addr);;
  _ ← ddev_register_dev (Some SARADC_DEV_NAME) (Some saradc_op);
  at_ext (saradc_flush fuel).
Definition saradc_exit : M all unit := _ ← ddev_unregister_dev (Some SARADC_DEV_NAME); mret tt.

(** [op_flag] is the address of a descriptor. *)
Definition saradc_open (op_flag : Z) : M all Z :=
  d ← at_ext (desc_at op_flag);
  if (pData d =? 0) || (SARADC_ADC_CHNL_MAX <? sd_channel d) || (data_buff_size d =? 0) then mret SARADC_FAILURE
  else
    busy ← at_ext (gets saradc_is_busy);
    if negb (busy =? 0) then mret SARADC_FAILURE
    else
      at_ext (sets (with_busy 1));;
      saradc_enable_icu_config;;
      at_ext (sets (with_desc op_flag);; cur_set desc_reset);;
      saradc_gpio_config;;
      at_ext (
        clear_fifo fuel;; saradc_int_clr fuel;;
        d' ← cur_desc;
        REG_WRITE SARADC_ADC_CONFIG (open_config d');;
        REG_WRITE SARADC_ADC_SATURATION_CFG open_saturation);;
      saradc_enable_interrupt;;
      mret SARADC_SUCCESS.

Definition saradc_resume : M all Z :=
  saradc_enable_icu_config;;
  at_ext (
    clear_fifo fuel;; saradc_int_clr fuel;;
    cfg_update (fun value => Z.lor (Z.ldiff value SARADC_ADC_INT_CLR) SARADC_ADC_CHNL_EN);;
    cur_set desc_again);;
  saradc_enable_interrupt;;
  mret SARADC_SUCCESS.

Definition saradc_close : M all Z :=
  saradc_disable_interrupt;;
  at_ext (cfg_update stop_word;; clear_fifo fuel;; saradc_int_clr fuel);;
  saradc_disable_icu_config;;
  at_ext (sets (with_busy 0));;
  mret SARADC_SUCCESS.

Definition saradc_ensure_close : M all unit :=
  d ← at_ext cur_desc;
  when (truthy (Z.land (sd_mode d) ADC_CONFIG_MODE_SHOULD_OFF)) (_ ← saradc_close; mret tt).

Definition saradc_ctrl (cmd : Z) (param : saradc_parm) : M all Z :=
  at_ext peri_busy_count_add;;
  ret ← (if cmd =? SARADC_CMD_SET_MODE then at_ext (b ← sbyte param; saradc_set_mode b)
         else if cmd =? SARADC_CMD_SET_CHANNEL then at_ext (c ← schan param; saradc_set_channel c)
         else if cmd =? SARADC_CMD_SET_SAMPLE_RATE then at_ext (b ← sbyte param; saradc_set_sample_rate b)
         else if cmd =? SARADC_CMD_SET_WAITING_TIME then at_ext (b ← sbyte param; saradc_set_waiting_time b)
         else if cmd =? SARADC_CMD_SET_VALID_MODE then at_ext (b ← sbyte param; saradc_set_valid_mode b)
         else if cmd =? SARADC_CMD_CLEAR_INT then at_ext (saradc_int_clr fuel);; mret SARADC_SUCCESS
         else if cmd =? SARADC_CMD_SET_CLK_RATE then at_ext (b ← sbyte param; saradc_set_clk_rate b)
         else if cmd =? SARADC_CMD_RUN_OR_STOP_ADC then at_ext (b ← sbyte param; saradc_run_or_stop_adc b)
         else if cmd =? SARADC_CMD_SET_CAL_VAL then at_ext (c ← scal param; saradc_set_calibrate_val c)
         else if cmd =? SARADC_CMD_PAUSE then at_ext (saradc_pause fuel)
         else if cmd =? SARADC_CMD_RESUME then saradc_resume
         else mret SARADC_FAILURE);
  at_ext peri_busy_count_dec;;
  mret ret.

(** The loop of the interrupt routine; [value] is the configuration last read. *)
Fixpoint isr_loop (n : nat) (value : Z) : M all unit :=
  if truthy (Z.land value SARADC_ADC_FIFO_EMPTY) then mret tt
  else match n with
  | O => fail NoFuel
  | Datatypes.S n' =>
    full ← at_ext (v ← REG_READ SARADC_ADC_DAT_AFTER_STA; take_sample (Z.land v 0xFFFF));
    when full (_ ← saradc_close; mret tt);;
    value' ← at_ext (REG_READ SARADC_ADC_CONFIG);
    isr_loop n' value'
  end.

Definition saradc_isr : M all unit :=
  value ← at_ext (REG_READ SARADC_ADC_CONFIG);
  isr_loop fuel value;;
  d ← at_ext cur_desc;
  when (data_buff_size d <=? current_sample_data_cnt d) (
    at_ext (cur_set desc_done);;
    d' ← at_ext cur_desc;
    when (truthy (p_Int_Handler d')) (call_handler (p_Int_Handler d')));;
  at_ext (saradc_int_clr fuel).
End system.
