(* ===== verification/SaradcCorrect.v ===== *)
(** * Correctness of the analogue-to-digital converter

    Opening gives the converter to one caller, with its channel, rates, pin,
    clock and interrupt; interrupts store the samples in the caller's buffer in
    the order they were taken, close the converter with the last one and call the
    handler; closing stops it and empties its queue. *)
From stdpp Require Import strings gmap.
From S2P Require Import Prelude DrvModel Icu Regs Intc Stack Gpio GpioCorrect GpioStack Clock SaradcHw Saradc.
Local Open Scope Z_scope.

#[export] Instance icu_apart_adc : Apart in_icu in_adc.
Proof. intros a. unfold in_icu, in_adc, SARADC_BASE, ICU_ARM_WAKEUP_EN, ICU_BASE. bdestr; lia. Qed.
#[export] Instance adc_apart_icu : Apart in_adc in_icu.
Proof. intros a. unfold in_icu, in_adc, SARADC_BASE, ICU_ARM_WAKEUP_EN, ICU_BASE. bdestr; lia. Qed.
#[export] Instance gpio_apart_adc : Apart in_gpio in_adc.
Proof. intros a. unfold in_gpio, in_adc, SARADC_BASE, GPIO_BASE_ADDR, REG_GPIO_INTSTA2, GPIO_BASE_ADDR. bdestr; lia. Qed.
#[export] Instance adc_apart_gpio : Apart in_adc in_gpio.
Proof. intros a. unfold in_gpio, in_adc, SARADC_BASE, GPIO_BASE_ADDR, REG_GPIO_INTSTA2, GPIO_BASE_ADDR. bdestr; lia. Qed.

(** ** The registers *)
Section regs_facts.
Context {W : Type} `{RegBus W, !AdcSpec W}.
Implicit Types w : W.

Lemma empty_bit v : truthy (Z.land v SARADC_ADC_FIFO_EMPTY) = Z.testbit v 30.
Proof using Type. by apply truthy_bit. Qed.
Lemma clr_bit v : truthy (Z.land v SARADC_ADC_INT_CLR) = Z.testbit v 8.
Proof using Type. by apply truthy_bit. Qed.

(** Time passing leaves a channel that is off as it is. *)
Lemma passes_off q (l l' : adc_line) : passes_with q l l' -> enabled l = false -> a_fifo l' = q /\ enabled l' = false.
Proof using Type.
  intros ((n & F & _ & D) & _ & G & _) He. rewrite F, D, app_nil_r by done. split; [done|]. unfold enabled. by rewrite G.
Qed.
Lemma passes_came q (l l' : adc_line) : passes_with q l l' -> enabled l = false -> a_came l' = a_came l.
Proof using Type. intros ((n & _ & A & D) & _) He. by rewrite A, D, app_nil_r. Qed.

(** A read of the configuration, a change of it, a write: [k] is the change of what the unit keeps. *)
Definition cfg_changed (k : Z -> Z) w w' : Prop :=
  adc_ok w' /\ a_cfg (adc_of w') = k (a_cfg (adc_of w)) /\ a_sat (adc_of w') = a_sat (adc_of w) /\ (a_clr (adc_of w') <= a_clr (adc_of w))%nat /\
  exists new, a_fifo (adc_of w') = a_fifo (adc_of w) ++ new /\ a_came (adc_of w') = a_came (adc_of w) ++ new /\
    (enabled (adc_of w) = false -> new = []).

Lemma cfg_update_val f k w : adc_ok w -> (forall v, is_u32 v -> is_u32 (f v)) -> (forall v, Z.ldiff (f v) adc_status = k (Z.ldiff v adc_status)) ->
  exists w', cfg_update f w = Val (tt, w') /\ cfg_changed k w w'.
Proof using Type.
  intros Hok Hu Hk. destruct (adc_read_cfg w Hok) as (v & w1 & E1 & Hok1 & Hv & _ & _ & Hc & (n & F & A & D) & C & G & S).
  destruct (adc_write_cfg w1 (f v) Hok1 (Hu v Hv)) as (Hok2 & G2 & F2 & S2 & A2 & C2). exists (bus_write SARADC_ADC_CONFIG (f v) w1). unfold cfg_changed. split_and!.
  - unfold cfg_update. by mstep by (unfold REG_READ; by rewrite E1).
  - done.
  - by rewrite G2, Hk, Hc.
  - congruence.
  - destruct (Z.testbit (f v) 8); lia.
  - exists n. split_and!; [congruence|congruence|done].
Qed.

(** The loops that empty the queue. *)
Lemma drain_val n value w : adc_ok w -> enabled (adc_of w) = false -> (length (a_fifo (adc_of w)) <= n)%nat ->
  Z.testbit value 30 = bool_decide (a_fifo (adc_of w) = []) ->
  exists w', drain_loop n value w = Val (tt, w') /\ adc_ok w' /\ a_fifo (adc_of w') = [] /\ (a_clr (adc_of w') <= a_clr (adc_of w))%nat /\
    a_cfg (adc_of w') = a_cfg (adc_of w) /\ a_sat (adc_of w') = a_sat (adc_of w) /\ a_came (adc_of w') = a_came (adc_of w).
Proof using Type.
  revert value w. induction n as [|n IH]; intros value w Hok Hoff Hlen Hb; cbn [drain_loop]; rewrite empty_bit, Hb.
  { destruct (a_fifo (adc_of w)) eqn:E; [|cbn in Hlen; lia]. rewrite bool_decide_true by done. exists w. split_and!; [done|done|done|lia|done..]. }
  case_bool_decide as He; [exists w; split_and!; [done|done|done|lia|done..]|].
  destruct (adc_read_data w Hok) as (v1 & w1 & E1 & Hok1 & q & Hq & P1). destruct (passes_off _ _ _ P1 Hoff) as [F1 Hoff1].
  pose proof (passes_came _ _ _ P1 Hoff) as A1. destruct P1 as (_ & C1 & G1 & S1). destruct (adc_read_sample w1 Hok1) as (v2 & w2 & E2 & Hok2 & _ & P2).
  destruct (passes_off _ _ _ P2 Hoff1) as [F2 Hoff2]. pose proof (passes_came _ _ _ P2 Hoff1) as A2. destruct P2 as (_ & C2 & G2 & S2).
  destruct (adc_read_cfg w2 Hok2) as (v3 & w3 & E3 & Hok3 & _ & B3 & _ & _ & P3).
  destruct (passes_off _ _ _ P3 Hoff2) as [F3 Hoff3]. pose proof (passes_came _ _ _ P3 Hoff2) as A3. destruct P3 as (_ & C3 & G3 & S3).
  assert (Hl : (length (a_fifo (adc_of w2)) <= n)%nat).
  { rewrite F2, F1. destruct (a_fifo (adc_of w)) as [|x l]; [done|]. cbn in Hlen. destruct Hq as [-> | ->]; [cbn; lia|]. destruct l; cbn in *; lia. }
  destruct (IH v3 w3 Hok3 Hoff3 ltac:(by rewrite F3) ltac:(by rewrite B3, F3)) as (w' & E' & Hok' & F' & C' & G' & S' & A').
  exists w'. split_and!; [|done|done|lia|congruence|congruence|congruence].
  mstep by (unfold REG_READ; by rewrite E1). mstep by (unfold REG_READ; by rewrite E2). mstep by (unfold REG_READ; by rewrite E3). exact E'.
Qed.

Lemma clear_fifo_val fuel w : adc_ok w -> enabled (adc_of w) = false -> (adc_depth (hw := W) <= fuel)%nat ->
  exists w', clear_fifo fuel w = Val (tt, w') /\ adc_ok w' /\ a_fifo (adc_of w') = [] /\ (a_clr (adc_of w') <= a_clr (adc_of w))%nat /\
    a_cfg (adc_of w') = a_cfg (adc_of w) /\ a_sat (adc_of w') = a_sat (adc_of w) /\ a_came (adc_of w') = a_came (adc_of w).
Proof using Type.
  intros Hok Hoff Hf. destruct (adc_read_cfg w Hok) as (v & w1 & E1 & Hok1 & _ & B & _ & _ & P).
  destruct (passes_off _ _ _ P Hoff) as [F Hoff1]. pose proof (passes_came _ _ _ P Hoff) as A. destruct P as (_ & C & G & S). destruct (adc_bounds w Hok) as (Hl & _).
  destruct (drain_val fuel v w1 Hok1 Hoff1 ltac:(rewrite F; lia) ltac:(by rewrite B, F)) as (w' & E & Hok' & F' & C' & G' & S' & A').
  exists w'. split_and!; [|done|done|lia|congruence|congruence|congruence]. unfold clear_fifo. mstep by (unfold REG_READ; by rewrite E1). exact E.
Qed.

Lemma clr_word v : Z.ldiff (Z.lor v SARADC_ADC_INT_CLR) adc_status = Z.ldiff v adc_status.
Proof using Type. assert (E : Z.ldiff SARADC_ADC_INT_CLR adc_status = 0) by done. revert E. generalize SARADC_ADC_INT_CLR, adc_status. intros a b E. word_bits. Qed.

Lemma int_clr_val n w : adc_ok w -> (a_clr (adc_of w) < n)%nat ->
  exists w', int_clr_loop n w = Val (tt, w') /\ adc_ok w' /\ time_passes (adc_of w) (adc_of w').
Proof using Type.
  revert w. induction n as [|n IH]; intros w Hok Hn; [lia|].
  destruct (adc_read_cfg w Hok) as (v & w1 & E1 & Hok1 & Hv & _ & _ & Hc & P1).
  assert (Hu : is_u32 (Z.lor v SARADC_ADC_INT_CLR)) by (by apply lor_u32).
  destruct (adc_write_cfg w1 _ Hok1 Hu) as (Hok2 & G2 & F2 & S2 & A2 & C2). set (w2 := bus_write SARADC_ADC_CONFIG (Z.lor v SARADC_ADC_INT_CLR) w1) in *.
  assert (Hb : Z.testbit (Z.lor v SARADC_ADC_INT_CLR) 8 = true) by (rewrite Z.lor_spec; apply orb_true_r). rewrite Hb in C2.
  assert (P2 : time_passes (adc_of w) (adc_of w2)).
  { destruct P1 as ((q & F & A & D) & C & G & S). split_and!; [exists q; split_and!; [congruence|congruence|done]|lia| |congruence]. by rewrite G2, clr_word, Hc. }
  destruct (adc_read_cfg w2 Hok2) as (v3 & w3 & E3 & Hok3 & _ & _ & B3 & _ & P3).
  assert (Hstep : cfg_update (fun value => Z.lor value SARADC_ADC_INT_CLR) w = Val (tt, w2))
    by (unfold cfg_update; by mstep by (unfold REG_READ; by rewrite E1)).
  assert (P13 : time_passes (adc_of w) (adc_of w3)) by (by eapply time_passes_trans).
  assert (Hrun : int_clr_loop (Datatypes.S n) w = (if Z.testbit v3 8 then int_clr_loop n else mret tt) w3).
  { cbn [int_clr_loop]. rewrite (bind_ret_val _ _ _ _ _ Hstep). mstep by (unfold REG_READ; by rewrite E3). by rewrite clr_bit. }
  destruct (Z.testbit v3 8) eqn:E8; [|by exists w3; rewrite Hrun].
  destruct P1 as (_ & C1 & _), P3 as (_ & C3 & _).
  assert (Hne : a_clr (adc_of w2) <> 0%nat) by (symmetry in B3; apply negb_true_iff, bool_decide_eq_false in B3; done).
  destruct (IH w3 Hok3 ltac:(lia)) as (w' & E' & Hok' & P'). exists w'. split_and!; [by rewrite Hrun|done|by eapply time_passes_trans].
Qed.

Lemma saradc_int_clr_val fuel w : adc_ok w -> (adc_clr_max (hw := W) < fuel)%nat ->
  exists w', saradc_int_clr fuel w = Val (tt, w') /\ adc_ok w' /\ time_passes (adc_of w) (adc_of w').
Proof using Type. intros Hok Hf. apply int_clr_val; [done|]. destruct (adc_bounds w Hok) as (_ & Hc & _). lia. Qed.
End regs_facts.

(** ** Beside the converter *)
Section beside.
Context {W : Type} `{RegBus W, !IcuRegs W, !GpioRegs W, !AdcSpec W, !Holds saradc_vars W, !Quiet saradc_vars W}.
Implicit Types w : W.

Definition avars w : saradc_vars := hget w.

(** What the accesses to the converter leave as it is, and what the accesses to the other two units do. *)
Record beside w w' : Prop := {
  bs_vars : avars w' = avars w;
  bs_icu b : ireg w' b = ireg w b;
  bs_pins b : gsoft w' b = gsoft w b;
}.
Definition adc_waits w w' : Prop := (adc_ok w -> adc_ok w' /\ time_passes (adc_of w) (adc_of w')) /\ avars w' = avars w.

Lemma beside_respects : respects in_adc beside.
Proof using Quiet0.
  pose proof (respects_and in_adc _ _ (respects_vars (W := W) saradc_vars in_adc)
    (respects_and in_adc _ _ (respects_icu (W := W) in_adc) (respects_soft (W := W) gpio_block in_adc))) as [r t a w].
  split.
  - by split.
  - intros w1 w2 w3 [A1 B1 C1] [A2 B2 C2]. by destruct (t w1 w2 w3) as (A & B & C).
  - intros b x Hb. by destruct (a b x Hb) as (A & B & C).
  - intros b v x Hb. by destruct (w b v x Hb) as (A & B & C).
Qed.
#[export] Instance beside_trans : Transitive beside.
Proof using Quiet0. exact (res_trans _ _ beside_respects). Qed.

Lemma waits_respects P `{!Apart P in_adc} : respects P adc_waits.
Proof using Quiet0.
  refine (respects_and P _ _ _ (respects_vars (W := W) saradc_vars P)). split.
  - intros w Hok. split; [done|apply time_passes_refl].
  - intros w1 w2 w3 H1 H2 Hok. destruct (H1 Hok) as [Hok1 T1], (H2 Hok1) as [Hok2 T2]. split; [done|by eapply time_passes_trans].
  - intros a w Ha Hok. by apply adc_read_other, apart.
  - intros a v w Ha Hok. by apply adc_write_other, apart.
Qed.

(** What a command accesses. *)
Lemma touches_cfg_update f : touches (id : W -> W) in_adc (cfg_update f).
Proof using Type. unfold cfg_update. touch. Qed.
Lemma touches_drain n value : touches (id : W -> W) in_adc (drain_loop n value).
Proof using Type. revert value. induction n as [|n IH]; intros value; cbn [drain_loop]; touch. Qed.
Lemma touches_clear_fifo fuel : touches (id : W -> W) in_adc (clear_fifo fuel).
Proof using Type. unfold clear_fifo. touch. apply touches_drain. Qed.
Lemma touches_int_clr fuel : touches (id : W -> W) in_adc (saradc_int_clr fuel).
Proof using Type.
  unfold saradc_int_clr. induction fuel as [|n IH]; cbn [int_clr_loop]; touch. apply touches_cfg_update.
Qed.
Lemma adc_beside (m : M W unit) w w' : touches (id : W -> W) in_adc m -> m w = Val (tt, w') -> beside w w'.
Proof using Quiet0. intros Hm E. exact (Hm _ beside_respects w tt w' E). Qed.

(** The bounds of the fuel: the depth of the queue, and the requests of the clear bit. *)
Definition enough (fuel : nat) : Prop := (adc_depth (hw := W) <= fuel)%nat /\ (adc_clr_max (hw := W) < fuel)%nat.

(** The history grows. *)
Definition came_more w w' : Prop := exists new, a_came (adc_of w') = a_came (adc_of w) ++ new.

(** The converter is off, with an empty queue. *)
Definition stopped w : Prop := adc_ok w /\ enabled (adc_of w) = false /\ a_fifo (adc_of w) = [].

(** A change of the configuration that turns the channel off, then the queue and the interrupt are cleared. *)
Lemma halt_val f k fuel w : adc_ok w -> enough fuel -> (forall v, is_u32 v -> is_u32 (f v)) ->
  (forall v, Z.ldiff (f v) adc_status = k (Z.ldiff v adc_status)) -> (forall c, Z.testbit (k c) 2 = false) ->
  exists w', (cfg_update f;; clear_fifo fuel;; saradc_int_clr fuel) w = Val (tt, w') /\ stopped w' /\
    a_cfg (adc_of w') = k (a_cfg (adc_of w)) /\ a_sat (adc_of w') = a_sat (adc_of w) /\ came_more w w' /\ beside w w'.
Proof using Quiet0.
  intros Hok [Hf1 Hf2] Hu Hk Hoff. destruct (cfg_update_val f k w Hok Hu Hk) as (w1 & E1 & Hok1 & G1 & S1 & _ & new & _ & A1 & _).
  assert (Hoff1 : enabled (adc_of w1) = false) by (unfold enabled; by rewrite G1).
  destruct (clear_fifo_val fuel w1 Hok1 Hoff1 Hf1) as (w2 & E2 & Hok2 & F2 & _ & G2 & S2 & A2).
  assert (Hoff2 : enabled (adc_of w2) = false) by (unfold enabled; by rewrite G2, G1).
  destruct (saradc_int_clr_val fuel w2 Hok2 Hf2) as (w3 & E3 & Hok3 & P3).
  destruct (passes_off _ _ _ P3 Hoff2) as [F3 Hoff3]. pose proof (passes_came _ _ _ P3 Hoff2) as A3. destruct P3 as (_ & _ & G3 & S3). exists w3. split_and!.
  - rewrite (bind_ret_val _ _ _ _ _ E1), (bind_ret_val _ _ _ _ _ E2). exact E3.
  - unfold stopped. split_and!; [done|done|congruence].
  - congruence.
  - congruence.
  - exists new. congruence.
  - transitivity w1; [|transitivity w2]; [exact (adc_beside _ _ _ (touches_cfg_update f) E1)|exact (adc_beside _ _ _ (touches_clear_fifo fuel) E2)|
      exact (adc_beside _ _ _ (touches_int_clr fuel) E3)].
Qed.

(** [stop_word] keeps the fields but the mode and the enable bit. *)
Lemma stop_word_kept v : Z.ldiff (stop_word v) adc_status = Z.ldiff (Z.ldiff v adc_status) 7.
Proof using Type.
  unfold stop_word. assert (E1 : Z.ldiff SARADC_ADC_INT_CLR adc_status = 0) by done.
  assert (E2 : Z.lor (Z.shiftl SARADC_ADC_MODE_MASK SARADC_ADC_MODE_POSI) SARADC_ADC_CHNL_EN = 7) by done. rewrite <- E2. clear E2. revert E1.
  generalize SARADC_ADC_INT_CLR, adc_status, (Z.shiftl SARADC_ADC_MODE_MASK SARADC_ADC_MODE_POSI), SARADC_ADC_CHNL_EN. intros a b c d E. word_bits.
Qed.
Lemma stop_word_u32 v : is_u32 v -> is_u32 (stop_word v).
Proof using Type. intros Hv. unfold stop_word. apply lor_u32; [|done]. by do 2 apply ldiff_u32. Qed.

Lemma stop_val fuel w : adc_ok w -> enough fuel -> exists w', (cfg_update stop_word;; clear_fifo fuel;; saradc_int_clr fuel) w = Val (tt, w') /\
  stopped w' /\ a_cfg (adc_of w') = Z.ldiff (a_cfg (adc_of w)) 7 /\ a_sat (adc_of w') = a_sat (adc_of w) /\ came_more w w' /\ beside w w'.
Proof using Quiet0.
  intros Hok Hf. apply (halt_val stop_word (fun c => Z.ldiff c 7)); [done|done|exact stop_word_u32|exact stop_word_kept|].
  intros c. rewrite Z.ldiff_spec. by rewrite andb_false_r.
Qed.
End beside.
Arguments enough W {_ _} fuel : assert.

(** ** From the top of the stack *)
Section system.
Context {W : Type} `{RegBus W, !IcuRegs W, !GpioRegs W, !AdcSpec W, !Holds saradc_vars W, !Quiet saradc_vars W, !AdcPut saradc_vars W, !Holds clock_vars W}.
Abbreviation all := (drv_state (intc_st W)).
Context (sdev_ops : Z -> SDD_OPERATIONS (intc_st W)) (icu_addr gpio_addr : Z) (fuel : nat).
Implicit Types (s : all) (w : W).


Definition adc_drivers s : Prop :=
  icu_behind sdev_ops icu_addr /\ sdev_slot (drv_sdev_tbl s) ICU_DEV_NAME icu_addr /\
  gpio_behind sdev_ops gpio_addr /\ sdev_slot (drv_sdev_tbl s) GPIO_DEV_NAME gpio_addr.
Lemma adc_drivers_world s w : adc_drivers s -> adc_drivers (with_world s w).
Proof using Type. done. Qed.

(** Switching bits of the interrupt unit. *)
Lemma icu_do_val (set : bool) on off r p s : adc_drivers s -> (on, off, r) ∈ icu_pairs -> adc_ok (at_world s) ->
  exists w, icu_do sdev_ops (if set then on else off) p s = Val (tt, with_world s w) /\
    (forall b, ireg w b = if b =? r then (if set then Z.lor else Z.ldiff) (ireg (at_world s) r) p else ireg (at_world s) b) /\
    adc_ok w /\ time_passes (adc_of (at_world s)) (adc_of w) /\ avars w = avars (at_world s) /\ forall b, gsoft w b = gsoft (at_world s) b.
Proof using Quiet0.
  intros (Hi & Hs & _) Hp Hok.
  assert (Hrun : exists w, sddev_control sdev_ops (Some ICU_DEV_NAME) (if set then on else off) p s = Val ((ICU_SUCCESS, p), with_world s w) /\
    icu_ctrl (if set then on else off) (Some p) (at_world s) = Val (ICU_SUCCESS, w) /\
    forall b, ireg w b = if b =? r then (if set then Z.lor else Z.ldiff) (ireg (at_world s) r) p else ireg (at_world s) b).
  { destruct set; [by apply (icu_set sdev_ops icu_addr on off)|by apply (icu_clear sdev_ops icu_addr on off)]. }
  destruct Hrun as (w & E & Ei & I). exists w.
  destruct (icu_touches _ _ _ (waits_respects in_icu) _ _ _ Ei) as [K V]. destruct (K Hok) as [Hok' T].
  pose proof (icu_touches _ _ _ (respects_soft (W := W) gpio_block in_icu) _ _ _ Ei) as P.
  split_and!; [unfold icu_do; by mstep by exact E|done|done|done|done|exact P].
Qed.

Lemma clock_pair : (CMD_CLK_PWR_DOWN, CMD_CLK_PWR_UP, ICU_PERI_CLK_PWD) ∈ icu_pairs.
Proof using Type. by apply (list_elem_of_lookup_2 _ 1). Qed.
Lemma line_pair : (CMD_ICU_INT_ENABLE, CMD_ICU_INT_DISABLE, ICU_INTERRUPT_ENABLE) ∈ icu_pairs.
Proof using Type. by apply (list_elem_of_lookup_2 _ 4). Qed.

(** Assigning the variables changes nothing else. *)
Lemma adc_vars_put (x : saradc_vars) w : avars (hput x w) = x /\ (forall b, in_icu b = true -> ireg (hput x w) b = ireg w b) /\
  (forall b, in_gpio b = true -> gsoft (hput x w) b = gsoft w b).
Proof using Quiet0.
  split_and!; [apply hget_put| |]; intros b Hb; [by apply ireg_put|]. unfold Regs.soft, soft_of. by rewrite breg_put.
Qed.

(** Closing: the converter is off and its queue empty, the interrupt is disabled,
    the clock switched off, the converter free; the descriptor stays. *)
Record closed w w' : Prop := {
  cl_stopped : stopped w';
  cl_cfg : a_cfg (adc_of w') = Z.ldiff (a_cfg (adc_of w)) 7;
  cl_sat : a_sat (adc_of w') = a_sat (adc_of w);
  cl_came : came_more w w';
  cl_vars : avars w' = with_busy 0 (avars w);
  cl_icu b : in_icu b = true -> ireg w' b = if b =? ICU_INTERRUPT_ENABLE then Z.ldiff (ireg w b) IRQ_SARADC_BIT
    else if b =? ICU_PERI_CLK_PWD then Z.lor (ireg w b) PWD_SARADC_CLK_BIT else ireg w b;
  cl_pins b : in_gpio b = true -> gsoft w' b = gsoft w b;
}.

Lemma close_val s : adc_drivers s -> adc_ok (at_world s) -> enough W fuel ->
  exists w, saradc_close fuel sdev_ops s = Val (SARADC_SUCCESS, with_world s w) /\ closed (at_world s) w.
Proof using Quiet0 AdcPut0.
  intros Hd Hok Hf. unfold saradc_close, saradc_disable_interrupt, saradc_disable_icu_config.
  destruct (icu_do_val false _ _ _ IRQ_SARADC_BIT s Hd line_pair Hok) as (w1 & E1 & I1 & Hok1 & T1 & V1 & P1).
  destruct (stop_val fuel w1 Hok1 Hf) as (w2 & E2 & (Hok2 & Hoff2 & F2) & G2 & S2 & (n2 & A2) & [V2 I2 P2]).
  destruct (icu_do_val true _ _ _ PWD_SARADC_CLK_BIT (with_world s w2) Hd clock_pair Hok2) as (w3 & E3 & I3 & Hok3 & T3 & V3 & P3).
  destruct (passes_off _ _ _ T3 Hoff2) as [F3 Hoff3]. pose proof (passes_came _ _ _ T3 Hoff2) as A3.
  destruct T1 as ((n1 & _ & A1 & _) & _ & G1 & S1), T3 as (_ & _ & G3 & S3).
  cbn [at_world ext world with_world] in *. destruct (adc_vars_put (with_busy 0 (avars w3)) w3) as (V4 & I4 & P4).
  exists (hput (with_busy 0 (avars w3)) w3). split.
  - rewrite (bind_ret_val _ _ _ _ _ E1), (bind_ret_val _ _ _ _ _ (at_ext_val _ (with_world s w1) _ _ E2)).
    rewrite (bind_ret_val _ _ _ _ _ E3). by mstep by reflexivity.
  - split.
    + split_and!; [by apply adc_put_ok|by rewrite adc_put|rewrite adc_put; unfold at_world in *; cbn in F3; congruence].
    + rewrite adc_put. unfold at_world in *. cbn in *. congruence.
    + rewrite adc_put. unfold at_world in *. cbn in *. congruence.
    + exists (n1 ++ n2). rewrite adc_put. unfold at_world in *. cbn in *. by rewrite A3, A2, A1, (assoc_L (++)).
    + rewrite V4, V3. unfold at_world. cbn. by rewrite V2, V1.
    + intros b Hb. rewrite I4, I3 by done. unfold at_world. cbn. rewrite !I2, !I1.
      destruct (Z.eqb_spec b ICU_PERI_CLK_PWD) as [->|]; [done|]. by destruct (Z.eqb_spec b ICU_INTERRUPT_ENABLE) as [->|].
    + intros b Hb. rewrite P4, P3 by done. unfold at_world. cbn. by rewrite P2, P1.
Qed.

(** *** The descriptors *)
Lemma desc_at_val p d w : p <> 0 -> descs (avars w) !! p = Some d -> desc_at p w = Val (d, w).
Proof using Type. intros Hp E. unfold desc_at. mstep by reflexivity. rewrite (proj2 (Z.eqb_neq _ _)) by done. unfold lift_res, avars in *. by rewrite E. Qed.
Lemma desc_set_val p d f w : p <> 0 -> descs (avars w) !! p = Some d ->
  desc_set p f w = Val (tt, hput (with_descs (<[p := f d]> (descs (avars w))) (avars w)) w).
Proof using Type. intros Hp E. unfold desc_set. by rewrite (bind_ret_val _ _ _ _ _ (desc_at_val p d w Hp E)). Qed.
Lemma cur_desc_val d w : saradc_desc (avars w) <> 0 -> descs (avars w) !! saradc_desc (avars w) = Some d -> cur_desc w = Val (d, w).
Proof using Type. intros Hp E. unfold cur_desc. mstep by reflexivity. by apply desc_at_val. Qed.
Lemma cur_set_val d f w : saradc_desc (avars w) <> 0 -> descs (avars w) !! saradc_desc (avars w) = Some d ->
  cur_set f w = Val (tt, hput (with_descs (<[saradc_desc (avars w) := f d]> (descs (avars w))) (avars w)) w).
Proof using Type. intros Hp E. unfold cur_set. mstep by reflexivity. by apply desc_set_val. Qed.

(** *** Opening *)

(** The pin of a channel, if it has one, and its function there. *)
Definition adc_pin (ch : Z) : option (Z * Z) :=
  if ch =? 1 then Some (4, PERIAL_MODE_2) else if ch =? 2 then Some (5, PERIAL_MODE_2) else if ch =? 3 then Some (23, PERIAL_MODE_1)
  else if ch =? 4 then Some (3, PERIAL_MODE_2) else if ch =? 5 then Some (2, PERIAL_MODE_2) else if ch =? 6 then Some (12, PERIAL_MODE_2)
  else if ch =? 7 then Some (13, PERIAL_MODE_2) else None.
Definition pin_given (ch : Z) (g g' : Z -> Z) : Prop :=
  match adc_pin ch with
  | Some (i, pm) => pins_set (fun j => j =? i) 0x48 pm g g'
  | None => forall b, g' b = g b
  end.

Lemma adc_pin_function ch : match adc_function ch, adc_pin ch with
  | Some m, Some (i, pm) => (m, pins i i pm) ∈ second_functions /\ m <> GFUNC_MODE_DCMI
  | None, None => True
  | _, _ => False end.
Proof using Type.
  unfold adc_function, adc_pin. repeat (destruct (ch =? _); [split; [apply (bool_decide_unpack _); by vm_compute|done]|]). done.
Qed.

Lemma gpio_config_val d s : adc_drivers s -> saradc_desc (avars (at_world s)) <> 0 ->
  descs (avars (at_world s)) !! saradc_desc (avars (at_world s)) = Some d -> adc_ok (at_world s) ->
  exists w, saradc_gpio_config sdev_ops s = Val (tt, with_world s w) /\ pin_given (sd_channel d) (gsoft (at_world s)) (gsoft w) /\
    adc_ok w /\ time_passes (adc_of (at_world s)) (adc_of w) /\ avars w = avars (at_world s) /\ forall b, ireg w b = ireg (at_world s) b.
Proof using Quiet0.
  intros (_ & _ & Hg & Hs) Hp Hd Hok. unfold saradc_gpio_config.
  assert (Hsame : with_world s (at_world s) = s) by (by destruct s as [? ? []]).
  pose proof (at_ext_val _ _ _ _ (cur_desc_val d (at_world s) Hp Hd)) as Ec. rewrite Hsame in Ec. rewrite (bind_ret_val _ _ _ _ _ Ec).
  pose proof (adc_pin_function (sd_channel d)) as Hf. unfold pin_given. destruct (adc_function (sd_channel d)) as [m|], (adc_pin (sd_channel d)) as [[i pm]|]; try done.
  - destruct Hf as [Hin Hm]. destruct (gpio_second sdev_ops gpio_addr m _ s Hg Hs Hin eq_refl) as (v & w & Hv & E & Ew & P). injection Hv as <-.
    destruct (function_touches m _ (waits_respects in_gpio) _ _ _ Ew) as [K V]. destruct (K Hok) as [Hok' T].
    pose proof (function_touches m _ (respects_icu (W := W) in_gpio) _ _ _ Ew) as I.
    exists w. split_and!; [by mstep by exact E| |done|done|done|exact I]. eapply pins_set_ext; [|exact P].
    intros j. unfold function_pins. cbn [start_index end_index pins]. rewrite (proj2 (Z.eqb_neq m _)) by done. cbn [andb negb]. rewrite andb_true_r. bdestr; lia.
  - exists (at_world s). rewrite Hsame. split_and!; try done. apply time_passes_refl.
Qed.

Lemma field_u32 x n p : 0 <= n -> 0 <= p -> n + p <= 32 -> is_u32 (Z.shiftl (Z.land x (Z.ones n)) p).
Proof using Type.
  intros Hn Hp Hb. rewrite Z.land_ones, Z.shiftl_mul_pow2 by done. pose proof (Z.mod_pos_bound x (2 ^ n) ltac:(by apply Z.pow_pos_nonneg)) as Hx.
  assert (0 < 2 ^ p) by (by apply Z.pow_pos_nonneg). assert (2 ^ n * 2 ^ p <= 2 ^ 32) by (rewrite <- Z.pow_add_r by done; by apply Z.pow_le_mono_r).
  unfold is_u32. change 4294967296 with (2 ^ 32). nia.
Qed.
Lemma open_config_u32 d : is_u32 (open_config d).
Proof using Type.
  unfold open_config. repeat (apply lor_u32); try done.
  - by apply (field_u32 _ 2). - by apply (field_u32 _ 4). - by apply (field_u32 _ 1). - by apply (field_u32 _ 6). - by apply (field_u32 _ 6). - by apply (field_u32 _ 7).
Qed.

(** The converter belongs to the caller with the descriptor [d] at [p]: counts and
    flags are zero, the registers have the fields of [d], the channel has its pin, the unit
    its clock and interrupt, and no sample of before is left. *)
Record opened (p : Z) (d : saradc_desc_t) w w' : Prop := {
  op_ok : adc_ok w';
  op_cfg : a_cfg (adc_of w') = Z.ldiff (open_config d) adc_status;
  op_sat : a_sat (adc_of w') = open_saturation;
  op_came : a_came (adc_of w') = a_came (adc_of w) ++ a_fifo (adc_of w');
  op_vars : avars w' = SaradcVars p (saradc_val (avars w)) 1 (<[p := desc_reset d]> (descs (avars w))) (buffers (avars w));
  op_icu b : in_icu b = true -> ireg w' b = if b =? ICU_INTERRUPT_ENABLE then Z.lor (ireg w b) IRQ_SARADC_BIT
    else if b =? ICU_PERI_CLK_PWD then Z.ldiff (ireg w b) PWD_SARADC_CLK_BIT else ireg w b;
  op_pins : pin_given (sd_channel d) (gview w) (gview w');
}.

(** Setting up the registers, with the descriptor in place. *)
Definition set_up : M W unit :=
  clear_fifo fuel;; saradc_int_clr fuel;;
  d' ← cur_desc;
  REG_WRITE SARADC_ADC_CONFIG (open_config d');;
  REG_WRITE SARADC_ADC_SATURATION_CFG open_saturation.

Lemma adc_set_up d w : adc_ok w -> enabled (adc_of w) = false -> enough W fuel -> saradc_desc (avars w) <> 0 ->
  descs (avars w) !! saradc_desc (avars w) = Some d ->
  exists w', set_up w = Val (tt, w') /\ adc_ok w' /\ a_fifo (adc_of w') = [] /\ a_cfg (adc_of w') = Z.ldiff (open_config d) adc_status /\
    a_sat (adc_of w') = open_saturation /\ a_came (adc_of w') = a_came (adc_of w) /\ beside w w'.
Proof using Quiet0.
  intros Hok Hoff [Hf1 Hf2] Hp Hd. destruct (clear_fifo_val fuel w Hok Hoff Hf1) as (w1 & E1 & Hok1 & F1 & _ & G1 & S1 & A1).
  assert (Hoff1 : enabled (adc_of w1) = false) by (unfold enabled; by rewrite G1).
  destruct (saradc_int_clr_val fuel w1 Hok1 Hf2) as (w2 & E2 & Hok2 & T2). destruct (passes_off _ _ _ T2 Hoff1) as [F2 _].
  pose proof (passes_came _ _ _ T2 Hoff1) as A2.
  assert (B2 : beside w w2) by (transitivity w1; [exact (adc_beside _ _ _ (touches_clear_fifo fuel) E1)|exact (adc_beside _ _ _ (touches_int_clr fuel) E2)]).
  assert (Ed : cur_desc w2 = Val (d, w2)) by (apply cur_desc_val; by rewrite (bs_vars _ _ B2)).
  destruct (adc_write_cfg w2 (open_config d) Hok2 (open_config_u32 d)) as (Hok3 & G3 & F3 & S3 & A3 & _).
  set (w3 := bus_write SARADC_ADC_CONFIG (open_config d) w2) in *.
  destruct (adc_write_sat w3 open_saturation Hok3 ltac:(done)) as (Hok4 & G4 & F4 & S4 & A4 & _).
  exists (bus_write SARADC_ADC_SATURATION_CFG open_saturation w3). split_and!; [|done|congruence|congruence|done|congruence|].
  - unfold set_up. rewrite (bind_ret_val _ _ _ _ _ E1), (bind_ret_val _ _ _ _ _ E2), (bind_ret_val _ _ _ _ _ Ed). reflexivity.
  - transitivity w2; [done|]. transitivity w3; [exact (res_write _ _ beside_respects SARADC_ADC_CONFIG _ w2 eq_refl)|
      exact (res_write _ _ beside_respects SARADC_ADC_SATURATION_CFG _ w3 eq_refl)].
Qed.

Definition desc_fits (d : saradc_desc_t) : bool :=
  negb (pData d =? 0) && (sd_channel d <=? SARADC_ADC_CHNL_MAX) && negb (data_buff_size d =? 0).

Lemma pin_given_view ch w w1 w2 : pin_given ch (gsoft w) (gsoft w1) -> (forall b, in_gpio b = true -> gsoft w2 b = gsoft w1 b) ->
  pin_given ch (gview w) (gview w2).
Proof using Type.
  unfold pin_given. destruct (adc_pin ch) as [[i pm]|]; [intros H1 H2; by eapply pins_set_view|].
  intros H1 H2 b. unfold gview. destruct (in_gpio b) eqn:E; [|done]. by rewrite H2, H1.
Qed.
Lemma pin_given_from ch w w1 g : (forall b, in_gpio b = true -> gsoft w1 b = gsoft w b) -> pin_given ch (gview w1) g -> pin_given ch (gview w) g.
Proof using Type.
  intros Hb. assert (Hv : forall b, gview w1 b = gview w b) by (intros b; unfold gview; destruct (in_gpio b) eqn:E; [by apply Hb|done]).
  unfold pin_given. destruct (adc_pin ch) as [[i pm]|].
  - intros [Q1 Q2 Q3]. split; intros; [rewrite Q1 by done|unfold pin_function in *; rewrite Q2 by done|rewrite Q3 by done]; by rewrite Hv.
  - intros Hg b. by rewrite Hg, Hv.
Qed.

Lemma adc_open_val p d s : adc_drivers s -> adc_ok (at_world s) -> enabled (adc_of (at_world s)) = false -> enough W fuel ->
  p <> 0 -> descs (avars (at_world s)) !! p = Some d -> desc_fits d = true -> saradc_is_busy (avars (at_world s)) = 0 ->
  exists w, saradc_open fuel sdev_ops p s = Val (SARADC_SUCCESS, with_world s w) /\ opened p d (at_world s) w.
Proof using Quiet0 AdcPut0.
  intros Hdr Hok Hoff Hf Hp Hd Hfit Hbusy. set (w0 := at_world s) in *.
  set (v1 := with_busy 1 (avars w0)). destruct (adc_vars_put v1 w0) as (V1 & I1 & P1). set (w1 := hput v1 w0) in *.
  assert (Hok1 : adc_ok w1) by (by apply adc_put_ok). assert (A1 : adc_of w1 = adc_of w0) by apply adc_put.
  destruct (icu_do_val false _ _ _ PWD_SARADC_CLK_BIT (with_world s w1) Hdr clock_pair Hok1) as (w2 & E2 & I2 & Hok2 & T2 & V2 & P2).
  unfold at_world in I2, T2, V2, P2. cbn in I2, T2, V2, P2. rewrite A1 in T2. destruct (passes_off _ _ _ T2 Hoff) as [_ Hoff2]. pose proof (passes_came _ _ _ T2 Hoff) as C2.
  set (v3 := with_descs (<[p := desc_reset d]> (descs v1)) (with_desc p v1)).
  destruct (adc_vars_put v3 w2) as (V3 & I3 & P3). set (w3 := hput v3 w2) in *.
  assert (Hok3 : adc_ok w3) by (by apply adc_put_ok). assert (A3 : adc_of w3 = adc_of w2) by apply adc_put.
  assert (E3 : (sets (with_desc p);; cur_set desc_reset) w2 = Val (tt, w3)).
  { mstep by reflexivity. fold (avars w2). rewrite V2, V1. rewrite (cur_set_val d); unfold avars; rewrite ?hget_put; [|done..].
    cbn. rewrite hput_put. reflexivity. }
  assert (Hd3 : descs (avars w3) !! saradc_desc (avars w3) = Some (desc_reset d)) by (rewrite V3; apply lookup_insert_eq).
  destruct (gpio_config_val (desc_reset d) (with_world s w3) Hdr ltac:(unfold at_world; cbn; by rewrite V3) Hd3 Hok3) as (w4 & E4 & P4 & Hok4 & T4 & V4 & I4).
  unfold at_world in P4, T4, V4, I4. cbn in P4, T4, V4, I4. rewrite A3 in T4. destruct (passes_off _ _ _ T4 Hoff2) as [_ Hoff4]. pose proof (passes_came _ _ _ T4 Hoff2) as C4.
  destruct (adc_set_up (desc_reset d) w4 Hok4 Hoff4 Hf ltac:(by rewrite V4, V3) ltac:(by rewrite V4)) as (w5 & E5 & Hok5 & F5 & G5 & S5 & C5 & B5).
  destruct (icu_do_val true _ _ _ IRQ_SARADC_BIT (with_world s w5) Hdr line_pair Hok5) as (w6 & E6 & I6 & Hok6 & ((n6 & F6 & C6 & _) & _ & G6 & S6) & V6 & P6).
  unfold at_world in I6, G6, S6, V6, P6, F6, C6. cbn in I6, G6, S6, V6, P6, F6, C6. destruct B5 as [V5 I5 P5]. exists w6. split.
  - unfold desc_fits in Hfit. unfold saradc_open.
    assert (Hsame : with_world s w0 = s) by (by destruct s as [? ? []]).
    pose proof (at_ext_val _ s _ _ (desc_at_val p d w0 Hp Hd)) as E0. rewrite Hsame in E0. rewrite (bind_ret_val _ _ _ _ _ E0).
    assert (Hc : (pData d =? 0) || (SARADC_ADC_CHNL_MAX <? sd_channel d) || (data_buff_size d =? 0) = false) by lia. rewrite Hc.
    assert (Eb : at_ext (gets saradc_is_busy) s = Val (0, s)) by (rewrite (at_ext_val _ s _ w0 (f_equal (fun b => Val (b, w0)) Hbusy)); by rewrite Hsame).
    rewrite (bind_ret_val _ _ _ _ _ Eb). cbn [Z.eqb negb].
    rewrite (bind_ret_val _ _ _ _ _ (at_ext_val _ s tt w1 eq_refl)). rewrite (bind_ret_val _ _ _ _ _ E2).
    rewrite (bind_ret_val _ _ _ _ _ (at_ext_val _ (with_world s w2) _ _ E3)). rewrite (bind_ret_val _ _ _ _ _ E4).
    rewrite (bind_ret_val _ _ _ _ _ (at_ext_val _ (with_world s w4) _ _ E5)). by mstep by exact E6.
  - split.
    + done.
    + by rewrite G6.
    + by rewrite S6.
    + rewrite C6, F6, F5. cbn [app]. congruence.
    + by rewrite V6, V5, V4, V3.
    + intros b Hb. rewrite I6, !I5, !I4. rewrite (I3 b), (I3 ICU_INTERRUPT_ENABLE), !I2, (I1 b) by done.
      destruct (Z.eqb_spec b ICU_INTERRUPT_ENABLE) as [->|].
      { change (ICU_INTERRUPT_ENABLE =? ICU_PERI_CLK_PWD) with false. cbv iota. by rewrite I1. }
      destruct (Z.eqb_spec b ICU_PERI_CLK_PWD) as [->|]; [by rewrite I1|done].
    + apply (pin_given_from _ w0 w3); [intros b Hb; by rewrite P3, P2, P1|].
      apply (pin_given_view _ w3 w4); [exact P4|]. intros b Hb. by rewrite P6, P5.
Qed.

(** What opening refuses: no buffer, a channel past the last, an empty buffer; and the converter in use. *)
Lemma open_refused p d s : p <> 0 -> descs (avars (at_world s)) !! p = Some d ->
  desc_fits d = false \/ saradc_is_busy (avars (at_world s)) <> 0 -> saradc_open fuel sdev_ops p s = Val (SARADC_FAILURE, s).
Proof using Type.
  intros Hp Hd Hr. unfold saradc_open. assert (Hsame : with_world s (at_world s) = s) by (by destruct s as [? ? []]).
  pose proof (at_ext_val _ s _ _ (desc_at_val p d _ Hp Hd)) as E0. fold (at_world s) in E0. rewrite Hsame in E0. rewrite (bind_ret_val _ _ _ _ _ E0).
  unfold desc_fits in Hr. destruct ((pData d =? 0) || (SARADC_ADC_CHNL_MAX <? sd_channel d) || (data_buff_size d =? 0)) eqn:Ec; [done|].
  destruct Hr as [Hr|Hb]; [lia|].
  assert (Eb : at_ext (gets saradc_is_busy) s = Val (saradc_is_busy (avars (at_world s)), s))
    by (rewrite (at_ext_val _ s _ (at_world s) eq_refl); by rewrite Hsame).
  rewrite (bind_ret_val _ _ _ _ _ Eb). by rewrite (proj2 (Z.eqb_neq _ _)).
Qed.

(** *** The interrupt routine *)

(** The descriptor [d] at [p] is being filled, its buffer holds [l]. *)
Record filling (p : Z) (d : saradc_desc_t) (l : list Z) w : Prop := {
  fi_ptr : saradc_desc (avars w) = p;
  fi_null : p <> 0;
  fi_desc : descs (avars w) !! p = Some d;
  fi_buf : buffers (avars w) !! pData d = Some l;
  fi_cnt : 0 <= current_sample_data_cnt d <= data_buff_size d;
  fi_size : data_buff_size d < 256;
  fi_len : data_buff_size d <= Z.of_nat (length l);
}.

(** The descriptor and the variables after samples were stored. *)
Definition desc_plus (d : saradc_desc_t) (xs : list Z) : saradc_desc_t :=
  SaradcDesc (pData d) (current_sample_data_cnt d + Z.of_nat (length xs)) (current_read_data_cnt d) (data_buff_size d)
    (if decide (xs = []) then has_data d else 1) (all_done d) (sd_channel d) (sd_mode d) (p_Int_Handler d) (pre_div d) (samp_rate d) (sd_filter d).
Definition stored (p : Z) (d : saradc_desc_t) (l xs : list Z) (v : saradc_vars) : saradc_vars :=
  with_buffers (<[pData d := list_inserts (Z.to_nat (current_sample_data_cnt d)) xs l]> (buffers v)) (with_descs (<[p := desc_plus d xs]> (descs v)) v).
Definition room (d : saradc_desc_t) : nat := Z.to_nat (data_buff_size d - current_sample_data_cnt d).

Lemma desc_plus_plus d x xs : desc_plus (desc_plus d [x]) xs = desc_plus d (x :: xs).
Proof using Type. unfold desc_plus. cbn. f_equal; [lia|]. by destruct (decide (xs = [])). Qed.

Lemma stored_nil p d l v : descs v !! p = Some d -> buffers v !! pData d = Some l -> stored p d l [] v = v.
Proof using Type.
  intros Hd Hl. unfold stored, with_buffers, with_descs. cbn. assert (desc_plus d [] = d) as -> by (destruct d; unfold desc_plus; cbn; f_equal; lia).
  rewrite (insert_id (descs v)), (insert_id (buffers v)) by done. by destruct v.
Qed.

Lemma stored_stored p d l x xs v : 0 <= current_sample_data_cnt d ->
  stored p (desc_plus d [x]) (list_inserts (Z.to_nat (current_sample_data_cnt d)) [x] l) xs (stored p d l [x] v) = stored p d l (x :: xs) v.
Proof using Type.
  intros Hc. unfold stored, with_buffers, with_descs. cbn [pData desc_plus descs buffers saradc_desc saradc_val saradc_is_busy].
  rewrite !insert_insert_eq. fold (desc_plus d [x]). rewrite desc_plus_plus. cbn [current_sample_data_cnt desc_plus length list_inserts].
  f_equal. f_equal. replace (Z.to_nat (current_sample_data_cnt d + Z.of_nat 1)) with (Datatypes.S (Z.to_nat (current_sample_data_cnt d))) by lia.
  by rewrite list_insert_inserts_lt by lia.
Qed.

Lemma take_sample_val p d l x w : filling p d l w -> current_sample_data_cnt d < data_buff_size d ->
  take_sample x w = Val (current_sample_data_cnt d + 1 =? data_buff_size d, hput (stored p d l [x] (avars w)) w) /\
  filling p (desc_plus d [x]) (list_inserts (Z.to_nat (current_sample_data_cnt d)) [x] l) (hput (stored p d l [x] (avars w)) w).
Proof using Type.
  intros [Hptr Hnull Hd Hl Hc Hs Hlen] Hlt. set (d1 := desc_plus d [x]).
  assert (Hd1 : desc_stored d = d1) by (unfold desc_stored, d1, desc_plus; rewrite u8_id by (unfold is_u8; lia); done).
  set (v1 := with_buffers (<[pData d := list_inserts (Z.to_nat (current_sample_data_cnt d)) [x] l]> (buffers (avars w))) (avars w)).
  assert (E1 : buffer_set (pData d) (current_sample_data_cnt d) x w = Val (tt, hput v1 w)).
  { unfold buffer_set. mstep by reflexivity. fold (avars w). rewrite Hl.
    assert ((0 <=? current_sample_data_cnt d) && (current_sample_data_cnt d <? Z.of_nat (length l)) = true) as -> by lia. reflexivity. }
  assert (E2 : cur_set desc_stored (hput v1 w) = Val (tt, hput (stored p d l [x] (avars w)) w)).
  { rewrite (cur_set_val d); unfold avars; rewrite ?hget_put; cbn; fold (avars w); rewrite ?Hptr; [|done..].
    rewrite hput_put, Hd1. reflexivity. }
  assert (F : filling p d1 (list_inserts (Z.to_nat (current_sample_data_cnt d)) [x] l) (hput (stored p d l [x] (avars w)) w)).
  { split; unfold avars; rewrite ?hget_put; cbn [stored with_buffers with_descs saradc_desc descs buffers]; try done.
    - apply lookup_insert_eq.
    - apply lookup_insert_eq.
    - unfold d1. cbn. lia.
    - by rewrite length_inserts. }
  split; [|done]. unfold take_sample. rewrite (bind_ret_val _ _ _ _ _ (cur_desc_val d w ltac:(by rewrite Hptr) ltac:(by rewrite Hptr))).
  rewrite (proj2 (Z.ltb_lt _ _)) by done. rewrite (bind_ret_val _ _ _ _ _ E1), (bind_ret_val _ _ _ _ _ E2).
  rewrite (bind_ret_val _ _ _ _ _ (cur_desc_val d1 _ ltac:(rewrite (fi_ptr _ _ _ _ F); done) ltac:(rewrite (fi_ptr _ _ _ _ F); apply (fi_desc _ _ _ _ F)))).
  done.
Qed.

(** After the loop: the samples [xs] are in the buffer; the converter is as it was, or closed if the buffer is full. *)
Record sampled (p : Z) (d : saradc_desc_t) (l xs : list Z) w w' : Prop := {
  sm_ok : adc_ok w';
  sm_open : (length xs < room d)%nat -> a_cfg (adc_of w') = a_cfg (adc_of w) /\ a_sat (adc_of w') = a_sat (adc_of w) /\
    avars w' = stored p d l xs (avars w) /\ forall b, in_icu b = true -> ireg w' b = ireg w b;
  sm_full : (room d <= length xs)%nat -> stopped w' /\ a_cfg (adc_of w') = Z.ldiff (a_cfg (adc_of w)) 7 /\ a_sat (adc_of w') = a_sat (adc_of w) /\
    avars w' = with_busy 0 (stored p d l xs (avars w)) /\
    forall b, in_icu b = true -> ireg w' b = if b =? ICU_INTERRUPT_ENABLE then Z.ldiff (ireg w b) IRQ_SARADC_BIT
      else if b =? ICU_PERI_CLK_PWD then Z.lor (ireg w b) PWD_SARADC_CLK_BIT else ireg w b;
  sm_pins b : in_gpio b = true -> gsoft w' b = gsoft w b;
  (** No sample is lost while there is room: what is stored and what waits is what
      waited, and the samples [new] that the converter delivered since. *)
  sm_kept : exists new, a_came (adc_of w') = a_came (adc_of w) ++ new /\ xs `prefix_of` a_fifo (adc_of w) ++ new /\
    ((length xs < room d)%nat -> xs ++ a_fifo (adc_of w') = a_fifo (adc_of w) ++ new);
}.

(** A read of a register, from the top. *)
Lemma read_top a s v w : bus_read a (at_world s) = (v, w) -> at_ext (REG_READ a) s = Val (v, with_world s w).
Proof using Type. intros E. apply at_ext_val. unfold REG_READ. fold (at_world s). by rewrite E. Qed.

Lemma sampled_cons p d l x xs w w1 w' : 0 <= current_sample_data_cnt d -> current_sample_data_cnt d < data_buff_size d ->
  a_cfg (adc_of w1) = a_cfg (adc_of w) -> a_sat (adc_of w1) = a_sat (adc_of w) -> avars w1 = stored p d l [x] (avars w) ->
  (forall b, in_icu b = true -> ireg w1 b = ireg w b) -> (forall b, in_gpio b = true -> gsoft w1 b = gsoft w b) ->
  (exists new, x :: a_fifo (adc_of w1) = a_fifo (adc_of w) ++ new /\ a_came (adc_of w1) = a_came (adc_of w) ++ new) ->
  sampled p (desc_plus d [x]) (list_inserts (Z.to_nat (current_sample_data_cnt d)) [x] l) xs w1 w' -> sampled p d l (x :: xs) w w'.
Proof using Type.
  intros Hc Hlt G S V I P (new & F & A0) [Q1 Q2 Q3 Q4 (new2 & A2 & E2 & E3)]. assert (Hr : room d = Datatypes.S (room (desc_plus d [x]))) by (unfold room; cbn; lia).
  rewrite V in Q2, Q3. split.
  - done.
  - cbn [length]. intros Hl. destruct Q2 as (A & B & C & D); [lia|]. rewrite stored_stored in C by done.
    split_and!; [congruence|congruence|done|intros b Hb; by rewrite D, I].
  - cbn [length]. intros Hl. destruct Q3 as (A & B & C & D & E); [lia|]. rewrite stored_stored in D by done.
    split_and!; [apply A..|congruence|congruence|done|intros b Hb; by rewrite E, I by done].
  - intros b Hb. by rewrite Q4, P.
  - exists (new ++ new2). split_and!.
    + by rewrite A2, A0, (assoc_L (++)).
    + rewrite (assoc_L (++)), <- F. cbn [app]. by apply prefix_cons.
    + cbn [length]. intros Hl. cbn [app]. by rewrite E3, app_comm_cons, F, <- (assoc_L (++)) by lia.
Qed.

Lemma adc_isr_loop_val n : forall value q0 n0 s p d l, adc_drivers s -> adc_ok (at_world s) -> enough W fuel -> filling p d l (at_world s) ->
  current_sample_data_cnt d < data_buff_size d -> (room d <= n)%nat -> a_fifo (adc_of (at_world s)) = q0 ++ n0 ->
  Z.testbit value 30 = bool_decide (q0 = []) ->
  exists new w', isr_loop fuel sdev_ops n value s = Val (tt, with_world s w') /\ sampled p d l (take (room d) (q0 ++ new)) (at_world s) w'.
Proof using Quiet0 AdcPut0.
  induction n as [|n IH]; intros value q0 n0 s p d l Hdr Hok Hf Hfill Hlt Hn Hq Hb; [unfold room in Hn; lia|].
  set (w0 := at_world s) in *. cbn [isr_loop]. rewrite empty_bit, Hb.
  assert (Hsame : with_world s w0 = s) by (by destruct s as [? ? []]).
  case_bool_decide as He.
  { exists [], w0. split; [by rewrite Hsame|]. subst q0. cbn [app]. rewrite take_nil. split; [done| |intros Hr; unfold room in Hr; cbn in Hr; lia|done|].
    2: { exists []. rewrite !app_nil_r. split_and!; [done|apply prefix_nil|done]. }
    intros _. destruct Hfill. by rewrite stored_nil. }
  destruct q0 as [|x q]; [done|]. destruct (adc_read_sample w0 Hok) as (v1 & w1 & E1 & Hok1 & Hx & P1).
  rewrite Hq in Hx, P1. cbn [app head tail] in Hx, P1. specialize (Hx x eq_refl).
  pose proof (res_read _ _ beside_respects SARADC_ADC_DAT_AFTER_STA w0 eq_refl) as B1. rewrite E1 in B1. cbn [snd] in B1.
  assert (Hfill1 : filling p d l w1) by (destruct Hfill; split; rewrite ?(bs_vars _ _ B1); done).
  destruct (take_sample_val p d l x w1 Hfill1 Hlt) as [E2 Hfill2]. set (w2 := hput (stored p d l [x] (avars w1)) w1) in *.
  set (d1 := desc_plus d [x]) in *. set (l1 := list_inserts (Z.to_nat (current_sample_data_cnt d)) [x] l) in *.
  assert (Hok2 : adc_ok w2) by (by apply adc_put_ok). assert (A2 : adc_of w2 = adc_of w1) by apply adc_put.
  destruct (adc_vars_put (stored p d l [x] (avars w1)) w1) as (V2 & I2 & G2). fold w2 in V2, I2, G2. rewrite (bs_vars _ _ B1) in V2.
  assert (Hstep : at_ext (v ← REG_READ SARADC_ADC_DAT_AFTER_STA; take_sample (Z.land v 0xFFFF)) s =
    Val (current_sample_data_cnt d + 1 =? data_buff_size d, with_world s w2)).
  { apply at_ext_val. change (ext (world s)) with w0. mstep by (unfold REG_READ; by rewrite E1). by rewrite Hx. }
  rewrite (bind_ret_val _ _ _ _ _ Hstep). pose proof (fi_cnt _ _ _ _ Hfill) as Hc0.
  destruct (Z.eqb_spec (current_sample_data_cnt d + 1) (data_buff_size d)) as [Efull|Emore]; cbn [when].
  - (* the last sample: the converter is closed, and the loop ends *)
    destruct (close_val (with_world s w2) Hdr Hok2 Hf) as (w3 & E3 & [Hst G3 S3 (n3 & C3) V3 I3 P3]).
    destruct (adc_read_cfg w3 (proj1 Hst)) as (v4 & w4 & E4 & Hok4 & _ & B4 & _ & _ & T4).
    destruct (passes_off _ _ _ T4 (proj1 (proj2 Hst))) as [F4 Hoff4]. pose proof (passes_came _ _ _ T4 (proj1 (proj2 Hst))) as C4. destruct Hst as (_ & _ & F3). rewrite F3 in B4, F4. destruct T4 as (_ & _ & G4 & S4).
    pose proof (res_read _ _ beside_respects SARADC_ADC_CONFIG w3 eq_refl) as B. rewrite E4 in B. cbn [snd] in B.
    assert (Hroom : room d = 1%nat) by (unfold room; lia).
    unfold at_world in G3, S3, C3, V3, I3, P3. cbn in G3, S3, C3, V3, I3, P3. destruct P1 as ((n1 & _ & C1 & _) & _ & G1 & S1).
    exists [], w4. split.
    + assert (Eclose : (_ ← saradc_close fuel sdev_ops; mret tt) (with_world s w2) = Val (tt, with_world s w3)) by (by mstep by exact E3).
      rewrite (bind_ret_val _ _ _ _ _ Eclose), (bind_ret_val _ _ _ _ _ (read_top _ (with_world s w3) _ _ E4)).
      destruct n as [|n']; cbn [isr_loop]; by rewrite empty_bit, B4.
    + rewrite Hroom, app_nil_r. cbn [take]. split; [done|cbn; lia|intros _| |].
      * unfold stopped. split_and!; [done|done|done|rewrite G4, G3, A2; congruence|rewrite S4, S3, A2; congruence|by rewrite (bs_vars _ _ B), V3, V2|].
        intros b Hb'. by rewrite (bs_icu _ _ B), I3, !I2, !(bs_icu _ _ B1) by done.
      * intros b Hb'. by rewrite (bs_pins _ _ B), P3, G2, (bs_pins _ _ B1) by done.
      * exists (n1 ++ n3). rewrite C4, C3, A2, C1, Hq. split_and!; [by rewrite (assoc_L (++))|cbn; apply prefix_cons, prefix_nil|cbn; lia].
  - (* there is room for more *)
    destruct (adc_read_cfg w2 Hok2) as (v3 & w3 & E3 & Hok3 & _ & B3 & _ & _ & T3).
    pose proof (res_read _ _ beside_respects SARADC_ADC_CONFIG w2 eq_refl) as B. rewrite E3 in B. cbn [snd] in B.
    destruct P1 as ((n1 & F1 & C1 & _) & _ & G1 & S1). destruct T3 as ((n3 & F3 & C3 & _) & _ & G3 & S3). rewrite A2 in B3, F3, C3, G3, S3.
    assert (Hfill3 : filling p d1 l1 w3) by (destruct Hfill2; split; rewrite ?(bs_vars _ _ B); done).
    assert (Hr : room d = Datatypes.S (room d1)) by (unfold room, d1; cbn; lia).
    destruct (IH v3 (q ++ n0 ++ n1) n3 (with_world s w3) p d1 l1 Hdr Hok3 Hf Hfill3 ltac:(unfold d1; cbn; lia) ltac:(lia)) as (new & w' & E' & Q).
    { unfold at_world. cbn. rewrite F3, F1. by rewrite !(assoc_L (++)). }
    { rewrite B3, F1. f_equal. by rewrite (assoc_L (++)). }
    unfold at_world in Q. cbn in Q. exists (n0 ++ n1 ++ new), w'. split.
    + mstep by reflexivity. rewrite (bind_ret_val _ _ _ _ _ (read_top _ (with_world s w2) _ _ E3)). exact E'.
    + rewrite Hr. cbn [app take]. rewrite <- !(assoc_L (++)) in Q. apply (sampled_cons p d l x _ w0 w3 w'); try done.
      * lia.
      * congruence.
      * congruence.
      * by rewrite (bs_vars _ _ B).
      * intros b Hb'. by rewrite (bs_icu _ _ B), I2, (bs_icu _ _ B1).
      * intros b Hb'. by rewrite (bs_pins _ _ B), G2, (bs_pins _ _ B1).
      * exists (n1 ++ n3). rewrite F3, F1, C3, C1, Hq. cbn [app]. by rewrite !(assoc_L (++)).
Qed.

Lemma int_clr_top s : adc_ok (at_world s) -> enough W fuel ->
  exists w, at_ext (saradc_int_clr fuel) s = Val (tt, with_world s w) /\ adc_ok w /\ time_passes (adc_of (at_world s)) (adc_of w) /\ beside (at_world s) w.
Proof using Quiet0.
  intros Hok [_ Hf]. destruct (saradc_int_clr_val fuel (at_world s) Hok Hf) as (w & E & Hok' & T). exists w.
  split_and!; [by apply at_ext_val|done|done|exact (adc_beside _ _ _ (touches_int_clr fuel) E)].
Qed.

(** The descriptor when all is done. *)
Definition finished (p : Z) (d : saradc_desc_t) (w : W) : W := hput (with_descs (<[p := desc_done d]> (descs (avars w))) (avars w)) w.

(** An interrupt while the buffer is being filled: what is left to do after the samples are stored. *)
Lemma adc_isr_val p d l s : adc_drivers s -> adc_ok (at_world s) -> enough W fuel -> filling p d l (at_world s) ->
  current_sample_data_cnt d < data_buff_size d -> (room d <= fuel)%nat ->
  exists new xs w, xs = take (room d) (a_fifo (adc_of (at_world s)) ++ new) /\ sampled p d l xs (at_world s) w /\
    forall call_handler : Z -> M all unit, saradc_isr fuel sdev_ops call_handler s =
      if decide (length xs < room d)%nat then at_ext (saradc_int_clr fuel) (with_world s w)
      else (when (truthy (p_Int_Handler d)) (call_handler (p_Int_Handler d));; at_ext (saradc_int_clr fuel))
        (with_world s (finished p (desc_plus d xs) w)).
Proof using Quiet0 AdcPut0.
  intros Hdr Hok Hf Hfill Hlt Hroom. destruct (adc_read_cfg _ Hok) as (v & w1 & E1 & Hok1 & _ & B1 & _ & _ & ((n1 & F1 & C1 & _) & _ & G1 & S1)).
  pose proof (res_read _ _ beside_respects SARADC_ADC_CONFIG (at_world s) eq_refl) as B. rewrite E1 in B. cbn [snd] in B. destruct B as [BV BI BP].
  assert (Hfill1 : filling p d l w1) by (destruct Hfill; split; rewrite ?BV; done).
  destruct (adc_isr_loop_val fuel v _ n1 (with_world s w1) p d l Hdr Hok1 Hf Hfill1 Hlt Hroom F1 B1) as (new & w & E & Q).
  exists new, (take (room d) (a_fifo (adc_of (at_world s)) ++ new)), w. split; [done|].
  generalize dependent (take (room d) (a_fifo (adc_of (at_world s)) ++ new)). intros xs Q. unfold at_world in Q. cbn in Q. destruct Q as [Q1 Q2 Q3 Q4 (n2 & C2 & P2 & E2)].
  rewrite BV in Q2, Q3. split.
  { split; [done| | |intros b Hb; by rewrite Q4, BP|].
    3: { rewrite F1 in P2, E2. exists (n1 ++ n2). rewrite C2, C1, !(assoc_L (++)). done. }
    - intros Hl. destruct Q2 as (A & A2 & A3 & A4); [done|]. split_and!; [congruence|congruence|done|intros b Hb; by rewrite A4, BI].
    - intros Hl. destruct Q3 as (A & A2 & A3 & A4 & A5); [done|]. split_and!; [apply A..|congruence|congruence|done|intros b Hb; by rewrite A5, BI by done]. }
  intros call_handler. unfold saradc_isr. rewrite (bind_ret_val _ _ _ _ _ (read_top _ s _ _ E1)), (bind_ret_val _ _ _ _ _ E). clear E1 E.
  destruct Hfill as [Hptr Hnull Hd Hl Hc Hs Hlen].
  assert (Hv : avars w = stored p d l xs (avars (at_world s)) \/ avars w = with_busy 0 (stored p d l xs (avars (at_world s)))).
  { destruct (decide (length xs < room d)%nat); [left; by apply Q2|right; apply Q3; lia]. }
  assert (Hp : saradc_desc (avars w) = p) by (destruct Hv as [-> | ->]; done).
  assert (Hdw : descs (avars w) !! p = Some (desc_plus d xs)) by (destruct Hv as [-> | ->]; cbn; apply lookup_insert_eq).
  assert (Ed : at_ext cur_desc (with_world s w) = Val (desc_plus d xs, with_world s w)).
  { rewrite (at_ext_val _ (with_world s w) (desc_plus d xs) w); [done|]. apply cur_desc_val; by rewrite Hp. }
  rewrite (bind_ret_val _ _ _ _ _ Ed). cbn [data_buff_size current_sample_data_cnt desc_plus].
  destruct (decide (length xs < room d)%nat) as [Hn|Hn]; unfold room in Hn.
  { rewrite (proj2 (Z.leb_gt _ _)) by lia. reflexivity. }
  rewrite (proj2 (Z.leb_le _ _)) by lia. cbn [when].
  assert (Es : at_ext (cur_set desc_done) (with_world s w) = Val (tt, with_world s (finished p (desc_plus d xs) w))).
  { rewrite (at_ext_val _ (with_world s w) tt (finished p (desc_plus d xs) w)); [done|]. change (ext (world (with_world s w))) with w.
    rewrite (cur_set_val (desc_plus d xs) desc_done w); rewrite ?Hp; done. }
  assert (Ed2 : at_ext cur_desc (with_world s (finished p (desc_plus d xs) w)) = Val (desc_done (desc_plus d xs), with_world s (finished p (desc_plus d xs) w))).
  { rewrite (at_ext_val _ (with_world s (finished p (desc_plus d xs) w)) (desc_done (desc_plus d xs)) (finished p (desc_plus d xs) w)); [done|].
    apply cur_desc_val; unfold finished, avars; cbn; rewrite hget_put; cbn; fold (avars w); rewrite Hp; [done|apply lookup_insert_eq]. }
  rewrite bind_assoc. rewrite (bind_ret_val _ _ _ _ _ Es), bind_assoc, (bind_ret_val _ _ _ _ _ Ed2). reflexivity.
Qed.
End system.
