(* ===== verification/SaradcBoard.v ===== *)
(** * The analogue-to-digital converter in use

    What a caller of the converter relies on: who opens it has it alone, with the
    channel and rates asked for, until it is closed; the samples that arrive
    while it is open are in the buffer, in their order and without a gap, when
    the handler is called.  On a board with a converter that satisfies the
    interface. *)
From stdpp Require Import strings gmap.
From S2P Require Import Prelude DrvModel Icu Regs Intc Stack Gpio GpioCorrect GpioStack Clock SaradcHw Saradc SaradcCorrect.
Local Open Scope Z_scope.

(** The fields of the configuration register that are those of a descriptor. *)
Record configured (d : saradc_desc_t) (v : Z) : Prop := {
  cf_mode : Z.land v 0x03 = Z.land (sd_mode d) 0x03;
  cf_enable : Z.testbit v 2 = true;
  cf_channel : Z.land (Z.shiftr v 3) 0x0F = Z.land (sd_channel d) 0x0F;
  cf_delay : Z.testbit v 7 = Z.testbit (sd_mode d) 2;
  cf_pre_div : Z.land (Z.shiftr v 9) 0x3F = Z.land (pre_div d) 0x3F;
  cf_rate : Z.land (Z.shiftr v 16) 0x3F = Z.land (samp_rate d) 0x3F;
  cf_filter : Z.land (Z.shiftr v 22) 0x7F = Z.land (sd_filter d) 0x7F;
}.

Lemma field_bit x n p i : 0 <= n -> 0 <= p -> 0 <= i ->
  Z.testbit (Z.shiftl (Z.land x (Z.ones n)) p) i = (p <=? i) && (i <? p + n) && Z.testbit x (i - p).
Proof.
  intros Hn Hp Hi. rewrite Z.shiftl_spec, Z.land_spec by done. destruct (Z.leb_spec p i); cbn [andb].
  - rewrite testbit_ones_le by lia. destruct (Z.ltb_spec (i - p) n), (Z.ltb_spec i (p + n)); try lia; by rewrite ?andb_true_r, ?andb_false_r.
  - by rewrite (Z.testbit_neg_r x) by lia.
Qed.

Lemma field_read v x n p : 0 <= n -> 0 <= p -> (forall j, 0 <= j < n -> Z.testbit v (j + p) = Z.testbit x j) ->
  Z.land (Z.shiftr v p) (Z.ones n) = Z.land x (Z.ones n).
Proof.
  intros Hn Hp Hb. apply Z.bits_inj'. intros j Hj. rewrite !Z.land_spec, Z.shiftr_spec, testbit_ones_le by done.
  destruct (Z.ltb_spec j n); [|by rewrite !andb_false_r]. by rewrite Hb.
Qed.

(** The bits of the word that [saradc_open] writes, at a constant place. *)
Ltac config_bit :=
  unfold open_config; change SARADC_ADC_CHNL_EN with (Z.shiftl (Z.land 1 (Z.ones 1)) 2);
  change SARADC_ADC_INT_CLR with (Z.shiftl (Z.land 1 (Z.ones 1)) 8); rewrite !Z.lor_spec;
  change SARADC_ADC_MODE_MASK with (Z.ones 2); change SARADC_ADC_CHNL_MASK with (Z.ones 4);
  change (Z.land (Z.shiftr ?x 2) 1) with (Z.land (Z.shiftr x 2) (Z.ones 1));
  change SARADC_ADC_PRE_DIV_MASK with (Z.ones 6); change SARADC_ADC_SAMPLE_RATE_MASK with (Z.ones 6); change SARADC_ADC_FILTER_MASK with (Z.ones 7);
  rewrite !field_bit by done; cbv [SARADC_ADC_MODE_POSI SARADC_ADC_CHNL_POSI SARADC_ADC_DELAY_CLK_POSI SARADC_ADC_PRE_DIV_POSI
    SARADC_ADC_SAMPLE_RATE_POSI SARADC_ADC_FILTER_POSI Z.leb Z.ltb Z.compare Pos.compare Pos.compare_cont Z.add Pos.add];
  cbn [andb orb];
  rewrite ?orb_false_r, ?orb_true_r, ?Z.shiftr_spec by done; try reflexivity.

(** A field of that word, bit by bit. *)
Ltac config_field v x n p Hb :=
  apply (field_read v x n p); [done..|]; let j := fresh "j" in let Hj := fresh "Hj" in intros j Hj;
  let Hc := fresh "Hc" in assert (Hc : j = 0 \/ j = 1 \/ j = 2 \/ j = 3 \/ j = 4 \/ j = 5 \/ j = 6) by lia;
  repeat (destruct Hc as [->|Hc] || subst j); try (exfalso; lia); rewrite Hb by done; config_bit.

Lemma open_configured d v : Z.ldiff v adc_status = Z.ldiff (open_config d) adc_status -> configured d v.
Proof.
  intros E. assert (Hb : forall i, 0 <= i -> Z.testbit adc_status i = false -> Z.testbit v i = Z.testbit (open_config d) i).
  { intros i Hi Hs. apply (f_equal (fun x => Z.testbit x i)) in E. rewrite !Z.ldiff_spec, Hs in E. by rewrite !andb_true_r in E. }
  split.
  - rewrite <- (Z.shiftr_0_r v). config_field v (sd_mode d) 2 0 Hb.
  - rewrite Hb by done. config_bit.
  - config_field v (sd_channel d) 4 3 Hb.
  - rewrite Hb by done. config_bit.
  - config_field v (pre_div d) 6 9 Hb.
  - config_field v (samp_rate d) 6 16 Hb.
  - config_field v (sd_filter d) 7 22 Hb.
Qed.

Section system.
Context {W : Type} `{RegBus W, !IcuRegs W, !GpioRegs W, !AdcSpec W, !Holds saradc_vars W, !Quiet saradc_vars W, !AdcPut saradc_vars W, !Holds clock_vars W}.
Abbreviation all := (drv_state (intc_st W)).
Context (sdev_ops : Z -> SDD_OPERATIONS (intc_st W)) (icu_addr gpio_addr : Z) (fuel : nat).
Implicit Types (s : all) (w : W).
Abbreviation drivers := (adc_drivers sdev_ops icu_addr gpio_addr).

(** A converter that nobody has is off. *)
Definition idle_off w : Prop := saradc_is_busy (avars w) = 0 -> enabled (adc_of w) = false.

(** C11: opening the converter with a buffer and a channel it has, while nobody has
    it, gives the caller the clock, the pin of the channel and the interrupt, and a
    converter whose register reads back the mode, channel, clock division, rate and
    filter of the caller's descriptor; until it is closed every other opening is
    refused without an effect, and closing it stops it with nothing left in its
    queue and makes it free; any other opening is refused without an effect. *)
Theorem saradc_open_gives p d s : drivers s -> adc_ok (at_world s) -> idle_off (at_world s) -> enough W fuel ->
  p <> 0 -> descs (avars (at_world s)) !! p = Some d ->
  if desc_fits d && (saradc_is_busy (avars (at_world s)) =? 0) then
    exists w v w1 w2, saradc_open fuel sdev_ops p s = Val (SARADC_SUCCESS, with_world s w) /\
      bus_read SARADC_ADC_CONFIG w = (v, w1) /\ configured d v /\ pin_given (sd_channel d) (gview (at_world s)) (gview w) /\
      Z.testbit (ireg w ICU_INTERRUPT_ENABLE) 11 = true /\ Z.testbit (ireg w ICU_PERI_CLK_PWD) 7 = false /\
      (forall p' d', p' <> 0 -> descs (avars w) !! p' = Some d' -> saradc_open fuel sdev_ops p' (with_world s w) = Val (SARADC_FAILURE, with_world s w)) /\
      saradc_close fuel sdev_ops (with_world s w) = Val (SARADC_SUCCESS, with_world s w2) /\ stopped w2 /\ saradc_is_busy (avars w2) = 0 /\
      Z.testbit (ireg w2 ICU_INTERRUPT_ENABLE) 11 = false /\ Z.testbit (ireg w2 ICU_PERI_CLK_PWD) 7 = true
  else saradc_open fuel sdev_ops p s = Val (SARADC_FAILURE, s).
Proof using Quiet0 AdcPut0.
  intros Hdr Hok Hidle Hf Hp Hd. destruct (desc_fits d && (saradc_is_busy (avars (at_world s)) =? 0)) eqn:Hc.
  - apply andb_true_iff in Hc as [Hfit Hb]. apply Z.eqb_eq in Hb.
    destruct (adc_open_val sdev_ops icu_addr gpio_addr fuel p d s Hdr Hok (Hidle Hb) Hf Hp Hd Hfit Hb) as (w & E & [Ook Ocfg _ _ Ov Oi Op]).
    destruct (adc_read_cfg w Ook) as (v & w1 & E1 & _ & _ & _ & _ & Hv & _).
    destruct (close_val sdev_ops icu_addr gpio_addr fuel (with_world s w) Hdr Ook Hf) as (w2 & E2 & [C1 _ _ _ C4 C5 _]).
    exists w, v, w1, w2. unfold at_world in C1, C4, C5. cbn in C1, C4, C5. split_and!; try done.
    + apply open_configured. by rewrite Hv.
    + rewrite Oi, Z.eqb_refl, Z.lor_spec by done. apply orb_true_r.
    + rewrite Oi by done. change (ICU_PERI_CLK_PWD =? ICU_INTERRUPT_ENABLE) with false. by rewrite Z.eqb_refl, Z.ldiff_spec, andb_false_r.
    + intros p' d' Hp' Hd'. apply (open_refused _ _ p' d'); [done|done|right]. unfold at_world. cbn. by rewrite Ov.
    + by rewrite C4.
    + rewrite C5, Z.eqb_refl, Z.ldiff_spec by done. apply andb_false_r.
    + rewrite C5 by done. change (ICU_PERI_CLK_PWD =? ICU_INTERRUPT_ENABLE) with false. by rewrite Z.eqb_refl, Z.lor_spec, orb_true_r.
  - apply (open_refused _ _ p d); [done|done|]. apply andb_false_iff in Hc as [Hc|Hc]; [by left|right]. by apply Z.eqb_neq.
Qed.

(** ** A recording *)
Lemma stored_app p d l xs ys v : 0 <= current_sample_data_cnt d ->
  stored p (desc_plus d xs) (list_inserts (Z.to_nat (current_sample_data_cnt d)) xs l) ys (stored p d l xs v) = stored p d l (xs ++ ys) v.
Proof using Type.
  revert d l v. induction xs as [|x xs IH]; intros d l v Hc.
  - assert (desc_plus d [] = d) as -> by (destruct d; unfold desc_plus; cbn; f_equal; lia). cbn [list_inserts app].
    unfold stored, with_buffers, with_descs. cbn. by rewrite !insert_insert_eq.
  - cbn [app]. rewrite <- (stored_stored p d l x xs v), <- (stored_stored p d l x (xs ++ ys) v) by done.
    rewrite <- (IH (desc_plus d [x])) by (cbn; lia). rewrite desc_plus_plus. f_equal. cbn [current_sample_data_cnt desc_plus length list_inserts].
    replace (Z.to_nat (current_sample_data_cnt d + Z.of_nat 1)) with (Datatypes.S (Z.to_nat (current_sample_data_cnt d))) by lia.
    by rewrite list_insert_inserts_lt by lia.
Qed.

Lemma desc_plus_app d xs ys : desc_plus (desc_plus d xs) ys = desc_plus d (xs ++ ys).
Proof using Type.
  unfold desc_plus. cbn. rewrite length_app. f_equal; [lia|]. destruct xs; cbn; [|by destruct (decide (ys = []))]. by destruct (decide (ys = [])).
Qed.

Context (call_handler : Z -> M all unit) (handler : Z).
(** The handler returns, and leaves the converter and its variables, the interrupt unit and the pins as they are. *)
Definition handler_returns : Prop := handler <> 0 -> forall s, adc_ok (at_world s) -> exists w, call_handler handler s = Val (tt, with_world s w) /\
  adc_ok w /\ time_passes (adc_of (at_world s)) (adc_of w) /\ beside (at_world s) w.

(** The interrupt is served when its line is enabled. *)
Definition line_on w : bool := Z.testbit (ireg w ICU_INTERRUPT_ENABLE) 11.
Fixpoint adc_interrupts (n : nat) : M all unit :=
  match n with
  | O => mret tt
  | Datatypes.S n' => (fun s => (if line_on (at_world s) then saradc_isr fuel sdev_ops call_handler else mret tt) s);; adc_interrupts n'
  end.

(** The samples [xs] are in the buffer, and the converter goes on; or it has all of them, and is closed. *)
Record recording (p : Z) (d : saradc_desc_t) (l xs : list Z) w0 w : Prop := {
  rc_ok : adc_ok w;
  rc_vars : avars w = stored p d l xs (avars w0);
  rc_icu b : in_icu b = true -> ireg w b = ireg w0 b;
  rc_sat : a_sat (adc_of w) = a_sat (adc_of w0);
  rc_room : (length xs < room d)%nat;
  rc_kept : exists new, a_came (adc_of w) = a_came (adc_of w0) ++ new /\ xs ++ a_fifo (adc_of w) = a_fifo (adc_of w0) ++ new;
}.
Record recorded (p : Z) (d : saradc_desc_t) (l xs : list Z) w0 w : Prop := {
  rd_stopped : stopped w;
  rd_vars : avars w = with_descs (<[p := desc_done (desc_plus d xs)]> (descs (avars w0))) (with_busy 0 (stored p d l xs (avars w0)));
  rd_line : line_on w = false;
  rd_sat : a_sat (adc_of w) = a_sat (adc_of w0);
  rd_full : length xs = room d;
  rd_from : exists new, a_came (adc_of w) = a_came (adc_of w0) ++ new /\ xs `prefix_of` a_fifo (adc_of w0) ++ new;
}.

Lemma recording_filling p d l xs w0 w : filling p d l w0 -> recording p d l xs w0 w ->
  filling p (desc_plus d xs) (list_inserts (Z.to_nat (current_sample_data_cnt d)) xs l) w.
Proof using Type.
  intros [F1 F2 F3 F4 F5 F6 F7] [_ V _ _ R _]. unfold room in R. split; rewrite ?V; cbn; try done.
  - apply lookup_insert_eq.
  - apply lookup_insert_eq.
  - lia.
  - by rewrite length_inserts.
Qed.
Lemma room_plus d xs : room (desc_plus d xs) = (room d - length xs)%nat.
Proof using Type. unfold room. cbn. lia. Qed.

(** One interrupt, whatever the handler: more samples, or the end of the recording before the handler is called. *)
Lemma interrupt_stores p d l xs w0 s : drivers s -> enough W fuel -> filling p d l w0 -> (room d <= fuel)%nat ->
  recording p d l xs w0 (at_world s) ->
  exists w ys, (recording p d l (xs ++ ys) w0 w /\ forall h : Z -> M all unit, saradc_isr fuel sdev_ops h s = Val (tt, with_world s w)) \/
    (recorded p d l (xs ++ ys) w0 w /\ forall h : Z -> M all unit, saradc_isr fuel sdev_ops h s = (when (truthy (p_Int_Handler d)) (h (p_Int_Handler d));; at_ext (saradc_int_clr fuel)) (with_world s w)).
Proof using Quiet0 AdcPut0 GpioRegs0.
  intros Hdr Hf Hfill Hfuel Hrec. pose proof (recording_filling _ _ _ _ _ _ Hfill Hrec) as Hfill'.
  destruct Hrec as [Rok Rv Ri Rs Rr (new0 & Ra & Rk)]. pose proof (fi_cnt _ _ _ _ Hfill) as Hc.
  destruct (adc_isr_val sdev_ops icu_addr gpio_addr fuel p _ _ s Hdr Rok Hf Hfill') as (new & ys & w & Hys & Q & E).
  { unfold room in Rr. cbn. lia. }
  { rewrite room_plus. lia. }
  rewrite room_plus in Hys, E. destruct Q as [Q1 Q2 Q3 _ (n1 & A1 & P1 & Q5)]. rewrite room_plus in Q2, Q3, Q5.
  destruct (decide (length ys < room d - length xs)%nat) as [Hn|Hn].
  - destruct (int_clr_top fuel (with_world s w) Q1 Hf) as (w' & E' & Hok' & ((n2 & F2 & A2 & _) & _ & _ & S2) & [BV BI _]).
    unfold at_world in F2, A2, S2, BV, BI. cbn in F2, A2, S2, BV, BI. destruct (Q2 Hn) as (_ & SA & V2 & I2). pose proof (Q5 Hn) as E1.
    exists w', ys. left. split; [|intros h; by rewrite E, E']. split.
    + done.
    + rewrite BV, V2, Rv. apply stored_app. lia.
    + intros b Hb. by rewrite BI, I2, Ri.
    + congruence.
    + rewrite length_app. lia.
    + exists (new0 ++ n1 ++ n2). split; [by rewrite A2, A1, Ra, <- !(assoc_L (++))|]. rewrite F2, <- (assoc_L (++)), (assoc_L (++) ys), E1, <- (assoc_L (++) (a_fifo _)), (assoc_L (++)), Rk.
      by rewrite <- (assoc_L (++)).
  - destruct (Q3 ltac:(lia)) as ((Hok & Hoff & Hq) & _ & SA & V3 & I3). rewrite Rv, stored_app in V3 by lia. rewrite desc_plus_app in E.
    destruct (adc_vars_put (with_descs (<[p := desc_done (desc_plus d (xs ++ ys))]> (descs (avars w))) (avars w)) w) as (Vf & If & _).
    exists (finished p (desc_plus d (xs ++ ys)) w), ys. right. unfold finished in E |- *.
    set (wf := hput (with_descs (<[p := desc_done (desc_plus d (xs ++ ys))]> (descs (avars w))) (avars w)) w) in *. assert (Af : adc_of wf = adc_of w) by apply adc_put. split; [|exact E]. split.
    + unfold stopped. rewrite !Af. split_and!; [by apply adc_put_ok|done|done].
    + rewrite Vf, V3. unfold with_descs, with_busy, stored. cbn. by rewrite insert_insert_eq.
    + unfold line_on. rewrite If, I3, Z.eqb_refl, Z.ldiff_spec by done. apply andb_false_r.
    + rewrite Af. congruence.
    + rewrite length_app. rewrite Hys, length_take in Hn |- *. lia.
    + exists (new0 ++ n1). split; [by rewrite Af, A1, Ra, (assoc_L (++))|]. rewrite (assoc_L (++)), <- Rk, <- (assoc_L (++)). by apply prefix_app.
Qed.

(** A recording that has ended stays so. *)
Lemma recorded_stays p d l xs w0 w w' : recorded p d l xs w0 w -> adc_ok w' -> time_passes (adc_of w) (adc_of w') ->
  avars w' = avars w -> line_on w' = line_on w -> recorded p d l xs w0 w'.
Proof using Type.
  intros [(D1 & D2 & D3) V L S F P] Hok T BV BL. destruct (passes_off _ _ _ T D2) as [F' Hoff']. pose proof (passes_came _ _ _ T D2) as A'. destruct T as (_ & _ & _ & S'). split.
  - unfold stopped. split_and!; [done|done|congruence].
  - congruence.
  - congruence.
  - congruence.
  - done.
  - by rewrite A'.
Qed.
Lemma beside_line w w' : beside w w' -> line_on w' = line_on w.
Proof using Type. intros [_ BI _]. unfold line_on. by rewrite BI. Qed.

Lemma interrupt_records p d l xs w0 s : drivers s -> enough W fuel -> filling p d l w0 -> p_Int_Handler d = handler -> handler_returns -> (room d <= fuel)%nat ->
  recording p d l xs w0 (at_world s) ->
  exists w ys, saradc_isr fuel sdev_ops call_handler s = Val (tt, with_world s w) /\ (recording p d l (xs ++ ys) w0 w \/ recorded p d l (xs ++ ys) w0 w).
Proof using Quiet0 AdcPut0.
  intros Hdr Hf Hfill Hh Hret Hfuel Hrec. destruct (interrupt_stores p d l xs w0 s Hdr Hf Hfill Hfuel Hrec) as (w & ys & [[R E]|[R E]]).
  { exists w, ys. split; [apply E|by left]. }
  assert (Hok : adc_ok w) by apply (rd_stopped _ _ _ _ _ _ R).
  assert (Hcall : exists w1, (when (truthy handler) (call_handler handler) : M all unit) (with_world s w) = Val (tt, with_world s w1) /\ adc_ok w1 /\
    time_passes (adc_of w) (adc_of w1) /\ beside w w1).
  { unfold truthy. destruct (Z.eqb_spec handler 0) as [Ez|Hne]; cbn [negb when].
    - exists w. split_and!; [done|done|apply time_passes_refl|done].
    - destruct (Hret Hne (with_world s w) Hok) as (w1 & E1 & Hok1 & T1 & B1). by exists w1. }
  destruct Hcall as (w1 & E1 & Hok1 & T1 & B1). destruct (int_clr_top fuel (with_world s w1) Hok1 Hf) as (w' & E' & Hok' & T' & B').
  exists w', ys. split; [by rewrite E, Hh, (bind_ret_val _ _ _ _ _ E1), E'|]. right.
  apply (recorded_stays _ _ _ _ _ w1); [apply (recorded_stays _ _ _ _ _ w); try done|done|done|..]; by first [apply bs_vars|apply beside_line].
Qed.

(** Interrupts after the line is off do nothing. *)
Lemma line_off_interrupts n s : line_on (at_world s) = false -> adc_interrupts n s = Val (tt, s).
Proof using Type.
  intros Hl. induction n as [|n IH]; [done|]. cbn [adc_interrupts]. mstep by (by rewrite Hl). exact IH.
Qed.

Lemma recording_goes_on p d l n w0 s : drivers s -> enough W fuel -> filling p d l w0 -> adc_ok w0 -> line_on w0 = true ->
  current_sample_data_cnt d < data_buff_size d -> (room d <= fuel)%nat -> p_Int_Handler d = handler -> handler_returns ->
  exists w xs, adc_interrupts n (with_world s w0) = Val (tt, with_world s w) /\ (recording p d l xs w0 w \/ recorded p d l xs w0 w).
Proof using Quiet0 AdcPut0.
  intros Hdr Hf Hfill Hok Hline Hsize Hfuel Hh Hret.
  assert (Hruns : forall k xs w, recording p d l xs w0 w -> exists w' xs', adc_interrupts k (with_world s w) = Val (tt, with_world s w') /\
    (recording p d l xs' w0 w' \/ recorded p d l xs' w0 w')).
  { intros k. induction k as [|k IH]; intros xs w Hrec; [exists w, xs; split; [done|by left]|]. cbn [adc_interrupts].
    assert (Hon : line_on w = true) by (unfold line_on; by rewrite (rc_icu _ _ _ _ _ _ Hrec)).
    destruct (interrupt_records p d l xs w0 (with_world s w) Hdr Hf Hfill Hh Hret Hfuel Hrec) as (w1 & ys & E1 & Hor).
    change (with_world (with_world s w) w1) with (with_world s w1) in E1.
    assert (Estep : (fun s => (if line_on (at_world s) then saradc_isr fuel sdev_ops call_handler else mret tt) s) (with_world s w) = Val (tt, with_world s w1))
      by (change (at_world (with_world s w)) with w; by rewrite Hon, E1).
    rewrite (bind_ret_val _ _ _ _ _ Estep). destruct Hor as [Hr|Hd]; [by apply (IH (xs ++ ys))|].
    exists w1, (xs ++ ys). split; [|by right]. apply line_off_interrupts. apply (rd_line _ _ _ _ _ _ Hd). }
  apply (Hruns n []). split; [done| |done|done|unfold room; cbn; lia|by exists []; rewrite !app_nil_r].
  symmetry. apply stored_nil; [apply (fi_desc _ _ _ _ Hfill)|apply (fi_buf _ _ _ _ Hfill)].
Qed.

(** What opening leaves is a recording without samples. *)
Lemma opened_filling p d l w w' : p <> 0 -> buffers (avars w) !! pData d = Some l -> 0 < data_buff_size d < 256 -> data_buff_size d <= Z.of_nat (length l) ->
  opened p d w w' -> filling p (desc_reset d) l w'.
Proof using Type.
  intros Hp Hl Hs Hlen [_ _ _ _ V _ _]. split; rewrite ?V; cbn; try done; try lia. apply lookup_insert_eq.
Qed.

(** C10: from the opening of the converter on, after any number of interrupts the
    caller's buffer holds, from the first place on, the samples that the converter
    has delivered since (the history [came] of its queue), in their order and none
    missing: while there is room, what is stored and what waits in the queue is
    exactly that history, and what a full buffer holds is how it begins; the
    descriptor counts them; when the buffer is full the converter is stopped, free and
    its interrupt disabled, the descriptor says that all is done, and further
    interrupts change nothing. *)
Theorem saradc_records_samples p d l s : drivers s -> adc_ok (at_world s) -> idle_off (at_world s) -> enough W fuel -> p <> 0 ->
  descs (avars (at_world s)) !! p = Some d -> desc_fits d = true -> saradc_is_busy (avars (at_world s)) = 0 ->
  buffers (avars (at_world s)) !! pData d = Some l -> 0 < data_buff_size d < 256 -> data_buff_size d <= Z.of_nat (length l) ->
  (Z.to_nat (data_buff_size d) <= fuel)%nat -> p_Int_Handler d = handler -> handler_returns ->
  exists w0, saradc_open fuel sdev_ops p s = Val (SARADC_SUCCESS, with_world s w0) /\
  forall n, exists w xs came d' l', adc_interrupts n (with_world s w0) = Val (tt, with_world s w) /\
    a_came (adc_of w) = a_came (adc_of (at_world s)) ++ came /\
    descs (avars w) !! p = Some d' /\ buffers (avars w) !! pData d = Some l' /\ current_sample_data_cnt d' = Z.of_nat (length xs) /\ take (length xs) l' = xs /\
    (Z.of_nat (length xs) < data_buff_size d /\ saradc_is_busy (avars w) = 1 /\ all_done d' = 0 /\
        came = xs ++ a_fifo (adc_of w) \/
     Z.of_nat (length xs) = data_buff_size d /\ xs `prefix_of` came /\ stopped w /\ saradc_is_busy (avars w) = 0 /\ all_done d' = 1 /\
        line_on w = false /\ forall k, adc_interrupts k (with_world s w) = Val (tt, with_world s w)).
Proof using Quiet0 AdcPut0.
  intros Hdr Hok Hidle Hf Hp Hd Hfit Hbusy Hl Hsize Hlen Hfuel Hh Hret.
  destruct (adc_open_val sdev_ops icu_addr gpio_addr fuel p d s Hdr Hok (Hidle Hbusy) Hf Hp Hd Hfit Hbusy) as (w0 & E0 & Hop). exists w0. split; [exact E0|]. intros n.
  pose proof (opened_filling p d l _ w0 Hp Hl Hsize Hlen Hop) as Hfill. destruct Hop as [Ook _ _ Oa Ov Oi _]. set (d0 := desc_reset d) in *.
  assert (Hline : line_on w0 = true) by (unfold line_on; rewrite Oi, Z.eqb_refl, Z.lor_spec by done; apply orb_true_r).
  assert (Hroom : room d0 = Z.to_nat (data_buff_size d)) by (unfold room, d0; cbn; lia).
  destruct (recording_goes_on p d0 l n w0 s Hdr Hf Hfill Ook Hline) as (w & xs & E & Hor); [unfold d0; cbn; lia|rewrite Hroom; lia|done|done|].
  assert (Htake : forall xs, (length xs <= room d0)%nat -> take (length xs) (list_inserts 0 xs l) = xs).
  { intros ys Hys. rewrite <- (take_drop (length ys) l), list_inserts_0_r by (rewrite length_take; lia). by rewrite take_app_length. }
  exists w, xs. destruct Hor as [[Q1 Q2 Q3 _ Q4 (new & Qa & Q5)]|[D1 D2 D3 _ D4 (new & Da & D5)]]; exists (a_fifo (adc_of w0) ++ new).
  - exists (desc_plus d0 xs), (list_inserts 0 xs l). rewrite Q2. unfold stored. cbn. rewrite !lookup_insert_eq, Htake by lia.
    split_and!; try done; [by rewrite Qa, Oa, <- (assoc_L (++))|]. left. rewrite Ov. split_and!; [lia|done..].
  - exists (desc_done (desc_plus d0 xs)), (list_inserts 0 xs l). rewrite D2. unfold stored. cbn. rewrite !lookup_insert_eq, Htake by lia.
    split_and!; try done; [by rewrite Da, Oa, <- (assoc_L (++))|]. right. split_and!; try done; [lia|]. intros k. by apply line_off_interrupts.
Qed.
End system.

(** ** A board *)
Definition adc_board : Type := with_state saradc_vars (with_state clock_vars (with_adc (with_file gpio_block icu_file))).
#[export] Instance adc_board_gpio : GpioRegs adc_board := with_state_block gpio_block saradc_vars.

(** A descriptor at 1 with a buffer of five words at 2, channel 3, a handler at 9;
    two samples are left of before, and more will arrive. *)
Definition demo_desc : saradc_desc_t :=
  SaradcDesc 2 7 7 5 1 1 3 (sd_mode default_desc) 9 (pre_div default_desc) (samp_rate default_desc) (sd_filter default_desc).
Definition demo_clock_vars : clock_vars :=
  ClockVars (Fclk 0 0 0 0 0) (CalTick 0 0) (WdgVars 0 0 0) (McuPsInfo 0 0 0) (McuPsTsf 0 0) (McuPsMachw 0 0) (Debt 0 0) (Bcn [] 0).
Definition demo_adc : adc_board :=
  WithState (SaradcVars 0 (SaradcCalibrate 0x55 0x354) 0 {[1 := demo_desc]} {[2 := replicate 5 0]})
    (WithState demo_clock_vars (WithAdc (AdcLine [70; 71] 1 0 0 [70; 71]) (replicate 12 [] ++ [[100; 101]; []; [102; 103; 104]; [105; 106]])
      (WithFile gpio_block (fun _ => 0) (IcuFile (fun _ => 0x80) [])))).
Definition demo_adc_ops (a : Z) : SDD_OPERATIONS (intc_st adc_board) := sop_lift (fun A => on_ext (A := A)) (if a =? 1 then icu_op else gpio_word_op).
Definition demo_adc_tbl : list DRV_SDEV_S :=
  [DRV_DEV (Some ICU_DEV_NAME) 0 DD_STATE_CLOSED (Some 1); DRV_DEV (Some GPIO_DEV_NAME) 0 DD_STATE_CLOSED (Some 2)].
Definition demo_adc_all : drv_state (intc_st adc_board) := DrvState [] demo_adc_tbl (intc_start demo_adc).
Definition demo_handler (a : Z) : M (drv_state (intc_st adc_board)) unit := mret tt.

Lemma demo_adc_drivers : adc_drivers demo_adc_ops 1 2 demo_adc_all.
Proof. split_and!; [done|by exists 0%nat|done|by exists 1%nat]. Qed.
Lemma demo_adc_ok : adc_ok (at_world demo_adc_all).
Proof. split_and!; [cbn; unfold sim_depth; lia|cbn; lia| |done|done|done]. repeat constructor; done. Qed.
Lemma demo_adc_enough : enough adc_board 8.
Proof. split; cbn; unfold sim_depth; lia. Qed.
Lemma demo_handler_returns : handler_returns demo_handler 9.
Proof. intros _ s Hok. exists (at_world s). split_and!; [by destruct s as [? ? []]|done|apply time_passes_refl|done]. Qed.

Lemma saradc_open_gives_witness : exists w v w1, saradc_open 8 demo_adc_ops 1 demo_adc_all = Val (SARADC_SUCCESS, with_world demo_adc_all w) /\
  bus_read SARADC_ADC_CONFIG w = (v, w1) /\ configured demo_desc v /\ Z.testbit (ireg w ICU_INTERRUPT_ENABLE) 11 = true.
Proof.
  pose proof (saradc_open_gives demo_adc_ops 1 2 8 1 demo_desc demo_adc_all demo_adc_drivers demo_adc_ok ltac:(done) demo_adc_enough ltac:(done) ltac:(done)) as Hw.
  change (desc_fits demo_desc && _) with true in Hw. cbv iota in Hw.
  destruct Hw as (w & v & w1 & w2 & E & E1 & C & _ & I & _). exists w, v, w1. split_and!; [exact E|exact E1|exact C|exact I].
Defined.

Lemma saradc_records_samples_witness : exists w0 w (xs came : list Z) d', saradc_open 8 demo_adc_ops 1 demo_adc_all = Val (SARADC_SUCCESS, with_world demo_adc_all w0) /\
  adc_interrupts demo_adc_ops 8 demo_handler 2 (with_world demo_adc_all w0) = Val (tt, with_world demo_adc_all w) /\
  a_came (adc_of w) = [70; 71] ++ came /\ descs (avars w) !! 1 = Some d' /\ current_sample_data_cnt d' = Z.of_nat (length xs).
Proof.
  destruct (saradc_records_samples demo_adc_ops 1 2 8 demo_handler 9 1 demo_desc (replicate 5 0) demo_adc_all demo_adc_drivers demo_adc_ok
    ltac:(done) demo_adc_enough ltac:(done) ltac:(done) ltac:(done) ltac:(done) ltac:(done) ltac:(cbn; lia) ltac:(cbn; lia) ltac:(cbn; lia)
    ltac:(done) demo_handler_returns) as (w0 & E0 & Hn).
  destruct (Hn 2%nat) as (w & xs & came & d' & l' & E & A & D & _ & C & _). exists w0, w, xs, came, d'. split_and!; [exact E0|exact E|exact A|exact D|exact C].
Defined.

(** The samples of before are gone; the five that arrive are in the buffer after a few interrupts. *)
Example demo_recording :
  match (saradc_open 8 demo_adc_ops 1;; adc_interrupts demo_adc_ops 8 demo_handler 4) demo_adc_all with
  | Val (_, s') => (buffers (avars (at_world s')) !! 2, all_done <$> descs (avars (at_world s')) !! 1, saradc_is_busy (avars (at_world s')))
  | Err _ => (None, None, 7)
  end = (Some [100; 101; 102; 103; 104], Some 1, 0).
Proof. vm_compute. reflexivity. Qed.
