(* ===== verification/SaradcFrame.v ===== *)
(** * What the converter's driver leaves alone

    The calls of driver/saradc/saradc.c do not change the variables of another
    driver, nor the tables of the registry: a client that keeps variables of its
    own finds them after an opening, an interrupt or a closing as they were. *)
From stdpp Require Import strings gmap.
From S2P Require Import Prelude DrvModel Icu Regs Intc Stack Gpio GpioCorrect GpioStack Clock SaradcHw Saradc SaradcCorrect.
Local Open Scope Z_scope.

(** [m] leaves [f] of the state as it is, if it returns. *)
Definition leaves {S A X} (f : S -> X) (m : M S A) : Prop := forall s a s', m s = Val (a, s') -> f s' = f s.

Section rules.
Context {S X : Type} (f : S -> X).
Lemma leaves_ret {A} (a : A) : leaves f (mret a).
Proof. by intros s a' s' [= _ <-]. Qed.
Lemma leaves_fail {A} e : leaves f (fail e : M S A).
Proof. by intros s a s'. Qed.
Lemma leaves_lift_res {A} (r : res A) : leaves f (lift_res r).
Proof. intros s a s'. unfold lift_res. destruct r; [|done]. by intros [= _ <-]. Qed.
Lemma leaves_bind {A B} (m : M S A) (k : A -> M S B) : leaves f m -> (forall a, leaves f (k a)) -> leaves f (mbind k m).
Proof.
  intros Hm Hk s b s'. unfold mbind, M_bind. destruct (m s) as [[a s1]|] eqn:E; [|done]. intros E2. by rewrite (Hk _ _ _ _ E2), (Hm _ _ _ E).
Qed.
Lemma leaves_when (b : bool) m : leaves f m -> leaves f (when b m).
Proof. intros Hm. destruct b; [done|apply leaves_ret]. Qed.
Lemma leaves_gets {Y A} `{Holds Y S} (g : Y -> A) : leaves f (gets g).
Proof. by intros s a s' [= _ <-]. Qed.
End rules.

Create HintDb leaves.
#[export] Hint Resolve leaves_ret leaves_fail leaves_lift_res leaves_gets : leaves.
Ltac leaves :=
  repeat first
    [ simple apply leaves_bind; [|intros ?] | simple apply leaves_when | solve [auto with leaves]
    | match goal with
      | |- leaves _ (if ?b then _ else _) => destruct b
      | |- leaves _ (match ?x with _ => _ end) => destruct x
      end ].

(** ** Over the registers and the variables *)
Section vars.
Context {W Y : Type} `{RegBus W, !Holds saradc_vars W, !Holds Y W, !Quiet Y W, !VarsApart saradc_vars Y W}.
Abbreviation mine := (hget : W -> Y).

Lemma leaves_read a : leaves mine (REG_READ a).
Proof using Quiet0. intros w v w' E. unfold REG_READ in E. injection E as E. rewrite <- (f_equal snd E : _ = w'). apply quiet_read. Qed.
Lemma leaves_write a v : leaves mine (REG_WRITE a v).
Proof using Quiet0. intros w u w' [= _ <-]. apply quiet_write. Qed.
Lemma leaves_sets f : leaves mine (sets (f : saradc_vars -> saradc_vars)).
Proof using VarsApart0. intros w u w' [= _ <-]. apply vars_apart. Qed.
Hint Resolve leaves_read leaves_write leaves_sets : leaves.

Lemma leaves_cfg_update f : leaves mine (cfg_update f).
Proof using Quiet0 VarsApart0. unfold cfg_update. leaves. Qed.
Lemma leaves_drain n v : leaves mine (drain_loop n v).
Proof using Quiet0 VarsApart0. revert v. induction n as [|n IH]; intros v; cbn [drain_loop]; leaves. Qed.
Lemma leaves_clear_fifo n : leaves mine (clear_fifo n).
Proof using Quiet0 VarsApart0. unfold clear_fifo. leaves. apply leaves_drain. Qed.
Lemma leaves_int_clr n : leaves mine (saradc_int_clr n).
Proof using Quiet0 VarsApart0. unfold saradc_int_clr. induction n as [|n IH]; cbn [int_clr_loop]; leaves. apply leaves_cfg_update. Qed.
Lemma leaves_desc_at p : leaves mine (desc_at p).
Proof using Quiet0 VarsApart0. unfold desc_at. leaves. Qed.
Lemma leaves_cur_desc : leaves mine cur_desc.
Proof using Quiet0 VarsApart0. unfold cur_desc. leaves. apply leaves_desc_at. Qed.
Lemma leaves_desc_set p f : leaves mine (desc_set p f).
Proof using Quiet0 VarsApart0. unfold desc_set. leaves. apply leaves_desc_at. Qed.
Lemma leaves_cur_set f : leaves mine (cur_set f).
Proof using Quiet0 VarsApart0. unfold cur_set. leaves. apply leaves_desc_set. Qed.
Lemma leaves_buffer_set b i x : leaves mine (buffer_set b i x).
Proof using Quiet0 VarsApart0. unfold buffer_set. leaves. Qed.
Lemma leaves_take_sample x : leaves mine (take_sample x).
Proof using Quiet0 VarsApart0. unfold take_sample. leaves; first [apply leaves_cur_desc|apply leaves_buffer_set|apply leaves_cur_set]. Qed.
End vars.

(** ** From the top *)
Section system.
Context {W Y : Type} `{RegBus W, !IcuRegs W, !GpioRegs W, !AdcSpec W, !Holds saradc_vars W, !Quiet saradc_vars W, !AdcPut saradc_vars W, !Holds clock_vars W}.
Context `{!Holds Y W, !Quiet Y W, !VarsApart saradc_vars Y W}.
Abbreviation all := (drv_state (intc_st W)).
Context (sdev_ops : Z -> SDD_OPERATIONS (intc_st W)) (icu_addr gpio_addr : Z) (fuel : nat).
Implicit Types s : all.

(** The variables [Y] and the tables. *)
Definition mine_of s : Y * (list DRV_DEV_S * list DRV_SDEV_S) := (hget (at_world s), (drv_dev_tbl s, drv_sdev_tbl s)).
(** ... from states where the interrupt unit and the pins are behind the registry. *)
Definition keeps {A} (m : M all A) : Prop := forall s a s', adc_drivers sdev_ops icu_addr gpio_addr s -> m s = Val (a, s') ->
  mine_of s' = mine_of s.

Lemma keeps_drivers s s' : mine_of s' = mine_of s -> adc_drivers sdev_ops icu_addr gpio_addr s -> adc_drivers sdev_ops icu_addr gpio_addr s'.
Proof using Type. unfold mine_of, adc_drivers. intros [= _ _ E]. by rewrite E. Qed.
Lemma keeps_ret {A} (a : A) : keeps (mret a).
Proof using Type. by intros s a' s' _ [= _ <-]. Qed.
Lemma keeps_fail {A} e : keeps (fail e : M all A).
Proof using Type. by intros s a s'. Qed.
Lemma keeps_bind {A B} (m : M all A) (k : A -> M all B) : keeps m -> (forall a, keeps (k a)) -> keeps (mbind k m).
Proof using Type.
  intros Hm Hk s b s' Hd. unfold mbind, M_bind. destruct (m s) as [[a s1]|] eqn:E; [|done]. intros E2.
  pose proof (Hm _ _ _ Hd E) as K. by rewrite (Hk _ _ _ _ (keeps_drivers _ _ K Hd) E2), K.
Qed.
Lemma keeps_when (b : bool) m : keeps m -> keeps (when b m).
Proof using Type. intros Hm. destruct b; [done|apply keeps_ret]. Qed.
Lemma keeps_ext {A} (m : M W A) : leaves (hget : W -> Y) m -> keeps (at_ext m).
Proof using Type.
  intros Hm s a s' _ E. unfold at_ext, call, on_ext in E. destruct (m (ext (world s))) as [[a1 w]|] eqn:E1; [|done]. injection E as <- <-.
  unfold mine_of, at_world. cbn. by rewrite (Hm _ _ _ E1).
Qed.

Lemma keeps_icu (set : bool) on off r p : (on, off, r) ∈ icu_pairs -> keeps (icu_do sdev_ops (if set then on else off) p).
Proof using IcuRegs0 Quiet1.
  intros Hp s a s' (Hi & Hs & _) E.
  assert (Hrun : exists w, sddev_control sdev_ops (Some ICU_DEV_NAME) (if set then on else off) p s = Val ((ICU_SUCCESS, p), with_world s w) /\
    icu_ctrl (if set then on else off) (Some p) (at_world s) = Val (ICU_SUCCESS, w)).
  { destruct set; [destruct (icu_set sdev_ops icu_addr on off r p s Hi Hs Hp) as (w & E1 & E2 & _)|destruct (icu_clear sdev_ops icu_addr on off r p s Hi Hs Hp) as (w & E1 & E2 & _)];
      by exists w. }
  destruct Hrun as (w & E1 & E2). unfold icu_do in E. rewrite (bind_ret_val _ _ _ _ _ E1) in E. injection E as _ <-.
  unfold mine_of, at_world. cbn. by rewrite (icu_touches _ _ _ (respects_vars (W := W) Y in_icu) _ _ _ E2).
Qed.

Lemma keeps_gpio : keeps (saradc_gpio_config sdev_ops).
Proof using GpioRegs0 Quiet1 VarsApart0.
  unfold saradc_gpio_config. apply keeps_bind; [apply keeps_ext, leaves_cur_desc|intros d]. pose proof (adc_pin_function (sd_channel d)) as Hf.
  destruct (adc_function (sd_channel d)) as [m|], (adc_pin (sd_channel d)) as [[i pm]|]; try done; [|apply keeps_ret].
  destruct Hf as [Hin _]. intros s a s' (_ & _ & Hg & Hs) E.
  destruct (gpio_second sdev_ops gpio_addr m _ s Hg Hs Hin eq_refl) as (v & w & _ & E1 & E2 & _). rewrite (bind_ret_val _ _ _ _ _ E1) in E. injection E as _ <-.
  unfold mine_of, at_world. cbn. by rewrite (function_touches m _ (respects_vars (W := W) Y in_gpio) _ _ _ E2).
Qed.

Lemma keeps_close : keeps (saradc_close fuel sdev_ops).
Proof using IcuRegs0 GpioRegs0 Quiet1 VarsApart0.
  unfold saradc_close, saradc_disable_interrupt, saradc_disable_icu_config.
  apply keeps_bind; [apply (keeps_icu false _ _ _ _ line_pair)|intros _]. apply keeps_bind; [apply keeps_ext|intros _].
  { leaves; [apply leaves_cfg_update|apply leaves_clear_fifo|apply leaves_int_clr]. }
  apply keeps_bind; [apply (keeps_icu true _ _ _ _ clock_pair)|intros _]. apply keeps_bind; [apply keeps_ext, leaves_sets|intros _]. apply keeps_ret.
Qed.

Lemma keeps_open p : keeps (saradc_open fuel sdev_ops p).
Proof using IcuRegs0 GpioRegs0 Quiet1 VarsApart0.
  unfold saradc_open, saradc_enable_icu_config, saradc_enable_interrupt. apply keeps_bind; [apply keeps_ext, leaves_desc_at|intros d].
  destruct (_ || _); [apply keeps_ret|]. apply keeps_bind; [apply keeps_ext, leaves_gets|intros b]. destruct (negb _); [apply keeps_ret|].
  apply keeps_bind; [apply keeps_ext, leaves_sets|intros _]. apply keeps_bind; [apply (keeps_icu false _ _ _ _ clock_pair)|intros _].
  apply keeps_bind; [apply keeps_ext; leaves; [apply leaves_sets|apply leaves_cur_set]|intros _]. apply keeps_bind; [apply keeps_gpio|intros _].
  apply keeps_bind; [apply keeps_ext|intros _].
  { leaves; first [apply leaves_clear_fifo|apply leaves_int_clr|apply leaves_cur_desc|apply leaves_write]. }
  apply keeps_bind; [apply (keeps_icu true _ _ _ _ line_pair)|intros _]. apply keeps_ret.
Qed.

Lemma keeps_isr_loop n v : keeps (isr_loop fuel sdev_ops n v).
Proof using IcuRegs0 GpioRegs0 Quiet1 VarsApart0.
  revert v. induction n as [|n IH]; intros v; cbn [isr_loop]; destruct (truthy _); try apply keeps_ret; [apply keeps_fail|].
  apply keeps_bind; [apply keeps_ext; leaves; [apply leaves_read|apply leaves_take_sample]|intros b].
  apply keeps_bind; [apply keeps_when, keeps_bind; [apply keeps_close|intros _; apply keeps_ret]|intros _].
  apply keeps_bind; [apply keeps_ext, leaves_read|intros v']. apply IH.
Qed.
Lemma keeps_isr (h : Z -> M all unit) : (forall a, keeps (h a)) -> keeps (saradc_isr fuel sdev_ops h).
Proof using IcuRegs0 GpioRegs0 Quiet1 VarsApart0.
  intros Hh. unfold saradc_isr. apply keeps_bind; [apply keeps_ext, leaves_read|intros v]. apply keeps_bind; [apply keeps_isr_loop|intros _].
  apply keeps_bind; [apply keeps_ext, leaves_cur_desc|intros d]. apply keeps_bind; [apply keeps_when|intros _; apply keeps_ext, leaves_int_clr].
  apply keeps_bind; [apply keeps_ext, leaves_cur_set|intros _]. apply keeps_bind; [apply keeps_ext, leaves_cur_desc|intros d']. apply keeps_when, Hh.
Qed.
End system.
