(* ===== verification/SysCtrl.v ===== *)
(** * System control (driver/sys_ctrl/sys_ctrl.c)

    The control command of the system controller: clocks, resets, power of the
    subsystems and of the analogue blocks, the analogue registers behind their
    serial bus, the one-time-programmable bytes, and the hold of the
    radio.  The entry to deep sleep is an argument of the model: it stops the
    processor.  The sequences of start-up and sleep are not modelled. *)
From stdpp Require Import strings.
From S2P Require Import Prelude DrvModel Icu Regs Stack.
Local Open Scope Z_scope.

(** ** The registers (sys_ctrl.h) *)
Definition SCTRL_BASE : Z := 0x00800000.
Definition SCTRL_CHIP_ID : Z := SCTRL_BASE + 00 * 4.
Definition SCTRL_DEVICE_ID : Z := SCTRL_BASE + 01 * 4.
Definition SCTRL_CONTROL : Z := SCTRL_BASE + 02 * 4.
Definition EFUSE_VDD25_EN : Z := Z.shiftl 1 23.
Definition PSRAM_VDDPAD_VOLT_POSI : Z := 20.
Definition PSRAM_VDDPAD_VOLT_MASK : Z := 0x3.
Definition QSPI_IO_VOLT_POSI : Z := 16.
Definition QSPI_IO_VOLT_MASK : Z := 0x3.
Definition BLE_RF_EN_BIT : Z := Z.shiftl 1 15.
Definition MPIF_CLK_INVERT_BIT : Z := Z.shiftl 1 12.
Definition MODEM_CLK480M_PWD_BIT : Z := Z.shiftl 1 10.
Definition FLASH_26M_MUX_BIT : Z := Z.shiftl 1 8.
Definition MCLK_DIV_MASK : Z := 0x0F.
Definition MCLK_DIV_POSI : Z := 4.
Definition MCLK_MUX_MASK : Z := 0x03.
Definition MCLK_MUX_POSI : Z := 0.
Definition SCTRL_RESET : Z := SCTRL_BASE + 4 * 4.
Definition SCTRL_RESET_MASK : Z := 0x7F.
Definition MODEM_CORE_RESET_BIT : Z := Z.shiftl 1 6.
Definition SCTRL_MODEM_SUBCHIP_RESET_REQ : Z := SCTRL_BASE + 8 * 4.
Definition MODEM_SUBCHIP_RESET_WORD : Z := 0x7111e802.
Definition SCTRL_MAC_SUBSYS_RESET_REQ : Z := SCTRL_BASE + 9 * 4.
Definition MAC_SUBSYS_RESET_WORD : Z := 0x7111C802.
Definition SCTRL_USB_SUBSYS_RESET_REQ : Z := SCTRL_BASE + 10 * 4.
Definition USB_SUBSYS_RESET_WORD : Z := 0x7111C12B.
Definition SCTRL_DSP_SUBSYS_RESET_REQ : Z := SCTRL_BASE + 11 * 4.
Definition DSP_SUBSYS_RESET_WORD : Z := 0x7111C410.
Definition SCTRL_MODEM_CORE_RESET_PHY_HCLK : Z := SCTRL_BASE + 12 * 4.
Definition MODEM_CORE_RESET_POSI : Z := 16.
Definition MODEM_CORE_RESET_MASK : Z := 0xFFFF.
Definition MODEM_CORE_RESET_WORD : Z := 0xE802.
Definition PHY_HCLK_EN_BIT : Z := Z.shiftl 1 0.
Definition SCTRL_ANALOG_SPI : Z := SCTRL_BASE + 16 * 4.
Definition ANA_SPI_STATE_POSI : Z := 0.
Definition ANA_SPI_STAET_MASK : Z := 0x7F.
Definition SCTRL_ANALOG_CTRL0 : Z := SCTRL_BASE + 22 * 4.
Definition SPI_TRIG_BIT : Z := Z.shiftl 1 19.
Definition SPI_DET_EN : Z := Z.shiftl 1 4.
Definition SCTRL_ANALOG_CTRL1 : Z := SCTRL_BASE + 23 * 4.
Definition SCTRL_ANALOG_CTRL2 : Z := SCTRL_BASE + 24 * 4.
Definition XTALH_CTUNE_POSI : Z := 2.
Definition XTALH_CTUNE_MASK : Z := 0x3F.
Definition SCTRL_ANALOG_CTRL3 : Z := SCTRL_BASE + 25 * 4.
Definition SCTRL_ANALOG_CTRL4 : Z := SCTRL_BASE + 26 * 4.
Definition SCTRL_ANALOG_CTRL5 : Z := SCTRL_BASE + 0x1B * 4.
Definition SCTRL_ANALOG_CTRL6 : Z := SCTRL_BASE + 0x1C * 4.
Definition DPLL_CLK_FOR_AUDIO_EN : Z := Z.shiftl 1 31.
Definition DPLL_DIVIDER_CLK_SEL : Z := Z.shiftl 1 29.
Definition DPLL_RESET : Z := Z.shiftl 1 3.
Definition SCTRL_EFUSE_CTRL : Z := SCTRL_BASE + 0x1D * 4.
Definition EFUSE_OPER_EN : Z := Z.shiftl 1 0.
Definition EFUSE_OPER_DIR : Z := Z.shiftl 1 1.
Definition EFUSE_OPER_ADDR_POSI : Z := 8.
Definition EFUSE_OPER_ADDR_MASK : Z := 0x1F.
Definition EFUSE_OPER_WR_DATA_POSI : Z := 16.
Definition EFUSE_OPER_WR_DATA_MASK : Z := 0xFF.
Definition SCTRL_EFUSE_OPTR : Z := SCTRL_BASE + 0x1E * 4.
Definition EFUSE_OPER_RD_DATA_POSI : Z := 0.
Definition EFUSE_OPER_RD_DATA_MASK : Z := 0xFF.
Definition EFUSE_OPER_RD_DATA_VALID : Z := Z.shiftl 1 8.
Definition SCTRL_LOW_PWR_CLK : Z := SCTRL_BASE + 64 * 4.
Definition LPO_CLK_MUX_POSI : Z := 0.
Definition LPO_CLK_MUX_MASK : Z := 0x3.
Definition SCTRL_DIGTAL_VDD : Z := SCTRL_BASE + 66 * 4.
Definition DIG_VDD_ACTIVE_POSI : Z := 4.
Definition DIG_VDD_ACTIVE_MASK : Z := 0x7.
Definition SCTRL_PWR_MAC_MODEM : Z := SCTRL_BASE + 67 * 4.
Definition MAC_PWD_POSI : Z := 16.
Definition MODEM_PWD_POSI : Z := 0.
Definition PWD_MASK : Z := 0xFFFF.
Definition MAC_PWD : Z := 0xD802.
Definition MODEM_PWD : Z := 0xD802.
Definition PWU : Z := 0x0001.
Definition SCTRL_DSP_PWR : Z := SCTRL_BASE + 68 * 4.
Definition DSP_PWD : Z := 0xD410.
Definition SCTRL_USB_PWR : Z := SCTRL_BASE + 69 * 4.
Definition BLE_PWD_POSI : Z := 16.
Definition BLE_PWD : Z := 0xDB1E.
Definition USB_PWD_POSI : Z := 0.
Definition USB_PWD : Z := 0xD12B.
Definition SCTRL_BLOCK_EN_CFG : Z := SCTRL_BASE + 75 * 4.
Definition BLOCK_EN_WORD_POSI : Z := 20.
Definition BLOCK_EN_WORD_MASK : Z := 0xFFF.
Definition BLOCK_EN_WORD_PWD : Z := 0xA5C.
Definition BLOCK_EN_VALID_MASK : Z := 0xFFFFF.
Definition SCTRL_BIAS : Z := SCTRL_BASE + 76 * 4.
Definition SCTRL_SW_RETENTION : Z := SCTRL_BASE + 84 * 4.
(** reg_rc.h *)
Definition RC_CNTL_STAT_ADDR : Z := 0x01050000.

(** ** The commands (sys_ctrl_pub.h) *)
Definition SCTRL_DEV_NAME : string := "sys_ctrl".
Definition SCTRL_FAILURE : Z := 0xFFFFFFFF.
Definition SCTRL_SUCCESS : Z := 0.
Definition SCTRL_CMD_MAGIC : Z := 0xC123000.
Definition CMD_GET_CHIP_ID : Z := SCTRL_CMD_MAGIC + 1.
Definition CMD_GET_DEVICE_ID : Z := SCTRL_CMD_MAGIC + 2.
Definition CMD_GET_SCTRL_CONTROL : Z := SCTRL_CMD_MAGIC + 3.
Definition CMD_SET_SCTRL_CONTROL : Z := SCTRL_CMD_MAGIC + 4.
Definition CMD_SCTRL_MCLK_SELECT : Z := SCTRL_CMD_MAGIC + 5.
Definition CMD_SCTRL_MCLK_DIVISION : Z := SCTRL_CMD_MAGIC + 6.
Definition CMD_SCTRL_MCLK_MUX_GET : Z := SCTRL_CMD_MAGIC + 7.
Definition CMD_SCTRL_MCLK_DIV_GET : Z := SCTRL_CMD_MAGIC + 8.
Definition CMD_SCTRL_RESET_SET : Z := SCTRL_CMD_MAGIC + 9.
Definition CMD_SCTRL_RESET_CLR : Z := SCTRL_CMD_MAGIC + 10.
Definition CMD_SCTRL_MODEM_CORE_RESET : Z := SCTRL_CMD_MAGIC + 11.
Definition CMD_SCTRL_MPIF_CLK_INVERT : Z := SCTRL_CMD_MAGIC + 12.
Definition CMD_SCTRL_MODEM_SUBCHIP_RESET : Z := SCTRL_CMD_MAGIC + 13.
Definition CMD_SCTRL_MAC_SUBSYS_RESET : Z := SCTRL_CMD_MAGIC + 14.
Definition CMD_SCTRL_USB_SUBSYS_RESET : Z := SCTRL_CMD_MAGIC + 15.
Definition CMD_SCTRL_DSP_SUBSYS_RESET : Z := SCTRL_CMD_MAGIC + 16.
Definition CMD_SCTRL_BLK_ENABLE : Z := SCTRL_CMD_MAGIC + 17.
Definition CMD_SCTRL_BLK_DISABLE : Z := SCTRL_CMD_MAGIC + 18.
Definition CMD_SCTRL_DSP_POWERDOWN : Z := SCTRL_CMD_MAGIC + 19.
Definition CMD_SCTRL_DSP_POWERUP : Z := SCTRL_CMD_MAGIC + 20.
Definition CMD_SCTRL_USB_POWERDOWN : Z := SCTRL_CMD_MAGIC + 21.
Definition CMD_SCTRL_USB_POWERUP : Z := SCTRL_CMD_MAGIC + 22.
Definition CMD_SCTRL_MAC_POWERDOWN : Z := SCTRL_CMD_MAGIC + 23.
Definition CMD_SCTRL_MAC_POWERUP : Z := SCTRL_CMD_MAGIC + 24.
Definition CMD_SCTRL_MODEM_POWERDOWN : Z := SCTRL_CMD_MAGIC + 25.
Definition CMD_SCTRL_MODEM_POWERUP : Z := SCTRL_CMD_MAGIC + 26.
Definition CMD_SCTRL_BLE_POWERDOWN : Z := SCTRL_CMD_MAGIC + 27.
Definition CMD_SCTRL_BLE_POWERUP : Z := SCTRL_CMD_MAGIC + 28.
Definition CMD_SCTRL_CALI_DPLL : Z := SCTRL_CMD_MAGIC + 29.
Definition CMD_SCTRL_BIAS_REG_SET : Z := SCTRL_CMD_MAGIC + 30.
Definition CMD_SCTRL_BIAS_REG_CLEAN : Z := SCTRL_CMD_MAGIC + 31.
Definition CMD_SCTRL_BIAS_REG_READ : Z := SCTRL_CMD_MAGIC + 32.
Definition CMD_SCTRL_BIAS_REG_WRITE : Z := SCTRL_CMD_MAGIC + 33.
Definition CMD_SCTRL_ANALOG_CTRL4_SET : Z := SCTRL_CMD_MAGIC + 34.
Definition CMD_SCTRL_ANALOG_CTRL4_CLEAN : Z := SCTRL_CMD_MAGIC + 35.
Definition CMD_SCTRL_SET_FLASH_DCO : Z := SCTRL_CMD_MAGIC + 36.
Definition CMD_SCTRL_SET_FLASH_DPLL : Z := SCTRL_CMD_MAGIC + 37.
Definition CMD_SCTRL_RTOS_DEEP_SLEEP : Z := SCTRL_CMD_MAGIC + 42.
Definition CMD_SCTRL_SET_XTALH_CTUNE : Z := SCTRL_CMD_MAGIC + 43.
Definition CMD_SCTRL_GET_XTALH_CTUNE : Z := SCTRL_CMD_MAGIC + 44.
Definition CMD_BLE_RF_BIT_SET : Z := SCTRL_CMD_MAGIC + 45.
Definition CMD_BLE_RF_BIT_CLR : Z := SCTRL_CMD_MAGIC + 46.
Definition CMD_BLE_RF_BIT_GET : Z := SCTRL_CMD_MAGIC + 47.
Definition CMD_EFUSE_WRITE_BYTE : Z := SCTRL_CMD_MAGIC + 48.
Definition CMD_EFUSE_READ_BYTE : Z := SCTRL_CMD_MAGIC + 49.
Definition CMD_GET_SCTRL_RETETION : Z := SCTRL_CMD_MAGIC + 50.
Definition CMD_SET_SCTRL_RETETION : Z := SCTRL_CMD_MAGIC + 51.
Definition CMD_QSPI_VDDRAM_VOLTAGE : Z := SCTRL_CMD_MAGIC + 56.
Definition CMD_QSPI_IO_VOLTAGE : Z := SCTRL_CMD_MAGIC + 57.
Definition CMD_SCTRL_SET_ANALOG0 : Z := SCTRL_CMD_MAGIC + 58.
Definition CMD_SCTRL_SET_ANALOG1 : Z := SCTRL_CMD_MAGIC + 59.
Definition CMD_SCTRL_SET_ANALOG2 : Z := SCTRL_CMD_MAGIC + 60.
Definition CMD_SCTRL_SET_ANALOG3 : Z := SCTRL_CMD_MAGIC + 61.
Definition CMD_SCTRL_SET_ANALOG4 : Z := SCTRL_CMD_MAGIC + 62.
Definition CMD_SCTRL_SET_ANALOG5 : Z := SCTRL_CMD_MAGIC + 63.
Definition CMD_SCTRL_SET_ANALOG6 : Z := SCTRL_CMD_MAGIC + 64.
Definition CMD_SCTRL_SET_ANALOG7 : Z := SCTRL_CMD_MAGIC + 65.
Definition CMD_SCTRL_GET_ANALOG0 : Z := SCTRL_CMD_MAGIC + 69.
Definition CMD_SCTRL_GET_ANALOG1 : Z := SCTRL_CMD_MAGIC + 70.
Definition CMD_SCTRL_GET_ANALOG2 : Z := SCTRL_CMD_MAGIC + 71.
Definition CMD_SCTRL_GET_ANALOG3 : Z := SCTRL_CMD_MAGIC + 72.
Definition CMD_SCTRL_GET_ANALOG4 : Z := SCTRL_CMD_MAGIC + 73.
Definition CMD_SCTRL_GET_ANALOG5 : Z := SCTRL_CMD_MAGIC + 74.
Definition CMD_SCTRL_GET_ANALOG7 : Z := SCTRL_CMD_MAGIC + 76.
Definition CMD_SCTRL_SET_LOW_PWR_CLK : Z := SCTRL_CMD_MAGIC + 80.
Definition CMD_SCTRL_SET_GADC_SEL : Z := SCTRL_CMD_MAGIC + 81.
Definition CMD_SCTRL_SET_VDD_VALUE : Z := SCTRL_CMD_MAGIC + 82.
Definition CMD_SCTRL_GET_VDD_VALUE : Z := SCTRL_CMD_MAGIC + 83.
Definition CMD_RF_HOLD_BIT_SET : Z := SCTRL_CMD_MAGIC + 84.
Definition CMD_RF_HOLD_BIT_CLR : Z := SCTRL_CMD_MAGIC + 85.
Definition BLK_BIT_TEMPRATURE_SENSOR : Z := Z.shiftl 1 12.

(** What the [void *] of a control command points to. *)
Record EFUSE_OPER_ST := EfuseOper { ef_addr : Z; ef_data : Z }.
Inductive sctrl_parm :=
  | CNull
  | CWord (w : Z)
  | CEfuse (e : EFUSE_OPER_ST).

Record sctrl_vars := SctrlVars { rf_hold_status : Z; rf_sleepe_enable : Z; rf_sleeped : Z }.
Definition sctrl_start : sctrl_vars := SctrlVars 0 1 0.

Section sctrl.
Context {S : Type} `{RegBus S, !Holds sctrl_vars S} (fuel : nat).
(** [sctrl_enter_rtos_deep_sleep(param)], which ends in reset. *)
Context (sctrl_enter_rtos_deep_sleep : sctrl_parm -> M S unit).

(** [reg = REG_READ(a); ... REG_WRITE(a, reg);] *)
Definition reg_update (a : Z) (f : Z -> Z) : M S unit := r ← REG_READ a; REG_WRITE a (f r).
(** [reg &= ~(mask << posi); reg |= x << posi;] *)
Definition put_field (mask posi x reg : Z) : Z := Z.lor (Z.ldiff reg (Z.shiftl mask posi)) (Z.shiftl x posi).

(** ** The analogue registers *)

(** [while (REG_READ(SCTRL_ANALOG_SPI) & (ANA_SPI_STAET_MASK << ANA_SPI_STATE_POSI));] *)
Fixpoint spi_wait (n : nat) : M S unit :=
  match n with
  | O => fail NoFuel
  | Datatypes.S n' =>
    v ← REG_READ SCTRL_ANALOG_SPI;
    if truthy (Z.land v (Z.shiftl ANA_SPI_STAET_MASK ANA_SPI_STATE_POSI)) then spi_wait n' else mret tt
  end.
Definition sctrl_analog_get (address : Z) : M S Z := spi_wait fuel;; REG_READ address.
Definition sctrl_analog_set (address value : Z) : M S unit := REG_WRITE address value;; spi_wait fuel.
(** A read of an analogue register, a change, a write. *)
Definition analog_update (a : Z) (f : Z -> Z) : M S unit := r ← sctrl_analog_get a; sctrl_analog_set a (f r).

(** The delays of [flag] change no state. *)
Definition sctrl_cali_dpll (flag : Z) : M S unit :=
  param ← sctrl_analog_get SCTRL_ANALOG_CTRL0;
  sctrl_analog_set SCTRL_ANALOG_CTRL0 (Z.ldiff param SPI_TRIG_BIT);;
  sctrl_analog_set SCTRL_ANALOG_CTRL0 (Z.lor (Z.ldiff param SPI_TRIG_BIT) SPI_TRIG_BIT);;
  analog_update SCTRL_ANALOG_CTRL0 (fun param => Z.ldiff param SPI_DET_EN);;
  analog_update SCTRL_ANALOG_CTRL0 (fun param => Z.lor param SPI_DET_EN).

(** ** The subsystems *)
Definition sctrl_subsys_power (cmd : Z) : M S unit :=
  if cmd =? CMD_SCTRL_DSP_POWERDOWN then REG_WRITE SCTRL_DSP_PWR DSP_PWD
  else if cmd =? CMD_SCTRL_DSP_POWERUP then REG_WRITE SCTRL_DSP_PWR PWU
  else if cmd =? CMD_SCTRL_USB_POWERDOWN then reg_update SCTRL_USB_PWR (put_field PWD_MASK USB_PWD_POSI USB_PWD)
  else if cmd =? CMD_SCTRL_USB_POWERUP then reg_update SCTRL_USB_PWR (put_field PWD_MASK USB_PWD_POSI PWU)
  else if cmd =? CMD_SCTRL_MAC_POWERDOWN then reg_update SCTRL_PWR_MAC_MODEM (put_field PWD_MASK MAC_PWD_POSI MAC_PWD)
  else if cmd =? CMD_SCTRL_MAC_POWERUP then reg_update SCTRL_PWR_MAC_MODEM (put_field PWD_MASK MAC_PWD_POSI PWU)
  else if cmd =? CMD_SCTRL_MODEM_POWERDOWN then reg_update SCTRL_PWR_MAC_MODEM (put_field PWD_MASK MODEM_PWD_POSI MODEM_PWD)
  else if cmd =? CMD_SCTRL_BLE_POWERDOWN then reg_update SCTRL_USB_PWR (put_field PWD_MASK BLE_PWD_POSI BLE_PWD)
  else if cmd =? CMD_SCTRL_MODEM_POWERUP then reg_update SCTRL_PWR_MAC_MODEM (put_field PWD_MASK MODEM_PWD_POSI PWU)
  else if cmd =? CMD_SCTRL_BLE_POWERUP then reg_update SCTRL_USB_PWR (put_field PWD_MASK BLE_PWD_POSI PWU)
  else mret tt.

Definition sctrl_subsys_reset (cmd : Z) : M S unit :=
  if cmd =? CMD_SCTRL_MODEM_SUBCHIP_RESET then REG_WRITE SCTRL_MODEM_SUBCHIP_RESET_REQ MODEM_SUBCHIP_RESET_WORD;; REG_WRITE SCTRL_MODEM_SUBCHIP_RESET_REQ 0
  else if cmd =? CMD_SCTRL_MAC_SUBSYS_RESET then REG_WRITE SCTRL_MAC_SUBSYS_RESET_REQ MAC_SUBSYS_RESET_WORD;; REG_WRITE SCTRL_MAC_SUBSYS_RESET_REQ 0
  else if cmd =? CMD_SCTRL_USB_SUBSYS_RESET then REG_WRITE SCTRL_USB_SUBSYS_RESET_REQ USB_SUBSYS_RESET_WORD;; REG_WRITE SCTRL_USB_SUBSYS_RESET_REQ 0
  else if cmd =? CMD_SCTRL_DSP_SUBSYS_RESET then REG_WRITE SCTRL_DSP_SUBSYS_RESET_REQ DSP_SUBSYS_RESET_WORD;; REG_WRITE SCTRL_DSP_SUBSYS_RESET_REQ 0
  else mret tt.

(** CMD_SCTRL_MODEM_CORE_RESET, with the wait for its end. *)
Fixpoint core_reset_wait (n : nat) : M S unit :=
  match n with
  | O => fail NoFuel
  | Datatypes.S n' => reg ← REG_READ SCTRL_RESET; if truthy (Z.land reg MODEM_CORE_RESET_BIT) then core_reset_wait n' else mret tt
  end.
Definition modem_core_reset : M S unit :=
  r ← REG_READ SCTRL_MODEM_CORE_RESET_PHY_HCLK;
  let ret := Z.ldiff r (Z.shiftl MODEM_CORE_RESET_MASK MODEM_CORE_RESET_POSI) in
  REG_WRITE SCTRL_MODEM_CORE_RESET_PHY_HCLK (Z.lor ret (Z.shiftl (Z.land MODEM_CORE_RESET_WORD MODEM_CORE_RESET_MASK) MODEM_CORE_RESET_POSI));;
  REG_WRITE SCTRL_MODEM_CORE_RESET_PHY_HCLK ret;;
  core_reset_wait fuel.

(** The key of the register of analogue blocks is written with every change. *)
Definition blk_key (reg : Z) : Z := put_field BLOCK_EN_WORD_MASK BLOCK_EN_WORD_POSI (Z.land BLOCK_EN_WORD_PWD BLOCK_EN_WORD_MASK) reg.
Definition blk_enable (p : Z) : M S unit := reg_update SCTRL_BLOCK_EN_CFG (fun reg => Z.lor (blk_key reg) (Z.land p BLOCK_EN_VALID_MASK)).
Definition blk_disable (p : Z) : M S unit := reg_update SCTRL_BLOCK_EN_CFG (fun reg => Z.ldiff (blk_key reg) (Z.land p BLOCK_EN_VALID_MASK)).

(** ** The radio *)
Definition set_rf_sleeped (x : Z) : M S unit := sets (fun v => SctrlVars (rf_hold_status v) (rf_sleepe_enable v) x).
Definition set_rf_hold (f : Z -> Z) : M S unit := sets (fun v => SctrlVars (f (rf_hold_status v)) (rf_sleepe_enable v) (rf_sleeped v)).
Definition sctrl_if_rf_sleep : M S Z := v ← gets rf_sleeped; mret (u8 v).
Definition sctrl_rf_ps_enable_set : M S unit := sets (fun v => SctrlVars (rf_hold_status v) 1 (rf_sleeped v)).
Definition sctrl_rf_ps_enable_clear : M S unit := sets (fun v => SctrlVars (rf_hold_status v) 0 (rf_sleeped v)).
Definition sctrl_rf_ps_enabled : M S Z := value ← gets rf_sleepe_enable; mret (if 0 <? value then 1 else 0).
Definition rc_cntl_stat_set (value : Z) : M S unit := REG_WRITE RC_CNTL_STAT_ADDR value.

Definition sctrl_rf_sleep : M S unit :=
  e ← sctrl_rf_ps_enabled;
  when (e =? 1) (
    r ← gets rf_sleeped;
    when (0 =? r) (
      rc_cntl_stat_set 0x0;;
      set_rf_sleeped 1;;
      reg_update SCTRL_MODEM_CORE_RESET_PHY_HCLK (fun reg => Z.ldiff reg PHY_HCLK_EN_BIT);;
      reg_update SCTRL_CONTROL (fun reg => Z.lor reg MODEM_CLK480M_PWD_BIT))).

(** [sctrl_rf_wakeup_enabled] is always 1. *)
Definition sctrl_rf_wakeup : M S unit :=
  r ← gets rf_sleeped;
  when (r =? 1) (
    reg_update SCTRL_MODEM_CORE_RESET_PHY_HCLK (fun reg => Z.lor reg PHY_HCLK_EN_BIT);;
    reg_update SCTRL_CONTROL (fun reg => Z.ldiff reg MODEM_CLK480M_PWD_BIT);;
    rc_cntl_stat_set 0x09;;
    set_rf_sleeped 0).

Definition rf_hold_set (p : Z) : M S unit :=
  set_rf_hold (fun h => Z.lor h p);; h ← gets rf_hold_status; when (truthy h) sctrl_rf_wakeup.
Definition rf_hold_clr (p : Z) : M S unit :=
  set_rf_hold (fun h => Z.ldiff h p);; h ← gets rf_hold_status; when (0 =? h) sctrl_rf_sleep.

(** ** The one-time-programmable bytes *)

(** [do reg = REG_READ(SCTRL_EFUSE_CTRL); while (reg & EFUSE_OPER_EN);] *)
Fixpoint efuse_wait (n : nat) : M S unit :=
  match n with
  | O => fail NoFuel
  | Datatypes.S n' => reg ← REG_READ SCTRL_EFUSE_CTRL; if truthy (Z.land reg EFUSE_OPER_EN) then efuse_wait n' else mret tt
  end.

(** The result, and the operation with its data afterwards. *)
Definition sctrl_read_efuse (efuse : EFUSE_OPER_ST) : M S (Z * EFUSE_OPER_ST) :=
  reg_update SCTRL_EFUSE_CTRL (fun reg =>
    Z.lor (Z.lor (Z.ldiff (Z.ldiff reg (Z.shiftl EFUSE_OPER_ADDR_MASK EFUSE_OPER_ADDR_POSI)) EFUSE_OPER_DIR)
      (Z.shiftl (Z.land (ef_addr efuse) EFUSE_OPER_ADDR_MASK) EFUSE_OPER_ADDR_POSI)) EFUSE_OPER_EN);;
  efuse_wait fuel;;
  reg ← REG_READ SCTRL_EFUSE_OPTR;
  mret (if truthy (Z.land reg EFUSE_OPER_RD_DATA_VALID)
    then (0, EfuseOper (ef_addr efuse) (Z.land (Z.shiftr reg EFUSE_OPER_RD_DATA_POSI) EFUSE_OPER_RD_DATA_MASK))
    else (-1, EfuseOper (ef_addr efuse) 0xFF)).

(** The loop over the bits, [n] of them left. *)
Fixpoint bits_can_write (n : nat) (i new_byte old_byte : Z) : Z :=
  match n with
  | O => 2
  | Datatypes.S n' =>
    let old_bit := Z.land (Z.shiftr old_byte i) 0x01 in
    let new_bit := Z.land (Z.shiftr new_byte i) 0x01 in
    if truthy old_bit && negb (truthy new_bit) then 0 else bits_can_write n' (i + 1) new_byte old_byte
  end.
Definition check_efuse_can_write (new_byte old_byte : Z) : Z :=
  if new_byte =? old_byte then 1 else bits_can_write 8 0 new_byte old_byte.

(** Programming the byte, with its supply on. *)
Definition efuse_program (efuse : EFUSE_OPER_ST) : M S unit :=
  reg_update SCTRL_CONTROL (fun reg => Z.lor reg EFUSE_VDD25_EN);;
  reg_update SCTRL_EFUSE_CTRL (fun reg =>
    Z.lor (Z.lor (Z.lor (Z.lor
      (Z.ldiff (Z.ldiff reg (Z.shiftl EFUSE_OPER_ADDR_MASK EFUSE_OPER_ADDR_POSI)) (Z.shiftl EFUSE_OPER_WR_DATA_MASK EFUSE_OPER_WR_DATA_POSI))
      EFUSE_OPER_DIR) (Z.shiftl (Z.land (ef_addr efuse) EFUSE_OPER_ADDR_MASK) EFUSE_OPER_ADDR_POSI))
      (Z.shiftl (Z.land (ef_data efuse) EFUSE_OPER_WR_DATA_MASK) EFUSE_OPER_WR_DATA_POSI)) EFUSE_OPER_EN);;
  efuse_wait fuel;;
  reg_update SCTRL_CONTROL (fun reg => Z.ldiff reg EFUSE_VDD25_EN).

Definition sctrl_write_efuse (efuse : EFUSE_OPER_ST) : M S (Z * EFUSE_OPER_ST) :=
  bak ← sctrl_read_efuse efuse;
  let c := check_efuse_can_write (ef_data efuse) (ef_data bak.2) in
  if (bak.1 =? 0) && (c =? 0) then mret (-1, efuse)
  else if (bak.1 =? 0) && (c =? 1) then mret (0, efuse)
  else
    efuse_program efuse;;
    again ← sctrl_read_efuse (EfuseOper (ef_addr efuse) 0);
    (** [ret] is what [check_efuse_can_write] returned, or -1. *)
    let ret := if bak.1 =? 0 then c else -1 in
    mret (if (again.1 =? 0) && (u8 (ef_data efuse) =? ef_data again.2) then 0 else ret, again.2).

(** ** The control command *)

(** [*(UINT32 * )param] read, and written with a value; a null pointer to the bytes is allowed. *)
Definition cderef (param : sctrl_parm) : M S Z := match param with CWord w => mret w | _ => fail BadAccess end.
Definition on_word (param : sctrl_parm) (f : Z -> M S unit) : M S (Z * sctrl_parm) := w ← cderef param; f w;; mret (SCTRL_SUCCESS, param).
Definition to_word (param : sctrl_parm) (m : M S Z) : M S (Z * sctrl_parm) := v ← m; _ ← cderef param; mret (SCTRL_SUCCESS, CWord v).
Definition done_with (param : sctrl_parm) (m : M S unit) : M S (Z * sctrl_parm) := m;; mret (SCTRL_SUCCESS, param).
Definition value_of (param : sctrl_parm) (m : M S Z) : M S (Z * sctrl_parm) := v ← m; mret (v, param).
Definition on_efuse (param : sctrl_parm) (f : EFUSE_OPER_ST -> M S (Z * EFUSE_OPER_ST)) : M S (Z * sctrl_parm) :=
  match param with
  | CNull => mret (u32 (-1), CNull)
  | CEfuse e => r ← f e; mret (u32 r.1, CEfuse r.2)
  | CWord _ => fail BadAccess
  end.

Definition sctrl_ctrl (cmd : Z) (param : sctrl_parm) : M S (Z * sctrl_parm) :=
  if cmd =? CMD_SCTRL_RTOS_DEEP_SLEEP then done_with param (sctrl_enter_rtos_deep_sleep param)
  else if cmd =? CMD_GET_CHIP_ID then value_of param (REG_READ SCTRL_CHIP_ID)
  else if cmd =? CMD_SCTRL_SET_FLASH_DPLL then done_with param (reg_update SCTRL_CONTROL (fun reg => Z.lor reg FLASH_26M_MUX_BIT))
  else if cmd =? CMD_SCTRL_SET_FLASH_DCO then done_with param (reg_update SCTRL_CONTROL (fun reg => Z.ldiff reg FLASH_26M_MUX_BIT))
  else if (CMD_SCTRL_DSP_POWERDOWN <=? cmd) && (cmd <=? CMD_SCTRL_BLE_POWERUP) then done_with param (sctrl_subsys_power cmd)
  else if cmd =? CMD_GET_DEVICE_ID then value_of param (REG_READ SCTRL_DEVICE_ID)
  else if cmd =? CMD_GET_SCTRL_CONTROL then to_word param (REG_READ SCTRL_CONTROL)
  else if cmd =? CMD_SET_SCTRL_CONTROL then on_word param (REG_WRITE SCTRL_CONTROL)
  else if cmd =? CMD_SCTRL_MCLK_SELECT then
    on_word param (fun w => reg_update SCTRL_CONTROL (put_field MCLK_MUX_MASK MCLK_MUX_POSI (Z.land w MCLK_MUX_MASK)))
  else if cmd =? CMD_SCTRL_MCLK_DIVISION then
    on_word param (fun w => reg_update SCTRL_CONTROL (put_field MCLK_DIV_MASK MCLK_DIV_POSI (Z.land w MCLK_DIV_MASK)))
  else if cmd =? CMD_SCTRL_MCLK_MUX_GET then to_word param (r ← REG_READ SCTRL_CONTROL; mret (Z.land (Z.shiftr r MCLK_MUX_POSI) MCLK_MUX_MASK))
  else if cmd =? CMD_SCTRL_MCLK_DIV_GET then to_word param (r ← REG_READ SCTRL_CONTROL; mret (Z.land (Z.shiftr r MCLK_DIV_POSI) MCLK_DIV_MASK))
  else if cmd =? CMD_SCTRL_RESET_SET then on_word param (fun w => reg_update SCTRL_RESET (fun reg => Z.lor reg (Z.land w SCTRL_RESET_MASK)))
  else if cmd =? CMD_SCTRL_RESET_CLR then on_word param (fun w => reg_update SCTRL_RESET (fun reg => Z.ldiff reg (Z.land w SCTRL_RESET_MASK)))
  else if (CMD_SCTRL_MODEM_SUBCHIP_RESET <=? cmd) && (cmd <=? CMD_SCTRL_DSP_SUBSYS_RESET) then done_with param (sctrl_subsys_reset cmd)
  else if cmd =? CMD_SCTRL_MODEM_CORE_RESET then done_with param modem_core_reset
  else if cmd =? CMD_SCTRL_MPIF_CLK_INVERT then done_with param (reg_update SCTRL_CONTROL (fun reg => Z.lor reg MPIF_CLK_INVERT_BIT))
  else if cmd =? CMD_SCTRL_BLK_ENABLE then on_word param blk_enable
  else if cmd =? CMD_SCTRL_BLK_DISABLE then on_word param blk_disable
  else if cmd =? CMD_SCTRL_BIAS_REG_SET then on_word param (fun w => reg_update SCTRL_BIAS (fun reg => Z.lor reg w))
  else if cmd =? CMD_SCTRL_BIAS_REG_CLEAN then on_word param (fun w => reg_update SCTRL_BIAS (fun reg => Z.ldiff reg w))
  else if cmd =? CMD_SCTRL_BIAS_REG_READ then value_of param (REG_READ SCTRL_BIAS)
  else if cmd =? CMD_SCTRL_BIAS_REG_WRITE then on_word param (REG_WRITE SCTRL_BIAS)
  else if cmd =? CMD_SCTRL_ANALOG_CTRL4_SET then on_word param (fun w => analog_update SCTRL_ANALOG_CTRL4 (fun reg => Z.lor reg w))
  else if cmd =? CMD_SCTRL_ANALOG_CTRL4_CLEAN then on_word param (fun w => analog_update SCTRL_ANALOG_CTRL4 (fun reg => Z.ldiff reg w))
  else if cmd =? CMD_SCTRL_CALI_DPLL then done_with param (sctrl_cali_dpll 0)
  else if cmd =? CMD_SCTRL_SET_XTALH_CTUNE then
    on_word param (fun w => analog_update SCTRL_ANALOG_CTRL2 (put_field XTALH_CTUNE_MASK XTALH_CTUNE_POSI (Z.land w XTALH_CTUNE_MASK)))
  else if cmd =? CMD_SCTRL_GET_XTALH_CTUNE then
    value_of param (r ← sctrl_analog_get SCTRL_ANALOG_CTRL2; mret (Z.land (Z.shiftr r XTALH_CTUNE_POSI) XTALH_CTUNE_MASK))
  else if cmd =? CMD_BLE_RF_BIT_SET then done_with param (reg_update SCTRL_CONTROL (fun reg => Z.lor reg BLE_RF_EN_BIT))
  else if cmd =? CMD_BLE_RF_BIT_CLR then done_with param (reg_update SCTRL_CONTROL (fun reg => Z.ldiff reg BLE_RF_EN_BIT))
  else if cmd =? CMD_RF_HOLD_BIT_SET then on_word param rf_hold_set
  else if cmd =? CMD_RF_HOLD_BIT_CLR then on_word param rf_hold_clr
  else if cmd =? CMD_BLE_RF_BIT_GET then to_word param (r ← REG_READ SCTRL_CONTROL; mret (Z.land r BLE_RF_EN_BIT))
  else if cmd =? CMD_EFUSE_WRITE_BYTE then on_efuse param sctrl_write_efuse
  else if cmd =? CMD_EFUSE_READ_BYTE then on_efuse param sctrl_read_efuse
  else if cmd =? CMD_QSPI_VDDRAM_VOLTAGE then
    on_word param (fun w => reg_update SCTRL_CONTROL (put_field PSRAM_VDDPAD_VOLT_MASK PSRAM_VDDPAD_VOLT_POSI (Z.land w PSRAM_VDDPAD_VOLT_MASK)))
  else if cmd =? CMD_QSPI_IO_VOLTAGE then
    on_word param (fun w => reg_update SCTRL_CONTROL (put_field QSPI_IO_VOLT_MASK QSPI_IO_VOLT_POSI (Z.land w QSPI_IO_VOLT_MASK)))
  else if cmd =? CMD_SCTRL_SET_ANALOG6 then
    done_with param (analog_update SCTRL_ANALOG_CTRL6 (fun reg => Z.lor reg (Z.lor DPLL_CLK_FOR_AUDIO_EN (Z.lor DPLL_DIVIDER_CLK_SEL DPLL_RESET))))
  else if cmd =? CMD_SCTRL_SET_ANALOG0 then on_word param (sctrl_analog_set SCTRL_ANALOG_CTRL0)
  else if cmd =? CMD_SCTRL_SET_ANALOG1 then on_word param (sctrl_analog_set SCTRL_ANALOG_CTRL1)
  else if cmd =? CMD_SCTRL_SET_ANALOG2 then on_word param (sctrl_analog_set SCTRL_ANALOG_CTRL2)
  else if cmd =? CMD_SCTRL_SET_ANALOG3 then on_word param (sctrl_analog_set SCTRL_ANALOG_CTRL3)
  else if cmd =? CMD_SCTRL_SET_ANALOG4 then on_word param (sctrl_analog_set SCTRL_ANALOG_CTRL4)
  else if cmd =? CMD_SCTRL_SET_ANALOG5 then on_word param (sctrl_analog_set SCTRL_ANALOG_CTRL5)
  else if cmd =? CMD_SCTRL_GET_ANALOG0 then value_of param (sctrl_analog_get SCTRL_ANALOG_CTRL0)
  else if cmd =? CMD_SCTRL_GET_ANALOG1 then value_of param (sctrl_analog_get SCTRL_ANALOG_CTRL1)
  else if cmd =? CMD_SCTRL_GET_ANALOG2 then value_of param (sctrl_analog_get SCTRL_ANALOG_CTRL2)
  else if cmd =? CMD_SCTRL_GET_ANALOG3 then value_of param (sctrl_analog_get SCTRL_ANALOG_CTRL3)
  else if cmd =? CMD_SCTRL_GET_ANALOG4 then value_of param (sctrl_analog_get SCTRL_ANALOG_CTRL4)
  else if cmd =? CMD_SCTRL_GET_ANALOG5 then value_of param (sctrl_analog_get SCTRL_ANALOG_CTRL5)
  else if cmd =? CMD_SCTRL_SET_LOW_PWR_CLK then
    on_word param (fun w => reg_update SCTRL_LOW_PWR_CLK (fun reg => u32 (Z.lor (Z.ldiff reg LPO_CLK_MUX_MASK) (Z.shiftl w LPO_CLK_MUX_POSI))))
  else if cmd =? CMD_SCTRL_SET_GADC_SEL then mret (SCTRL_SUCCESS, param)
  else if cmd =? CMD_SCTRL_SET_VDD_VALUE then
    on_word param (fun w => reg_update SCTRL_DIGTAL_VDD (fun reg => u32 (put_field DIG_VDD_ACTIVE_MASK DIG_VDD_ACTIVE_POSI w reg)))
  else if cmd =? CMD_SCTRL_GET_VDD_VALUE then
    value_of param (r ← REG_READ SCTRL_DIGTAL_VDD; mret (Z.land (Z.shiftr r DIG_VDD_ACTIVE_POSI) DIG_VDD_ACTIVE_MASK))
  else if cmd =? CMD_GET_SCTRL_RETETION then to_word param (REG_READ SCTRL_SW_RETENTION)
  else if cmd =? CMD_SET_SCTRL_RETETION then on_word param (REG_WRITE SCTRL_SW_RETENTION)
  else mret (SCTRL_FAILURE, param).

(** The operation behind the registry, for the commands with a word. *)
Definition sctrl_word_op : SDD_OPERATIONS S := {| sop_control := Some (fun cmd p =>
  r ← sctrl_ctrl cmd (CWord p); mret (r.1, match r.2 with CWord w => w | _ => p end)) |}.
End sctrl.
