(* ===== verification/Reentry.v ===== *)
(** * The registry for drivers that use it in turn

    [ddev_open] and [ddev_close] for a driver whose functions call the registry
    themselves: they run on the whole state, and an entry of the table is read
    again after them.  For a driver that does not, they are the calls of
    [DrvModel]. *)
From stdpp Require Import strings.
From S2P Require Import Prelude DrvModel.
Local Open Scope Z_scope.

Section reentry.
Context {W : Type}.
Abbreviation st := (drv_state W).
(** The device with the operations at [own] is the driver with the functions [open] and [close]. *)
Context (own : Z) (open : Z -> M st Z) (close : M st Z).
Implicit Types s : st.

Definition own_device (d : DRV_DEV_S) : bool := bool_decide (op d = Some own).

Definition dev_open (dev_name : string) (op_flag : Z) : M st (Z * option Z) :=
  if DD_MAX_NAME_LEN <? os_strlen dev_name then mret (DD_HANDLE_UNVALID, None)
  else
    s ← get;
    found ← lift_res (find_name (drv_dev_tbl s) dev_name 0);
    match found with
    | None => fail AssertFail
    | Some i =>
      let id := Z.of_nat i in
      dev ← get_dev id;
      r ← match state dev with
          | DD_STATE_OPENED => mret (ddev_make_handle id, DRV_FAILURE)
          | DD_STATE_CLOSED =>
            stat ← (if own_device dev then open op_flag else fail BadAccess);
            d1 ← get_dev id;
            set_dev id (DRV_DEV (name d1) 0 DD_STATE_OPENED (op d1));;
            mret (ddev_make_handle id, stat)
          | _ => mret (DD_HANDLE_UNVALID, DRV_FAILURE)
          end;
      dev' ← get_dev id;
      set_dev id (DRV_DEV (name dev') (u32 (use_cnt dev' + 1)) (state dev') (op dev'));;
      assert (negb (DD_HANDLE_UNVALID =? r.1));;
      mret (r.1, Some r.2)
    end.

Definition dev_close (handle : Z) : M st Z :=
  let id := ddev_get_id_from_handle handle in
  if DD_ID_UNVALID =? id then mret DRV_FAILURE
  else
    dev ← get_dev id;
    let cnt := u32 (use_cnt dev - 1) in
    set_dev id (DRV_DEV (name dev) cnt (state dev) (op dev));;
    when (cnt =? 0) (
      _ ← (if own_device dev then close else fail BadAccess);
      d1 ← get_dev id;
      set_dev id (DRV_DEV (name d1) (use_cnt d1) DD_STATE_CLOSED (op d1)));;
    mret DRV_SUCCESS.

(** The entry [i] of the table after a call that left the table alone. *)
Definition upd_entry s (i : nat) (d : DRV_DEV_S) : st := upd_dev s i d (world s).

Lemma dev_open_closed s nm i d op_flag z s1 : slot s nm i d -> op d = Some own -> state d = DD_STATE_CLOSED ->
  open op_flag s = Val (z, s1) -> drv_dev_tbl s1 = drv_dev_tbl s ->
  dev_open nm op_flag s = Val ((ddev_make_handle (Z.of_nat i), Some z), upd_entry s1 i (DRV_DEV (name d) 1 DD_STATE_OPENED (op d))).
Proof using Type.
  intros (Hf & Hl & Hi & Hlen) Ho Hst Hop Ht. unfold dev_open. rewrite (proj2 (Z.ltb_ge _ _)) by done.
  mstep. mstep by (unfold lift_res; rewrite Hf; reflexivity). mstep by (apply (get_dev_val _ _ _ Hl)). rewrite Hst.
  assert (Hl1 : drv_dev_tbl s1 !! i = Some d) by (by rewrite Ht).
  eapply bind_val.
  { unfold own_device. rewrite bool_decide_true by done. mstep by exact Hop. mstep by (apply (get_dev_val _ _ _ Hl1)).
    mstep by (apply set_dev_val). reflexivity. }
  mstep by (by eapply get_dev_upd). mstep by (apply set_dev_val). cbn [fst snd]. unfold assert. rewrite make_handle_valid by lia. mstep.
  unfold upd_entry. by rewrite upd_upd.
Qed.

Lemma dev_open_opened s nm i d op_flag : slot s nm i d -> state d = DD_STATE_OPENED ->
  dev_open nm op_flag s = Val ((ddev_make_handle (Z.of_nat i), Some DRV_FAILURE),
    upd_entry s i (DRV_DEV (name d) (u32 (use_cnt d + 1)) DD_STATE_OPENED (op d))).
Proof using Type.
  intros (Hf & Hl & Hi & Hlen) Hst. unfold dev_open. rewrite (proj2 (Z.ltb_ge _ _)) by done.
  mstep. mstep by (unfold lift_res; rewrite Hf; reflexivity). mstep by (apply (get_dev_val _ _ _ Hl)). rewrite Hst. mstep.
  mstep by (apply (get_dev_val _ _ _ Hl)). mstep by (apply set_dev_val). cbn [fst snd]. unfold assert. rewrite make_handle_valid by lia. mstep.
  by rewrite Hst.
Qed.

Lemma dev_close_last s i d z s1 : drv_dev_tbl s !! i = Some d -> (i < DD_MAX_DEV)%nat -> op d = Some own -> use_cnt d = 1 ->
  close (upd_entry s i (DRV_DEV (name d) 0 (state d) (op d))) = Val (z, s1) ->
  drv_dev_tbl s1 = <[i := DRV_DEV (name d) 0 (state d) (op d)]> (drv_dev_tbl s) ->
  dev_close (ddev_make_handle (Z.of_nat i)) s = Val (DRV_SUCCESS, upd_entry s1 i (DRV_DEV (name d) 0 DD_STATE_CLOSED (op d))).
Proof using Type.
  intros Hl Hi Ho Hc Hcl Ht.
  assert (Hl1 : drv_dev_tbl s1 !! i = Some (DRV_DEV (name d) 0 (state d) (op d)))
    by (rewrite Ht; apply list_lookup_insert_eq; by apply lookup_lt_Some in Hl).
  unfold dev_close. destruct (handle_id_valid i Hi) as [-> ->].
  mstep by (apply (get_dev_val _ _ _ Hl)). mstep by (apply set_dev_val). rewrite Hc. cbn [Z.sub u32]. unfold when. eapply bind_val.
  { unfold own_device. rewrite bool_decide_true by done. mstep by exact Hcl. mstep by (apply (get_dev_val _ _ _ Hl1)).
    apply set_dev_val. }
  reflexivity.
Qed.

Lemma dev_close_shared s i d : drv_dev_tbl s !! i = Some d -> (i < DD_MAX_DEV)%nat -> u32 (use_cnt d - 1) <> 0 ->
  dev_close (ddev_make_handle (Z.of_nat i)) s = Val (DRV_SUCCESS, upd_entry s i (DRV_DEV (name d) (u32 (use_cnt d - 1)) (state d) (op d))).
Proof using Type.
  intros Hl Hi Hc. unfold dev_close. destruct (handle_id_valid i Hi) as [-> ->].
  mstep by (apply (get_dev_val _ _ _ Hl)). mstep by (apply set_dev_val). unfold when. rewrite (proj2 (Z.eqb_neq _ _)) by done. by mstep.
Qed.
End reentry.

(** For functions on the state of the drivers, the calls of [DrvModel]. *)
Lemma dev_open_plain {W} (dev_ops : Z -> DD_OPERATIONS W) own f s nm i d op_flag z w : op_open (dev_ops own) = Some f ->
  slot s nm i d -> op d = Some own -> state d = DD_STATE_CLOSED -> f op_flag (world s) = Val (z, w) ->
  dev_open own (fun x => call (f x)) nm op_flag s = ddev_open dev_ops (Some nm) true op_flag s.
Proof.
  intros Hf Hs Ho Hst E. rewrite (open_closed dev_ops s nm i d op_flag z w Hs Hst) by (unfold run_open; cbn; by rewrite Ho; cbn; rewrite Hf).
  rewrite (dev_open_closed own (fun x => call (f x)) s nm i d op_flag z (DrvState (drv_dev_tbl s) (drv_sdev_tbl s) w) Hs Ho Hst); [done| |done].
  unfold call. by rewrite E.
Qed.
