(* ===== verification/SysCtrlCorrect.v ===== *)
(** * Correctness of the system control

    The registers ([sctrl_block]) and the one-time-programmable bytes as hardware
    ([EfuseSpec]): a program operation sets bits of one byte and clears none, if
    its supply is on until it has ended.  What reading and programming a byte
    through the driver guarantee; the power of the analogue blocks. *)
From stdpp Require Import strings.
From S2P Require Import Prelude DrvModel Icu Regs Stack SysCtrl.
Local Open Scope Z_scope.

(** The registers but the serial bus and the two of the programmable bytes. *)
Definition in_sctrl (a : Z) : bool :=
  (SCTRL_BASE <=? a) && (a <=? SCTRL_SW_RETENTION) && negb (a =? SCTRL_ANALOG_SPI) && negb (a =? SCTRL_EFUSE_CTRL) && negb (a =? SCTRL_EFUSE_OPTR).
Definition sctrl_hard (a : Z) : Z := if (a =? SCTRL_CHIP_ID) || (a =? SCTRL_DEVICE_ID) then 0xFFFFFFFF else 0.
Definition sctrl_block : block := Block in_sctrl sctrl_hard (fun _ => 0).
Abbreviation ssoft := (Regs.soft sctrl_block).
Abbreviation sruns := (Regs.runs sctrl_block).

#[export] Instance sctrl_block_ok : BlockOk sctrl_block.
Proof. split; intros a; cbn; [unfold sctrl_hard; by destruct (_ || _)|]. intros i. by rewrite Z.bits_0. Qed.

Definition is_efuse (a : Z) : bool := (a =? SCTRL_EFUSE_CTRL) || (a =? SCTRL_EFUSE_OPTR).

(** [fuse h a]: what byte [a] holds when the operation in progress, if any, has
    ended with its supply on; [fuse_out]: what the last reading delivers, nothing
    if the byte may not be read. *)
Definition fuse_passes {hw} (fuse : hw -> Z -> Z) (ctl : hw -> Z) (out : hw -> option Z) (h h' : hw) : Prop :=
  (forall a, fuse h' a = fuse h a) /\ ctl h' = ctl h /\ out h' = out h.
Class EfuseSpec (hw : Type) `{RegBus hw, !BlockRegs sctrl_block hw} := {
  fuse : hw -> Z -> Z;
  fuse_ctl : hw -> Z;
  fuse_busy : hw -> nat;
  fuse_out : hw -> option Z;
  fuse_readable : (Z -> Z) -> Z -> bool;
  fuse_max : nat;
  fuse_bounds h a : is_u8 (fuse h a) /\ is_u32 (fuse_ctl h) /\ (fuse_busy h <= fuse_max)%nat;
  fuse_readable_ext f g a : (forall b, f b = g b) -> fuse_readable f a = fuse_readable g a;
  fuse_read_ctl h : exists v h', bus_read SCTRL_EFUSE_CTRL h = (v, h') /\ is_u32 v /\ Z.ldiff v EFUSE_OPER_EN = fuse_ctl h /\
    Z.testbit v 0 = negb (bool_decide (fuse_busy h = 0%nat)) /\ fuse_passes fuse fuse_ctl fuse_out h h' /\ fuse_busy h' = pred (fuse_busy h);
  fuse_read_out h : fuse_busy h = 0%nat -> exists v h', bus_read SCTRL_EFUSE_OPTR h = (v, h') /\ fuse_passes fuse fuse_ctl fuse_out h h' /\ fuse_busy h' = 0%nat /\
    match fuse_out h with Some b => Z.testbit v 8 = true /\ Z.land v 0xFF = b | None => Z.testbit v 8 = false end;
  fuse_start h v : is_u32 v -> Z.testbit v 0 = true -> fuse_busy h = 0%nat ->
    let h' := bus_write SCTRL_EFUSE_CTRL v h in
    let a := Z.land (Z.shiftr v 8) 0x1F in
    fuse_ctl h' = Z.ldiff v EFUSE_OPER_EN /\
    if Z.testbit v 1 then
      forall b, fuse h' b = if (b =? a) && Z.testbit (breg (B := sctrl_block) h SCTRL_CONTROL) 23 then Z.lor (fuse h b) (Z.land (Z.shiftr v 16) 0xFF) else fuse h b
    else (forall b, fuse h' b = fuse h b) /\ fuse_out h' = if fuse_readable (fuse h) a then Some (fuse h a) else None;
  fuse_read_other h a : is_efuse a = false -> fuse_passes fuse fuse_ctl fuse_out h (bus_read a h).2 /\ fuse_busy (bus_read a h).2 = fuse_busy h;
  (** The supply may be switched off when no operation is in progress. *)
  fuse_write_other h a v : is_efuse a = false -> fuse_busy h = 0%nat \/ a <> SCTRL_CONTROL ->
    fuse_passes fuse fuse_ctl fuse_out h (bus_write a v h) /\ fuse_busy (bus_write a v h) = fuse_busy h;
}.

Section efuse.
Context {hw : Type} `{RegBus hw, !BlockRegs sctrl_block hw, !EfuseSpec hw} (fuel : nat).
Implicit Types h : hw.

(** The block of registers is not changed by the programmable bytes. *)
Lemma efuse_keeps_soft h a v b : is_efuse a = true -> ssoft (bus_write a v h) b = ssoft h b /\ ssoft (bus_read a h).2 b = ssoft h b.
Proof using Type.
  intros Ha. assert (Hn : in_sctrl a = false) by (unfold is_efuse, in_sctrl in *; lia). split; [by apply breg_write_other|by apply breg_read_other].
Qed.

Definition ready h : Prop := fuse_busy h = 0%nat.
(** A read through the bus of the other registers. *)
Definition fuse_same h h' : Prop := forall a, fuse h' a = fuse h a.

Lemma wait_val n h : (fuse_busy h < n)%nat -> exists h', efuse_wait n h = Val (tt, h') /\ ready h' /\ fuse_passes fuse fuse_ctl fuse_out h h' /\ same (ssoft h) (ssoft h').
Proof using Type.
  revert h. induction n as [|n IH]; intros h Hn; [lia|]. destruct (fuse_read_ctl h) as (v & h1 & E1 & Hv & _ & B & P1 & Hb).
  assert (S1 : same (ssoft h) (ssoft h1)) by (intros b; rewrite <- (proj2 (efuse_keeps_soft h SCTRL_EFUSE_CTRL 0 b eq_refl)), E1; done).
  assert (Hrun : efuse_wait (Datatypes.S n) h = (if Z.testbit v 0 then efuse_wait n else mret tt) h1).
  { cbn [efuse_wait]. mstep by (unfold REG_READ; by rewrite E1). unfold EFUSE_OPER_EN. by rewrite truthy_bit. }
  rewrite Hrun, B. case_bool_decide as Hz; cbn [negb].
  - exists h1. split_and!; [done|unfold ready; rewrite Hb, Hz; done|done..].
  - destruct (IH h1 ltac:(lia)) as (h' & E' & R' & P' & S'). exists h'. split_and!; [done|done| |intros b; by rewrite S', S1].
    destruct P1 as (A1 & A2 & A3), P' as (C1 & C2 & C3). split_and!; [intros a; by rewrite C1, A1|congruence|congruence].
Qed.

(** Starting an operation: the control register is read, changed and written. *)
Lemma start_val f h : ready h -> (forall v, is_u32 v -> is_u32 (f v)) -> (forall v, Z.testbit (f v) 0 = true) ->
  exists v h1 h2, reg_update SCTRL_EFUSE_CTRL f h = Val (tt, h2) /\ h2 = bus_write SCTRL_EFUSE_CTRL (f v) h1 /\ is_u32 v /\
    ready h1 /\ fuse_passes fuse fuse_ctl fuse_out h h1 /\ same (ssoft h) (ssoft h1) /\ same (ssoft h) (ssoft h2).
Proof using Type.
  intros Hr Hu H0. destruct (fuse_read_ctl h) as (v & h1 & E1 & Hv & _ & _ & P1 & Hb).
  assert (S1 : same (ssoft h) (ssoft h1)) by (intros b; rewrite <- (proj2 (efuse_keeps_soft h SCTRL_EFUSE_CTRL 0 b eq_refl)), E1; done).
  exists v, h1, (bus_write SCTRL_EFUSE_CTRL (f v) h1). split_and!; try done.
  - unfold reg_update. by mstep by (unfold REG_READ; by rewrite E1).
  - unfold ready. by rewrite Hb, Hr.
  - intros b. rewrite <- S1. by apply efuse_keeps_soft.
Qed.

Definition fuse_addr (e : EFUSE_OPER_ST) : Z := Z.land (ef_addr e) 0x1F.

(** The words that are written. *)
Definition read_word (e : EFUSE_OPER_ST) (reg : Z) : Z :=
  Z.lor (Z.lor (Z.ldiff (Z.ldiff reg (Z.shiftl EFUSE_OPER_ADDR_MASK EFUSE_OPER_ADDR_POSI)) EFUSE_OPER_DIR)
    (Z.shiftl (Z.land (ef_addr e) EFUSE_OPER_ADDR_MASK) EFUSE_OPER_ADDR_POSI)) EFUSE_OPER_EN.
Definition program_word (e : EFUSE_OPER_ST) (reg : Z) : Z :=
  Z.lor (Z.lor (Z.lor (Z.lor
    (Z.ldiff (Z.ldiff reg (Z.shiftl EFUSE_OPER_ADDR_MASK EFUSE_OPER_ADDR_POSI)) (Z.shiftl EFUSE_OPER_WR_DATA_MASK EFUSE_OPER_WR_DATA_POSI))
    EFUSE_OPER_DIR) (Z.shiftl (Z.land (ef_addr e) EFUSE_OPER_ADDR_MASK) EFUSE_OPER_ADDR_POSI))
    (Z.shiftl (Z.land (ef_data e) EFUSE_OPER_WR_DATA_MASK) EFUSE_OPER_WR_DATA_POSI)) EFUSE_OPER_EN.

Lemma read_word_fields e v : Z.testbit (read_word e v) 0 = true /\ Z.testbit (read_word e v) 1 = false /\
  Z.land (Z.shiftr (read_word e v) 8) 0x1F = fuse_addr e.
Proof using Type.
  unfold read_word, fuse_addr, EFUSE_OPER_ADDR_MASK, EFUSE_OPER_ADDR_POSI, EFUSE_OPER_DIR, EFUSE_OPER_EN. split_and!.
  - rewrite Z.lor_spec. apply orb_true_r.
  - rewrite !Z.lor_spec, !Z.ldiff_spec, !Z.shiftl_spec by lia. rewrite !Z.land_spec. const_bits.
  - change 0x1F with (Z.ones 5). field_bits 5.
Qed.
Lemma program_word_fields e v : Z.testbit (program_word e v) 0 = true /\ Z.testbit (program_word e v) 1 = true /\
  Z.land (Z.shiftr (program_word e v) 8) 0x1F = fuse_addr e /\ Z.land (Z.shiftr (program_word e v) 16) 0xFF = Z.land (ef_data e) 0xFF.
Proof using Type.
  unfold program_word, fuse_addr, EFUSE_OPER_ADDR_MASK, EFUSE_OPER_ADDR_POSI, EFUSE_OPER_WR_DATA_MASK, EFUSE_OPER_WR_DATA_POSI, EFUSE_OPER_DIR, EFUSE_OPER_EN.
  split_and!.
  - rewrite Z.lor_spec. apply orb_true_r.
  - rewrite !Z.lor_spec, !Z.ldiff_spec, !Z.shiftl_spec by lia. rewrite !Z.land_spec. const_bits.
  - change 0x1F with (Z.ones 5). field_bits 5.
  - change 0xFF with (Z.ones 8). field_bits 8.
Qed.

Lemma word_u32 x f d : is_u32 x -> is_u32 f -> is_u32 d -> is_u32 (Z.lor (Z.lor x f) d).
Proof using Type. intros. by repeat apply lor_u32. Qed.
Lemma addr_field_u32 x n p : 0 <= n -> 0 <= p -> n + p <= 32 -> is_u32 (Z.shiftl (Z.land x (Z.ones n)) p).
Proof using Type.
  intros Hn Hp Hb. rewrite Z.land_ones, Z.shiftl_mul_pow2 by done. pose proof (Z.mod_pos_bound x (2 ^ n) ltac:(by apply Z.pow_pos_nonneg)) as Hx.
  assert (0 < 2 ^ p) by (by apply Z.pow_pos_nonneg). assert (2 ^ n * 2 ^ p <= 2 ^ 32) by (rewrite <- Z.pow_add_r by done; by apply Z.pow_le_mono_r).
  unfold is_u32. change 4294967296 with (2 ^ 32). nia.
Qed.

(** *** Reading a byte *)
Definition read_result h (e : EFUSE_OPER_ST) : Z * EFUSE_OPER_ST :=
  if fuse_readable (fuse h) (fuse_addr e) then (0, EfuseOper (ef_addr e) (fuse h (fuse_addr e))) else (-1, EfuseOper (ef_addr e) 0xFF).

Lemma efuse_read_val e h : ready h -> (fuse_max (hw := hw) < fuel)%nat ->
  exists h', sctrl_read_efuse fuel e h = Val (read_result h e, h') /\ ready h' /\ fuse_same h h' /\ same (ssoft h) (ssoft h').
Proof using Type.
  intros Hr Hf.
  destruct (start_val (read_word e) h Hr) as (v & h1 & h2 & E2 & D2 & Hv & R1 & (A1 & _ & _) & _ & S2).
  { intros v Hv. apply word_u32; [by do 2 apply ldiff_u32|by apply (addr_field_u32 _ 5)|done]. }
  { intros v. apply read_word_fields. }
  destruct (read_word_fields e v) as (B0 & B1 & Ba).
  assert (Hu : is_u32 (read_word e v)) by (apply word_u32; [by do 2 apply ldiff_u32|by apply (addr_field_u32 _ 5)|done]).
  destruct (fuse_start h1 _ Hu B0 R1) as (_ & Hop). rewrite B1, Ba, <- D2 in Hop. destruct Hop as [A2 O2].
  destruct (wait_val fuel h2) as (h3 & E3 & R3 & (A3 & _ & O3) & S3); [pose proof (fuse_bounds h2 0) as (_ & _ & ?); lia|].
  destruct (fuse_read_out h3 R3) as (w & h4 & E4 & (A4 & _ & _) & R4 & O4).
  exists h4. assert (F4 : fuse_same h h4) by (intros b; by rewrite A4, A3, A2, A1). split_and!; [|done|done|].
  - unfold sctrl_read_efuse. fold (read_word e). rewrite (bind_ret_val _ _ _ _ _ E2), (bind_ret_val _ _ _ _ _ E3).
    mstep by (unfold REG_READ; by rewrite E4). unfold mret, M_ret. f_equal. f_equal. unfold EFUSE_OPER_RD_DATA_VALID. rewrite truthy_bit by done.
    unfold read_result. rewrite O3, O2, (fuse_readable_ext _ (fuse h)), A1 in O4 by done.
    destruct (fuse_readable (fuse h) (fuse_addr e)).
    + destruct O4 as [-> Hb]. unfold EFUSE_OPER_RD_DATA_POSI, EFUSE_OPER_RD_DATA_MASK. by rewrite Z.shiftr_0_r, Hb.
    + by rewrite O4.
  - intros b. rewrite <- S2, <- S3, <- (proj2 (efuse_keeps_soft h3 SCTRL_EFUSE_OPTR 0 b eq_refl)), E4. done.
Qed.

(** *** What may be programmed *)
Lemma bit_of_byte x i : 0 <= i -> truthy (Z.land (Z.shiftr x i) 0x01) = Z.testbit x i.
Proof using Type. intros Hi. change 0x01 with (Z.shiftl 1 0). rewrite truthy_bit by done. by rewrite Z.shiftr_spec. Qed.

Lemma bits_can_write_spec n i new old : 0 <= i ->
  ((forall j, i <= j < i + Z.of_nat n -> Z.testbit (Z.ldiff old new) j = false) -> bits_can_write n i new old = 2) /\
  (forall j, i <= j < i + Z.of_nat n -> Z.testbit (Z.ldiff old new) j = true -> bits_can_write n i new old = 0).
Proof using Type.
  revert i. induction n as [|n IH]; intros i Hi; [split; [done|intros; lia]|]. cbn [bits_can_write]. rewrite !bit_of_byte by done.
  destruct (IH (i + 1) ltac:(lia)) as [I1 I2]. split.
  - intros Hz. pose proof (Hz i ltac:(lia)) as H0. rewrite Z.ldiff_spec in H0. rewrite H0. apply I1. intros j Hj. apply Hz. lia.
  - intros j Hj Hb. destruct (Z.testbit old i && negb (Z.testbit new i)) eqn:E; [done|].
    destruct (Z.eq_dec j i) as [->|]; [rewrite Z.ldiff_spec in Hb; congruence|]. apply (I2 j); [lia|done].
Qed.

Lemma check_spec new old : is_u8 new -> is_u8 old -> check_efuse_can_write new old =
  if decide (new = old) then 1 else if decide (Z.ldiff old new = 0) then 2 else 0.
Proof using Type.
  intros Hn Ho. unfold check_efuse_can_write. destruct (Z.eqb_spec new old) as [->|Hne]; [by rewrite decide_True|]. rewrite (decide_False (P := new = old)) by done.
  destruct (bits_can_write_spec 8 0 new old ltac:(done)) as [H1 H2]. destruct (decide (Z.ldiff old new = 0)) as [E|E].
  - apply H1. intros j _. by rewrite E, Z.bits_0.
  - assert (exists j, 0 <= j < 8 /\ Z.testbit (Z.ldiff old new) j = true) as (j & Hj & Hb); [|by apply (H2 j)].
    destruct (Z.ldiff old new) as [|p|p] eqn:D; [done| |].
    + exists (Z.log2 (Z.pos p)). assert (Hl : Z.testbit (Z.pos p) (Z.log2 (Z.pos p)) = true) by (by apply Z.bit_log2). split; [|done].
      split; [apply Z.log2_nonneg|]. destruct (Z.lt_ge_cases (Z.log2 (Z.pos p)) 8) as [|Hge]; [done|]. rewrite <- D in Hl at 1. rewrite Z.ldiff_spec in Hl.
      rewrite (testbit_small old 8) in Hl by (unfold is_u8 in *; lia). done.
    + exfalso. assert (0 <= Z.ldiff old new) by (apply Z.ldiff_nonneg; left; unfold is_u8 in *; lia). lia.
Qed.

(** *** Programming *)
Lemma efuse_control_val f h : ready h -> (forall v, is_u32 v -> is_u32 (f v)) -> exists h', reg_update SCTRL_CONTROL f h = Val (tt, h') /\
  ready h' /\ fuse_same h h' /\ assigns SCTRL_CONTROL f (ssoft h) (ssoft h') /\ h' = bus_write SCTRL_CONTROL (f (breg (B := sctrl_block) h SCTRL_CONTROL)) h.
Proof using Type.
  intros Hr Hu. destruct (runs_rmw (B := sctrl_block) SCTRL_CONTROL f f eq_refl Hu ltac:(intros x; by rewrite !Z.ldiff_0_r) h) as (h' & E & Q).
  assert (E' : h' = bus_write SCTRL_CONTROL (f (breg (B := sctrl_block) h SCTRL_CONTROL)) h).
  { unfold mbind, M_bind, REG_READ, REG_WRITE, modify in E. rewrite breg_read in E by done. by injection E. }
  destruct (fuse_write_other h SCTRL_CONTROL (f (breg (B := sctrl_block) h SCTRL_CONTROL)) eq_refl (or_introl Hr)) as [(A & _) Hb].
  exists h'. split_and!; [exact E|unfold ready; by rewrite E', Hb|intros a; by rewrite E', A|exact Q|done].
Qed.

Lemma program_val e h : ready h -> (fuse_max (hw := hw) < fuel)%nat -> is_u8 (ef_data e) ->
  exists h', efuse_program fuel e h = Val (tt, h') /\ ready h' /\
    (forall b, fuse h' b = if b =? fuse_addr e then Z.lor (fuse h b) (ef_data e) else fuse h b) /\
    assigns SCTRL_CONTROL (fun x => Z.ldiff x EFUSE_VDD25_EN) (ssoft h) (ssoft h').
Proof using Type.
  intros Hr Hf Hd. destruct (efuse_control_val (fun reg => Z.lor reg EFUSE_VDD25_EN) h Hr) as (h1 & E1 & R1 & A1 & Q1 & D1); [intros v Hv; by apply lor_u32|].
  assert (Hu : forall v, is_u32 v -> is_u32 (program_word e v)).
  { intros v Hv. unfold program_word. repeat apply lor_u32; [by do 2 apply ldiff_u32|done|by apply (addr_field_u32 _ 5)|by apply (addr_field_u32 _ 8)|done]. }
  destruct (start_val (program_word e) h1 R1 Hu) as (v & h2 & h3 & E3 & D3 & Hv & R2 & (A2 & _ & _) & S2 & S3).
  { intros v. apply program_word_fields. }
  destruct (program_word_fields e v) as (B0 & B1 & Ba & Bd).
  destruct (fuse_start h2 _ (Hu v Hv) B0 R2) as (_ & Hop). rewrite B1, Ba, Bd, <- D3 in Hop.
  assert (Hpow : Z.testbit (breg (B := sctrl_block) h2 SCTRL_CONTROL) 23 = true).
  { pose proof (S2 SCTRL_CONTROL) as E. rewrite Q1, Z.eqb_refl in E. apply (f_equal (fun x => Z.testbit x 23)) in E.
    unfold Regs.soft, soft_of in E. rewrite Z.ldiff_spec, Z.lor_spec in E. cbn [b_hard sctrl_block] in E.
    change (Z.testbit (sctrl_hard SCTRL_CONTROL) 23) with false in E. change (Z.testbit EFUSE_VDD25_EN 23) with true in E.
    by rewrite orb_true_r, andb_true_r in E. }
  rewrite Hpow in Hop. rewrite land_0xff, Z.mod_small in Hop by exact Hd.
  destruct (wait_val fuel h3) as (h4 & E4 & R4 & (A4 & _) & S4); [pose proof (fuse_bounds h3 0) as (_ & _ & ?); lia|].
  destruct (efuse_control_val (fun reg => Z.ldiff reg EFUSE_VDD25_EN) h4 R4) as (h5 & E5 & R5 & A5 & Q5 & _); [intros x Hx; by apply ldiff_u32|].
  exists h5. split_and!; [|done| |].
  - unfold efuse_program. fold (program_word e). by rewrite (bind_ret_val _ _ _ _ _ E1), (bind_ret_val _ _ _ _ _ E3), (bind_ret_val _ _ _ _ _ E4).
  - intros b. by rewrite A5, A4, Hop, andb_true_r, A2, A1.
  - intros b. rewrite Q5, !S4, !S3, !Q1, Z.eqb_refl. destruct (Z.eqb_spec b SCTRL_CONTROL) as [->|]; [|done].
    generalize EFUSE_VDD25_EN. intros m. word_bits.
Qed.

(** Whether a write programs the byte. *)
Definition programs h (e : EFUSE_OPER_ST) : bool :=
  negb (fuse_readable (fuse h) (fuse_addr e)) ||
  negb (bool_decide (fuse h (fuse_addr e) = ef_data e)) && bool_decide (Z.ldiff (fuse h (fuse_addr e)) (ef_data e) = 0).

Lemma write_val e h : ready h -> (fuse_max (hw := hw) < fuel)%nat -> is_u8 (ef_data e) ->
  exists ret e' h', sctrl_write_efuse fuel e h = Val ((ret, e'), h') /\ ready h' /\
    (forall b, fuse h' b = if (b =? fuse_addr e) && programs h e then Z.lor (fuse h b) (ef_data e) else fuse h b) /\
    (forall b, ssoft h' b = if (b =? SCTRL_CONTROL) && programs h e then Z.ldiff (ssoft h b) EFUSE_VDD25_EN else ssoft h b) /\
    ret = (if fuse_readable (fuse h') (fuse_addr e) && bool_decide (fuse h' (fuse_addr e) = ef_data e) && (programs h e || fuse_readable (fuse h) (fuse_addr e)) then 0
           else if fuse_readable (fuse h) (fuse_addr e) && programs h e then 2 else -1).
Proof using Type.
  intros Hr Hf Hd. destruct (efuse_read_val e h Hr Hf) as (h1 & E1 & R1 & A1 & S1). pose proof (fuse_bounds h (fuse_addr e)) as (Ho & _).
  assert (Hx : forall h', fuse_same h h' -> fuse_readable (fuse h') (fuse_addr e) = fuse_readable (fuse h) (fuse_addr e))
    by (intros h' Hs; by apply fuse_readable_ext).
  unfold sctrl_write_efuse. rewrite (bind_ret_val _ _ _ _ _ E1). unfold read_result, programs.
  destruct (fuse_readable (fuse h) (fuse_addr e)) eqn:Hread; cbn [fst snd ef_data negb orb andb].
  2: { (* the byte cannot be read: it is programmed *)
    destruct (program_val e h1 R1 Hf Hd) as (h2 & E2 & R2 & A2 & S2). destruct (efuse_read_val (EfuseOper (ef_addr e) 0) h2 R2 Hf) as (h3 & E3 & R3 & A3 & S3).
    assert (F3 : forall b, fuse h3 b = if b =? fuse_addr e then Z.lor (fuse h b) (ef_data e) else fuse h b) by (intros b; by rewrite A3, A2, A1).
    change (-1 =? 0) with false. cbn [andb]. rewrite (bind_ret_val _ _ _ _ _ E2), (bind_ret_val _ _ _ _ _ E3). eexists _, _, h3.
    split_and!; [reflexivity|done|intros b; rewrite F3, andb_true_r; done| |].
    - intros b. rewrite S3, S2, andb_true_r, !S1. by destruct (Z.eqb_spec b SCTRL_CONTROL) as [->|].
    - unfold read_result. change (fuse_addr (EfuseOper (ef_addr e) 0)) with (fuse_addr e). rewrite (fuse_readable_ext (fuse h3) (fuse h2)), A3 by done.
      destruct (fuse_readable (fuse h2) (fuse_addr e)); cbn [fst snd ef_data andb]; [|reflexivity].
      rewrite u8_id by done. rewrite (Z.eqb_sym (ef_data e)). change (0 =? 0) with true. cbn [andb]. rewrite andb_true_r.
      destruct (Z.eqb_spec (fuse h2 (fuse_addr e)) (ef_data e)); [by rewrite bool_decide_true|by rewrite bool_decide_false]. }
  rewrite (check_spec _ _ Hd Ho). change (0 =? 0) with true. cbn [andb].
  destruct (decide (ef_data e = fuse h (fuse_addr e))) as [Eq|Ne].
  { exists 0, e, h1. assert (Hn : bool_decide (fuse h (fuse_addr e) = ef_data e) = true) by (by apply bool_decide_true).
    change (1 =? 0) with false. change (1 =? 1) with true. cbv iota. rewrite Hx, A1, Hn by done. cbn [negb andb orb].
    split_and!; [reflexivity|done|intros b; by rewrite andb_false_r, A1|intros b; by rewrite andb_false_r, S1|done]. }
  assert (Hn : bool_decide (fuse h (fuse_addr e) = ef_data e) = false) by (apply bool_decide_false; intros E; by rewrite E in Ne).
  destruct (decide (Z.ldiff (fuse h (fuse_addr e)) (ef_data e) = 0)) as [Ez|Ez].
  - rewrite (bool_decide_true (Z.ldiff _ _ = 0)), Hn by done. cbn [negb andb orb].
    destruct (program_val e h1 R1 Hf Hd) as (h2 & E2 & R2 & A2 & S2). destruct (efuse_read_val (EfuseOper (ef_addr e) 0) h2 R2 Hf) as (h3 & E3 & R3 & A3 & S3).
    assert (F3 : forall b, fuse h3 b = if b =? fuse_addr e then Z.lor (fuse h b) (ef_data e) else fuse h b) by (intros b; by rewrite A3, A2, A1).
    change (2 =? 0) with false. change (2 =? 1) with false. cbv iota. rewrite (bind_ret_val _ _ _ _ _ E2), (bind_ret_val _ _ _ _ _ E3). eexists _, _, h3.
    split_and!; [reflexivity|done|intros b; rewrite F3, andb_true_r; done| |].
    + intros b. rewrite S3, S2, andb_true_r, !S1. by destruct (Z.eqb_spec b SCTRL_CONTROL) as [->|].
    + unfold read_result. change (fuse_addr (EfuseOper (ef_addr e) 0)) with (fuse_addr e). rewrite (fuse_readable_ext (fuse h3) (fuse h2)), A3 by done.
      destruct (fuse_readable (fuse h2) (fuse_addr e)); cbn [fst snd ef_data andb]; [|done].
      rewrite u8_id by done. rewrite (Z.eqb_sym (ef_data e)). change (0 =? 0) with true. cbn [andb].
      destruct (Z.eqb_spec (fuse h2 (fuse_addr e)) (ef_data e)); [by rewrite bool_decide_true|by rewrite bool_decide_false].
  - rewrite (bool_decide_false (Z.ldiff _ _ = 0)), Hn by done. cbn [negb andb orb]. exists (-1), e, h1.
    change (0 =? 0) with true. cbv iota. rewrite A1, Hn, andb_false_r. cbn [andb].
    split_and!; [reflexivity|done|intros b; by rewrite andb_false_r, A1|intros b; by rewrite andb_false_r, S1|done].
Qed.

(** C20: writing a one-time-programmable byte through the driver clears no bit of any
    byte, changes no other byte and leaves the programming supply off when it
    programmed; a write that would have to clear a bit of a byte that can be read is
    refused and changes nothing, one that would not succeeds if the byte can be read
    afterwards, and after a success a read delivers the byte that was written. *)
Theorem efuse_write_then_read e h : is_u8 (ef_data e) -> ready h -> (fuse_max (hw := hw) < fuel)%nat ->
  exists ret e' h', sctrl_write_efuse fuel e h = Val ((ret, e'), h') /\
    (forall b, Z.ldiff (fuse h b) (fuse h' b) = 0) /\ (forall b, b <> fuse_addr e -> fuse h' b = fuse h b) /\
    (forall b, ssoft h' b = ssoft h b \/ b = SCTRL_CONTROL /\ ssoft h' b = Z.ldiff (ssoft h b) EFUSE_VDD25_EN) /\
    (fuse_readable (fuse h) (fuse_addr e) = true -> Z.ldiff (fuse h (fuse_addr e)) (ef_data e) <> 0 -> ret = -1 /\ forall b, fuse h' b = fuse h b) /\
    (fuse_readable (fuse h) (fuse_addr e) = true -> fuse_readable (fuse h') (fuse_addr e) = true -> Z.ldiff (fuse h (fuse_addr e)) (ef_data e) = 0 -> ret = 0) /\
    (ret = 0 -> exists h'', sctrl_read_efuse fuel e h' = Val ((0, EfuseOper (ef_addr e) (ef_data e)), h'')).
Proof using Type.
  intros Hd Hr Hf. destruct (write_val e h Hr Hf Hd) as (ret & e' & h' & E & R & A & S & Hret). exists ret, e', h'.
  assert (Hup : forall x y : Z, Z.ldiff x (Z.lor x y) = 0).
  { intros x y. bits. rewrite Z.bits_0. by destruct (Z.testbit x i), (Z.testbit y i). }
  split_and!; [done| | | | | |].
  - intros b. rewrite A. destruct ((b =? fuse_addr e) && programs h e); [apply Hup|apply Z.ldiff_diag].
  - intros b Hb. by rewrite A, (proj2 (Z.eqb_neq _ _)).
  - intros b. rewrite S. destruct (Z.eqb_spec b SCTRL_CONTROL) as [->|]; cbn [andb]; [|by left]. destruct (programs h e); [by right|by left].
  - intros Hread Hne. assert (Hp : programs h e = false) by (unfold programs; rewrite Hread, (bool_decide_false (Z.ldiff _ _ = 0)) by done; apply andb_false_r).
    assert (F : forall b, fuse h' b = fuse h b) by (intros b; by rewrite A, Hp, andb_false_r). split; [|done].
    rewrite Hret, Hp, Hread, F. rewrite bool_decide_false; [by rewrite !andb_false_r|]. intros Eq. apply Hne. by rewrite Eq, Z.ldiff_diag.
  - intros Hread Hread' Hz. rewrite Hret, Hread', Hread, orb_true_r, andb_true_r. clear Hret. rewrite bool_decide_true; [done|]. rewrite A, Z.eqb_refl. cbn [andb].
    unfold programs. rewrite Hread, (bool_decide_true (Z.ldiff _ _ = 0)) by done. cbn [negb orb]. case_bool_decide as Heq; cbn [negb andb].
    { done. }
    revert Hz. generalize (fuse h (fuse_addr e)), (ef_data e). intros x y Hz. word_bits.
  - intros ->. destruct (efuse_read_val e h' R Hf) as (h'' & E2 & _). exists h''. rewrite E2. unfold read_result.
    destruct (fuse_readable (fuse h') (fuse_addr e)); [|by destruct (fuse_readable (fuse h) (fuse_addr e) && programs h e)].
    case_bool_decide as Heq; [by rewrite Heq|]. by destruct (fuse_readable (fuse h) (fuse_addr e) && programs h e).
Qed.
End efuse.

(** ** The hold of the radio

    Clients hold the radio awake with bits of a word; it may sleep, with two of
    its clocks off, when no bit is left. *)
Inductive hold_cmd := Hold (p : Z) | Release (p : Z).

(** What the commands promise: the holders, and whether the radio sleeps; [e]: whether sleeping is enabled. *)
Definition radio_step (e : bool) (r : Z * bool) (c : hold_cmd) : Z * bool :=
  match c with
  | Hold p => let h := Z.lor r.1 p in (h, if h =? 0 then r.2 else false)
  | Release p => let h := Z.ldiff r.1 p in (h, if (h =? 0) && e then true else r.2)
  end.

(** The controller of the radio chip: its enable bit and that of its first channel. *)
Definition rc_block : block := Block (fun a => a =? RC_CNTL_STAT_ADDR) (fun _ => 0xFFFFFFF6) (fun _ => 0).
#[export] Instance rc_block_ok : BlockOk rc_block.
Proof. split; intros a; cbn; [done|]. intros i. by rewrite Z.bits_0. Qed.
#[export] Instance sctrl_apart_rc : Apart in_sctrl (b_in rc_block).
Proof. intros a. cbn. unfold in_sctrl. intros Ha. destruct (Z.eqb_spec a RC_CNTL_STAT_ADDR) as [->|]; [by vm_compute in Ha|done]. Qed.
#[export] Instance rc_apart_sctrl : Apart (b_in rc_block) in_sctrl.
Proof. intros a. cbn. intros Ha. apply Z.eqb_eq in Ha as ->. reflexivity. Qed.

Section radio.
Context {W : Type} `{RegBus W, !BlockRegs sctrl_block W, !BlockRegs rc_block W, !Holds sctrl_vars W, !Quiet sctrl_vars W} (fuel : nat).
Context (deep_sleep : sctrl_parm -> M W unit).
Implicit Types w : W.

Definition rvars w : sctrl_vars := hget w.
Definition hold_control (c : hold_cmd) : M W unit :=
  _ ← match c with
      | Hold p => sctrl_ctrl fuel deep_sleep CMD_RF_HOLD_BIT_SET (CWord p)
      | Release p => sctrl_ctrl fuel deep_sleep CMD_RF_HOLD_BIT_CLR (CWord p)
      end;
  mret tt.
Fixpoint hold_all (cs : list hold_cmd) : M W unit :=
  match cs with [] => mret tt | c :: cs' => hold_control c;; hold_all cs' end.

(** The chip's two bits, 0x09 when it is on. *)
Definition chip w : Z := Regs.soft rc_block w RC_CNTL_STAT_ADDR.

(** The variables, the two clocks and the chip agree with the holders and with whether the radio sleeps. *)
Record radio_is (r : Z * bool) w : Prop := {
  ra_hold : rf_hold_status (rvars w) = r.1;
  ra_sleeped : rf_sleeped (rvars w) = if r.2 then 1 else 0;
  ra_phy : Z.testbit (ssoft w SCTRL_MODEM_CORE_RESET_PHY_HCLK) 0 = negb r.2;
  ra_modem : Z.testbit (ssoft w SCTRL_CONTROL) 10 = r.2;
  ra_chip : chip w = if r.2 then 0 else 0x09;
}.
Definition ps_enabled w : bool := 0 <? rf_sleepe_enable (rvars w).
(** No other bit of the registers has changed. *)
Definition radio_only w w' : Prop := forall a i, in_sctrl a = true -> 0 <= i ->
  (a, i) <> (SCTRL_MODEM_CORE_RESET_PHY_HCLK, 0) -> (a, i) <> (SCTRL_CONTROL, 10) -> Z.testbit (ssoft w' a) i = Z.testbit (ssoft w a) i.

Lemma upd_val a f w : in_sctrl a = true -> sctrl_hard a = 0 -> (forall x, is_u32 x -> is_u32 (f x)) ->
  exists w', reg_update a f w = Val (tt, w') /\ rvars w' = rvars w /\ assigns a f (ssoft w) (ssoft w') /\ chip w' = chip w.
Proof using Quiet0.
  intros Ha Hz Hu. exists (bus_write a (f (breg (B := sctrl_block) w a)) w). split_and!.
  - unfold reg_update. by mstep by (unfold REG_READ; by rewrite (breg_read (B := sctrl_block))).
  - apply quiet_write.
  - intros b. unfold Regs.soft at 1. rewrite (breg_write (B := sctrl_block)) by (done || apply Hu, breg_u32). cbn [b_hard sctrl_block]. rewrite Hz, Z.ldiff_0_r.
    unfold Regs.soft, soft_of. cbn [b_hard sctrl_block]. by rewrite Hz, Z.ldiff_0_r.
  - unfold chip, Regs.soft. apply (breg_write_other (B := rc_block)). by apply apart.
Qed.

Lemma put_soft (x : sctrl_vars) w a : in_sctrl a = true -> ssoft (hput x w) a = ssoft w a.
Proof using Quiet0. intros Ha. unfold Regs.soft, soft_of. by rewrite (breg_put sctrl_block). Qed.
Lemma rc_val v w : is_u32 v -> exists w', rc_cntl_stat_set v w = Val (tt, w') /\ rvars w' = rvars w /\ same (ssoft w) (ssoft w') /\
  chip w' = Z.ldiff v 0xFFFFFFF6.
Proof using Quiet0.
  intros Hv. exists (bus_write RC_CNTL_STAT_ADDR v w). split_and!; [done|apply quiet_write|intros b; by apply (breg_write_other (B := sctrl_block))|].
  unfold chip, Regs.soft. rewrite (breg_write (B := rc_block)) by done. by rewrite Z.eqb_refl.
Qed.
Lemma set_vars_val (f : sctrl_vars -> sctrl_vars) w : exists w', sets f w = Val (tt, w') /\ rvars w' = f (rvars w) /\
  (forall a, in_sctrl a = true -> ssoft w' a = ssoft w a) /\ chip w' = chip w.
Proof using Quiet0.
  exists (hput (f (rvars w)) w). split_and!; [done|apply hget_put|intros a; apply put_soft|].
  unfold chip, Regs.soft, soft_of. by rewrite (breg_put rc_block).
Qed.

(** The two clocks, after both changes. *)
Lemma clocks_only w w' (on : bool) :
  (forall a, in_sctrl a = true -> ssoft w' a =
    if a =? SCTRL_CONTROL then (if on then Z.ldiff else Z.lor) (ssoft w a) MODEM_CLK480M_PWD_BIT
    else if a =? SCTRL_MODEM_CORE_RESET_PHY_HCLK then (if on then Z.lor else Z.ldiff) (ssoft w a) PHY_HCLK_EN_BIT else ssoft w a) ->
  radio_only w w' /\ Z.testbit (ssoft w' SCTRL_MODEM_CORE_RESET_PHY_HCLK) 0 = on /\ Z.testbit (ssoft w' SCTRL_CONTROL) 10 = negb on.
Proof using Type.
  intros Hw. assert (Hm : forall i, 0 <= i -> Z.testbit MODEM_CLK480M_PWD_BIT i = (i =? 10)).
  { intros i Hi. unfold MODEM_CLK480M_PWD_BIT. rewrite Z.shiftl_1_l, Z.pow2_bits_eqb by done. apply Z.eqb_sym. }
  assert (Hp : forall i, 0 <= i -> Z.testbit PHY_HCLK_EN_BIT i = (i =? 0)).
  { intros i Hi. unfold PHY_HCLK_EN_BIT. rewrite Z.shiftl_1_l, Z.pow2_bits_eqb by done. apply Z.eqb_sym. }
  split_and!.
  - intros a i Ha Hi H1 H2. rewrite (Hw a Ha). destruct (Z.eqb_spec a SCTRL_CONTROL) as [->|].
    + assert (Hne : (i =? 10) = false) by (apply Z.eqb_neq; intros ->; done).
      destruct on; rewrite ?Z.ldiff_spec, ?Z.lor_spec, Hm, Hne by done; [apply andb_true_r|apply orb_false_r].
    + destruct (Z.eqb_spec a SCTRL_MODEM_CORE_RESET_PHY_HCLK) as [->|]; [|done].
      assert (Hne : (i =? 0) = false) by (apply Z.eqb_neq; intros ->; done).
      destruct on; rewrite ?Z.ldiff_spec, ?Z.lor_spec, Hp, Hne by done; [apply orb_false_r|apply andb_true_r].
  - rewrite Hw by done. change (SCTRL_MODEM_CORE_RESET_PHY_HCLK =? SCTRL_CONTROL) with false. rewrite Z.eqb_refl.
    destruct on; rewrite ?Z.ldiff_spec, ?Z.lor_spec, Hp by done; [apply orb_true_r|apply andb_false_r].
  - rewrite Hw, Z.eqb_refl by done. destruct on; rewrite ?Z.ldiff_spec, ?Z.lor_spec, Hm by done; [apply andb_false_r|apply orb_true_r].
Qed.

(** What a call did: the radio is [r], whether sleeping is enabled and the other bits have not changed. *)
Definition radio_now (r : Z * bool) w w' : Prop := radio_is r w' /\ ps_enabled w' = ps_enabled w /\ radio_only w w'.
Lemma radio_now_same r w : radio_is r w -> radio_now r w w.
Proof using Type. done. Qed.

Lemma sleep_val r w : radio_is r w -> exists w', sctrl_rf_sleep w = Val (tt, w') /\ radio_now (r.1, if ps_enabled w then true else r.2) w w'.
Proof using Quiet0.
  intros [R1 R2 R3 R4 R5]. destruct r as [h b]. cbn [fst snd] in *.
  assert (Hen : sctrl_rf_ps_enabled w = Val (if ps_enabled w then 1 else 0, w)) by done.
  assert (Hsl : gets rf_sleeped w = Val (if b then 1 else 0, w)) by (unfold gets, Stack.gets; cbn; unfold rvars in R2; by rewrite <- R2).
  destruct (ps_enabled w) eqn:He; [|exists w; split; [unfold sctrl_rf_sleep; by rewrite (bind_ret_val _ _ _ _ _ Hen)|by split_and!]].
  destruct b; [exists w; split; [unfold sctrl_rf_sleep; rewrite (bind_ret_val _ _ _ _ _ Hen); cbn [when Z.eqb Pos.eqb]; by rewrite (bind_ret_val _ _ _ _ _ Hsl)|by split_and!]|].
  destruct (rc_val 0x0 w ltac:(done)) as (w1 & E1 & V1 & S1 & H1).
  destruct (set_vars_val (fun v => SctrlVars (rf_hold_status v) (rf_sleepe_enable v) 1) w1) as (w2 & E2 & V2 & S2 & H2).
  destruct (upd_val SCTRL_MODEM_CORE_RESET_PHY_HCLK (fun reg => Z.ldiff reg PHY_HCLK_EN_BIT) w2) as (w3 & E3 & V3 & S3 & H3); [done|done|intros; by apply ldiff_u32|].
  destruct (upd_val SCTRL_CONTROL (fun reg => Z.lor reg MODEM_CLK480M_PWD_BIT) w3) as (w4 & E4 & V4 & S4 & H4); [done|done|intros; by apply lor_u32|].
  exists w4. split.
  { unfold sctrl_rf_sleep. rewrite (bind_ret_val _ _ _ _ _ Hen). cbn [when Z.eqb Pos.eqb]. rewrite (bind_ret_val _ _ _ _ _ Hsl). cbn [when Z.eqb Pos.eqb].
    rewrite (bind_ret_val _ _ _ _ _ E1). unfold set_rf_sleeped. by rewrite (bind_ret_val _ _ _ _ _ E2), (bind_ret_val _ _ _ _ _ E3). }
  destruct (clocks_only w w4 false) as (O & C1 & C2).
  { intros a Ha. rewrite S4. rewrite !S3. change (SCTRL_CONTROL =? SCTRL_MODEM_CORE_RESET_PHY_HCLK) with false. cbv iota. rewrite !S2, !S1 by done.
    destruct (Z.eqb_spec a SCTRL_CONTROL) as [->|]; [done|]. by destruct (Z.eqb_spec a SCTRL_MODEM_CORE_RESET_PHY_HCLK) as [->|]. }
  assert (V : rvars w4 = SctrlVars (rf_hold_status (rvars w)) (rf_sleepe_enable (rvars w)) 1) by (by rewrite V4, V3, V2, V1).
  split_and!; [split; rewrite ?V; try done; by rewrite H4, H3, H2, H1|by unfold ps_enabled in *; rewrite V|done].
Qed.

Lemma wakeup_val r w : radio_is r w -> exists w', sctrl_rf_wakeup w = Val (tt, w') /\ radio_now (r.1, false) w w'.
Proof using Quiet0.
  intros [R1 R2 R3 R4 R5]. destruct r as [h b]. cbn [fst snd] in *.
  assert (Hsl : gets rf_sleeped w = Val (if b then 1 else 0, w)) by (unfold gets, Stack.gets; cbn; unfold rvars in R2; by rewrite <- R2).
  destruct b; [|exists w; split; [unfold sctrl_rf_wakeup; by rewrite (bind_ret_val _ _ _ _ _ Hsl)|by split_and!]].
  destruct (upd_val SCTRL_MODEM_CORE_RESET_PHY_HCLK (fun reg => Z.lor reg PHY_HCLK_EN_BIT) w) as (w1 & E1 & V1 & S1 & H1); [done|done|intros; by apply lor_u32|].
  destruct (upd_val SCTRL_CONTROL (fun reg => Z.ldiff reg MODEM_CLK480M_PWD_BIT) w1) as (w2 & E2 & V2 & S2 & H2); [done|done|intros; by apply ldiff_u32|].
  destruct (rc_val 0x09 w2 ltac:(done)) as (w3 & E3 & V3 & S3 & H3).
  destruct (set_vars_val (fun v => SctrlVars (rf_hold_status v) (rf_sleepe_enable v) 0) w3) as (w4 & E4 & V4 & S4 & H4).
  exists w4. split.
  { unfold sctrl_rf_wakeup. rewrite (bind_ret_val _ _ _ _ _ Hsl). cbn [when Z.eqb Pos.eqb].
    rewrite (bind_ret_val _ _ _ _ _ E1), (bind_ret_val _ _ _ _ _ E2), (bind_ret_val _ _ _ _ _ E3). exact E4. }
  destruct (clocks_only w w4 true) as (O & C1 & C2).
  { intros a Ha. rewrite S4, S3, S2, !S1 by done. change (SCTRL_CONTROL =? SCTRL_MODEM_CORE_RESET_PHY_HCLK) with false. cbv iota.
    destruct (Z.eqb_spec a SCTRL_CONTROL) as [->|]; [done|]. by destruct (Z.eqb_spec a SCTRL_MODEM_CORE_RESET_PHY_HCLK) as [->|]. }
  assert (V : rvars w4 = SctrlVars (rf_hold_status (rvars w)) (rf_sleepe_enable (rvars w)) 0) by (by rewrite V4, V3, V2, V1).
  split_and!; [split; rewrite ?V; try done; by rewrite H4, H3|by unfold ps_enabled; rewrite V|done].
Qed.
Lemma radio_now_trans r1 r2 w w1 w2 : radio_now r1 w w1 -> radio_now r2 w1 w2 -> radio_now r2 w w2.
Proof using Type.
  intros (_ & E1 & O1) (R2 & E2 & O2). split_and!; [done|congruence|]. intros a i Ha Hi H1 H2. by rewrite O2, O1.
Qed.

(** Changing the word of the holders. *)
Lemma set_hold_val f h b w : radio_is (h, b) w -> exists w', set_rf_hold f w = Val (tt, w') /\ radio_now (f h, b) w w' /\
  gets rf_hold_status w' = Val (f h, w').
Proof using Quiet0.
  intros [R1 R2 R3 R4 R5]. destruct (set_vars_val (fun v => SctrlVars (f (rf_hold_status v)) (rf_sleepe_enable v) (rf_sleeped v)) w) as (w' & E & V & S & Hchip).
  exists w'. cbn [fst snd] in *. split_and!; [exact E| |].
  - split_and!; [split; cbn [fst snd]; rewrite ?V, ?S by done; cbn [rf_hold_status rf_sleeped]; rewrite ?R1, ?Hchip; done|by unfold ps_enabled; rewrite V|intros a i Ha _ _ _; by rewrite S].
  - unfold gets, Stack.gets. unfold rvars in V, R1. cbn. by rewrite V, <- R1.
Qed.

Definition hold_call (c : hold_cmd) : M W unit := match c with Hold p => rf_hold_set p | Release p => rf_hold_clr p end.
Lemma hold_control_val c w w' : hold_call c w = Val (tt, w') -> hold_control c w = Val (tt, w').
Proof using Type.
  intros E. assert (Ec : hold_control c = (_ ← on_word (S := W) (CWord match c with Hold p => p | Release p => p end)
    (fun _ => hold_call c); mret tt)) by (by destruct c).
  rewrite Ec. unfold on_word. rewrite bind_assoc. mstep by reflexivity. by rewrite bind_assoc, (bind_ret_val _ _ _ _ _ E).
Qed.

Lemma hold_step r c w : radio_is r w -> exists w', hold_control c w = Val (tt, w') /\ radio_now (radio_step (ps_enabled w) r c) w w'.
Proof using Quiet0.
  intros Hr. destruct r as [h b].
  assert (Hc : exists w', hold_call c w = Val (tt, w') /\ radio_now (radio_step (ps_enabled w) (h, b) c) w w').
  { destruct c as [p|p]; cbn [hold_call radio_step fst snd].
    - destruct (set_hold_val (fun x => Z.lor x p) h b w Hr) as (w1 & E1 & N1 & G1). unfold rf_hold_set, truthy.
      destruct (Z.eqb_spec (Z.lor h p) 0) as [Ez|Hne].
      + exists w1. split; [|done]. by rewrite (bind_ret_val _ _ _ _ _ E1), (bind_ret_val _ _ _ _ _ G1), Ez.
      + destruct (wakeup_val _ w1 (proj1 N1)) as (w2 & E2 & N2). exists w2. split; [|exact (radio_now_trans _ _ _ _ _ N1 N2)].
        by rewrite (bind_ret_val _ _ _ _ _ E1), (bind_ret_val _ _ _ _ _ G1), (proj2 (Z.eqb_neq _ _) Hne).
    - destruct (set_hold_val (fun x => Z.ldiff x p) h b w Hr) as (w1 & E1 & N1 & G1). unfold rf_hold_clr. rewrite (Z.eqb_sym (Z.ldiff h p)).
      destruct (Z.eqb_spec 0 (Z.ldiff h p)) as [Ez|Hne].
      + destruct (sleep_val _ w1 (proj1 N1)) as (w2 & E2 & N2). exists w2.
        split; [by rewrite (bind_ret_val _ _ _ _ _ E1), (bind_ret_val _ _ _ _ _ G1), <- Ez|].
        pose proof (radio_now_trans _ _ _ _ _ N1 N2) as N. rewrite (proj1 (proj2 N1)) in N. cbn [fst snd andb] in *. by destruct (ps_enabled w).
      + exists w1. split; [|done]. by rewrite (bind_ret_val _ _ _ _ _ E1), (bind_ret_val _ _ _ _ _ G1), (proj2 (Z.eqb_neq _ _) Hne). }
  destruct Hc as (w' & E & N). exists w'. split; [by apply hold_control_val|exact N].
Qed.

(** A radio that is held does not sleep. *)
Lemma radio_step_held e r c : (r.1 <> 0 -> r.2 = false) -> (radio_step e r c).1 <> 0 -> (radio_step e r c).2 = false.
Proof using Type.
  intros Hr. destruct r as [h b], c as [p|p]; cbn in *; intros Hne; rewrite (proj2 (Z.eqb_neq _ _)) by done; [done|]. cbn [andb]. apply Hr.
  intros ->. by rewrite Z.ldiff_0_l in Hne.
Qed.

(** C16: any sequence of requests to hold and to release the radio keeps the word of
    the holders exactly: the radio sleeps, with its chip and its two clocks off, from
    the release that leaves no holder on, if sleeping is enabled, until the next hold,
    which switches the clocks and the chip on; while a holder is left the chip and both
    clocks are on; no other bit of the control registers changes. *)
Theorem radio_hold_refines cs r w : radio_is r w -> (r.1 <> 0 -> r.2 = false) ->
  exists w', hold_all cs w = Val (tt, w') /\ radio_is (fold_left (radio_step (ps_enabled w)) cs r) w' /\ radio_only w w' /\
    (rf_hold_status (rvars w') <> 0 -> chip w' = 0x09 /\ Z.testbit (ssoft w' SCTRL_MODEM_CORE_RESET_PHY_HCLK) 0 = true /\ Z.testbit (ssoft w' SCTRL_CONTROL) 10 = false).
Proof using Quiet0.
  intros Hr Hh. assert (Hall : exists w', hold_all cs w = Val (tt, w') /\ radio_now (fold_left (radio_step (ps_enabled w)) cs r) w w' /\
    let r' := fold_left (radio_step (ps_enabled w)) cs r in r'.1 <> 0 -> r'.2 = false).
  { revert r w Hr Hh. induction cs as [|c cs IH]; intros r w Hr Hh; [exists w; by split_and!|]. cbn [hold_all fold_left].
    destruct (hold_step r c w Hr) as (w1 & E1 & N1). destruct (IH _ w1 (proj1 N1)) as (w2 & E2 & N2 & H2); [by apply radio_step_held|].
    rewrite (proj1 (proj2 N1)) in N2, H2. exists w2. split_and!; [by rewrite (bind_ret_val _ _ _ _ _ E1)|exact (radio_now_trans _ _ _ _ _ N1 N2)|exact H2]. }
  destruct Hall as (w' & E & (R & _ & O) & Hh'). exists w'. split_and!; [done|done|done|]. destruct R as [R1 R2 R3 R4 R5]. rewrite R1, R3, R4, R5.
  intros Hne. by rewrite Hh'.
Qed.
End radio.

(** ** Bytes that satisfy the interface

    Two readings of the control register show an operation in progress; byte 0 cannot be read. *)
Record with_efuse (rest : Type) := WithEfuse { we_fuse : Z -> Z; we_ctl : Z; we_busy : nat; we_out : option Z; we_rest : rest }.
Arguments WithEfuse {rest}. Arguments we_fuse {rest}. Arguments we_ctl {rest}. Arguments we_busy {rest}. Arguments we_out {rest}. Arguments we_rest {rest}.

Definition efuse_ctl_word {rest} (h : with_efuse rest) : Z := Z.ldiff (u32 (we_ctl h)) EFUSE_OPER_EN.
Definition sim_readable (f : Z -> Z) (a : Z) : bool := negb (a =? 0).
Definition sim_fuse {rest} (h : with_efuse rest) (a : Z) : Z := u8 (we_fuse h a).

Definition efuse_start {rest} (power : bool) (v : Z) (h : with_efuse rest) : with_efuse rest :=
  let a := Z.land (Z.shiftr v 8) 0x1F in
  if Z.testbit v 1 then
    WithEfuse (fun b => if (b =? a) && power then Z.lor (sim_fuse h b) (Z.land (Z.shiftr v 16) 0xFF) else we_fuse h b) v 2 (we_out h) (we_rest h)
  else WithEfuse (we_fuse h) v 2 (if sim_readable (sim_fuse h) a then Some (sim_fuse h a) else None) (we_rest h).

#[export] Instance with_efuse_bus `{RegBus rest, !BlockRegs sctrl_block rest} : RegBus (with_efuse rest) := {|
  bus_read a h :=
    if a =? SCTRL_EFUSE_CTRL then (Z.lor (efuse_ctl_word h) (if decide (Nat.min 2 (we_busy h) = 0%nat) then 0 else EFUSE_OPER_EN),
      WithEfuse (we_fuse h) (we_ctl h) (pred (Nat.min 2 (we_busy h))) (we_out h) (we_rest h))
    else if a =? SCTRL_EFUSE_OPTR then (match we_out h with Some b => Z.lor (u8 b) EFUSE_OPER_RD_DATA_VALID | None => 0 end, h)
    else ((bus_read a (we_rest h)).1, WithEfuse (we_fuse h) (we_ctl h) (we_busy h) (we_out h) (bus_read a (we_rest h)).2);
  bus_write a v h :=
    if a =? SCTRL_EFUSE_CTRL then
      if Z.testbit v 0 then efuse_start (Z.testbit (breg (B := sctrl_block) (we_rest h) SCTRL_CONTROL) 23) v h
      else WithEfuse (we_fuse h) v (we_busy h) (we_out h) (we_rest h)
    else if a =? SCTRL_EFUSE_OPTR then h
    else WithEfuse (we_fuse h) (we_ctl h) (we_busy h) (we_out h) (bus_write a v (we_rest h));
|}.

#[export, refine] Instance with_efuse_block `{RegBus rest, !BlockRegs sctrl_block rest} : BlockRegs sctrl_block (with_efuse rest) :=
  {| breg h := breg (B := sctrl_block) (we_rest h) |}.
Proof.
  all: assert (Hout : forall a, in_sctrl a = true -> (a =? SCTRL_EFUSE_CTRL) = false /\ (a =? SCTRL_EFUSE_OPTR) = false) by (intros a Ha; unfold in_sctrl in Ha; lia).
  all: intros; cbn [bus_read bus_write with_efuse_bus].
  - apply breg_u32.
  - destruct (Hout a ltac:(assumption)) as [-> ->]. rewrite breg_read by done. by destruct h.
  - destruct (a =? SCTRL_EFUSE_CTRL); [done|]. destruct (a =? SCTRL_EFUSE_OPTR); [done|]. by apply breg_read_other.
  - destruct (Hout a ltac:(assumption)) as [-> ->]. by apply breg_write.
  - destruct (a =? SCTRL_EFUSE_CTRL); [unfold efuse_start; by destruct (Z.testbit v 0), (Z.testbit v 1)|].
    destruct (a =? SCTRL_EFUSE_OPTR); [done|]. by apply breg_write_other.
  - destruct (Hout a ltac:(assumption)) as [-> ->]. by apply breg_ack.
  - destruct (a =? SCTRL_EFUSE_CTRL); [done|]. destruct (a =? SCTRL_EFUSE_OPTR); [done|]. by apply breg_read_pending.
  - destruct (a =? SCTRL_EFUSE_CTRL); [unfold efuse_start; by destruct (Z.testbit v 0), (Z.testbit v 1)|].
    destruct (a =? SCTRL_EFUSE_OPTR); [done|]. by apply breg_pending.
Defined.

#[export, refine] Instance with_efuse_spec `{RegBus rest, !BlockRegs sctrl_block rest} : EfuseSpec (with_efuse rest) := {|
  fuse := sim_fuse; fuse_ctl := efuse_ctl_word; fuse_busy h := Nat.min 2 (we_busy h); fuse_out h := u8 <$> we_out h;
  fuse_readable := sim_readable; fuse_max := 2;
|}.
Proof.
  - intros h a. split_and!; [apply u8_range|by apply ldiff_u32, u32_range|lia].
  - done.
  - intros h. eexists _, _. split; [reflexivity|]. unfold efuse_ctl_word. set (c := u32 (we_ctl h)). pose proof (u32_range (we_ctl h) : is_u32 c) as Hc.
    rewrite bool_decide_decide. split_and!.
    + apply lor_u32; [by apply ldiff_u32|]. by destruct (decide (Nat.min 2 (we_busy h) = 0%nat)).
    + destruct (decide (Nat.min 2 (we_busy h) = 0%nat)); generalize EFUSE_OPER_EN; intros m; bits; rewrite ?Z.bits_0; by destruct (Z.testbit c i), (Z.testbit m i).
    + rewrite Z.lor_spec, Z.ldiff_spec. change (Z.testbit EFUSE_OPER_EN 0) with true. rewrite andb_false_r. by destruct (decide (Nat.min 2 (we_busy h) = 0%nat)).
    + done.
    + cbn [we_busy]. lia.
  - intros h Hb. eexists _, _. split; [reflexivity|]. split_and!; [done|done|]. destruct (we_out h) as [b|]; [|done].
    split; [by rewrite Z.lor_spec, orb_true_r|]. rewrite Z.land_lor_distr_l, land_0xff. change (Z.land EFUSE_OPER_RD_DATA_VALID 255) with 0.
    rewrite Z.lor_0_r. apply u8_id, u8_range.
  - intros h v Hv H0 Hb. cbn [bus_write with_efuse_bus]. rewrite Z.eqb_refl, H0. unfold efuse_start, efuse_ctl_word.
    destruct (Z.testbit v 1); cbn [we_ctl]; rewrite u32_id by done; (split; [done|]).
    + intros b. unfold sim_fuse at 1. cbn [we_fuse]. cbn [breg with_efuse_block]. destruct ((b =? _) && _); [|done].
      apply u8_id, (lor_range _ _ 8); [lia|apply u8_range|]. rewrite land_0xff. apply u8_range.
    + split; [done|]. cbn [we_out]. destruct (sim_readable _ _); [|done]. cbn. f_equal. apply u8_id, u8_range.
  - intros h a Ha. unfold is_efuse in Ha. apply orb_false_iff in Ha as [E1 E2]. cbn [bus_read with_efuse_bus]. by rewrite E1, E2.
  - intros h a v Ha _. unfold is_efuse in Ha. apply orb_false_iff in Ha as [E1 E2]. cbn [bus_write with_efuse_bus]. by rewrite E1, E2.
Defined.

(** Byte 3 holds 0x05: 0x0D adds a bit to it. *)
Definition demo_fuses : with_efuse (with_file sctrl_block icu_file) :=
  WithEfuse (fun a => if a =? 3 then 0x05 else 0) 0 0 None (WithFile sctrl_block (fun _ => 0) (IcuFile (fun _ => 0) [])).
Definition demo_oper : EFUSE_OPER_ST := EfuseOper 3 0x0D.

Lemma efuse_write_then_read_witness : fuse demo_fuses 3 = 0x05 /\
  exists e' h' h'', sctrl_write_efuse 3 demo_oper demo_fuses = Val ((0, e'), h') /\ sctrl_read_efuse 3 demo_oper h' = Val ((0, demo_oper), h'').
Proof.
  split; [done|]. destruct (efuse_write_then_read (hw := with_efuse (with_file sctrl_block icu_file)) 3 demo_oper demo_fuses) as (ret & e' & h' & E & _ & _ & _ & _ & S & R).
  - unfold is_u8. cbn. lia.
  - done.
  - cbn. lia.
  - assert (Hr : ret = 0) by (by apply S).
    destruct (R Hr) as (h'' & E2). exists e', h', h''. split; [by rewrite E, Hr|exact E2].
Defined.

(** The radio of a board with nobody holding it, asleep: held by two, released by one, then by both. *)
Definition demo_radio : with_state sctrl_vars (with_file sctrl_block (with_file rc_block icu_file)) :=
  WithState (SctrlVars 0 1 1) (WithFile sctrl_block (fun a => if a =? SCTRL_CONTROL then 0x400 else 0) (WithFile rc_block (fun _ => 0) (IcuFile (fun _ => 0) []))).
Lemma radio_hold_refines_witness : exists w', hold_all 0 (fun _ => mret tt) [Hold 5; Release 1] demo_radio = Val (tt, w') /\
  rf_hold_status (rvars w') = 4 /\ chip w' = 0x09 /\ Z.testbit (ssoft w' SCTRL_MODEM_CORE_RESET_PHY_HCLK) 0 = true.
Proof.
  destruct (radio_hold_refines 0 (fun _ => mret tt) [Hold 5; Release 1] (0, true) demo_radio) as (w' & E & [R1 _ _ _ _] & _ & Hc).
  - by split.
  - done.
  - destruct Hc as (C1 & C2 & _); [by rewrite R1|]. exists w'. split_and!; [exact E|exact R1|exact C1|exact C2].
Defined.
