(* ===== verification/SaradcIntf.v ===== *)
(** * Sampling objects (components/saradc_intf/saradc_intf.c)

    Clients of the converter register objects, each with a channel and a callback;
    a task measures the objects of the list in turn: it opens the converter
    through the registry, waits for the handler of the interrupt, which closes it
    and averages the samples, and calls the object back with millivolts.  Volts
    are computed in binary floating point, as saradc.c does.  The objects are the
    clients', reached by their addresses; the wait of the kernel and its delay are
    arguments of the model. *)
From stdpp Require Import strings gmap.
From Stdlib Require Import Floats.SpecFloat.
From S2P Require Import Prelude DrvModel Icu Regs Intc Stack Gpio Clock SaradcHw Saradc SysCtrl Reentry.
Local Open Scope Z_scope.

(** ** Volts (saradc.c)

    A [float] has 24 bits and exponents to 128, a [double] 53 bits and exponents to 1024. *)
Definition float_of_Z (n : Z) : spec_float := binary_normalize 24 128 n 0 false.
Definition double_of_Z (n : Z) : spec_float := binary_normalize 53 1024 n 0 false.
Definition convert (prec emax : Z) (x : spec_float) : spec_float :=
  match x with S754_finite s m e => binary_normalize prec emax (cond_Zopp s (Zpos m)) e s | _ => x end.
Definition to_float : spec_float -> spec_float := convert 24 128.
Definition to_double : spec_float -> spec_float := convert 53 1024.
(** [(int)x]: truncation; undefined for what is not a number and out of range. *)
Definition to_int (x : spec_float) : option Z :=
  match x with
  | S754_zero _ => Some 0
  | S754_finite s m e =>
    let n := cond_Zopp s (Z.quot (Zpos m * 2 ^ Z.max 0 e) (2 ^ Z.max 0 (-e))) in
    if (-0x80000000 <=? n) && (n <=? 0x7FFFFFFF) then Some n else None
  | _ => None
  end.
(** The literals 1.8 and 0.2. *)
Definition lit_1_8 : spec_float := S754_finite false 0x1CCCCCCCCCCCCD (-52).
Definition lit_0_2 : spec_float := S754_finite false 0x1999999999999A (-55).

Definition volts_of (c : saradc_calibrate_val) (adc_val : Z) : spec_float :=
  let practic_voltage := to_float (SFmul 53 1024 (double_of_Z (adc_val - low c)) lit_1_8) in
  to_float (SFadd 53 1024 (to_double (SFdiv 24 128 practic_voltage (float_of_Z (high c - low c)))) lit_0_2).
(** [mv = voltage * 1000] *)
Definition millivolts (voltage : spec_float) : option Z := to_int (SFmul 24 128 voltage (float_of_Z 1000)).

(** ** Data (saradc_intf.h, temp_detect_pub.h, error.h) *)
Definition ADC_TEMP_BUFFER_SIZE : Z := 5.
Definition TURING_ADC_SCAN_INTERVALV : Z := 10.
Definition kNoErr : Z := 0.
Definition kTimeoutErr : Z := -6722.

Record ADC_OBJ := AdcObj { user_data : Z; ao_channel : Z; cb : Z; ao_next : Z }.
Definition set_ao_next (n : Z) (o : ADC_OBJ) : ADC_OBJ := AdcObj (user_data o) (ao_channel o) (cb o) n.

(** The entity, once it is allocated (its descriptor and its buffer are with those
    of the driver), the flags, and the objects of the clients; a mutex is its
    handle and whether it is held, a semaphore of one its count. *)
Record tadc_vars := TadcVars {
  tadc_entity : Z;
  adc_obj_list : Z;
  obj_list_mutex : Z;
  obj_list_held : bool;
  adc_handle : Z;
  sema_wait_end : Z;
  adc_accuracy : Z;
  step_flag : Z;
  adctest_flag : Z;
  adc_objs : gmap Z ADC_OBJ;
}.
Definition with_list (p : Z) (v : tadc_vars) : tadc_vars :=
  TadcVars (tadc_entity v) p (obj_list_mutex v) (obj_list_held v) (adc_handle v) (sema_wait_end v) (adc_accuracy v) (step_flag v) (adctest_flag v) (adc_objs v).
Definition with_held (b : bool) (v : tadc_vars) : tadc_vars :=
  TadcVars (tadc_entity v) (adc_obj_list v) (obj_list_mutex v) b (adc_handle v) (sema_wait_end v) (adc_accuracy v) (step_flag v) (adctest_flag v) (adc_objs v).
Definition with_handle (h : Z) (v : tadc_vars) : tadc_vars :=
  TadcVars (tadc_entity v) (adc_obj_list v) (obj_list_mutex v) (obj_list_held v) h (sema_wait_end v) (adc_accuracy v) (step_flag v) (adctest_flag v) (adc_objs v).
Definition with_sema (c : Z) (v : tadc_vars) : tadc_vars :=
  TadcVars (tadc_entity v) (adc_obj_list v) (obj_list_mutex v) (obj_list_held v) (adc_handle v) c (adc_accuracy v) (step_flag v) (adctest_flag v) (adc_objs v).
Definition with_accuracy (a : Z) (v : tadc_vars) : tadc_vars :=
  TadcVars (tadc_entity v) (adc_obj_list v) (obj_list_mutex v) (obj_list_held v) (adc_handle v) (sema_wait_end v) a (step_flag v) (adctest_flag v) (adc_objs v).
Definition with_objs (m : gmap Z ADC_OBJ) (v : tadc_vars) : tadc_vars :=
  TadcVars (tadc_entity v) (adc_obj_list v) (obj_list_mutex v) (obj_list_held v) (adc_handle v) (sema_wait_end v) (adc_accuracy v) (step_flag v) (adctest_flag v) m.

(** ** The list of objects *)
Section objects.
Context {S : Type} `{!Holds tadc_vars S}.

(** [tadc_entity->...]: the entity is there. *)
Definition entity_there : M S unit := e ← gets tadc_entity; if e =? 0 then fail BadAccess else mret tt.
Definition obj_at (p : Z) : M S ADC_OBJ :=
  m ← gets adc_objs; if p =? 0 then fail BadAccess else lift_res (of_option BadAccess (m !! p)).
Definition obj_set (p : Z) (o : ADC_OBJ) : M S unit := _ ← obj_at p; sets (fun v => with_objs (<[p := o]> (adc_objs v)) v).

(** The mutex is not recursive: its holder waits for ever. *)
Definition rtos_lock_mutex : M S unit :=
  entity_there;; b ← gets obj_list_held; if (b : bool) then fail Deadlock else sets (with_held true).
Definition rtos_unlock_mutex : M S unit := entity_there;; sets (with_held false).

(** [*curr]: the head of the list, or the link of an object. *)
Definition get_curr (curr : option Z) : M S Z :=
  match curr with None => gets adc_obj_list | Some p => o ← obj_at p; mret (ao_next o) end.
Definition set_curr (curr : option Z) (v : Z) : M S unit :=
  match curr with None => sets (with_list v) | Some p => o ← obj_at p; obj_set p (set_ao_next v o) end.

Fixpoint stop_loop (fuel : nat) (handle : Z) (curr : option Z) : M S unit :=
  match fuel with
  | O => fail NoFuel
  | Datatypes.S fuel' =>
    entry ← get_curr curr;
    if entry =? 0 then mret tt
    else if entry =? handle then o ← obj_at entry; set_curr curr (ao_next o);; stop_loop fuel' handle curr
    else stop_loop fuel' handle (Some entry)
  end.
(** One turn for each object, and one for the end. *)
Definition obj_fuel : M S nat := gets (fun v => Datatypes.S (size (adc_objs v))).
Definition adc_obj_stop (handle : Z) : M S unit :=
  rtos_lock_mutex;; n ← obj_fuel; stop_loop n handle None;; rtos_unlock_mutex.

Definition adc_obj_init (handle callback channel data : Z) : M S unit :=
  when (truthy handle) (adc_obj_stop handle;; obj_set handle (AdcObj data channel callback 0)).

Fixpoint find_loop (fuel : nat) (handle target : Z) : M S bool :=
  if target =? 0 then mret false
  else match fuel with
  | O => fail NoFuel
  | Datatypes.S fuel' => if target =? handle then mret true else o ← obj_at target; find_loop fuel' handle (ao_next o)
  end.
Definition adc_obj_start (handle : Z) : M S Z :=
  e ← gets tadc_entity; mx ← gets obj_list_mutex;
  if (e =? 0) || (mx =? 0) then mret (-1)
  else
    rtos_lock_mutex;;
    n ← obj_fuel; target ← gets adc_obj_list;
    found ← find_loop n handle target;
    if (found : bool) then rtos_unlock_mutex;; mret (-1)
    else
      l ← gets adc_obj_list; o ← obj_at handle; obj_set handle (set_ao_next l o);;
      sets (with_list handle);;
      rtos_unlock_mutex;; mret 0.

(** The semaphore. *)
Definition rtos_set_semaphore : M S unit := entity_there;; sets (with_sema 1).
End objects.

(** [b[i]] of a buffer. *)
Definition buffer_get {S} `{!Holds saradc_vars S} (b i : Z) : M S Z :=
  m ← gets buffers; if i <? 0 then fail BadAccess else lift_res (of_option BadAccess (m !! b ≫= fun l => l !! Z.to_nat i)).

Definition saradc_calculate {S} `{!Holds saradc_vars S} (adc_val : Z) : M S spec_float := c ← gets saradc_val; mret (volts_of c adc_val).

(** ** Measuring *)
Section measure.
Context {W : Type} `{RegBus W, !Holds saradc_vars W, !Holds clock_vars W, !Holds tadc_vars W} (fuel : nat).
Abbreviation all := (drv_state (intc_st W)).
Context (sdev_ops : Z -> SDD_OPERATIONS (intc_st W)).
(** The addresses of the driver's operations, of [tadc_entity->adc_cfg] and [tadc_entity->adc_data], and of [sadc_detect_handler]. *)
Context (saradc_op adc_cfg adc_data detect_addr : Z).
(** What goes on while a task waits for the semaphore with a limit, and while it sleeps; an object's callback. *)
Context (while_waiting : Z -> M all unit) (rtos_delay_milliseconds : Z -> M all unit) (call_cb : Z -> Z -> Z -> M all unit).

Definition rtos_get_semaphore (timeout_ms : Z) : M all Z :=
  at_ext entity_there;;
  c ← at_ext (gets sema_wait_end);
  when (c =? 0) (while_waiting timeout_ms);;
  c' ← at_ext (gets sema_wait_end);
  if c' =? 0 then mret kTimeoutErr else at_ext (sets (with_sema (c' - 1)));; mret kNoErr.

(** [reg] is not initialised before the first call, and what the second returns is not used. *)
Definition analog7_step (f : Z -> Z) (reg : Z) : M all unit :=
  r ← sddev_control sdev_ops (Some SCTRL_DEV_NAME) CMD_SCTRL_GET_ANALOG7 reg;
  _ ← sddev_control sdev_ops (Some SCTRL_DEV_NAME) CMD_SCTRL_SET_ANALOG7 (f r.1);
  mret tt.
Definition saradc_calculate_step1 : Z -> M all unit := analog7_step (fun reg => Z.lor reg (Z.shiftl 1 21)).
Definition saradc_calculate_step2 : Z -> M all unit := analog7_step (fun reg => Z.ldiff reg (Z.shiftl 1 21)).

(** The supply of the memory behind the microphone's block. *)
Definition BLK_BIT_MIC_QSPI_RAM_OR_FLASH : Z := Z.shiftl 1 18.
Definition saradc_config_vddram_voltage (vol : Z) : M all unit :=
  _ ← sddev_control sdev_ops (Some SCTRL_DEV_NAME) CMD_SCTRL_BLK_ENABLE BLK_BIT_MIC_QSPI_RAM_OR_FLASH;
  _ ← sddev_control sdev_ops (Some SCTRL_DEV_NAME) CMD_QSPI_VDDRAM_VOLTAGE vol;
  mret tt.
Definition saradc_disable_vddram_voltage : M all unit :=
  _ ← sddev_control sdev_ops (Some SCTRL_DEV_NAME) CMD_SCTRL_BLK_DISABLE BLK_BIT_MIC_QSPI_RAM_OR_FLASH;
  mret tt.

(** The mean of the samples 1 to 4, shifted by what the saturation register says. *)
Definition mean_of (x1 x2 x3 x4 accuracy : Z) : Z :=
  let sum1 := x1 + x2 in let sum2 := x3 + x4 in
  let sum := (sum1 / 2 + sum2 / 2) / 2 in
  if negb (accuracy =? 0) then Z.shiftr sum (accuracy - 1) else sum.

Definition average : M W unit :=
  d ← desc_at adc_cfg;
  x1 ← buffer_get (pData d) 1; x2 ← buffer_get (pData d) 2; x3 ← buffer_get (pData d) 3; x4 ← buffer_get (pData d) 4;
  a ← saradc_check_accuracy;
  sets (with_accuracy (u8 a));;
  buffer_set (pData d) 0 (u16 (mean_of x1 x2 x3 x4 (u8 a))).

Definition sadc_detect_handler : M all unit :=
  at_ext entity_there;;
  d ← at_ext (desc_at adc_cfg);
  when (data_buff_size d <=? current_sample_data_cnt d) (
    h ← at_ext (gets adc_handle);
    _ ← dev_close saradc_op (saradc_close fuel sdev_ops) h;
    at_ext (sets (with_handle DD_HANDLE_UNVALID));;
    saradc_ensure_close fuel sdev_ops;;
    at_ext (average;; rtos_set_semaphore)).

(** [do { ... } while (ret < 5)]: whether the converter was opened; [n] attempts are left. *)
Definition try_open : M all bool :=
  busy ← at_ext saradc_check_busy;
  if busy =? 0 then
    r ← dev_open saradc_op (saradc_open fuel sdev_ops) SARADC_DEV_NAME adc_cfg;
    at_ext (sets (with_handle r.1));;
    mret (negb (DD_HANDLE_UNVALID =? r.1))
  else mret false.
Fixpoint open_loop (n : nat) : M all bool :=
  match n with
  | O => mret false
  | Datatypes.S n' => b ← try_open; if (b : bool) then mret true else rtos_delay_milliseconds 5;; open_loop n'
  end.

(** The descriptor of a measurement. *)
Definition measure_desc (channel : Z) : saradc_desc_t :=
  SaradcDesc adc_data 0 0 ADC_TEMP_BUFFER_SIZE 0 0 (u8 channel) (sd_mode default_desc) detect_addr (pre_div default_desc) (samp_rate default_desc) (sd_filter default_desc).
Definition set_up_desc (handle : Z) : M W unit :=
  entity_there;;
  saradc_config_param_init adc_cfg;;
  o ← obj_at handle;
  desc_set adc_cfg (fun _ => measure_desc (ao_channel o));;
  sets (fun v => with_buffers (<[adc_data := replicate (Z.to_nat ADC_TEMP_BUFFER_SIZE) 0]> (buffers v)) v).

(** The value for the callback. *)
Definition measured : M W Z :=
  d ← desc_at adc_cfg;
  x ← buffer_get (pData d) 0;
  t ← gets adctest_flag;
  if t =? 0 then mret x
  else v ← saradc_calculate x; lift_res (of_option BadAccess (millivolts v)).

Definition tadc_obj_handler (handle reg : Z) : M all unit :=
  at_ext (set_up_desc handle);;
  opened ← open_loop 5;
  if negb opened then mret tt
  else
    ret ← rtos_get_semaphore (fclk_from_sec_to_tick TURING_ADC_SCAN_INTERVALV);
    f ← at_ext (gets step_flag);
    (if f =? 0 then saradc_calculate_step1 reg else saradc_calculate_step2 reg);;
    when (ret =? kNoErr) (
      mv ← at_ext measured;
      o ← at_ext (obj_at handle);
      when (truthy (cb o)) (call_cb (cb o) mv (user_data o))).

(** The objects of the list in turn; the link is read after the measurement. *)
Fixpoint poll_loop (n : nat) (reg target : Z) : M all unit :=
  if target =? 0 then mret tt
  else match n with
  | O => fail NoFuel
  | Datatypes.S n' => tadc_obj_handler target reg;; o ← at_ext (obj_at target); poll_loop n' reg (ao_next o)
  end.
Definition tadc_check_timer_poll_handle (n : nat) (reg : Z) : M all unit :=
  at_ext rtos_lock_mutex;;
  target ← at_ext (gets adc_obj_list);
  poll_loop n reg target;;
  at_ext rtos_unlock_mutex.
End measure.
