(* ===== verification/SaradcObjs.v ===== *)
(** * The list of sampling objects

    The linked list that [adc_obj_start] and [adc_obj_stop] keep through the
    objects of the clients is a list without duplicates; no link is lost, and
    every call gives the mutex back. *)
From stdpp Require Import strings gmap.
From S2P Require Import Prelude Regs Stack SaradcIntf.
Local Open Scope Z_scope.

(** From [p] the links lead through [l] to null. *)
Fixpoint objs_chain (m : gmap Z ADC_OBJ) (p : Z) (l : list Z) : Prop :=
  match l with
  | [] => p = 0
  | x :: l' => p = x /\ x <> 0 /\ exists o, m !! x = Some o /\ objs_chain m (ao_next o) l'
  end.
(** The objects without their links. *)
Definition objs_data (m : gmap Z ADC_OBJ) : gmap Z ADC_OBJ := set_ao_next 0 <$> m.

(** The entity is there, its mutex free, and its list is [l]. *)
Record obj_list (v : tadc_vars) (l : list Z) : Prop := {
  ol_chain : objs_chain (adc_objs v) (adc_obj_list v) l;
  ol_nodup : NoDup l;
  ol_free : obj_list_held v = false;
  ol_entity : tadc_entity v <> 0;
  ol_mutex : obj_list_mutex v <> 0;
}.

Lemma objs_chain_ext m m' p l : (forall x, x ∈ l -> m' !! x = m !! x) -> objs_chain m p l -> objs_chain m' p l.
Proof.
  revert p. induction l as [|x l IH]; intros p He; [done|]. intros (-> & Hx & o & Ho & Hc).
  split_and!; [done..|]. exists o. split; [by rewrite He by set_solver|]. apply IH; [|done]. intros y Hy. apply He. set_solver.
Qed.
Lemma objs_chain_lookup m p l x : objs_chain m p l -> x ∈ l -> x <> 0 /\ is_Some (m !! x).
Proof.
  revert p. induction l as [|y l IH]; intros p; [set_solver|]. intros (-> & Hy & o & Ho & Hc) Hx.
  apply elem_of_cons in Hx as [->|Hx]; [eauto|by eapply IH].
Qed.
Lemma objs_chain_size m p l : objs_chain m p l -> NoDup l -> (length l < Datatypes.S (size m))%nat.
Proof.
  intros Hc Hnd. rewrite <- (size_list_to_set (C := gset Z)), <- size_dom by done. apply Nat.lt_succ_r, subseteq_size. intros x Hx.
  apply elem_of_list_to_set in Hx. apply elem_of_dom. by eapply objs_chain_lookup.
Qed.
Lemma objs_data_relink m x o n : m !! x = Some o -> objs_data (<[x := set_ao_next n o]> m) = objs_data m.
Proof. intros Ho. unfold objs_data. rewrite fmap_insert. apply insert_id. by rewrite lookup_fmap, Ho. Qed.
Lemma objs_data_some m m' x : objs_data m' = objs_data m -> is_Some (m !! x) -> is_Some (m' !! x).
Proof.
  intros E [o Ho]. apply (f_equal (fun d => d !! x)) in E. unfold objs_data in E. rewrite !lookup_fmap, Ho in E. by destruct (m' !! x).
Qed.

(** The value of a link, and its assignment. *)
Definition link (v : tadc_vars) (curr : option Z) : Z :=
  match curr with None => adc_obj_list v | Some p => default 0 (ao_next <$> adc_objs v !! p) end.
Definition linkable (v : tadc_vars) (curr : option Z) : Prop :=
  match curr with None => True | Some p => p <> 0 /\ is_Some (adc_objs v !! p) end.
Definition relink (v : tadc_vars) (curr : option Z) (x : Z) : tadc_vars :=
  match curr with
  | None => with_list x v
  | Some p => match adc_objs v !! p with Some o => with_objs (<[p := set_ao_next x o]> (adc_objs v)) v | None => v end
  end.
(** Only links differ. *)
Definition relinked (v v' : tadc_vars) : Prop :=
  exists l m, v' = with_objs m (with_list l v) /\ objs_data m = objs_data (adc_objs v).
Lemma relinked_refl v : relinked v v.
Proof. exists (adc_obj_list v), (adc_objs v). by destruct v. Qed.
Lemma relinked_trans v1 v2 v3 : relinked v1 v2 -> relinked v2 v3 -> relinked v1 v3.
Proof. intros (l & m & -> & E) (l' & m' & -> & E'). exists l', m'. split; [done|]. by rewrite E', <- E. Qed.
Lemma relinked_relink v curr x : linkable v curr -> relinked v (relink v curr x).
Proof.
  destruct curr as [p|]; [intros [_ [o Ho]]|intros _]; cbn; [rewrite Ho; exists (adc_obj_list v), (<[p := set_ao_next x o]> (adc_objs v))|exists x, (adc_objs v)].
  - split; [by destruct v|by apply objs_data_relink].
  - by destruct v.
Qed.

Section calls.
Context {S : Type} `{!Holds tadc_vars S}.
Implicit Types (s : S) (v : tadc_vars).
Abbreviation at_v v s := (hput v s).

Lemma gets_put {A} (f : tadc_vars -> A) v s : gets f (at_v v s) = Val (f v, at_v v s).
Proof using Type. unfold gets. by rewrite hget_put. Qed.
Lemma obj_at_put p o v s : p <> 0 -> adc_objs v !! p = Some o -> obj_at p (at_v v s) = Val (o, at_v v s).
Proof using Type.
  intros Hp Ho. unfold obj_at. rewrite (bind_ret_val _ _ _ _ _ (eq_refl : gets adc_objs (at_v v s) = Val (adc_objs (hget (at_v v s)), _))).
  rewrite hget_put, (proj2 (Z.eqb_neq _ _)) by done. unfold lift_res. by rewrite Ho.
Qed.
Lemma obj_set_put p o o' v s : p <> 0 -> adc_objs v !! p = Some o -> obj_set p o' (at_v v s) = Val (tt, at_v (with_objs (<[p := o']> (adc_objs v)) v) s).
Proof using Type.
  intros Hp Ho. unfold obj_set. rewrite (bind_ret_val _ _ _ _ _ (obj_at_put p o v s Hp Ho)). unfold sets, modify. by rewrite hget_put, hput_put.
Qed.
Lemma get_curr_put curr v s : linkable v curr -> get_curr curr (at_v v s) = Val (link v curr, at_v v s).
Proof using Type.
  destruct curr as [p|]; cbn; [intros [Hp [o Ho]]|intros _; unfold gets; by rewrite hget_put].
  by rewrite (bind_ret_val _ _ _ _ _ (obj_at_put p o v s Hp Ho)), Ho.
Qed.
Lemma set_curr_put curr x v s : linkable v curr -> set_curr curr x (at_v v s) = Val (tt, at_v (relink v curr x) s).
Proof using Type.
  destruct curr as [p|]; cbn; [intros [Hp [o Ho]]|intros _; unfold sets, modify; by rewrite hget_put, hput_put].
  by rewrite (bind_ret_val _ _ _ _ _ (obj_at_put p o v s Hp Ho)), (obj_set_put p o), Ho.
Qed.

(** What removing leaves of the links. *)
Record removed (v v' : tadc_vars) (curr : option Z) (l l' : list Z) : Prop := {
  rm_rest : relinked v v';
  rm_chain : objs_chain (adc_objs v') (link v' curr) l';
  rm_others x : x ∉ l -> curr <> Some x -> adc_objs v' !! x = adc_objs v !! x;
  rm_head : curr <> None -> adc_obj_list v' = adc_obj_list v;
}.

Lemma relink_link v curr x : linkable v curr -> link (relink v curr x) curr = x.
Proof using Type. destruct curr as [p|]; cbn; [intros [_ [o Ho]]|done]. rewrite Ho. cbn. by rewrite lookup_insert_eq. Qed.
Lemma relink_others v curr x y : curr <> Some y -> adc_objs (relink v curr x) !! y = adc_objs v !! y.
Proof using Type. destruct curr as [p|]; cbn; [|done]. intros Hy. destruct (adc_objs v !! p); [|done]. cbn. apply lookup_insert_ne. congruence. Qed.
Lemma relink_linkable v curr x : linkable v curr -> linkable (relink v curr x) curr.
Proof using Type. destruct curr as [p|]; cbn; [intros [Hp [o Ho]]|done]. rewrite Ho. cbn. rewrite lookup_insert_eq. by split. Qed.

Lemma stop_loop_removes n h v s curr l : linkable v curr -> objs_chain (adc_objs v) (link v curr) l -> NoDup l -> (forall c, curr = Some c -> c ∉ l) ->
  (length l < n)%nat -> exists v', stop_loop n h curr (at_v v s) = Val (tt, at_v v' s) /\ removed v v' curr l (filter (fun x => x <> h) l).
Proof using Type.
  revert n v curr. induction l as [|x l IH]; intros [|n] v curr Hk Hc Hnd Hcl Hn; try (cbn in Hn; lia).
  { exists v. cbn [stop_loop]. rewrite (bind_ret_val _ _ _ _ _ (get_curr_put curr v s Hk)). cbn in Hc. rewrite Hc. split; [done|].
    split; [apply relinked_refl|by rewrite Hc|done|done]. }
  destruct Hc as (Hx & Hx0 & o & Ho & Hc). apply list.NoDup_cons in Hnd as [Hxl Hnd]. cbn in Hn.
  assert (Hcx : curr <> Some x) by (intros ->; eapply Hcl; [done|set_solver]).
  cbn [stop_loop]. rewrite (bind_ret_val _ _ _ _ _ (get_curr_put curr v s Hk)), Hx, (proj2 (Z.eqb_neq _ _)) by done.
  destruct (Z.eqb_spec x h) as [->|Hne].
  - rewrite (bind_ret_val _ _ _ _ _ (obj_at_put h o v s Hx0 Ho)), (bind_ret_val _ _ _ _ _ (set_curr_put curr (ao_next o) v s Hk)).
    destruct (IH n (relink v curr (ao_next o)) curr) as (v' & E & [R C O D]); [by apply relink_linkable| |done| |lia|].
    + rewrite relink_link by done. eapply objs_chain_ext; [|exact Hc]. intros y Hy. apply relink_others. intros ->. eapply Hcl; [done|set_solver].
    + intros c ->. specialize (Hcl c eq_refl). set_solver.
    + exists v'. rewrite filter_cons_False by naive_solver. split; [exact E|]. split; [|done| |].
      * eapply relinked_trans; [by apply relinked_relink|exact R].
      * intros y Hy Hcy. rewrite O by set_solver. by apply relink_others.
      * intros Hc0. rewrite D by done. by destruct curr as [c|]; cbn; [destruct (adc_objs v !! c)|].
  - destruct (IH n v (Some x)) as (v' & E & [R C O D]); [by split| |done|by intros c [= <-]|lia|].
    + cbn. by rewrite Ho.
    + exists v'. rewrite filter_cons_True by done. split; [exact E|]. split; [exact R| |intros y Hy Hcy; apply O; set_solver|intros _; by apply D].
      assert (Hlk : link v' curr = x).
      { rewrite <- Hx. destruct curr as [c|]; cbn; [|by apply D]. rewrite O; [done| |congruence]. specialize (Hcl c eq_refl). set_solver. }
      rewrite Hlk. destruct R as (lp & m & -> & Em). destruct (objs_data_some _ m x Em ltac:(by rewrite Ho)) as [o' Ho'].
      split_and!; [done..|]. exists o'. split; [done|]. cbn in C. by rewrite Ho' in C.
Qed.

(** The mutex. *)
Lemma lock_put v s : tadc_entity v <> 0 -> obj_list_held v = false -> rtos_lock_mutex (at_v v s) = Val (tt, at_v (with_held true v) s).
Proof using Type.
  intros He Hh. unfold rtos_lock_mutex, entity_there. rewrite bind_assoc.
  rewrite (bind_ret_val _ _ _ _ _ (eq_refl : gets tadc_entity (at_v v s) = Val (tadc_entity (hget (at_v v s)), _))), hget_put, (proj2 (Z.eqb_neq _ _)) by done.
  mstep by reflexivity. mstep by reflexivity. rewrite hget_put, Hh. unfold sets, modify. by rewrite hget_put, hput_put.
Qed.
Lemma unlock_put v s : tadc_entity v <> 0 -> rtos_unlock_mutex (at_v v s) = Val (tt, at_v (with_held false v) s).
Proof using Type.
  intros He. unfold rtos_unlock_mutex, entity_there. rewrite bind_assoc.
  rewrite (bind_ret_val _ _ _ _ _ (eq_refl : gets tadc_entity (at_v v s) = Val (tadc_entity (hget (at_v v s)), _))), hget_put, (proj2 (Z.eqb_neq _ _)) by done.
  mstep by reflexivity. unfold sets, modify. by rewrite hget_put, hput_put.
Qed.

(** A call leaves the list [l'] and the objects [m'], and nothing else is different. *)
Record list_left (v : tadc_vars) (l' : list Z) (d' : gmap Z ADC_OBJ) (v' : tadc_vars) : Prop := {
  ll_list : obj_list v' l';
  ll_data : objs_data (adc_objs v') = d';
  ll_rest : v' = with_objs (adc_objs v') (with_list (adc_obj_list v') v);
}.

Lemma stop_leaves h v l s : obj_list v l ->
  exists v', adc_obj_stop h (at_v v s) = Val (tt, at_v v' s) /\ list_left v (filter (fun x => x <> h) l) (objs_data (adc_objs v)) v'.
Proof using Type.
  intros [Hc Hnd Hf He Hm]. unfold adc_obj_stop. rewrite (bind_ret_val _ _ _ _ _ (lock_put v s He Hf)). set (v1 := with_held true v).
  rewrite (bind_ret_val _ _ _ _ _ (gets_put (fun v => Datatypes.S (size (adc_objs v))) v1 s : obj_fuel (at_v v1 s) = _)).
  destruct (stop_loop_removes (Datatypes.S (size (adc_objs v1))) h v1 s None l) as (v2 & E & [(p & m & -> & Em) C O D]);
    [done|done|done|done|by eapply objs_chain_size|].
  rewrite (bind_ret_val _ _ _ _ _ E), (unlock_put _ s) by done.
  eexists. split; [done|]. split; [split; cbn; try done; by apply list.NoDup_filter|done|]. cbn in *. destruct v. cbn in *. by rewrite Hf.
Qed.

Lemma find_loop_finds n h v s p l : objs_chain (adc_objs v) p l -> (length l < n)%nat ->
  find_loop n h p (at_v v s) = Val (bool_decide (h ∈ l), at_v v s).
Proof using Type.
  revert n p. induction l as [|x l IH]; intros [|n] p Hc Hn; try (cbn in Hn; lia); cbn [find_loop].
  - by rewrite Hc.
  - destruct Hc as (-> & Hx & o & Ho & Hc). rewrite (proj2 (Z.eqb_neq _ _)) by done. destruct (Z.eqb_spec x h) as [->|Hne].
    + by rewrite bool_decide_true by set_solver.
    + rewrite (bind_ret_val _ _ _ _ _ (obj_at_put x o v s Hx Ho)), (IH n) by (cbn in Hn; first [done|lia]). do 2 f_equal. apply bool_decide_ext. set_solver.
Qed.

Lemma start_leaves h o v l s : obj_list v l -> h <> 0 -> adc_objs v !! h = Some o ->
  exists v', adc_obj_start h (at_v v s) = Val (if bool_decide (h ∈ l) then -1 else 0, at_v v' s) /\
    list_left v (if bool_decide (h ∈ l) then l else h :: l) (objs_data (adc_objs v)) v'.
Proof using Type.
  intros [Hc Hnd Hf He Hm] Hh Ho. unfold adc_obj_start.
  rewrite (bind_ret_val _ _ _ _ _ (gets_put tadc_entity v s)), (bind_ret_val _ _ _ _ _ (gets_put obj_list_mutex v s)), !(proj2 (Z.eqb_neq _ _)) by done. cbn [orb].
  rewrite (bind_ret_val _ _ _ _ _ (lock_put v s He Hf)). set (v1 := with_held true v).
  rewrite (bind_ret_val _ _ _ _ _ (gets_put (fun v => Datatypes.S (size (adc_objs v))) v1 s : obj_fuel (at_v v1 s) = _)).
  rewrite (bind_ret_val _ _ _ _ _ (gets_put adc_obj_list v1 s)).
  rewrite (bind_ret_val _ _ _ _ _ (find_loop_finds _ h v1 s (adc_obj_list v1) l Hc ltac:(by eapply objs_chain_size))).
  destruct (bool_decide (h ∈ l)) eqn:Hin.
  - rewrite (bind_ret_val _ _ _ _ _ (unlock_put v1 s He)). exists v. assert (Ev : with_held false v1 = v) by (unfold v1; destruct v; cbn in *; by rewrite Hf).
    rewrite Ev. split; [done|]. split; [by split|done|by destruct v].
  - apply bool_decide_eq_false in Hin. rewrite (bind_ret_val _ _ _ _ _ (gets_put adc_obj_list v1 s)).
    rewrite (bind_ret_val _ _ _ _ _ (obj_at_put h o v1 s Hh Ho)), (bind_ret_val _ _ _ _ _ (obj_set_put h o _ v1 s Hh Ho)).
    set (v2 := with_objs _ v1). assert (Es : sets (with_list h) (at_v v2 s) = Val (tt, at_v (with_list h v2) s)) by (unfold sets, modify; by rewrite hget_put, hput_put).
    rewrite (bind_ret_val _ _ _ _ _ Es), (bind_ret_val _ _ _ _ _ (unlock_put (with_list h v2) s He)).
    eexists. split; [done|]. split; [split; cbn; try done| |].
    + split_and!; [done..|]. exists (set_ao_next (adc_obj_list v) o). rewrite lookup_insert_eq. split; [done|].
      eapply objs_chain_ext; [|exact Hc]. intros x Hx. apply lookup_insert_ne. by intros ->.
    + by constructor.
    + cbn. by apply objs_data_relink.
    + destruct v. cbn in *. by rewrite Hf.
Qed.

Lemma init_leaves h o c ch u v l s : obj_list v l -> h <> 0 -> adc_objs v !! h = Some o ->
  exists v', adc_obj_init h c ch u (at_v v s) = Val (tt, at_v v' s) /\
    list_left v (filter (fun x => x <> h) l) (<[h := AdcObj u ch c 0]> (objs_data (adc_objs v))) v'.
Proof using Type.
  intros Hl Hh Ho. unfold adc_obj_init, truthy. rewrite (proj2 (Z.eqb_neq _ _)) by done. cbn [negb when].
  destruct (stop_leaves h v l s Hl) as (v1 & E & [[C1 N1 F1 T1 M1] D1 R1]). rewrite (bind_ret_val _ _ _ _ _ E).
  destruct (objs_data_some _ (adc_objs v1) h D1 ltac:(by rewrite Ho)) as [o1 Ho1]. rewrite (obj_set_put h o1) by done.
  eexists. split; [done|]. split; [split; cbn; try done| |].
  - eapply objs_chain_ext; [|exact C1]. intros x Hx. apply lookup_insert_ne. intros <-. apply list_elem_of_filter in Hx as [Hx _]. done.
  - cbn. rewrite <- D1. unfold objs_data. by rewrite fmap_insert.
  - rewrite R1. by destruct v.
Qed.
End calls.

(** The calls of the clients, and what they do to a list and to the objects. *)
Inductive obj_op := ObjInit (h c ch u : Z) | ObjStart (h : Z) | ObjStop (h : Z).
Definition obj_of_op (op : obj_op) : Z := match op with ObjInit h _ _ _ | ObjStart h | ObjStop h => h end.

Definition obj_call {S} `{!Holds tadc_vars S} (op : obj_op) : M S Z :=
  match op with
  | ObjInit h c ch u => adc_obj_init h c ch u;; mret 0
  | ObjStart h => adc_obj_start h
  | ObjStop h => adc_obj_stop h;; mret 0
  end.
Fixpoint obj_calls {S} `{!Holds tadc_vars S} (ops : list obj_op) : M S (list Z) :=
  match ops with [] => mret [] | op :: ops' => r ← obj_call op; rs ← obj_calls ops'; mret (r :: rs) end.

Definition obj_spec (op : obj_op) (a : list Z * gmap Z ADC_OBJ) : Z * (list Z * gmap Z ADC_OBJ) :=
  let '(l, d) := a in
  match op with
  | ObjInit h c ch u => (0, (filter (fun x => x <> h) l, <[h := AdcObj u ch c 0]> d))
  | ObjStart h => if bool_decide (h ∈ l) then (-1, (l, d)) else (0, (h :: l, d))
  | ObjStop h => (0, (filter (fun x => x <> h) l, d))
  end.
Fixpoint obj_specs (ops : list obj_op) (a : list Z * gmap Z ADC_OBJ) : list Z * (list Z * gmap Z ADC_OBJ) :=
  match ops with
  | [] => ([], a)
  | op :: ops' => let '(r, a') := obj_spec op a in let '(rs, a'') := obj_specs ops' a' in (r :: rs, a'')
  end.

Definition known (v : tadc_vars) (op : obj_op) : Prop := obj_of_op op <> 0 /\ is_Some (adc_objs v !! obj_of_op op).

Lemma obj_call_spec {S} `{!Holds tadc_vars S} op v l (s : S) : obj_list v l -> known v op ->
  exists v', obj_call op (hput v s) = Val ((obj_spec op (l, objs_data (adc_objs v))).1, hput v' s) /\
    list_left v (obj_spec op (l, objs_data (adc_objs v))).2.1 (obj_spec op (l, objs_data (adc_objs v))).2.2 v'.
Proof.
  intros Hl [Hh [o Ho]]. destruct op as [h c ch u|h|h]; cbn [obj_call obj_spec obj_of_op fst snd] in *.
  - destruct (init_leaves h o c ch u v l s Hl Hh Ho) as (v' & E & L). exists v'. split; [by rewrite (bind_ret_val _ _ _ _ _ E)|done].
  - destruct (start_leaves h o v l s Hl Hh Ho) as (v' & E & L). exists v'. rewrite E. by destruct (bool_decide (h ∈ l)).
  - destruct (stop_leaves h v l s Hl) as (v' & E & L). exists v'. split; [by rewrite (bind_ret_val _ _ _ _ _ E)|done].
Qed.

Lemma known_left v l' d' v' op op' : list_left v l' d' v' -> d' = objs_data (adc_objs v) \/ (exists x, d' = <[obj_of_op op := x]> (objs_data (adc_objs v))) ->
  known v op' -> known v' op'.
Proof.
  intros [_ D _] Hd [Hh Hk]. split; [done|]. assert (Hs : forall m x, is_Some (objs_data m !! x) <-> is_Some (m !! x)).
  { intros m x. unfold objs_data. by rewrite lookup_fmap, fmap_is_Some. }
  apply Hs. rewrite D. apply Hs in Hk. destruct Hd as [->|[x ->]]; [done|]. apply lookup_insert_is_Some'. by right.
Qed.

(** C29: any sequence of initialisations, starts and stops of objects does to the linked
    list through them what it does to a list without duplicates, and returns its
    results: an object is put in front, or refused with -1 if it is there; stopping
    removes it and no other; initialising removes it and sets its members, and no
    object's other members change; every call gives the mutex back. *)
Theorem adc_objects_refine {S} `{!Holds tadc_vars S} ops v l (s : S) : obj_list v l -> Forall (known v) ops ->
  let r := obj_specs ops (l, objs_data (adc_objs v)) in
  exists v', obj_calls ops (hput v s) = Val (r.1, hput v' s) /\ list_left v r.2.1 r.2.2 v'.
Proof.
  cbv zeta. revert v l. induction ops as [|op ops IH]; intros v l Hl Hk.
  { exists v. split; [done|]. split; [done|done|by destruct v]. }
  inversion_clear Hk as [|? ? Hop Hk']. rename Hk' into Hk. destruct (obj_call_spec op v l s Hl Hop) as (v1 & E1 & L1).
  assert (Hd : (obj_spec op (l, objs_data (adc_objs v))).2.2 = objs_data (adc_objs v) \/
    exists x, (obj_spec op (l, objs_data (adc_objs v))).2.2 = <[obj_of_op op := x]> (objs_data (adc_objs v)))
    by (destruct op; cbn; [right; by eexists|left; by destruct (bool_decide _)|by left]).
  destruct (IH v1 _ (ll_list _ _ _ _ L1)) as (v2 & E2 & L2).
  { apply (list.Forall_impl _ _ _ Hk). intros op' Hk'. exact (known_left _ _ _ _ op op' L1 Hd Hk'). }
  rewrite (ll_data _ _ _ _ L1) in E2, L2. cbn [obj_calls obj_specs]. destruct (obj_spec op _) as [r1 [l1 d1]]. cbn [fst snd] in *.
  destruct (obj_specs ops (l1, d1)) as [rs [l2 d2]]. cbn [fst snd] in *. exists v2.
  rewrite (bind_ret_val _ _ _ _ _ E1), (bind_ret_val _ _ _ _ _ E2). split; [done|]. destruct L2 as [L2 D2 R2]. split; [done|done|].
  rewrite R2, (ll_rest _ _ _ _ L1). by destruct v.
Qed.

(** Two objects, one of them in the list. *)
Definition demo_objs : tadc_vars := TadcVars 19 30 18 false 0 0 0 1 1 {[30 := AdcObj 5 3 40 0; 31 := AdcObj 6 4 41 0]}.
Lemma adc_objects_refine_witness : exists v', obj_calls [ObjStart 31; ObjStart 30; ObjInit 30 42 7 0; ObjStart 30; ObjStop 31] (WithState demo_objs tt) = Val ([0; -1; 0; 0; 0], WithState v' tt) /\
  obj_list v' [30].
Proof.
  destruct (adc_objects_refine [ObjStart 31; ObjStart 30; ObjInit 30 42 7 0; ObjStart 30; ObjStop 31] demo_objs [30] (WithState demo_objs tt)) as (v' & E & [L _ _]).
  - split; [|by apply NoDup_singleton|done..]. split_and!; [done..|]. by eexists.
  - repeat constructor; try done; by eexists.
  - exists v'. split; [exact E|exact L].
Defined.
