(* ===== verification/Float.v ===== *)
(** * Binary floating point

    The operations that the driver of the converter computes volts with, taken
    from the standard library's executable specification ([SpecFloat]), are
    correctly rounded: the value of a result is the exact one, rounded to nearest
    with ties to even in the grid of the format ([rounded]).  From this, a rounded
    value is near the exact one and rounding is monotone. *)
From Stdlib Require Import QArith Qpower Qabs Qround Lqa Floats.SpecFloat.
From S2P Require Import Prelude.
Local Open Scope Z_scope.

(** ** Powers of two *)
Definition p2 (g : Z) : Q := Qpower 2 g.

Lemma p2_add a b : (p2 (a + b) == p2 a * p2 b)%Q.
Proof. apply Qpower_plus. discriminate. Qed.
Lemma p2_pos g : (0 < p2 g)%Q.
Proof. apply Qpower_0_lt. reflexivity. Qed.
Lemma p2_int n : 0 <= n -> (p2 n == inject_Z (2 ^ n))%Q.
Proof. intros Hn. unfold p2. change 2%Q with (inject_Z 2). symmetry. by apply Zpower_Qpower. Qed.
Lemma p2_int_le n : 0 <= n -> (1 <= p2 n)%Q.
Proof.
  intros Hn. rewrite p2_int by done. change 1%Q with (inject_Z 1). rewrite <- Zle_Qle.
  pose proof (Z.pow_pos_nonneg 2 n ltac:(done) Hn). lia.
Qed.
Lemma p2_le a b : a <= b -> (p2 a <= p2 b)%Q.
Proof.
  intros H. replace b with (a + (b - a)) by lia. rewrite p2_add. pose proof (p2_pos a). pose proof (p2_int_le (b - a) ltac:(lia)). nra.
Qed.
Lemma p2_S a : (p2 (a + 1) == 2 * p2 a)%Q.
Proof. rewrite p2_add. change (p2 1) with 2%Q. lra. Qed.
Lemma p2_lt_inv a b : (p2 a < p2 b)%Q -> a < b.
Proof. intros H. destruct (Z.lt_ge_cases a b) as [|Hge]; [done|]. pose proof (p2_le b a Hge). lra. Qed.

(** ** Shifting a mantissa to the right

    A record stands for [v]: its integer part in units of [2^e], the next bit, and
    whether something is left below it. *)
Definition rec_at (v : Q) (r : shr_record) (e : Z) : Prop :=
  0 <= shr_m r /\ exists d : Q, (v == (inject_Z (shr_m r) + (if shr_r r then 1#2 else 0) + d) * p2 e)%Q /\
    if shr_s r then (0 < d < 1#2)%Q else (d == 0)%Q.

Lemma inject_xO p : (inject_Z (Zpos p~0) == 2 * inject_Z (Zpos p))%Q.
Proof. by rewrite Pos2Z.inj_xO, inject_Z_mult. Qed.
Lemma inject_xI p : (inject_Z (Zpos p~1) == 2 * inject_Z (Zpos p) + 1)%Q.
Proof. by rewrite Pos2Z.inj_xI, inject_Z_plus, inject_Z_mult. Qed.

Lemma shr_1_at v r e : rec_at v r e -> rec_at v (shr_1 r) (e + 1).
Proof.
  destruct r as [m b s]. intros (Hm & d & Hv & Hd). cbn [shr_m shr_r shr_s] in *.
  assert (Hhalf : exists m' b', shr_1 {| shr_m := m; shr_r := b; shr_s := s |} = {| shr_m := m'; shr_r := b'; shr_s := b || s |} /\ 0 <= m' /\
    (inject_Z m == 2 * inject_Z m' + (if b' then 1 else 0))%Q).
  { destruct m as [|[p|p|]|p]; [..|lia]; cbn [shr_1].
    - exists 0, false. by split_and!.
    - exists (Zpos p), true. split_and!; [done|lia|apply inject_xI].
    - exists (Zpos p), false. split_and!; [done|lia|]. rewrite inject_xO. lra.
    - exists 0, true. by split_and!. }
  destruct Hhalf as (m' & b' & -> & Hm' & E). split; [done|]. cbn [shr_m shr_r shr_s].
  exists (((if b then 1#2 else 0) + d) * (1#2))%Q. split.
  - rewrite Hv, E, p2_S. destruct b', b; ring.
  - destruct b, s; cbn [orb]; lra.
Qed.

Lemma iter_shr_at n : forall v r e, rec_at v r e -> rec_at v (SpecFloat.iter_pos shr_1 n r) (e + Zpos n).
Proof.
  induction n as [n IH|n IH|]; intros v r e Hr; cbn [SpecFloat.iter_pos].
  - replace (e + Zpos n~1) with (e + 1 + Zpos n + Zpos n) by lia. by do 2 apply IH; apply shr_1_at.
  - replace (e + Zpos n~0) with (e + Zpos n + Zpos n) by lia. by do 2 apply IH.
  - by apply shr_1_at.
Qed.

(** The number of binary digits. *)
Lemma digits2_bounds p : 2 ^ (Zpos (digits2_pos p) - 1) <= Zpos p < 2 ^ Zpos (digits2_pos p).
Proof.
  induction p as [p IH|p IH|]; cbn [digits2_pos]; [..|by cbn]; rewrite Pos2Z.inj_succ;
    replace (Z.succ (Zpos (digits2_pos p)) - 1) with (Z.succ (Zpos (digits2_pos p) - 1)) by lia; rewrite !Z.pow_succ_r by lia; lia.
Qed.
Lemma digits2_unique p d : 0 < d -> 2 ^ (d - 1) <= Zpos p < 2 ^ d -> Zpos (digits2_pos p) = d.
Proof.
  intros Hd [H1 H2]. destruct (digits2_bounds p) as [B1 B2].
  assert (Zpos (digits2_pos p) - 1 < d) by (apply (Z.pow_lt_mono_r_iff 2); lia).
  assert (d - 1 < Zpos (digits2_pos p)) by (apply (Z.pow_lt_mono_r_iff 2); lia). lia.
Qed.

(** ** The number that a value stands for *)
Definition value (x : spec_float) : Q := match x with S754_finite s m e => (inject_Z (cond_Zopp s (Zpos m)) * p2 e)%Q | _ => 0%Q end.
Definition numeric (x : spec_float) : Prop := match x with S754_zero _ | S754_finite _ _ _ => True | _ => False end.

Lemma value_finite s m e : (value (S754_finite s m e) == (if s then - (inject_Z (Zpos m) * p2 e) else inject_Z (Zpos m) * p2 e))%Q.
Proof. destruct s; cbn [value cond_Zopp]; [|done]. rewrite inject_Z_opp. ring. Qed.

(** ** Rounding *)
Section format.
Context (prec emax : Z) (Hprec : 1 < prec) (Hemax : prec < emax).

(** The integer [k] is nearest to [v] in units of [2^g], the grid of the format at [v]; of two nearest the even one. *)
Record nearest (v : Q) (k g : Z) : Prop := {
  nr_grid : exists mag, (p2 (mag - 1) <= v < p2 mag)%Q /\ g = fexp prec emax mag;
  nr_near : (- p2 g <= 2 * (v - inject_Z k * p2 g) <= p2 g)%Q;
  nr_even : (2 * (v - inject_Z k * p2 g) == p2 g)%Q \/ (2 * (v - inject_Z k * p2 g) == - p2 g)%Q -> Z.even k = true;
}.
Definition rounded_pos (v q : Q) : Prop := exists k g, nearest v k g /\ (q == inject_Z k * p2 g)%Q.
Definition rounded (v q : Q) : Prop :=
  ((v == 0)%Q /\ (q == 0)%Q) \/ ((0 < v)%Q /\ rounded_pos v q) \/ ((v < 0)%Q /\ rounded_pos (- v) (- q)).

Lemma fexp_mono a b : a <= b -> fexp prec emax a <= fexp prec emax b.
Proof using Type. unfold fexp. lia. Qed.
Lemma fexp_same a g : g = fexp prec emax a -> a - prec <= g /\ emin prec emax <= g.
Proof using Type. unfold fexp. lia. Qed.

Lemma nearest_at v r g mag : rec_at v r g -> (p2 (mag - 1) <= v < p2 mag)%Q -> g = fexp prec emax mag ->
  nearest v (round_nearest_even (shr_m r) (loc_of_shr_record r)) g.
Proof using Type.
  intros (Hm & d & Hv & Hd) Hmag Hg. pose proof (p2_pos g) as Hp. destruct r as [m b s]. cbn [shr_m shr_r shr_s] in *.
  set (k := round_nearest_even m _). assert (Hk : exists x : Q, (2 * (v - inject_Z k * p2 g) == x * p2 g)%Q /\ (- (1) <= x <= 1)%Q /\ ((x == 1)%Q \/ (x == - (1))%Q -> Z.even k = true)).
  { unfold k. destruct b, s; cbn [loc_of_shr_record round_nearest_even].
    - exists (2 * d - 1)%Q. rewrite Hv, inject_Z_plus. split_and!; [ring|lra|lra|]. intros [H|H]; exfalso; lra.
    - destruct (Z.even m) eqn:Em; [exists 1%Q|exists (- (1))%Q]; rewrite Hv, Hd, ?inject_Z_plus; (split_and!; [ring|lra|lra|]); [done|].
      intros _. by rewrite Z.even_add, Em.
    - exists (2 * d)%Q. rewrite Hv. split_and!; [ring|lra|lra|]. intros [H|H]; exfalso; lra.
    - exists 0%Q. rewrite Hv, Hd. split_and!; [ring|lra|lra|]. intros [H|H]; exfalso; lra. }
  destruct Hk as (x & Ex & Hx & He). split; [by exists mag|rewrite Ex; nra|]. rewrite Ex. intros [H|H]; apply He; [left|right]; apply (Qmult_inj_r _ _ (p2 g)); lra.
Qed.

Lemma shr_at v r e n : 0 <= n -> rec_at v r e -> rec_at v (fst (shr r e n)) (e + n) /\ snd (shr r e n) = e + n.
Proof using Type.
  intros Hn Hr. destruct n as [|n|n]; cbn [shr fst snd]; [rewrite Z.add_0_r; done|split; [by apply iter_shr_at|done]|lia].
Qed.
Lemma shr_left r e n : n <= 0 -> shr r e n = (r, e).
Proof using Type. destruct n; [done|lia|done]. Qed.

(** The second shift of [binary_round_aux], of an integer that fits the grid, keeps the number. *)
Definition settled (s : bool) (k g : Z) : spec_float :=
  let '(mrs, e) := shr_fexp prec emax k g loc_Exact in
  match shr_m mrs with Z0 => S754_zero s | Zpos m => if Z.leb e (Z.sub emax prec) then S754_finite s m e else S754_infinity s | _ => S754_nan end.
Lemma aux_settled s m e l : binary_round_aux prec emax s m e l =
  let '(mrs, e') := shr_fexp prec emax m e l in settled s (round_nearest_even (shr_m mrs) (loc_of_shr_record mrs)) e'.
Proof using Type. reflexivity. Qed.

Lemma settle s k g : 0 <= k <= 2 ^ prec -> emin prec emax <= g -> g + 1 <= emax - prec ->
  numeric (settled s k g) /\ (value (settled s k g) == if s then - (inject_Z k * p2 g) else inject_Z k * p2 g)%Q.
Proof using Hprec Hemax.
  intros [Hk0 Hk] Hg Hmax. unfold settled, shr_fexp. destruct k as [|p|p]; [|..|lia].
  { rewrite shr_left by (cbn; unfold fexp; lia). cbn. split; [done|]. destruct s; ring. }
  cbn [Zdigits2 shr_record_of_loc]. destruct (digits2_bounds p) as [B1 B2]. set (d := Zpos (digits2_pos p)) in *.
  assert (Hd : d - 1 <= prec) by (apply (Z.pow_le_mono_r_iff 2); lia).
  destruct (Z.eq_dec d (prec + 1)) as [Ed|Ed].
  - assert (Ep : Zpos p = 2 ^ prec) by (replace prec with (d - 1) in Hk |- * by lia; lia).
    assert (Eh : exists q, p = (q~0)%positive).
    { replace prec with (1 + (prec - 1)) in Ep by lia. rewrite Z.pow_add_r in Ep by lia. pose proof (Z.pow_pos_nonneg 2 (prec - 1) ltac:(done) ltac:(lia)).
      destruct p as [q|q|]; [lia|by exists q|lia]. }
    destruct Eh as [q ->]. replace (fexp prec emax (d + g) - g) with 1 by (unfold fexp; lia).
    cbn [shr SpecFloat.iter_pos shr_1 orb shr_m]. rewrite (proj2 (Z.leb_le _ _)) by lia. split; [done|]. rewrite value_finite. destruct s; rewrite p2_S, inject_xO; ring.
  - rewrite shr_left by (unfold fexp; lia). cbn [shr_m]. rewrite (proj2 (Z.leb_le _ _)) by lia. split; [done|]. by rewrite value_finite.
Qed.

(** A mantissa with enough digits, or an exact one, is rounded correctly. *)
Lemma binary_round_aux_ok s p e l v : rec_at v (shr_record_of_loc (Zpos p) l) e -> (v < p2 (emax - prec - 1))%Q ->
  l = loc_Exact \/ e <= fexp prec emax (Zdigits2 (Zpos p) + e) ->
  let x := binary_round_aux prec emax s (Zpos p) e l in
  numeric x /\ exists q, rounded_pos v q /\ (value x == if s then - q else q)%Q.
Proof using Hprec Hemax.
  intros Hr Hmax Hl. set (mag := Zdigits2 (Zpos p) + e) in *. set (g := fexp prec emax mag) in *.
  destruct (digits2_bounds p) as [B1 B2]. pose proof (p2_pos e) as Hpe.
  assert (Hfl : (inject_Z (Zpos p) * p2 e <= v < (inject_Z (Zpos p) + 1) * p2 e)%Q).
  { destruct Hr as (_ & d & Hv & Hd). rewrite Hv. destruct l as [|[]]; cbn [shr_record_of_loc shr_m shr_r shr_s] in *; nra. }
  assert (Hmag : (p2 (mag - 1) <= v < p2 mag)%Q).
  { unfold mag. cbn [Zdigits2]. replace (Zpos (digits2_pos p) + e - 1) with (Zpos (digits2_pos p) - 1 + e) by lia. rewrite !p2_add, (p2_int (Zpos (digits2_pos p) - 1)), (p2_int (Zpos (digits2_pos p))) by lia.
    assert (Hq1 : (inject_Z (2 ^ (Zpos (digits2_pos p) - 1)) <= inject_Z (Zpos p))%Q) by (by rewrite <- Zle_Qle).
    assert (Hq2 : (inject_Z (Zpos p) + 1 <= inject_Z (2 ^ Zpos (digits2_pos p)))%Q) by (change 1%Q with (inject_Z 1); rewrite <- inject_Z_plus, <- Zle_Qle; lia).
    apply (Qmult_le_compat_r _ _ (p2 e)) in Hq1, Hq2; [|lra..]. split; lra. }
  assert (Hm1 : mag - 1 < emax - prec - 1) by (apply p2_lt_inv; lra).
  destruct (fexp_same mag g eq_refl) as [Hg1 Hg2].
  assert (Hgmax : g + 1 <= emax - prec) by (unfold g, fexp, emin in *; lia).
  cbv zeta. rewrite aux_settled. unfold shr_fexp. fold mag g.
  destruct (Z_le_gt_dec e g) as [Heg|Heg].
  - destruct (shr_at v (shr_record_of_loc (Zpos p) l) e (g - e) ltac:(lia) Hr) as [Hr' Es]. replace (e + (g - e)) with g in * by lia.
    destruct (shr (shr_record_of_loc (Zpos p) l) e (g - e)) as [mrs e'] eqn:E. cbn [fst snd] in *. subst e'.
    pose proof (nearest_at v mrs g mag Hr' Hmag eq_refl) as Hn. set (k := round_nearest_even (shr_m mrs) (loc_of_shr_record mrs)) in *.
    assert (Hk : 0 <= k <= 2 ^ prec).
    { destruct Hr' as (Hm & d & Hv & Hd). assert (Hf : (v < p2 (prec + g))%Q) by (pose proof (p2_le mag (prec + g) ltac:(lia)); lra).
      rewrite p2_add, p2_int in Hf by lia. pose proof (p2_pos g) as Hpg.
      assert (Hlt : (inject_Z (shr_m mrs) < inject_Z (2 ^ prec))%Q).
      { apply (Qmult_lt_r _ _ (p2 g)); [done|]. destruct (shr_r mrs), (shr_s mrs); nra. }
      rewrite <- Zlt_Qlt in Hlt. unfold k, round_nearest_even. destruct (loc_of_shr_record mrs) as [|[]]; [lia| |lia|lia].
      destruct (Z.even (shr_m mrs)); lia. }
    destruct (settle s k g Hk Hg2 Hgmax) as [N V]. split; [exact N|]. exists (inject_Z k * p2 g)%Q. split; [by exists k, g|exact V].
  - assert (El : l = loc_Exact) by (destruct Hl; [done|lia]). subst l. rewrite shr_left by lia. cbn [shr_record_of_loc loc_of_shr_record shr_m round_nearest_even].
    unfold settled, shr_fexp. fold mag g. rewrite shr_left by lia. cbn [shr_record_of_loc shr_m].
    assert (He : e < emax - prec).
    { apply p2_lt_inv. pose proof (p2_le (emax - prec - 1) (emax - prec) ltac:(lia)).
      assert (1 <= inject_Z (Zpos p))%Q by (change 1%Q with (inject_Z 1); rewrite <- Zle_Qle; lia). nra. }
    rewrite (proj2 (Z.leb_le _ _)) by lia. split; [done|].
    exists (inject_Z (Zpos p) * p2 e)%Q. split; [|by rewrite value_finite].
    assert (Ev : (v == inject_Z (Zpos p) * p2 e)%Q) by (destruct Hr as (_ & d & Hv & Hd); cbn in Hv, Hd; rewrite Hv, Hd; ring).
    assert (Eg : (inject_Z (Zpos p) * p2 e == inject_Z (Zpos p * 2 ^ (e - g)) * p2 g)%Q).
    { replace e with (e - g + g) at 1 by lia. rewrite p2_add, p2_int, inject_Z_mult by lia. ring. }
    exists (Zpos p * 2 ^ (e - g)), g. split; [|exact Eg]. pose proof (p2_pos g) as Hpg. split.
    + by exists mag.
    + rewrite Ev, Eg. split; lra.
    + rewrite Ev, Eg. intros [H|H]; exfalso; lra.
Qed.

(** ** The operations *)
Definition bounded_by (v : Q) : Prop := (- p2 (emax - prec - 1) < v < p2 (emax - prec - 1))%Q.
(** The result is a number, the exact one rounded. *)
Definition correct (v : Q) (x : spec_float) : Prop := numeric x /\ rounded v (value x).

Lemma rounded_eq v v' q q' : (v == v')%Q -> (q == q')%Q -> rounded v q -> rounded v' q'.
Proof using Type.
  intros Ev Eq. assert (Hpos : forall u u' r r', (u == u')%Q -> (r == r')%Q -> rounded_pos u r -> rounded_pos u' r').
  { intros u u' r r' Eu Er (k & g & [(mag & Hm & Hg) Hn He] & E). exists k, g. split; [|by rewrite <- Er].
    split; [exists mag; by rewrite <- Eu|by rewrite <- Eu|by rewrite <- Eu]. }
  intros [[H1 H2]|[[H1 H2]|[H1 H2]]].
  - left. by rewrite <- Ev, <- Eq.
  - right. left. split; [by rewrite <- Ev|by apply (Hpos v v' q q')].
  - right. right. split; [by rewrite <- Ev|apply (Hpos (- v) (- v') (- q) (- q'))%Q; [by rewrite Ev|by rewrite Eq|done]].
Qed.

Lemma exact_at m e : rec_at (inject_Z (Zpos m) * p2 e) (shr_record_of_loc (Zpos m) loc_Exact) e.
Proof using Type. split; [done|]. exists 0%Q. cbn. split; [ring|done]. Qed.
Lemma mantissa_pos m e : (0 < inject_Z (Zpos m) * p2 e)%Q.
Proof using Type. apply Qmult_lt_0_compat; [done|apply p2_pos]. Qed.

(** [binary_round_aux] with a sign. *)
Lemma aux_correct (s : bool) p e l v w : rec_at v (shr_record_of_loc (Zpos p) l) e -> (0 < v)%Q -> (w == if s then - v else v)%Q -> bounded_by w ->
  l = loc_Exact \/ e <= fexp prec emax (Zdigits2 (Zpos p) + e) -> correct w (binary_round_aux prec emax s (Zpos p) e l).
Proof using Hprec Hemax.
  intros Hr Hv Ew [Hb1 Hb2] Hl. destruct (binary_round_aux_ok s p e l v Hr) as (N & q & Hq & V); [destruct s; lra|done|].
  split; [exact N|]. apply (rounded_eq (if s then - v else v)%Q w (if s then - q else q)%Q); [by rewrite Ew|by rewrite V|].
  destruct s; [right; right|right; left]; (split; [lra|]); [|done].
  destruct Hq as (k & g & [(mag & Hm & Hg) Hn He] & E). exists k, g. split; [|by rewrite Qopp_involutive].
  split; [exists mag; by rewrite Qopp_involutive|by rewrite Qopp_involutive|by rewrite Qopp_involutive].
Qed.

Lemma iter_xO d p : Zpos (Pos.iter xO p d) = Zpos p * 2 ^ Zpos d.
Proof using Type.
  induction d as [|d IH] using Pos.peano_ind; [cbn; lia|]. rewrite Pos.iter_succ, Pos2Z.inj_succ, Z.pow_succ_r by done. rewrite Pos2Z.inj_xO, IH. lia.
Qed.
Lemma shl_align_value p e e' : (inject_Z (Zpos (fst (shl_align p e e'))) * p2 (snd (shl_align p e e')) == inject_Z (Zpos p) * p2 e)%Q /\
  snd (shl_align p e e') = Z.min e e'.
Proof using Type.
  unfold shl_align. destruct (e' - e) as [|d|d] eqn:E; cbn [fst snd]; [split; [done|lia]..|]. split; [|lia].
  rewrite iter_xO, inject_Z_mult. replace e with (Zpos d + e') by lia. rewrite p2_add, (p2_int (Zpos d)) by done. ring.
Qed.

Lemma normalize_correct m e z : bounded_by (inject_Z m * p2 e) -> correct (inject_Z m * p2 e) (binary_normalize prec emax m e z).
Proof using Hprec Hemax.
  intros Hb. assert (Hround : forall (s : bool) p w, (w == if s then - (inject_Z (Zpos p) * p2 e) else inject_Z (Zpos p) * p2 e)%Q -> bounded_by w -> correct w (binary_round prec emax s p e)).
  { intros s p w Ew Hw. unfold binary_round. set (e1 := fexp prec emax (Zpos (digits2_pos p) + e)). destruct (shl_align_value p e e1) as [V _].
    destruct (shl_align p e e1) as [mz ez] eqn:E. cbn [fst snd] in V. apply (aux_correct s mz ez loc_Exact (inject_Z (Zpos mz) * p2 ez)%Q); [by apply exact_at|apply mantissa_pos| |done|by left].
    rewrite Ew. destruct s; by rewrite V. }
  destruct m as [|p|p]; cbn [binary_normalize].
  - split; [done|]. left. split; [ring|done].
  - by apply Hround.
  - apply Hround; [|done]. change (Zneg p) with (- Zpos p). rewrite inject_Z_opp. ring.
Qed.

Lemma convert_correct x : numeric x -> bounded_by (value x) ->
  correct (value x) (match x with S754_finite s m e => binary_normalize prec emax (cond_Zopp s (Zpos m)) e s | _ => x end).
Proof using Hprec Hemax. intros Hn Hb. destruct x as [s|s| |s m e]; [|done..|by apply normalize_correct]. split; [done|]. by left. Qed.

Lemma value_sign s m e : (value (S754_finite s m e) == (if s then - (1) else 1) * (inject_Z (Zpos m) * p2 e))%Q.
Proof using Type. rewrite value_finite. destruct s; ring. Qed.

Lemma mul_correct x y : numeric x -> numeric y -> bounded_by (value x * value y) -> correct (value x * value y) (SFmul prec emax x y).
Proof using Hprec Hemax.
  intros Hx Hy Hb. destruct x as [s|s| |s m e], y as [s'|s'| |s' m' e']; try done.
  1,2,3: split; [done|left; split; [cbn [value]; ring|done]].
  cbn [SFmul]. apply (aux_correct _ _ _ _ (inject_Z (Zpos (m * m')) * p2 (e + e'))); [apply exact_at|apply mantissa_pos| |done|by left].
  rewrite !value_sign. destruct s, s'; cbn [xorb]; rewrite Pos2Z.inj_mul, inject_Z_mult, p2_add; ring.
Qed.

(** A sum with a number of the format, not zero. *)
Lemma add_correct x y : numeric x -> rounded (value y) (value y) -> (exists s m e, y = S754_finite s m e) -> bounded_by (value x + value y) -> correct (value x + value y) (SFadd prec emax x y).
Proof using Hprec Hemax.
  intros Hx Hy (s' & m' & e' & ->) Hb. destruct x as [s|s| |s m e]; [|done..|].
  - split; [done|]. apply (rounded_eq (value (S754_finite s' m' e')) _ (value (S754_finite s' m' e'))); [cbn [value]; ring|done|done].
  - cbn [SFadd]. destruct (shl_align_value m e (Z.min e e')) as [V1 E1], (shl_align_value m' e' (Z.min e e')) as [V2 E2].
    rewrite E1 in V1. rewrite E2 in V2. replace (Z.min e (Z.min e e')) with (Z.min e e') in V1 by lia. replace (Z.min e' (Z.min e e')) with (Z.min e e') in V2 by lia.
    set (n := cond_Zopp s _ + cond_Zopp s' _). assert (En : (value (S754_finite s m e) + value (S754_finite s' m' e') == inject_Z n * p2 (Z.min e e'))%Q).
    { unfold n. rewrite !value_sign, inject_Z_plus, <- V1, <- V2. destruct s, s'; cbn [cond_Zopp]; rewrite ?inject_Z_opp; ring. }
    assert (Hb' : bounded_by (inject_Z n * p2 (Z.min e e'))) by (unfold bounded_by in *; rewrite <- En; exact Hb).
    destruct (normalize_correct n (Z.min e e') false Hb') as [N R]. split; [exact N|]. by apply (rounded_eq _ _ _ _ (Qeq_sym _ _ En) (Qeq_refl _)).
Qed.

(** A remainder is where the exact quotient lies. *)
Lemma new_location_at q r n e : 0 <= q -> 0 < n -> 0 <= r < n ->
  rec_at ((inject_Z q + inject_Z r / inject_Z n) * p2 e) (shr_record_of_loc q (new_location n r)) e.
Proof using Type.
  intros Hq Hn [Hr0 Hr]. set (d := (inject_Z r / inject_Z n)%Q).
  assert (Hnq : (0 < inject_Z n)%Q) by (change 0%Q with (inject_Z 0); by rewrite <- Zlt_Qlt).
  assert (Ed : (d * inject_Z n == inject_Z r)%Q) by (unfold d; field; lra).
  assert (Hcmp : (0 < r -> (0 < d)%Q) /\ (2 * r < n -> (d < 1#2)%Q) /\ (2 * r = n -> (d == 1#2)%Q) /\ (n < 2 * r -> ((1#2) < d)%Q) /\ (d < 1)%Q /\ (r = 0 -> (d == 0)%Q)).
  { rewrite Zlt_Qlt in Hr. change (inject_Z 0) with 0%Q in *. split_and!; try (intros Hc; rewrite Zlt_Qlt, ?inject_Z_mult in Hc; change (inject_Z 2) with 2%Q in Hc; change (inject_Z 0) with 0%Q in Hc; nra).
    - intros Hc. assert (H' : (2 * inject_Z r == inject_Z n)%Q) by (by rewrite <- Hc, inject_Z_mult). nra.
    - nra.
    - intros Hc. rewrite Hc in Ed. change (inject_Z 0) with 0%Q in Ed. nra. }
  destruct Hcmp as (C1 & C2 & C3 & C4 & C5 & C6).
  assert (Hrec : forall (b s : bool) (d' : Q), (d == (if b then 1#2 else 0) + d')%Q -> (if s then 0 < d' < 1#2 else d' == 0)%Q ->
    rec_at ((inject_Z q + d) * p2 e) {| shr_m := q; shr_r := b; shr_s := s |} e).
  { intros b s d' E1 E2. split; [done|]. exists d'. cbn [shr_m shr_r shr_s]. split; [rewrite E1; ring|done]. }
  assert (Hzero : r = 0 -> rec_at ((inject_Z q + d) * p2 e) {| shr_m := q; shr_r := false; shr_s := false |} e).
  { intros E0. apply (Hrec false false d); [ring|by apply C6]. }
  unfold new_location. destruct (Z.even n) eqn:Ev; [unfold new_location_even|unfold new_location_odd];
    match goal with |- context [if ?b then loc_Exact else _] => destruct b eqn:E0 end; [apply Hzero; by apply Z.eqb_eq| |apply Hzero; by apply Z.eqb_eq|];
    apply Z.eqb_neq in E0.
  - destruct (Z.compare_spec (2 * r) n) as [Ec|Ec|Ec]; cbn [shr_record_of_loc].
    + apply (Hrec true false 0%Q); [rewrite C3 by done; ring|done].
    + apply (Hrec false true d); [ring|]. split; [apply C1; lia|by apply C2].
    + apply (Hrec true true (d - (1#2))%Q); [ring|]. specialize (C4 Ec). split; lra.
  - assert (Hodd : 2 * r <> n) by (intros <-; by rewrite Z.even_mul in Ev).
    destruct (Z.compare_spec (2 * r + 1) n) as [Ec|Ec|Ec]; cbn [shr_record_of_loc].
    + apply (Hrec false true d); [ring|]. split; [apply C1; lia|apply C2; lia].
    + apply (Hrec false true d); [ring|]. split; [apply C1; lia|apply C2; lia].
    + apply (Hrec true true (d - (1#2))%Q); [ring|]. specialize (C4 ltac:(lia)). split; lra.
Qed.

Lemma pos_lower p : (p2 (Zpos (digits2_pos p) - 1) <= inject_Z (Zpos p))%Q.
Proof using Type. destruct (digits2_bounds p). rewrite p2_int by lia. by rewrite <- Zle_Qle. Qed.
Lemma pos_upper p : (inject_Z (Zpos p) + 1 <= p2 (Zpos (digits2_pos p)))%Q.
Proof using Type. destruct (digits2_bounds p). rewrite p2_int by lia. change 1%Q with (inject_Z 1). rewrite <- inject_Z_plus, <- Zle_Qle. lia. Qed.

Lemma div_core m1 e1 m2 e2 v : (v * (inject_Z (Zpos m2) * p2 e2) == inject_Z (Zpos m1) * p2 e1)%Q -> (p2 (emin prec emax) <= v)%Q ->
  exists q e' l, SFdiv_core_binary prec emax (Zpos m1) e1 (Zpos m2) e2 = (Zpos q, e', l) /\ rec_at v (shr_record_of_loc (Zpos q) l) e' /\
    e' <= fexp prec emax (Zdigits2 (Zpos q) + e').
Proof using Hprec Hemax.
  intros Hv Hmin. unfold SFdiv_core_binary. cbn [Zdigits2]. set (d1 := Zpos (digits2_pos m1)). set (d2 := Zpos (digits2_pos m2)).
  set (dd := d1 + e1 - (d2 + e2)). set (e' := Z.min (fexp prec emax dd) (e1 - e2)). set (s := e1 - e2 - e').
  assert (Em : match s with Z0 => Zpos m1 | Zpos _ => Z.shiftl (Zpos m1) s | Zneg _ => Z0 end = Zpos m1 * 2 ^ s).
  { destruct s eqn:E; [lia|by rewrite Z.shiftl_mul_pow2|unfold s in E; lia]. }
  rewrite Em. pose proof (Z_div_mod (Zpos m1 * 2 ^ s) (Zpos m2) ltac:(lia)) as Hdm. destruct (Z.div_eucl (Zpos m1 * 2 ^ s) (Zpos m2)) as [q r].
  destruct Hdm as [Hm Hr]. pose proof (p2_pos e') as Hpe. pose proof (p2_pos e2) as Hpe2.
  assert (Hm2 : (0 < inject_Z (Zpos m2))%Q) by done. set (t := (inject_Z (Zpos m2) * p2 e2)%Q) in *. assert (Ht : (0 < t)%Q) by (unfold t; nra).
  assert (Evq : (v == (inject_Z q + inject_Z r / inject_Z (Zpos m2)) * p2 e')%Q).
  { apply (Qmult_inj_r _ _ t); [lra|]. rewrite Hv. unfold t. replace e1 with (s + (e' + e2)) by (unfold s; lia). rewrite !p2_add, (p2_int s) by (unfold s; lia).
    apply (f_equal inject_Z) in Hm. rewrite inject_Z_plus, !inject_Z_mult in Hm.
    transitivity (inject_Z (Zpos m1) * inject_Z (2 ^ s) * (p2 e' * p2 e2))%Q; [ring|]. rewrite Hm. field. lra. }
  assert (Hlow : (p2 (dd - 1) <= v)%Q).
  { apply (Qmult_le_r _ _ t Ht). rewrite Hv. unfold t. pose proof (pos_lower m1) as L1. pose proof (pos_upper m2) as L2. fold d1 in L1. fold d2 in L2.
    apply (Qmult_le_compat_r _ _ (p2 e1)) in L1; [|apply Qlt_le_weak, p2_pos]. rewrite <- p2_add in L1. replace (d1 - 1 + e1) with (dd - 1 + (d2 + e2)) in L1 by (unfold dd; lia).
    rewrite !p2_add in L1. pose proof (p2_pos (dd - 1)) as P1.
    assert (inject_Z (Zpos m2) * p2 e2 <= p2 d2 * p2 e2)%Q by nra. nra. }
  assert (He' : (p2 e' <= v)%Q).
  { assert (e' <= fexp prec emax dd) by lia. unfold fexp in *. destruct (Z.max_spec (dd - prec) (emin prec emax)) as [[_ E]|[_ E]]; rewrite E in *.
    - pose proof (p2_le e' (emin prec emax) ltac:(lia)). lra.
    - pose proof (p2_le e' (dd - 1) ltac:(lia)). lra. }
  assert (Hfrac : (0 <= inject_Z r / inject_Z (Zpos m2) < 1)%Q).
  { destruct Hr as [Hr1 Hr2]. rewrite Zle_Qle in Hr1. rewrite Zlt_Qlt in Hr2. change (inject_Z 0) with 0%Q in Hr1.
    split; [apply Qle_shift_div_l|apply Qlt_shift_div_r]; [done|lra|done|lra]. }
  assert (Hq : 0 < q).
  { apply Z.lt_nge. intros Hq. rewrite Zle_Qle in Hq. change (inject_Z 0) with 0%Q in Hq. rewrite Evq in He'. nra. }
  destruct q as [|q|q]; [lia| |lia]. exists q, e', (new_location (Zpos m2) r). split; [done|].
  assert (Hrec : rec_at v (shr_record_of_loc (Zpos q) (new_location (Zpos m2) r)) e').
  { destruct (new_location_at (Zpos q) r (Zpos m2) e') as (Hp & d & Hd & Hdd); [lia|lia|lia|]. split; [done|]. exists d. split; [by rewrite Evq|done]. }
  split; [done|]. transitivity (fexp prec emax dd); [lia|]. apply fexp_mono.
  cbn [Zdigits2]. enough (Hd : dd - 1 < Zpos (digits2_pos q) + e') by (clear -Hd; lia). apply p2_lt_inv. rewrite (p2_add _ e'). pose proof (pos_upper q) as U.
  assert (v < p2 (Zpos (digits2_pos q)) * p2 e')%Q; [|lra]. rewrite Evq. nra.
Qed.

Lemma div_correct x y : numeric x -> (exists s m e, y = S754_finite s m e) -> bounded_by (value x / value y) ->
  (value x == 0)%Q \/ (p2 (emin prec emax) <= value x / value y)%Q \/ (value x / value y <= - p2 (emin prec emax))%Q ->
  correct (value x / value y) (SFdiv prec emax x y).
Proof using Hprec Hemax.
  intros Hx (s' & m' & e' & ->) Hb Hmin. set (y := S754_finite s' m' e') in *. pose proof (mantissa_pos m' e') as Hy.
  destruct x as [s|s| |s m e]; [|done..|].
  - split; [done|]. left. split; [|done]. cbn [value]. unfold Qdiv. ring.
  - pose proof (mantissa_pos m e) as Hx'. set (v := (inject_Z (Zpos m) * p2 e / (inject_Z (Zpos m') * p2 e'))%Q).
    assert (Hvy : (v * (inject_Z (Zpos m') * p2 e') == inject_Z (Zpos m) * p2 e)%Q) by (unfold v; field; split; [pose proof (p2_pos e'); lra|done]).
    assert (Hv : (0 < v)%Q) by nra.
    assert (Ew : (value (S754_finite s m e) / value y == if xorb s s' then - v else v)%Q).
    { unfold y, v. rewrite !value_finite. destruct s, s'; cbn [xorb]; field; (split; [pose proof (p2_pos e'); lra|done]). }
    assert (Hvmin : (p2 (emin prec emax) <= v)%Q).
    { pose proof (p2_pos (emin prec emax)) as Hp. destruct Hmin as [H0|H].
      - rewrite value_finite in H0. destruct s; lra.
      - rewrite Ew in H. destruct (xorb s s'); lra. }
    destruct (div_core m e m' e' v Hvy Hvmin) as (q & eq & l & Ec & Hr & He). unfold y. cbn [SFdiv]. rewrite Ec.
    apply (aux_correct _ _ _ _ v); [done|done|exact Ew|done|by right].
Qed.

(** ** What rounding guarantees *)
Lemma inject_lt_S a b : (inject_Z a < inject_Z b + 1)%Q -> a <= b.
Proof using Type. change 1%Q with (inject_Z 1). rewrite <- inject_Z_plus, <- Zlt_Qlt. lia. Qed.

(** A positive number is rounded near, and not below zero. *)
Lemma pos_near v q : (0 < v)%Q -> rounded_pos v q ->
  (0 <= q)%Q /\ (- (v * p2 (- prec) + p2 (emin prec emax)) <= q - v <= v * p2 (- prec) + p2 (emin prec emax))%Q.
Proof using Hprec.
  intros Hv (k & g & [(mag & Hm & Hg) Hn _] & E). pose proof (p2_pos g) as Hp. rewrite E. split.
  - assert (0 <= k); [|rewrite Zle_Qle in *; change (inject_Z 0) with 0%Q in *; nra]. apply inject_lt_S. change (inject_Z 0) with 0%Q.
    apply (Qmult_lt_r _ _ (p2 g) Hp). nra.
  - assert (p2 g <= 2 * (v * p2 (- prec) + p2 (emin prec emax)))%Q; [|lra]. pose proof (p2_pos (emin prec emax)). pose proof (p2_pos (- prec)).
    unfold fexp in Hg. destruct (Z.max_spec (mag - prec) (emin prec emax)) as [[_ Em]|[_ Em]]; rewrite Em in Hg; [rewrite Hg; nra|].
    assert (p2 g == 2 * (p2 (mag - 1) * p2 (- prec)))%Q as ->; [|nra]. rewrite <- p2_add, <- p2_S. by replace (mag - 1 + - prec + 1) with g by lia.
Qed.

Lemma rounded_near v q w : rounded v q -> (- w <= v <= w)%Q ->
  (- (w * p2 (- prec) + p2 (emin prec emax)) <= q - v <= w * p2 (- prec) + p2 (emin prec emax))%Q.
Proof using Hprec.
  intros Hr Hw. pose proof (p2_pos (emin prec emax)). pose proof (p2_pos (- prec)). destruct Hr as [[H1 H2]|[[H1 H2]|[H1 H2]]].
  - assert (0 <= w * p2 (- prec))%Q by (apply Qmult_le_0_compat; lra). lra.
  - destruct (pos_near v q H1 H2) as [_ N]. assert (v * p2 (- prec) <= w * p2 (- prec))%Q by (apply Qmult_le_compat_r; lra). lra.
  - destruct (pos_near (- v) (- q) ltac:(lra) H2) as [_ N]. assert (- v * p2 (- prec) <= w * p2 (- prec))%Q by (apply Qmult_le_compat_r; lra). lra.
Qed.

Lemma nearest_mono v1 k1 g1 v2 k2 g2 : nearest v1 k1 g1 -> nearest v2 k2 g2 -> (v1 <= v2)%Q -> (inject_Z k1 * p2 g1 <= inject_Z k2 * p2 g2)%Q.
Proof using Hprec.
  intros [(m1 & M1 & G1) N1 E1] [(m2 & M2 & G2) N2 E2] Hle. pose proof (p2_pos g1) as P1. pose proof (p2_pos g2) as P2.
  assert (Hm : m1 - 1 < m2) by (apply p2_lt_inv; lra).
  destruct (fexp_same m1 g1 G1) as [A1 B1]. assert (Hg : g1 <= g2) by (rewrite G1, G2; apply fexp_mono; lia).
  destruct (Z.eq_dec g1 g2) as [Eg|Eg].
  - subst g2. rewrite <- Eg in *. clear Eg. apply Qmult_le_compat_r; [|lra]. rewrite <- Zle_Qle. apply Z.le_ngt. intros Hk.
    assert (Hk' : k2 + 1 <= k1) by lia. rewrite Zle_Qle, inject_Z_plus in Hk'. change (inject_Z 1) with 1%Q in Hk'.
    apply (Qmult_le_compat_r _ _ (p2 g1)) in Hk'; [|lra].
    assert (Ek : (inject_Z k1 * p2 g1 == (inject_Z k2 + 1) * p2 g1)%Q) by lra.
    assert (H1 : Z.even k1 = true) by (apply E1; right; lra). assert (H2 : Z.even k2 = true) by (apply E2; left; lra).
    apply (proj1 (Qmult_inj_r _ _ (p2 g1) ltac:(lra))) in Ek. change 1%Q with (inject_Z 1) in Ek. rewrite <- inject_Z_plus in Ek. apply (proj1 (inject_Z_injective _ _)) in Ek. subst k1.
    rewrite Z.even_add, H2 in H1. done.
  - assert (Em : g2 = m2 - prec) by (unfold fexp in G2; lia).
    assert (K1 : k1 <= 2 ^ prec).
    { apply inject_lt_S, (Qmult_lt_r _ _ (p2 g1) P1). rewrite <- p2_int by lia. pose proof (p2_le m1 (prec + g1) ltac:(lia)) as L. rewrite p2_add in L. nra. }
    assert (K2 : 2 ^ (prec - 1) <= k2).
    { apply inject_lt_S, (Qmult_lt_r _ _ (p2 g2) P2). rewrite <- p2_int by lia. pose proof (p2_le (prec - 1 + g2) (m2 - 1) ltac:(lia)) as L. rewrite p2_add in L. nra. }
    rewrite Zle_Qle, <- p2_int in K1, K2 by lia. pose proof (p2_le (prec + g1) (prec - 1 + g2) ltac:(lia)) as L. rewrite !p2_add in L.
    apply (Qmult_le_compat_r _ _ (p2 g1)) in K1; [|lra]. apply (Qmult_le_compat_r _ _ (p2 g2)) in K2; [|lra]. lra.
Qed.

Lemma rounded_mono v1 q1 v2 q2 : rounded v1 q1 -> rounded v2 q2 -> (v1 <= v2)%Q -> (q1 <= q2)%Q.
Proof using Hprec.
  intros H1 H2 Hle. assert (Hs : forall v q, rounded v q -> ((0 <= v -> 0 <= q) /\ (v <= 0 -> q <= 0))%Q).
  { intros v q [[A B]|[[A B]|[A B]]]; [split; intros; lra|destruct (pos_near v q A B)|destruct (pos_near (- v) (- q) ltac:(lra) B)]; split; intros; lra. }
  destruct (Hs _ _ H1) as [S1 S1'], (Hs _ _ H2) as [S2 S2'].
  destruct H1 as [[A1 B1]|[[A1 B1]|[A1 B1]]], H2 as [[A2 B2]|[[A2 B2]|[A2 B2]]]; try (specialize (S2 ltac:(lra)); lra); try (specialize (S1' ltac:(lra)); lra).
  - destruct B1 as (k1 & g1 & N1 & E1), B2 as (k2 & g2 & N2 & E2). rewrite E1, E2. by apply (nearest_mono v1 _ _ v2).
  - destruct B1 as (k1 & g1 & N1 & E1), B2 as (k2 & g2 & N2 & E2).
    pose proof (nearest_mono _ _ _ _ _ _ N2 N1 ltac:(lra)). lra.
Qed.

(** An integer that fits the mantissa is kept. *)
Lemma rounded_integer n q : 0 <= n < 2 ^ prec -> emin prec emax <= 0 -> rounded (inject_Z n) q -> (q == inject_Z n)%Q.
Proof using Hprec.
  intros [Hn0 Hn] He Hr. rewrite Zle_Qle in Hn0. change (inject_Z 0) with 0%Q in Hn0.
  destruct Hr as [[H1 H2]|[[H1 (k & g & [(mag & Hm & Hg) Hk _] & E)]|[H1 _]]]; [lra| |lra].
  assert (Hmag : mag - 1 < prec) by (apply p2_lt_inv; rewrite (p2_int prec) by lia; rewrite Zlt_Qlt in Hn; lra).
  assert (Hg0 : g <= 0) by (unfold fexp in Hg; lia). pose proof (p2_pos g) as Hp.
  assert (En : (inject_Z n == inject_Z (n * 2 ^ (- g)) * p2 g)%Q).
  { rewrite inject_Z_mult, <- p2_int, <- Qmult_assoc, <- p2_add by lia. replace (- g + g) with 0 by lia. change (p2 0) with 1%Q. ring. }
  set (j := n * 2 ^ (- g)) in *. assert (j = k); [|subst k; lra]. rewrite En in Hk.
  apply Z.le_antisymm; apply inject_lt_S, (Qmult_lt_r _ _ (p2 g) Hp); nra.
Qed.
End format.
