(* ===== verification/Volts.v ===== *)
(** * Volts from a sample (driver/saradc/saradc.c, components/saradc_intf/saradc_intf.c)

    The millivolts that the driver computes in floating point, for any calibration
    and any sample: each operation is correctly rounded ([Float]), so the result is
    near the line through the two points of the calibration, and grows with the
    sample. *)
From Stdlib Require Import QArith Qpower Lqa Floats.SpecFloat.
From S2P Require Import Prelude Saradc SaradcIntf Float.
Local Open Scope Z_scope.

Abbreviation correct24 := (correct 24 128).
Abbreviation correct53 := (correct 53 1024).
Abbreviation rounded24 := (rounded 24 128).
Abbreviation rounded53 := (rounded 53 1024).

(** ** The two formats *)
Definition u24 : Q := 1 # 16777216.
Definition u53 : Q := 1 # 1125899906842624.
Definition tiny : Q := 1 # 1152921504606846976.

Lemma near24 v q w : rounded24 v q -> (- w <= v <= w)%Q -> (- (w * u24 + tiny) <= q - v <= w * u24 + tiny)%Q.
Proof.
  intros Hr Hw. pose proof (rounded_near 24 128 ltac:(done) v q w Hr Hw) as N.
  change (p2 (- (24))) with u24 in N. assert (p2 (emin 24 128) <= tiny)%Q by (vm_compute; discriminate). lra.
Qed.
Lemma near53 v q w : rounded53 v q -> (- w <= v <= w)%Q -> (- (w * u53 + tiny) <= q - v <= w * u53 + tiny)%Q.
Proof.
  intros Hr Hw. pose proof (rounded_near 53 1024 ltac:(done) v q w Hr Hw) as N.
  assert (p2 (- (53)) <= u53)%Q by (vm_compute; discriminate). assert (p2 (emin 53 1024) <= tiny)%Q by (vm_compute; discriminate).
  assert (w * p2 (- (53)) <= w * u53)%Q by nra. lra.
Qed.

(** Numbers far below the largest of the format. *)
Definition large : Q := inject_Z (2 ^ 60).
Lemma large_big : (100000000000 <= large)%Q.
Proof. vm_compute. discriminate. Qed.
Lemma bounded24 v : (- large < v < large)%Q -> bounded_by 24 128 v.
Proof. intros H. assert (large <= p2 (128 - 24 - 1))%Q by (vm_compute; discriminate). split; lra. Qed.
Lemma bounded53 v : (- large < v < large)%Q -> bounded_by 53 1024 v.
Proof. intros H. assert (large <= p2 (1024 - 53 - 1))%Q by (vm_compute; discriminate). split; lra. Qed.

Lemma to_float_correct x : numeric x -> (- large < value x < large)%Q -> correct24 (value x) (to_float x).
Proof. intros Hx Hb. exact (convert_correct 24 128 ltac:(done) ltac:(done) x Hx (bounded24 _ Hb)). Qed.
Lemma to_double_correct x : numeric x -> (- large < value x < large)%Q -> correct53 (value x) (to_double x).
Proof. intros Hx Hb. exact (convert_correct 53 1024 ltac:(done) ltac:(done) x Hx (bounded53 _ Hb)). Qed.

(** ** Truncation *)
Lemma trunc_pos p e : exists n, Z.quot (Zpos p * 2 ^ Z.max 0 e) (2 ^ Z.max 0 (- e)) = n /\ 0 <= n /\
  (inject_Z n <= inject_Z (Zpos p) * p2 e < inject_Z n + 1)%Q.
Proof.
  pose proof (Z.pow_pos_nonneg 2 (Z.max 0 (- e)) ltac:(done) ltac:(lia)) as Hd. pose proof (Z.pow_pos_nonneg 2 (Z.max 0 e) ltac:(done) ltac:(lia)) as Hn.
  rewrite Z.quot_div_nonneg by lia. set (d := 2 ^ Z.max 0 (- e)) in *. set (N := Zpos p * 2 ^ Z.max 0 e). eexists. split; [done|].
  split; [by apply Z.div_pos; lia|]. assert (Ev : (inject_Z (Zpos p) * p2 e * inject_Z d == inject_Z N)%Q).
  { unfold N, d. rewrite inject_Z_mult, <- !p2_int, <- Qmult_assoc, <- p2_add by lia. by replace (e + Z.max 0 (- e)) with (Z.max 0 e) by lia. }
  pose proof (Z.mul_div_le N d Hd) as L1. pose proof (Z.mul_succ_div_gt N d Hd) as L2. assert (Hdq : (0 < inject_Z d)%Q) by (change 0%Q with (inject_Z 0); by rewrite <- Zlt_Qlt).
  rewrite Zle_Qle, inject_Z_mult in L1. rewrite Zlt_Qlt, inject_Z_mult in L2. unfold Z.succ in L2. rewrite inject_Z_plus in L2. change (inject_Z 1) with 1%Q in L2.
  split; [apply (Qmult_le_r _ _ (inject_Z d) Hdq)|apply (Qmult_lt_r _ _ (inject_Z d) Hdq)]; lra.
Qed.

(** [(int)x]: towards zero. *)
Definition truncated (t : Q) (v : Z) : Prop :=
  ((0 <= t)%Q /\ 0 <= v /\ (inject_Z v <= t < inject_Z v + 1)%Q) \/ ((t <= 0)%Q /\ v <= 0 /\ (inject_Z v - 1 < t <= inject_Z v)%Q).

Lemma to_int_trunc x : numeric x -> (- inject_Z 0x7FFFFFFF <= value x <= inject_Z 0x7FFFFFFF)%Q -> exists v, to_int x = Some v /\ truncated (value x) v.
Proof.
  intros Hx Hb. destruct x as [s|s| |s m e]; [|done..|].
  - exists 0. split; [done|left]. split_and!; [done|done|done|done].
  - destruct (trunc_pos m e) as (n & En & Hn & Hv). pose proof (mantissa_pos m e) as Hp. pose proof (value_finite s m e) as Vx. rewrite Vx in Hb.
    assert (Hmax : n <= 0x7FFFFFFF) by (apply inject_lt_S; destruct s; lra).
    exists (cond_Zopp s n). cbn [to_int]. rewrite En. split.
    + destruct s; cbn [cond_Zopp]; rewrite !(proj2 (Z.leb_le _ _)) by lia; done.
    + unfold truncated. destruct s; cbn [cond_Zopp]; [right; rewrite inject_Z_opp|left]; rewrite Vx; split_and!; try lia; lra.
Qed.

Lemma truncated_mono t1 v1 t2 v2 : truncated t1 v1 -> truncated t2 v2 -> (t1 <= t2)%Q -> v1 <= v2.
Proof. intros [(A1 & B1 & C1)|(A1 & B1 & C1)] [(A2 & B2 & C2)|(A2 & B2 & C2)] Ht; try lia; apply inject_lt_S; lra. Qed.

(** ** The steps of the computation *)
Definition L18 : Q := 8106479329266893 # 4503599627370496.
Definition L02 : Q := 7205759403792794 # 36028797018963968.
Lemma lit_1_8_value : (value lit_1_8 == L18)%Q.
Proof. reflexivity. Qed.
Lemma lit_0_2_value : (value lit_0_2 == L02)%Q.
Proof. reflexivity. Qed.

(** From [n] counts above the low point of a calibration with [D] counts between its
    points to the millivolts [t]: each step is the exact one, rounded. *)
Record chain (n D : Z) (a b p z w r s t : Q) : Prop := {
  ch_a : rounded53 (inject_Z n) a;
  ch_b : rounded53 (a * L18) b;
  ch_p : rounded24 b p;
  ch_z : rounded24 (p / inject_Z D) z;
  ch_w : rounded53 z w;
  ch_r : rounded53 (w + L02) r;
  ch_s : rounded24 r s;
  ch_t : rounded24 (s * 1000) t;
}.

(** More counts never give less. *)
Lemma chain_mono n D a b p z w r s t n' a' b' p' z' w' r' s' t' : 0 < D -> n <= n' ->
  chain n D a b p z w r s t -> chain n' D a' b' p' z' w' r' s' t' -> (t <= t')%Q.
Proof.
  intros HD Hn [A B P Z W R S T] [A' B' P' Z' W' R' S' T']. rewrite Zlt_Qlt in HD. rewrite Zle_Qle in Hn.
  assert (M24 := rounded_mono 24 128 ltac:(done)). assert (M53 := rounded_mono 53 1024 ltac:(done)).
  assert (Ha : (a <= a')%Q) by exact (M53 _ _ _ _ A A' Hn).
  assert (Hb : (b <= b')%Q) by (apply (M53 _ _ _ _ B B'); unfold L18; lra).
  assert (Hp : (p <= p')%Q) by exact (M24 _ _ _ _ P P' Hb).
  assert (Hz : (z <= z')%Q).
  { apply (M24 _ _ _ _ Z Z'). unfold Qdiv. apply Qmult_le_compat_r; [done|]. apply Qlt_le_weak, Qinv_lt_0_compat. exact HD. }
  assert (Hw : (w <= w')%Q) by exact (M53 _ _ _ _ W W' Hz).
  assert (Hr : (r <= r')%Q) by (apply (M53 _ _ _ _ R R'); lra).
  assert (Hs : (s <= s')%Q) by exact (M24 _ _ _ _ S S' Hr).
  apply (M24 _ _ _ _ T T'). lra.
Qed.

(** The errors add up; [N] bounds the counts, [i] is the inverse of [D]. *)
Lemma chain_start n N a b p : rounded53 (inject_Z n) a -> rounded53 (a * L18) b -> rounded24 b p ->
  (- N <= inject_Z n <= N)%Q -> (0 <= N)%Q ->
  (- (2 * u24 * N + 4 * tiny) <= p - (18#10) * inject_Z n <= 2 * u24 * N + 4 * tiny)%Q.
Proof.
  intros A B P Hn HN. pose proof (near53 _ _ N A Hn) as Ea. set (x := inject_Z n) in *.
  pose proof (near53 _ _ ((181#100) * N + 2 * tiny) B ltac:(unfold u53, tiny, L18 in *; lra)) as Eb.
  pose proof (near24 _ _ ((182#100) * N + 4 * tiny) P ltac:(unfold u53, tiny, L18 in *; lra)) as Ep.
  unfold u24, u53, tiny, L18 in *. lra.
Qed.

Lemma chain_near n D a b p z w r s t N i : chain n D a b p z w r s t -> (- N <= inject_Z n <= N)%Q -> (0 <= N)%Q ->
  1 <= D -> (i * inject_Z D == 1)%Q ->
  (- (8 * u24 * (1800 * (N * i) + 200)) <= t - (1800 * (inject_Z n * i) + 200) <= 8 * u24 * (1800 * (N * i) + 200))%Q.
Proof.
  intros [A B P Z W R S T] Hn HN HD Hi. pose proof (chain_start n N a b p A B P Hn HN) as Ep.
  rewrite Zle_Qle in HD. change (inject_Z 1) with 1%Q in HD. assert (Hi0 : (0 <= i <= 1)%Q) by (split; nra).
  assert (Ey : (p / inject_Z D == p * i)%Q) by (unfold Qdiv; apply (Qmult_inj_r _ _ (inject_Z D)); [lra|]; rewrite <- !Qmult_assoc, Hi; field; lra).
  assert (HK : (- (N * i) <= inject_Z n * i <= N * i)%Q) by (split; nra). assert (HK0 : (0 <= N * i)%Q) by nra.
  assert (Epi : (- (2 * u24 * (N * i) + 4 * tiny) <= p * i - (18#10) * (inject_Z n * i) <= 2 * u24 * (N * i) + 4 * tiny)%Q).
  { assert (0 <= 4 * tiny * (1 - i))%Q by (unfold tiny; nra). split; nra. }
  apply (rounded_eq _ _ _ _ _ _ Ey (Qeq_refl z)) in Z.
  set (K := (N * i)%Q) in *. set (m := (inject_Z n * i)%Q) in *. set (y := (p * i)%Q) in *. clearbody K m y.
  pose proof (near24 _ _ ((181#100) * K + 4 * tiny) Z ltac:(unfold u24, tiny in *; lra)) as Ez.
  pose proof (near53 _ _ ((182#100) * K + 6 * tiny) W ltac:(unfold u24, tiny in *; lra)) as Ew.
  pose proof (near53 _ _ ((183#100) * K + (21#100)) R ltac:(unfold u24, u53, tiny, L02 in *; lra)) as Er.
  pose proof (near24 _ _ ((184#100) * K + (22#100)) S ltac:(unfold u24, u53, tiny, L02 in *; lra)) as Es.
  pose proof (near24 _ _ (1850 * K + 230) T ltac:(unfold u24, u53, tiny, L02 in *; lra)) as Et.
  unfold u24, u53, tiny, L02 in *. lra.
Qed.

(** ** The computation takes these steps, without overflow *)
Lemma size24 v q w : rounded24 v q -> (- w <= v <= w)%Q -> (1 <= w)%Q -> (- ((101#100) * w) <= q <= (101#100) * w)%Q.
Proof. intros Hr Hv Hw. pose proof (near24 v q w Hr Hv). unfold u24, tiny in *. lra. Qed.
Lemma size53 v q w : rounded53 v q -> (- w <= v <= w)%Q -> (1 <= w)%Q -> (- ((101#100) * w) <= q <= (101#100) * w)%Q.
Proof. intros Hr Hv Hw. pose proof (near53 v q w Hr Hv). unfold u53, tiny in *. lra. Qed.
Lemma rounded_zero prec emax v q : rounded prec emax v q -> (v == 0)%Q -> (q == 0)%Q.
Proof. intros [[_ H]|[[H _]|[H _]]] E; [done|lra|lra]. Qed.

Lemma numeric_value_pos x : numeric x -> (0 < value x)%Q -> exists s m e, x = S754_finite s m e.
Proof. destruct x as [s|s| |s m e]; [intros _ H; cbn [value] in H; lra|done..|by exists s, m, e]. Qed.

(** An integer of 17 bits is exact as a [float]. *)
Lemma float_int D : 0 <= D < 2 ^ 17 -> numeric (float_of_Z D) /\ (value (float_of_Z D) == inject_Z D)%Q.
Proof.
  intros [HD0 HD]. assert (E : (inject_Z D * p2 0 == inject_Z D)%Q) by (change (p2 0) with 1%Q; ring).
  assert (HDq : (0 <= inject_Z D < inject_Z (2 ^ 17))%Q) by (rewrite Zle_Qle in HD0; rewrite Zlt_Qlt in HD; by split).
  destruct (normalize_correct 24 128 ltac:(done) ltac:(done) D 0 false) as [N R].
  { apply bounded24. rewrite E. pose proof large_big. change (inject_Z (2 ^ 17)) with 131072%Q in HDq. lra. }
  split; [done|]. apply (rounded_integer 24 128 ltac:(done)); [lia|done|]. exact (rounded_eq _ _ _ _ _ _ E (Qeq_refl _) R).
Qed.

Lemma lit_0_2_rounded : rounded53 (value lit_0_2) (value lit_0_2).
Proof.
  assert (E : binary_normalize 53 1024 0x1999999999999A (-55) false = lit_0_2) by (vm_compute; reflexivity).
  destruct (normalize_correct 53 1024 ltac:(done) ltac:(done) 0x1999999999999A (-55) false) as [_ R]; [apply bounded53; split; by vm_compute|].
  rewrite E in R. exact R.
Qed.

Lemma start_correct n : - 65536 < n < 65536 -> exists x, to_float (SFmul 53 1024 (double_of_Z n) lit_1_8) = x /\ numeric x /\
  exists a b, rounded53 (inject_Z n) a /\ rounded53 (a * L18) b /\ rounded24 b (value x) /\ (- 130000 <= value x <= 130000)%Q /\
    ((value x == 0)%Q \/ (1 <= value x)%Q \/ (value x <= - (1))%Q).
Proof.
  intros [Hn1 Hn2]. rewrite Zlt_Qlt in Hn1, Hn2. change (inject_Z (-65536)) with (-65536)%Q in Hn1. change (inject_Z 65536) with 65536%Q in Hn2.
  assert (E : (inject_Z n * p2 0 == inject_Z n)%Q) by (change (p2 0) with 1%Q; ring).
  destruct (normalize_correct 53 1024 ltac:(done) ltac:(done) n 0 false) as [Na Ra]; [apply bounded53; rewrite E; pose proof large_big; lra|].
  apply (rounded_eq _ _ _ _ _ _ E (Qeq_refl _)) in Ra. change (binary_normalize 53 1024 n 0 false) with (double_of_Z n) in *.
  pose proof (size53 _ _ 65536 Ra ltac:(lra) ltac:(lra)) as Sa. set (a := value (double_of_Z n)) in *.
  assert (E18 : (a * value lit_1_8 == a * L18)%Q) by (by rewrite lit_1_8_value).
  destruct (mul_correct 53 1024 ltac:(done) ltac:(done) (double_of_Z n) lit_1_8 Na I) as [Nb Rb].
  { apply bounded53. fold a. rewrite E18. pose proof large_big. unfold L18. lra. }
  apply (rounded_eq _ _ _ _ _ _ E18 (Qeq_refl _)) in Rb. set (b := value (SFmul 53 1024 (double_of_Z n) lit_1_8)) in *.
  pose proof (size53 _ _ 120000 Rb ltac:(unfold L18; lra) ltac:(lra)) as Sb.
  destruct (to_float_correct _ Nb) as [Np Rp]; [fold b; pose proof large_big; lra|]. fold b in Rp. eexists. split; [reflexivity|]. split; [done|].
  pose proof (size24 _ _ 121200 Rp ltac:(lra) ltac:(lra)) as Sp. exists a, b. split_and!; [done|done|done|lra|lra|].
  assert (Hc : n = 0 \/ 1 <= n \/ n <= -1) by lia. destruct Hc as [->|Hc].
  - left. apply (rounded_zero _ _ _ _ Rp), (rounded_zero _ _ _ _ Rb). rewrite (rounded_zero _ _ _ _ Ra) by done. ring.
  - right. pose proof (chain_start n (inject_Z (Z.abs n)) a b _ Ra Rb Rp) as Ep.
    destruct Hc as [Hc|Hc]; [left|right].
    + rewrite Z.abs_eq in Ep by lia. rewrite Zle_Qle in Hc. change (inject_Z 1) with 1%Q in Hc. specialize (Ep ltac:(lra) ltac:(lra)). unfold u24, tiny in Ep. lra.
    + rewrite Z.abs_neq, inject_Z_opp in Ep by lia. rewrite Zle_Qle in Hc. change (inject_Z (-1)) with (-1)%Q in Hc. specialize (Ep ltac:(lra) ltac:(lra)). unfold u24, tiny in Ep. lra.
Qed.

Lemma divided D x : 0 < D < 65536 -> numeric x -> (- 130000 <= value x <= 130000)%Q ->
  ((value x == 0)%Q \/ (1 <= value x)%Q \/ (value x <= - (1))%Q) ->
  let y := SFdiv 24 128 x (float_of_Z D) in
  numeric y /\ rounded24 (value x / inject_Z D) (value y) /\ (- 140000 <= value y <= 140000)%Q.
Proof.
  intros [HD1 HD2] Hx Hb Hz. destruct (float_int D ltac:(lia)) as [ND VD].
  assert (HDq : (1 <= inject_Z D <= 65536)%Q) by (change 1%Q with (inject_Z 1); change 65536%Q with (inject_Z 65536); rewrite <- !Zle_Qle; lia).
  assert (Eq : (value x / value (float_of_Z D) == value x / inject_Z D)%Q) by (by rewrite VD).
  set (i := (/ inject_Z D)%Q). assert (Hi : (i * inject_Z D == 1)%Q) by (unfold i; field; lra). assert (Hi0 : (1 # 65536 <= i <= 1)%Q) by (split; nra).
  assert (Hq : (- 130000 <= value x / inject_Z D <= 130000)%Q) by (unfold Qdiv; fold i; split; nra).
  destruct (div_correct 24 128 ltac:(done) ltac:(done) x (float_of_Z D)) as [N R].
  - done.
  - apply numeric_value_pos; [done|]. rewrite VD. lra.
  - apply bounded24. rewrite Eq. pose proof large_big. lra.
  - assert (p2 (emin 24 128) <= 1 # 65536)%Q by (vm_compute; discriminate). rewrite Eq. unfold Qdiv. fold i.
    destruct Hz as [H0|[H1|H1]]; [by left|right; left; nra|right; right; nra].
  - apply (rounded_eq _ _ _ _ _ _ Eq (Qeq_refl _)) in R. split; [done|]. split; [exact R|].
    pose proof (size24 _ _ 130000 R ltac:(lra) ltac:(lra)). lra.
Qed.

Lemma finished x : numeric x -> (- 140000 <= value x <= 140000)%Q ->
  let y := to_float (SFadd 53 1024 (to_double x) lit_0_2) in
  exists w r, numeric y /\ rounded53 (value x) w /\ rounded53 (w + L02) r /\ rounded24 r (value y) /\
    exists t v, rounded24 (value y * 1000) t /\ millivolts y = Some v /\ truncated t v.
Proof.
  intros Hx Hb. cbv zeta. pose proof large_big as Hl. destruct (to_double_correct x Hx ltac:(lra)) as [Nw Rw].
  pose proof (size53 _ _ 140000 Rw ltac:(lra) ltac:(lra)) as Sw. set (w := value (to_double x)) in *.
  assert (E : (w + value lit_0_2 == w + L02)%Q) by (by rewrite lit_0_2_value).
  destruct (add_correct 53 1024 ltac:(done) ltac:(done) (to_double x) lit_0_2 Nw lit_0_2_rounded) as [Nr Rr].
  { by eexists _, _, _. }
  { apply bounded53. fold w. rewrite E. unfold L02. lra. }
  apply (rounded_eq _ _ _ _ _ _ E (Qeq_refl _)) in Rr. set (r := value (SFadd 53 1024 (to_double x) lit_0_2)) in *.
  pose proof (size53 _ _ 142000 Rr ltac:(unfold L02; lra) ltac:(lra)) as Sr.
  destruct (to_float_correct _ Nr) as [Ns Rs]; [fold r; lra|]. fold r in Rs. pose proof (size24 _ _ 144000 Rs ltac:(lra) ltac:(lra)) as Ss.
  exists w, r. split_and!; [done|done|done|done|]. set (y := to_float _) in *. destruct (float_int 1000 ltac:(lia)) as [N1 V1].
  assert (E2 : (value y * value (float_of_Z 1000) == value y * 1000)%Q) by (by rewrite V1).
  destruct (mul_correct 24 128 ltac:(done) ltac:(done) y (float_of_Z 1000) Ns N1) as [Nt Rt]; [apply bounded24; rewrite E2; lra|].
  apply (rounded_eq _ _ _ _ _ _ E2 (Qeq_refl _)) in Rt.
  pose proof (size24 _ _ 146000000 Rt ltac:(lra) ltac:(lra)) as St.
  destruct (to_int_trunc _ Nt) as (v & Ev & Hv); [change (inject_Z 0x7FFFFFFF) with 2147483647%Q; lra|]. by eexists _, v.
Qed.

Lemma volts_chain c x : 0 < high c - low c < 65536 -> - 65536 < x - low c < 65536 ->
  exists a b p z w r s t v, chain (x - low c) (high c - low c) a b p z w r s t /\ millivolts (volts_of c x) = Some v /\ truncated t v.
Proof.
  intros HD Hn. destruct (start_correct (x - low c) Hn) as (P & EP & NP & a & b & Ra & Rb & Rp & Bp & Zp).
  destruct (divided (high c - low c) P HD NP Bp Zp) as (Nz & Rz & Bz). destruct (finished _ Nz Bz) as (w & r & Ns & Rw & Rr & Rs & t & v & Rt & Ev & Hv).
  exists a, b, (value P), (value (SFdiv 24 128 P (float_of_Z (high c - low c)))), w, r. eexists _, t, v. split; [by split|]. split; [|done].
  unfold volts_of. rewrite EP. exact Ev.
Qed.

(** ** The millivolts *)

(** A truncated value within [E] of a quotient by [D] is within one, and [E], of it. *)
Lemma truncated_near t v D m W : truncated t v -> 0 < D ->
  (exists i, (i * inject_Z D == 1)%Q /\ (- (8 * u24 * (inject_Z W * i)) <= t - inject_Z m * i <= 8 * u24 * (inject_Z W * i))%Q) ->
  Z.abs (D * v - m) <= D + W / 2 ^ 21.
Proof.
  intros Ht HD (i & Hi & Hn). assert (HDq : (0 < inject_Z D)%Q) by (change 0%Q with (inject_Z 0); by rewrite <- Zlt_Qlt).
  assert (Hv : (- (1) < t - inject_Z v < 1)%Q) by (destruct Ht as [(A & B & C)|(A & B & C)]; split; lra).
  assert (Hd : (- (inject_Z D * inject_Z (2 ^ 21) + inject_Z W) < inject_Z (2 ^ 21) * (inject_Z D * inject_Z v - inject_Z m) < inject_Z D * inject_Z (2 ^ 21) + inject_Z W)%Q).
  { change (inject_Z (2 ^ 21)) with 2097152%Q. set (d := inject_Z D) in *. set (M := inject_Z m) in *. set (U := inject_Z W) in *. set (V := inject_Z v) in *.
    assert (E1 : (M * i * d == M)%Q) by (rewrite <- Qmult_assoc, Hi; ring). assert (E2 : (U * i * d == U)%Q) by (rewrite <- Qmult_assoc, Hi; ring).
    assert (H1 : (- (d) < t * d - V * d < d)%Q) by (split; nra).
    assert (H2 : (- (8 * u24 * U) <= t * d - M <= 8 * u24 * U)%Q).
    { destruct Hn as [L R]. apply (Qmult_le_compat_r _ _ d) in L, R; [|lra..]. unfold u24 in *. split; lra. }
    unfold u24 in H2. split; lra. }
  rewrite <- !inject_Z_mult, <- inject_Z_plus, <- inject_Z_opp in Hd. unfold Qminus in Hd. rewrite <- inject_Z_opp, <- inject_Z_plus, <- inject_Z_mult, <- !Zlt_Qlt in Hd.
  enough (Z.abs (D * v - m) - D <= W / 2 ^ 21) by lia. apply Z.div_le_lower_bound; lia.
Qed.

(** C13: for every calibration whose high point is above its low one and every sample
    of 16 bits, the millivolts computed in floating point are within 1 mV, and a
    2^21-th of the range measured, of the straight line through 200 mV at the low
    point and 2000 mV at the high one, and a larger sample never gives a smaller
    value. *)
Theorem millivolts_accurate c x y : 0 <= low c < high c -> high c < 65536 -> 0 <= x <= y -> y < 65536 ->
  exists v v', millivolts (volts_of c x) = Some v /\ millivolts (volts_of c y) = Some v' /\ v <= v' /\
    Z.abs ((high c - low c) * (v - 200) - 1800 * (x - low c)) <=
      (high c - low c) + (1800 * Z.abs (x - low c) + 200 * (high c - low c)) / 2 ^ 21.
Proof.
  intros Hc Hh Hx Hy. destruct (volts_chain c x ltac:(lia) ltac:(lia)) as (a & b & p & z & w & r & s & t & v & Cx & Ev & Tv).
  destruct (volts_chain c y ltac:(lia) ltac:(lia)) as (a' & b' & p' & z' & w' & r' & s' & t' & v' & Cy & Ev' & Tv'). exists v, v'.
  split_and!; [done|done| |].
  - apply (truncated_mono _ _ _ _ Tv Tv'). apply (chain_mono _ _ _ _ _ _ _ _ _ _ _ _ _ _ _ _ _ _ _) with (3 := Cx) (4 := Cy); lia.
  - set (D := high c - low c) in *. set (n := x - low c) in *.
    assert (HDq : (0 < inject_Z D)%Q) by (change 0%Q with (inject_Z 0); rewrite <- Zlt_Qlt; lia). set (i := (/ inject_Z D)%Q). assert (Hi : (i * inject_Z D == 1)%Q) by (unfold i; field; lra).
    pose proof (chain_near _ _ _ _ _ _ _ _ _ _ (inject_Z (Z.abs n)) i Cx) as Hnear.
    replace (D * (v - 200) - 1800 * n) with (D * v - (1800 * n + 200 * D)) by lia. apply (truncated_near t); [done|lia|]. exists i. split; [done|].
    assert (EW : (inject_Z (1800 * Z.abs n + 200 * D) * i == 1800 * (inject_Z (Z.abs n) * i) + 200)%Q).
    { rewrite inject_Z_plus, !inject_Z_mult. change (inject_Z 1800) with 1800%Q. change (inject_Z 200) with 200%Q.
      transitivity (1800 * (inject_Z (Z.abs n) * i) + 200 * (i * inject_Z D))%Q; [ring|]. rewrite Hi. ring. }
    assert (Em : (inject_Z (1800 * n + 200 * D) * i == 1800 * (inject_Z n * i) + 200)%Q).
    { rewrite inject_Z_plus, !inject_Z_mult. change (inject_Z 1800) with 1800%Q. change (inject_Z 200) with 200%Q.
      transitivity (1800 * (inject_Z n * i) + 200 * (i * inject_Z D))%Q; [ring|]. rewrite Hi. ring. }
    rewrite EW, Em. apply Hnear; [|change 0%Q with (inject_Z 0); rewrite <- Zle_Qle; lia|lia|done].
    rewrite <- inject_Z_opp, <- !Zle_Qle. lia.
Qed.

(** The calibration that the driver starts with, and one of a board. *)
Lemma millivolts_accurate_witness : exists v v', millivolts (volts_of (SaradcCalibrate 0x55 0x354) 400) = Some v /\
  millivolts (volts_of (SaradcCalibrate 0x55 0x354) 4095) = Some v' /\ v <= v' /\
  Z.abs ((0x354 - 0x55) * (v - 200) - 1800 * (400 - 0x55)) <= (0x354 - 0x55) + (1800 * Z.abs (400 - 0x55) + 200 * (0x354 - 0x55)) / 2 ^ 21.
Proof. apply (millivolts_accurate (SaradcCalibrate 0x55 0x354) 400 4095); cbn; lia. Defined.

(** Millivolts at the low point, in the middle, at the high point and at the end of the range; below the low point; another calibration. *)
Example millivolts_examples :
  (fun x => millivolts (volts_of (SaradcCalibrate 0x55 0x354) x)) <$> [85; 400; 852; 4095; 0] = [Some 200; Some 939; Some 2000; Some 9610; Some 0] /\
  (fun x => millivolts (volts_of (SaradcCalibrate 100 900) x)) <$> [100; 500; 900] = [Some 200; Some 1100; Some 2000].
Proof. vm_compute. split; reflexivity. Qed.
