(* ===== verification/SaradcIntfCorrect.v ===== *)
(** * Correctness of the sampling objects

    The handler of the samples, up to the semaphore: the device is closed, the mean
    is in the first place of the buffer, the converter stays idle. *)
From stdpp Require Import strings gmap.
From S2P Require Import Prelude DrvModel Icu Regs Intc Stack Gpio GpioCorrect GpioStack Clock SaradcHw Saradc SaradcCorrect SaradcBoard SaradcFrame.
From S2P Require Import SysCtrl Reentry SaradcIntf.
Local Open Scope Z_scope.

(** ** Measuring *)
Section measure.
Context {W : Type} `{RegBus W, !IcuRegs W, !GpioRegs W, !AdcSpec W, !Holds saradc_vars W, !Quiet saradc_vars W, !AdcPut saradc_vars W, !Holds clock_vars W}.
Context `{!Holds tadc_vars W, !Quiet tadc_vars W, !AdcPut tadc_vars W, !VarsApart saradc_vars tadc_vars W, !VarsApart tadc_vars saradc_vars W}.
Abbreviation all := (drv_state (intc_st W)).
Context (sdev_ops : Z -> SDD_OPERATIONS (intc_st W)) (icu_addr gpio_addr : Z) (fuel : nat).
Context (saradc_op adc_cfg adc_data detect_addr : Z).
Implicit Types (s : all) (w : W).
Abbreviation drivers := (adc_drivers sdev_ops icu_addr gpio_addr).
Abbreviation detect := (sadc_detect_handler fuel sdev_ops saradc_op adc_cfg).

Definition tvars w : tadc_vars := hget w.

(** A function pointer of the interrupt routine: there is one. *)
Definition call_detect (a : Z) : M all unit := if a =? detect_addr then detect else fail BadAccess.

(** The converter is off and its line disabled; the variables are [v] and [t]; it has delivered [c], and perhaps more. *)
Record idle (v : saradc_vars) (t : tadc_vars) (c : list Z) w : Prop := {
  id_stopped : stopped w;
  id_vars : avars w = v;
  id_tvars : tvars w = t;
  id_sat : a_sat (adc_of w) = open_saturation;
  id_line : line_on w = false;
  id_came : c `prefix_of` a_came (adc_of w);
}.

Lemma idle_put_t v t t' c w : idle v t c w -> idle v t' c (hput t' w).
Proof using Quiet1 AdcPut1 VarsApart1.
  intros [(S1 & S2 & S3) V T A L C]. split; [unfold stopped; rewrite !adc_put; split_and!; [by apply adc_put_ok|done|done]| | | | |by rewrite adc_put].
  - unfold avars. by rewrite vars_apart.
  - apply hget_put.
  - by rewrite adc_put.
  - unfold line_on in *. by rewrite ireg_put.
Qed.
Lemma idle_put_v v v' t c w : idle v t c w -> idle v' t c (hput v' w).
Proof using Quiet0 AdcPut0 VarsApart0.
  intros [(S1 & S2 & S3) V T A L C]. split; [unfold stopped; rewrite !adc_put; split_and!; [by apply adc_put_ok|done|done]| | | | |by rewrite adc_put].
  - apply hget_put.
  - unfold tvars. by rewrite vars_apart.
  - by rewrite adc_put.
  - unfold line_on in *. by rewrite ireg_put.
Qed.

(** Closing what is closed. *)
Lemma idle_close v t c s : drivers s -> enough W fuel -> idle v t c (at_world s) ->
  exists w, saradc_close fuel sdev_ops s = Val (SARADC_SUCCESS, with_world s w) /\ idle (with_busy 0 v) t c w.
Proof using All.
  intros Hd Hf [(S1 & S2 & S3) V T A L C]. destruct (close_val sdev_ops icu_addr gpio_addr fuel s Hd S1 Hf) as (w & E & [C1 _ C3 (n & C6) C4 C5 _]).
  exists w. split; [exact E|]. split; [done|congruence| |congruence| |].
  - pose proof (keeps_close sdev_ops icu_addr gpio_addr fuel (Y := tadc_vars) s _ _ Hd E) as K. unfold mine_of in K. injection K as K.
    unfold tvars in *. rewrite <- T. exact K.
  - unfold line_on. rewrite C5, Z.eqb_refl, Z.ldiff_spec by done. apply andb_false_r.
  - rewrite C6. by apply prefix_app_r.
Qed.
(** A buffer of samples, averaged. *)
Definition mean_of_samples (xs : list Z) : Z :=
  mean_of (nth 1 xs 0) (nth 2 xs 0) (nth 3 xs 0) (nth 4 xs 0) 3.

Lemma buffer_get_val b (i : nat) l x w : buffers (avars w) !! b = Some l -> l !! i = Some x -> buffer_get b (Z.of_nat i) w = Val (x, w).
Proof using Type.
  intros Hb Hl. unfold buffer_get. rewrite (bind_ret_val _ _ _ _ _ (eq_refl : gets buffers w = Val (buffers (avars w), w))).
  rewrite (proj2 (Z.ltb_ge _ _)) by lia. unfold lift_res, avars in *. rewrite Hb. cbn. by rewrite Nat2Z.id, Hl.
Qed.

Lemma average_val v t c d xs w : idle v t c w -> adc_cfg <> 0 -> descs v !! adc_cfg = Some d -> buffers v !! pData d = Some xs -> length xs = 5%nat ->
  exists w', average adc_cfg w = Val (tt, w') /\
    idle (with_buffers (<[pData d := <[0%nat := u16 (mean_of_samples xs)]> xs]> (buffers v)) v) (with_accuracy 3 t) c w'.
Proof using All.
  intros Hi Hp Hd Hb Hl. destruct xs as [|x0 [|x1 [|x2 [|x3 [|x4 [|]]]]]]; try done. pose proof Hi as [(S1 & S2 & S3) V T A L C].
  assert (Eg : forall (i : nat) x, [x0; x1; x2; x3; x4] !! i = Some x -> buffer_get (pData d) (Z.of_nat i) w = Val (x, w))
    by (intros i x Hx; apply (buffer_get_val _ _ [x0; x1; x2; x3; x4]); [by rewrite V|done]).
  destruct (adc_read_sat w S1) as (w1 & E1 & Hok1 & T1). destruct (passes_off _ _ _ T1 S2) as [F1 Hoff1].
  pose proof (res_read _ _ beside_respects SARADC_ADC_SATURATION_CFG w eq_refl) as B. rewrite E1 in B. cbn [snd] in B.
  assert (Hi1 : idle v t c w1).
  { split; [unfold stopped; split_and!; [done|done|congruence]|by rewrite (bs_vars _ _ B)| | |by rewrite (beside_line _ _ B)|by rewrite (passes_came _ _ _ T1 S2)].
    - rewrite <- T. pose proof (quiet_read (X := tadc_vars) SARADC_ADC_SATURATION_CFG w) as Q. rewrite E1 in Q. exact Q.
    - destruct T1 as (_ & _ & _ & ->). done. }
  assert (Ec : saradc_check_accuracy w = Val (3, w1)) by (unfold saradc_check_accuracy; mstep by (unfold REG_READ; by rewrite E1); by rewrite A).
  set (w2 := hput (with_accuracy 3 t) w1). assert (Hi2 : idle v (with_accuracy 3 t) c w2) by (by apply (idle_put_t v t)).
  eexists. split; [|by apply (idle_put_v v _ _ _ w2)]. unfold average.
  rewrite (bind_ret_val _ _ _ _ _ (desc_at_val adc_cfg d w Hp ltac:(by rewrite V))).
  rewrite (bind_ret_val _ _ _ _ _ (Eg 1%nat x1 eq_refl)), (bind_ret_val _ _ _ _ _ (Eg 2%nat x2 eq_refl)), (bind_ret_val _ _ _ _ _ (Eg 3%nat x3 eq_refl)),
    (bind_ret_val _ _ _ _ _ (Eg 4%nat x4 eq_refl)), (bind_ret_val _ _ _ _ _ Ec).
  assert (Es : sets (with_accuracy (u8 3)) w1 = Val (tt, w2)) by (unfold sets, modify, w2; destruct Hi1 as [_ _ Ht _ _ _]; unfold tvars in Ht; by rewrite Ht).
  rewrite (bind_ret_val _ _ _ _ _ Es). unfold buffer_set.
  rewrite (bind_ret_val _ _ _ _ _ (eq_refl : gets buffers w2 = Val (buffers (avars w2), w2))), (id_vars _ _ _ _ Hi2), Hb. change (0 <=? 0) with true. change (0 <? Z.of_nat _) with true. cbn [andb].
  unfold sets, modify. fold (avars w2). by rewrite (id_vars _ _ _ _ Hi2).
Qed.
Lemma upd_entry_world s i d d' w : upd_entry (with_world (upd_entry s i d) w) i d' = with_world (upd_entry s i d') w.
Proof using Type. unfold upd_entry, upd_dev, with_world. cbn. by rewrite list_insert_insert_eq. Qed.

(** The handler, when all samples are there: the device is closed, the mean is in the first place, the semaphore given. *)
Definition finished_vars (v : saradc_vars) (d : saradc_desc_t) (xs : list Z) : saradc_vars :=
  with_buffers (<[pData d := <[0%nat := u16 (mean_of_samples xs)]> xs]> (buffers v)) (with_busy 0 v).
Definition finished_tvars (t : tadc_vars) : tadc_vars := with_sema 1 (with_accuracy 3 (with_handle DD_HANDLE_UNVALID t)).
Definition entry_closed (dv : DRV_DEV_S) : DRV_DEV_S := DRV_DEV (name dv) 0 DD_STATE_CLOSED (op dv).

Lemma detect_val s i dv v t c d xs : drivers s -> enough W fuel -> drv_dev_tbl s !! i = Some dv -> (i < DD_MAX_DEV)%nat -> op dv = Some saradc_op ->
  use_cnt dv = 1 -> idle v t c (at_world s) -> tadc_entity t <> 0 -> adc_handle t = ddev_make_handle (Z.of_nat i) -> adc_cfg <> 0 ->
  saradc_desc v = adc_cfg -> descs v !! adc_cfg = Some d -> data_buff_size d <= current_sample_data_cnt d ->
  truthy (Z.land (sd_mode d) ADC_CONFIG_MODE_SHOULD_OFF) = true -> buffers v !! pData d = Some xs -> length xs = 5%nat ->
  exists w, detect s = Val (tt, with_world (upd_entry s i (entry_closed dv)) w) /\ idle (finished_vars v d xs) (finished_tvars t) c w.
Proof using All.
  intros Hd Hf Hdv Hi Hop Hcnt Hid Hent Hh Hp Hcur Hdesc Hfull Hoff Hb Hl. unfold sadc_detect_handler.
  assert (Hsame : with_world s (at_world s) = s) by (by destruct s as [? ? []]).
  assert (Ee : forall s0, tvars (at_world s0) = t -> at_ext entity_there s0 = Val (tt, s0)).
  { intros s0 Ht. assert (Hsame0 : with_world s0 (at_world s0) = s0) by (by destruct s0 as [? ? []]). rewrite <- Hsame0 at 2. apply at_ext_val.
    unfold entity_there. rewrite (bind_ret_val _ _ _ _ _ (eq_refl : gets tadc_entity (ext (world s0)) = Val (tadc_entity (tvars (at_world s0)), _))).
    rewrite Ht. by rewrite (proj2 (Z.eqb_neq _ _)). }
  rewrite (bind_ret_val _ _ _ _ _ (Ee s (id_tvars _ _ _ _ Hid))).
  assert (Ed : at_ext (desc_at adc_cfg) s = Val (d, s)) by (rewrite <- Hsame at 2; apply at_ext_val, desc_at_val; [done|]; by rewrite (id_vars _ _ _ _ Hid)).
  rewrite (bind_ret_val _ _ _ _ _ Ed), (proj2 (Z.leb_le _ _)) by done. cbn [when].
  assert (Eh : at_ext (gets adc_handle) s = Val (adc_handle t, s)).
  { rewrite <- Hsame at 2. apply at_ext_val. unfold gets. fold (tvars (ext (world s))). by rewrite (id_tvars _ _ _ _ Hid : tvars (ext (world s)) = t). }
  rewrite (bind_ret_val _ _ _ _ _ Eh), Hh.
  set (s1 := upd_entry s i (DRV_DEV (name dv) 0 (state dv) (op dv))).
  destruct (idle_close v t c s1 Hd Hf Hid) as (w1 & E1 & Hid1).
  assert (Ec : dev_close saradc_op (saradc_close fuel sdev_ops) (ddev_make_handle (Z.of_nat i)) s = Val (DRV_SUCCESS, with_world (upd_entry s i (entry_closed dv)) w1)).
  { rewrite (dev_close_last saradc_op _ s i dv _ _ Hdv Hi Hop Hcnt E1); [|done]. by rewrite <- (upd_entry_world s i (DRV_DEV (name dv) 0 (state dv) (op dv))). }
  rewrite (bind_ret_val _ _ _ _ _ Ec). set (s2 := upd_entry s i (entry_closed dv)) in *.
  set (w2 := hput (with_handle DD_HANDLE_UNVALID t) w1). assert (Hid2 : idle (with_busy 0 v) (with_handle DD_HANDLE_UNVALID t) c w2) by (by apply (idle_put_t _ t)).
  assert (E2 : at_ext (sets (with_handle DD_HANDLE_UNVALID)) (with_world s2 w1) = Val (tt, with_world s2 w2)).
  { apply (at_ext_val _ (with_world s2 w1)). unfold sets, modify, w2. cbn. by rewrite (id_tvars _ _ _ _ Hid1 : hget w1 = t). }
  rewrite (bind_ret_val _ _ _ _ _ E2).
  destruct (idle_close _ _ _ (with_world s2 w2) Hd Hf Hid2) as (w3 & E3 & Hid3). change (with_world (with_world s2 w2) w3) with (with_world s2 w3) in E3.
  assert (E4 : saradc_ensure_close fuel sdev_ops (with_world s2 w2) = Val (tt, with_world s2 w3)).
  { unfold saradc_ensure_close. assert (Ecur : at_ext cur_desc (with_world s2 w2) = Val (d, with_world s2 w2)).
    { apply (at_ext_val _ (with_world s2 w2)), cur_desc_val; cbn; rewrite (id_vars _ _ _ _ Hid2); cbn; rewrite Hcur; done. }
    rewrite (bind_ret_val _ _ _ _ _ Ecur), Hoff. cbn [when]. by mstep by exact E3. }
  rewrite (bind_ret_val _ _ _ _ _ E4).
  destruct (average_val _ _ _ d xs w3 Hid3 Hp Hdesc Hb Hl) as (w4 & E5 & Hid4).
  eexists. split; [|by apply (idle_put_t _ _ (finished_tvars t)) in Hid4].
  apply (at_ext_val _ (with_world s2 w3)). change (ext (world (with_world s2 w3))) with w3. rewrite (bind_ret_val _ _ _ _ _ E5).
  unfold rtos_set_semaphore, entity_there. rewrite bind_assoc.
  rewrite (bind_ret_val _ _ _ _ _ (eq_refl : gets tadc_entity w4 = Val (tadc_entity (tvars w4), w4))), (id_tvars _ _ _ _ Hid4).
  change (tadc_entity (with_accuracy 3 (with_handle DD_HANDLE_UNVALID t))) with (tadc_entity t). rewrite (proj2 (Z.eqb_neq _ _)) by done.
  unfold sets, modify. mstep by reflexivity. cbn. by rewrite (id_tvars _ _ _ _ Hid4 : hget w4 = _).
Qed.
Lemma idle_stays v t c w w' : idle v t c w -> adc_ok w' -> time_passes (adc_of w) (adc_of w') -> beside w w' -> tvars w' = tvars w -> idle v t c w'.
Proof using Type.
  intros [(S1 & S2 & S3) V T A L C] Hok Tm B Ht. destruct (passes_off _ _ _ Tm S2) as [F Hoff]. pose proof (passes_came _ _ _ Tm S2) as A'. destruct Tm as (_ & _ & _ & S').
  split; [unfold stopped; split_and!; [done|done|congruence]|by rewrite (bs_vars _ _ B)|congruence|congruence|by rewrite (beside_line _ _ B)|by rewrite A'].
Qed.
Lemma int_clr_idle v t c s : enough W fuel -> idle v t c (at_world s) -> exists w, at_ext (saradc_int_clr fuel) s = Val (tt, with_world s w) /\ idle v t c w.
Proof using All.
  intros Hf Hid. destruct (int_clr_top fuel s (proj1 (id_stopped _ _ _ _ Hid)) Hf) as (w & E & Hok & T & B). exists w. split; [exact E|].
  apply (idle_stays _ _ _ (at_world s)); try done. unfold at_ext, call, on_ext in E. fold (at_world s) in E.
  destruct (saradc_int_clr fuel (at_world s)) as [[u w']|] eqn:Ec; [|done]. pose proof (leaves_int_clr (Y := tadc_vars) fuel _ _ _ Ec) as K.
  injection E as E. assert (w' = w) as <- by (unfold with_world in E; congruence). exact K.
Qed.

(** An interrupt before the handler leaves the variables of the client alone. *)
Lemma tvars_kept s w (b : bool) a : drivers s ->
  (forall h : Z -> M all unit, saradc_isr fuel sdev_ops h s = Val (tt, with_world s w)) \/
  (enough W fuel /\ adc_ok w /\ forall h : Z -> M all unit, saradc_isr fuel sdev_ops h s = (when b (h a);; at_ext (saradc_int_clr fuel)) (with_world s w)) ->
  tvars w = tvars (at_world s).
Proof using All.
  intros Hd Hor. pose proof (keeps_isr sdev_ops icu_addr gpio_addr fuel (Y := tadc_vars) (fun _ => mret tt) (fun _ => keeps_ret _ _ _ _)) as K.
  destruct Hor as [E|(Hf & Hok & E)].
  - specialize (K s tt _ Hd (E _)). unfold mine_of in K. injection K as K. exact K.
  - destruct (int_clr_top fuel (with_world s w) Hok Hf) as (w' & E' & _).
    assert (Er : saradc_isr fuel sdev_ops (fun _ => mret tt) s = Val (tt, with_world s w')) by (rewrite E; destruct b; mstep by reflexivity; exact E').
    specialize (K s tt _ Hd Er). unfold mine_of in K. injection K as K. unfold tvars. rewrite <- K. cbn.
    unfold at_ext, call, on_ext in E'. cbn in E'. destruct (saradc_int_clr fuel w) as [[u w'']|] eqn:Ec; [|done].
    pose proof (leaves_int_clr (Y := tadc_vars) fuel _ _ _ Ec) as Kc. injection E' as E'. assert (w'' = w') as -> by (unfold with_world in E'; congruence). by rewrite Kc.
Qed.
End measure.
