(* ===== verification/SaradcMeasure.v ===== *)
(** * A measurement

    The task opens the converter and waits; the interrupts record the samples and
    the handler gives the semaphore; then the object is called.  Or the samples do
    not come in time. *)
From stdpp Require Import strings gmap.
From Stdlib Require Import Floats.SpecFloat.
From S2P Require Import Prelude DrvModel Icu Regs Intc Stack Gpio GpioCorrect GpioStack Clock SaradcHw Saradc SaradcCorrect SaradcBoard SaradcFrame.
From S2P Require Import SysCtrl Reentry SaradcIntf SaradcIntfCorrect.
Local Open Scope Z_scope.

Section measure.
Context {W : Type} `{RegBus W, !IcuRegs W, !GpioRegs W, !AdcSpec W, !Holds saradc_vars W, !Quiet saradc_vars W, !AdcPut saradc_vars W, !Holds clock_vars W}.
Context `{!Holds tadc_vars W, !Quiet tadc_vars W, !AdcPut tadc_vars W, !VarsApart saradc_vars tadc_vars W, !VarsApart tadc_vars saradc_vars W}.
Abbreviation all := (drv_state (intc_st W)).
Context (sdev_ops : Z -> SDD_OPERATIONS (intc_st W)) (icu_addr gpio_addr : Z) (fuel : nat).
Context (saradc_op adc_cfg adc_data detect_addr : Z).
Implicit Types (s : all) (w : W).
Abbreviation drivers := (adc_drivers sdev_ops icu_addr gpio_addr).
Abbreviation detect := (sadc_detect_handler fuel sdev_ops saradc_op adc_cfg).
Abbreviation call_handler := (call_detect sdev_ops fuel saradc_op adc_cfg detect_addr).
Abbreviation interrupts := (adc_interrupts sdev_ops fuel call_handler).

(** The task has opened the converter, and waits: the entry [i] of the registry is
    its own, [d] the descriptor of the measurement; [c0] is what the converter had
    delivered when it was opened, and all it has delivered since is in its queue. *)
Record waiting (s : all) (i : nat) (dv : DRV_DEV_S) (t : tadc_vars) (d : saradc_desc_t) (l c0 : list Z) : Prop := {
  wt_drivers : drivers s;
  wt_entry : drv_dev_tbl s !! i = Some dv;
  wt_slot : (i < DD_MAX_DEV)%nat;
  wt_op : op dv = Some saradc_op;
  wt_cnt : use_cnt dv = 1;
  wt_ok : adc_ok (at_world s);
  wt_line : line_on (at_world s) = true;
  wt_sat : a_sat (adc_of (at_world s)) = open_saturation;
  wt_filling : filling adc_cfg d l (at_world s);
  wt_none : current_sample_data_cnt d = 0;
  wt_size : data_buff_size d = ADC_TEMP_BUFFER_SIZE;
  wt_buf : length l = Z.to_nat ADC_TEMP_BUFFER_SIZE;
  wt_came : a_came (adc_of (at_world s)) = c0 ++ a_fifo (adc_of (at_world s));
  wt_handler : p_Int_Handler d = detect_addr;
  wt_off : truthy (Z.land (sd_mode d) ADC_CONFIG_MODE_SHOULD_OFF) = true;
  wt_tvars : tvars (at_world s) = t;
  wt_entity : tadc_entity t <> 0;
  wt_handle : adc_handle t = ddev_make_handle (Z.of_nat i);
}.

(** The variables of the driver when all samples are in the buffer. *)
Definition full_vars (d : saradc_desc_t) (l xs : list Z) (v : saradc_vars) : saradc_vars :=
  with_descs (<[adc_cfg := desc_done (desc_plus d xs)]> (descs v)) (with_busy 0 (stored adc_cfg d l xs v)).

Lemma interrupts_step n s w s1 : line_on w = true -> saradc_isr fuel sdev_ops call_handler (with_world s w) = Val (tt, s1) ->
  interrupts (Datatypes.S n) (with_world s w) = interrupts n s1.
Proof using Type.
  intros Hon E. cbn [adc_interrupts].
  assert (Estep : (fun s => (if line_on (at_world s) then saradc_isr fuel sdev_ops call_handler else mret tt) s) (with_world s w) = Val (tt, s1))
    by (change (at_world (with_world s w)) with w; by rewrite Hon, E).
  by rewrite (bind_ret_val _ _ _ _ _ Estep).
Qed.

(** The end of a recording: the handler finds all samples. *)
Lemma recorded_detect s i dv t d l c0 xs w : waiting s i dv t d l c0 -> enough W fuel -> adc_cfg <> 0 -> detect_addr <> 0 ->
  recorded adc_cfg d l xs (at_world s) w -> tvars w = t ->
  exists w', (when (truthy (p_Int_Handler d)) (call_handler (p_Int_Handler d));; at_ext (saradc_int_clr fuel)) (with_world s w) =
      Val (tt, with_world (upd_entry s i (entry_closed dv)) w') /\
    idle (finished_vars (full_vars d l xs (avars (at_world s))) (desc_done (desc_plus d xs)) xs) (finished_tvars t) (c0 ++ xs) w' /\ length xs = 5%nat.
Proof using All.
  intros [] Hf Hcfg Hdet [D1 D2 D3 D4 D5 (new & D6 & D7)] Ht.
  assert (Hlen : length xs = 5%nat) by (rewrite D5; unfold room; rewrite wt_size0, wt_none0; done).
  assert (Hid : idle (full_vars d l xs (avars (at_world s))) t (c0 ++ xs) (at_world (with_world s w))).
  { split; [done..|exact (eq_trans D4 wt_sat0)|done|]. change (at_world (with_world s w)) with w. rewrite D6, wt_came0, <- (assoc_L (++)). by apply prefix_app. }
  assert (Hbuf : list_inserts 0 xs l = xs).
  { pose proof (list_inserts_0_r xs l []) as E. rewrite !app_nil_r in E. apply E. rewrite Hlen, wt_buf0. done. }
  destruct (detect_val sdev_ops icu_addr gpio_addr fuel saradc_op adc_cfg adc_data detect_addr (with_world s w) i dv _ t _ (desc_done (desc_plus d xs)) xs
    wt_drivers0 Hf wt_entry0 wt_slot0 wt_op0 wt_cnt0 Hid wt_entity0 wt_handle0 Hcfg) as (w1 & E1 & Hid1).
  - exact (fi_ptr _ _ _ _ wt_filling0).
  - apply lookup_insert_eq.
  - cbn. rewrite wt_none0, wt_size0, Hlen. done.
  - done.
  - cbn. rewrite wt_none0. change (Z.to_nat 0) with 0%nat. rewrite Hbuf. apply lookup_insert_eq.
  - done.
  - destruct (int_clr_idle sdev_ops icu_addr gpio_addr fuel saradc_op adc_cfg adc_data detect_addr _ _ _ (with_world (upd_entry s i (entry_closed dv)) w1) Hf Hid1) as (w2 & E2 & Hid2).
    exists w2. split_and!; [|done|done]. rewrite wt_handler0. unfold truthy. rewrite (proj2 (Z.eqb_neq _ _)) by done. cbn [negb when].
    assert (Eh : call_handler detect_addr (with_world s w) = Val (tt, with_world (upd_entry s i (entry_closed dv)) w1))
      by (unfold call_detect; by rewrite Z.eqb_refl).
    by rewrite (bind_ret_val _ _ _ _ _ Eh).
Qed.

(** While the task waits, the recording goes on, or it is over: the converter is
    closed, the registry's entry too, the mean in the first place, the semaphore given. *)
Lemma wait_runs n s i dv t d l c0 : waiting s i dv t d l c0 -> enough W fuel -> (5 <= fuel)%nat -> adc_cfg <> 0 -> detect_addr <> 0 ->
  exists xs w', (interrupts n s = Val (tt, with_world s w') /\ recording adc_cfg d l xs (at_world s) w' /\ tvars w' = t) \/
    (interrupts n s = Val (tt, with_world (upd_entry s i (entry_closed dv)) w') /\ length xs = 5%nat /\
      idle (finished_vars (full_vars d l xs (avars (at_world s))) (desc_done (desc_plus d xs)) xs) (finished_tvars t) (c0 ++ xs) w').
Proof using All.
  intros Hw Hf Hfuel Hcfg Hdet. pose proof Hw as [].
  assert (Hroom : room d = 5%nat) by (unfold room; rewrite wt_size0, wt_none0; done).
  assert (Hruns : forall k xs w, recording adc_cfg d l xs (at_world s) w -> tvars w = t ->
    exists xs w', (interrupts k (with_world s w) = Val (tt, with_world s w') /\ recording adc_cfg d l xs (at_world s) w' /\ tvars w' = t) \/
    (interrupts k (with_world s w) = Val (tt, with_world (upd_entry s i (entry_closed dv)) w') /\ length xs = 5%nat /\
      idle (finished_vars (full_vars d l xs (avars (at_world s))) (desc_done (desc_plus d xs)) xs) (finished_tvars t) (c0 ++ xs) w')).
  { intros k. induction k as [|k IH]; intros xs w Hrec Ht; [exists xs, w; by left|].
    assert (Hon : line_on w = true) by (unfold line_on; rewrite (rc_icu _ _ _ _ _ _ Hrec) by done; exact wt_line0).
    destruct (interrupt_stores sdev_ops icu_addr gpio_addr fuel adc_cfg d l xs (at_world s) (with_world s w) wt_drivers0 Hf wt_filling0 ltac:(lia) Hrec)
      as (w1 & ys & [[R E]|[R E]]); change (with_world (with_world s w) w1) with (with_world s w1) in E.
    - rewrite (interrupts_step _ _ _ _ Hon (E _)). apply (IH (xs ++ ys)); [done|].
      rewrite (tvars_kept sdev_ops icu_addr gpio_addr fuel saradc_op adc_cfg adc_data detect_addr (with_world s w) w1 true 0 wt_drivers0 (or_introl E)). exact Ht.
    - assert (Ht1 : tvars w1 = t).
      { rewrite (tvars_kept sdev_ops icu_addr gpio_addr fuel saradc_op adc_cfg adc_data detect_addr (with_world s w) w1 _ _ wt_drivers0
          (or_intror (conj Hf (conj (proj1 (rd_stopped _ _ _ _ _ _ R)) E)))). exact Ht. }
      destruct (recorded_detect s i dv t d l c0 (xs ++ ys) w1 Hw Hf Hcfg Hdet R Ht1) as (w2 & E2 & Hid & Hlen).
      rewrite (interrupts_step k s w _ Hon (eq_trans (E call_handler) E2)). exists (xs ++ ys), w2. right.
      split_and!; [|done|done].
      apply line_off_interrupts. exact (id_line _ _ _ _ Hid). }
  destruct (Hruns n [] (at_world s)) as (xs & w' & Hor); [|done|].
  - split; [done| |done|done|cbn; lia|by exists []; rewrite !app_nil_r].
    symmetry. apply stored_nil; [apply (fi_desc _ _ _ _ wt_filling0)|apply (fi_buf _ _ _ _ wt_filling0)].
  - assert (Hsame : with_world s (at_world s) = s) by (by destruct s as [? ? []]). rewrite Hsame in Hor. by exists xs, w'.
Qed.

(** ** Opening *)
Context (handle : Z) (rtos_delay_milliseconds : Z -> M all unit).

(** What a measurement of the object [o] at [handle] needs: the converter is free
    and closed in the registry, the entity is there and nobody has given the semaphore. *)
Record measurable (s : all) (i : nat) (dv : DRV_DEV_S) (v : saradc_vars) (t : tadc_vars) (o : ADC_OBJ) : Prop := {
  ms_drivers : drivers s;
  ms_slot : slot s SARADC_DEV_NAME i dv;
  ms_op : op dv = Some saradc_op;
  ms_closed : state dv = DD_STATE_CLOSED;
  ms_ok : adc_ok (at_world s);
  ms_off : enabled (adc_of (at_world s)) = false;
  ms_vars : avars (at_world s) = v;
  ms_free : saradc_is_busy v = 0;
  ms_cfg : is_Some (descs v !! adc_cfg);
  ms_tvars : tvars (at_world s) = t;
  ms_entity : tadc_entity t <> 0;
  ms_obj : adc_objs t !! handle = Some o;
  ms_channel : u8 (ao_channel o) <= SARADC_ADC_CHNL_MAX;
}.
(** The addresses are not null. *)
Definition addresses : Prop := adc_cfg <> 0 /\ adc_data <> 0 /\ detect_addr <> 0 /\ handle <> 0.

Abbreviation desc_of o := (measure_desc adc_data detect_addr (ao_channel o)).
Definition set_up_vars (v : saradc_vars) (o : ADC_OBJ) : saradc_vars :=
  with_buffers (<[adc_data := replicate 5 0]> (buffers v)) (with_descs (<[adc_cfg := desc_of o]> (descs v)) v).

Lemma set_up_desc_val v t o w : adc_cfg <> 0 -> handle <> 0 -> avars w = v -> tvars w = t -> is_Some (descs v !! adc_cfg) -> tadc_entity t <> 0 ->
  adc_objs t !! handle = Some o -> set_up_desc adc_cfg adc_data detect_addr handle w = Val (tt, hput (set_up_vars v o) w).
Proof using VarsApart0.
  intros Hc Hh V T [d Hd] He Ho. unfold set_up_desc, entity_there. rewrite bind_assoc.
  rewrite (bind_ret_val _ _ _ _ _ (eq_refl : gets tadc_entity w = Val (tadc_entity (tvars w), w))), T, (proj2 (Z.eqb_neq _ _)) by done.
  mstep by reflexivity. unfold saradc_config_param_init, desc_set.
  assert (Hcfg : forall u d' x, avars u = x -> descs x !! adc_cfg = Some d' -> desc_at adc_cfg u = Val (d', u)).
  { intros u d' x <- Hx. unfold desc_at. rewrite (bind_ret_val _ _ _ _ _ (eq_refl : gets descs u = Val (descs (avars u), u))).
    rewrite (proj2 (Z.eqb_neq _ _)) by done. unfold lift_res. by rewrite Hx. }
  rewrite bind_assoc, (bind_ret_val _ _ _ _ _ (Hcfg w d v V Hd)).
  mstep by reflexivity. set (w1 := hput _ w). assert (V1 : avars w1 = with_descs (<[adc_cfg := default_desc]> (descs v)) v) by (unfold w1, avars in *; by rewrite hget_put, V).
  assert (T1 : tvars w1 = t) by (unfold w1, tvars in *; by rewrite vars_apart).
  assert (Eo : obj_at handle w1 = Val (o, w1)).
  { unfold obj_at. rewrite (bind_ret_val _ _ _ _ _ (eq_refl : gets adc_objs w1 = Val (adc_objs (tvars w1), w1))), T1.
    rewrite (proj2 (Z.eqb_neq _ _)) by done. unfold lift_res. by rewrite Ho. }
  rewrite (bind_ret_val _ _ _ _ _ Eo), bind_assoc.
  rewrite (bind_ret_val _ _ _ _ _ (Hcfg w1 default_desc _ V1 (lookup_insert_eq _ _ _))).
  unfold sets, modify. mstep by reflexivity. fold (avars w1). rewrite V1. cbn [fst snd]. rewrite hget_put, !hput_put. do 2 f_equal. unfold w1. rewrite hput_put.
  unfold set_up_vars, with_buffers, with_descs. cbn. by rewrite insert_insert_eq.
Qed.

(** The first attempt succeeds, and leaves a task that waits. *)
Definition started_vars (v : saradc_vars) (o : ADC_OBJ) : saradc_vars :=
  SaradcVars adc_cfg (saradc_val v) 1 (descs (set_up_vars v o)) (buffers (set_up_vars v o)).
Definition entry_opened (dv : DRV_DEV_S) : DRV_DEV_S := DRV_DEV (name dv) 1 DD_STATE_OPENED (op dv).

Lemma measure_starts s i dv v t o : addresses -> enough W fuel -> measurable s i dv v t o ->
  exists w, (at_ext (set_up_desc adc_cfg adc_data detect_addr handle);; open_loop fuel sdev_ops saradc_op adc_cfg rtos_delay_milliseconds 5) s =
      Val (true, with_world (upd_entry s i (entry_opened dv)) w) /\
    waiting (with_world (upd_entry s i (entry_opened dv)) w) i (entry_opened dv) (with_handle (ddev_make_handle (Z.of_nat i)) t) (desc_of o) (replicate 5 0)
      (a_came (adc_of (at_world s))) /\
    avars w = started_vars v o.
Proof using All.
  intros (Hc & Hdat & Hdet & Hh) Hf []. pose proof (set_up_desc_val v t o (at_world s) Hc Hh ms_vars0 ms_tvars0 ms_cfg0 ms_entity0 ms_obj0) as E1.
  set (v1 := set_up_vars v o) in *. set (w1 := hput v1 (at_world s)) in *.
  assert (V1 : avars w1 = v1) by (unfold w1, avars; apply hget_put).
  assert (A1 : adc_of w1 = adc_of (at_world s)) by apply adc_put.
  assert (Hd1 : descs (avars w1) !! adc_cfg = Some (desc_of o)) by (rewrite V1; apply lookup_insert_eq).
  assert (Hfit : desc_fits (desc_of o) = true).
  { unfold desc_fits. cbn. rewrite (proj2 (Z.eqb_neq adc_data 0)), (proj2 (Z.leb_le _ _)) by done. done. }
  destruct (adc_open_val sdev_ops icu_addr gpio_addr fuel adc_cfg (desc_of o) (with_world s w1)) as (w2 & E2 & [O1 O2 O3 Oc O4 O5 O6]);
    [done|by apply adc_put_ok|change (enabled (adc_of w1) = false); by rewrite A1|done|done|done|done|change (saradc_is_busy (avars w1) = 0); by rewrite V1|].
  change (at_world (with_world s w1)) with w1 in *.
  pose proof (keeps_open sdev_ops icu_addr gpio_addr fuel (Y := tadc_vars) adc_cfg (with_world s w1) _ _ ms_drivers0 E2) as K. unfold mine_of in K. injection K as K.
  assert (T2 : tvars w2 = t) by (unfold tvars in *; etrans; [exact K|]; change (hget w1 = t); unfold w1; by rewrite vars_apart).
  set (h := ddev_make_handle (Z.of_nat i)). set (w3 := hput (with_handle h t) w2).
  assert (V3 : avars w3 = started_vars v o) by (unfold w3, avars in *; rewrite vars_apart, O4, V1; unfold started_vars; f_equal; apply insert_insert_eq).
  assert (A3 : adc_of w3 = adc_of w2) by apply adc_put.
  pose proof ms_slot0 as (Hfind & Hl & Hi & Hlen).
  exists w3. split_and!; [| |done].
  - rewrite (bind_ret_val _ _ _ _ _ (at_ext_val _ _ _ _ E1)). cbn [open_loop]. unfold try_open. rewrite bind_assoc.
    assert (Eb : at_ext saradc_check_busy (with_world s w1) = Val (0, with_world s w1)).
    { apply (at_ext_val _ (with_world s w1)). unfold saradc_check_busy.
      rewrite (bind_ret_val _ _ _ _ _ (eq_refl : gets saradc_is_busy (ext (world (with_world s w1))) = Val (saradc_is_busy (avars w1), w1))).
      rewrite V1. change (saradc_is_busy v1) with (saradc_is_busy v). by rewrite ms_free0. }
    rewrite (bind_ret_val _ _ _ _ _ Eb). change (0 =? 0) with true. cbv iota. rewrite bind_assoc.
    rewrite (bind_ret_val _ _ _ _ _ (dev_open_closed saradc_op _ (with_world s w1) SARADC_DEV_NAME i dv _ _ _ ms_slot0 ms_op0 ms_closed0 E2 eq_refl)).
    fold h. cbn [fst snd]. rewrite bind_assoc.
    assert (Eh : at_ext (sets (with_handle h)) (upd_entry (with_world (with_world s w1) w2) i (DRV_DEV (name dv) 1 DD_STATE_OPENED (op dv))) =
      Val (tt, with_world (upd_entry s i (entry_opened dv)) w3)).
    { assert (Hsame : upd_entry (with_world (with_world s w1) w2) i (DRV_DEV (name dv) 1 DD_STATE_OPENED (op dv)) = with_world (upd_entry s i (entry_opened dv)) w2) by reflexivity.
      rewrite Hsame. apply (at_ext_val (sets (with_handle h)) (with_world (upd_entry s i (entry_opened dv)) w2) tt w3). unfold sets, modify, w3. cbn. by rewrite (T2 : hget w2 = t). }
    rewrite (bind_ret_val _ _ _ _ _ Eh). assert (Ev : (DD_HANDLE_UNVALID =? h) = false) by (unfold h; rewrite make_handle_valid by lia; done). rewrite Ev. reflexivity.
  - change (at_world (with_world (upd_entry s i (entry_opened dv)) w3)) with w3.
    split; change (at_world (with_world (upd_entry s i (entry_opened dv)) w3)) with w3; try done.
    + apply list_lookup_insert_eq. by apply lookup_lt_Some in Hl.
    + by apply adc_put_ok.
    + unfold line_on, w3. rewrite ireg_put by done. rewrite O5, Z.eqb_refl, Z.lor_spec by done. apply orb_true_r.
    + by rewrite A3.
    + split; rewrite ?V3; cbn; try done; try lia; apply lookup_insert_eq.
    + rewrite A3, Oc. change (at_world (with_world s w1)) with w1. by rewrite A1.
    + unfold w3, tvars. apply hget_put.
Qed.

(** ** Waiting for the semaphore *)
Context (while_waiting : Z -> M all unit).
(** While the task waits, the converter's interrupts are served: some number of them. *)
Definition waits_for_interrupts : Prop := forall ms s, exists n, while_waiting ms s = interrupts n s.

Abbreviation end_vars v d l xs := (finished_vars (full_vars d l xs v) (desc_done (desc_plus d xs)) xs).

Lemma get_semaphore_val ms s i dv t d l c0 : waits_for_interrupts -> waiting s i dv t d l c0 -> sema_wait_end t = 0 -> enough W fuel -> (5 <= fuel)%nat ->
  adc_cfg <> 0 -> detect_addr <> 0 -> exists xs w,
    (rtos_get_semaphore while_waiting ms s = Val (kTimeoutErr, with_world s w) /\ recording adc_cfg d l xs (at_world s) w /\ tvars w = t) \/
    (rtos_get_semaphore while_waiting ms s = Val (kNoErr, with_world (upd_entry s i (entry_closed dv)) w) /\ length xs = 5%nat /\
      idle (end_vars (avars (at_world s)) d l xs) (with_sema 0 (finished_tvars t)) (c0 ++ xs) w).
Proof using All.
  intros Hww Hw Hs Hf Hfuel Hc Hd. destruct (Hww ms s) as (n & En).
  assert (Hsame : with_world s (at_world s) = s) by (by destruct s as [? ? []]).
  assert (Ee : at_ext entity_there s = Val (tt, s)).
  { rewrite <- Hsame at 2. apply at_ext_val. unfold entity_there.
    rewrite (bind_ret_val _ _ _ _ _ (eq_refl : gets tadc_entity (ext (world s)) = Val (tadc_entity (tvars (at_world s)), _))).
    rewrite (wt_tvars _ _ _ _ _ _ _ Hw), (proj2 (Z.eqb_neq _ _)) by (exact (wt_entity _ _ _ _ _ _ _ Hw)). done. }
  assert (Ec : forall u r, at_world r = u -> at_ext (gets sema_wait_end) r = Val (sema_wait_end (tvars u), r)).
  { intros u r <-. assert (Hr : with_world r (at_world r) = r) by (by destruct r as [? ? []]). rewrite <- Hr at 3. by apply at_ext_val. }
  destruct (wait_runs n s i dv t d l c0 Hw Hf Hfuel Hc Hd) as (xs & w1 & [(E1 & R & T1)|(E1 & Hlen & Hid)]); exists xs; unfold rtos_get_semaphore;
    rewrite (bind_ret_val _ _ _ _ _ Ee), (bind_ret_val _ _ _ _ _ (Ec _ s eq_refl)), (wt_tvars _ _ _ _ _ _ _ Hw), Hs; cbn [Z.eqb when];
    rewrite (bind_ret_val _ _ _ _ _ (eq_trans En E1)).
  - exists w1. left. rewrite (bind_ret_val _ _ _ _ _ (Ec w1 (with_world s w1) eq_refl)), T1, Hs. done.
  - set (r := with_world (upd_entry s i (entry_closed dv)) w1). exists (hput (with_sema 0 (finished_tvars t)) w1). right.
    rewrite (bind_ret_val _ _ _ _ _ (Ec w1 r eq_refl)), (id_tvars _ _ _ _ Hid). cbn [finished_tvars with_sema sema_wait_end Z.eqb Pos.eqb]. change (1 - 1) with 0.
    assert (Es : at_ext (sets (with_sema 0)) r = Val (tt, with_world r (hput (with_sema 0 (finished_tvars t)) w1))).
    { apply at_ext_val. unfold sets, modify, r. cbn. by rewrite (id_tvars _ _ _ _ Hid : hget w1 = finished_tvars t). }
    split_and!; [by rewrite (bind_ret_val _ _ _ _ _ Es)|done|by apply (idle_put_t _ (finished_tvars t))].
Qed.

(** The value for the callback. *)
Definition value_of (v : saradc_vars) (t : tadc_vars) (x : Z) : option Z :=
  if adctest_flag t =? 0 then Some x else millivolts (volts_of (saradc_val v) x).
Lemma measured_val v t d x xs w : avars w = v -> tvars w = t -> adc_cfg <> 0 -> descs v !! adc_cfg = Some d -> buffers v !! pData d = Some (x :: xs) ->
  measured adc_cfg w = lift_res (of_option BadAccess (value_of v t x)) w.
Proof using Type.
  intros V T Hc Hd Hb. unfold measured.
  rewrite (bind_ret_val _ _ _ _ _ (desc_at_val adc_cfg d w Hc ltac:(by rewrite V))).
  assert (Eb : buffer_get (pData d) 0 w = Val (x, w)) by (apply (buffer_get_val (pData d) 0 (x :: xs)); [by rewrite V|done]).
  rewrite (bind_ret_val _ _ _ _ _ Eb), (bind_ret_val _ _ _ _ _ (eq_refl : gets adctest_flag w = Val (adctest_flag (tvars w), w))), T.
  unfold value_of. destruct (adctest_flag t =? 0); [done|]. unfold saradc_calculate. rewrite bind_assoc.
  rewrite (bind_ret_val _ _ _ _ _ (eq_refl : gets saradc_val w = Val (saradc_val (avars w), w))), V. by mstep.
Qed.

(** ** The commands of the system control

    This chip has no register behind them. *)
Context `{!Holds sctrl_vars W} (sctrl_addr : Z) (sfuel : nat) (deep_sleep : sctrl_parm -> M W unit).
Definition sctrl_there s : Prop :=
  sdev_ops sctrl_addr = sop_lift (fun A => on_ext (A := A)) (sctrl_word_op sfuel deep_sleep) /\ sdev_slot (drv_sdev_tbl s) SCTRL_DEV_NAME sctrl_addr.

Lemma analog7_val f reg s : sctrl_there s -> analog7_step sdev_ops f reg s = Val (tt, s).
Proof using Type.
  intros [Ho Hs]. assert (Hsame : with_world s (at_world s) = s) by (by destruct s as [? ? []]). unfold analog7_step.
  assert (Ec : forall cmd p, sctrl_ctrl sfuel deep_sleep cmd (CWord p) (at_world s) = Val ((SCTRL_FAILURE, CWord p), at_world s) ->
    sddev_control sdev_ops (Some SCTRL_DEV_NAME) cmd p s = Val ((SCTRL_FAILURE, p), s)).
  { intros cmd p E. rewrite <- Hsame at 2. eapply (sddev_control_lift _ _ _ (sctrl_word_op sfuel deep_sleep)); [exact on_ext_lifts|exact Hs|exact Ho|reflexivity|].
    cbv beta. by rewrite (bind_ret_val _ _ _ _ _ E). }
  rewrite (bind_ret_val _ _ _ _ _ (Ec CMD_SCTRL_GET_ANALOG7 reg eq_refl)). cbn [fst snd].
  by rewrite (bind_ret_val _ _ _ _ _ (Ec CMD_SCTRL_SET_ANALOG7 _ eq_refl)).
Qed.

(** ** The measurement *)
Context (call_cb : Z -> Z -> Z -> M all unit).
Abbreviation handler := (tadc_obj_handler fuel sdev_ops saradc_op adc_cfg adc_data detect_addr while_waiting rtos_delay_milliseconds call_cb handle).

(** The samples [xs] have come, the first that the converter delivered after [c0]: the converter is stopped and free, its interrupt
    disabled, the handle given back, the semaphore taken, the mean in the first place. *)
Record over (v : saradc_vars) (t : tadc_vars) (c0 xs : list Z) w : Prop := {
  ov_came : (c0 ++ xs) `prefix_of` a_came (adc_of w);
  ov_stopped : stopped w;
  ov_line : line_on w = false;
  ov_free : saradc_is_busy (avars w) = 0;
  ov_samples : length xs = 5%nat;
  ov_buf : buffers (avars w) !! adc_data = Some (<[0%nat := u16 (mean_of_samples xs)]> xs);
  ov_tvars : tvars w = with_sema 0 (with_accuracy 3 (with_handle DD_HANDLE_UNVALID t));
}.
(** They have not: fewer are in the buffer, none is lost (what is not there waits in
    the queue); the converter goes on, and stays taken. *)
Record late (i : nat) (t : tadc_vars) (c0 xs : list Z) w : Prop := {
  lt_came : a_came (adc_of w) = c0 ++ xs ++ a_fifo (adc_of w);
  lt_line : line_on w = true;
  lt_busy : saradc_is_busy (avars w) = 1;
  lt_samples : (length xs < 5)%nat;
  lt_count : exists d, descs (avars w) !! adc_cfg = Some d /\ current_sample_data_cnt d = Z.of_nat (length xs) /\
    take (length xs) <$> buffers (avars w) !! adc_data = Some xs;
  lt_tvars : tvars w = with_handle (ddev_make_handle (Z.of_nat i)) t;
}.

Lemma recording_late s i dv t o c0 xs w : waiting s i dv (with_handle (ddev_make_handle (Z.of_nat i)) t) (desc_of o) (replicate 5 0) c0 ->
  saradc_is_busy (avars (at_world s)) = 1 -> recording adc_cfg (desc_of o) (replicate 5 0) xs (at_world s) w ->
  tvars w = with_handle (ddev_make_handle (Z.of_nat i)) t -> late i t c0 xs w.
Proof using Type.
  intros Hw Hb [_ V I _ R (new & A & K)] T. assert (R5 : (length xs < 5)%nat) by exact R. split; [| |by rewrite V|done| |done].
  - by rewrite A, (wt_came _ _ _ _ _ _ _ Hw), K, <- (assoc_L (++)).
  - unfold line_on. rewrite I by done. exact (wt_line _ _ _ _ _ _ _ Hw).
  - exists (desc_plus (desc_of o) xs). rewrite V. cbn. rewrite !lookup_insert_eq. split_and!; [done|done|]. cbn.
    destruct xs as [|x0 [|x1 [|x2 [|x3 [|x4 xs]]]]]; [done..|cbn in R5; lia].
Qed.

(** What follows the wait: the object is called if the semaphore was given. *)
Lemma handler_end reg ret s : sctrl_there s ->
  (f ← at_ext (gets step_flag);
   (if f =? 0 then saradc_calculate_step1 sdev_ops reg else saradc_calculate_step2 sdev_ops reg);;
   when (ret =? kNoErr) (mv ← at_ext (measured adc_cfg); o ← at_ext (obj_at handle); when (truthy (cb o)) (call_cb (cb o) mv (user_data o)))) s =
  when (ret =? kNoErr) (mv ← at_ext (measured adc_cfg); o ← at_ext (obj_at handle); when (truthy (cb o)) (call_cb (cb o) mv (user_data o))) s.
Proof using Type.
  intros Hs. assert (Hsame : with_world s (at_world s) = s) by (by destruct s as [? ? []]).
  assert (Ef : at_ext (gets step_flag) s = Val (step_flag (tvars (at_world s)), s)) by (rewrite <- Hsame at 3; by apply at_ext_val).
  rewrite (bind_ret_val _ _ _ _ _ Ef).
  assert (Est : (if step_flag (tvars (at_world s)) =? 0 then saradc_calculate_step1 sdev_ops reg else saradc_calculate_step2 sdev_ops reg) s = Val (tt, s))
    by (destruct (_ =? 0); by apply analog7_val).
  by rewrite (bind_ret_val _ _ _ _ _ Est).
Qed.

(** The object [o] is called with what was measured. *)
Lemma call_val s o t x : tvars (at_world s) = t -> handle <> 0 -> adc_objs t !! handle = Some o -> measured adc_cfg (at_world s) = lift_res (of_option BadAccess x) (at_world s) ->
  (mv ← at_ext (measured adc_cfg); o ← at_ext (obj_at handle); when (truthy (cb o)) (call_cb (cb o) mv (user_data o))) s =
  (mv ← lift_res (of_option BadAccess x); when (truthy (cb o)) (call_cb (cb o) mv (user_data o))) s.
Proof using Type.
  intros T Hh Hobj Em. assert (Hsame : with_world s (at_world s) = s) by (by destruct s as [? ? []]).
  assert (Eo : at_ext (obj_at handle) s = Val (o, s)).
  { rewrite <- Hsame at 2. apply at_ext_val. unfold obj_at. fold (at_world s).
    rewrite (bind_ret_val _ _ _ _ _ (eq_refl : gets adc_objs (at_world s) = Val (adc_objs (tvars (at_world s)), at_world s))), T.
    rewrite (proj2 (Z.eqb_neq _ _)) by done. unfold lift_res. by rewrite Hobj. }
  destruct x as [mv|].
  - rewrite (bind_ret_val _ _ _ _ _ (at_ext_val (measured adc_cfg) s mv (at_world s) Em)), Hsame. by rewrite (bind_ret_val _ _ _ _ _ Eo).
  - unfold mbind at 1, M_bind at 1, at_ext at 1, call, on_ext. fold (at_world s). by rewrite Em.
Qed.

(** C12: measuring an object, when no semaphore is left of an earlier measurement that
    came too late, opens the converter through the registry and waits while its
    interrupts are served; if five samples of the object's channel come in time, they
    are the first five that the converter has delivered since the opening, the
    converter is stopped and free and the registry's entry closed, and only then the
    object's callback is called, with the value of the mean of the samples 1 to 4;
    otherwise fewer have been taken and none of those delivered is lost, nobody is
    called, and the converter and the entry stay taken, the recording going on. *)
Theorem tadc_measures reg s i dv v t o : addresses -> enough W fuel -> (5 <= fuel)%nat -> measurable s i dv v t o -> sctrl_there s ->
  sema_wait_end t = 0 -> waits_for_interrupts ->
  exists xs w,
    handler reg s = (mv ← lift_res (of_option BadAccess (value_of v t (u16 (mean_of_samples xs)))); when (truthy (cb o)) (call_cb (cb o) mv (user_data o)))
                      (with_world (upd_entry s i (entry_closed dv)) w) /\ over v t (a_came (adc_of (at_world s))) xs w \/
    handler reg s = Val (tt, with_world (upd_entry s i (entry_opened dv)) w) /\ late i t (a_came (adc_of (at_world s))) xs w.
Proof using All.
  intros Ha Hf Hfuel Hm Hsc Hse Hww. destruct (measure_starts s i dv v t o Ha Hf Hm) as (w0 & E0 & Hw & V0). destruct Ha as (Hc & Hdat & Hdet & Hh).
  pose proof Hm as [_ _ _ _ _ _ _ _ _ _ _ Hobj _]. set (s0 := with_world (upd_entry s i (entry_opened dv)) w0) in *. set (h := ddev_make_handle (Z.of_nat i)) in *.
  destruct (get_semaphore_val (fclk_from_sec_to_tick TURING_ADC_SCAN_INTERVALV) s0 i (entry_opened dv) _ _ _ _ Hww Hw Hse Hf Hfuel Hc Hdet)
    as (xs & w1 & [(E1 & R & T1)|(E1 & Hlen & Hid)]); exists xs, w1; unfold tadc_obj_handler;
    rewrite <- (bind_assoc (at_ext (set_up_desc adc_cfg adc_data detect_addr handle))), (bind_ret_val _ _ _ _ _ E0); cbn [negb]; rewrite (bind_ret_val _ _ _ _ _ E1).
  - right. split; [|apply (recording_late s0 i (entry_opened dv) t o _ xs w1 Hw); [by rewrite (V0 : avars (at_world s0) = _)|exact R|exact T1]].
    by rewrite handler_end.
  - left. assert (Eu : with_world (upd_entry s0 i (entry_closed (entry_opened dv))) w1 = with_world (upd_entry s i (entry_closed dv)) w1) by (unfold s0; by rewrite upd_entry_world).
    rewrite Eu.
    set (s1 := with_world (upd_entry s i (entry_closed dv)) w1). rewrite (handler_end reg kNoErr s1) by done. change (kNoErr =? kNoErr) with true. cbn [when].
    rewrite (V0 : avars (at_world s0) = _) in Hid. split.
    + assert (Em : measured adc_cfg w1 = lift_res (of_option BadAccess (value_of v t (u16 (mean_of_samples xs)))) w1).
      { destruct xs as [|x xs]; [done|].
        erewrite (measured_val _ _ (desc_done (desc_plus (desc_of o) (x :: xs))) (u16 (mean_of_samples (x :: xs))) xs w1 (id_vars _ _ _ _ Hid) (id_tvars _ _ _ _ Hid) Hc); [done|apply lookup_insert_eq|apply lookup_insert_eq]. }
      apply (call_val s1 o _ _ (id_tvars _ _ _ _ Hid)); [done|exact Hobj|exact Em].
    + destruct Hid as [D1 D2 D3 D4 D5 D6]. split; [done|done|done|by rewrite D2|done|rewrite D2; apply lookup_insert_eq|exact D3].
Qed.

(** A semaphore that was given after the limit of an earlier measurement answers for
    this one: the object is called with the value of no samples at all, the converter going on. *)
Lemma tadc_stale reg s i dv v t o : addresses -> enough W fuel -> measurable s i dv v t o -> sctrl_there s -> sema_wait_end t = 1 ->
  exists w, saradc_is_busy (avars w) = 1 /\ sema_wait_end (tvars w) = 0 /\
    handler reg s = (mv ← lift_res (of_option BadAccess (value_of v t 0)); when (truthy (cb o)) (call_cb (cb o) mv (user_data o)))
      (with_world (upd_entry s i (entry_opened dv)) w).
Proof using All.
  intros Ha Hf Hm Hsc Hse. destruct (measure_starts s i dv v t o Ha Hf Hm) as (w0 & E0 & Hw & V0). destruct Ha as (Hc & Hdat & Hdet & Hh).
  pose proof Hm as [_ _ _ _ _ _ _ _ _ _ _ Hobj _]. set (s0 := with_world (upd_entry s i (entry_opened dv)) w0) in *.
  set (t1 := with_handle (ddev_make_handle (Z.of_nat i)) t) in *. set (w1 := hput (with_sema 0 t1) w0).
  assert (V1 : avars w1 = started_vars v o) by (unfold w1, avars in *; by rewrite vars_apart).
  assert (T1 : tvars w1 = with_sema 0 t1) by (unfold w1, tvars; by rewrite hget_put).
  exists w1. split_and!; [by rewrite V1|by rewrite T1|]. unfold tadc_obj_handler.
  rewrite <- (bind_assoc (at_ext (set_up_desc adc_cfg adc_data detect_addr handle))), (bind_ret_val _ _ _ _ _ E0). cbn [negb].
  assert (Et : tvars (at_world s0) = t1) by exact (wt_tvars _ _ _ _ _ _ _ Hw).
  assert (Ec : at_ext (gets sema_wait_end) s0 = Val (1, s0)).
  { apply (at_ext_val (gets sema_wait_end) s0 1 w0). unfold gets. change (ext (world s0)) with w0. by rewrite (Et : hget w0 = t1), <- Hse. }
  assert (Es : rtos_get_semaphore while_waiting (fclk_from_sec_to_tick TURING_ADC_SCAN_INTERVALV) s0 = Val (kNoErr, with_world s0 w1)).
  { unfold rtos_get_semaphore. assert (Ee : at_ext entity_there s0 = Val (tt, s0)).
    { apply (at_ext_val entity_there s0 tt w0). unfold entity_there. change (ext (world s0)) with w0.
      rewrite (bind_ret_val _ _ _ _ _ (eq_refl : gets tadc_entity w0 = Val (tadc_entity (tvars w0), w0))), (Et : tvars w0 = t1).
      change (tadc_entity t1) with (tadc_entity t). by rewrite (proj2 (Z.eqb_neq _ _)) by exact (ms_entity _ _ _ _ _ _ Hm). }
    rewrite (bind_ret_val _ _ _ _ _ Ee), (bind_ret_val _ _ _ _ _ Ec). cbn [Z.eqb Pos.eqb when]. mstep by reflexivity. rewrite (bind_ret_val _ _ _ _ _ Ec). cbn [Z.eqb Pos.eqb]. change (1 - 1) with 0.
    assert (Eset : at_ext (sets (with_sema 0)) s0 = Val (tt, with_world s0 w1)) by (apply at_ext_val; unfold sets, modify; change (ext (world s0)) with w0; by rewrite (Et : hget w0 = t1)).
    by rewrite (bind_ret_val _ _ _ _ _ Eset). }
  rewrite (bind_ret_val _ _ _ _ _ Es), (handler_end reg kNoErr) by done. change (kNoErr =? kNoErr) with true. cbn [when].
  apply (call_val _ _ (with_sema 0 t1)); [exact T1|done|done|]. change (at_world (with_world s0 w1)) with w1.
  by erewrite (measured_val _ _ (desc_of o) 0 (replicate 4 0) w1 V1 T1 Hc) by apply lookup_insert_eq.
Qed.
End measure.

(** ** A board with the entity, an object at 30 on channel 3, and a callback at 40 *)
Definition tadc_board : Type := with_state sctrl_vars (with_state tadc_vars adc_board).
#[export] Instance tadc_board_gpio : GpioRegs tadc_board := with_state_block gpio_block sctrl_vars.
Definition demo_tadc (sema : Z) : tadc_board :=
  WithState sctrl_start (WithState (TadcVars 19 30 18 true DD_HANDLE_UNVALID sema 0 1 1 {[30 := AdcObj 5 3 40 0]})
    (WithState (SaradcVars 0 (SaradcCalibrate 0x55 0x354) 0 {[20 := default_desc]} {[21 := replicate 5 0]})
      (WithState demo_clock_vars (WithAdc (AdcLine [70; 71] 1 0 0 [70; 71]) (replicate 12 [] ++ [[400; 401]; []; [402; 403; 404]; [405; 406]])
        (WithFile gpio_block (fun _ => 0) (IcuFile (fun _ => 0x80) [])))))).
Definition demo_tadc_ops (a : Z) : SDD_OPERATIONS (intc_st tadc_board) :=
  sop_lift (fun A => on_ext (A := A)) (if a =? 1 then icu_op else if a =? 2 then gpio_word_op else sctrl_word_op 0 (fun _ => mret tt)).
Definition demo_tadc_dev : DRV_DEV_S := DRV_DEV (Some SARADC_DEV_NAME) 0 DD_STATE_CLOSED (Some 7).
Definition demo_tadc_tbl : list DRV_SDEV_S := demo_adc_tbl ++ [DRV_DEV (Some SCTRL_DEV_NAME) 0 DD_STATE_CLOSED (Some 3)].
Definition demo_tadc_all (sema : Z) : drv_state (intc_st tadc_board) := DrvState [demo_tadc_dev] demo_tadc_tbl (intc_start (demo_tadc sema)).
(** The callback keeps the value; the wait serves [n] interrupts. *)
Definition demo_cb (a mv data : Z) : M (drv_state (intc_st tadc_board)) unit := at_ext (sets (with_accuracy mv)).
Definition demo_wait (n : nat) (ms : Z) : M (drv_state (intc_st tadc_board)) unit :=
  adc_interrupts demo_tadc_ops 8 (call_detect demo_tadc_ops 8 7 20 22) n.
Abbreviation demo_measure n := (tadc_obj_handler 8 demo_tadc_ops 7 20 21 22 (demo_wait n) (fun _ => mret tt) demo_cb 30 0).

Lemma demo_measurable sema : measurable demo_tadc_ops 1 2 7 20 30 (demo_tadc_all sema) 0 demo_tadc_dev (avars (at_world (demo_tadc_all sema)))
  (tvars (at_world (demo_tadc_all sema))) (AdcObj 5 3 40 0).
Proof.
  split; try done.
  - split_and!; [done|by exists 0%nat|done|by exists 1%nat].
  - split_and!; [done|done|unfold DD_MAX_DEV; lia|done].
  - split_and!; [cbn; unfold sim_depth; lia|cbn; lia| |done|done|done]. repeat constructor; done.
Qed.

Lemma tadc_measures_witness : exists (xs : list Z) (w : tadc_board),
  demo_measure 4 (demo_tadc_all 0) = (mv ← lift_res (of_option BadAccess (value_of (avars (demo_tadc 0)) (tvars (demo_tadc 0)) (u16 (mean_of_samples xs)))); demo_cb 40 mv 5)
    (with_world (upd_entry (demo_tadc_all 0) 0 (entry_closed demo_tadc_dev)) w) /\ over 21 (avars (demo_tadc 0)) (tvars (demo_tadc 0)) (a_came (adc_of (at_world (demo_tadc_all 0)))) xs w \/
  demo_measure 4 (demo_tadc_all 0) = Val (tt, with_world (upd_entry (demo_tadc_all 0) 0 (entry_opened demo_tadc_dev)) w) /\ late 20 21 0 (tvars (demo_tadc 0)) (a_came (adc_of (at_world (demo_tadc_all 0)))) xs w.
Proof.
  apply (tadc_measures demo_tadc_ops 1 2 8 7 20 21 22 30 (fun _ => mret tt) (demo_wait 4) 3 0 (fun _ => mret tt) demo_cb 0 (demo_tadc_all 0) 0 demo_tadc_dev
    (avars (demo_tadc 0)) (tvars (demo_tadc 0)) (AdcObj 5 3 40 0)).
  - split_and!; done.
  - split; cbn; unfold sim_depth; lia.
  - lia.
  - exact (demo_measurable 0).
  - split; [done|by exists 2%nat].
  - done.
  - intros ms s. by exists 4%nat.
Defined.

(** What the callback was given, whether the entry is in use, whether the converter is taken. *)
Definition demo_outcome (n : nat) (sema : Z) : Z * option Z * Z :=
  match demo_measure n (demo_tadc_all sema) with
  | Val (_, s') => (adc_accuracy (tvars (at_world s')), use_cnt <$> drv_dev_tbl s' !! 0%nat, saradc_is_busy (avars (at_world s')))
  | Err _ => (-1, None, 7)
  end.
(** Four interrupts bring the samples, two do not; a stale semaphore is answered without samples. *)
Example demo_measures : demo_outcome 4 0 = (235, Some 0, 0) /\ demo_outcome 2 0 = (0, Some 1, 1) /\ demo_outcome 4 1 = (0, Some 1, 1).
Proof. vm_compute. split_and!; reflexivity. Qed.
